(* ===== verification/_CoqProject ===== *)
-Q . S2P
Prelude.v
Memmgr.v
MemmgrSpec.v
MemmgrProps.v
KState.v
BlockIO.v
FatTab.v
FNode.v
FatAlloc.v
Clock.v
Media.v
FatDir.v
FatFile.v
FatRw.v
Disk.v
Ring.v
CacheSpec.v
CacheOps.v
FatPure.v
FatSpec.v
FatWrite.v
Table.v
FatChain.v
AllocSpec.v
MapSpec.v
SftSpec.v
DirectIO.v
RwSpec.v
Path.v
PathSpec.v
PathRun.v
Frame.v
Handle.v
Calls.v
HandleSpec.v
HandleInv.v
CallSpec.v
HandleRun.v
Chario.v
ConSpec.v
LineSafe.v
TypeSpec.v
Fcb.v
Far.v
FarSpec.v
Sys.v
Ioctl.v
Nls.v
Task.v
Int21.v
Service.v
DirSpec.v
RamVol.v
ClockProps.v
CacheProps.v
FatProps.v
DirProps.v
FileProps.v
PathProps.v
HandleProps.v
ConProps.v
CallProps.v
RwProps.v
WriteSpec.v
FcbSpec.v
WriteProps.v
FcbProps.v
E820.v
E820Props.v
FileRun.v
SvcSpec.v
SvcProps.v
NlsProps.v
ExecSpec.v
ExecProps.v
