(* ===== verification/Prelude.v ===== *)
(** * Verification of the FreeDOS kernel: memory, files, the console, programs and their calls

    The C code of this repository that is the program's own is the DOS kernel
    under src/ref/freedos/kernel (and next to it a BIOS and a command
    interpreter).  This library models the parts of the kernel that keep state
    on behalf of every other part: the memory manager, the disk buffers, the
    FAT file system, the clock, path names, the handles of processes, the
    console, the loader of programs, national languages, and the dispatcher of
    INT 21h over all of them; and the memory map of the BIOS
    (src/ref/seabios/src/e820map.c).  File names below are relative to
    src/ref/freedos/kernel; "kernel" is its subdirectory of that name.

    ** How the parts interact

    A program calls with its registers on its stack; the dispatcher copies
    them, selects a function by AH, and stores the answer and the carry flag
    ([int21_service]).  Strings, buffers and blocks of parameters are read
    and stored in the memory of the program, which is one map of bytes.  EXEC
    loads a program into memory of the memory manager, builds its PSP and
    enters it; ending the program goes back to the frame of the parent.

    Programs reach the file system through names and handles.  A name is made
    a full one ([truename]); a handle is an index into the table of bytes of
    the process, which hold numbers of entries of the system file table
    ([sft]).  A call copies the entry into one of two
    fnodes ([sft_to_fnode]), works on the fnode, and copies it back.  A fnode
    finds the bytes of its file by following the chain of its clusters in the
    file allocation table ([map_cluster] over [next_cluster] over
    [link_fat]).  Table, directories and partial sectors of files are accessed
    through the ring of sector buffers ([getblock]), whole sectors of a file
    go to the driver directly ([dskxfer]) after the cache was told
    ([DeleteBlockInBufferCache]).  The driver is called with a request
    header; when it reports an error the operator is asked.

    ** The model, file by file

    - Prelude: machine integers as [Z] with the wrap written at every store,
      the state monad [K] with its tactics, shared lemmas on lists and
      bits.  [None] is a run that C does not define or finish: a bad pointer,
      an index outside an array, a division by zero, an endless retry.
    - Memmgr: kernel/memmgr.c, hdr/mcb.h.  Every function; memory is a map
      from paragraph numbers to memory control blocks.
    - KState: the data of hdr/buffer.h, dcb.h, device.h, fat.h, dirmatch.h,
      fnode.h, sft.h, cds.h and the kernel variables; [kst] is the state of the
      file system and [Machine] the class of what is outside the C code: the
      driver entry [execrh] (execrh.asm), the handler CriticalError, the
      network redirector and SHARE.
    - BlockIO: kernel/blockio.c with get_cds, get_dpb and block_error.
    - FatTab: kernel/fattab.c and the macros of hdr/fat.h.
    - FNode: the two fnodes and the table of open files (kernel/fatfs.c,
      dosfns.c); directory entries as 32 bytes.
    - FatAlloc: the functions of kernel/fatfs.c on cluster chains.
    - Clock: kernel/systime.c and the request loop of kernel/chario.c.
    - Media: media_check and bpb_to_dpb of kernel/fatfs.c.
    - FatDir: kernel/fatdir.c.
    - FatFile: opening, closing, deleting, renaming, directories, attributes
      and the merging of changes (kernel/fatfs.c, dosfns.c).
    - FatRw: rwblock, dos_extend and shrink_file of kernel/fatfs.c.
    - Path: truename (kernel/newstuff.c), IsDevice and get_root
      (kernel/dosfns.c), the upper-case functions of kernel/nls.c; [pst] adds
      drives, devices and the code page to the state, [Shell] is what is
      outside.
    - Handle: the handles of kernel/dosfns.c, SetJFTSize of kernel/newstuff.c,
      and what child_psp and return_user of kernel/task.c and FcbCloseAll of
      kernel/fcbfns.c do with them; [hst] adds the processes, their tables and
      the memory of Memmgr; [Redirector] is what is outside.
    - Calls: the calls by name, about drives and searches of kernel/dosfns.c,
      and DosMkTmp of kernel/newstuff.c.
    - Chario: kernel/chario.c and kernel/break.c, and DosRWSft of
      kernel/dosfns.c, through which programs and the console itself read and
      write; [cst] adds the line buffers and the kernel's console variables,
      [Console] is what is outside.  A call has a result, or is ended by
      Ctrl-C ([Int23]), or still waits for a key ([Wait]).
    - Fcb: kernel/fcbfns.c.  [fcbst] adds the program's memory at its file
      control block and at the disk transfer address, as bytes.
    - Far: memory as bytes, far pointers, the register frames of hdr/pcb.h.
    - Sys: [ist], the state of a call: [cst] with the memory of programs and
      the variables of the dispatcher; its runs [I]; reads and writes of
      handles into that memory.
    - Ioctl: kernel/ioctl.c; [Driver] is a driver that is asked.
    - Nls: kernel/nls.c; [Mux] is an NLSFUNC on the multiplex interrupt.
    - Task: kernel/task.c, but for P_0: loading, environments, PSPs, start
      frames and return_user.
    - Int21: the functions of the switch of int21_service, by number, and the
      labels behind it (kernel/inthndlr.c); Service: int21_service itself,
      int21_fat32, int21_syscall and int2526_handler.  [Link] and [Net] are
      what is outside.
    - E820: src/ref/seabios/src/e820map.c.

    The configuration is the one the kernel is built in: WITHFAT32, 16-bit
    [unsigned] and [int], no debugging output, WRITEZEROS off.  A store to a
    member of a structure is one update of a record; a far pointer to a buffer
    or parameter block is the key of a map; C functions keep their names.  A
    loop is a [Fixpoint] on its list or with fuel, and running out of fuel is
    [None], so every theorem that says "= Some" proves that the loop ended.

    ** Specifications and theorems

    - MemmgrSpec, MemmgrProps.  A chain of control blocks is a list of blocks
      that tile a region.  Allocation in every mode, freeing, resizing and
      linking of upper memory are functions on that list.  [tiles] is a memory in
      one of its three configurations: low memory alone, upper memory apart, and
      upper memory linked.  Releasing a process's blocks keeps it and frees them
      all, and no sequence of allocations, releases, resizes, links and ends of
      processes destroys it.
    - Disk is the interface of a driver that works; Ring, CacheSpec and
      CacheOps describe the buffers as a view of the disk: a function from
      blocks to sectors that reading never changes and that a store changes at
      one block, whichever buffers are evicted meanwhile.  CacheProps states
      it, with flushing and dropping, and a read error that leaves a stale
      buffer.
    - FatPure is the table as bytes in the formats FAT12, FAT16 and FAT32;
      FatSpec and FatWrite show that [link_fat] reads and stores entries of
      it through the cache.  Table has the abstract operations on a function
      from clusters to links; FatChain, AllocSpec and MapSpec show that the
      allocation code implements them.  FatProps states it: stores, walks,
      freeing, next-fit search, counting, extending and mapping.
    - DirSpec, DirProps: entries are found and stored where they belong, in
      the root directory and along the chain of a subdirectory; round trips of
      names and entries.
    - SftSpec, DirectIO, RwSpec, RwProps: reading a file.  An open file is an
      entry of the table with a chain ([opened]), its content the sectors of
      its clusters one after the other; [rwblock] returns the bytes from the
      position on, through runs of adjacent clusters read from the driver and
      parts of sectors read from the cache, and leaves an open file.
    - DirectIO (Module WriteIO), WriteSpec, WriteProps: writing a file.  A write is a patch of
      the content; the chain grows by free clusters until the volume is
      full; nothing else on any drive changes; what was written is read back.
    - FileProps: the copy between table and fnode loses nothing; the parameter
      block of a FAT12 or FAT16 volume never lets a cluster be used that the
      table has no entry for; a call that loses an attribute under SHARE.
    - PathSpec, PathRun (with Module PathCanon), PathProps: [truename] on a local drive is a
      function on lists of components ([target]); its results are canonical
      and fixed points; where the buffer is one byte short.
    - Frame is the part of the state that handles care about: the counts,
      modes and owners of the entries.  Each function of the file system
      keeps it, except those that count; HandleSpec adds the paths and the memory
      manager, and says what opening and closing do.  HandleInv is the
      invariant: a used handle refers to an entry in use, which counts at least
      its handles.  HandleInv (Module HandleOps) and CallSpec prove it of every
      operation on handles and of [step], the calls of programs but for those
      that CallSpec names (attributes under SHARE and the calls with file
      control blocks, which can break it); HandleRun shows that the end of a
      process, the making of one and a larger table always return, and what
      they leave.  HandleProps and CallProps state it.
    - ConSpec is a terminal: a driver with the characters typed and the text
      shown.  TypeSpec says what one character, one key, a line and a Ctrl-C
      do on it; LineSafe, on any keyboard and screen that work (the class
      [Works]), that the line editor stays in its buffers; LineSpec (in
      TypeSpec) that the terminal is such, and what whole lines and reads of them come to.
      ConProps states it, and that F2 behind F1 goes back in the old line.
    - FcbSpec says what each member of a block is after a store, and what
      reading a record is, from what reading a file is; its Module FcbName what
      parsing a text stores, whatever the text and the flags.  FcbProps states it.
    - E820Props (Module E820Spec): a sorted list of ranges is a function from addresses to types
      and adding a range is an update of it; a function has one list, so the
      order of additions is of no importance.
    - FarSpec and FileRun: words and frames in memory; reading an open file
      into memory.  SvcSpec says what a program finds in its registers after
      each way a function ends and what the test for Ctrl-C before a function
      does (the class [Keyboard]: a keyboard without a Ctrl-C typed ahead); its
      Module SvcRead follows a read call from the frame to the sectors.  SvcProps
      states both, and that an absolute write (INT 26h) of several sectors leaves
      a stale buffer for the second.  NlsProps: the kernel's short cut to a package answers as
      the multiplexer call does.
    - ExecSpec (with Module ExeSpec), ExecProps: a program that is started and ends leaves
      its parent at the instruction behind the call, with its stack and
      registers; the image of an EXE file arrives in memory in pieces and its
      relocation table is applied to every word it names, once.
    - ClockProps: the day count is the Gregorian calendar from 1980 to 2099,
      and a date that is set is read back.
    - RamVol: three volumes on a RAM disk, on which the theorems are applied
      to concrete runs (the lemmas named ..._witness).

    ** Fuel

    [chain_fuel] visits every paragraph of memory; [ring_fuel] is above the
    number of buffers, which [cache] bounds; [dir_fuel] is above the 65535
    entries dir_read allows; [year_fuel] and [month_fuel] cover every day
    count of 16 bits; freeing a chain, searching and counting use the number of
    clusters.  [xfer_fuel] bounds how often the operator may answer RETRY: the
    code has no bound there, and no theorem needs more than one round.
    The functions of Chario call each other in a circle that [knot] ties with
    fuel; a run that uses it up is still at the keyboard, and ends in [Wait].
    Two levels are enough to type a line, three for a Ctrl-C.
    [segment_fuel] is above the bytes of a segment, in which a string must
    end; [image_fuel] is above the pieces of 32256 bytes of an image of 1 MB.
    The argument [fuel] of a call bounds the loops of the functions it
    reaches (reading, searching, the console).

    ** Not modelled

    - int2F_12_handler of kernel/inthndlr.c: calls of redirectors, of Windows
      and for the high memory area, most of which hand out addresses inside
      the kernel's data segment.
    - Configuration and boot (config.c, main.c, initdisk.c, initoem.c, and P_0
      of task.c), the built-in disk driver (dsk.c), long names (lfnapi.c, not
      compiled in), network, the SYS program and the utilities: they work on
      BIOS calls, ports and text, or are other programs.
    - current_sft_idx, OpenMode and SAttr are stored for the redirector only
      and are not part of the state.
    - Within the modelled files: debugging output; the value of lpCurSft,
      which idx_to_sft leaves for INT 2Fh; the text of the corruption report.
    - The rest of SeaBIOS, its VGA BIOS and kconfig under src/ref/seabios,
      FreeCOM under src/ref/freedos/freecom, and the emulators, which are not
      in C.
    - The theorems on writing take SHARE as not installed and a position whose
      end is below 4 GB; a write of no bytes, which cuts the file off, has
      none.  The theorems on the line editor leave out the keys F2 and F4,
      which can search behind the buffer.  Of the calls by name the theorems
      are about their names and the handles they open, and one about
      attributes. *)

From stdpp Require Export base tactics numbers list list_numbers option gmap strings.
From Stdlib Require Export ZArith Lia.

#[global] Open Scope Z_scope.

(** ** Machine integers

    A w-bit unsigned value is a [Z]; every store into a w-bit C object goes
    through the wrap function of its width. *)

Definition u8 (x : Z) : Z := x mod 256.
Definition u16 (x : Z) : Z := x mod 65536.
Definition u32 (x : Z) : Z := x mod 4294967296.
Definition u64 (x : Z) : Z := x mod 18446744073709551616.

(** [x & mask] used as a C condition. *)
Definition has (x mask : Z) : bool := negb (Z.land x mask =? 0).
(** [x & ~mask], [x | mask]. *)
Definition clear (x mask : Z) : Z := Z.ldiff x mask.
Definition setf (x mask : Z) : Z := Z.lor x mask.

Definition SUCCESS : Z := 0.
Definition NULL : Z := 0.

(** ** The state monad of the kernel models

    [K S A] is a computation on the state [S].  [None] stands for a run that
    the C code does not finish normally: a dereference of an invalid pointer,
    a division by zero, or a loop that is still running when its fuel ends. *)

Definition K (S A : Type) : Type := S -> option (A * S).

Definition kret {S A} (a : A) : K S A := fun s => Some (a, s).
Definition kbind {S A B} (m : K S A) (f : A -> K S B) : K S B :=
  fun s => match m s with Some (a, s') => f a s' | None => None end.
Definition kget {S} : K S S := fun s => Some (s, s).
Definition kmod {S} (f : S -> S) : K S unit := fun s => Some (tt, f s).
Definition kstuck {S A} : K S A := fun _ => None.
(** Dereference of a pointer that may be invalid. *)
Definition kopt {S A} (o : option A) : K S A :=
  fun s => match o with Some a => Some (a, s) | None => None end.

Declare Scope k_scope.
Delimit Scope k_scope with k.
Notation "'let!' x := m 'in' k" := (kbind m (fun x => k))
  (at level 10, x pattern, m at level 100, k at level 200) : k_scope.
Notation "'do!' m 'in' k" := (kbind m (fun _ => k))
  (at level 10, m at level 100, k at level 200) : k_scope.
#[global] Open Scope k_scope.

Create Rewrite HintDb kwp.
Create HintDb width discriminated.

(** ** Weakest preconditions

    [wp m Q s]: the run of [m] from [s] finishes normally, in a result and a
    state that satisfy [Q].  It is total correctness: running out of fuel
    makes it false. *)

Definition wp {S A} (m : K S A) (Q : A -> S -> Prop) (s : S) : Prop :=
  match m s with Some (a, s') => Q a s' | None => False end.

Section Wp.
Context {S : Type}.

Lemma wp_ret {A} (a : A) (Q : A -> S -> Prop) s : wp (kret a) Q s = Q a s.
Proof. reflexivity. Qed.

Lemma wp_bind {A B} (m : K S A) (f : A -> K S B) Q s :
  wp (kbind m f) Q s = wp m (fun a s' => wp (f a) Q s') s.
Proof. unfold wp, kbind. destruct (m s) as [[a s']|]; reflexivity. Qed.

Lemma wp_get (Q : S -> S -> Prop) s : wp kget Q s = Q s s.
Proof. reflexivity. Qed.

Lemma wp_mod f (Q : unit -> S -> Prop) s : wp (kmod f) Q s = Q tt (f s).
Proof. reflexivity. Qed.

Lemma wp_opt {A} (a : A) (Q : A -> S -> Prop) s : wp (kopt (Some a)) Q s = Q a s.
Proof. reflexivity. Qed.

Lemma wp_mono {A} (m : K S A) (Q Q' : A -> S -> Prop) s :
  wp m Q s -> (forall a s', Q a s' -> Q' a s') -> wp m Q' s.
Proof. unfold wp. destruct (m s) as [[a s']|]; auto. Qed.

Lemma wp_and {A} (m : K S A) (Q Q' : A -> S -> Prop) s :
  wp m Q s -> wp m Q' s -> wp m (fun a s' => Q a s' /\ Q' a s') s.
Proof. unfold wp. destruct (m s) as [[a s']|]; auto. Qed.

(** Running the first part of a sequence. *)
Lemma run_eq {A B} (m : K S A) (f : A -> K S B) s a s' :
  m s = Some (a, s') -> kbind m f s = f a s'.
Proof. unfold kbind. by intros ->. Qed.
Lemma run_ret {A B} (a : A) (f : A -> K S B) s : kbind (kret a) f s = f a s.
Proof. reflexivity. Qed.
Lemma run_get {B} (f : S -> K S B) s : kbind kget f s = f s s.
Proof. reflexivity. Qed.
Lemma run_mod {B} g (f : unit -> K S B) s : kbind (kmod g) f s = f tt (g s).
Proof. reflexivity. Qed.
Lemma run_opt {A B} (a : A) (f : A -> K S B) s : kbind (kopt (Some a)) f s = f a s.
Proof. reflexivity. Qed.
Lemma run_assoc {A B C} (m : K S A) (f : A -> K S B) (g : B -> K S C) s :
  kbind (kbind m f) g s = kbind m (fun a => kbind (f a) g) s.
Proof. unfold kbind. destruct (m s) as [[a s']|]; reflexivity. Qed.

(** The two ways to read a [wp] as an equation on the run. *)
Lemma wp_run {A} (m : K S A) (Q : A -> S -> Prop) s :
  wp m Q s <-> exists a s', m s = Some (a, s') /\ Q a s'.
Proof.
  unfold wp. destruct (m s) as [[a s']|]; split; try tauto; eauto.
  - intros (a0 & s0 & [= <- <-] & HQ). exact HQ.
  - intros (a0 & s0 & H & _). discriminate.
Qed.

Lemma wp_eq {A} (m : K S A) (Q : A -> S -> Prop) s a s' :
  m s = Some (a, s') -> Q a s' -> wp m Q s.
Proof. unfold wp. intros ->. auto. Qed.

Lemma wp_inv {A} (m : K S A) (Q : A -> S -> Prop) s a s' :
  wp m Q s -> m s = Some (a, s') -> Q a s'.
Proof. unfold wp. intros H E. rewrite E in H. exact H. Qed.
End Wp.

#[export] Hint Rewrite @wp_ret @wp_bind @wp_get @wp_mod @wp_opt : kwp.

(** One symbolic step of a monadic program. *)
Ltac kstep := autorewrite with kwp; cbv beta.

(** Case analysis on the boolean tests of the code, as propositions. *)
Ltac bcase :=
  match goal with
  | |- context [if ?b then _ else _] =>
      lazymatch b with
      | context [if _ then _ else _] => fail
      | _ => let E := fresh "E" in destruct b eqn:E
      end
  end.

Ltac zbool :=
  repeat match goal with
  | H : negb _ = true |- _ => apply negb_true_iff in H
  | H : negb _ = false |- _ => apply negb_false_iff in H
  | H : (_ && _)%bool = true |- _ => apply andb_true_iff in H as [? ?]
  | H : (_ || _)%bool = false |- _ => apply orb_false_iff in H as [? ?]
  | H : (_ =? _) = true |- _ => apply Z.eqb_eq in H
  | H : (_ =? _) = false |- _ => apply Z.eqb_neq in H
  | H : (_ <? _) = true |- _ => apply Z.ltb_lt in H
  | H : (_ <? _) = false |- _ => apply Z.ltb_ge in H
  | H : (_ <=? _) = true |- _ => apply Z.leb_le in H
  | H : (_ <=? _) = false |- _ => apply Z.leb_gt in H
  end.

(** ** Width lemmas *)

Lemma u8_small x : 0 <= x < 256 -> u8 x = x.
Proof. apply Z.mod_small. Qed.
Lemma u16_small x : 0 <= x < 65536 -> u16 x = x.
Proof. apply Z.mod_small. Qed.
Lemma u32_small x : 0 <= x < 4294967296 -> u32 x = x.
Proof. apply Z.mod_small. Qed.
Lemma u8_range x : 0 <= u8 x < 256.
Proof. apply Z.mod_pos_bound. lia. Qed.
Lemma u16_range x : 0 <= u16 x < 65536.
Proof. apply Z.mod_pos_bound. lia. Qed.
Lemma u32_range x : 0 <= u32 x < 4294967296.
Proof. apply Z.mod_pos_bound. lia. Qed.
Lemma u64_range x : 0 <= u64 x < 18446744073709551616.
Proof. apply Z.mod_pos_bound. lia. Qed.

#[export] Hint Resolve u8_range u16_range u32_range u64_range : width.

(** ** Bit operations as arithmetic *)

Lemma lor_shift a b k : 0 <= k -> 0 <= a < 2 ^ k -> Z.lor a (Z.shiftl b k) = a + b * 2 ^ k.
Proof.
  intros Hk Ha. rewrite Z.shiftl_mul_pow2 by done.
  assert (H : Z.land a (b * 2 ^ k) = 0).
  { apply Z.bits_inj'. intros n Hn. rewrite Z.land_spec, Z.bits_0.
    destruct (decide (n < k)); [rewrite Z.mul_pow2_bits_low by lia; by rewrite andb_false_r|].
    destruct (decide (a = 0)) as [->|]; [by rewrite Z.bits_0|].
    rewrite Z.bits_above_log2; [done|lia|].
    apply Z.log2_lt_pow2; [lia|]. apply Z.lt_le_trans with (2 ^ k); [lia|].
    apply Z.pow_le_mono_r; lia. }
  by rewrite Z.add_nocarry_lxor, Z.lxor_lor.
Qed.

Lemma land_mask x k : 0 <= k -> Z.land x (2 ^ k - 1) = x mod 2 ^ k.
Proof. intros Hk. rewrite Z.sub_1_r, <- Z.ones_equiv. by apply Z.land_ones. Qed.

(** A flag is a bit. *)
Lemma has_bit x k : 0 <= k -> has x (2 ^ k) = Z.testbit x k.
Proof.
  intros Hk. unfold has. destruct (Z.testbit x k) eqn:E.
  - apply negb_true_iff, Z.eqb_neq. intros H.
    apply (f_equal (fun z => Z.testbit z k)) in H.
    rewrite Z.land_spec, E, Z.pow2_bits_true, Z.bits_0 in H by done. done.
  - apply negb_false_iff, Z.eqb_eq. apply Z.bits_inj'. intros n Hn.
    rewrite Z.land_spec, Z.bits_0. destruct (decide (n = k)) as [->|Hne].
    + by rewrite E.
    + rewrite Z.pow2_bits_false by done. by rewrite andb_false_r.
Qed.

(** The two bytes of a word. *)
Lemma word_halves v : 0 <= v < 65536 -> Z.lor (u8 v) (Z.shiftl (u8 (Z.shiftr v 8)) 8) = v.
Proof.
  intros Hv. rewrite lor_shift by (lia || apply u8_range). unfold u8.
  rewrite Z.shiftr_div_pow2 by lia. change (2 ^ 8) with 256.
  Z.to_euclidean_division_equations; lia.
Qed.
