(* ===== verification/Memmgr.v ===== *)
(** * The DOS memory manager (kernel/memmgr.c)

    Memory is divided in paragraphs of 16 bytes, exactly the size of an
    [mcb].  The model views every paragraph as the [mcb] its bytes spell:
    [mem] maps a segment to that record, an absent key being a paragraph of
    zero bytes.  Every C pointer of this file has offset 0, so a pointer is
    its segment and [NULL] is segment 0.  Console output of the corruption
    report in [DosMemCheck] is not modelled. *)

From S2P Require Import Prelude.

Module Mm.

(** ** Data (hdr/mcb.h) *)

Definition LARGEST := -1.
Definition FIRST_FIT := 0.
Definition BEST_FIT := 1.
Definition LAST_FIT := 2.
Definition FIRST_FIT_UO := 0x40.
Definition BEST_FIT_UO := 0x41.
Definition LAST_FIT_UO := 0x42.
Definition FIRST_FIT_U := 0x80.
Definition BEST_FIT_U := 0x81.
Definition LAST_FIT_U := 0x82.
Definition MCB_NORMAL := 0x4d.
Definition MCB_LAST := 0x5a.
Definition FREE_PSP := 0.

Definition DE_MCBDESTRY := -7.
Definition DE_NOMEM := -8.
Definition DE_INVLDMCB := -9.

Record mcb := Mcb {
  m_type : Z;
  m_psp : Z;
  m_size : Z;
  m_fill : list Z;
  m_name : list Z }.

#[export] Instance mcb_inhabited : Inhabited mcb :=
  populate (Mcb 0 0 0 (replicate 3 0) (replicate 8 0)).

Definition set_type (t : Z) (b : mcb) : mcb :=
  Mcb t (m_psp b) (m_size b) (m_fill b) (m_name b).
Definition set_psp (v : Z) (b : mcb) : mcb :=
  Mcb (m_type b) v (m_size b) (m_fill b) (m_name b).
Definition set_size (v : Z) (b : mcb) : mcb :=
  Mcb (m_type b) (m_psp b) v (m_fill b) (m_name b).
Definition set_name (v : list Z) (b : mcb) : mcb :=
  Mcb (m_type b) (m_psp b) (m_size b) (m_fill b) v.
(** [m_name[0] = '\0'] *)
Definition set_name0 (b : mcb) : mcb := set_name (<[0%nat := 0]> (m_name b)) b.

(** The kernel globals the memory manager uses (kernel/globals.h). *)
Record mm := MkMm {
  mem : gmap Z mcb;
  first_mcb : Z;
  uppermem_root : Z;
  uppermem_link : Z;
  mem_access_mode : Z;
  cu_psp : Z }.

Definition with_mem (f : gmap Z mcb -> gmap Z mcb) (s : mm) : mm :=
  MkMm (f (mem s)) (first_mcb s) (uppermem_root s) (uppermem_link s)
       (mem_access_mode s) (cu_psp s).
Definition with_link (v : Z) (s : mm) : mm :=
  MkMm (mem s) (first_mcb s) (uppermem_root s) v (mem_access_mode s) (cu_psp s).
Definition with_access (v : Z) (s : mm) : mm :=
  MkMm (mem s) (first_mcb s) (uppermem_root s) (uppermem_link s) v (cu_psp s).

(** Load and store through an MCB pointer. *)
Definition rd (p : Z) : K mm mcb := fun s => Some (mem s !!! p, s).
Definition wr (p : Z) (f : mcb -> mcb) : K mm unit :=
  kmod (with_mem (fun m => <[p := f (m !!! p)]> m)).

(** ** The macros of memmgr.c *)

Definition nxtMCBsize (p size : Z) : Z := u16 (p + size + 1).
Definition nxtMCB (p : Z) (b : mcb) : Z := nxtMCBsize p (m_size b).
Definition mcbFree (b : mcb) : bool := m_psp b =? FREE_PSP.
Definition mcbFreeable (b : mcb) : bool :=
  (m_type b =? MCB_NORMAL) || (m_type b =? MCB_LAST).
Definition mcbValid (b : mcb) : bool :=
  negb (m_size b =? 0xffff) && ((m_type b =? MCB_NORMAL) || (m_type b =? MCB_LAST)).
Definition para2far (seg : Z) : Z := seg.

(** A chain that does not wrap around has fewer MCBs than there are segments. *)
Definition chain_fuel : nat := Z.to_nat 65536.

(** ** joinMCBs *)

Fixpoint joinMCBs_loop (fuel : nat) (p : Z) : K mm Z :=
  match fuel with
  | O => kstuck
  | S fuel' =>
      let! pb := rd p in
      if negb (m_type pb =? MCB_NORMAL) then kret SUCCESS else
      let q := nxtMCB p pb in
      let! qb := rd q in
      if negb (mcbFree qb) then kret SUCCESS else
      if negb (mcbValid qb) then kret DE_MCBDESTRY else
      do! wr p (set_type (m_type qb)) in
      let! qb := rd q in
      do! wr p (fun b => set_size (u16 (m_size b + (m_size qb + 1))) b) in
      do! wr q (set_size 0xffff) in
      joinMCBs_loop fuel' p
  end.

Definition joinMCBs (para : Z) : K mm Z := joinMCBs_loop chain_fuel (para2far para).

(** ** adjust_far: a far pointer is a pair (segment, offset) *)

Definition adjust_far (fp : Z * Z) : Z * Z :=
  if fst fp =? 0xffff then fp
  else (u16 (fst fp + Z.shiftr (snd fp) 4), Z.land (snd fp) 0xf).

(** ** DosMemAlloc *)

(** What the visit of one MCB in the search loop decides: corruption, the
    jump to [stopIt], or to go on with the new [biggestSeg] and [foundSeg]. *)
Inductive visit :=
| VDestroyed
| VStop (found : Z)
| VGo (biggest found : Z).

Definition visit_mcb (size mode p biggest found : Z) : K mm visit :=
  let! pb := rd p in
  if mcbFree pb then
    let! rc := joinMCBs p in
    if negb (rc =? SUCCESS) then kret VDestroyed else
    let! pb := rd p in
    let! bb := rd biggest in
    let biggest :=
      if (biggest =? NULL) || (m_size bb <? m_size pb) then p else biggest in
    if size <=? m_size pb then
      if mode =? LARGEST then kret (VGo biggest found)
      else if (mode =? BEST_FIT) || (mode =? BEST_FIT_U) || (mode =? BEST_FIT_UO) then
        let! fb := rd found in
        kret (VGo biggest
                (if (found =? NULL) || (m_size pb <? m_size fb) then p else found))
      else if (mode =? FIRST_FIT) || (mode =? FIRST_FIT_U) || (mode =? FIRST_FIT_UO) then
        kret (VStop p)
      else (* LAST_FIT, LAST_FIT_U, LAST_FIT_UO and the default case *)
        kret (VGo biggest p)
    else kret (VGo biggest found)
  else kret (VGo biggest found).

(** The [FOREVER] loop over the chain. *)
Fixpoint search_loop (fuel : nat) (size mode p biggest found : Z) : K mm visit :=
  match fuel with
  | O => kstuck
  | S fuel' =>
      let! pb := rd p in
      if negb (mcbValid pb) then kret VDestroyed else
      let! v := visit_mcb size mode p biggest found in
      match v with
      | VGo biggest found =>
          let! pb := rd p in
          if m_type pb =? MCB_LAST then kret (VGo biggest found)
          else search_loop fuel' size mode (nxtMCB p pb) biggest found
      | v => kret v
      end
  end.

(** Where the search starts: the upper memory region for the modes that ask
    for it, when it is linked. *)
Definition search_start (size mode : Z) (s : mm) : Z :=
  if has (uppermem_link s) 1 && negb (uppermem_root s =? 0xffff) then
    let tmpmode := if mode =? LARGEST then mem_access_mode s else mode in
    if (negb (mode =? LARGEST) || (size =? 0xffff))
       && has tmpmode (Z.lor FIRST_FIT_UO FIRST_FIT_U)
    then para2far (uppermem_root s)
    else para2far (first_mcb s)
  else para2far (first_mcb s).

(** The code from the label [stopIt] on: split the block found, take it. *)
Definition take_block (size mode found : Z) : K mm Z :=
  let! fb := rd found in
  let! found' :=
    (if negb (mode =? LARGEST) && negb (size =? m_size fb) then
       if (mode =? LAST_FIT) || (mode =? LAST_FIT_UO) || (mode =? LAST_FIT_U) then
         let p := found in
         do! wr p (fun b => set_size (u16 (m_size b - (size + 1))) b) in
         let! pb := rd p in
         let f := nxtMCB p pb in
         do! wr f (set_type (m_type pb)) in
         do! wr p (set_type MCB_NORMAL) in
         do! wr p (set_psp FREE_PSP) in
         do! wr f (set_size size) in
         kret f
       else
         let p := nxtMCBsize found size in
         do! wr p (set_type (m_type fb)) in
         let! fb := rd found in
         do! wr p (set_size (u16 (m_size fb - size - 1))) in
         do! wr found (set_type MCB_NORMAL) in
         do! wr p (set_psp FREE_PSP) in
         do! wr found (set_size size) in
         kret found
     else kret found) in
  let! s := kget in
  do! wr found' (set_psp (cu_psp s)) in
  do! wr found' set_name0 in
  kret found'.

(** The results of [DosMemAlloc]: the return code, the value stored in
    [*para] and the value stored in [*asize], when there is one. *)
Record alloc_res := AllocRes { ar_rc : Z; ar_para : option Z; ar_asize : option Z }.

(** [tries] bounds the jumps to [searchAgain]: the jump clears FIRST_FIT_U in
    [mode] and is taken only when that bit is set, so two rounds are enough.
    [asize] says whether the pointer is not NULL. *)
Fixpoint alloc_loop (tries : nat) (size mode : Z) (asize : bool) : K mm alloc_res :=
  match tries with
  | O => kstuck
  | S tries' =>
      let! s := kget in
      let! v := search_loop chain_fuel size mode (search_start size mode s) NULL NULL in
      match v with
      | VDestroyed => kret (AllocRes DE_MCBDESTRY None None)
      | VStop found =>
          let! para := take_block size mode found in
          kret (AllocRes SUCCESS (Some para) None)
      | VGo biggest found =>
          let! bb := rd biggest in
          let! r :=
            (if (mode =? LARGEST) && negb (biggest =? NULL) && (size <=? m_size bb) then
               if asize then kret (biggest, Some (m_size bb)) else kstuck
             else kret (found, None)) in
          let '(found, out) := r in
          let! fb := rd found in
          if (found =? NULL) || (m_size fb =? 0) then
            let! s := kget in
            if negb (mode =? LARGEST) && has mode FIRST_FIT_U
               && has (uppermem_link s) 1 && negb (uppermem_root s =? 0xffff)
            then alloc_loop tries' size (clear mode FIRST_FIT_U) asize
            else
              kret (AllocRes DE_NOMEM None
                      (if asize then
                         Some (if biggest =? NULL then 0 else m_size bb)
                       else out))
          else
            let! para := take_block size mode found in
            kret (AllocRes SUCCESS (Some para) out)
      end
  end.

Definition DosMemAlloc (size mode : Z) (asize : bool) : K mm alloc_res :=
  alloc_loop 2 size mode asize.

(** ** DosMemLargest: the return code and the final [*size] *)

Definition DosMemLargest : K mm (Z * Z) :=
  let! r := DosMemAlloc 0xffff LARGEST true in
  let size := default 0 (ar_asize r) in
  let! s := kget in
  let! size :=
    (if has (mem_access_mode s) 0x80 then
       do! kmod (fun s => with_access (clear (mem_access_mode s) 0x80) s) in
       let! r := DosMemAlloc 0xffff LARGEST true in
       let lowsize := default 0 (ar_asize r) in
       do! kmod (fun s => with_access (setf (mem_access_mode s) 0x80) s) in
       kret (if size <? lowsize then lowsize else size)
     else kret size) in
  kret (if negb (size =? 0) then SUCCESS else DE_NOMEM, size).

(** ** DosMemFree *)

Definition DosMemFree (para : Z) : K mm Z :=
  if para =? 0 then kret DE_INVLDMCB else
  let p := para2far para in
  let! pb := rd p in
  if negb (mcbFreeable pb) then kret DE_INVLDMCB else
  do! wr p (set_psp FREE_PSP) in
  do! wr p (set_name (replicate 8 0)) in
  kret SUCCESS.

(** ** DosMemChange: the return code and the value stored in [*maxSize] *)

Definition DosMemChange (para size : Z) (maxSize : bool) : K mm (Z * option Z) :=
  let p := para2far (u16 (para - 1)) in
  let! pb := rd p in
  if negb (mcbValid pb) then kret (DE_MCBDESTRY, None) else
  let! grown :=
    (if m_size pb <? size then
       let! rc := joinMCBs p in
       if negb (rc =? SUCCESS) then kret (Some (DE_MCBDESTRY, None)) else
       let! pb := rd p in
       if m_size pb <? size then
         kret (Some (DE_NOMEM, if maxSize then Some (m_size pb) else None))
       else kret None
     else kret None) in
  match grown with
  | Some r => kret r
  | None =>
      let! pb := rd p in
      let! rc :=
        (if size <? m_size pb then
           let q := nxtMCBsize p size in
           do! wr q (set_size (u16 (m_size pb - size - 1))) in
           let! pb := rd p in
           do! wr q (set_type (m_type pb)) in
           do! wr p (set_size size) in
           do! wr p (set_type MCB_NORMAL) in
           do! wr q (set_psp FREE_PSP) in
           do! wr q (set_name (replicate 8 0)) in
           joinMCBs q
         else kret SUCCESS) in
      if negb (rc =? SUCCESS) then kret (DE_MCBDESTRY, None) else
      let! s := kget in
      do! wr p (set_psp (cu_psp s)) in
      kret (SUCCESS, None)
  end.

(** ** DosMemCheck *)

Fixpoint check_loop (fuel : nat) (p : Z) : K mm Z :=
  match fuel with
  | O => kstuck
  | S fuel' =>
      let! pb := rd p in
      if m_type pb =? MCB_LAST then kret SUCCESS else
      if negb (m_type pb =? MCB_NORMAL) then kret DE_MCBDESTRY else
      check_loop fuel' (nxtMCB p pb)
  end.

Definition DosMemCheck : K mm Z :=
  let! s := kget in check_loop chain_fuel (para2far (first_mcb s)).

(** ** DosUmbLink *)

(** The [while] loop: [None] is its early return, [Some (p, q)] the final
    values of [p] and [q], where [q = None] is the uninitialised pointer. *)
Fixpoint umb_walk (fuel : nat) (root p : Z) (q : option Z) : K mm (option (Z * option Z)) :=
  match fuel with
  | O => kstuck
  | S fuel' =>
      let! pb := rd p in
      if negb (p =? root) && negb (m_type pb =? MCB_LAST) then
        if negb (mcbValid pb) then kret None
        else umb_walk fuel' root (nxtMCB p pb) (Some p)
      else kret (Some (p, q))
  end.

Definition DosUmbLink (n : Z) : K mm unit :=
  let! s := kget in
  if uppermem_root s =? 0xffff then kret tt else
  if (1 <? n) || (Z.land (uppermem_link s) 1 =? n) then kret tt else
  let! w := umb_walk chain_fuel (uppermem_root s) (para2far (first_mcb s)) None in
  match w with
  | None => kret tt
  | Some (p, q) =>
      if n =? 0 then
        let! q := kopt q in
        let! qb := rd q in
        do! (if (m_type qb =? MCB_NORMAL) && (p =? uppermem_root s)
             then wr q (set_type MCB_LAST) else kret tt) in
        kmod (with_link (u8 n))
      else
        let! pb := rd p in
        if m_type pb =? MCB_LAST then
          do! wr p (set_type MCB_NORMAL) in
          kmod (with_link (u8 n))
        else kret tt
  end.

(** ** FreeProcessMem *)

Fixpoint free_loop (fuel : nat) (ps p : Z) : K mm Z :=
  match fuel with
  | O => kstuck
  | S fuel' =>
      let! pb := rd p in
      if negb (mcbValid pb) then kret DE_MCBDESTRY else
      do! (if m_psp pb =? ps then
             let! _ := DosMemFree p in kret tt
           else kret tt) in
      let! pb := rd p in
      if m_type pb =? MCB_LAST then kret SUCCESS
      else free_loop fuel' ps (nxtMCB p pb)
  end.

Definition FreeProcessMem (ps : Z) : K mm Z :=
  let! s := kget in
  let oldumbstate := Z.land (uppermem_link s) 1 in
  do! DosUmbLink 1 in
  let! s := kget in
  let! rc := free_loop chain_fuel ps (para2far (first_mcb s)) in
  if negb (rc =? SUCCESS) then kret rc else
  do! DosUmbLink oldumbstate in
  kret SUCCESS.

End Mm.
