(* ===== verification/MemmgrSpec.v ===== *)
(** * Correctness of the DOS memory manager (kernel/memmgr.c)

    The abstract state is the list of the memory blocks of a chain.  [chain]
    relates a memory to such a list; the lemmas below show that each routine
    of [Memmgr.v] started on a well-formed chain returns, that it leaves a
    well-formed chain over the same region, and which list it leaves. *)

From S2P Require Import Prelude Memmgr.
Import Mm.

Module MmSpec.

(** ** Abstract blocks and chains *)

Record blk := Blk { b_seg : Z; b_size : Z; b_psp : Z }.

#[export] Instance blk_eq_dec : EqDecision blk.
Proof. solve_decision. Defined.

Definition b_end (b : blk) : Z := b_seg b + b_size b + 1.
Definition is_free (b : blk) : bool := b_psp b =? FREE_PSP.
Definition used (bs : list blk) : list blk := filter (fun b => is_free b = false) bs.

(** The header of [b] is in memory, with type [t]. *)
Definition hdr (m : gmap Z mcb) (b : blk) (t : Z) : Prop :=
  0 < b_seg b /\ 0 <= b_size b /\
  m_type (m !!! b_seg b) = t /\ m_psp (m !!! b_seg b) = b_psp b /\
  m_size (m !!! b_seg b) = b_size b.

(** [chain m p bs e]: the MCBs from segment [p] on are [bs], the last one is
    marked so, and the blocks tile the segments from [p] to [e]. *)
Inductive chain (m : gmap Z mcb) : Z -> list blk -> Z -> Prop :=
| chain_last b : hdr m b MCB_LAST -> b_end b <= 65536 -> chain m (b_seg b) [b] (b_end b)
| chain_cons b bs e :
    hdr m b MCB_NORMAL -> chain m (b_end b) bs e -> chain m (b_seg b) (b :: bs) e.

(** The blocks of a chain from [p] up to, not including, the one at [q]. *)
Inductive prefix (m : gmap Z mcb) : Z -> list blk -> Z -> Prop :=
| prefix_nil p : prefix m p [] p
| prefix_cons b bs q :
    hdr m b MCB_NORMAL -> prefix m (b_end b) bs q -> prefix m (b_seg b) (b :: bs) q.

(** ** Lists: coalescing of free runs and the allocation policies *)

(** Block [b] extended over the next block [c] and its header. *)
Definition merge (b c : blk) : blk := Blk (b_seg b) (b_size b + b_size c + 1) (b_psp b).

(** [joinMCBs]: block [b] takes the free blocks that follow it. *)
Fixpoint absorb (b : blk) (bs : list blk) : blk * list blk :=
  match bs with
  | c :: cs =>
      if is_free c then absorb (merge b c) cs
      else (b, bs)
  | [] => (b, [])
  end.

(** Every maximal run of free blocks becomes one block. *)
Fixpoint coalesce (bs : list blk) : list blk :=
  match bs with
  | [] => []
  | b :: bs =>
      if is_free b then
        match coalesce bs with
        | c :: cs =>
            if is_free c then merge b c :: cs
            else b :: c :: cs
        | [] => [b]
        end
      else b :: coalesce bs
  end.

Definition fits (size : Z) (b : blk) : bool := is_free b && (size <=? b_size b).

(** The free block of the greatest size, the first one of them. *)
Definition larger (acc : option blk) (b : blk) : option blk :=
  if is_free b then
    match acc with
    | Some a => if b_size a <? b_size b then Some b else acc
    | None => Some b
    end
  else acc.
Definition largest (acc : option blk) (bs : list blk) : option blk :=
  fold_left larger bs acc.

(** The four allocation policies and the modes that select them. *)
Inductive policy := PLargest | PFirst | PBest | PLast.

Definition policy_of (mode : Z) : policy :=
  if mode =? LARGEST then PLargest
  else if (mode =? BEST_FIT) || (mode =? BEST_FIT_U) || (mode =? BEST_FIT_UO) then PBest
  else if (mode =? FIRST_FIT) || (mode =? FIRST_FIT_U) || (mode =? FIRST_FIT_UO) then PFirst
  else PLast.

(** The choice so far and the next block of the list.  First fit keeps the
    first block that fits, best fit the smallest one, first come, and last fit
    the last one. *)
Definition prefer (k : policy) (size : Z) (acc : option blk) (b : blk) : option blk :=
  if fits size b then
    match k, acc with
    | PLargest, _ => acc
    | PFirst, Some _ => acc
    | PBest, Some a => if b_size b <? b_size a then Some b else acc
    | _, _ => Some b
    end
  else acc.
Definition choose (k : policy) (size : Z) (acc : option blk) (bs : list blk) : option blk :=
  fold_left (prefer k size) bs acc.

Definition seg_of (o : option blk) : Z :=
  match o with Some b => b_seg b | None => NULL end.

(** ** Chains *)

Create HintDb mm discriminated.

Lemma prefix_le m p bs q : prefix m p bs q -> p <= q.
Proof. induction 1 as [|b bs q (? & ? & _) _ IH]; unfold b_end in *; lia. Qed.

Lemma chain_bounds m p bs e : chain m p bs e -> 0 < p < e /\ e <= 65536.
Proof.
  induction 1 as [b (? & ? & _)|b bs e (? & ? & _) _ IH]; unfold b_end in *; lia.
Qed.

Lemma chain_not_nil m p bs e : chain m p bs e -> bs <> [].
Proof. by inversion 1. Qed.

Lemma mcbs_length m p bs e : chain m p bs e -> Z.of_nat (length bs) <= e - p.
Proof.
  induction 1 as [b (? & ? & _)|b bs e (? & ? & _) _ IH]; unfold b_end in *; simpl; lia.
Qed.

Lemma chain_fuel_enough m p bs e : chain m p bs e -> (length bs < chain_fuel)%nat.
Proof.
  intros H. pose proof (mcbs_length _ _ _ _ H). pose proof (chain_bounds _ _ _ _ H).
  unfold chain_fuel. lia.
Qed.

Lemma hdr_frame m m' b t : m' !!! b_seg b = m !!! b_seg b -> hdr m b t -> hdr m' b t.
Proof. unfold hdr. intros ->. auto. Qed.

(** Two memories agree on the segments from [lo] to [hi]. *)
Definition agree (lo hi : Z) (m m' : gmap Z mcb) : Prop :=
  forall a, lo <= a < hi -> m' !!! a = m !!! a.

Lemma agree_sub lo hi lo' hi' m m' :
  agree lo hi m m' -> lo <= lo' -> hi' <= hi -> agree lo' hi' m m'.
Proof. intros H ?? a ?. apply H. lia. Qed.

Lemma chain_frame m m' p bs e : chain m p bs e -> agree p e m m' -> chain m' p bs e.
Proof.
  induction 1 as [b Hb Hle|b bs e Hb Hc IH]; intros Hag;
    pose proof Hb as (? & ? & _).
  - constructor; [|done]. eapply hdr_frame, Hb. apply Hag. unfold b_end. lia.
  - pose proof (chain_bounds _ _ _ _ Hc).
    constructor.
    + eapply hdr_frame, Hb. apply Hag. unfold b_end in *. lia.
    + apply IH. eapply agree_sub; [exact Hag|unfold b_end|]; lia.
Qed.

Lemma prefix_frame m m' p bs q : prefix m p bs q -> agree p q m m' -> prefix m' p bs q.
Proof.
  induction 1 as [|b bs q Hb Hc IH]; intros Hag; [constructor|].
  pose proof Hb as (? & ? & _). pose proof (prefix_le _ _ _ _ Hc).
  constructor.
  - eapply hdr_frame, Hb. apply Hag. unfold b_end in *. lia.
  - apply IH. eapply agree_sub; [exact Hag|unfold b_end|]; lia.
Qed.

Lemma prefix_chain m p l q r e : prefix m p l q -> chain m q r e -> chain m p (l ++ r) e.
Proof. induction 1; [done|]. intros. simpl. constructor; auto. Qed.

Lemma prefix_app m p l q r z : prefix m p l q -> prefix m q r z -> prefix m p (l ++ r) z.
Proof. induction 1; [done|]. intros. simpl. constructor; auto. Qed.

Lemma prefix_one m b : hdr m b MCB_NORMAL -> prefix m (b_seg b) [b] (b_end b).
Proof. intros. constructor; [done|constructor]. Qed.

Lemma chain_split m p l r e :
  chain m p (l ++ r) e -> r <> [] -> exists q, prefix m p l q /\ chain m q r e.
Proof.
  revert p. induction l as [|b l IH]; intros p Hc Hr.
  - exists p. split; [constructor|done].
  - inversion Hc as [b' Hb Hle Hb' Hnil|b' bs' e' Hb Hc']; subst.
    + by destruct l, r.
    + destruct (IH _ Hc' Hr) as (q & ? & ?). exists q. split; [by constructor|done].
Qed.

Lemma chain_head m p b bs e : chain m p (b :: bs) e -> b_seg b = p.
Proof. by inversion 1. Qed.

Lemma chain_hdr m p b bs e :
  chain m p (b :: bs) e -> hdr m b (if bs is [] then MCB_LAST else MCB_NORMAL).
Proof.
  inversion 1 as [|? ? ? ? Hc]; subst; [done|].
  by destruct bs as [|]; [inversion Hc|].
Qed.

Lemma chain_tail m p b bs e :
  chain m p (b :: bs) e -> bs <> [] -> chain m (b_end b) bs e.
Proof. inversion 1; subst; [done|by intros]. Qed.

Lemma chain_end_le m p b bs e : chain m p (b :: bs) e -> b_end b <= e.
Proof.
  inversion 1 as [|? ? ? ? Hc]; subst; [lia|]. apply chain_bounds in Hc. lia.
Qed.

Lemma chain_valid m p b bs e : chain m p (b :: bs) e -> mcbValid (m !!! p) = true.
Proof.
  intros H. pose proof (chain_head _ _ _ _ _ H) as <-.
  pose proof (chain_end_le _ _ _ _ _ H). pose proof (chain_bounds _ _ _ _ H).
  destruct (chain_hdr _ _ _ _ _ H) as (? & ? & Ht & _ & Hs).
  unfold mcbValid. rewrite Hs, Ht. unfold b_end in *.
  replace (b_size b =? 65535) with false by (symmetry; apply Z.eqb_neq; lia).
  by destruct bs.
Qed.

Lemma chain_free m p b bs e : chain m p (b :: bs) e -> mcbFree (m !!! p) = is_free b.
Proof.
  intros H. pose proof (chain_head _ _ _ _ _ H) as <-.
  destruct (chain_hdr _ _ _ _ _ H) as (_ & _ & _ & Hp & _).
  unfold mcbFree, is_free. by rewrite Hp.
Qed.

Lemma chain_size m p b bs e : chain m p (b :: bs) e -> m_size (m !!! p) = b_size b.
Proof.
  intros H. pose proof (chain_head _ _ _ _ _ H) as <-.
  by destruct (chain_hdr _ _ _ _ _ H) as (_ & _ & _ & _ & Hs).
Qed.

Lemma mcbs_next m p b bs e :
  chain m p (b :: bs) e -> bs <> [] -> nxtMCB p (m !!! p) = b_end b.
Proof.
  intros H Hbs. pose proof (chain_head _ _ _ _ _ H) as Hp.
  pose proof (chain_tail _ _ _ _ _ H Hbs) as Hc. apply chain_bounds in Hc.
  unfold nxtMCB, nxtMCBsize. rewrite (chain_size _ _ _ _ _ H).
  unfold b_end in *. subst p. apply u16_small. lia.
Qed.

Lemma chain_type m p b bs e :
  chain m p (b :: bs) e -> (m_type (m !!! p) =? MCB_LAST) = bool_decide (bs = []).
Proof.
  intros H. pose proof (chain_head _ _ _ _ _ H) as <-.
  destruct (chain_hdr _ _ _ _ _ H) as (_ & _ & Ht & _).
  rewrite Ht. by destruct bs.
Qed.

(** ** Stores *)

Lemma wp_rd p Q s : wp (rd p) Q s = Q (mem s !!! p) s.
Proof. reflexivity. Qed.
Lemma wp_wr p f Q s :
  wp (wr p f) Q s = Q tt (with_mem (fun m => <[p := f (m !!! p)]> m) s).
Proof. reflexivity. Qed.
#[export] Hint Rewrite wp_rd wp_wr : kwp.

Lemma run_rd {A} p (k : mcb -> K mm A) s : kbind (rd p) k s = k (mem s !!! p) s.
Proof. reflexivity. Qed.
Lemma run_wr {A} p f (k : unit -> K mm A) s :
  kbind (wr p f) k s = k tt (with_mem (fun m => <[p := f (m !!! p)]> m) s).
Proof. reflexivity. Qed.

(** The states [s] and [s'] differ only in memory, and there only from
    segment [lo] to [hi]. *)
Definition only (lo hi : Z) (s s' : mm) : Prop :=
  s' = with_mem (fun _ => mem s') s /\
  (forall a, a < lo \/ hi <= a -> mem s' !!! a = mem s !!! a).

Lemma only_refl lo hi s : only lo hi s s.
Proof. split; [by destruct s|done]. Qed.

Lemma only_trans lo hi s1 s2 s3 : only lo hi s1 s2 -> only lo hi s2 s3 -> only lo hi s1 s3.
Proof.
  intros [-> H1] [-> H2]. split; [done|]. intros a Ha. by rewrite H2, H1.
Qed.

Lemma only_cu lo hi s s' : only lo hi s s' -> cu_psp s' = cu_psp s.
Proof. by intros [-> _]. Qed.

Lemma only_sub lo hi lo' hi' s s' :
  only lo hi s s' -> lo' <= lo -> hi <= hi' -> only lo' hi' s s'.
Proof. intros [? H] ??. split; [done|]. intros. apply H. lia. Qed.

Lemma only_agree lo hi s s' p q :
  only lo hi s s' -> q <= lo \/ hi <= p -> agree p q (mem s) (mem s').
Proof. intros [_ H] ? a ?. apply H. lia. Qed.

Lemma only_wr lo hi p f s :
  lo <= p < hi -> only lo hi s (with_mem (fun m => <[p := f (m !!! p)]> m) s).
Proof.
  intros. split; [done|]. intros a ?. simpl. rewrite lookup_total_insert_ne; [done|lia].
Qed.

#[export] Hint Resolve only_refl only_wr : mm.

(** Lookups after stores, the segments being ordered by arithmetic. *)
Ltac mlook :=
  cbn [mem with_mem set_type set_psp set_size set_name set_name0 m_type m_psp m_size] in *;
  repeat first
    [ rewrite lookup_total_insert_eq
    | rewrite lookup_total_insert_ne by (unfold b_end in *; lia) ];
  cbn [set_type set_psp set_size set_name set_name0 m_type m_psp m_size] in *.


(** ** joinMCBs *)

Lemma absorb_length b bs : (length (absorb b bs).2 <= length bs)%nat.
Proof.
  revert b. induction bs as [|c bs IH]; intros b; simpl; [done|].
  destruct (is_free c); [|simpl; lia]. etrans; [apply IH|lia].
Qed.

Lemma absorb_seg b bs : b_seg (absorb b bs).1 = b_seg b /\ b_psp (absorb b bs).1 = b_psp b.
Proof.
  revert b. induction bs as [|c bs IH]; intros b; simpl; [done|].
  destruct (is_free c); [|done]. by destruct (IH (merge b c)) as [-> ->].
Qed.

Lemma absorb_size b bs :
  Forall (fun c => 0 <= b_size c) bs -> b_size b <= b_size (absorb b bs).1.
Proof.
  revert b. induction bs as [|c bs IH]; intros b Hf; simpl; [lia|].
  apply Forall_cons in Hf as [? Hf].
  destruct (is_free c); [|simpl; lia].
  etrans; [|apply (IH _ Hf)]. unfold merge. simpl. lia.
Qed.

(** After the join, the next block is not free. *)
Lemma absorb_stops b bs c cs : (absorb b bs).2 = c :: cs -> is_free c = false.
Proof.
  revert b. induction bs as [|d bs IH]; intros b; simpl; [done|].
  destruct (is_free d) eqn:E; [apply IH|]. simpl. by intros [= -> ->].
Qed.

Lemma used_absorb b bs : used ((absorb b bs).1 :: (absorb b bs).2) =
  (if is_free b then [] else [(absorb b bs).1]) ++ used bs.
Proof.
  revert b. induction bs as [|c bs IH]; intros b; simpl.
  - unfold used. rewrite filter_cons. by destruct (is_free b).
  - destruct (is_free c) eqn:E; simpl.
    + rewrite IH. simpl. unfold used at 2. rewrite filter_cons, E. done.
    + unfold used. rewrite filter_cons. by destruct (is_free b).
Qed.

Lemma is_free_merge b c : is_free (merge b c) = is_free b.
Proof. done. Qed.

Lemma merge_assoc b c d : merge (merge b c) d = merge b (merge c d).
Proof. unfold merge. simpl. f_equal. lia. Qed.

Lemma coalesce_absorb b bs :
  is_free b = true ->
  coalesce (b :: bs) = (absorb b bs).1 :: coalesce (absorb b bs).2.
Proof.
  revert b. induction bs as [|c bs IH]; intros b Hb; [simpl; by rewrite Hb|].
  cbn [absorb]. destruct (is_free c) eqn:Hc.
  - rewrite <- (IH (merge b c) Hb). cbn [coalesce].
    rewrite is_free_merge, Hb, Hc.
    destruct (coalesce bs) as [|d ds]; [by rewrite Hc|].
    destruct (is_free d) eqn:Hd; rewrite ?is_free_merge, ?Hc, ?Hd.
    + by rewrite merge_assoc.
    + done.
  - cbn [coalesce fst snd]. rewrite Hb, Hc. by rewrite Hc.
Qed.

(** One turn of the join loop. *)
Lemma join_step s p b c bs e :
  chain (mem s) p (b :: c :: bs) e -> is_free c = true ->
  exists s', (forall fuel, joinMCBs_loop (S fuel) p s = joinMCBs_loop fuel p s') /\
    chain (mem s') p (merge b c :: bs) e /\
    only p e s s'.
Proof.
  intros Hc Hfree.
  pose proof (chain_head _ _ _ _ _ Hc) as Hp.
  pose proof (chain_hdr _ _ _ _ _ Hc) as (Hseg & Hsz & Hty & Hpsp & Hsize).
  pose proof (mcbs_next _ _ _ _ _ Hc ltac:(done)) as Hnx.
  pose proof (chain_tail _ _ _ _ _ Hc ltac:(done)) as Hct.
  pose proof (chain_head _ _ _ _ _ Hct) as Hq.
  pose proof (chain_hdr _ _ _ _ _ Hct) as (_ & Hcsz & Hcty & _ & Hcsize).
  pose proof (chain_valid _ _ _ _ _ Hct) as Hval.
  pose proof (chain_free _ _ _ _ _ Hct) as Hfr. rewrite Hfree in Hfr.
  pose proof (chain_end_le _ _ _ _ _ Hct) as Hend.
  pose proof (chain_bounds _ _ _ _ Hct) as Hb.
  subst p. rewrite <- Hq in *.
  eexists. split; [|split].
  - intros fuel. cbn [joinMCBs_loop]. rewrite run_rd, Hty, Z.eqb_refl. cbn [negb].
    rewrite run_rd, Hnx, Hfr, Hval. reflexivity.
  - set (b' := merge b c).
    assert (Hb' : b_end b' = b_end c) by (unfold b_end in *; simpl; lia).
    assert (Hh : hdr (mem s) c (if bs is [] then MCB_LAST else MCB_NORMAL)).
    { by eapply chain_hdr. }
    destruct bs as [|d bs].
    + assert (e = b_end c) as ->.
      { inversion Hct as [|? ? ? ? Hn]; subst; [done|inversion Hn]. }
      rewrite <- Hb'. change (b_seg b) with (b_seg b').
      constructor; [|rewrite Hb'; inversion Hct as [|? ? ? ? Hn]; subst; [done|inversion Hn]].
      repeat split; unfold b'; simpl; mlook; try done; try lia.
      rewrite Hsize, Hcsize. rewrite u16_small; unfold b_end in *; lia.
    + apply chain_tail in Hct; [|done]. pose proof (chain_bounds _ _ _ _ Hct).
      change (b_seg b) with (b_seg b'). constructor.
      * repeat split; unfold b'; simpl; mlook; try done; try lia.
        rewrite Hsize, Hcsize. rewrite u16_small; unfold b_end in *; lia.
      * rewrite Hb'. eapply chain_frame; [exact Hct|].
        intros a Ha. simpl. mlook. done.
  - split; [done|]. intros a Ha. simpl. mlook. done.
Qed.

Lemma join_stop s p b bs e fuel :
  chain (mem s) p (b :: bs) e -> absorb b bs = (b, bs) ->
  joinMCBs_loop (S fuel) p s = Some (SUCCESS, s).
Proof.
  intros Hc Ha. pose proof (chain_head _ _ _ _ _ Hc) as Hp.
  pose proof (chain_hdr _ _ _ _ _ Hc) as (_ & _ & Hty & _).
  cbn [joinMCBs_loop]. rewrite run_rd, <- Hp, Hty.
  destruct bs as [|c bs]; [reflexivity|]. rewrite Z.eqb_refl. cbn [negb].
  pose proof (mcbs_next _ _ _ _ _ Hc ltac:(done)) as Hnx. rewrite <- Hp in Hnx.
  pose proof (chain_tail _ _ _ _ _ Hc ltac:(done)) as Hct.
  pose proof (chain_free _ _ _ _ _ Hct) as Hfr.
  rewrite run_rd, Hnx, Hfr. simpl in Ha.
  destruct (is_free c) eqn:Hf; [|reflexivity].
  pose proof (absorb_length (merge b c) bs) as Hl.
  rewrite Ha in Hl. simpl in Hl. lia.
Qed.

Lemma join_loop_spec fuel s p b bs e :
  chain (mem s) p (b :: bs) e -> (length bs < fuel)%nat ->
  exists s', joinMCBs_loop fuel p s = Some (SUCCESS, s') /\
    chain (mem s') p ((absorb b bs).1 :: (absorb b bs).2) e /\ only p e s s'.
Proof.
  revert s b bs. induction fuel as [|fuel IH]; intros s b bs Hc Hf; [lia|].
  destruct bs as [|c bs].
  { exists s. split; [by eapply join_stop|]. split; [done|apply only_refl]. }
  simpl absorb. destruct (is_free c) eqn:Hfree.
  - destruct (join_step _ _ _ _ _ _ Hc Hfree) as (s1 & Hrun & Hc1 & Ho1).
    destruct (IH s1 _ _ Hc1 ltac:(simpl in Hf; lia)) as (s2 & Hrun2 & Hc2 & Ho2).
    exists s2. split; [by rewrite Hrun|]. split; [exact Hc2|by eapply only_trans].
  - exists s. split; [eapply join_stop; [exact Hc|by simpl; rewrite Hfree]|].
    split; [done|apply only_refl].
Qed.

Lemma joinMCBs_spec s p b bs e :
  chain (mem s) p (b :: bs) e ->
  exists s', joinMCBs p s = Some (SUCCESS, s') /\
    chain (mem s') p ((absorb b bs).1 :: (absorb b bs).2) e /\ only p e s s'.
Proof.
  intros Hc. apply join_loop_spec; [done|].
  pose proof (chain_fuel_enough _ _ _ _ Hc). simpl in *. lia.
Qed.

(** ** The search loop *)

(** Pointer [a] denotes the block of [o], [NULL] when there is none. *)
Definition ptr (m : gmap Z mcb) (o : option blk) (a : Z) : Prop :=
  match o with
  | Some b => a = b_seg b /\ 0 < b_seg b /\ m_size (m !!! a) = b_size b
  | None => a = NULL
  end.
Definition below (q : Z) (o : option blk) : Prop :=
  match o with Some b => b_seg b < q | None => True end.

Lemma ptr_frame m m' q o a :
  ptr m o a -> below q o -> (forall x, x < q -> m' !!! x = m !!! x) -> ptr m' o a.
Proof.
  destruct o as [b|]; simpl; [|done]. intros (-> & ? & ?) Hq Hm.
  by rewrite Hm.
Qed.

Lemma below_mono q q' o : below q o -> q <= q' -> below q' o.
Proof. destruct o; simpl; lia. Qed.

Lemma ptr_chain m q b bs e : chain m q (b :: bs) e -> ptr m (Some b) q.
Proof.
  intros H. pose proof (chain_head _ _ _ _ _ H) as <-.
  split; [done|]. destruct (chain_hdr _ _ _ _ _ H) as (? & _ & _ & _ & ?). done.
Qed.

(** What a visit of the MCB at [q] does, [r] being what follows the block. *)
Definition visited (k : policy) (size q : Z) (big fnd : option blk) (b : blk)
    (v : visit) (m : gmap Z mcb) : Prop :=
  match v with
  | VDestroyed => False
  | VStop f => k = PFirst /\ f = b_seg b /\ fits size b = true
  | VGo big' fnd' =>
      ptr m (larger big b) big' /\ ptr m (prefer k size fnd b) fnd' /\
      (k = PFirst -> fits size b = false)
  end.

Lemma visit_used size mode q big fnd b bs e obig ofnd s :
  chain (mem s) q (b :: bs) e -> is_free b = false ->
  ptr (mem s) obig big -> ptr (mem s) ofnd fnd ->
  exists v, visit_mcb size mode q big fnd s = Some (v, s) /\
    visited (policy_of mode) size q obig ofnd b v (mem s).
Proof.
  intros Hc Hf Hbig Hfnd. exists (VGo big fnd).
  unfold visit_mcb. rewrite run_rd, (chain_free _ _ _ _ _ Hc), Hf.
  split; [done|]. unfold visited, larger, prefer, fits. rewrite Hf. done.
Qed.

(** The choice of the bigger block, through pointers. *)
Lemma bigger_ptr m q b obig big :
  ptr m (Some b) q -> is_free b = true -> ptr m obig big ->
  ptr m (larger obig b)
    (if (big =? NULL) || (m_size (m !!! big) <? m_size (m !!! q)) then q else big).
Proof.
  intros Hq Hf Hbig. unfold larger. rewrite Hf.
  destruct Hq as (Hqs & Hpos & Hsz). subst q.
  destruct obig as [a|]; simpl in Hbig.
  - destruct Hbig as (-> & Ha & Has).
    replace (b_seg a =? NULL) with false by (symmetry; apply Z.eqb_neq; unfold NULL; lia).
    simpl orb. rewrite Has, Hsz. by destruct (b_size a <? b_size b).
  - subst big. simpl. done.
Qed.

Lemma better_ptr m q b ofnd fnd size :
  ptr m (Some b) q -> fits size b = true -> ptr m ofnd fnd ->
  ptr m (prefer PBest size ofnd b)
    (if (fnd =? NULL) || (m_size (m !!! q) <? m_size (m !!! fnd)) then q else fnd).
Proof.
  intros Hq Hf Hfnd. unfold prefer. rewrite Hf.
  destruct Hq as (Hqs & Hpos & Hsz). subst q.
  destruct ofnd as [a|]; simpl in Hfnd.
  - destruct Hfnd as (-> & Ha & Has).
    replace (b_seg a =? NULL) with false by (symmetry; apply Z.eqb_neq; unfold NULL; lia).
    simpl orb. rewrite Has, Hsz. by destruct (b_size b <? b_size a).
  - subst fnd. simpl. done.
Qed.

Lemma visit_free size mode q big fnd b bs e obig ofnd s :
  chain (mem s) q (b :: bs) e -> is_free b = true ->
  ptr (mem s) obig big -> below q obig -> ptr (mem s) ofnd fnd -> below q ofnd ->
  exists v s', visit_mcb size mode q big fnd s = Some (v, s') /\
    chain (mem s') q ((absorb b bs).1 :: (absorb b bs).2) e /\ only q e s s' /\
    visited (policy_of mode) size q obig ofnd (absorb b bs).1 v (mem s').
Proof.
  intros Hc Hf Hbig Hlb Hfnd Hlf.
  destruct (joinMCBs_spec _ _ _ _ _ Hc) as (s' & Hj & Hc' & Ho).
  set (b' := (absorb b bs).1) in *.
  assert (Hf' : is_free b' = true).
  { unfold is_free, b'. destruct (absorb_seg b bs) as [_ ->]. exact Hf. }
  assert (Hlow : forall x, x < q -> mem s' !!! x = mem s !!! x).
  { intros. apply (proj2 Ho). lia. }
  pose proof (ptr_frame _ _ _ _ _ Hbig Hlb Hlow) as Hbig'.
  pose proof (ptr_frame _ _ _ _ _ Hfnd Hlf Hlow) as Hfnd'.
  pose proof (ptr_chain _ _ _ _ _ Hc') as Hq.
  pose proof (bigger_ptr _ _ _ _ _ Hq Hf' Hbig') as HB.
  pose proof (chain_size _ _ _ _ _ Hc') as Hsz.
  assert (Hfits : (size <=? m_size (mem s' !!! q)) = fits size b').
  { unfold fits. rewrite Hf', Hsz. done. }
  unfold visit_mcb. rewrite run_rd, (chain_free _ _ _ _ _ Hc), Hf.
  rewrite (run_eq _ _ _ _ _ Hj), Z.eqb_refl. cbn [negb].
  rewrite !run_rd, Hfits.
  destruct (fits size b') eqn:Hfit.
  - pose proof (better_ptr _ _ _ _ _ _ Hq Hfit Hfnd') as HP.
    unfold visited, policy_of.
    destruct (mode =? LARGEST) eqn:E0; [|destruct (_ || _ || _) eqn:E1;
      [|destruct ((mode =? FIRST_FIT) || _ || _) eqn:E2]];
      eexists _, _; (split; [reflexivity|]); (split; [done|]); (split; [done|]); simpl.
    + split; [done|]. split; [|done]. unfold prefer. by rewrite Hfit.
    + split; [done|]. split; [exact HP|done].
    + destruct Hq as [-> _]. done.
    + split; [done|]. split; [|done]. unfold prefer. rewrite Hfit. exact Hq.
  - eexists _, _; split; [reflexivity|]. split; [done|]. split; [done|].
    split; [done|]. split; [|done]. unfold prefer. by rewrite Hfit.
Qed.

(** What the search loop leaves and returns, started at [q] on the blocks
    [bs], with the choices [obig] and [ofnd] made on the blocks before [q]. *)
Definition searched (k : policy) (size q : Z) (obig ofnd : option blk) (bs : list blk)
    (e : Z) (v : visit) (m : gmap Z mcb) : Prop :=
  match v with
  | VDestroyed => False
  | VGo big fnd =>
      chain m q (coalesce bs) e /\
      ptr m (largest obig (coalesce bs)) big /\
      ptr m (choose k size ofnd (coalesce bs)) fnd /\
      (k = PFirst -> Forall (fun b => fits size b = false) (coalesce bs))
  | VStop f =>
      k = PFirst /\ exists pre b rest,
        coalesce bs = pre ++ b :: coalesce rest /\
        chain m q (pre ++ b :: rest) e /\ used (pre ++ b :: rest) = used bs /\
        f = b_seg b /\ fits size b = true /\ Forall (fun b => fits size b = false) pre
  end.

(** One block visited, the rest still to be searched. *)
Lemma searched_cons k size q obig ofnd b b' bs rest e v s1 s2 :
  chain (mem s1) q (b' :: rest) e -> rest <> [] ->
  coalesce (b :: bs) = b' :: coalesce rest ->
  used (b' :: rest) = used (b :: bs) ->
  (k = PFirst -> fits size b' = false) ->
  only (b_end b') e s1 s2 ->
  searched k size (b_end b') (larger obig b') (prefer k size ofnd b') rest e v (mem s2) ->
  searched k size q obig ofnd (b :: bs) e v (mem s2).
Proof.
  intros Hc Hr Hco Hus Hk Ho Hs.
  pose proof (chain_head _ _ _ _ _ Hc) as <-.
  pose proof (chain_hdr _ _ _ _ _ Hc) as Hh.
  destruct rest as [|r rest]; [done|]. set (rs := r :: rest) in *.
  assert (Hh2 : hdr (mem s2) b' MCB_NORMAL).
  { eapply hdr_frame; [|exact Hh]. apply (proj2 Ho). unfold b_end. destruct Hh; lia. }
  unfold searched in *. destruct v as [|f|big fnd]; [done| |].
  - destruct Hs as (-> & pre & c & tl & Hcr & Hch & Hu & -> & Hfit & Hpre).
    split; [done|]. exists (b' :: pre), c, tl.
    rewrite Hco, Hcr.
    split; [done|]. split; [by constructor|]. split.
    { rewrite <- Hus. unfold used in *. cbn [app]. rewrite !(filter_cons _ b').
      case_decide; [f_equal|]; exact Hu. }
    split; [done|]. split; [done|]. constructor; auto.
  - destruct Hs as (Hch & Hbig & Hfnd & Hall). rewrite Hco.
    split; [by constructor|]. split; [exact Hbig|]. split; [exact Hfnd|].
    intros ->. constructor; auto.
Qed.

Lemma chain_last_inv m p b e : chain m p [b] e -> b_end b = e.
Proof. inversion 1 as [|? ? ? ? Hn]; subst; [done|inversion Hn]. Qed.

(** The blocks left at the visited MCB, for a free and for a used block. *)
Lemma visit_spec size mode q big fnd b bs e obig ofnd s :
  chain (mem s) q (b :: bs) e ->
  ptr (mem s) obig big -> below q obig -> ptr (mem s) ofnd fnd -> below q ofnd ->
  exists v s' b' rest, visit_mcb size mode q big fnd s = Some (v, s') /\
    chain (mem s') q (b' :: rest) e /\ only q e s s' /\
    (length rest <= length bs)%nat /\
    coalesce (b :: bs) = b' :: coalesce rest /\ used (b' :: rest) = used (b :: bs) /\
    visited (policy_of mode) size q obig ofnd b' v (mem s').
Proof.
  intros Hc Hbig Hlb Hfnd Hlf. destruct (is_free b) eqn:Hf.
  - destruct (visit_free size mode _ _ _ _ _ _ _ _ _ Hc Hf Hbig Hlb Hfnd Hlf)
      as (v & s' & Hr & Hc' & Ho & Hv).
    exists v, s', (absorb b bs).1, (absorb b bs).2.
    split; [done|]. split; [done|]. split; [done|]. split; [apply absorb_length|].
    split; [by apply coalesce_absorb|]. split; [|done].
    rewrite used_absorb, Hf. unfold used. rewrite filter_cons, Hf. done.
  - destruct (visit_used size mode _ _ _ _ _ _ _ _ _ Hc Hf Hbig Hfnd) as (v & Hr & Hv).
    exists v, s, b, bs. split; [done|]. split; [done|]. split; [apply only_refl|].
    split; [done|]. split; [|done]. cbn [coalesce]. by rewrite Hf.
Qed.

Lemma larger_below q q' o b : below q o -> q <= q' -> b_seg b < q' -> below q' (larger o b).
Proof.
  intros. unfold larger. destruct (is_free b); [|by eapply below_mono].
  destruct o as [a|]; simpl in *; [|lia]. destruct (b_size a <? b_size b); simpl; lia.
Qed.

Lemma prefer_below k size q q' o b :
  below q o -> q <= q' -> b_seg b < q' -> below q' (prefer k size o b).
Proof.
  intros. unfold prefer. destruct (fits size b); [|by eapply below_mono].
  destruct k, o as [a|]; simpl in *; try lia.
  destruct (b_size b <? b_size a); simpl; lia.
Qed.

Lemma search_spec size mode fuel q big fnd bs e obig ofnd s :
  chain (mem s) q bs e -> (length bs < fuel)%nat ->
  ptr (mem s) obig big -> below q obig -> ptr (mem s) ofnd fnd -> below q ofnd ->
  exists v s', search_loop fuel size mode q big fnd s = Some (v, s') /\
    only q e s s' /\
    searched (policy_of mode) size q obig ofnd bs e v (mem s').
Proof.
  revert q big fnd bs obig ofnd s.
  induction fuel as [|fuel IH];
    intros q big fnd bs obig ofnd s Hc Hfuel Hbig Hlb Hfnd Hlf; [lia|].
  destruct bs as [|b bs]; [inversion Hc|].
  destruct (visit_spec size mode _ _ _ _ _ _ _ _ _ Hc Hbig Hlb Hfnd Hlf)
    as (v & s1 & b' & rest & Hr & Hc1 & Ho1 & Hlen & Hco & Hus & Hv).
  pose proof (chain_head _ _ _ _ _ Hc1) as Hseg.
  pose proof (chain_end_le _ _ _ _ _ Hc1) as Hle.
  pose proof (chain_hdr _ _ _ _ _ Hc1) as (_ & Hsz & _).
  cbn [search_loop]. rewrite run_rd, (chain_valid _ _ _ _ _ Hc). cbn [negb].
  rewrite (run_eq _ _ _ _ _ Hr).
  destruct v as [|f|big' fnd']; [done| |].
  - destruct Hv as (Hk & -> & Hfit).
    eexists _, _. split; [reflexivity|]. split; [done|]. split; [done|].
    exists [], b', rest. by repeat split.
  - destruct Hv as (HB & HF & Hk).
    rewrite run_rd, (chain_type _ _ _ _ _ Hc1).
    destruct rest as [|r rest].
    + eexists _, _. split; [reflexivity|]. split; [done|].
      unfold searched. rewrite Hco. split; [done|]. split; [done|]. split; [done|].
      intros Hp. constructor; auto.
    + rewrite bool_decide_false by done.
      rewrite (mcbs_next _ _ _ _ _ Hc1) by done.
      pose proof (chain_tail _ _ _ _ _ Hc1 ltac:(done)) as Hct.
      destruct (IH (b_end b') big' fnd' (r :: rest) (larger obig b')
                  (prefer (policy_of mode) size ofnd b') s1) as (v & s2 & Hr2 & Ho2 & Hs2);
        [done|simpl in *; lia|done| |done| |].
      * eapply larger_below; [done|unfold b_end; lia..].
      * eapply prefer_below; [done|unfold b_end; lia..].
      * exists v, s2. split; [exact Hr2|]. split.
        { eapply only_trans; [done|]. eapply only_sub; [done|unfold b_end; lia|lia]. }
        eapply searched_cons; eauto.
Qed.

(** ** Taking a block *)

Definition last_mode (mode : Z) : bool :=
  (mode =? LAST_FIT) || (mode =? LAST_FIT_UO) || (mode =? LAST_FIT_U).

(** The blocks that replace a free block [b] when [size] paragraphs of it are
    taken, and which of them is the one taken: its prefix and its rest. *)
Definition carve (size mode cu : Z) (b : blk) : list blk * blk * list blk :=
  if (mode =? LARGEST) || (size =? b_size b) then
    ([], Blk (b_seg b) (b_size b) cu, [])
  else if last_mode mode then
    ([Blk (b_seg b) (b_size b - (size + 1)) FREE_PSP],
     Blk (b_seg b + (b_size b - size)) size cu, [])
  else
    ([], Blk (b_seg b) size cu,
     [Blk (b_seg b + size + 1) (b_size b - size - 1) FREE_PSP]).

Lemma used_free l : Forall (fun b => is_free b = true) l -> used l = [].
Proof.
  induction 1 as [|b l Hb _ IH]; [done|]. unfold used in *.
  rewrite filter_cons. by rewrite Hb.
Qed.

Lemma used_app l r : used (l ++ r) = used l ++ used r.
Proof. apply filter_app. Qed.

Lemma carve_used size mode cu b l t r :
  carve size mode cu b = (l, t, r) -> used l = [] /\ used r = [].
Proof.
  unfold carve. intros H.
  destruct (_ || _); [|destruct (last_mode mode)]; injection H as <- <- <-;
    split; apply used_free; repeat constructor.
Qed.

(** Blocks that tile the segments of [b] take its place in a chain. *)
Lemma chain_replace m m' p pre b rest e l z :
  chain m p (pre ++ b :: rest) e ->
  prefix m' (b_seg b) l (b_seg z) ->
  hdr m' z (if rest is [] then MCB_LAST else MCB_NORMAL) ->
  b_end z = b_end b ->
  (forall a, a < b_seg b \/ b_end b <= a -> m' !!! a = m !!! a) ->
  chain m' p (pre ++ l ++ z :: rest) e.
Proof.
  intros Hc Hl Hz Hend Hm.
  destruct (chain_split _ _ _ _ _ Hc ltac:(done)) as (q & Hp & Hcb).
  pose proof (chain_head _ _ _ _ _ Hcb) as <-.
  eapply prefix_chain.
  { eapply prefix_frame; [exact Hp|]. intros a ?. apply Hm. lia. }
  eapply prefix_chain; [exact Hl|].
  destruct rest as [|r rest].
  - pose proof (chain_last_inv _ _ _ _ Hcb) as <-. rewrite <- Hend.
    constructor; [done|]. apply chain_bounds in Hcb. lia.
  - constructor; [done|]. rewrite Hend. apply chain_tail in Hcb; [|done].
    eapply chain_frame; [exact Hcb|]. intros a ?. apply Hm. lia.
Qed.

Definition bounded (b : blk) : Prop := 0 < b_seg b /\ b_end b <= 65536.

Lemma chain_bounded m p l b r e :
  chain m p (l ++ b :: r) e -> bounded b /\ 0 <= b_size b /\ p <= b_seg b /\ b_end b <= e.
Proof.
  intros Hc. destruct (chain_split _ _ _ _ _ Hc ltac:(done)) as (q & Hp & Hcb).
  pose proof (chain_head _ _ _ _ _ Hcb) as <-.
  pose proof (prefix_le _ _ _ _ Hp). pose proof (chain_end_le _ _ _ _ _ Hcb).
  pose proof (chain_bounds _ _ _ _ Hcb). destruct (chain_hdr _ _ _ _ _ Hcb) as (? & ? & _).
  unfold bounded. lia.
Qed.

Lemma chain_hdr_at m p l b r e :
  chain m p (l ++ b :: r) e -> hdr m b (if r is [] then MCB_LAST else MCB_NORMAL).
Proof.
  intros Hc. destruct (chain_split _ _ _ _ _ Hc ltac:(done)) as (q & _ & Hcb).
  by apply chain_hdr in Hcb.
Qed.

(** Evaluates a straight-line run. *)
Ltac run_all :=
  repeat first
    [ rewrite run_rd | rewrite run_wr | rewrite run_ret | rewrite run_get
    | rewrite run_mod | rewrite run_assoc ].

Section TakeBlock.
Context (s : mm) (p : Z) (pre : list blk) (b : blk) (rest : list blk) (e : Z).
Context (size mode : Z).
Hypothesis Hc : chain (mem s) p (pre ++ b :: rest) e.

Let taken (l : list blk) (t : blk) (r : list blk) : Prop :=
  exists s', take_block size mode (b_seg b) s = Some (b_seg t, s') /\
    only (b_seg b) (b_end b) s s' /\
    chain (mem s') p (pre ++ l ++ t :: r ++ rest) e.

Lemma take_whole :
  (mode =? LARGEST) || (size =? b_size b) = true ->
  taken [] (Blk (b_seg b) (b_size b) (cu_psp s)) [].
Proof.
  intros E. unfold taken, take_block.
  destruct (chain_bounded _ _ _ _ _ _ Hc) as ((Hpos & Hmax) & Hsz & _ & _).
  destruct (chain_hdr_at _ _ _ _ _ _ Hc) as (_ & _ & Hty & _ & Hsize).
  rewrite run_rd, Hsize, <- negb_orb, E. cbn [negb]. run_all.
  eexists. split; [reflexivity|]. split.
  { split; [done|]. intros a Ha. unfold b_end in Ha. mlook. done. }
  eapply (chain_replace _ _ _ _ _ _ _ [] _ Hc); [constructor| |done|].
  - repeat split; simpl; mlook; done.
  - intros a Ha. unfold b_end in Ha. mlook. done.
Qed.

Lemma take_high :
  (mode =? LARGEST) || (size =? b_size b) = false ->
  last_mode mode = true -> 0 <= size < b_size b ->
  taken [Blk (b_seg b) (b_size b - (size + 1)) FREE_PSP]
    (Blk (b_seg b + (b_size b - size)) size (cu_psp s)) [].
Proof.
  intros E El Hfit. unfold taken, take_block.
  destruct (chain_bounded _ _ _ _ _ _ Hc) as ((Hpos & Hmax) & Hsz & _ & _).
  destruct (chain_hdr_at _ _ _ _ _ _ Hc) as (_ & _ & Hty & _ & Hsize).
  unfold last_mode in El.
  rewrite run_rd, Hsize, <- negb_orb, E, El. cbn [negb]. cbv zeta. run_all.
  assert (Hnx : forall (m : gmap Z mcb) x, m_size x = b_size b ->
    nxtMCB (b_seg b) (<[b_seg b:=set_size (u16 (m_size x - (size + 1))) x]> m
                        !!! b_seg b) = b_seg b + (b_size b - size)).
  { intros m x Hx. mlook. unfold nxtMCB, nxtMCBsize. mlook. rewrite Hx.
    unfold b_end in *. rewrite !u16_small; rewrite ?u16_small; lia. }
  cbn [mem with_mem]. rewrite !(Hnx _ _ Hsize).
  eexists. split; [reflexivity|]. split.
  { split; [done|]. intros a Ha. unfold b_end in Ha. mlook. done. }
  eapply (chain_replace _ _ _ _ _ _ _ [_] (Blk _ _ _) Hc).
  - simpl b_seg.
    replace (b_seg b + (b_size b - size))
      with (b_end (Blk (b_seg b) (b_size b - (size + 1)) FREE_PSP))
      by (unfold b_end; simpl; lia).
    apply (prefix_one _ (Blk (b_seg b) (b_size b - (size + 1)) FREE_PSP)).
    repeat split; unfold b_end in *; simpl; mlook; try done; try lia.
    rewrite Hsize, u16_small; unfold b_end in *; lia.
  - repeat split; simpl; mlook; try done; unfold b_end in *; try lia.
  - unfold b_end. simpl. lia.
  - intros a Ha. unfold b_end in *. simpl. mlook. done.
Qed.

Lemma take_low :
  (mode =? LARGEST) || (size =? b_size b) = false ->
  last_mode mode = false -> 0 <= size < b_size b ->
  taken [] (Blk (b_seg b) size (cu_psp s))
    [Blk (b_seg b + size + 1) (b_size b - size - 1) FREE_PSP].
Proof.
  intros E El Hfit. unfold taken, take_block.
  destruct (chain_bounded _ _ _ _ _ _ Hc) as ((Hpos & Hmax) & Hsz & _ & _).
  destruct (chain_hdr_at _ _ _ _ _ _ Hc) as (_ & _ & Hty & _ & Hsize).
  unfold last_mode in El.
  rewrite run_rd, Hsize, <- negb_orb, E, El. cbn [negb]. cbv zeta. unfold nxtMCBsize.
  rewrite (u16_small (b_seg b + size + 1)) by (unfold b_end in *; lia). run_all.
  eexists. split; [reflexivity|]. split.
  { split; [done|]. intros a Ha. unfold b_end in Ha. mlook. done. }
  eapply (chain_replace _ _ _ _ _ _ _ [_] (Blk _ _ _) Hc).
  - apply (prefix_one _ (Blk (b_seg b) size (cu_psp s))).
    repeat split; simpl; mlook; lia || done.
  - repeat split; unfold b_end in *; simpl; mlook; try done; try lia.
    rewrite Hsize, u16_small; lia.
  - unfold b_end. simpl. lia.
  - intros a Ha. unfold b_end in *. simpl. mlook. done.
Qed.

Lemma take_block_spec l t r :
  0 <= size -> mode = LARGEST \/ size <= b_size b ->
  carve size mode (cu_psp s) b = (l, t, r) -> taken l t r.
Proof.
  intros Hs0 Hfit. unfold carve. fold (last_mode mode).
  destruct (_ || _) eqn:E.
  - intros [= <- <- <-]. by apply take_whole.
  - assert (0 <= size < b_size b).
    { apply orb_false_iff in E as [E0 E1]. zbool. lia. }
    destruct (last_mode mode) eqn:El; intros [= <- <- <-];
      [by apply take_high|by apply take_low].
Qed.
End TakeBlock.


(** ** The choice on the coalesced list *)

Lemma used_coalesce bs : used (coalesce bs) = used bs.
Proof.
  induction bs as [|b bs IH]; [done|]. cbn [coalesce].
  destruct (is_free b) eqn:Hb.
  - transitivity (used bs); [rewrite <- IH|unfold used; by rewrite filter_cons, Hb].
    destruct (coalesce bs) as [|c cs]; [|destruct (is_free c) eqn:Hc];
      unfold used; rewrite !filter_cons, ?is_free_merge, ?Hb, ?Hc; done.
  - unfold used in *. rewrite !filter_cons, Hb. simpl. by f_equal.
Qed.

(** The choice is the one made so far or a block of the list that fits. *)
Lemma choose_in k size acc bs b :
  choose k size acc bs = Some b -> acc = Some b \/ (b ∈ bs /\ fits size b = true).
Proof.
  revert acc. induction bs as [|c bs IH]; intros acc H; [by left|].
  destruct (IH _ H) as [Ha|[Hin Hf]]; [|right; split; [by right|done]].
  unfold prefer in Ha. destruct (fits size c) eqn:Hf; [|by left].
  destruct k, acc as [a|]; try destruct (b_size c <? b_size a); simplify_eq; auto;
    right; (split; [by left|done]).
Qed.

Lemma largest_in acc bs b :
  largest acc bs = Some b -> acc = Some b \/ (b ∈ bs /\ is_free b = true).
Proof.
  revert acc. induction bs as [|c bs IH]; intros acc H; [by left|].
  destruct (IH _ H) as [Ha|[Hin Hf]]; [|right; split; [by right|done]].
  unfold larger in Ha. destruct (is_free c) eqn:Hf; [|by left].
  destruct acc as [a|]; try destruct (b_size a <? b_size c); simplify_eq; auto;
    right; (split; [by left|done]).
Qed.

Lemma choose_none_fits k size acc bs :
  Forall (fun b => fits size b = false) bs -> choose k size acc bs = acc.
Proof.
  intros H. revert acc. induction H as [|b bs Hb _ IH]; intros acc; [done|].
  unfold choose in *. simpl. rewrite IH. unfold prefer. by rewrite Hb.
Qed.

Lemma choose_first size bs b : choose PFirst size (Some b) bs = Some b.
Proof.
  induction bs as [|c bs IH]; [done|]. unfold choose in *. simpl.
  unfold prefer at 2. destruct (fits size c); exact IH.
Qed.

Lemma choose_first_at size pre b rest :
  Forall (fun b => fits size b = false) pre -> fits size b = true ->
  choose PFirst size None (pre ++ b :: rest) = Some b.
Proof.
  intros Hpre Hb. unfold choose. rewrite fold_left_app. simpl.
  pose proof (choose_none_fits PFirst size None _ Hpre) as Hn. unfold choose in Hn.
  rewrite Hn. unfold prefer at 2. rewrite Hb. apply choose_first.
Qed.

Lemma choose_largest size bs : choose PLargest size None bs = None.
Proof.
  unfold choose. induction bs as [|b bs IH]; [done|]. simpl.
  unfold prefer at 2. by destruct (fits size b).
Qed.

(** The block an allocation takes, on the list of all coalesced blocks. *)
Definition chosen (mode size : Z) (bs : list blk) : option blk :=
  if mode =? LARGEST then
    match largest None (coalesce bs) with
    | Some b => if size <=? b_size b then Some b else None
    | None => None
    end
  else choose (policy_of mode) size None (coalesce bs).

(** A block without a paragraph of data is refused, but not by first fit. *)
Definition usable (mode : Z) (b : blk) : bool :=
  match policy_of mode with PFirst => true | _ => negb (b_size b =? 0) end.

Definition chosen_usable (mode size : Z) (bs : list blk) : option blk :=
  match chosen mode size bs with
  | Some b => if usable mode b then Some b else None
  | None => None
  end.

Definition size_of (o : option blk) : Z :=
  match o with Some b => b_size b | None => 0 end.

(** The promise of one search of [DosMemAlloc] over the blocks [bs] that lie
    from segment [q] to [e]. *)
Definition alloc_post (size mode : Z) (asize : bool) (q : Z) (bs : list blk) (e : Z)
    (s : mm) (r : alloc_res) (s' : mm) : Prop :=
  only q e s s' /\
  match chosen_usable mode size bs with
  | Some b =>
      exists pre n rest,
        chain (mem s') q (pre ++ n :: rest) e /\
        b_psp n = cu_psp s /\
        b_size n = (if mode =? LARGEST then b_size b else size) /\
        b_seg b <= b_seg n /\ b_end n <= b_end b /\
        used bs = used pre ++ used rest /\
        r = AllocRes SUCCESS (Some (b_seg n))
              (if mode =? LARGEST then Some (b_size b) else None)
  | None =>
      chain (mem s') q (coalesce bs) e /\
      r = AllocRes DE_NOMEM None
            (if asize then Some (size_of (largest None (coalesce bs))) else None)
  end.

Lemma carve_in size mode cu b l t r :
  carve size mode cu b = (l, t, r) -> 0 <= size ->
  mode = LARGEST \/ size <= b_size b ->
  b_psp t = cu /\ b_size t = (if mode =? LARGEST then b_size b else size) /\
  b_seg b <= b_seg t /\ b_end t <= b_end b.
Proof.
  unfold carve, b_end. intros H Hs Hfit.
  destruct (_ || _) eqn:E; [|destruct (last_mode mode)]; injection H as <- <- <-; simpl.
  - destruct (mode =? LARGEST); [lia|]. simpl in E. zbool. lia.
  - apply orb_false_iff in E as [E0 E1]. rewrite E0. zbool. lia.
  - apply orb_false_iff in E as [E0 E1]. rewrite E0. zbool. lia.
Qed.

(** Taking the chosen block keeps the promise. *)
Lemma take_post size mode asize q bs e s s1 pre b rest out :
  chain (mem s1) q (pre ++ b :: rest) e -> only q e s s1 ->
  used (pre ++ b :: rest) = used bs -> is_free b = true -> 0 <= size ->
  mode = LARGEST \/ size <= b_size b ->
  chosen_usable mode size bs = Some b ->
  out = (if mode =? LARGEST then Some (b_size b) else None) ->
  exists n s', take_block size mode (b_seg b) s1 = Some (n, s') /\
    alloc_post size mode asize q bs e s (AllocRes SUCCESS (Some n) out) s'.
Proof.
  intros Hc Ho Hu Hf Hs Hfit Hch Hout.
  destruct (carve size mode (cu_psp s1) b) as [[l t] r] eqn:Hcv.
  destruct (take_block_spec _ _ _ _ _ _ size mode Hc _ _ _ Hs Hfit Hcv)
    as (s' & Hrun & Ho' & Hc').
  destruct (carve_in _ _ _ _ _ _ _ Hcv Hs Hfit) as (Hp & Hsz & Hlo & Hhi).
  destruct (carve_used _ _ _ _ _ _ _ Hcv) as [Hul Hur].
  destruct (chain_bounded _ _ _ _ _ _ Hc) as (_ & _ & Hqlo & Hqhi).
  exists (b_seg t), s'. split; [done|]. split.
  { eapply only_trans; [done|]. by eapply only_sub. }
  rewrite Hch. exists (pre ++ l), t, (r ++ rest).
  split; [by rewrite <- app_assoc|]. split; [by rewrite <- (only_cu _ _ _ _ Ho)|].
  split; [done|]. split; [done|]. split; [done|]. split; [|by subst out].
  rewrite <- Hu, !used_app, Hul, Hur, app_nil_r. simpl.
  unfold used. rewrite filter_cons, Hf. done.
Qed.

(** ** DosMemAlloc *)

(** The condition of the jump to [searchAgain]. *)
Definition retries (mode : Z) (s : mm) : bool :=
  negb (mode =? LARGEST) && has mode FIRST_FIT_U
    && has (uppermem_link s) 1 && negb (uppermem_root s =? 0xffff).

Lemma elem_split (b : blk) l : b ∈ l -> exists pre rest, l = pre ++ b :: rest.
Proof. apply list_elem_of_split. Qed.

Lemma ptr_some_not_null m b a : ptr m (Some b) a -> (a =? NULL) = false.
Proof. intros (-> & ? & _). apply Z.eqb_neq. unfold NULL. lia. Qed.

Lemma ptr_size m o a :
  ptr m o a -> (if a =? NULL then 0 else m_size (m !!! a)) = size_of o.
Proof.
  destruct o as [b|]; intros H.
  - rewrite (ptr_some_not_null _ _ _ H). by destruct H as (_ & _ & H).
  - simpl in H. by subst a.
Qed.

Lemma policy_largest mode : (mode =? LARGEST) = true -> policy_of mode = PLargest.
Proof. intros H. unfold policy_of. by rewrite H. Qed.

Lemma only_retries lo hi s s' mode : only lo hi s s' -> retries mode s' = retries mode s.
Proof. intros [-> _]. done. Qed.

(** The part of a round after a search that came to the end of the chain. *)
Section AllocEnd.
Context (size mode : Z) (asize : bool) (bs : list blk) (q e : Z) (s s1 : mm).
Context (big fnd : Z).
Hypothesis (Hsize : 0 <= size) (Hasize : mode = LARGEST -> asize = true).
Hypothesis (Ho : only q e s s1) (Hch : chain (mem s1) q (coalesce bs) e).
Hypothesis (Hbig : ptr (mem s1) (largest None (coalesce bs)) big).
Hypothesis (Hfnd : ptr (mem s1) (choose (policy_of mode) size None (coalesce bs)) fnd).
Hypothesis Hfirst :
  policy_of mode = PFirst -> Forall (fun b => fits size b = false) (coalesce bs).

(** [foundSeg] after the statement that prefers the largest block. *)
Definition final_found : Z * option Z :=
  if (mode =? LARGEST) && negb (big =? NULL) && (size <=? m_size (mem s1 !!! big))
  then (big, Some (m_size (mem s1 !!! big))) else (fnd, None).

Lemma final_ptr : ptr (mem s1) (chosen mode size bs) final_found.1.
Proof using Hbig Hfnd.
  unfold final_found, chosen. destruct (mode =? LARGEST) eqn:Em; simpl; [|exact Hfnd].
  destruct (largest None (coalesce bs)) as [b|] eqn:El.
  - rewrite (ptr_some_not_null _ _ _ Hbig). simpl.
    pose proof Hbig as (_ & _ & Hsz). rewrite Hsz.
    destruct (size <=? b_size b) eqn:Ef; [exact Hbig|].
    rewrite (policy_largest _ Em), choose_largest in Hfnd. exact Hfnd.
  - simpl in Hbig. rewrite Hbig. simpl.
    rewrite (policy_largest _ Em), choose_largest in Hfnd. exact Hfnd.
Qed.

Lemma chosen_in b :
  chosen mode size bs = Some b ->
  b ∈ coalesce bs /\ is_free b = true /\ size <= b_size b /\
  final_found.2 = (if mode =? LARGEST then Some (b_size b) else None) /\
  policy_of mode <> PFirst.
Proof using Hbig Hfirst.
  unfold chosen, final_found. destruct (mode =? LARGEST) eqn:Em.
  - destruct (largest None (coalesce bs)) as [b'|] eqn:El; [|done].
    destruct (size <=? b_size b') eqn:Ef; [|done]. intros [= <-].
    destruct (largest_in _ _ _ El) as [?|[Hin Hf]]; [done|]. zbool.
    rewrite (ptr_some_not_null _ _ _ Hbig). simpl.
    pose proof Hbig as (_ & _ & Hsz). rewrite Hsz.
    rewrite (proj2 (Z.leb_le _ _) Ef).
    split; [done|]. split; [done|]. split; [done|]. split; [done|].
    by rewrite Em.
  - intros Hc. destruct (choose_in _ _ _ _ _ Hc) as [?|[Hin Hf]]; [done|].
    pose proof Hf as Hff. unfold fits in Hff. zbool. simpl.
    split; [done|]. split; [done|]. split; [done|]. split; [done|].
    intros Hp. specialize (Hfirst Hp). rewrite Forall_forall in Hfirst.
    by rewrite (Hfirst _ Hin) in Hf.
Qed.

(** Whether the code sees no usable block. *)
Lemma final_refused :
  (final_found.1 =? NULL) || (m_size (mem s1 !!! final_found.1) =? 0) =
  match chosen_usable mode size bs with Some _ => false | None => true end.
Proof using Hbig Hfnd Hfirst.
  pose proof final_ptr as Hp. unfold chosen_usable.
  destruct (chosen mode size bs) as [b|] eqn:Hc.
  - rewrite (ptr_some_not_null _ _ _ Hp). destruct Hp as (_ & _ & ->). simpl.
    destruct (chosen_in _ Hc) as (_ & _ & _ & _ & Hk).
    unfold usable. destruct (policy_of mode); try done; by destruct (b_size b =? 0).
  - simpl in Hp. by rewrite Hp.
Qed.

Lemma final_take b :
  chosen_usable mode size bs = Some b ->
  exists n s', take_block size mode final_found.1 s1 = Some (n, s') /\
    alloc_post size mode asize q bs e s (AllocRes SUCCESS (Some n) final_found.2) s'.
Proof.
  intros Hcu. pose proof Hcu as Hc. unfold chosen_usable in Hc.
  destruct (chosen mode size bs) as [b'|] eqn:Hc'; [|done].
  destruct (usable mode b'); [|done]. injection Hc as ->.
  destruct (chosen_in _ Hc') as (Hin & Hf & Hle & Hout & _).
  pose proof final_ptr as Hp. rewrite Hc' in Hp. destruct Hp as (-> & _).
  destruct (elem_split _ _ Hin) as (pre & rest & Heq).
  rewrite Heq in Hch.
  eapply take_post; try done; [|by right].
  rewrite <- Heq. apply used_coalesce.
Qed.
End AllocEnd.

(** A first-fit search that stopped early. *)
Lemma stop_round size mode asize q bs e s s1 f :
  0 <= size -> only q e s s1 ->
  searched (policy_of mode) size q None None bs e (VStop f) (mem s1) ->
  exists b n s', chosen_usable mode size bs = Some b /\
    take_block size mode f s1 = Some (n, s') /\
    alloc_post size mode asize q bs e s (AllocRes SUCCESS (Some n) None) s'.
Proof.
  intros Hs Ho (Hk & pre & b & rest & Hco & Hch & Hu & -> & Hfit & Hpre).
  assert (Hm : (mode =? LARGEST) = false).
  { destruct (mode =? LARGEST) eqn:Em; [|done]. by rewrite (policy_largest _ Em) in Hk. }
  assert (Hcu : chosen_usable mode size bs = Some b).
  { unfold chosen_usable, chosen, usable. rewrite Hm, Hk, Hco. by rewrite choose_first_at. }
  pose proof Hfit as Hfit'.
  apply andb_true_iff in Hfit' as [Hfree Hle]. apply Z.leb_le in Hle.
  destruct (take_post size mode asize q bs e s s1 pre b rest None)
    as (n' & s' & Ht & Hp); try done; [by right|by rewrite Hm|].
  by exists b, n', s'.
Qed.

(** One round of the search, up to the jump back. *)
Lemma alloc_round n size mode asize bs e s :
  chain (mem s) (search_start size mode s) bs e -> 0 <= size ->
  (mode = LARGEST -> asize = true) ->
  exists s',
    match chosen_usable mode size bs with
    | None =>
        if retries mode s then
          alloc_loop (S n) size mode asize s =
            alloc_loop n size (clear mode FIRST_FIT_U) asize s' /\
          only (search_start size mode s) e s s' /\
          chain (mem s') (search_start size mode s) (coalesce bs) e
        else exists r, alloc_loop (S n) size mode asize s = Some (r, s') /\
          alloc_post size mode asize (search_start size mode s) bs e s r s'
    | Some _ => exists r, alloc_loop (S n) size mode asize s = Some (r, s') /\
          alloc_post size mode asize (search_start size mode s) bs e s r s'
    end.
Proof.
  intros Hc Hs Has. set (q := search_start size mode s) in *.
  destruct (search_spec size mode chain_fuel q NULL NULL bs e None None s Hc
              (chain_fuel_enough _ _ _ _ Hc)) as (v & s1 & Hr & Ho & Hv); [done..|].
  cbn [alloc_loop]. rewrite run_get. fold q. rewrite (run_eq _ _ _ _ _ Hr).
  destruct v as [|f|big fnd]; [done| |].
  - destruct (stop_round size mode asize q bs e s s1 f Hs Ho Hv)
      as (b & n' & s' & Hcu & Ht & Hp).
    exists s'. rewrite Hcu. eexists. split; [by rewrite (run_eq _ _ _ _ _ Ht)|done].
  - destruct Hv as (Hch & Hbig & Hfnd & Hfirst).
    rewrite run_rd.
    assert (Hff : forall (k : Z * option Z -> K mm alloc_res),
      kbind (if (mode =? LARGEST) && negb (big =? NULL) && (size <=? m_size (mem s1 !!! big))
             then if asize then kret (big, Some (m_size (mem s1 !!! big))) else kstuck
             else kret (fnd, None)) k s1 = k (final_found size mode s1 big fnd) s1).
    { intros k. unfold final_found. destruct (_ && _ && _) eqn:E; [|done].
      zbool. by rewrite Has. }
    rewrite Hff. clear Hff.
    pose proof (final_refused size mode bs s1 big fnd Hbig Hfnd Hfirst) as Href.
    pose proof (final_take size mode asize bs q e s s1 big fnd Hs Ho Hch Hbig Hfnd Hfirst)
      as Htake.
    pose proof (only_retries _ _ _ _ mode Ho) as Hret.
    destruct (final_found size mode s1 big fnd) as [found out] eqn:Hfin.
    cbn [fst snd] in *. rewrite run_rd, Href.
    destruct (chosen_usable mode size bs) as [b|] eqn:Hcu.
    + destruct (Htake b eq_refl) as (n' & s' & Ht & Hp).
      exists s'. eexists. split; [by rewrite (run_eq _ _ _ _ _ Ht)|exact Hp].
    + rewrite run_get. fold (retries mode s1). rewrite Hret.
      exists s1. destruct (retries mode s); [done|].
      eexists. split; [reflexivity|]. split; [done|]. rewrite Hcu. split; [done|].
      rewrite (ptr_size _ _ _ Hbig). f_equal. destruct asize; [done|].
      unfold final_found in Hfin. destruct (_ && _ && _) eqn:E; [|by injection Hfin].
      zbool. specialize (Has ltac:(done)). done.
Qed.

(** ** Ownership changes *)

Definition set_owner (v : Z) (b : blk) : blk := Blk (b_seg b) (b_size b) v.

(** A store that changes only the owner field of one header. *)
Lemma chain_owner m m' p pre b rest e v :
  chain m p (pre ++ b :: rest) e ->
  m_type (m' !!! b_seg b) = m_type (m !!! b_seg b) ->
  m_size (m' !!! b_seg b) = m_size (m !!! b_seg b) ->
  m_psp (m' !!! b_seg b) = v ->
  (forall a, a <> b_seg b -> m' !!! a = m !!! a) ->
  chain m' p (pre ++ set_owner v b :: rest) e.
Proof.
  intros Hc Ht Hs Hp Hm.
  destruct (chain_hdr_at _ _ _ _ _ _ Hc) as (H0 & H1 & H2 & H3 & H4).
  assert (Hh : hdr m' (set_owner v b) (if rest is [] then MCB_LAST else MCB_NORMAL)).
  { repeat split; simpl; congruence. }
  destruct (chain_split _ _ _ _ _ Hc ltac:(done)) as (q & Hpre & Hcb).
  pose proof (chain_head _ _ _ _ _ Hcb) as <-.
  eapply prefix_chain.
  { eapply prefix_frame; [exact Hpre|]. intros a Ha. apply Hm. lia. }
  destruct rest as [|r rest].
  - pose proof (chain_last_inv _ _ _ _ Hcb) as <-.
    change (b_end b) with (b_end (set_owner v b)).
    change (b_seg b) with (b_seg (set_owner v b)). constructor; [done|].
    apply chain_bounds in Hcb. unfold b_end in *. simpl. lia.
  - change (b_seg b) with (b_seg (set_owner v b)). constructor; [done|].
    apply chain_tail in Hcb; [|done]. eapply chain_frame; [exact Hcb|].
    intros a Ha. apply Hm. unfold b_end in *. simpl in *. lia.
Qed.

Lemma chain_psp_at m p l b r e : chain m p (l ++ b :: r) e -> m_psp (m !!! b_seg b) = b_psp b.
Proof. intros H. by destruct (chain_hdr_at _ _ _ _ _ _ H) as (_ & _ & _ & ? & _). Qed.

Lemma hdr_freeable m b (t : bool) :
  hdr m b (if t then MCB_LAST else MCB_NORMAL) -> mcbFreeable (m !!! b_seg b) = true.
Proof. intros (_ & _ & Ht & _). unfold mcbFreeable. rewrite Ht. by destruct t. Qed.

Lemma chain_freeable_at m p l b r e :
  chain m p (l ++ b :: r) e -> mcbFreeable (m !!! b_seg b) = true.
Proof.
  intros H. apply chain_hdr_at in H. apply (hdr_freeable _ _ (if r is [] then true else false)).
  by destruct r.
Qed.

Lemma free_run s p pre b rest e :
  chain (mem s) p (pre ++ b :: rest) e ->
  exists s', DosMemFree (b_seg b) s = Some (SUCCESS, s') /\
    chain (mem s') p (pre ++ set_owner FREE_PSP b :: rest) e /\
    only (b_seg b) (b_seg b + 1) s s'.
Proof.
  intros Hc. pose proof (chain_freeable_at _ _ _ _ _ _ Hc) as Hf.
  destruct (chain_hdr_at _ _ _ _ _ _ Hc) as (Hpos & _).
  unfold DosMemFree.
  replace (b_seg b =? 0) with false by (symmetry; apply Z.eqb_neq; lia).
  unfold para2far. rewrite run_rd, Hf. cbn [negb]. run_all.
  eexists. split; [reflexivity|]. split.
  - eapply chain_owner; [exact Hc|mlook; done..|]. intros a Ha. mlook. done.
  - split; [done|]. intros a Ha. mlook. done.
Qed.

(** ** DosMemChange *)

(** The blocks left by a successful resize of [b], already grown, to [size]. *)
Definition resized (size cu : Z) (b : blk) (rest : list blk) : list blk :=
  if size <? b_size b then
    let '(f, rest') :=
      absorb (Blk (b_seg b + size + 1) (b_size b - size - 1) FREE_PSP) rest in
    Blk (b_seg b) size cu :: f :: rest'
  else Blk (b_seg b) (b_size b) cu :: rest.

(** Cutting a block in two before the join. *)
Lemma shrink_run s p pre b rest e size :
  chain (mem s) p (pre ++ b :: rest) e -> 0 <= size < b_size b ->
  exists s1, (forall k : Z -> K mm (Z * option Z),
    kbind (let q := nxtMCBsize (b_seg b) size in
           do! wr q (set_size (u16 (b_size b - size - 1))) in
           let! pb := rd (b_seg b) in
           do! wr q (set_type (m_type pb)) in
           do! wr (b_seg b) (set_size size) in
           do! wr (b_seg b) (set_type MCB_NORMAL) in
           do! wr q (set_psp FREE_PSP) in
           do! wr q (set_name (replicate 8 0)) in
           joinMCBs q) k s = kbind (joinMCBs (b_seg b + size + 1)) k s1) /\
    only (b_seg b) (b_end b) s s1 /\
    chain (mem s1) p (pre ++ Blk (b_seg b) size (b_psp b) ::
             Blk (b_seg b + size + 1) (b_size b - size - 1) FREE_PSP :: rest) e.
Proof.
  intros Hc Hs.
  destruct (chain_bounded _ _ _ _ _ _ Hc) as ((Hpos & Hmax) & Hsz & _ & _).
  destruct (chain_hdr_at _ _ _ _ _ _ Hc) as (_ & _ & Hty & Hpsp & Hsize).
  assert (Hq : nxtMCBsize (b_seg b) size = b_seg b + size + 1).
  { unfold nxtMCBsize, b_end in *. apply u16_small. lia. }
  eexists. split; [|split].
  - intros k. cbv zeta. rewrite Hq. run_all. reflexivity.
  - split; [done|]. intros a Ha. unfold b_end in *. mlook. done.
  - eapply (chain_replace _ _ _ _ _ _ _ [_] (Blk _ _ _) Hc).
    + apply (prefix_one _ (Blk (b_seg b) size (b_psp b))).
      repeat split; simpl; mlook; lia || done.
    + repeat split; unfold b_end in *; simpl; mlook; try done; try lia.
      rewrite u16_small; lia.
    + unfold b_end. simpl. lia.
    + intros a Ha. unfold b_end in *. simpl. mlook. done.
Qed.

Lemma chain_valid_at m p l b r e :
  chain m p (l ++ b :: r) e -> mcbValid (m !!! b_seg b) = true.
Proof.
  intros Hc. destruct (chain_split _ _ _ _ _ Hc ltac:(done)) as (q & _ & Hcb).
  pose proof (chain_head _ _ _ _ _ Hcb) as <-. by eapply chain_valid.
Qed.

Lemma chain_size_at m p l b r e :
  chain m p (l ++ b :: r) e -> m_size (m !!! b_seg b) = b_size b.
Proof. intros H. by destruct (chain_hdr_at _ _ _ _ _ _ H) as (_ & _ & _ & _ & ?). Qed.

(** [joinMCBs] in the middle of a chain. *)
Lemma join_at s p pre b rest e :
  chain (mem s) p (pre ++ b :: rest) e ->
  exists s', joinMCBs (b_seg b) s = Some (SUCCESS, s') /\
    chain (mem s') p (pre ++ (absorb b rest).1 :: (absorb b rest).2) e /\
    only (b_seg b) e s s'.
Proof.
  intros Hc. destruct (chain_split _ _ _ _ _ Hc ltac:(done)) as (q & Hp & Hcb).
  pose proof (chain_head _ _ _ _ _ Hcb) as <-.
  destruct (joinMCBs_spec _ _ _ _ _ Hcb) as (s' & Hr & Hc' & Ho).
  exists s'. split; [done|]. split; [|done].
  eapply prefix_chain; [|exact Hc'].
  eapply prefix_frame; [exact Hp|]. intros a Ha. apply (proj2 Ho). lia.
Qed.

(** The last part of a resize: cut if too large, then take the ownership. *)
Lemma resize_tail s p pre b rest e size :
  chain (mem s) p (pre ++ b :: rest) e -> 0 <= size <= b_size b ->
  exists s', kbind (rd (b_seg b)) (fun pb =>
     let! rc :=
        (if size <? m_size pb then
           let q := nxtMCBsize (b_seg b) size in
           do! wr q (set_size (u16 (m_size pb - size - 1))) in
           let! pb := rd (b_seg b) in
           do! wr q (set_type (m_type pb)) in
           do! wr (b_seg b) (set_size size) in
           do! wr (b_seg b) (set_type MCB_NORMAL) in
           do! wr q (set_psp FREE_PSP) in
           do! wr q (set_name (replicate 8 0)) in
           joinMCBs q
         else kret SUCCESS) in
      if negb (rc =? SUCCESS) then kret (DE_MCBDESTRY, None) else
      let! s := kget in
      do! wr (b_seg b) (set_psp (cu_psp s)) in
      kret (SUCCESS, None)) s = Some ((SUCCESS, @None Z), s') /\
    chain (mem s') p (pre ++ resized size (cu_psp s) b rest) e /\ only (b_seg b) e s s'.
Proof.
  intros Hc Hs. rewrite run_rd, (chain_size_at _ _ _ _ _ _ Hc). unfold resized.
  destruct (chain_bounded _ _ _ _ _ _ Hc) as (_ & _ & _ & Hbe).
  destruct (chain_hdr_at _ _ _ _ _ _ Hc) as (_ & Hsz & _).
  destruct (size <? b_size b) eqn:E; zbool.
  - destruct (shrink_run _ _ _ _ _ _ size Hc ltac:(lia)) as (s1 & Hrun & Ho1 & Hc1).
    rewrite Hrun. rewrite cons_middle, app_assoc in Hc1.
    destruct (join_at _ _ _ _ _ _ Hc1) as (s2 & Hj & Hc2 & Ho2).
    cbn [b_seg] in Hj, Ho2. rewrite (run_eq _ _ _ _ _ Hj), Z.eqb_refl. cbn [negb].
    run_all. eexists. split; [reflexivity|]. split.
    + destruct (absorb _ rest) as [f rest'] eqn:Ha. cbn [fst snd] in Hc2.
      rewrite <- app_assoc in Hc2. cbn [app] in Hc2.
      rewrite <- (only_cu _ _ _ _ Ho1), <- (only_cu _ _ _ _ Ho2). change (Blk (b_seg b) size (cu_psp s2))
        with (set_owner (cu_psp s2) (Blk (b_seg b) size (b_psp b))).
      eapply chain_owner; [exact Hc2|simpl; mlook; done..|].
      simpl. intros a Ha'. mlook. done.
    + eapply only_trans; [eapply only_sub; [exact Ho1|lia..]|].
      eapply only_trans; [eapply only_sub; [exact Ho2|lia..]|].
      apply only_wr. unfold b_end in *. lia.
  - run_all. rewrite Z.eqb_refl. cbn [negb]. run_all. eexists. split; [reflexivity|]. split.
    + change (Blk (b_seg b) (b_size b) (cu_psp s)) with (set_owner (cu_psp s) b).
      eapply chain_owner; [exact Hc|simpl; mlook; done..|].
      simpl. intros a Ha'. mlook. done.
    + apply only_wr. unfold b_end in *. lia.
Qed.

(** [DosMemChange] on a block of a well-formed chain. *)
Lemma change_run s p pre b rest e size maxSize :
  chain (mem s) p (pre ++ b :: rest) e -> 0 <= size ->
  let '(b', rest') := if b_size b <? size then absorb b rest else (b, rest) in
  exists s',
    only (b_seg b) e s s' /\
    if b_size b' <? size then
      DosMemChange (b_seg b + 1) size maxSize s =
        Some ((DE_NOMEM, if maxSize then Some (b_size b') else None), s') /\
      chain (mem s') p (pre ++ b' :: rest') e
    else
      DosMemChange (b_seg b + 1) size maxSize s = Some ((SUCCESS, None), s') /\
      chain (mem s') p (pre ++ resized size (cu_psp s) b' rest') e.
Proof.
  intros Hc Hs. destruct (chain_bounded _ _ _ _ _ _ Hc) as ((Hpos & Hmax) & Hsz & _ & _).
  assert (Hp : para2far (u16 (b_seg b + 1 - 1)) = b_seg b).
  { unfold para2far. rewrite u16_small; unfold b_end in *; lia. }
  unfold DosMemChange. rewrite Hp. cbv zeta.
  rewrite !run_rd, (chain_valid_at _ _ _ _ _ _ Hc), (chain_size_at _ _ _ _ _ _ Hc).
  cbn [negb]. destruct (b_size b <? size) eqn:E.
  - destruct (join_at _ _ _ _ _ _ Hc) as (s1 & Hj & Hc1 & Ho1).
    destruct (absorb_seg b rest) as [Hseg _].
    destruct (absorb b rest) as [b' rest'] eqn:Hab. cbn [fst snd] in *. subst.
    rewrite <- Hseg in Hj, Ho1 |- *.
    rewrite run_assoc, (run_eq _ _ _ _ _ Hj), Z.eqb_refl. cbn [negb].
    rewrite run_assoc, run_rd, (chain_size_at _ _ _ _ _ _ Hc1).
    destruct (b_size b' <? size) eqn:E'.
    + exists s1. split; [done|]. rewrite run_ret. done.
    + rewrite run_ret. zbool.
      destruct (resize_tail _ _ _ _ _ _ size Hc1 ltac:(lia)) as (s2 & Hr & Hc2 & Ho2).
      exists s2. split; [by eapply only_trans|]. split; [exact Hr|].
      by rewrite <- (only_cu _ _ _ _ Ho1).
  - rewrite run_ret, E. zbool.
    destruct (resize_tail _ _ _ _ _ _ size Hc ltac:(lia)) as (s2 & Hr & Hc2 & Ho2).
    by exists s2.
Qed.

(** ** Chain walks: DosMemCheck, FreeProcessMem, DosUmbLink *)

Lemma check_chain fuel q bs e s :
  chain (mem s) q bs e -> (length bs <= fuel)%nat -> check_loop fuel q s = Some (SUCCESS, s).
Proof.
  revert q bs. induction fuel as [|fuel IH]; intros q bs Hc Hf.
  { destruct bs; [inversion Hc|simpl in *; lia]. }
  destruct bs as [|b bs]; [inversion Hc|].
  cbn [check_loop]. rewrite run_rd, (chain_type _ _ _ _ _ Hc).
  destruct bs as [|c bs]; [done|]. rewrite bool_decide_false by done.
  pose proof (chain_hdr _ _ _ _ _ Hc) as (_ & _ & Ht & _).
  rewrite (chain_head _ _ _ _ _ Hc) in Ht. rewrite Ht, Z.eqb_refl. cbn [negb].
  rewrite (mcbs_next _ _ _ _ _ Hc) by done.
  eapply IH; [by eapply chain_tail|simpl in *; lia].
Qed.

(** The steps of the release loop on one block. *)
Lemma prefix_snoc m p pre b :
  prefix m p pre (b_seg b) -> hdr m b MCB_NORMAL -> prefix m p (pre ++ [b]) (b_end b).
Proof. intros. eapply prefix_app; [done|]. by apply prefix_one. Qed.

Definition released (ps : Z) (b : blk) : blk :=
  if b_psp b =? ps then set_owner FREE_PSP b else b.

Lemma released_end ps b : b_end (released ps b) = b_end b /\ b_seg (released ps b) = b_seg b.
Proof. unfold released. by destruct (_ =? _). Qed.

Lemma release_step ps s p pre b rest e :
  chain (mem s) p (pre ++ b :: rest) e ->
  exists s', (forall k : unit -> K mm Z,
      kbind (if m_psp (mem s !!! b_seg b) =? ps
             then let! _ := DosMemFree (b_seg b) in kret tt else kret tt) k s = k tt s') /\
    chain (mem s') p (pre ++ released ps b :: rest) e /\ only p e s s'.
Proof.
  intros Hc. rewrite (chain_psp_at _ _ _ _ _ _ Hc). unfold released.
  destruct (b_psp b =? ps).
  - destruct (free_run _ _ _ _ _ _ Hc) as (s' & Hr & Hc' & Ho).
    destruct (chain_bounded _ _ _ _ _ _ Hc) as (_ & ? & ? & ?).
    exists s'. split; [|split; [done|eapply only_sub; [done|unfold b_end in *; lia..]]].
    intros k. rewrite run_assoc, (run_eq _ _ _ _ _ Hr). by rewrite run_ret.
  - exists s. split; [done|]. split; [done|apply only_refl].
Qed.

Lemma release_loop_spec fuel ps s p pre bs q e :
  chain (mem s) p (pre ++ bs) e -> prefix (mem s) p pre q -> chain (mem s) q bs e ->
  (length bs <= fuel)%nat ->
  exists s', free_loop fuel ps q s = Some (SUCCESS, s') /\
    chain (mem s') p (pre ++ map (released ps) bs) e /\ only p e s s'.
Proof.
  revert s pre bs q. induction fuel as [|fuel IH]; intros s pre bs q Hc Hp Hq Hf.
  { destruct bs; [inversion Hq|simpl in *; lia]. }
  destruct bs as [|b bs]; [inversion Hq|].
  pose proof (chain_head _ _ _ _ _ Hq) as <-.
  cbn [free_loop]. rewrite run_rd, (chain_valid _ _ _ _ _ Hq). cbn [negb].
  destruct (release_step ps _ _ _ _ _ _ Hc) as (s1 & Hr & Hc1 & Ho1).
  rewrite Hr, run_rd.
  destruct (chain_split _ _ _ _ _ Hc1 ltac:(done)) as (q1 & Hp1 & Hq1).
  pose proof (chain_head _ _ _ _ _ Hq1) as <-.
  destruct (released_end ps b) as [He Hs]. rewrite Hs in *.
  rewrite (chain_type _ _ _ _ _ Hq1).
  destruct bs as [|c bs].
  - rewrite bool_decide_true by done. by exists s1.
  - rewrite bool_decide_false by done.
    rewrite (mcbs_next _ _ _ _ _ Hq1), He by done.
    pose proof (chain_hdr _ _ _ _ _ Hq1) as Hh.
    destruct (IH s1 (pre ++ [released ps b]) (c :: bs) (b_end b)) as (s2 & Hr2 & Hc2 & Ho2).
    + by rewrite <- app_assoc.
    + rewrite <- He. apply prefix_snoc; [by rewrite Hs|done].
    + rewrite <- He. by eapply chain_tail.
    + simpl in *. lia.
    + exists s2. split; [done|]. split; [|by eapply only_trans].
      by rewrite <- app_assoc in Hc2.
Qed.

(** The walk of [DosUmbLink] to the last low block, or to the upper root. *)
Lemma umb_walk_prefix fuel root p bs q s o :
  prefix (mem s) p bs q -> q <= 65535 ->
  Forall (fun b => b_seg b <> root) bs -> (length bs < fuel)%nat ->
  umb_walk fuel root p o s =
    umb_walk (fuel - length bs) root q
      (match list.last bs with Some b => Some (b_seg b) | None => o end) s.
Proof.
  intros Hp. revert fuel o. induction Hp as [p|b bs q Hb Hp IH]; intros fuel o Hq Hne Hf.
  { simpl. by rewrite Nat.sub_0_r. }
  apply Forall_cons in Hne as [Hnb Hne].
  destruct fuel as [|fuel]; [simpl in Hf; lia|].
  destruct Hb as (Hpos & Hsz & Ht & _ & Hs). pose proof (prefix_le _ _ _ _ Hp) as Hle.
  cbn [umb_walk]. rewrite run_rd, Ht.
  replace (b_seg b =? root) with false by (symmetry; by apply Z.eqb_neq). cbn [negb andb].
  change (MCB_NORMAL =? MCB_LAST) with false. cbn [negb].
  assert (Hv : mcbValid (mem s !!! b_seg b) = true).
  { unfold mcbValid. rewrite Ht, Hs. unfold b_end in *.
    by replace (b_size b =? 65535) with false by (symmetry; apply Z.eqb_neq; lia). }
  rewrite Hv. cbn [negb].
  assert (Hn : nxtMCB (b_seg b) (mem s !!! b_seg b) = b_end b).
  { unfold nxtMCB, nxtMCBsize. rewrite Hs. unfold b_end in *. apply u16_small. lia. }
  rewrite Hn, IH by (try done; simpl in *; lia).
  simpl length. replace (S fuel - S (length bs))%nat with (fuel - length bs)%nat by lia.
  f_equal. destruct bs as [|c bs]; [done|].
  change (list.last (b :: c :: bs)) with (list.last (c :: bs)).
  destruct (list.last (c :: bs)) eqn:E; [done|]. by apply last_None in E.
Qed.

Lemma prefix_below m p bs q b : prefix m p bs q -> b ∈ bs -> b_seg b < q.
Proof.
  induction 1 as [p|c bs q Hc Hp IH]; [by intros ?%not_elem_of_nil|].
  destruct Hc as (? & ? & _). pose proof (prefix_le _ _ _ _ Hp).
  intros [->|Hin]%elem_of_cons; [unfold b_end in *; lia|by apply IH].
Qed.

Lemma prefix_off_root m p bs q : prefix m p bs q -> Forall (fun b => b_seg b <> q) bs.
Proof.
  intros H. apply Forall_forall. intros b Hb. pose proof (prefix_below _ _ _ _ _ H Hb). lia.
Qed.

Lemma prefix_fuel m p bs q :
  prefix m p bs q -> 0 < p -> q <= 65535 -> (length bs < chain_fuel - 1)%nat.
Proof.
  intros H. assert (Hl : Z.of_nat (length bs) <= q - p).
  { induction H as [|b bs q (? & ? & _) _ IH]; simpl; [lia|]. unfold b_end in *. lia. }
  unfold chain_fuel. lia.
Qed.

(** A chain whose last block is marked as such, as a prefix and that block. *)
Lemma chain_as_prefix m p l z e :
  chain m p (l ++ [z]) e -> prefix m p l (b_seg z) /\ hdr m z MCB_LAST /\ b_end z = e.
Proof.
  intros Hc. destruct (chain_split _ _ _ _ _ Hc ltac:(done)) as (q & Hp & Hz).
  pose proof (chain_head _ _ _ _ _ Hz) as <-.
  split; [done|]. split; [exact (chain_hdr _ _ _ _ _ Hz)|by eapply chain_last_inv].
Qed.

Lemma seg_lt_root s l z root up e :
  chain (mem s) (first_mcb s) (l ++ [z]) root -> chain (mem s) root up e ->
  0 < first_mcb s /\ b_seg z < root /\ b_end z = root /\ root <= 65535.
Proof.
  intros Hl Hu. destruct (chain_as_prefix _ _ _ _ _ Hl) as (Hp & (? & ? & _) & He).
  pose proof (chain_bounds _ _ _ _ Hl). pose proof (chain_bounds _ _ _ _ Hu).
  unfold b_end in *. lia.
Qed.

(** Changing the type of the header of [z] only. *)
Lemma hdr_retype m m' z t t' :
  hdr m z t -> m' !!! b_seg z = set_type t' (m !!! b_seg z) -> hdr m' z t'.
Proof. intros (? & ? & _ & ? & ?) E. unfold hdr. rewrite E. by repeat split. Qed.

Lemma umb_link_run s l z up e :
  chain (mem s) (first_mcb s) (l ++ [z]) (uppermem_root s) ->
  chain (mem s) (uppermem_root s) up e ->
  uppermem_root s <> 0xffff -> Z.land (uppermem_link s) 1 = 0 ->
  exists s', DosUmbLink 1 s = Some (tt, s') /\
    chain (mem s') (first_mcb s) (l ++ z :: up) e /\
    prefix (mem s') (first_mcb s) (l ++ [z]) (uppermem_root s) /\
    s' = with_link 1 (with_mem (fun _ => mem s') s).
Proof.
  intros Hl Hu Hroot Hlink.
  destruct (seg_lt_root _ _ _ _ _ _ Hl Hu) as (Hpos & Hlt & Hend & Hmax).
  destruct (chain_as_prefix _ _ _ _ _ Hl) as (Hp & Hz & _).
  pose proof Hz as (_ & _ & Ht & _).
  unfold DosUmbLink. rewrite run_get, Hlink.
  replace (uppermem_root s =? 65535) with false by (symmetry; by apply Z.eqb_neq).
  cbn [Z.ltb Z.compare Pos.compare Pos.compare_cont orb Z.eqb Pos.eqb].
  assert (Hw : umb_walk chain_fuel (uppermem_root s) (para2far (first_mcb s)) None s =
    Some (Some (b_seg z, match list.last l with Some b => Some (b_seg b) | None => None end), s)).
  { assert (Hf : (length l < chain_fuel - 1)%nat).
    { eapply prefix_fuel; [exact Hp|done|lia]. }
    unfold para2far. erewrite umb_walk_prefix; [|exact Hp|lia| |lia].
    - destruct (chain_fuel - length l)%nat eqn:E; [lia|]. cbn [umb_walk].
      rewrite run_rd, Ht. rewrite andb_false_r. done.
    - apply Forall_forall. intros b Hb. pose proof (prefix_below _ _ _ _ _ Hp Hb). lia. }
  rewrite (run_eq _ _ _ _ _ Hw), run_rd, Ht, Z.eqb_refl, run_wr.
  eexists. split; [reflexivity|]. cbn [mem with_link with_mem].
  set (m' := <[b_seg z:=_]> (mem s)).
  assert (Hz' : hdr m' z MCB_NORMAL).
  { eapply hdr_retype; [exact Hz|]. unfold m'. by rewrite lookup_total_insert_eq. }
  assert (Hag : forall a, a <> b_seg z -> m' !!! a = mem s !!! a).
  { intros a Ha. unfold m'. by rewrite lookup_total_insert_ne. }
  assert (Hp' : prefix m' (first_mcb s) (l ++ [z]) (uppermem_root s)).
  { rewrite <- Hend. apply prefix_snoc; [|done].
    eapply prefix_frame; [exact Hp|]. intros a Ha. apply Hag. lia. }
  split; [|split; [done|done]].
  rewrite cons_middle, app_assoc. eapply prefix_chain; [exact Hp'|].
  eapply chain_frame; [exact Hu|]. intros a Ha. apply Hag. lia.
Qed.

Lemma umb_unlink_run s l z up e :
  prefix (mem s) (first_mcb s) (l ++ [z]) (uppermem_root s) ->
  chain (mem s) (uppermem_root s) up e -> 0 < first_mcb s ->
  uppermem_root s <> 0xffff -> Z.land (uppermem_link s) 1 = 1 ->
  exists s', DosUmbLink 0 s = Some (tt, s') /\
    chain (mem s') (first_mcb s) (l ++ [z]) (uppermem_root s) /\
    chain (mem s') (uppermem_root s) up e /\
    s' = with_link 0 (with_mem (fun _ => mem s') s).
Proof.
  intros Hp Hu Hpos Hroot Hlink. pose proof (chain_bounds _ _ _ _ Hu) as Hb.
  assert (Hpz : prefix (mem s) (first_mcb s) l (b_seg z) /\ hdr (mem s) z MCB_NORMAL /\
                b_end z = uppermem_root s).
  { clear -Hp. remember (l ++ [z]) as bs eqn:E. revert l E.
    induction Hp as [p|b bs q Hh Hp IH]; intros [|c l] E; simplify_eq/=.
    - inversion Hp; subst. split; [constructor|done].
    - destruct (IH l eq_refl) as (? & ? & ?). split; [by constructor|done]. }
  destruct Hpz as (Hpl & Hz & Hend). pose proof Hz as (_ & ? & Ht & _).
  unfold DosUmbLink. rewrite run_get, Hlink.
  replace (uppermem_root s =? 65535) with false by (symmetry; by apply Z.eqb_neq).
  cbn [Z.ltb Z.compare orb Z.eqb].
  assert (Hw : umb_walk chain_fuel (uppermem_root s) (para2far (first_mcb s)) None s =
    Some (Some (uppermem_root s, Some (b_seg z)), s)).
  { assert (Hf : (length (l ++ [z]) < chain_fuel - 1)%nat).
    { eapply prefix_fuel; [exact Hp|done|lia]. }
    unfold para2far. erewrite umb_walk_prefix;
      [|exact Hp|lia|by eapply prefix_off_root|lia].
    rewrite last_snoc. destruct (chain_fuel - length (l ++ [z]))%nat eqn:E; [lia|].
    cbn [umb_walk]. rewrite run_rd, Z.eqb_refl. done. }
  rewrite (run_eq _ _ _ _ _ Hw), Z.eqb_refl. cbv iota.
  rewrite run_opt, run_rd, Ht, !Z.eqb_refl. cbn [andb]. rewrite run_wr.
  eexists. split; [reflexivity|]. cbn [mem with_link with_mem].
  set (m' := <[b_seg z:=_]> (mem s)).
  assert (Hz' : hdr m' z MCB_LAST).
  { eapply hdr_retype; [exact Hz|]. unfold m'. by rewrite lookup_total_insert_eq. }
  assert (Hag : forall a, a <> b_seg z -> m' !!! a = mem s !!! a).
  { intros a Ha. unfold m'. by rewrite lookup_total_insert_ne. }
  split; [|split; [|done]].
  - eapply prefix_chain.
    + eapply prefix_frame; [exact Hpl|]. intros a Ha. apply Hag. lia.
    + rewrite <- Hend. constructor; [done|lia].
  - eapply chain_frame; [exact Hu|]. intros a Ha. apply Hag. unfold b_end in *. lia.
Qed.

Lemma chain_length_fuel m p bs e : chain m p bs e -> (length bs <= chain_fuel)%nat.
Proof. intros H. pose proof (chain_fuel_enough _ _ _ _ H). lia. Qed.

(** The release loop over the whole chain from [first_mcb]. *)
Lemma free_all ps s bs e :
  chain (mem s) (first_mcb s) bs e ->
  exists s', free_loop chain_fuel ps (para2far (first_mcb s)) s = Some (SUCCESS, s') /\
    chain (mem s') (first_mcb s) (map (released ps) bs) e /\ only (first_mcb s) e s s'.
Proof.
  intros Hc.
  apply (release_loop_spec _ _ _ _ [] _ _ _ Hc); [constructor|done|by eapply chain_length_fuel].
Qed.

Lemma hdr_inj m b c t t' : hdr m b t -> hdr m c t' -> b_seg c = b_seg b -> c = b /\ t' = t.
Proof.
  intros (_ & _ & Ht & Hp & Hs) (_ & _ & Ht' & Hp' & Hs') He.
  rewrite He in Ht', Hp', Hs'. destruct b, c; simpl in *. split; congruence.
Qed.

Lemma at_mcb_split m p pre q bs e :
  prefix m p pre q -> chain m p bs e -> q < e ->
  exists b rest, bs = pre ++ b :: rest /\ b_seg b = q.
Proof.
  intros Hp. revert bs. induction Hp as [p|b pre q Hb Hp IH]; intros bs Hc Hq.
  - destruct bs as [|b rest]; [inversion Hc|]. exists b, rest.
    split; [done|by eapply chain_head].
  - destruct bs as [|c bs]; [inversion Hc|].
    destruct (hdr_inj _ _ _ _ _ Hb (chain_hdr _ _ _ _ _ Hc)) as [-> Ht];
      [by eapply chain_head|].
    destruct bs as [|d bs]; [discriminate|]. apply chain_tail in Hc; [|done].
    destruct (IH _ Hc Hq) as (b' & rest & -> & <-). by exists b', rest.
Qed.

(** A header reached by the links lies in the region. *)
Lemma at_mcb_bound m p pre q bs e :
  prefix m p pre q -> chain m p bs e -> pre = [] \/ q < e.
Proof.
  intros Hp. revert bs. induction Hp as [p|b pre q Hb Hp IH]; intros bs Hc; [by left|].
  right. destruct bs as [|c bs]; [inversion Hc|].
  destruct (hdr_inj _ _ _ _ _ Hb (chain_hdr _ _ _ _ _ Hc)) as [-> Ht];
    [by eapply chain_head|].
  destruct bs as [|d bs]; [discriminate|]. apply chain_tail in Hc; [|done].
  destruct (IH _ Hc) as [->|?]; [|done].
  inversion Hp; subst. apply chain_bounds in Hc. lia.
Qed.

Lemma chain_inj m p bs e bs' e' : chain m p bs e -> chain m p bs' e' -> bs' = bs /\ e' = e.
Proof.
  intros H. revert bs'. induction H as [b Hb Hle|b bs e Hb Hc IH]; intros bs' H'.
  - destruct bs' as [|c bs']; [inversion H'|]. pose proof (chain_hdr _ _ _ _ _ H') as Hh.
    destruct (hdr_inj _ _ _ _ _ Hb Hh (chain_head _ _ _ _ _ H')) as [-> Ht].
    destruct bs'; [|done]. split; [done|]. symmetry. by eapply chain_last_inv.
  - destruct bs' as [|c bs']; [inversion H'|]. pose proof (chain_hdr _ _ _ _ _ H') as Hh.
    destruct (hdr_inj _ _ _ _ _ Hb Hh (chain_head _ _ _ _ _ H')) as [-> Ht].
    destruct bs' as [|d bs']; [done|]. apply chain_tail in H'; [|done].
    by destruct (IH _ H') as [-> ->].
Qed.

Lemma linked_chain_at m p l r up e :
  chain m p (l ++ r :: up) e -> prefix m p l (b_seg r) /\ chain m (b_seg r) (r :: up) e.
Proof.
  intros Hc. destruct (chain_split _ _ _ _ _ Hc ltac:(done)) as (q & Hp & Hq).
  by pose proof (chain_head _ _ _ _ _ Hq) as <-.
Qed.

(** ** All of memory

    Low memory alone ([None]), or with the upper memory region behind it.
    The region starts with a block [r] that is never free: the one the kernel
    puts over what lies between low memory and the first upper block
    ([mumcb_init]).  The two chains are apart, or linked into one. *)
Inductive tiles (s : mm) : option blk -> list blk -> Z -> Prop :=
| tiles_low bs e :
    uppermem_root s = 0xffff -> chain (mem s) (first_mcb s) bs e -> tiles s None bs e
| tiles_apart low r up e :
    uppermem_root s = b_seg r -> b_seg r <> 0xffff -> is_free r = false -> uppermem_link s = 0 ->
    chain (mem s) (first_mcb s) low (b_seg r) -> chain (mem s) (b_seg r) (r :: up) e ->
    tiles s (Some r) (low ++ r :: up) e
| tiles_linked low r up e :
    uppermem_root s = b_seg r -> b_seg r <> 0xffff -> is_free r = false -> uppermem_link s = 1 ->
    low <> [] -> chain (mem s) (first_mcb s) (low ++ r :: up) e ->
    tiles s (Some r) (low ++ r :: up) e.

(** Calls that change memory and the link bit only. *)
Definition same_roots (s s' : mm) : Prop :=
  s' = with_link (uppermem_link s') (with_mem (fun _ => mem s') s).

Lemma same_roots_refl s : same_roots s s.
Proof. by destruct s. Qed.

Lemma same_roots_trans s1 s2 s3 : same_roots s1 s2 -> same_roots s2 s3 -> same_roots s1 s3.
Proof. unfold same_roots. intros -> ->. done. Qed.

Lemma only_roots lo hi s s' : only lo hi s s' -> same_roots s s' /\ uppermem_link s' = uppermem_link s.
Proof. intros [-> _]. split; [by destruct s|done]. Qed.

Lemma umb_link_none n s : uppermem_root s = 0xffff -> DosUmbLink n s = Some (tt, s).
Proof. intros H. unfold DosUmbLink. by rewrite run_get, H. Qed.

Lemma umb_link_same n s :
  (1 <? n) || (Z.land (uppermem_link s) 1 =? n) = true -> DosUmbLink n s = Some (tt, s).
Proof. intros H. unfold DosUmbLink. rewrite run_get, H. by destruct (_ =? 0xffff). Qed.

(** [DosUmbLink] keeps all blocks; it only moves the mark of the last one. *)
Lemma umb_link_tiles n s o bs e :
  tiles s o bs e -> 0 <= n ->
  exists s', DosUmbLink n s = Some (tt, s') /\ tiles s' o bs e /\ same_roots s s' /\
    uppermem_link s' = (if bool_decide (o = None) || (1 <? n) then uppermem_link s else n).
Proof.
  intros Ht Hn. destruct (1 <? n) eqn:En.
  { exists s. rewrite orb_true_r. split; [apply umb_link_same; by rewrite En|].
    split; [done|split; [apply same_roots_refl|done]]. }
  rewrite orb_false_r. destruct Ht as [bs e Hr Hc|low r up e Hr Hne Hf Hk Hlo Hup|low r up e Hr Hne Hf Hk Hl Hc].
  - exists s. split; [by apply umb_link_none|].
    split; [by constructor|split; [apply same_roots_refl|done]].
  - destruct (decide (n = 0)) as [->|].
    { exists s. split; [apply umb_link_same; by rewrite Hk|].
      split; [by constructor|split; [apply same_roots_refl|done]]. }
    assert (n = 1) as -> by (apply Z.ltb_ge in En; lia).
    destruct (exists_last (chain_not_nil _ _ _ _ Hlo)) as (l & z & ->).
    destruct (umb_link_run s l z (r :: up) e) as (s' & Hrun & Hc' & _ & He); [by rewrite Hr..|by rewrite Hk|].
    exists s'. split; [done|]. rewrite He. split; [|done].
    apply tiles_linked; try done; [by destruct l|]. by rewrite <- app_assoc.
  - destruct (decide (n = 1)) as [->|].
    { exists s. split; [apply umb_link_same; by rewrite Hk|].
      split; [by constructor|split; [apply same_roots_refl|done]]. }
    assert (n = 0) as -> by (apply Z.ltb_ge in En; lia).
    destruct (exists_last Hl) as (l & z & ->). destruct (linked_chain_at _ _ _ _ _ _ Hc) as [Hp Hup].
    pose proof (chain_bounds _ _ _ _ Hc).
    destruct (umb_unlink_run s l z (r :: up) e) as (s' & Hrun & Hlo' & Hup' & He); [by rewrite Hr..|lia|by rewrite Hr|by rewrite Hk|].
    rewrite Hr in *. exists s'. split; [done|]. rewrite He. split; [by apply tiles_apart|done].
Qed.

Lemma released_other ps b : b_psp b <> ps -> released ps b = b.
Proof. intros H. unfold released. by rewrite (proj2 (Z.eqb_neq _ _) H). Qed.

Lemma tiles_globals s s' o bs e :
  mem s' = mem s -> first_mcb s' = first_mcb s -> uppermem_root s' = uppermem_root s ->
  uppermem_link s' = uppermem_link s -> tiles s o bs e -> tiles s' o bs e.
Proof.
  intros Em Ef Er El Ht. destruct Ht; constructor; rewrite ?Em, ?Ef, ?Er, ?El; done.
Qed.

(** [FreeProcessMem] frees the blocks of the process, in low memory and in
    the upper memory region, linked or not, and leaves the link as it was. *)
Lemma FreeProcessMem_tiles ps s o bs e :
  tiles s o bs e -> (forall r, o = Some r -> b_psp r <> ps) ->
  exists s', FreeProcessMem ps s = Some (SUCCESS, s') /\ tiles s' o (map (released ps) bs) e /\
    s' = with_mem (fun _ => mem s') s.
Proof.
  intros Ht Hps.
  assert (Hlink : o = None \/ uppermem_link s = 0 \/ uppermem_link s = 1).
  { destruct Ht as [| |]; auto. }
  assert (Hold : 0 <= Z.land (uppermem_link s) 1) by (apply Z.land_nonneg; lia).
  destruct (umb_link_tiles 1 s o bs e Ht ltac:(lia)) as (s1 & Hr1 & Ht1 & Hs1 & Hk1).
  rewrite orb_false_r in Hk1.
  assert (Hc1 : chain (mem s1) (first_mcb s1) bs e /\ (o <> None -> uppermem_link s1 = 1)).
  { destruct Ht1 as [| |]; [done| |done]. rewrite bool_decide_false in Hk1 by done. congruence. }
  destruct Hc1 as [Hc1 Hl1].
  destruct (free_all ps s1 bs e Hc1) as (s2 & Hr2 & Hc2 & Ho2).
  destruct (only_roots _ _ _ _ Ho2) as [Hs2 Hk2].
  assert (Hf2 : first_mcb s2 = first_mcb s1 /\ uppermem_root s2 = uppermem_root s1) by (by rewrite Hs2).
  assert (Ht2 : tiles s2 o (map (released ps) bs) e).
  { destruct Hf2 as [Hf2 Hroot2]. destruct Ht1 as [bs e Hr Hc|low r up e Hr Hne Hf Hk Hlo Hup|low r up e Hr Hne Hf Hk Hl Hc].
    - constructor; congruence.
    - specialize (Hl1 ltac:(done)). congruence.
    - rewrite map_app in Hc2 |- *. cbn [map] in Hc2 |- *. rewrite (released_other ps r) in Hc2 |- * by auto.
      apply tiles_linked; try congruence. by destruct low. }
  destruct (umb_link_tiles _ s2 _ _ _ Ht2 Hold) as (s3 & Hr3 & Ht3 & Hs3 & Hk3).
  exists s3. split; [|split; [done|]].
  - unfold FreeProcessMem. rewrite run_get, (run_eq _ _ _ _ _ Hr1), run_get, (run_eq _ _ _ _ _ Hr2), Z.eqb_refl.
    cbn [negb]. by rewrite (run_eq _ _ _ _ _ Hr3).
  - pose proof (same_roots_trans _ _ _ (same_roots_trans _ _ _ Hs1 Hs2) Hs3) as Hs.
    assert (Hk : uppermem_link s3 = uppermem_link s).
    { rewrite Hk3. case_bool_decide as Ho; cbn [orb].
      - rewrite Hk2, Hk1. first [done | by rewrite bool_decide_true].
      - destruct Hlink as [|[E|E]]; [done|rewrite E; done..]. }
    rewrite Hs, Hk. by destruct s.
Qed.

End MmSpec.
