(* ===== verification/MemmgrProps.v ===== *)
(** * Properties of the DOS memory manager

    The theorems about [Memmgr.v], from the lemmas of [MemmgrSpec.v], each
    with the run on a small memory that shows its hypotheses can hold. *)

From stdpp Require Import relations.
From S2P Require Import Prelude Memmgr MemmgrSpec.
Import Mm MmSpec.

Module MmProps.

(** ** A small memory

    Five blocks from segment 16 to 67: a used block, two free neighbours, a
    used block, and a free block at the end. *)

Definition w_hdr (t psp size : Z) : mcb := Mcb t psp size [0; 0; 0] (replicate 8 65).

Definition w_blocks : list blk :=
  [Blk 16 4 0x60; Blk 21 10 0; Blk 32 5 0; Blk 38 7 0x99; Blk 46 20 0].

Definition w_mem : gmap Z mcb :=
  list_to_map
    [(16, w_hdr MCB_NORMAL 0x60 4); (21, w_hdr MCB_NORMAL 0 10);
     (32, w_hdr MCB_NORMAL 0 5); (38, w_hdr MCB_NORMAL 0x99 7);
     (46, w_hdr MCB_LAST 0 20)].

(** No upper memory; the current process is 0x99. *)
Definition w_mm : mm := MkMm w_mem 16 0xffff 0 0 0x99.

Ltac solve_hdr := vm_compute; repeat split; try reflexivity; intros H; discriminate H.

Lemma w_chain : chain (mem w_mm) 16 w_blocks 67.
Proof.
  change 16 with (b_seg (Blk 16 4 0x60)). constructor; [solve_hdr|].
  change (b_end _) with (b_seg (Blk 21 10 0)). constructor; [solve_hdr|].
  change (b_end _) with (b_seg (Blk 32 5 0)). constructor; [solve_hdr|].
  change (b_end _) with (b_seg (Blk 38 7 0x99)). constructor; [solve_hdr|].
  change (b_end _) with (b_seg (Blk 46 20 0)).
  change 67 with (b_end (Blk 46 20 0)). constructor; [solve_hdr|].
  vm_compute. intros H; discriminate H.
Qed.

(** The same memory with the last two blocks in an upper memory region. *)
Definition w_umb (link : Z) (t : Z) : mm :=
  MkMm (<[32 := w_hdr t 0 5]> w_mem) 16 38 link 0 0x99.

Lemma w_umb_low : chain (mem (w_umb 0 MCB_LAST)) 16 ([Blk 16 4 0x60; Blk 21 10 0] ++ [Blk 32 5 0]) 38.
Proof.
  change 16 with (b_seg (Blk 16 4 0x60)). constructor; [solve_hdr|].
  change (b_end _) with (b_seg (Blk 21 10 0)). constructor; [solve_hdr|].
  change (b_end _) with (b_seg (Blk 32 5 0)).
  change 38 with (b_end (Blk 32 5 0)). constructor; [solve_hdr|].
  vm_compute. intros H; discriminate H.
Qed.

Lemma w_umb_high link t : chain (mem (w_umb link t)) 38 [Blk 38 7 0x99; Blk 46 20 0] 67.
Proof.
  change 38 with (b_seg (Blk 38 7 0x99)). constructor; [solve_hdr|].
  change (b_end _) with (b_seg (Blk 46 20 0)).
  change 67 with (b_end (Blk 46 20 0)). constructor; [solve_hdr|].
  vm_compute. intros H; discriminate H.
Qed.

Lemma w_umb_linked : prefix (mem (w_umb 1 MCB_NORMAL)) 16 [Blk 16 4 0x60; Blk 21 10 0; Blk 32 5 0] 38.
Proof.
  change 16 with (b_seg (Blk 16 4 0x60)). constructor; [solve_hdr|].
  change (b_end _) with (b_seg (Blk 21 10 0)). constructor; [solve_hdr|].
  change (b_end _) with (b_seg (Blk 32 5 0)). constructor; [solve_hdr|].
  constructor.
Qed.

(** ** DosMemAlloc *)

Lemma DosMemAlloc_run s size mode asize bs e :
  chain (mem s) (search_start size mode s) bs e ->
  0 <= size ->
  (mode = LARGEST -> asize = true) ->
  retries mode s = false ->
  exists r s', DosMemAlloc size mode asize s = Some (r, s') /\
    alloc_post size mode asize (search_start size mode s) bs e s r s'.
Proof.
  intros Hc Hs Ha Hr.
  destruct (alloc_round 1 size mode asize bs e s Hc Hs Ha) as (s' & H).
  rewrite Hr in H. destruct (chosen_usable mode size bs); destruct H as (r & ? & ?); eauto.
Qed.

(** C5: On a well-formed chain of MCBs, [DosMemAlloc] (when it does not jump
    back to search low memory) returns.  It takes the block that the policy of
    the mode (first, best, last fit or largest) selects on the list of
    coalesced free blocks: the new chain tiles the same region, holds a block
    of the requested size owned by the current process that lies inside the
    selected free block, and all other used blocks are unchanged.  When there
    is no such block the result is DE_NOMEM with the size of the largest free
    block. *)
Theorem DosMemAlloc_correct s size mode asize bs e :
  chain (mem s) (search_start size mode s) bs e ->
  0 <= size ->
  (mode = LARGEST -> asize = true) ->
  retries mode s = false ->
  exists r s', DosMemAlloc size mode asize s = Some (r, s') /\
    alloc_post size mode asize (search_start size mode s) bs e s r s'.
Proof. apply DosMemAlloc_run. Qed.

Lemma DosMemAlloc_correct_witness :
  chosen_usable BEST_FIT 16 w_blocks = Some (Blk 21 16 0) /\
  exists r s', DosMemAlloc 16 BEST_FIT true w_mm = Some (r, s') /\
    alloc_post 16 BEST_FIT true 16 w_blocks 67 w_mm r s'.
Proof.
  split; [reflexivity|].
  exact (DosMemAlloc_correct w_mm 16 BEST_FIT true w_blocks 67 w_chain
           ltac:(lia) ltac:(discriminate) eq_refl).
Defined.

(** With upper memory linked and a mode that asks for upper memory first,
    an allocation that upper memory cannot satisfy is decided by a search
    of the whole chain from low memory with the plain policy. *)
Theorem DosMemAlloc_low_retry s size mode asize pre bs e :
  prefix (mem s) (first_mcb s) pre (uppermem_root s) ->
  chain (mem s) (uppermem_root s) bs e ->
  mode = FIRST_FIT_U \/ mode = BEST_FIT_U \/ mode = LAST_FIT_U ->
  has (uppermem_link s) 1 = true -> uppermem_root s <> 0xffff ->
  0 <= size -> chosen_usable mode size bs = None ->
  exists r s', DosMemAlloc size mode asize s = Some (r, s') /\
    alloc_post size (clear mode FIRST_FIT_U) asize (first_mcb s) (pre ++ coalesce bs) e s r s'.
Proof.
  intros Hp Hc Hm Hl Hroot Hs Hno.
  assert (Hst : search_start size mode s = uppermem_root s).
  { unfold search_start. rewrite Hl, (proj2 (Z.eqb_neq _ _) Hroot).
    destruct Hm as [-> | [-> | ->]]; reflexivity. }
  assert (Hre : retries mode s = true).
  { unfold retries. rewrite Hl, (proj2 (Z.eqb_neq _ _) Hroot).
    destruct Hm as [-> | [-> | ->]]; reflexivity. }
  destruct (alloc_round 1 size mode asize bs e s) as (s1 & H);
    [by rewrite Hst|done|destruct Hm as [-> | [-> | ->]]; discriminate|].
  rewrite Hno, Hre, Hst in H. destruct H as (Hrun & Ho & Hc1).
  assert (Hlow : chain (mem s1) (first_mcb s) (pre ++ coalesce bs) e).
  { eapply prefix_chain; [|exact Hc1]. eapply prefix_frame; [exact Hp|].
    intros a Ha. apply (proj2 Ho). lia. }
  assert (Hst1 : search_start size (clear mode FIRST_FIT_U) s1 = first_mcb s).
  { destruct Ho as [-> _]. unfold search_start. cbn [uppermem_link uppermem_root with_mem].
    rewrite Hl, (proj2 (Z.eqb_neq _ _) Hroot). cbn [negb andb].
    destruct Hm as [-> | [-> | ->]]; cbv -[Z.eqb first_mcb]; by destruct (size =? _). }
  assert (Hre1 : retries (clear mode FIRST_FIT_U) s1 = false).
  { destruct Hm as [-> | [-> | ->]]; reflexivity. }
  destruct (alloc_round 0 size (clear mode FIRST_FIT_U) asize (pre ++ coalesce bs) e s1)
    as (s2 & H2); [by rewrite Hst1|done|destruct Hm as [-> | [-> | ->]]; discriminate|].
  pose proof (prefix_le _ _ _ _ Hp) as Hle.
  assert (Hpost : exists r, alloc_loop 1 size (clear mode FIRST_FIT_U) asize s1 = Some (r, s2) /\
    alloc_post size (clear mode FIRST_FIT_U) asize (first_mcb s) (pre ++ coalesce bs) e s1 r s2).
  { rewrite Hre1, Hst1 in H2.
    destruct (chosen_usable (clear mode FIRST_FIT_U) size (pre ++ coalesce bs)); exact H2. }
  destruct Hpost as (r & Hr2 & Ho2 & Hpost). exists r, s2.
  split; [unfold DosMemAlloc; by rewrite Hrun|]. split.
  - eapply only_trans; [eapply only_sub; [exact Ho|lia..]|exact Ho2].
  - rewrite (only_cu _ _ _ _ Ho) in Hpost. exact Hpost.
Qed.

Lemma DosMemAlloc_low_retry_witness :
  exists r s', DosMemAlloc 21 FIRST_FIT_U true (w_umb 1 MCB_NORMAL) = Some (r, s') /\
    alloc_post 21 FIRST_FIT true 16
      ([Blk 16 4 0x60; Blk 21 10 0; Blk 32 5 0] ++ coalesce [Blk 38 7 0x99; Blk 46 20 0]) 67
      (w_umb 1 MCB_NORMAL) r s'.
Proof.
  exact (DosMemAlloc_low_retry (w_umb 1 MCB_NORMAL) 21 FIRST_FIT_U true _ _ _ w_umb_linked
    (w_umb_high 1 MCB_NORMAL) (or_introl eq_refl) eq_refl ltac:(discriminate)
    ltac:(lia) eq_refl).
Defined.

(** ** DosMemFree *)

(** [DosMemFree] on the MCB of a block succeeds and makes exactly that
    block free; every header but that one is left as it was. *)
Theorem DosMemFree_correct s p pre b rest e :
  chain (mem s) p (pre ++ b :: rest) e ->
  exists s', DosMemFree (b_seg b) s = Some (SUCCESS, s') /\
    chain (mem s') p (pre ++ set_owner FREE_PSP b :: rest) e /\
    only (b_seg b) (b_seg b + 1) s s'.
Proof. apply free_run. Qed.

Lemma DosMemFree_correct_witness :
  exists s', DosMemFree 38 w_mm = Some (SUCCESS, s') /\
    chain (mem s') 16 [Blk 16 4 0x60; Blk 21 10 0; Blk 32 5 0; Blk 38 7 0; Blk 46 20 0] 67 /\
    only 38 39 w_mm s'.
Proof.
  exact (DosMemFree_correct w_mm 16 [Blk 16 4 0x60; Blk 21 10 0; Blk 32 5 0]
           (Blk 38 7 0x99) [Blk 46 20 0] 67 w_chain).
Defined.

(** [DosMemFree] refuses segment 0 and every paragraph that does not carry
    the type byte of an MCB, and then changes nothing. *)
Theorem DosMemFree_refuses s para :
  para = 0 \/ mcbFreeable (mem s !!! para) = false ->
  DosMemFree para s = Some (DE_INVLDMCB, s).
Proof.
  unfold DosMemFree. intros H. destruct (para =? 0) eqn:E; [done|].
  destruct H as [->|H]; [done|]. unfold para2far. by rewrite run_rd, H.
Qed.

Lemma DosMemFree_refuses_witness :
  mcbFreeable (mem w_mm !!! 22) = false /\ DosMemFree 22 w_mm = Some (DE_INVLDMCB, w_mm).
Proof. split; [reflexivity|]. exact (DosMemFree_refuses w_mm 22 (or_intror eq_refl)). Defined.

(** ** DosMemChange *)

(** C33: [DosMemChange] on a block of a well-formed chain.  To grow, the block
    first takes the free blocks that follow it; if it is still too small the
    result is DE_NOMEM with the size reached.  Otherwise the block gets exactly
    the requested size and the current process as its owner, what is cut off
    becomes one free block joined with the free blocks after it, and the
    chain still tiles the same region. *)
Theorem DosMemChange_correct s p pre b rest e size maxSize :
  chain (mem s) p (pre ++ b :: rest) e -> 0 <= size ->
  let '(b', rest') := if b_size b <? size then absorb b rest else (b, rest) in
  exists s',
    only (b_seg b) e s s' /\
    if b_size b' <? size then
      DosMemChange (b_seg b + 1) size maxSize s =
        Some ((DE_NOMEM, if maxSize then Some (b_size b') else None), s') /\
      chain (mem s') p (pre ++ b' :: rest') e
    else
      DosMemChange (b_seg b + 1) size maxSize s = Some ((SUCCESS, None), s') /\
      chain (mem s') p (pre ++ resized size (cu_psp s) b' rest') e.
Proof.
  apply change_run.
Qed.

Lemma DosMemChange_correct_witness :
  exists s', only 16 67 w_mm s' /\
    DosMemChange 17 12 true w_mm = Some ((SUCCESS, None), s') /\
    chain (mem s') 16
      ([] ++ resized 12 0x99 (Blk 16 21 0x60) [Blk 38 7 0x99; Blk 46 20 0]) 67.
Proof.
  exact (DosMemChange_correct w_mm 16 [] (Blk 16 4 0x60)
    [Blk 21 10 0; Blk 32 5 0; Blk 38 7 0x99; Blk 46 20 0] 67 12 true w_chain ltac:(lia)).
Defined.

(** ** DosMemLargest *)

(** The blocks tile the segments from [p] to [e]. *)
Fixpoint tiled (p : Z) (bs : list blk) (e : Z) : Prop :=
  match bs with
  | [] => p = e
  | b :: bs => b_seg b = p /\ 0 <= b_size b /\ tiled (b_end b) bs e
  end.

Lemma chain_tiled m p bs e : chain m p bs e -> tiled p bs e.
Proof. induction 1 as [b (? & ? & _)|b bs e (? & ? & _) _ IH]; by repeat split. Qed.

Lemma coalesce_tiled p bs e : tiled p bs e -> tiled p (coalesce bs) e.
Proof.
  revert p. induction bs as [|b bs IH]; intros p; [done|].
  cbn [tiled coalesce]. intros (Hp & Hs & Ht). apply IH in Ht.
  destruct (is_free b); [|by repeat split].
  destruct (coalesce bs) as [|c cs]; [by repeat split|].
  destruct Ht as (Hc & Hcs & Ht). destruct (is_free c); [|by repeat split].
  unfold merge, b_end in *. cbn [tiled b_seg b_size]. unfold b_end. simpl.
  split; [done|]. split; [lia|].
  by replace (b_seg b + (b_size b + b_size c + 1) + 1) with (b_seg c + b_size c + 1) by lia.
Qed.

Lemma tiled_le p bs e : tiled p bs e -> p <= e.
Proof.
  revert p. induction bs as [|b bs IH]; intros p; cbn [tiled]; [lia|].
  intros (? & ? & H%IH). unfold b_end in *. lia.
Qed.

Lemma tiled_sizes p bs e b : tiled p bs e -> b ∈ bs -> b_size b < e - p.
Proof.
  revert p. induction bs as [|c bs IH]; intros p Ht Hb; [by apply not_elem_of_nil in Hb|].
  destruct Ht as (? & ? & Ht). pose proof (tiled_le _ _ _ Ht) as Hle.
  apply elem_of_cons in Hb as [->|Hb]; [unfold b_end in *; lia|].
  specialize (IH _ Ht Hb). unfold b_end in *. lia.
Qed.

(** No block has 0xffff paragraphs. *)
Lemma largest_none mode bs m p e :
  chain m p bs e -> mode = LARGEST -> chosen_usable mode 0xffff bs = None.
Proof.
  intros Hc ->. unfold chosen_usable, chosen. rewrite Z.eqb_refl.
  destruct (largest None (coalesce bs)) as [b|] eqn:E; [|done].
  destruct (largest_in _ _ _ E) as [?|[Hin _]]; [done|].
  pose proof (tiled_sizes _ _ _ _ (coalesce_tiled _ _ _ (chain_tiled _ _ _ _ Hc)) Hin).
  pose proof (chain_bounds _ _ _ _ Hc).
  by rewrite (proj2 (Z.leb_gt _ _)) by lia.
Qed.

(** Without the flag that makes it look twice, [DosMemLargest] allocates
    nothing and reports the size of the largest free block that coalescing can
    make, with DE_NOMEM when that is 0. *)
Theorem DosMemLargest_correct s bs e :
  chain (mem s) (search_start 0xffff LARGEST s) bs e ->
  has (mem_access_mode s) 0x80 = false ->
  let size := size_of (largest None (coalesce bs)) in
  exists s', DosMemLargest s = Some ((if size =? 0 then DE_NOMEM else SUCCESS, size), s') /\
    chain (mem s') (search_start 0xffff LARGEST s) (coalesce bs) e /\
    used (coalesce bs) = used bs.
Proof.
  intros Hc Hm. cbv zeta.
  destruct (alloc_round 1 0xffff LARGEST true bs e s Hc ltac:(lia) ltac:(done)) as (s' & H).
  rewrite (largest_none LARGEST _ _ _ _ Hc eq_refl) in H.
  change (retries LARGEST s) with false in H. destruct H as (r & Hr & Ho & Hp).
  rewrite (largest_none LARGEST _ _ _ _ Hc eq_refl) in Hp. destruct Hp as (Hc' & ->).
  exists s'. split; [|split; [done|apply used_coalesce]].
  unfold DosMemLargest, DosMemAlloc. rewrite (run_eq _ _ _ _ _ Hr), run_get.
  destruct Ho as [Hs' _]. rewrite Hs'. cbn [mem_access_mode with_mem]. rewrite Hm.
  rewrite <- Hs'. rewrite run_ret. cbn [ar_asize default]. simpl default.
  by destruct (_ =? 0).
Qed.

Lemma DosMemLargest_correct_witness :
  exists s', DosMemLargest w_mm = Some ((SUCCESS, 20), s') /\
    chain (mem s') 16 (coalesce w_blocks) 67 /\ used (coalesce w_blocks) = used w_blocks.
Proof. exact (DosMemLargest_correct w_mm w_blocks 67 w_chain eq_refl). Defined.

(** ** DosMemCheck *)

(** [DosMemCheck] detects the first header on the chain whose type byte is
    neither of the two MCB types. *)
Theorem DosMemCheck_detects s pre q :
  prefix (mem s) (first_mcb s) pre q ->
  0 < first_mcb s -> q <= 65535 ->
  mcbFreeable (mem s !!! q) = false ->
  DosMemCheck s = Some (DE_MCBDESTRY, s).
Proof.
  intros Hp Hpos Hq Hbad. unfold DosMemCheck, para2far. rewrite run_get.
  pose proof (prefix_fuel _ _ _ _ Hp Hpos Hq) as Hf.
  assert (Hlen : (length pre < chain_fuel)%nat) by lia. clear Hf Hpos.
  revert Hlen. generalize chain_fuel. induction Hp as [p|b bs q Hb Hp IH]; intros fuel Hlen.
  - destruct fuel; [simpl in Hlen; lia|]. cbn [check_loop]. rewrite run_rd.
    unfold mcbFreeable in Hbad. apply orb_false_iff in Hbad as [-> ->]. done.
  - destruct fuel; [simpl in Hlen; lia|]. cbn [check_loop].
    destruct Hb as (Hpos & Hsz & Ht & _ & Hs). pose proof (prefix_le _ _ _ _ Hp).
    rewrite run_rd, Ht. change (MCB_NORMAL =? MCB_LAST) with false. cbn [negb].
    rewrite Z.eqb_refl. cbn [negb].
    unfold nxtMCB, nxtMCBsize. rewrite Hs, u16_small by (unfold b_end in *; lia).
    apply IH; try done. simpl in Hlen. lia.
Qed.

Lemma DosMemCheck_detects_witness :
  DosMemCheck (with_mem (fun m => <[38 := w_hdr 0 0x99 7]> m) w_mm) =
    Some (DE_MCBDESTRY, with_mem (fun m => <[38 := w_hdr 0 0x99 7]> m) w_mm).
Proof.
  refine (DosMemCheck_detects _ [Blk 16 4 0x60; Blk 21 10 0; Blk 32 5 0] 38 _ _ _ _);
    [|reflexivity|vm_compute; discriminate|reflexivity].
  change 38 with (b_end (Blk 32 5 0)) at 2.
  change (first_mcb _) with (b_seg (Blk 16 4 0x60)). constructor; [solve_hdr|].
  change (b_end (Blk 16 4 0x60)) with (b_seg (Blk 21 10 0)). constructor; [solve_hdr|].
  change (b_end (Blk 21 10 0)) with (b_seg (Blk 32 5 0)). constructor; [solve_hdr|].
  constructor.
Defined.

(** ** FreeProcessMem and DosUmbLink *)

(** Linking and unlinking the upper memory region.  [DosUmbLink 1] joins
    the low chain, which ends at the upper root, with the upper chain into one
    chain; [DosUmbLink 0] on the result gives the two chains back and the
    link flag its old value. *)
Theorem DosUmbLink_roundtrip s l z up e :
  chain (mem s) (first_mcb s) (l ++ [z]) (uppermem_root s) ->
  chain (mem s) (uppermem_root s) up e ->
  uppermem_root s <> 0xffff -> uppermem_link s = 0 ->
  exists s1 s2,
    DosUmbLink 1 s = Some (tt, s1) /\ uppermem_link s1 = 1 /\
    chain (mem s1) (first_mcb s) (l ++ z :: up) e /\
    DosUmbLink 0 s1 = Some (tt, s2) /\ uppermem_link s2 = 0 /\
    chain (mem s2) (first_mcb s) (l ++ [z]) (uppermem_root s) /\
    chain (mem s2) (uppermem_root s) up e.
Proof.
  intros Hl Hu Hr Hk.
  destruct (umb_link_run s l z up e Hl Hu Hr ltac:(by rewrite Hk))
    as (s1 & Hr1 & Hc1 & Hp1 & He1).
  destruct (seg_lt_root _ _ _ _ _ _ Hl Hu) as (Hpos & _ & Hend & _).
  assert (Hu1 : chain (mem s1) (uppermem_root s) up e).
  { rewrite cons_middle, app_assoc in Hc1.
    destruct (chain_split _ _ _ _ _ Hc1) as (q & Hq & Hcq); [by eapply chain_not_nil|].
    replace (uppermem_root s) with q; [done|].
    clear -Hp1 Hq. revert Hq. induction Hp1; inversion 1; subst; [done|].
    by apply IHHp1. }
  assert (Hf1 : first_mcb s1 = first_mcb s) by (by rewrite He1).
  assert (Ho1 : uppermem_root s1 = uppermem_root s) by (by rewrite He1).
  assert (Hk1 : uppermem_link s1 = 1) by (by rewrite He1).
  destruct (umb_unlink_run s1 l z up e) as (s2 & Hr2 & Hc2 & Hu2 & He2);
    [by rewrite Hf1, Ho1|by rewrite Ho1|by rewrite Hf1|by rewrite Ho1|by rewrite Hk1|].
  exists s1, s2. rewrite Hf1, Ho1 in *.
  repeat (split; [done|]). split; [by rewrite He2|]. done.
Qed.

Lemma DosUmbLink_roundtrip_witness :
  exists s1 s2,
    DosUmbLink 1 (w_umb 0 MCB_LAST) = Some (tt, s1) /\ uppermem_link s1 = 1 /\
    chain (mem s1) 16
      ([Blk 16 4 0x60; Blk 21 10 0] ++ Blk 32 5 0 :: [Blk 38 7 0x99; Blk 46 20 0]) 67 /\
    DosUmbLink 0 s1 = Some (tt, s2) /\ uppermem_link s2 = 0 /\
    chain (mem s2) 16 ([Blk 16 4 0x60; Blk 21 10 0] ++ [Blk 32 5 0]) 38 /\
    chain (mem s2) 38 [Blk 38 7 0x99; Blk 46 20 0] 67.
Proof.
  exact (DosUmbLink_roundtrip (w_umb 0 MCB_LAST) _ _ _ _ w_umb_low
           (w_umb_high 0 MCB_LAST) ltac:(discriminate) eq_refl).
Defined.

(** [FreeProcessMem], without upper memory, with the upper memory region
    apart or linked: every block of the process becomes free, all other blocks
    are as they were, and the link is as it was. *)
Theorem FreeProcessMem_correct ps s o bs e :
  tiles s o bs e -> (forall r, o = Some r -> b_psp r <> ps) ->
  exists s', FreeProcessMem ps s = Some (SUCCESS, s') /\ tiles s' o (map (released ps) bs) e /\
    s' = with_mem (fun _ => mem s') s.
Proof. apply FreeProcessMem_tiles. Qed.

(** The upper region of the small memory starts with a block of the kernel. *)
Definition umb_root : blk := Blk 38 7 0x8.
Definition umb_low : list blk := [Blk 16 4 0x60; Blk 21 10 0; Blk 32 5 0x99].
Definition umb_high : list blk := umb_root :: [Blk 46 20 0x99].

Definition w_upper (link : Z) : mm :=
  MkMm (<[46 := w_hdr MCB_LAST 0x99 20]> (<[38 := w_hdr MCB_NORMAL 0x8 7]>
         (<[32 := w_hdr (if link =? 0 then MCB_LAST else MCB_NORMAL) 0x99 5]> w_mem))) 16 38 link 0 0x99.

Lemma w_upper_low : chain (mem (w_upper 0)) 16 umb_low 38.
Proof.
  change 16 with (b_seg (Blk 16 4 0x60)). constructor; [solve_hdr|].
  change (b_end _) with (b_seg (Blk 21 10 0)). constructor; [solve_hdr|].
  change (b_end _) with (b_seg (Blk 32 5 0x99)).
  change 38 with (b_end (Blk 32 5 0x99)). constructor; [solve_hdr|].
  vm_compute. intros H; discriminate H.
Qed.

Lemma w_upper_apart : tiles (w_upper 0) (Some umb_root) (umb_low ++ umb_high) 67.
Proof.
  apply tiles_apart; try reflexivity; try discriminate.
  - exact w_upper_low.
  - constructor; [solve_hdr|]. change (b_end _) with (b_seg (Blk 46 20 0x99)).
    change 67 with (b_end (Blk 46 20 0x99)). constructor; [solve_hdr|].
    vm_compute. intros H; discriminate H.
Qed.

Lemma w_upper_linked : tiles (w_upper 1) (Some umb_root) (umb_low ++ umb_high) 67.
Proof.
  apply tiles_linked; try reflexivity; try discriminate. cbn [app umb_low umb_high].
  change (first_mcb _) with (b_seg (Blk 16 4 0x60)). constructor; [solve_hdr|].
  change (b_end _) with (b_seg (Blk 21 10 0)). constructor; [solve_hdr|].
  change (b_end _) with (b_seg (Blk 32 5 0x99)). constructor; [solve_hdr|].
  change (b_end _) with (b_seg umb_root). constructor; [solve_hdr|].
  change (b_end _) with (b_seg (Blk 46 20 0x99)).
  change 67 with (b_end (Blk 46 20 0x99)). constructor; [solve_hdr|].
  vm_compute. intros H; discriminate H.
Qed.

Lemma FreeProcessMem_correct_witness :
  exists s', FreeProcessMem 0x99 (w_upper 0) = Some (SUCCESS, s') /\
    tiles s' (Some umb_root) [Blk 16 4 0x60; Blk 21 10 0; Blk 32 5 0; umb_root; Blk 46 20 0] 67 /\
    s' = with_mem (fun _ => mem s') (w_upper 0).
Proof.
  exact (FreeProcessMem_correct 0x99 (w_upper 0) _ _ _ w_upper_apart
           (fun r H => eq_ind umb_root (fun r => b_psp r <> 0x99) ltac:(discriminate) r (f_equal (default r) H))).
Defined.

(** ** Reachable states

    The calls a running system makes.  [at_mcb] says that a segment is found
    by following the links from [first_mcb] or from the upper memory root. *)

Definition at_mcb (s : mm) (q : Z) : Prop :=
  exists pre, prefix (mem s) (first_mcb s) pre q \/
    uppermem_root s <> 0xffff /\ prefix (mem s) (uppermem_root s) pre q.

(** The block at the root of upper memory, which is the kernel's. *)
Definition at_root (s : mm) (q : Z) : Prop := uppermem_root s <> 0xffff /\ q = uppermem_root s.

Definition with_psp (v : Z) (s : mm) : mm :=
  MkMm (mem s) (first_mcb s) (uppermem_root s) (uppermem_link s) (mem_access_mode s) v.

Inductive call :=
| CAlloc (size mode : Z) (asize : bool)
| CFree (para : Z)
| CChange (para size : Z) (maxSize : bool)
| CLink (n : Z)
| CProcess (ps : Z)
| CAccess (mode : Z)
| CSwitch (psp : Z).

(** Any process may call anything but on the kernel's block. *)
Definition allowed (s : mm) (c : call) : Prop :=
  match c with
  | CAlloc size mode asize => 0 <= size /\ (mode = LARGEST -> asize = true)
  | CFree para => at_mcb s para /\ ~ at_root s para
  | CChange para size _ => at_mcb s (para - 1) /\ ~ at_root s (para - 1) /\ 0 <= size
  | CLink n => 0 <= n
  | CProcess ps => uppermem_root s = 0xffff \/ m_psp (mem s !!! uppermem_root s) <> ps
  | CAccess _ | CSwitch _ => True
  end.

Definition perform (c : call) : K mm unit :=
  match c with
  | CAlloc size mode asize => let! _ := DosMemAlloc size mode asize in kret tt
  | CFree para => let! _ := DosMemFree para in kret tt
  | CChange para size maxSize => let! _ := DosMemChange para size maxSize in kret tt
  | CLink n => DosUmbLink n
  | CProcess ps => let! _ := FreeProcessMem ps in kret tt
  | CAccess mode => kmod (with_access mode)
  | CSwitch psp => kmod (with_psp psp)
  end.

Definition step (s s' : mm) : Prop :=
  exists c, allowed s c /\ perform c s = Some (tt, s').

(** The invariant: the chains from [p] on tile the segments up to [e], with
    the kernel's block of the upper region in its place. *)
Definition good (p e : Z) (o : option blk) (s : mm) : Prop :=
  first_mcb s = p /\ exists bs, tiles s o bs e.

(** One of the chains of a good memory. *)
Definition one_chain (s : mm) (o : option blk) (lo : Z) (bs : list blk) (hi : Z) : Prop :=
  chain (mem s) lo bs hi /\ (lo = first_mcb s \/ o <> None /\ lo = uppermem_root s).

Lemma prefix_lt m p l q : prefix m p l q -> l <> [] -> p < q.
Proof.
  destruct 1 as [|b bs q (? & ? & _) Hp]; [done|]. intros _. apply prefix_le in Hp. unfold b_end in *. lia.
Qed.

(** The blocks of a linked memory after a change of one chain. *)
Lemma linked_again p e s s' r bs :
  tiles s (Some r) bs e -> first_mcb s = p -> uppermem_link s = 1 ->
  forall lo hi bs1 bs', one_chain s (Some r) lo bs1 hi -> only lo hi s s' -> chain (mem s') lo bs' hi ->
  (r ∈ bs1 -> r ∈ bs') -> good p e (Some r) s'.
Proof.
  intros Ht Hp Hlink lo hi bs1 bs' [Hc1 Hlo] Ho Hc' Hin.
  inversion Ht as [|low up|low r' up e' Hr Hne Hf Hk Hl Hc]; subst; [congruence|].
  destruct (linked_chain_at _ _ _ _ _ _ Hc) as [Hpre Hup]. pose proof (prefix_lt _ _ _ _ Hpre Hl) as Hlt.
  pose proof (chain_bounds _ _ _ _ Hup) as Hb.
  assert (Hm : forall low' up', chain (mem s') (first_mcb s) (low' ++ r :: up') e -> good (first_mcb s) e (Some r) s').
  { intros low' up' H. destruct Ho as [-> _]. split; [done|]. exists (low' ++ r :: up').
    apply tiles_linked; try done. destruct low'; [|done]. apply chain_head in H. lia. }
  destruct Hlo as [->|[_ ->]].
  - destruct (chain_inj _ _ _ _ _ _ Hc Hc1) as [-> ->].
    destruct (elem_split r bs') as (low' & up' & ->); [|by eapply Hm].
    apply Hin, elem_of_app. right. left.
  - rewrite Hr in *. destruct (chain_inj _ _ _ _ _ _ Hup Hc1) as [-> ->].
    destruct (elem_split r bs') as (mid & up' & ->); [apply Hin; left|].
    apply (Hm (low ++ mid) up'). rewrite <- app_assoc. eapply prefix_chain; [|exact Hc'].
    eapply prefix_frame; [exact Hpre|]. intros a Ha. apply (proj2 Ho). lia.
Qed.

(** A call that leaves the chain it works on well formed, with the kernel's
    block still in it, leaves a good memory. *)
Lemma good_update p e o s s' lo bs hi bs' :
  good p e o s -> one_chain s o lo bs hi -> only lo hi s s' -> chain (mem s') lo bs' hi ->
  (forall r, o = Some r -> is_free r = false -> r ∈ bs -> r ∈ bs') -> good p e o s'.
Proof.
  intros [Hp (all & Ht)] H1 Ho Hc' Hin. pose proof Ht as Ht0.
  destruct Ht as [all e Hr Hc|low r up e Hr Hne Hf Hk Hlo Hup|low r up e Hr Hne Hf Hk Hl Hc].
  - destruct H1 as [Hc1 [->|[[] _]]]; [|done]. destruct (chain_inj _ _ _ _ _ _ Hc Hc1) as [-> ->].
    destruct Ho as [-> _]. split; [done|]. exists bs'. by constructor.
  - specialize (Hin r eq_refl Hf). pose proof (chain_bounds _ _ _ _ Hup). pose proof (chain_bounds _ _ _ _ Hlo).
    destruct H1 as [Hc1 [->|[_ ->]]].
    + destruct (chain_inj _ _ _ _ _ _ Hlo Hc1) as [-> ->]. destruct Ho as [-> Hfr].
      split; [done|]. exists (bs' ++ r :: up). apply tiles_apart; try done.
      eapply chain_frame; [exact Hup|]. intros a Ha. apply Hfr. lia.
    + rewrite Hr in *. destruct (chain_inj _ _ _ _ _ _ Hup Hc1) as [-> ->].
      destruct (elem_split r bs') as (mid & up' & ->); [apply Hin; left|].
      assert (mid = []) as ->.
      { destruct mid as [|b mid]; [done|]. destruct (linked_chain_at _ _ (b :: mid) _ _ _ Hc') as [Hpm _].
        apply prefix_lt in Hpm; [lia|done]. }
      destruct Ho as [-> Hfr]. split; [done|]. exists (low ++ r :: up'). apply tiles_apart; try done.
      eapply chain_frame; [exact Hlo|]. intros a Ha. apply Hfr. lia.
  - eapply linked_again; eauto.
Qed.

(** The chains there are. *)
Lemma good_chains p e o s :
  good p e o s -> (exists bs hi, chain (mem s) p bs hi) /\
    (forall r, o = Some r -> uppermem_root s = b_seg r /\ is_free r = false /\
       exists up, chain (mem s) (uppermem_root s) (r :: up) e) /\
    (o = None -> uppermem_root s = 0xffff) /\ (uppermem_root s = 0xffff -> o = None).
Proof.
  intros [<- (bs & Ht)]. destruct Ht as [bs e Hr Hc|low r up e Hr Hne Hf Hk Hlo Hup|low r up e Hr Hne Hf Hk Hl Hc].
  - split; [eauto|]. by split.
  - split; [eauto|]. split; [|split; [done|congruence]]. intros r' [= <-]. rewrite Hr. eauto.
  - split; [eauto|]. split; [|split; [done|congruence]]. intros r' [= <-]. rewrite Hr.
    destruct (linked_chain_at _ _ _ _ _ _ Hc). eauto.
Qed.

Lemma good_start p e o s size mode :
  good p e o s -> exists bs hi, one_chain s o (search_start size mode s) bs hi.
Proof.
  intros Hg. destruct (good_chains _ _ _ _ Hg) as ((bs & hi & Hc) & Hr & Hn & _). destruct Hg as [Hf _].
  assert (Hlow : one_chain s o (first_mcb s) bs hi) by (split; [by rewrite Hf|by left]).
  unfold search_start, para2far. destruct (has _ 1 && _) eqn:E; [|eauto].
  destruct (_ && has _ _); [|eauto]. destruct o as [r|].
  - destruct (Hr r eq_refl) as (_ & _ & up & Hup). exists (r :: up), e. split; [done|by right].
  - rewrite Hn in E by done. by rewrite andb_false_r in E.
Qed.

Lemma good_at p e o s q :
  good p e o s -> at_mcb s q ->
  exists lo pre b rest hi, one_chain s o lo (pre ++ b :: rest) hi /\ b_seg b = q.
Proof.
  intros Hg (pre & Hp). destruct (good_chains _ _ _ _ Hg) as ((bs & hi & Hc) & Hr & Hn & _). destruct Hg as [Hf _].
  assert (H : exists lo bs hi, one_chain s o lo bs hi /\ prefix (mem s) lo pre q).
  { destruct Hp as [Hp|[Hne Hp]].
    - exists p, bs, hi. split; [|by rewrite <- Hf]. split; [done|by left].
    - destruct o as [r|]; [|by rewrite Hn in Hne]. destruct (Hr r eq_refl) as (_ & _ & up & Hup).
      eexists _, _, _. split; [|exact Hp]. split; [exact Hup|by right]. }
  clear -H. destruct H as (lo & bs & hi & [Hc Hlo] & Hp).
  assert (Hq : q < hi).
  { destruct (at_mcb_bound _ _ _ _ _ _ Hp Hc) as [->|?]; [|done].
    inversion Hp; subst. apply chain_bounds in Hc; lia. }
  destruct (at_mcb_split _ _ _ _ _ _ Hp Hc Hq) as (b & rest & -> & <-).
  exists lo, pre, b, rest, hi. by repeat split.
Qed.

Lemma elem_of_used b bs : b ∈ used bs <-> is_free b = false /\ b ∈ bs.
Proof. unfold used. by rewrite list_elem_of_filter. Qed.

(** One search of an allocation keeps the memory good, found or not. *)
Lemma good_post p e o s size mode asize bs hi r s' :
  good p e o s -> one_chain s o (search_start size mode s) bs hi ->
  alloc_post size mode asize (search_start size mode s) bs hi s r s' -> good p e o s'.
Proof.
  intros Hg H1 (Ho & Hp). destruct (chosen_usable mode size bs).
  - destruct Hp as (pre & n & rest & Hc' & _ & _ & _ & _ & Hu & _).
    eapply good_update; [done..|]. intros c _ Hf Hb.
    assert (Hbu : c ∈ used bs) by (by apply elem_of_used).
    rewrite Hu, elem_of_app, !elem_of_used in Hbu. rewrite elem_of_app, elem_of_cons. tauto.
  - destruct Hp as (Hc' & _). eapply good_update; [done..|]. intros c _ Hf Hb.
    by apply (elem_of_used c (coalesce bs)); rewrite used_coalesce; apply elem_of_used.
Qed.

Lemma has_clear mode b : has (clear mode b) b = false.
Proof.
  unfold has, clear. by rewrite Z.land_ldiff.
Qed.

Lemma good_alloc p e o s size mode asize :
  good p e o s -> 0 <= size -> (mode = LARGEST -> asize = true) ->
  exists r s', DosMemAlloc size mode asize s = Some (r, s') /\ good p e o s'.
Proof.
  intros Hg Hs Ha. destruct (good_start _ _ _ _ size mode Hg) as (bs & hi & H1).
  destruct (alloc_round 1 size mode asize bs hi s (proj1 H1) Hs Ha) as (s1 & H).
  destruct (chosen_usable mode size bs) as [b|] eqn:Ec; [|destruct (retries mode s)].
  - destruct H as (r & Hr & Hp). exists r, s1. split; [done|]. by eapply good_post.
  - destruct H as (Hr & Ho & Hc).
    assert (Hg1 : good p e o s1).
    { eapply (good_post _ _ _ s size mode asize bs hi (AllocRes DE_NOMEM None _)); [done..|].
      split; [done|]. rewrite Ec. by split. }
    assert (Hno : has (clear mode FIRST_FIT_U) FIRST_FIT_U = false) by apply has_clear.
    destruct (good_start _ _ _ _ size (clear mode FIRST_FIT_U) Hg1) as (bs2 & hi2 & H2).
    destruct (alloc_round 0 size (clear mode FIRST_FIT_U) asize bs2 hi2 s1 (proj1 H2) Hs) as (s2 & H3).
    { intros E. by rewrite E in Hno. }
    replace (retries (clear mode FIRST_FIT_U) s1) with false in H3
      by (unfold retries; by rewrite Hno, andb_false_r).
    assert (H4 : exists r, alloc_loop 1 size (clear mode FIRST_FIT_U) asize s1 = Some (r, s2) /\
      alloc_post size (clear mode FIRST_FIT_U) asize (search_start size (clear mode FIRST_FIT_U) s1) bs2 hi2 s1 r s2)
      by (by destruct (chosen_usable (clear mode FIRST_FIT_U) size bs2)).
    destruct H4 as (r & Hr2 & Hp2). exists r, s2. split; [unfold DosMemAlloc; by rewrite Hr|].
    by eapply good_post.
  - destruct H as (r & Hr & Hp). exists r, s1. split; [done|]. by eapply good_post.
Qed.

(** A block that is not the kernel's is another block than [r]. *)
Lemma good_other p e o s q r :
  good p e o s -> ~ at_root s q -> o = Some r -> b_seg r <> q.
Proof.
  intros Hg Hq -> E. destruct (good_chains _ _ _ _ Hg) as (_ & Hr & _ & Hn).
  destruct (Hr r eq_refl) as (Hroot & _). apply Hq. split; [|congruence]. intros E'. by specialize (Hn E').
Qed.

Lemma good_free p e o s q :
  good p e o s -> at_mcb s q -> ~ at_root s q ->
  exists s', DosMemFree q s = Some (SUCCESS, s') /\ good p e o s'.
Proof.
  intros Hg Hq Hnr. destruct (good_at _ _ _ _ _ Hg Hq) as (lo & pre & b & rest & hi & [Hc Hlo] & <-).
  destruct (free_run _ _ _ _ _ _ Hc) as (s' & Hr & Hc' & Ho). exists s'. split; [done|].
  destruct (chain_bounded _ _ _ _ _ _ Hc) as (_ & ? & ? & ?).
  eapply (good_update _ _ _ s); [done|split; [exact Hc|done]| |exact Hc'|].
  - eapply only_sub; [exact Ho|done|unfold b_end in *; lia].
  - intros r Er _. pose proof (good_other _ _ _ _ _ _ Hg Hnr Er) as Hne.
    rewrite !elem_of_app, !elem_of_cons. intros [?|[->|?]]; [by left|done|by right; right].
Qed.

(** Joining and cutting keep the used blocks that follow. *)
Lemma used_after_absorb b rest r : is_free r = false -> r ∈ rest -> r ∈ (absorb b rest).2.
Proof.
  intros Hf. revert b. induction rest as [|c rest IH]; intros b; [by intros ?%not_elem_of_nil|].
  cbn [absorb]. destruct (is_free c) eqn:Ec; [|done].
  intros [->|Hin]%elem_of_cons; [congruence|by apply IH].
Qed.

Lemma used_after_resize size cu b rest r : is_free r = false -> r ∈ rest -> r ∈ resized size cu b rest.
Proof.
  intros Hf Hin. unfold resized. destruct (size <? b_size b); [|by right].
  pose proof (used_after_absorb (Blk (b_seg b + size + 1) (b_size b - size - 1) FREE_PSP) rest r Hf Hin) as H.
  destruct (absorb _ rest) as [f rest']. right. by right.
Qed.

Lemma good_change p e o s q size mx :
  good p e o s -> at_mcb s q -> ~ at_root s q -> 0 <= size ->
  exists r s', DosMemChange (q + 1) size mx s = Some (r, s') /\ good p e o s'.
Proof.
  intros Hg Hq Hnr Hs. destruct (good_at _ _ _ _ _ Hg Hq) as (lo & pre & b & rest & hi & [Hc Hlo] & <-).
  destruct (chain_bounded _ _ _ _ _ _ Hc) as (_ & ? & ? & ?).
  pose proof (change_run _ _ _ _ _ _ size mx Hc Hs) as Hrun.
  assert (Hkeep : forall r, is_free r = false -> r ∈ rest ->
    r ∈ (if b_size b <? size then absorb b rest else (b, rest)).2).
  { intros r Hf Hin. destruct (b_size b <? size); [by apply used_after_absorb|done]. }
  destruct (if b_size b <? size then _ else _) as [b' rest']. cbn [snd] in Hkeep.
  destruct Hrun as (s' & Ho & Hx).
  assert (Hgo : forall l, chain (mem s') lo (pre ++ l) hi -> (forall r, is_free r = false -> r ∈ rest -> r ∈ l) -> good p e o s').
  { intros l Hc' Hl. eapply (good_update _ _ _ s); [done|split; [exact Hc|done]| |exact Hc'|].
    - eapply only_sub; [exact Ho|done|lia].
    - intros r Er Hf. pose proof (good_other _ _ _ _ _ _ Hg Hnr Er) as Hne.
      rewrite !elem_of_app, elem_of_cons. intros [?|[->|?]]; [by left|done|right; by apply Hl]. }
  destruct (b_size b' <? size); destruct Hx as [Hr Hc']; eexists _, s'; (split; [exact Hr|]); eapply Hgo; eauto.
  - intros r Hf Hin. right. by apply Hkeep.
  - intros r Hf Hin. apply used_after_resize; [done|by apply Hkeep].
Qed.

Lemma good_link p e o s n :
  good p e o s -> 0 <= n -> exists s', DosUmbLink n s = Some (tt, s') /\ good p e o s'.
Proof.
  intros [Hf (bs & Ht)] Hn. destruct (umb_link_tiles n s o bs e Ht Hn) as (s' & Hr & Ht' & Hs & _).
  exists s'. split; [done|]. split; [by rewrite Hs|eauto].
Qed.

Lemma good_process p e o s ps :
  good p e o s -> uppermem_root s = 0xffff \/ m_psp (mem s !!! uppermem_root s) <> ps ->
  exists s', FreeProcessMem ps s = Some (SUCCESS, s') /\ good p e o s'.
Proof.
  intros Hg Hps. destruct (good_chains _ _ _ _ Hg) as (_ & Hr & _ & Hn). destruct Hg as [Hf (bs & Ht)].
  destruct (FreeProcessMem_tiles ps s o bs e Ht) as (s' & Hrun & Ht' & Hs).
  { intros r ->. destruct (Hr r eq_refl) as (Hroot & _ & up & Hup).
    destruct Hps as [E|Hps]; [by specialize (Hn E)|]. rewrite Hroot in Hup, Hps. by rewrite (chain_psp_at _ _ [] r up e Hup) in Hps. }
  exists s'. split; [done|]. split; [by rewrite Hs|eauto].
Qed.

(** Every allowed call returns, to a good state. *)
Lemma good_perform p e o s c :
  good p e o s -> allowed s c -> exists s', perform c s = Some (tt, s') /\ good p e o s'.
Proof.
  intros Hg Ha. destruct c as [size mode asize|q|q size mx|n|ps|mode|psp]; cbn [perform allowed] in *.
  - destruct Ha as [Hs Ha].
    destruct (good_alloc _ _ _ _ _ _ _ Hg Hs Ha) as (r & s' & Hr & Hg').
    exists s'. by rewrite (run_eq _ _ _ _ _ Hr).
  - destruct (good_free _ _ _ _ _ Hg (proj1 Ha) (proj2 Ha)) as (s' & Hr & Hg').
    exists s'. by rewrite (run_eq _ _ _ _ _ Hr).
  - destruct Ha as (Hq & Hnr & Hs).
    destruct (good_change _ _ _ _ _ size mx Hg Hq Hnr Hs) as (r & s' & Hr & Hg').
    exists s'. replace (q - 1 + 1) with q in Hr by lia. by rewrite (run_eq _ _ _ _ _ Hr).
  - by apply good_link.
  - destruct (good_process _ _ _ _ ps Hg Ha) as (s' & Hr & Hg').
    exists s'. by rewrite (run_eq _ _ _ _ _ Hr).
  - exists (with_access mode s). split; [done|]. destruct Hg as [Hf (bs & Ht)]. split; [done|].
    exists bs. by eapply (tiles_globals s).
  - exists (with_psp psp s). split; [done|]. destruct Hg as [Hf (bs & Ht)]. split; [done|].
    exists bs. by eapply (tiles_globals s).
Qed.

(** C1: From a memory whose chains of MCBs are well formed (low memory alone,
    or with an upper memory region that starts with a block of the kernel,
    linked or not), every sequence of allocations in any mode, releases,
    resizes, links and unlinks of upper memory, process terminations and
    process switches keeps the chains well formed over the same regions, as
    long as no call names the kernel's block: in every state reached, the
    chain check passes and every further such call returns.  Releases and
    resizes are those of a block of a chain; what a program writes over a
    header itself is not covered. *)
Theorem chain_never_destroyed p e o s s' :
  good p e o s -> rtc step s s' ->
  good p e o s' /\ DosMemCheck s' = Some (SUCCESS, s') /\
  forall c, allowed s' c -> exists s'', perform c s' = Some (tt, s'') /\ step s' s''.
Proof.
  intros Hg Hs.
  assert (Hg' : good p e o s').
  { induction Hs as [s|s s1 s' (c & Ha & Hr) _ IH]; [done|]. apply IH.
    destruct (good_perform _ _ _ _ _ Hg Ha) as (s2 & Hr2 & Hg2). congruence. }
  split; [done|]. split.
  - destruct (good_chains _ _ _ _ Hg') as ((bs & hi & Hc) & _). destruct Hg' as [Hf _].
    unfold DosMemCheck. rewrite run_get, Hf.
    apply (check_chain _ _ _ _ _ Hc). apply Nat.lt_le_incl; by eapply chain_fuel_enough.
  - intros c Ha. destruct (good_perform _ _ _ _ _ Hg' Ha) as (s2 & Hr2 & _).
    exists s2. split; [done|]. by exists c.
Qed.

(** Upper memory is linked, a block taken from it, and the process ends. *)
Lemma chain_never_destroyed_witness :
  exists s1 s2 s3, perform (CLink 1) (w_upper 0) = Some (tt, s1) /\
    perform (CAlloc 16 FIRST_FIT_U true) s1 = Some (tt, s2) /\
    perform (CProcess 0x99) s2 = Some (tt, s3) /\ DosMemCheck s3 = Some (SUCCESS, s3).
Proof.
  assert (Hg : good 16 67 (Some umb_root) (w_upper 0)).
  { split; [reflexivity|]. exists (umb_low ++ umb_high). exact w_upper_apart. }
  destruct (chain_never_destroyed 16 67 _ (w_upper 0) _ Hg (rtc_refl _ _)) as (_ & _ & H1).
  destruct (H1 (CLink 1) ltac:(cbn; lia)) as (s1 & Hr1 & Hs1).
  destruct (chain_never_destroyed 16 67 _ (w_upper 0) s1 Hg (rtc_once _ _ Hs1)) as (_ & _ & H2).
  destruct (H2 (CAlloc 16 FIRST_FIT_U true)) as (s2 & Hr2 & Hs2); [split; [lia|discriminate]|].
  pose proof (rtc_l _ _ _ _ Hs1 (rtc_once _ _ Hs2)) as Hs12.
  destruct (chain_never_destroyed 16 67 _ (w_upper 0) s2 Hg Hs12) as (Hg2 & _ & H3).
  destruct (H3 (CProcess 0x99)) as (s3 & Hr3 & Hs3).
  { right. destruct (good_chains _ _ _ _ Hg2) as (_ & Hr & _). destruct (Hr _ eq_refl) as (Hroot & _ & up & Hup).
    rewrite Hroot in Hup |- *. rewrite (chain_psp_at _ _ [] umb_root up 67 Hup). discriminate. }
  exists s1, s2, s3. split; [exact Hr1|]. split; [exact Hr2|]. split; [exact Hr3|].
  apply (chain_never_destroyed 16 67 _ (w_upper 0) s3 Hg (rtc_r _ _ _ Hs12 Hs3)).
Defined.

End MmProps.
