(* ===== verification/KState.v ===== *)
(** * Kernel state of the FAT file system (kernel/globals.h, hdr/)

    The records of the structures the file system code shares, with their
    field names from the headers, the machine the kernel runs on, and the
    accessors the models of the C files use.  A far pointer to a structure is
    the key of the table that holds it, 0 being NULL; a byte buffer is the
    list of its bytes.  Fields that no modelled function touches are left
    out. *)

From S2P Require Import Prelude.

Module Ks.

(** ** Constants (hdr/error.h, hdr/device.h, kernel/globals.h, hdr/buffer.h) *)

Definition TRUE : Z := 1.
Definition FALSE : Z := 0.
Definition DE_FILENOTFND := -2.
Definition DE_PATHNOTFND := -3.
Definition DE_TOOMANY := -4.
Definition DE_ACCESS := -5.
Definition DE_INVLDHNDL := -6.
Definition DE_INVLDDATA := -13.
Definition DE_INVLDDRV := -15.
Definition DE_RMVCUDIR := -16.
Definition DE_NFILES := -18.
Definition DE_BLKINVLD := -20.
Definition DE_SEEK := -25.
Definition DE_HNDLDSKFULL := -28.
Definition DE_FILEEXISTS := -80.

Definition CONTINUE := 0.
Definition RETRY := 1.
Definition ABORT := 2.
Definition FAIL := 3.

Definition S_ERROR := 0x8000.
Definition S_DONE := 0x0100.
Definition S_MASK := 0x00ff.
Definition C_MEDIACHK := 0x01.
Definition C_BLDBPB := 0x02.
Definition C_INPUT := 0x04.
Definition C_OUTPUT := 0x08.
Definition C_OUTVFY := 0x09.
Definition ATTR_HUGE := 0x0002.
Definition HUGECOUNT := 0xffff.
Definition MAXSHORT := 0xffff.
Definition MAX_SEC_SIZE := 512.
Definition BUFFERSIZE := MAX_SEC_SIZE.
Definition LOC_CONV := 0.
Definition LOC_HMA := 1.

Definition XFR_READ := 1.
Definition XFR_WRITE := 2.
Definition DSKWRITE := 1.
Definition DSKREAD := 2.
Definition DSKWRITEINT26 := 3.
Definition DSKREADINT25 := 4.

Definition BFR_DIRTY := 0x40.
Definition BFR_VALID := 0x20.
Definition BFR_DATA := 0x08.
Definition BFR_DIR := 0x04.
Definition BFR_FAT := 0x02.
Definition BFR_UNCACHE := 0x01.

Definition EFLG_ABORT := 0x08.
Definition EFLG_RETRY := 0x10.
Definition EFLG_IGNORE := 0x20.
Definition EFLG_WRITE := 0x01.

(** A signed 8-bit store (BYTE is a signed char in the kernel's build). *)
Definition s8 (x : Z) : Z := (x + 128) mod 256 - 128.
(** A signed 16-bit store (WORD, COUNT). *)
Definition s16 (x : Z) : Z := (x + 32768) mod 65536 - 32768.

(** ** struct buffer *)

Record buffer := Buffer {
  b_next : Z;
  b_prev : Z;
  b_unit : Z;
  b_flag : Z;
  b_blkno : Z;
  b_copies : Z;
  b_offset : Z;
  b_dpbp : Z;
  b_buffer : list Z }.

Definition set_next v (b : buffer) : buffer :=
  Buffer v (b_prev b) (b_unit b) (b_flag b) (b_blkno b) (b_copies b) (b_offset b) (b_dpbp b) (b_buffer b).
Definition set_prev v (b : buffer) : buffer :=
  Buffer (b_next b) v (b_unit b) (b_flag b) (b_blkno b) (b_copies b) (b_offset b) (b_dpbp b) (b_buffer b).
Definition set_unit v (b : buffer) : buffer :=
  Buffer (b_next b) (b_prev b) v (b_flag b) (b_blkno b) (b_copies b) (b_offset b) (b_dpbp b) (b_buffer b).
Definition set_flag v (b : buffer) : buffer :=
  Buffer (b_next b) (b_prev b) (b_unit b) v (b_blkno b) (b_copies b) (b_offset b) (b_dpbp b) (b_buffer b).
Definition set_blkno v (b : buffer) : buffer :=
  Buffer (b_next b) (b_prev b) (b_unit b) (b_flag b) v (b_copies b) (b_offset b) (b_dpbp b) (b_buffer b).
Definition set_copies v (b : buffer) : buffer :=
  Buffer (b_next b) (b_prev b) (b_unit b) (b_flag b) (b_blkno b) v (b_offset b) (b_dpbp b) (b_buffer b).
Definition set_offset v (b : buffer) : buffer :=
  Buffer (b_next b) (b_prev b) (b_unit b) (b_flag b) (b_blkno b) (b_copies b) v (b_dpbp b) (b_buffer b).
Definition set_dpbp v (b : buffer) : buffer :=
  Buffer (b_next b) (b_prev b) (b_unit b) (b_flag b) (b_blkno b) (b_copies b) (b_offset b) v (b_buffer b).
Definition set_buffer v (b : buffer) : buffer :=
  Buffer (b_next b) (b_prev b) (b_unit b) (b_flag b) (b_blkno b) (b_copies b) (b_offset b) (b_dpbp b) v.
(** [b_flag &= ~mask] and [b_flag |= mask]. *)
Definition flag_off mask (b : buffer) : buffer := set_flag (clear (b_flag b) mask) b.
Definition flag_on mask (b : buffer) : buffer := set_flag (setf (b_flag b) mask) b.

#[export] Instance buffer_inhabited : Inhabited buffer :=
  populate (Buffer 0 0 0 0 0 0 0 0 []).

(** ** struct dpb: the drive parameter block *)

Record dpb := Dpb {
  dpb_unit : Z;
  dpb_subunit : Z;
  dpb_secsize : Z;
  dpb_clsmask : Z;
  dpb_shftcnt : Z;
  dpb_fatstrt : Z;
  dpb_fats : Z;
  dpb_dirents : Z;
  dpb_data : Z;
  dpb_size : Z;
  dpb_fatsize : Z;
  dpb_dirstrt : Z;
  dpb_device : Z;
  dpb_mdb : Z;
  dpb_flags : Z;
  dpb_cluster : Z;
  dpb_xnfreeclst : Z;
  dpb_xflags : Z;
  dpb_xfsinfosec : Z;
  dpb_xbackupsec : Z;
  dpb_xdata : Z;
  dpb_xsize : Z;
  dpb_xfatsize : Z;
  dpb_xrootclst : Z;
  dpb_xcluster : Z }.

#[export] Instance dpb_inhabited : Inhabited dpb :=
  populate (Dpb 0 0 0 0 0 0 0 0 0 0 0 0 0 0 0 0 0 0 0 0 0 0 0 0 0).

Definition UNKNCLUSTER := 0x0000.
Definition XUNKNCLSTFREE := 0xffffffff.
Definition UNKNCLSTFREE := 0xffff.

(** [dpb_nfreeclst] is the low word of the union with [dpb_xnfreeclst]. *)
Definition dpb_nfreeclst (d : dpb) : Z := u16 (dpb_xnfreeclst d).

Definition set_cluster v (d : dpb) : dpb :=
  Dpb (dpb_unit d) (dpb_subunit d) (dpb_secsize d) (dpb_clsmask d) (dpb_shftcnt d)
    (dpb_fatstrt d) (dpb_fats d) (dpb_dirents d) (dpb_data d) (dpb_size d) (dpb_fatsize d)
    (dpb_dirstrt d) (dpb_device d) (dpb_mdb d) (dpb_flags d) v (dpb_xnfreeclst d)
    (dpb_xflags d) (dpb_xfsinfosec d) (dpb_xbackupsec d) (dpb_xdata d) (dpb_xsize d)
    (dpb_xfatsize d) (dpb_xrootclst d) (dpb_xcluster d).
Definition set_xnfreeclst v (d : dpb) : dpb :=
  Dpb (dpb_unit d) (dpb_subunit d) (dpb_secsize d) (dpb_clsmask d) (dpb_shftcnt d)
    (dpb_fatstrt d) (dpb_fats d) (dpb_dirents d) (dpb_data d) (dpb_size d) (dpb_fatsize d)
    (dpb_dirstrt d) (dpb_device d) (dpb_mdb d) (dpb_flags d) (dpb_cluster d) v
    (dpb_xflags d) (dpb_xfsinfosec d) (dpb_xbackupsec d) (dpb_xdata d) (dpb_xsize d)
    (dpb_xfatsize d) (dpb_xrootclst d) (dpb_xcluster d).
Definition set_xcluster v (d : dpb) : dpb :=
  Dpb (dpb_unit d) (dpb_subunit d) (dpb_secsize d) (dpb_clsmask d) (dpb_shftcnt d)
    (dpb_fatstrt d) (dpb_fats d) (dpb_dirents d) (dpb_data d) (dpb_size d) (dpb_fatsize d)
    (dpb_dirstrt d) (dpb_device d) (dpb_mdb d) (dpb_flags d) (dpb_cluster d) (dpb_xnfreeclst d)
    (dpb_xflags d) (dpb_xfsinfosec d) (dpb_xbackupsec d) (dpb_xdata d) (dpb_xsize d)
    (dpb_xfatsize d) (dpb_xrootclst d) v.
(** A store to the low word of the union. *)
Definition set_nfreeclst v (d : dpb) : dpb :=
  set_xnfreeclst (Z.lor (Z.shiftl (Z.shiftr (dpb_xnfreeclst d) 16) 16) (u16 v)) d.

(** ** bpb: the BIOS parameter block of hdr/device.h *)

Record bpb := Bpb {
  bpb_nbyte : Z;
  bpb_nsector : Z;
  bpb_nreserved : Z;
  bpb_nfat : Z;
  bpb_ndirent : Z;
  bpb_nsize : Z;
  bpb_mdesc : Z;
  bpb_nfsect : Z;
  bpb_nsecs : Z;
  bpb_nheads : Z;
  bpb_hidden : Z;
  bpb_huge : Z;
  bpb_xnfsect : Z;
  bpb_xflags : Z;
  bpb_xfsversion : Z;
  bpb_xrootclst : Z;
  bpb_xfsinfosec : Z;
  bpb_xbackupsec : Z }.

(** ** request: the header passed to a device driver.  [r_bpb] is the block
    that [r_bpptr] points to after C_BLDBPB. *)

Record request := Request {
  r_length : Z;
  r_unit : Z;
  r_command : Z;
  r_status : Z;
  r_meddesc : Z;
  r_count : Z;
  r_start : Z;
  r_huge : Z;
  r_mcretcode : Z;
  r_bpb : bpb }.

Definition SIZEOF_REQUEST := 30.

(** ** struct dirent, dmatch, struct f_node, sft, struct cds *)

Record dirent := Dirent {
  dir_name : list Z;
  dir_attrib : Z;
  dir_case : Z;
  dir_crtimems : Z;
  dir_crtime : Z;
  dir_crdate : Z;
  dir_accdate : Z;
  dir_start_high : Z;
  dir_time : Z;
  dir_date : Z;
  dir_start : Z;
  dir_size : Z }.

Record dmatch := Dmatch {
  dm_drive : Z;
  dm_name_pat : list Z;
  dm_attr_srch : Z;
  dm_entry : Z;
  dm_dircluster : Z }.

(** The two objects [f_dmp] points to. *)
Inductive dmp := sda_tmp_dm | sda_tmp_dm_ren.
(** [&fnode[0]] and [&fnode[1]]. *)
Inductive f_node_ptr := fnode0 | fnode1.

Record f_node := FNode {
  f_flags : Z;
  f_dmp : dmp;
  f_dir : dirent;
  f_dirsector : Z;
  f_diridx : Z;
  f_dpb : Z;
  f_offset : Z;
  f_cluster_offset : Z;
  f_cluster : Z;
  f_sft_idx : Z }.

Record sft := Sft {
  sft_count : Z;
  sft_mode : Z;
  sft_attrib : Z;
  sft_flags : Z;
  sft_dcb : Z;
  sft_time : Z;
  sft_date : Z;
  sft_size : Z;
  sft_posit : Z;
  sft_relclust : Z;
  sft_relclust_high : Z;
  sft_dirsector : Z;
  sft_diridx : Z;
  sft_name : list Z;
  sft_stclust : Z;
  sft_shroff : Z;
  sft_cuclust : Z;
  sft_psp : Z }.

Definition set_sft_count v (r : sft) : sft :=
  Sft v (sft_mode r) (sft_attrib r) (sft_flags r) (sft_dcb r) (sft_time r) (sft_date r)
    (sft_size r) (sft_posit r) (sft_relclust r) (sft_relclust_high r) (sft_dirsector r)
    (sft_diridx r) (sft_name r) (sft_stclust r) (sft_shroff r) (sft_cuclust r) (sft_psp r).

Record cds := Cds {
  cdsCurrentPath : list Z;
  cdsFlags : Z;
  cdsDpb : Z;
  cdsStrtClst : Z;
  cdsBackslashOffset : Z }.

(** ** The machine around the kernel

    Device drivers, the critical error handler (INT 24h), the network
    redirector (INT 2Fh) and SHARE are not part of this program.
    [execrh dev rq buf w] is the effect of calling the driver at header [dev]:
    the request afterwards, the transfer buffer afterwards and the new world.
    [CriticalError flags drive code dev w] is the operator's answer. *)

Class Machine := {
  world : Type;
  execrh : Z -> request -> list Z -> world -> request * list Z * world;
  CriticalError : Z -> Z -> Z -> Z -> world -> Z * world;
  redirector_flushall : world -> world;
  redirector_sft : bool -> sft -> world -> Z * sft * world;
  share_check : world -> Z * world;
  share_close_file : Z -> world -> world }.

(** Messages put on the console. *)
Inductive msg :=
| MsgBadFat (what : string) (clussec : Z)
| MsgBadDPB
| MsgChainSize.

(** Settings and tables that the file system code only reads. *)
Record genv := Genv {
  lastdrive : Z;
  dh_attr : gmap Z Z;
  verify_ena : bool;
  bufloc : Z;
  firstbuf_seg : Z;
  clock : Z;
  os_major_seg : Z }.

Record drvio := Drvio {
  IoReqHdr : request;
  MediaReqHdr : request;
  CritErrCode : Z;
  deblock_buf : list Z;
  CharReqHdr : request;
  ClkRecord : list Z }.

Record fsv := Fsv {
  fn0 : f_node;
  fn1 : f_node;
  tmp_dm : dmatch;
  tmp_dm_ren : dmatch;
  SearchDir : dirent;
  sfthead : list (list sft);
  share_installed : bool }.

Record kst {M : Machine} := Kst {
  env : genv;
  bufs : gmap Z buffer;
  firstbuf : Z;
  LoL_nbuffers : Z;
  dpbs : gmap Z dpb;
  CDSp : gmap Z cds;
  drv : drvio;
  fs : fsv;
  console : list msg;
  dev : world }.

Section Access.
Context {M : Machine}.

Definition set_bufs v (s : kst) : kst :=
  Kst M (env s) v (firstbuf s) (LoL_nbuffers s) (dpbs s) (CDSp s) (drv s) (fs s) (console s) (dev s).
Definition set_firstbuf v (s : kst) : kst :=
  Kst M (env s) (bufs s) v (LoL_nbuffers s) (dpbs s) (CDSp s) (drv s) (fs s) (console s) (dev s).
Definition set_nbuffers v (s : kst) : kst :=
  Kst M (env s) (bufs s) (firstbuf s) v (dpbs s) (CDSp s) (drv s) (fs s) (console s) (dev s).
Definition set_dpbs v (s : kst) : kst :=
  Kst M (env s) (bufs s) (firstbuf s) (LoL_nbuffers s) v (CDSp s) (drv s) (fs s) (console s) (dev s).
Definition set_CDSp v (s : kst) : kst :=
  Kst M (env s) (bufs s) (firstbuf s) (LoL_nbuffers s) (dpbs s) v (drv s) (fs s) (console s) (dev s).
Definition set_drv v (s : kst) : kst :=
  Kst M (env s) (bufs s) (firstbuf s) (LoL_nbuffers s) (dpbs s) (CDSp s) v (fs s) (console s) (dev s).
Definition set_fs v (s : kst) : kst :=
  Kst M (env s) (bufs s) (firstbuf s) (LoL_nbuffers s) (dpbs s) (CDSp s) (drv s) v (console s) (dev s).
Definition set_console v (s : kst) : kst :=
  Kst M (env s) (bufs s) (firstbuf s) (LoL_nbuffers s) (dpbs s) (CDSp s) (drv s) (fs s) v (dev s).
Definition set_dev v (s : kst) : kst :=
  Kst M (env s) (bufs s) (firstbuf s) (LoL_nbuffers s) (dpbs s) (CDSp s) (drv s) (fs s) (console s) v.

(** Load and store through a buffer pointer and a DPB pointer. *)
Definition bget (p : Z) : K kst buffer :=
  fun s => match bufs s !! p with Some b => Some (b, s) | None => None end.
Definition bmod (p : Z) (f : buffer -> buffer) : K kst unit :=
  fun s => match bufs s !! p with
           | Some b => Some (tt, set_bufs (<[p := f b]> (bufs s)) s) | None => None end.
Definition dget (p : Z) : K kst dpb :=
  fun s => match dpbs s !! p with Some d => Some (d, s) | None => None end.
Definition dmod (p : Z) (f : dpb -> dpb) : K kst unit :=
  fun s => match dpbs s !! p with
           | Some d => Some (tt, set_dpbs (<[p := f d]> (dpbs s)) s) | None => None end.
Definition say (m : msg) : K kst unit := kmod (fun s => set_console (console s ++ [m]) s).
End Access.

Definition byte (v : Z) : Prop := 0 <= v < 256.

(** ** Bytes in a buffer; an access outside the buffer is undefined *)

Definition fgetbyte (l : list Z) (i : Z) : option Z :=
  if i <? 0 then None else l !! Z.to_nat i.
Definition fgetword (l : list Z) (i : Z) : option Z :=
  match fgetbyte l i, fgetbyte l (i + 1) with
  | Some a, Some b => Some (Z.lor a (Z.shiftl b 8))
  | _, _ => None
  end.
Definition fgetlong (l : list Z) (i : Z) : option Z :=
  match fgetword l i, fgetword l (i + 2) with
  | Some a, Some b => Some (Z.lor a (Z.shiftl b 16))
  | _, _ => None
  end.
Definition fputbyte (i v : Z) (l : list Z) : option (list Z) :=
  if (0 <=? i) && (i <? Z.of_nat (length l)) then Some (<[Z.to_nat i := u8 v]> l) else None.
Definition fputword (i v : Z) (l : list Z) : option (list Z) :=
  match fputbyte i v l with
  | Some l' => fputbyte (i + 1) (Z.shiftr v 8) l'
  | None => None
  end.
Definition fputlong (i v : Z) (l : list Z) : option (list Z) :=
  match fputword i v l with
  | Some l' => fputword (i + 2) (Z.shiftr v 16) l'
  | None => None
  end.
(** [fmemcpy(&dst[i], src, n)] *)
Definition fmemcpy (dst : list Z) (i : Z) (src : list Z) (n : Z) : option (list Z) :=
  if (0 <=? i) && (i + n <=? Z.of_nat (length dst)) && (n <=? Z.of_nat (length src)) then
    Some (take (Z.to_nat i) dst ++ take (Z.to_nat n) src ++ drop (Z.to_nat (i + n)) dst)
  else None.

End Ks.
