(* ===== verification/BlockIO.v ===== *)
(** * The block cache (kernel/blockio.c)

    The sector buffers form a ring, linked by offsets in one segment, with the
    most recently used buffer at [firstbuf].  A cached sector is changed in
    its buffer and written back by [flush1]; a FAT sector is written to every
    copy of the FAT.  [dskxfer] returns the error word together with the
    transfer buffer, which the driver may change.  The operator may answer
    RETRY for ever: the model follows [xfer_fuel] rounds. *)

From S2P Require Import Prelude KState.
Import Ks.

Module Bio.
Section BlockIO.
Context {M : Machine}.

(** ** Drive lookup (dosfns.c, fatfs.c) *)

Definition CDSNETWDRV := 0x8000.
Definition CDSPHYSDRV := 0x4000.
Definition CDSJOINED := 0x2000.
Definition CDSVALID := Z.lor CDSNETWDRV CDSPHYSDRV.

(** The entry of a drive, [None] for NULL. *)
Definition get_cds (drive : Z) : K kst (option cds) := fun s =>
  let drive := u16 drive in
  if lastdrive (env s) <=? drive then Some (None, s) else
  match CDSp s !! drive with
  | None => None
  | Some cdsp =>
      let flags := cdsFlags cdsp in
      if negb (has flags CDSVALID) || has flags CDSJOINED then Some (None, s) else
      if negb (has flags CDSNETWDRV) && (cdsDpb cdsp =? NULL) then Some (None, s) else
      Some (Some cdsp, s)
  end.

Definition get_dpb (dsk : Z) : K kst Z :=
  let! cdsp := get_cds dsk in
  match cdsp with
  | None => kret NULL
  | Some c => if has (cdsFlags c) CDSNETWDRV then kret NULL else kret (cdsDpb c)
  end.

(** ** Device driver interface *)

Definition xfer_fuel : nat := 256.

Definition set_ioreq (r : request) : K kst unit :=
  kmod (fun s => set_drv (Drvio r (MediaReqHdr (drv s)) (CritErrCode (drv s))
    (deblock_buf (drv s)) (CharReqHdr (drv s)) (ClkRecord (drv s))) s).
Definition set_mediareq (r : request) : K kst unit :=
  kmod (fun s => set_drv (Drvio (IoReqHdr (drv s)) r (CritErrCode (drv s))
    (deblock_buf (drv s)) (CharReqHdr (drv s)) (ClkRecord (drv s))) s).
Definition set_crit (v : Z) : K kst unit :=
  kmod (fun s => set_drv (Drvio (IoReqHdr (drv s)) (MediaReqHdr (drv s)) v
    (deblock_buf (drv s)) (CharReqHdr (drv s)) (ClkRecord (drv s))) s).
Definition set_deblock (v : list Z) : K kst unit :=
  kmod (fun s => set_drv (Drvio (IoReqHdr (drv s)) (MediaReqHdr (drv s)) (CritErrCode (drv s))
    v (CharReqHdr (drv s)) (ClkRecord (drv s))) s).
Definition set_charreq (r : request) : K kst unit :=
  kmod (fun s => set_drv (Drvio (IoReqHdr (drv s)) (MediaReqHdr (drv s)) (CritErrCode (drv s))
    (deblock_buf (drv s)) r (ClkRecord (drv s))) s).
Definition set_clkrecord (v : list Z) : K kst unit :=
  kmod (fun s => set_drv (Drvio (IoReqHdr (drv s)) (MediaReqHdr (drv s)) (CritErrCode (drv s))
    (deblock_buf (drv s)) (CharReqHdr (drv s)) v) s).

(** error.c *)
Definition block_error (rq : request) (nDrive lpDevice mode : Z) : K kst Z :=
  do! set_crit (Z.land (r_status rq) S_MASK + 0x13) in
  fun s =>
    let '(answer, w) :=
      CriticalError
        (Z.lor (Z.lor (Z.lor EFLG_ABORT EFLG_RETRY) EFLG_IGNORE)
           (if mode =? DSKWRITE then EFLG_WRITE else 0))
        nDrive (Z.land (r_status rq) S_MASK) lpDevice (dev s) in
    Some (answer, set_dev w s).

(** The [switch] on the answer, repeated ([goto loop]) while the answer is
    none of the four. *)
Fixpoint ask (fuel : nat) (rq : request) (nDrive lpDevice mode : Z) : K kst Z :=
  match fuel with
  | O => kstuck
  | S fuel' =>
      let! a := block_error rq nDrive lpDevice mode in
      if (a =? ABORT) || (a =? FAIL) || (a =? RETRY) || (a =? CONTINUE) then kret a
      else ask fuel' rq nDrive lpDevice mode
  end.

(** The [switch (mode)] that selects the driver command; [None] is the
    default case. *)
Definition xfer_command (mode : Z) (verify : bool) : option Z :=
  if (mode =? DSKWRITE) && verify then Some C_OUTVFY
  else if (mode =? DSKWRITE) || (mode =? DSKWRITEINT26) then Some C_OUTPUT
  else if (mode =? DSKREADINT25) || (mode =? DSKREAD) then Some C_INPUT
  else None.

Definition io_request (rq : request) (d : dpb) (attr command blkno numblocks : Z) : request :=
  if has attr ATTR_HUGE || (MAXSHORT <=? blkno) then
    Request SIZEOF_REQUEST (dpb_subunit d) command 0 (s8 (dpb_mdb d)) numblocks HUGECOUNT
      blkno (r_mcretcode rq) (r_bpb rq)
  else
    Request SIZEOF_REQUEST (dpb_subunit d) command 0 (s8 (dpb_mdb d)) numblocks (u16 blkno)
      (r_huge rq) (r_mcretcode rq) (r_bpb rq).

Definition call_execrh (device : Z) (rq : request) (buf : list Z) : K kst (request * list Z) :=
  fun s => let '(rq', buf', w) := execrh device rq buf (dev s) in
           Some ((rq', buf'), set_dev w s).

(** The retry loop of [dskxfer]. *)
Fixpoint dskxfer_loop (fuel : nat) (dpbp blkno bseg : Z) (buf : list Z) (numblocks mode : Z)
  : K kst (Z * list Z) :=
  match fuel with
  | O => kstuck
  | S fuel' =>
      let! d := dget dpbp in
      let! s := kget in
      match xfer_command mode (verify_ena (env s)) with
      | None => kret (0x0100, buf)
      | Some command =>
          let! attr := kopt (dh_attr (env s) !! dpb_device d) in
          do! set_ioreq (io_request (IoReqHdr (drv s)) d attr command blkno numblocks) in
          let! s := kget in
          let! buf :=
            (if (0xa000 <=? bseg) && (numblocks =? 1) && negb (bufloc (env s) =? LOC_CONV) then
               do! (if mode =? DSKWRITE then
                      let! t := kopt (fmemcpy (deblock_buf (drv s)) 0 buf (dpb_secsize d)) in
                      set_deblock t
                    else kret tt) in
               let! s := kget in
               let! r := call_execrh (dpb_device d) (IoReqHdr (drv s)) (deblock_buf (drv s)) in
               do! set_ioreq (fst r) in
               do! set_deblock (snd r) in
               if mode =? DSKREAD then kopt (fmemcpy buf 0 (snd r) (dpb_secsize d))
               else kret buf
             else
               let! r := call_execrh (dpb_device d) (IoReqHdr (drv s)) buf in
               do! set_ioreq (fst r) in
               kret (snd r)) in
          let! s := kget in
          let rq := IoReqHdr (drv s) in
          if Z.land (r_status rq) (Z.lor S_ERROR S_DONE) =? S_DONE then kret (0, buf) else
          if DSKWRITEINT26 <=? mode then kret (r_status rq, buf) else
          let! a := ask xfer_fuel rq (dpb_unit d) (dpb_device d) mode in
          let! s := kget in
          if (a =? ABORT) || (a =? FAIL) then kret (r_status (IoReqHdr (drv s)), buf)
          else if a =? RETRY then dskxfer_loop fuel' dpbp blkno bseg buf numblocks mode
          else kret (0, buf)
      end
  end.

Definition dskxfer (dsk blkno bseg : Z) (buf : list Z) (numblocks mode : Z) : K kst (Z * list Z) :=
  let! dpbp := get_dpb dsk in
  if dpbp =? NULL then kret (0x0201, buf)
  else dskxfer_loop xfer_fuel dpbp blkno bseg buf numblocks mode.

(** Transfer of one sector to or from the data of a buffer. *)
Definition bufxfer (dsk blkno bp mode : Z) : K kst Z :=
  let! b := bget bp in
  let! s := kget in
  let! r := dskxfer dsk blkno (firstbuf_seg (env s)) (b_buffer b) 1 mode in
  do! bmod bp (set_buffer (snd r)) in
  kret (fst r).

(** ** The ring of buffers *)

Definition ring_fuel : nat := Z.to_nat 65536.

Definition move_buffer (bp firstbp : Z) : K kst unit :=
  (* connect bp->b_prev and bp->b_next *)
  let! b := bget bp in
  do! bmod (b_next b) (set_prev (b_prev b)) in
  let! b := bget bp in
  do! bmod (b_prev b) (set_next (b_next b)) in
  (* insert bp between firstbp and firstbp->b_prev *)
  let! f := bget firstbp in
  do! bmod bp (set_prev (b_prev f)) in
  do! bmod bp (set_next firstbp) in
  let! b := bget bp in
  do! bmod (b_next b) (set_prev bp) in
  let! b := bget bp in
  bmod (b_prev b) (set_next bp).

Definition holds (b : buffer) (blkno dsk : Z) : bool :=
  (b_blkno b =? blkno) && has (b_flag b) BFR_VALID && (b_unit b =? dsk).

(** What the search loop has gathered when it gets back to the start. *)
Record scan := Scan { fat_count : Z; lastNonFat : Z; uncacheBuf : Z }.

(** The [do ... while] loop: the buffer found, or the totals. *)
Fixpoint search_ring (fuel : nat) (blkno dsk firstbp bp : Z) (a : scan) : K kst (Z + scan) :=
  match fuel with
  | O => kstuck
  | S fuel' =>
      let! b := bget bp in
      if holds b blkno dsk then kret (inl bp) else
      let a := if has (b_flag b) BFR_UNCACHE
               then Scan (fat_count a) (lastNonFat a) bp else a in
      let a := if has (b_flag b) BFR_FAT
               then Scan (fat_count a + 1) (lastNonFat a) (uncacheBuf a)
               else Scan (fat_count a) bp (uncacheBuf a) in
      if b_next b =? firstbp then kret (inr a)
      else search_ring fuel' blkno dsk firstbp (b_next b) a
  end.

Definition searchblock (blkno dsk : Z) : K kst Z :=
  let! s := kget in
  let firstbp := firstbuf s in
  let! r := search_ring ring_fuel blkno dsk firstbp firstbp (Scan 0 0 0) in
  match r with
  | inl bp =>
      do! bmod bp (flag_off BFR_UNCACHE) in
      do! (if negb (bp =? firstbp) then
             do! kmod (set_firstbuf bp) in move_buffer bp firstbp
           else kret tt) in
      kret bp
  | inr a =>
      let! f := bget firstbp in
      let bp :=
        if negb (uncacheBuf a =? 0) then uncacheBuf a
        else if has (b_flag f) BFR_FAT && (fat_count a <? 3) && negb (lastNonFat a =? 0)
             then lastNonFat a
        else b_prev f in
      do! bmod bp (flag_on BFR_UNCACHE) in
      do! (if negb (bp =? firstbp) then
             do! move_buffer bp firstbp in kmod (set_firstbuf bp)
           else kret tt) in
      kret bp
  end.

(** ** Writing buffers back *)

(** The [while (b_copies--)] loop; the result is [ok]. *)
Fixpoint write_copies (copies : nat) (bp blkno b_offset : Z) (ok : bool) : K kst bool :=
  match copies with
  | O => kret ok
  | S copies' =>
      let! b := bget bp in
      let! rc := bufxfer (b_unit b) blkno bp DSKWRITE in
      write_copies copies' bp (u32 (blkno + b_offset)) b_offset (ok && (rc =? 0))
  end.

Definition dirty (b : buffer) : bool :=
  Z.land (b_flag b) (Z.lor BFR_VALID BFR_DIRTY) =? Z.lor BFR_VALID BFR_DIRTY.

Definition flush1 (bp : Z) : K kst bool :=
  let! b := bget bp in
  let! ok :=
    (if dirty b then
       let! co :=
         (if has (b_flag b) BFR_FAT then
            let! off :=
              (if b_offset b =? 0 then
                 let! d := dget (b_dpbp b) in kret (dpb_xfatsize d)
               else kret (b_offset b)) in
            kret (b_copies b, off)
          else kret (1, 0)) in
       write_copies (Z.to_nat (fst co)) bp (b_blkno b) (snd co) true
     else kret true) in
  do! bmod bp (flag_off BFR_DIRTY) in
  do! (if negb ok then bmod bp (flag_off BFR_VALID) else kret tt) in
  kret ok.

(** A [do ... while] loop over the whole ring. *)
Fixpoint ring_loop (fuel : nat) (bp : Z) (body : Z -> bool -> K kst bool) (ok : bool) : K kst bool :=
  match fuel with
  | O => kstuck
  | S fuel' =>
      let! ok := body bp ok in
      let! b := bget bp in
      let! s := kget in
      if b_next b =? firstbuf s then kret ok else ring_loop fuel' (b_next b) body ok
  end.

Definition over_ring (body : Z -> bool -> K kst bool) (ok : bool) : K kst bool :=
  let! s := kget in ring_loop ring_fuel (firstbuf s) body ok.

Definition flush_buffers (dsk : Z) : K kst bool :=
  over_ring (fun bp ok =>
    let! b := bget bp in
    if b_unit b =? dsk then
      let! r := flush1 bp in kret (ok && r)
    else kret ok) true.

Definition flush : K kst bool :=
  let! ok := over_ring (fun bp ok =>
    let! r := flush1 bp in
    do! bmod bp (flag_off BFR_VALID) in
    kret (ok && r)) true in
  do! kmod (fun s => set_dev (redirector_flushall (dev s)) s) in
  kret ok.

Definition setinvld (dsk : Z) : K kst unit :=
  let! _ := over_ring (fun bp ok =>
    let! b := bget bp in
    do! (if b_unit b =? dsk then bmod bp (set_flag 0) else kret tt) in
    kret ok) true in
  kret tt.

(** The loop of [dirty_buffers] leaves the ring at the first dirty buffer. *)
Fixpoint dirty_loop (fuel : nat) (bp dsk : Z) : K kst bool :=
  match fuel with
  | O => kstuck
  | S fuel' =>
      let! b := bget bp in
      if (b_unit b =? dsk) && dirty b then kret true else
      let! s := kget in
      if b_next b =? firstbuf s then kret false else dirty_loop fuel' (b_next b) dsk
  end.

Definition dirty_buffers (dsk : Z) : K kst bool :=
  let! s := kget in dirty_loop ring_fuel (firstbuf s) dsk.

Definition DeleteBlockInBufferCache (blknolow blknohigh dsk mode : Z) : K kst Z :=
  let! _ := over_ring (fun bp ok =>
    let! b := bget bp in
    do! (if (blknolow <=? b_blkno b) && (b_blkno b <=? blknohigh)
            && has (b_flag b) BFR_VALID && (b_unit b =? dsk)
         then if mode =? XFR_READ
              then let! _ := flush1 bp in kret tt
              else bmod bp (set_flag 0)
         else kret tt) in
    kret ok) true in
  kret FALSE.

(** ** getblk: the buffer, or NULL *)

Definition getblk (blkno dsk : Z) (overwrite : bool) : K kst Z :=
  let! bp := searchblock blkno dsk in
  let! b := bget bp in
  if negb (has (b_flag b) BFR_UNCACHE) then kret bp else
  let! ok := flush1 bp in
  if negb ok then kret NULL else
  let! rc := (if overwrite then kret 0 else bufxfer dsk blkno bp DSKREAD) in
  if negb (rc =? 0) then kret NULL else
  do! bmod bp (set_flag (Z.lor BFR_VALID BFR_DATA)) in
  do! bmod bp (set_unit (s8 dsk)) in
  do! bmod bp (set_blkno blkno) in
  kret bp.

Definition getblock (blkno dsk : Z) : K kst Z := getblk blkno dsk false.
Definition getblockOver (blkno dsk : Z) : K kst Z := getblk blkno dsk true.

(** ** AllocateHMASpace: take the buffers in a range out of the ring *)

Definition SIZEOF_BUFFER := 532.

Fixpoint hma_loop (fuel : nat) (n bp lowbuffer highbuffer : Z) : K kst unit :=
  match fuel with
  | O => kstuck
  | S fuel' =>
      do! (if (bp <=? highbuffer) && (lowbuffer <? u16 (bp + SIZEOF_BUFFER)) then
             let! _ := flush1 bp in
             let! b := bget bp in
             do! bmod (b_prev b) (set_next (b_next b)) in
             let! b := bget bp in
             do! bmod (b_next b) (set_prev (b_prev b)) in
             let! s := kget in
             let! b := bget bp in
             do! (if bp =? firstbuf s then kmod (set_firstbuf (b_next b)) else kret tt) in
             kmod (fun s => set_nbuffers (LoL_nbuffers s - 1) s)
           else kret tt) in
      let! b := bget bp in
      let n := n - 1 in
      if n =? 0 then kret tt else hma_loop fuel' n (b_next b) lowbuffer highbuffer
  end.

Definition AllocateHMASpace (lowbuffer highbuffer : Z) : K kst unit :=
  let! s := kget in
  if negb (firstbuf_seg (env s) =? 0xffff) then kret tt
  else hma_loop ring_fuel (LoL_nbuffers s) (firstbuf s) lowbuffer highbuffer.

End BlockIO.
End Bio.
