(* ===== verification/FatTab.v ===== *)
(** * The file allocation table (kernel/fattab.c, hdr/fat.h)

    Built as in the FAT32 configuration: CLUSTER is 32 bits wide, [unsigned]
    is 16 bits wide.  [link_fat] reads or writes one entry of the table
    through the block cache; [clusterMessage] is the line it puts on the
    console. *)

From S2P Require Import Prelude KState BlockIO.
Import Ks Bio.

Module Fat.
Section FatTab.
Context {M : Machine}.

(** ** Constants and macros of fat.h *)

Definition FREE := 0x000.
Definition LONG_LAST_CLUSTER := 0x0FFFFFFF.
Definition LONG_BAD := 0x0FFFFFF7.
Definition MASK16 := 0xFFF8.
Definition BAD16 := 0xFFF7.
Definition MASK12 := 0xFF8.
Definition BAD12 := 0xFF7.
Definition FAT_MAGIC := 4085.
Definition FAT_MAGIC16 := 65525.
Definition FAT_NO_MIRRORING := 0x80.
Definition READ_CLUSTER := 1.

Definition ISFAT32 (d : dpb) : bool := dpb_fatsize d =? 0.
Definition ISFAT16 (d : dpb) : bool := (FAT_MAGIC <? dpb_size d) && (dpb_size d <=? FAT_MAGIC16).
Definition ISFAT12 (d : dpb) : bool := u16 (dpb_size d - 1) <? FAT_MAGIC.

Definition clusterMessage (msg : string) (clussec : Z) : K kst unit := say (MsgBadFat msg clussec).

(** ** getFATblock *)

Definition getFATblock (dpbp clussec : Z) : K kst Z :=
  let! d := dget dpbp in
  let! bp := getblock clussec (dpb_unit d) in
  if negb (bp =? NULL) then
    do! bmod bp (flag_off (Z.lor BFR_DATA BFR_DIR)) in
    do! bmod bp (flag_on (Z.lor BFR_FAT BFR_VALID)) in
    do! bmod bp (set_dpbp dpbp) in
    do! bmod bp (set_copies (dpb_fats d)) in
    do! bmod bp (set_offset (dpb_fatsize d)) in
    do! (if ISFAT32 d && has (dpb_xflags d) FAT_NO_MIRRORING
         then bmod bp (set_copies 1) else kret tt) in
    kret bp
  else
    do! clusterMessage "I/O: 0x" clussec in
    kret bp.

(** ** The FSINFO sector of FAT32 *)

(** [fip = (struct fsinfo FAR * )&bp->b_buffer[0x1e4]] *)
Definition FI_NFREECLST := 0x1e4 + 4.
Definition FI_CLUSTER := 0x1e4 + 8.

Definition read_fsinfo (dpbp : Z) : K kst unit :=
  let! d := dget dpbp in
  if dpb_xfsinfosec d =? 0xffff then kret tt else
  let! bp := getblock (dpb_xfsinfosec d) (dpb_unit d) in
  do! bmod bp (flag_off (Z.lor (Z.lor BFR_DATA BFR_DIR) (Z.lor BFR_FAT BFR_DIRTY))) in
  do! bmod bp (flag_on BFR_VALID) in
  let! b := bget bp in
  let! cluster := kopt (fgetlong (b_buffer b) FI_NFREECLST) in
  let cluster := if dpb_xsize d <=? cluster then XUNKNCLSTFREE else cluster in
  do! dmod dpbp (set_xnfreeclst cluster) in
  let! cluster := kopt (fgetlong (b_buffer b) FI_CLUSTER) in
  let cluster := if (cluster <? 2) || (dpb_xsize d <? cluster) then UNKNCLUSTER else cluster in
  dmod dpbp (set_xcluster cluster).

Definition bput (bp : Z) (f : list Z -> option (list Z)) : K kst unit :=
  let! b := bget bp in
  let! l := kopt (f (b_buffer b)) in
  bmod bp (set_buffer l).

Definition write_fsinfo (dpbp : Z) : K kst unit :=
  let! d := dget dpbp in
  if dpb_xfsinfosec d =? 0xffff then kret tt else
  let! bp := getblock (dpb_xfsinfosec d) (dpb_unit d) in
  do! bmod bp (flag_off (Z.lor (Z.lor BFR_DATA BFR_DIR) BFR_FAT)) in
  do! bmod bp (flag_on BFR_VALID) in
  let! b := bget bp in
  let! nfree := kopt (fgetlong (b_buffer b) FI_NFREECLST) in
  let! cluster := kopt (fgetlong (b_buffer b) FI_CLUSTER) in
  do! (if negb (nfree =? dpb_xnfreeclst d) || negb (cluster =? dpb_xcluster d)
       then bmod bp (flag_on BFR_DIRTY) else kret tt) in
  do! bput bp (fputlong FI_NFREECLST (dpb_xnfreeclst d)) in
  bput bp (fputlong FI_CLUSTER (dpb_xcluster d)).

(** ** link_fat *)

Definition max_cluster (d : dpb) : Z := if ISFAT32 d then dpb_xsize d else dpb_size d.

(** Where the entry of a cluster is: the sector and the index in it (in
    nibbles for FAT12, in entries otherwise); [None] is a division by 0. *)
Definition fat_index (d : dpb) (Cluster1 : Z) : option (Z * Z) :=
  let clussec := if ISFAT12 d then u16 (u16 Cluster1 * 3) else Cluster1 in
  let secdiv :=
    if ISFAT12 d then u16 (dpb_secsize d * 2)
    else if ISFAT32 d then dpb_secsize d / 2 / 2 else dpb_secsize d / 2 in
  if secdiv =? 0 then None else
  let idx := u16 (clussec mod secdiv) in
  let clussec := u32 (clussec / secdiv + dpb_fatstrt d) in
  let clussec :=
    if ISFAT32 d && has (dpb_xflags d) FAT_NO_MIRRORING
    then u32 (clussec + u32 (Z.land (dpb_xflags d) 0xf * dpb_xfatsize d)) else clussec in
  Some (clussec, idx).

(** The two bytes of a FAT12 entry: packing and unpacking. *)
Definition unpack12 (Cluster1 word : Z) : Z :=
  Z.land (if Z.odd Cluster1 then Z.shiftr word 4 else word) 0x0fff.
Definition pack12 (Cluster1 word Cluster2 : Z) : Z :=
  let cluster2 := Z.land (u16 Cluster2) 0x0fff in
  if Z.odd Cluster1 then Z.lor (Z.land word 0x000f) (Z.shiftl cluster2 4)
  else Z.lor (Z.land word 0xf000) cluster2.

(** What a part of [link_fat] decides: the value to return, or to go on
    with [wasfree]. *)
Inductive linked := Return (v : Z) | WasFree (w : bool).

Definition link12 (dpbp : Z) (d : dpb) (bp clussec idx Cluster1 Cluster2 : Z) : K kst linked :=
  let idx := idx / 2 in
  let! bp1 :=
    (if dpb_secsize d - 1 <=? idx then
       let! bp1 := getFATblock dpbp (u16 (u16 clussec + 1)) in
       if bp1 =? NULL then kret None else
       do! (if negb (Cluster2 =? READ_CLUSTER)
            then bmod bp1 (flag_on (Z.lor BFR_DIRTY BFR_VALID)) else kret tt) in
       kret (Some (bp1, 0))
     else kret (Some (bp, idx + 1))) in
  match bp1 with
  | None => kret (Return 1)
  | Some (bp1, idx1) =>
      let! b := bget bp in
      let! b1 := bget bp1 in
      let! c0 := kopt (fgetbyte (b_buffer b) idx) in
      let! c1 := kopt (fgetbyte (b_buffer b1) idx1) in
      let res := Z.lor c0 (Z.shiftl c1 8) in
      let cluster := unpack12 Cluster1 res in
      if u16 Cluster2 =? READ_CLUSTER then
        kret (Return (if MASK12 <=? cluster then LONG_LAST_CLUSTER
                      else if cluster =? BAD12 then LONG_BAD else cluster))
      else
        let word := pack12 Cluster1 res Cluster2 in
        do! bput bp (fputbyte idx word) in
        do! bput bp1 (fputbyte idx1 (Z.shiftr word 8)) in
        kret (WasFree (cluster =? FREE))
  end.

Definition link16 (bp idx Cluster2 : Z) : K kst linked :=
  let! b := bget bp in
  let! res := kopt (fgetword (b_buffer b) (idx * 2)) in
  if u16 Cluster2 =? READ_CLUSTER then
    kret (Return (if MASK16 <=? res then LONG_LAST_CLUSTER
                  else if res =? BAD16 then LONG_BAD else res))
  else
    do! bput bp (fputword (idx * 2) (u16 Cluster2)) in
    kret (WasFree (res =? FREE)).

Definition link32 (bp idx Cluster2 : Z) : K kst linked :=
  let! b := bget bp in
  let! res := kopt (fgetlong (b_buffer b) (idx * 4)) in
  let res := Z.land res LONG_LAST_CLUSTER in
  if Cluster2 =? READ_CLUSTER then
    kret (Return (if LONG_BAD <? res then LONG_LAST_CLUSTER else res))
  else
    do! bput bp (fputlong (idx * 4) (Z.land Cluster2 LONG_LAST_CLUSTER)) in
    kret (WasFree (res =? FREE)).

(** The update of the free space count. *)
Definition update_free (dpbp Cluster2 : Z) (wasfree : bool) : K kst unit :=
  if (Cluster2 =? FREE) || wasfree then
    let adjust := if negb wasfree then 1 else if negb (Cluster2 =? FREE) then -1 else 0 in
    let! d := dget dpbp in
    if ISFAT32 d && negb (dpb_xnfreeclst d =? XUNKNCLSTFREE) then
      do! dmod dpbp (set_xnfreeclst (u32 (dpb_xnfreeclst d + adjust))) in
      write_fsinfo dpbp
    else if negb (dpb_nfreeclst d =? UNKNCLSTFREE) then
      dmod dpbp (set_nfreeclst (u16 (dpb_nfreeclst d + adjust)))
    else kret tt
  else kret tt.

Definition link_fat (dpbp Cluster1 Cluster2 : Z) : K kst Z :=
  let! d := dget dpbp in
  if (Cluster1 <=? 1) || (max_cluster d <? Cluster1) then
    do! clusterMessage "index: 0x" Cluster1 in kret 1
  else if (Cluster2 <? LONG_BAD) && (max_cluster d <? Cluster2) then
    do! clusterMessage "write: 0x" Cluster2 in kret 1
  else
  let! si := kopt (fat_index d Cluster1) in
  let '(clussec, idx) := si in
  let! bp := getFATblock dpbp clussec in
  if bp =? NULL then kret 1 else
  let! r :=
    (if ISFAT12 d then link12 dpbp d bp clussec idx Cluster1 Cluster2
     else if ISFAT16 d then link16 bp idx Cluster2
     else if ISFAT32 d then link32 bp idx Cluster2
     else do! say MsgBadDPB in kret (Return 1)) in
  match r with
  | Return v => kret v
  | WasFree wasfree =>
      do! bmod bp (flag_on (Z.lor BFR_DIRTY BFR_VALID)) in
      do! update_free dpbp Cluster2 wasfree in
      kret SUCCESS
  end.

(** ** next_cluster, is_free_cluster *)

Definition next_cluster (dpbp ClusterNum : Z) : K kst Z :=
  let! candidate := link_fat dpbp ClusterNum READ_CLUSTER in
  if (candidate <? 2) || (LONG_BAD <=? candidate) then kret candidate else
  let! d := dget dpbp in
  let! following := link_fat dpbp candidate READ_CLUSTER in
  if (following <? 2) || ((following <? LONG_BAD) && (max_cluster d <? following)) then
    do! clusterMessage "value: 0x" following in kret 1
  else kret candidate.

Definition is_free_cluster (dpbp ClusterNum : Z) : K kst bool :=
  let! c := link_fat dpbp ClusterNum READ_CLUSTER in
  kret (c =? FREE).

End FatTab.
End Fat.
