(* ===== verification/FNode.v ===== *)
(** * File nodes, directory entries and the SFT (hdr/fnode.h, fat.h, sft.h)

    The two near fnodes, the two match structures they point to and the table
    of open files, as parts of the kernel state; the 32 bytes of a directory
    entry; [idx_to_sft] of dosfns.c and the two functions of fatfs.c that copy
    an open file between the table and a fnode. *)

From S2P Require Import Prelude KState BlockIO FatTab.
Import Ks Bio Fat.

Module FNode.

(** ** Stores to single members *)

Definition set_dir_name v (r : dirent) : dirent :=
  Dirent v (dir_attrib r) (dir_case r) (dir_crtimems r) (dir_crtime r) (dir_crdate r)
    (dir_accdate r) (dir_start_high r) (dir_time r) (dir_date r) (dir_start r) (dir_size r).
Definition set_dir_attrib v (r : dirent) : dirent :=
  Dirent (dir_name r) v (dir_case r) (dir_crtimems r) (dir_crtime r) (dir_crdate r)
    (dir_accdate r) (dir_start_high r) (dir_time r) (dir_date r) (dir_start r) (dir_size r).
Definition set_dir_case v (r : dirent) : dirent :=
  Dirent (dir_name r) (dir_attrib r) v (dir_crtimems r) (dir_crtime r) (dir_crdate r)
    (dir_accdate r) (dir_start_high r) (dir_time r) (dir_date r) (dir_start r) (dir_size r).
Definition set_dir_crtimems v (r : dirent) : dirent :=
  Dirent (dir_name r) (dir_attrib r) (dir_case r) v (dir_crtime r) (dir_crdate r)
    (dir_accdate r) (dir_start_high r) (dir_time r) (dir_date r) (dir_start r) (dir_size r).
Definition set_dir_crtime v (r : dirent) : dirent :=
  Dirent (dir_name r) (dir_attrib r) (dir_case r) (dir_crtimems r) v (dir_crdate r)
    (dir_accdate r) (dir_start_high r) (dir_time r) (dir_date r) (dir_start r) (dir_size r).
Definition set_dir_crdate v (r : dirent) : dirent :=
  Dirent (dir_name r) (dir_attrib r) (dir_case r) (dir_crtimems r) (dir_crtime r) v
    (dir_accdate r) (dir_start_high r) (dir_time r) (dir_date r) (dir_start r) (dir_size r).
Definition set_dir_accdate v (r : dirent) : dirent :=
  Dirent (dir_name r) (dir_attrib r) (dir_case r) (dir_crtimems r) (dir_crtime r)
    (dir_crdate r) v (dir_start_high r) (dir_time r) (dir_date r) (dir_start r) (dir_size r).
Definition set_dir_start_high v (r : dirent) : dirent :=
  Dirent (dir_name r) (dir_attrib r) (dir_case r) (dir_crtimems r) (dir_crtime r) (dir_crdate r)
    (dir_accdate r) v (dir_time r) (dir_date r) (dir_start r) (dir_size r).
Definition set_dir_time v (r : dirent) : dirent :=
  Dirent (dir_name r) (dir_attrib r) (dir_case r) (dir_crtimems r) (dir_crtime r) (dir_crdate r)
    (dir_accdate r) (dir_start_high r) v (dir_date r) (dir_start r) (dir_size r).
Definition set_dir_date v (r : dirent) : dirent :=
  Dirent (dir_name r) (dir_attrib r) (dir_case r) (dir_crtimems r) (dir_crtime r) (dir_crdate r)
    (dir_accdate r) (dir_start_high r) (dir_time r) v (dir_start r) (dir_size r).
Definition set_dir_start v (r : dirent) : dirent :=
  Dirent (dir_name r) (dir_attrib r) (dir_case r) (dir_crtimems r) (dir_crtime r) (dir_crdate r)
    (dir_accdate r) (dir_start_high r) (dir_time r) (dir_date r) v (dir_size r).
Definition set_dir_size v (r : dirent) : dirent :=
  Dirent (dir_name r) (dir_attrib r) (dir_case r) (dir_crtimems r) (dir_crtime r) (dir_crdate r)
    (dir_accdate r) (dir_start_high r) (dir_time r) (dir_date r) (dir_start r) v.

Definition set_dm_drive v (r : dmatch) : dmatch :=
  Dmatch v (dm_name_pat r) (dm_attr_srch r) (dm_entry r) (dm_dircluster r).
Definition set_dm_name_pat v (r : dmatch) : dmatch :=
  Dmatch (dm_drive r) v (dm_attr_srch r) (dm_entry r) (dm_dircluster r).
Definition set_dm_attr_srch v (r : dmatch) : dmatch :=
  Dmatch (dm_drive r) (dm_name_pat r) v (dm_entry r) (dm_dircluster r).
Definition set_dm_entry v (r : dmatch) : dmatch :=
  Dmatch (dm_drive r) (dm_name_pat r) (dm_attr_srch r) v (dm_dircluster r).
Definition set_dm_dircluster v (r : dmatch) : dmatch :=
  Dmatch (dm_drive r) (dm_name_pat r) (dm_attr_srch r) (dm_entry r) v.

Definition set_f_flags v (r : f_node) : f_node :=
  FNode v (f_dmp r) (f_dir r) (f_dirsector r) (f_diridx r) (f_dpb r) (f_offset r)
    (f_cluster_offset r) (f_cluster r) (f_sft_idx r).
Definition set_f_dmp v (r : f_node) : f_node :=
  FNode (f_flags r) v (f_dir r) (f_dirsector r) (f_diridx r) (f_dpb r) (f_offset r)
    (f_cluster_offset r) (f_cluster r) (f_sft_idx r).
Definition set_f_dir v (r : f_node) : f_node :=
  FNode (f_flags r) (f_dmp r) v (f_dirsector r) (f_diridx r) (f_dpb r) (f_offset r)
    (f_cluster_offset r) (f_cluster r) (f_sft_idx r).
Definition set_f_dirsector v (r : f_node) : f_node :=
  FNode (f_flags r) (f_dmp r) (f_dir r) v (f_diridx r) (f_dpb r) (f_offset r)
    (f_cluster_offset r) (f_cluster r) (f_sft_idx r).
Definition set_f_diridx v (r : f_node) : f_node :=
  FNode (f_flags r) (f_dmp r) (f_dir r) (f_dirsector r) v (f_dpb r) (f_offset r)
    (f_cluster_offset r) (f_cluster r) (f_sft_idx r).
Definition set_f_dpb v (r : f_node) : f_node :=
  FNode (f_flags r) (f_dmp r) (f_dir r) (f_dirsector r) (f_diridx r) v (f_offset r)
    (f_cluster_offset r) (f_cluster r) (f_sft_idx r).
Definition set_f_offset v (r : f_node) : f_node :=
  FNode (f_flags r) (f_dmp r) (f_dir r) (f_dirsector r) (f_diridx r) (f_dpb r) v
    (f_cluster_offset r) (f_cluster r) (f_sft_idx r).
Definition set_f_cluster_offset v (r : f_node) : f_node :=
  FNode (f_flags r) (f_dmp r) (f_dir r) (f_dirsector r) (f_diridx r) (f_dpb r) (f_offset r) v
    (f_cluster r) (f_sft_idx r).
Definition set_f_cluster v (r : f_node) : f_node :=
  FNode (f_flags r) (f_dmp r) (f_dir r) (f_dirsector r) (f_diridx r) (f_dpb r) (f_offset r)
    (f_cluster_offset r) v (f_sft_idx r).
Definition set_f_sft_idx v (r : f_node) : f_node :=
  FNode (f_flags r) (f_dmp r) (f_dir r) (f_dirsector r) (f_diridx r) (f_dpb r) (f_offset r)
    (f_cluster_offset r) (f_cluster r) v.

Definition set_sft_mode v (r : sft) : sft :=
  Sft (sft_count r) v (sft_attrib r) (sft_flags r) (sft_dcb r) (sft_time r) (sft_date r)
    (sft_size r) (sft_posit r) (sft_relclust r) (sft_relclust_high r) (sft_dirsector r)
    (sft_diridx r) (sft_name r) (sft_stclust r) (sft_shroff r) (sft_cuclust r) (sft_psp r).
Definition set_sft_attrib v (r : sft) : sft :=
  Sft (sft_count r) (sft_mode r) v (sft_flags r) (sft_dcb r) (sft_time r) (sft_date r)
    (sft_size r) (sft_posit r) (sft_relclust r) (sft_relclust_high r) (sft_dirsector r)
    (sft_diridx r) (sft_name r) (sft_stclust r) (sft_shroff r) (sft_cuclust r) (sft_psp r).
Definition set_sft_flags v (r : sft) : sft :=
  Sft (sft_count r) (sft_mode r) (sft_attrib r) v (sft_dcb r) (sft_time r) (sft_date r)
    (sft_size r) (sft_posit r) (sft_relclust r) (sft_relclust_high r) (sft_dirsector r)
    (sft_diridx r) (sft_name r) (sft_stclust r) (sft_shroff r) (sft_cuclust r) (sft_psp r).
Definition set_sft_dcb v (r : sft) : sft :=
  Sft (sft_count r) (sft_mode r) (sft_attrib r) (sft_flags r) v (sft_time r) (sft_date r)
    (sft_size r) (sft_posit r) (sft_relclust r) (sft_relclust_high r) (sft_dirsector r)
    (sft_diridx r) (sft_name r) (sft_stclust r) (sft_shroff r) (sft_cuclust r) (sft_psp r).
Definition set_sft_time v (r : sft) : sft :=
  Sft (sft_count r) (sft_mode r) (sft_attrib r) (sft_flags r) (sft_dcb r) v (sft_date r)
    (sft_size r) (sft_posit r) (sft_relclust r) (sft_relclust_high r) (sft_dirsector r)
    (sft_diridx r) (sft_name r) (sft_stclust r) (sft_shroff r) (sft_cuclust r) (sft_psp r).
Definition set_sft_date v (r : sft) : sft :=
  Sft (sft_count r) (sft_mode r) (sft_attrib r) (sft_flags r) (sft_dcb r) (sft_time r) v
    (sft_size r) (sft_posit r) (sft_relclust r) (sft_relclust_high r) (sft_dirsector r)
    (sft_diridx r) (sft_name r) (sft_stclust r) (sft_shroff r) (sft_cuclust r) (sft_psp r).
Definition set_sft_size v (r : sft) : sft :=
  Sft (sft_count r) (sft_mode r) (sft_attrib r) (sft_flags r) (sft_dcb r) (sft_time r)
    (sft_date r) v (sft_posit r) (sft_relclust r) (sft_relclust_high r) (sft_dirsector r)
    (sft_diridx r) (sft_name r) (sft_stclust r) (sft_shroff r) (sft_cuclust r) (sft_psp r).
Definition set_sft_posit v (r : sft) : sft :=
  Sft (sft_count r) (sft_mode r) (sft_attrib r) (sft_flags r) (sft_dcb r) (sft_time r)
    (sft_date r) (sft_size r) v (sft_relclust r) (sft_relclust_high r) (sft_dirsector r)
    (sft_diridx r) (sft_name r) (sft_stclust r) (sft_shroff r) (sft_cuclust r) (sft_psp r).
Definition set_sft_relclust v (r : sft) : sft :=
  Sft (sft_count r) (sft_mode r) (sft_attrib r) (sft_flags r) (sft_dcb r) (sft_time r)
    (sft_date r) (sft_size r) (sft_posit r) v (sft_relclust_high r) (sft_dirsector r)
    (sft_diridx r) (sft_name r) (sft_stclust r) (sft_shroff r) (sft_cuclust r) (sft_psp r).
Definition set_sft_relclust_high v (r : sft) : sft :=
  Sft (sft_count r) (sft_mode r) (sft_attrib r) (sft_flags r) (sft_dcb r) (sft_time r)
    (sft_date r) (sft_size r) (sft_posit r) (sft_relclust r) v (sft_dirsector r) (sft_diridx r)
    (sft_name r) (sft_stclust r) (sft_shroff r) (sft_cuclust r) (sft_psp r).
Definition set_sft_dirsector v (r : sft) : sft :=
  Sft (sft_count r) (sft_mode r) (sft_attrib r) (sft_flags r) (sft_dcb r) (sft_time r)
    (sft_date r) (sft_size r) (sft_posit r) (sft_relclust r) (sft_relclust_high r) v
    (sft_diridx r) (sft_name r) (sft_stclust r) (sft_shroff r) (sft_cuclust r) (sft_psp r).
Definition set_sft_diridx v (r : sft) : sft :=
  Sft (sft_count r) (sft_mode r) (sft_attrib r) (sft_flags r) (sft_dcb r) (sft_time r)
    (sft_date r) (sft_size r) (sft_posit r) (sft_relclust r) (sft_relclust_high r)
    (sft_dirsector r) v (sft_name r) (sft_stclust r) (sft_shroff r) (sft_cuclust r) (sft_psp r).
Definition set_sft_name v (r : sft) : sft :=
  Sft (sft_count r) (sft_mode r) (sft_attrib r) (sft_flags r) (sft_dcb r) (sft_time r)
    (sft_date r) (sft_size r) (sft_posit r) (sft_relclust r) (sft_relclust_high r)
    (sft_dirsector r) (sft_diridx r) v (sft_stclust r) (sft_shroff r) (sft_cuclust r) (sft_psp r).
Definition set_sft_stclust v (r : sft) : sft :=
  Sft (sft_count r) (sft_mode r) (sft_attrib r) (sft_flags r) (sft_dcb r) (sft_time r)
    (sft_date r) (sft_size r) (sft_posit r) (sft_relclust r) (sft_relclust_high r)
    (sft_dirsector r) (sft_diridx r) (sft_name r) v (sft_shroff r) (sft_cuclust r) (sft_psp r).
Definition set_sft_shroff v (r : sft) : sft :=
  Sft (sft_count r) (sft_mode r) (sft_attrib r) (sft_flags r) (sft_dcb r) (sft_time r)
    (sft_date r) (sft_size r) (sft_posit r) (sft_relclust r) (sft_relclust_high r)
    (sft_dirsector r) (sft_diridx r) (sft_name r) (sft_stclust r) v (sft_cuclust r) (sft_psp r).
Definition set_sft_cuclust v (r : sft) : sft :=
  Sft (sft_count r) (sft_mode r) (sft_attrib r) (sft_flags r) (sft_dcb r) (sft_time r)
    (sft_date r) (sft_size r) (sft_posit r) (sft_relclust r) (sft_relclust_high r)
    (sft_dirsector r) (sft_diridx r) (sft_name r) (sft_stclust r) (sft_shroff r) v (sft_psp r).

Definition set_fn0 v (r : fsv) : fsv :=
  Fsv v (fn1 r) (tmp_dm r) (tmp_dm_ren r) (SearchDir r) (sfthead r) (share_installed r).
Definition set_fn1 v (r : fsv) : fsv :=
  Fsv (fn0 r) v (tmp_dm r) (tmp_dm_ren r) (SearchDir r) (sfthead r) (share_installed r).
Definition set_tmp_dm v (r : fsv) : fsv :=
  Fsv (fn0 r) (fn1 r) v (tmp_dm_ren r) (SearchDir r) (sfthead r) (share_installed r).
Definition set_tmp_dm_ren v (r : fsv) : fsv :=
  Fsv (fn0 r) (fn1 r) (tmp_dm r) v (SearchDir r) (sfthead r) (share_installed r).
Definition set_SearchDir v (r : fsv) : fsv :=
  Fsv (fn0 r) (fn1 r) (tmp_dm r) (tmp_dm_ren r) v (sfthead r) (share_installed r).
Definition set_sfthead v (r : fsv) : fsv :=
  Fsv (fn0 r) (fn1 r) (tmp_dm r) (tmp_dm_ren r) (SearchDir r) v (share_installed r).
Definition set_share_installed v (r : fsv) : fsv :=
  Fsv (fn0 r) (fn1 r) (tmp_dm r) (tmp_dm_ren r) (SearchDir r) (sfthead r) v.

(** ** Directory entries *)

Definition D_RDONLY := 0x01.
Definition D_HIDDEN := 0x02.
Definition D_SYSTEM := 0x04.
Definition D_VOLID := 0x08.
Definition D_DIR := 0x10.
Definition D_ARCHIVE := 0x20.
Definition D_DEVICE := 0x40.
Definition D_LFN := 0x0f.
Definition D_ALL := 0x37.
Definition FNAME_SIZE : Z := 8.
Definition FEXT_SIZE : Z := 3.
Definition FCB_SIZE : Z := FNAME_SIZE + FEXT_SIZE.
Definition DELETED := 0x05.
Definition EXT_DELETED := 0xe5.
Definition DIRENT_SIZE := 32.
Definition DIR_ATTRIB := FCB_SIZE.
Definition DIR_START_HIGH := FCB_SIZE + 9.
Definition DIR_TIME := FCB_SIZE + 11.
Definition DIR_DATE := FCB_SIZE + 13.
Definition DIR_START := FCB_SIZE + 15.
Definition DIR_SIZE := FCB_SIZE + 17.

Definition word_bytes (v : Z) : list Z := [u8 v; u8 (Z.shiftr v 8)].
Definition long_bytes (v : Z) : list Z := word_bytes v ++ word_bytes (Z.shiftr v 16).

(** The object representation of a [struct dirent]. *)
Definition dirent_bytes (e : dirent) : list Z :=
  dir_name e ++ [u8 (dir_attrib e); u8 (dir_case e); u8 (dir_crtimems e)] ++
  word_bytes (dir_crtime e) ++ word_bytes (dir_crdate e) ++ word_bytes (dir_accdate e) ++
  word_bytes (dir_start_high e) ++ word_bytes (dir_time e) ++ word_bytes (dir_date e) ++
  word_bytes (dir_start e) ++ long_bytes (dir_size e).

(** [getdirent(&l[i], &e)] *)
Definition getdirent (l : list Z) (i : Z) : option dirent :=
  match fgetbyte l (i + 11), fgetbyte l (i + 12), fgetbyte l (i + 13), fgetword l (i + 14),
        fgetword l (i + 16), fgetword l (i + 18), fgetword l (i + 20), fgetword l (i + 22),
        fgetword l (i + 24), fgetword l (i + 26), fgetlong l (i + 28) with
  | Some attr, Some case, Some ms, Some crt, Some crd, Some acc, Some hi, Some t, Some d,
    Some st, Some size =>
      Some (Dirent (take 11 (drop (Z.to_nat i) l)) attr case ms crt crd acc hi t d st size)
  | _, _, _, _, _, _, _, _, _, _, _ => None
  end.
(** [putdirent(&e, &l[i])] *)
Definition putdirent (i : Z) (e : dirent) (l : list Z) : option (list Z) :=
  fmemcpy l i (dirent_bytes e) DIRENT_SIZE.

(** The start cluster of an entry. *)
Definition getdstart (d : dpb) (dentry : dirent) : Z :=
  if negb (ISFAT32 d) then dir_start dentry
  else Z.lor (u32 (Z.shiftl (dir_start_high dentry) 16)) (dir_start dentry).
Definition setdstart (d : dpb) (value : Z) (dentry : dirent) : dirent :=
  let dentry := set_dir_start (u16 value) dentry in
  if ISFAT32 d then set_dir_start_high (u16 (Z.shiftr value 16)) dentry else dentry.

(** [f_node] addressed by its pointer, [dmatch] likewise. *)
Definition fnode_of (fp : f_node_ptr) (v : fsv) : f_node :=
  match fp with fnode0 => fn0 v | fnode1 => fn1 v end.
Definition fnode_upd (fp : f_node_ptr) (g : f_node -> f_node) (v : fsv) : fsv :=
  match fp with fnode0 => set_fn0 (g (fn0 v)) v | fnode1 => set_fn1 (g (fn1 v)) v end.
Definition dm_of (p : dmp) (v : fsv) : dmatch :=
  match p with sda_tmp_dm => tmp_dm v | sda_tmp_dm_ren => tmp_dm_ren v end.
Definition dm_upd (p : dmp) (g : dmatch -> dmatch) (v : fsv) : fsv :=
  match p with
  | sda_tmp_dm => set_tmp_dm (g (tmp_dm v)) v
  | sda_tmp_dm_ren => set_tmp_dm_ren (g (tmp_dm_ren v)) v
  end.

(** ** The table of open files: a list of blocks *)

Definition SFT_FSHARED := 0x8000.
Definition SFT_FDEVICE := 0x0080.
Definition SFT_FDATE := 0x4000.
Definition SFT_FCLEAN := 0x0040.
Definition SFT_FOCRM := 0x0800.

(** The entry at [SftIndex], which [idx_to_sft_] looks for block by block. *)
Fixpoint idx_to_sft_ (blocks : list (list sft)) (SftIndex : Z) : option sft :=
  match blocks with
  | [] => None
  | sp :: blocks' =>
      if SftIndex <? Z.of_nat (length sp) then sp !! Z.to_nat SftIndex
      else idx_to_sft_ blocks' (SftIndex - Z.of_nat (length sp))
  end.
Fixpoint sft_upd (blocks : list (list sft)) (SftIndex : Z) (g : sft -> sft) : list (list sft) :=
  match blocks with
  | [] => []
  | sp :: blocks' =>
      if SftIndex <? Z.of_nat (length sp) then alter g (Z.to_nat SftIndex) sp :: blocks'
      else sp :: sft_upd blocks' (SftIndex - Z.of_nat (length sp)) g
  end.

(** An entry that is in use; [None] for the pointer -1. *)
Definition idx_to_sft (blocks : list (list sft)) (SftIndex : Z) : option sft :=
  if SftIndex <? 0 then None else
  match idx_to_sft_ blocks SftIndex with
  | Some f => if sft_count f =? 0 then None else Some f
  | None => None
  end.

Section FNodes.
Context {M : Machine}.

Definition fn (fp : f_node_ptr) : K kst f_node := let! s := kget in kret (fnode_of fp (fs s)).
Definition fnmod (fp : f_node_ptr) (g : f_node -> f_node) : K kst unit :=
  kmod (fun s => set_fs (fnode_upd fp g (fs s)) s).
(** [fnp->f_dmp->...] *)
Definition dm (fp : f_node_ptr) : K kst dmatch :=
  let! n := fn fp in let! s := kget in kret (dm_of (f_dmp n) (fs s)).
Definition dmmod (fp : f_node_ptr) (g : dmatch -> dmatch) : K kst unit :=
  let! n := fn fp in kmod (fun s => set_fs (dm_upd (f_dmp n) g (fs s)) s).
(** [fnp->f_dpb->...] *)
Definition fdpb (fp : f_node_ptr) : K kst dpb := let! n := fn fp in dget (f_dpb n).
(** [fnp->f_dir.... = ...] *)
Definition dirmod (fp : f_node_ptr) (g : dirent -> dirent) : K kst unit :=
  fnmod fp (fun n => set_f_dir (g (f_dir n)) n).

Definition sftget (fd : Z) : K kst sft :=
  let! s := kget in kopt (idx_to_sft (sfthead (fs s)) fd).
Definition sftmod (fd : Z) (g : sft -> sft) : K kst unit :=
  kmod (fun s => set_fs (set_sfthead (sft_upd (sfthead (fs s)) fd g) (fs s)) s).

(** ** Copying an open file between the table and a fnode *)

Definition sft_to_fnode (fd : Z) : K kst f_node_ptr :=
  let! sftp := sftget fd in
  let fp := fnode0 in
  do! fnmod fp (set_f_sft_idx (u8 fd)) in
  do! fnmod fp (set_f_flags (sft_flags sftp)) in
  do! dirmod fp (set_dir_attrib (sft_attrib sftp)) in
  do! dirmod fp (set_dir_name (sft_name sftp)) in
  do! dirmod fp (set_dir_time (sft_time sftp)) in
  do! dirmod fp (set_dir_date (sft_date sftp)) in
  do! dirmod fp (set_dir_size (sft_size sftp)) in
  do! fnmod fp (set_f_dpb (sft_dcb sftp)) in
  let! d := fdpb fp in
  do! dirmod fp (setdstart d (sft_stclust sftp)) in
  do! fnmod fp (set_f_diridx (sft_diridx sftp)) in
  do! fnmod fp (set_f_dirsector (sft_dirsector sftp)) in
  do! fnmod fp (set_f_offset (sft_posit sftp)) in
  do! fnmod fp (set_f_cluster (sft_cuclust sftp)) in
  do! fnmod fp (set_f_cluster_offset
                  (Z.lor (sft_relclust sftp) (u32 (Z.shiftl (sft_relclust_high sftp) 16)))) in
  kret fp.

Definition fnode_to_sft (fp : f_node_ptr) : K kst unit :=
  let! n := fn fp in
  let! _ := sftget (f_sft_idx n) in
  let fd := f_sft_idx n in
  do! sftmod fd (set_sft_flags (f_flags n)) in
  do! sftmod fd (set_sft_attrib (dir_attrib (f_dir n))) in
  do! sftmod fd (set_sft_name (dir_name (f_dir n))) in
  do! sftmod fd (set_sft_time (dir_time (f_dir n))) in
  do! sftmod fd (set_sft_date (dir_date (f_dir n))) in
  do! sftmod fd (set_sft_size (dir_size (f_dir n))) in
  let! d := fdpb fp in
  do! sftmod fd (set_sft_stclust (getdstart d (f_dir n))) in
  do! sftmod fd (set_sft_diridx (f_diridx n)) in
  do! sftmod fd (set_sft_dirsector (f_dirsector n)) in
  do! sftmod fd (set_sft_dcb (f_dpb n)) in
  do! sftmod fd (set_sft_posit (f_offset n)) in
  do! sftmod fd (set_sft_cuclust (f_cluster n)) in
  do! sftmod fd (set_sft_relclust (u16 (f_cluster_offset n))) in
  sftmod fd (set_sft_relclust_high (u16 (Z.shiftr (f_cluster_offset n) 16))).
End FNodes.

End FNode.
