(* ===== verification/FatAlloc.v ===== *)
(** * Cluster chains (kernel/fatfs.c, first part)

    The functions of fatfs.c that allocate, follow and free chains of
    clusters.  They are called with a fnode, of which they use the parameter
    block, the start cluster in the directory entry and the position. *)

From S2P Require Import Prelude KState BlockIO FatTab FNode.
Import Ks Bio Fat FNode.

Module Alloc.
Section Alloc.
Context {M : Machine}.

Definition clus2phys (cl_no : Z) (d : dpb) : Z :=
  let data := if ISFAT32 d then dpb_xdata d else dpb_data d in
  u32 (u32 (Z.shiftl (u32 (cl_no - 2)) (dpb_shftcnt d)) + data).

(** ** Freeing a chain *)

(** One round of the loop: the next cluster, or [None] to leave the
    function. *)
Definition wipe_step (dpbp st : Z) : K kst (option Z) :=
  let! next := next_cluster dpbp st in
  if next <=? 1 then kret None else
  let! rc := link_fat dpbp st FREE in
  if negb (rc =? SUCCESS) then kret None else
  let! d := dget dpbp in
  do! (if ISFAT32 d then
         if (dpb_xcluster d =? UNKNCLUSTER) || (st <? dpb_xcluster d)
         then dmod dpbp (set_xcluster st) else kret tt
       else if (dpb_cluster d =? UNKNCLUSTER) || (u16 st <? dpb_cluster d)
       then dmod dpbp (set_cluster (u16 st)) else kret tt) in
  kret (Some next).

(** A round frees a cluster that was not free, so [max_cluster + 1] rounds
    are never used up. *)
Fixpoint wipe_loop (fuel : nat) (dpbp st : Z) : K kst unit :=
  match fuel with
  | O => kstuck
  | S fuel' =>
      if st =? LONG_LAST_CLUSTER then
        let! d := dget dpbp in
        if ISFAT32 d then write_fsinfo dpbp else kret tt
      else
        let! next := wipe_step dpbp st in
        match next with
        | None => kret tt
        | Some next => wipe_loop fuel' dpbp next
        end
  end.

Definition wipe_out_clusters (dpbp st : Z) : K kst unit :=
  let! d := dget dpbp in
  wipe_loop (Z.to_nat (max_cluster d + 2)) dpbp st.

Definition wipe_out (fnp : f_node_ptr) : K kst unit :=
  let! n := fn fnp in
  let! d := fdpb fnp in
  let cluster := getdstart d (f_dir n) in
  if negb (cluster =? FREE) then wipe_out_clusters (f_dpb n) cluster else kret tt.

(** ** Finding a free cluster *)

(** The [for (;;)] loop, started at [cluster]: the pair of [cluster] and
    [idx] after it. *)
Fixpoint free_loop (fuel : nat) (dpbp size cluster idx : Z) : K kst (Z * Z) :=
  match fuel with
  | O => kstuck
  | S fuel' =>
      let! free := is_free_cluster dpbp idx in
      if free then kret (idx, idx) else
      let idx := u32 (idx + 1) in
      let idx := if size <? idx then 2 else idx in
      if idx =? cluster then kret (UNKNCLUSTER, LONG_LAST_CLUSTER)
      else free_loop fuel' dpbp size cluster idx
  end.

Definition find_fat_free (fnp : f_node_ptr) : K kst Z :=
  let! n := fn fnp in
  let dpbp := f_dpb n in
  let! d := dget dpbp in
  let '(idx, size) :=
    if ISFAT32 d then
      (if negb (dpb_xcluster d =? UNKNCLUSTER) then dpb_xcluster d else 2, dpb_xsize d)
    else (if negb (dpb_cluster d =? UNKNCLUSTER) then dpb_cluster d else 2, dpb_size d) in
  let! r := free_loop (Z.to_nat (size + 1)) dpbp size idx idx in
  do! (if ISFAT32 d then
         do! dmod dpbp (set_xcluster (fst r)) in write_fsinfo dpbp
       else dmod dpbp (set_cluster (u16 (fst r)))) in
  kret (snd r).

(** ** Extending a chain by a cluster *)

Definition extend (fnp : f_node_ptr) : K kst Z :=
  let! free_fat := find_fat_free fnp in
  if free_fat =? LONG_LAST_CLUSTER then kret free_fat else
  let! n := fn fnp in
  let! rc := link_fat (f_dpb n) free_fat LONG_LAST_CLUSTER in
  if negb (rc =? SUCCESS) then kret LONG_LAST_CLUSTER else
  if f_cluster n =? FREE then
    let! d := fdpb fnp in
    do! dirmod fnp (setdstart d free_fat) in
    kret free_fat
  else
    let! next := next_cluster (f_dpb n) (f_cluster n) in
    if negb (next =? LONG_LAST_CLUSTER) then
      do! say MsgChainSize in kret LONG_LAST_CLUSTER
    else
      let! rc := link_fat (f_dpb n) (f_cluster n) free_fat in
      if negb (rc =? SUCCESS) then kret LONG_LAST_CLUSTER else kret free_fat.

(** ** Following a chain to a position *)

Definition map_step (fnp : f_node_ptr) (mode : Z) : K kst (option Z) :=
  let! n := fn fnp in
  let! cluster := next_cluster (f_dpb n) (f_cluster n) in
  if cluster <=? 1 then kret (Some DE_SEEK) else
  let! r :=
    (if cluster =? LONG_LAST_CLUSTER then
       if mode =? XFR_READ then kret (inl DE_SEEK) else
       let! cluster := extend fnp in
       if cluster =? LONG_LAST_CLUSTER then kret (inl DE_HNDLDSKFULL) else kret (inr cluster)
     else kret (inr cluster)) in
  match r with
  | inl e => kret (Some e)
  | inr cluster =>
      do! fnmod fnp (set_f_cluster cluster) in
      do! fnmod fnp (fun n => set_f_cluster_offset (u32 (f_cluster_offset n + 1)) n) in
      kret None
  end.

(** The [while] loop; [relcluster] is not below the offset, so the fuel is
    the number of its rounds. *)
Fixpoint map_loop (fuel : nat) (fnp : f_node_ptr) (mode relcluster : Z) : K kst Z :=
  match fuel with
  | O => kstuck
  | S fuel' =>
      let! n := fn fnp in
      if f_cluster_offset n =? relcluster then kret SUCCESS else
      let! e := map_step fnp mode in
      match e with
      | Some rc => kret rc
      | None => map_loop fuel' fnp mode relcluster
      end
  end.

(** [f_offset / dpb_secsize >> dpb_shftcnt] *)
Definition relcluster_of (n : f_node) (d : dpb) : option Z :=
  if dpb_secsize d =? 0 then None
  else Some (Z.shiftr (f_offset n / dpb_secsize d) (dpb_shftcnt d)).

Definition map_cluster (fnp : f_node_ptr) (mode : Z) : K kst Z :=
  let! n := fn fnp in
  let! start :=
    (if f_cluster n =? FREE then
       if mode =? XFR_READ then kret (Some DE_SEEK) else
       let! cluster := extend fnp in
       if cluster =? LONG_LAST_CLUSTER then kret (Some DE_HNDLDSKFULL) else
       do! fnmod fnp (set_f_cluster cluster) in kret None
     else kret None) in
  match start with
  | Some rc => kret rc
  | None =>
      let! n := fn fnp in
      let! d := fdpb fnp in
      let! relcluster := kopt (relcluster_of n d) in
      do! (if relcluster <? f_cluster_offset n then
             let! m := dm fnp in
             do! fnmod fnp (set_f_cluster
                   (if f_sft_idx n =? 0xff then dm_dircluster m else getdstart d (f_dir n))) in
             fnmod fnp (set_f_cluster_offset 0)
           else kret tt) in
      let! n := fn fnp in
      map_loop (S (Z.to_nat (relcluster - f_cluster_offset n))) fnp mode relcluster
  end.

(** ** Counting free clusters *)

Fixpoint count_loop (fuel : nat) (dpbp max i cnt : Z) : K kst Z :=
  match fuel with
  | O => kstuck
  | S fuel' =>
      if negb (i <=? max) then kret cnt else
      let! free := is_free_cluster dpbp i in
      if free then
        do! (if cnt =? 0 then
               let! d := dget dpbp in
               if ISFAT32 d then dmod dpbp (set_xcluster i)
               else dmod dpbp (set_cluster (u16 i))
             else kret tt) in
        count_loop fuel' dpbp max (u32 (i + 1)) (u32 (cnt + 1))
      else count_loop fuel' dpbp max (u32 (i + 1)) cnt
  end.

Definition dos_free (dpbp : Z) : K kst Z :=
  let! d := dget dpbp in
  let cached :=
    if ISFAT32 d then
      if negb (dpb_xnfreeclst d =? XUNKNCLSTFREE) then Some (dpb_xnfreeclst d) else None
    else if negb (dpb_nfreeclst d =? UNKNCLSTFREE) then Some (dpb_nfreeclst d) else None in
  match cached with
  | Some n => kret n
  | None =>
      let! cnt := count_loop (Z.to_nat (max_cluster d)) dpbp (max_cluster d) 2 0 in
      if ISFAT32 d then
        do! dmod dpbp (set_xnfreeclst cnt) in
        do! write_fsinfo dpbp in
        kret cnt
      else
        do! dmod dpbp (set_nfreeclst (u16 cnt)) in
        kret cnt
  end.

(** ** Clearing the sectors of a new directory cluster *)

Fixpoint clear_loop (fuel : nat) (fnp : f_node_ptr) (cluster idx : Z) : K kst Z :=
  match fuel with
  | O => kstuck
  | S fuel' =>
      let! d := fdpb fnp in
      if negb (idx <=? dpb_clsmask d) then kret SUCCESS else
      let! bp := getblockOver (u32 (clus2phys cluster d + idx)) (dpb_unit d) in
      if bp =? NULL then kret DE_ACCESS else
      do! bmod bp (set_buffer (replicate (Z.to_nat BUFFERSIZE) 0)) in
      do! bmod bp (flag_on (Z.lor BFR_DIRTY BFR_VALID)) in
      do! (if negb (idx =? 0) then bmod bp (flag_on BFR_UNCACHE) else kret tt) in
      clear_loop fuel' fnp cluster (idx + 1)
  end.

Definition clear_dir (fnp : f_node_ptr) (cluster : Z) : K kst Z :=
  let! d := fdpb fnp in
  clear_loop (Z.to_nat (dpb_clsmask d + 2)) fnp cluster 0.

End Alloc.
End Alloc.
