(* ===== verification/Clock.v ===== *)
(** * Character requests and the system date (kernel/chario.c, systime.c)

    The clock is a character device; [ClkRecord] is the six bytes that
    [ExecuteClockDriverRequest] transfers.  A date is kept as the number of
    days since 1 January 1980.  [CharReqHdr] and [ClkReqHdr] are two names of
    one request header (kernel.asm). *)

From S2P Require Import Prelude KState BlockIO.
Import Ks Bio.

Module Clk.

Definition DE_INVLDACC := -12.
Definition EFLG_CHAR := 0x80.
Definition C_CLOSE := 0x0e.

(** ** Calendar arithmetic: no device involved *)

Definition days : list (list Z) :=
  [[0; 31; 59; 90; 120; 151; 181; 212; 243; 273; 304; 334; 365];
   [0; 31; 60; 91; 121; 152; 182; 213; 244; 274; 305; 335; 366]].

(** A row of [days]. *)
Definition is_leap_year_monthdays (y : Z) : list Z :=
  if negb (Z.land y 3 =? 0) || (y =? 2100) then nth 0 days [] else nth 1 days [].

(** [pdays[i]]; an index outside the row is undefined. *)
Definition at_row (pdays : list Z) (i : Z) : option Z :=
  if i <? 0 then None else pdays !! Z.to_nat i.

Definition DaysFromYearMonthDay (Year Month DayOfMonth : Z) : option Z :=
  if Year <? 1980 then Some 0 else
  match at_row (is_leap_year_monthdays Year) (Month - 1) with
  | None => None
  | Some m => Some (u16 (DayOfMonth - 1 + m + (Year - 1980) * 365 + (Year - 1980 + 3) / 4))
  end.

(** The loop over the years and the loop over the months of [DosGetDate]. *)
Fixpoint year_loop (fuel : nat) (Year c : Z) : option (Z * Z) :=
  match fuel with
  | O => None
  | S fuel' =>
      match at_row (is_leap_year_monthdays Year) 12 with
      | None => None
      | Some n => if n <=? c then year_loop fuel' (u16 (Year + 1)) (u16 (c - n)) else Some (Year, c)
      end
  end.

Fixpoint month_loop (fuel : nat) (pdays : list Z) (Month c : Z) : option Z :=
  match fuel with
  | O => None
  | S fuel' =>
      match at_row pdays Month with
      | None => None
      | Some n => if n <=? c then month_loop fuel' pdays (Month + 1) c else Some Month
      end
  end.

(** 65535 days are less than 180 years. *)
Definition year_fuel : nat := 180.
Definition month_fuel : nat := 13.

Record dosdate := Dosdate { year : Z; month : Z; monthday : Z }.
Record dostime := Dostime { hour : Z; minute : Z; second : Z; hundredth : Z }.

Definition split_days (clkDays : Z) : option dosdate :=
  match year_loop year_fuel 1980 clkDays with
  | None => None
  | Some (Year, c) =>
      let pdays := is_leap_year_monthdays Year in
      match month_loop month_fuel pdays 1 c with
      | None => None
      | Some Month =>
          match at_row pdays (Month - 1) with
          | None => None
          | Some m => Some (Dosdate Year (u8 Month) (u8 (c - m + 1)))
          end
      end
  end.

(** The test of [DosSetDate]. *)
Definition valid_date (d : dosdate) : option bool :=
  let pdays := is_leap_year_monthdays (year d) in
  if (year d <? 1980) || (2099 <? year d) || (month d <? 1) || (12 <? month d)
     || (monthday d <? 1) then Some false else
  match at_row pdays (month d), at_row pdays (month d - 1) with
  | Some a, Some b => Some (monthday d <=? a - b)
  | _, _ => None
  end.

(** The packed forms of a directory entry. *)
Definition EPOCH_YEAR := 1980.
Definition DT_ENCODE (m d y : Z) : Z :=
  Z.lor (Z.lor (Z.shiftl (Z.land m 0x0f) 5) (Z.land d 0x1f)) (Z.shiftl (Z.land y 0x7f) 9).
Definition DT_YEAR (d : Z) : Z := Z.land (Z.shiftr d 9) 0x7f.
Definition DT_MONTH (d : Z) : Z := Z.land (Z.shiftr d 5) 0x0f.
Definition DT_DAY (d : Z) : Z := Z.land d 0x1f.
Definition time_encode (t : dostime) : Z :=
  u16 (Z.lor (Z.lor (Z.shiftl (hour t) 11) (Z.shiftl (minute t) 5)) (Z.shiftr (second t) 1)).

Section Clock.
Context {M : Machine}.

(** ** Requests to a character device *)

Definition char_error (rq : request) (lpDevice : Z) : K kst Z :=
  do! set_crit (Z.land (r_status rq) S_MASK + 0x13) in
  fun s =>
    let '(answer, w) :=
      CriticalError (Z.lor (Z.lor EFLG_CHAR EFLG_ABORT) (Z.lor EFLG_RETRY EFLG_IGNORE))
        0 (Z.land (r_status rq) S_MASK) lpDevice (dev s) in
    Some (answer, set_dev w s).

(** The [for (;;)] around the [switch]. *)
Fixpoint char_ask (fuel : nat) (rq : request) (lpDevice : Z) : K kst Z :=
  match fuel with
  | O => kstuck
  | S fuel' =>
      let! a := char_error rq lpDevice in
      if (a =? ABORT) || (a =? FAIL) || (a =? CONTINUE) || (a =? RETRY) then kret a
      else char_ask fuel' rq lpDevice
  end.

(** The header of a request with its count and, for a new request, its
    command. *)
Definition char_count (n : Z) (rq : request) : request :=
  Request (r_length rq) (r_unit rq) (r_command rq) (r_status rq) (r_meddesc rq) n
    (r_start rq) (r_huge rq) (r_mcretcode rq) (r_bpb rq).
Definition char_command (command : Z) (rq : request) : request :=
  Request SIZEOF_REQUEST 0 command 0 (r_meddesc rq) (r_count rq)
    (r_start rq) (r_huge rq) (r_mcretcode rq) (r_bpb rq).

(** The result and the transfer buffer. *)
Definition CharRequest (dv command : Z) (buf : list Z) : K kst (Z * list Z) :=
  let! s := kget in
  do! set_charreq (char_command command (CharReqHdr (drv s))) in
  let! s := kget in
  let! r := call_execrh dv (CharReqHdr (drv s)) buf in
  do! set_charreq (fst r) in
  if has (r_status (fst r)) S_ERROR then
    let! a := char_ask xfer_fuel (fst r) dv in
    if (a =? ABORT) || (a =? FAIL) then kret (DE_INVLDACC, snd r)
    else if a =? CONTINUE then
      let! s := kget in
      do! set_charreq (char_count 0 (CharReqHdr (drv s))) in kret (0, snd r)
    else kret (1, snd r)
  else kret (SUCCESS, snd r).

Fixpoint char_loop (fuel : nat) (dv n command : Z) (buf : list Z) : K kst (Z * list Z) :=
  match fuel with
  | O => kstuck
  | S fuel' =>
      let! s := kget in
      do! set_charreq (char_count n (CharReqHdr (drv s))) in
      let! r := CharRequest dv command buf in
      if fst r =? 1 then char_loop fuel' dv n command (snd r) else
      let! s := kget in
      kret (if fst r =? SUCCESS then r_count (CharReqHdr (drv s)) else fst r, snd r)
  end.

Definition BinaryCharIO (dv n : Z) (bp : list Z) (command : Z) : K kst (Z * list Z) :=
  char_loop xfer_fuel dv n command bp.

(** ** systime.c *)

Definition SIZEOF_CLOCKRECORD := 6.
Definition ExecuteClockDriverRequest (command : Z) : K kst unit :=
  let! s := kget in
  let! r := BinaryCharIO (clock (env s)) SIZEOF_CLOCKRECORD (ClkRecord (drv s)) command in
  set_clkrecord (snd r).

(** The members of [ClkRecord]. *)
Definition clkDays (s : kst) : option Z := fgetword (ClkRecord (drv s)) 0.
Definition clkMinutes (s : kst) : option Z := fgetbyte (ClkRecord (drv s)) 2.
Definition clkHours (s : kst) : option Z := fgetbyte (ClkRecord (drv s)) 3.
Definition clkHundredths (s : kst) : option Z := fgetbyte (ClkRecord (drv s)) 4.
Definition clkSeconds (s : kst) : option Z := fgetbyte (ClkRecord (drv s)) 5.
Definition clk_put (f : list Z -> option (list Z)) : K kst unit :=
  let! s := kget in
  let! r := kopt (f (ClkRecord (drv s))) in
  set_clkrecord r.
Definition clk_error : K kst bool :=
  let! s := kget in kret (has (r_status (CharReqHdr (drv s))) S_ERROR).

(** [None]: [*dt] is left as it was. *)
Definition DosGetTime : K kst (option dostime) :=
  do! ExecuteClockDriverRequest C_INPUT in
  let! e := clk_error in
  if e then kret None else
  let! s := kget in
  let! h := kopt (clkHours s) in
  let! m := kopt (clkMinutes s) in
  let! sec := kopt (clkSeconds s) in
  let! hu := kopt (clkHundredths s) in
  kret (Some (Dostime h m sec hu)).

(** The end of the two functions that set the clock. *)
Definition clk_result : K kst Z :=
  let! e := clk_error in
  if e then let! s := kget in char_error (CharReqHdr (drv s)) (clock (env s))
  else kret SUCCESS.

Definition DosSetTime (dt : dostime) : K kst Z :=
  if (23 <? hour dt) || (59 <? minute dt) || (59 <? second dt) || (99 <? hundredth dt)
  then kret DE_INVLDDATA else
  do! ExecuteClockDriverRequest C_INPUT in
  do! clk_put (fputbyte 3 (hour dt)) in
  do! clk_put (fputbyte 2 (minute dt)) in
  do! clk_put (fputbyte 5 (second dt)) in
  do! clk_put (fputbyte 4 (hundredth dt)) in
  do! ExecuteClockDriverRequest C_OUTPUT in
  clk_result.

(** The date, unless the driver failed, and the day of the week. *)
Definition DosGetDate : K kst (option dosdate * Z) :=
  do! ExecuteClockDriverRequest C_INPUT in
  let! e := clk_error in
  if e then kret (None, 0) else
  let! s := kget in
  let! c := kopt (clkDays s) in
  let! d := kopt (split_days c) in
  kret (Some d, u8 (u16 (c + 2) mod 7)).

Definition DosSetDate (dd : dosdate) : K kst Z :=
  let! ok := kopt (valid_date dd) in
  if negb ok then kret DE_INVLDDATA else
  do! ExecuteClockDriverRequest C_INPUT in
  let! n := kopt (DaysFromYearMonthDay (year dd) (month dd) (monthday dd)) in
  do! clk_put (fputword 0 n) in
  do! ExecuteClockDriverRequest C_OUTPUT in
  clk_result.

(** ** The date and time stamps of fatfs.c.  When the driver fails the
    stamp is made from an uninitialised variable. *)
Definition dos_getdate : K kst Z :=
  let! r := DosGetDate in
  let! d := kopt (fst r) in
  kret (u16 (DT_ENCODE (month d) (monthday d) (year d - EPOCH_YEAR))).
Definition dos_gettime : K kst Z :=
  let! r := DosGetTime in
  let! t := kopt r in
  kret (time_encode t).
End Clock.
End Clk.
