(* ===== verification/Media.v ===== *)
(** * Media checks and the parameter block (kernel/fatfs.c, third part)

    [media_check] asks the driver whether the medium changed and, if it may
    have, drops the cached blocks of the drive and rebuilds its parameter
    block from the BPB.  The driver's own scratch sector
    ([DiskTransferBuffer]) is part of the world. *)

From S2P Require Import Prelude KState BlockIO FatTab.
Import Ks Bio Fat.

Module Media.

Definition M_DONT_KNOW := 0.
Definition M_NOT_CHANGED := 1.

(** ** bpb_to_dpb *)

(** The largest [shftcnt] reached by the loop on [bpb_nsector]. *)
Fixpoint shift_loop (fuel : nat) (nsector shftcnt : Z) : Z :=
  match fuel with
  | O => shftcnt
  | S fuel' => if 1 <? Z.shiftr nsector shftcnt then shift_loop fuel' nsector (shftcnt + 1) else shftcnt
  end.
(** [bpb_nsector] is a byte. *)
Definition shift_of (nsector : Z) : Z := if nsector =? 0 then 8 else shift_loop 8 nsector 0.

Definition bpb_total (b : bpb) : Z := if bpb_nsize b =? 0 then bpb_huge b else bpb_nsize b.

Definition dirstrt_of (b : bpb) : Z := u16 (bpb_nreserved b + u16 (bpb_nfat b * bpb_nfsect b)).
(** [None]: the division by [dpb_secsize/DIRENT_SIZE] is by zero. *)
Definition data_of (b : bpb) : option Z :=
  let n := bpb_nbyte b / 32 in
  if n =? 0 then None
  else Some (u16 (dirstrt_of b + u16 (bpb_ndirent b + n - 1) / n)).

(** The number of clusters, cut down when the FAT cannot hold it. *)
Definition trim_size (size fatsize secsize : Z) : Z :=
  let tmp := u32 (fatsize * (secsize / 2)) in
  if 0x10000 <=? tmp then size else
  let fatsiz := u16 tmp in
  let check (fatsiz : Z) := if fatsiz <=? size then u16 (fatsiz - 1) else size in
  if FAT_MAGIC <? size then
    if fatsiz <=? FAT_MAGIC then size else check fatsiz
  else if 0x4000 <=? fatsiz then size else check (u16 (fatsiz * 4) / 3).

(** The stores up to [dpb_nfreeclst]. *)
Definition dpb_base (b : bpb) (d : dpb) : option dpb :=
  match data_of b with
  | None => None
  | Some data =>
      let shftcnt := shift_of (bpb_nsector b) in
      let size := u16 (u16 (Z.shiftr (u32 (bpb_total b - data)) shftcnt) + 1) in
      Some (set_nfreeclst UNKNCLSTFREE
        (Dpb (dpb_unit d) (dpb_subunit d) (bpb_nbyte b) (Z.land (bpb_nsector b - 1) 0xff) shftcnt
           (bpb_nreserved b) (bpb_nfat b) (bpb_ndirent b) data
           (trim_size size (bpb_nfsect b) (bpb_nbyte b)) (bpb_nfsect b) (dirstrt_of b)
           (dpb_device d) (bpb_mdesc b) 0 UNKNCLUSTER (dpb_xnfreeclst d) (dpb_xflags d)
           (dpb_xfsinfosec d) (dpb_xbackupsec d) (dpb_xdata d) (dpb_xsize d) (dpb_xfatsize d)
           (dpb_xrootclst d) (dpb_xcluster d)))
  end.

Definition set_xfatsize v (d : dpb) : dpb :=
  Dpb (dpb_unit d) (dpb_subunit d) (dpb_secsize d) (dpb_clsmask d) (dpb_shftcnt d)
    (dpb_fatstrt d) (dpb_fats d) (dpb_dirents d) (dpb_data d) (dpb_size d) (dpb_fatsize d)
    (dpb_dirstrt d) (dpb_device d) (dpb_mdb d) (dpb_flags d) (dpb_cluster d) (dpb_xnfreeclst d)
    (dpb_xflags d) (dpb_xfsinfosec d) (dpb_xbackupsec d) (dpb_xdata d) (dpb_xsize d) v
    (dpb_xrootclst d) (dpb_xcluster d).

Definition dpb16to32 (d : dpb) : dpb :=
  Dpb (dpb_unit d) (dpb_subunit d) (dpb_secsize d) (dpb_clsmask d) (dpb_shftcnt d)
    (dpb_fatstrt d) (dpb_fats d) (dpb_dirents d) (dpb_data d) (dpb_size d) (dpb_fatsize d)
    (dpb_dirstrt d) (dpb_device d) (dpb_mdb d) (dpb_flags d) (dpb_cluster d) (dpb_xnfreeclst d)
    0 0xffff 0xffff (dpb_data d) (dpb_size d) (dpb_xfatsize d) 0 (dpb_xcluster d).

(** The stores for a FAT32 volume. *)
Definition dpb_fat32 (b : bpb) (d : dpb) : dpb :=
  let xdata := u32 (dpb_fatstrt d + u32 (dpb_fats d * dpb_xfatsize d)) in
  Dpb (dpb_unit d) (dpb_subunit d) (dpb_secsize d) (dpb_clsmask d) (dpb_shftcnt d)
    (dpb_fatstrt d) (dpb_fats d) 0 (dpb_data d) 0 (dpb_fatsize d)
    0xffff (dpb_device d) (dpb_mdb d) (dpb_flags d) (dpb_cluster d) (dpb_xnfreeclst d)
    (bpb_xflags b) (bpb_xfsinfosec b) (bpb_xbackupsec b) xdata
    (u32 (Z.shiftr (u32 (bpb_total b - xdata)) (dpb_shftcnt d) + 1)) (dpb_xfatsize d)
    (bpb_xrootclst b) (dpb_xcluster d).

(** The stores for an extended parameter block, without [read_fsinfo]. *)
Definition dpb_extended (b : bpb) (d : dpb) : dpb :=
  let d := set_xfatsize (if bpb_nfsect b =? 0 then bpb_xnfsect b else bpb_nfsect b) d in
  let d := set_xnfreeclst XUNKNCLSTFREE (set_xcluster UNKNCLUSTER d) in
  let d := dpb16to32 d in
  if ISFAT32 d then dpb_fat32 b d else d.

Section Media.
Context {M : Machine}.

Definition bpb_to_dpb (b : bpb) (dpbp : Z) (extended : bool) : K kst unit :=
  let! d := dget dpbp in
  let! d := kopt (dpb_base b d) in
  do! dmod dpbp (fun _ => d) in
  if extended then
    do! dmod dpbp (dpb_extended b) in
    if ISFAT32 d then read_fsinfo dpbp else kret tt
  else kret tt.

(** ** rqblockio *)

Definition media_request (command : Z) (d : dpb) (rq : request) : request :=
  Request SIZEOF_REQUEST (dpb_subunit d) command 0 (s8 (dpb_mdb d)) (r_count rq) (r_start rq)
    (r_huge rq) (r_mcretcode rq) (r_bpb rq).

Fixpoint rqblockio_loop (fuel : nat) (command dpbp : Z) : K kst Z :=
  match fuel with
  | O => kstuck
  | S fuel' =>
      let! d := dget dpbp in
      let! s := kget in
      do! set_mediareq (media_request command d (MediaReqHdr (drv s))) in
      let! s := kget in
      let! r := call_execrh (dpb_device d) (MediaReqHdr (drv s)) [] in
      do! set_mediareq (fst r) in
      let rq := fst r in
      if has (r_status rq) S_ERROR || negb (has (r_status rq) S_DONE) then
        let! a := ask xfer_fuel rq (dpb_unit d) (dpb_device d) 0 in
        if (a =? ABORT) || (a =? FAIL) then kret DE_INVLDDRV
        else if a =? RETRY then rqblockio_loop fuel' command dpbp
        else kret SUCCESS
      else kret SUCCESS
  end.

Definition rqblockio (command dpbp : Z) : K kst Z := rqblockio_loop xfer_fuel command dpbp.

(** ** media_check *)

Definition FP_SEG (p : Z) : Z := Z.shiftr p 16.

Definition rebuild (dpbp : Z) : K kst Z :=
  let! d := dget dpbp in
  do! setinvld (dpb_unit d) in
  let! ret := rqblockio C_BLDBPB dpbp in
  if ret <? SUCCESS then kret ret else
  let! s := kget in
  let b := r_bpb (MediaReqHdr (drv s)) in
  do! bpb_to_dpb b dpbp ((bpb_nfsect b =? 0) || (FP_SEG dpbp =? os_major_seg (env s))) in
  kret SUCCESS.

Definition media_check (dpbp : Z) : K kst Z :=
  if dpbp =? NULL then kret DE_INVLDDRV else
  let! ret := rqblockio C_MEDIACHK dpbp in
  if ret <? SUCCESS then kret ret else
  let! s := kget in
  let! d := dget dpbp in
  let code := Z.lor (r_mcretcode (MediaReqHdr (drv s))) (dpb_flags d) in
  if code =? M_NOT_CHANGED then kret SUCCESS
  else if code =? M_DONT_KNOW then
    let! db := dirty_buffers (dpb_unit d) in
    if db then kret SUCCESS else rebuild dpbp
  else rebuild dpbp.
End Media.
End Media.
