(* ===== verification/FatDir.v ===== *)
(** * Directories (kernel/fatdir.c)

    Reading and writing directory entries through a fnode, walking a path,
    searching, and the two forms of a file name.  A path is the list of its
    characters without the final NUL; characters are their codes. *)

From S2P Require Import Prelude KState BlockIO FatTab FNode FatAlloc Media.
Import Ks Bio Fat FNode Alloc Media.

Module Dir.

Definition BACKSLASH := 0x5c.
Definition DOT := 0x2e.
Definition SPACE := 0x20.
Definition QUESTION := 0x3f.

(** [s[i]]: the characters, then NUL; past it the access is undefined. *)
Definition chr (s : list Z) (i : Z) : option Z :=
  if (i <? 0) || (Z.of_nat (length s) <? i) then None
  else Some (default 0 (s !! Z.to_nat i)).

(** ** File names *)

(** The loop of [ConvertNameSZToName83], at index [i]; the name and the rest
    of the path. *)
Fixpoint name83_loop (fcbname : list Z) (i : Z) (dirname : list Z) : list Z * list Z :=
  if i <? FCB_SIZE then
    match dirname with
    | [] => (fcbname, dirname)
    | c :: dirname' =>
        if c =? DOT then name83_loop fcbname FNAME_SIZE dirname'
        else if c =? BACKSLASH then (fcbname, dirname)
        else name83_loop (<[Z.to_nat i := c]> fcbname) (i + 1) dirname'
    end
  else (fcbname, dirname).

Definition ConvertNameSZToName83 (dirname : list Z) : list Z * list Z :=
  name83_loop (replicate (Z.to_nat FCB_SIZE) SPACE) 0 dirname.

(** The number of characters up to the last one that is not a blank. *)
Fixpoint trimmed (s : list Z) : list Z :=
  match s with
  | [] => []
  | c :: s' => match trimmed s' with
               | [] => if c =? SPACE then [] else [c]
               | t => c :: t
               end
  end.

Definition ConvertName83ToNameSZ (srcFCBName : list Z) : option (list Z) :=
  match chr srcFCBName 0 with
  | None => None
  | Some c0 =>
      if Z.of_nat (length srcFCBName) <? FCB_SIZE then None else
      let name := trimmed (take (Z.to_nat FNAME_SIZE) srcFCBName) in
      let ext := trimmed (take (Z.to_nat FEXT_SIZE) (drop (Z.to_nat FNAME_SIZE) srcFCBName)) in
      Some (if c0 =? DOT then name else
            match ext with [] => name | _ => name ++ DOT :: ext end)
  end.

Definition fcbmatch (n1 n2 : list Z) : bool :=
  bool_decide (take (Z.to_nat FCB_SIZE) n1 = take (Z.to_nat FCB_SIZE) n2).

(** [fcmp_wild(s1, s2, n)]; reading past the end of a name is undefined. *)
Fixpoint fcmp_wild (s1 s2 : list Z) (n : nat) : option bool :=
  match n with
  | O => Some true
  | S n' =>
      match s1, s2 with
      | c1 :: s1', c2 :: s2' =>
          if negb (c1 =? QUESTION) && negb (c1 =? c2) then Some false else fcmp_wild s1' s2' n'
      | _, _ => None
      end
  end.

(** Characters are 8 bits: [name[0] ^= EXT_DELETED - DELETED]. *)
Definition swap_deleted (name : list Z) : list Z :=
  match name with
  | c :: r => (if (c =? DELETED) || (c =? EXT_DELETED)
               then u8 (Z.lxor c (EXT_DELETED - DELETED)) else c) :: r
  | [] => []
  end.
(** [dir_name[0]] of the entry in a fnode. *)
Definition name0 (n : f_node) : Z := default 0 (head (dir_name (f_dir n))).
Definition name1 (n : f_node) : Z := default 0 (dir_name (f_dir n) !! 1%nat).

Section Dir.
Context {M : Machine}.

Definition dir_init_fnode (fnp : f_node_ptr) (dirstart : Z) : K kst unit :=
  do! fnmod fnp (set_f_sft_idx 0xff) in
  do! fnmod fnp (set_f_dmp sda_tmp_dm) in
  do! (match fnp with fnode1 => fnmod fnp (set_f_dmp sda_tmp_dm_ren) | fnode0 => kret tt end) in
  do! fnmod fnp (set_f_offset 0) in
  do! fnmod fnp (set_f_cluster_offset 0) in
  let! dirstart :=
    (if dirstart =? 0 then
       let! d := fdpb fnp in
       kret (if ISFAT32 d then dpb_xrootclst d else dirstart)
     else kret dirstart) in
  do! dmmod fnp (set_dm_dircluster dirstart) in
  fnmod fnp (set_f_cluster dirstart).

(** ** Reading an entry *)

Definition entries_per_sector (d : dpb) : option Z :=
  if dpb_secsize d / DIRENT_SIZE =? 0 then None else Some (dpb_secsize d / DIRENT_SIZE).
(** [(UBYTE)(f_offset / secsize) & dpb_clsmask] *)
Definition sector_of (n : f_node) (d : dpb) : Z :=
  Z.land (u8 (f_offset n / dpb_secsize d)) (dpb_clsmask d).

(** The sector of the entry, into [f_dirsector]; or the error. *)
Definition dir_locate (fnp : f_node_ptr) (entry : Z) : K kst Z :=
  let! m := dm fnp in
  let! d := fdpb fnp in
  if dm_dircluster m =? 0 then
    if dpb_dirents d <=? entry then kret DE_SEEK else
    let! per := kopt (entries_per_sector d) in
    do! fnmod fnp (set_f_dirsector (u16 (entry / per + dpb_dirstrt d))) in
    kret SUCCESS
  else
    do! fnmod fnp (set_f_offset (u32 (entry * DIRENT_SIZE))) in
    let! rc := map_cluster fnp XFR_READ in
    if negb (rc =? SUCCESS) then kret DE_SEEK else
    let! n := fn fnp in
    let! d := fdpb fnp in
    do! fnmod fnp (set_f_dirsector (u32 (clus2phys (f_cluster n) d + sector_of n d))) in
    kret SUCCESS.

Definition dir_read (fnp : f_node_ptr) : K kst Z :=
  let! d := fdpb fnp in
  let! m := dm fnp in
  let entry := dm_entry m in
  if 65535 <=? entry then kret DE_SEEK else
  let! rc := dir_locate fnp entry in
  if negb (rc =? SUCCESS) then kret rc else
  let! n := fn fnp in
  let! bp := getblock (f_dirsector n) (dpb_unit d) in
  if bp =? NULL then kret DE_BLKINVLD else
  do! bmod bp (flag_off (Z.lor BFR_DATA BFR_FAT)) in
  do! bmod bp (flag_on (Z.lor BFR_DIR BFR_VALID)) in
  let! per := kopt (entries_per_sector d) in
  do! fnmod fnp (set_f_diridx (u8 (entry mod per))) in
  let! n := fn fnp in
  let! b := bget bp in
  let! e := kopt (getdirent (b_buffer b) (f_diridx n * DIRENT_SIZE)) in
  do! fnmod fnp (set_f_dir e) in
  do! dirmod fnp (fun e => set_dir_name (swap_deleted (dir_name e)) e) in
  let! n := fn fnp in
  kret (if name0 n =? 0 then 0 else 1).

(** ** Writing an entry *)

(** The members that [dos_close] writes. *)
Definition put_update (d : dpb) (e : dirent) (vp : Z) (l : list Z) : option (list Z) :=
  match fmemcpy l vp (dir_name e) FCB_SIZE with
  | None => None
  | Some l =>
  match fputbyte (vp + DIR_ATTRIB) (dir_attrib e) l with
  | None => None
  | Some l =>
  match fputword (vp + DIR_TIME) (dir_time e) l with
  | None => None
  | Some l =>
  match fputword (vp + DIR_DATE) (dir_date e) l with
  | None => None
  | Some l =>
  match fputword (vp + DIR_START) (dir_start e) l with
  | None => None
  | Some l =>
  match (if ISFAT32 d then fputword (vp + DIR_START_HIGH) (dir_start_high e) l else Some l) with
  | None => None
  | Some l => fputlong (vp + DIR_SIZE) (dir_size e) l
  end end end end end end.

Definition dir_write_update (fnp : f_node_ptr) (update : bool) : K kst bool :=
  let! n := fn fnp in
  let! d := fdpb fnp in
  let! ok :=
    (if negb update || negb (Z.land (f_flags n) (Z.lor SFT_FCLEAN SFT_FDATE) =? SFT_FCLEAN) then
       let! bp := getblock (f_dirsector n) (dpb_unit d) in
       if bp =? NULL then kret false else
       do! dirmod fnp (fun e => set_dir_name (swap_deleted (dir_name e)) e) in
       let! n := fn fnp in
       let vp := f_diridx n * DIRENT_SIZE in
       do! (if update then bput bp (put_update d (f_dir n) vp)
            else bput bp (putdirent vp (f_dir n))) in
       do! dirmod fnp (fun e => set_dir_name (swap_deleted (dir_name e)) e) in
       do! bmod bp (flag_off (Z.lor BFR_DATA BFR_FAT)) in
       do! bmod bp (flag_on (Z.lor BFR_DIR (Z.lor BFR_DIRTY BFR_VALID))) in
       kret true
     else kret true) in
  if negb ok then kret false else
  flush_buffers (dpb_unit d).

Definition dir_write (fnp : f_node_ptr) : K kst bool := dir_write_update fnp false.

Definition next_entry (fnp : f_node_ptr) : K kst unit :=
  dmmod fnp (fun m => set_dm_entry (u16 (dm_entry m + 1)) m).

(** ** Walking a path *)

(** The loop that looks for [fcbname] among the entries that are not volume
    labels.  An entry number is below 65536. *)
Definition dir_fuel : nat := Z.to_nat 65537.

Fixpoint lookup_loop (fuel : nat) (fnp : f_node_ptr) : K kst bool :=
  match fuel with
  | O => kstuck
  | S fuel' =>
      let! rc := dir_read fnp in
      if negb (rc =? 1) then kret false else
      let! n := fn fnp in
      let! m := dm fnp in
      if negb (has (dir_attrib (f_dir n)) D_VOLID) && fcbmatch (dm_name_pat m) (dir_name (f_dir n))
      then kret true
      else do! next_entry fnp in lookup_loop fuel' fnp
  end.

(** The [while] loop of [dir_open]; [None] is the null pointer. *)
Fixpoint walk (fuel : nat) (fnp : f_node_ptr) (split : bool) (dirname : list Z)
  : K kst (option f_node_ptr) :=
  match fuel with
  | O => kstuck
  | S fuel' =>
      match dirname with
      | [] => kret (Some fnp)
      | _ :: [] => kret (Some fnp)
      | _ :: dirname =>
          let '(fcbname, dirname) := ConvertNameSZToName83 dirname in
          do! dmmod fnp (set_dm_name_pat fcbname) in
          if split && (match dirname with [] => true | _ => false end) then kret (Some fnp) else
          let! i := lookup_loop dir_fuel fnp in
          let! n := fn fnp in
          if negb i || negb (has (dir_attrib (f_dir n)) D_DIR) then kret None else
          let! d := fdpb fnp in
          do! dir_init_fnode fnp (getdstart d (f_dir n)) in
          do! dmmod fnp (set_dm_entry 0) in
          walk fuel' fnp split dirname
      end
  end.

Definition dir_open (dirname : list Z) (split : bool) (fnp : f_node_ptr) : K kst (option f_node_ptr) :=
  let! c := kopt (chr dirname 0) in
  let! p := get_dpb (c - 0x41) in
  do! fnmod fnp (set_f_dpb p) in
  do! dir_init_fnode fnp 0 in
  do! dmmod fnp (set_dm_entry 0) in
  let! _ := kopt (chr dirname 2) in
  walk (S (length dirname)) fnp split (drop 2 dirname).

(** fatfs.c *)
Definition split_path (path : list Z) (fnp : f_node_ptr) : K kst (option f_node_ptr) :=
  let! c := kopt (chr path (Z.of_nat (length path) - 1)) in
  if c =? BACKSLASH then kret None else dir_open path true fnp.

Definition dir_exists (path : list Z) : K kst bool :=
  let! r := split_path path fnode0 in
  kret (match r with Some _ => true | None => false end).

(** ** dos_findfirst, dos_findnext *)

Definition SEARCHED := Z.lor (Z.lor D_DIR D_SYSTEM) (Z.lor D_HIDDEN D_VOLID).
Definition IGNORED := Z.lor (Z.lor D_RDONLY D_ARCHIVE) D_DEVICE.

(** The test of an entry with attributes [attrib] against the search. *)
Definition attr_match (dm_attr attrib : Z) : bool :=
  let attr_srch := clear dm_attr IGNORED in
  if attr_srch =? D_VOLID then has attrib D_VOLID
  else negb (has (Z.land (Z.lnot attr_srch) SEARCHED) attrib).

Fixpoint find_loop (fuel : nat) (fnp : f_node_ptr) : K kst Z :=
  match fuel with
  | O => kstuck
  | S fuel' =>
      let! rc := dir_read fnp in
      if negb (rc =? 1) then kret DE_NFILES else
      do! next_entry fnp in
      let! n := fn fnp in
      let! m := dm fnp in
      if negb (name0 n =? DELETED) && negb (Z.land (dir_attrib (f_dir n)) D_LFN =? D_LFN) then
        let! eq := kopt (fcmp_wild (dm_name_pat m) (dir_name (f_dir n)) (Z.to_nat FCB_SIZE)) in
        if eq && attr_match (dm_attr_srch m) (dir_attrib (f_dir n)) then
          do! kmod (fun s => set_fs (set_SearchDir (f_dir n) (fs s)) s) in
          kret SUCCESS
        else find_loop fuel' fnp
      else find_loop fuel' fnp
  end.

Definition dos_findnext : K kst Z :=
  let! s := kget in
  let m := tmp_dm (fs s) in
  let! p := get_dpb (dm_drive m) in
  do! fnmod fnode0 (set_f_dpb p) in
  let! rc := media_check p in
  if rc <? 0 then kret DE_NFILES else
  do! dir_init_fnode fnode0 (dm_dircluster m) in
  find_loop dir_fuel fnode0.

Definition dos_findfirst (attr : Z) (name : list Z) : K kst Z :=
  let! c3 := kopt (chr name 3) in
  if c3 =? 0 then kret DE_NFILES else
  let! fnp := split_path name fnode0 in
  match fnp with
  | None => kret DE_PATHNOTFND
  | Some fnp =>
      do! (if clear attr IGNORED =? D_VOLID then dir_init_fnode fnp 0 else kret tt) in
      let! c := kopt (chr name 0) in
      do! kmod (fun s => set_fs (set_tmp_dm (set_dm_attr_srch (u8 attr)
                  (set_dm_drive (u8 (c - 0x41)) (tmp_dm (fs s)))) (fs s)) s) in
      dos_findnext
  end.
End Dir.
End Dir.
