(* ===== verification/FatFile.v ===== *)
(** * Files and directories by name (kernel/fatfs.c, second part; dosfns.c)

    The file system calls: opening, closing, deleting, renaming, creating and
    removing directories, attributes.  The two fnodes are shared objects: a
    function that opens a path with a fnode overwrites what it held. *)

From S2P Require Import Prelude KState BlockIO FatTab FNode FatAlloc Clock Media FatDir.
Import Ks Bio Fat FNode Alloc Clk Media Dir.

Module File.

Definition O_RDONLY := 0x0000.
Definition O_ACCMODE := 0x0003.
Definition O_OPEN := 0x0100.
Definition O_TRUNC := 0x0200.
Definition O_CREAT := 0x0400.
Definition O_FCB := 0x8000.
Definition RDONLY := 0.
Definition S_OPENED := 1.
Definition S_CREATED := 2.
Definition S_REPLACED := 3.
Definition MAX_CDSPATH := 67.

(** A C string in an array: the characters before the first NUL. *)
Fixpoint cstr (l : list Z) : list Z :=
  match l with [] => [] | c :: l' => if c =? 0 then [] else c :: cstr l' end.
Definition fstrcmp_eq (a b : list Z) : bool := bool_decide (a = b).
Definition ascii_dot : list Z := DOT :: replicate 10 SPACE.

Section File.
Context {M : Machine}.

(** ** Entries *)

Definition init_direntry (fnp : f_node_ptr) (attrib cluster : Z) (name : list Z) : K kst unit :=
  let! name := kopt (if Z.of_nat (length name) <? FCB_SIZE then None
                     else Some (take (Z.to_nat FCB_SIZE) name)) in
  do! fnmod fnp (set_f_dir (Dirent name (u8 attrib) 0 0 0 0 0 (u16 (Z.shiftr cluster 16)) 0 0
                              (u16 cluster) 0)) in
  let! t := dos_gettime in
  do! dirmod fnp (set_dir_time t) in
  do! dirmod fnp (set_dir_crtime t) in
  let! d := dos_getdate in
  do! dirmod fnp (set_dir_date d) in
  dirmod fnp (set_dir_crdate d).

Fixpoint fname_loop (fuel : nat) (fnp : f_node_ptr) (attr : Z) : K kst Z :=
  match fuel with
  | O => kstuck
  | S fuel' =>
      let! rc := dir_read fnp in
      if negb (rc =? 1) then kret DE_FILENOTFND else
      let! n := fn fnp in
      let! m := dm fnp in
      if fcbmatch (dir_name (f_dir n)) (dm_name_pat m)
         && (clear (dir_attrib (f_dir n)) (Z.lor (Z.lor D_RDONLY D_ARCHIVE) attr) =? 0)
      then kret SUCCESS
      else do! next_entry fnp in fname_loop fuel' fnp attr
  end.

Definition find_fname (path : list Z) (attr : Z) (fnp : f_node_ptr) : K kst Z :=
  let! r := split_path path fnp in
  match r with
  | None => kret DE_PATHNOTFND
  | Some fnp => fname_loop dir_fuel fnp attr
  end.

Fixpoint find_free_loop (fuel : nat) (fnp : f_node_ptr) : K kst bool :=
  match fuel with
  | O => kstuck
  | S fuel' =>
      let! rc := dir_read fnp in
      if negb (rc =? 1) then kret (0 <=? rc) else
      let! n := fn fnp in
      if name0 n =? DELETED then kret true
      else do! next_entry fnp in find_free_loop fuel' fnp
  end.
Definition find_free (fnp : f_node_ptr) : K kst bool := find_free_loop dir_fuel fnp.

Definition extend_dir (fnp : f_node_ptr) : K kst Z :=
  let! cluster := extend fnp in
  if cluster =? LONG_LAST_CLUSTER then kret DE_HNDLDSKFULL else
  let! ret := clear_dir fnp cluster in
  if negb (ret =? SUCCESS) then kret ret else
  let! ok := find_free fnp in
  if negb ok then kret DE_HNDLDSKFULL else
  let! d := fdpb fnp in
  let! ok := flush_buffers (dpb_unit d) in
  kret (if ok then SUCCESS else DE_ACCESS).

(** The result of [split_path] is used without a test. *)
Definition alloc_find_free (fnp : f_node_ptr) (path : list Z) : K kst Z :=
  let! r := split_path path fnp in
  let! fnp := kopt r in
  let! free := find_free fnp in
  if negb free then
    let! m := dm fnp in
    if dm_dircluster m =? 0 then kret DE_TOOMANY
    else extend_dir fnp
  else kret SUCCESS.

(** The loop goes back one entry at a time. *)
Fixpoint lfn_loop (fuel : nat) (fnp : f_node_ptr) : K kst Z :=
  match fuel with
  | O => kstuck
  | S fuel' =>
      let! m := dm fnp in
      if dm_entry m =? 0 then kret SUCCESS else
      do! dmmod fnp (fun m => set_dm_entry (u16 (dm_entry m - 1)) m) in
      let! rc := dir_read fnp in
      if rc <=? 0 then kret DE_ACCESS else
      let! n := fn fnp in
      if negb (dir_attrib (f_dir n) =? D_LFN) then kret SUCCESS else
      do! dirmod fnp (fun e => set_dir_name (DELETED :: drop 1 (dir_name e)) e) in
      let! ok := dir_write fnp in
      if negb ok then kret DE_ACCESS else lfn_loop fuel' fnp
  end.

Definition remove_lfn_entries (fnp : f_node_ptr) : K kst Z :=
  let! m := dm fnp in
  let original_diroff := dm_entry m in
  let! rc := lfn_loop dir_fuel fnp in
  if negb (rc =? SUCCESS) then kret rc else
  do! dmmod fnp (set_dm_entry original_diroff) in
  let! rc := dir_read fnp in
  kret (if rc <=? 0 then DE_ACCESS else SUCCESS).

(** ** Files that are open more than once *)

Definition IsShareInstalled (recheck : bool) : K kst bool :=
  if negb recheck then let! s := kget in kret (share_installed (fs s)) else
  let! r := (fun s => let '(r, w) := share_check (dev s) in Some (r, set_dev w s)) in
  do! kmod (fun s => set_fs (set_share_installed (r =? 0xff) (fs s)) s) in
  let! s := kget in kret (share_installed (fs s)).

(** Entry [i] of the table is another handle of the file in [fnp]. *)
Definition same_file (i : Z) (n : f_node) (f : sft) : bool :=
  negb (i =? f_sft_idx n) && negb (sft_count f =? 0) && (f_dpb n =? sft_dcb f)
  && (Z.land (dir_attrib (f_dir n)) D_VOLID =? 0) && (Z.land (sft_attrib f) D_VOLID =? 0)
  && (f_diridx n =? sft_diridx f) && (f_dirsector n =? sft_dirsector f).

(** The value of [collect]. *)
Inductive merging := Distribute | Collect | CloseOthers.

(** The visit of one entry: [Some rc] leaves the function. *)
Definition merge_one (close : Z -> K kst Z) (fnp : f_node_ptr) (collect : merging) (i : Z)
  : K kst (option Z) :=
  let! n := fn fnp in
  let! s := kget in
  let! f := kopt (idx_to_sft_ (sfthead (fs s)) i) in
  if negb (same_file i n f) then kret None else
  match collect with
  | CloseOthers =>
      let! rc := close i in
      kret (if negb (rc =? SUCCESS) then Some rc else None)
  | Collect =>
      if negb (Z.land (sft_mode f) O_ACCMODE =? RDONLY) then
        let! d := fdpb fnp in
        do! dirmod fnp (setdstart d (sft_stclust f)) in
        do! dirmod fnp (set_dir_size (sft_size f)) in
        do! dirmod fnp (set_dir_date (sft_date f)) in
        do! dirmod fnp (set_dir_time (sft_time f)) in
        kret (Some SUCCESS)
      else kret None
  | Distribute =>
      let! d := fdpb fnp in
      do! sftmod i (set_sft_stclust (getdstart d (f_dir n))) in
      do! sftmod i (set_sft_size (dir_size (f_dir n))) in
      do! sftmod i (set_sft_date (dir_date (f_dir n))) in
      do! sftmod i (set_sft_time (dir_time (f_dir n))) in
      kret None
  end.

Fixpoint merge_loop (close : Z -> K kst Z) (fnp : f_node_ptr) (collect : merging) (idx : list Z)
  : K kst Z :=
  match idx with
  | [] => kret SUCCESS
  | i :: idx' =>
      let! r := merge_one close fnp collect i in
      match r with
      | Some rc => kret rc
      | None => merge_loop close fnp collect idx'
      end
  end.

Definition merge_with (close : Z -> K kst Z) (fnp : f_node_ptr) (collect : merging) : K kst Z :=
  let! share := IsShareInstalled false in
  if negb share then kret SUCCESS else
  let! s := kget in
  merge_loop close fnp collect (seqZ 0 (Z.of_nat (length (concat (sfthead (fs s)))))).

(** The calls that do not close files. *)
Definition merge_changes (fnp : f_node_ptr) (collect : merging) : K kst Z :=
  merge_with (fun _ => kstuck) fnp collect.

Definition dos_merge_file_changes (fd : Z) : K kst unit :=
  let! fnp := sft_to_fnode fd in
  let! _ := merge_changes fnp Distribute in
  kret tt.

Definition dos_close (fd : Z) : K kst Z :=
  let! fnp := sft_to_fnode fd in
  let! n := fn fnp in
  do! (if negb (has (f_flags n) SFT_FCLEAN) then
         do! (if negb (has (f_flags n) SFT_FDATE) then
                let! t := dos_gettime in
                do! dirmod fnp (set_dir_time t) in
                let! d := dos_getdate in
                dirmod fnp (set_dir_date d)
              else kret tt) in
         let! _ := merge_changes fnp Distribute in
         kret tt
       else kret tt) in
  do! fnmod fnp (set_f_sft_idx 0xff) in
  let! ok := dir_write_update fnp true in
  kret (if ok then SUCCESS else DE_INVLDHNDL).

Definition count_down (sft_idx : Z) : K kst unit :=
  sftmod sft_idx (fun f => set_sft_count (s16 (sft_count f - 1)) f).

Definition DosCloseSft (sft_idx : Z) (commitonly : bool) : K kst Z :=
  let! s := kget in
  match idx_to_sft (sfthead (fs s)) sft_idx with
  | None => kret DE_INVLDHNDL
  | Some f =>
      if has (sft_flags f) SFT_FSHARED then
        fun s => let '(rc, f', w) := redirector_sft commitonly f (dev s) in
          (do! kmod (set_dev w) in do! sftmod sft_idx (fun _ => f') in kret rc) s
      else if has (sft_flags f) SFT_FDEVICE then
        let! attr := kopt (dh_attr (env s) !! sft_dcb f) in
        let! rc := (if has attr SFT_FOCRM then
                      let! r := BinaryCharIO (sft_dcb f) 0 [] C_CLOSE in kret (fst r)
                    else kret SUCCESS) in
        if negb (rc =? SUCCESS) then kret DE_INVLDHNDL else
        do! (if negb commitonly then count_down sft_idx else kret tt) in
        kret SUCCESS
      else
        let! result := dos_close sft_idx in
        if commitonly || negb (result =? SUCCESS) then kret result else
        let! f := sftget sft_idx in
        let! share := (if sft_count f =? 1 then IsShareInstalled true else kret false) in
        do! (if share then
               do! (if 0 <=? sft_shroff f then
                      kmod (fun s => set_dev (share_close_file (sft_shroff f) (dev s)) s)
                    else kret tt) in
               sftmod sft_idx (set_sft_shroff (-1))
             else kret tt) in
        do! count_down sft_idx in
        kret SUCCESS
  end.

Definition merge_file_changes (fnp : f_node_ptr) (collect : merging) : K kst Z :=
  merge_with (fun i => DosCloseSft i false) fnp collect.

(** ** Opening *)

(** What happens to an existing file: [inl] is the result of the call. *)
Definition open_existing (fnp : f_node_ptr) (flags attrib : Z) : K kst (Z + Z) :=
  let! n := fn fnp in
  let a := dir_attrib (f_dir n) in
  if has flags O_TRUNC then
    if has a (Z.lor (Z.lor D_RDONLY D_DIR) D_VOLID) || has (clear a D_ARCHIVE) (Z.lnot attrib)
    then kret (inl DE_ACCESS)
    else do! wipe_out fnp in kret (inr S_REPLACED)
  else if has flags O_OPEN then
    let flags := if has flags O_FCB && has a D_RDONLY then Z.lor (clear flags 3) O_RDONLY else flags in
    if has a (Z.lor D_DIR D_VOLID) || (has a D_RDONLY && negb (Z.land flags O_ACCMODE =? O_RDONLY))
    then kret (inl DE_ACCESS)
    else kret (inr S_OPENED)
  else kret (inl DE_FILEEXISTS).

Definition open_finish (fnp : f_node_ptr) (attrib fd status : Z) : K kst Z :=
  do! fnmod fnp (set_f_sft_idx (u8 fd)) in
  do! fnmod fnp (set_f_offset 0) in
  do! fnmod fnp (set_f_cluster_offset 0) in
  do! fnmod fnp (fun n => set_f_flags (clear (f_flags n) SFT_FDATE) n) in
  do! fnmod fnp (fun n => set_f_flags (Z.lor (f_flags n) SFT_FCLEAN) n) in
  let! ok :=
    (if negb (status =? S_OPENED) then
       let! m := dm fnp in
       do! init_direntry fnp attrib FREE (dm_name_pat m) in
       dir_write fnp
     else kret true) in
  if negb ok then kret DE_ACCESS else
  let! _ := merge_changes fnp (if status =? S_OPENED then Collect else Distribute) in
  let! n := fn fnp in
  let! d := fdpb fnp in
  do! fnmod fnp (set_f_cluster (getdstart d (f_dir n))) in
  do! fnode_to_sft fnp in
  kret status.

Definition dos_open (path : list Z) (flags attrib fd : Z) : K kst Z :=
  let! fnp := sft_to_fnode fd in
  let! status := find_fname path (Z.lor D_ALL attrib) fnp in
  let! r :=
    (if status =? SUCCESS then open_existing fnp flags attrib
     else if (status =? DE_FILENOTFND) && has flags O_CREAT then
       let! ret := alloc_find_free fnp path in
       kret (if negb (ret =? SUCCESS) then inl ret else inr S_CREATED)
     else kret (inl status)) in
  match r with
  | inl rc => kret rc
  | inr status => open_finish fnp attrib fd status
  end.

(** ** Deleting and renaming *)

Definition mark_deleted (fnp : f_node_ptr) : K kst unit :=
  dirmod fnp (fun e => set_dir_name (DELETED :: drop 1 (dir_name e)) e).

Definition delete_dir_entry (fnp : f_node_ptr) : K kst Z :=
  let! rc := remove_lfn_entries fnp in
  if rc <? 0 then kret rc else
  do! wipe_out fnp in
  do! mark_deleted fnp in
  let! ok := dir_write fnp in
  kret (if ok then SUCCESS else DE_ACCESS).

Definition dos_delete (path : list Z) (attrib : Z) : K kst Z :=
  let fnp := fnode0 in
  let! ret := find_fname path attrib fnp in
  if ret =? SUCCESS then
    let! n := fn fnp in
    if has (dir_attrib (f_dir n)) (Z.lor D_RDONLY D_DIR) then kret DE_ACCESS
    else delete_dir_entry fnp
  else kret ret.

(** The drive entry of a path; its members are used without a test for
    NULL. *)
Definition path_cds (path : list Z) : K kst cds :=
  let! c := kopt (chr path 0) in
  let! cdsp := get_cds (c - 0x41) in
  kopt cdsp.

Fixpoint empty_loop (fuel : nat) (fnp : f_node_ptr) : K kst bool :=
  match fuel with
  | O => kstuck
  | S fuel' =>
      let! rc := dir_read fnp in
      if negb (rc =? 1) then kret true else
      let! n := fn fnp in
      if negb (name0 n =? DELETED) && negb (dir_attrib (f_dir n) =? D_LFN) then kret false
      else do! next_entry fnp in empty_loop fuel' fnp
  end.

Definition dos_rmdir (path : list Z) : K kst Z :=
  let! cdsp := path_cds path in
  if fstrcmp_eq path (cstr (cdsCurrentPath cdsp)) then kret DE_RMVCUDIR else
  let! c2 := kopt (chr path 2) in
  let! root := (if c2 =? BACKSLASH then let! c3 := kopt (chr path 3) in kret (c3 =? 0) else kret false) in
  if root then kret DE_ACCESS else
  let! r := dir_open path false fnode0 in
  match r with
  | None => kret DE_PATHNOTFND
  | Some fnp =>
      let! n := fn fnp in
      if negb (clear (dir_attrib (f_dir n)) (Z.lor (Z.lor D_DIR D_RDONLY) D_ARCHIVE) =? 0)
      then kret DE_ACCESS else
      let! _ := dir_read fnp in
      let! n := fn fnp in
      if negb (name0 n =? DOT) || negb (name1 n =? SPACE) then kret DE_ACCESS else
      do! next_entry fnp in
      let! _ := dir_read fnp in
      let! n := fn fnp in
      if negb (name0 n =? DOT) || negb (name1 n =? DOT) then kret DE_ACCESS else
      do! next_entry fnp in
      let! empty := empty_loop dir_fuel fnp in
      if negb empty then kret DE_ACCESS else
      let! rc := find_fname path D_ALL fnp in
      if negb (rc =? SUCCESS) then kret DE_PATHNOTFND else
      delete_dir_entry fnp
  end.

(** The new entry of [dos_rename]: [inl] is the result of the call, [inr]
    the fnode that gets the new name. *)
Definition rename_target (path2 : list Z) : K kst (Z + f_node_ptr) :=
  let! m1 := dm fnode0 in
  let! m2 := dm fnode1 in
  if dm_dircluster m1 =? dm_dircluster m2 then
    let! ret := remove_lfn_entries fnode0 in
    kret (if ret <? 0 then inl ret else inr fnode0)
  else
    let! n1 := fn fnode0 in
    if has (dir_attrib (f_dir n1)) D_DIR then kret (inl DE_ACCESS) else
    let! ret := alloc_find_free fnode1 path2 in
    if negb (ret =? SUCCESS) then kret (inl ret) else
    let! ret := remove_lfn_entries fnode0 in
    if ret <? 0 then kret (inl ret) else
    let! n1 := fn fnode0 in
    do! fnmod fnode1 (set_f_dir (f_dir n1)) in
    do! mark_deleted fnode0 in
    let! ok := dir_write fnode0 in
    kret (if ok then inr fnode1 else inl DE_ACCESS).

Definition dos_rename (path1 path2 : list Z) (attrib : Z) : K kst Z :=
  let! cdsp := path_cds path1 in
  if fstrcmp_eq path1 (cstr (cdsCurrentPath cdsp)) then kret DE_RMVCUDIR else
  let! ret := find_fname path1 attrib fnode0 in
  if negb (ret =? SUCCESS) then kret ret else
  let! ret := find_fname path2 attrib fnode1 in
  if negb (ret =? DE_FILENOTFND) then kret (if ret =? SUCCESS then DE_ACCESS else ret) else
  let! r := rename_target path2 in
  match r with
  | inl rc => kret rc
  | inr fnp2 =>
      let! m2 := dm fnode1 in
      do! dirmod fnp2 (set_dir_name (take (Z.to_nat FCB_SIZE) (dm_name_pat m2))) in
      let! ok := dir_write fnp2 in
      kret (if ok then SUCCESS else DE_ACCESS)
  end.

(** ** Directories and attributes *)

(** The two entries of a new directory. *)
Definition new_dots (fnp : f_node_ptr) (free_fat parent : Z) : K kst Z :=
  do! dir_init_fnode fnp free_fat in
  do! dmmod fnp (set_dm_entry 0) in
  let! _ := find_free fnp in
  do! init_direntry fnp D_DIR free_fat ascii_dot in
  let! ok := dir_write fnp in
  if negb ok then kret DE_ACCESS else
  let! free := find_free fnp in
  let! ret := (if negb free then extend_dir fnp else kret SUCCESS) in
  if negb (ret =? SUCCESS) then kret ret else
  let! d := fdpb fnp in
  let parent := if ISFAT32 d && (parent =? dpb_xrootclst d) then 0 else parent in
  do! init_direntry fnp D_DIR parent ascii_dot in
  do! dirmod fnp (fun e => set_dir_name (<[1%nat := DOT]> (dir_name e)) e) in
  let! ok := dir_write fnp in
  kret (if ok then SUCCESS else DE_ACCESS).

Definition dos_mkdir (dir : list Z) : K kst Z :=
  if MAX_CDSPATH <=? Z.of_nat (length dir) then kret DE_PATHNOTFND else
  let fnp := fnode0 in
  let! ret := find_fname dir D_ALL fnp in
  if negb (ret =? DE_FILENOTFND) then kret (if ret =? SUCCESS then DE_ACCESS else ret) else
  let! m := dm fnp in
  let parent := dm_dircluster m in
  let! ret := alloc_find_free fnp dir in
  if negb (ret =? SUCCESS) then kret ret else
  let! free_fat := find_fat_free fnp in
  if free_fat =? LONG_LAST_CLUSTER then kret DE_HNDLDSKFULL else
  let! m := dm fnp in
  do! init_direntry fnp D_DIR free_fat (dm_name_pat m) in
  let! n := fn fnp in
  let! rc := link_fat (f_dpb n) free_fat LONG_LAST_CLUSTER in
  if negb (rc =? SUCCESS) then kret DE_HNDLDSKFULL else
  let! ret := clear_dir fnp free_fat in
  if negb (ret =? SUCCESS) then kret ret else
  let! ok := dir_write fnp in
  if negb ok then kret DE_ACCESS else
  new_dots fnp free_fat parent.

Definition dos_cd (PathName : list Z) : K kst Z :=
  let! r := dir_open PathName false fnode0 in
  match r with
  | None => kret DE_PATHNOTFND
  | Some fnp =>
      let! c := kopt (chr PathName 0) in
      let! cdsp := get_cds (c - 0x41) in
      let! cdsp := kopt cdsp in
      let! m := dm fnp in
      do! kmod (fun s => set_CDSp (<[u16 (c - 0x41) := Cds (cdsCurrentPath cdsp) (cdsFlags cdsp)
                  (cdsDpb cdsp) (u16 (dm_dircluster m)) (cdsBackslashOffset cdsp)]> (CDSp s)) s) in
      kret SUCCESS
  end.

Definition dos_getfattr (name : list Z) : K kst Z :=
  let! ret := find_fname name D_ALL fnode0 in
  let! n := fn fnode0 in
  kret (if ret =? SUCCESS then dir_attrib (f_dir n) else ret).

Definition dos_setfattr (name : list Z) (attrp : Z) : K kst Z :=
  if has attrp (Z.lor D_VOLID 0xC0) then kret DE_ACCESS else
  let fnp := fnode0 in
  let! rc := find_fname name D_ALL fnp in
  if negb (rc =? SUCCESS) then kret rc else
  let! n := fn fnp in
  if has attrp D_DIR && negb (has (dir_attrib (f_dir n)) D_DIR) then kret DE_ACCESS else
  do! dirmod fnp (fun e => set_dir_attrib (Z.land (dir_attrib e) (Z.lor D_VOLID D_DIR)) e) in
  do! dirmod fnp (fun e => set_dir_attrib (u8 (Z.lor (dir_attrib e) attrp)) e) in
  let! rc := merge_file_changes fnp CloseOthers in
  if rc =? SUCCESS then
    let! ok := dir_write fnp in
    kret (if ok then rc else DE_ACCESS)
  else kret rc.
End File.
End File.
