(* ===== verification/FatRw.v ===== *)
(** * Reading and writing files (kernel/fatfs.c, rwblock)

    [rwblock] moves [count] bytes between a user buffer and the file of a
    handle.  The user buffer is the list [mem] of its bytes and the far
    pointer [buffer] to its current position, of which only the segment
    matters.  Whole sectors go straight to the driver, clusters that follow
    one another on the disk in one request. *)

From S2P Require Import Prelude Memmgr KState BlockIO FatTab FNode FatAlloc FatFile.
Import Ks Bio Fat FNode Alloc File.

Module Rw.
Section Rw.
Context {M : Machine}.

(** ** Changing the size of a file *)

(** The size recorded when the disk is full. *)
Definition size_so_far (n : f_node) (d : dpb) : Z :=
  u32 (Z.shiftl (u32 (u32 (f_cluster_offset n + 1) * dpb_secsize d)) (dpb_shftcnt d)).

Definition at_boundary (n : f_node) (d : dpb) : bool :=
  Z.land (f_offset n) (u32 (u32 (Z.shiftl (dpb_secsize d) (dpb_shftcnt d)) - 1)) =? 0.

Definition dos_extend (fnp : f_node_ptr) (emptywrite : bool) : K kst Z :=
  let! n := fn fnp in
  if f_offset n <=? dir_size (f_dir n) then kret SUCCESS else
  let! d := fdpb fnp in
  let special := emptywrite && at_boundary n d in
  do! (if special then fnmod fnp (fun n => set_f_offset (u32 (f_offset n - 1)) n) else kret tt) in
  let! rc := map_cluster fnp XFR_WRITE in
  do! (if special then fnmod fnp (fun n => set_f_offset (u32 (f_offset n + 1)) n) else kret tt) in
  if negb (rc =? SUCCESS) then
    let! n := fn fnp in
    do! (if negb (f_cluster n =? FREE) then
           let! d := fdpb fnp in
           do! dirmod fnp (set_dir_size (size_so_far n d)) in
           let! _ := merge_changes fnp Distribute in kret tt
         else kret tt) in
    kret DE_HNDLDSKFULL
  else
    let! n := fn fnp in
    do! dirmod fnp (set_dir_size (f_offset n)) in
    let! _ := merge_changes fnp Distribute in
    kret SUCCESS.

(** What lies between [map_cluster] and the label [done_success]. *)
Definition shrink_chain (fnp : f_node_ptr) : K kst Z :=
  let! rc := map_cluster fnp XFR_READ in
  if negb (rc =? SUCCESS) then kret DE_ACCESS else
  let! n := fn fnp in
  let dpbp := f_dpb n in
  let st := f_cluster n in
  let! next := next_cluster dpbp st in
  if next <=? 1 then kret DE_ACCESS else
  let! last :=
    (if dir_size (f_dir n) =? 0 then
       do! fnmod fnp (set_f_cluster FREE) in
       let! d := dget dpbp in
       do! dirmod fnp (setdstart d FREE) in
       kret (Some FREE)
     else kret (if next =? LONG_LAST_CLUSTER then None else Some LONG_LAST_CLUSTER)) in
  match last with
  | None => kret SUCCESS
  | Some last =>
      let! rc := link_fat dpbp st last in
      if negb (rc =? SUCCESS) then kret DE_ACCESS else
      do! wipe_out_clusters dpbp next in
      let! d := fdpb fnp in
      let! ok := flush_buffers (dpb_unit d) in
      kret (if ok then SUCCESS else DE_ACCESS)
  end.

Definition shrink_file (fnp : f_node_ptr) : K kst Z :=
  let! n := fn fnp in
  let lastoffset := f_offset n in
  let! ret :=
    (if negb (f_offset n =? 0) then
       do! fnmod fnp (set_f_offset (f_offset n - 1)) in shrink_chain fnp
     else if f_cluster n =? FREE then kret SUCCESS
     else shrink_chain fnp) in
  do! fnmod fnp (set_f_offset lastoffset) in
  kret ret.

(** ** rwblock *)

(** The inner loop: more sectors while the clusters follow one another. *)
Fixpoint run_loop (fuel : nat) (fnp : f_node_ptr) (mode currentblock startoffset secsize
  sectors_to_xfer sectors_wanted : Z) : K kst Z :=
  match fuel with
  | O => kstuck
  | S fuel' =>
      if negb (sectors_to_xfer <? sectors_wanted) then kret sectors_to_xfer else
      let! rc := map_cluster fnp mode in
      if negb (rc =? SUCCESS) then kret sectors_to_xfer else
      let! n := fn fnp in
      let! d := fdpb fnp in
      if negb (clus2phys (f_cluster n) d =? u32 (currentblock + sectors_to_xfer))
      then kret sectors_to_xfer else
      let sectors_to_xfer := Z.min (u16 (sectors_to_xfer + (dpb_clsmask d + 1))) sectors_wanted in
      do! fnmod fnp (set_f_offset (u32 (startoffset + u16 (sectors_to_xfer * secsize)))) in
      run_loop fuel' fnp mode currentblock startoffset secsize sectors_to_xfer sectors_wanted
  end.

(** Whole sectors: the count transferred, [None] for an error of the driver,
    and the memory. *)
Definition xfer_sectors (fnp : f_node_ptr) (mode currentblock secsize sector sectors_wanted bseg : Z)
  (mem : list Z) (pos : Z) : K kst (option Z * list Z) :=
  let! n := fn fnp in
  let! d := fdpb fnp in
  let startoffset := f_offset n in
  let sectors_to_xfer := Z.min (u16 (dpb_clsmask d + 1 - sector)) sectors_wanted in
  do! fnmod fnp (set_f_offset (u32 (startoffset + u16 (sectors_to_xfer * secsize)))) in
  let! sectors_to_xfer :=
    run_loop (S (Z.to_nat sectors_wanted)) fnp mode currentblock startoffset secsize
      sectors_to_xfer sectors_wanted in
  let! d := fdpb fnp in
  let! _ := DeleteBlockInBufferCache currentblock (u32 (currentblock + sectors_to_xfer - 1))
              (dpb_unit d) mode in
  let! r := dskxfer (dpb_unit d) currentblock bseg (drop (Z.to_nat pos) mem) sectors_to_xfer
              (if mode =? XFR_READ then DSKREAD else DSKWRITE) in
  let mem := take (Z.to_nat pos) mem ++ snd r in
  if negb (fst r =? 0) then
    do! fnmod fnp (set_f_offset startoffset) in kret (None, mem)
  else kret (Some (u16 (sectors_to_xfer * secsize)), mem).

(** A part of a sector, through the cache; [None] when it cannot be read. *)
Definition xfer_part (fnp : f_node_ptr) (mode currentblock secsize boff to_xfer : Z)
  (mem : list Z) (pos : Z) : K kst (option (Z * list Z)) :=
  let! d := fdpb fnp in
  let! bp := getblock currentblock (dpb_unit d) in
  if bp =? NULL then kret None else
  let! n := fn fnp in
  let left := u32 (dir_size (f_dir n) - f_offset n) in
  let xfr_cnt := Z.min to_xfer (u16 (secsize - boff)) in
  let xfr_cnt := if mode =? XFR_READ then u16 (Z.min xfr_cnt left) else xfr_cnt in
  let! mem :=
    (if mode =? XFR_WRITE then
       do! bput bp (fun l => fmemcpy l boff (drop (Z.to_nat pos) mem) xfr_cnt) in
       do! bmod bp (flag_on (Z.lor BFR_DIRTY BFR_VALID)) in
       kret mem
     else
       let! b := bget bp in
       kopt (fmemcpy mem pos (drop (Z.to_nat boff) (b_buffer b)) xfr_cnt)) in
  do! (if (xfr_cnt =? BUFFERSIZE)
          || ((mode =? XFR_READ) && (u32 (f_offset n + xfr_cnt) =? dir_size (f_dir n)))
       then bmod bp (flag_on BFR_UNCACHE) else kret tt) in
  do! fnmod fnp (fun n => set_f_offset (u32 (f_offset n + xfr_cnt)) n) in
  kret (Some (xfr_cnt, mem)).

(** How a round of the loop ends. *)
Inductive round :=
| Leave (rc : Z) (mem : list Z)
| Moved (xfr_cnt : Z) (mem : list Z).

(** The [while] loop up to the label [update_pointers]. *)
Definition rw_round (fnp : f_node_ptr) (mode secsize bseg ret_cnt to_xfer : Z) (mem : list Z)
  : K kst round :=
  let! n := fn fnp in
  if (mode =? XFR_READ) && (dir_size (f_dir n) <=? f_offset n) then
    do! fnode_to_sft fnp in kret (Leave ret_cnt mem)
  else
  let! rc := map_cluster fnp mode in
  if negb (rc =? SUCCESS) then do! fnode_to_sft fnp in kret (Leave ret_cnt mem) else
  let! _ := (if mode =? XFR_WRITE then merge_changes fnp Distribute else kret SUCCESS) in
  if secsize =? 0 then kstuck else
  let! n := fn fnp in
  let! d := fdpb fnp in
  let sector := Z.land (u8 (f_offset n / secsize)) (dpb_clsmask d) in
  let boff := u16 (f_offset n mod secsize) in
  let currentblock := u32 (clus2phys (f_cluster n) d + sector) in
  let left := u32 (dir_size (f_dir n) - f_offset n) in
  let sectors_wanted :=
    (if (mode =? XFR_READ) && (left <? to_xfer) then u16 left else to_xfer) / secsize in
  if (boff =? 0) && negb (sectors_wanted =? 0) then
    let! r := xfer_sectors fnp mode currentblock secsize sector sectors_wanted bseg mem ret_cnt in
    match r with
    | (None, mem) => do! fnode_to_sft fnp in kret (Leave DE_ACCESS mem)
    | (Some xfr_cnt, mem) => kret (Moved xfr_cnt mem)
    end
  else
    let! r := xfer_part fnp mode currentblock secsize boff to_xfer mem ret_cnt in
    match r with
    | None => do! fnode_to_sft fnp in kret (Leave ret_cnt mem)
    | Some (xfr_cnt, mem) => kret (Moved xfr_cnt mem)
    end.

Definition grow_size (fnp : f_node_ptr) : K kst unit :=
  let! n := fn fnp in
  do! (if dir_size (f_dir n) <? f_offset n then dirmod fnp (set_dir_size (f_offset n)) else kret tt) in
  let! _ := merge_changes fnp Distribute in
  kret tt.

Fixpoint rw_loop (fuel : nat) (fnp : f_node_ptr) (mode secsize : Z) (buffer : Z * Z)
  (ret_cnt to_xfer count : Z) (mem : list Z) : K kst (Z * list Z) :=
  match fuel with
  | O => kstuck
  | S fuel' =>
      if negb (ret_cnt <? count) then do! fnode_to_sft fnp in kret (ret_cnt, mem) else
      let! r := rw_round fnp mode secsize (fst buffer) ret_cnt to_xfer mem in
      match r with
      | Leave rc mem => kret (rc, mem)
      | Moved xfr_cnt mem =>
          do! (if mode =? XFR_WRITE then grow_size fnp else kret tt) in
          rw_loop fuel' fnp mode secsize (Mm.adjust_far (fst buffer, u16 (snd buffer + xfr_cnt)))
            (u16 (ret_cnt + xfr_cnt)) (u16 (to_xfer - xfr_cnt)) count mem
      end
  end.

(** The result and the user's bytes. *)
Definition rwblock (fd : Z) (buffer : Z * Z) (count mode : Z) (mem : list Z) : K kst (Z * list Z) :=
  let! fnp := sft_to_fnode fd in
  let! full :=
    (if mode =? XFR_WRITE then
       do! dirmod fnp (fun e => set_dir_attrib (Z.lor (dir_attrib e) D_ARCHIVE) e) in
       do! fnmod fnp (fun n => set_f_flags (clear (f_flags n) (Z.lor SFT_FCLEAN SFT_FDATE)) n) in
       let! rc := dos_extend fnp (count =? 0) in
       kret (negb (rc =? SUCCESS))
     else kret false) in
  if full then do! fnode_to_sft fnp in kret (0, mem) else
  if count =? 0 then
    let! rc :=
      (if mode =? XFR_WRITE then
         do! fnmod fnp (fun n => set_f_dir (set_dir_size (f_offset n) (f_dir n)) n) in
         shrink_file fnp
       else kret SUCCESS) in
    if rc <? 0 then kret (DE_ACCESS, mem) else
    do! fnode_to_sft fnp in kret (0, mem)
  else
  let! n := fn fnp in
  if (u32 (f_offset n + count) <? f_offset n) && (mode =? XFR_WRITE)
  then kret (DE_HNDLDSKFULL, mem) else
  let! d := fdpb fnp in
  rw_loop (S (Z.to_nat count)) fnp mode (dpb_secsize d) (Mm.adjust_far buffer) 0 count count mem.
End Rw.
End Rw.
