(* ===== verification/Disk.v ===== *)
(** * Disk drivers that work, and a RAM disk

    [Disk] is the interface between the block cache and a block device driver
    that does what the driver specification says: a read returns the sectors,
    a write replaces them, both finish with the status "done".  The theorems
    about the file system assume it for the sectors below [nsec]; [ram] is a
    concrete driver that satisfies it. *)

From S2P Require Import Prelude KState.
Import Ks.

Module Dsk.

(** The block a request addresses. *)
Definition req_block (rq : request) : Z :=
  if r_start rq =? HUGECOUNT then r_huge rq else r_start rq.
Definition done (rq : request) : Prop :=
  Z.land (r_status rq) (Z.lor S_ERROR S_DONE) = S_DONE.

Definition SECSIZE : nat := 512.

(** The [n] sectors from [b] on, one after the other. *)
Definition sectors (f : Z -> list Z) (b : Z) (n : nat) : list Z :=
  concat (map (fun i => f (b + Z.of_nat i)) (seq 0 n)).

Class Disk {M : Machine} := {
  sec : world -> Z -> Z -> Z -> list Z;
  nsec : Z -> Z -> Z;
  sec_length w dv su b : length (sec w dv su b) = SECSIZE;
  sec_bytes w dv su b : Forall byte (sec w dv su b);
  execrh_read dv rq buf w :
    r_command rq = C_INPUT -> 0 <= req_block rq ->
    0 <= r_count rq -> req_block rq + r_count rq <= nsec dv (r_unit rq) ->
    Z.of_nat SECSIZE * r_count rq <= Z.of_nat (length buf) ->
    exists rq' w',
      execrh dv rq buf w =
        (rq', sectors (sec w dv (r_unit rq)) (req_block rq) (Z.to_nat (r_count rq))
              ++ drop (SECSIZE * Z.to_nat (r_count rq)) buf, w') /\
      done rq' /\ sec w' = sec w;
  execrh_write dv rq buf w :
    r_command rq = C_OUTPUT \/ r_command rq = C_OUTVFY -> 0 <= req_block rq ->
    0 <= r_count rq -> req_block rq + r_count rq <= nsec dv (r_unit rq) ->
    Z.of_nat SECSIZE * r_count rq <= Z.of_nat (length buf) ->
    Forall byte (take (SECSIZE * Z.to_nat (r_count rq)) buf) ->
    exists rq' w',
      execrh dv rq buf w = (rq', buf, w') /\ done rq' /\
      forall dv' su b,
        sec w' dv' su b =
          if (dv' =? dv) && (su =? r_unit rq) && (req_block rq <=? b)
             && (b <? req_block rq + r_count rq)
          then take SECSIZE (drop (SECSIZE * Z.to_nat (b - req_block rq)) buf)
          else sec w dv' su b }.

(** ** A RAM disk *)

Record ramw := Ramw { ram_sec : gmap (Z * Z * Z) (list Z); ram_clk : list Z }.

Definition ram_get (w : ramw) (dv su b : Z) : list Z :=
  match ram_sec w !! (dv, su, b) with
  | Some l => map u8 (take SECSIZE (l ++ replicate SECSIZE 0))
  | None => replicate SECSIZE 0
  end.

Definition with_status (st : Z) (rq : request) : request :=
  Request (r_length rq) (r_unit rq) (r_command rq) st (r_meddesc rq) (r_count rq)
    (r_start rq) (r_huge rq) (r_mcretcode rq) (r_bpb rq).

(** The number of sectors of a disk. *)
Definition ram_size : Z := 65536.
(** The clock device; the others are disks. *)
Definition ram_clock : Z := 99.

Fixpoint ram_put (w : ramw) (dv su b : Z) (n : nat) (buf : list Z) : ramw :=
  match n with
  | O => w
  | S n' =>
      ram_put (Ramw (<[(dv, su, b) := take SECSIZE buf]> (ram_sec w)) (ram_clk w))
        dv su (b + 1) n' (drop SECSIZE buf)
  end.

Definition ram_clock_drv (rq : request) (buf : list Z) (w : ramw) : request * list Z * ramw :=
  if r_command rq =? C_INPUT then (with_status S_DONE rq, ram_clk w, w)
  else if r_command rq =? C_OUTPUT then (with_status S_DONE rq, buf, Ramw (ram_sec w) buf)
  else (with_status S_DONE rq, buf, w).

(** Reads and writes below [ram_size] succeed; others fail with "sector not
    found", a read after clearing the transfer buffer.  A look for a key (05h)
    finds none. *)
Definition ram_disk_drv (dv : Z) (rq : request) (buf : list Z) (w : ramw) :
  request * list Z * ramw :=
  let b := req_block rq in
  let n := Z.to_nat (r_count rq) in
  let fits := (0 <=? b) && (0 <=? r_count rq) && (b + r_count rq <=? ram_size)
              && (Z.of_nat SECSIZE * r_count rq <=? Z.of_nat (length buf)) in
  if r_command rq =? C_INPUT then
    if fits then
      (with_status S_DONE rq,
       sectors (ram_get w dv (r_unit rq)) b n ++ drop (SECSIZE * n) buf, w)
    else (with_status 0x8108 rq, replicate (length buf) 0, w)
  else if (r_command rq =? C_OUTPUT) || (r_command rq =? C_OUTVFY) then
    if fits then (with_status S_DONE rq, buf, ram_put w dv (r_unit rq) b n buf)
    else (with_status 0x8108 rq, buf, w)
  else if r_command rq =? 0x05 then (with_status 0x0300 rq, buf, w)
  else (with_status S_DONE rq, buf, w).

Definition ram_execrh (dv : Z) (rq : request) (buf : list Z) (w : ramw) :=
  if dv =? ram_clock then ram_clock_drv rq buf w else ram_disk_drv dv rq buf w.

(** The operator answers every error with FAIL; there is no network, and
    SHARE is not installed. *)
#[export] Instance ram : Machine := {|
  world := ramw;
  execrh := ram_execrh;
  CriticalError := fun _ _ _ _ w => (FAIL, w);
  redirector_flushall := fun w => w;
  redirector_sft := fun flush f w => (SUCCESS, if flush then f else set_sft_count (s16 (sft_count f - 1)) f, w);
  share_check := fun w => (0, w);
  share_close_file := fun _ w => w |}.

Lemma ram_get_length w dv su b : length (ram_get w dv su b) = SECSIZE.
Proof.
  unfold ram_get. destruct (_ !! _); [|apply length_replicate].
  rewrite length_map, length_take, length_app, length_replicate. lia.
Qed.

Lemma ram_get_bytes w dv su b : Forall byte (ram_get w dv su b).
Proof.
  unfold ram_get. destruct (_ !! _).
  - apply Forall_forall. intros x (y & -> & _)%list_elem_of_fmap. apply u8_range.
  - apply Forall_replicate. unfold byte. lia.
Qed.

Lemma map_u8 l : Forall byte l -> map u8 l = l.
Proof.
  induction 1 as [|x l Hx _ IH]; [done|]. simpl. rewrite IH. f_equal. by apply u8_small.
Qed.

Lemma ram_get_insert w dv su b l dv' su' b' :
  (SECSIZE <= length l)%nat -> Forall byte (take SECSIZE l) ->
  ram_get (Ramw (<[(dv, su, b) := take SECSIZE l]> (ram_sec w)) (ram_clk w))
    dv' su' b' =
  if (dv' =? dv) && (su' =? su) && (b' =? b) then take SECSIZE l else ram_get w dv' su' b'.
Proof.
  intros Hl Hb. unfold ram_get at 1. cbn [ram_sec].
  destruct ((dv' =? dv) && (su' =? su) && (b' =? b)) eqn:E.
  - zbool. subst. rewrite lookup_insert_eq, take_app_le, take_take by (rewrite length_take; lia).
    rewrite Nat.min_id. by apply map_u8.
  - rewrite lookup_insert_ne; [done|]. intros [= <- <- <-]. by rewrite !Z.eqb_refl in E.
Qed.

Lemma ram_put_get n w dv su b buf dv' su' b' :
  (SECSIZE * n <= length buf)%nat -> Forall byte (take (SECSIZE * n) buf) ->
  ram_get (ram_put w dv su b n buf) dv' su' b' =
    if (dv' =? dv) && (su' =? su) && (b <=? b') && (b' <? b + Z.of_nat n)
    then take SECSIZE (drop (SECSIZE * Z.to_nat (b' - b)) buf)
    else ram_get w dv' su' b'.
Proof.
  revert w b buf. induction n as [|n IH]; intros w b buf Hl Hb; cbn [ram_put].
  { assert (E : (b <=? b') && (b' <? b + Z.of_nat 0) = false).
    { destruct (b <=? b') eqn:E1, (b' <? b + Z.of_nat 0) eqn:E2; try done. zbool. lia. }
    by rewrite <- (andb_assoc _ (b <=? b')), E, andb_false_r. }
  assert (Hs : (SECSIZE * S n = SECSIZE + SECSIZE * n)%nat) by lia.
  rewrite Hs, <- take_take_drop in Hb. apply Forall_app in Hb as [Hb1 Hb2].
  rewrite IH by first [rewrite length_drop; lia|done]. rewrite ram_get_insert by first [lia|done].
  destruct ((dv' =? dv) && (su' =? su)); cbn [andb]; [|done].
  destruct (decide (b' = b)) as [->|Hb].
  - rewrite Z.leb_refl, Z.sub_diag, Z.eqb_refl.
    rewrite (proj2 (Z.leb_gt (b + 1) b)) by lia. cbn [andb].
    rewrite (proj2 (Z.ltb_lt _ _)) by lia. rewrite Nat.mul_0_r. done.
  - rewrite (proj2 (Z.eqb_neq _ _) Hb).
    destruct (b + 1 <=? b') eqn:E1; cbn [andb]; zbool.
    + rewrite (proj2 (Z.leb_le b b')) by lia. cbn [andb].
      replace (b + 1 + Z.of_nat n) with (b + Z.of_nat (S n)) by lia.
      rewrite drop_drop.
      replace (SECSIZE + SECSIZE * Z.to_nat (b' - (b + 1)))%nat
        with (SECSIZE * Z.to_nat (b' - b))%nat by (unfold SECSIZE; lia).
      done.
    + rewrite (proj2 (Z.leb_gt b b')) by lia. done.
Qed.

#[export, refine] Instance ram_disk : @Disk ram := {|
  sec := ram_get : @world ram -> Z -> Z -> Z -> list Z;
  nsec := fun dv _ => if dv =? ram_clock then -1 else ram_size |}.
Proof.
  - exact ram_get_length.
  - exact ram_get_bytes.
  - intros dv rq buf w Hc Hb Hn Hs Hl. cbn [execrh ram]. unfold ram_execrh.
    destruct (dv =? ram_clock) eqn:Edv; [lia|]. unfold ram_disk_drv.
    rewrite Hc, Z.eqb_refl, (proj2 (Z.leb_le 0 _) Hb), (proj2 (Z.leb_le 0 _) Hn),
      (proj2 (Z.leb_le _ _) Hs), (proj2 (Z.leb_le _ _) Hl). cbn [andb].
    eexists _, _. repeat split.
  - intros dv rq buf w Hc Hb Hn Hs Hl Hby. cbn [execrh ram]. unfold ram_execrh.
    destruct (dv =? ram_clock) eqn:Edv; [lia|]. unfold ram_disk_drv.
    rewrite (proj2 (Z.leb_le 0 _) Hb), (proj2 (Z.leb_le 0 _) Hn),
      (proj2 (Z.leb_le _ _) Hs), (proj2 (Z.leb_le _ _) Hl). cbn [andb].
    destruct (r_command rq =? C_INPUT) eqn:E.
    { apply Z.eqb_eq in E. rewrite E in Hc. destruct Hc as [[=]|[=]]. }
    assert ((r_command rq =? C_OUTPUT) || (r_command rq =? C_OUTVFY) = true) as ->.
    { destruct Hc as [-> | ->]; [done|]. by rewrite orb_true_r. }
    eexists _, _. split; [done|]. split; [done|]. intros dv' su b.
    rewrite ram_put_get by first [lia|done]. by rewrite Z2Nat.id.
Defined.

End Dsk.
