(* ===== verification/Ring.v ===== *)
(** * The buffer ring as a list

    [ring m l] says that the buffers at the offsets [l] are linked in a ring
    in that order.  The lemmas describe [move_buffer] and the search loop of
    [searchblock] on the list. *)

From S2P Require Import Prelude KState BlockIO.
Import Ks Bio.

Module Ring.

(** ** Links *)

Definition edge (m : gmap Z buffer) (x y : Z) : Prop :=
  b_next (m !!! x) = y /\ b_prev (m !!! y) = x.

(** From [x] the links lead through [l] to [z]. *)
Fixpoint path (m : gmap Z buffer) (x : Z) (l : list Z) (z : Z) : Prop :=
  match l with
  | [] => edge m x z
  | y :: l => edge m x y /\ path m y l z
  end.

Definition live (m : gmap Z buffer) (l : list Z) : Prop := Forall (fun p => is_Some (m !! p)) l.

Definition ring (m : gmap Z buffer) (l : list Z) : Prop :=
  match l with
  | [] => False
  | x :: l' => NoDup l /\ live m l /\ path m x l' x
  end.

(** What a buffer holds besides its links. *)
Definition data (b : buffer) : buffer := set_next 0 (set_prev 0 b).

(** The maps differ at most in the links. *)
Definition same_data (m m' : gmap Z buffer) : Prop :=
  (forall p, is_Some (m' !! p) <-> is_Some (m !! p)) /\
  (forall p, data (m' !!! p) = data (m !!! p)).
(** The maps agree on the links. *)
Definition same_links (m m' : gmap Z buffer) : Prop :=
  (forall p, is_Some (m' !! p) <-> is_Some (m !! p)) /\
  forall p, b_next (m' !!! p) = b_next (m !!! p) /\ b_prev (m' !!! p) = b_prev (m !!! p).

Lemma live_total (m : gmap Z buffer) l p : live m l -> p ∈ l -> m !! p = Some (m !!! p).
Proof.
  intros Hl Hp. apply (proj1 (Forall_forall _ _) Hl) in Hp as [b Hb].
  by rewrite (lookup_total_correct _ _ _ Hb).
Qed.

Lemma live_some (m : gmap Z buffer) p : is_Some (m !! p) -> m !! p = Some (m !!! p).
Proof. intros [b Hb]. by rewrite (lookup_total_correct _ _ _ Hb). Qed.

Lemma path_app m x l1 y l2 z : path m x (l1 ++ y :: l2) z <-> path m x l1 y /\ path m y l2 z.
Proof.
  revert x. induction l1 as [|a l1 IH]; intros x; simpl; [done|].
  rewrite IH. tauto.
Qed.

Lemma path_frame m m' x l z :
  path m x l z ->
  (forall y, y ∈ x :: l -> b_next (m' !!! y) = b_next (m !!! y)) ->
  (forall y, y ∈ l ++ [z] -> b_prev (m' !!! y) = b_prev (m !!! y)) ->
  path m' x l z.
Proof.
  revert x. induction l as [|y l IH]; intros x; simpl.
  - intros [H1 H2] Hn Hp. split; [rewrite Hn|rewrite Hp]; set_solver.
  - intros [[H1 H2] H3] Hn Hp. split.
    + split; [rewrite Hn|rewrite Hp]; set_solver.
    + apply IH; [done|..]; intros ? ?; [apply Hn|apply Hp]; set_solver.
Qed.

Lemma path_links m m' x l z : same_links m m' -> path m x l z -> path m' x l z.
Proof. intros [_ H] Hp. eapply path_frame; [exact Hp|..]; intros ? _; apply H. Qed.

Lemma last_cons (l : list Z) x y : List.last (y :: l) x = List.last l y.
Proof.
  revert x y. induction l as [|a l IH]; intros x y; [done|].
  change (List.last (a :: l) x = List.last (a :: l) y). by rewrite !IH.
Qed.

Lemma path_last_edge m x l z : path m x l z -> edge m (List.last l x) z.
Proof.
  revert x. induction l as [|y l IH]; intros x; [done|].
  intros [_ H]. apply IH in H. by rewrite last_cons.
Qed.

Lemma last_in (l : list Z) x : List.last l x ∈ x :: l.
Proof.
  revert x. induction l as [|y l IH]; intros x; [set_solver|].
  rewrite last_cons. specialize (IH y). set_solver.
Qed.

(** Changing where the last element of a path leads. *)
Lemma path_retarget m m' x l z z' :
  path m x l z -> NoDup (x :: l) ->
  (forall y, y ∈ x :: l -> y <> List.last l x -> b_next (m' !!! y) = b_next (m !!! y)) ->
  (forall y, y ∈ l -> b_prev (m' !!! y) = b_prev (m !!! y)) ->
  edge m' (List.last l x) z' -> path m' x l z'.
Proof.
  revert x. induction l as [|y l IH]; intros x; [by simpl|].
  intros [[H1 H2] H3] Hnd Hn Hp He.
  rewrite last_cons in *. split.
  - split; [rewrite Hn|rewrite Hp]; [done|set_solver| |done|set_solver].
    intros E. pose proof (last_in l y). rewrite <- E in H.
    by apply NoDup_cons in Hnd as [? _].
  - apply IH; [done|by apply NoDup_cons in Hnd as [_ ?]|..|done].
    + intros w Hw. apply Hn. set_solver.
    + intros w Hw. apply Hp. set_solver.
Qed.

Lemma ring_links m m' l : same_links m m' -> ring m l -> ring m' l.
Proof.
  intros Hs. destruct l as [|x l]; [done|]. intros (Hn & Hl & Hp). split; [done|].
  split; [|by eapply path_links].
  eapply Forall_impl; [exact Hl|]. intros p Hx. by apply Hs.
Qed.

(** The same ring from another start. *)
Lemma ring_rotate m x l1 y l2 : ring m (x :: l1 ++ y :: l2) -> ring m (y :: l2 ++ x :: l1).
Proof.
  intros (Hn & Hl & Hp). apply path_app in Hp as [Hp1 Hp2].
  assert (Hperm : y :: l2 ++ x :: l1 ≡ₚ x :: l1 ++ y :: l2).
  { rewrite app_comm_cons, (Permutation_app_comm (y :: l2)). done. }
  split; [by rewrite Hperm|]. split; [unfold live; by rewrite Hperm|].
  apply path_app. done.
Qed.

(** ** Map updates *)

Lemma same_links_insert (m : gmap Z buffer) p b :
  is_Some (m !! p) -> b_next b = b_next (m !!! p) -> b_prev b = b_prev (m !!! p) ->
  same_links m (<[p := b]> m).
Proof.
  intros Hp Hn Hv. split.
  - intros q. rewrite lookup_insert_is_Some'. split; [intros [<-|?]; done|by right].
  - intros q. destruct (decide (p = q)) as [<-|?].
    + by rewrite lookup_total_insert_eq.
    + by rewrite lookup_total_insert_ne.
Qed.

Lemma same_data_refl m : same_data m m.
Proof. by split. Qed.

Lemma same_data_trans m1 m2 m3 : same_data m1 m2 -> same_data m2 m3 -> same_data m1 m3.
Proof.
  intros [A B] [C D]. split; intros p; [by rewrite C, A|by rewrite D, B].
Qed.

Lemma same_data_insert (m : gmap Z buffer) p b :
  is_Some (m !! p) -> data b = data (m !!! p) -> same_data m (<[p := b]> m).
Proof.
  intros Hp Hd. split.
  - intros q. rewrite lookup_insert_is_Some'. split; [intros [<-|?]; done|by right].
  - intros q. destruct (decide (p = q)) as [<-|?].
    + by rewrite lookup_total_insert_eq.
    + by rewrite lookup_total_insert_ne.
Qed.

(** A store through a buffer pointer, on the map. *)
Definition upd (p : Z) (f : buffer -> buffer) (m : gmap Z buffer) : gmap Z buffer :=
  <[p := f (m !!! p)]> m.

Lemma upd_total p f m y : upd p f m !!! y = if decide (p = y) then f (m !!! p) else m !!! y.
Proof. unfold upd. rewrite lookup_total_insert. by destruct (decide (p = y)). Qed.

Lemma upd_some p f m y : is_Some (m !! p) -> is_Some (upd p f m !! y) <-> is_Some (m !! y).
Proof.
  intros Hp. unfold upd. rewrite lookup_insert_is_Some'.
  split; [intros [<-|?]; done|by right].
Qed.

Lemma upd_next_next p v m y :
  b_next (upd p (set_next v) m !!! y) = if decide (p = y) then v else b_next (m !!! y).
Proof. rewrite upd_total. by destruct (decide (p = y)). Qed.
Lemma upd_next_prev p v m y : b_prev (upd p (set_next v) m !!! y) = b_prev (m !!! y).
Proof. rewrite upd_total. by destruct (decide (p = y)) as [<-|]. Qed.
Lemma upd_prev_prev p v m y :
  b_prev (upd p (set_prev v) m !!! y) = if decide (p = y) then v else b_prev (m !!! y).
Proof. rewrite upd_total. by destruct (decide (p = y)). Qed.
Lemma upd_prev_next p v m y : b_next (upd p (set_prev v) m !!! y) = b_next (m !!! y).
Proof. rewrite upd_total. by destruct (decide (p = y)) as [<-|]. Qed.

Create Rewrite HintDb links.
#[export] Hint Rewrite upd_next_next upd_next_prev upd_prev_prev upd_prev_next : links.

Lemma upd_data p f m :
  is_Some (m !! p) -> (forall b, data (f b) = data b) -> same_data m (upd p f m).
Proof. intros Hp Hf. by apply same_data_insert. Qed.

Lemma upd_links p f m :
  is_Some (m !! p) -> (forall b, b_next (f b) = b_next b /\ b_prev (f b) = b_prev b) ->
  same_links m (upd p f m).
Proof. intros Hp Hf. by apply same_links_insert; [|apply Hf..]. Qed.

Lemma edge_upd p f m x y :
  (forall b, b_next (f b) = b_next b /\ b_prev (f b) = b_prev b) ->
  edge m x y -> edge (upd p f m) x y.
Proof.
  intros Hf [H1 H2]. split; rewrite upd_total; destruct (decide _) as [<-|]; try done;
    destruct (Hf (m !!! p)); congruence.
Qed.

(** ** Running loads and stores *)

Section Run.
Context {M : Machine}.

Lemma run_bget {A} p (k : buffer -> K kst A) s :
  is_Some (bufs s !! p) -> kbind (bget p) k s = k (bufs s !!! p) s.
Proof. intros [b Hb]. unfold kbind, bget. by rewrite Hb, (lookup_total_correct _ _ _ Hb). Qed.

Lemma run_bmod {A} p f (k : unit -> K kst A) s :
  is_Some (bufs s !! p) -> kbind (bmod p f) k s = k tt (set_bufs (upd p f (bufs s)) s).
Proof.
  intros [b Hb]. unfold kbind, bmod, upd. by rewrite Hb, (lookup_total_correct _ _ _ Hb).
Qed.

Lemma exec_bmod p f (s : kst) :
  is_Some (bufs s !! p) -> bmod p f s = Some (tt, set_bufs (upd p f (bufs s)) s).
Proof. intros [b Hb]. unfold bmod, upd. by rewrite Hb, (lookup_total_correct _ _ _ Hb). Qed.

(** [move_buffer] as a pure update of the map. *)
Definition moved (bp f : Z) (m : gmap Z buffer) : gmap Z buffer :=
  let p := b_prev (m !!! bp) in
  let n := b_next (m !!! bp) in
  let m2 := upd p (set_next n) (upd n (set_prev p) m) in
  let q := b_prev (m2 !!! f) in
  upd q (set_next bp) (upd f (set_prev bp) (upd bp (set_next f) (upd bp (set_prev q) m2))).

Lemma move_buffer_run bp f (s : kst) :
  let m := bufs s in
  let p := b_prev (m !!! bp) in
  let n := b_next (m !!! bp) in
  (forall x, x = bp \/ x = f \/ x = p \/ x = n \/ x = b_prev (m !!! f) -> is_Some (m !! x)) ->
  bp <> f -> bp <> p -> bp <> n -> b_prev (m !!! f) <> bp \/ n = f ->
  move_buffer bp f s = Some (tt, set_bufs (moved bp f m) s) /\ same_data m (moved bp f m).
Proof.
  intros m p n Hs Hf Hp Hn Hq.
  assert (HS : forall m', same_data m m' -> forall x,
            x = bp \/ x = f \/ x = p \/ x = n \/ x = b_prev (m !!! f) -> is_Some (m' !! x)).
  { intros m' Hm x Hx. apply Hm, Hs, Hx. }
  set (m1 := upd n (set_prev p) m).
  assert (D1 : same_data m m1) by (apply upd_data; [apply Hs; tauto|done]).
  set (m2 := upd p (set_next n) m1).
  assert (D2 : same_data m m2).
  { eapply same_data_trans; [exact D1|]. apply upd_data; [eapply HS; [exact D1|tauto]|done]. }
  set (q := b_prev (m2 !!! f)).
  assert (Eq : q = if decide (n = f) then p else b_prev (m !!! f)).
  { unfold q, m2, m1. by autorewrite with links. }
  assert (Hqs : q = p \/ q = b_prev (m !!! f)) by (rewrite Eq; destruct (decide _); tauto).
  assert (Hqb : q <> bp).
  { rewrite Eq. destruct (decide (n = f)); [congruence|]. destruct Hq; [done|tauto]. }
  set (m3 := upd bp (set_prev q) m2).
  assert (D3 : same_data m m3).
  { eapply same_data_trans; [exact D2|]. apply upd_data; [eapply HS; [exact D2|tauto]|done]. }
  set (m4 := upd bp (set_next f) m3).
  assert (D4 : same_data m m4).
  { eapply same_data_trans; [exact D3|]. apply upd_data; [eapply HS; [exact D3|tauto]|done]. }
  set (m5 := upd f (set_prev bp) m4).
  assert (D5 : same_data m m5).
  { eapply same_data_trans; [exact D4|]. apply upd_data; [eapply HS; [exact D4|tauto]|done]. }
  assert (D6 : same_data m (moved bp f m)).
  { eapply same_data_trans; [exact D5|].
    apply upd_data; [eapply HS; [exact D5|]; fold m1 m2 q; tauto|done]. }
  split; [|exact D6].
  unfold move_buffer. rewrite run_bget by (apply Hs; tauto). fold m n p.
  rewrite run_bmod by (apply Hs; tauto). fold m m1.
  rewrite run_bget by (eapply HS; [exact D1|tauto]). cbn [bufs set_bufs].
  assert (E1 : b_prev (m1 !!! bp) = p).
  { unfold m1. autorewrite with links. by rewrite decide_False. }
  assert (E1' : b_next (m1 !!! bp) = n) by (unfold m1; by autorewrite with links).
  rewrite E1, E1'. rewrite run_bmod by (eapply HS; [exact D1|tauto]). cbn [bufs set_bufs]. fold m2.
  rewrite run_bget by (eapply HS; [exact D2|tauto]). cbn [bufs set_bufs]. fold q.
  rewrite run_bmod by (eapply HS; [exact D2|tauto]). cbn [bufs set_bufs]. fold m3.
  rewrite run_bmod by (eapply HS; [exact D3|tauto]). cbn [bufs set_bufs]. fold m4.
  rewrite run_bget by (eapply HS; [exact D4|tauto]). cbn [bufs set_bufs].
  assert (E4 : b_next (m4 !!! bp) = f).
  { unfold m4. autorewrite with links. by rewrite decide_True. }
  rewrite E4. rewrite run_bmod by (eapply HS; [exact D4|tauto]). cbn [bufs set_bufs]. fold m5.
  rewrite run_bget by (eapply HS; [exact D5|tauto]). cbn [bufs set_bufs].
  assert (E5 : b_prev (m5 !!! bp) = q).
  { unfold m5, m4, m3. autorewrite with links.
    by rewrite decide_False, decide_True. }
  rewrite E5. rewrite exec_bmod by (eapply HS; [exact D5|tauto]). done.
Qed.
End Run.

Lemma path_head m x l z : path m x l z -> b_next (m !!! x) = List.hd z l.
Proof. destruct l as [|y l]; [by intros [? ?]|by intros [[? ?] _]]. Qed.

Lemma moved_next bp f m y :
  let p := b_prev (m !!! bp) in
  let n := b_next (m !!! bp) in
  let q := if decide (n = f) then p else b_prev (m !!! f) in
  b_next (moved bp f m !!! y) =
    if decide (q = y) then bp else if decide (bp = y) then f
    else if decide (p = y) then n else b_next (m !!! y).
Proof. unfold moved. cbv zeta. by autorewrite with links. Qed.

Lemma moved_prev bp f m y :
  let p := b_prev (m !!! bp) in
  let n := b_next (m !!! bp) in
  let q := if decide (n = f) then p else b_prev (m !!! f) in
  b_prev (moved bp f m !!! y) =
    if decide (f = y) then bp else if decide (bp = y) then q
    else if decide (n = y) then p else b_prev (m !!! y).
Proof. unfold moved. cbv zeta. by autorewrite with links. Qed.

(** The members of a ring, before and after one of them, are distinct. *)
Lemma ring_distinct (f : Z) l1 b l2 :
  NoDup (f :: l1 ++ b :: l2) ->
  (f <> b /\ NoDup (f :: l1) /\ NoDup l2) /\
  (forall y, y ∈ f :: l1 -> y <> b) /\ (forall y, y ∈ l1 -> y <> f) /\
  (forall y, y ∈ l2 -> y <> b /\ y <> f) /\ (forall y z, y ∈ f :: l1 -> z ∈ l2 -> y <> z).
Proof.
  intros Hnd. apply NoDup_cons in Hnd as [Hf Hnd].
  apply NoDup_app in Hnd as (Hn1 & Hd & Hn2). apply NoDup_cons in Hn2 as [Hb Hn2].
  assert (f ∉ l1) by set_solver.
  split; [repeat split; [set_solver|by apply NoDup_cons|done]|].
  split; [set_solver|]. split; [set_solver|]. split; set_solver.
Qed.

Lemma moved_path m f l1 b l2 :
  NoDup (f :: l1 ++ b :: l2) -> path m f l1 b -> path m b l2 f ->
  path (moved b f m) b (f :: l1 ++ l2) b.
Proof.
  intros Hnd P1 P2.
  assert (Hp : b_prev (m !!! b) = List.last l1 f) by apply (path_last_edge _ _ _ _ P1).
  assert (Hq : b_prev (m !!! f) = List.last l2 b) by apply (path_last_edge _ _ _ _ P2).
  pose proof (path_head _ _ _ _ P2) as Hn.
  destruct (ring_distinct _ _ _ _ Hnd) as ((Hfb & Hn1 & Hn2) & H1b & H1f & H2 & H12).
  pose proof (last_in l1 f) as Hin1.
  assert (Hmn := moved_next b f m). assert (Hmp := moved_prev b f m). cbv zeta in *.
  destruct l2 as [|n l2].
  - rewrite app_nil_r. simpl in Hn.
    rewrite Hn, Hp, decide_True in Hmn, Hmp by done.
    split; [split|].
    + rewrite Hmn, decide_False, decide_True by auto. done.
    + by rewrite Hmp, decide_True.
    + eapply path_retarget; [exact P1|done|..].
      * intros y Hy Hyl. rewrite Hmn, !decide_False; auto. intros E. by apply (H1b y).
      * intros y Hy. pose proof (H1f _ Hy).
        assert (y <> b) by (apply H1b; by apply elem_of_cons; right).
        by rewrite Hmp, !decide_False by congruence.
      * split; [by rewrite Hmn, decide_True|by rewrite Hmp, decide_False, decide_True].
  - simpl in Hn. rewrite last_cons in Hq.
    destruct (H2 n) as [Hnb Hnf]; [by apply elem_of_cons; left|].
    rewrite Hn, Hp, Hq, decide_False in Hmn, Hmp by done.
    pose proof (last_in l2 n) as Hin3. destruct P2 as [_ P2].
    destruct (H2 _ Hin3) as [Hlb Hlf].
    split; [split|].
    + by rewrite Hmn, decide_False, decide_True by auto.
    + by rewrite Hmp, decide_True.
    + apply path_app. split.
      * eapply path_retarget; [exact P1|done|..].
        -- intros y Hy Hyl. pose proof (H1b _ Hy). pose proof (H12 _ _ Hy Hin3).
           by rewrite Hmn, !decide_False by congruence.
        -- intros y Hy. assert (Hy' : y ∈ f :: l1) by (by apply elem_of_cons; right).
           pose proof (H1b _ Hy'). pose proof (H1f _ Hy).
           assert (y <> n) by (apply H12; [done|by apply elem_of_cons; left]).
           by rewrite Hmp, !decide_False by congruence.
        -- pose proof (H12 _ _ Hin1 Hin3). pose proof (H1b _ Hin1).
           split; [by rewrite Hmn, 2!decide_False, decide_True by congruence|].
           by rewrite Hmp, 2!decide_False, decide_True by congruence.
      * eapply path_retarget; [exact P2|done|..].
        -- intros y Hy Hyl. destruct (H2 _ Hy). pose proof (H12 _ _ Hin1 Hy).
           by rewrite Hmn, !decide_False by congruence.
        -- intros y Hy. destruct (H2 y) as [? ?]; [by apply elem_of_cons; right|].
           assert (y <> n) by (intros ->; by apply NoDup_cons in Hn2 as [? _]).
           by rewrite Hmp, !decide_False by congruence.
        -- split; [by rewrite Hmn, decide_True|].
           by rewrite Hmp, decide_False, decide_True by congruence.
Qed.

(** [move_buffer] moves a buffer of the ring to the front. *)
Lemma move_buffer_ring {M : Machine} f l1 b l2 (s : kst) :
  ring (bufs s) (f :: l1 ++ b :: l2) ->
  exists m', move_buffer b f s = Some (tt, set_bufs m' s) /\
    ring m' (b :: f :: l1 ++ l2) /\ same_data (bufs s) m'.
Proof.
  intros (Hnd & Hl & Hp). apply path_app in Hp as [P1 P2].
  assert (Hprev : b_prev (bufs s !!! b) = List.last l1 f) by apply (path_last_edge _ _ _ _ P1).
  assert (Hq : b_prev (bufs s !!! f) = List.last l2 b) by apply (path_last_edge _ _ _ _ P2).
  pose proof (path_head _ _ _ _ P2) as Hn.
  destruct (ring_distinct _ _ _ _ Hnd) as ((Hfb & Hn1 & Hn2) & H1b & H1f & H2 & H12).
  pose proof (last_in l1 f) as Hin1. pose proof (last_in l2 b) as Hin2.
  assert (Hnin : List.hd f l2 ∈ f :: l2).
  { destruct l2; [by apply elem_of_cons; left|by apply elem_of_cons; right; left]. }
  unfold live in Hl. rewrite Forall_forall in Hl.
  destruct (move_buffer_run b f s) as [Hrun Hdata].
  - intros x Hx. apply Hl. rewrite Hprev, Hq, Hn in Hx. clear -Hx Hin1 Hin2 Hnin.
    destruct Hx as [->|[->|[->|[->| ->]]]]; set_solver.
  - done.
  - rewrite Hprev. apply not_eq_sym. by apply H1b.
  - rewrite Hn. apply elem_of_cons in Hnin as [->|Hi]; [done|]. apply not_eq_sym. by apply H2.
  - rewrite Hq, Hn. destruct l2 as [|n l2]; [by right|left]. rewrite last_cons.
    apply H2, last_in.
  - exists (moved b f (bufs s)). split; [done|]. split; [|done].
    assert (Hperm : b :: f :: l1 ++ l2 ≡ₚ f :: l1 ++ b :: l2) by solve_Permutation.
    split; [by rewrite Hperm|]. split; [|by apply moved_path].
    unfold live. rewrite Hperm, Forall_forall. intros x Hx. by apply Hdata, Hl.
Qed.

(** ** The search of [searchblock] on the list *)

Fixpoint find_holder (m : gmap Z buffer) (l : list Z) (blkno dsk : Z) : option Z :=
  match l with
  | [] => None
  | p :: l => if holds (m !!! p) blkno dsk then Some p else find_holder m l blkno dsk
  end.

Definition scan_one (m : gmap Z buffer) (a : scan) (p : Z) : scan :=
  let a := if has (b_flag (m !!! p)) BFR_UNCACHE
           then Scan (fat_count a) (lastNonFat a) p else a in
  if has (b_flag (m !!! p)) BFR_FAT
  then Scan (fat_count a + 1) (lastNonFat a) (uncacheBuf a)
  else Scan (fat_count a) p (uncacheBuf a).

Definition scan_all (m : gmap Z buffer) (l : list Z) : scan :=
  fold_left (scan_one m) l (Scan 0 0 0).

(** The buffer that is given up when the block is not cached: the last one
    marked UNCACHE; else, when the first buffer of the ring holds a FAT sector
    and there are fewer than three of those, the last one that does not; else
    the last one of the ring. *)
Definition victim (m : gmap Z buffer) (l : list Z) : Z :=
  let a := scan_all m l in
  if negb (uncacheBuf a =? 0) then uncacheBuf a
  else if has (b_flag (m !!! List.hd 0 l)) BFR_FAT && (fat_count a <? 3)
          && negb (lastNonFat a =? 0) then lastNonFat a
  else List.last l 0.

(** The ring with [p] moved to the front. *)
Definition lru (p : Z) (l : list Z) : list Z := p :: filter (fun x => x <> p) l.

Lemma find_holder_in m l blkno dsk p :
  find_holder m l blkno dsk = Some p -> p ∈ l /\ holds (m !!! p) blkno dsk = true.
Proof.
  induction l as [|q l IH]; simpl; [done|]. destruct (holds (m !!! q) blkno dsk) eqn:E.
  - intros [= <-]. split; [by apply elem_of_cons; left|done].
  - intros H. apply IH in H as [? ?]. split; [by apply elem_of_cons; right|done].
Qed.

Lemma find_holder_none m l blkno dsk p :
  find_holder m l blkno dsk = None -> p ∈ l -> holds (m !!! p) blkno dsk = false.
Proof.
  induction l as [|q l IH]; simpl; [by intros _ ?%not_elem_of_nil|].
  destruct (holds (m !!! q) blkno dsk) eqn:E; [done|].
  intros H [->|Hp]%elem_of_cons; [done|by apply IH].
Qed.

Lemma scan_in m l a :
  let a' := fold_left (scan_one m) l a in
  (lastNonFat a' = lastNonFat a \/ lastNonFat a' ∈ l) /\
  (uncacheBuf a' = uncacheBuf a \/ uncacheBuf a' ∈ l).
Proof.
  revert a. induction l as [|p l IH]; intros a; simpl; [tauto|].
  assert (H : (lastNonFat (scan_one m a p) = lastNonFat a \/ lastNonFat (scan_one m a p) = p) /\
              (uncacheBuf (scan_one m a p) = uncacheBuf a \/ uncacheBuf (scan_one m a p) = p)).
  { unfold scan_one. repeat bcase; simpl; tauto. }
  destruct (IH (scan_one m a p)) as [H1 H2]. rewrite !elem_of_cons.
  destruct H as [H3 H4]. split.
  - destruct H1 as [->|?]; [destruct H3 as [-> | ->]; tauto|tauto].
  - destruct H2 as [->|?]; [destruct H4 as [-> | ->]; tauto|tauto].
Qed.

Lemma victim_in m l : l <> [] -> victim m l ∈ l.
Proof.
  intros Hl. unfold victim, scan_all.
  destruct (scan_in m l (Scan 0 0 0)) as [H1 H2]. cbv zeta in *.
  destruct (uncacheBuf _ =? 0) eqn:E; simpl; zbool.
  - destruct (_ && _ && _) eqn:E2.
    + zbool. simpl in *. destruct H1; [congruence|done].
    + destruct l as [|x l]; [done|]. rewrite last_cons. apply last_in.
  - simpl in *. destruct H2; [congruence|done].
Qed.

Lemma lru_permutation p l : NoDup l -> p ∈ l -> lru p l ≡ₚ l.
Proof.
  intros Hn (l1 & l2 & ->)%list_elem_of_split. unfold lru.
  apply NoDup_app in Hn as (Hn1 & Hd & [Hp Hn2]%NoDup_cons).
  rewrite filter_app, filter_cons_False by (by intros []).
  assert (E : forall k : list Z, p ∉ k -> filter (fun x => x <> p) k = k).
  { induction k as [|y k IH]; [done|]. intros Hk. rewrite filter_cons_True by set_solver.
    by rewrite IH by set_solver. }
  rewrite !E; [solve_Permutation|done|]. intros Hi. by apply (Hd _ Hi), elem_of_cons; left.
Qed.

Lemma lru_split p l1 l2 : p ∉ l1 -> p ∉ l2 -> lru p (l1 ++ p :: l2) = p :: l1 ++ l2.
Proof.
  intros H1 H2. unfold lru. rewrite filter_app, filter_cons_False by (by intros []).
  assert (E : forall k : list Z, p ∉ k -> filter (fun x => x <> p) k = k).
  { induction k as [|y k IH]; [done|]. intros Hk. rewrite filter_cons_True by set_solver.
    by rewrite IH by set_solver. }
  by rewrite !E.
Qed.

Section Search.
Context {M : Machine}.

Lemma search_ring_spec fuel blkno dsk f l p a (s : kst) :
  path (bufs s) p l f -> live (bufs s) (p :: l) -> f ∉ l -> (length l < fuel)%nat ->
  search_ring fuel blkno dsk f p a s =
    Some (match find_holder (bufs s) (p :: l) blkno dsk with
          | Some q => inl q
          | None => inr (fold_left (scan_one (bufs s)) (p :: l) a)
          end, s).
Proof.
  revert fuel p a. induction l as [|q l IH]; intros fuel p a Hp Hl Hf Hfu;
    destruct fuel as [|fuel]; simpl in Hfu; try lia; cbn [search_ring].
  all: apply Forall_cons in Hl as [Hlp Hl]; rewrite run_bget by done.
  all: cbn [find_holder]; destruct (holds (bufs s !!! p) blkno dsk); [done|].
  - destruct Hp as [-> _]. rewrite Z.eqb_refl. done.
  - destruct Hp as [[-> _] Hp]. apply not_elem_of_cons in Hf as [Hfq Hf].
    rewrite (proj2 (Z.eqb_neq q f)) by done.
    rewrite (IH fuel q _ Hp Hl Hf) by lia. done.
Qed.

Lemma set_firstbuf_same (s : kst) : set_firstbuf (firstbuf s) s = s.
Proof. by destruct s. Qed.

(** Moving any member of the ring to the front, as [searchblock] does. *)
Lemma to_front l p (s : kst) :
  ring (bufs s) l -> p ∈ l ->
  exists m', (if negb (p =? List.hd 0 l) then move_buffer p (List.hd 0 l) else kret tt) s =
      Some (tt, set_bufs m' s) /\
    ring m' (lru p l) /\ same_data (bufs s) m'.
Proof.
  intros Hr Hp. destruct l as [|f l]; [done|]. simpl.
  destruct (p =? f) eqn:E; zbool; simpl.
  - subst p. exists (bufs s). split; [by destruct s|].
    split; [|apply same_data_refl]. destruct Hr as (Hn & Hr).
    pose proof Hn as [Hf _]%NoDup_cons.
    assert (El : lru f (f :: l) = f :: l) by (apply (lru_split f [] l); [apply not_elem_of_nil|done]).
    change (ring (bufs s) (lru f (f :: l))). rewrite El. exact (conj Hn Hr).
  - apply elem_of_cons in Hp as [->|(l1 & l2 & ->)%list_elem_of_split]; [done|].
    destruct (move_buffer_ring _ _ _ _ _ Hr) as (m' & Hm & Hr' & Hd).
    exists m'. split; [done|]. split; [|done].
    destruct Hr as (Hn & _). destruct (ring_distinct _ _ _ _ Hn) as (? & H1 & _ & H2 & _).
    assert (El : lru p (f :: l1 ++ p :: l2) = p :: f :: l1 ++ l2).
    { apply (lru_split p (f :: l1) l2); intros Hi;
        [exact (H1 _ Hi eq_refl)|exact (proj1 (H2 _ Hi) eq_refl)]. }
    change (ring m' (lru p (f :: l1 ++ p :: l2))). by rewrite El.
Qed.

(** What [searchblock] does to the ring, on both branches. *)
Theorem searchblock_spec blkno dsk l (s : kst) :
  ring (bufs s) l -> firstbuf s = List.hd 0 l -> (length l <= ring_fuel)%nat ->
  let '(p, f) := match find_holder (bufs s) l blkno dsk with
                 | Some p => (p, flag_off BFR_UNCACHE)
                 | None => (victim (bufs s) l, flag_on BFR_UNCACHE)
                 end in
  p ∈ l /\
  exists m', searchblock blkno dsk s = Some (p, set_firstbuf p (set_bufs m' s)) /\
    ring m' (lru p l) /\ same_data (upd p f (bufs s)) m'.
Proof.
  intros Hr Hf Hlen.
  assert (Hin : match find_holder (bufs s) l blkno dsk with
                | Some p => p | None => victim (bufs s) l end ∈ l).
  { destruct (find_holder _ _ _ _) eqn:E; [by eapply find_holder_in|].
    apply victim_in. by intros ->. }
  assert (Hsr : search_ring ring_fuel blkno dsk (firstbuf s) (firstbuf s) (Scan 0 0 0) s =
            Some (match find_holder (bufs s) l blkno dsk with
                  | Some q => inl q | None => inr (scan_all (bufs s) l) end, s)).
  { destruct l as [|x l]; [done|]. destruct Hr as (Hn & Hl & Hp). rewrite Hf. simpl List.hd.
    apply search_ring_spec; [done..| |simpl in Hlen; lia]. by apply NoDup_cons in Hn as [? _]. }
  unfold searchblock. rewrite run_get, (run_eq _ _ _ _ _ Hsr), Hf.
  assert (Hll : live (bufs s) l) by (by destruct l; [|destruct Hr as (_ & ? & _)]).
  pose proof (proj1 (Forall_forall _ _) Hll) as Hlive. cbv beta in Hlive.
  destruct (find_holder (bufs s) l blkno dsk) as [p|] eqn:Efh.
  - split; [done|]. rewrite run_bmod by (by apply Hlive).
    assert (Hr2 : ring (upd p (flag_off BFR_UNCACHE) (bufs s)) l).
    { eapply ring_links; [|exact Hr]. apply upd_links; [by apply Hlive|done]. }
    destruct (to_front l p (set_firstbuf p (set_bufs (upd p (flag_off BFR_UNCACHE) (bufs s)) s))
                Hr2 Hin) as (m' & Hm & Hr' & Hd).
    exists m'. split; [|done].
    destruct (p =? List.hd 0 l) eqn:Ep; simpl negb in *; cbn iota in *.
    + zbool. unfold kret in Hm. injection Hm as Hm. rewrite run_ret, <- Hm.
      unfold kret. rewrite Ep, <- Hf. by destruct s.
    + rewrite run_assoc, run_mod, (run_eq _ _ _ _ _ Hm). done.
  - cbv zeta. rewrite run_bget by (apply Hlive; destruct l; [done|by apply elem_of_cons; left]).
    split; [done|].
    assert (Hv : (if negb (uncacheBuf (scan_all (bufs s) l) =? 0) then uncacheBuf (scan_all (bufs s) l)
              else if has (b_flag (bufs s !!! List.hd 0 l)) BFR_FAT &&
                      (fat_count (scan_all (bufs s) l) <? 3) &&
                      negb (lastNonFat (scan_all (bufs s) l) =? 0)
                   then lastNonFat (scan_all (bufs s) l)
                   else b_prev (bufs s !!! List.hd 0 l)) = victim (bufs s) l).
    { unfold victim. replace (List.last l 0) with (b_prev (bufs s !!! List.hd 0 l)); [done|].
      destruct l as [|x l]; [done|]. destruct Hr as (_ & _ & Hp). rewrite last_cons.
      apply (path_last_edge _ _ _ _ Hp). }
    rewrite Hv. set (p := victim (bufs s) l) in *. rewrite run_bmod by (by apply Hlive).
    destruct (to_front l p (set_bufs (upd p (flag_on BFR_UNCACHE) (bufs s)) s)) as (m' & Hm & Hr' & Hd);
      [|done|].
    { eapply ring_links; [|exact Hr]. apply upd_links; [by apply Hlive|done]. }
    exists m'. split; [|done].
    destruct (p =? List.hd 0 l) eqn:Ep; simpl negb in *; cbn iota in *.
    + zbool. unfold kret in Hm. injection Hm as Hm. rewrite run_ret, <- Hm.
      rewrite Ep, <- Hf. unfold kret. by destruct s.
    + rewrite run_assoc, (run_eq _ _ _ _ _ Hm), run_mod. done.
Qed.
End Search.

End Ring.
