(* ===== verification/CacheSpec.v ===== *)
(** * The block cache as a view of the disk

    Under drivers that work ([Disk]), the cache shows every drive as a
    function from block numbers to sectors: [view] is the content of the
    buffer that holds a block, and the sector itself when no buffer does.
    [cache] is the invariant of the ring of buffers. *)

From S2P Require Import Prelude KState BlockIO FatTab Disk Ring.
Import Ks Bio Dsk Ring.

Module Cache.

(** ** Flags *)

Lemma has_UNCACHE x : has x BFR_UNCACHE = Z.testbit x 0.
Proof. exact (has_bit x 0 ltac:(lia)). Qed.
Lemma has_FAT x : has x BFR_FAT = Z.testbit x 1.
Proof. exact (has_bit x 1 ltac:(lia)). Qed.
Lemma has_VALID x : has x BFR_VALID = Z.testbit x 5.
Proof. exact (has_bit x 5 ltac:(lia)). Qed.
Lemma dirty_bits b : dirty b = Z.testbit (b_flag b) 5 && Z.testbit (b_flag b) 6.
Proof.
  unfold dirty. change (Z.lor BFR_VALID BFR_DIRTY) with 0x60.
  destruct (Z.land (b_flag b) 0x60 =? 0x60) eqn:E; zbool.
  - assert (H5 := f_equal (fun z => Z.testbit z 5) E).
    assert (H6 := f_equal (fun z => Z.testbit z 6) E). cbv beta in *.
    rewrite Z.land_spec in H5, H6. change (Z.testbit 0x60 5) with true in *.
    change (Z.testbit 0x60 6) with true in *. rewrite andb_true_r in H5, H6.
    by rewrite H5, H6.
  - destruct (Z.testbit (b_flag b) 5) eqn:H5, (Z.testbit (b_flag b) 6) eqn:H6; try done.
    destruct E. apply Z.bits_inj'. intros n Hn. rewrite Z.land_spec.
    destruct (decide (n = 5)) as [->|]; [by rewrite H5|].
    destruct (decide (n = 6)) as [->|]; [by rewrite H6|].
    replace (Z.testbit 0x60 n) with false; [by rewrite andb_false_r|].
    change 0x60 with (Z.lor (2 ^ 5) (2 ^ 6)).
    by rewrite Z.lor_spec, !Z.pow2_bits_false by done.
Qed.

Create Rewrite HintDb flags.
#[export] Hint Rewrite has_UNCACHE has_FAT has_VALID dirty_bits : flags.
Lemma flag_off_bit m b k : Z.testbit (b_flag (flag_off m b)) k = Z.testbit (b_flag b) k && negb (Z.testbit m k).
Proof. apply Z.ldiff_spec. Qed.
Lemma flag_on_bit m b k : Z.testbit (b_flag (flag_on m b)) k = Z.testbit (b_flag b) k || Z.testbit m k.
Proof. apply Z.lor_spec. Qed.
#[export] Hint Rewrite flag_off_bit flag_on_bit : flags.
(** Computes the flag tests of the goal down to the bits of the old flags. *)
Ltac flags :=
  autorewrite with flags;
  repeat (rewrite ?Z.lor_spec, ?Z.ldiff_spec);
  cbn [negb andb orb Z.testbit Pos.testbit Pos.pred_N Pos.pred_double
       BFR_DIRTY BFR_VALID BFR_DATA BFR_DIR BFR_FAT BFR_UNCACHE];
  rewrite ?andb_true_r, ?andb_false_r, ?orb_true_r, ?orb_false_r.

(** ** Volumes *)

Section Spec.
Context {M : Machine} {D : Disk}.

(** The region of the FAT that is read, and its copies. *)
Definition fat_secs (d : dpb) : Z := if Fat.ISFAT32 d then dpb_xfatsize d else dpb_fatsize d.
Definition no_mirror (d : dpb) : bool := Fat.ISFAT32 d && has (dpb_xflags d) Fat.FAT_NO_MIRRORING.
Definition fat_base (d : dpb) : Z :=
  dpb_fatstrt d + (if no_mirror d then Z.land (dpb_xflags d) 0xf * dpb_xfatsize d else 0).
Definition ncopies (d : dpb) : Z := if no_mirror d then 1 else dpb_fats d.
Definition in_fat (d : dpb) (blk : Z) : Prop :=
  fat_base d <= blk < fat_base d + fat_secs d.
(** The blocks of the other copies of the FAT: written, never read. *)
Definition mirror (d : dpb) (blk : Z) : Prop :=
  fat_base d + fat_secs d <= blk < fat_base d + ncopies d * fat_secs d.
Definition capacity (d : dpb) : Z := nsec (dpb_device d) (dpb_subunit d).
Definition fat_fits (d : dpb) : Prop :=
  0 <= fat_base d /\ 1 <= ncopies d < 256 /\ fat_base d + ncopies d * fat_secs d <= capacity d /\
  capacity d < 2 ^ 32.

(** Drive [u] is a local drive whose parameter block is [d], at [p]. *)
Record mounted (s : kst) (u p : Z) (d : dpb) : Prop := Mounted {
  mt_get : get_dpb u s = Some (p, s);
  mt_null : p <> NULL;
  mt_dpb : dpbs s !! p = Some d;
  mt_unit : dpb_unit d = u;
  mt_range : -128 <= u < 128;
  mt_sec : dpb_secsize d = 512;
  mt_attr : is_Some (dh_attr (env s) !! dpb_device d) }.

Definition sector (s : kst) (d : dpb) (blk : Z) : list Z :=
  sec (dev s) (dpb_device d) (dpb_subunit d) blk.

(** A block that the file system code may ask for. *)
Definition block_ok (d : dpb) (blk : Z) : Prop := 0 <= blk < capacity d /\ ~ mirror d blk.

Definition fat_buffer (b : buffer) (p : Z) (d : dpb) : Prop :=
  b_copies b = ncopies d /\ b_offset b = dpb_fatsize d /\ b_dpbp b = p /\
  in_fat d (b_blkno b) /\ fat_fits d.

Definition valid (b : buffer) : bool := has (b_flag b) BFR_VALID.

(** The content of a sector. *)
Definition is_sector (l : list Z) : Prop := length l = SECSIZE /\ Forall byte l.

Definition buf_ok (s : kst) (b : buffer) : Prop :=
  is_sector (b_buffer b) /\
  (valid b = true ->
   exists p d, mounted s (b_unit b) p d /\ block_ok d (b_blkno b) /\
     (has (b_flag b) BFR_FAT = true -> fat_buffer b p d) /\
     (dirty b = false -> b_buffer b = sector s d (b_blkno b))).

Record cache (s : kst) (l : list Z) : Prop := Cache {
  c_ring : ring (bufs s) l;
  c_first : firstbuf s = List.hd 0 l;
  c_zero : 0 ∉ l;
  c_len : (length l <= ring_fuel)%nat;
  c_deblock : (SECSIZE <= length (deblock_buf (drv s)))%nat;
  c_buf : forall p, p ∈ l -> buf_ok s (bufs s !!! p);
  c_uniq : forall p q, p ∈ l -> q ∈ l ->
    valid (bufs s !!! p) = true -> valid (bufs s !!! q) = true ->
    b_unit (bufs s !!! p) = b_unit (bufs s !!! q) ->
    b_blkno (bufs s !!! p) = b_blkno (bufs s !!! q) -> p = q;
  c_inj : forall u1 p1 d1 u2 p2 d2,
    mounted s u1 p1 d1 -> mounted s u2 p2 d2 ->
    dpb_device d1 = dpb_device d2 -> dpb_subunit d1 = dpb_subunit d2 -> u1 = u2 }.

(** What a drive shows at a block. *)
Definition view (s : kst) (l : list Z) (d : dpb) (blk : Z) : list Z :=
  match find_holder (bufs s) l blk (dpb_unit d) with
  | Some p => b_buffer (bufs s !!! p)
  | None => sector s d blk
  end.

(** All drives show the same, at the blocks that are read. *)
Definition same_view (s : kst) (l : list Z) (s' : kst) (l' : list Z) : Prop :=
  forall u p d blk, mounted s u p d -> block_ok d blk -> view s' l' d blk = view s l d blk.

(** Only the cache and the devices differ. *)
Definition ioframe (s s' : kst) : Prop :=
  env s' = env s /\ LoL_nbuffers s' = LoL_nbuffers s /\ dpbs s' = dpbs s /\
  CDSp s' = CDSp s /\ fs s' = fs s /\ console s' = console s.

Lemma ioframe_refl s : ioframe s s.
Proof. done. Qed.
Lemma ioframe_trans s1 s2 s3 : ioframe s1 s2 -> ioframe s2 s3 -> ioframe s1 s3.
Proof. unfold ioframe. intuition congruence. Qed.

(** [get_dpb] reads the drive table only. *)
Lemma get_dpb_frame u p s s' :
  env s' = env s -> CDSp s' = CDSp s ->
  get_dpb u s = Some (p, s) -> get_dpb u s' = Some (p, s').
Proof.
  unfold get_dpb, get_cds, kbind, kret. intros -> ->.
  destruct (lastdrive (env s) <=? u16 u); [intros; by simplify_eq|].
  destruct (CDSp s !! u16 u) as [c|]; [|done].
  destruct (_ || _); [intros; by simplify_eq|].
  destruct (_ && _); [intros; by simplify_eq|].
  destruct (has _ _); intros; by simplify_eq.
Qed.

Lemma mounted_frame s s' u p d : ioframe s s' -> mounted s u p d -> mounted s' u p d.
Proof.
  intros (He & _ & Hd & Hc & _) []. split; rewrite ?Hd, ?He; try done.
  by eapply get_dpb_frame.
Qed.

Lemma ioframe_sym s s' : ioframe s s' -> ioframe s' s.
Proof. unfold ioframe. intuition congruence. Qed.

Lemma mounted_fun s u p d p' d' : mounted s u p d -> mounted s u p' d' -> p' = p /\ d' = d.
Proof. intros [] []. assert (p' = p) by congruence. subst. split; [done|congruence]. Qed.

(** ** Transfers *)

Lemma io_request_block rq d attr c blk n :
  0 <= blk -> req_block (io_request rq d attr c blk n) = blk.
Proof.
  intros Hb. unfold io_request, req_block.
  destruct (has attr ATTR_HUGE || (MAXSHORT <=? blk)) eqn:E; cbn [r_start r_huge]; [done|].
  zbool. rewrite u16_small by (unfold MAXSHORT in *; lia).
  unfold HUGECOUNT, MAXSHORT in *. by rewrite (proj2 (Z.eqb_neq _ _)) by lia.
Qed.

Lemma io_request_fields rq d attr c blk n :
  let r := io_request rq d attr c blk n in
  r_command r = c /\ r_unit r = dpb_subunit d /\ r_count r = n.
Proof. cbv zeta. unfold io_request. by destruct (has attr ATTR_HUGE || (MAXSHORT <=? blk)). Qed.

Lemma run_dget {A} p d (k : dpb -> K kst A) s :
  dpbs s !! p = Some d -> kbind (dget p) k s = k d s.
Proof. intros H. unfold kbind, dget. by rewrite H. Qed.

Lemma fmemcpy_start dst src n :
  0 <= n <= Z.of_nat (length dst) -> n <= Z.of_nat (length src) ->
  fmemcpy dst 0 src n = Some (take (Z.to_nat n) src ++ drop (Z.to_nat n) dst).
Proof.
  intros H1 H2. unfold fmemcpy.
  rewrite !(proj2 (Z.leb_le _ _)) by lia. done.
Qed.

Lemma sectors_one f b : sectors f b 1 = f b.
Proof. unfold sectors. simpl. by rewrite Z.add_0_r, app_nil_r. Qed.

Lemma sectors_length w dv su b n : length (sectors (sec w dv su) b n) = (SECSIZE * n)%nat.
Proof.
  unfold sectors. rewrite length_concat, map_map.
  rewrite (map_ext _ (fun _ => SECSIZE)) by (intros; apply sec_length).
  clear. generalize 0%nat. induction n as [|n IH]; intros k; simpl; [lia|].
  rewrite IH. unfold SECSIZE. lia.
Qed.

Lemma execrh_run {A} dv rq buf rq' buf' w' (k : request * list Z -> K kst A) s :
  execrh dv rq buf (dev s) = (rq', buf', w') ->
  kbind (call_execrh dv rq buf) k s = k (rq', buf') (set_dev w' s).
Proof. intros H. unfold kbind, call_execrh. by rewrite H. Qed.

Definition io_only (s s' : kst) : Prop :=
  ioframe s s' /\ bufs s' = bufs s /\ firstbuf s' = firstbuf s /\
  (SECSIZE <= length (deblock_buf (drv s')))%nat.

Lemma dskxfer_read u p d blk bseg buf n s :
  mounted s u p d -> (SECSIZE <= length (deblock_buf (drv s)))%nat ->
  0 <= blk -> 0 <= n -> blk + n <= capacity d ->
  Z.of_nat SECSIZE * n <= Z.of_nat (length buf) ->
  exists s', dskxfer u blk bseg buf n DSKREAD s =
      Some ((0, sectors (sector s d) blk (Z.to_nat n) ++ drop (SECSIZE * Z.to_nat n) buf), s') /\
    io_only s s' /\ sec (dev s') = sec (dev s).
Proof.
  intros [Hg Hnn Hd Hu _ Hs [attr Ha]] Hdb Hb Hn Hc Hl.
  unfold dskxfer. rewrite (run_eq _ _ _ _ _ Hg), (proj2 (Z.eqb_neq p NULL) Hnn).
  unfold xfer_fuel. generalize 255%nat as fu. intros fu. cbn [dskxfer_loop].
  rewrite (run_dget _ d) by done. rewrite run_get.
  replace (xfer_command DSKREAD (verify_ena (env s))) with (Some C_INPUT) by (by destruct (verify_ena _)).
  rewrite Ha, run_opt. unfold set_ioreq at 1. rewrite run_mod, run_get.
  cbn [drv set_drv IoReqHdr env].
  set (rq := io_request (IoReqHdr (drv s)) d attr C_INPUT blk n).
  destruct (io_request_fields (IoReqHdr (drv s)) d attr C_INPUT blk n) as (Hc1 & Hc2 & Hc3).
  assert (Hblk : req_block rq = blk) by (by apply io_request_block).
  fold rq in Hc1, Hc2, Hc3. unfold capacity in Hc.
  pose proof (fun buf' => execrh_read (dpb_device d) rq buf' (dev s) Hc1) as Hx.
  rewrite Hblk, Hc2, Hc3 in Hx. clearbody rq. clear Hc1 Hc2 Hc3 Hblk.
  destruct ((0xa000 <=? bseg) && (n =? 1) && negb (bufloc (env s) =? LOC_CONV)) eqn:Eh.
  - zbool. subst n. change (Z.to_nat 1) with 1%nat in *.
    destruct (Hx (deblock_buf (drv s)) Hb Hn Hc) as (rq' & w' & He & Hdone & Hsec).
    { unfold SECSIZE in *. lia. }
    rewrite sectors_one in He.
    rewrite !run_assoc. cbn [Z.eqb Pos.eqb DSKREAD DSKWRITE]. rewrite run_ret, run_assoc, run_get.
    cbn [drv set_drv IoReqHdr deblock_buf]. rewrite run_assoc. rewrite (execrh_run _ _ _ _ _ w') by exact He.
    cbn [fst snd]. rewrite run_assoc. unfold set_ioreq at 1. rewrite run_mod, run_assoc.
    unfold set_deblock at 1. rewrite run_mod. cbn [drv set_drv set_dev IoReqHdr MediaReqHdr CritErrCode deblock_buf].
    rewrite Hs, fmemcpy_start; [|unfold SECSIZE in *; lia|].
    2:{ rewrite length_app, sec_length. unfold SECSIZE. lia. }
    rewrite run_opt, run_get. cbn [drv set_drv set_dev IoReqHdr].
    unfold done in Hdone. rewrite Hdone, Z.eqb_refl. eexists. split.
    { unfold kret. rewrite take_app_le by (rewrite sec_length; unfold SECSIZE; lia).
      rewrite take_ge by (rewrite sec_length; unfold SECSIZE; lia).
      rewrite sectors_one. reflexivity. }
    split; [|done]. split; [done|]. split; [done|]. split; [done|].
    cbn. rewrite length_app, sec_length. lia.
  - destruct (Hx buf Hb Hn Hc Hl) as (rq' & w' & He & Hdone & Hsec).
    rewrite run_assoc. rewrite (execrh_run _ _ _ _ _ w') by exact He. cbn [fst snd].
    rewrite run_assoc. unfold set_ioreq at 1. rewrite run_mod, run_ret, run_get.
    cbn [drv set_drv set_dev IoReqHdr]. unfold done in Hdone. rewrite Hdone, Z.eqb_refl.
    eexists. split; [reflexivity|]. done.
Qed.

Definition wrote (d : dpb) (blk n : Z) (buf : list Z) (s s' : kst) : Prop :=
  forall dv su b, sec (dev s') dv su b =
    if (dv =? dpb_device d) && (su =? dpb_subunit d) && (blk <=? b) && (b <? blk + n)
    then take SECSIZE (drop (SECSIZE * Z.to_nat (b - blk)) buf) else sec (dev s) dv su b.

Lemma dskxfer_write u p d blk bseg buf n s :
  mounted s u p d -> (SECSIZE <= length (deblock_buf (drv s)))%nat ->
  0 <= blk -> 0 <= n -> blk + n <= capacity d ->
  Z.of_nat SECSIZE * n <= Z.of_nat (length buf) ->
  Forall byte (take (SECSIZE * Z.to_nat n) buf) ->
  exists s', dskxfer u blk bseg buf n DSKWRITE s = Some ((0, buf), s') /\
    io_only s s' /\ wrote d blk n buf s s'.
Proof.
  intros [Hg Hnn Hd Hu _ Hs [attr Ha]] Hdb Hb Hn Hc Hl Hby.
  unfold dskxfer. rewrite (run_eq _ _ _ _ _ Hg), (proj2 (Z.eqb_neq p NULL) Hnn).
  unfold xfer_fuel. generalize 255%nat as fu. intros fu. cbn [dskxfer_loop].
  rewrite (run_dget _ d) by done. rewrite run_get.
  assert (Hcmd : exists c, xfer_command DSKWRITE (verify_ena (env s)) = Some c /\
                   (c = C_OUTPUT \/ c = C_OUTVFY)).
  { unfold xfer_command. destruct (verify_ena _); eexists; (split; [reflexivity|auto]). }
  destruct Hcmd as (c & -> & Hcc).
  rewrite Ha, run_opt. unfold set_ioreq at 1. rewrite run_mod, run_get.
  cbn [drv set_drv IoReqHdr env].
  set (rq := io_request (IoReqHdr (drv s)) d attr c blk n).
  destruct (io_request_fields (IoReqHdr (drv s)) d attr c blk n) as (Hc1 & Hc2 & Hc3).
  assert (Hblk : req_block rq = blk) by (by apply io_request_block).
  fold rq in Hc1, Hc2, Hc3. unfold capacity in Hc.
  pose proof (fun buf' => execrh_write (dpb_device d) rq buf' (dev s)) as Hx.
  rewrite Hblk, Hc1, Hc2, Hc3 in Hx. clearbody rq. clear Hc1 Hc2 Hc3 Hblk.
  destruct ((0xa000 <=? bseg) && (n =? 1) && negb (bufloc (env s) =? LOC_CONV)) eqn:Eh.
  - zbool. subst n. rewrite !run_assoc. cbn [Z.eqb Pos.eqb DSKREAD DSKWRITE].
    cbn [deblock_buf]. rewrite Hs, fmemcpy_start by (unfold SECSIZE in *; lia).
    rewrite run_assoc, run_opt. unfold set_deblock at 1. rewrite run_mod, run_assoc, run_get.
    cbn [drv set_drv IoReqHdr MediaReqHdr CritErrCode deblock_buf].
    set (db := take (Z.to_nat 512) buf ++ drop (Z.to_nat 512) (deblock_buf (drv s))).
    assert (Hdbl : (SECSIZE <= length db)%nat).
    { unfold db. rewrite length_app, length_take, length_drop. unfold SECSIZE in *. lia. }
    assert (Hdbt : take SECSIZE db = take SECSIZE buf).
    { unfold db. change (Z.to_nat 512) with SECSIZE.
      rewrite take_app_le, take_take; [f_equal; lia|rewrite length_take; lia]. }
    destruct (Hx db Hcc Hb Hn Hc) as (rq' & w' & He & Hdone & Hw); [unfold SECSIZE in *; lia| |].
    { change (SECSIZE * Z.to_nat 1)%nat with SECSIZE in *. by rewrite Hdbt. }
    rewrite run_assoc. rewrite (execrh_run _ _ _ _ _ w') by exact He. cbn [fst snd].
    rewrite run_assoc. unfold set_ioreq at 1. rewrite run_mod, run_assoc.
    unfold set_deblock at 1. rewrite run_mod, run_ret, run_get.
    cbn [drv set_drv set_dev IoReqHdr]. unfold done in Hdone. rewrite Hdone, Z.eqb_refl.
    eexists. split; [reflexivity|]. split; [done|].
    intros dv su b. cbn [dev set_drv set_dev]. rewrite Hw.
    destruct ((dv =? dpb_device d) && (su =? dpb_subunit d) && (blk <=? b) && (b <? blk + 1)) eqn:E;
      [|done]. zbool. replace (b - blk) with 0 by lia. change (Z.to_nat 0) with 0%nat.
    by rewrite Nat.mul_0_r.
  - destruct (Hx buf Hcc Hb Hn Hc Hl Hby) as (rq' & w' & He & Hdone & Hw).
    rewrite run_assoc. rewrite (execrh_run _ _ _ _ _ w') by exact He. cbn [fst snd].
    rewrite run_assoc. unfold set_ioreq at 1. rewrite run_mod, run_ret, run_get.
    cbn [drv set_drv set_dev IoReqHdr]. unfold done in Hdone. rewrite Hdone, Z.eqb_refl.
    eexists. split; [reflexivity|]. split; [done|]. exact Hw.
Qed.

Lemma io_only_refl s : (SECSIZE <= length (deblock_buf (drv s)))%nat -> io_only s s.
Proof. done. Qed.
Lemma io_only_trans s1 s2 s3 : io_only s1 s2 -> io_only s2 s3 -> io_only s1 s3.
Proof.
  intros (A & B & C & _) (A' & B' & C' & E). split; [by eapply ioframe_trans|].
  split; [congruence|]. split; [congruence|done].
Qed.

Lemma upd_id p f m : is_Some (m !! p) -> f (m !!! p) = m !!! p -> upd p f m = m.
Proof. intros Hp Hf. unfold upd. rewrite Hf. apply insert_id. by apply live_some. Qed.

Lemma set_bufs_same (s : kst) : set_bufs (bufs s) s = s.
Proof. by destruct s. Qed.

Lemma bufxfer_write u q d blk p s :
  mounted s u q d -> (SECSIZE <= length (deblock_buf (drv s)))%nat ->
  0 <= blk < capacity d -> is_Some (bufs s !! p) -> is_sector (b_buffer (bufs s !!! p)) ->
  exists s', bufxfer u blk p DSKWRITE s = Some (0, s') /\ io_only s s' /\
    wrote d blk 1 (b_buffer (bufs s !!! p)) s s'.
Proof.
  intros Hm Hdb Hb Hp [Hl Hby]. unfold bufxfer. rewrite run_bget, run_get by done.
  destruct (dskxfer_write u q d blk (firstbuf_seg (env s)) (b_buffer (bufs s !!! p)) 1 s)
    as (s' & Hr & Hio & Hw); [done|done|lia..| | |].
  { rewrite Hl. lia. }
  { by apply Forall_take. }
  exists s'. rewrite (run_eq _ _ _ _ _ Hr). cbn [fst snd].
  assert (Hbs : bufs s' = bufs s) by apply Hio.
  rewrite run_bmod by (by rewrite Hbs).
  rewrite upd_id, set_bufs_same; [done|by rewrite Hbs|].
  rewrite Hbs. by destruct (bufs s !!! p).
Qed.

Lemma bufxfer_read u q d blk p s :
  mounted s u q d -> (SECSIZE <= length (deblock_buf (drv s)))%nat ->
  0 <= blk < capacity d -> is_Some (bufs s !! p) -> length (b_buffer (bufs s !!! p)) = SECSIZE ->
  exists s', bufxfer u blk p DSKREAD s =
      Some (0, set_bufs (upd p (set_buffer (sector s d blk)) (bufs s)) s') /\
    io_only s s' /\ sec (dev s') = sec (dev s).
Proof.
  intros Hm Hdb Hb Hp Hl. unfold bufxfer. rewrite run_bget, run_get by done.
  destruct (dskxfer_read u q d blk (firstbuf_seg (env s)) (b_buffer (bufs s !!! p)) 1 s)
    as (s' & Hr & Hio & Hw); [done|done|lia..| | ].
  { rewrite Hl. lia. }
  exists s'. rewrite (run_eq _ _ _ _ _ Hr). cbn [fst snd].
  assert (Hbs : bufs s' = bufs s) by apply Hio.
  rewrite run_bmod by (by rewrite Hbs).
  change (Z.to_nat 1) with 1%nat. rewrite sectors_one, Nat.mul_1_r, drop_ge, app_nil_r by lia.
  by rewrite Hbs.
Qed.

(** The blocks a flush writes: [n] of them from [blk], [off] apart. *)
Fixpoint hit (n : nat) (blk off b : Z) : bool :=
  match n with O => false | S n => (b =? blk) || hit n (blk + off) off b end.

Definition target (d : dpb) (blk off : Z) (n : nat) (dv su b : Z) : bool :=
  (dv =? dpb_device d) && (su =? dpb_subunit d) && hit n blk off b.

Definition flushed (d : dpb) (blk off : Z) (n : nat) (buf : list Z) (s s' : kst) : Prop :=
  forall dv su b, sec (dev s') dv su b =
    if target d blk off n dv su b then buf else sec (dev s) dv su b.

Lemma hit_true n blk off b :
  hit n blk off b = true <-> exists i, (i < n)%nat /\ b = blk + Z.of_nat i * off.
Proof.
  revert blk. induction n as [|n IH]; intros blk; cbn [hit].
  { split; [done|]. intros (i & Hi & _). lia. }
  rewrite orb_true_iff, Z.eqb_eq, IH. split.
  - intros [->|(i & Hi & ->)]; [exists 0%nat|exists (S i)]; lia.
  - intros ([|i] & Hi & ->); [left; lia|right; exists i; lia].
Qed.

Lemma wrote_one d blk buf s s' dv su b :
  wrote d blk 1 buf s s' -> length buf = SECSIZE ->
  sec (dev s') dv su b =
    if (dv =? dpb_device d) && (su =? dpb_subunit d) && (b =? blk) then buf
    else sec (dev s) dv su b.
Proof.
  intros Hw Hl. rewrite Hw. destruct ((dv =? dpb_device d) && (su =? dpb_subunit d)); [|done].
  cbn [andb]. destruct (b =? blk) eqn:E.
  - zbool. subst. rewrite Z.leb_refl, (proj2 (Z.ltb_lt _ _)) by lia. cbn [andb].
    rewrite Z.sub_diag, Nat.mul_0_r. apply take_ge. lia.
  - destruct ((blk <=? b) && (b <? blk + 1)) eqn:E2; [|done]. zbool. lia.
Qed.

Lemma write_copies_spec n u q d blk off p ok s :
  mounted s u q d -> (SECSIZE <= length (deblock_buf (drv s)))%nat ->
  is_Some (bufs s !! p) -> b_unit (bufs s !!! p) = u ->
  is_sector (b_buffer (bufs s !!! p)) -> ((1 < n)%nat -> capacity d <= 2 ^ 32) ->
  (forall i, (i < n)%nat -> 0 <= blk + Z.of_nat i * off < capacity d) ->
  exists s', write_copies n p blk off ok s = Some (ok, s') /\ io_only s s' /\
    flushed d blk off n (b_buffer (bufs s !!! p)) s s'.
Proof.
  revert blk s ok. induction n as [|n IH]; intros blk s ok Hm Hdb Hp Hu Hl Hcap Ht; cbn [write_copies].
  { exists s. split; [done|]. split; [done|]. intros dv su b. unfold target.
    by rewrite andb_false_r. }
  rewrite run_bget by done. rewrite Hu.
  assert (Hb0 : 0 <= blk < capacity d) by (specialize (Ht 0%nat ltac:(lia)); lia).
  destruct (bufxfer_write u q d blk p s Hm Hdb Hb0 Hp Hl) as (s1 & Hr & Hio & Hw).
  rewrite (run_eq _ _ _ _ _ Hr). change (0 =? 0) with true. rewrite andb_true_r.
  assert (Hbs : bufs s1 = bufs s) by apply Hio.
  assert (Hsame : (exists i, (i < n)%nat) -> u32 (blk + off) = blk + off).
  { intros [i Hi]. apply u32_small. specialize (Ht 1%nat ltac:(lia)).
    specialize (Hcap ltac:(lia)). lia. }
  destruct (IH (u32 (blk + off)) s1 ok) as (s2 & Hr2 & Hio2 & Hf).
  - eapply mounted_frame; [apply Hio|done].
  - apply Hio.
  - by rewrite Hbs.
  - by rewrite Hbs.
  - by rewrite Hbs.
  - intros ?. apply Hcap. lia.
  - intros i Hi. rewrite Hsame by eauto. specialize (Ht (S i) ltac:(lia)). lia.
  - exists s2. split; [exact Hr2|]. split; [by eapply io_only_trans|].
    intros dv su b. rewrite Hf, Hbs, (wrote_one d blk _ s s1 dv su b Hw (proj1 Hl)).
    unfold target. cbn [hit].
    destruct ((dv =? dpb_device d) && (su =? dpb_subunit d)); cbn [andb]; [|done].
    destruct (b =? blk); cbn [orb]; [by destruct (hit _ _ _ _)|].
    destruct n as [|n]; [done|]. by rewrite Hsame by (exists 0%nat; lia).
Qed.

(** ** Writing one buffer back *)

Lemma find_holder_ext m m' l blk u :
  (forall p, p ∈ l -> holds (m' !!! p) blk u = holds (m !!! p) blk u) ->
  find_holder m' l blk u = find_holder m l blk u.
Proof.
  induction l as [|p l IH]; [done|]. intros H. simpl.
  rewrite H by (by apply elem_of_cons; left).
  rewrite IH by (intros q Hq; apply H; by apply elem_of_cons; right). done.
Qed.

(** The effect of a flush on what the drives show, copies left out. *)
Definition settled (s s' : kst) (b : buffer) : Prop :=
  forall u q d blk, mounted s u q d -> block_ok d blk ->
    sector s' d blk =
      if dirty b && (u =? b_unit b) && (blk =? b_blkno b) then b_buffer b else sector s d blk.

Lemma dirty_valid b : dirty b = true -> valid b = true.
Proof. unfold valid. flags. intros [? _]%andb_true_iff. done. Qed.

Lemma mounted_unit s u q d : mounted s u q d -> dpb_unit d = u.
Proof. by intros []. Qed.

Lemma settled_flush s s' b q d n off :
  (forall u1 p1 d1 u2 p2 d2, mounted s u1 p1 d1 -> mounted s u2 p2 d2 ->
    dpb_device d1 = dpb_device d2 -> dpb_subunit d1 = dpb_subunit d2 -> u1 = u2) ->
  mounted s (b_unit b) q d -> dirty b = true ->
  (forall i, (0 < i <= n)%nat -> mirror d (b_blkno b + Z.of_nat i * off)) ->
  flushed d (b_blkno b) off (S n) (b_buffer b) s s' -> settled s s' b.
Proof.
  intros Hinj Hm Hd Hmir Hf u q' d' blk Hm' [_ Hb]. unfold sector. rewrite Hf, Hd.
  unfold target. cbn [hit andb].
  destruct ((dpb_device d' =? dpb_device d) && (dpb_subunit d' =? dpb_subunit d)) eqn:E.
  - zbool. assert (Hu : u = b_unit b) by eauto. subst u.
    destruct (mounted_fun _ _ _ _ _ _ Hm Hm') as [-> ->].
    rewrite Z.eqb_refl. cbn [andb]. destruct (blk =? b_blkno b) eqn:Eb; [done|].
    cbn [orb]. destruct (hit n _ off blk) eqn:Eh; [|done].
    apply hit_true in Eh as (i & Hi & ->). destruct Hb.
    replace (b_blkno b + off + Z.of_nat i * off) with (b_blkno b + Z.of_nat (S i) * off) by lia.
    apply Hmir. lia.
  - destruct (u =? b_unit b) eqn:Eu; [|done]. zbool. subst u.
    destruct (mounted_fun _ _ _ _ _ _ Hm Hm') as [-> ->]. by rewrite !Z.eqb_refl in E.
Qed.

Lemma flush1_run s l p :
  cache s l -> p ∈ l ->
  exists s', flush1 p s = Some (true, set_bufs (upd p (flag_off BFR_DIRTY) (bufs s)) s') /\
    io_only s s' /\ settled s s' (bufs s !!! p).
Proof.
  intros Hc Hp. destruct (c_buf _ _ Hc _ Hp) as [Hlen Hok].
  assert (Hlive : is_Some (bufs s !! p)).
  { pose proof (c_ring _ _ Hc) as Hr. destruct l; [done|]. destruct Hr as (_ & Hl & _).
    exact (proj1 (Forall_forall _ _) Hl p Hp). }
  unfold flush1. rewrite run_bget by done. set (b := bufs s !!! p) in *.
  destruct (dirty b) eqn:Ed; cycle 1.
  { rewrite run_ret, run_bmod by done. cbn [negb]. rewrite run_ret.
    exists s. split; [done|]. split; [split; [done|split; [done|split; [done|apply Hc]]]|].
    intros u q d blk _ _. by rewrite Ed. }
  destruct (Hok (dirty_valid _ Ed)) as (q & d & Hm & Hb & Hfat & _).
  assert (Hcase : exists n off,
    (forall A (k : Z * Z -> K kst A), kbind (if has (b_flag b) BFR_FAT then
            let! off :=
              (if b_offset b =? 0 then
                 let! d := dget (b_dpbp b) in kret (dpb_xfatsize d)
               else kret (b_offset b)) in
            kret (b_copies b, off)
          else kret (1, 0)) k s = k (Z.of_nat (S n), off) s) /\
    (forall i, (i < S n)%nat -> 0 <= b_blkno b + Z.of_nat i * off < capacity d) /\
    (forall i, (0 < i <= n)%nat -> mirror d (b_blkno b + Z.of_nat i * off)) /\
    ((1 < S n)%nat -> capacity d <= 2 ^ 32)).
  { destruct (has (b_flag b) BFR_FAT).
    - destruct (Hfat eq_refl) as (Hcp & Hof & Hdp & Hin & H0 & Hn & Hf & Hcap).
      exists (Z.to_nat (ncopies d - 1)), (fat_secs d).
      unfold in_fat in Hin. split; [|split; [|split]].
      + intros A k. rewrite run_assoc, Hof, Hdp. unfold fat_secs, Fat.ISFAT32.
        destruct (dpb_fatsize d =? 0).
        * rewrite run_assoc, (run_dget _ d) by apply Hm. rewrite !run_ret, Hcp. f_equal. f_equal. lia.
        * rewrite !run_ret, Hcp. f_equal. f_equal. lia.
      + intros i Hi. assert (0 < fat_secs d) by lia. nia.
      + intros i Hi. unfold mirror. assert (0 < fat_secs d) by lia. nia.
      + lia.
    - exists 0%nat, 0. split; [done|]. destruct Hb as [Hb _]. split; [lia|]. split; lia. }
  destruct Hcase as (n & off & Hk & Ht & Hmir & Hcap).
  rewrite run_assoc, Hk. cbn [fst snd]. rewrite Nat2Z.id.
  destruct (write_copies_spec (S n) (b_unit b) q d (b_blkno b) off p true s)
    as (s' & Hr & Hio & Hf); [done|apply Hc|done|done|done|done|done|].
  rewrite (run_eq _ _ _ _ _ Hr). assert (Hbs : bufs s' = bufs s) by apply Hio.
  rewrite run_bmod by (by rewrite Hbs). cbn [negb]. rewrite run_ret.
  exists s'. rewrite Hbs. split; [done|]. split; [done|].
  eapply settled_flush; [apply Hc|exact Hm|exact Ed|exact Hmir|exact Hf].
Qed.

Lemma ring_live m l p : ring m l -> p ∈ l -> is_Some (m !! p).
Proof.
  intros Hr Hp. destruct l; [done|]. destruct Hr as (_ & Hl & _).
  exact (proj1 (Forall_forall _ _) Hl p Hp).
Qed.

(** The key under which a buffer is found. *)
Definition same_key (b c : buffer) : Prop :=
  valid c = valid b /\ b_unit c = b_unit b /\ b_blkno c = b_blkno b.

Lemma holds_key b c blk u : same_key b c -> holds c blk u = holds b blk u.
Proof. intros (Hv & Hu & Hb). unfold holds, valid in *. by rewrite Hv, Hu, Hb. Qed.

Lemma holds_true b blk u :
  holds b blk u = true <-> b_blkno b = blk /\ valid b = true /\ b_unit b = u.
Proof.
  unfold holds, valid. rewrite !andb_true_iff, !Z.eqb_eq. tauto.
Qed.

Lemma find_holder_some s l p blk u :
  cache s l -> p ∈ l -> holds (bufs s !!! p) blk u = true -> find_holder (bufs s) l blk u = Some p.
Proof.
  intros Hc Hp Hh. destruct (find_holder (bufs s) l blk u) as [q|] eqn:E.
  - apply find_holder_in in E as [Hq Hhq]. f_equal.
    apply holds_true in Hh as (? & ? & ?), Hhq as (? & ? & ?).
    apply (c_uniq _ _ Hc); [done..|congruence|congruence].
  - pose proof (find_holder_none _ _ _ _ _ E Hp). congruence.
Qed.

(** A buffer that is not the one flushed stays right. *)
Lemma buf_ok_settled s s' b0 b :
  ioframe s s' -> settled s s' b0 -> buf_ok s b ->
  (dirty b0 = true -> valid b = true -> dirty b = false ->
     b_unit b = b_unit b0 -> b_blkno b = b_blkno b0 -> False) ->
  buf_ok s' b.
Proof.
  intros Hf Hs [Hl Hb] Hne. split; [done|]. intros Hv.
  destruct (Hb Hv) as (q & d & Hm & Hbl & Hfat & Hd). exists q, d.
  split; [by eapply mounted_frame|]. split; [done|]. split; [done|]. intros Ed. rewrite (Hd Ed).
  rewrite (Hs _ _ _ _ Hm Hbl).
  destruct (dirty b0 && (b_unit b =? b_unit b0) && (b_blkno b =? b_blkno b0)) eqn:E; [|done].
  zbool. destruct Hne; done.
Qed.

Lemma cache_links_upd s l p f :
  cache s l -> p ∈ l -> (forall b, b_next (f b) = b_next b /\ b_prev (f b) = b_prev b) ->
  ring (upd p f (bufs s)) l.
Proof.
  intros Hc Hp Hf. eapply ring_links; [|apply Hc].
  apply upd_links; [by eapply ring_live; [apply Hc|]|done].
Qed.

Lemma uniq_upd s l p f :
  cache s l -> p ∈ l -> same_key (bufs s !!! p) (f (bufs s !!! p)) ->
  forall x y, x ∈ l -> y ∈ l ->
    valid (upd p f (bufs s) !!! x) = true -> valid (upd p f (bufs s) !!! y) = true ->
    b_unit (upd p f (bufs s) !!! x) = b_unit (upd p f (bufs s) !!! y) ->
    b_blkno (upd p f (bufs s) !!! x) = b_blkno (upd p f (bufs s) !!! y) -> x = y.
Proof.
  intros Hc Hp (Hv & Hu & Hb) x y Hx Hy.
  assert (E : forall z, valid (upd p f (bufs s) !!! z) = valid (bufs s !!! z) /\
              b_unit (upd p f (bufs s) !!! z) = b_unit (bufs s !!! z) /\
              b_blkno (upd p f (bufs s) !!! z) = b_blkno (bufs s !!! z)).
  { intros z. rewrite upd_total. destruct (decide (p = z)) as [<-|]; done. }
  destruct (E x) as (-> & -> & ->), (E y) as (-> & -> & ->). by apply (c_uniq _ _ Hc).
Qed.

Lemma flag_off_dirty b :
  same_key b (flag_off BFR_DIRTY b) /\ dirty (flag_off BFR_DIRTY b) = false.
Proof.
  split; [split; [|done]|].
  - unfold valid. flags. done.
  - flags. done.
Qed.

Lemma flush1_spec s l p :
  cache s l -> p ∈ l ->
  exists s', flush1 p s = Some (true, s') /\ cache s' l /\ same_view s l s' l /\
    ioframe s s' /\ bufs s' = upd p (flag_off BFR_DIRTY) (bufs s) /\ firstbuf s' = firstbuf s.
Proof.
  intros Hc Hp. destruct (flush1_run s l p Hc Hp) as (s1 & Hr & Hio & Hset).
  destruct (flag_off_dirty (bufs s !!! p)) as [Hkey Hnd].
  set (b := bufs s !!! p) in *.
  eexists. split; [exact Hr|].
  assert (Hfr : ioframe s (set_bufs (upd p (flag_off BFR_DIRTY) (bufs s)) s1)) by apply Hio.
  assert (Hset' : settled s (set_bufs (upd p (flag_off BFR_DIRTY) (bufs s)) s1) b) by exact Hset.
  split; [split; cbn [bufs set_bufs firstbuf drv]|split; [|split; [done|split; [done|apply Hio]]]].
  - by apply cache_links_upd.
  - destruct Hio as (_ & _ & -> & _). apply Hc.
  - apply Hc.
  - apply Hc.
  - apply Hio.
  - intros q Hq. rewrite upd_total. destruct (decide (p = q)) as [<-|Hne].
    + fold b. destruct (c_buf _ _ Hc _ Hp) as [Hl Hb]. fold b in Hl, Hb. split; [done|].
      intros Hv. destruct Hkey as (Hkv & Hku & Hkb). rewrite Hkv in Hv.
      destruct (Hb Hv) as (r & d & Hm & Hbl & Hfat & Hd). exists r, d.
      rewrite Hku, Hkb, Hnd. split; [by eapply mounted_frame|]. split; [done|].
      split; [intros Hx; apply Hfat; revert Hx; flags; done|].
      rewrite (Hset' _ _ _ _ Hm Hbl), !Z.eqb_refl, !andb_true_r. destruct (dirty b); [done|auto].
    + eapply buf_ok_settled; [exact Hfr|exact Hset'|by apply Hc|].
      intros Hd Hv _ Hu Hbk. destruct Hne. apply (c_uniq _ _ Hc); [done..|by apply dirty_valid| |done|done].
      done.
  - by apply uniq_upd.
  - intros ? ? ? ? ? ? H1 H2. eapply (c_inj _ _ Hc); (eapply mounted_frame; [|eassumption]); by apply ioframe_sym.
  - intros u q d blk Hm Hbl. unfold view. cbn [bufs set_bufs].
    rewrite (find_holder_ext (bufs s)).
    2:{ intros q' _. rewrite upd_total. destruct (decide (p = q')) as [<-|]; [|done].
        by apply holds_key. }
    destruct (find_holder (bufs s) l blk (dpb_unit d)) as [q'|] eqn:E.
    + rewrite upd_total. by destruct (decide (p = q')) as [<-|].
    + rewrite (Hset' _ _ _ _ Hm Hbl).
      destruct (dirty b && (u =? b_unit b) && (blk =? b_blkno b)) eqn:E2; [|done]. zbool.
      pose proof (find_holder_none _ _ _ _ p E Hp) as Hn.
      rewrite (proj2 (holds_true _ _ _)) in Hn; [done|].
      rewrite (mounted_unit _ _ _ _ Hm). split; [done|]. split; [by apply dirty_valid|done].
Qed.

(** ** Changing what one buffer holds *)

Lemma view_at s l p u q d blk :
  cache s l -> p ∈ l -> mounted s u q d -> holds (bufs s !!! p) blk u = true ->
  view s l d blk = b_buffer (bufs s !!! p).
Proof.
  intros Hc Hp Hm Hh. unfold view. rewrite (mounted_unit _ _ _ _ Hm).
  by rewrite (find_holder_some _ _ _ _ _ Hc Hp Hh).
Qed.

Lemma view_off s l u q d blk :
  mounted s u q d -> (forall p, p ∈ l -> holds (bufs s !!! p) blk u = false) ->
  view s l d blk = sector s d blk.
Proof.
  intros Hm Hn. unfold view. rewrite (mounted_unit _ _ _ _ Hm).
  destruct (find_holder (bufs s) l blk u) as [p|] eqn:E; [|done].
  apply find_holder_in in E as [Hp Hh]. rewrite Hn in Hh; done.
Qed.

(** The blocks are held by at most one buffer, or by none. *)
Lemma holder_cases s l blk u :
  cache s l ->
  (exists p, p ∈ l /\ holds (bufs s !!! p) blk u = true) \/
  (forall p, p ∈ l -> holds (bufs s !!! p) blk u = false).
Proof.
  intros _. destruct (find_holder (bufs s) l blk u) as [p|] eqn:E.
  - left. exists p. by apply find_holder_in in E.
  - right. intros p Hp. by eapply find_holder_none.
Qed.

Definition replaced (s s' : kst) (p : Z) (c : buffer) : Prop :=
  ioframe s s' /\ sec (dev s') = sec (dev s) /\
  (SECSIZE <= length (deblock_buf (drv s')))%nat /\ firstbuf s' = firstbuf s /\
  bufs s' = upd p (fun _ => c) (bufs s).

(** Buffer [p], clean or already holding the block, is made to hold block
    [blk] of drive [u]. *)
Lemma replace_spec s l p u q d blk c s' :
  cache s l -> p ∈ l -> mounted s u q d -> block_ok d blk ->
  dirty (bufs s !!! p) = false \/ holds (bufs s !!! p) blk u = true ->
  (forall x, x ∈ l -> holds (bufs s !!! x) blk u = true -> x = p) ->
  replaced s s' p c ->
  b_next c = b_next (bufs s !!! p) /\ b_prev c = b_prev (bufs s !!! p) ->
  is_sector (b_buffer c) -> holds c blk u = true ->
  (has (b_flag c) BFR_FAT = true -> fat_buffer c q d) ->
  (dirty c = false -> b_buffer c = sector s d blk) ->
  cache s' l /\
  forall u' q' d' blk', mounted s u' q' d' -> block_ok d' blk' ->
    view s' l d' blk' = if (u' =? u) && (blk' =? blk) then b_buffer c else view s l d' blk'.
Proof.
  intros Hc Hp Hm Hbl Hold Hun (Hfr & Hsec & Hdb & Hfb & Hbs) [Hn Hpv] Hlen Hh Hfat Hd.
  pose proof (proj1 (holds_true _ _ _) Hh) as (Hcb & Hcv & Hcu).
  assert (Hat : forall x, bufs s' !!! x = if decide (p = x) then c else bufs s !!! x).
  { intros x. by rewrite Hbs, upd_total. }
  assert (Hcache : cache s' l).
  { split.
    - eapply ring_links; [|apply Hc]. rewrite Hbs.
      apply same_links_insert; [|done|done]. by eapply ring_live; [apply Hc|].
    - rewrite Hfb. apply Hc.
    - apply Hc.
    - apply Hc.
    - done.
    - intros x Hx. rewrite Hat. destruct (decide (p = x)) as [<-|Hne].
      + split; [done|]. intros _. exists q, d. rewrite Hcu, Hcb.
        split; [by eapply mounted_frame|]. split; [done|]. split; [exact Hfat|].
        unfold sector. rewrite Hsec. exact Hd.
      + destruct (c_buf _ _ Hc _ Hx) as [Hl Hb]. split; [done|]. intros Hv.
        destruct (Hb Hv) as (r & e & Hm' & Hbl' & Hf' & Hd'). exists r, e.
        split; [by eapply mounted_frame|]. split; [done|]. split; [done|]. unfold sector. by rewrite Hsec.
    - intros x y Hx Hy. rewrite !Hat.
      destruct (decide (p = x)) as [<-|Hnx], (decide (p = y)) as [<-|Hny]; [done| | |].
      + rewrite Hcu, Hcb. intros _ Hv Hu Hb. symmetry. apply Hun; [done|].
        by apply holds_true.
      + rewrite Hcu, Hcb. intros Hv _ Hu Hb. apply Hun; [done|]. by apply holds_true.
      + by apply (c_uniq _ _ Hc).
    - intros ? ? ? ? ? ? H1 H2. eapply (c_inj _ _ Hc);
        (eapply mounted_frame; [|eassumption]); by apply ioframe_sym. }
  split; [done|]. intros u' q' d' blk' Hm' Hbl'.
  pose proof (mounted_frame _ _ _ _ _ Hfr Hm') as Hm2.
  destruct ((u' =? u) && (blk' =? blk)) eqn:E.
  { zbool. subst u' blk'. rewrite (view_at _ _ p u q' d' blk Hcache Hp Hm2);
      rewrite Hat, decide_True; done. }
  assert (Hnp : holds c blk' u' = false).
  { apply not_true_is_false. intros (H1 & _ & H2)%holds_true. subst.
    by rewrite !Z.eqb_refl in E. }
  destruct (holder_cases s l blk' u' Hc) as [(x & Hx & Hhx)|Hnone].
  - rewrite (view_at _ _ x u' q' d' blk' Hc Hx Hm' Hhx).
    destruct (decide (p = x)) as [<-|Hne].
    + (* the buffer held that block, and was clean *)
      rewrite (view_off s' l u' q' d' blk' Hm2).
      * destruct (c_buf _ _ Hc _ Hp) as [_ Hb].
        apply holds_true in Hhx as (Hb1 & Hb2 & Hb3).
        destruct (Hb Hb2) as (r & e & Hme & Hbe & _ & Hde). rewrite Hb3, Hb1 in *.
        destruct (mounted_fun _ _ _ _ _ _ Hme Hm') as [-> ->].
        assert (dirty (bufs s !!! p) = false) as Ed.
        { destruct Hold as [?|(H1 & _ & H2)%holds_true]; [done|].
          rewrite <- H1, <- H2, Hb1, Hb3, !Z.eqb_refl in E. done. }
        unfold sector. rewrite Hsec. symmetry. by apply Hde.
      * intros y Hy. rewrite Hat. destruct (decide (p = y)) as [<-|Hny]; [done|].
        apply not_true_is_false. intros Hhy. apply Hny.
        apply holds_true in Hhx as (? & ? & ?), Hhy as (? & ? & ?).
        apply (c_uniq _ _ Hc); [done..|congruence|congruence].
    + rewrite (view_at s' l x u' q' d' blk' Hcache Hx Hm2);
        rewrite Hat, decide_False; done.
  - rewrite (view_off s l u' q' d' blk' Hm' Hnone), (view_off s' l u' q' d' blk' Hm2).
    + unfold sector. by rewrite Hsec.
    + intros x Hx. rewrite Hat. destruct (decide (p = x)); [done|by apply Hnone].
Qed.

(** ** Reordering the ring *)

(** The buffers agree on all that matters for the views. *)
Definition same_body (b c : buffer) : Prop :=
  same_key b c /\ dirty c = dirty b /\ has (b_flag c) BFR_FAT = has (b_flag b) BFR_FAT /\
  b_copies c = b_copies b /\ b_offset c = b_offset b /\ b_dpbp c = b_dpbp b /\
  b_buffer c = b_buffer b.

Lemma same_body_data b c c' : same_body b c -> data c' = data c -> same_body b c'.
Proof.
  intros ((Hv & Hu & Hb) & Hd & Hf & Hc & Ho & Hp & Hbuf) He. unfold data in He.
  destruct c as [? ? u1 f1 k1 c1 o1 p1 l1], c' as [? ? u2 f2 k2 c2 o2 p2 l2].
  unfold same_body, same_key, valid, dirty in *. cbn in *.
  injection He as -> -> -> -> -> -> ->. done.
Qed.

Lemma buf_ok_body s s' b c :
  ioframe s s' -> sec (dev s') = sec (dev s) -> same_body b c -> buf_ok s b -> buf_ok s' c.
Proof.
  intros Hf Hs ((Hv & Hu & Hbk) & Hd & Hfat & Hcp & Ho & Hp & Hbuf) [Hl Hb].
  split; [by rewrite Hbuf|]. rewrite Hv. intros Hvb.
  destruct (Hb Hvb) as (q & d & Hm & Hbl & Hff & Hdd). exists q, d.
  rewrite Hu, Hbk, Hd, Hfat, Hbuf. split; [by eapply mounted_frame|]. split; [done|].
  unfold sector. rewrite Hs. split; [|done]. intros Hx. specialize (Hff Hx).
  unfold fat_buffer in *. by rewrite Hcp, Ho, Hp, Hbk.
Qed.

Lemma reorder_spec s l s' l' :
  cache s l -> ioframe s s' -> sec (dev s') = sec (dev s) ->
  (SECSIZE <= length (deblock_buf (drv s')))%nat ->
  ring (bufs s') l' -> firstbuf s' = List.hd 0 l' -> l' ≡ₚ l ->
  (forall p, p ∈ l -> same_body (bufs s !!! p) (bufs s' !!! p)) ->
  cache s' l' /\ same_view s l s' l'.
Proof.
  intros Hc Hfr Hsec Hdb Hr Hfb Hperm Hbody.
  assert (Hin : forall p, p ∈ l' -> p ∈ l) by (intros p; by rewrite Hperm).
  assert (Hcache : cache s' l').
  { split; [done|done| | |done| | |].
    - rewrite Hperm. apply Hc.
    - rewrite Hperm. apply Hc.
    - intros p Hp%Hin. eapply buf_ok_body; [done|done|by apply Hbody|by apply Hc].
    - intros x y Hx%Hin Hy%Hin.
      destruct (Hbody _ Hx) as ((-> & -> & ->) & _), (Hbody _ Hy) as ((-> & -> & ->) & _).
      by apply (c_uniq _ _ Hc).
    - intros ? ? ? ? ? ? H1 H2. eapply (c_inj _ _ Hc);
        (eapply mounted_frame; [|eassumption]); by apply ioframe_sym. }
  split; [done|]. intros u q d blk Hm Hbl.
  pose proof (mounted_frame _ _ _ _ _ Hfr Hm) as Hm'.
  destruct (holder_cases s l blk u Hc) as [(x & Hx & Hhx)|Hnone].
  - destruct (Hbody _ Hx) as (Hk & Hrest).
    rewrite (view_at s l x u q d blk Hc Hx Hm Hhx).
    rewrite (view_at s' l' x u q d blk Hcache); [apply Hrest|by rewrite Hperm|done|].
    by rewrite (holds_key _ _ _ _ Hk).
  - rewrite (view_off s l u q d blk Hm Hnone), (view_off s' l' u q d blk Hm').
    + unfold sector. by rewrite Hsec.
    + intros x Hx%Hin. destruct (Hbody _ Hx) as (Hk & _).
      rewrite (holds_key _ _ _ _ Hk). by apply Hnone.
Qed.

Lemma same_view_trans s l s1 l1 s2 l2 :
  ioframe s s1 -> same_view s l s1 l1 -> same_view s1 l1 s2 l2 -> same_view s l s2 l2.
Proof.
  intros Hf H1 H2 u p d blk Hm Hb. rewrite (H2 u p d blk), (H1 u p d blk); try done.
  by eapply mounted_frame.
Qed.

Lemma same_body_uncache b :
  same_body b (flag_on BFR_UNCACHE b) /\ same_body b (flag_off BFR_UNCACHE b).
Proof. split; (split; [split; [unfold valid; flags|done]|split; [flags|split; [flags|]]]; done). Qed.

Lemma ring_nodup m l : ring m l -> NoDup l.
Proof. destruct l; [done|]. by intros [? _]. Qed.

(** [searchblock] keeps the cache and all views. *)
Lemma searchblock_cache s l blk u :
  cache s l ->
  exists p s', searchblock blk u s = Some (p, s') /\ p ∈ l /\ cache s' (lru p l) /\
    same_view s l s' (lru p l) /\ ioframe s s' /\
    (forall x, x <> p -> data (bufs s' !!! x) = data (bufs s !!! x)) /\
    match find_holder (bufs s) l blk u with
    | Some h => p = h /\ has (b_flag (bufs s' !!! p)) BFR_UNCACHE = false /\
        b_buffer (bufs s' !!! p) = b_buffer (bufs s !!! p) /\ holds (bufs s' !!! p) blk u = true
    | None => p = victim (bufs s) l /\ has (b_flag (bufs s' !!! p)) BFR_UNCACHE = true /\
        forall x, x ∈ l -> holds (bufs s' !!! x) blk u = false
    end.
Proof.
  intros Hc. pose proof (searchblock_spec blk u l s (c_ring _ _ Hc) (c_first _ _ Hc) (c_len _ _ Hc)) as H.
  set (fh := find_holder (bufs s) l blk u) in *.
  assert (Hcommon : forall p f, (forall b, same_body b (f b)) -> p ∈ l ->
    (exists m', searchblock blk u s = Some (p, set_firstbuf p (set_bufs m' s)) /\
      ring m' (lru p l) /\ same_data (upd p f (bufs s)) m') ->
    exists s', searchblock blk u s = Some (p, s') /\ cache s' (lru p l) /\
      same_view s l s' (lru p l) /\ ioframe s s' /\
      (forall x, x <> p -> data (bufs s' !!! x) = data (bufs s !!! x)) /\
      data (bufs s' !!! p) = data (f (bufs s !!! p)) /\
      (forall x, x ∈ l -> same_key (bufs s !!! x) (bufs s' !!! x))).
  { intros p f Hf Hp (m' & Hr & Hring & Hd).
    assert (Hbody : forall x, same_body (bufs s !!! x) (m' !!! x)).
    { intros x. destruct Hd as [_ Hd]. specialize (Hd x). rewrite upd_total in Hd.
      destruct (decide (p = x)) as [<-|].
      - eapply same_body_data; [apply Hf|done].
      - eapply same_body_data; [|exact Hd]. done. }
    eexists. split; [exact Hr|].
    destruct (reorder_spec s l (set_firstbuf p (set_bufs m' s)) (lru p l)) as [Hc' Hv];
      [done|done|done|apply Hc|done|done| |intros; apply Hbody|].
    { apply lru_permutation; [by eapply ring_nodup, Hc|done]. }
    split; [done|]. split; [done|]. split; [done|]. cbn [bufs set_firstbuf set_bufs].
    destruct Hd as [_ Hd]. split; [|split].
    - intros x Hx. rewrite Hd, upd_total, decide_False by auto. done.
    - rewrite Hd, upd_total, decide_True; done.
    - intros x _. apply Hbody. }
  destruct fh as [h|] eqn:Efh; unfold fh in Efh.
  - destruct H as [Hp H].
    destruct (Hcommon h (flag_off BFR_UNCACHE)) as (s' & Hr & Hc' & Hv & Hfr & Hx & Hdp & Hk);
      [intros b; apply same_body_uncache|done|done|].
    exists h, s'. split; [done|]. split; [done|]. split; [done|]. split; [done|].
    split; [done|]. split; [done|]. split; [done|].
    apply find_holder_in in Efh as [_ Hh].
    split; [|split].
    + assert (E : b_flag (bufs s' !!! h) = b_flag (data (bufs s' !!! h))) by done.
      rewrite E, Hdp. change (b_flag (data ?b)) with (b_flag b).
      cbn [data set_next set_prev b_flag flag_off set_flag].
      rewrite has_UNCACHE. unfold clear. rewrite Z.ldiff_spec.
      change (Z.testbit BFR_UNCACHE 0) with true. by rewrite andb_false_r.
    + assert (E : b_buffer (bufs s' !!! h) = b_buffer (data (bufs s' !!! h))) by done.
      by rewrite E, Hdp.
    + by rewrite (holds_key _ _ _ _ (Hk _ Hp)).
  - destruct H as [Hp H].
    destruct (Hcommon (victim (bufs s) l) (flag_on BFR_UNCACHE)) as (s' & Hr & Hc' & Hv & Hfr & Hx & Hdp & Hk);
      [intros b; apply same_body_uncache|done|done|].
    exists (victim (bufs s) l), s'. split; [done|]. split; [done|]. split; [done|]. split; [done|].
    split; [done|]. split; [done|]. split; [done|]. split.
    + assert (E : b_flag (bufs s' !!! victim (bufs s) l) = b_flag (data (bufs s' !!! victim (bufs s) l))) by done.
      rewrite E, Hdp. cbn [data set_next set_prev b_flag flag_on set_flag].
      rewrite has_UNCACHE. unfold setf. rewrite Z.lor_spec.
      change (Z.testbit BFR_UNCACHE 0) with true. by rewrite orb_true_r.
    + intros x Hxl. rewrite (holds_key _ _ _ _ (Hk _ Hxl)). by eapply find_holder_none.
Qed.

(** ** getblk *)

Lemma lru_in p l x : NoDup l -> p ∈ l -> x ∈ lru p l <-> x ∈ l.
Proof. intros Hn Hp. by rewrite (lru_permutation _ _ Hn Hp). Qed.

Lemma upd_upd p f g m : upd p g (upd p f m) = upd p (fun b => g (f b)) m.
Proof.
  unfold upd. rewrite lookup_total_insert_eq. apply insert_insert_eq.
Qed.

Lemma upd_const p f m : upd p f m = upd p (fun _ => f (m !!! p)) m.
Proof. done. Qed.

Lemma set_bufs_twice v w (s : kst) : set_bufs v (set_bufs w s) = set_bufs v s.
Proof. done. Qed.

Lemma s8_small u : -128 <= u < 128 -> s8 u = u.
Proof. intros H. unfold s8. rewrite Z.mod_small; lia. Qed.

(** The buffer [getblk] sets up for a block it read. *)
Definition filled (u blk : Z) (data : list Z) (b : buffer) : buffer :=
  set_blkno blk (set_unit u (set_flag (Z.lor BFR_VALID BFR_DATA) (set_buffer data b))).

Lemma filled_facts u blk dt b :
  holds (filled u blk dt b) blk u = true /\ dirty (filled u blk dt b) = false /\
  has (b_flag (filled u blk dt b)) BFR_UNCACHE = false /\
  has (b_flag (filled u blk dt b)) BFR_FAT = false.
Proof.
  split; [apply holds_true; by repeat split|]. by repeat split.
Qed.

Lemma getblk_spec s l u q d blk :
  cache s l -> mounted s u q d -> block_ok d blk ->
  exists p s', getblk blk u false s = Some (p, s') /\ p ∈ l /\ p <> NULL /\
    cache s' (lru p l) /\ same_view s l s' (lru p l) /\ ioframe s s' /\
    holds (bufs s' !!! p) blk u = true /\ has (b_flag (bufs s' !!! p)) BFR_UNCACHE = false /\
    b_buffer (bufs s' !!! p) = view s l d blk /\
    (forall x, x <> p -> data (bufs s' !!! x) = data (bufs s !!! x)) /\
    p = match find_holder (bufs s) l blk u with Some h => h | None => victim (bufs s) l end.
Proof.
  intros Hc Hm Hbl.
  destruct (searchblock_cache s l blk u Hc) as (p & s1 & Hr & Hp & Hc1 & Hv1 & Hf1 & Hd1 & Hfh).
  assert (Hnull : p <> NULL) by (intros ->; by apply (c_zero _ _ Hc)).
  assert (Hp1 : p ∈ lru p l) by (by apply elem_of_cons; left).
  assert (Hlive1 : is_Some (bufs s1 !! p)) by (by eapply ring_live; [apply Hc1|]).
  pose proof (mounted_frame _ _ _ _ _ Hf1 Hm) as Hm1.
  unfold getblk. rewrite (run_eq _ _ _ _ _ Hr), run_bget by done.
  destruct (find_holder (bufs s) l blk u) as [h|] eqn:Efh.
  - destruct Hfh as (-> & Hun & Hbuf & Hh). rewrite Hun. cbn [negb].
    exists h, s1. repeat (split; [done|]). split; [|done].
    rewrite <- (view_at s1 (lru h l) h u q d blk Hc1 Hp1 Hm1 Hh). by apply Hv1 with u q.
  - destruct Hfh as (Hvic & Hun & Hnone). rewrite Hun. cbn [negb].
    destruct (flush1_spec s1 (lru p l) p Hc1 Hp1) as (s2 & Hr2 & Hc2 & Hv2 & Hf2 & Hb2 & Hfb2).
    rewrite (run_eq _ _ _ _ _ Hr2). cbn [negb].
    pose proof (mounted_frame _ _ _ _ _ Hf2 Hm1) as Hm2.
    assert (Hlive2 : is_Some (bufs s2 !! p)) by (rewrite Hb2; by apply upd_some).
    destruct (c_buf _ _ Hc2 _ Hp1) as [Hlen2 _].
    destruct (bufxfer_read u q d blk p s2 Hm2 (c_deblock _ _ Hc2) (proj1 Hbl) Hlive2 (proj1 Hlen2))
      as (s3 & Hr3 & Hio3 & Hsec3).
    rewrite (run_eq _ _ _ _ _ Hr3). change (negb (0 =? 0)) with false. cbn iota.
    set (m3 := upd p (set_buffer (sector s2 d blk)) (bufs s2)).
    do 3 (rewrite run_bmod by (cbn [bufs set_bufs]; unfold m3; repeat apply upd_some; exact Hlive2);
          cbn [bufs set_bufs]).
    rewrite !set_bufs_twice. unfold m3. rewrite !upd_upd, s8_small by apply Hm.
    set (c := filled u blk (sector s2 d blk) (bufs s2 !!! p)).
    change (upd p _ (bufs s2)) with (upd p (fun _ => c) (bufs s2)).
    destruct (filled_facts u blk (sector s2 d blk) (bufs s2 !!! p)) as (Hh & Hnd & Hnu & Hnf).
    fold c in Hh, Hnd, Hnu, Hnf.
    assert (Hrep : replaced s2 (set_bufs (upd p (fun _ => c) (bufs s2)) s3) p c).
    { split; [apply Hio3|]. split; [exact Hsec3|]. split; [apply Hio3|].
      split; [apply Hio3|done]. }
    assert (Hnone2 : forall x, x ∈ lru p l -> holds (bufs s2 !!! x) blk u = false).
    { intros x Hx. rewrite Hb2, upd_total.
      assert (x ∈ l) by (apply (lru_in p l x); [by eapply ring_nodup, Hc|done|done]).
      destruct (decide (p = x)) as [<-|]; [|by apply Hnone].
      rewrite (holds_key _ _ _ _ (proj1 (flag_off_dirty _))). by apply Hnone. }
    destruct (replace_spec s2 (lru p l) p u q d blk c
                (set_bufs (upd p (fun _ => c) (bufs s2)) s3) Hc2 Hp1 Hm2 Hbl) as [Hc4 Hv4];
      [left|intros x Hx Hhx; rewrite (Hnone2 _ Hx) in Hhx; discriminate|exact Hrep|done|split; [apply sec_length|apply sec_bytes]|done| | |].
    { rewrite Hb2, upd_total, decide_True by done. apply flag_off_dirty. }
    { by rewrite Hnf. }
    { done. }
    exists p, (set_bufs (upd p (fun _ => c) (bufs s2)) s3).
    split; [done|]. split; [done|]. split; [done|]. split; [done|].
    assert (Hsv2 : same_view s l s2 (lru p l)) by (by eapply same_view_trans).
    assert (Hvs : view s l d blk = sector s2 d blk).
    { rewrite <- (Hsv2 u q d blk Hm Hbl). by apply (view_off s2 (lru p l) u q d blk). }
    assert (Hf02 : ioframe s s2) by (by eapply ioframe_trans).
    split; [|split; [|split; [|split; [|split; [|split; [|done]]]]]].
    + intros u' q' d' blk' Hm' Hbl'. rewrite (Hv4 u' q' d' blk' (mounted_frame _ _ _ _ _ Hf02 Hm') Hbl').
      destruct ((u' =? u) && (blk' =? blk)) eqn:E.
      * zbool. subst. destruct (mounted_fun _ _ _ _ _ _ Hm Hm') as [-> ->]. by rewrite Hvs.
      * by apply Hsv2 with u' q'.
    + eapply ioframe_trans; [exact Hf02|apply Hio3].
    + cbn [bufs set_bufs]. by rewrite upd_total, decide_True.
    + cbn [bufs set_bufs]. by rewrite upd_total, decide_True.
    + cbn [bufs set_bufs]. by rewrite upd_total, decide_True, Hvs.
    + intros x Hx. cbn [bufs set_bufs]. rewrite upd_total, decide_False by auto.
      rewrite Hb2, upd_total, decide_False by auto. by apply Hd1.
Qed.

End Spec.
End Cache.
