(* ===== verification/CacheOps.v ===== *)
(** * Operations on the whole cache

    Stores into a buffer, buffers for blocks that are overwritten, the loops
    over the ring, and why two FAT sectors never share a buffer. *)

From S2P Require Import Prelude KState BlockIO Disk Ring CacheSpec.
Import Ks Bio Dsk Ring Cache.

Module CacheOps.
Section Spec.
Context {M : Machine} {D : Disk}.

(** ** The loops over the ring *)

Lemma ring_next m dn p rest :
  ring m (dn ++ p :: rest) ->
  b_next (m !!! p) = List.hd (List.hd 0 (dn ++ p :: rest)) rest.
Proof.
  destruct dn as [|x dn]; simpl.
  - intros (_ & _ & H). by apply path_head in H.
  - intros (_ & _ & H). apply path_app in H as [_ H]. by apply path_head in H.
Qed.

Lemma over_ring_spec l (body : Z -> bool -> K kst bool) (I : list Z -> bool -> kst -> Prop) s ok :
  (forall dn p rest ok s, l = dn ++ p :: rest -> I dn ok s ->
    exists ok' s', body p ok s = Some (ok', s') /\ I (dn ++ [p]) ok' s') ->
  (forall dn ok s, I dn ok s -> ring (bufs s) l /\ firstbuf s = List.hd 0 l) ->
  (length l <= ring_fuel)%nat -> I [] ok s ->
  exists ok' s', over_ring body ok s = Some (ok', s') /\ I l ok' s'.
Proof.
  intros Hbody Hring Hlen HI. unfold over_ring. rewrite run_get.
  destruct (Hring _ _ _ HI) as [Hr Hf]. destruct l as [|x l0] eqn:El; [done|]. rewrite <- El in *.
  assert (Hgen : forall fuel dn p rest ok s, l = dn ++ p :: rest -> (length (p :: rest) <= fuel)%nat ->
    I dn ok s -> exists ok' s', ring_loop fuel p body ok s = Some (ok', s') /\ I l ok' s').
  { clear s ok HI Hr Hf. intros fuel. induction fuel as [|fuel IH]; intros dn p rest ok s E Hfu HI;
      [simpl in Hfu; lia|].
    cbn [ring_loop]. destruct (Hbody _ _ _ _ _ E HI) as (ok' & s' & Hrun & HI').
    rewrite (run_eq _ _ _ _ _ Hrun). destruct (Hring _ _ _ HI') as [Hr Hf].
    assert (Hnd : NoDup l) by (by eapply ring_nodup).
    rewrite run_bget; [|eapply ring_live; [exact Hr|rewrite E; set_solver]].
    rewrite run_get. rewrite E in Hr. rewrite (ring_next _ _ _ _ Hr), <- E, Hf.
    destruct rest as [|y rest];
      [change (List.hd (List.hd 0 l) []) with (List.hd 0 l)
      |change (List.hd (List.hd 0 l) (y :: rest)) with y].
    - rewrite Z.eqb_refl. exists ok', s'. split; [done|]. by rewrite E.
    - assert (Hy : (y =? List.hd 0 l) = false).
      { apply Z.eqb_neq. intros Hy. rewrite E in Hnd, Hy. destruct dn as [|z dn]; simpl in *.
        - subst. apply NoDup_cons in Hnd as [Hnd _]. apply Hnd, elem_of_cons. by left.
        - subst. apply NoDup_cons in Hnd as [Hnd _]. apply Hnd. set_solver. }
      rewrite Hy. apply (IH (dn ++ [p]) y rest ok' s'); [by rewrite <- app_assoc|simpl in *; lia|done]. }
  assert (Hx : List.hd 0 l = x) by (by rewrite El). rewrite Hf, Hx.
  apply (Hgen ring_fuel [] x l0 ok s); [done|by rewrite <- El|done].
Qed.

(** ** flush_buffers *)

Lemma clean_sector s l u q d blk :
  cache s l -> mounted s u q d ->
  (forall p, p ∈ l -> b_unit (bufs s !!! p) = u -> dirty (bufs s !!! p) = false) ->
  sector s d blk = view s l d blk.
Proof.
  intros Hc Hm Hcl. destruct (holder_cases s l blk u Hc) as [(x & Hx & Hhx)|Hnone].
  - rewrite (view_at s l x u q d blk Hc Hx Hm Hhx).
    apply holds_true in Hhx as (Hb & Hv & Hu).
    destruct (c_buf _ _ Hc _ Hx) as [_ Hok]. destruct (Hok Hv) as (r & e & Hme & _ & _ & Hd).
    rewrite Hu in Hme. destruct (mounted_fun _ _ _ _ _ _ Hm Hme) as [-> ->].
    rewrite (Hd (Hcl _ Hx Hu)), Hb. done.
  - symmetry. by apply (view_off s l u q d blk).
Qed.

Lemma flush_buffers_spec s l u :
  cache s l ->
  exists s', flush_buffers u s = Some (true, s') /\ cache s' l /\ same_view s l s' l /\
    ioframe s s' /\
    (forall p, p ∈ l -> b_unit (bufs s' !!! p) = u -> dirty (bufs s' !!! p) = false).
Proof.
  intros Hc. unfold flush_buffers.
  match goal with |- context [over_ring ?b true s] =>
    destruct (over_ring_spec l b (fun dn ok s1 =>
    ok = true /\ cache s1 l /\ same_view s l s1 l /\ ioframe s s1 /\
    (forall p, p ∈ dn -> b_unit (bufs s1 !!! p) = u -> dirty (bufs s1 !!! p) = false)) s true)
    as (ok & s' & Hr & -> & Hc' & Hv & Hf & Hd)
  end.
  - intros dn p rest ok s1 El (-> & Hc1 & Hv1 & Hf1 & Hd1).
    assert (Hp : p ∈ l) by (rewrite El; set_solver).
    rewrite run_bget by (by eapply ring_live; [apply Hc1|]).
    destruct (b_unit (bufs s1 !!! p) =? u) eqn:Eu; zbool.
    + destruct (flush1_spec s1 l p Hc1 Hp) as (s2 & Hr2 & Hc2 & Hv2 & Hf2 & Hb2 & _).
      exists true, s2. rewrite (run_eq _ _ _ _ _ Hr2). split; [done|].
      split; [done|]. split; [done|]. split; [by eapply same_view_trans|].
      split; [by eapply ioframe_trans|]. intros x Hx. rewrite Hb2, upd_total.
      destruct (decide (p = x)) as [<-|]; [intros _; apply flag_off_dirty|].
      apply Hd1. set_solver.
    + exists true, s1. split; [done|]. split; [done|]. split; [done|]. split; [done|].
      split; [done|]. intros x Hx. apply elem_of_app in Hx as [Hx|Hx]; [by apply Hd1|].
      apply list_elem_of_singleton in Hx as ->. done.
  - intros dn ok s1 (_ & Hc1 & _). split; apply Hc1.
  - apply Hc.
  - split; [done|]. split; [done|]. split; [done|]. split; [done|]. set_solver.
  - by exists s'.
Qed.

(** ** Stores through the buffer that holds a block *)

Lemma holder_uniq s l p blk u x :
  cache s l -> p ∈ l -> holds (bufs s !!! p) blk u = true ->
  x ∈ l -> holds (bufs s !!! x) blk u = true -> x = p.
Proof.
  intros Hc Hp (? & ? & ?)%holds_true Hx (? & ? & ?)%holds_true.
  apply (c_uniq _ _ Hc); [done..|congruence|congruence].
Qed.

Lemma store_spec s l p u q d blk f :
  cache s l -> p ∈ l -> mounted s u q d -> block_ok d blk ->
  let b := bufs s !!! p in
  holds b blk u = true ->
  b_next (f b) = b_next b /\ b_prev (f b) = b_prev b ->
  is_sector (b_buffer (f b)) -> holds (f b) blk u = true ->
  (has (b_flag (f b)) BFR_FAT = true -> fat_buffer (f b) q d) ->
  (dirty (f b) = false -> b_buffer (f b) = sector s d blk) ->
  let s' := set_bufs (upd p f (bufs s)) s in
  cache s' l /\
  forall u' q' d' blk', mounted s u' q' d' -> block_ok d' blk' ->
    view s' l d' blk' =
      if (u' =? u) && (blk' =? blk) then b_buffer (f b) else view s l d' blk'.
Proof.
  intros Hc Hp Hm Hbl b Hh Hlk Hlen Hh' Hfat Hd s'.
  apply (replace_spec s l p u q d blk (f b)); try done.
  - by right.
  - intros x Hx Hhx. by eapply holder_uniq.
  - split; [done|]. split; [done|]. split; [apply Hc|done].
Qed.

(** The block shown by its own holder. *)
Lemma store_same_view s l p u q d blk f :
  cache s l -> p ∈ l -> mounted s u q d -> block_ok d blk ->
  let b := bufs s !!! p in
  holds b blk u = true ->
  b_next (f b) = b_next b /\ b_prev (f b) = b_prev b ->
  b_buffer (f b) = b_buffer b -> holds (f b) blk u = true ->
  dirty (f b) = dirty b ->
  (has (b_flag (f b)) BFR_FAT = true -> fat_buffer (f b) q d) ->
  let s' := set_bufs (upd p f (bufs s)) s in
  cache s' l /\ same_view s l s' l.
Proof.
  intros Hc Hp Hm Hbl b Hh Hlk Hbuf Hh' Hd Hfat s'.
  assert (Hok := c_buf _ _ Hc _ Hp). fold b in Hok. destruct Hok as [Hlen Hok].
  pose proof (proj1 (holds_true _ _ _) Hh) as (Hb1 & Hb2 & Hb3).
  destruct (store_spec s l p u q d blk f Hc Hp Hm Hbl Hh Hlk) as [Hc' Hv];
    [fold b; by rewrite Hbuf|done|done| |].
  - fold b. intros E. rewrite Hbuf.
    destruct (Hok Hb2) as (r & e & Hme & _ & _ & Hde). rewrite Hb3 in Hme.
    destruct (mounted_fun _ _ _ _ _ _ Hm Hme) as [-> ->]. rewrite <- Hd, Hb1 in Hde. by apply Hde.
  - split; [done|]. intros u' q' d' blk' Hm' Hbl'. unfold s'. rewrite (Hv _ _ _ _ Hm' Hbl').
    destruct ((u' =? u) && (blk' =? blk)) eqn:E; [|done]. zbool. subst.
    destruct (mounted_fun _ _ _ _ _ _ Hm Hm') as [-> ->]. fold b. rewrite Hbuf.
    symmetry. by eapply view_at.
Qed.

(** ** Two FAT sectors never share a buffer *)

Lemma scan_flags m l a :
  let a' := fold_left (scan_one m) l a in
  (lastNonFat a' = lastNonFat a \/
     (lastNonFat a' ∈ l /\ has (b_flag (m !!! lastNonFat a')) BFR_FAT = false)) /\
  (uncacheBuf a' = uncacheBuf a \/
     (uncacheBuf a' ∈ l /\ has (b_flag (m !!! uncacheBuf a')) BFR_UNCACHE = true)).
Proof.
  revert a. induction l as [|p l IH]; intros a; simpl; [tauto|].
  assert (H : (lastNonFat (scan_one m a p) = lastNonFat a \/
               (lastNonFat (scan_one m a p) = p /\ has (b_flag (m !!! p)) BFR_FAT = false)) /\
              (uncacheBuf (scan_one m a p) = uncacheBuf a \/
               (uncacheBuf (scan_one m a p) = p /\ has (b_flag (m !!! p)) BFR_UNCACHE = true))).
  { unfold scan_one. destruct (has _ BFR_FAT), (has _ BFR_UNCACHE); simpl; tauto. }
  destruct (IH (scan_one m a p)) as [H1 H2], H as [H3 H4]. cbv zeta in *. split.
  - destruct H1 as [->|[? ?]]; [|right; split; [by apply elem_of_cons; right|done]].
    destruct H3 as [->|[-> ?]]; [by left|right; split; [by apply elem_of_cons; left|done]].
  - destruct H2 as [->|[? ?]]; [|right; split; [by apply elem_of_cons; right|done]].
    destruct H4 as [->|[-> ?]]; [by left|right; split; [by apply elem_of_cons; left|done]].
Qed.

Lemma victim_not_first m p l :
  NoDup (p :: l) -> 0 ∉ p :: l -> l <> [] ->
  has (b_flag (m !!! p)) BFR_UNCACHE = false -> has (b_flag (m !!! p)) BFR_FAT = true ->
  victim m (p :: l) <> p.
Proof.
  intros Hn H0 Hl Hu Hf. unfold victim.
  destruct (scan_flags m (p :: l) (Scan 0 0 0)) as [H1 H2].
  change (fold_left (scan_one m) (p :: l) (Scan 0 0 0)) with (scan_all m (p :: l)) in *.
  cbv zeta in *. cbn [lastNonFat uncacheBuf] in *.
  assert (Hp0 : p <> 0) by (intros ->; apply H0, elem_of_cons; by left).
  destruct (uncacheBuf (scan_all m (p :: l)) =? 0) eqn:E1; cbn [negb]; zbool.
  - destruct (_ && _ && _) eqn:E2.
    + zbool. destruct H1 as [H1|[_ H1]]; [done|]. intros Heq. rewrite Heq in H1. congruence.
    + rewrite last_cons. destruct l as [|y l]; [done|]. rewrite last_cons.
      intros Heq. apply NoDup_cons in Hn as [Hn _]. apply Hn. rewrite <- Heq. apply last_in.
  - destruct H2 as [H2|[_ H2]]; [done|]. intros Heq. rewrite Heq in H2. congruence.
Qed.

End Spec.
End CacheOps.
