(* ===== verification/FatPure.v ===== *)
(** * The file allocation table as bytes

    A FAT is a function from byte offsets to bytes.  [entry] reads the entry
    of a cluster and [store] writes one, in the three layouts; the main lemma
    is that a store changes exactly one entry.  [decode] is the cluster value
    that the rest of the file system sees. *)

From S2P Require Import Prelude KState BlockIO FatTab.
Import Ks Bio Fat.

Module FatPure.

(** ** Bit operations as arithmetic *)

Lemma land_0xfff x : Z.land x 0xfff = x mod 4096.
Proof. exact (land_mask x 12 ltac:(lia)). Qed.
Lemma land_0xf x : Z.land x 0xf = x mod 16.
Proof. exact (land_mask x 4 ltac:(lia)). Qed.
Lemma land_last x : Z.land x LONG_LAST_CLUSTER = x mod 2 ^ 28.
Proof. exact (land_mask x 28 ltac:(lia)). Qed.
Lemma land_0xf000 x : 0 <= x < 65536 -> Z.land x 0xf000 = x / 4096 * 4096.
Proof.
  intros Hx. change 0xf000 with (Z.shiftl (Z.ones 4) 12).
  apply Z.bits_inj'. intros n Hn. rewrite Z.land_spec.
  destruct (decide (n < 12)).
  - rewrite Z.shiftl_spec_low by lia. rewrite andb_false_r.
    change 4096 with (2 ^ 12). by rewrite Z.mul_pow2_bits_low by lia.
  - rewrite Z.shiftl_spec by lia. change 4096 with (2 ^ 12).
    rewrite Z.mul_pow2_bits by lia. rewrite Z.div_pow2_bits by lia.
    replace (n - 12 + 12) with n by lia.
    destruct (decide (n < 16)).
    + rewrite Z.ones_spec_low by lia. by rewrite andb_true_r.
    + rewrite Z.ones_spec_high by lia. rewrite andb_false_r. symmetry.
      apply Z.bits_above_log2; [lia|]. destruct (decide (x = 0)) as [->|]; [simpl; lia|].
      apply Z.log2_lt_pow2; [lia|]. apply Z.lt_le_trans with (2 ^ 16); [lia|].
      apply Z.pow_le_mono_r; lia.
Qed.

(** Arithmetic with quotients and remainders by constants. *)
Ltac divmod := Z.to_euclidean_division_equations; lia.

(** ** Entries *)

Definition word (f : Z -> Z) (i : Z) : Z := Z.lor (f i) (Z.shiftl (f (i + 1)) 8).
Definition long (f : Z -> Z) (i : Z) : Z := Z.lor (word f i) (Z.shiftl (word f (i + 2)) 16).

Definition put (i v : Z) (f : Z -> Z) : Z -> Z := fun j => if j =? i then u8 v else f j.
Definition putword (i v : Z) (f : Z -> Z) : Z -> Z := put (i + 1) (Z.shiftr v 8) (put i v f).
Definition putlong (i v : Z) (f : Z -> Z) : Z -> Z := putword (i + 2) (Z.shiftr v 16) (putword i v f).

(** The layout, and the byte where the entry of a cluster begins. *)
Inductive fat_type := FAT12 | FAT16 | FAT32.

Definition type_of (d : dpb) : option fat_type :=
  if ISFAT12 d then Some FAT12 else if ISFAT16 d then Some FAT16
  else if ISFAT32 d then Some FAT32 else None.

Definition at_byte (k : fat_type) (c : Z) : Z :=
  match k with FAT12 => c * 3 / 2 | FAT16 => 2 * c | FAT32 => 4 * c end.
(** The last byte of the entry, from the first. *)
Definition span (k : fat_type) : Z := match k with FAT32 => 3 | _ => 1 end.
Lemma span_range k : 1 <= span k <= 3.
Proof. destruct k; cbn; lia. Qed.
Definition width (k : fat_type) : Z := match k with FAT12 => 12 | FAT16 => 16 | FAT32 => 28 end.

Definition entry (k : fat_type) (f : Z -> Z) (c : Z) : Z :=
  match k with
  | FAT12 => unpack12 c (word f (at_byte k c))
  | FAT16 => word f (at_byte k c)
  | FAT32 => Z.land (long f (at_byte k c)) LONG_LAST_CLUSTER
  end.

(** The bytes after [v] was stored for cluster [c]. *)
Definition store (k : fat_type) (f : Z -> Z) (c v : Z) : Z -> Z :=
  match k with
  | FAT12 => putword (at_byte k c) (pack12 c (word f (at_byte k c)) v) f
  | FAT16 => putword (at_byte k c) (u16 v) f
  | FAT32 => putlong (at_byte k c) (Z.land v LONG_LAST_CLUSTER) f
  end.

Definition bytes (f : Z -> Z) : Prop := forall i, byte (f i).

Lemma word_arith f i : bytes f -> word f i = f i + f (i + 1) * 256 /\ 0 <= word f i < 65536.
Proof.
  intros Hf. pose proof (Hf i). pose proof (Hf (i + 1)). unfold word, byte in *.
  rewrite (lor_shift _ _ 8) by lia. lia.
Qed.

Lemma long_arith f i :
  bytes f -> long f i = f i + f (i + 1) * 256 + f (i + 2) * 65536 + f (i + 3) * 16777216.
Proof.
  intros Hf. unfold long. destruct (word_arith f i Hf) as [E H].
  destruct (word_arith f (i + 2) Hf) as [E' H'].
  rewrite (lor_shift _ _ 16) by lia. rewrite E, E'. replace (i + 2 + 1) with (i + 3) by lia. lia.
Qed.

Lemma put_bytes i v f : bytes f -> bytes (put i v f).
Proof. intros Hf j. unfold put. destruct (j =? i); [apply u8_range|apply Hf]. Qed.
Lemma putword_bytes i v f : bytes f -> bytes (putword i v f).
Proof. intros Hf. by apply put_bytes, put_bytes. Qed.
Lemma store_bytes k f c v : bytes f -> bytes (store k f c v).
Proof. intros Hf. destruct k; by repeat apply putword_bytes. Qed.

Lemma putword_at i v f j :
  putword i v f j =
    if j =? i then v mod 256 else if j =? i + 1 then v / 256 mod 256 else f j.
Proof.
  unfold putword, put, u8. rewrite Z.shiftr_div_pow2 by lia. change (2 ^ 8) with 256.
  destruct (j =? i) eqn:E; zbool; [|done].
  by rewrite (proj2 (Z.eqb_neq _ _)) by lia.
Qed.

Lemma unpack12_arith c w :
  unpack12 c w = (if Z.odd c then w / 16 else w) mod 4096.
Proof. unfold unpack12. rewrite land_0xfff. by destruct (Z.odd c); rewrite ?Z.shiftr_div_pow2. Qed.

Lemma pack12_arith c w v :
  0 <= w < 65536 ->
  pack12 c w v = if Z.odd c then w mod 16 + u16 v mod 4096 * 16 else w / 4096 * 4096 + u16 v mod 4096.
Proof.
  intros Hw. unfold pack12. rewrite land_0xfff. destruct (Z.odd c).
  - rewrite land_0xf. rewrite (lor_shift _ _ 4); [done|lia|]. change (2 ^ 4) with 16. divmod.
  - rewrite land_0xf000 by done. rewrite Z.lor_comm.
    assert (E : w / 4096 * 4096 = Z.shiftl (w / 4096) 12) by (rewrite Z.shiftl_mul_pow2; lia).
    rewrite E at 1.
    rewrite (lor_shift _ _ 12); [|lia|].
    + change (2 ^ 12) with 4096. lia.
    + change (2 ^ 12) with 4096. divmod.
Qed.

Lemma odd_mod c : Z.odd c = (c mod 2 =? 1).
Proof. rewrite Zmod_odd. by destruct (Z.odd c). Qed.

Lemma entry12_store f c v c' :
  bytes f -> entry FAT12 (store FAT12 f c v) c' =
    if c' =? c then u16 v mod 4096 else entry FAT12 f c'.
Proof.
  intros Hf. cbn [entry store at_byte]. rewrite !unpack12_arith.
  destruct (word_arith f (c * 3 / 2) Hf) as [Ew Hw].
  rewrite pack12_arith by done. rewrite Ew.
  set (p := if Z.odd c then _ else _).
  assert (Hb : bytes (putword (c * 3 / 2) p f)) by (by apply putword_bytes).
  rewrite (proj1 (word_arith _ _ Hb)), (proj1 (word_arith _ _ Hf)), !putword_at.
  pose proof (Hf (c * 3 / 2)). pose proof (Hf (c * 3 / 2 + 1)).
  pose proof (Hf (c' * 3 / 2)). pose proof (Hf (c' * 3 / 2 + 1)). unfold byte in *.
  assert (Hv : 0 <= u16 v mod 4096 < 4096) by (apply Z.mod_pos_bound; lia).
  revert Hv. subst p. revert Hb. generalize (u16 v mod 4096). intros x Hb Hx.
  rewrite !odd_mod.
  destruct (c' =? c) eqn:Ec; zbool.
  - subst c'. rewrite Z.eqb_refl.
    replace (c * 3 / 2 + 1 =? c * 3 / 2) with false by (symmetry; apply Z.eqb_neq; lia).
    rewrite Z.eqb_refl.
    clear Hf Hb. destruct (c mod 2 =? 1); zbool; divmod.
  - clear Hf Hb.
    assert (Hpar : forall z, exists m, (z = 2 * m /\ (z mod 2 =? 1) = false /\ z * 3 / 2 = 3 * m) \/
                               (z = 2 * m + 1 /\ (z mod 2 =? 1) = true /\ z * 3 / 2 = 3 * m + 1)).
    { intros z. exists (z / 2). destruct (z mod 2 =? 1) eqn:E; zbool; [right|left];
        (split; [divmod|split; [done|divmod]]). }
    destruct (Hpar c) as (m & [(-> & E1 & E2)|(-> & E1 & E2)]),
             (Hpar c') as (m' & [(-> & E1' & E2')|(-> & E1' & E2')]);
      rewrite E1, E1', E2, E2' in *; clear Hpar E1 E1' E2 E2'.
    all: repeat match goal with |- context [if ?a =? ?b then _ else _] =>
           destruct (Z.eqb_spec a b); try lia end.
    all: try (assert (m' = m) by lia; subst m'); try done; divmod.
Qed.

(** What an entry becomes when [v] is stored. *)
Definition enc (k : fat_type) (v : Z) : Z :=
  match k with FAT12 => u16 v mod 4096 | FAT16 => u16 v | FAT32 => v mod 2 ^ 28 end.

Lemma entry16_store f c v c' :
  bytes f -> entry FAT16 (store FAT16 f c v) c' = if c' =? c then enc FAT16 v else entry FAT16 f c'.
Proof.
  intros Hf. cbn [entry store at_byte enc].
  assert (Hb : bytes (putword (2 * c) (u16 v) f)) by (by apply putword_bytes).
  rewrite (proj1 (word_arith _ _ Hb)), (proj1 (word_arith _ _ Hf)), !putword_at.
  pose proof (u16_range v).
  destruct (c' =? c) eqn:E; zbool.
  - subst. rewrite Z.eqb_refl, (proj2 (Z.eqb_neq (2 * c + 1) (2 * c))), Z.eqb_refl by lia. divmod.
  - by rewrite !(proj2 (Z.eqb_neq _ _)) by lia.
Qed.

Lemma entry32_store f c v c' :
  bytes f -> entry FAT32 (store FAT32 f c v) c' = if c' =? c then enc FAT32 v else entry FAT32 f c'.
Proof.
  intros Hf. cbn [entry store at_byte enc]. rewrite !land_last.
  assert (Hb : bytes (putlong (4 * c) (v mod 2 ^ 28) f)) by (by repeat apply putword_bytes).
  rewrite (long_arith _ _ Hb), (long_arith _ _ Hf). unfold putlong. rewrite !putword_at.
  assert (Hv : 0 <= v mod 2 ^ 28 < 268435456) by (apply Z.mod_pos_bound; lia).
  rewrite Z.shiftr_div_pow2 by lia. change (2 ^ 16) with 65536.
  revert Hv. generalize (v mod 2 ^ 28). intros x Hx. change (2 ^ 28) with 268435456.
  destruct (c' =? c) eqn:E; zbool.
  - subst. repeat match goal with |- context [if ?a =? ?b then _ else _] =>
      destruct (Z.eqb_spec a b); try lia end. divmod.
  - repeat match goal with |- context [if ?a =? ?b then _ else _] =>
      destruct (Z.eqb_spec a b); try lia end.
Qed.

(** A store changes one entry. *)
Lemma entry_store k f c v c' :
  bytes f -> entry k (store k f c v) c' = if c' =? c then enc k v else entry k f c'.
Proof. destruct k; [apply entry12_store|apply entry16_store|apply entry32_store]. Qed.

Lemma entry_range k f c : bytes f -> 0 <= entry k f c < 2 ^ width k.
Proof.
  intros Hf. destruct k; cbn [entry width].
  - rewrite unpack12_arith. apply Z.mod_pos_bound. lia.
  - apply word_arith, Hf.
  - rewrite land_last. apply Z.mod_pos_bound. lia.
Qed.

(** The cluster value an entry stands for. *)
Definition decode (k : fat_type) (raw : Z) : Z :=
  match k with
  | FAT12 => if MASK12 <=? raw then LONG_LAST_CLUSTER
             else if raw =? BAD12 then LONG_BAD else raw
  | FAT16 => if MASK16 <=? raw then LONG_LAST_CLUSTER
             else if raw =? BAD16 then LONG_BAD else raw
  | FAT32 => if LONG_BAD <? raw then LONG_LAST_CLUSTER else raw
  end.

Definition max_of (k : fat_type) : Z :=
  match k with FAT12 => FAT_MAGIC | FAT16 => FAT_MAGIC16 | FAT32 => LONG_BAD - 1 end.

(** The values the file system stores: free, a cluster, the end of a chain. *)
Definition storable (k : fat_type) (v : Z) : Prop :=
  v = FREE \/ 2 <= v <= max_of k \/ v = LONG_LAST_CLUSTER.

Lemma decode_enc k v : storable k v -> decode k (enc k v) = v.
Proof.
  unfold storable, FREE, max_of, FAT_MAGIC, FAT_MAGIC16, LONG_BAD, LONG_LAST_CLUSTER.
  intros H. destruct k; cbn [decode enc];
    unfold MASK12, BAD12, MASK16, BAD16, LONG_BAD, LONG_LAST_CLUSTER.
  - destruct H as [->|[H| ->]]; [done| |done].
    rewrite u16_small, Z.mod_small by lia.
    by rewrite (proj2 (Z.leb_gt _ _)), (proj2 (Z.eqb_neq _ _)) by lia.
  - destruct H as [->|[H| ->]]; [done| |done].
    rewrite u16_small by lia.
    by rewrite (proj2 (Z.leb_gt _ _)), (proj2 (Z.eqb_neq _ _)) by lia.
  - destruct H as [->|[H| ->]]; [done| |done].
    rewrite Z.mod_small by lia. by rewrite (proj2 (Z.ltb_ge _ _)) by lia.
Qed.

Lemma decode_range k raw :
  0 <= raw < 2 ^ width k -> 0 <= decode k raw <= LONG_BAD \/ decode k raw = LONG_LAST_CLUSTER.
Proof.
  intros H. destruct k; cbn [decode width] in *;
    unfold MASK12, BAD12, MASK16, BAD16, LONG_BAD, LONG_LAST_CLUSTER in *.
  - destruct (_ <=? _) eqn:E1; [by right|]. destruct (_ =? _) eqn:E2; zbool; left; lia.
  - destruct (_ <=? _) eqn:E1; [by right|]. destruct (_ =? _) eqn:E2; zbool; left; lia.
  - destruct (_ <? _) eqn:E1; zbool; [by right|left; lia].
Qed.

End FatPure.
