(* ===== verification/FatSpec.v ===== *)
(** * link_fat on the view of a volume

    [volume] collects what [bpb_to_dpb] establishes for a mounted FAT volume.
    The table itself is [fat_byte], the bytes that the view of the drive shows
    from [fat_base] on; [link_fat] reads and stores entries of it as
    [FatPure] describes, whatever the cache does. *)

From S2P Require Import Prelude KState BlockIO FatTab Disk Ring CacheSpec CacheOps FatPure.
Import Ks Bio Fat Dsk Ring Cache CacheOps FatPure.

Module FatSpec.
Section Spec.
Context {M : Machine} {D : Disk}.

(** ** Volumes *)

(** Parameter blocks that differ at most in the allocation hints. *)
Definition geo (d : dpb) : dpb := set_cluster 0 (set_xnfreeclst 0 (set_xcluster 0 d)).

Lemma geo_eq d d' :
  geo d' = geo d ->
  d' = set_cluster (dpb_cluster d') (set_xnfreeclst (dpb_xnfreeclst d') (set_xcluster (dpb_xcluster d') d)).
Proof. destruct d, d'. unfold geo. cbn. intros H. injection H as -> -> -> -> -> -> -> -> -> -> -> -> -> -> -> -> -> -> -> -> -> ->. done. Qed.

Record volume (s : kst) (u p : Z) (d : dpb) (k : fat_type) : Prop := Volume {
  v_mounted : mounted s u p d;
  v_type : type_of d = Some k;
  v_32 : ISFAT32 d = match k with FAT32 => true | _ => false end;
  v_fits : fat_fits d;
  v_start : 0 <= dpb_fatstrt d;
  v_flags : no_mirror d = true -> 0 <= dpb_xfatsize d;
  v_max : 2 <= max_cluster d <= max_of k;
  v_room : at_byte k (max_cluster d) + span k < fat_secs d * 512;
  v_small : k = FAT12 -> fat_base d + fat_secs d < 65536;
  v_fsinfo : k = FAT32 -> dpb_xfsinfosec d <> 0xffff ->
    block_ok d (dpb_xfsinfosec d) /\ ~ in_fat d (dpb_xfsinfosec d) }.

(** The kernel state moved on: the settings and the geometry are the same. *)
Definition evolves (s s' : kst) : Prop :=
  env s' = env s /\ LoL_nbuffers s' = LoL_nbuffers s /\ CDSp s' = CDSp s /\
  forall q, geo <$> dpbs s' !! q = geo <$> dpbs s !! q.

Lemma evolves_refl s : evolves s s.
Proof. done. Qed.
Lemma evolves_trans s1 s2 s3 : evolves s1 s2 -> evolves s2 s3 -> evolves s1 s3.
Proof.
  intros (A & B & C & G) (A' & B' & C' & G').
  repeat (split; [congruence|]). intros q. by rewrite G'.
Qed.
Lemma evolves_ioframe s s' : ioframe s s' -> evolves s s'.
Proof. intros (A & B & C & E & F & G). repeat (split; [done|]). intros q. by rewrite C. Qed.

Lemma evolves_mounted s s' u p d :
  evolves s s' -> mounted s u p d -> exists d', mounted s' u p d' /\ geo d' = geo d.
Proof.
  intros (He & _ & Hc & Hd) [Hg Hn Hp Hu Hr Hs Ha].
  specialize (Hd p). rewrite Hp in Hd. destruct (dpbs s' !! p) as [d'|] eqn:E; [|done].
  simpl in Hd. apply (inj Some) in Hd. exists d'. split; [|done].
  apply geo_eq in Hd. rewrite Hd.
  split; [by eapply get_dpb_frame|done|rewrite E; f_equal; exact Hd|exact Hu|exact Hr|exact Hs|
    rewrite He; exact Ha].
Qed.

Lemma evolves_volume s s' u p d k :
  evolves s s' -> volume s u p d k -> exists d', volume s' u p d' k /\ geo d' = geo d.
Proof.
  intros Hev V. destruct (evolves_mounted _ _ _ _ _ Hev (v_mounted _ _ _ _ _ V)) as (d' & Hm & Hd).
  exists d'. split; [|done]. pose proof (geo_eq _ _ Hd) as E.
  destruct V as [_ V1 V2 V3 V4 V5 V6 V7 V8 V9]. rewrite E in Hm |- *. by split.
Qed.

Lemma evolves_sym s s' : evolves s s' -> evolves s' s.
Proof.
  intros (A & B & C & G). repeat (split; [done|]). intros q. by rewrite G.
Qed.

(** A store to the hints of a parameter block. *)
Lemma dpb_evolves s p d d' :
  dpbs s !! p = Some d -> geo d' = geo d -> evolves s (set_dpbs (<[p := d']> (dpbs s)) s).
Proof.
  intros Hp Hg. repeat (split; [done|]). intros q. cbn [dpbs set_dpbs].
  destruct (decide (p = q)) as [<-|]; [|by rewrite lookup_insert_ne].
  by rewrite lookup_insert_eq, Hp; simpl; rewrite Hg.
Qed.

Lemma buf_ok_evolves s s' b :
  evolves s s' -> sec (dev s') = sec (dev s) -> buf_ok s b -> buf_ok s' b.
Proof.
  intros Hev Hs [Hl Hb]. split; [done|]. intros Hv.
  destruct (Hb Hv) as (q & d & Hm & Hbl & Hd).
  destruct (evolves_mounted _ _ _ _ _ Hev Hm) as (d' & Hm' & Hg).
  apply geo_eq in Hg. exists q, d'. split; [done|]. rewrite Hg. split; [exact Hbl|].
  destruct Hd as [Hf Hd]. split; [exact Hf|]. unfold sector. rewrite Hs. exact Hd.
Qed.

Lemma cache_evolves s s' l :
  cache s l -> evolves s s' -> bufs s' = bufs s -> firstbuf s' = firstbuf s ->
  deblock_buf (drv s') = deblock_buf (drv s) -> sec (dev s') = sec (dev s) -> cache s' l.
Proof.
  intros Hc Hev Hb Hf Hdr Hde. split; rewrite ?Hb, ?Hf, ?Hdr; try apply Hc.
  - intros p Hp. eapply buf_ok_evolves; [done|done|by apply Hc].
  - intros u1 p1 d1 u2 p2 d2 H1 H2 E1 E2. apply evolves_sym in Hev.
    destruct (evolves_mounted _ _ _ _ _ Hev H1) as (e1 & M1 & G1%geo_eq).
    destruct (evolves_mounted _ _ _ _ _ Hev H2) as (e2 & M2 & G2%geo_eq).
    eapply (c_inj _ _ Hc); [exact M1|exact M2|..]; rewrite G1, G2; assumption.
Qed.

(** ** The table as bytes *)

Definition byte_of (l : list Z) (i : Z) : Z := default 0 (l !! Z.to_nat i).

(** Byte [i] of the FAT, and the table seen as cluster links. *)
Definition fat_byte (s : kst) (l : list Z) (d : dpb) (i : Z) : Z :=
  byte_of (view s l d (fat_base d + i / 512)) (i mod 512).
Definition links (s : kst) (l : list Z) (d : dpb) (k : fat_type) (c : Z) : Z :=
  decode k (entry k (fat_byte s l d) c).

Lemma byte_of_byte l i : Forall byte l -> byte (byte_of l i).
Proof.
  intros H. unfold byte_of. destruct (l !! Z.to_nat i) as [v|] eqn:E; simpl.
  - by eapply Forall_lookup_1.
  - unfold byte. lia.
Qed.

Lemma view_bytes s l d blk : cache s l -> is_sector (view s l d blk).
Proof.
  intros Hc. unfold view. destruct (find_holder _ _ _ _) as [p|] eqn:E.
  - apply find_holder_in in E as [Hp _]. apply (c_buf _ _ Hc _ Hp).
  - split; [apply sec_length|apply sec_bytes].
Qed.

Lemma fat_bytes s l d : cache s l -> bytes (fat_byte s l d).
Proof. intros Hc i. apply byte_of_byte. by apply view_bytes. Qed.

Lemma fgetbyte_of l i : is_sector l -> 0 <= i < 512 -> fgetbyte l i = Some (byte_of l i).
Proof.
  intros [Hl _] Hi. unfold fgetbyte, byte_of. rewrite (proj2 (Z.ltb_ge _ _)) by lia.
  destruct (l !! Z.to_nat i) eqn:E; [done|]. apply lookup_ge_None in E.
  unfold SECSIZE in *. lia.
Qed.

Lemma fgetword_of l i :
  is_sector l -> 0 <= i -> i + 1 < 512 -> fgetword l i = Some (word (byte_of l) i).
Proof. intros Hl Hi Hj. unfold fgetword. by rewrite !fgetbyte_of by (done || lia). Qed.

Lemma fgetlong_of l i :
  is_sector l -> 0 <= i -> i + 3 < 512 -> fgetlong l i = Some (long (byte_of l) i).
Proof. intros Hl Hi Hj. unfold fgetlong. by rewrite !fgetword_of by (done || lia). Qed.

(** A list of bytes after a store, as a function. *)
Definition stored (l l' : list Z) (f : Z -> Z) : Prop :=
  is_sector l' /\ forall i, 0 <= i < 512 -> byte_of l' i = f i.

Lemma fputbyte_of l i v :
  is_sector l -> 0 <= i < 512 ->
  exists l', fputbyte i v l = Some l' /\ stored l l' (put i v (byte_of l)).
Proof.
  intros [Hl Hb] Hi. unfold fputbyte. rewrite Hl. change (Z.of_nat SECSIZE) with 512.
  rewrite (proj2 (Z.leb_le _ _)), (proj2 (Z.ltb_lt _ _)) by lia. cbn [andb].
  eexists. split; [done|]. split; [split|].
  - by rewrite length_insert.
  - apply Forall_insert; [done|]. apply u8_range.
  - intros j Hj. unfold byte_of, put. destruct (j =? i) eqn:E; zbool.
    + subst. rewrite list_lookup_insert_eq; [done|]. unfold SECSIZE in *. lia.
    + rewrite list_lookup_insert_ne by lia. done.
Qed.

Lemma put_ext i v f g j : f j = g j -> put i v f j = put i v g j.
Proof. unfold put. by intros ->. Qed.

Lemma fputword_of l i v :
  is_sector l -> 0 <= i -> i + 1 < 512 ->
  exists l', fputword i v l = Some l' /\ stored l l' (putword i v (byte_of l)).
Proof.
  intros Hl Hi Hj. unfold fputword.
  destruct (fputbyte_of l i v Hl) as (l1 & -> & Hs1 & H1); [lia|].
  destruct (fputbyte_of l1 (i + 1) (Z.shiftr v 8) Hs1) as (l2 & -> & Hs2 & H2); [lia|].
  exists l2. split; [done|]. split; [done|]. intros j Hj'. rewrite H2 by done.
  apply put_ext. by apply H1.
Qed.

Lemma fputlong_of l i v :
  is_sector l -> 0 <= i -> i + 3 < 512 ->
  exists l', fputlong i v l = Some l' /\ stored l l' (putlong i v (byte_of l)).
Proof.
  intros Hl Hi Hj. unfold fputlong.
  destruct (fputword_of l i v Hl) as (l1 & -> & Hs1 & H1); [lia..|].
  destruct (fputword_of l1 (i + 2) (Z.shiftr v 16) Hs1) as (l2 & -> & Hs2 & H2); [lia..|].
  exists l2. split; [done|]. split; [done|]. intros j Hj'. rewrite H2 by done.
  unfold putlong, putword. by do 2 apply put_ext; apply H1.
Qed.

(** A sector of the FAT and the bytes of the table. *)
Lemma fat_byte_at s l d b i :
  0 <= i < 512 -> fat_byte s l d (512 * b + i) = byte_of (view s l d (fat_base d + b)) i.
Proof.
  intros Hi. unfold fat_byte. replace ((512 * b + i) / 512) with b by divmod.
  by replace ((512 * b + i) mod 512) with i by divmod.
Qed.

Lemma fat_index_spec s u p d k c :
  volume s u p d k -> 2 <= c <= max_cluster d ->
  exists idx, fat_index d c = Some (fat_base d + at_byte k c / 512, idx) /\
    match k with FAT12 => idx / 2 | FAT16 => idx * 2 | FAT32 => idx * 4 end = at_byte k c mod 512 /\
    in_fat d (fat_base d + at_byte k c / 512).
Proof.
  intros V Hc. pose proof (v_type _ _ _ _ _ V) as Ht. pose proof (v_32 _ _ _ _ _ V) as H32.
  pose proof (v_max _ _ _ _ _ V) as Hmax. pose proof (v_room _ _ _ _ _ V) as Hroom.
  pose proof (span_range k) as Hspan. pose proof (v_start _ _ _ _ _ V) as Hst. pose proof (v_flags _ _ _ _ _ V) as Hfl.
  destruct (v_fits _ _ _ _ _ V) as (Hb0 & Hn & Hfit & Hcap).
  pose proof (mt_sec _ _ _ _ (v_mounted _ _ _ _ _ V)) as Hsec.
  assert (Hmono : at_byte k c <= at_byte k (max_cluster d)).
  { destruct k; cbn [at_byte]; [apply Z.div_le_mono; lia|lia|lia]. }
  assert (Hpos : 0 <= at_byte k c) by (destruct k; cbn [at_byte]; [apply Z.div_pos|..]; lia).
  assert (Hlow : fat_base d <= fat_base d + at_byte k c / 512 < fat_base d + fat_secs d).
  { split; [divmod|]. assert (at_byte k c / 512 < fat_secs d) by (apply Z.div_lt_upper_bound; lia). lia. }
  assert (Hcap2 : fat_base d + fat_secs d <= capacity d) by nia.
  unfold fat_index. rewrite Hsec.
  assert (Hbase : forall x, 0 <= x -> x + dpb_fatstrt d < 2 ^ 32 -> fat_base d + x < 2 ^ 32 ->
    (if ISFAT32 d && has (dpb_xflags d) FAT_NO_MIRRORING
     then u32 (u32 (x + dpb_fatstrt d) + u32 (Z.land (dpb_xflags d) 0xf * dpb_xfatsize d))
     else u32 (x + dpb_fatstrt d)) = fat_base d + x).
  { intros x Hx Hx1 Hx2. unfold fat_base, no_mirror in *.
    destruct (ISFAT32 d && has (dpb_xflags d) FAT_NO_MIRRORING).
    - specialize (Hfl eq_refl). pose proof (Z.land_nonneg (dpb_xflags d) 0xf).
      assert (0 <= Z.land (dpb_xflags d) 0xf * dpb_xfatsize d) by nia.
      rewrite (u32_small (x + _)), (u32_small (_ * _)) by lia. rewrite u32_small; lia.
    - rewrite u32_small; lia. }
  assert (Hx : at_byte k c / 512 + dpb_fatstrt d < 2 ^ 32 /\ fat_base d + at_byte k c / 512 < 2 ^ 32).
  { assert (dpb_fatstrt d <= fat_base d).
    { unfold fat_base. destruct (no_mirror d); [|lia]. specialize (Hfl eq_refl).
      pose proof (Z.land_nonneg (dpb_xflags d) 0xf). nia. }
    lia. }
  unfold type_of in Ht. destruct (ISFAT12 d) eqn:E12.
  - injection Ht as <-. rewrite H32 in *. cbn [max_of] in Hmax. unfold FAT_MAGIC in Hmax.
    change (u16 (512 * 2)) with 1024. change (1024 =? 0) with false. cbn iota.
    rewrite (u16_small c) by lia. rewrite (u16_small (c * 3)) by lia.
    exists (c * 3 mod 1024). cbn [at_byte] in *.
    assert (Ed : c * 3 / 1024 = c * 3 / 2 / 512) by divmod.
    rewrite u16_small by divmod. rewrite Ed, Hbase; [|divmod|lia|lia].
    split; [done|]. split; [divmod|]. exact Hlow.
  - destruct (ISFAT16 d) eqn:E16.
    + injection Ht as <-. rewrite H32 in *. cbn [max_of] in Hmax. unfold FAT_MAGIC16 in Hmax.
      change (512 / 2 =? 0) with false. change (512 / 2) with 256. cbn iota.
      exists (c mod 256). cbn [at_byte] in *.
      assert (Ed : c / 256 = 2 * c / 512) by divmod.
      rewrite u16_small by divmod. rewrite Ed, Hbase; [|divmod|lia|lia].
      split; [done|]. split; [divmod|]. exact Hlow.
    + destruct k; try (rewrite H32 in Ht; done).
      rewrite H32 in *. cbn [max_of] in Hmax. unfold LONG_BAD in Hmax.
      change (512 / 2 / 2 =? 0) with false. change (512 / 2 / 2) with 128. cbn iota.
      exists (c mod 128). cbn [at_byte] in *.
      assert (Ed : c / 128 = 4 * c / 512) by divmod.
      rewrite u16_small by divmod. rewrite Ed, Hbase; [|divmod|lia|lia].
      split; [done|]. split; [divmod|]. exact Hlow.
Qed.

(** ** getFATblock *)

Definition tag (p : Z) (d : dpb) (b : buffer) : buffer :=
  let b := set_offset (dpb_fatsize d) (set_copies (dpb_fats d) (set_dpbp p
    (flag_on (Z.lor BFR_FAT BFR_VALID) (flag_off (Z.lor BFR_DATA BFR_DIR) b)))) in
  if no_mirror d then set_copies 1 b else b.

Lemma tag_facts p d b blk u :
  holds b blk u = true ->
  b_next (tag p d b) = b_next b /\ b_prev (tag p d b) = b_prev b /\
  b_buffer (tag p d b) = b_buffer b /\ holds (tag p d b) blk u = true /\
  dirty (tag p d b) = dirty b /\ has (b_flag (tag p d b)) BFR_FAT = true /\
  has (b_flag (tag p d b)) BFR_UNCACHE = has (b_flag b) BFR_UNCACHE /\
  b_copies (tag p d b) = ncopies d /\ b_offset (tag p d b) = dpb_fatsize d /\
  b_dpbp (tag p d b) = p /\ b_blkno (tag p d b) = b_blkno b.
Proof.
  intros (Hb & Hv & Hu)%holds_true. unfold valid in Hv. rewrite has_VALID in Hv.
  assert (Hf : forall k, Z.testbit (b_flag (tag p d b)) k =
    Z.testbit (b_flag b) k && negb (Z.testbit (Z.lor BFR_DATA BFR_DIR) k)
      || Z.testbit (Z.lor BFR_FAT BFR_VALID) k).
  { intros k. assert (E : b_flag (tag p d b) =
      setf (clear (b_flag b) (Z.lor BFR_DATA BFR_DIR)) (Z.lor BFR_FAT BFR_VALID))
      by (unfold tag; by destruct (no_mirror d)).
    rewrite E. unfold setf, clear. by rewrite Z.lor_spec, Z.ldiff_spec. }
  assert (Hv' : valid (tag p d b) = true).
  { unfold valid. rewrite has_VALID, Hf. by rewrite orb_true_r. }
  assert (Hrest : b_next (tag p d b) = b_next b /\ b_prev (tag p d b) = b_prev b /\
    b_buffer (tag p d b) = b_buffer b /\ b_unit (tag p d b) = b_unit b /\
    b_copies (tag p d b) = ncopies d /\ b_offset (tag p d b) = dpb_fatsize d /\
    b_dpbp (tag p d b) = p /\ b_blkno (tag p d b) = b_blkno b).
  { unfold tag, ncopies. by destruct (no_mirror d). }
  destruct Hrest as (R1 & R2 & R3 & R4 & R5 & R6 & R7 & R8).
  split; [done|]. split; [done|]. split; [done|].
  split; [apply holds_true; rewrite R8, R4; done|].
  split; [rewrite !dirty_bits, !Hf, Hv; simpl; by rewrite andb_true_r, orb_false_r|].
  split; [by rewrite has_FAT, Hf, orb_true_r|].
  split; [rewrite !has_UNCACHE, Hf; simpl; by rewrite andb_true_r, orb_false_r|].
  done.
Qed.

Lemma getFATblock_spec s l u p d k blk :
  cache s l -> volume s u p d k -> in_fat d blk ->
  exists bp s', getFATblock p blk s = Some (bp, s') /\ bp ∈ l /\ bp <> NULL /\
    cache s' (lru bp l) /\ same_view s l s' (lru bp l) /\ ioframe s s' /\
    holds (bufs s' !!! bp) blk u = true /\
    has (b_flag (bufs s' !!! bp)) BFR_UNCACHE = false /\
    has (b_flag (bufs s' !!! bp)) BFR_FAT = true /\
    fat_buffer (bufs s' !!! bp) p d /\
    b_buffer (bufs s' !!! bp) = view s l d blk /\
    (forall x, x <> bp -> data (bufs s' !!! x) = data (bufs s !!! x)) /\
    bp = match find_holder (bufs s) l blk u with Some h => h | None => victim (bufs s) l end.
Proof.
  intros Hc V Hin. pose proof (v_mounted _ _ _ _ _ V) as Hm.
  destruct (v_fits _ _ _ _ _ V) as (Hb0 & Hn & Hfit & Hcap).
  assert (Hbl : block_ok d blk).
  { unfold in_fat in Hin. split; [assert (0 < fat_secs d) by lia; nia|unfold mirror; lia]. }
  destruct (getblk_spec s l u p d blk Hc Hm Hbl)
    as (bp & s1 & Hr & Hbp & Hnn & Hc1 & Hv1 & Hf1 & Hh1 & Hu1 & Hb1 & Hd1 & Hvic).
  assert (Hlive : is_Some (bufs s1 !! bp)).
  { eapply ring_live; [apply Hc1|]. by apply elem_of_cons; left. }
  assert (Hin' : bp ∈ lru bp l) by (by apply elem_of_cons; left).
  destruct (tag_facts p d (bufs s1 !!! bp) blk u Hh1)
    as (T1 & T2 & T3 & T4 & T5 & T6 & T7 & T8 & T9 & T10 & T11).
  assert (Hfat : fat_buffer (tag p d (bufs s1 !!! bp)) p d).
  { split; [done|]. split; [done|]. split; [done|]. split; [|by apply (v_fits _ _ _ _ _ V)].
    rewrite T11. by apply holds_true in Hh1 as (-> & _). }
  destruct (store_same_view s1 (lru bp l) bp u p d blk (tag p d) Hc1 Hin'
              (mounted_frame _ _ _ _ _ Hf1 Hm) Hbl Hh1) as [Hc2 Hv2]; try done.
  exists bp, (set_bufs (upd bp (tag p d) (bufs s1)) s1).
  assert (Hat : bufs (set_bufs (upd bp (tag p d) (bufs s1)) s1) !!! bp = tag p d (bufs s1 !!! bp)).
  { cbn [bufs set_bufs]. by rewrite upd_total, decide_True. }
  rewrite Hat, T3, T6, T7, T4. split; [|split; [done|split; [done|]]].
  - unfold getFATblock. rewrite (run_dget p d) by apply Hm. rewrite (mt_unit _ _ _ _ Hm).
    unfold getblock. rewrite (run_eq _ _ _ _ _ Hr), (proj2 (Z.eqb_neq _ _) Hnn). cbn [negb].
    do 5 (rewrite run_bmod by (cbn [bufs set_bufs]; repeat apply upd_some; exact Hlive);
          rewrite ?set_bufs_twice; cbn [bufs set_bufs]).
    rewrite !upd_upd. fold (no_mirror d). unfold tag.
    destruct (no_mirror d).
    + rewrite run_bmod by (cbn [bufs set_bufs]; repeat apply upd_some; exact Hlive).
      rewrite ?set_bufs_twice. cbn [bufs set_bufs]. by rewrite upd_upd.
    + by rewrite run_ret.
  - split; [done|]. split; [by eapply same_view_trans|]. split; [done|].
    repeat (split; [done|]). split; [|done].
    intros x Hx. cbn [bufs set_bufs]. rewrite upd_total, decide_False by auto. by apply Hd1.
Qed.

(** ** Reading an entry *)

Lemma type_cases s u p d k :
  volume s u p d k ->
  match k with
  | FAT12 => ISFAT12 d = true
  | FAT16 => ISFAT12 d = false /\ ISFAT16 d = true
  | FAT32 => ISFAT12 d = false /\ ISFAT16 d = false /\ ISFAT32 d = true
  end.
Proof.
  intros V. pose proof (v_type _ _ _ _ _ V) as H. unfold type_of in H.
  destruct (ISFAT12 d); [by injection H as <-|].
  destruct (ISFAT16 d); [by injection H as <-|].
  destruct (ISFAT32 d); [by injection H as <-|done].
Qed.

Lemma lru_length p l : NoDup l -> p ∈ l -> length (lru p l) = length l.
Proof. intros Hn Hp. by rewrite (lru_permutation _ _ Hn Hp). Qed.

Lemma cache_nodup s l : cache s l -> NoDup l.
Proof. intros Hc. eapply ring_nodup, Hc. Qed.

(** The sector of the next block is in another buffer. *)
Lemma next_block s l u p d k blk bp s1 :
  cache s1 (lru bp l) -> volume s1 u p d k -> NoDup l -> bp ∈ l -> (2 <= length l)%nat ->
  holds (bufs s1 !!! bp) blk u = true ->
  has (b_flag (bufs s1 !!! bp)) BFR_UNCACHE = false ->
  has (b_flag (bufs s1 !!! bp)) BFR_FAT = true ->
  ioframe s s1 -> in_fat d (blk + 1) ->
  exists bp1 s2, getFATblock p (blk + 1) s1 = Some (bp1, s2) /\ bp1 <> bp /\ bp1 <> NULL /\
    bp1 ∈ l /\ cache s2 (lru bp1 (lru bp l)) /\ same_view s1 (lru bp l) s2 (lru bp1 (lru bp l)) /\
    ioframe s1 s2 /\
    holds (bufs s2 !!! bp1) (blk + 1) u = true /\ fat_buffer (bufs s2 !!! bp1) p d /\
    b_buffer (bufs s2 !!! bp1) = view s1 (lru bp l) d (blk + 1) /\
    data (bufs s2 !!! bp) = data (bufs s1 !!! bp).
Proof.
  intros Hc V Hn Hbp Hlen Hh Hu Hf Hfr Hin.
  destruct (getFATblock_spec s1 (lru bp l) u p d k (blk + 1) Hc V Hin)
    as (bp1 & s2 & Hr & Hbp1 & Hnn & Hc2 & Hv2 & Hf2 & Hh2 & _ & _ & Hfat2 & Hb2 & Hd2 & Hsel).
  assert (Hne : bp1 <> bp).
  { rewrite Hsel. destruct (find_holder _ _ _ _) as [h|] eqn:E.
    - apply find_holder_in in E as [_ E]. intros ->.
      apply holds_true in E as (E & _), Hh as (Hh & _). lia.
    - apply victim_not_first; [apply (cache_nodup _ _ Hc)|apply Hc| |done|done].
      intros E'. pose proof (lru_length _ _ Hn Hbp) as El. unfold lru in El.
      rewrite E' in El. simpl in El. lia. }
  exists bp1, s2. repeat (split; [done|]).
  split; [by apply (lru_in bp l)|]. repeat (split; [done|]). by apply Hd2.
Qed.

Lemma in_fat_ok s u p d k blk : volume s u p d k -> in_fat d blk -> block_ok d blk.
Proof.
  intros V Hin. destruct (v_fits _ _ _ _ _ V) as (? & ? & ? & ?). unfold in_fat in Hin.
  split; [assert (0 < fat_secs d) by lia; nia|unfold mirror; lia].
Qed.

Lemma same_view_fat s l s' l' u p d k :
  volume s u p d k -> same_view s l s' l' ->
  forall blk, in_fat d blk -> view s' l' d blk = view s l d blk.
Proof. intros V Hv blk Hin. eapply Hv; [apply V|]. by eapply in_fat_ok. Qed.

Lemma data_buffer b c : data c = data b -> b_buffer c = b_buffer b.
Proof. intros H. exact (f_equal b_buffer H). Qed.

Lemma volume_ioframe s s' u p d k : ioframe s s' -> volume s u p d k -> volume s' u p d k.
Proof. intros Hf [V0 V1 V2 V3 V4 V5 V6 V7 V8 V9]. split; try done. by eapply mounted_frame. Qed.

(** The bytes of the entry, from the sector (or the two sectors) it is in. *)
Lemma at_byte_sector s l d k c L :
  cache s l -> L = view s l d (fat_base d + at_byte k c / 512) -> 0 <= at_byte k c ->
  forall i, 0 <= i -> at_byte k c mod 512 + i < 512 ->
  byte_of L (at_byte k c mod 512 + i) = fat_byte s l d (at_byte k c + i).
Proof.
  intros Hc -> Hp i Hi Hlt. rewrite <- fat_byte_at by divmod. f_equal. divmod.
Qed.

Lemma link_fat_read s l u p d k c :
  cache s l -> volume s u p d k -> (2 <= length l)%nat -> 2 <= c <= max_cluster d ->
  exists s' l', link_fat p c READ_CLUSTER s = Some (links s l d k c, s') /\
    cache s' l' /\ length l' = length l /\ same_view s l s' l' /\ ioframe s s'.
Proof.
  intros Hc V Hlen Hcl. pose proof (type_cases _ _ _ _ _ V) as Hk.
  destruct (fat_index_spec _ _ _ _ _ _ V Hcl) as (idx & Hidx & Hoff & Hin).
  destruct (getFATblock_spec s l u p d k _ Hc V Hin)
    as (bp & s1 & Hr & Hbp & Hnn & Hc1 & Hv1 & Hf1 & Hh1 & Hu1 & Hfl1 & Hfat1 & Hb1 & Hd1 & _).
  pose proof (cache_nodup _ _ Hc) as Hnd.
  assert (Hlive : is_Some (bufs s1 !! bp)).
  { eapply ring_live; [apply Hc1|]. by apply elem_of_cons; left. }
  assert (Hpos : 0 <= at_byte k c) by (destruct k; cbn [at_byte]; [apply Z.div_pos|..]; lia).
  pose proof (v_max _ _ _ _ _ V) as Hmax.
  unfold link_fat. rewrite (run_dget p d) by apply V.
  rewrite (proj2 (Z.leb_gt c 1)), (proj2 (Z.ltb_ge (max_cluster d) c)) by lia. cbn [orb].
  rewrite (proj2 (Z.ltb_ge (max_cluster d) READ_CLUSTER)) by (unfold READ_CLUSTER; lia).
  rewrite andb_false_r, Hidx, run_opt, (run_eq _ _ _ _ _ Hr), (proj2 (Z.eqb_neq _ _) Hnn).
  assert (Hsec : is_sector (b_buffer (bufs s1 !!! bp))) by (rewrite Hb1; by apply view_bytes).
  assert (Hat := at_byte_sector s l d k c _ Hc Hb1 Hpos).
  assert (Hat0 : byte_of (b_buffer (bufs s1 !!! bp)) (at_byte k c mod 512) = fat_byte s l d (at_byte k c)).
  { rewrite <- (Z.add_0_r (at_byte k c)) at 2. rewrite <- (Hat 0) by divmod. by rewrite Z.add_0_r. }
  destruct k.
  - (* FAT12 *)
    rewrite Hk. unfold link12. rewrite Hoff, (mt_sec _ _ _ _ (v_mounted _ _ _ _ _ V)).
    change (512 - 1) with 511. cbn [at_byte] in *.
    destruct (511 <=? c * 3 / 2 mod 512) eqn:Es; zbool.
    + assert (Hin1 : in_fat d (fat_base d + c * 3 / 2 / 512 + 1)).
      { pose proof (v_room _ _ _ _ _ V) as Hroom. cbn [at_byte span] in Hroom.
        assert (c * 3 / 2 <= max_cluster d * 3 / 2) by (apply Z.div_le_mono; lia).
        unfold in_fat in *. split; [lia|].
        assert (c * 3 / 2 / 512 + 1 < fat_secs d); [|lia].
        assert ((c * 3 / 2 + 1) / 512 = c * 3 / 2 / 512 + 1) as <- by divmod.
        apply Z.div_lt_upper_bound; lia. }
      pose proof (v_small _ _ _ _ _ V eq_refl) as Hsmall. unfold in_fat in Hin1.
      destruct (v_fits _ _ _ _ _ V) as (Hb0 & _).
      rewrite (u16_small (fat_base d + _)) by (unfold in_fat in Hin; lia).
      rewrite (u16_small (_ + 1)) by (unfold in_fat in Hin; lia).
      destruct (next_block s l u p d FAT12 _ bp s1 Hc1 (volume_ioframe _ _ _ _ _ _ Hf1 V) Hnd Hbp Hlen
                  Hh1 Hu1 Hfl1 Hf1 Hin1)
        as (bp1 & s2 & Hr2 & Hne & Hnn1 & Hbp1 & Hc2 & Hv2 & Hf2 & Hh2 & Hfat2 & Hb2 & Hd2).
      rewrite !run_assoc, (run_eq _ _ _ _ _ Hr2), (proj2 (Z.eqb_neq _ _) Hnn1).
      rewrite Z.eqb_refl. cbn [negb]. rewrite run_assoc, run_ret, run_ret.
      assert (Hl2 : is_Some (bufs s2 !! bp) /\ is_Some (bufs s2 !! bp1)).
      { split; (eapply ring_live; [apply Hc2|]); apply elem_of_cons; [right|by left].
        apply list_elem_of_filter. split; [done|by apply elem_of_cons; left]. }
      rewrite !run_assoc, run_bget, run_assoc, run_bget by apply Hl2.
      rewrite (data_buffer _ _ Hd2), Hb2.
      rewrite fgetbyte_of by (done || divmod). rewrite run_assoc, run_opt.
      rewrite fgetbyte_of by (apply view_bytes, Hc1 || lia). rewrite run_assoc, run_opt.
      change (u16 READ_CLUSTER =? READ_CLUSTER) with true. cbn iota. rewrite run_ret.
      eexists s2, (lru bp1 (lru bp l)). split; [|split; [done|split; [|split]]].
      * unfold kret, links, entry, decode. f_equal. f_equal. cbn [at_byte].
        assert (E1 : byte_of (view s1 (lru bp l) d (fat_base d + c * 3 / 2 / 512 + 1)) 0 =
                     fat_byte s l d (c * 3 / 2 + 1)).
        { rewrite (same_view_fat s l s1 (lru bp l) u p d FAT12 V Hv1) by done.
          rewrite <- Z.add_assoc, <- fat_byte_at by lia. f_equal. divmod. }
        unfold word. by rewrite Hat0, E1.
      * rewrite lru_length; [by apply lru_length|by apply (cache_nodup _ _ Hc1)|].
        by apply (lru_in bp l).
      * by eapply same_view_trans.
      * by eapply ioframe_trans.
    + rewrite !run_assoc, run_ret, !run_assoc, run_bget, run_assoc, run_bget by done.
      rewrite fgetbyte_of by (done || divmod). rewrite run_assoc, run_opt.
      rewrite fgetbyte_of by (done || divmod). rewrite run_assoc, run_opt.
      change (u16 READ_CLUSTER =? READ_CLUSTER) with true. cbn iota. rewrite run_ret.
      exists s1, (lru bp l). split; [|split; [done|split; [by apply lru_length|split; done]]].
      unfold kret, links, entry, decode. f_equal. f_equal. cbn [at_byte].
      unfold word. rewrite Hat0, (Hat 1) by divmod. done.
  - (* FAT16 *)
    destruct Hk as [-> ->]. unfold link16. rewrite Hoff, !run_assoc, run_bget by done.
    cbn [at_byte] in *. rewrite fgetword_of by (done || divmod). rewrite run_assoc, run_opt.
    change (u16 READ_CLUSTER =? READ_CLUSTER) with true. cbn iota. rewrite run_ret.
    exists s1, (lru bp l). split; [|split; [done|split; [by apply lru_length|split; done]]].
    unfold kret, links, entry, decode. f_equal. f_equal. cbn [at_byte].
    unfold word. rewrite Hat0, Hat by divmod. done.
  - (* FAT32 *)
    destruct Hk as (-> & -> & ->). unfold link32. rewrite Hoff, !run_assoc, run_bget by done.
    cbn [at_byte] in *. rewrite fgetlong_of by (done || divmod). rewrite run_assoc, run_opt.
    rewrite Z.eqb_refl. rewrite run_ret.
    exists s1, (lru bp l). split; [|split; [done|split; [by apply lru_length|split; done]]].
    unfold kret, links, entry, decode. f_equal. f_equal. cbn [at_byte].
    unfold long, word. rewrite <- !Z.add_assoc. rewrite Hat0, !Hat by divmod. done.
Qed.

(** ** Stores into one sector, seen on the table *)

Definition localized (a : Z) (F G : Z -> Z) : Prop :=
  forall j, j / 512 = a / 512 -> F (j mod 512) = G j.
Definition outside (a : Z) (G G0 : Z -> Z) : Prop :=
  forall j, j / 512 <> a / 512 -> G j = G0 j.

Lemma put_localized a x o i v F G :
  0 <= x -> a mod 512 + x < 512 -> o = a mod 512 + x -> i = a + x ->
  localized a F G -> localized a (put o v F) (put i v G).
Proof.
  intros Hx Hlt -> -> H j Hj. unfold put. rewrite (H j Hj).
  destruct (j mod 512 =? a mod 512 + x) eqn:E1, (j =? a + x) eqn:E2; zbool; try done; divmod.
Qed.

Lemma put_outside a x i v G G0 :
  0 <= x -> a mod 512 + x < 512 -> i = a + x -> outside a G G0 -> outside a (put i v G) G0.
Proof.
  intros Hx Hlt -> H j Hj. unfold put. rewrite (H j Hj).
  rewrite (proj2 (Z.eqb_neq _ _)); [done|]. divmod.
Qed.

Lemma putword_local a x o i v F G G0 :
  0 <= x -> a mod 512 + x + 1 < 512 -> o = a mod 512 + x -> i = a + x ->
  localized a F G -> outside a G G0 ->
  localized a (putword o v F) (putword i v G) /\ outside a (putword i v G) G0.
Proof.
  intros Hx Hlt -> -> Hl Ho. unfold putword. split.
  - apply (put_localized a (x + 1)); try lia. apply (put_localized a x); try lia. done.
  - apply (put_outside a (x + 1)); try lia. apply (put_outside a x); try lia. done.
Qed.

Lemma putlong_local a F G G0 v :
  a mod 512 + 3 < 512 -> localized a F G -> outside a G G0 ->
  localized a (putlong (a mod 512) v F) (putlong a v G) /\ outside a (putlong a v G) G0.
Proof.
  intros Hlt Hl Ho. unfold putlong.
  destruct (putword_local a 0 (a mod 512) a v F G G0) as [H1 H2]; [lia..|done|done|].
  apply (putword_local a 2); try lia; done.
Qed.

(** The views that a store to the FAT of [u] leaves alone. *)
Definition fsinfo_block (d : dpb) (blk : Z) : Prop :=
  dpb_xfsinfosec d <> 0xffff /\ blk = dpb_xfsinfosec d.
Definition fat_frame (s : kst) (l : list Z) (s' : kst) (l' : list Z) (u : Z) (d : dpb) : Prop :=
  forall u' q' d' blk, mounted s u' q' d' -> block_ok d' blk ->
    (u' = u -> ~ in_fat d blk /\ ~ fsinfo_block d blk) -> view s' l' d' blk = view s l d' blk.

(** The bytes of the table afterwards. *)
Definition table_is (s' : kst) (l' : list Z) (d : dpb) (f : Z -> Z) : Prop :=
  forall j, 0 <= j -> j / 512 < fat_secs d -> fat_byte s' l' d j = f j.

Lemma entry_ext k f g c m :
  (forall j, 0 <= j -> j / 512 < m -> f j = g j) -> 0 <= c -> at_byte k c + span k < m * 512 ->
  entry k f c = entry k g c.
Proof.
  intros H Hc Hr.
  assert (Hb : forall x, 0 <= x <= span k -> f (at_byte k c + x) = g (at_byte k c + x)).
  { intros x Hx. assert (0 <= at_byte k c) by (destruct k; cbn [at_byte]; [apply Z.div_pos|..]; lia).
    apply H; [lia|]. apply Z.div_lt_upper_bound; lia. }
  pose proof (Hb 0 ltac:(destruct k; cbn [span]; lia)) as H0. rewrite !Z.add_0_r in H0.
  destruct k; cbn [entry span] in *; unfold long, word; rewrite <- ?Z.add_assoc;
    rewrite ?H0, !Hb by lia; done.
Qed.

Lemma run_bput {A} p f L (kk : unit -> K kst A) s :
  is_Some (bufs s !! p) -> f (b_buffer (bufs s !!! p)) = Some L ->
  kbind (bput p f) kk s = kk tt (set_bufs (upd p (set_buffer L) (bufs s)) s).
Proof.
  intros Hp Hf. unfold bput. rewrite run_assoc, run_bget, run_assoc by done.
  rewrite Hf, run_opt, run_bmod by done. done.
Qed.

(** A FAT sector gets new bytes and becomes dirty. *)
Definition rewritten (L : list Z) (b : buffer) : buffer :=
  flag_on (Z.lor BFR_DIRTY BFR_VALID) (set_buffer L b).

Lemma rewritten_facts L b :
  dirty (rewritten L b) = true /\ valid (rewritten L b) = true /\
  has (b_flag (rewritten L b)) BFR_FAT = has (b_flag b) BFR_FAT.
Proof.
  unfold rewritten, valid. split; [|split].
  - flags. done.
  - flags. done.
  - rewrite !has_FAT, flag_on_bit. simpl. by rewrite orb_false_r.
Qed.

Lemma rewrite_spec s l u p d k blk bp L :
  cache s l -> volume s u p d k -> bp ∈ l -> in_fat d blk ->
  holds (bufs s !!! bp) blk u = true -> fat_buffer (bufs s !!! bp) p d -> is_sector L ->
  let s' := set_bufs (upd bp (rewritten L) (bufs s)) s in
  cache s' l /\ ioframe s s' /\
  forall u' q' d' blk', mounted s u' q' d' -> block_ok d' blk' ->
    view s' l d' blk' = if (u' =? u) && (blk' =? blk) then L else view s l d' blk'.
Proof.
  intros Hc V Hbp Hin Hh Hf HL s'. destruct (v_fits _ _ _ _ _ V) as (Hb0 & Hn & Hfit & Hcap).
  assert (Hbl : block_ok d blk).
  { unfold in_fat in Hin. split; [assert (0 < fat_secs d) by lia; nia|unfold mirror; lia]. }
  destruct (rewritten_facts L (bufs s !!! bp)) as (R1 & R2 & R3).
  destruct (store_spec s l bp u p d blk (rewritten L) Hc Hbp (v_mounted _ _ _ _ _ V) Hbl Hh)
    as [Hc' Hv]; [done|done| |done|by rewrite R1|].
  - apply holds_true in Hh as (? & ? & ?). by apply holds_true.
  - done.
Qed.

(** ** Writing an entry *)

(** [bp] is the buffer [getFATblock] returned for block [blk]. *)
Record found (s : kst) (l : list Z) (u p : Z) (d : dpb) (blk bp : Z) (s1 : kst) : Prop := Found {
  fd_in : bp ∈ l;
  fd_null : bp <> NULL;
  fd_cache : cache s1 (lru bp l);
  fd_view : same_view s l s1 (lru bp l);
  fd_frame : ioframe s s1;
  fd_holds : holds (bufs s1 !!! bp) blk u = true;
  fd_uncache : has (b_flag (bufs s1 !!! bp)) BFR_UNCACHE = false;
  fd_flag : has (b_flag (bufs s1 !!! bp)) BFR_FAT = true;
  fd_fat : fat_buffer (bufs s1 !!! bp) p d;
  fd_buf : b_buffer (bufs s1 !!! bp) = view s l d blk }.

Lemma getFATblock_found s l u p d k blk :
  cache s l -> volume s u p d k -> in_fat d blk ->
  exists bp s1, getFATblock p blk s = Some (bp, s1) /\ found s l u p d blk bp s1.
Proof.
  intros Hc V Hin. destruct (getFATblock_spec s l u p d k blk Hc V Hin)
    as (bp & s1 & Hr & H1 & H2 & H3 & H4 & H5 & H6 & H7 & H8 & H9 & H10 & _).
  exists bp, s1. split; [done|]. split; assumption.
Qed.

Lemma found_live s l u p d blk bp s1 : found s l u p d blk bp s1 -> is_Some (bufs s1 !! bp).
Proof.
  intros F. eapply ring_live; [apply (fd_cache _ _ _ _ _ _ _ _ F)|]. by apply elem_of_cons; left.
Qed.

(** The views outside the table. *)
Definition off_fat (s : kst) (l : list Z) (s' : kst) (l' : list Z) (u : Z) (d : dpb) : Prop :=
  forall u' q' d' blk, mounted s u' q' d' -> block_ok d' blk ->
    (u' = u -> ~ in_fat d blk) -> view s' l' d' blk = view s l d' blk.

Definition fat_written (s : kst) (l : list Z) (u : Z) (d : dpb) (s' : kst) (l' : list Z)
  (f : Z -> Z) : Prop :=
  cache s' l' /\ length l' = length l /\ ioframe s s' /\ table_is s' l' d f /\ off_fat s l s' l' u d.

Lemma single_store s l u p d k a bp s1 L G :
  cache s l -> volume s u p d k -> in_fat d (fat_base d + a / 512) -> 0 <= a ->
  found s l u p d (fat_base d + a / 512) bp s1 -> is_sector L ->
  localized a (byte_of L) G -> outside a G (fat_byte s l d) ->
  fat_written s l u d (set_bufs (upd bp (rewritten L) (bufs s1)) s1) (lru bp l) G.
Proof.
  intros Hc V Hin Ha F HL Hloc Hout. pose proof F as [F1 F2 F3 F4 F5 F6 F7 F8 F9 F10].
  pose proof (volume_ioframe _ _ _ _ _ _ F5 V) as V1.
  destruct (rewrite_spec s1 (lru bp l) u p d k (fat_base d + a / 512) bp L F3 V1) as (Hc3 & Hf3 & Hv3);
    [by apply elem_of_cons; left|done..|].
  split; [done|]. split; [apply lru_length; [by eapply cache_nodup|done]|].
  split; [by eapply ioframe_trans|].
  assert (Hview : forall blk, in_fat d blk ->
    view (set_bufs (upd bp (rewritten L) (bufs s1)) s1) (lru bp l) d blk =
      if blk =? fat_base d + a / 512 then L else view s l d blk).
  { intros blk Hb. rewrite (Hv3 u p d blk (v_mounted _ _ _ _ _ V1) (in_fat_ok _ _ _ _ _ _ V Hb)).
    rewrite Z.eqb_refl. cbn [andb]. destruct (blk =? _); [done|].
    apply (F4 u p); [apply V|by eapply in_fat_ok]. }
  split.
  - intros j Hj Hjs. unfold fat_byte. rewrite Hview.
    2:{ unfold in_fat. split; [divmod|lia]. }
    destruct (_ =? _) eqn:E; zbool.
    + apply Hloc. lia.
    + change (byte_of (view s l d (fat_base d + j / 512)) (j mod 512)) with (fat_byte s l d j).
      symmetry. apply Hout. lia.
  - intros u' q' d' blk Hm Hb Hn.
    rewrite (Hv3 u' q' d' blk (mounted_frame _ _ _ _ _ F5 Hm) Hb).
    destruct ((u' =? u) && (blk =? _)) eqn:E; [zbool; subst; by destruct (Hn eq_refl)|].
    by apply (F4 u' q').
Qed.

Lemma decode_free k raw : (decode k raw =? FREE) = (raw =? FREE).
Proof.
  destruct k; cbn [decode]; unfold MASK12, BAD12, MASK16, BAD16, LONG_BAD, LONG_LAST_CLUSTER, FREE.
  - destruct (_ <=? raw) eqn:E1; zbool; [symmetry; apply Z.eqb_neq; lia|].
    destruct (raw =? 4087) eqn:E2; zbool; [subst|]; done.
  - destruct (_ <=? raw) eqn:E1; zbool; [symmetry; apply Z.eqb_neq; lia|].
    destruct (raw =? 65527) eqn:E2; zbool; [subst|]; done.
  - destruct (_ <? raw) eqn:E1; zbool; [symmetry; apply Z.eqb_neq; lia|done].
Qed.

Definition link_body (p : Z) (d : dpb) (bp blk idx c v : Z) : K kst linked :=
  if ISFAT12 d then link12 p d bp blk idx c v
  else if ISFAT16 d then link16 bp idx v
  else if ISFAT32 d then link32 bp idx v
  else do! say MsgBadDPB in kret (Return 1).

Lemma storable_not_read k v :
  storable k v -> (v =? READ_CLUSTER) = false /\ (k <> FAT32 -> (u16 v =? READ_CLUSTER) = false).
Proof.
  unfold storable, FREE, LONG_LAST_CLUSTER, READ_CLUSTER. intros [->|[H| ->]]; try done.
  split; [apply Z.eqb_neq; lia|]. intros Hk. apply Z.eqb_neq.
  destruct k; [| |done]; cbn [max_of] in H; unfold FAT_MAGIC, FAT_MAGIC16 in H;
    rewrite u16_small; lia.
Qed.

(** The result of storing one entry: the run of the middle of [link_fat],
    with the flag update that follows it. *)
Definition body_writes (s : kst) (l : list Z) (u p : Z) (d : dpb) (k : fat_type)
  (bp idx c v : Z) (s1 : kst) : Prop :=
  exists s2 s3 l3,
    link_body p d bp (fat_base d + at_byte k c / 512) idx c v s1 =
      Some (WasFree (links s l d k c =? FREE), s2) /\
    bmod bp (flag_on (Z.lor BFR_DIRTY BFR_VALID)) s2 = Some (tt, s3) /\
    fat_written s l u d s3 l3 (store k (fat_byte s l d) c v).

Lemma at_byte_pos k c : 0 <= c -> 0 <= at_byte k c.
Proof. intros H. destruct k; cbn [at_byte]; [apply Z.div_pos|..]; lia. Qed.

Lemma localized_view s l d a L :
  L = view s l d (fat_base d + a / 512) -> localized a (byte_of L) (fat_byte s l d).
Proof. intros -> j Hj. unfold fat_byte. by rewrite Hj. Qed.

Lemma localized_byte a F G x : localized a F G -> 0 <= x -> a mod 512 + x < 512 -> F (a mod 512 + x) = G (a + x).
Proof.
  intros H Hx Hlt. rewrite <- (H (a + x)) by divmod. f_equal. divmod.
Qed.

Lemma localized_byte0 a F G : localized a F G -> F (a mod 512) = G a.
Proof. intros H. by rewrite <- (H a). Qed.

Lemma body16 s l u p d idx c v bp s1 :
  cache s l -> volume s u p d FAT16 -> 2 <= c <= max_cluster d -> storable FAT16 v ->
  in_fat d (fat_base d + at_byte FAT16 c / 512) -> idx * 2 = at_byte FAT16 c mod 512 ->
  found s l u p d (fat_base d + at_byte FAT16 c / 512) bp s1 ->
  body_writes s l u p d FAT16 bp idx c v s1.
Proof.
  intros Hc V Hcl Hst Hin Hoff F. pose proof (found_live _ _ _ _ _ _ _ _ F) as Hlive.
  destruct (storable_not_read _ _ Hst) as [_ Hnr]. specialize (Hnr ltac:(done)).
  pose proof (fd_buf _ _ _ _ _ _ _ _ F) as Hb.
  assert (Hsec : is_sector (b_buffer (bufs s1 !!! bp))) by (rewrite Hb; by apply view_bytes).
  pose proof (at_byte_pos FAT16 c ltac:(lia)) as Hpos.
  pose proof (localized_view s l d _ _ Hb) as Hloc.
  destruct (type_cases _ _ _ _ _ V) as [E12 E16].
  unfold body_writes, link_body. rewrite E12, E16. unfold link16. rewrite Hoff.
  destruct (fputword_of _ (at_byte FAT16 c mod 512) (u16 v) Hsec) as (L & HL & HsL & HbL);
    [cbn [at_byte]; divmod..|].
  eexists _, _, (lru bp l). split; [|split].
  - rewrite run_bget by done. rewrite fgetword_of by (done || (cbn [at_byte]; divmod)).
    rewrite run_opt, Hnr, (run_bput _ _ L) by done. unfold kret. f_equal. f_equal. f_equal.
    unfold links. rewrite decode_free. cbn [entry]. unfold word.
    rewrite (localized_byte0 _ _ _ Hloc), (localized_byte _ _ _ 1 Hloc); [done|lia|cbn [at_byte]; divmod].
  - rewrite exec_bmod; [|cbn [bufs set_bufs]; by apply upd_some].
    rewrite set_bufs_twice. cbn [bufs set_bufs]. rewrite upd_upd. reflexivity.
  - cbn [store]. assert (Hlt : at_byte FAT16 c mod 512 + 1 < 512) by (cbn [at_byte]; divmod).
    eapply single_store; [done|done|done|done|done|done|..].
    + intros j Hj. rewrite HbL by divmod.
      by apply (putword_local (at_byte FAT16 c) 0 _ _ _ _ _ (fat_byte s l d)); [lia|lia|lia|lia|..].
    + by apply (putword_local (at_byte FAT16 c) 0 (at_byte FAT16 c mod 512) (at_byte FAT16 c) (u16 v)
        (byte_of (b_buffer (bufs s1 !!! bp)))); [lia|lia|lia|lia|..].
Qed.

Lemma body32 s l u p d idx c v bp s1 :
  cache s l -> volume s u p d FAT32 -> 2 <= c <= max_cluster d -> storable FAT32 v ->
  in_fat d (fat_base d + at_byte FAT32 c / 512) -> idx * 4 = at_byte FAT32 c mod 512 ->
  found s l u p d (fat_base d + at_byte FAT32 c / 512) bp s1 ->
  body_writes s l u p d FAT32 bp idx c v s1.
Proof.
  intros Hc V Hcl Hst Hin Hoff F. pose proof (found_live _ _ _ _ _ _ _ _ F) as Hlive.
  destruct (storable_not_read _ _ Hst) as [Hnr _].
  pose proof (fd_buf _ _ _ _ _ _ _ _ F) as Hb.
  assert (Hsec : is_sector (b_buffer (bufs s1 !!! bp))) by (rewrite Hb; by apply view_bytes).
  pose proof (at_byte_pos FAT32 c ltac:(lia)) as Hpos.
  pose proof (localized_view s l d _ _ Hb) as Hloc.
  destruct (type_cases _ _ _ _ _ V) as (E12 & E16 & E32).
  assert (Hlt : at_byte FAT32 c mod 512 + 3 < 512) by (cbn [at_byte]; divmod).
  unfold body_writes, link_body. rewrite E12, E16, E32. unfold link32. rewrite Hoff.
  destruct (fputlong_of _ (at_byte FAT32 c mod 512) (Z.land v LONG_LAST_CLUSTER) Hsec)
    as (L & HL & HsL & HbL); [divmod|lia|].
  eexists _, _, (lru bp l). split; [|split].
  - rewrite run_bget by done. rewrite fgetlong_of by (done || divmod).
    rewrite run_opt, Hnr, (run_bput _ _ L) by done. unfold kret. f_equal. f_equal. f_equal.
    unfold links. rewrite decode_free. cbn [entry]. unfold long, word. rewrite <- !Z.add_assoc.
    rewrite (localized_byte0 _ _ _ Hloc), !(localized_byte _ _ _ _ Hloc) by lia. done.
  - rewrite exec_bmod; [|cbn [bufs set_bufs]; by apply upd_some].
    rewrite set_bufs_twice. cbn [bufs set_bufs]. rewrite upd_upd. reflexivity.
  - cbn [store].
    eapply single_store; [done|done|done|done|done|done|..].
    + intros j Hj. rewrite HbL by divmod.
      by apply (putlong_local (at_byte FAT32 c) _ _ (fat_byte s l d)).
    + by apply (putlong_local (at_byte FAT32 c) (byte_of (b_buffer (bufs s1 !!! bp)))).
Qed.

Lemma body12_in s l u p d idx c v bp s1 :
  cache s l -> volume s u p d FAT12 -> 2 <= c <= max_cluster d -> storable FAT12 v ->
  in_fat d (fat_base d + at_byte FAT12 c / 512) -> idx / 2 = at_byte FAT12 c mod 512 ->
  at_byte FAT12 c mod 512 < 511 ->
  found s l u p d (fat_base d + at_byte FAT12 c / 512) bp s1 ->
  body_writes s l u p d FAT12 bp idx c v s1.
Proof.
  intros Hc V Hcl Hst Hin Hoff Hlt F. pose proof (found_live _ _ _ _ _ _ _ _ F) as Hlive.
  destruct (storable_not_read _ _ Hst) as [_ Hnr]. specialize (Hnr ltac:(done)).
  pose proof (fd_buf _ _ _ _ _ _ _ _ F) as Hb.
  assert (Hsec : is_sector (b_buffer (bufs s1 !!! bp))) by (rewrite Hb; by apply view_bytes).
  pose proof (at_byte_pos FAT12 c ltac:(lia)) as Hpos.
  pose proof (localized_view s l d _ _ Hb) as Hloc.
  unfold body_writes, link_body. rewrite (type_cases _ _ _ _ _ V). unfold link12.
  rewrite Hoff, (mt_sec _ _ _ _ (v_mounted _ _ _ _ _ V)).
  rewrite (proj2 (Z.leb_gt _ _)) by lia. rewrite run_ret.
  set (w := pack12 c (word (fat_byte s l d) (at_byte FAT12 c)) v).
  destruct (fputbyte_of _ (at_byte FAT12 c mod 512) w Hsec) as (L1 & HL1 & HsL1 & HbL1); [divmod|].
  destruct (fputbyte_of _ (at_byte FAT12 c mod 512 + 1) (Z.shiftr w 8) HsL1) as (L & HL & HsL & HbL); [divmod|].
  assert (Hw : Z.lor (byte_of (b_buffer (bufs s1 !!! bp)) (at_byte FAT12 c mod 512))
    (Z.shiftl (byte_of (b_buffer (bufs s1 !!! bp)) (at_byte FAT12 c mod 512 + 1)) 8) =
    word (fat_byte s l d) (at_byte FAT12 c)).
  { unfold word. by rewrite (localized_byte0 _ _ _ Hloc), (localized_byte _ _ _ 1 Hloc) by lia. }
  eexists _, _, (lru bp l). split; [|split].
  - rewrite run_bget, run_bget by done. rewrite fgetbyte_of by (done || divmod).
    rewrite run_opt, fgetbyte_of by (done || divmod). rewrite run_opt, Hnr, Hw.
    rewrite (run_bput _ _ L1) by done.
    rewrite (run_bput _ _ L); cbn [bufs set_bufs];
      [|by apply upd_some|by rewrite upd_total, decide_True].
    unfold kret. f_equal. f_equal. f_equal. unfold links. rewrite decode_free. done.
  - rewrite exec_bmod; [|cbn [bufs set_bufs]; by repeat apply upd_some].
    rewrite !set_bufs_twice. cbn [bufs set_bufs]. rewrite !upd_upd. reflexivity.
  - cbn [store]. fold w.
    change (upd bp _ (bufs s1)) with (upd bp (rewritten L) (bufs s1)).
    eapply single_store; [done|done|done|done|done|done|..].
    + intros j Hj. rewrite HbL by divmod.
      rewrite (put_ext _ _ _ _ _ (HbL1 (j mod 512) ltac:(divmod))).
      by apply (putword_local (at_byte FAT12 c) 0 _ _ _ _ _ (fat_byte s l d)); [lia|lia|lia|lia|..].
    + by apply (putword_local (at_byte FAT12 c) 0 (at_byte FAT12 c mod 512) (at_byte FAT12 c) w
        (byte_of (b_buffer (bufs s1 !!! bp)))); [lia|lia|lia|lia|..].
Qed.

Lemma fat_buffer_data b c p d : data c = data b -> fat_buffer b p d -> fat_buffer c p d.
Proof.
  intros H (H1 & H2 & H3 & H4 & H5).
  pose proof (f_equal b_copies H) as E1. pose proof (f_equal b_offset H) as E2.
  pose proof (f_equal b_dpbp H) as E3. pose proof (f_equal b_blkno H) as E4.
  cbn in E1, E2, E3, E4. unfold fat_buffer. by rewrite E1, E2, E3, E4.
Qed.

Lemma holds_data b c blk u : data c = data b -> holds c blk u = holds b blk u.
Proof.
  intros H. pose proof (f_equal b_unit H) as E1. pose proof (f_equal b_flag H) as E2.
  pose proof (f_equal b_blkno H) as E3. cbn in E1, E2, E3. unfold holds. by rewrite E1, E2, E3.
Qed.

Lemma upd_comm p q f g m : p <> q -> upd p f (upd q g m) = upd q g (upd p f m).
Proof.
  intros Hne. unfold upd. rewrite !lookup_total_insert_ne by done.
  by apply insert_insert_ne.
Qed.

Lemma body12_cross s l u p d idx c v bp s1 :
  cache s l -> volume s u p d FAT12 -> (2 <= length l)%nat ->
  2 <= c <= max_cluster d -> storable FAT12 v ->
  in_fat d (fat_base d + at_byte FAT12 c / 512) -> idx / 2 = at_byte FAT12 c mod 512 ->
  at_byte FAT12 c mod 512 = 511 ->
  found s l u p d (fat_base d + at_byte FAT12 c / 512) bp s1 ->
  body_writes s l u p d FAT12 bp idx c v s1.
Proof.
  intros Hc V Hlen Hcl Hst Hin Hoff Hcross F.
  destruct (storable_not_read _ _ Hst) as [Hnr1 Hnr]. specialize (Hnr ltac:(done)).
  pose proof F as [F1 F2 F3 F4 F5 F6 F7 F8 F9 F10].
  pose proof (at_byte_pos FAT12 c ltac:(lia)) as Hpos.
  set (a := at_byte FAT12 c) in *. set (blk := fat_base d + a / 512) in *.
  assert (Hin1 : in_fat d (blk + 1)).
  { pose proof (v_room _ _ _ _ _ V) as Hroom. unfold a in *. cbn [at_byte span] in *.
    assert (c * 3 / 2 <= max_cluster d * 3 / 2) by (apply Z.div_le_mono; lia).
    unfold in_fat, blk in *. split; [lia|].
    assert (c * 3 / 2 / 512 + 1 < fat_secs d); [|lia].
    assert ((c * 3 / 2 + 1) / 512 = c * 3 / 2 / 512 + 1) as <- by divmod.
    apply Z.div_lt_upper_bound; lia. }
  pose proof (volume_ioframe _ _ _ _ _ _ F5 V) as V1.
  pose proof (cache_nodup _ _ Hc) as Hnd.
  destruct (next_block s l u p d FAT12 blk bp s1 F3 V1 Hnd F1 Hlen F6 F7 F8 F5 Hin1)
    as (bp1 & s2 & Hr2 & Hne & Hnn1 & Hbp1 & Hc2 & Hv2 & Hf2 & Hh2 & Hfat2 & Hb2 & Hd2).
  set (l2 := lru bp1 (lru bp l)) in *.
  assert (Hi1 : bp1 ∈ l2) by (by apply elem_of_cons; left).
  assert (Hi : bp ∈ l2).
  { apply elem_of_cons. right. apply list_elem_of_filter. split; [done|by apply elem_of_cons; left]. }
  assert (L1v : is_Some (bufs s2 !! bp1)) by (eapply ring_live; [apply Hc2|done]).
  assert (L0v : is_Some (bufs s2 !! bp)) by (eapply ring_live; [apply Hc2|done]).
  assert (Hblk : 0 <= blk /\ blk + 1 < 65536).
  { pose proof (v_small _ _ _ _ _ V eq_refl). destruct (v_fits _ _ _ _ _ V) as (? & _).
    unfold in_fat in *. lia. }
  assert (Hsec : is_sector (b_buffer (bufs s1 !!! bp))) by (rewrite F10; by apply view_bytes).
  assert (Hbuf2 : b_buffer (bufs s2 !!! bp) = b_buffer (bufs s1 !!! bp)) by (by apply data_buffer).
  assert (Hsec1 : is_sector (b_buffer (bufs s2 !!! bp1))) by (rewrite Hb2; by apply view_bytes).
  assert (Hb0 : byte_of (b_buffer (bufs s1 !!! bp)) 511 = fat_byte s l d a).
  { rewrite F10, <- Hcross. done. }
  assert (Hb1 : byte_of (b_buffer (bufs s2 !!! bp1)) 0 = fat_byte s l d (a + 1)).
  { rewrite Hb2, (same_view_fat s l s1 (lru bp l) u p d FAT12 V F4) by done. unfold blk.
    rewrite <- Z.add_assoc, <- fat_byte_at by lia. f_equal. divmod. }
  set (w := pack12 c (word (fat_byte s l d) a) v).
  destruct (fputbyte_of _ 511 w Hsec) as (L & HL & HsL & HbL); [lia|].
  destruct (fputbyte_of _ 0 (Z.shiftr w 8) Hsec1) as (L1 & HL1 & HsL1 & HbL1); [lia|].
  (* the two stores, one block after the other *)
  pose proof (volume_ioframe _ _ _ _ _ _ Hf2 V1) as V2.
  destruct (rewrite_spec s2 l2 u p d FAT12 (blk + 1) bp1 L1 Hc2 V2 Hi1 Hin1 Hh2 Hfat2 HsL1)
    as (Hc3 & Hf3 & Hv3).
  set (s3 := set_bufs (upd bp1 (rewritten L1) (bufs s2)) s2) in *.
  assert (Hs3 : bufs s3 !!! bp = bufs s2 !!! bp).
  { unfold s3. cbn [bufs set_bufs]. by rewrite upd_total, decide_False. }
  destruct (rewrite_spec s3 l2 u p d FAT12 blk bp L Hc3 (volume_ioframe _ _ _ _ _ _ Hf3 V2) Hi Hin)
    as (Hc4 & Hf4 & Hv4);
    [by rewrite Hs3, (holds_data _ _ _ _ Hd2)|rewrite Hs3; by eapply fat_buffer_data|done|].
  set (s4 := set_bufs (upd bp (rewritten L) (bufs s3)) s3) in *.
  assert (Hf02 : ioframe s s2) by (by eapply ioframe_trans).
  assert (Hf03 : ioframe s s3) by (by eapply ioframe_trans).
  unfold body_writes, link_body. rewrite (type_cases _ _ _ _ _ V). unfold link12. fold a blk w.
  rewrite Hoff, Hcross, (mt_sec _ _ _ _ (v_mounted _ _ _ _ _ V)).
  change (512 - 1 <=? 511) with true. cbn iota.
  rewrite (u16_small blk), (u16_small (blk + 1)) by lia.
  eexists _, s4, l2. split; [|split].
  - rewrite run_assoc, (run_eq _ _ _ _ _ Hr2), (proj2 (Z.eqb_neq _ _) Hnn1), Hnr1. cbn [negb].
    rewrite run_assoc, run_bmod by done. rewrite run_ret.
    rewrite run_bget, run_bget by (cbn [bufs set_bufs]; by apply upd_some).
    cbn [bufs set_bufs].
    rewrite !upd_total, (decide_False (P := bp1 = bp)), (decide_True (P := bp1 = bp1)) by done.
    cbn [b_buffer flag_on set_flag]. rewrite Hbuf2.
    rewrite fgetbyte_of by (done || lia). rewrite run_opt, fgetbyte_of by (done || lia).
    rewrite run_opt, Hnr. fold (word (fat_byte s l d) a). rewrite Hb0, Hb1.
    change (Z.lor (fat_byte s l d a) (Z.shiftl (fat_byte s l d (a + 1)) 8)) with (word (fat_byte s l d) a).
    fold w.
    rewrite (run_bput _ _ L); cbn [bufs set_bufs];
      [|by apply upd_some|by rewrite upd_total, decide_False, Hbuf2].
    rewrite (run_bput _ _ L1); cbn [bufs set_bufs];
      [|by repeat apply upd_some|by rewrite !upd_total, decide_False, decide_True].
    unfold kret. f_equal. f_equal. f_equal. unfold links. by rewrite decode_free.
  - rewrite exec_bmod; [|cbn [bufs set_bufs]; by repeat apply upd_some].
    rewrite !set_bufs_twice. cbn [bufs set_bufs]. unfold s4, s3. cbn [bufs set_bufs].
    rewrite !set_bufs_twice. f_equal. f_equal. f_equal.
    rewrite (upd_comm bp1 bp (set_buffer L1)) by done. rewrite !upd_upd. done.
  - split; [done|]. split.
    { unfold l2. rewrite lru_length; [by apply lru_length|by apply (cache_nodup _ _ F3)|].
      by apply (lru_in bp l). }
    split; [eapply ioframe_trans; [exact Hf03|exact Hf4]|].
    assert (Hview : forall u' q' d' blk', mounted s u' q' d' -> block_ok d' blk' ->
      view s4 l2 d' blk' = if (u' =? u) && (blk' =? blk) then L
        else if (u' =? u) && (blk' =? blk + 1) then L1 else view s l d' blk').
    { intros u' q' d' blk' Hm Hb.
      rewrite (Hv4 u' q' d' blk') by (done || by eapply mounted_frame).
      destruct ((u' =? u) && (blk' =? blk)); [done|].
      rewrite (Hv3 u' q' d' blk') by (done || by eapply mounted_frame).
      destruct ((u' =? u) && (blk' =? blk + 1)); [done|].
      rewrite (Hv2 u' q' d' blk') by (done || by eapply mounted_frame). by apply (F4 u' q'). }
    split.
    + intros j Hj Hjs. cbn [store]. fold a w. unfold fat_byte at 1.
      assert (Hinj : in_fat d (fat_base d + j / 512)) by (unfold in_fat; split; [divmod|lia]).
      rewrite (Hview u p d); [|apply V|by eapply in_fat_ok]. rewrite Z.eqb_refl. cbn [andb].
      unfold blk. unfold putword, put.
      destruct (fat_base d + j / 512 =? fat_base d + a / 512) eqn:E1; zbool.
      * rewrite HbL by divmod. unfold put. rewrite (proj2 (Z.eqb_neq j (a + 1))) by divmod.
        replace (j mod 512 =? 511) with (j =? a);
          [|destruct (j =? a) eqn:?, (j mod 512 =? 511) eqn:?; zbool; try done; divmod].
        destruct (j =? a); [done|]. rewrite F10. unfold fat_byte, blk.
        by replace (j / 512) with (a / 512) by lia.
      * destruct (fat_base d + j / 512 =? fat_base d + a / 512 + 1) eqn:E2; zbool.
        -- rewrite HbL1 by divmod. unfold put. rewrite (proj2 (Z.eqb_neq j a)) by divmod.
           replace (j mod 512 =? 0) with (j =? a + 1);
             [|destruct (j =? a + 1) eqn:?, (j mod 512 =? 0) eqn:?; zbool; try done; divmod].
           destruct (j =? a + 1); [done|]. rewrite Hb2.
           rewrite (same_view_fat s l s1 (lru bp l) u p d FAT12 V F4) by done. unfold fat_byte, blk.
           by replace (j / 512) with (a / 512 + 1) by lia; rewrite Z.add_assoc.
        -- rewrite !(proj2 (Z.eqb_neq _ _)) by divmod. done.
    + intros u' q' d' blk' Hm Hb Hn. rewrite (Hview u' q' d' blk' Hm Hb).
      destruct (u' =? u) eqn:Eu; [|done]. zbool. specialize (Hn Eu). cbn [andb].
      destruct (blk' =? blk) eqn:E1; zbool; [by subst|].
      destruct (blk' =? blk + 1) eqn:E2; zbool; [by subst|done].
Qed.

(** ** The FSINFO sector *)

Lemma put_same i f j : bytes f -> put i (f i) f j = f j.
Proof.
  intros Hf. unfold put. destruct (j =? i) eqn:E; zbool; [|done]. subst. apply u8_small, Hf.
Qed.

Lemma putlong_same i f j : bytes f -> putlong i (long f i) f j = f j.
Proof.
  intros Hf. unfold putlong. rewrite !putword_at, long_arith by done.
  rewrite Z.shiftr_div_pow2 by lia. change (2 ^ 16) with 65536.
  pose proof (Hf i). pose proof (Hf (i + 1)). pose proof (Hf (i + 2)). pose proof (Hf (i + 3)).
  unfold byte in *.
  repeat match goal with |- context [if ?a =? ?b then _ else _] =>
    destruct (Z.eqb_spec a b); try lia end; subst; try done.
  - divmod.
  - replace (i + 2 + 1) with (i + 3) by lia. divmod.
  - divmod.
  - divmod.
Qed.

Lemma sector_ext l l' :
  is_sector l -> is_sector l' -> (forall i, 0 <= i < 512 -> byte_of l' i = byte_of l i) -> l' = l.
Proof.
  intros [H1 _] [H2 _] H. apply list_eq. intros i.
  destruct (decide (i < 512)%nat).
  - specialize (H (Z.of_nat i) ltac:(lia)). unfold byte_of in H. rewrite !Nat2Z.id in H.
    destruct (lookup_lt_is_Some_2 l i) as [x Hx]; [unfold SECSIZE in *; lia|].
    destruct (lookup_lt_is_Some_2 l' i) as [y Hy]; [unfold SECSIZE in *; lia|].
    rewrite Hx, Hy in *. simpl in H. by subst.
  - rewrite !lookup_ge_None_2; [done|unfold SECSIZE in *; lia..].
Qed.

Lemma byte_of_bytes l : is_sector l -> bytes (byte_of l).
Proof. intros [_ H] i. by apply byte_of_byte. Qed.

Lemma fputlong_same l i :
  is_sector l -> 0 <= i -> i + 3 < 512 -> fputlong i (long (byte_of l) i) l = Some l.
Proof.
  intros Hl Hi Hj. destruct (fputlong_of l i (long (byte_of l) i) Hl Hi Hj) as (l' & -> & Hs & H).
  f_equal. apply sector_ext; [done|done|]. intros j Hj'. rewrite H by done.
  apply putlong_same. by apply byte_of_bytes.
Qed.

(** The views of all drives but the FSINFO block of [u]. *)
Definition off_fsinfo (s : kst) (l : list Z) (s' : kst) (l' : list Z) (u : Z) (d : dpb) : Prop :=
  forall u' q' d' blk, mounted s u' q' d' -> block_ok d' blk ->
    (u' = u -> ~ fsinfo_block d blk) -> view s' l' d' blk = view s l d' blk.

(** The FSINFO buffer with new flags and content. *)
Definition info_buf (dirt : bool) (L : list Z) (b : buffer) : buffer :=
  let b := flag_on BFR_VALID (flag_off (Z.lor (Z.lor BFR_DATA BFR_DIR) BFR_FAT) b) in
  set_buffer L (if dirt then flag_on BFR_DIRTY b else b).

Lemma info_buf_facts dirt L b :
  valid b = true ->
  b_next (info_buf dirt L b) = b_next b /\ b_prev (info_buf dirt L b) = b_prev b /\
  b_unit (info_buf dirt L b) = b_unit b /\ b_blkno (info_buf dirt L b) = b_blkno b /\
  valid (info_buf dirt L b) = true /\ has (b_flag (info_buf dirt L b)) BFR_FAT = false /\
  dirty (info_buf dirt L b) = dirt || dirty b /\ b_buffer (info_buf dirt L b) = L.
Proof.
  unfold valid. rewrite has_VALID. intros Hv.
  assert (Hf : forall j, Z.testbit (b_flag (info_buf dirt L b)) j =
    Z.testbit (b_flag b) j && negb (Z.testbit (Z.lor (Z.lor BFR_DATA BFR_DIR) BFR_FAT) j)
    || Z.testbit BFR_VALID j || (dirt && Z.testbit BFR_DIRTY j)).
  { intros j. unfold info_buf. destruct dirt; cbn [b_flag set_buffer].
    - by rewrite !flag_on_bit, flag_off_bit.
    - by rewrite flag_on_bit, flag_off_bit, orb_false_r. }
  rewrite has_VALID, has_FAT, !dirty_bits, !Hf, Hv.
  change (Z.testbit BFR_VALID 5) with true. change (Z.testbit BFR_VALID 1) with false.
  change (Z.testbit BFR_VALID 6) with false. change (Z.testbit BFR_DIRTY 1) with false.
  change (Z.testbit BFR_DIRTY 6) with true.
  change (Z.testbit (Z.lor (Z.lor BFR_DATA BFR_DIR) BFR_FAT) 1) with true.
  change (Z.testbit (Z.lor (Z.lor BFR_DATA BFR_DIR) BFR_FAT) 6) with false.
  unfold info_buf. destruct dirt; cbn [negb];
    rewrite ?andb_true_r, ?andb_false_r, ?orb_true_r, ?orb_false_r; by repeat split.
Qed.

Lemma write_fsinfo_spec s l u p d :
  cache s l -> volume s u p d FAT32 ->
  exists s' l', write_fsinfo p s = Some (tt, s') /\ cache s' l' /\ length l' = length l /\
    ioframe s s' /\ off_fsinfo s l s' l' u d.
Proof.
  intros Hc V. pose proof (v_mounted _ _ _ _ _ V) as Hm.
  unfold write_fsinfo. rewrite (run_dget p d) by apply Hm.
  destruct (dpb_xfsinfosec d =? 0xffff) eqn:Ex; zbool.
  { exists s, l. repeat (split; [done|]). by intros u' q' d' blk _ _ _. }
  destruct (v_fsinfo _ _ _ _ _ V eq_refl Ex) as [Hbl Hnin].
  destruct (getblk_spec s l u p d _ Hc Hm Hbl)
    as (bp & s1 & Hr & Hbp & Hnn & Hc1 & Hv1 & Hf1 & Hh1 & _ & Hb1 & _ & _).
  assert (Hin : bp ∈ lru bp l) by (by apply elem_of_cons; left).
  assert (Hlive : is_Some (bufs s1 !! bp)) by (eapply ring_live; [apply Hc1|done]).
  assert (Hsec : is_sector (b_buffer (bufs s1 !!! bp))) by (rewrite Hb1; by apply view_bytes).
  unfold getblock. rewrite (mt_unit _ _ _ _ Hm), (run_eq _ _ _ _ _ Hr).
  rewrite run_bmod by done. rewrite run_bmod by (cbn [bufs set_bufs]; by apply upd_some).
  rewrite set_bufs_twice. cbn [bufs set_bufs]. rewrite upd_upd.
  rewrite run_bget by (cbn [bufs set_bufs]; by apply upd_some).
  cbn [bufs set_bufs]. rewrite upd_total, decide_True by done.
  cbn [b_buffer flag_on flag_off set_flag].
  rewrite fgetlong_of by (done || (unfold FI_NFREECLST; lia)).
  rewrite run_opt, fgetlong_of by (done || (unfold FI_CLUSTER; lia)). rewrite run_opt.
  set (nf := long (byte_of (b_buffer (bufs s1 !!! bp))) FI_NFREECLST).
  set (cl := long (byte_of (b_buffer (bufs s1 !!! bp))) FI_CLUSTER).
  set (dirt := negb (nf =? dpb_xnfreeclst d) || negb (cl =? dpb_xcluster d)).
  destruct (fputlong_of _ FI_NFREECLST (dpb_xnfreeclst d) Hsec) as (L1 & HL1 & HsL1 & HbL1);
    [unfold FI_NFREECLST; lia..|].
  destruct (fputlong_of _ FI_CLUSTER (dpb_xcluster d) HsL1) as (L & HL & HsL & HbL);
    [unfold FI_CLUSTER; lia..|].
  assert (Hsame : dirt = false -> L = b_buffer (bufs s1 !!! bp)).
  { unfold dirt. intros E. apply orb_false_iff in E as [E1%negb_false_iff E2%negb_false_iff]. zbool.
    rewrite <- E1 in HL1. unfold nf in HL1. rewrite fputlong_same in HL1 by (done || (unfold FI_NFREECLST; lia)).
    injection HL1 as <-. rewrite <- E2 in HL. unfold cl in HL.
    rewrite fputlong_same in HL by (done || (unfold FI_CLUSTER; lia)). by injection HL as <-. }
  pose proof (proj1 (holds_true _ _ _) Hh1) as (Hk1 & Hk2 & Hk3).
  destruct (info_buf_facts dirt L (bufs s1 !!! bp) Hk2) as (I1 & I2 & I3 & I4 & I5 & I6 & I7 & I8).
  assert (Hh' : holds (info_buf dirt L (bufs s1 !!! bp)) (dpb_xfsinfosec d) u = true).
  { apply holds_true. by rewrite I3, I4. }
  destruct (store_spec s1 (lru bp l) bp u p d _ (info_buf dirt L) Hc1 Hin (mounted_frame _ _ _ _ _ Hf1 Hm) Hbl Hh1)
    as [Hc2 Hv2]; [done|by rewrite I8|done|by rewrite I6| |].
  { rewrite I7, I8. destruct dirt; cbn [orb]; [done|]. intros Ed.
    rewrite (Hsame eq_refl). destruct (c_buf _ _ Hc1 _ Hin) as [_ Hok].
    destruct (Hok Hk2) as (r & e & Hme & _ & _ & Hde). rewrite Hk3 in Hme.
    destruct (mounted_fun _ _ _ _ _ _ (mounted_frame _ _ _ _ _ Hf1 Hm) Hme) as [-> ->].
    rewrite <- Hk1. by apply Hde. }
  eexists _, (lru bp l). split; [|split; [exact Hc2|split; [apply lru_length; [by eapply cache_nodup|done]|split]]].
  - unfold info_buf. destruct dirt.
    + rewrite run_bmod by (cbn [bufs set_bufs]; by apply upd_some).
      rewrite set_bufs_twice. cbn [bufs set_bufs]. rewrite upd_upd.
      rewrite (run_bput _ _ L1); cbn [bufs set_bufs];
        [|by apply upd_some|by rewrite upd_total, decide_True].
      rewrite set_bufs_twice, upd_upd. unfold bput.
      rewrite run_bget by (cbn [bufs set_bufs]; by apply upd_some).
      cbn [bufs set_bufs]. rewrite upd_total, decide_True by done. cbn [b_buffer set_buffer].
      rewrite HL, run_opt, exec_bmod by (cbn [bufs set_bufs]; by apply upd_some).
      rewrite set_bufs_twice. cbn [bufs set_bufs]. rewrite upd_upd. done.
    + rewrite run_ret.
      rewrite (run_bput _ _ L1); cbn [bufs set_bufs];
        [|by apply upd_some|by rewrite upd_total, decide_True].
      rewrite set_bufs_twice, upd_upd. unfold bput.
      rewrite run_bget by (cbn [bufs set_bufs]; by apply upd_some).
      cbn [bufs set_bufs]. rewrite upd_total, decide_True by done. cbn [b_buffer set_buffer].
      rewrite HL, run_opt, exec_bmod by (cbn [bufs set_bufs]; by apply upd_some).
      rewrite set_bufs_twice. cbn [bufs set_bufs]. rewrite upd_upd. done.
  - done.
  - intros u' q' d' blk Hm' Hb' Hn.
    rewrite (Hv2 u' q' d' blk (mounted_frame _ _ _ _ _ Hf1 Hm') Hb').
    destruct ((u' =? u) && (blk =? dpb_xfsinfosec d)) eqn:E; [|by apply (Hv1 u' q')].
    zbool. destruct (Hn ltac:(done)). by split.
Qed.

End Spec.
End FatSpec.
