(* ===== verification/FatWrite.v ===== *)
(** * link_fat: storing an entry

    The store of one entry, with the free space count and the FSINFO sector,
    as an update of the table of links: [link_fat_write].  [ready] is the state
    in which the table of a volume may be used, and the lemmas on the table
    that the allocation code needs are stated for it. *)

From S2P Require Import Prelude KState BlockIO FatTab Disk Ring CacheSpec CacheOps FatPure FatSpec.
Import Ks Bio Fat Dsk Ring Cache CacheOps FatPure FatSpec.

Module FatWrite.
Section Spec.
Context {M : Machine} {D : Disk}.

(** ** The hints do not change what a drive shows *)

Lemma view_geo s l d d' blk : geo d' = geo d -> view s l d' blk = view s l d blk.
Proof. intros ->%geo_eq. done. Qed.
Lemma fat_byte_geo s l d d' i : geo d' = geo d -> fat_byte s l d' i = fat_byte s l d i.
Proof. intros ->%geo_eq. done. Qed.
Lemma links_geo s l d d' k c : geo d' = geo d -> links s l d' k c = links s l d k c.
Proof. intros ->%geo_eq. done. Qed.
Lemma block_ok_geo d d' blk : geo d' = geo d -> block_ok d' blk <-> block_ok d blk.
Proof. intros ->%geo_eq. done. Qed.
Lemma in_fat_geo d d' blk : geo d' = geo d -> in_fat d' blk <-> in_fat d blk.
Proof. intros ->%geo_eq. done. Qed.
Lemma max_geo d d' : geo d' = geo d -> max_cluster d' = max_cluster d.
Proof. intros ->%geo_eq. done. Qed.

(** ** The free space count *)

Definition adjust (v : Z) (w : bool) : Z :=
  if negb w then 1 else if negb (v =? FREE) then -1 else 0.

(** The parameter block after a store of [v]; [w]: the entry was free. *)
Definition counted (d : dpb) (v : Z) (w : bool) : dpb :=
  if (v =? FREE) || w then
    if ISFAT32 d && negb (dpb_xnfreeclst d =? XUNKNCLSTFREE) then
      set_xnfreeclst (u32 (dpb_xnfreeclst d + adjust v w)) d
    else if negb (dpb_nfreeclst d =? UNKNCLSTFREE) then
      set_nfreeclst (u16 (dpb_nfreeclst d + adjust v w)) d
    else d
  else d.

Lemma counted_geo d v w : geo (counted d v w) = geo d.
Proof.
  unfold counted. destruct (_ || w); [|done].
  destruct (_ && _); [done|]. by destruct (negb _).
Qed.

Lemma counted_hints d v w :
  dpb_cluster (counted d v w) = dpb_cluster d /\ dpb_xcluster (counted d v w) = dpb_xcluster d.
Proof.
  unfold counted. destruct (_ || w); [|done].
  destruct (_ && _); [done|]. by destruct (negb _).
Qed.

Lemma exec_dmod p f d s :
  dpbs s !! p = Some d -> dmod p f s = Some (tt, set_dpbs (<[p := f d]> (dpbs s)) s).
Proof. unfold dmod. by intros ->. Qed.

(** A store to the hints, with the cache as it was. *)
Lemma hints_spec s l u p d k d' :
  cache s l -> volume s u p d k -> geo d' = geo d ->
  let s' := set_dpbs (<[p := d']> (dpbs s)) s in
  cache s' l /\ evolves s s' /\ volume s' u p d' k /\
  (forall e blk, view s' l e blk = view s l e blk).
Proof.
  intros Hc V Hg s'. pose proof (mt_dpb _ _ _ _ (v_mounted _ _ _ _ _ V)) as Hp.
  assert (Hev : evolves s s') by (by eapply dpb_evolves).
  split; [by apply (cache_evolves s)|]. split; [done|]. split; [|done].
  destruct (evolves_volume _ _ _ _ _ _ Hev V) as (e & Ve & _).
  pose proof (mt_dpb _ _ _ _ (v_mounted _ _ _ _ _ Ve)) as He.
  unfold s' in He. cbn [dpbs set_dpbs] in He. rewrite lookup_insert_eq in He.
  injection He as <-. done.
Qed.

Lemma update_free_spec s l u p d k v w :
  cache s l -> volume s u p d k ->
  exists s' l', update_free p v w s = Some (tt, s') /\ cache s' l' /\ length l' = length l /\
    evolves s s' /\ fs s' = fs s /\ console s' = console s /\ volume s' u p (counted d v w) k /\
    (forall u' q' d' blk, mounted s u' q' d' -> block_ok d' blk ->
      (u' = u -> k = FAT32 -> ~ fsinfo_block d blk) -> view s' l' d' blk = view s l d' blk).
Proof.
  intros Hc V. pose proof (v_mounted _ _ _ _ _ V) as Hm. pose proof (mt_dpb _ _ _ _ Hm) as Hp.
  unfold update_free. fold (adjust v w). pose proof (counted_geo d v w) as Hg.
  unfold counted in *. destruct (_ || w).
  2:{ exists s, l. by repeat (split; [done|]). }
  rewrite (run_dget p d) by done.
  destruct (ISFAT32 d && negb (dpb_xnfreeclst d =? XUNKNCLSTFREE)) eqn:E.
  - apply andb_true_iff in E as [E _]. rewrite (v_32 _ _ _ _ _ V) in E. destruct k; try done.
    set (d1 := set_xnfreeclst _ d) in *.
    destruct (hints_spec s l u p d FAT32 d1 Hc V Hg) as (Hc1 & Hev & V1 & Hv1).
    rewrite (run_eq _ _ _ _ _ (exec_dmod _ _ _ _ Hp)).
    destruct (write_fsinfo_spec _ _ _ _ _ Hc1 V1) as (s2 & l2 & Hr & Hc2 & Hl & Hf & Ho).
    exists s2, l2. split; [done|]. split; [done|]. split; [done|].
    split; [eapply evolves_trans; [done|by apply evolves_ioframe]|].
    split; [apply Hf|]. split; [apply Hf|]. split; [by eapply volume_ioframe|].
    intros u' q' d' blk Hm' Hb Hn.
    destruct (evolves_mounted _ _ _ _ _ Hev Hm') as (d'' & Hm'' & Hg'').
    rewrite <- (view_geo s2 l2 d' d'' blk Hg''), (Ho u' q' d'' blk Hm'').
    + by rewrite Hv1, (view_geo s l d' d'').
    + by rewrite (block_ok_geo d' d'').
    + intros Hu. by specialize (Hn Hu eq_refl).
  - destruct (negb (dpb_nfreeclst d =? UNKNCLSTFREE)) eqn:En.
    + set (d1 := set_nfreeclst _ d) in *.
      destruct (hints_spec s l u p d k d1 Hc V Hg) as (Hc1 & Hev & V1 & Hv1).
      rewrite (exec_dmod _ _ _ _ Hp). eexists _, l. split; [reflexivity|].
      repeat (split; [done|]). by intros.
    + exists s, l. by repeat (split; [done|]).
Qed.

(** ** link_fat *)

Record ready (s : kst) (l : list Z) (u p : Z) (d : dpb) (k : fat_type) : Prop := Ready {
  r_cache : cache s l;
  r_volume : volume s u p d k;
  r_bufs : (2 <= length l)%nat }.

(** The values [link_fat] may store on a volume. *)
Definition storing (d : dpb) (v : Z) : Prop :=
  v = FREE \/ 2 <= v <= max_cluster d \/ v = LONG_LAST_CLUSTER.

Lemma storing_storable s u p d k v : volume s u p d k -> storing d v -> storable k v.
Proof.
  intros V [H|[H|H]]; [by left| |by right; right]. right; left.
  pose proof (v_max _ _ _ _ _ V). lia.
Qed.

Lemma decode_store k c v f :
  bytes f -> storable k v ->
  forall c', decode k (entry k (store k f c v) c') = if c' =? c then v else decode k (entry k f c').
Proof.
  intros Hf Hs c'. rewrite entry_store by done. destruct (c' =? c); [|done].
  by apply decode_enc.
Qed.

Lemma body_spec s l u p d k c v idx bp s1 :
  cache s l -> volume s u p d k -> (2 <= length l)%nat -> 2 <= c <= max_cluster d -> storable k v ->
  in_fat d (fat_base d + at_byte k c / 512) ->
  match k with FAT12 => idx / 2 | FAT16 => idx * 2 | FAT32 => idx * 4 end = at_byte k c mod 512 ->
  found s l u p d (fat_base d + at_byte k c / 512) bp s1 ->
  body_writes s l u p d k bp idx c v s1.
Proof.
  intros Hc V Hlen Hcl Hst Hin Hoff F. destruct k.
  - destruct (decide (at_byte FAT12 c mod 512 < 511)).
    + by apply body12_in.
    + apply body12_cross; try done. pose proof (Z.mod_pos_bound (at_byte FAT12 c) 512). lia.
  - by apply body16.
  - by apply body32.
Qed.

Lemma links_written s l u p d k s' l' c v :
  cache s l -> volume s u p d k -> 2 <= c <= max_cluster d -> storable k v ->
  table_is s' l' d (store k (fat_byte s l d) c v) ->
  forall c', 2 <= c' <= max_cluster d ->
    links s' l' d k c' = if c' =? c then v else links s l d k c'.
Proof.
  intros Hc V Hcl Hst Ht c' Hc'. unfold links.
  rewrite (entry_ext k _ (store k (fat_byte s l d) c v) c' (fat_secs d)); [|done|lia|].
  - apply decode_store; [by apply fat_bytes|done].
  - pose proof (v_room _ _ _ _ _ V). pose proof (span_range k).
    assert (at_byte k c' <= at_byte k (max_cluster d)); [|lia].
    destruct k; cbn [at_byte]; [apply Z.div_le_mono; lia|lia|lia].
Qed.

Lemma fsinfo_not_fat s u p d blk :
  volume s u p d FAT32 -> in_fat d blk -> ~ fsinfo_block d blk.
Proof.
  intros V Hin [H1 ->]. by destruct (v_fsinfo _ _ _ _ _ V eq_refl H1).
Qed.

Lemma link_fat_write s l u p d k c v :
  ready s l u p d k -> 2 <= c <= max_cluster d -> storing d v ->
  exists s' l', link_fat p c v s = Some (SUCCESS, s') /\
    let d' := counted d v (links s l d k c =? FREE) in
    ready s' l' u p d' k /\ length l' = length l /\ evolves s s' /\
    fs s' = fs s /\ console s' = console s /\
    (forall c', 2 <= c' <= max_cluster d ->
       links s' l' d' k c' = if c' =? c then v else links s l d k c') /\
    fat_frame s l s' l' u d.
Proof.
  intros [Hc V Hlen] Hcl Hst. pose proof (storing_storable _ _ _ _ _ _ V Hst) as Hst'.
  destruct (fat_index_spec _ _ _ _ _ _ V Hcl) as (idx & Hidx & Hoff & Hin).
  destruct (getFATblock_found s l u p d k _ Hc V Hin) as (bp & s1 & Hr & F).
  destruct (body_spec _ _ _ _ _ _ _ _ _ _ _ Hc V Hlen Hcl Hst' Hin Hoff F)
    as (s2 & s3 & l3 & Hb & Hm3 & Hc3 & Hl3 & Hf3 & Ht3 & Ho3).
  pose proof (volume_ioframe _ _ _ _ _ _ Hf3 V) as V3.
  destruct (update_free_spec s3 l3 u p d k v (links s l d k c =? FREE) Hc3 V3)
    as (s4 & l4 & Hu & Hc4 & Hl4 & Hev4 & Hfs4 & Hco4 & V4 & Hv4).
  exists s4, l4. split.
  { unfold link_fat. rewrite (run_dget p d) by apply V.
    rewrite (proj2 (Z.leb_gt c 1)), (proj2 (Z.ltb_ge (max_cluster d) c)) by lia. cbn [orb].
    replace ((v <? LONG_BAD) && (max_cluster d <? v)) with false.
    2:{ symmetry. pose proof (v_max _ _ _ _ _ V) as Hmax. unfold storing, FREE in Hst.
        destruct Hst as [->|[H| ->]]; [| |done];
          by rewrite (proj2 (Z.ltb_ge (max_cluster d) _)), andb_false_r by lia. }
    rewrite Hidx, run_opt, (run_eq _ _ _ _ _ Hr), (proj2 (Z.eqb_neq _ _) (fd_null _ _ _ _ _ _ _ _ F)).
    unfold link_body in Hb. rewrite (run_eq _ _ _ _ _ Hb), (run_eq _ _ _ _ _ Hm3).
    by rewrite (run_eq _ _ _ _ _ Hu). }
  pose proof (counted_geo d v (links s l d k c =? FREE)) as Hg.
  split; [split; [done|done|lia]|]. split; [lia|].
  split; [eapply evolves_trans; [by apply evolves_ioframe|done]|].
  split; [rewrite Hfs4; apply Hf3|]. split; [rewrite Hco4; apply Hf3|].
  split.
  - intros c' Hc'. rewrite (links_geo s4 l4 d _ k c' Hg).
    rewrite <- (links_written s l u p d k s3 l3 c v) by done. unfold links. f_equal.
    apply (entry_ext k _ _ c' (fat_secs d)); [|lia|].
    + intros j Hj Hjs. unfold fat_byte. rewrite (Hv4 u p d); [done|apply V3| |].
      * apply (in_fat_ok s3 u p d k); [done|]. unfold in_fat. split; [divmod|lia].
      * intros _ Hk. subst k. eapply (fsinfo_not_fat s3 u p d); [done|]. unfold in_fat. split; [divmod|lia].
    + pose proof (v_room _ _ _ _ _ V). pose proof (span_range k).
      assert (at_byte k c' <= at_byte k (max_cluster d)); [|lia].
      destruct k; cbn [at_byte]; [apply Z.div_le_mono; lia|lia|lia].
  - intros u' q' d' blk Hm Hb' Hn.
    rewrite (Hv4 u' q' d' blk (mounted_frame _ _ _ _ _ Hf3 Hm) Hb').
    + apply (Ho3 u' q'); [done|done|]. intros Hu'. by apply Hn.
    + intros Hu' _. by apply Hn.
Qed.

Lemma link_fat_get s l u p d k c :
  ready s l u p d k -> 2 <= c <= max_cluster d ->
  exists s' l', link_fat p c READ_CLUSTER s = Some (links s l d k c, s') /\
    ready s' l' u p d k /\ length l' = length l /\ same_view s l s' l' /\ ioframe s s'.
Proof.
  intros [Hc V Hlen] Hcl.
  destruct (link_fat_read s l u p d k c Hc V Hlen Hcl) as (s' & l' & Hr & Hc' & Hl & Hv & Hf).
  exists s', l'. split; [done|].
  split; [split; [done|by eapply volume_ioframe|lia]|]. done.
Qed.

Lemma links_fat s l s' l' u p d k c :
  volume s u p d k -> (forall blk, in_fat d blk -> view s' l' d blk = view s l d blk) ->
  2 <= c <= max_cluster d -> links s' l' d k c = links s l d k c.
Proof.
  intros V Hv Hc. unfold links. f_equal. apply (entry_ext k _ _ c (fat_secs d)); [|lia|].
  - intros j Hj Hjs. unfold fat_byte. f_equal.
    apply Hv. unfold in_fat. split; [divmod|lia].
  - pose proof (v_room _ _ _ _ _ V). pose proof (span_range k).
    assert (at_byte k c <= at_byte k (max_cluster d)); [|lia].
    destruct k; cbn [at_byte]; [apply Z.div_le_mono; lia|lia|lia].
Qed.

Lemma links_same s l s' l' u p d k c :
  volume s u p d k -> same_view s l s' l' -> 2 <= c <= max_cluster d ->
  links s' l' d k c = links s l d k c.
Proof. intros V Hv. eapply links_fat; [done|]. by eapply same_view_fat. Qed.

Lemma links_range s l d k c : cache s l -> 0 <= links s l d k c <= LONG_BAD \/ links s l d k c = LONG_LAST_CLUSTER.
Proof. intros Hc. apply decode_range, entry_range. by apply fat_bytes. Qed.

(** The calls that are refused. *)
Lemma link_fat_bad s p d c v :
  dpbs s !! p = Some d -> c <= 1 \/ max_cluster d < c ->
  link_fat p c v s = Some (1, set_console (console s ++ [MsgBadFat "index: 0x" c]) s).
Proof.
  intros Hp Hcl. unfold link_fat. rewrite (run_dget p d) by done.
  replace ((c <=? 1) || (max_cluster d <? c)) with true; [done|].
  symmetry. apply orb_true_iff. destruct Hcl; [left; by apply Z.leb_le|right; by apply Z.ltb_lt].
Qed.

Lemma link_fat_bad_value s p d c v :
  dpbs s !! p = Some d -> 2 <= c <= max_cluster d -> max_cluster d < v < LONG_BAD ->
  link_fat p c v s = Some (1, set_console (console s ++ [MsgBadFat "write: 0x" v]) s).
Proof.
  intros Hp Hcl Hv. unfold link_fat. rewrite (run_dget p d) by done.
  rewrite (proj2 (Z.leb_gt c 1)), (proj2 (Z.ltb_ge (max_cluster d) c)) by lia. cbn [orb].
  by rewrite (proj2 (Z.ltb_lt v LONG_BAD)), (proj2 (Z.ltb_lt _ v)) by lia.
Qed.

End Spec.
End FatWrite.
