(* ===== verification/Table.v ===== *)
(** * Tables of links

    The allocation code seen on a table: a function from clusters to links
    with clusters 2 to [mx].  Chains, the clusters that [wipe_out_clusters]
    frees, the order in which [find_fat_free] looks, and the number of free
    clusters, without the cache and the disk. *)

From S2P Require Import Prelude KState BlockIO FatTab.
Import Ks Fat.

Module Table.

Definition tupd (T : Z -> Z) (c v : Z) : Z -> Z := fun x => if x =? c then v else T x.

(** The two tables are the same on the clusters of the volume. *)
Definition agrees (mx : Z) (T T' : Z -> Z) : Prop := forall c, 2 <= c <= mx -> T' c = T c.

Lemma agrees_refl mx T : agrees mx T T.
Proof. done. Qed.
Lemma agrees_sym mx T T' : agrees mx T T' -> agrees mx T' T.
Proof. intros H c Hc. symmetry. by apply H. Qed.
Lemma agrees_trans mx T T1 T2 : agrees mx T T1 -> agrees mx T1 T2 -> agrees mx T T2.
Proof. intros H1 H2 c Hc. by rewrite H2, H1. Qed.
Lemma agrees_tupd mx T T' c v : agrees mx T T' -> agrees mx (tupd T c v) (tupd T' c v).
Proof. intros H x Hx. unfold tupd. destruct (x =? c); [done|by apply H]. Qed.

#[export] Instance agrees_equivalence mx : Equivalence (agrees mx).
Proof. split; [exact (agrees_refl mx)|exact (agrees_sym mx)|exact (agrees_trans mx)]. Qed.

(** What [link_fat] and [next_cluster] read. *)
Definition link_of (mx : Z) (T : Z -> Z) (c : Z) : Z :=
  if (2 <=? c) && (c <=? mx) then T c else 1.
Definition next_of (mx : Z) (T : Z -> Z) (c : Z) : Z :=
  let v := link_of mx T c in
  if (v <? 2) || (LONG_BAD <=? v) then v else
  let f := link_of mx T v in
  if (f <? 2) || ((f <? LONG_BAD) && (mx <? f)) then 1 else v.

#[export] Instance link_of_proper mx : Proper (agrees mx ==> eq ==> eq) (link_of mx).
Proof.
  intros T T' H c _ <-. unfold link_of. destruct (_ && _) eqn:E; [|done]. zbool.
  symmetry. apply H. lia.
Qed.
#[export] Instance next_of_proper mx : Proper (agrees mx ==> eq ==> eq) (next_of mx).
Proof. intros T T' H c _ <-. unfold next_of. by rewrite !H. Qed.

(** The cases of [next_of]. *)
Lemma next_of_out mx T c : ~ 2 <= c <= mx -> next_of mx T c = 1.
Proof.
  intros H. unfold next_of. replace (link_of mx T c) with 1; [done|].
  unfold link_of. destruct (_ && _) eqn:E; [zbool; lia|done].
Qed.
Lemma link_of_in mx T c : 2 <= c <= mx -> link_of mx T c = T c.
Proof. intros H. unfold link_of. by rewrite (proj2 (Z.leb_le 2 c)), (proj2 (Z.leb_le c _)) by lia. Qed.
Lemma next_of_mark mx T c : 2 <= c <= mx -> T c < 2 \/ LONG_BAD <= T c -> next_of mx T c = T c.
Proof.
  intros H Hm. unfold next_of. rewrite (link_of_in mx T c H). destruct (_ || _) eqn:E; [done|]. zbool. lia.
Qed.
Lemma next_of_good mx T c : 2 <= c <= mx -> 2 <= T c <= mx ->
  LONG_BAD <= T (T c) \/ 2 <= T (T c) <= mx -> next_of mx T c = T c.
Proof.
  intros H Hn Hf. unfold next_of. rewrite (link_of_in mx T c H). destruct (_ || _); [done|].
  rewrite (link_of_in mx T (T c) Hn). destruct (_ || _) eqn:E; [|done]. zbool. unfold LONG_BAD in *. lia.
Qed.
Lemma next_of_wrong mx T c : 2 <= c <= mx -> 2 <= T c < LONG_BAD ->
  ~ (T c <= mx /\ (LONG_BAD <= T (T c) \/ 2 <= T (T c) <= mx)) -> next_of mx T c = 1.
Proof.
  intros H Hn Hf. unfold next_of. rewrite (link_of_in mx T c H). destruct (_ || _) eqn:E; [zbool; lia|].
  destruct (decide (T c <= mx)) as [Hm|Hm].
  - rewrite (link_of_in mx T (T c)) by lia. destruct ((T (T c) <? 2) || _) eqn:E2; [done|].
    zbool. destruct (T (T c) <? LONG_BAD) eqn:E3; zbool; lia.
  - replace (link_of mx T (T c)) with 1; [done|].
    unfold link_of. destruct ((2 <=? T c) && _) eqn:E2; [zbool; lia|done].
Qed.

(** Only an entry in use has a next cluster. *)
Lemma next_of_used mx T c : 1 < next_of mx T c -> 2 <= c <= mx /\ T c = next_of mx T c.
Proof.
  unfold next_of. destruct ((2 <=? c) && (c <=? mx)) eqn:E.
  - assert (link_of mx T c = T c) as -> by (unfold link_of; by rewrite E). zbool.
    destruct (_ || _); [intros; split; lia|].
    destruct (_ || _); [lia|]. intros. split; lia.
  - assert (link_of mx T c = 1) as -> by (unfold link_of; by rewrite E). simpl. lia.
Qed.

(** ** Chains *)

(** From [c] on, the clusters [cs] and then the end of the chain. *)
Fixpoint chain (mx : Z) (T : Z -> Z) (c : Z) (cs : list Z) : Prop :=
  match cs with
  | [] => c = LONG_LAST_CLUSTER
  | x :: cs' => c = x /\ 2 <= x <= mx /\ chain mx T (T x) cs'
  end.

Lemma chain_fun mx T c cs cs' :
  mx < LONG_BAD -> chain mx T c cs -> chain mx T c cs' -> cs = cs'.
Proof.
  intros Hmx. revert c cs'. induction cs as [|x cs IH]; intros c [|x' cs']; simpl; try done.
  - intros -> (<- & Hx & _). unfold LONG_LAST_CLUSTER, LONG_BAD in *. lia.
  - intros (-> & Hx & _) E. unfold LONG_LAST_CLUSTER, LONG_BAD in *. lia.
  - intros (-> & _ & H) (<- & _ & H'). f_equal. by eapply IH.
Qed.

Lemma chain_app mx T c cs1 x cs2 :
  chain mx T c (cs1 ++ x :: cs2) -> chain mx T x (x :: cs2) /\ 2 <= x <= mx.
Proof.
  revert c. induction cs1 as [|y cs1 IH]; intros c; simpl.
  - intros (-> & Hx & H). done.
  - intros (_ & _ & H). by apply IH in H.
Qed.

Lemma chain_nodup mx T c cs : mx < LONG_BAD -> chain mx T c cs -> NoDup cs.
Proof.
  intros Hmx. revert c. induction cs as [|x cs IH]; intros c H; [by constructor|].
  constructor; [|destruct H as (_ & _ & H); by eapply IH].
  intros (l1 & l2 & ->)%list_elem_of_split. destruct H as (-> & Hx & H).
  destruct (chain_app _ _ _ _ _ _ H) as [H' _].
  assert (E : x :: l1 ++ x :: l2 = x :: l2) by (by eapply (chain_fun mx T x)).
  apply (f_equal length) in E. simpl in E. rewrite length_app in E. simpl in E. lia.
Qed.

Lemma chain_ext mx T T' c cs :
  (forall x, x ∈ cs -> T' x = T x) -> chain mx T c cs -> chain mx T' c cs.
Proof.
  revert c. induction cs as [|x cs IH]; intros c HT; simpl; [done|].
  intros (-> & Hx & H). split; [done|]. split; [done|]. rewrite HT by (by left).
  apply IH; [|done]. intros y Hy. apply HT. by right.
Qed.

Lemma chain_range mx T c cs x : chain mx T c cs -> x ∈ cs -> 2 <= x <= mx.
Proof.
  intros H (l1 & l2 & ->)%list_elem_of_split. by apply chain_app in H as [_ ?].
Qed.

Lemma chain_agrees mx T T' c cs : agrees mx T T' -> chain mx T c cs -> chain mx T' c cs.
Proof. intros HT H. eapply chain_ext; [|done]. intros x Hx. apply HT. by eapply chain_range. Qed.

Lemma chain_next mx T c cs :
  2 <= mx < LONG_BAD -> chain mx T c (c :: cs) -> next_of mx T c = T c.
Proof.
  intros Hmx (_ & Hc & H). unfold next_of, link_of.
  rewrite (proj2 (Z.leb_le 2 c)), (proj2 (Z.leb_le c mx)) by lia. cbn [andb].
  destruct cs as [|x cs]; simpl in H.
  - rewrite H. done.
  - destruct H as (-> & Hx & H).
    rewrite (proj2 (Z.ltb_ge x 2)), (proj2 (Z.leb_gt LONG_BAD x)) by lia. cbn [orb].
    rewrite (proj2 (Z.leb_le 2 x)), (proj2 (Z.leb_le x mx)) by lia. cbn [andb].
    destruct cs as [|y cs]; simpl in H; [rewrite H; done|].
    destruct H as (-> & Hy & _). rewrite (proj2 (Z.ltb_ge y 2)), (proj2 (Z.ltb_ge mx y)) by lia.
    by rewrite andb_false_r.
Qed.

(** The entry of a cluster at a position. *)
Lemma chain_lookup mx T c cs i x :
  chain mx T c cs -> cs !! i = Some x -> chain mx T x (drop i cs).
Proof.
  intros H Hx. destruct (list_elem_of_split_length cs i x Hx) as (l1 & l2 & -> & ->).
  rewrite drop_app_length. by apply chain_app in H as [H _].
Qed.

(** A cluster is appended. *)
Lemma chain_snoc mx T c cs e x :
  mx < LONG_BAD -> chain mx T c (cs ++ [e]) -> 2 <= x <= mx -> x ∉ cs ++ [e] ->
  chain mx (tupd (tupd T x LONG_LAST_CLUSTER) e x) c (cs ++ [e] ++ [x]).
Proof.
  intros Hmx H Hx Hni. pose proof (chain_nodup _ _ _ _ Hmx H) as Hnd. revert c H.
  induction cs as [|y cs IH]; intros c; simpl.
  - intros (-> & He & HT). unfold tupd. rewrite Z.eqb_refl.
    split; [done|]. split; [done|]. split; [done|]. split; [done|].
    rewrite (proj2 (Z.eqb_neq x e)); [by rewrite Z.eqb_refl|]. set_solver.
  - intros (-> & Hy & H). inversion_clear Hnd as [|? ? Hn Hnd'].
    split; [done|]. split; [done|]. unfold tupd.
    rewrite (proj2 (Z.eqb_neq y e)) by set_solver. rewrite (proj2 (Z.eqb_neq y x)) by set_solver.
    apply IH; [set_solver|done|done].
Qed.

(** ** The clusters that are freed *)

Fixpoint trail (fuel : nat) (mx : Z) (T : Z -> Z) (st : Z) : list Z :=
  match fuel with
  | O => []
  | S fuel' =>
      if st =? LONG_LAST_CLUSTER then [] else
      let n := next_of mx T st in
      if n <=? 1 then [] else st :: trail fuel' mx (tupd T st FREE) n
  end.
Definition free_all (T : Z -> Z) (cs : list Z) : Z -> Z :=
  fun x => if bool_decide (x ∈ cs) then FREE else T x.

Lemma free_all_nil T x : free_all T [] x = T x.
Proof. unfold free_all. by rewrite bool_decide_eq_false_2 by set_solver. Qed.

Lemma free_all_cons T c cs x : free_all (tupd T c FREE) cs x = free_all T (c :: cs) x.
Proof.
  unfold free_all, tupd. destruct (x =? c) eqn:E; zbool.
  - subst. rewrite (bool_decide_eq_true_2 (c ∈ c :: cs)) by set_solver. by case_bool_decide.
  - rewrite (bool_decide_ext (x ∈ c :: cs) (x ∈ cs)); [done|]. set_solver.
Qed.

(** Entries in use. *)
Definition clusters (mx : Z) : list Z := seqZ 2 (mx - 1).
Definition nfree (mx : Z) (T : Z -> Z) : Z :=
  Z.of_nat (length (filter (fun c => T c = FREE) (clusters mx))).
Definition nused (mx : Z) (T : Z -> Z) : nat :=
  length (filter (fun c => T c <> FREE) (clusters mx)).

Lemma elem_of_clusters mx c : c ∈ clusters mx <-> 2 <= c <= mx.
Proof. unfold clusters. rewrite elem_of_seqZ. lia. Qed.

Lemma filter_upd_length (P Q : Z -> Prop) `{!forall x, Decision (P x)} `{!forall x, Decision (Q x)} c l :
  NoDup l -> c ∈ l -> (forall x, x <> c -> P x <-> Q x) ->
  (length (filter P l) + (if decide (Q c) then 1 else 0) =
   length (filter Q l) + (if decide (P c) then 1 else 0))%nat.
Proof.
  intros Hnd Hc HPQ. apply list_elem_of_split in Hc as (l1 & l2 & ->).
  assert (Hpq : forall k : list Z, c ∉ k -> filter P k = filter Q k).
  { induction k as [|x k IH]; intros Hk; [done|]. apply not_elem_of_cons in Hk as [Hx Hk].
    rewrite !filter_cons, IH by done. pose proof (HPQ x ltac:(congruence)).
    destruct (decide (P x)), (decide (Q x)); try done; tauto. }
  apply NoDup_app in Hnd as (_ & Hn1 & Hn2). inversion_clear Hn2 as [|? ? Hn Hn3].
  rewrite !filter_app, !length_app, !filter_cons, (Hpq l1), (Hpq l2); [|done|].
  - destruct (decide (P c)), (decide (Q c)); simpl; lia.
  - intros Hc. apply (Hn1 c Hc). by left.
Qed.

Lemma clusters_nodup mx : NoDup (clusters mx).
Proof. apply NoDup_seqZ. Qed.

Lemma nused_free mx T c : 2 <= c <= mx -> T c <> FREE -> nused mx T = S (nused mx (tupd T c FREE)).
Proof.
  intros Hc HT. unfold nused.
  pose proof (filter_upd_length (fun x => T x <> FREE) (fun x => tupd T c FREE x <> FREE) c
    (clusters mx) (clusters_nodup mx) (proj2 (elem_of_clusters mx c) Hc)) as H.
  specialize (H ltac:(intros x Hx; unfold tupd; by rewrite (proj2 (Z.eqb_neq x c)))).
  assert (Ec : tupd T c FREE c = FREE) by (unfold tupd; by rewrite Z.eqb_refl).
  repeat case_decide; try congruence; lia.
Qed.

Lemma nfree_upd mx T c v :
  2 <= c <= mx ->
  nfree mx (tupd T c v) =
    nfree mx T + (if v =? FREE then 1 else 0) - (if T c =? FREE then 1 else 0).
Proof.
  intros Hc. unfold nfree.
  pose proof (filter_upd_length (fun x => T x = FREE) (fun x => tupd T c v x = FREE) c
    (clusters mx) (clusters_nodup mx) (proj2 (elem_of_clusters mx c) Hc)) as H.
  specialize (H ltac:(intros x Hx; unfold tupd; by rewrite (proj2 (Z.eqb_neq x c)))).
  assert (Ec : tupd T c v c = v) by (unfold tupd; by rewrite Z.eqb_refl).
  destruct (v =? FREE) eqn:Ev, (T c =? FREE) eqn:ET; zbool;
    rewrite ?Ec in H; repeat case_decide; try congruence; lia.
Qed.

Lemma nfree_agrees mx T T' : agrees mx T T' -> nfree mx T' = nfree mx T.
Proof.
  intros H. unfold nfree. f_equal. f_equal.
  assert (Hl : forall l : list Z, (forall x, x ∈ l -> 2 <= x <= mx) ->
    filter (fun c => T' c = FREE) l = filter (fun c => T c = FREE) l).
  { induction l as [|x l IH]; intros Hx; [done|]. rewrite !filter_cons.
    rewrite (IH ltac:(intros; apply Hx; by right)), (H x) by (apply Hx; by left). done. }
  apply Hl. intros x. by apply elem_of_clusters.
Qed.

Lemma nused_bound mx T : (nused mx T <= Z.to_nat (mx - 1))%nat.
Proof.
  unfold nused. etransitivity; [apply length_filter|]. unfold clusters. by rewrite length_seqZ.
Qed.

Lemma nfree_bound mx T : 0 <= mx -> 0 <= nfree mx T <= Z.max 0 (mx - 1).
Proof.
  intros Hmx. unfold nfree. split; [lia|].
  pose proof (length_filter (fun c => T c = FREE) (clusters mx)) as H.
  unfold clusters in *. rewrite length_seqZ in H. lia.
Qed.

(** The trail of a chain is the chain. *)
Lemma trail_chain fuel mx T c cs :
  2 <= mx < LONG_BAD -> chain mx T c cs -> (length cs <= fuel)%nat -> trail fuel mx T c = cs.
Proof.
  intros Hmx. revert T c cs. induction fuel as [|fuel IH]; intros T c [|x cs] H Hf; simpl in Hf;
    [done|lia| |].
  - simpl in H. subst. cbn [trail]. by rewrite Z.eqb_refl.
  - pose proof (chain_nodup _ _ _ _ (proj2 Hmx) H) as Hnd. inversion_clear Hnd as [|? ? Hn Hnd'].
    assert (c = x) as -> by apply H.
    pose proof (chain_next _ _ _ _ Hmx H) as E. cbn [trail].
    destruct H as (_ & Hx & H).
    rewrite (proj2 (Z.eqb_neq x LONG_LAST_CLUSTER)) by (unfold LONG_LAST_CLUSTER, LONG_BAD in *; lia).
    rewrite E.
    assert (Hgt : 1 < T x).
    { destruct cs as [|y cs]; simpl in H; [rewrite H; done|]. destruct H as (-> & Hy & _). lia. }
    rewrite (proj2 (Z.leb_gt _ 1)) by lia. f_equal. apply IH; [|lia].
    eapply chain_ext; [|exact H]. intros y Hy. unfold tupd.
    rewrite (proj2 (Z.eqb_neq y x)); [done|]. intros ->. done.
Qed.

Lemma chain_length mx T c cs : mx < LONG_BAD -> chain mx T c cs -> (length cs <= Z.to_nat (mx - 1))%nat.
Proof.
  intros Hmx H. transitivity (length (clusters mx)).
  - apply submseteq_length, NoDup_submseteq; [by eapply chain_nodup|].
    intros x Hx. apply elem_of_clusters. by eapply chain_range.
  - unfold clusters. by rewrite length_seqZ.
Qed.

(** ** The order of the search for a free cluster *)

(** From [i] to the end and from 2 up to [start]. *)
Definition cyc (mx start i : Z) : list Z :=
  if start <=? i then seqZ i (mx - i + 1) ++ seqZ 2 (start - 2) else seqZ i (start - i).
Definition first_free (T : Z -> Z) (l : list Z) : option Z :=
  snd <$> list_find (fun c => T c = FREE) l.

Lemma seqZ_cons' m n : 0 < n -> seqZ m n = m :: seqZ (m + 1) (n - 1).
Proof.
  intros Hn. rewrite seqZ_cons by done. unfold Z.succ, Z.pred. done.
Qed.

Lemma cyc_step mx start i :
  2 <= start <= mx -> 2 <= i <= mx ->
  let i' := if mx <? i + 1 then 2 else i + 1 in
  cyc mx start i = i :: (if i' =? start then [] else cyc mx start i').
Proof.
  intros Hs Hi i'. unfold cyc. destruct (start <=? i) eqn:E; zbool.
  - rewrite (seqZ_cons' i) by lia. cbn [app]. f_equal. unfold i'.
    destruct (mx <? i + 1) eqn:E2; zbool.
    + assert (i = mx) as -> by lia. replace (mx - mx + 1 - 1) with 0 by lia. change (seqZ (mx + 1) 0) with (@nil Z). rewrite app_nil_l.
      destruct (2 =? start) eqn:E3; zbool; [by subst|].
      by rewrite (proj2 (Z.leb_gt start 2)) by lia.
    + rewrite (proj2 (Z.eqb_neq (i + 1) start)), (proj2 (Z.leb_le start (i + 1))) by lia.
      f_equal. f_equal. lia.
  - rewrite (seqZ_cons' i) by lia. f_equal. unfold i'. rewrite (proj2 (Z.ltb_ge mx (i + 1))) by lia.
    destruct (i + 1 =? start) eqn:E3; zbool.
    + replace (start - i - 1) with 0 by lia. done.
    + rewrite (proj2 (Z.leb_gt start (i + 1))) by lia. f_equal. lia.
Qed.

Lemma cyc_length mx start i : 2 <= start <= mx -> 2 <= i <= mx -> (length (cyc mx start i) <= Z.to_nat (mx - 1))%nat.
Proof.
  intros Hs Hi. unfold cyc. destruct (_ <=? _) eqn:E; zbool; rewrite ?length_app, !length_seqZ; lia.
Qed.

Lemma elem_of_cyc mx start c : 2 <= start <= mx -> c ∈ cyc mx start start <-> 2 <= c <= mx.
Proof.
  intros Hs. unfold cyc. rewrite Z.leb_refl, elem_of_app, !elem_of_seqZ. lia.
Qed.

Lemma first_free_cons T c l :
  first_free T (c :: l) = if T c =? FREE then Some c else first_free T l.
Proof.
  unfold first_free. cbn [list_find]. destruct (T c =? FREE) eqn:E; zbool.
  - by rewrite decide_True.
  - rewrite decide_False by done. rewrite <- option_fmap_compose. by apply option_fmap_ext; intros [].
Qed.

Lemma first_free_some T l c : first_free T l = Some c -> c ∈ l /\ T c = FREE.
Proof.
  unfold first_free. intros ([i x] & (Hi & Hf & _)%list_find_Some & ->)%fmap_Some.
  split; [|done]. by eapply list_elem_of_lookup_2.
Qed.
Lemma first_free_none T l : first_free T l = None -> forall c, c ∈ l -> T c <> FREE.
Proof.
  unfold first_free. rewrite fmap_None, list_find_None, Forall_forall. done.
Qed.

End Table.
