(* ===== verification/FatChain.v ===== *)
(** * The table of links under the allocation functions

    [links] is the table that [link_fat] maintains; here are the steps of the
    allocation code on it: reading, storing, following and freeing.  The
    lemmas carry the state relation [moved]: the views of all drives outside
    the table of the volume, the file nodes and the geometry stay. *)

From S2P Require Import Prelude KState BlockIO FatTab FNode FatAlloc Disk Ring CacheSpec CacheOps.
From S2P Require Import FatPure FatSpec FatWrite Table.
Import Ks Bio Fat FNode Alloc Dsk Ring Cache CacheOps FatPure FatSpec FatWrite Table.

Module Chain.
Section Spec.
Context {M : Machine} {D : Disk}.

(** ** State relations *)

(** Nothing that a drive shows changed. *)
Record calm (s : kst) (l : list Z) (s' : kst) (l' : list Z) : Prop := Calm {
  cm_view : same_view s l s' l';
  cm_evolves : evolves s s';
  cm_fs : fs s' = fs s;
  cm_dpbs : dpbs s' = dpbs s;
  cm_length : length l' = length l }.

(** Only the table of [u], its FSINFO sector and its hints changed. *)
Record moved (s : kst) (l : list Z) (s' : kst) (l' : list Z) (u : Z) (d : dpb) : Prop := Moved {
  mv_frame : fat_frame s l s' l' u d;
  mv_evolves : evolves s s';
  mv_fs : fs s' = fs s;
  mv_length : length l' = length l }.

Lemma calm_refl s l : calm s l s l.
Proof. by split. Qed.

Lemma same_view_evolves s l s1 l1 s2 l2 :
  evolves s s1 -> same_view s l s1 l1 -> same_view s1 l1 s2 l2 -> same_view s l s2 l2.
Proof.
  intros Hev H1 H2 u p d blk Hm Hb.
  destruct (evolves_mounted _ _ _ _ _ Hev Hm) as (d' & Hm' & Hg).
  rewrite <- (H1 u p d blk Hm Hb), <- (view_geo s2 l2 d d' blk Hg), <- (view_geo s1 l1 d d' blk Hg).
  apply (H2 u p d'); [done|]. by rewrite (block_ok_geo d d').
Qed.

Lemma calm_trans s l s1 l1 s2 l2 : calm s l s1 l1 -> calm s1 l1 s2 l2 -> calm s l s2 l2.
Proof.
  intros [A1 A2 A3 A4 A5] [B1 B2 B3 B4 B5]. split; [|by eapply evolves_trans|congruence..].
  by eapply same_view_evolves.
Qed.

Lemma calm_moved s l s' l' u d : calm s l s' l' -> moved s l s' l' u d.
Proof. intros [A1 A2 A3 A4 A5]. split; try done. intros u' q' d' blk Hm Hb _. by apply (A1 u' q'). Qed.

Lemma moved_refl s l u d : moved s l s l u d.
Proof. apply calm_moved, calm_refl. Qed.

Lemma moved_trans s l s1 l1 s2 l2 u d d1 :
  moved s l s1 l1 u d -> moved s1 l1 s2 l2 u d1 -> geo d1 = geo d -> moved s l s2 l2 u d.
Proof.
  intros [A1 A2 A3 A4] [B1 B2 B3 B4] Hg.
  split; [|by eapply evolves_trans|congruence..].
  intros u' q' d' blk Hm Hb Hn.
  destruct (evolves_mounted _ _ _ _ _ A2 Hm) as (d'' & Hm' & Hg').
  rewrite <- (view_geo s2 l2 d' d'' blk Hg'), (B1 u' q' d'' blk Hm').
  - rewrite (view_geo s1 l1 d' d'' blk Hg'). by apply (A1 u' q').
  - by rewrite (block_ok_geo d' d'').
  - intros Hu. apply geo_eq in Hg. rewrite Hg. by apply Hn.
Qed.

Lemma calm_evolves s l s' l' : calm s l s' l' -> evolves s s'.
Proof. intros H. apply H. Qed.

Lemma calm_ioframe s l s' l' :
  same_view s l s' l' -> ioframe s s' -> length l' = length l -> calm s l s' l'.
Proof. intros Hv Hf Hl. split; try done; [by apply evolves_ioframe|apply Hf..]. Qed.

Lemma volume_same s s' u p d k :
  env s' = env s -> CDSp s' = CDSp s -> dpbs s' = dpbs s -> volume s u p d k -> volume s' u p d k.
Proof.
  intros He Hc Hd [[Hg Hn Hp Hu Hr Hs Ha] V1 V2 V3 V4 V5 V6 V7 V8 V9]. split; try done.
  split; try done; [by eapply get_dpb_frame|by rewrite Hd|by rewrite He].
Qed.

(** A message on the console. *)
Lemma say_run s l u p d k m :
  ready s l u p d k ->
  let s' := set_console (console s ++ [m]) s in
  say m s = Some (tt, s') /\ ready s' l u p d k /\ calm s l s' l.
Proof.
  intros [Hc V Hl] s'. split; [done|]. assert (Hev : evolves s s') by done.
  split; [split; [|by apply (volume_same s)|done]|by split].
  by apply (cache_evolves s).
Qed.

(** ** Reading links *)

Lemma link_fat_any s l u p d k c :
  ready s l u p d k ->
  exists v s' l', link_fat p c READ_CLUSTER s = Some (v, s') /\ ready s' l' u p d k /\
    calm s l s' l' /\
    v = if (2 <=? c) && (c <=? max_cluster d) then links s l d k c else 1.
Proof.
  intros R. pose proof (r_volume _ _ _ _ _ _ R) as V.
  destruct ((2 <=? c) && (c <=? max_cluster d)) eqn:E.
  - zbool. destruct (link_fat_get s l u p d k c R) as (s' & l' & Hr & R' & Hl & Hv & Hf); [lia|].
    exists (links s l d k c), s', l'. split; [done|]. split; [done|]. split; [|done].
    by apply calm_ioframe.
  - destruct (say_run s l u p d k (MsgBadFat "index: 0x" c) R) as (_ & R' & Hcm).
    eexists 1, _, l. split; [|done].
    apply (link_fat_bad s p d); [apply V|]. apply andb_false_iff in E as [E|E]; zbool; lia.
Qed.

Lemma links_calm s l s' l' u p d k c :
  ready s l u p d k -> calm s l s' l' ->
  link_of (max_cluster d) (links s' l' d k) c = link_of (max_cluster d) (links s l d k) c.
Proof.
  intros R Hcm. unfold link_of. destruct (_ && _) eqn:E; [|done]. zbool.
  eapply links_same; [apply R|apply Hcm|lia].
Qed.

Lemma next_cluster_spec s l u p d k c :
  ready s l u p d k ->
  exists s' l', next_cluster p c s = Some (next_of (max_cluster d) (links s l d k) c, s') /\
    ready s' l' u p d k /\ calm s l s' l'.
Proof.
  intros R. unfold next_cluster, next_of.
  destruct (link_fat_any s l u p d k c R) as (v & s1 & l1 & Hr & R1 & C1 & Hv).
  rewrite (run_eq _ _ _ _ _ Hr). fold (link_of (max_cluster d) (links s l d k) c) in Hv.
  rewrite <- Hv. destruct ((v <? 2) || (LONG_BAD <=? v)).
  { by exists s1, l1. }
  rewrite (run_dget p d) by apply R1.
  destruct (link_fat_any s1 l1 u p d k v R1) as (f & s2 & l2 & Hr2 & R2 & C2 & Hf).
  rewrite (run_eq _ _ _ _ _ Hr2).
  fold (link_of (max_cluster d) (links s1 l1 d k) v) in Hf.
  rewrite (links_calm s l s1 l1 u p d k v R C1) in Hf. rewrite <- Hf.
  pose proof (calm_trans _ _ _ _ _ _ C1 C2) as C12.
  destruct ((f <? 2) || ((f <? LONG_BAD) && (max_cluster d <? f))); [|by exists s2, l2].
  destruct (say_run s2 l2 u p d k (MsgBadFat "value: 0x" f) R2) as (Hs & R3 & C3).
  eexists _, l2. split; [|split; [exact R3|by eapply calm_trans]].
  unfold clusterMessage. by rewrite (run_eq _ _ _ _ _ Hs).
Qed.

Lemma is_free_spec s l u p d k c :
  ready s l u p d k ->
  exists s' l', is_free_cluster p c s = Some (link_of (max_cluster d) (links s l d k) c =? FREE, s') /\
    ready s' l' u p d k /\ calm s l s' l'.
Proof.
  intros R. unfold is_free_cluster.
  destruct (link_fat_any s l u p d k c R) as (v & s1 & l1 & Hr & R1 & C1 & Hv).
  rewrite (run_eq _ _ _ _ _ Hr). fold (link_of (max_cluster d) (links s l d k) c) in Hv.
  rewrite <- Hv. by exists s1, l1.
Qed.

(** ** Storing links *)

Lemma store_spec' s l u p d k c v :
  ready s l u p d k -> 2 <= c <= max_cluster d -> storing d v ->
  exists s' l', link_fat p c v s = Some (SUCCESS, s') /\
    let d' := counted d v (links s l d k c =? FREE) in
    ready s' l' u p d' k /\ moved s l s' l' u d /\
    agrees (max_cluster d) (tupd (links s l d k) c v) (links s' l' d' k).
Proof.
  intros R Hc Hst. destruct (link_fat_write s l u p d k c v R Hc Hst)
    as (s' & l' & Hr & R' & Hl & Hev & Hfs & _ & Ht & Hf).
  exists s', l'. split; [done|]. split; [done|]. split; [by split|]. done.
Qed.

(** A store to the hints only. *)
Lemma hint_spec s l u p d k f :
  ready s l u p d k -> (forall e, geo (f e) = geo e) ->
  exists s', dmod p f s = Some (tt, s') /\ ready s' l u p (f d) k /\ moved s l s' l u d /\
    (forall c, links s' l (f d) k c = links s l d k c).
Proof.
  intros [Hc V Hl] Hg. pose proof (mt_dpb _ _ _ _ (v_mounted _ _ _ _ _ V)) as Hp.
  destruct (hints_spec s l u p d k (f d) Hc V (Hg d)) as (Hc' & Hev & V' & Hv).
  eexists. split; [by apply exec_dmod|]. split; [by split|]. split; [by split|].
  intros c. rewrite (links_geo _ _ d (f d)) by done. done.
Qed.

(** Writing the FSINFO sector. *)
Lemma fsinfo_spec s l u p d :
  ready s l u p d FAT32 ->
  exists s' l', write_fsinfo p s = Some (tt, s') /\ ready s' l' u p d FAT32 /\
    moved s l s' l' u d /\ agrees (max_cluster d) (links s l d FAT32) (links s' l' d FAT32).
Proof.
  intros [Hc V Hl]. destruct (write_fsinfo_spec s l u p d Hc V) as (s' & l' & Hr & Hc' & Hl' & Hf & Ho).
  exists s', l'. split; [done|].
  split; [split; [done|by eapply volume_ioframe|lia]|]. split.
  - split; [|by apply evolves_ioframe|apply Hf|done].
    intros u' q' d' blk Hm Hb Hn. apply (Ho u' q'); [done|done|]. intros Hu. by apply Hn.
  - intros c Hcl. unfold links. f_equal. apply (entry_ext FAT32 _ _ c (fat_secs d)); [|lia|].
    + intros j Hj Hjs. unfold fat_byte. rewrite (Ho u p d); [done|apply V| |].
      * apply (in_fat_ok s u p d FAT32); [done|]. unfold in_fat. split; [divmod|lia].
      * intros _. apply (fsinfo_not_fat s u p d); [done|]. unfold in_fat. split; [divmod|lia].
    + pose proof (v_room _ _ _ _ _ V). cbn [at_byte span] in *. lia.
Qed.

Lemma agrees_calm s l s' l' u p d k :
  ready s l u p d k -> calm s l s' l' -> agrees (max_cluster d) (links s l d k) (links s' l' d k).
Proof. intros R Hcm c Hc. eapply links_same; [apply R|apply Hcm|done]. Qed.

(** ** A volume whose table is [T] *)

Record tab (s : kst) (l : list Z) (u p : Z) (d : dpb) (k : fat_type) (T : Z -> Z) : Prop := Tab {
  tb_ready : ready s l u p d k;
  tb_agrees : agrees (max_cluster d) T (links s l d k) }.

(** The free space count is unknown or right. *)
Definition counts (d : dpb) (T : Z -> Z) : Prop :=
  if ISFAT32 d then dpb_xnfreeclst d = XUNKNCLSTFREE \/ dpb_xnfreeclst d = nfree (max_cluster d) T
  else dpb_nfreeclst d = UNKNCLSTFREE \/ dpb_nfreeclst d = nfree (max_cluster d) T.

(** The hint for the search for a free cluster. *)
Definition hint (d : dpb) : Z := if ISFAT32 d then dpb_xcluster d else dpb_cluster d.
Definition hint_ok (d : dpb) : Prop := hint d = UNKNCLUSTER \/ 2 <= hint d <= max_cluster d.

Lemma tab_max s l u p d k T : tab s l u p d k T -> 2 <= max_cluster d < LONG_BAD.
Proof.
  intros [[_ V _] _]. pose proof (v_max _ _ _ _ _ V).
  destruct k; cbn [max_of] in *; unfold FAT_MAGIC, FAT_MAGIC16, LONG_BAD in *; lia.
Qed.

Lemma tab_dpb s l u p d k T : tab s l u p d k T -> dpbs s !! p = Some d.
Proof. intros Ht. apply Ht. Qed.

Lemma tab_32 s l u p d k T : tab s l u p d k T -> ISFAT32 d = match k with FAT32 => true | _ => false end.
Proof. intros [[_ V _] _]. apply V. Qed.

Lemma tab_calm s l s' l' u p d k T :
  tab s l u p d k T -> ready s' l' u p d k -> calm s l s' l' -> tab s' l' u p d k T.
Proof.
  intros [R H] R' Hcm. split; [done|]. etransitivity; [exact H|]. by eapply agrees_calm.
Qed.

Lemma tab_next s l u p d k T c :
  tab s l u p d k T ->
  exists s' l', next_cluster p c s = Some (next_of (max_cluster d) T c, s') /\
    tab s' l' u p d k T /\ calm s l s' l'.
Proof.
  intros Ht. pose proof Ht as [R H]. destruct (next_cluster_spec s l u p d k c R) as (s' & l' & Hr & R' & Hcm).
  exists s', l'. rewrite Hr, <- H. split; [done|]. split; [|done]. by eapply tab_calm.
Qed.

Lemma tab_free s l u p d k T c :
  tab s l u p d k T ->
  exists s' l', is_free_cluster p c s = Some (link_of (max_cluster d) T c =? FREE, s') /\
    tab s' l' u p d k T /\ calm s l s' l'.
Proof.
  intros Ht. pose proof Ht as [R H]. destruct (is_free_spec s l u p d k c R) as (s' & l' & Hr & R' & Hcm).
  exists s', l'. rewrite Hr, <- H. split; [done|]. split; [|done]. by eapply tab_calm.
Qed.

Lemma tab_store s l u p d k T c v :
  tab s l u p d k T -> 2 <= c <= max_cluster d -> storing d v ->
  exists s' l' d', link_fat p c v s = Some (SUCCESS, s') /\ geo d' = geo d /\
    d' = counted d v (T c =? FREE) /\
    tab s' l' u p d' k (tupd T c v) /\ moved s l s' l' u d.
Proof.
  intros [R H] Hc Hv. destruct (store_spec' s l u p d k c v R Hc Hv) as (s' & l' & Hr & R' & Hm & Ha).
  rewrite (H c Hc) in *. exists s', l', (counted d v (T c =? FREE)).
  split; [done|]. split; [apply counted_geo|]. split; [done|]. split; [|done].
  split; [done|]. rewrite (max_geo _ _ (counted_geo d v _)).
  etransitivity; [|exact Ha]. by apply agrees_tupd.
Qed.

Lemma tab_hint s l u p d k T f :
  tab s l u p d k T -> (forall e, geo (f e) = geo e) ->
  exists s', dmod p f s = Some (tt, s') /\ tab s' l u p (f d) k T /\ moved s l s' l u d.
Proof.
  intros [R H] Hg. destruct (hint_spec s l u p d k f R Hg) as (s' & Hr & R' & Hm & Hl).
  exists s'. split; [done|]. split; [|done]. split; [done|].
  rewrite (max_geo _ _ (Hg d)). intros c Hc. rewrite Hl. by apply H.
Qed.

Lemma tab_fsinfo s l u p d k T :
  tab s l u p d k T -> ISFAT32 d = true ->
  exists s' l', write_fsinfo p s = Some (tt, s') /\ tab s' l' u p d k T /\ moved s l s' l' u d.
Proof.
  intros Ht E. pose proof (tab_32 _ _ _ _ _ _ _ Ht) as E'. destruct k; try congruence.
  destruct Ht as [R H]. destruct (fsinfo_spec s l u p d R) as (s' & l' & Hr & R' & Hm & Ha).
  exists s', l'. split; [done|]. split; [|done]. split; [done|]. by etransitivity.
Qed.

Lemma nfreeclst_set x d : dpb_nfreeclst (set_nfreeclst x d) = u16 x.
Proof.
  unfold dpb_nfreeclst, set_nfreeclst. cbn [dpb_xnfreeclst set_xnfreeclst].
  rewrite Z.lor_comm, (lor_shift (u16 x) _ 16) by (lia || apply u16_range).
  unfold u16. change (2 ^ 16) with 65536. rewrite Z.mod_add by lia. by rewrite Z.mod_mod.
Qed.

(** A store keeps the count right. *)
Lemma counts_store s l u p d k T c v :
  tab s l u p d k T -> 2 <= c <= max_cluster d -> counts d T ->
  counts (counted d v (T c =? FREE)) (tupd T c v).
Proof.
  intros Ht Hc. pose proof (counted_geo d v (T c =? FREE)) as Hg.
  pose proof (nfree_upd (max_cluster d) T c v Hc) as Hn.
  pose proof (nfree_bound (max_cluster d) T ltac:(lia)) as Hb.
  pose proof (nfree_bound (max_cluster d) (tupd T c v) ltac:(lia)) as Hb'.
  pose proof (v_max _ _ _ _ _ (r_volume _ _ _ _ _ _ (tb_ready _ _ _ _ _ _ _ Ht))) as Hmax.
  pose proof (tab_32 _ _ _ _ _ _ _ Ht) as E32.
  unfold counts. rewrite (max_geo _ _ Hg).
  assert (ISFAT32 (counted d v (T c =? FREE)) = ISFAT32 d) as -> by (apply geo_eq in Hg; by rewrite Hg).
  revert Hn. unfold counted, adjust. destruct (ISFAT32 d) eqn:E.
  - assert (max_cluster d < LONG_BAD) by (by eapply tab_max).
    unfold LONG_BAD, XUNKNCLSTFREE in *. cbn [andb].
    destruct (dpb_xnfreeclst d =? 4294967295) eqn:Ex; cbn [negb].
    + intros _ _. zbool. left. destruct (_ || _); [|done].
      assert (dpb_nfreeclst d = UNKNCLSTFREE) as -> by (unfold dpb_nfreeclst; by rewrite Ex).
      by rewrite Z.eqb_refl.
    + intros Hn [?|Hd]; zbool; [done|]. right.
      destruct (v =? FREE), (T c =? FREE); cbn [orb negb dpb_xnfreeclst set_xnfreeclst];
        rewrite ?u32_small; lia.
  - cbn [andb]. assert (max_cluster d <= 65525).
    { destruct k; cbn [max_of] in Hmax; unfold FAT_MAGIC, FAT_MAGIC16 in Hmax; [lia|lia|done]. }
    unfold UNKNCLSTFREE.
    destruct (dpb_nfreeclst d =? 65535) eqn:Ex; cbn [negb]; zbool.
    + intros _ _. left. by destruct (_ || _).
    + intros Hn [?|Hd]; [done|]. right.
      destruct (v =? FREE), (T c =? FREE); cbn [orb negb]; rewrite ?nfreeclst_set;
        rewrite ?(u16_small (dpb_nfreeclst d + _)) by lia; rewrite ?u16_small; lia.
Qed.

End Spec.
End Chain.
