(* ===== verification/AllocSpec.v ===== *)
(** * The allocation functions on tables

    Each function of [FatAlloc] against its effect on the table of links:
    freeing, searching, counting, extending and following chains. *)

From S2P Require Import Prelude KState BlockIO FatTab FNode FatAlloc Disk Ring CacheSpec CacheOps.
From S2P Require Import FatPure FatSpec FatWrite Table FatChain.
Import Ks Bio Fat FNode Alloc Dsk Ring Cache CacheOps FatPure FatSpec FatWrite Table Chain.

Module AllocSpec.
Section Spec.
Context {M : Machine} {D : Disk}.

Lemma tab_cases s l u p d k T : tab s l u p d k T ->
  (ISFAT32 d = true -> k = FAT32) /\ (ISFAT32 d = false -> max_cluster d <= 65525).
Proof.
  intros Ht. pose proof (tab_32 _ _ _ _ _ _ _ Ht) as E.
  pose proof (v_max _ _ _ _ _ (r_volume _ _ _ _ _ _ (tb_ready _ _ _ _ _ _ _ Ht))) as Hm.
  destruct k; cbn [max_of] in Hm; unfold FAT_MAGIC, FAT_MAGIC16 in Hm; split; intros; congruence || lia.
Qed.

Lemma geo_32 d d' : geo d' = geo d -> ISFAT32 d' = ISFAT32 d.
Proof. intros ->%geo_eq. done. Qed.

(** ** The hint *)

Definition put_hint (v : Z) (d : dpb) : dpb := if ISFAT32 d then set_xcluster v d else set_cluster v d.

Lemma put_hint_geo v d : geo (put_hint v d) = geo d.
Proof. unfold put_hint. by destruct (ISFAT32 d). Qed.
Lemma put_hint_get v d : hint (put_hint v d) = v.
Proof. unfold hint, put_hint. destruct (ISFAT32 d) eqn:E; cbn; unfold ISFAT32 in *; cbn; by rewrite E. Qed.
Lemma put_hint_counts v d T : counts d T -> counts (put_hint v d) T.
Proof. unfold counts, put_hint. by destruct (ISFAT32 d) eqn:E; cbn; unfold ISFAT32 in *; cbn; rewrite E. Qed.

Lemma counted_hint d v w : hint (counted d v w) = hint d.
Proof.
  unfold hint. rewrite (geo_32 _ _ (counted_geo d v w)).
  destruct (counted_hints d v w) as [-> ->]. done.
Qed.

Lemma tab_put_hint s l u p d k T v :
  tab s l u p d k T ->
  exists s', dmod p (fun e => if ISFAT32 d then set_xcluster v e else set_cluster v e) s = Some (tt, s') /\
    tab s' l u p (put_hint v d) k T /\ moved s l s' l u d.
Proof.
  intros Ht.
  apply (tab_hint s l u p d k T (fun e => if ISFAT32 d then set_xcluster v e else set_cluster v e) Ht).
  intros e. by destruct (ISFAT32 d).
Qed.

(** ** wipe_out_clusters *)

(** The hint after [st] was freed. *)
Definition lower (h st : Z) : Z := if (h =? UNKNCLUSTER) || (st <? h) then st else h.

Lemma run_hint_cond s l u p d k T st :
  tab s l u p d k T -> 2 <= st <= max_cluster d ->
  exists s' d', (if ISFAT32 d then
         if (dpb_xcluster d =? UNKNCLUSTER) || (st <? dpb_xcluster d)
         then dmod p (set_xcluster st) else kret tt
       else if (dpb_cluster d =? UNKNCLUSTER) || (u16 st <? dpb_cluster d)
       then dmod p (set_cluster (u16 st)) else kret tt) s = Some (tt, s') /\
    geo d' = geo d /\ hint d' = lower (hint d) st /\ (forall T, counts d T -> counts d' T) /\
    tab s' l u p d' k T /\ moved s l s' l u d.
Proof.
  intros Ht Hst. destruct (tab_cases _ _ _ _ _ _ _ Ht) as [_ H16].
  assert (Hmain : exists s' d', (if (hint d =? UNKNCLUSTER) || (st <? hint d)
      then dmod p (fun e => if ISFAT32 d then set_xcluster st e else set_cluster st e) else kret tt) s
        = Some (tt, s') /\
    geo d' = geo d /\ hint d' = lower (hint d) st /\ (forall T, counts d T -> counts d' T) /\
    tab s' l u p d' k T /\ moved s l s' l u d).
  { unfold lower. destruct (_ || _).
    - destruct (tab_put_hint s l u p d k T st Ht) as (s' & Hr & Ht' & Hm).
      exists s', (put_hint st d). split; [done|]. split; [apply put_hint_geo|].
      split; [apply put_hint_get|]. split; [intros T'; apply put_hint_counts|done].
    - exists s, d. split; [done|]. do 3 (split; [done|]). split; [done|apply moved_refl]. }
  revert Hmain. unfold hint. destruct (ISFAT32 d) eqn:E; [done|].
  specialize (H16 eq_refl). rewrite u16_small by lia. done.
Qed.

Lemma wipe_step_spec s l u p d k T st :
  tab s l u p d k T -> 2 <= max_cluster d ->
  if next_of (max_cluster d) T st <=? 1 then
    exists s' l', wipe_step p st s = Some (None, s') /\ tab s' l' u p d k T /\ moved s l s' l' u d
  else
    exists s' l' d', wipe_step p st s = Some (Some (next_of (max_cluster d) T st), s') /\
      geo d' = geo d /\ hint d' = lower (hint d) st /\
      (counts d T -> counts d' (tupd T st FREE)) /\
      tab s' l' u p d' k (tupd T st FREE) /\ moved s l s' l' u d.
Proof.
  intros Ht Hmx. unfold wipe_step.
  destruct (tab_next s l u p d k T st Ht) as (s1 & l1 & Hr & Ht1 & C1).
  rewrite (run_eq _ _ _ _ _ Hr). pose proof (calm_moved _ _ _ _ u d C1) as M1.
  destruct (next_of (max_cluster d) T st <=? 1) eqn:E.
  { by exists s1, l1. }
  zbool. destruct (next_of_used (max_cluster d) T st E) as [Hst Hn].
  destruct (tab_store s1 l1 u p d k T st FREE Ht1 Hst) as (s2 & l2 & d2 & Hr2 & Hg2 & Hd2 & Ht2 & M2);
    [by left|].
  rewrite (run_eq _ _ _ _ _ Hr2). change (negb (SUCCESS =? SUCCESS)) with false. cbn iota.
  rewrite (run_dget p d2) by (by eapply tab_dpb).
  destruct (run_hint_cond s2 l2 u p d2 k _ st Ht2) as (s3 & d3 & Hr3 & Hg3 & Hh3 & Hc3 & Ht3 & M3);
    [by rewrite (max_geo _ _ Hg2)|].
  rewrite (run_eq _ _ _ _ _ Hr3).
  exists s3, l2, d3. split; [done|]. split; [congruence|].
  split; [rewrite Hh3, Hd2; by rewrite counted_hint|].
  split; [intros Hc; apply Hc3; rewrite Hd2; by eapply counts_store|].
  split; [done|]. exact (moved_trans _ _ _ _ _ _ _ d d M1 (moved_trans _ _ _ _ _ _ _ d d2 M2 M3 Hg2) eq_refl).
Qed.

Lemma wipe_loop_spec fuel s l u p d k T st :
  tab s l u p d k T -> (nused (max_cluster d) T < fuel)%nat ->
  exists s' l' d', wipe_loop fuel p st s = Some (tt, s') /\ geo d' = geo d /\
    let cs := trail fuel (max_cluster d) T st in
    tab s' l' u p d' k (free_all T cs) /\ moved s l s' l' u d /\
    hint d' = fold_left lower cs (hint d) /\ (counts d T -> counts d' (free_all T cs)).
Proof.
  revert s l d T st. induction fuel as [|fuel IH]; intros s l d T st Ht Hf; [lia|].
  pose proof (tab_max _ _ _ _ _ _ _ Ht) as Hmx. cbn [wipe_loop trail].
  assert (Hnil : forall s l, tab s l u p d k T -> tab s l u p d k (free_all T [])).
  { intros s1 l1 [R Ha]. split; [done|]. etransitivity; [|exact Ha]. intros c _. by rewrite free_all_nil. }
  assert (Hcnil : forall T, counts d T -> counts d (free_all T [])).
  { intros T'. unfold counts. assert (E : nfree (max_cluster d) (free_all T' []) = nfree (max_cluster d) T').
    { apply nfree_agrees. intros c _. by rewrite free_all_nil. }
    by rewrite E. }
  destruct (st =? LONG_LAST_CLUSTER).
  { rewrite (run_dget p d) by (by eapply tab_dpb). destruct (ISFAT32 d) eqn:E32.
    - destruct (tab_fsinfo s l u p d k T Ht E32) as (s1 & l1 & Hr & Ht1 & M1).
      exists s1, l1, d. split; [done|]. split; [done|]. cbv zeta. split; [by apply Hnil|].
      split; [done|]. split; [done|]. apply Hcnil.
    - exists s, l, d. split; [done|]. split; [done|]. cbv zeta. split; [by apply Hnil|].
      split; [apply moved_refl|]. split; [done|]. apply Hcnil. }
  pose proof (wipe_step_spec s l u p d k T st Ht ltac:(lia)) as Hs.
  destruct (next_of (max_cluster d) T st <=? 1) eqn:E.
  { destruct Hs as (s1 & l1 & Hr & Ht1 & M1). rewrite (run_eq _ _ _ _ _ Hr).
    exists s1, l1, d. split; [done|]. split; [done|]. cbv zeta. split; [by apply Hnil|].
    split; [done|]. split; [done|]. apply Hcnil. }
  destruct Hs as (s1 & l1 & d1 & Hr & Hg1 & Hh1 & Hc1 & Ht1 & M1).
  rewrite (run_eq _ _ _ _ _ Hr). zbool. destruct (next_of_used (max_cluster d) T st E) as [Hst Hn].
  assert (HT : T st <> FREE) by (unfold FREE; lia).
  rewrite (nused_free _ T st Hst HT) in Hf.
  destruct (IH s1 l1 d1 (tupd T st FREE) (next_of (max_cluster d) T st) Ht1)
    as (s2 & l2 & d2 & Hr2 & Hg2 & Ht2 & M2 & Hh2 & Hc2).
  { rewrite (max_geo _ _ Hg1). lia. }
  exists s2, l2, d2. rewrite (max_geo _ _ Hg1) in *. split; [done|]. split; [congruence|]. cbv zeta.
  assert (Ha : agrees (max_cluster d) (free_all T (st :: trail fuel (max_cluster d) (tupd T st FREE) (next_of (max_cluster d) T st)))
    (free_all (tupd T st FREE) (trail fuel (max_cluster d) (tupd T st FREE) (next_of (max_cluster d) T st)))).
  { intros c _. apply free_all_cons. }
  split.
  { destruct Ht2 as [R2 Ha2]. split; [done|]. etransitivity; [|exact Ha2].
    rewrite (max_geo _ _ Hg2), (max_geo _ _ Hg1). exact Ha. }
  split; [exact (moved_trans _ _ _ _ _ _ _ d d1 M1 M2 Hg1)|].
  split; [rewrite Hh2, Hh1; done|].
  intros Hc. specialize (Hc2 (Hc1 Hc)). revert Hc2. unfold counts.
  rewrite (max_geo _ _ Hg2), (max_geo _ _ Hg1). rewrite (nfree_agrees _ _ _ Ha). done.
Qed.

Lemma wipe_spec s l u p d k T st :
  tab s l u p d k T ->
  exists s' l' d' cs, wipe_out_clusters p st s = Some (tt, s') /\ geo d' = geo d /\
    cs = trail (Z.to_nat (max_cluster d + 2)) (max_cluster d) T st /\
    tab s' l' u p d' k (free_all T cs) /\ moved s l s' l' u d /\
    hint d' = fold_left lower cs (hint d) /\ (counts d T -> counts d' (free_all T cs)).
Proof.
  intros Ht. pose proof (tab_max _ _ _ _ _ _ _ Ht) as Hmx.
  unfold wipe_out_clusters. rewrite (run_dget p d) by (by eapply tab_dpb).
  destruct (wipe_loop_spec (Z.to_nat (max_cluster d + 2)) s l u p d k T st Ht)
    as (s' & l' & d' & Hr & Hg & H).
  { pose proof (nused_bound (max_cluster d) T). lia. }
  exists s', l', d', (trail (Z.to_nat (max_cluster d + 2)) (max_cluster d) T st). done.
Qed.

(** ** find_fat_free *)

Definition search_start (d : dpb) : Z := if hint d =? UNKNCLUSTER then 2 else hint d.
(** The first free cluster from the hint on. *)
Definition found_free (d : dpb) (T : Z -> Z) : option Z :=
  first_free T (cyc (max_cluster d) (search_start d) (search_start d)).

Lemma free_loop_spec fuel s l u p d k T start idx :
  tab s l u p d k T -> 2 <= start <= max_cluster d -> 2 <= idx <= max_cluster d ->
  (length (cyc (max_cluster d) start idx) <= fuel)%nat ->
  let r := first_free T (cyc (max_cluster d) start idx) in
  exists s' l', free_loop fuel p (max_cluster d) start idx s =
      Some ((default UNKNCLUSTER r, default LONG_LAST_CLUSTER r), s') /\
    tab s' l' u p d k T /\ calm s l s' l'.
Proof.
  revert s l idx. induction fuel as [|fuel IH]; intros s l idx Ht Hs Hi; cbv zeta.
  { rewrite cyc_step by done. simpl. lia. }
  pose proof (tab_max _ _ _ _ _ _ _ Ht) as Hmx. unfold LONG_BAD in Hmx.
  cbn [free_loop]. rewrite (cyc_step (max_cluster d) start idx) by done. cbv zeta.
  destruct (tab_free s l u p d k T idx Ht) as (s1 & l1 & Hr & Ht1 & C1).
  rewrite (run_eq _ _ _ _ _ Hr), first_free_cons. intros Hf.
  assert (link_of (max_cluster d) T idx = T idx) as ->.
  { unfold link_of. by rewrite (proj2 (Z.leb_le 2 idx)), (proj2 (Z.leb_le idx _)) by lia. }
  destruct (T idx =? FREE); [by exists s1, l1|].
  rewrite u32_small by lia.
  destruct ((if max_cluster d <? idx + 1 then 2 else idx + 1) =? start) eqn:E.
  { by exists s1, l1. }
  destruct (IH s1 l1 (if max_cluster d <? idx + 1 then 2 else idx + 1) Ht1 Hs) as (s2 & l2 & Hr2 & Ht2 & C2).
  - destruct (max_cluster d <? idx + 1) eqn:E2; zbool; lia.
  - simpl in Hf. lia.
  - exists s2, l2. split; [exact Hr2|]. split; [done|]. by eapply calm_trans.
Qed.

Lemma run_fn {A} fnp (f : f_node -> K kst A) s : kbind (fn fnp) f s = f (fnode_of fnp (fs s)) s.
Proof. reflexivity. Qed.

Lemma hint_start d : hint_ok d -> 2 <= max_cluster d -> 2 <= search_start d <= max_cluster d.
Proof.
  intros [H|H] Hm; unfold search_start; destruct (hint d =? UNKNCLUSTER) eqn:E; zbool; try done; lia.
Qed.

Lemma max_32 d : (if ISFAT32 d then dpb_xsize d else dpb_size d) = max_cluster d.
Proof. done. Qed.

Lemma find_fat_free_spec s l u p d k T fnp :
  tab s l u p d k T -> f_dpb (fnode_of fnp (fs s)) = p -> hint_ok d ->
  let r := found_free d T in
  exists s' l' d', find_fat_free fnp s = Some (default LONG_LAST_CLUSTER r, s') /\
    geo d' = geo d /\ hint d' = default UNKNCLUSTER r /\ (forall T, counts d T -> counts d' T) /\
    tab s' l' u p d' k T /\ moved s l s' l' u d.
Proof.
  intros Ht Hp Hh r. pose proof (tab_max _ _ _ _ _ _ _ Ht) as Hmx.
  pose proof (hint_start d Hh ltac:(lia)) as Hs.
  destruct (tab_cases _ _ _ _ _ _ _ Ht) as [_ H16].
  unfold find_fat_free. rewrite run_fn, Hp, (run_dget p d) by (by eapply tab_dpb).
  assert (E : (if ISFAT32 d
      then (if negb (dpb_xcluster d =? UNKNCLUSTER) then dpb_xcluster d else 2, dpb_xsize d)
      else (if negb (dpb_cluster d =? UNKNCLUSTER) then dpb_cluster d else 2, dpb_size d)) =
    (search_start d, max_cluster d)).
  { unfold search_start, hint, max_cluster. destruct (ISFAT32 d).
    - by destruct (dpb_xcluster d =? UNKNCLUSTER).
    - by destruct (dpb_cluster d =? UNKNCLUSTER). }
  rewrite E. clear E.
  destruct (free_loop_spec (Z.to_nat (max_cluster d + 1)) s l u p d k T (search_start d)
    (search_start d) Ht Hs Hs) as (s1 & l1 & Hr & Ht1 & C1).
  { pose proof (cyc_length (max_cluster d) _ _ Hs Hs). lia. }
  rewrite (run_eq _ _ _ _ _ Hr). cbn [fst snd]. fold (found_free d T). fold r.
  assert (Hr16 : ISFAT32 d = false -> u16 (default UNKNCLUSTER r) = default UNKNCLUSTER r).
  { intros E. specialize (H16 E). destruct r as [c|] eqn:Er; [|done]. simpl.
    apply first_free_some in Er as [Hc _]. apply elem_of_cyc in Hc; [|done].
    apply u16_small. lia. }
  destruct (tab_put_hint s1 l1 u p d k T (default UNKNCLUSTER r) Ht1) as (s2 & Hr2 & Ht2 & M2).
  pose proof (calm_moved _ _ _ _ u d C1) as M1.
  destruct (ISFAT32 d) eqn:E32.
  - destruct (tab_fsinfo s2 l1 u p _ k T Ht2) as (s3 & l3 & Hr3 & Ht3 & M3).
    { rewrite (geo_32 d); [done|apply put_hint_geo]. }
    exists s3, l3, (put_hint (default UNKNCLUSTER r) d).
    split.
    { rewrite !run_assoc. change (set_xcluster (default UNKNCLUSTER r)) with
        (fun e => set_xcluster (default UNKNCLUSTER r) e).
      rewrite (run_eq _ _ _ _ _ Hr2), (run_eq _ _ _ _ _ Hr3). done. }
    split; [apply put_hint_geo|]. split; [apply put_hint_get|].
    split; [intros T'; apply put_hint_counts|]. split; [done|].
    exact (moved_trans _ _ _ _ _ _ _ d d M1
      (moved_trans _ _ _ _ _ _ _ d _ M2 M3 (put_hint_geo _ _)) eq_refl).
  - exists s2, l1, (put_hint (default UNKNCLUSTER r) d). rewrite Hr16 by done.
    split.
    { change (set_cluster (default UNKNCLUSTER r)) with
        (fun e => set_cluster (default UNKNCLUSTER r) e).
      rewrite (run_eq _ _ _ _ _ Hr2). done. }
    split; [apply put_hint_geo|]. split; [apply put_hint_get|].
    split; [intros T'; apply put_hint_counts|]. split; [done|].
    exact (moved_trans _ _ _ _ _ _ _ d d M1 M2 eq_refl).
Qed.

(** ** dos_free *)

Definition nfree_from (T : Z -> Z) (i mx : Z) : Z :=
  Z.of_nat (length (filter (fun c => T c = FREE) (seqZ i (mx - i + 1)))).

Lemma nfree_from_step T i mx :
  i <= mx -> nfree_from T i mx = (if T i =? FREE then 1 else 0) + nfree_from T (i + 1) mx.
Proof.
  intros Hi. unfold nfree_from. rewrite (seqZ_cons' i) by lia. rewrite filter_cons.
  replace (mx - i + 1 - 1) with (mx - (i + 1) + 1) by lia.
  destruct (T i =? FREE) eqn:E; zbool; case_decide; try congruence; simpl; lia.
Qed.

Lemma count_loop_spec fuel s l u p d k T i cnt :
  tab s l u p d k T -> 2 <= i <= max_cluster d + 1 -> 0 <= cnt <= i - 2 ->
  (Z.to_nat (max_cluster d - i + 1) < fuel)%nat ->
  exists s' l' d', count_loop fuel p (max_cluster d) i cnt s =
      Some (cnt + nfree_from T i (max_cluster d), s') /\
    geo d' = geo d /\ (hint_ok d -> hint_ok d') /\ tab s' l' u p d' k T /\ moved s l s' l' u d.
Proof.
  revert s l d i cnt. induction fuel as [|fuel IH]; intros s l d i cnt Ht Hi Hcnt Hf; [lia|].
  pose proof (tab_max _ _ _ _ _ _ _ Ht) as Hmx. unfold LONG_BAD in Hmx. cbn [count_loop].
  destruct (i <=? max_cluster d) eqn:E; cbn [negb]; zbool.
  2:{ assert (i = max_cluster d + 1) as -> by lia. exists s, l, d. split.
      { unfold nfree_from. replace (max_cluster d - (max_cluster d + 1) + 1) with 0 by lia.
        change (seqZ (max_cluster d + 1) 0) with (@nil Z). simpl. by rewrite Z.add_0_r. }
      split; [done|]. split; [done|]. split; [done|apply moved_refl]. }
  destruct (tab_free s l u p d k T i Ht) as (s1 & l1 & Hr & Ht1 & C1).
  rewrite (run_eq _ _ _ _ _ Hr). pose proof (calm_moved _ _ _ _ u d C1) as M1.
  assert (link_of (max_cluster d) T i = T i) as ->.
  { unfold link_of. by rewrite (proj2 (Z.leb_le 2 i)), (proj2 (Z.leb_le i _)) by lia. }
  rewrite nfree_from_step by done. rewrite u32_small by lia.
  destruct (T i =? FREE) eqn:EF.
  - rewrite (u32_small (cnt + 1)) by lia.
    assert (Hh : exists s2 d2, (if cnt =? 0 then
               let! d := dget p in
               if ISFAT32 d then dmod p (set_xcluster i) else dmod p (set_cluster (u16 i))
             else kret tt) s1 = Some (tt, s2) /\
        geo d2 = geo d /\ (hint_ok d -> hint_ok d2) /\ tab s2 l1 u p d2 k T /\ moved s1 l1 s2 l1 u d).
    { destruct (cnt =? 0).
      - rewrite (run_dget p d) by (by eapply tab_dpb).
        destruct (tab_put_hint s1 l1 u p d k T i Ht1) as (s2 & Hr2 & Ht2 & M2).
        exists s2, (put_hint i d). split.
        { destruct (tab_cases _ _ _ _ _ _ _ Ht) as [_ H16]. destruct (ISFAT32 d); [done|].
          rewrite u16_small; [done|]. specialize (H16 eq_refl). lia. }
        split; [apply put_hint_geo|]. split; [|done].
        intros _. right. rewrite put_hint_get, (max_geo d) by apply put_hint_geo. lia.
      - exists s1, d. split; [done|]. split; [done|]. split; [done|]. split; [done|apply moved_refl]. }
    destruct Hh as (s2 & d2 & Hr2 & Hg2 & Hh2 & Ht2 & M2). rewrite (run_eq _ _ _ _ _ Hr2).
    destruct (IH s2 l1 d2 (i + 1) (cnt + 1) Ht2) as (s3 & l3 & d3 & Hr3 & Hg3 & Hh3 & Ht3 & M3);
      [rewrite (max_geo _ _ Hg2); lia|lia|rewrite (max_geo _ _ Hg2); lia|].
    exists s3, l3, d3. rewrite (max_geo _ _ Hg2) in *. split; [rewrite Hr3; f_equal; f_equal; lia|].
    split; [congruence|]. split; [auto|]. split; [done|].
    exact (moved_trans _ _ _ _ _ _ _ d d M1 (moved_trans _ _ _ _ _ _ _ d d2 M2 M3 Hg2) eq_refl).
  - destruct (IH s1 l1 d (i + 1) cnt Ht1) as (s3 & l3 & d3 & Hr3 & Hg3 & Hh3 & Ht3 & M3); [lia..|].
    exists s3, l3, d3. split; [rewrite Hr3; f_equal; f_equal; lia|].
    split; [done|]. split; [done|]. split; [done|].
    exact (moved_trans _ _ _ _ _ _ _ d d M1 M3 eq_refl).
Qed.

Lemma dos_free_spec s l u p d k T :
  tab s l u p d k T -> counts d T ->
  exists s' l' d', dos_free p s = Some (nfree (max_cluster d) T, s') /\
    geo d' = geo d /\ counts d' T /\ (hint_ok d -> hint_ok d') /\ tab s' l' u p d' k T /\
    moved s l s' l' u d.
Proof.
  intros Ht Hc. pose proof (tab_max _ _ _ _ _ _ _ Ht) as Hmx. unfold LONG_BAD in Hmx.
  destruct (tab_cases _ _ _ _ _ _ _ Ht) as [_ H16].
  pose proof (nfree_bound (max_cluster d) T ltac:(lia)) as Hb.
  unfold dos_free. rewrite (run_dget p d) by (by eapply tab_dpb).
  destruct (count_loop_spec (Z.to_nat (max_cluster d)) s l u p d k T 2 0 Ht)
    as (s1 & l1 & d1 & Hr1 & Hg1 & Hh1 & Ht1 & M1); [lia..|].
  assert (Hn : 0 + nfree_from T 2 (max_cluster d) = nfree (max_cluster d) T).
  { unfold nfree_from, nfree, clusters. by replace (max_cluster d - 2 + 1) with (max_cluster d - 1) by lia. }
  rewrite Hn in Hr1.
  assert (Hsame : counts d T -> forall n, n = nfree (max_cluster d) T -> exists s' l' d',
    kret n s = Some (nfree (max_cluster d) T, s') /\ geo d' = geo d /\ counts d' T /\
    (hint_ok d -> hint_ok d') /\ tab s' l' u p d' k T /\ moved s l s' l' u d).
  { intros Hcd n ->. exists s, l, d. repeat (split; [done|]). apply moved_refl. }
  destruct (ISFAT32 d) eqn:E32.
  - destruct (dpb_xnfreeclst d =? XUNKNCLSTFREE) eqn:Ex; cbn [negb].
    + rewrite (run_eq _ _ _ _ _ Hr1).
      destruct (tab_hint s1 l1 u p d1 k T (set_xnfreeclst (nfree (max_cluster d) T)) Ht1)
        as (s2 & Hr2 & Ht2 & M2); [done|].
      rewrite (run_eq _ _ _ _ _ Hr2).
      destruct (tab_fsinfo s2 l1 u p _ k T Ht2) as (s3 & l3 & Hr3 & Ht3 & M3).
      { transitivity (ISFAT32 d1); [done|]. by rewrite (geo_32 _ _ Hg1). }
      rewrite (run_eq _ _ _ _ _ Hr3). exists s3, l3, (set_xnfreeclst (nfree (max_cluster d) T) d1). split; [done|]. split; [exact Hg1|].
      split.
      { unfold counts. change (ISFAT32 (set_xnfreeclst _ d1)) with (ISFAT32 d1).
        change (max_cluster (set_xnfreeclst _ d1)) with (max_cluster d1).
        rewrite (geo_32 _ _ Hg1), E32, (max_geo _ _ Hg1). by right. }
      split; [exact Hh1|]. split; [done|].
      exact (moved_trans _ _ _ _ _ _ _ d d1 M1 (moved_trans _ _ _ _ _ _ _ d1 (set_xnfreeclst _ d1) M2 M3 eq_refl) Hg1).
    + zbool. apply Hsame; [done|]. unfold counts in Hc. rewrite E32 in Hc. by destruct Hc.
  - destruct (dpb_nfreeclst d =? UNKNCLSTFREE) eqn:Ex; cbn [negb].
    + rewrite (run_eq _ _ _ _ _ Hr1). specialize (H16 eq_refl).
      rewrite (u16_small (nfree _ _)) by lia.
      destruct (tab_hint s1 l1 u p d1 k T (set_nfreeclst (nfree (max_cluster d) T)) Ht1)
        as (s2 & Hr2 & Ht2 & M2); [done|].
      rewrite (run_eq _ _ _ _ _ Hr2). exists s2, l1, (set_nfreeclst (nfree (max_cluster d) T) d1). split; [done|]. split; [exact Hg1|].
      split.
      { unfold counts. change (ISFAT32 (set_nfreeclst _ d1)) with (ISFAT32 d1).
        change (max_cluster (set_nfreeclst _ d1)) with (max_cluster d1).
        rewrite nfreeclst_set, (geo_32 _ _ Hg1), E32, (max_geo _ _ Hg1). right.
        apply u16_small. lia. }
      split; [exact Hh1|]. split; [done|].
      exact (moved_trans _ _ _ _ _ _ _ d d1 M1 M2 Hg1).
    + zbool. apply Hsame; [done|]. unfold counts in Hc. rewrite E32 in Hc. by destruct Hc.
Qed.

End Spec.
End AllocSpec.
