(* ===== verification/MapSpec.v ===== *)
(** * Extending and following chains

    [extend] and [map_cluster] work on a fnode as well as on the table.  A
    fnode is at a position of its chain ([at_pos]); [map_cluster] moves it to
    the cluster that holds the byte at [f_offset], appending clusters when it
    writes. *)

From S2P Require Import Prelude KState BlockIO FatTab FNode FatAlloc Disk Ring CacheSpec CacheOps.
From S2P Require Import FatPure FatSpec FatWrite Table FatChain AllocSpec.
Import Ks Bio Fat FNode Alloc Dsk Ring Cache CacheOps FatPure FatSpec FatWrite Table Chain AllocSpec.

Module MapSpec.
Section Spec.
Context {M : Machine} {D : Disk}.

(** ** Fnodes *)

(** As [moved], with the fnodes free to change. *)
Record roamed (s : kst) (l : list Z) (s' : kst) (l' : list Z) (u : Z) (d : dpb) : Prop := Roamed {
  ro_frame : fat_frame s l s' l' u d;
  ro_evolves : evolves s s';
  ro_length : length l' = length l }.

Lemma moved_roamed s l s' l' u d : moved s l s' l' u d -> roamed s l s' l' u d.
Proof. by intros []. Qed.

Lemma roamed_trans s l s1 l1 s2 l2 u d d1 :
  roamed s l s1 l1 u d -> roamed s1 l1 s2 l2 u d1 -> geo d1 = geo d -> roamed s l s2 l2 u d.
Proof.
  intros [A1 A2 A4] [B1 B2 B4] Hg. split; [|by eapply evolves_trans|congruence].
  intros u' q' d' blk Hm Hb Hn.
  destruct (evolves_mounted _ _ _ _ _ A2 Hm) as (d'' & Hm' & Hg').
  rewrite <- (view_geo s2 l2 d' d'' blk Hg'), (B1 u' q' d'' blk Hm').
  - rewrite (view_geo s1 l1 d' d'' blk Hg'). by apply (A1 u' q').
  - by rewrite (block_ok_geo d' d'').
  - intros Hu. apply geo_eq in Hg. rewrite Hg. by apply Hn.
Qed.

(** A store to the fnodes. *)
Lemma fs_spec s l u p d k T v :
  tab s l u p d k T -> tab (set_fs v s) l u p d k T /\ roamed s l (set_fs v s) l u d.
Proof.
  intros [[Hc V Hl] Ha]. split; [|by split].
  split; [|done]. split; [|by apply (volume_same s)|done]. by apply (cache_evolves s).
Qed.

Lemma roamed_refl s l u d : roamed s l s l u d.
Proof. apply moved_roamed, moved_refl. Qed.

Lemma fnode_upd_of fp g v : fnode_of fp (fnode_upd fp g v) = g (fnode_of fp v).
Proof. by destruct fp. Qed.
Lemma fnode_upd_upd fp g h v : fnode_upd fp h (fnode_upd fp g v) = fnode_upd fp (fun n => h (g n)) v.
Proof. by destruct fp, v. Qed.
Lemma fnode_upd_id fp g v : g (fnode_of fp v) = fnode_of fp v -> fnode_upd fp g v = v.
Proof. destruct fp, v; cbn; unfold set_fn0, set_fn1; cbn; by intros ->. Qed.
Lemma dm_upd_of fp g p v : dm_of p (fnode_upd fp g v) = dm_of p v.
Proof. by destruct fp, v, p. Qed.

Lemma run_fnmod {A} fp g (f : unit -> K kst A) s :
  kbind (fnmod fp g) f s = f tt (set_fs (fnode_upd fp g (fs s)) s).
Proof. reflexivity. Qed.

Lemma run_fdpb {A} fp d p (f : dpb -> K kst A) s :
  f_dpb (fnode_of fp (fs s)) = p -> dpbs s !! p = Some d -> kbind (fdpb fp) f s = f d s.
Proof. intros Hp Hd. unfold fdpb. rewrite run_assoc, run_fn, Hp. by rewrite (run_dget p d). Qed.

(** ** extend *)

(** The fnode after a first cluster was put into its directory entry. *)
Definition started (d : dpb) (c : Z) (n : f_node) : f_node := set_f_dir (setdstart d c (f_dir n)) n.
(** The table after [c] was appended behind [e] (to nothing if [e] is FREE). *)
Definition appended (T : Z -> Z) (e c : Z) : Z -> Z :=
  if e =? FREE then tupd T c LONG_LAST_CLUSTER else tupd (tupd T c LONG_LAST_CLUSTER) e c.

Lemma hint_ok_geo d d' : geo d' = geo d -> hint d' = hint d -> hint_ok d -> hint_ok d'.
Proof. intros Hg Hh. unfold hint_ok. by rewrite Hh, (max_geo _ _ Hg). Qed.

Lemma found_range d T c :
  2 <= max_cluster d -> hint_ok d -> found_free d T = Some c -> 2 <= c <= max_cluster d /\ T c = FREE.
Proof.
  intros Hmx Hh H. apply first_free_some in H as [Hc HT]. split; [|done].
  apply elem_of_cyc in Hc; [done|]. by apply hint_start.
Qed.

Lemma found_none d T :
  2 <= max_cluster d -> hint_ok d -> found_free d T = None ->
  forall c, 2 <= c <= max_cluster d -> T c <> FREE.
Proof.
  intros Hmx Hh H c Hc. eapply first_free_none; [exact H|]. apply elem_of_cyc; [by apply hint_start|done].
Qed.

Lemma next_last mx T e : 2 <= e <= mx -> T e = LONG_LAST_CLUSTER -> next_of mx T e = LONG_LAST_CLUSTER.
Proof.
  intros He HT. unfold next_of.
  assert (link_of mx T e = LONG_LAST_CLUSTER) as ->; [|done].
  unfold link_of. by rewrite (proj2 (Z.leb_le 2 e)), (proj2 (Z.leb_le e mx)), HT by lia.
Qed.

Lemma extend_spec s l u p d k T fp :
  tab s l u p d k T -> hint_ok d ->
  let n := fnode_of fp (fs s) in
  f_dpb n = p ->
  (f_cluster n <> FREE -> 2 <= f_cluster n <= max_cluster d /\ T (f_cluster n) = LONG_LAST_CLUSTER) ->
  match found_free d T with
  | None =>
      exists s' l' d', extend fp s = Some (LONG_LAST_CLUSTER, s') /\ geo d' = geo d /\ hint_ok d' /\
        (counts d T -> counts d' T) /\ fs s' = fs s /\ tab s' l' u p d' k T /\ roamed s l s' l' u d
  | Some c =>
      exists s' l' d', extend fp s = Some (c, s') /\ geo d' = geo d /\ hint_ok d' /\
        (counts d T -> counts d' (appended T (f_cluster n) c)) /\
        fs s' = (if f_cluster n =? FREE then fnode_upd fp (started d c) (fs s) else fs s) /\
        tab s' l' u p d' k (appended T (f_cluster n) c) /\ roamed s l s' l' u d
  end.
Proof.
  intros Ht Hh n Hp He. pose proof (tab_max _ _ _ _ _ _ _ Ht) as Hmx.
  destruct (find_fat_free_spec s l u p d k T fp Ht Hp Hh) as (s1 & l1 & d1 & Hr1 & Hg1 & Hh1 & Hc1 & Ht1 & M1).
  pose proof (moved_roamed _ _ _ _ _ _ M1) as R1. unfold extend. rewrite (run_eq _ _ _ _ _ Hr1).
  destruct (found_free d T) as [c|] eqn:Ef; cbn [from_option id] in *.
  2:{ change (LONG_LAST_CLUSTER =? LONG_LAST_CLUSTER) with true. exists s1, l1, d1. split; [done|].
      split; [done|]. split; [by left|]. split; [auto|]. split; [apply M1|]. done. }
  destruct (found_range d T c ltac:(lia) Hh Ef) as [Hc HTc].
  assert (c <> LONG_LAST_CLUSTER) by (unfold LONG_BAD, LONG_LAST_CLUSTER in *; lia).
  rewrite (proj2 (Z.eqb_neq c LONG_LAST_CLUSTER)) by done.
  rewrite run_fn, (mv_fs _ _ _ _ _ _ M1). fold n. rewrite Hp.
  assert (Hhok1 : hint_ok d1) by (right; rewrite Hh1, (max_geo _ _ Hg1); simpl; lia).
  destruct (tab_store s1 l1 u p d1 k T c LONG_LAST_CLUSTER Ht1) as (s2 & l2 & d2 & Hr2 & Hg2 & Hd2 & Ht2 & M2);
    [by rewrite (max_geo _ _ Hg1)|by right; right|].
  rewrite (run_eq _ _ _ _ _ Hr2). change (negb (SUCCESS =? SUCCESS)) with false. cbn iota.
  pose proof (moved_roamed _ _ _ _ _ _ M2) as R2.
  assert (Hhok2 : hint_ok d2) by (apply (hint_ok_geo d1); [done|by rewrite Hd2, counted_hint|done]).
  assert (Hcn2 : counts d T -> counts d2 (tupd T c LONG_LAST_CLUSTER)).
  { intros Hcn. rewrite Hd2. eapply counts_store; [exact Ht1|by rewrite (max_geo _ _ Hg1)|by apply Hc1]. }
  assert (Hg12 : geo d2 = geo d) by congruence.
  pose proof (roamed_trans _ _ _ _ _ _ _ _ _ R1 R2 Hg1) as R12.
  assert (Hfs2 : fs s2 = fs s) by (rewrite (mv_fs _ _ _ _ _ _ M2); apply M1).
  unfold appended. destruct (f_cluster n =? FREE) eqn:E0.
  - rewrite (run_fdpb fp d2 p) by (by rewrite ?Hfs2 || by eapply tab_dpb).
    unfold dirmod. rewrite run_fnmod, Hfs2.
    destruct (fs_spec s2 l2 u p d2 k _ (fnode_upd fp (started d2 c) (fs s)) Ht2) as [Ht3 R3].
    exists (set_fs (fnode_upd fp (started d2 c) (fs s)) s2), l2, d2. split; [done|].
    split; [done|]. split; [done|]. split; [done|]. split.
    { cbn [fs set_fs]. unfold started, setdstart. by rewrite (geo_32 _ _ Hg12). }
    split; [done|]. exact (roamed_trans _ _ _ _ _ _ _ _ _ R12 R3 Hg12).
  - zbool. destruct (He E0) as [Her HTe]. assert (Hne : f_cluster n <> c) by (intros E; rewrite E, HTc in HTe; done).
    destruct (tab_next s2 l2 u p d2 k _ (f_cluster n) Ht2) as (s3 & l3 & Hr3 & Ht3 & C3).
    rewrite (run_eq _ _ _ _ _ Hr3), next_last.
    2:{ by rewrite (max_geo _ _ Hg12). }
    2:{ unfold tupd. by rewrite (proj2 (Z.eqb_neq _ c)). }
    change (negb (LONG_LAST_CLUSTER =? LONG_LAST_CLUSTER)) with false. cbn iota.
    destruct (tab_store s3 l3 u p d2 k _ (f_cluster n) c Ht3) as (s4 & l4 & d4 & Hr4 & Hg4 & Hd4 & Ht4 & M4).
    { by rewrite (max_geo _ _ Hg12). }
    { right; left. by rewrite (max_geo _ _ Hg12). }
    rewrite (run_eq _ _ _ _ _ Hr4). change (negb (SUCCESS =? SUCCESS)) with false. cbn iota.
    assert (Hg42 : geo d4 = geo d) by congruence.
    exists s4, l4, d4. split; [done|]. split; [done|].
    split; [apply (hint_ok_geo d2); [done|by rewrite Hd4, counted_hint|done]|].
    split; [intros Hcn; rewrite Hd4; eapply counts_store; [exact Ht3|by rewrite (max_geo _ _ Hg12)|auto]|].
    split; [rewrite (mv_fs _ _ _ _ _ _ M4), (cm_fs _ _ _ _ C3); done|]. split; [done|].
    pose proof (moved_roamed _ _ _ _ _ _ (calm_moved _ _ _ _ u d2 C3)) as R3.
    pose proof (moved_roamed _ _ _ _ _ _ M4) as R4.
    exact (roamed_trans _ _ _ _ _ _ _ _ _ R12 (roamed_trans _ _ _ _ _ _ _ d2 d2 R3 R4 eq_refl) Hg12).
Qed.

(** ** map_cluster *)

(** The fnode at the cluster [x], which is number [j] of its chain. *)
Definition at_pos (x : Z) (j : nat) (n : f_node) : f_node :=
  set_f_cluster_offset (Z.of_nat j) (set_f_cluster x n).

Lemma at_pos_at_pos x j y i n : at_pos x j (at_pos y i n) = at_pos x j n.
Proof. by destruct n. Qed.

Lemma chain_not_free mx T c cs x :
  mx < LONG_BAD -> chain mx T c cs -> x ∈ cs -> T x <> FREE.
Proof.
  intros Hmx H (l1 & l2 & ->)%list_elem_of_split. apply chain_app in H as [(_ & _ & H) _].
  destruct l2 as [|y l2]; simpl in H; [by rewrite H|]. destruct H as (-> & Hy & _).
  unfold FREE. lia.
Qed.

Lemma chain_at mx T c cs i x :
  2 <= mx < LONG_BAD -> chain mx T c cs -> cs !! i = Some x ->
  next_of mx T x = match cs !! S i with Some y => y | None => LONG_LAST_CLUSTER end /\
  2 <= x <= mx /\ T x = match cs !! S i with Some y => y | None => LONG_LAST_CLUSTER end.
Proof.
  intros Hmx H Hx. pose proof (chain_lookup _ _ _ _ _ _ H Hx) as H'.
  rewrite (drop_S _ _ _ Hx) in H'. pose proof (chain_next _ _ _ _ Hmx H') as E.
  destruct H' as (_ & Hr & H'). rewrite E.
  assert (T x = match cs !! S i with Some y => y | None => LONG_LAST_CLUSTER end) as HT; [|done].
  rewrite <- (Nat.add_0_r (S i)), <- lookup_drop. destruct (drop (S i) cs) as [|y r]; simpl in *; [done|].
  apply H'.
Qed.

(** What [map_cluster] leaves: the position [j], the clusters [new] that
    were appended and the table. *)
Inductive outcome (mode : Z) (rel : nat) (cs new : list Z) (mx : Z) (T' : Z -> Z) : Z -> nat -> Prop :=
| Mapped : (new = [] \/ length (cs ++ new) = S rel) -> outcome mode rel cs new mx T' SUCCESS rel
| Beyond : mode = XFR_READ -> new = [] -> (length cs <= rel)%nat ->
    outcome mode rel cs new mx T' DE_SEEK (length cs - 1)
| Full : mode = XFR_WRITE -> (length (cs ++ new) <= rel)%nat ->
    (forall c, 2 <= c <= mx -> T' c <> FREE) ->
    outcome mode rel cs new mx T' DE_HNDLDSKFULL (length (cs ++ new) - 1).

Definition mapped (s : kst) (l : list Z) (u p : Z) (d : dpb) (k : fat_type) (T : Z -> Z) (fp : f_node_ptr)
  (mode st : Z) (cs : list Z) (rel : nat) (rc : Z) (s' : kst) : Prop :=
  exists l' d' T' new x j,
    geo d' = geo d /\ hint_ok d' /\ (counts d T -> counts d' T') /\
    tab s' l' u p d' k T' /\ roamed s l s' l' u d /\
    fs s' = fnode_upd fp (at_pos x j) (fs s) /\ (cs ++ new) !! j = Some x /\
    chain (max_cluster d) T' st (cs ++ new) /\
    (forall c, c ∈ new -> T c = FREE /\ 2 <= c <= max_cluster d) /\
    (forall c, c ∉ cs ++ new -> T' c = T c) /\
    (mode = XFR_READ -> d' = d /\ forall c, T' c = T c) /\
    outcome mode rel cs new (max_cluster d) T' rc j.

Lemma not_in_chain mx T st cs c : mx < LONG_BAD -> chain mx T st cs -> T c = FREE -> c ∉ cs.
Proof. intros Hmx H HT Hc. by apply (chain_not_free mx T st cs c). Qed.

Lemma appended_frame T e c x : e <> FREE -> x <> c -> x <> e -> appended T e c x = T x.
Proof.
  intros He Hc Hx. unfold appended. rewrite (proj2 (Z.eqb_neq e FREE)) by done. unfold tupd.
  by rewrite (proj2 (Z.eqb_neq x e)), (proj2 (Z.eqb_neq x c)).
Qed.

(** One more cluster at the end of the chain. *)
Lemma grow mx T st cs i e c :
  mx < LONG_BAD -> chain mx T st cs -> cs !! i = Some e -> length cs = S i ->
  2 <= c <= mx -> T c = FREE ->
  chain mx (appended T e c) st (cs ++ [c]) /\ c ∉ cs /\ e <> FREE /\
  appended T e c e = c /\ appended T e c c = LONG_LAST_CLUSTER.
Proof.
  intros Hmx Hch He Hlen Hc HTc. pose proof (not_in_chain _ _ _ _ _ Hmx Hch HTc) as Hni.
  assert (Hin : e ∈ cs) by (by eapply list_elem_of_lookup_2).
  pose proof (chain_range _ _ _ _ _ Hch Hin) as Her.
  assert (He0 : e <> FREE) by (unfold FREE; lia). assert (Hne : e <> c) by (intros ->; done).
  assert (Ecs : exists cs0, cs = cs0 ++ [e]).
  { exists (take i cs). rewrite <- (take_S_r _ _ _ He). rewrite firstn_all2 by lia. done. }
  destruct Ecs as [cs0 ->]. unfold appended. rewrite (proj2 (Z.eqb_neq e FREE)) by done.
  split; [rewrite <- app_assoc; by apply chain_snoc|]. split; [done|]. split; [done|].
  unfold tupd. rewrite Z.eqb_refl. split; [done|].
  rewrite (proj2 (Z.eqb_neq c e)) by congruence. by rewrite Z.eqb_refl.
Qed.

(** The state after the step of [map_loop] to the cluster [y]. *)
Lemma step_state s l u p d k T fp y i :
  tab s l u p d k T -> f_cluster_offset (fnode_of fp (fs s)) = Z.of_nat i -> Z.of_nat i + 1 < 2 ^ 32 ->
  exists s', (do! fnmod fp (set_f_cluster y) in
      do! fnmod fp (fun n => set_f_cluster_offset (u32 (f_cluster_offset n + 1)) n) in
      kret (@None Z)) s = Some (None, s') /\
    tab s' l u p d k T /\ roamed s l s' l u d /\ fs s' = fnode_upd fp (at_pos y (S i)) (fs s).
Proof.
  intros Ht Hoff Hi.
  destruct (fs_spec s l u p d k T (fnode_upd fp (at_pos y (S i)) (fs s)) Ht) as [Ht' R'].
  eexists. split; [|split; [exact Ht'|split; [exact R'|done]]].
  rewrite run_fnmod, run_fnmod. unfold kret. f_equal. f_equal. cbn [fs set_fs].
  rewrite fnode_upd_upd. unfold set_fs. cbn. f_equal.
  assert (E : set_f_cluster_offset (u32 (f_cluster_offset (set_f_cluster y (fnode_of fp (fs s))) + 1))
      (set_f_cluster y (fnode_of fp (fs s))) = at_pos y (S i) (fnode_of fp (fs s))).
  { unfold at_pos. f_equal. cbn [f_cluster_offset set_f_cluster]. rewrite Hoff, u32_small by lia. lia. }
  destruct fp; cbn in *; by rewrite E.
Qed.

Lemma map_loop_spec fuel mode s l u p d k T fp st cs i rel :
  mode = XFR_READ \/ mode = XFR_WRITE ->
  tab s l u p d k T -> hint_ok d -> f_dpb (fnode_of fp (fs s)) = p ->
  chain (max_cluster d) T st cs -> cs !! i = Some (f_cluster (fnode_of fp (fs s))) ->
  f_cluster_offset (fnode_of fp (fs s)) = Z.of_nat i -> (i <= rel)%nat -> (rel - i < fuel)%nat ->
  Z.of_nat rel < 2 ^ 32 ->
  exists s' rc, map_loop fuel fp mode (Z.of_nat rel) s = Some (rc, s') /\
    mapped s l u p d k T fp mode st cs rel rc s'.
Proof.
  revert s l d T cs i. induction fuel as [|fuel IH];
    intros s l d T cs i Hmode Ht Hh Hp Hch Hi Hoff Hrel Hf Hr32; [lia|].
  pose proof (tab_max _ _ _ _ _ _ _ Ht) as Hmx. pose proof (lookup_lt_Some _ _ _ Hi) as Hlen.
  set (x := f_cluster (fnode_of fp (fs s))) in *.
  cbn [map_loop]. rewrite run_fn, Hoff.
  assert (Hstay : fs s = fnode_upd fp (at_pos x i) (fs s)).
  { symmetry. apply fnode_upd_id. unfold at_pos, x. rewrite <- Hoff. by destruct (fnode_of fp (fs s)). }
  destruct (Z.of_nat i =? Z.of_nat rel) eqn:Eir; zbool.
  { assert (i = rel) as -> by lia. exists s, SUCCESS. split; [done|].
    exists l, d, T, [], x, rel. rewrite app_nil_r. split; [done|]. split; [done|]. split; [done|].
    split; [done|]. split; [apply roamed_refl|]. split; [done|]. split; [done|]. split; [done|].
    split; [set_solver|]. split; [done|]. split; [done|]. by constructor; left. }
  destruct (chain_at _ _ _ _ _ _ Hmx Hch Hi) as (Hnext & Hxr & HTx).
  destruct (tab_next s l u p d k T x Ht) as (s1 & l1 & Hr1 & Ht1 & C1).
  pose proof (moved_roamed _ _ _ _ _ _ (calm_moved _ _ _ _ u d C1)) as R1.
  assert (Hfs1 : fs s1 = fs s) by apply C1.
  unfold map_step. rewrite run_assoc, run_fn, Hp, run_assoc, (run_eq _ _ _ _ _ Hr1), Hnext.
  destruct (cs !! S i) as [y|] eqn:Ey.
  - (* the next cluster of the chain *)
    pose proof (chain_range _ _ _ _ y Hch ltac:(by eapply list_elem_of_lookup_2)) as Hy.
    rewrite (proj2 (Z.leb_gt y 1)) by lia.
    assert (y <> LONG_LAST_CLUSTER) by (unfold LONG_BAD, LONG_LAST_CLUSTER in *; lia).
    rewrite (proj2 (Z.eqb_neq y LONG_LAST_CLUSTER)) by done.
    rewrite run_assoc, run_ret.
    destruct (step_state s1 l1 u p d k T fp y i Ht1) as (s2 & Hr2 & Ht2 & R2 & Hfs2);
      [by rewrite Hfs1|lia|].
    rewrite (run_eq _ _ _ _ _ Hr2). rewrite Hfs1 in Hfs2.
    destruct (IH s2 l1 d T cs (S i) Hmode Ht2 Hh) as (s3 & rc & Hr3 & Hm3); try done.
    + by rewrite Hfs2, fnode_upd_of.
    + by rewrite Hfs2, fnode_upd_of.
    + by rewrite Hfs2, fnode_upd_of.
    + lia.
    + lia.
    + exists s3, rc. split; [done|].
      destruct Hm3 as (l3 & d3 & T3 & new & z & j & A1 & A2 & A3 & A4 & A5 & A6 & A7).
      exists l3, d3, T3, new, z, j. split; [done|]. split; [done|]. split; [done|]. split; [done|].
      split; [exact (roamed_trans _ _ _ _ _ _ _ d d R1 (roamed_trans _ _ _ _ _ _ _ d d R2 A5 eq_refl) eq_refl)|].
      split; [|done]. rewrite A6, Hfs2, fnode_upd_upd. f_equal.
  - (* the end of the chain *)
    assert (Hl : length cs = S i) by (apply lookup_ge_None in Ey; lia).
    change (LONG_LAST_CLUSTER <=? 1) with false. rewrite Z.eqb_refl. cbn iota.
    destruct Hmode as [-> | ->].
    + change (XFR_READ =? XFR_READ) with true. rewrite run_assoc, run_ret, run_ret.
      exists s1, DE_SEEK. split; [done|]. exists l1, d, T, [], x, (length cs - 1)%nat.
      rewrite app_nil_r. split; [done|]. split; [done|]. split; [done|].
      split; [done|]. split; [done|].
      assert ((length cs - 1)%nat = i) as -> by lia. split; [by rewrite Hfs1|].
      split; [done|]. split; [done|]. split; [set_solver|]. split; [done|]. split; [done|].
      assert (Hb := Beyond XFR_READ rel cs [] (max_cluster d) T eq_refl eq_refl ltac:(lia)).
      assert ((length cs - 1)%nat = i) as E by lia. by rewrite E in Hb.
    + change (XFR_WRITE =? XFR_READ) with false. cbn iota.
      pose proof (extend_spec s1 l1 u p d k T fp Ht1 Hh) as Hx. cbv zeta in Hx.
      rewrite Hfs1 in Hx. fold x in Hx. specialize (Hx Hp (fun _ => conj Hxr HTx)).
      destruct (found_free d T) as [c|] eqn:Ef.
      * destruct Hx as (s2 & l2 & d2 & Hr2 & Hg2 & Hh2 & Hc2 & Hfs2 & Ht2 & R2).
        destruct (found_range d T c ltac:(lia) Hh Ef) as [Hc HTc].
        destruct (grow _ _ _ _ _ _ c (proj2 Hmx) Hch Hi Hl Hc HTc) as (Hch2 & Hni & Hx0 & HTe & HTcc).
        assert (c <> LONG_LAST_CLUSTER) by (unfold LONG_BAD, LONG_LAST_CLUSTER in *; lia).
        rewrite !run_assoc, (run_eq _ _ _ _ _ Hr2), (proj2 (Z.eqb_neq c LONG_LAST_CLUSTER)) by done.
        rewrite run_ret. rewrite (proj2 (Z.eqb_neq x FREE)) in Hfs2 by done.
        destruct (step_state s2 l2 u p d2 k _ fp c i Ht2) as (s3 & Hr3 & Ht3 & R3 & Hfs3);
          [by rewrite Hfs2|lia|].
        rewrite (run_eq _ _ _ _ _ Hr3). rewrite Hfs2 in Hfs3.
        assert (Hfs3' : fs s3 = fnode_upd fp (at_pos c (S i)) (fs s)) by done.
        destruct (IH s3 l2 d2 _ (cs ++ [c]) (S i) (or_intror eq_refl) Ht3 Hh2)
          as (s4 & rc & Hr4 & Hm4); try done.
        -- by rewrite Hfs3', fnode_upd_of.
        -- by rewrite (max_geo _ _ Hg2).
        -- rewrite Hfs3', fnode_upd_of. simpl. rewrite lookup_app_r by lia.
           by rewrite Hl, Nat.sub_diag.
        -- by rewrite Hfs3', fnode_upd_of.
        -- lia.
        -- lia.
        -- exists s4, rc. split; [done|].
           destruct Hm4 as (l4 & d4 & T4 & new & z & j & A1 & A2 & A3 & A4 & A5 & A6 & A7 & A8 & A9 & A10 & A11 & A12).
           rewrite (max_geo _ _ Hg2) in *.
           exists l4, d4, T4, (c :: new), z, j.
           assert (Eapp : cs ++ c :: new = (cs ++ [c]) ++ new) by (by rewrite <- app_assoc).
           rewrite Eapp. split; [congruence|]. split; [done|]. split; [auto|]. split; [done|].
           split.
           { exact (roamed_trans _ _ _ _ _ _ _ d d R1 (roamed_trans _ _ _ _ _ _ _ d d2 R2
               (roamed_trans _ _ _ _ _ _ _ d2 d2 R3 A5 eq_refl) Hg2) eq_refl). }
           split; [by rewrite A6, Hfs3', fnode_upd_upd|]. split; [done|]. split; [done|].
           assert (Hxcs : x ∈ cs) by (by eapply list_elem_of_lookup_2).
           split.
           { intros y [->|Hy]%elem_of_cons; [done|]. destruct (A9 y Hy) as [Hy1 Hy2]. split; [|done].
             rewrite <- (appended_frame T x c y); [done|done|..].
             - intros ->. by rewrite HTcc in Hy1.
             - intros ->. rewrite HTe in Hy1. unfold FREE in *. lia. }
           split.
           { intros y Hy. rewrite (A10 y Hy). apply appended_frame; [done|..].
             - intros ->. apply Hy. apply elem_of_app. left. apply elem_of_app. right. by left.
             - intros ->. apply Hy. apply elem_of_app. left. apply elem_of_app. by left. }
           split; [done|].
           destruct A12 as [Hn|Hm|Hm Hlen' Hfull].
           ++ constructor. right. destruct Hn as [->|Hn]; [|by rewrite Eapp].
              rewrite length_app. simpl. apply lookup_lt_Some in A7. rewrite app_nil_r, length_app in A7.
              simpl in A7. lia.
           ++ done.
           ++ rewrite <- Eapp. apply Full; [done|by rewrite Eapp|done].
      * destruct Hx as (s2 & l2 & d2 & Hr2 & Hg2 & Hh2 & Hc2 & Hfs2 & Ht2 & R2).
        rewrite !run_assoc, (run_eq _ _ _ _ _ Hr2). rewrite Z.eqb_refl. rewrite run_ret. exists s2, DE_HNDLDSKFULL. split; [done|].
        exists l2, d2, T, [], x, (length (cs ++ []) - 1)%nat. rewrite app_nil_r.
        split; [done|]. split; [done|]. split; [done|]. split; [done|].
        split; [exact (roamed_trans _ _ _ _ _ _ _ d d R1 R2 eq_refl)|].
        assert (E : (length cs - 1)%nat = i) by lia. rewrite E. split; [by rewrite Hfs2|].
        split; [done|]. split; [done|]. split; [set_solver|]. split; [done|]. split; [done|].
        assert (Hb := Full XFR_WRITE rel cs [] (max_cluster d) T eq_refl).
        rewrite app_nil_r, E in Hb. apply Hb; [lia|]. by apply found_none; [lia|..].
Qed.

(** The cluster number the position asks for. *)
Definition rel_of (n : f_node) (d : dpb) : nat := Z.to_nat (Z.shiftr (f_offset n / 512) (dpb_shftcnt d)).

Lemma rel_spec s l u p d k T n :
  tab s l u p d k T -> 0 <= f_offset n < 2 ^ 32 -> 0 <= dpb_shftcnt d ->
  relcluster_of n d = Some (Z.of_nat (rel_of n d)) /\ Z.of_nat (rel_of n d) < 2 ^ 32.
Proof.
  intros Ht Hn Hsh. pose proof (mt_sec _ _ _ _ (v_mounted _ _ _ _ _ (r_volume _ _ _ _ _ _ (tb_ready _ _ _ _ _ _ _ Ht)))) as Hs.
  unfold relcluster_of, rel_of. rewrite Hs. change (512 =? 0) with false.
  assert (H : 0 <= Z.shiftr (f_offset n / 512) (dpb_shftcnt d) < 2 ^ 32).
  { rewrite Z.shiftr_div_pow2 by done. assert (0 < 2 ^ dpb_shftcnt d) by lia.
    split; [apply Z.div_pos; [divmod|done]|]. apply Z.div_lt_upper_bound; [done|].
    assert (f_offset n / 512 < 2 ^ 32) by divmod. nia. }
  rewrite Z2Nat.id by lia. split; [done|lia].
Qed.

(** Where the chain of a fnode begins. *)
Definition chain_start (d : dpb) (n : f_node) (v : fsv) : Z :=
  if f_sft_idx n =? 0xff then dm_dircluster (dm_of (f_dmp n) v) else getdstart d (f_dir n).

Lemma mapped_from s l u p d k T fp mode st cs rel rc s0 s' y i :
  roamed s l s0 l u d -> fs s0 = fnode_upd fp (at_pos y i) (fs s) ->
  mapped s0 l u p d k T fp mode st cs rel rc s' -> mapped s l u p d k T fp mode st cs rel rc s'.
Proof.
  intros R Hfs (l3 & d3 & T3 & new & z & j & A1 & A2 & A3 & A4 & A5 & A6 & A7).
  exists l3, d3, T3, new, z, j. split; [done|]. split; [done|]. split; [done|]. split; [done|].
  split; [exact (roamed_trans _ _ _ _ _ _ _ d d R A5 eq_refl)|]. split; [|done].
  by rewrite A6, Hfs, fnode_upd_upd.
Qed.

(** A fnode that is at number [i] of the chain [cs]. *)
Lemma map_cluster_spec s l u p d k T fp mode cs i :
  mode = XFR_READ \/ mode = XFR_WRITE ->
  tab s l u p d k T -> hint_ok d ->
  let n := fnode_of fp (fs s) in
  f_dpb n = p -> 0 <= f_offset n < 2 ^ 32 -> 0 <= dpb_shftcnt d ->
  chain (max_cluster d) T (chain_start d n (fs s)) cs ->
  cs !! i = Some (f_cluster n) -> f_cluster_offset n = Z.of_nat i ->
  exists s' rc, map_cluster fp mode s = Some (rc, s') /\
    mapped s l u p d k T fp mode (chain_start d n (fs s)) cs (rel_of n d) rc s'.
Proof.
  intros Hmode Ht Hh n Hp Ho Hsh Hch Hi Hoff.
  destruct (rel_spec s l u p d k T n Ht Ho Hsh) as [Hrel Hr32].
  pose proof (chain_range _ _ _ _ _ Hch ltac:(by eapply list_elem_of_lookup_2)) as Hr.
  unfold map_cluster. rewrite run_fn. fold n.
  rewrite (proj2 (Z.eqb_neq (f_cluster n) FREE)) by (unfold FREE; lia).
  rewrite run_ret, run_fn. fold n. rewrite (run_fdpb fp d p) by (done || by eapply tab_dpb).
  rewrite Hrel, run_opt, Hoff.
  destruct (Z.of_nat (rel_of n d) <? Z.of_nat i) eqn:E; zbool.
  - destruct cs as [|c0 cs']; [done|].
    assert (Hc0 : c0 = chain_start d n (fs s)) by (symmetry; apply Hch).
    unfold dm. rewrite !run_assoc, run_fn. fold n. rewrite run_assoc, run_get, run_ret.
    rewrite run_assoc, run_fnmod.
    fold (chain_start d n (fs s)). unfold fnmod at 1. rewrite run_mod. cbn [fs set_fs].
    rewrite fnode_upd_upd, run_fn. cbn [fs set_fs]. rewrite fnode_upd_of. fold n.
    destruct (fs_spec s l u p d k T (fnode_upd fp (at_pos c0 0) (fs s)) Ht) as [Ht0 R0].
    assert (Es : set_fs (fnode_upd fp (fun m => set_f_cluster_offset 0
        (set_f_cluster (chain_start d n (fs s)) m)) (fs s)) (set_fs (fnode_upd fp
        (set_f_cluster (chain_start d n (fs s))) (fs s)) s) =
      set_fs (fnode_upd fp (at_pos c0 0) (fs s)) s) by (by rewrite Hc0).
    rewrite Es. cbn [f_cluster_offset set_f_cluster_offset]. rewrite Z.sub_0_r, Nat2Z.id.
    destruct (map_loop_spec (S (rel_of n d)) mode (set_fs (fnode_upd fp (at_pos c0 0) (fs s)) s) l u p d k T
      fp (chain_start d n (fs s)) (c0 :: cs') 0 (rel_of n d)) as (s' & rc & Hr' & Hm); try done.
    + cbn [fs set_fs]. by rewrite fnode_upd_of.
    + cbn [fs set_fs]. by rewrite fnode_upd_of.
    + cbn [fs set_fs]. by rewrite fnode_upd_of.
    + lia.
    + lia.
    + exists s', rc. split; [done|]. by eapply mapped_from.
  - rewrite run_ret, run_fn. fold n. rewrite Hoff.
    destruct (map_loop_spec (S (Z.to_nat (Z.of_nat (rel_of n d) - Z.of_nat i))) mode s l u p d k T
      fp (chain_start d n (fs s)) cs i (rel_of n d)) as (s' & rc & Hr' & Hm); try done; try lia.
    by exists s', rc.
Qed.

(** Reading: the table stays, and the position is reached if the chain does. *)
Lemma map_read_spec s l u p d k T fp cs i :
  tab s l u p d k T -> hint_ok d ->
  f_dpb (fnode_of fp (fs s)) = p -> 0 <= f_offset (fnode_of fp (fs s)) < 2 ^ 32 -> 0 <= dpb_shftcnt d ->
  chain (max_cluster d) T (chain_start d (fnode_of fp (fs s)) (fs s)) cs ->
  cs !! i = Some (f_cluster (fnode_of fp (fs s))) ->
  f_cluster_offset (fnode_of fp (fs s)) = Z.of_nat i ->
  let rel := rel_of (fnode_of fp (fs s)) d in
  exists rc s' l' x j, map_cluster fp XFR_READ s = Some (rc, s') /\ tab s' l' u p d k T /\
    roamed s l s' l' u d /\ fs s' = fnode_upd fp (at_pos x j) (fs s) /\ cs !! j = Some x /\
    if decide (rel < length cs)%nat then rc = SUCCESS /\ j = rel
    else rc = DE_SEEK /\ j = (length cs - 1)%nat.
Proof.
  intros Ht Hh Hp Ho Hsh Hch Hi Hoff rel. destruct (map_cluster_spec s l u p d k T fp XFR_READ cs i (or_introl eq_refl) Ht Hh Hp Ho Hsh Hch Hi Hoff)
    as (s' & rc & Hr & l' & d' & T' & new & x & j & Hg & Hh' & _ & Ht' & R & Hfs & Hx & Hch' & _ & _ & Hrd & Hout).
  destruct (Hrd eq_refl) as [-> HT]. fold rel in Hout.
  assert (Ht2 : tab s' l' u p d k T) by (destruct Ht' as [R' Ha]; split; [done|]; intros c Hc; by rewrite Ha).
  assert (new = []) as ->.
  { apply (chain_agrees _ _ T) in Hch'; [|intros c _; by rewrite HT].
    pose proof (chain_fun _ _ _ _ _ (proj2 (tab_max _ _ _ _ _ _ _ Ht)) Hch Hch') as E.
    apply (f_equal length) in E. rewrite length_app in E. apply length_zero_iff_nil. lia. }
  rewrite app_nil_r in Hx. exists rc, s', l', x, j. do 4 (split; [done|]). split; [done|].
  inversion Hout as [H1 H2|H1 H2 H3 H4|H1 H2 H3 H4]; subst; [|..].
  - rewrite decide_True; [done|]. by eapply lookup_lt_Some.
  - by rewrite decide_False by lia.
  - done.
Qed.

Lemma map_cluster_empty s fp :
  f_cluster (fnode_of fp (fs s)) = FREE -> map_cluster fp XFR_READ s = Some (DE_SEEK, s).
Proof. intros H. unfold map_cluster. rewrite run_fn, H. done. Qed.

End Spec.
End MapSpec.
