(* ===== verification/SftSpec.v ===== *)
(** * The table of open files: lemmas

    Stores to one entry of the system file table, and the runs of the two
    functions that copy an entry to a fnode and back. *)

From S2P Require Import Prelude KState BlockIO FatTab FNode FatAlloc Disk Ring CacheSpec CacheOps.
From S2P Require Import FatPure FatSpec FatWrite Table FatChain AllocSpec MapSpec.
Import Ks Bio Fat FNode Alloc Dsk Ring Cache CacheOps FatPure FatSpec FatWrite Table Chain AllocSpec MapSpec.

Module SftSpec.

(** ** The table of open files *)

Lemma sft_upd_found bs fd g :
  0 <= fd -> idx_to_sft_ (sft_upd bs fd g) fd = g <$> idx_to_sft_ bs fd.
Proof.
  revert fd. induction bs as [|sp bs IH]; intros fd Hfd; [done|]. cbn [sft_upd idx_to_sft_].
  destruct (fd <? Z.of_nat (length sp)) eqn:E; cbn [idx_to_sft_].
  - rewrite length_alter, E. by rewrite list_lookup_alter_eq.
  - rewrite E. zbool. apply IH. lia.
Qed.

Lemma sft_upd_other bs fd fd' g :
  0 <= fd -> 0 <= fd' -> fd' <> fd -> idx_to_sft_ (sft_upd bs fd g) fd' = idx_to_sft_ bs fd'.
Proof.
  revert fd fd'. induction bs as [|sp bs IH]; intros fd fd' Hfd Hfd' Hne; [done|]. cbn [sft_upd].
  destruct (fd <? Z.of_nat (length sp)) eqn:E; cbn [idx_to_sft_].
  - rewrite length_alter. destruct (fd' <? _) eqn:E'; [|done]. zbool.
    by rewrite list_lookup_alter_ne by lia.
  - destruct (fd' <? _) eqn:E'; [done|]. zbool. apply IH; lia.
Qed.

Lemma idx_upd_found bs fd g x :
  0 <= fd -> idx_to_sft bs fd = Some x -> sft_count (g x) = sft_count x ->
  idx_to_sft (sft_upd bs fd g) fd = Some (g x).
Proof.
  intros Hfd. unfold idx_to_sft. rewrite (proj2 (Z.ltb_ge fd 0)), sft_upd_found by lia.
  destruct (idx_to_sft_ _ fd) as [z|]; [|done]. cbn [fmap option_fmap option_map].
  destruct (sft_count z =? 0) eqn:E; [done|]. intros [= ->] ->. by rewrite E.
Qed.

Lemma sft_upd_upd bs fd g h : sft_upd (sft_upd bs fd g) fd h = sft_upd bs fd (fun x => h (g x)).
Proof.
  revert fd. induction bs as [|sp bs IH]; intros fd; [done|]. cbn [sft_upd].
  destruct (fd <? Z.of_nat (length sp)) eqn:E; cbn [sft_upd].
  - rewrite length_alter, E. f_equal. apply list_eq. intros i. rewrite !list_lookup_alter.
    repeat case_decide; subst; try done; by destruct (_ !! _).
  - rewrite E. f_equal. apply IH.
Qed.

Section Spec.
Context {M : Machine}.

Lemma run_sftget {A} fd x (f : sft -> K kst A) s :
  idx_to_sft (sfthead (fs s)) fd = Some x -> kbind (sftget fd) f s = f x s.
Proof. intros H. unfold sftget. rewrite run_assoc, run_get, H. by rewrite run_opt. Qed.

Lemma run_sftmod {A} fd g (f : unit -> K kst A) s :
  kbind (sftmod fd g) f s = f tt (set_fs (set_sfthead (sft_upd (sfthead (fs s)) fd g) (fs s)) s).
Proof. reflexivity. Qed.

(** Stores to one entry, and to one fnode, are one store. *)
Lemma sftmod_sftmod {A} fd g h (k : unit -> K kst A) s :
  kbind (sftmod fd g) (fun _ => kbind (sftmod fd h) k) s = kbind (sftmod fd (fun x => h (g x))) k s.
Proof.
  rewrite !run_sftmod. cbn [fs set_fs sfthead set_sfthead]. by rewrite sft_upd_upd.
Qed.
Lemma sftmod_last fd g h s :
  kbind (sftmod fd g) (fun _ => sftmod fd h) s = sftmod fd (fun x => h (g x)) s.
Proof.
  rewrite run_sftmod. unfold sftmod, kmod. cbn [fs set_fs sfthead set_sfthead]. by rewrite sft_upd_upd.
Qed.
Lemma fnmod_fnmod {A} fp g h (k : unit -> K kst A) s :
  kbind (fnmod fp g) (fun _ => kbind (fnmod fp h) k) s = kbind (fnmod fp (fun n => h (g n))) k s.
Proof. rewrite !run_fnmod. cbn [fs set_fs]. by rewrite fnode_upd_upd. Qed.
Lemma sft_upd_twice fd g h s :
  sftmod fd h (set_fs (set_sfthead (sft_upd (sfthead (fs s)) fd g) (fs s)) s) =
    sftmod fd (fun x => h (g x)) s.
Proof. unfold sftmod, kmod. cbn [fs set_fs sfthead set_sfthead]. by rewrite sft_upd_upd. Qed.

(** The entry of the table after a fnode was stored in it. *)
Definition stored (d : dpb) (n : f_node) (x : sft) : sft :=
  Sft (sft_count x) (sft_mode x) (dir_attrib (f_dir n)) (f_flags n) (f_dpb n) (dir_time (f_dir n))
    (dir_date (f_dir n)) (dir_size (f_dir n)) (f_offset n) (u16 (f_cluster_offset n))
    (u16 (Z.shiftr (f_cluster_offset n) 16)) (f_dirsector n) (f_diridx n) (dir_name (f_dir n))
    (getdstart d (f_dir n)) (sft_shroff x) (f_cluster n) (sft_psp x).

Lemma fnode_to_sft_run s fp d x :
  let n := fnode_of fp (fs s) in
  dpbs s !! f_dpb n = Some d -> idx_to_sft (sfthead (fs s)) (f_sft_idx n) = Some x ->
  fnode_to_sft fp s =
    Some (tt, set_fs (set_sfthead (sft_upd (sfthead (fs s)) (f_sft_idx n) (stored d n)) (fs s)) s).
Proof.
  intros n Hd Hx. unfold fnode_to_sft. rewrite run_fn. fold n. rewrite (run_sftget _ x) by done.
  rewrite !sftmod_sftmod, run_sftmod, (run_fdpb fp d (f_dpb n)) by (by destruct fp || done).
  rewrite !sftmod_sftmod, sftmod_last, sft_upd_twice. reflexivity.
Qed.

(** The fnode after an entry of the table was loaded. *)
Definition fetched (d : dpb) (fd : Z) (x : sft) (n : f_node) : f_node :=
  FNode (sft_flags x) (f_dmp n)
    (setdstart d (sft_stclust x) (set_dir_size (sft_size x) (set_dir_date (sft_date x)
       (set_dir_time (sft_time x) (set_dir_name (sft_name x) (set_dir_attrib (sft_attrib x) (f_dir n)))))))
    (sft_dirsector x) (sft_diridx x) (sft_dcb x) (sft_posit x)
    (Z.lor (sft_relclust x) (u32 (Z.shiftl (sft_relclust_high x) 16))) (sft_cuclust x) (u8 fd).

Lemma sft_to_fnode_run s fd d x :
  dpbs s !! sft_dcb x = Some d -> idx_to_sft (sfthead (fs s)) fd = Some x ->
  sft_to_fnode fd s = Some (fnode0, set_fs (fnode_upd fnode0 (fetched d fd x) (fs s)) s).
Proof.
  intros Hd Hx. unfold sft_to_fnode. rewrite (run_sftget _ x) by done. unfold dirmod.
  rewrite !fnmod_fnmod, run_fnmod, (run_fdpb fnode0 d (sft_dcb x)) by done.
  rewrite !fnmod_fnmod, run_fnmod. unfold kret. cbn [fs set_fs]. rewrite fnode_upd_upd. do 2 f_equal.
Qed.
End Spec.

Lemma offset_halves v :
  0 <= v < 2 ^ 32 -> Z.lor (u16 v) (u32 (Z.shiftl (u16 (Z.shiftr v 16)) 16)) = v.
Proof.
  intros Hv. rewrite (Z.shiftl_mul_pow2 _ 16), Z.shiftr_div_pow2 by lia.
  rewrite u32_small by (unfold u16; change (2 ^ 16) with 65536; divmod).
  rewrite <- Z.shiftl_mul_pow2 by lia. rewrite lor_shift by (lia || apply u16_range).
  unfold u16. change (2 ^ 16) with 65536. change (2 ^ 32) with 4294967296 in Hv. divmod.
Qed.

Lemma dstart_get d e e' :
  0 <= dir_start e < 65536 -> 0 <= dir_start_high e < 65536 ->
  getdstart d (setdstart d (getdstart d e) e') = getdstart d e.
Proof.
  intros Hs Hh. unfold getdstart, setdstart. destruct (ISFAT32 d) eqn:E; cbn [negb dir_start dir_start_high set_dir_start set_dir_start_high].
  - rewrite (u32_small (Z.shiftl (dir_start_high e) 16)) by (rewrite Z.shiftl_mul_pow2 by lia; lia).
    rewrite (Z.lor_comm (Z.shiftl (dir_start_high e) 16)), (lor_shift (dir_start e)) by lia.
    set (v := dir_start e + _). assert (Hv : 0 <= v < 2 ^ 32) by lia.
    rewrite Z.lor_comm. by apply offset_halves.
  - by apply u16_small.
Qed.

End SftSpec.
