(* ===== verification/DirectIO.v ===== *)
(** * Transfers that bypass the cache

    [rwblock] moves whole sectors between the user's memory and the driver.
    [DeleteBlockInBufferCache] brings the cache in line first: before a read
    the dirty buffers of the range are written, so that the driver returns
    what the drive shows; before a write the buffers of the range are
    dropped.  The second module, WriteIO, is about what such writes and those of
    parts of sectors store, and about the blocks that INT 26h does not drop. *)

From S2P Require Import Prelude KState BlockIO FatTab Disk Ring CacheSpec CacheOps FatPure FatSpec.
Import Ks Bio Fat Dsk Ring Cache CacheOps FatPure FatSpec.

Module Direct.

(** ** Runs of sectors *)

Lemma length_sectors f b n : (forall i, length (f i) = SECSIZE) -> length (sectors f b n) = (SECSIZE * n)%nat.
Proof.
  intros Hf. unfold sectors. rewrite length_concat, map_map.
  rewrite (map_ext _ (fun _ => SECSIZE)) by (intros; apply Hf).
  clear Hf. generalize 0%nat. induction n as [|n IH]; intros k; simpl; [lia|].
  rewrite IH. unfold SECSIZE. lia.
Qed.

Lemma sectors_S f b n : sectors f b (S n) = f b ++ sectors f (b + 1) n.
Proof.
  unfold sectors. cbn [seq map concat]. rewrite Z.add_0_r. f_equal. f_equal.
  rewrite <- seq_shift, map_map. apply map_ext. intros i. f_equal. lia.
Qed.

Lemma sectors_ext f g b b' n :
  (forall i, (i < n)%nat -> f (b + Z.of_nat i) = g (b' + Z.of_nat i)) -> sectors f b n = sectors g b' n.
Proof.
  intros H. unfold sectors. f_equal. apply map_ext_in. intros i Hi. apply in_seq in Hi. apply H. lia.
Qed.

Lemma sectors_app f b n m : sectors f b (n + m) = sectors f b n ++ sectors f (b + Z.of_nat n) m.
Proof.
  revert b. induction n as [|n IH]; intros b; cbn [Nat.add].
  - by rewrite Z.add_0_r.
  - rewrite !sectors_S, IH, <- app_assoc. do 3 f_equal. lia.
Qed.

(** A range of whole sectors, and a range inside one sector. *)
Lemma sectors_range f b n q m :
  (forall i, length (f i) = SECSIZE) -> (q + m <= n)%nat ->
  take (SECSIZE * m) (drop (SECSIZE * q) (sectors f b n)) = sectors f (b + Z.of_nat q) m.
Proof.
  intros Hf Hm. replace n with (q + (m + (n - q - m)))%nat by lia.
  rewrite sectors_app, drop_app_length' by (by rewrite length_sectors).
  rewrite sectors_app. by rewrite take_app_length' by (by rewrite length_sectors).
Qed.

Lemma sectors_inside f b n q off c :
  (forall i, length (f i) = SECSIZE) -> (q < n)%nat -> (off + c <= SECSIZE)%nat ->
  take c (drop (SECSIZE * q + off) (sectors f b n)) = take c (drop off (f (b + Z.of_nat q))).
Proof.
  intros Hf Hq Hc. replace n with (q + S (n - q - 1))%nat by lia.
  rewrite sectors_app, sectors_S, <- drop_drop, drop_app_length' by (by rewrite length_sectors).
  rewrite drop_app_le by (rewrite Hf; lia). by rewrite take_app_le by (rewrite length_drop, Hf; lia).
Qed.

Section Spec.
Context {M : Machine} {D : Disk}.

(** ** Reading *)

(** A drive whose buffers for a block are clean has the block on the disk. *)
Lemma clean_block s l u q d blk :
  cache s l -> mounted s u q d ->
  (forall p, p ∈ l -> holds (bufs s !!! p) blk u = true -> dirty (bufs s !!! p) = false) ->
  sector s d blk = view s l d blk.
Proof.
  intros Hc Hm Hcl. destruct (holder_cases s l blk u Hc) as [(x & Hx & Hhx)|Hnone].
  - rewrite (view_at s l x u q d blk Hc Hx Hm Hhx). pose proof (Hcl _ Hx Hhx) as Hd.
    apply holds_true in Hhx as (Hb & Hv & Hu).
    destruct (c_buf _ _ Hc _ Hx) as [_ Hok]. destruct (Hok Hv) as (r & e & Hme & _ & _ & He).
    rewrite Hu in Hme. destruct (mounted_fun _ _ _ _ _ _ Hm Hme) as [-> ->].
    rewrite Hb in He. symmetry. by apply He.
  - symmetry. by apply (view_off s l u q d blk).
Qed.

Definition in_range (lo hi u : Z) (b : buffer) : bool :=
  (lo <=? b_blkno b) && (b_blkno b <=? hi) && has (b_flag b) BFR_VALID && (b_unit b =? u).

Lemma delete_read_spec s l u q d lo hi :
  cache s l -> mounted s u q d ->
  exists r s', DeleteBlockInBufferCache lo hi u XFR_READ s = Some (r, s') /\ cache s' l /\
    same_view s l s' l /\ ioframe s s' /\
    forall blk, lo <= blk <= hi -> sector s' d blk = view s' l d blk.
Proof.
  intros Hc Hm. unfold DeleteBlockInBufferCache.
  match goal with |- context [over_ring ?b true] =>
    destruct (over_ring_spec l b (fun dn ok s1 =>
      cache s1 l /\ same_view s l s1 l /\ ioframe s s1 /\
      (forall p, p ∈ dn -> in_range lo hi u (bufs s1 !!! p) = true -> dirty (bufs s1 !!! p) = false)) s true)
      as (ok & s' & Hr & Hc' & Hv & Hf & Hd)
  end.
  - intros dn p rest ok s1 El (Hc1 & Hv1 & Hf1 & Hd1).
    assert (Hp : p ∈ l) by (rewrite El; set_solver).
    rewrite run_bget by (by eapply ring_live; [apply Hc1|]). fold (in_range lo hi u (bufs s1 !!! p)).
    destruct (in_range lo hi u (bufs s1 !!! p)) eqn:Er.
    + change (XFR_READ =? XFR_READ) with true. cbn iota.
      destruct (flush1_spec s1 l p Hc1 Hp) as (s2 & Hr2 & Hc2 & Hv2 & Hf2 & Hb2 & _).
      exists ok, s2. rewrite run_assoc, (run_eq _ _ _ _ _ Hr2), run_ret. split; [done|].
      split; [done|]. split; [by eapply same_view_trans|].
      split; [by eapply ioframe_trans|]. intros x Hx. rewrite Hb2, upd_total.
      destruct (decide (p = x)) as [<-|]; [intros _; apply flag_off_dirty|].
      apply Hd1. set_solver.
    + exists ok, s1. rewrite run_ret. split; [done|]. split; [done|]. split; [done|]. split; [done|].
      intros x Hx. apply elem_of_app in Hx as [Hx|Hx]; [by apply Hd1|].
      apply list_elem_of_singleton in Hx as ->. congruence.
  - intros dn ok s1 (Hc1 & _). split; apply Hc1.
  - apply Hc.
  - split; [done|]. split; [done|]. split; [done|]. set_solver.
  - eexists _, s'. rewrite (run_eq _ _ _ _ _ Hr). split; [reflexivity|]. split; [done|]. split; [done|].
    split; [done|]. intros blk Hb. apply (clean_block s' l u q d blk Hc' (mounted_frame _ _ _ _ _ Hf Hm)).
    intros p Hp Hh. apply Hd; [done|]. apply holds_true in Hh as (H1 & H2 & H3). unfold in_range, valid in *.
    rewrite H1, H2, H3, Z.eqb_refl, !(proj2 (Z.leb_le _ _)) by lia. done.
Qed.

(** A transfer that does not write leaves the cache and what it shows. *)
Lemma io_quiet s l s' :
  cache s l -> io_only s s' -> sec (dev s') = sec (dev s) -> cache s' l /\ same_view s l s' l.
Proof.
  intros Hc (Hf & Hb & Hfb & Hdb) Hs. split; [split; rewrite ?Hb, ?Hfb; try done; try apply Hc|].
  - intros p Hp. destruct (c_buf _ _ Hc _ Hp) as [Hl Hok]. split; [done|]. intros Hv.
    destruct (Hok Hv) as (q & d & Hm & Hbl & Hfat & Hd). exists q, d.
    split; [by eapply mounted_frame|]. split; [done|]. split; [done|]. unfold sector. rewrite Hs. exact Hd.
  - intros ? ? ? ? ? ? H1 H2. eapply (c_inj _ _ Hc); (eapply mounted_frame; [|eassumption]); by apply ioframe_sym.
  - intros u q d blk _ _. unfold view, sector. by rewrite Hb, Hs.
Qed.

(** The direct read of [rwblock]: the sectors as the drive shows them. *)
Lemma direct_read s l u q d blk n bseg buf :
  cache s l -> mounted s u q d -> 0 <= blk -> 0 < n -> blk + n <= capacity d ->
  (forall i, 0 <= i < n -> block_ok d (blk + i)) ->
  Z.of_nat SECSIZE * n <= Z.of_nat (length buf) ->
  exists r s1 s', DeleteBlockInBufferCache blk (blk + n - 1) u XFR_READ s = Some (r, s1) /\
    dskxfer u blk bseg buf n DSKREAD s1 =
      Some ((0, sectors (view s l d) blk (Z.to_nat n) ++ drop (SECSIZE * Z.to_nat n) buf), s') /\
    cache s' l /\ same_view s l s' l /\ ioframe s s' /\ ioframe s s1.
Proof.
  intros Hc Hm Hb Hn Hcap Hok Hl.
  destruct (delete_read_spec s l u q d blk (blk + n - 1) Hc Hm) as (r & s1 & Hr & Hc1 & Hv1 & Hf1 & Hs1).
  pose proof (mounted_frame _ _ _ _ _ Hf1 Hm) as Hm1.
  destruct (dskxfer_read u q d blk bseg buf n s1 Hm1 (c_deblock _ _ Hc1) Hb ltac:(lia) Hcap Hl)
    as (s' & Hr' & Hio & Hsec).
  destruct (io_quiet s1 l s' Hc1 Hio Hsec) as [Hc' Hv'].
  exists r, s1, s'. split; [done|]. split.
  { rewrite Hr'. do 4 f_equal. apply sectors_ext. intros i Hi.
    rewrite (Hs1 (blk + Z.of_nat i)) by lia. apply (Hv1 u q); [done|]. apply Hok. lia. }
  split; [done|]. split; [by eapply same_view_trans|]. split; [|done].
  eapply ioframe_trans; [exact Hf1|apply Hio].
Qed.

End Spec.
End Direct.

(** * Writing sectors and parts of sectors

    [rwblock] writes whole sectors straight to the driver after it dropped the
    buffers of the range, and parts of a sector through a buffer that it marks
    dirty.  Both are an update of what the drive shows. *)

From S2P Require Import Prelude KState BlockIO FatTab Disk Ring CacheSpec CacheOps FatPure FatSpec.
Import Ks Bio Fat Dsk Ring Cache CacheOps FatPure FatSpec Direct.

Module WriteIO.
Section Spec.
Context {M : Machine} {D : Disk}.

(** ** Dropping a buffer *)

Lemma drop_facts b : valid (set_flag 0 b) = false.
Proof. reflexivity. Qed.

Lemma drop_spec s l p :
  cache s l -> p ∈ l -> cache (set_bufs (upd p (set_flag 0) (bufs s)) s) l.
Proof.
  intros Hc Hp. split; cbn [bufs set_bufs firstbuf drv]; try apply Hc.
  - by apply cache_links_upd.
  - intros q Hq. rewrite upd_total. destruct (decide (p = q)) as [<-|Hne].
    + destruct (c_buf _ _ Hc _ Hp) as [Hl _]. by split.
    + eapply (buf_ok_body s); [done|done| |by apply (c_buf _ _ Hc)]. by repeat split.
  - intros x y Hx Hy. rewrite !upd_total.
    destruct (decide (p = x)); [by rewrite drop_facts|]. destruct (decide (p = y)); [by rewrite drop_facts|].
    by apply (c_uniq _ _ Hc).
  - intros ? ? ? ? ? ? H1 H2. eapply (c_inj _ _ Hc); (eapply mounted_frame; [|eassumption]); done.
Qed.

(** The buffers after those of a range were dropped. *)
Definition dropped (lo hi u : Z) (dn : list Z) (m : gmap Z buffer) (p : Z) : buffer :=
  if decide (p ∈ dn) then if in_range lo hi u (m !!! p) then set_flag 0 (m !!! p) else m !!! p else m !!! p.

Lemma delete_write_spec s l u lo hi :
  cache s l ->
  exists r s', DeleteBlockInBufferCache lo hi u XFR_WRITE s = Some (r, s') /\ cache s' l /\ ioframe s s' /\
    sec (dev s') = sec (dev s) /\ forall p, p ∈ l -> bufs s' !!! p = dropped lo hi u l (bufs s) p.
Proof.
  intros Hc. unfold DeleteBlockInBufferCache.
  match goal with |- context [over_ring ?b true] =>
    destruct (over_ring_spec l b (fun dn ok s1 =>
      cache s1 l /\ ioframe s s1 /\ sec (dev s1) = sec (dev s) /\
      forall p, p ∈ l -> bufs s1 !!! p = dropped lo hi u dn (bufs s) p) s true)
      as (ok & s' & Hr & Hc' & Hf & Hs & Hb)
  end.
  - intros dn p rest ok s1 El (Hc1 & Hf1 & Hs1 & Hb1).
    assert (Hp : p ∈ l) by (rewrite El; set_solver).
    assert (Hpn : p ∉ dn).
    { pose proof (ring_nodup _ _ (c_ring _ _ Hc)) as Hnd. rewrite El in Hnd.
      apply NoDup_app in Hnd as (_ & Hnd & _). intros Hd. apply (Hnd p Hd). by left. }
    rewrite run_bget by (by eapply ring_live; [apply Hc1|]). fold (in_range lo hi u (bufs s1 !!! p)).
    assert (Ep : bufs s1 !!! p = bufs s !!! p) by (rewrite Hb1 by done; unfold dropped; by rewrite decide_False).
    rewrite Ep. change (XFR_WRITE =? XFR_READ) with false. cbn iota.
    destruct (in_range lo hi u (bufs s !!! p)) eqn:Er.
    + rewrite run_bmod by (by eapply ring_live; [apply Hc1|]).
      eexists ok, _. split; [reflexivity|]. split; [by apply drop_spec|]. split; [done|]. split; [done|].
      intros x Hx. cbn [bufs set_bufs]. rewrite upd_total. destruct (decide (p = x)) as [<-|Hne].
      * unfold dropped. rewrite decide_True by set_solver. by rewrite Er, Ep.
      * rewrite Hb1 by done. unfold dropped. do 2 case_decide; try done; set_solver.
    + rewrite run_ret. exists ok, s1. split; [done|]. split; [done|]. split; [done|]. split; [done|].
      intros x Hx. rewrite Hb1 by done. unfold dropped. do 2 case_decide; try done; try set_solver.
      destruct (decide (x = p)) as [->|]; [by rewrite Er|set_solver].
  - intros dn ok s1 (Hc1 & _). split; apply Hc1.
  - apply Hc.
  - split; [done|]. split; [done|]. split; [done|]. intros p _. unfold dropped. by rewrite decide_False by set_solver.
  - eexists _, s'. rewrite (run_eq _ _ _ _ _ Hr). split; [reflexivity|]. done.
Qed.

(** ** The direct write *)

(** The sectors of the drive [u] in a range are those of [buf]. *)
Definition blocks_set (s : kst) (l : list Z) (s' : kst) (l' : list Z) (u blk n : Z) (buf : list Z) : Prop :=
  forall u' q' d' b, mounted s u' q' d' -> block_ok d' b ->
    view s' l' d' b = if (u' =? u) && (blk <=? b) && (b <? blk + n)
      then take SECSIZE (drop (SECSIZE * Z.to_nat (b - blk)) buf) else view s l d' b.

Lemma wrote_other d blk n buf s s' e b :
  wrote d blk n buf s s' -> dpb_device e <> dpb_device d \/ dpb_subunit e <> dpb_subunit d \/ ~ (blk <= b < blk + n) ->
  sector s' e b = sector s e b.
Proof.
  intros Hw Hne. unfold sector. rewrite Hw.
  destruct (_ =? dpb_device d) eqn:E1, (_ =? dpb_subunit d) eqn:E2, (blk <=? b) eqn:E3, (b <? blk + n) eqn:E4; try done.
  zbool. lia.
Qed.

(** After the drop and the transfer. *)
Lemma drop_wrote s l u q d blk n buf s1 s2 :
  cache s l -> mounted s u q d -> cache s1 l -> ioframe s s1 -> sec (dev s1) = sec (dev s) ->
  (forall p, p ∈ l -> bufs s1 !!! p = dropped blk (blk + n - 1) u l (bufs s) p) ->
  io_only s1 s2 -> wrote d blk n buf s1 s2 ->
  cache s2 l /\ blocks_set s l s2 l u blk n buf.
Proof.
  intros Hc Hm Hc1 Hf1 Hs1 Hb1 (Hf2 & Hb2 & Hfb2 & Hdb2) Hw.
  assert (Hout : forall u' q' d' b, mounted s u' q' d' -> (u' = u -> ~ (blk <= b < blk + n)) ->
    sector s2 d' b = sector s d' b).
  { intros u' q' d' b Hm' Hn. rewrite (wrote_other _ _ _ _ _ _ d' b Hw).
    - unfold sector. by rewrite Hs1.
    - destruct (decide (dpb_device d' = dpb_device d)); [|by left].
      destruct (decide (dpb_subunit d' = dpb_subunit d)); [|by right; left].
      right; right. apply Hn. by eapply (c_inj _ _ Hc). }
  assert (Hkeep : forall p, p ∈ l -> valid (bufs s2 !!! p) = true ->
    bufs s2 !!! p = bufs s !!! p /\ (b_unit (bufs s !!! p) = u -> ~ (blk <= b_blkno (bufs s !!! p) < blk + n))).
  { intros p Hp. rewrite Hb2, Hb1 by done. unfold dropped. rewrite decide_True by done.
    destruct (in_range _ _ _ _) eqn:E; [by rewrite drop_facts|]. intros Hv. split; [done|].
    intros Hu Hr. unfold in_range in E. unfold valid in Hv.
    rewrite Hv, Hu, Z.eqb_refl, !(proj2 (Z.leb_le _ _)) in E by lia. done. }
  assert (Hc2 : cache s2 l).
  { split; rewrite ?Hb2, ?Hfb2; try apply Hc1; try done.
    - intros p Hp. rewrite <- Hb2. destruct (c_buf _ _ Hc1 _ Hp) as [Hl _]. rewrite <- Hb2 in Hl. split; [done|].
      intros Hv. destruct (Hkeep p Hp Hv) as [E Hr]. rewrite E in Hv |- *.
      destruct (c_buf _ _ Hc _ Hp) as [_ Hok]. destruct (Hok Hv) as (r & e & Hme & Hbl & Hfat & Hd). exists r, e.
      split; [by eapply mounted_frame, mounted_frame|]. split; [done|].
      split; [done|]. intros Ed. rewrite (Hd Ed). symmetry. by apply (Hout (b_unit (bufs s !!! p)) r).
    - intros ? ? ? ? ? ? H1 H2. eapply (c_inj _ _ Hc1); (eapply mounted_frame; [|eassumption]); by apply ioframe_sym. }
  split; [done|]. intros u' q' d' b Hm' Hbl.
  pose proof (mounted_frame _ _ _ _ _ Hf2 (mounted_frame _ _ _ _ _ Hf1 Hm')) as Hm2.
  destruct ((u' =? u) && (blk <=? b) && (b <? blk + n)) eqn:E.
  - zbool. subst u'. destruct (mounted_fun _ _ _ _ _ _ Hm Hm') as [-> ->].
    rewrite (view_off s2 l u q d b Hm2).
    + unfold sector. rewrite Hw, !Z.eqb_refl, (proj2 (Z.leb_le _ _)), (proj2 (Z.ltb_lt _ _)) by lia. done.
    + intros p Hp. apply not_true_is_false. intros (K1 & K2 & K3)%holds_true.
      destruct (Hkeep p Hp K2) as [E Hr]. rewrite E in K1, K3. apply (Hr K3). lia.
  - assert (Hno : u' = u -> ~ (blk <= b < blk + n)).
    { intros -> Hr. by rewrite Z.eqb_refl, (proj2 (Z.leb_le _ _)), (proj2 (Z.ltb_lt _ _)) in E by lia. }
    destruct (holder_cases s l b u' Hc) as [(x & Hx & Hhx)|Hnone].
    + rewrite (view_at s l x u' q' d' b Hc Hx Hm' Hhx).
      assert (Ex : bufs s2 !!! x = bufs s !!! x).
      { rewrite Hb2, Hb1 by done. unfold dropped. rewrite decide_True by done.
        destruct (in_range _ _ _ _) eqn:Er; [|done]. apply holds_true in Hhx as (H1 & H2 & H3).
        unfold in_range in Er. zbool. destruct Hno; [congruence|]. lia. }
      rewrite (view_at s2 l x u' q' d' b Hc2 Hx Hm2); rewrite Ex; done.
    + rewrite (view_off s l u' q' d' b Hm' Hnone), (view_off s2 l u' q' d' b Hm2).
      * by apply (Hout u' q').
      * intros p Hp. apply not_true_is_false. intros Hh. pose proof (proj1 (holds_true _ _ _) Hh) as (_ & K2 & _).
        destruct (Hkeep p Hp K2) as [Ek _]. rewrite Ek in Hh. by rewrite Hnone in Hh.
Qed.

(** The transfer of INT 26h, of more than one sector. *)
Lemma dskxfer_write26 u p d blk bseg buf n s :
  mounted s u p d -> (SECSIZE <= length (deblock_buf (drv s)))%nat ->
  0 <= blk -> 2 <= n -> blk + n <= capacity d ->
  Z.of_nat SECSIZE * n <= Z.of_nat (length buf) ->
  Forall byte (take (SECSIZE * Z.to_nat n) buf) ->
  exists s', dskxfer u blk bseg buf n DSKWRITEINT26 s = Some ((0, buf), s') /\
    io_only s s' /\ wrote d blk n buf s s'.
Proof.
  intros [Hg Hnn Hd Hu _ Hs [attr Ha]] Hdb Hb Hn Hc Hl Hby.
  unfold dskxfer. rewrite (run_eq _ _ _ _ _ Hg), (proj2 (Z.eqb_neq p NULL) Hnn).
  unfold xfer_fuel. generalize 255%nat as fu. intros fu. cbn [dskxfer_loop].
  rewrite (run_dget _ d) by done. rewrite run_get.
  change (xfer_command DSKWRITEINT26 (verify_ena (env s))) with (Some C_OUTPUT).
  rewrite Ha, run_opt. unfold set_ioreq at 1. rewrite run_mod, run_get.
  cbn [drv set_drv IoReqHdr env].
  set (rq := io_request (IoReqHdr (drv s)) d attr C_OUTPUT blk n).
  destruct (io_request_fields (IoReqHdr (drv s)) d attr C_OUTPUT blk n) as (Hc1 & Hc2 & Hc3).
  unfold capacity in Hc.
  pose proof (fun buf' => execrh_write (dpb_device d) rq buf' (dev s)) as Hx.
  replace (req_block rq) with blk in Hx by (symmetry; by apply io_request_block).
  fold rq in Hc1, Hc2, Hc3. rewrite Hc1, Hc2, Hc3 in Hx.
  rewrite (proj2 (Z.eqb_neq n 1)), andb_false_r by lia. cbn [andb].
  destruct (Hx buf (or_introl eq_refl) Hb ltac:(lia) Hc Hl Hby) as (rq' & w' & He & Hdone & Hw).
  rewrite run_assoc. rewrite (execrh_run _ _ _ _ _ w') by exact He. cbn [fst snd].
  rewrite run_assoc. unfold set_ioreq at 1. rewrite run_mod, run_ret, run_get.
  cbn [drv set_drv set_dev IoReqHdr]. unfold done in Hdone. rewrite Hdone, Z.eqb_refl.
  eexists. split; [reflexivity|]. split; [done|]. exact Hw.
Qed.

(** Dropping one block and writing [n]: another block of the range that is in
    a buffer stays there. *)
Lemma drop_first_stale s l u q d blk n buf bseg x b :
  cache s l -> mounted s u q d -> 0 <= blk -> 2 <= n -> blk + n <= capacity d ->
  Z.of_nat SECSIZE * n <= Z.of_nat (length buf) -> Forall byte (take (SECSIZE * Z.to_nat n) buf) ->
  blk < b < blk + n -> x ∈ l -> holds (bufs s !!! x) b u = true ->
  exists r s1 s2, DeleteBlockInBufferCache blk blk u XFR_WRITE s = Some (r, s1) /\ ioframe s s1 /\
    dskxfer u blk bseg buf n DSKWRITEINT26 s1 = Some ((0, buf), s2) /\
    sector s2 d b = take SECSIZE (drop (SECSIZE * Z.to_nat (b - blk)) buf) /\
    view s2 l d b = view s l d b /\ view s2 l d b = b_buffer (bufs s !!! x).
Proof.
  intros Hc Hm Hb Hn Hcap Hl Hby Hbr Hx Hh.
  destruct (delete_write_spec s l u blk blk Hc) as (r & s1 & Hr & Hc1 & Hf1 & Hs1 & Hb1).
  pose proof (mounted_frame _ _ _ _ _ Hf1 Hm) as Hm1.
  destruct (dskxfer_write26 u q d blk bseg buf n s1 Hm1 (c_deblock _ _ Hc1) Hb Hn Hcap Hl Hby)
    as (s2 & Hr2 & (_ & Hb2 & _) & Hw).
  assert (Ex : bufs s1 !!! x = bufs s !!! x).
  { rewrite Hb1 by done. unfold dropped. rewrite decide_True by done. destruct (in_range _ _ _ _) eqn:E; [|done].
    apply holds_true in Hh as (H1 & _). unfold in_range in E. zbool. lia. }
  assert (Hv : view s2 l d b = b_buffer (bufs s !!! x)).
  { unfold view. rewrite Hb2, (mounted_unit _ _ _ _ Hm), (find_holder_some s1 l x b u Hc1 Hx) by (by rewrite Ex).
    by rewrite Ex. }
  exists r, s1, s2. split; [done|]. split; [done|]. split; [done|]. split; [|split; [|done]].
  - unfold sector. by rewrite Hw, !Z.eqb_refl, (proj2 (Z.leb_le _ _)), (proj2 (Z.ltb_lt _ _)) by lia.
  - by rewrite Hv, (view_at s l x u q d b Hc Hx Hm Hh).
Qed.

(** The direct write of [rwblock]. *)
Lemma direct_write s l u q d blk n bseg buf :
  cache s l -> mounted s u q d -> 0 <= blk -> 0 < n -> blk + n <= capacity d ->
  Z.of_nat SECSIZE * n <= Z.of_nat (length buf) -> Forall byte (take (SECSIZE * Z.to_nat n) buf) ->
  exists r s1 s', DeleteBlockInBufferCache blk (blk + n - 1) u XFR_WRITE s = Some (r, s1) /\
    dskxfer u blk bseg buf n DSKWRITE s1 = Some ((0, buf), s') /\
    cache s' l /\ blocks_set s l s' l u blk n buf /\ ioframe s s' /\ ioframe s s1.
Proof.
  intros Hc Hm Hb Hn Hcap Hl Hby.
  destruct (delete_write_spec s l u blk (blk + n - 1) Hc) as (r & s1 & Hr & Hc1 & Hf1 & Hs1 & Hb1).
  destruct (dskxfer_write u q d blk bseg buf n s1 (mounted_frame _ _ _ _ _ Hf1 Hm) (c_deblock _ _ Hc1) Hb ltac:(lia)
              Hcap Hl Hby) as (s' & Hr' & Hio & Hw).
  destruct (drop_wrote s l u q d blk n buf s1 s' Hc Hm Hc1 Hf1 Hs1 Hb1 Hio Hw) as [Hc' Hv'].
  exists r, s1, s'. split; [done|]. split; [done|]. split; [done|]. split; [done|]. split; [|done].
  eapply ioframe_trans; [exact Hf1|apply Hio].
Qed.
End Spec.
End WriteIO.
