(* ===== verification/RwSpec.v ===== *)
(** * Reading a file: lemmas

    The bytes of a file are the sectors of its clusters, one after the other
    ([content]).  The lemmas follow the loop of [rwblock] for reading: a
    transfer of whole sectors along clusters that are adjacent on the disk, a
    part of a sector through the cache, and the copy to the user's memory. *)

From S2P Require Import Prelude Memmgr KState BlockIO FatTab FNode FatAlloc FatFile FatRw Disk Ring.
From S2P Require Import CacheSpec CacheOps FatPure FatSpec FatWrite Table FatChain AllocSpec MapSpec.
From S2P Require Import SftSpec DirectIO.
Import Ks Bio Fat FNode Alloc File Rw Dsk Ring Cache CacheOps FatPure FatSpec FatWrite Table Chain.
Import AllocSpec MapSpec SftSpec Direct.

Module RwSpec.

(** ** The data area *)

(** Sectors per cluster. *)
Definition spc (d : dpb) : Z := 2 ^ dpb_shftcnt d.

(** The sector of a file that a sector number selects. *)
Definition file_block (d : dpb) (cs : list Z) (q : Z) : Z :=
  clus2phys (cs !!! Z.to_nat (q / spc d)) d + q mod spc d.

Lemma sector_mod a k : 0 <= k <= 8 -> Z.land (u8 a) (2 ^ k - 1) = a mod 2 ^ k.
Proof.
  intros Hk. rewrite land_mask by lia. unfold u8. replace 256 with (2 ^ k * 2 ^ (8 - k)).
  - rewrite Z.rem_mul_r by (try lia; apply Z.pow_nonzero; lia).
    rewrite (Z.mul_comm (2 ^ k) (_ mod _)), Z.mod_add by (apply Z.pow_nonzero; lia).
    apply Z.mod_mod, Z.pow_nonzero; lia.
  - rewrite <- Z.pow_add_r by lia. by replace (k + (8 - k)) with 8 by lia.
Qed.

Section Spec.
Context {M : Machine} {D : Disk}.

Record data_area (d : dpb) : Prop := DataArea {
  da_shift : 0 <= dpb_shftcnt d <= 8;
  da_mask : dpb_clsmask d = spc d - 1;
  da_block : forall x j, 2 <= x <= max_cluster d -> 0 <= j < spc d ->
    block_ok d (clus2phys x d + j) /\ ~ in_fat d (clus2phys x d + j) /\
    ~ fsinfo_block d (clus2phys x d + j) }.

Lemma spc_pos d : data_area d -> 1 <= spc d <= 256.
Proof.
  intros [Hs _ _]. unfold spc. pose proof (Z.pow_pos_nonneg 2 (dpb_shftcnt d)).
  assert (2 ^ dpb_shftcnt d <= 2 ^ 8) by (apply Z.pow_le_mono_r; lia). lia.
Qed.

Definition file_sector (s : kst) (l : list Z) (d : dpb) (cs : list Z) (q : Z) : list Z :=
  view s l d (file_block d cs q).
Definition content (s : kst) (l : list Z) (d : dpb) (cs : list Z) : list Z :=
  sectors (file_sector s l d cs) 0 (length cs * Z.to_nat (spc d)).

(** ** The sectors of a file *)

Definition ranged (d : dpb) (cs : list Z) : Prop := forall x, x ∈ cs -> 2 <= x <= max_cluster d.

Section Blocks.
Context (d : dpb) (cs : list Z).
Hypothesis Hda : data_area d.

Lemma file_block_fine q :
  ranged d cs -> 0 <= q < Z.of_nat (length cs) * spc d ->
  block_ok d (file_block d cs q) /\ ~ in_fat d (file_block d cs q) /\ ~ fsinfo_block d (file_block d cs q).
Proof.
  intros Hr Hq. pose proof (spc_pos d Hda). unfold file_block. apply (da_block d Hda).
  - apply Hr. eapply list_elem_of_lookup_2, list_lookup_lookup_total_lt.
    assert (q / spc d < Z.of_nat (length cs)) by (apply Z.div_lt_upper_bound; lia).
    assert (0 <= q / spc d) by (apply Z.div_pos; lia). lia.
  - apply Z.mod_pos_bound. lia.
Qed.

(** The sectors of one cluster follow one another. *)
Lemma block_run q j :
  0 <= q -> 0 <= j -> q mod spc d + j < spc d -> file_block d cs (q + j) = file_block d cs q + j.
Proof.
  intros Hq Hj Hlt. pose proof (spc_pos d Hda). unfold file_block.
  assert ((q + j) / spc d = q / spc d) as ->.
  { symmetry. apply (Z.div_unique _ _ _ (q mod spc d + j)); [left; pose proof (Z.mod_pos_bound q (spc d)); lia|].
    pose proof (Z.div_mod q (spc d)). lia. }
  assert ((q + j) mod spc d = q mod spc d + j) as ->; [|lia].
  symmetry. apply (Z.mod_unique _ _ (q / spc d)); [left; pose proof (Z.mod_pos_bound q (spc d)); lia|].
  pose proof (Z.div_mod q (spc d)). lia.
Qed.

(** [n] sectors of the file from [q] on are adjacent on the disk. *)
Definition adjacent (q n : Z) : Prop :=
  forall j, 0 <= j < n -> file_block d cs (q + j) = file_block d cs q + j.

Lemma adjacent_extend q n :
  ranged d cs -> capacity d < 2 ^ 32 ->
  0 <= q -> 1 <= n -> q + n <= Z.of_nat (length cs) * spc d -> (q + n) mod spc d = 0 -> adjacent q n ->
  file_block d cs (q + n) = u32 (file_block d cs q + n) -> adjacent q (n + spc d).
Proof.
  intros Hr Hfits Hq Hn Hlt Hal Had Heq j Hj. destruct (decide (j < n)); [apply Had; lia|].
  destruct (file_block_fine (q + (n - 1)) Hr) as [[Hb _] _]; [lia|].
  rewrite Had in Hb by lia.
  rewrite u32_small in Heq by lia.
  replace (q + j) with (q + n + (j - n)) by lia. rewrite block_run by lia. lia.
Qed.

Lemma first_run q wanted :
  0 <= q -> 1 <= wanted ->
  let n := Z.min (u16 (dpb_clsmask d + 1 - q mod spc d)) wanted in
  1 <= n <= wanted /\ adjacent q n /\ (n < wanted -> (q + n) mod spc d = 0).
Proof.
  intros Hq Hw n. pose proof (spc_pos d Hda). pose proof (Z.mod_pos_bound q (spc d) ltac:(lia)) as Hm.
  assert (En : n = Z.min (spc d - q mod spc d) wanted).
  { unfold n. rewrite (da_mask d Hda), u16_small by lia. lia. }
  split; [lia|]. split.
  - intros j Hj. apply block_run; lia.
  - intros Hlt. rewrite En, Z.min_l by lia. rewrite (Z.div_mod q (spc d)) at 1 by lia.
    replace (spc d * (q / spc d) + q mod spc d + (spc d - q mod spc d)) with ((q / spc d + 1) * spc d) by lia.
    apply Z.mod_mul. lia.
Qed.

End Blocks.

(** ** Where the fnode is *)

(** The read starts in the state [s0], with the fnodes [v]; fnode 0 is on a
    file whose chain is [cs]. *)
Section Reading.
Context (s0 : kst) (l0 : list Z) (u p : Z) (d : dpb) (k : fat_type) (T : Z -> Z) (cs : list Z) (v : fsv).
Hypothesis Hmt : mounted s0 u p d.
Hypothesis Hcache0 : cache s0 l0.
Hypothesis Hhint : hint_ok d.
Hypothesis Hfits : capacity d < 2 ^ 32.
Hypothesis Hda : data_area d.
Hypothesis Hdpb : f_dpb (fn0 v) = p.
Hypothesis Hchain : chain (max_cluster d) T (chain_start d (fn0 v) v) cs.

(** The fnode is at offset [o], its cluster is number [i] of the chain. *)
Record at_off (s : kst) (l : list Z) (o : Z) (i : nat) : Prop := AtOff {
  ao_tab : tab s l u p d k T;
  ao_roamed : roamed s0 l0 s l u d;
  ao_in : (i < length cs)%nat;
  ao_fs : fs s = fnode_upd fnode0 (fun n => at_pos (cs !!! i) i (set_f_offset o n)) v }.

Definition fnode_at (o : Z) (i : nat) : f_node := at_pos (cs !!! i) i (set_f_offset o (fn0 v)).

Lemma ao_node s l o i : at_off s l o i -> fnode_of fnode0 (fs s) = fnode_at o i.
Proof. intros []. rewrite ao_fs0. apply fnode_upd_of. Qed.

Lemma ao_dpb s l o i : at_off s l o i -> dpbs s !! p = Some d.
Proof. intros H. eapply tab_dpb, H. Qed.

Lemma ao_mounted s l o i : at_off s l o i -> mounted s u p d.
Proof. intros H. apply (ao_tab _ _ _ _ H). Qed.

Lemma ao_cache s l o i : at_off s l o i -> cache s l.
Proof. intros H. apply (ao_tab _ _ _ _ H). Qed.

Lemma run_fn_at {A} s l o i (f : f_node -> K kst A) :
  at_off s l o i -> kbind (fn fnode0) f s = f (fnode_at o i) s.
Proof. intros H. by rewrite run_fn, (ao_node _ _ _ _ H). Qed.

Lemma run_fdpb_at {A} s l o i (f : dpb -> K kst A) :
  at_off s l o i -> kbind (fdpb fnode0) f s = f d s.
Proof. intros H. apply (run_fdpb fnode0 d p); [by rewrite (ao_node _ _ _ _ H)|by eapply ao_dpb]. Qed.

(** A store to [f_offset]. *)
Lemma seek_spec {A} s l o i o' g (f : unit -> K kst A) :
  at_off s l o i -> (forall n, f_offset n = o -> g n = set_f_offset o' n) ->
  exists s', kbind (fnmod fnode0 g) f s = f tt s' /\ at_off s' l o' i.
Proof.
  intros H Hg. destruct (fs_spec s l u p d k T (fnode_upd fnode0 g (fs s)) (ao_tab _ _ _ _ H)) as [Ht R].
  eexists. split; [apply run_fnmod|]. split; [exact Ht| |apply H|].
  - exact (roamed_trans _ _ _ _ _ _ _ _ _ (ao_roamed _ _ _ _ H) R eq_refl).
  - cbn [fs set_fs]. rewrite (ao_fs _ _ _ _ H), fnode_upd_upd.
    cbn [fnode_upd]. by rewrite Hg.
Qed.

(** A change of the cache that keeps what it shows. *)
Lemma quiet_spec s l o i s' l' :
  at_off s l o i -> cache s' l' -> length l' = length l -> same_view s l s' l' -> ioframe s s' ->
  at_off s' l' o i.
Proof.
  intros H Hc Hl Hv Hf. pose proof (calm_ioframe s l s' l' Hv Hf Hl) as Hcm.
  pose proof (ao_tab _ _ _ _ H) as Ht. split.
  - eapply tab_calm; [exact Ht| |exact Hcm]. destruct Ht as [[_ V Hn] _].
    split; [done|by eapply volume_ioframe|lia].
  - exact (roamed_trans _ _ _ _ _ _ _ _ _ (ao_roamed _ _ _ _ H)
             (moved_roamed _ _ _ _ _ _ (calm_moved _ _ _ _ u d Hcm)) eq_refl).
  - apply H.
  - destruct Hf as (_ & _ & _ & _ & -> & _). apply H.
Qed.

(** [map_cluster] to an offset inside the clusters of the file. *)
Definition rel (o : Z) : nat := Z.to_nat (o / 512 / spc d).

Lemma map_spec s l o i :
  at_off s l o i -> 0 <= o < 2 ^ 32 -> (rel o < length cs)%nat ->
  exists s' l', map_cluster fnode0 XFR_READ s = Some (SUCCESS, s') /\ at_off s' l' o (rel o).
Proof.
  intros H Ho Hr. pose proof (ao_node _ _ _ _ H) as Hn. pose proof (ao_in _ _ _ _ H) as Hi.
  assert (Hst : chain_start d (fnode_of fnode0 (fs s)) (fs s) = chain_start d (fn0 v) v).
  { rewrite Hn. unfold chain_start. cbn [fnode_at f_sft_idx f_dir f_dmp at_pos set_f_cluster_offset set_f_cluster set_f_offset].
    by rewrite (ao_fs _ _ _ _ H), dm_upd_of. }
  assert (Hrel : rel_of (fnode_of fnode0 (fs s)) d = rel o).
  { rewrite Hn. unfold rel_of, rel, spc. rewrite Z.shiftr_div_pow2 by apply Hda. done. }
  destruct (map_read_spec s l u p d k T fnode0 cs i (ao_tab _ _ _ _ H) Hhint)
    as (rc & s' & l' & x & j & Hrun & Ht & R & Hfs & Hx & Hcase);
    [by rewrite Hn|by rewrite Hn|apply Hda|by rewrite Hst|rewrite Hn; by apply list_lookup_lookup_total_lt|by rewrite Hn|].
  rewrite Hrel in Hcase. rewrite decide_True in Hcase by done. destruct Hcase as [-> ->].
  exists s', l'. split; [done|]. split; [done| |done|].
  - exact (roamed_trans _ _ _ _ _ _ _ _ _ (ao_roamed _ _ _ _ H) R eq_refl).
  - rewrite Hfs, (ao_fs _ _ _ _ H), fnode_upd_upd. apply list_lookup_total_correct in Hx as ->. done.
Qed.

(** The sectors of the file are shown as at the start. *)
Lemma chain_at_range i : (i < length cs)%nat -> 2 <= cs !!! i <= max_cluster d.
Proof.
  intros Hi. eapply chain_range; [exact Hchain|]. eapply list_elem_of_lookup_2, list_lookup_lookup_total_lt, Hi.
Qed.

Lemma file_block_ok q :
  0 <= q < Z.of_nat (length cs) * spc d ->
  block_ok d (file_block d cs q) /\ ~ in_fat d (file_block d cs q) /\ ~ fsinfo_block d (file_block d cs q).
Proof. apply file_block_fine; [exact Hda|]. intros x. by eapply chain_range. Qed.

Lemma shown s l o i q :
  at_off s l o i -> 0 <= q < Z.of_nat (length cs) * spc d ->
  view s l d (file_block d cs q) = file_sector s0 l0 d cs q.
Proof.
  intros H Hq. destruct (file_block_ok q Hq) as (H1 & H2 & H3).
  by apply (ro_frame _ _ _ _ _ _ (ao_roamed _ _ _ _ H) u p).
Qed.

(** ** Adjacent clusters *)

Lemma run_loop_spec fuel s l q i n wanted :
  at_off s l (512 * (q + n)) i -> 0 <= q -> 1 <= n <= wanted -> 512 * wanted < 65536 ->
  512 * (q + wanted) < 2 ^ 32 -> q + wanted <= Z.of_nat (length cs) * spc d ->
  adjacent d cs q n -> (n < wanted -> (q + n) mod spc d = 0) -> (Z.to_nat (wanted - n) < fuel)%nat ->
  exists n' s' l' i', run_loop fuel fnode0 XFR_READ (file_block d cs q) (512 * q) 512 n wanted s = Some (n', s') /\
    n <= n' <= wanted /\ adjacent d cs q n' /\ at_off s' l' (512 * (q + n')) i'.
Proof.
  revert s l i n. induction fuel as [|fuel IH]; intros s l i n H Hq Hn Hw H32 Hlen Had Hal Hf; [lia|].
  cbn [run_loop]. destruct (n <? wanted) eqn:E; cbn [negb]; zbool.
  2:{ exists n, s, l, i. split; [done|]. split; [lia|]. by split. }
  pose proof (spc_pos d Hda) as Hspc.
  assert (Erel : rel (512 * (q + n)) = Z.to_nat ((q + n) / spc d)).
  { unfold rel. rewrite (Z.mul_comm 512), Z.div_mul by lia. done. }
  assert (Hdiv : 0 <= (q + n) / spc d < Z.of_nat (length cs)).
  { split; [apply Z.div_pos; lia|apply Z.div_lt_upper_bound; lia]. }
  destruct (map_spec s l _ i H) as (s1 & l1 & Hr1 & H1); [lia|rewrite Erel; lia|].
  rewrite (run_eq _ _ _ _ _ Hr1). change (negb (SUCCESS =? SUCCESS)) with false. cbn iota.
  rewrite (run_fn_at _ _ _ _ _ H1), (run_fdpb_at _ _ _ _ _ H1).
  assert (Eb : clus2phys (f_cluster (fnode_at (512 * (q + n)) (rel (512 * (q + n))))) d =
               file_block d cs (q + n)).
  { cbn [fnode_at at_pos f_cluster set_f_cluster_offset set_f_cluster]. unfold file_block.
    rewrite Erel, Hal by lia. lia. }
  rewrite Eb. destruct (file_block d cs (q + n) =? u32 (file_block d cs q + n)) eqn:Ec; cbn [negb]; zbool.
  2:{ exists n, s1, l1, (rel (512 * (q + n))). split; [done|]. split; [lia|]. split; [done|exact H1]. }
  rewrite (da_mask d Hda). set (n1 := Z.min (u16 (n + (spc d - 1 + 1))) wanted).
  assert (En1 : n1 = Z.min (n + spc d) wanted) by (unfold n1; rewrite u16_small by lia; lia).
  destruct (seek_spec s1 l1 (512 * (q + n)) (rel (512 * (q + n))) (512 * (q + n1))
    (set_f_offset (u32 (512 * q + u16 (n1 * 512))))
    (fun _ => run_loop fuel fnode0 XFR_READ (file_block d cs q) (512 * q) 512 n1 wanted) H1)
    as (s2 & Hr2 & H2).
  { intros m _. f_equal. rewrite (u16_small (n1 * 512)), u32_small by lia. lia. }
  rewrite Hr2.
  assert (Had1 : adjacent d cs q (n + spc d)) by (apply adjacent_extend; first [done|lia|intros y; by eapply chain_range]).
  destruct (IH s2 l1 (rel (512 * (q + n))) n1 H2) as (n' & s' & l' & i' & Hr & Hn' & Had' & H'); try done; try lia.
  - intros j Hj. apply Had1. lia.
  - intros Hlt. rewrite En1, Z.min_l by lia.
    rewrite Z.add_assoc. rewrite <- (Z.add_mod_idemp_r _ (spc d)), Z.mod_same, Z.add_0_r by lia. apply Hal. lia.
  - exists n', s', l', i'. split; [exact Hr|]. split; [lia|]. by split.
Qed.

(** ** Whole sectors *)

(** [bs] put into the memory at [at]. *)
Definition patch (mem : list Z) (at_ : Z) (bs : list Z) : list Z :=
  take (Z.to_nat at_) mem ++ bs ++ drop (Z.to_nat at_ + length bs) mem.

Lemma xfer_sectors_spec s l q i wanted bseg mem at_ :
  at_off s l (512 * q) i -> 0 <= q -> 1 <= wanted -> 512 * wanted < 65536 -> 512 * (q + wanted) < 2 ^ 32 ->
  q + wanted <= Z.of_nat (length cs) * spc d -> 0 <= at_ ->
  at_ + 512 * wanted <= Z.of_nat (length mem) ->
  exists n s' l' i', xfer_sectors fnode0 XFR_READ (file_block d cs q) 512 (q mod spc d) wanted bseg mem at_ s =
      Some ((Some (512 * n),
             patch mem at_ (sectors (file_sector s0 l0 d cs) q (Z.to_nat n))), s') /\
    1 <= n <= wanted /\ at_off s' l' (512 * (q + n)) i'.
Proof.
  intros H Hq Hw1 Hw H32 Hlen Hat Hmem. destruct (first_run d cs Hda q wanted Hq Hw1) as (Hn & Had & Hal).
  unfold xfer_sectors. rewrite (run_fn_at _ _ _ _ _ H), (run_fdpb_at _ _ _ _ _ H).
  cbn [fnode_at at_pos f_offset set_f_cluster_offset set_f_cluster set_f_offset]. cbv zeta in Hn, Had, Hal |- *.
  set (n0 := Z.min (u16 _) wanted) in *.
  match goal with |- context [kbind (fnmod fnode0 ?g) ?f s] =>
    destruct (seek_spec s l _ i (512 * (q + n0)) g f H) as (s1 & Hr1 & H1) end.
  { intros m _. f_equal. rewrite (u16_small (n0 * 512)), u32_small by lia. lia. }
  rewrite Hr1. destruct (run_loop_spec (S (Z.to_nat wanted)) s1 l q i n0 wanted H1)
    as (n & s2 & l2 & i2 & Hr2 & Hn2 & Had2 & H2); try done; try lia.
  rewrite (run_eq _ _ _ _ _ Hr2), (run_fdpb_at _ _ _ _ _ H2).
  pose proof (ao_mounted _ _ _ _ H2) as Hm2. rewrite (mt_unit _ _ _ _ Hm2).
  assert (Hblk : forall j, 0 <= j < n -> block_ok d (file_block d cs q + j)).
  { intros j Hj. rewrite <- Had2 by lia. apply file_block_ok. lia. }
  pose proof (Hblk 0 ltac:(lia)) as [Hb0 _]. pose proof (Hblk (n - 1) ltac:(lia)) as [Hb1 _].
  destruct (direct_read s2 l2 u p d (file_block d cs q) n bseg (drop (Z.to_nat at_) mem)
              (ao_cache _ _ _ _ H2) Hm2) as (r & s3 & s4 & Hr3 & Hr4 & Hc4 & Hv4 & Hf4 & _);
    [lia|lia|lia|done|rewrite length_drop; unfold SECSIZE; lia|].
  rewrite (u32_small (file_block d cs q + n - 1)) by lia. rewrite (run_eq _ _ _ _ _ Hr3).
  change (XFR_READ =? XFR_READ) with true. cbn iota. rewrite (run_eq _ _ _ _ _ Hr4). cbn [fst snd].
  change (negb (0 =? 0)) with false. cbn iota.
  exists n, s4, l2, i2. split; [|split; [lia|]].
  - unfold kret. rewrite (u16_small (n * 512)), (Z.mul_comm n) by lia. do 3 f_equal. unfold patch. do 2 f_equal.
    + apply sectors_ext. intros j Hj. rewrite <- Had2 by lia. apply (shown s2 l2 _ _ _ H2). lia.
    + rewrite drop_drop, length_sectors; [done|]. intros j. apply view_bytes.
      (* the state in which the file is shown *)
      exact Hcache0.
  - by apply (quiet_spec s2 l2).
Qed.

(** ** A part of a sector *)

(** The buffer of a block may be marked for reuse at any time. *)
Lemma uncache_spec s1 l bp blk :
  cache s1 l -> bp ∈ l -> mounted s1 u p d -> block_ok d blk -> holds (bufs s1 !!! bp) blk u = true ->
  let s' := set_bufs (upd bp (flag_on BFR_UNCACHE) (bufs s1)) s1 in
  cache s' l /\ same_view s1 l s' l.
Proof.
  intros Hc Hp Hm Hb Hh s'. pose proof (c_buf _ _ Hc _ Hp) as [Hl Hok].
  pose proof (proj1 (holds_true _ _ _) Hh) as (Hb1 & Hb2 & Hb3). destruct (Hok Hb2) as (r & e & Hme & _ & Hff & Hde).
  rewrite Hb3 in Hme. destruct (mounted_fun _ _ _ _ _ _ Hm Hme) as [-> ->].
  assert (Hdirty : dirty (flag_on BFR_UNCACHE (bufs s1 !!! bp)) = dirty (bufs s1 !!! bp)) by (flags; done).
  assert (Hfat : has (b_flag (flag_on BFR_UNCACHE (bufs s1 !!! bp))) BFR_FAT = has (b_flag (bufs s1 !!! bp)) BFR_FAT)
    by (flags; done).
  assert (Hh' : holds (flag_on BFR_UNCACHE (bufs s1 !!! bp)) blk u = true).
  { apply holds_true. split; [done|]. split; [|done]. unfold valid in *. revert Hb2. flags. done. }
  destruct (store_spec s1 l bp u p d blk (flag_on BFR_UNCACHE) Hc Hp Hm Hb Hh) as [Hc' Hv]; try done.
  { rewrite Hfat. exact Hff. }
  { rewrite Hdirty, <- Hb1. exact Hde. }
  split; [done|]. intros u' q' d' blk' Hm' Hb'. unfold s'. rewrite (Hv u' q' d' blk' Hm' Hb').
  destruct (_ && _) eqn:E; [|done]. apply andb_true_iff in E as [->%Z.eqb_eq ->%Z.eqb_eq].
  destruct (mounted_fun _ _ _ _ _ _ Hm Hm') as [-> ->]. symmetry. by apply (view_at s1 l bp u p).
Qed.

Notation size := (dir_size (f_dir (fn0 v))).
Notation bytes := (content s0 l0 d cs).

Lemma length_bytes : Z.of_nat (length bytes) = 512 * (Z.of_nat (length cs) * spc d).
Proof.
  pose proof (spc_pos d Hda). unfold content. rewrite length_sectors by (intros j; by apply view_bytes).
  unfold SECSIZE. lia.
Qed.

Lemma xfer_part_spec s l o i to mem at_ :
  at_off s l o i -> 0 <= o < size -> size < 2 ^ 32 -> size <= Z.of_nat (length bytes) -> 1 <= to < 65536 ->
  0 <= at_ -> at_ + to <= Z.of_nat (length mem) ->
  exists x s' l', xfer_part fnode0 XFR_READ (file_block d cs (o / 512)) 512 (o mod 512) to mem at_ s =
      Some (Some (x, patch mem at_ (take (Z.to_nat x) (drop (Z.to_nat o) bytes))), s') /\
    1 <= x <= to /\ x <= size - o /\ at_off s' l' (o + x) i.
Proof.
  intros H Ho Hsz Hlen Hto Hat Hmem. pose proof length_bytes as Hlb. pose proof (spc_pos d Hda) as Hspc.
  pose proof (Z.mod_pos_bound o 512 ltac:(lia)) as Hmod. pose proof (Z.div_mod o 512 ltac:(lia)) as Hdm.
  assert (Hq : 0 <= o / 512 < Z.of_nat (length cs) * spc d) by lia.
  destruct (file_block_ok (o / 512) Hq) as (Hb & _ & _).
  unfold xfer_part. rewrite (run_fdpb_at _ _ _ _ _ H).
  pose proof (ao_mounted _ _ _ _ H) as Hm. rewrite (mt_unit _ _ _ _ Hm).
  destruct (getblk_spec s l u p d _ (ao_cache _ _ _ _ H) Hm Hb)
    as (bp & s1 & Hr1 & Hin & Hnn & Hc1 & Hv1 & Hf1 & Hh1 & _ & Hbuf & _).
  unfold getblock. rewrite (run_eq _ _ _ _ _ Hr1), (proj2 (Z.eqb_neq _ _) Hnn).
  assert (Hin1 : bp ∈ lru bp l) by (by left).
  assert (H1 : at_off s1 (lru bp l) o i).
  { apply (quiet_spec s l); [done|done| |done|done]. apply lru_length; [by eapply cache_nodup, ao_cache|done]. }
  rewrite (run_fn_at _ _ _ _ _ H1).
  cbn [fnode_at at_pos f_offset f_dir set_f_cluster_offset set_f_cluster set_f_offset]. change (XFR_READ =? XFR_WRITE) with false.
  change (XFR_READ =? XFR_READ) with true. cbn iota.
  rewrite (u32_small (size - o)), (u16_small (512 - o mod 512)) by lia.
  set (x := u16 _). assert (Ex : x = Z.min (Z.min to (512 - o mod 512)) (size - o)) by (unfold x; rewrite u16_small; lia).
  clearbody x. rewrite run_assoc, run_bget by (eapply ring_live; [apply Hc1|done]). rewrite Hbuf.
  set (sec1 := view s l d (file_block d cs (o / 512))).
  assert (Hsl : length sec1 = SECSIZE) by (apply view_bytes, (ao_cache _ _ _ _ H)).
  assert (Hcopy : fmemcpy mem at_ (drop (Z.to_nat (o mod 512)) sec1) x =
    Some (patch mem at_ (take (Z.to_nat x) (drop (Z.to_nat o) bytes)))).
  { unfold fmemcpy. rewrite length_drop, Hsl. unfold SECSIZE.
    rewrite !(proj2 (Z.leb_le _ _)) by lia. cbn [andb]. f_equal. unfold patch, content.
    replace (Z.to_nat o) with (SECSIZE * Z.to_nat (o / 512) + Z.to_nat (o mod 512))%nat by (unfold SECSIZE; lia).
    rewrite sectors_inside by (first [intros j; by apply view_bytes|unfold SECSIZE; lia]).
    rewrite Z.add_0_l, Z2Nat.id by lia.
    rewrite <- (shown s l o i (o / 512) H Hq). fold sec1.
    rewrite length_take, length_drop, Hsl. do 3 f_equal. unfold SECSIZE. lia. }
  rewrite Hcopy, run_opt. pose proof (mounted_frame _ _ _ _ _ Hf1 Hm) as Hm1.
  destruct (uncache_spec s1 (lru bp l) bp _ Hc1 Hin1 Hm1 Hb Hh1) as [Hc2 Hv2].
  assert (H2 : exists s2, (forall (A : Type) (f : unit -> K kst A),
      kbind (if (x =? BUFFERSIZE) || true && (u32 (o + x) =? size) then bmod bp (flag_on BFR_UNCACHE)
             else kret tt) f s1 = f tt s2) /\ at_off s2 (lru bp l) o i).
  { destruct (_ || _).
    - eexists. split; [intros A f; apply run_bmod; eapply ring_live; [apply Hc1|done]|].
      by apply (quiet_spec s1 (lru bp l)).
    - exists s1. split; [intros; apply run_ret|done]. }
  destruct H2 as (s2 & Hr2 & H2). rewrite Hr2.
  match goal with |- context [kbind (fnmod fnode0 ?g) ?f s2] =>
    destruct (seek_spec s2 _ o i (o + x) g f H2) as (s3 & Hr3 & H3) end.
  { intros m ->. f_equal. by rewrite u32_small by lia. }
  rewrite Hr3. exists x, s3, (lru bp l). split; [done|]. split; [lia|]. by split; [lia|].
Qed.

(** ** A round of the loop, and the loop *)

Lemma round_spec s l o i bseg ret to mem :
  at_off s l o i -> 0 <= o < size -> size < 2 ^ 32 -> size <= Z.of_nat (length bytes) -> 1 <= to < 65536 ->
  0 <= ret -> ret + to <= Z.of_nat (length mem) ->
  exists x s' l' i', rw_round fnode0 XFR_READ 512 bseg ret to mem s =
      Some (Rw.Moved x (patch mem ret (take (Z.to_nat x) (drop (Z.to_nat o) bytes))), s') /\
    1 <= x <= to /\ x <= size - o /\ at_off s' l' (o + x) i'.
Proof.
  intros H Ho Hsz Hlen Hto Hret Hmem. pose proof length_bytes as Hlb. pose proof (spc_pos d Hda) as Hspc.
  unfold rw_round. rewrite (run_fn_at _ _ _ _ _ H).
  cbn [fnode_at at_pos f_offset f_dir set_f_cluster_offset set_f_cluster set_f_offset].
  rewrite (proj2 (Z.leb_gt size o)) by lia. cbn [andb]. change (XFR_READ =? XFR_READ) with true. cbn [andb].
  assert (Hq : 0 <= o / 512 < Z.of_nat (length cs) * spc d) by divmod.
  assert (Hrel : 0 <= o / 512 / spc d < Z.of_nat (length cs)).
  { split; [apply Z.div_pos; lia|apply Z.div_lt_upper_bound; lia]. }
  destruct (map_spec s l o i H) as (s1 & l1 & Hr1 & H1); [lia|unfold rel; lia|].
  rewrite (run_eq _ _ _ _ _ Hr1). change (negb (SUCCESS =? SUCCESS)) with false. cbn iota.
  change (XFR_READ =? XFR_WRITE) with false. cbn iota. rewrite run_ret. change (512 =? 0) with false. cbn iota.
  rewrite (run_fn_at _ _ _ _ _ H1), (run_fdpb_at _ _ _ _ _ H1).
  cbn [fnode_at at_pos f_offset f_dir f_cluster set_f_cluster_offset set_f_cluster set_f_offset].
  assert (Es : Z.land (u8 (o / 512)) (dpb_clsmask d) = (o / 512) mod spc d).
  { rewrite (da_mask d Hda). unfold spc. by rewrite sector_mod by apply Hda. }
  rewrite Es.
  rewrite (u16_small (o mod 512)) by (pose proof (Z.mod_pos_bound o 512); lia).
  assert (Eb : u32 (clus2phys (cs !!! rel o) d + (o / 512) mod spc d) = file_block d cs (o / 512)).
  { destruct (file_block_ok (o / 512) Hq) as ([Hb _] & _). unfold file_block, rel in *. by rewrite u32_small by lia. }
  rewrite Eb. rewrite (u32_small (size - o)) by lia.
  set (wanted := (if size - o <? to then u16 (size - o) else to) / 512).
  assert (Ew : wanted = Z.min to (size - o) / 512).
  { unfold wanted. destruct (size - o <? to) eqn:E; zbool; [rewrite u16_small by lia|]; f_equal; lia. }
  clearbody wanted. destruct ((o mod 512 =? 0) && negb (wanted =? 0)) eqn:E.
  - apply andb_true_iff in E as [E1%Z.eqb_eq E2%negb_true_iff%Z.eqb_neq].
    assert (Eo : o = 512 * (o / 512)) by divmod.
    assert (Hw : 1 <= wanted /\ 512 * wanted <= Z.min to (size - o)).
    { rewrite Ew in *. split; [|divmod]. assert (0 <= Z.min to (size - o) / 512) by (apply Z.div_pos; lia). lia. }
    rewrite Eo in H1. rewrite <- Eo in H1 at 2.
    destruct (xfer_sectors_spec s1 l1 (o / 512) (rel o) wanted bseg mem ret H1)
      as (n & s2 & l2 & i2 & Hr2 & Hn & H2); try lia.
    rewrite (run_eq _ _ _ _ _ Hr2). exists (512 * n), s2, l2, i2. split.
    + unfold kret. do 4 f_equal. unfold content.
      replace (Z.to_nat (512 * n)) with (SECSIZE * Z.to_nat n)%nat by (unfold SECSIZE; lia).
      replace (Z.to_nat o) with (SECSIZE * Z.to_nat (o / 512))%nat by (unfold SECSIZE; lia).
      assert (Z.of_nat (length cs * Z.to_nat (spc d)) = Z.of_nat (length cs) * spc d) by lia.
      rewrite sectors_range by (first [intros j; by apply view_bytes|divmod]). by rewrite Z.add_0_l, Z2Nat.id by lia.
    + split; [lia|]. split; [lia|]. by replace (o + 512 * n) with (512 * (o / 512 + n)) by lia.
  - destruct (xfer_part_spec s1 l1 o (rel o) to mem ret H1) as (x & s2 & l2 & Hr2 & Hx1 & Hx2 & H2); try done.
    rewrite (run_eq _ _ _ _ _ Hr2). by exists x, s2, l2, (rel o).
Qed.

(** Two patches one behind the other. *)
Lemma patch_patch mem a n m bs :
  0 <= a -> 0 <= n -> 0 <= m -> n <= Z.of_nat (length bs) -> a + n <= Z.of_nat (length mem) ->
  patch (patch mem a (take (Z.to_nat n) bs)) (a + n) (take (Z.to_nat m) (drop (Z.to_nat n) bs)) =
    patch mem a (take (Z.to_nat (n + m)) bs).
Proof.
  intros Ha Hn Hm Hb Hl. unfold patch.
  assert (E1 : length (take (Z.to_nat n) bs) = Z.to_nat n) by (rewrite length_take; lia).
  assert (E2 : length (take (Z.to_nat a) mem) = Z.to_nat a) by (rewrite length_take; lia).
  rewrite E1. replace (Z.to_nat (a + n)) with (Z.to_nat a + Z.to_nat n)%nat by lia.
  replace (take (Z.to_nat (n + m)) bs) with (take (Z.to_nat n) bs ++ take (Z.to_nat m) (drop (Z.to_nat n) bs)).
  2:{ replace (Z.to_nat (n + m)) with (Z.to_nat n + Z.to_nat m)%nat by lia. by rewrite take_take_drop. }
  rewrite (app_assoc (take (Z.to_nat a) mem)).
  assert (E3 : length (take (Z.to_nat a) mem ++ take (Z.to_nat n) bs) = (Z.to_nat a + Z.to_nat n)%nat)
    by (rewrite length_app; lia).
  rewrite take_app_length', <- drop_drop, drop_app_length', drop_drop by done.
  rewrite <- !app_assoc, length_app, E1. do 4 f_equal. lia.
Qed.

Lemma patch_nil mem a : 0 <= a <= Z.of_nat (length mem) -> patch mem a [] = mem.
Proof. intros Ha. unfold patch. rewrite Nat.add_0_r. cbn [app]. apply take_drop. Qed.

Lemma length_patch mem a bs :
  0 <= a -> a + Z.of_nat (length bs) <= Z.of_nat (length mem) -> length (patch mem a bs) = length mem.
Proof. intros Ha Hl. unfold patch. rewrite !length_app, length_take, length_drop. lia. Qed.

(** The number of bytes that are read. *)
Definition amount (o count : Z) : Z := Z.max 0 (Z.min count (size - o)).

Lemma rw_loop_spec fuel s l o i buffer ret count mem :
  at_off s l o i -> 0 <= o -> size < 2 ^ 32 -> size <= Z.of_nat (length bytes) ->
  0 <= ret <= count -> count < 65536 -> count <= Z.of_nat (length mem) -> (Z.to_nat (count - ret) < fuel)%nat ->
  exists s' l' i', let n := amount o (count - ret) in
    rw_loop fuel fnode0 XFR_READ 512 buffer ret (count - ret) count mem s =
      (do! fnode_to_sft fnode0 in
       kret (ret + n, patch mem ret (take (Z.to_nat n) (drop (Z.to_nat o) bytes)))) s' /\
    at_off s' l' (o + n) i'.
Proof.
  revert s l o i buffer ret mem. induction fuel as [|fuel IH];
    intros s l o i buffer ret mem H Ho Hsz Hlen Hret Hcnt Hmem Hf; [lia|]. cbn [rw_loop].
  destruct (ret <? count) eqn:E; cbn [negb]; zbool.
  2:{ exists s, l, i. cbv zeta. assert (amount o (count - ret) = 0) as -> by (unfold amount; lia).
      rewrite take_0, patch_nil, !Z.add_0_r by lia. by replace (count - ret) with 0 by lia. }
  destruct (decide (size <= o)) as [Hend|Hend].
  - exists s, l, i. cbv zeta. assert (amount o (count - ret) = 0) as -> by (unfold amount; lia).
    rewrite take_0, patch_nil, !Z.add_0_r by lia. split; [|done].
    unfold rw_round. rewrite run_assoc, (run_fn_at _ _ _ _ _ H).
    cbn [fnode_at at_pos f_offset f_dir set_f_cluster_offset set_f_cluster set_f_offset].
    rewrite (proj2 (Z.leb_le size o)) by lia. change (XFR_READ =? XFR_READ) with true. cbn [andb].
    rewrite run_assoc. unfold kbind. by destruct (fnode_to_sft fnode0 s) as [[? ?]|].
  - destruct (round_spec s l o i (fst buffer) ret (count - ret) mem H)
      as (x & s1 & l1 & i1 & Hr1 & Hx1 & Hx2 & H1); try lia.
    rewrite (run_eq _ _ _ _ _ Hr1). change (XFR_READ =? XFR_WRITE) with false. cbn iota. rewrite run_ret.
    rewrite (u16_small (ret + x)), (u16_small (count - ret - x)) by lia. replace (count - ret - x) with (count - (ret + x)) by lia.
    set (mem1 := patch mem ret _).
    assert (Hb : x <= Z.of_nat (length (drop (Z.to_nat o) bytes))) by (rewrite length_drop; lia).
    assert (Hl1 : length mem1 = length mem) by (apply length_patch; [lia|rewrite length_take; lia]).
    destruct (IH s1 l1 (o + x) i1 (Mm.adjust_far (fst buffer, u16 (snd buffer + x))) (ret + x) mem1 H1)
      as (s' & l' & i' & Hr & H'); try lia. cbv zeta in *.
    exists s', l', i'. rewrite Hr.
    assert (Ea : amount o (count - ret) = x + amount (o + x) (count - (ret + x))) by (unfold amount; lia).
    rewrite Ea. split; [|by rewrite Z.add_assoc].
    unfold mem1. replace (Z.to_nat (o + x)) with (Z.to_nat o + Z.to_nat x)%nat by lia.
    rewrite <- drop_drop, patch_patch, Z.add_assoc by (unfold amount; lia). done.
Qed.

End Reading.
End Spec.
End RwSpec.
