(* ===== verification/Path.v ===== *)
(** * Path names (kernel/newstuff.c; parts of dosfns.c and nls.c)

    [truename] makes a path as a program gives it into a full one: upper case,
    backslashes, no empty, [.] or [..] components, names cut to 8.3, the drive
    with its current directory, SUBST and JOIN resolved.  The destination is
    an array of 128 bytes with an index into it ([cur]); the source is the
    list of its characters before the NUL. *)

From S2P Require Import Prelude KState BlockIO FatTab FNode FatAlloc Clock Media FatDir FatFile.
Import Ks Bio Fat FNode Alloc Clk Media Dir File.

Module Path.

Definition SFTMAX := 128.
Definition FNAME_SIZE := 8.
Definition FEXT_SIZE := 3.
Definition SLASH := 0x2f.
Definition COLON := 0x3a.
Definition IS_DEVICE := 0x20.
Definition IS_NETWORK := 0x40.
Definition CDS_MODE_SKIP_PHYSICAL := 0x01.
Definition CDS_MODE_CHECK_DEV_PATH := 0x02.
Definition CDS_MODE_ALLOW_WILDCARDS := 0x04.
Definition CDSJOINED := 0x2000.
Definition CDSSUBST := 0x1000.
Definition ATTR_CHAR := 0x8000.
Definition PNE_WILDCARD := 1.
Definition PNE_DOT := 2.
Definition NLS_FLAG_DIRECT_UPCASE := 0x0001.
Definition NLS_FLAG_DIRECT_FUPCASE := 0x0002.

(** ** The state *)

(** A device driver's header; [dh_self] is its address. *)
Record dhdr := Dhdr { dh_self : Z; dh_attrib : Z; dh_name : list Z }.

(** The active package of national language support: its flags and the tables
    2 and 4 for the characters from 0x80 on. *)
Record nlsPackage := NlsPackage { nls_flags : Z; nls_tbl2 : list Z; nls_tbl4 : list Z }.

(** [current_ldt]: an entry of the table of drives, a null pointer, or the
    mark for UNC paths. *)
Inductive ldt := LdtNull | LdtUnc | Ldt (drive : Z).

(** What lies outside the C code: the redirector that may qualify a name (the
    result, the buffer and the world), and the language support of INT 2Fh. *)
Class Shell {M : Machine} := {
  QRemote_Fn : list Z -> list Z -> world -> Z * list Z * world;
  muxUpMem : Z -> list Z -> world -> list Z * world }.

Record pst {M : Machine} := Pst {
  kern : kst;
  default_drive : Z;
  current_ldt : ldt;
  TempCDS : cds;
  njoined : Z;
  os_major : Z;
  devices : list dhdr;
  actPkg : nlsPackage }.

Definition set_kern {M : Machine} v (s : pst) : pst :=
  Pst M v (default_drive s) (current_ldt s) (TempCDS s) (njoined s) (os_major s) (devices s) (actPkg s).
Definition set_current_ldt {M : Machine} v (s : pst) : pst :=
  Pst M (kern s) (default_drive s) v (TempCDS s) (njoined s) (os_major s) (devices s) (actPkg s).
Definition set_TempCDS {M : Machine} v (s : pst) : pst :=
  Pst M (kern s) (default_drive s) (current_ldt s) v (njoined s) (os_major s) (devices s) (actPkg s).

(** A computation of the file system. *)
Definition lift {M : Machine} {A} (m : K kst A) : K pst A := fun s =>
  match m (kern s) with Some (a, k) => Some (a, set_kern k s) | None => None end.

(** Early returns: [inl rc] ends the function. *)
Definition try {S A B} (m : K S (Z + A)) (f : A -> K S (Z + B)) : K S (Z + B) :=
  let! r := m in match r with inl rc => kret (inl rc) | inr a => f a end.
Notation "'try!' x := m 'in' k" := (try m (fun x => k))
  (at level 10, x pattern, m at level 100, k at level 200) : k_scope.

(** ** Characters *)

Definition is_slash (c : Z) : bool := (c =? SLASH) || (c =? BACKSLASH).
(** [strchr(s, c)] for [c] not NUL, as an index. *)
Fixpoint strchr (s : list Z) (c : Z) : option nat :=
  match s with
  | [] => None
  | x :: s' => if x =? c then Some O else S <$> strchr s' c
  end.
Definition strchr_slash (s : list Z) : option nat :=
  match strchr s BACKSLASH with Some i => Some i | None => strchr s SLASH end.

Definition PATH_ERROR (src : list Z) : Z :=
  match strchr src SLASH, strchr src BACKSLASH with
  | None, None => DE_FILENOTFND
  | _, _ => DE_PATHNOTFND
  end.

Definition DirChars : list Z := [0x22; 0x5b; 0x5d; 0x3a; 0x7c; 0x3c; 0x3e; 0x2b; 0x3d; 0x3b; 0x2c].
Definition DirChar (c : Z) : bool := (0x20 <=? c) && negb (bool_decide (c ∈ DirChars)).

Definition drLetterToNr (c : Z) : Z := u8 (c - 0x41).
Definition drNrToLetter (n : Z) : Z := u8 (n + 0x41).

(** [upMMem] for one character. *)
Definition upMM (map_ : list Z) (c : Z) : option Z :=
  if (0x61 <=? c) && (c <=? 0x7a) then Some (c - 0x20)
  else if 0x7f <? c then map_ !! Z.to_nat (c - 0x80) else Some c.
Definition upMMem (map_ : list Z) (str : list Z) : option (list Z) := mapM (upMM map_) str.

(** The part of a name behind its last separator. *)
Fixpoint root_loop (length_ : nat) (fname : list Z) : nat :=
  match length_ with
  | O => O
  | S l => let c := fname !!! l in
           if is_slash c || (c =? COLON) then length_ else root_loop l fname
  end.
Definition get_root (fname : list Z) : nat := root_loop (length fname) fname.

(** ** The destination *)

Record cur := Cur { dest : list Z; ptr : Z }.
Definition dget (i : Z) : K cur Z := fun s => (let! c := kopt (fgetbyte (dest s) i) in kret c) s.
Definition dput (i v : Z) : K cur unit :=
  let! s := kget in
  let! b := kopt (fputbyte i v (dest s)) in
  kmod (fun _ => Cur b (ptr s)).
Definition pmove (f : Z -> Z) : K cur unit := kmod (fun s => Cur (dest s) (f (ptr s))).

Definition addChar (src : list Z) (c : Z) : K cur (Z + unit) :=
  let! s := kget in
  if SFTMAX <=? ptr s then kret (inl (PATH_ERROR src)) else
  do! dput (ptr s) c in
  do! pmove (fun p => p + 1) in
  kret (inr tt).

(** [strcpy(dest + i, str)]. *)
Definition dstrcpy (i : Z) (str : list Z) : K cur unit :=
  let! s := kget in
  let! b := kopt (fmemcpy (dest s) i (str ++ [0]) (Z.of_nat (length str) + 1)) in
  kmod (fun _ => Cur b (ptr s)).
(** The string at [dest + i]; it must end inside the array. *)
Definition dstr (i : Z) : K cur (list Z) :=
  let! s := kget in
  let l := drop (Z.to_nat i) (dest s) in
  if (0 <=? i) && bool_decide (0 ∈ l) then kret (cstr l) else kstuck.

Fixpoint unc_loop (src unc_src : list Z) : K cur (Z + unit) :=
  match unc_src with
  | [] => addChar src 0
  | c :: unc_src => try! _ := addChar src c in unc_loop src unc_src
  end.

(** ** The path that the caller gave *)

(** [while (i) { --i; addChar('?'); }]. *)
Fixpoint fill (src : list Z) (i : nat) : K cur (Z + unit) :=
  match i with
  | O => kret (inr tt)
  | S i => try! _ := addChar src 0x3f in fill src i
  end.

Definition at_end (src : list Z) : bool := match src with [] => true | c :: _ => is_slash c end.

(** The loop over one component: the rest of the source and the state. *)
Fixpoint name_loop (src : list Z) (i : nat) (state : Z) : K cur (Z + (list Z * Z)) :=
  match src with
  | [] => kret (inr ([], state))
  | c :: src' =>
      if is_slash c then kret (inr (src, state)) else
      let star := c =? 0x2a in
      let c := if star then 0x3f else c in
      try! _ := (if star then fill src' i else kret (inr tt)) in
      let i := if star then O else i in
      if (c =? DOT) && has state PNE_DOT then kret (inl (PATH_ERROR src')) else
      if (c =? DOT) && at_end src' then kret (inr (src', state)) else
      let state := if c =? DOT then Z.lor state PNE_DOT
                   else if c =? 0x3f then Z.lor state PNE_WILDCARD else state in
      let i := if c =? DOT then Z.to_nat (FEXT_SIZE + 1) else i in
      match i with
      | O => name_loop src' O state
      | S i =>
          if negb (DirChar c) then kret (inl (PATH_ERROR src')) else
          try! _ := addChar src' c in
          name_loop src' i state
      end
  end.

Fixpoint skip_slashes (src : list Z) : list Z :=
  match src with c :: src' => if is_slash c then skip_slashes src' else src | [] => [] end.

(** [while ( *--p != '\\') if (p <= rootPos) return ...]. *)
Fixpoint dotdot_loop (fuel : nat) (rootPos : Z) : K cur (Z + unit) :=
  match fuel with
  | O => kstuck
  | S fuel' =>
      do! pmove (fun p => p - 1) in
      let! s := kget in
      let! c := dget (ptr s) in
      if c =? BACKSLASH then kret (inr tt) else
      if ptr s <=? rootPos then kret (inl DE_PATHNOTFND) else dotdot_loop fuel' rootPos
  end.

(** One or two dots at the start of a component, and what follows them. *)
Definition leading_dots (src : list Z) : option (Z * list Z) :=
  match src with
  | c :: src1 =>
      if c =? DOT then
        match src1 with
        | c2 :: src2 => if c2 =? DOT then Some (2, src2) else Some (1, src1)
        | [] => Some (1, [])
        end
      else None
  | [] => None
  end.

Definition dotdot (rootPos : Z) : K cur (Z + unit) :=
  let! s := kget in dotdot_loop (S (Z.to_nat (ptr s))) rootPos.

(** The separator of the next component, unless it is there. *)
Definition add_sep (src : list Z) (rootPos : Z) : K cur (Z + unit) :=
  let! s := kget in
  let! last := dget (ptr s - 1) in
  let! r := dget rootPos in
  if negb (last =? r) then addChar src r else kret (inr tt).

Fixpoint seg_loop (fuel : nat) (rootPos : Z) (src : list Z) (state : Z) : K cur (Z + Z) :=
  match fuel with
  | O => kstuck
  | S fuel' =>
      match src with
      | [] => kret (inr state)
      | _ =>
          if has state PNE_WILDCARD then kret (inl DE_PATHNOTFND) else
          try! _ := add_sep src rootPos in
          let src := skip_slashes src in
          match leading_dots src with
          | Some (dots, src) =>
              if negb (at_end src) then kret (inl (PATH_ERROR src)) else
              do! pmove (fun p => p - 1) in
              try! _ := (if dots =? 2 then dotdot rootPos else kret (inr tt)) in
              seg_loop fuel' rootPos src state
          | None =>
              try! r := name_loop src (Z.to_nat FNAME_SIZE) (clear state PNE_DOT) in
              seg_loop fuel' rootPos (fst r) (snd r)
          end
      end
  end.

(** ** Upper case *)

Section Path.
Context {M : Machine} {Sh : Shell}.

Definition on_world {A} (f : world -> A * world) : K pst A := fun s =>
  let '(a, w) := f (dev (kern s)) in Some (a, set_kern (set_dev w (kern s)) s).

Definition NLSFUNC_UPMEM := 0x22.
Definition NLSFUNC_FILE_UPMEM := 0xA2.

Definition DosUpFMem (str : list Z) : K pst (list Z) :=
  let! s := kget in
  if has (nls_flags (actPkg s)) NLS_FLAG_DIRECT_FUPCASE then kopt (upMMem (nls_tbl4 (actPkg s)) str)
  else on_world (muxUpMem NLSFUNC_FILE_UPMEM str).
Definition DosUpMem (str : list Z) : K pst (list Z) :=
  let! s := kget in
  if has (nls_flags (actPkg s)) NLS_FLAG_DIRECT_UPCASE then kopt (upMMem (nls_tbl2 (actPkg s)) str)
  else on_world (muxUpMem NLSFUNC_UPMEM str).
Definition DosUpFChar (c : Z) : K pst Z :=
  let! l := DosUpFMem [c] in kopt (l !! 0%nat).

(** ** Devices *)

(** From one character of the two names on. *)
Fixpoint same_device (name froot : list Z) : K pst bool :=
  match name with
  | [] => kret true
  | n :: name' =>
      match froot with
      | [] => kret (forallb (fun c => (c =? SPACE) || (c =? 0)) name)
      | c :: froot' =>
          if c =? DOT then kret (forallb (fun c => (c =? SPACE) || (c =? 0)) name) else
          let! a := DosUpFChar c in
          let! b := DosUpFChar n in
          if negb (a =? b) then kret false else same_device name' froot'
      end
  end.

Fixpoint device_loop (devs : list dhdr) (froot : list Z) : K pst (option dhdr) :=
  match devs with
  | [] => kret None
  | dhp :: devs =>
      if negb (has (dh_attrib dhp) ATTR_CHAR) then device_loop devs froot else
      let! eq := same_device (take (Z.to_nat FNAME_SIZE) (dh_name dhp)) froot in
      if eq then kret (Some dhp) else device_loop devs froot
  end.

Definition IsDevice (fname : list Z) : K pst (option dhdr) :=
  let froot := drop (get_root fname) fname in
  if bool_decide (froot = []) || bool_decide (froot = [DOT]) || bool_decide (froot = [DOT; DOT])
  then kret None else
  let! s := kget in
  device_loop (devices s) froot.

(** ** truename *)

(** [src] names a device on a drive that does not exist: only "X:name" and
    "X:\DEV\name" pass. *)
Definition bare_device (src : list Z) : bool :=
  let c := default 0 (src !! 2%nat) in
  let s := match drop 3 src with [] => None | l => strchr_slash l end in
  if negb (is_slash c) then bool_decide (s = None)
  else match s with
       | Some 3%nat =>
           bool_decide (take 3 (drop 3 src) = [0x44; 0x45; 0x56]) &&
           bool_decide (strchr_slash (drop 7 src) = None)
       | _ => false
       end.

(** The number of the drive of the path. *)
Definition path_letter (src : list Z) : K pst Z :=
  let! src1 := kopt (chr src 1) in
  let! s := kget in
  if src1 =? COLON then let! c := DosUpFChar (default 0 (src !! 0%nat)) in kret (drLetterToNr c)
  else kret (default_drive s).

(** That drive, or the current one for a device, and its entry. *)
Definition path_drive (src : list Z) (result : Z) (dhp : option dhdr) (mode : Z) : K pst (Z + (Z * cds)) :=
  let! cdsEntry := lift (get_cds result) in
  match cdsEntry with
  | Some c => kret (inr (result, c))
  | None =>
      let! s := kget in
      if bool_decide (is_Some dhp) && has mode CDS_MODE_CHECK_DEV_PATH
         && (lastdrive (env (kern s)) <=? result) && bare_device src then
        let result := default_drive s in
        let! cdsEntry := lift (get_cds result) in
        match cdsEntry with
        | Some c => kret (inr (result, c))
        | None => kret (inl DE_PATHNOTFND)
        end
      else kret (inl DE_PATHNOTFND)
  end.

(** Runs a part that works on the destination only. *)
Definition on_dest {A} (m : K cur A) (c : cur) : K pst (A * cur) := kopt (m c).

(** A device without a path, or in the directory \DEV: the source from the
    name on, and the result without the network mark. *)
Definition device_prefix (src : list Z) (result : Z) : cur -> K pst ((list Z * Z) * cur) := fun c =>
  let froot := get_root src in
  if negb ((froot =? 0)%nat || (froot =? 5)%nat) then kret ((src, result), c) else
  let! c :=
    (if (froot =? 5)%nat then
       let! up := DosUpMem (take 5 src) in
       let flip x := if x =? SLASH then BACKSLASH else x in
       let! b := kopt (fmemcpy (dest c) 3 up 5) in
       let! c3 := kopt (fgetbyte b 3) in
       let! b := kopt (fputbyte 3 (flip c3) b) in
       let! c7 := kopt (fgetbyte b 7) in
       let! b := kopt (fputbyte 7 (flip c7) b) in
       kret (Cur b (ptr c))
     else kret c) in
  if (froot =? 0)%nat || bool_decide (take 5 (drop 3 (dest c)) = [BACKSLASH; 0x44; 0x45; 0x56; BACKSLASH]) then
    let! b := kopt (fputbyte 2 SLASH (dest c)) in
    kret ((drop froot src, clear result IS_NETWORK), Cur b (ptr c))
  else kret ((src, result), c).

(** The current directory has to exist; otherwise the root becomes it, in the
    copy and in the entry itself. *)
Definition check_cwd (drive : Z) : K pst bool :=
  let! s := kget in
  let t := TempCDS s in
  if has (cdsFlags t) CDSNETWDRV then kret true else
  let! rc := lift (media_check (cdsDpb t)) in
  if rc <? 0 then kret false else
  let! rc := lift (dos_cd (cstr (cdsCurrentPath t))) in
  do! (if rc =? SUCCESS then kret tt else
         let off := cdsBackslashOffset t + 1 in
         let! path := kopt (fputbyte off 0 (cdsCurrentPath t)) in
         let! s := kget in
         let! e := kopt (CDSp (kern s) !! drive) in
         let! epath := kopt (fputbyte off 0 (cdsCurrentPath e)) in
         do! kmod (set_TempCDS (Cds path (cdsFlags t) (cdsDpb t) (cdsStrtClst t) (cdsBackslashOffset t))) in
         do! lift (kmod (fun k => set_CDSp (<[drive := Cds epath (cdsFlags e) (cdsDpb e) (cdsStrtClst e)
                                                (cdsBackslashOffset e)]> (CDSp k)) k)) in
         let! _ := lift (dos_cd (cstr path)) in
         kret tt) in
  kret true.

(** The destination starts with the current directory of the drive, or with
    its root when the path is absolute; the result, the position of the root's
    backslash and the rest of the source. *)
Definition put_cwd (src : list Z) (mode lastdrv result : Z) (t : cds) : K cur (Z * Z * list Z) :=
  let cp := cstr (cdsCurrentPath t) in
  let off := cdsBackslashOffset t in
  let! r :=
    (if negb (has mode CDS_MODE_SKIP_PHYSICAL) then
       do! dstrcpy 0 cp in
       let! d0 := dget 0 in
       let! d1 := dget 1 in
       let result := if has (cdsFlags t) CDSSUBST && (d1 =? COLON) && (drLetterToNr d0 <? lastdrv)
                     then Z.lor (Z.land result 0xffe0) (drLetterToNr d0) else result in
       kret (result, off)
     else
       let! cp := kopt (if (0 <=? off) && (off <=? Z.of_nat (length cp))
                        then Some (drop (Z.to_nat off) cp) else None) in
       do! dstrcpy 2 cp in
       kret (result, 2)) in
  let '(result, rootPos) := r in
  do! pmove (fun _ => rootPos) in
  let! c := dget rootPos in
  do! (if c =? 0 then dput (rootPos + 1) 0 else kret tt) in
  do! dput rootPos BACKSLASH in
  let! src :=
    (if match src with c :: _ => is_slash c | [] => false end then kret (drop 1 src)
     else let! l := dstr rootPos in
          do! pmove (fun p => p + Z.of_nat (length l)) in kret src) in
  let! s := kget in
  let! last := dget (ptr s - 1) in
  do! (if last =? BACKSLASH then pmove (fun p => p - 1) else kret tt) in
  kret (result, rootPos, src).

(** The path behind it, and the NUL. *)
Definition put_path (src : list Z) (rootPos mode : Z) : K cur (Z + unit) :=
  try! state := seg_loop (S (length src)) rootPos src 0 in
  if has state PNE_WILDCARD && negb (has mode CDS_MODE_ALLOW_WILDCARDS) then kret (inl DE_PATHNOTFND) else
  let! s := kget in
  try! _ := (if ptr s =? 2 then addChar [] BACKSLASH else kret (inr tt)) in
  let! s := kget in
  do! dput (ptr s) 0 in
  kret (inr tt).

(** [DosUpFString(rootPos)]. *)
Definition up_path (rootPos : Z) (c : cur) : K pst cur :=
  let! r := on_dest (dstr rootPos) c in
  let! up := DosUpFMem (fst r) in
  let! b := kopt (fmemcpy (dest c) rootPos up (Z.of_nat (length (fst r)))) in
  kret (Cur b (ptr c)).

(** The search for a drive that is joined to a prefix of the path, from drive
    [i] on; [n] drives are left. *)
Fixpoint join_loop (n : nat) (i result : Z) (c : cur) : K pst (option Z * cur) :=
  match n with
  | O => kret (None, c)
  | S n' =>
      let! s := kget in
      let! cdsp := kopt (CDSp (kern s) !! i) in
      let path := cstr (cdsCurrentPath cdsp) in
      let j := Z.of_nat (length path) in
      let! dj := kopt (fgetbyte (dest c) j) in
      if has (cdsFlags cdsp) CDSJOINED && ((dj =? BACKSLASH) || (dj =? 0))
         && bool_decide (take (length path) (dest c) = path) then
        let join : K cur unit :=
          do! dput 0 (drNrToLetter i) in
          do! dput 1 COLON in
          let! dj := dget j in
          if dj =? 0 then do! dput 2 BACKSLASH in dput 3 0
          else if negb (j =? 2) then let! l := dstr j in dstrcpy 2 l
          else kret tt in
        let! r := on_dest join c in
        let result := clear (Z.lor (Z.land result 0xffe0) i) IS_NETWORK in
        do! kmod (set_current_ldt (Ldt i)) in
        kret (Some (if has (cdsFlags cdsp) CDSNETWDRV then Z.lor result IS_NETWORK else result), snd r)
      else join_loop n' (i + 1) result c
  end.

(** What is left when the path is complete. *)
Definition finish_path (mode result : Z) (c : cur) : K pst (Z * cur) :=
  let! d2 := kopt (fgetbyte (dest c) 2) in
  let! s := kget in
  let! r :=
    (if negb (d2 =? SLASH) && negb (has mode CDS_MODE_SKIP_PHYSICAL) && negb (njoined s =? 0)
     then join_loop (Z.to_nat (lastdrive (env (kern s)))) 0 result c else kret (None, c)) in
  let '(joined, c) := r in
  match joined with
  | Some result => kret (result, c)
  | None =>
      let plain_device := Z.land result (Z.lor IS_DEVICE IS_NETWORK) =? IS_DEVICE in
      let! found :=
        (if has mode CDS_MODE_CHECK_DEV_PATH && plain_device && negb (d2 =? SLASH)
         then lift (dir_exists (cstr (dest c))) else kret true) in
      if negb found then kret (DE_PATHNOTFND, c) else
      kret (if mode =? CDS_MODE_ALLOW_WILDCARDS then
              if (os_major s =? 6) && plain_device then 0x3a00 else 0
            else result, c)
  end.

(** The local mapper: from the drive on. *)
Definition local_truename (src : list Z) (mode drive result : Z) (c : cur) : K pst (Z * cur) :=
  let start : K cur unit :=
    do! dput 0 (drNrToLetter (Z.land result 0x1f)) in
    do! dput 1 COLON in
    dput 2 BACKSLASH in
  let! src1 := kopt (chr src 1) in
  let! r := on_dest start c in
  let c := snd r in
  let src := if src1 =? COLON then drop 2 src else src in
  let! r := (if has result IS_DEVICE then device_prefix src result c else kret ((src, result), c)) in
  let '((src, result), c) := r in
  let! d2 := kopt (fgetbyte (dest c) 2) in
  let! r :=
    (if negb (d2 =? SLASH) then
       let! s := kget in
       let t := TempCDS s in
       let! path := kopt (fputbyte (MAX_CDSPATH - 1) 0 (cdsCurrentPath t)) in
       do! kmod (set_TempCDS (Cds path (cdsFlags t) (cdsDpb t) (cdsStrtClst t) (cdsBackslashOffset t))) in
       let! ok := check_cwd drive in
       if negb ok then kret (None, c) else
       let! s := kget in
       let! r := on_dest (put_cwd src mode (lastdrive (env (kern s))) result (TempCDS s)) c in
       kret (Some (fst r), snd r)
     else kret (Some (result, 2, src), Cur (dest c) 2)) in
  match r with
  | (None, c) => kret (DE_PATHNOTFND, c)
  | (Some (result, rootPos, src), c) =>
      let! r := on_dest (put_path src rootPos mode) c in
      match r with
      | (inl rc, c) => kret (rc, c)
      | (inr _, c) => let! c := up_path rootPos c in finish_path mode result c
      end
  end.

(** The result and the destination. *)
Definition truename (src dst : list Z) (mode : Z) : K pst (Z * list Z) :=
  match src with
  | [] => kret (DE_FILENOTFND, dst)
  | c0 :: src' =>
      let! c1 := kopt (chr src 1) in
      if (c0 =? BACKSLASH) && (c1 =? BACKSLASH) then
        let! r := on_dest (unc_loop src src) (Cur dst 0) in
        match r with
        | (inl rc, c) => kret (rc, dest c)
        | (inr _, c) => do! kmod (set_current_ldt LdtUnc) in kret (IS_NETWORK, dest c)
        end
      else
      let! result := path_letter src in
      let! dhp := IsDevice src in
      let! r := path_drive src result dhp mode in
      match r with
      | inl rc => kret (rc, dst)
      | inr (drive, cdsEntry) =>
          do! kmod (set_TempCDS cdsEntry) in
          do! kmod (set_current_ldt (Ldt drive)) in
          let result := if has (cdsFlags cdsEntry) CDSNETWDRV then Z.lor drive IS_NETWORK else drive in
          let result := if bool_decide (is_Some dhp) then Z.lor result IS_DEVICE else result in
          let! dst := kopt (fputbyte 0 0 dst) in
          let! remote :=
            (if negb (has mode CDS_MODE_SKIP_PHYSICAL) then
               let! r := on_world (fun w => let '(rc, d, w) := QRemote_Fn dst src w in ((rc, d), w)) in
               kret (Some r)
             else kret None) in
          let dst := match remote with Some (_, d) => d | None => dst end in
          let! d0 := kopt (fgetbyte dst 0) in
          if match remote with Some (rc, _) => (rc =? SUCCESS) && negb (d0 =? 0) | None => false end then
            let! d2 := kopt (fgetbyte dst 2) in
            kret (if (d2 =? SLASH) && has result IS_DEVICE then clear result IS_NETWORK else result, dst)
          else
            let! r := local_truename src mode drive result (Cur dst 0) in
            kret (fst r, dest (snd r))
      end
  end.
End Path.
End Path.
