(* ===== verification/PathSpec.v ===== *)
(** * Path names: the reference and the lemmas

    A path is a list of names behind a fixed beginning (a drive, or what a
    substituted drive stands for).  [resolve] is what the components of a
    source do to that list; the lemmas show that the loops of [truename] do
    it in the array of 128 bytes, and fail exactly where the list gets too
    long or [resolve] fails. *)

From S2P Require Import Prelude KState FatDir FatFile Path.
Import Ks Dir File Path.

Module PathSpec.

(** ** The reference *)

(** At most [k] characters of a name; a star stands for what is left. *)
Fixpoint expand (k : nat) (l : list Z) {struct l} : list Z :=
  match l with
  | [] => []
  | c :: l' =>
      if c =? 0x2a then replicate k 0x3f
      else match k with O => [] | S k' => c :: expand k' l' end
  end.

Definition is_wild (c : Z) : bool := (c =? 0x2a) || (c =? 0x3f).
Definition wild (w : list Z) : bool := existsb is_wild w.

(** The characters before the first dot, and those behind it. *)
Fixpoint split_dot (w : list Z) : list Z * option (list Z) :=
  match w with
  | [] => ([], None)
  | c :: w' => if c =? DOT then ([], Some w')
               else let '(b, e) := split_dot w' in (c :: b, e)
  end.

(** A component in 8.3 form; [None] if it is not well formed. *)
Definition name83 (w : list Z) : option (list Z) :=
  let n := match split_dot w with
           | (b, None) => Some (expand 8 b)
           | (b, Some e) => if bool_decide (e = []) then Some (expand 8 b)
                            else if bool_decide (DOT ∈ e) then None
                            else Some (expand 8 b ++ DOT :: expand 3 e)
           end in
  match n with
  | Some n => if forallb DirChar n then Some n else None
  | None => None
  end.

(** The next component, and what follows it. *)
Fixpoint word (s : list Z) : list Z :=
  match s with [] => [] | c :: s' => if is_slash c then [] else c :: word s' end.
Fixpoint after (s : list Z) : list Z :=
  match s with [] => [] | c :: s' => if is_slash c then s else after s' end.

(** The components of a source; a last empty one stands for separators at the
    end. *)
Fixpoint segs (fuel : nat) (src : list Z) : list (list Z) :=
  match fuel with
  | O => []
  | S fuel' =>
      match src with
      | [] => []
      | _ => word (skip_slashes src) :: segs fuel' (after (skip_slashes src))
      end
  end.
Definition components (src : list Z) : list (list Z) := segs (length src) src.

Definition render (cs : list (list Z)) : list Z := concat (map (cons BACKSLASH) cs).

Definition ROOM : nat := 128.

(** What the components do to the names [cs] behind a beginning of [n]
    characters; the flag says that the last name has wildcards. *)
Fixpoint resolve (n : nat) (ss cs : list (list Z)) (w : bool) : option (list (list Z) * bool) :=
  match ss with
  | [] => Some (cs, w)
  | s :: ss' =>
      if w || bool_decide (ROOM <= n + length (render cs))%nat then None
      else if bool_decide (s = []) then match ss' with [] => Some (cs ++ [[]], false) | _ => None end
      else if bool_decide (s = [DOT]) then resolve n ss' cs false
      else if bool_decide (s = [DOT; DOT]) then
        match cs with [] => None | _ => resolve n ss' (removelast cs) false end
      else if bool_decide (head s = Some DOT) then None
      else match name83 s with
           | Some m => if bool_decide (n + length (render (cs ++ [m])) <= ROOM)%nat
                       then resolve n ss' (cs ++ [m]) (wild s) else None
           | None => None
           end
  end.

(** ** Words *)

Lemma exists_last' {A} (l : list A) : l = [] \/ exists l' x, l = l' ++ [x].
Proof.
  destruct (decide (l = [])) as [|H]; [by left|right].
  destruct (exists_last H) as (l' & x & ->). by exists l', x.
Qed.


Lemma word_after s : s = word s ++ after s.
Proof. induction s as [|c s IH]; [done|]. cbn. destruct (is_slash c); [done|]. cbn. by f_equal. Qed.
Lemma after_end s : at_end (after s) = true.
Proof. induction s as [|c s IH]; [done|]. cbn. destruct (is_slash c) eqn:E; [|done]. by cbn. Qed.
Lemma word_no_slash s : Forall (fun c => is_slash c = false) (word s).
Proof.
  induction s as [|c s IH]; [by constructor|]. cbn. destruct (is_slash c) eqn:E; [by constructor|].
  by constructor.
Qed.
Lemma skip_length s : (length (skip_slashes s) <= length s)%nat.
Proof. induction s as [|c s IH]; [done|]. cbn. destruct (is_slash c); [lia|done]. Qed.
Lemma after_length s : (length (after s) <= length s)%nat.
Proof. rewrite (word_after s) at 2. rewrite length_app. lia. Qed.
Lemma skip_bytes (P : Z -> Prop) s : Forall P s -> Forall P (skip_slashes s).
Proof. induction 1 as [|c s Hc Hs IH]; [by constructor|]. cbn. destruct (is_slash c); [done|by constructor]. Qed.
Lemma skip_head s c s' : skip_slashes s = c :: s' -> is_slash c = false.
Proof.
  induction s as [|x s IH]; [done|]. cbn. destruct (is_slash x) eqn:E; [done|]. by intros [= <- <-].
Qed.
Lemma word_nil s : word (skip_slashes s) = [] -> skip_slashes s = [].
Proof.
  destruct (skip_slashes s) as [|c s'] eqn:E; [done|]. cbn. by rewrite (skip_head _ _ _ E).
Qed.

(** A step takes at least one character. *)
Lemma step_length s : s <> [] -> (length (after (skip_slashes s)) < length s)%nat.
Proof.
  intros Hs. destruct (skip_slashes s) as [|c s'] eqn:E.
  - cbn. destruct s; [done|cbn; lia].
  - pose proof (skip_head _ _ _ E) as Hc. cbn. rewrite Hc.
    pose proof (after_length s'). pose proof (skip_length s) as Hl. rewrite E in Hl. cbn in Hl. lia.
Qed.

Lemma segs_fuel f s : (length s <= f)%nat -> segs f s = components s.
Proof.
  unfold components. remember (length s) as k eqn:Hk.
  revert f s Hk. induction k as [k IH] using lt_wf_ind. intros f s -> Hf.
  destruct s as [|c s]; [by destruct f|]. destruct f as [|f]; [cbn in Hf; lia|].
  cbn [length]. cbn [segs]. f_equal. pose proof (step_length (c :: s) ltac:(done)) as Hl.
  cbn [length] in *. set (t := after _) in *.
  rewrite (IH (length t) ltac:(lia) f t eq_refl) by lia.
  by rewrite (IH (length t) ltac:(lia) (length s) t eq_refl) by lia.
Qed.

Lemma components_cons s :
  s <> [] -> components s = word (skip_slashes s) :: components (after (skip_slashes s)).
Proof.
  intros Hs. destruct s as [|c s]; [done|]. unfold components at 1. cbn [length segs]. f_equal.
  apply segs_fuel. pose proof (step_length (c :: s) ltac:(done)). cbn [length] in *. lia.
Qed.

(** ** Names *)

Lemma render_app a b : render (a ++ b) = render a ++ render b.
Proof. unfold render. by rewrite map_app, concat_app. Qed.
Lemma render_last a m : render (a ++ [m]) = render a ++ BACKSLASH :: m.
Proof. rewrite render_app. unfold render. cbn. by rewrite app_nil_r. Qed.

Lemma expand_chars k l c : c ∈ expand k l -> c ∈ l \/ c = 0x3f.
Proof.
  revert k. induction l as [|x l IH]; intros k; cbn; [by intros ?%elem_of_nil|]. destruct (x =? 0x2a) eqn:E.
  - intros [-> _]%elem_of_replicate. by right.
  - destruct k as [|k]; [by intros ?%elem_of_nil|].
    intros [->|[H|H]%IH]%elem_of_cons; [left; by left|left; by right|by right].
Qed.

Lemma expand_zero l : expand 0 l = [].
Proof. destruct l as [|c l]; [done|]. cbn. by destruct (c =? 0x2a). Qed.
Lemma expand_length k l : (length (expand k l) <= k)%nat.
Proof.
  revert k. induction l as [|x l IH]; intros k; cbn; [lia|]. destruct (x =? 0x2a).
  - rewrite length_replicate. lia.
  - destruct k as [|k]; cbn; [lia|]. specialize (IH k). lia.
Qed.

Lemma split_dot_spec w :
  let '(b, e) := split_dot w in
  DOT ∉ b /\ w = b ++ match e with Some e => DOT :: e | None => [] end.
Proof.
  induction w as [|c w IH]; cbn; [split; [apply not_elem_of_nil|done]|].
  destruct (c =? DOT) eqn:E; zbool; [subst; split; [apply not_elem_of_nil|done]|].
  destruct (split_dot w) as [b e]. destruct IH as [H1 ->]. split; [|done].
  rewrite elem_of_cons. intros [?|?]; [by subst|done].
Qed.

Lemma Forall_removelast {A} (P : A -> Prop) l : Forall P l -> Forall P (removelast l).
Proof.
  induction 1 as [|x l Hx Hl IH]; [constructor|]. cbn. destruct l; [constructor|by constructor].
Qed.


(** What holds of every component holds of what comes from it. *)
Lemma components_forall (P : Z -> Prop) src :
  Forall P src -> Forall (fun w => Forall P w /\ Forall (fun c => is_slash c = false) w) (components src).
Proof.
  remember (length src) as k eqn:Hk. revert src Hk. induction k as [k IH] using lt_wf_ind. intros src -> H.
  destruct (decide (src = [])) as [->|Hne]; [constructor|]. rewrite components_cons by done.
  assert (Hs : Forall P (skip_slashes src)).
  { by apply skip_bytes. }
  rewrite word_after in Hs. apply Forall_app in Hs as [H1 H2]. constructor.
  - split; [done|apply word_no_slash].
  - apply (IH (length (after (skip_slashes src)))); [by apply step_length|done|done].
Qed.

Lemma resolve_false n ss cs w cs' : resolve n ss cs w = Some (cs', false) -> w = false.
Proof. destruct ss as [|s ss]; cbn [resolve]; [by intros [= _ ->]|]. by destruct w. Qed.

(** The names of the result are among the old ones or made from components;
    there may be an empty one at the end. *)
Lemma resolve_shape (P : list Z -> Prop) n ss cs w cs' w' :
  (forall s m, s ∈ ss -> s <> [] -> head s <> Some DOT -> name83 s = Some m ->
     (w' = false -> wild s = false) -> P m) ->
  Forall P cs -> resolve n ss cs w = Some (cs', w') ->
  exists cs1, Forall P cs1 /\ (cs' = cs1 \/ cs' = cs1 ++ [[]]).
Proof.
  intros Hnew. revert cs w. induction ss as [|s ss IH]; intros cs w Hcs; cbn [resolve].
  { intros [= <- _]. exists cs. auto. }
  assert (IH' : forall cs w, Forall P cs -> resolve n ss cs w = Some (cs', w') ->
    exists cs1, Forall P cs1 /\ (cs' = cs1 \/ cs' = cs1 ++ [[]])).
  { intros cs0 w0. apply IH. intros s0 m0 Hin. apply Hnew. by right. }
  destruct (_ || _); [done|].
  case_bool_decide as E1; [destruct ss; [|done]; intros [= <- _]; exists cs; auto|].
  case_bool_decide as E2; [by apply IH'|].
  case_bool_decide as E3.
  { destruct cs as [|m cs]; [done|]. by apply IH', Forall_removelast. }
  case_bool_decide as E4; [done|]. destruct (name83 s) as [m|] eqn:Em; [|done].
  case_bool_decide as E5; [|done]. intros H. apply (IH' (cs ++ [m]) (wild s)); [|done]. apply Forall_app. split; [done|].
  constructor; [|constructor]. apply (Hnew s m); [by left|done|done|done|].
  intros ->. by eapply resolve_false.
Qed.

(** ** The destination *)

(** The first [ptr] characters of the array are [l]; the character at the root
    is a backslash. *)
Definition at_path (n : nat) (c : cur) (l : list Z) : Prop :=
  exists rest, c = Cur (l ++ rest) (Z.of_nat (length l)) /\ length (l ++ rest) = ROOM /\
    (n <= length l)%nat /\ (l ++ rest) !! n = Some BACKSLASH.

Definition failed {A} (r : option ((Z + A) * cur)) : Prop :=
  exists rc c', r = Some (inl rc, c') /\ (rc = DE_FILENOTFND \/ rc = DE_PATHNOTFND) /\
    length (dest c') = ROOM.

Lemma path_error src : PATH_ERROR src = DE_FILENOTFND \/ PATH_ERROR src = DE_PATHNOTFND.
Proof. unfold PATH_ERROR. destruct (strchr src SLASH), (strchr src BACKSLASH); auto. Qed.

Lemma failed_error {A} src n c l : at_path n c l -> failed (@kret cur (Z + A) (inl (PATH_ERROR src)) c).
Proof.
  intros (rest & -> & Hl & _). eexists _, _. split; [reflexivity|]. split; [apply path_error|done].
Qed.

Lemma run_try {S A B} (m : K S (Z + A)) (f : A -> K S (Z + B)) s a s' :
  m s = Some (inr a, s') -> try m f s = f a s'.
Proof. intros H. unfold try. by rewrite (run_eq _ _ _ _ _ H). Qed.
Lemma run_try_ret {S A B} a (f : A -> K S (Z + B)) (s : S) : try (kret (inr a)) f s = f a s.
Proof. reflexivity. Qed.
Lemma failed_try {A B} (m : K cur (Z + A)) (f : A -> K cur (Z + B)) c : failed (m c) -> failed (try m f c).
Proof.
  intros (rc & c' & H & Hrc & Hl). exists rc, c'. split; [|done]. unfold try. by rewrite (run_eq _ _ _ _ _ H).
Qed.

Lemma dput_at i v d p :
  0 <= i < Z.of_nat (length d) -> byte v -> dput i v (Cur d p) = Some (tt, Cur (<[Z.to_nat i := v]> d) p).
Proof.
  intros Hi Hv. unfold dput. rewrite run_get. cbn [dest ptr]. unfold fputbyte.
  rewrite (proj2 (Z.leb_le 0 i)), (proj2 (Z.ltb_lt i _)), u8_small by (unfold byte in Hv; lia). done.
Qed.

Lemma dget_at i x d p : d !! Z.to_nat i = Some x -> 0 <= i -> dget i (Cur d p) = Some (x, Cur d p).
Proof.
  intros Hx Hi. unfold dget. cbn [dest]. unfold fgetbyte.
  rewrite (proj2 (Z.ltb_ge i 0)), Hx by lia. by rewrite run_opt.
Qed.

(** A store behind the path. *)
Lemma insert_after (l : list Z) y rest x : <[length l := x]> (l ++ y :: rest) = l ++ x :: rest.
Proof. rewrite <- (Nat.add_0_r (length l)) at 1. by rewrite insert_app_r. Qed.

Lemma addChar_at src n c l x :
  at_path n c l -> byte x -> (n = length l -> x = BACKSLASH) ->
  if decide (length l < ROOM)%nat
  then exists c', addChar src x c = Some (inr tt, c') /\ at_path n c' (l ++ [x])
  else failed (addChar src x c).
Proof.
  intros H Hx Hn. pose proof H as (rest & -> & Hl & Hnl & Hsep). unfold addChar. rewrite run_get. cbn [ptr].
  rewrite length_app in Hl. unfold ROOM, SFTMAX in *. case_decide as Hd.
  - rewrite (proj2 (Z.leb_gt 128 _)) by lia. destruct rest as [|y rest]; [cbn in Hl; lia|].
    rewrite (run_eq _ _ _ _ _ (dput_at (Z.of_nat (length l)) x (l ++ y :: rest) _
      ltac:(rewrite length_app; cbn [length]; lia) Hx)).
    rewrite Nat2Z.id, insert_after. eexists. split; [reflexivity|]. exists rest.
    rewrite <- app_assoc. cbn [app]. split; [|split; [|split]].
    + cbn [dest ptr]. f_equal. rewrite length_app. cbn [length]. lia.
    + rewrite length_app. cbn [length] in *. unfold ROOM. lia.
    + rewrite length_app. lia.
    + destruct (decide (n = length l)) as [->|Hne].
      * rewrite list_lookup_middle by done. by rewrite Hn.
      * rewrite lookup_app_l in * by lia. done.
  - rewrite (proj2 (Z.leb_le 128 _)) by lia. by eapply failed_error.
Qed.

(** Some characters, one after the other. *)
Lemma fill_at src n c l k :
  at_path n c l -> (n < length l)%nat ->
  if decide (length l + k <= ROOM)%nat
  then exists c', fill src k c = Some (inr tt, c') /\ at_path n c' (l ++ replicate k 0x3f)
  else failed (fill src k c).
Proof.
  revert c l. induction k as [|k IH]; intros c l H Hn.
  - rewrite decide_True by (destruct H as (rest & _ & Hl & _); rewrite length_app in Hl; lia).
    exists c. rewrite app_nil_r. done.
  - cbn [fill]. pose proof (addChar_at src n c l 0x3f H ltac:(unfold byte; lia) ltac:(lia)) as Ha.
    destruct (decide (length l < ROOM)%nat) as [Hd|Hd].
    + destruct Ha as (c1 & Hr & H1). rewrite (run_try _ _ _ _ _ Hr).
      specialize (IH c1 (l ++ [0x3f]) H1). rewrite length_app in IH. cbn [length] in IH.
      specialize (IH ltac:(lia)). cbn [replicate]. rewrite <- app_assoc in IH. cbn [app] in IH.
      replace (length l + S k)%nat with (length l + 1 + k)%nat by lia. exact IH.
    + rewrite decide_False by lia. by apply failed_try.
Qed.

(** ** One component *)

Lemma has_or x a m : has (Z.lor x a) m = has x m || has a m.
Proof.
  unfold has. rewrite Z.land_lor_distr_l.
  destruct (Z.land x m =? 0) eqn:E1; zbool.
  - rewrite E1, Z.lor_0_l. done.
  - cbn [negb orb]. apply negb_true_iff, Z.eqb_neq. intros [H _]%Z.lor_eq_0_iff. done.
Qed.

(** The state after one character that is not a dot. *)
Definition saw (x st : Z) : Z :=
  if (if x =? 0x2a then 0x3f else x) =? 0x3f then Z.lor st PNE_WILDCARD else st.

Lemma saw_dot x st : has (saw x st) PNE_DOT = has st PNE_DOT.
Proof. unfold saw. destruct (_ =? _); [|done]. rewrite has_or. by destruct (has st PNE_DOT). Qed.
Lemma saw_wild x st : has (saw x st) PNE_WILDCARD = is_wild x || has st PNE_WILDCARD.
Proof.
  unfold saw, is_wild. destruct (x =? 0x2a) eqn:E; cbn [orb].
  - change (63 =? 63) with true. cbn iota. rewrite has_or. apply orb_true_r.
  - destruct (x =? 0x3f); [|done]. rewrite has_or. apply orb_true_r.
Qed.

(** The loop at a character that is neither a separator nor a dot. *)
Lemma name_step x src i st c :
  is_slash x = false -> x <> DOT ->
  name_loop (x :: src) i st c =
    (if x =? 0x2a then try! _ := fill src i in name_loop src O (saw x st)
     else match i with
          | O => name_loop src O (saw x st)
          | S i => if negb (DirChar x) then kret (inl (PATH_ERROR src)) else
                   try! _ := addChar src x in name_loop src i (saw x st)
          end) c.
Proof.
  intros Hs Hd. cbn [name_loop]. rewrite Hs. unfold saw. destruct (x =? 0x2a) eqn:E.
  - change (0x3f =? DOT) with false. cbn [andb]. done.
  - rewrite run_try_ret, (proj2 (Z.eqb_neq x DOT)) by done. cbn [andb]. done.
Qed.

Lemma chars_at tail n b i st c l :
  at_path n c l -> (n < length l)%nat -> Forall (fun x => is_slash x = false) b -> DOT ∉ b -> Forall byte b ->
  if forallb DirChar (expand i b) && bool_decide (length l + length (expand i b) <= ROOM)%nat then
    exists i' st' c', name_loop (b ++ tail) i st c = name_loop tail i' st' c' /\
      at_path n c' (l ++ expand i b) /\ has st' PNE_DOT = has st PNE_DOT /\
      has st' PNE_WILDCARD = wild b || has st PNE_WILDCARD
  else failed (name_loop (b ++ tail) i st c).
Proof.
  revert i st c l. induction b as [|x b IH]; intros i st c l H Hn Hs Hd Hb.
  { cbn [expand forallb length app]. rewrite bool_decide_eq_true_2.
    - exists i, st, c. by rewrite app_nil_r.
    - destruct H as (rest & _ & Hl & _). rewrite length_app in Hl. lia. }
  inversion_clear Hs as [|? ? Hx Hs']. inversion_clear Hb as [|? ? Hbx Hb'].
  apply not_elem_of_cons in Hd as [Hdx Hd]. cbn [app]. rewrite name_step by done.
  assert (IH' : forall i c' l', at_path n c' l' -> (n < length l')%nat ->
    if forallb DirChar (expand i b) && bool_decide (length l' + length (expand i b) <= ROOM)%nat then
      exists i' st' c'', name_loop (b ++ tail) i (saw x st) c' = name_loop tail i' st' c'' /\
        at_path n c'' (l' ++ expand i b) /\ has st' PNE_DOT = has st PNE_DOT /\
        has st' PNE_WILDCARD = wild (x :: b) || has st PNE_WILDCARD
    else failed (name_loop (b ++ tail) i (saw x st) c')).
  { intros j c' l' H' Hn'. specialize (IH j (saw x st) c' l' H' Hn' Hs' Hd Hb').
    rewrite saw_dot, saw_wild in IH. cbn [wild existsb].
    destruct (_ && _); [|done]. destruct IH as (i' & st' & c'' & A1 & A2 & A3 & A4).
    exists i', st', c''. split; [done|]. split; [done|]. split; [done|].
    rewrite A4. unfold wild. by destruct (is_wild x), (existsb is_wild b). }
  clear IH. cbn [expand]. destruct (x =? 0x2a) eqn:Ex.
  - rewrite length_replicate.
    assert (forallb DirChar (replicate i 0x3f) = true) as ->.
    { apply forallb_forall. intros y Hy%list_elem_of_In. by apply elem_of_replicate in Hy as [-> _]. }
    pose proof (fill_at (b ++ tail) n c l i H Hn) as Hf. cbn [andb].
    destruct (decide (length l + i <= ROOM)%nat) as [Hl|Hl].
    + destruct Hf as (c1 & Hr & H1). rewrite bool_decide_eq_true_2 by done. rewrite (run_try _ _ _ _ _ Hr).
      specialize (IH' O c1 _ H1). rewrite expand_zero in IH'. cbn [forallb length andb] in IH'.
      rewrite app_nil_r, bool_decide_eq_true_2 in IH' by (rewrite length_app, length_replicate; lia).
      apply IH'. rewrite length_app. lia.
    + rewrite bool_decide_eq_false_2 by done. by apply failed_try.
  - destruct i as [|i].
    + specialize (IH' O c l H Hn). by rewrite expand_zero in IH'.
    + cbn [forallb length]. destruct (DirChar x) eqn:Ec; cbn [negb andb]; [|by eapply failed_error].
      pose proof (addChar_at (b ++ tail) n c l x H Hbx ltac:(lia)) as Ha.
      destruct (decide (length l < ROOM)%nat) as [Hl|Hl].
      * destruct Ha as (c1 & Hr & H1). rewrite (run_try _ _ _ _ _ Hr).
        specialize (IH' i c1 _ H1). rewrite length_app in IH'. cbn [length] in IH'.
        rewrite <- app_assoc in IH'. cbn [app] in IH'.
        replace (length l + S (length (expand i b)))%nat with (length l + 1 + length (expand i b))%nat by lia.
        apply IH'. lia.
      * rewrite (bool_decide_eq_false_2 (_ <= ROOM)%nat) by lia. rewrite andb_false_r. by apply failed_try.
Qed.

Lemma name_end rest i st c : at_end rest = true -> name_loop rest i st c = Some (inr (rest, st), c).
Proof. destruct rest as [|x rest]; [done|]. cbn. by intros ->. Qed.

Lemma wild_app a b : wild (a ++ b) = wild a || wild b.
Proof. apply existsb_app. Qed.

(** The loop at the dot of an extension. *)
Lemma ext_at n e rest i st c l :
  at_path n c l -> (n < length l)%nat -> Forall (fun x => is_slash x = false) e -> Forall byte e ->
  at_end rest = true -> e <> [] -> has st PNE_DOT = false ->
  if negb (bool_decide (DOT ∈ e)) && forallb DirChar (expand 3 e)
     && bool_decide (length l + S (length (expand 3 e)) <= ROOM)%nat then
    exists st' c', name_loop (DOT :: e ++ rest) i st c = Some (inr (rest, st'), c') /\
      at_path n c' (l ++ DOT :: expand 3 e) /\ has st' PNE_WILDCARD = wild e || has st PNE_WILDCARD
  else failed (name_loop (DOT :: e ++ rest) i st c).
Proof.
  intros H Hn Hs Hb Hr Hne Hst. cbn [name_loop]. change (is_slash DOT) with false. change (DOT =? 0x2a) with false.
  cbn iota. rewrite run_try_ret. change (DOT =? DOT) with true. rewrite Hst. cbn [andb].
  assert (at_end (e ++ rest) = false) as ->.
  { destruct e as [|x e]; [done|]. inversion_clear Hs as [|? ? Hx ?]. exact Hx. }
  cbn iota. change (Z.to_nat (FEXT_SIZE + 1)) with 4%nat. cbn iota.
  change (negb (DirChar DOT)) with false. cbn iota. set (st1 := Z.lor st PNE_DOT).
  assert (Hst1 : has st1 PNE_DOT = true /\ has st1 PNE_WILDCARD = has st PNE_WILDCARD).
  { unfold st1. rewrite !has_or. split; [apply orb_true_r|]. change (has PNE_DOT PNE_WILDCARD) with false.
    apply orb_false_r. }
  destruct Hst1 as [Hst1 Hst1']. clearbody st1.
  pose proof (addChar_at (e ++ rest) n c l DOT H ltac:(unfold byte, DOT; lia) ltac:(lia)) as Ha.
  destruct (decide (length l < ROOM)%nat) as [Hl|Hl].
  2:{ rewrite (bool_decide_eq_false_2 (_ <= ROOM)%nat), andb_false_r by lia. by apply failed_try. }
  destruct Ha as (c1 & Hr1 & H1). rewrite (run_try _ _ _ _ _ Hr1).
  assert (Hn1 : (n < length (l ++ [DOT]))%nat) by (rewrite length_app; lia).
  destruct (decide (DOT ∈ e)) as [Hin|Hin].
  - rewrite bool_decide_eq_true_2 by done. cbn [negb andb].
    pose proof (split_dot_spec e) as Hsp. destruct (split_dot e) as [e1 [e2|]]; destruct Hsp as [He1 ->].
    2:{ rewrite app_nil_r in Hin. done. }
    apply Forall_app in Hs as [Hs1 _]. apply Forall_app in Hb as [Hb1 _]. rewrite <- app_assoc. cbn [app].
    pose proof (chars_at (DOT :: e2 ++ rest) n e1 3 st1 c1 _ H1 Hn1 Hs1 He1 Hb1) as Hc.
    destruct (_ && _); [|exact Hc]. destruct Hc as (i' & st' & c' & -> & Hc & Hd & _).
    cbn [name_loop]. change (is_slash DOT) with false. change (DOT =? 0x2a) with false. cbn iota.
    rewrite run_try_ret. change (DOT =? DOT) with true. rewrite Hd, Hst1. cbn [andb]. by eapply failed_error.
  - rewrite bool_decide_eq_false_2 by done. cbn [negb andb].
    pose proof (chars_at rest n e 3 st1 c1 _ H1 Hn1 Hs Hin Hb) as Hc. rewrite length_app in Hc. cbn [length] in Hc.
    replace (length l + S (length (expand 3 e)))%nat with (length l + 1 + length (expand 3 e))%nat by lia.
    destruct (_ && _); [|exact Hc]. destruct Hc as (i' & st' & c' & -> & Hc & _ & Hw).
    rewrite name_end by done. exists st', c'. split; [done|]. rewrite <- app_assoc in Hc. split; [exact Hc|].
    by rewrite Hw, Hst1'.
Qed.

(** A component as a whole. *)
Lemma name_at n w rest st c l :
  at_path n c l -> (n < length l)%nat -> Forall (fun x => is_slash x = false) w -> Forall byte w ->
  at_end rest = true -> has st PNE_DOT = false ->
  match name83 w with
  | Some m =>
      if bool_decide (length l + length m <= ROOM)%nat then
        exists st' c', name_loop (w ++ rest) 8 st c = Some (inr (rest, st'), c') /\
          at_path n c' (l ++ m) /\ has st' PNE_WILDCARD = wild w || has st PNE_WILDCARD
      else failed (name_loop (w ++ rest) 8 st c)
  | None => failed (name_loop (w ++ rest) 8 st c)
  end.
Proof.
  intros H Hn Hs Hb Hr Hst. unfold name83. pose proof (split_dot_spec w) as Hsp.
  destruct (split_dot w) as [b [e|]]; destruct Hsp as [Hd ->].
  - apply Forall_app in Hs as [Hs1 Hs2]. apply Forall_app in Hb as [Hb1 Hb2].
    inversion_clear Hs2 as [|? ? _ Hs3]. inversion_clear Hb2 as [|? ? _ Hb3]. rewrite <- app_assoc. cbn [app].
    pose proof (chars_at (DOT :: e ++ rest) n b 8 st c l H Hn Hs1 Hd Hb1) as Hc.
    destruct (decide (e = [])) as [->|He].
    + rewrite bool_decide_eq_true_2 by done. destruct (forallb DirChar (expand 8 b)); cbn [andb] in Hc; [|exact Hc].
      destruct (bool_decide _); [|exact Hc]. destruct Hc as (i' & st' & c' & -> & Hc & Hd' & Hw).
      exists st', c'. cbn [app name_loop]. change (is_slash DOT) with false. change (DOT =? 0x2a) with false.
      cbn iota. rewrite run_try_ret. change (DOT =? DOT) with true. rewrite Hd', Hst, Hr. cbn [andb].
      split; [done|]. split; [done|]. by rewrite Hw, wild_app, orb_false_r.
    + rewrite (bool_decide_eq_false_2 (e = [])) by done. destruct (bool_decide (DOT ∈ e)) eqn:Ein.
      * destruct (_ && _); [|exact Hc]. destruct Hc as (i' & st' & c' & -> & Hc & Hd' & _).
        pose proof (ext_at n e rest i' st' c' _ Hc) as Hx. rewrite Ein in Hx. apply Hx; try done.
        -- rewrite length_app. lia.
        -- by rewrite Hd'.
      * rewrite forallb_app. cbn [forallb]. change (DirChar DOT) with true. rewrite andb_true_l.
        destruct (forallb DirChar (expand 8 b)) eqn:E1; cbn [andb] in *; [|exact Hc].
        destruct (bool_decide (length l + length (expand 8 b) <= ROOM)%nat) eqn:E2.
        2:{ apply bool_decide_eq_false in E2. destruct (forallb DirChar (expand 3 e)); [|done].
            rewrite bool_decide_eq_false_2 by (rewrite length_app; lia). exact Hc. }
        destruct Hc as (i' & st' & c' & -> & Hc & Hd' & Hw).
        pose proof (ext_at n e rest i' st' c' _ Hc) as Hx. rewrite Ein in Hx. cbn [negb andb] in Hx.
        rewrite !length_app in Hx. destruct (forallb DirChar (expand 3 e)); cbn [andb] in Hx.
        -- rewrite length_app, Nat.add_assoc. cbn [length].
           destruct (bool_decide (_ + S _ <= ROOM)%nat); [|apply Hx; try done; [lia|by rewrite Hd']].
           destruct Hx as (st2 & c2 & A1 & A2 & A3); try done; [lia|by rewrite Hd'|].
           exists st2, c2. split; [done|]. rewrite <- app_assoc in A2. split; [exact A2|].
           rewrite A3, Hw, wild_app. cbn [wild existsb]. unfold wild.
           by destruct (existsb is_wild e), (existsb is_wild b).
        -- apply Hx; try done; [lia|by rewrite Hd'].
  - rewrite app_nil_r in *. pose proof (chars_at rest n b 8 st c l H Hn Hs Hd Hb) as Hc.
    destruct (forallb DirChar (expand 8 b)); cbn [andb] in Hc; [|exact Hc].
    destruct (bool_decide _); [|exact Hc]. destruct Hc as (i' & st' & c' & -> & Hc & _ & Hw).
    rewrite name_end by done. by exists st', c'.
Qed.

(** ** Dots *)

Lemma dots_none w rest :
  w <> [] -> head w <> Some DOT -> leading_dots (w ++ rest) = None.
Proof.
  destruct w as [|x w]; [done|]. intros _ Hx. cbn. rewrite (proj2 (Z.eqb_neq x DOT)); [done|].
  intros ->. by apply Hx.
Qed.
Lemma dots_one rest : at_end rest = true -> leading_dots ([DOT] ++ rest) = Some (1, rest).
Proof.
  intros Hr. cbn. destruct rest as [|x rest]; [done|]. cbn in Hr.
  destruct (x =? DOT) eqn:E; [|done]. zbool. by subst.
Qed.
Lemma dots_two rest : leading_dots ([DOT; DOT] ++ rest) = Some (2, rest).
Proof. done. Qed.
Lemma dots_bad w rest :
  Forall (fun x => is_slash x = false) w -> head w = Some DOT -> w <> [DOT] -> w <> [DOT; DOT] ->
  exists k s, leading_dots (w ++ rest) = Some (k, s) /\ at_end s = false.
Proof.
  intros Hs Hh H1 H2. destruct w as [|x [|y w]]; [done|by injection Hh as ->|]. injection Hh as ->.
  inversion_clear Hs as [|? ? _ Hs1]. inversion_clear Hs1 as [|? ? Hy Hs2]. cbn.
  destruct (y =? DOT) eqn:E; zbool; [|by eexists _, _].
  subst y. destruct w as [|z w]; [done|]. inversion_clear Hs2 as [|? ? Hz _].
  exists 2, (z :: w ++ rest). by split.
Qed.

Lemma pmove_run f d p : pmove f (Cur d p) = Some (tt, Cur d (f p)).
Proof. done. Qed.

(** Back to the separator before [m]. *)
Lemma dotdot_back n l m rest j fuel :
  BACKSLASH ∉ m -> (n <= length l)%nat -> (j <= length m)%nat -> (j < fuel)%nat ->
  let d := l ++ BACKSLASH :: m ++ rest in
  dotdot_loop fuel (Z.of_nat n) (Cur d (Z.of_nat (length l + 1 + j))) = Some (inr tt, Cur d (Z.of_nat (length l))).
Proof.
  intros Hm Hn Hj Hf d. revert fuel Hf. induction j as [|j IH]; intros fuel Hf; (destruct fuel as [|fuel]; [lia|]);
    cbn [dotdot_loop]; rewrite (run_eq _ _ _ _ _ (pmove_run _ _ _)), run_get; cbn [ptr].
  - assert (Hd : d !! Z.to_nat (Z.of_nat (length l + 1 + 0) - 1) = Some BACKSLASH).
    { replace (Z.to_nat _) with (length l) by lia. unfold d. by rewrite list_lookup_middle. }
    rewrite (run_eq _ _ _ _ _ (dget_at _ _ _ _ Hd ltac:(lia))). rewrite Z.eqb_refl. unfold kret. do 3 f_equal. lia.
  - destruct (lookup_lt_is_Some_2 m j ltac:(lia)) as [x Hx].
    assert (Hd : d !! Z.to_nat (Z.of_nat (length l + 1 + S j) - 1) = Some x).
    { replace (Z.to_nat _) with (length l + S j)%nat by lia. unfold d. rewrite lookup_app_r by lia.
      replace (length l + S j - length l)%nat with (S j) by lia.
      change ((BACKSLASH :: m ++ rest) !! S j) with ((m ++ rest) !! j). by rewrite lookup_app_l by lia. }
    rewrite (run_eq _ _ _ _ _ (dget_at _ _ _ _ Hd ltac:(lia))).
    rewrite (proj2 (Z.eqb_neq x BACKSLASH)) by (intros ->; apply Hm; by eapply list_elem_of_lookup_2).
    rewrite (proj2 (Z.leb_gt _ _)) by lia.
    replace (Z.of_nat (length l + 1 + S j) - 1) with (Z.of_nat (length l + 1 + j)) by lia.
    apply IH; lia.
Qed.

(** At the root. *)
Lemma dotdot_root n d y fuel :
  (0 < fuel)%nat -> (1 <= n)%nat -> d !! (n - 1)%nat = Some y -> y <> BACKSLASH -> length d = ROOM ->
  failed (dotdot_loop fuel (Z.of_nat n) (Cur d (Z.of_nat n))).
Proof.
  intros Hf Hn Hy Hne Hl. destruct fuel as [|fuel]; [lia|]. cbn [dotdot_loop].
  rewrite (run_eq _ _ _ _ _ (pmove_run _ _ _)), run_get. cbn [ptr].
  rewrite (run_eq _ _ _ _ _ (dget_at (Z.of_nat n - 1) y d _ ltac:(by replace (Z.to_nat _) with (n - 1)%nat by lia)
    ltac:(lia))).
  rewrite (proj2 (Z.eqb_neq y BACKSLASH)), (proj2 (Z.leb_le _ _)) by (done || lia).
  eexists _, _. split; [reflexivity|]. split; [by right|done].
Qed.

(** ** The loop over the components *)

Definition names (cs : list (list Z)) : Prop := Forall (fun m => m <> [] /\ BACKSLASH ∉ m) cs.

Lemma name83_nonempty w m : w <> [] -> head w <> Some DOT -> name83 w = Some m -> m <> [].
Proof.
  intros Hw Hh. unfold name83. destruct w as [|x w]; [done|]. cbn [split_dot].
  rewrite (proj2 (Z.eqb_neq x DOT)) by (intros ->; by apply Hh). destruct (split_dot w) as [b e].
  assert (He : expand 8 (x :: b) <> []) by (cbn; by destruct (x =? 0x2a)).
  destruct e as [e|]; [destruct (bool_decide (e = [])); [|destruct (bool_decide _); [done|]]|];
    destruct (forallb _ _); try done; intros [= <-]; try done.
  by intros [? _]%app_eq_nil.
Qed.

Lemma name83_chars w m c : name83 w = Some m -> c ∈ m -> c ∈ w \/ c = 0x3f.
Proof.
  unfold name83. pose proof (split_dot_spec w) as Hsp. destruct (split_dot w) as [b e].
  destruct Hsp as [_ ->]. destruct e as [e|];
    [destruct (bool_decide (e = [])); [|destruct (bool_decide _); [done|]]|];
    destruct (forallb _ _); try done; intros [= <-]; rewrite ?elem_of_app, ?elem_of_cons, ?elem_of_app.
  - intros [H|H]%expand_chars; auto.
  - intros [[H|H]%expand_chars|[H|[H|H]%expand_chars]]; auto.
  - intros [H|H]%expand_chars; rewrite ?elem_of_nil; auto.
Qed.

Lemma name83_valid w m : name83 w = Some m -> Forall (fun c => DirChar c = true) m.
Proof.
  unfold name83. destruct (split_dot w) as [b e]. set (n := match e with Some _ => _ | None => _ end). clearbody n.
  destruct n as [n|]; [|done]. destruct (forallb DirChar n) eqn:E; [|done]. intros [= <-].
  apply Forall_forall. intros x Hx%list_elem_of_In. revert x Hx. by apply forallb_forall.
Qed.

Lemma name83_name w m :
  w <> [] -> head w <> Some DOT -> Forall (fun x => is_slash x = false) w -> name83 w = Some m ->
  m <> [] /\ BACKSLASH ∉ m.
Proof.
  intros Hw Hh Hs Hm. split; [by eapply name83_nonempty|].
  intros [H|H]%(name83_chars w m _ Hm); [|done].
  eapply Forall_forall in Hs; [|exact H]. done.
Qed.

Lemma names_removelast cs : names cs -> names (removelast cs).
Proof. apply Forall_removelast. Qed.

Section Loop.
(** The beginning is not empty and does not end in a backslash. *)
Context (n : nat) (pre : list Z) (y : Z).
Hypothesis Hpre : length pre = n.
Hypothesis Hlast : last pre = Some y.
Hypothesis Hy : y <> BACKSLASH.

Lemma pre_pos : (1 <= n)%nat.
Proof. rewrite <- Hpre. destruct pre; [done|cbn; lia]. Qed.

(** The last character of a path is not a backslash. *)
Lemma last_char cs : names cs -> exists x, last (pre ++ render cs) = Some x /\ x <> BACKSLASH.
Proof.
  intros Hcs. destruct (exists_last' cs) as [->|(cs' & m & ->)].
  - exists y. unfold render. cbn. by rewrite app_nil_r.
  - apply Forall_app in Hcs as [_ [[Hm Hb] _]%Forall_cons].
    destruct (exists_last' m) as [->|(m' & x & ->)]; [done|].
    exists x. rewrite render_last. change (BACKSLASH :: m' ++ [x]) with ((BACKSLASH :: m') ++ [x]).
    rewrite !app_assoc, last_snoc. split; [done|]. intros ->. apply Hb. apply elem_of_app. right. by left.
Qed.

(** The separator before the next component. *)
Lemma sep_at src c cs :
  at_path n c (pre ++ render cs) -> names cs ->
  let m := add_sep src (Z.of_nat n) in
  if decide (n + length (render cs) < ROOM)%nat
  then exists c', m c = Some (inr tt, c') /\ at_path n c' (pre ++ render cs ++ [BACKSLASH])
  else failed (m c).
Proof.
  intros H Hcs. pose proof H as (rest & -> & Hl & Hnl & Hsep). cbv zeta. unfold add_sep. rewrite run_get. cbn [ptr].
  destruct (last_char cs Hcs) as (x & Hx & Hne).
  assert (Hget : ((pre ++ render cs) ++ rest) !! Z.to_nat (Z.of_nat (length (pre ++ render cs)) - 1) = Some x).
  { rewrite last_lookup in Hx. replace (Z.to_nat _) with (pred (length (pre ++ render cs))) by lia.
    rewrite lookup_app_l; [done|]. pose proof pre_pos. lia. }
  pose proof pre_pos.
  rewrite (run_eq _ _ _ _ _ (dget_at _ _ _ _ Hget ltac:(lia))).
  rewrite (run_eq _ _ _ _ _ (dget_at (Z.of_nat n) BACKSLASH _ _ ltac:(by rewrite Nat2Z.id) ltac:(lia))).
  rewrite (proj2 (Z.eqb_neq x BACKSLASH)) by done. cbn [negb].
  pose proof (addChar_at src n _ _ BACKSLASH H ltac:(unfold byte, BACKSLASH; lia) ltac:(done)) as Ha.
  assert (E : (n + length (render cs) = length (pre ++ render cs))%nat) by (rewrite length_app; lia).
  rewrite E, app_assoc. exact Ha.
Qed.

(** What [resolve] says of the loop. *)
Definition agrees (o : option (list (list Z) * bool)) (r : option ((Z + Z) * cur)) : Prop :=
  match o with
  | Some (cs, w) => exists st c, r = Some (inr st, c) /\ at_path n c (pre ++ render cs) /\
                      has st PNE_WILDCARD = w
  | None => failed r
  end.

(** One step back, over the separator. *)
Lemma back_one c l :
  at_path n c (l ++ [BACKSLASH]) -> (n <= length l)%nat ->
  exists c', pmove (fun p => p - 1) c = Some (tt, c') /\ at_path n c' l /\
    exists rest, c' = Cur (l ++ BACKSLASH :: rest) (Z.of_nat (length l)).
Proof.
  intros (rest & -> & Hl & _ & Hs) Hn. rewrite pmove_run. rewrite <- !app_assoc in *. cbn [app] in *.
  eexists. split; [reflexivity|].
  assert (E : Z.of_nat (length (l ++ [BACKSLASH])) - 1 = Z.of_nat (length l))
    by (rewrite length_app; cbn [length]; lia).
  rewrite E. split; [|by exists rest]. by exists (BACKSLASH :: rest).
Qed.

Lemma dotdot_at c cs :
  at_path n c (pre ++ render cs) -> names cs ->
  (exists rest, c = Cur ((pre ++ render cs) ++ BACKSLASH :: rest) (Z.of_nat (length (pre ++ render cs)))) ->
  let m := dotdot (Z.of_nat n) in
  match cs with
  | [] => failed (m c)
  | _ => exists c', m c = Some (inr tt, c') /\ at_path n c' (pre ++ render (removelast cs))
  end.
Proof.
  intros H Hcs (rest & ->) m. unfold m, dotdot. rewrite run_get. cbn [ptr]. destruct H as (rest' & E & Hl & _ & Hs).
  injection E as E. rewrite <- E in Hl, Hs. clear rest' E. pose proof pre_pos as Hpos.
  destruct (exists_last' cs) as [->|(cs' & w & ->)].
  - unfold render in *. cbn [map concat] in *. rewrite app_nil_r in *. rewrite Hpre in *.
    apply (dotdot_root n _ y); [lia|done| |done|done].
    rewrite last_lookup, Hpre in Hlast. rewrite lookup_app_l by lia. by rewrite Nat.sub_1_r.
  - rewrite removelast_last. apply Forall_app in Hcs as [_ [[Hw Hb] _]%Forall_cons].
    pose proof (dotdot_back n (pre ++ render cs') w (BACKSLASH :: rest) (length w)
      (S (Z.to_nat (Z.of_nat (length (pre ++ render (cs' ++ [w])))))) Hb) as Hd.
    cbv zeta in Hd. rewrite render_last in *.
    assert (El : length (pre ++ render cs' ++ BACKSLASH :: w) = (length (pre ++ render cs') + 1 + length w)%nat)
      by (rewrite !length_app; cbn [length]; lia).
    assert (Ed : (pre ++ render cs' ++ BACKSLASH :: w) ++ BACKSLASH :: rest =
                 (pre ++ render cs') ++ BACKSLASH :: w ++ BACKSLASH :: rest)
      by (rewrite <- !app_assoc; cbn [app]; by rewrite <- ?app_assoc).
    rewrite El in *. rewrite Ed in *.
    rewrite Hd by (rewrite ?length_app; lia). destruct cs' as [|? ?]; cbn [app];
      (eexists; split; [reflexivity|]; eexists; split; [reflexivity|]; split; [done|];
       split; [rewrite length_app; lia|done]).
Qed.

Lemma names_snoc cs m : names cs -> m <> [] -> BACKSLASH ∉ m -> names (cs ++ [m]).
Proof. intros H H1 H2. apply Forall_app. split; [done|]. by constructor. Qed.

Lemma clear_dot st :
  has (clear st PNE_DOT) PNE_DOT = false /\ has (clear st PNE_DOT) PNE_WILDCARD = has st PNE_WILDCARD.
Proof.
  change PNE_DOT with (2 ^ 1). change PNE_WILDCARD with (2 ^ 0). rewrite !has_bit by lia. unfold clear.
  rewrite !Z.ldiff_spec by lia. split; [apply andb_false_r|apply andb_true_r].
Qed.

Lemma seg_loop_at fuel src st c cs :
  at_path n c (pre ++ render cs) -> names cs -> Forall byte src -> (length src < fuel)%nat ->
  agrees (resolve n (components src) cs (has st PNE_WILDCARD)) (seg_loop fuel (Z.of_nat n) src st c).
Proof.
  revert src st c cs. induction fuel as [|fuel IH]; intros src st c cs H Hcs Hb Hf; [lia|].
  destruct (decide (src = [])) as [->|Hne].
  { cbn. by exists st, c. }
  rewrite (components_cons src Hne). set (s1 := skip_slashes src). set (w := word s1). set (rest := after s1).
  assert (Es : s1 = w ++ rest) by apply word_after.
  assert (Hrest : at_end rest = true) by apply after_end.
  assert (Hws : Forall (fun x => is_slash x = false) w) by apply word_no_slash.
  assert (Hlen : (length rest < fuel)%nat).
  { pose proof (step_length src Hne) as Hl. fold s1 in Hl. fold rest in Hl. lia. }
  assert (Hbs : Forall byte s1) by (by apply skip_bytes).
  assert (Hbw : Forall byte w /\ Forall byte rest) by (rewrite Es in Hbs; by apply Forall_app).
  destruct Hbw as [Hbw Hbr].
  assert (Hunf : seg_loop (S fuel) (Z.of_nat n) src st c =
    (if has st PNE_WILDCARD then kret (inl DE_PATHNOTFND) else
     try! _ := add_sep src (Z.of_nat n) in
     match leading_dots s1 with
     | Some (dots, src) =>
         if negb (at_end src) then kret (inl (PATH_ERROR src)) else
         do! pmove (fun p => p - 1) in
         try! _ := (if dots =? 2 then dotdot (Z.of_nat n) else kret (inr tt)) in
         seg_loop fuel (Z.of_nat n) src st
     | None =>
         try! r := name_loop s1 8 (clear st PNE_DOT) in
         seg_loop fuel (Z.of_nat n) (fst r) (snd r)
     end) c) by (by destruct src).
  rewrite Hunf. clear Hunf. cbn [resolve]. destruct (has st PNE_WILDCARD) eqn:Ew; cbn [orb].
  { eexists _, _. split; [reflexivity|]. split; [by right|]. by destruct H as (? & -> & ? & _). }
  pose proof (sep_at src c cs H Hcs) as Hsep. cbv zeta in Hsep.
  destruct (decide (n + length (render cs) < ROOM)%nat) as [Hroom|Hroom].
  2:{ rewrite bool_decide_eq_true_2 by lia. by apply failed_try. }
  rewrite (bool_decide_eq_false_2 (ROOM <= _)%nat) by lia. destruct Hsep as (c1 & Hr1 & H1).
  rewrite (run_try _ _ _ _ _ Hr1). rewrite app_assoc in H1.
  assert (Hnl : (n <= length (pre ++ render cs))%nat) by (rewrite length_app; lia).
  destruct (decide (w = [])) as [Hw0|Hw0].
  - (* separators at the end *)
    rewrite bool_decide_eq_true_2 by done. assert (Es0 : s1 = []) by (by apply word_nil).
    rewrite Es0. cbn [leading_dots]. assert (rest = []) as -> by (unfold rest; by rewrite Es0).
    rewrite (run_try _ _ _ _ _ (name_end [] _ _ c1 eq_refl)). cbn [fst snd]. cbn [components segs resolve length].
    destruct fuel as [|fuel]; [lia|]. cbn [seg_loop]. eexists _, c1. split; [reflexivity|].
    rewrite render_last, app_assoc. split; [exact H1|]. by rewrite (proj2 (clear_dot st)).
  - rewrite (bool_decide_eq_false_2 (w = [])) by done.
    destruct (back_one c1 _ H1 Hnl) as (c2 & Hr2 & H2 & Hc2). fold rest.
    rewrite Es. destruct (decide (w = [DOT])) as [->|Hw1]; [|destruct (decide (w = [DOT; DOT])) as [->|Hw2]].
    + rewrite bool_decide_eq_true_2, dots_one, Hrest by done. cbn [negb]. change (1 =? 2) with false.
      rewrite (run_eq _ _ _ _ _ Hr2), run_try_ret, <- Ew. by apply IH.
    + rewrite (bool_decide_eq_false_2 ([DOT; DOT] = [DOT])), bool_decide_eq_true_2, dots_two, Hrest by done.
      cbn [negb]. change (2 =? 2) with true. rewrite (run_eq _ _ _ _ _ Hr2).
      pose proof (dotdot_at c2 cs H2 Hcs Hc2) as Hd. cbv zeta in Hd. destruct cs as [|m0 cs0]; [by apply failed_try|].
      destruct Hd as (c3 & Hr3 & H3). rewrite (run_try _ _ _ _ _ Hr3), <- Ew.
      apply IH; [done|by apply names_removelast|done|done].
    + rewrite !(bool_decide_eq_false_2 (w = _)) by done.
      destruct (decide (head w = Some DOT)) as [Hh|Hh].
      * rewrite bool_decide_eq_true_2 by done. destruct (dots_bad w rest Hws Hh Hw1 Hw2) as (k & s & -> & ->).
        cbn [negb]. by eapply failed_error.
      * rewrite bool_decide_eq_false_2, dots_none by done.
        pose proof (name_at n w rest (clear st PNE_DOT) c1 _ H1) as Hnm.
        rewrite (proj2 (clear_dot st)), Ew, orb_false_r in Hnm.
        specialize (Hnm ltac:(rewrite length_app; cbn [length]; lia) Hws Hbw Hrest (proj1 (clear_dot st))).
        destruct (name83 w) as [m|] eqn:Em; [|by apply failed_try].
        rewrite render_last. rewrite !length_app in Hnm. rewrite length_app. cbn [length] in *. rewrite Hpre in Hnm.
        replace (n + (length (render cs) + S (length m)))%nat
          with (n + length (render cs) + 1 + length m)%nat by lia.
        destruct (bool_decide _); [|by apply failed_try].
        destruct Hnm as (st' & c' & Hr & H' & Hw'). rewrite (run_try _ _ _ _ _ Hr). cbn [fst snd]. rewrite <- Hw'.
        destruct (name83_name w m Hw0 Hh Hws Em) as [Hm1 Hm2].
        apply IH; [|by apply names_snoc|done|done].
        rewrite render_last. rewrite <- !app_assoc in H'. exact H'.
Qed.

(** The end of the path: a lone drive gets its root, and the NUL is put. *)
Definition rooted (cs : list (list Z)) : list Z := match cs with [] => [BACKSLASH] | _ => render cs end.

Lemma rooted_fits c cs : at_path n c (pre ++ render cs) -> (n < ROOM)%nat -> (length (pre ++ rooted cs) <= ROOM)%nat.
Proof.
  intros (rest & _ & Hl & _) Hn. destruct cs as [|m cs]; [|rewrite length_app in Hl; cbn [rooted]; lia].
  rewrite length_app. cbn. lia.
Qed.

Lemma put_path_at src mode c cs :
  n = 2%nat -> at_path n c (pre ++ render cs) -> names cs -> Forall byte src ->
  match resolve n (components src) cs false with
  | Some (cs', w) =>
      if w && negb (has mode CDS_MODE_ALLOW_WILDCARDS) then failed (put_path src (Z.of_nat n) mode c)
      else if decide (length (pre ++ rooted cs') < ROOM)%nat then
        exists rest, put_path src (Z.of_nat n) mode c =
            Some (inr tt, Cur (pre ++ rooted cs' ++ 0 :: rest) (Z.of_nat (length (pre ++ rooted cs')))) /\
          length (pre ++ rooted cs' ++ 0 :: rest) = ROOM
      else put_path src (Z.of_nat n) mode c = None
  | None => failed (put_path src (Z.of_nat n) mode c)
  end.
Proof.
  intros En H Hcs Hb. pose proof (seg_loop_at (S (length src)) src 0 c cs H Hcs Hb ltac:(lia)) as Hs.
  change (has 0 PNE_WILDCARD) with false in Hs. unfold put_path.
  destruct (resolve n (components src) cs false) as [[cs' w]|]; cbn [agrees] in Hs; [|by apply failed_try].
  destruct Hs as (st & c' & Hr & H' & Hw). rewrite (run_try _ _ _ _ _ Hr), Hw.
  destruct (w && _).
  { eexists _, _. split; [reflexivity|]. split; [by right|]. by destruct H' as (? & -> & ? & _). }
  assert (Hroot : exists c2, (let! s := kget in
      try! _ := (if ptr s =? 2 then addChar [] BACKSLASH else kret (inr tt)) in
      let! s := kget in do! dput (ptr s) 0 in kret (@inr Z unit tt)) c' =
      (let! s := kget in do! dput (ptr s) 0 in kret (inr tt)) c2 /\ at_path n c2 (pre ++ rooted cs')).
  { rewrite run_get. pose proof H' as (rest & Ec & Hl & _). rewrite Ec. cbn [ptr]. destruct cs' as [|m cs'].
    - rewrite (proj2 (Z.eqb_eq _ 2)), <- Ec by (rewrite length_app, Hpre, En; done).
      pose proof (addChar_at [] n c' _ BACKSLASH H' ltac:(unfold byte, BACKSLASH; lia) ltac:(done)) as Ha.
      rewrite decide_True in Ha by (rewrite length_app, Hpre, En; cbn; unfold ROOM; lia).
      destruct Ha as (c2 & Hr2 & H2). rewrite (run_try _ _ _ _ _ Hr2). exists c2. split; [done|].
      unfold render in H2. cbn [map concat] in H2. by rewrite app_nil_r in H2.
    - rewrite (proj2 (Z.eqb_neq _ 2)) by (rewrite length_app, Hpre, En; unfold render; cbn; lia).
      rewrite run_try_ret, <- Ec. by exists c'. }
  destruct Hroot as (c2 & -> & rest & -> & Hl & _). rewrite run_get. cbn [ptr].
  rewrite length_app in Hl. case_decide as Hd.
  - destruct rest as [|z rest]; [cbn in Hl; lia|].
    rewrite (run_eq _ _ _ _ _ (dput_at (Z.of_nat (length (pre ++ rooted cs'))) 0
      ((pre ++ rooted cs') ++ z :: rest) _ ltac:(rewrite (length_app (_ ++ _)); cbn [length]; lia) ltac:(unfold byte; lia))).
    rewrite Nat2Z.id, insert_after. exists rest. unfold kret. rewrite <- app_assoc. split; [done|].
    rewrite !length_app in *. cbn [length] in *. lia.
  - destruct rest as [|z rest]; [|cbn [length] in Hl; lia]. unfold dput, kbind, kget, fputbyte. cbn [dest].
    rewrite (proj2 (Z.ltb_ge _ _)), andb_false_r; [done|]. rewrite app_nil_r. lia.
Qed.
End Loop.
End PathSpec.
