(* ===== verification/PathRun.v ===== *)
(** * Path names: the run of truename

    The parts of [truename] on a drive of this machine: the current directory,
    upper case, and the call as a whole.  The second module, PathCanon, is
    about the canonical forms that it returns. *)

From S2P Require Import Prelude KState BlockIO FatTab FNode FatAlloc Clock Media FatDir FatFile.
From S2P Require Import Path PathSpec.
Import Ks Bio Fat FNode Alloc Clk Media Dir File Path PathSpec.

Module PathRun.

Definition absolute (src : list Z) : bool := match src with c :: _ => is_slash c | [] => false end.

(** ** The beginning of the destination *)

Lemma dget_app i x d p l rest :
  d = l ++ rest -> l !! Z.to_nat i = Some x -> 0 <= i -> dget i (Cur d p) = Some (x, Cur d p).
Proof. intros -> Hx Hi. apply dget_at; [|done]. by apply lookup_app_l_Some. Qed.

Lemma dput_same i x d p :
  d !! Z.to_nat i = Some x -> byte x -> 0 <= i -> dput i x (Cur d p) = Some (tt, Cur d p).
Proof.
  intros Hx Hb Hi. pose proof (lookup_lt_Some _ _ _ Hx) as Hl. rewrite dput_at by (done || lia).
  by rewrite list_insert_id.
Qed.

Lemma dstrcpy_start d p l :
  (length l < length d)%nat -> dstrcpy 0 l (Cur d p) = Some (tt, Cur ((l ++ [0]) ++ drop (S (length l)) d) p).
Proof.
  intros Hl. unfold dstrcpy. rewrite run_get. cbn [dest ptr]. unfold fmemcpy.
  rewrite length_app. cbn [length]. rewrite !(proj2 (Z.leb_le _ _)) by lia. cbn [andb]. rewrite run_opt.
  rewrite (take_ge (l ++ [0])) by (rewrite length_app; cbn [length]; lia).
  replace (Z.to_nat (0 + (Z.of_nat (length l) + 1))) with (S (length l)) by lia. done.
Qed.

Lemma cstr_app l rest : 0 ∉ l -> cstr (l ++ 0 :: rest) = l.
Proof.
  induction l as [|x l IH]; [done|]. intros [Hx Hl]%not_elem_of_cons. cbn.
  rewrite (proj2 (Z.eqb_neq x 0)) by done. by rewrite IH.
Qed.

Lemma dstr_at l m rest p i :
  Z.to_nat i = length l -> 0 <= i -> 0 ∉ m ->
  dstr i (Cur (l ++ m ++ 0 :: rest) p) = Some (m, Cur (l ++ m ++ 0 :: rest) p).
Proof.
  intros Hi H0 Hm. unfold dstr. rewrite run_get. cbn [dest]. rewrite Hi, drop_app_length.
  rewrite (proj2 (Z.leb_le 0 i)) by done. cbn [andb]. rewrite bool_decide_eq_true_2.
  - by rewrite cstr_app.
  - apply elem_of_app. right. by left.
Qed.

Lemma rooted_cons cs : exists l, rooted cs = BACKSLASH :: l.
Proof. destruct cs as [|m cs]; [by exists []|]. by exists (m ++ render cs). Qed.

Section Cwd.
Context (a : Z) (cwd : list (list Z)).
Let pre := [a; COLON].
Hypothesis Ha : byte a.
Hypothesis Hnames : names cwd.
Hypothesis Hzero : 0 ∉ pre ++ rooted cwd.
Hypothesis Hfit : (length (pre ++ rooted cwd) <= 66)%nat.

(** The current directory, or the root, at the start of the destination. *)
Lemma put_cwd_at src mode lastdrv result t d :
  cstr (cdsCurrentPath t) = pre ++ rooted cwd -> cdsBackslashOffset t = 2 -> has (cdsFlags t) CDSSUBST = false ->
  has mode CDS_MODE_SKIP_PHYSICAL = false -> length d = ROOM ->
  exists c, put_cwd src mode lastdrv result t (Cur d 0) =
      Some ((result, 2, if absolute src then drop 1 src else src), c) /\
    at_path 2 c (pre ++ render (if absolute src then [] else cwd)).
Proof.
  intros Hcp Hoff Hsub Hmode Hd. unfold put_cwd. rewrite Hcp, Hoff, Hmode. cbn [negb].
  set (cp := pre ++ rooted cwd) in *. assert (Hl : (length cp < length d)%nat) by (rewrite Hd; unfold ROOM; lia).
  rewrite run_assoc, (run_eq _ _ _ _ _ (dstrcpy_start d 0 cp Hl)).
  set (rest := drop _ d). assert (Hrest : length ((cp ++ [0]) ++ rest) = ROOM).
  { unfold rest. rewrite !length_app, length_drop. cbn [length]. lia. }
  rewrite <- app_assoc in *. cbn [app] in *. set (d1 := cp ++ 0 :: rest) in *.
  destruct (rooted_cons cwd) as [tl Htl].
  rewrite run_assoc, (run_eq _ _ _ _ _ (dget_app 0 a d1 0 cp _ eq_refl eq_refl ltac:(lia))).
  rewrite run_assoc, (run_eq _ _ _ _ _ (dget_app 1 COLON d1 0 cp _ eq_refl eq_refl ltac:(lia))).
  rewrite Hsub. cbn [andb]. rewrite run_ret. rewrite (run_eq _ _ _ _ _ (pmove_run _ _ _)).
  assert (H2 : d1 !! 2%nat = Some BACKSLASH) by (unfold d1, cp; by rewrite Htl).
  rewrite (run_eq _ _ _ _ _ (dget_at 2 _ d1 _ H2 ltac:(lia))). change (BACKSLASH =? 0) with false. cbn iota.
  rewrite run_ret, (run_eq _ _ _ _ _ (dput_same 2 _ d1 _ H2 ltac:(unfold byte, BACKSLASH; lia) ltac:(lia))).
  fold (absolute src). destruct (absolute src) eqn:Eabs.
  - rewrite run_ret, run_get. cbn [ptr].
    rewrite (run_eq _ _ _ _ _ (dget_app (2 - 1) COLON d1 2 cp _ eq_refl eq_refl ltac:(lia))).
    change (COLON =? BACKSLASH) with false. cbn iota. rewrite run_ret. eexists. split; [reflexivity|].
    exists (rooted cwd ++ 0 :: rest). cbn [render map concat]. unfold render. cbn [map concat].
    rewrite app_nil_r. unfold d1, cp. rewrite <- app_assoc. split; [done|].
    split; [by rewrite app_assoc|]. split; [cbn; lia|]. unfold d1, cp in H2. by rewrite <- app_assoc in H2.
  - assert (Hz : 0 ∉ rooted cwd) by (intros Hin; apply Hzero; apply elem_of_app; by right).
    assert (Ed : d1 = pre ++ rooted cwd ++ 0 :: rest) by (unfold d1, cp; by rewrite <- app_assoc).
    rewrite Ed, run_assoc, (run_eq _ _ _ _ _ (dstr_at pre (rooted cwd) rest 2 2 eq_refl ltac:(lia) Hz)).
    rewrite run_assoc, (run_eq _ _ _ _ _ (pmove_run _ _ _)), run_ret, run_get. cbn [ptr].
    set (q := 2 + _). destruct (decide (cwd = [])) as [Ec|Ec].
    + unfold q. rewrite Ec. clear q. set (q := 2 + _). assert (Hget : (pre ++ rooted [] ++ 0 :: rest) !! Z.to_nat (q - 1) = Some BACKSLASH) by reflexivity.
      rewrite (run_eq _ _ _ _ _ (dget_at (q - 1) BACKSLASH _ _ Hget ltac:(unfold q; cbn; lia))).
      change (BACKSLASH =? BACKSLASH) with true. cbn iota. rewrite (run_eq _ _ _ _ _ (pmove_run _ _ _)).
      eexists. split; [reflexivity|]. exists (rooted [] ++ 0 :: rest). split; [done|].
      rewrite Ed, Ec in Hrest. split; [exact Hrest|]. split; [cbn; lia|done].
    + assert (Er : rooted cwd = render cwd) by (by destruct cwd). unfold q. rewrite Er in *. clear q. set (q := 2 + _).
      destruct (last_char pre COLON eq_refl ltac:(done) cwd Hnames) as (x & Hx & Hne).
      assert (Hget : (pre ++ render cwd ++ 0 :: rest) !! Z.to_nat (q - 1) = Some x).
      { rewrite last_lookup in Hx. rewrite app_assoc. apply lookup_app_l_Some. rewrite <- Hx. f_equal.
        unfold q. rewrite length_app. cbn. lia. }
      rewrite (run_eq _ _ _ _ _ (dget_at (q - 1) x _ _ Hget ltac:(unfold q; lia))).
      rewrite (proj2 (Z.eqb_neq x BACKSLASH)) by done. rewrite run_ret. eexists. split; [reflexivity|].
      exists (0 :: rest). rewrite <- app_assoc. split; [f_equal; unfold q; rewrite length_app; cbn; lia|].
      rewrite Ed in Hrest, H2. split; [exact Hrest|]. split; [rewrite length_app; cbn; lia|exact H2].
Qed.
End Cwd.

(** ** Upper case *)

(** A table of upper case letters: 128 characters of names that are upper
    case themselves. *)
Definition upper (t : list Z) (c : Z) : Prop :=
  DirChar c = true /\ is_slash c = false /\ c <> DOT /\ c <> 0x2a /\ c <> 0x3f /\ upMM t c = Some c.
Definition table_ok (t : list Z) : Prop :=
  length t = 128%nat /\ Forall (upper t) t /\ Forall byte t.

Lemma upMM_total t c : table_ok t -> byte c -> exists x, upMM t c = Some x.
Proof.
  intros (Hl & _) Hc. unfold byte in Hc. unfold upMM. destruct (_ && _); [by eexists|].
  destruct (0x7f <? c) eqn:E; [|by eexists]. zbool.
  destruct (lookup_lt_is_Some_2 t (Z.to_nat (c - 0x80)) ltac:(lia)) as [x Hx]. by exists x.
Qed.

Lemma upMMem_total t l : table_ok t -> Forall byte l -> exists up, upMMem t l = Some up /\ length up = length l.
Proof.
  intros Ht. induction 1 as [|c l Hc Hl (up & IH & IHl)]; [by exists []|].
  destruct (upMM_total t c Ht Hc) as [x Hx]. exists (x :: up). unfold upMMem in *. cbn.
  rewrite Hx. cbn. rewrite IH. cbn. by rewrite IHl.
Qed.

(** What upper case does to a character: only letters change, to characters
    of names. *)
Lemma upMM_cases t c x :
  table_ok t -> upMM t c = Some x ->
  x = c /\ (c < 0x61 \/ 0x7a < c <= 0x7f) \/ upper t x /\ 0x61 <= c.
Proof.
  intros (Hl & Ht & _). unfold upMM. destruct ((0x61 <=? c) && (c <=? 0x7a)) eqn:E1.
  - zbool. intros [= <-]. right. split; [|done].
    assert (Hx : 0x41 <= c - 0x20 <= 0x5a) by lia. set (x := c - 0x20) in *. clearbody x. clear -Hx.
    repeat split; try (unfold DOT; lia).
    + unfold DirChar. rewrite (proj2 (Z.leb_le _ _)) by lia. cbn [andb]. apply negb_true_iff, bool_decide_eq_false_2.
      unfold DirChars. rewrite !elem_of_cons, elem_of_nil. lia.
    + unfold is_slash, SLASH, BACKSLASH. by rewrite !(proj2 (Z.eqb_neq _ _)) by lia.
    + unfold upMM. rewrite (proj2 (Z.leb_gt _ _)), (proj2 (Z.ltb_ge _ _)) by lia. done.
  - destruct (0x7f <? c) eqn:E2; zbool.
    + intros Hx. right. split; [|lia]. eapply Forall_lookup_1; [exact Ht|exact Hx].
    + intros [= <-]. left. split; [done|]. apply andb_false_iff in E1 as [E1|E1]; zbool; lia.
Qed.

Lemma upMM_idem t c x : table_ok t -> upMM t c = Some x -> upMM t x = Some x.
Proof.
  intros Ht Hx. destruct (upMM_cases t c x Ht Hx) as [[-> _]|[H _]]; [done|apply H].
Qed.

(** The characters with a meaning in paths stay what they are. *)
Lemma upMM_special t c x y :
  table_ok t -> upMM t c = Some x -> y = SLASH \/ y = BACKSLASH \/ y = DOT \/ y = 0x2a \/ y = 0x3f ->
  (x = y <-> c = y).
Proof.
  intros Ht Hx Hy. destruct (upMM_cases t c x Ht Hx) as [[-> _]|[(_ & Hs & H1 & H2 & H3 & _) Hc]]; [done|].
  unfold is_slash in Hs. apply orb_false_iff in Hs as [Hs1 Hs2]. zbool.
  unfold SLASH, BACKSLASH, DOT in *. split; [intros ->; naive_solver|intros ->].
  assert (y = 0x5c \/ y = 0x2f \/ y = 0x2e \/ y = 0x2a \/ y = 0x3f) by tauto.
  destruct Hy as [-> | [-> | [-> | [-> | ->]]]]; lia.
Qed.

Lemma upMM_zero t c x : table_ok t -> upMM t c = Some x -> x = 0 -> c = 0.
Proof.
  intros Ht Hx ->. destruct (upMM_cases t c 0 Ht Hx) as [[-> _]|[[Hd _] _]]; [done|]. done.
Qed.

Lemma upMMem_zero t l up : table_ok t -> upMMem t l = Some up -> 0 ∉ l -> 0 ∉ up.
Proof.
  intros Ht Hu Hl Hin. apply mapM_Some in Hu.
  apply list_elem_of_lookup in Hin as [i Hi].
  destruct (Forall2_lookup_r _ _ _ _ _ Hu Hi) as (c & Hc & Hx).
  apply Hl. rewrite <- (upMM_zero t c 0 Ht Hx eq_refl). by eapply list_elem_of_lookup_2.
Qed.

(** ** A plain drive *)

Section Plain.
Context {M : Machine} {Sh : Shell}.

(** No redirector takes names. *)
Definition no_redirector : Prop :=
  forall d src w, exists rc, rc <> SUCCESS /\ QRemote_Fn d src w = (rc, d, w).

(** A drive of this machine: neither remote nor substituted, with the
    directory [cwd], which exists; upper case comes from the kernel's table. *)
Record plain (s : pst) (drive : Z) (e : cds) (cwd : list (list Z)) : Prop := Plain {
  pl_range : 0 <= drive < 26;
  pl_cds : get_cds drive (kern s) = Some (Some e, kern s);
  pl_remote : has (cdsFlags e) CDSNETWDRV = false;
  pl_subst : has (cdsFlags e) CDSSUBST = false;
  pl_offset : cdsBackslashOffset e = 2;
  pl_path : cstr (cdsCurrentPath e) = [drNrToLetter drive; COLON] ++ rooted cwd;
  pl_end : (length (rooted cwd) <= 64)%nat /\ cdsCurrentPath e !! 66%nat = Some 0;
  pl_names : Forall (fun m => m <> [] /\ BACKSLASH ∉ m /\ Forall (fun c => byte c /\ c <> 0) m) cwd;
  pl_nls : has (nls_flags (actPkg s)) NLS_FLAG_DIRECT_FUPCASE = true /\ table_ok (nls_tbl4 (actPkg s));
  pl_joined : njoined s = 0;
  pl_ready : exists rc k1 k2, media_check (cdsDpb e) (kern s) = Some (rc, k1) /\ 0 <= rc /\
    dos_cd (cstr (cdsCurrentPath e)) k1 = Some (SUCCESS, k2) }.

(** The drive that a path is on. *)
Definition selects (s : pst) (src : list Z) (drive : Z) : Prop :=
  match src with
  | c0 :: c1 :: _ =>
      if c1 =? COLON then exists x, upMM (nls_tbl4 (actPkg s)) c0 = Some x /\ drLetterToNr x = drive
      else default_drive s = drive /\ ~ (c0 = BACKSLASH /\ c1 = BACKSLASH)
  | _ => default_drive s = drive /\ src <> []
  end.

(** The path without the drive. *)
Definition body (src : list Z) : list Z :=
  match src with _ :: c1 :: r => if c1 =? COLON then r else src | _ => src end.

(** The names that a path stands for. *)
Definition target (src : list Z) (cwd : list (list Z)) : option (list (list Z) * bool) :=
  if absolute (body src) then resolve 2 (components (drop 1 (body src))) [] false
  else resolve 2 (components (body src)) cwd false.

Lemma letter_byte drive : byte (drNrToLetter drive).
Proof. apply u8_range. Qed.
Lemma letter_nonzero drive : 0 <= drive < 26 -> drNrToLetter drive <> 0.
Proof. intros H. unfold drNrToLetter. rewrite u8_small; lia. Qed.

Definition chars (cs : list (list Z)) : Prop := Forall (fun m => Forall (fun c => byte c /\ c <> 0) m) cs.

Lemma chars_rooted cs : chars cs -> Forall (fun c => byte c /\ c <> 0) (rooted cs).
Proof.
  intros H. assert (Hb : byte BACKSLASH /\ BACKSLASH <> 0) by (unfold byte, BACKSLASH; lia).
  destruct cs as [|m cs]; [by repeat constructor|]. cbn [rooted].
  assert (Hr : Forall (fun c => byte c /\ c <> 0) (render (m :: cs))); [|done].
  induction H as [|x l Hx Hl IH]; [constructor|]. unfold render in *. cbn.
  constructor; [done|]. apply Forall_app. by split.
Qed.

Lemma name83_chars_ok w m : Forall byte w -> name83 w = Some m -> Forall (fun c => byte c /\ c <> 0) m.
Proof.
  intros Hw Hm. apply Forall_forall. intros c Hc. pose proof (name83_valid _ _ Hm) as Hv.
  eapply Forall_forall in Hv; [|exact Hc]. unfold DirChar in Hv. apply andb_true_iff in Hv as [Hv _]. zbool.
  destruct (name83_chars _ _ _ Hm Hc) as [Hin| ->]; [|unfold byte; lia].
  eapply Forall_forall in Hin; [|exact Hw]. unfold byte in *. lia.
Qed.

Lemma components_byte b s : Forall byte b -> s ∈ components b -> Forall byte s.
Proof.
  intros Hb Hin. pose proof (components_forall byte b Hb) as H.
  eapply Forall_forall in H; [|exact Hin]. apply H.
Qed.

Lemma target_chars src cwd cs w :
  Forall byte src -> chars cwd -> target src cwd = Some (cs, w) -> chars cs.
Proof.
  intros Hb Hcwd. unfold target.
  assert (Hbody : Forall byte (body src)).
  { unfold body. destruct src as [|c0 [|c1 r]]; try done. destruct (c1 =? COLON); [|done].
    apply Forall_cons in Hb as [_ [_ ?]%Forall_cons]. done. }
  assert (Hnew : forall b cs0 w0, Forall byte b -> chars cs0 -> resolve 2 (components b) cs0 w0 = Some (cs, w) -> chars cs).
  { intros b cs0 w0 Hbb H0 Hres. destruct (resolve_shape (Forall (fun c => byte c /\ c <> 0)) _ _ _ _ _ _
      (fun s m Hin _ _ Hm _ => name83_chars_ok s m (components_byte b s Hbb Hin) Hm) H0 Hres) as (cs1 & H1 & [-> | ->]);
      [done|]. apply Forall_app. split; [done|]. by repeat constructor. }
  destruct (absolute (body src)); apply Hnew; try done; [by apply Forall_drop|constructor].
Qed.

Lemma plain_chars s drive e cwd : plain s drive e cwd -> chars cwd.
Proof. intros P. eapply Forall_impl; [exact (pl_names _ _ _ _ P)|]. by intros ? (_ & _ & ?). Qed.

Lemma upMMem_byte t l up : table_ok t -> upMMem t l = Some up -> Forall byte l -> Forall byte up.
Proof.
  intros Ht Hu%mapM_Some. pose proof (proj2 (proj2 Ht)) as Hbt. induction Hu as [|c x l u Hx Hu IH]; [done|]. intros [Hc Hl]%Forall_cons.
  constructor; [|by apply IH]. destruct (upMM_cases t c x Ht Hx) as [[-> _]|_]; [done|].
  unfold upMM in Hx. destruct (_ && _) eqn:E; [zbool; injection Hx as <-; unfold byte in *; lia|].
  destruct (0x7f <? c); [|by injection Hx as <-]. exact (Forall_lookup_1 _ _ _ _ Hbt Hx).
Qed.

Lemma upMM_letter t drive : 0 <= drive < 26 -> upMM t (drNrToLetter drive) = Some (drNrToLetter drive).
Proof.
  intros H. unfold drNrToLetter. rewrite u8_small by lia. unfold upMM.
  rewrite (proj2 (Z.leb_gt _ _)), (proj2 (Z.ltb_ge _ _)) by lia. done.
Qed.
Lemma letter_drive drive : 0 <= drive < 26 -> drLetterToNr (drNrToLetter drive) = drive.
Proof.
  intros H. unfold drNrToLetter, drLetterToNr. rewrite (u8_small (drive + 0x41)), u8_small by lia. lia.
Qed.

(** ** The parts of the call *)

Lemma run_DosUpFMem {A} l up s (f : list Z -> K pst A) :
  has (nls_flags (actPkg s)) NLS_FLAG_DIRECT_FUPCASE = true -> upMMem (nls_tbl4 (actPkg s)) l = Some up ->
  kbind (DosUpFMem l) f s = f up s.
Proof. intros Hf Hu. unfold DosUpFMem. rewrite run_assoc, run_get, Hf, Hu. by rewrite run_opt. Qed.

Lemma fmemcpy_mid l m m' rest i k :
  Z.to_nat i = length l -> 0 <= i -> length m' = length m -> k = Z.of_nat (length m) ->
  fmemcpy (l ++ m ++ rest) i m' k = Some (l ++ m' ++ rest).
Proof.
  intros Hi H0 Hm ->. unfold fmemcpy. rewrite !length_app, !(proj2 (Z.leb_le _ _)) by lia. cbn [andb].
  rewrite Hi, take_app_length, Nat2Z.id, take_ge by lia. do 3 f_equal.
  rewrite app_assoc, drop_app_length'; [done|]. rewrite length_app. lia.
Qed.

Lemma up_path_at (a : Z) m up rest p s :
  has (nls_flags (actPkg s)) NLS_FLAG_DIRECT_FUPCASE = true -> upMMem (nls_tbl4 (actPkg s)) m = Some up ->
  length up = length m -> 0 ∉ m ->
  up_path 2 (Cur ([a; COLON] ++ m ++ 0 :: rest) p) s = Some (Cur ([a; COLON] ++ up ++ 0 :: rest) p, s).
Proof.
  intros Hf Hu Hl Hm. unfold up_path, on_dest. rewrite (dstr_at [a; COLON] m rest p 2 eq_refl ltac:(lia) Hm), run_opt.
  cbn [fst]. rewrite (run_DosUpFMem _ up) by done. cbn [dest ptr].
  rewrite (fmemcpy_mid [a; COLON] m up (0 :: rest) 2) by (done || lia). by rewrite run_opt.
Qed.

Lemma drive_bit drive i : 0 <= drive < 26 -> 5 <= i -> Z.testbit drive i = false.
Proof.
  intros H Hi. destruct (decide (drive = 0)) as [->|]; [apply Z.bits_0|]. apply Z.bits_above_log2; [lia|].
  apply Z.log2_lt_pow2; [lia|]. assert (2 ^ 5 <= 2 ^ i) by (apply Z.pow_le_mono_r; lia). lia.
Qed.

Lemma drive_bits drive : 0 <= drive < 26 -> Z.land drive (Z.lor IS_DEVICE IS_NETWORK) = 0 /\ Z.land drive 0x1f = drive.
Proof.
  intros H. assert (Hb := fun i => drive_bit drive i H). split.
  - apply Z.bits_inj'. intros i Hi. rewrite Z.land_spec, Z.bits_0. destruct (decide (i < 5)).
    + assert (i = 0 \/ i = 1 \/ i = 2 \/ i = 3 \/ i = 4) as [-> | [-> | [-> | [-> | ->]]]] by lia;
        apply andb_false_r.
    + by rewrite Hb by lia.
  - change 0x1f with (2 ^ 5 - 1). rewrite land_mask by lia. apply Z.mod_small. lia.
Qed.

Lemma finish_at (a : Z) m rest p mode drive s :
  0 <= drive < 26 -> njoined s = 0 ->
  finish_path mode drive (Cur ([a; COLON] ++ (BACKSLASH :: m) ++ rest) p) s =
    Some ((if mode =? CDS_MODE_ALLOW_WILDCARDS then 0 else drive, Cur ([a; COLON] ++ (BACKSLASH :: m) ++ rest) p), s).
Proof.
  intros Hd Hj. unfold finish_path. cbn [dest]. change (fgetbyte _ 2) with (Some BACKSLASH). rewrite run_opt, run_get, Hj.
  change (0 =? 0) with true. cbn [negb]. rewrite andb_false_r, run_ret.
  rewrite (proj1 (drive_bits drive Hd)). change (0 =? IS_DEVICE) with false. rewrite !andb_false_r. cbn [andb].
  by rewrite run_ret.
Qed.

(** What a call returns: an error, the drive with the path, or nothing, when
    the NUL does not fit. *)
Definition outcome (o : option (list (list Z) * bool)) (mode drive : Z) (t : list Z)
  (r : option (Z * list Z * pst)) : Prop :=
  let error := exists rc d s', r = Some ((rc, d), s') /\ (rc = DE_FILENOTFND \/ rc = DE_PATHNOTFND) in
  match o with
  | None => error
  | Some (cs, w) =>
      if w && negb (has mode CDS_MODE_ALLOW_WILDCARDS) then error
      else if decide (2 + length (rooted cs) < ROOM)%nat then
        exists d s' up,
          r = Some ((if mode =? CDS_MODE_ALLOW_WILDCARDS then 0 else drive, d), s') /\ length d = ROOM /\
          upMMem t (rooted cs) = Some up /\ cstr d = drNrToLetter drive :: COLON :: up
      else r = None
  end.

(** From the destination with the current directory on. *)
Lemma tail_at src mode drive c cs s :
  0 <= drive < 26 -> njoined s = 0 ->
  has (nls_flags (actPkg s)) NLS_FLAG_DIRECT_FUPCASE = true -> table_ok (nls_tbl4 (actPkg s)) ->
  at_path 2 c ([drNrToLetter drive; COLON] ++ render cs) -> names cs -> Forall byte src ->
  (forall cs' w, resolve 2 (components src) cs false = Some (cs', w) -> chars cs') ->
  outcome (resolve 2 (components src) cs false) mode drive (nls_tbl4 (actPkg s))
    ((let! r := (let! r := on_dest (put_path src 2 mode) c in
                 match r with
                 | (inl rc, c) => kret (rc, c)
                 | (inr _, c) => let! c := up_path 2 c in finish_path mode drive c
                 end) in kret (fst r, dest (snd r))) s).
Proof.
  intros Hd Hj Hf Ht H Hcs Hb Hch. set (a := drNrToLetter drive) in *.
  pose proof (put_path_at 2 [a; COLON] COLON eq_refl eq_refl ltac:(done) src mode c cs eq_refl H Hcs Hb) as Hp.
  change (Z.of_nat 2) with 2 in Hp.
  assert (Herr : failed (put_path src 2 mode c) -> exists rc d s',
    (let! r := (let! r := on_dest (put_path src 2 mode) c in
                match r with
                | (inl rc, c) => kret (rc, c)
                | (inr _, c) => let! c := up_path 2 c in finish_path mode drive c
                end) in kret (fst r, dest (snd r))) s = Some ((rc, d), s') /\
      (rc = DE_FILENOTFND \/ rc = DE_PATHNOTFND)).
  { intros (rc & c' & Hr & Hrc & _). unfold on_dest. rewrite Hr, !run_assoc, run_opt, run_ret. by exists rc, (dest c'), s. }
  unfold outcome. destruct (resolve 2 (components src) cs false) as [[cs' w]|]; [|by apply Herr].
  destruct (w && _); [by apply Herr|]. change (length ([a; COLON] ++ rooted cs')) with (2 + length (rooted cs'))%nat in Hp.
  destruct (decide _) as [Hl|Hl].
  2:{ unfold on_dest. by rewrite Hp. }
  destruct Hp as (rest & Hr & Hlen). specialize (Hch cs' w eq_refl). apply chars_rooted in Hch.
  assert (Hch' : Forall byte (rooted cs') /\ 0 ∉ rooted cs').
  { split; [by eapply Forall_impl; [exact Hch|]; intros ? []|].
    intros Hin. eapply Forall_forall in Hin; [|exact Hch]. by destruct Hin. }
  destruct Hch' as [Hby Hz]. destruct (upMMem_total _ _ Ht Hby) as (up & Hup & Hupl).
  destruct (rooted_cons cs') as [tl Htl].
  assert (Hup0 : exists m, up = BACKSLASH :: m).
  { pose proof Hup as H2. rewrite Htl in H2. apply mapM_Some in H2.
    inversion H2 as [|? x ? m Hx Hm]. injection Hx as <-. by exists m. }
  destruct Hup0 as [m ->]. unfold on_dest. rewrite Hr, !run_assoc, run_opt, run_assoc.
  rewrite (run_eq _ _ _ _ _ (up_path_at a _ _ rest _ s Hf Hup Hupl Hz)).
  rewrite (run_eq _ _ _ _ _ (finish_at a m (0 :: rest) _ mode drive s Hd Hj)). cbn [fst snd dest].
  eexists _, s, _. split; [reflexivity|]. split; [|split; [done|]].
  - rewrite !length_app in *. cbn [length] in *. lia.
  - pose proof (letter_nonzero drive Hd) as Ha. fold a in Ha. cbn [app]. cbn [cstr].
    rewrite (proj2 (Z.eqb_neq a 0)) by done. change (COLON =? 0) with false. cbn iota. do 2 f_equal.
    apply (cstr_app (BACKSLASH :: m) rest). intros Hin.
    by apply (upMMem_zero _ _ _ Ht Hup Hz).
Qed.

(** The beginning, before the current directory is put. *)
Lemma start_at a d :
  length d = ROOM -> byte a ->
  exists d', (do! dput 0 a in do! dput 1 COLON in dput 2 BACKSLASH) (Cur d 0) = Some (tt, Cur d' 0) /\
    length d' = ROOM /\ fgetbyte d' 2 = Some BACKSLASH.
Proof.
  intros Hd Ha. assert (H128 : Z.of_nat (length d) = 128) by (rewrite Hd; done).
  rewrite (run_eq _ _ _ _ _ (dput_at 0 a d 0 ltac:(lia) Ha)).
  rewrite (run_eq _ _ _ _ _ (dput_at 1 COLON (<[Z.to_nat 0:=a]> d) 0 ltac:(rewrite length_insert; lia) ltac:(unfold byte, COLON; lia))).
  rewrite dput_at by (rewrite ?length_insert; unfold byte, BACKSLASH; lia).
  eexists. split; [reflexivity|]. rewrite !length_insert. split; [done|].
  unfold fgetbyte. change (2 <? 0) with false. cbn iota. apply list_lookup_insert_eq. rewrite !length_insert. lia.
Qed.

Definition second (src : list Z) : Z := match src with _ :: c1 :: _ => c1 | _ => 0 end.

Lemma chr_1 src : src <> [] -> chr src 1 = Some (second src).
Proof.
  destruct src as [|c0 r]; [done|]. intros _. unfold chr. cbn [length].
  rewrite (proj2 (Z.ltb_ge (Z.of_nat _) 1)) by lia. by destruct r.
Qed.

Lemma src_body_spec src : (if second src =? COLON then drop 2 src else src) = body src.
Proof. destruct src as [|c0 [|c r]]; [done..|]. cbn. by destruct (c =? COLON). Qed.

Lemma body_byte src : Forall byte src -> Forall byte (body src).
Proof.
  intros Hb. unfold body. destruct src as [|c0 [|c1 r]]; try done. destruct (c1 =? COLON); [|done].
  apply Forall_cons in Hb as [_ [_ ?]%Forall_cons]. done.
Qed.

Lemma local_at src mode drive e cwd s dst :
  plain s drive e cwd -> TempCDS s = e -> length dst = ROOM -> Forall byte src -> src <> [] ->
  has mode CDS_MODE_SKIP_PHYSICAL = false ->
  outcome (target src cwd) mode drive (nls_tbl4 (actPkg s))
    ((let! r := local_truename src mode drive drive (Cur dst 0) in kret (fst r, dest (snd r))) s).
Proof.
  intros [Hd Hget Hrem Hsub Hoff Hpath [Hend H66] Hnames [Hf Ht] Hj (rc & k1 & k2 & Hmc & Hrc & Hcd)] HT Hdst Hb Hne Hmode.
  destruct (start_at (drNrToLetter drive) dst Hdst (letter_byte _)) as (d1 & Hst & Hd1 & Hd2).
  unfold local_truename. rewrite (proj2 (drive_bits drive Hd)), (chr_1 src Hne).
  rewrite run_assoc, run_opt, run_assoc. unfold on_dest at 1. rewrite Hst, run_opt. cbn [snd].
  rewrite src_body_spec.
  assert (has drive IS_DEVICE = false) as ->.
  { change IS_DEVICE with (2 ^ 5). rewrite has_bit by lia. by apply drive_bit. }
  rewrite run_assoc, run_ret, run_assoc. cbn [dest]. rewrite Hd2, run_opt.
  change (BACKSLASH =? SLASH) with false. cbn [negb].
  rewrite !run_assoc, run_get, HT, run_assoc.
  assert (Hput : fputbyte (MAX_CDSPATH - 1) 0 (cdsCurrentPath e) = Some (cdsCurrentPath e)).
  { unfold fputbyte. change (MAX_CDSPATH - 1) with 66. pose proof (lookup_lt_Some _ _ _ H66) as Hl.
    rewrite (proj2 (Z.leb_le 0 66)), (proj2 (Z.ltb_lt 66 _)) by lia. cbn [andb]. by rewrite list_insert_id. }
  rewrite Hput, run_opt, run_assoc, run_mod.
  set (s1 := set_TempCDS _ s). assert (E1 : TempCDS s1 = e) by (unfold s1; by destruct e).
  unfold check_cwd. rewrite !run_assoc, run_get, E1, Hrem.
  assert (Hm : lift (media_check (cdsDpb e)) s1 = Some (rc, set_kern k1 s1)).
  { unfold lift. change (kern s1) with (kern s). by rewrite Hmc. }
  rewrite !run_assoc, (run_eq _ _ _ _ _ Hm), (proj2 (Z.ltb_ge rc 0)) by done.
  assert (Hc : lift (dos_cd (cstr (cdsCurrentPath e))) (set_kern k1 s1) = Some (SUCCESS, set_kern k2 s1)).
  { unfold lift. cbn [kern set_kern]. by rewrite Hcd. }
  rewrite !run_assoc, (run_eq _ _ _ _ _ Hc). change (SUCCESS =? SUCCESS) with true. cbn iota.
  rewrite !run_assoc, !run_ret. cbn [negb]. rewrite !run_assoc, run_get. cbn [TempCDS set_kern]. rewrite E1.
  assert (Hnames' : names cwd).
  { eapply Forall_impl; [exact Hnames|]. by intros ? (? & ? & _). }
  assert (Hchars : chars cwd) by (eapply Forall_impl; [exact Hnames|]; by intros ? (_ & _ & ?)).
  assert (Hz : 0 ∉ [drNrToLetter drive; COLON] ++ rooted cwd).
  { rewrite elem_of_app, !elem_of_cons, elem_of_nil. intros [[E|[E|[]]]|E].
    - by apply (letter_nonzero drive Hd).
    - done.
    - eapply Forall_forall in E; [|by apply chars_rooted]. by destruct E. }
  destruct (put_cwd_at (drNrToLetter drive) cwd Hnames' Hz ltac:(cbn [app length]; lia) (body src) mode
    (lastdrive (env (kern (set_kern k2 s1)))) drive e d1 Hpath Hoff Hsub Hmode Hd1) as (c & Hr & Hc').
  unfold on_dest at 1. rewrite Hr, run_assoc, run_opt, run_ret. cbn [fst snd].
  set (s2 := set_kern k2 s1). set (cs0 := if absolute (body src) then [] else cwd) in *.
  assert (Hcs0 : names cs0) by (unfold cs0; destruct (absolute _); [by constructor|done]).
  assert (Hbody : Forall byte (if absolute (body src) then drop 1 (body src) else body src)).
  { destruct (absolute _); [apply Forall_drop|]; by apply body_byte. }
  pose proof (tail_at (if absolute (body src) then drop 1 (body src) else body src) mode drive c cs0 s2 Hd Hj Hf Ht Hc' Hcs0 Hbody) as Htl.
  unfold target, cs0 in *. destruct (absolute (body src)) eqn:Eabs; apply Htl; intros cs' w Hres;
    apply (target_chars src cwd cs' w Hb Hchars); unfold target; by rewrite Eabs.
Qed.

Lemma set_kern_id s : set_kern (kern s) s = s.
Proof. by destruct s. Qed.

Lemma run_path_letter src drive e cwd s :
  plain s drive e cwd -> selects s src drive -> src <> [] -> path_letter src s = Some (drive, s).
Proof.
  intros P Hsel Hne. destruct P as [_ _ _ _ _ _ _ _ [Hf _] _ _].
  unfold path_letter. rewrite (chr_1 src Hne), run_opt, run_get.
  destruct src as [|c0 [|c1 r]]; [done| |]; cbn [second selects] in *.
  - change (0 =? COLON) with false. cbn iota. by destruct Hsel as [-> _].
  - destruct (c1 =? COLON); [|by destruct Hsel as [-> _]].
    destruct Hsel as (x & Hx & Hdr). unfold DosUpFChar. rewrite !run_assoc.
    rewrite (run_DosUpFMem [c0] [x]); [|done|unfold upMMem; cbn; by rewrite Hx].
    change ([x] !! 0%nat) with (Some x). rewrite run_opt. unfold kret. by rewrite Hdr.
Qed.

Lemma run_path_drive src mode drive e cwd s :
  plain s drive e cwd -> path_drive src drive None mode s = Some (inr (drive, e), s).
Proof.
  intros P. assert (Hcds : lift (get_cds drive) s = Some (Some e, s))
    by (unfold lift; rewrite (pl_cds _ _ _ _ P); by rewrite set_kern_id).
  unfold path_drive. by rewrite (run_eq _ _ _ _ _ Hcds).
Qed.

Lemma run_on_world {A B} (g : world -> A * world) a (f : A -> K pst B) s :
  g (dev (kern s)) = (a, dev (kern s)) -> kbind (on_world g) f s = f a s.
Proof.
  intros Hg. apply run_eq. unfold on_world. rewrite Hg. do 2 f_equal. destruct s as [[]]. done.
Qed.

Lemma truename_at s src dst mode drive e cwd :
  plain s drive e cwd -> selects s src drive -> IsDevice src s = Some (None, s) -> no_redirector ->
  length dst = ROOM -> Forall byte src -> has mode CDS_MODE_SKIP_PHYSICAL = false ->
  outcome (target src cwd) mode drive (nls_tbl4 (actPkg s)) (truename src dst mode s).
Proof.
  intros P Hsel Hdev Hno Hdst Hb Hmode.
  assert (Hne : src <> []) by (destruct src; [by destruct Hsel|done]).
  assert (Hunc : forall c0 r, src = c0 :: r -> (c0 =? BACKSLASH) && (second src =? BACKSLASH) = false).
  { intros c0 r ->. destruct r as [|c1 r]; [apply andb_false_r|]. cbn [second selects] in *.
    destruct (c1 =? COLON) eqn:E; zbool; [subst; apply andb_false_r|].
    apply not_true_iff_false. intros [E1%Z.eqb_eq E2%Z.eqb_eq]%andb_true_iff. by apply (proj2 Hsel). }
  set (s1 := set_current_ldt (Ldt drive) (set_TempCDS e s)).
  assert (P1 : plain s1 drive e cwd) by (by destruct P).
  destruct (Hno (<[0%nat := 0]> dst) src (dev (kern s1))) as (rc & Hrc & Hq).
  assert (Hput : fputbyte 0 0 dst = Some (<[0%nat := 0]> dst)).
  { unfold fputbyte. rewrite (proj2 (Z.ltb_lt 0 _)) by (rewrite Hdst; done). done. }
  assert (Hrun : truename src dst mode s =
    (let! r := local_truename src mode drive drive (Cur (<[0%nat := 0]> dst) 0) in kret (fst r, dest (snd r))) s1).
  { unfold truename. destruct src as [|c0 src']; [done|].
    rewrite (chr_1 (c0 :: src') Hne), run_opt, (Hunc c0 src' eq_refl).
    rewrite (run_eq _ _ _ _ _ (run_path_letter _ drive e cwd s P Hsel Hne)), (run_eq _ _ _ _ _ Hdev).
    rewrite (run_eq _ _ _ _ _ (run_path_drive (c0 :: src') mode drive e cwd s P)).
    rewrite !run_mod. fold s1. rewrite (pl_remote _ _ _ _ P), Hput, run_opt, Hmode. cbn [negb].
    rewrite bool_decide_eq_false_2 by (by intros [? ?]).
    rewrite run_assoc, (run_on_world _ (rc, <[0%nat := 0]> dst)) by (by rewrite Hq).
    rewrite run_ret. unfold fgetbyte. change (0 <? 0) with false. cbn iota.
    change (Z.to_nat 0) with 0%nat. rewrite list_lookup_insert_eq by (rewrite Hdst; unfold ROOM; lia).
    by rewrite run_opt, (proj2 (Z.eqb_neq rc SUCCESS)). }
  rewrite Hrun. apply (local_at src mode drive e cwd s1); try done.
  by rewrite length_insert.
Qed.
End Plain.
End PathRun.

(** * Path names: canonical forms

    The names [truename] makes are in 8.3 form, upper case keeps them so, and
    resolving a path of such names gives the same names again. *)

From S2P Require Import Prelude KState FatDir FatFile Path PathSpec.
Import Ks Dir File Path PathSpec PathRun.

Module PathCanon.

(** ** Names in 8.3 form *)

Definition name_char (c : Z) : Prop := DirChar c = true /\ is_slash c = false /\ c <> DOT /\ c <> 0x2a /\ c <> 0x3f.

(** A base of 1 to 8 characters and perhaps an extension of 1 to 3. *)
Inductive good : list Z -> Prop :=
| good_base b : b <> [] -> (length b <= 8)%nat -> Forall name_char b -> good b
| good_ext b e : b <> [] -> (length b <= 8)%nat -> Forall name_char b ->
    e <> [] -> (length e <= 3)%nat -> Forall name_char e -> good (b ++ DOT :: e).

Lemma expand_good k b :
  Forall (fun c => is_slash c = false /\ c <> DOT) b -> wild b = false -> forallb DirChar (expand k b) = true ->
  Forall name_char (expand k b).
Proof.
  revert k. induction b as [|c b IH]; intros k Hb Hw Hd; [constructor|].
  apply Forall_cons in Hb as [[Hs Hdot] Hb]. cbn in Hw. apply orb_false_iff in Hw as [Hc Hw].
  unfold is_wild in Hc. apply orb_false_iff in Hc as [H1 H2]. cbn [expand] in *. rewrite H1 in *. zbool.
  destruct k as [|k]; [constructor|]. cbn in Hd. apply andb_true_iff in Hd as [Hd1 Hd]. constructor; [done|].
  by apply IH.
Qed.

Lemma expand_nonempty k b : (0 < k)%nat -> b <> [] -> expand k b <> [].
Proof. destruct b as [|c b]; [done|]. destruct k as [|k]; [lia|]. cbn. by destruct (c =? 0x2a). Qed.

Lemma name83_good w m :
  w <> [] -> head w <> Some DOT -> Forall (fun c => is_slash c = false) w -> wild w = false ->
  name83 w = Some m -> good m.
Proof.
  intros Hne Hh Hs Hw. unfold name83. pose proof (split_dot_spec w) as Hsp.
  destruct (split_dot w) as [b e]. destruct Hsp as [Hd ->]. rewrite wild_app in Hw.
  apply orb_false_iff in Hw as [Hwb Hwe]. apply Forall_app in Hs as [Hsb Hse].
  assert (Hb : b <> []) by (destruct b; [destruct e; [by destruct Hh|done]|done]).
  assert (HB : Forall (fun c => is_slash c = false /\ c <> DOT) b).
  { apply Forall_forall. intros c Hc. split; [exact (proj1 (Forall_forall _ _) Hsb c Hc)|]. by intros ->. }
  pose proof (expand_length 8 b). pose proof (expand_nonempty 8 b ltac:(lia) Hb).
  assert (Hbase : (if forallb DirChar (expand 8 b) then Some (expand 8 b) else None) = Some m -> good m).
  { destruct (forallb DirChar (expand 8 b)) eqn:E; [|done]. intros [= <-].
    apply good_base; [done|done|]. by apply expand_good. }
  destruct e as [e|]; [|exact Hbase]. case_bool_decide as E1; [exact Hbase|]. case_bool_decide as E2; [done|].
  rewrite forallb_app. cbn [forallb]. change (DirChar DOT) with true. cbn [andb].
  destruct (forallb DirChar (expand 8 b)) eqn:E3; [|done]. cbn [andb].
  destruct (forallb DirChar (expand 3 e)) eqn:E4; [|done]. intros [= <-].
  cbn in Hwe. apply Forall_cons in Hse as [_ Hse].
  assert (HE : Forall (fun c => is_slash c = false /\ c <> DOT) e).
  { apply Forall_forall. intros c Hc. split; [exact (proj1 (Forall_forall _ _) Hse c Hc)|]. by intros ->. }
  apply good_ext; [done|done|by apply expand_good|by apply expand_nonempty; [lia|]|apply expand_length|by apply expand_good].
Qed.

Lemma expand_same k b : (length b <= k)%nat -> Forall name_char b -> expand k b = b.
Proof.
  revert k. induction b as [|c b IH]; intros k Hk Hb; [done|]. destruct k as [|k]; [cbn in Hk; lia|].
  apply Forall_cons in Hb as [(_ & _ & _ & Hc & _) Hb]. cbn in *. rewrite (proj2 (Z.eqb_neq c _)) by done.
  by rewrite IH by (done || lia).
Qed.

Lemma no_dot b : Forall name_char b -> DOT ∉ b.
Proof. intros H Hin. eapply Forall_forall in Hin; [|exact H]. by destruct Hin as (_ & _ & ? & _). Qed.

Lemma split_dot_base b : DOT ∉ b -> split_dot b = (b, None).
Proof.
  induction b as [|c b IH]; [done|]. intros [Hc Hb]%not_elem_of_cons. cbn.
  by rewrite (proj2 (Z.eqb_neq c DOT)), IH.
Qed.
Lemma split_dot_ext b e : DOT ∉ b -> split_dot (b ++ DOT :: e) = (b, Some e).
Proof.
  induction b as [|c b IH]; [done|]. intros [Hc Hb]%not_elem_of_cons. cbn.
  by rewrite (proj2 (Z.eqb_neq c DOT)), IH.
Qed.

Lemma forallb_good b : Forall name_char b -> forallb DirChar b = true.
Proof. intros H. apply forallb_forall. intros c Hc%list_elem_of_In. eapply Forall_forall in Hc; [|exact H]. apply Hc. Qed.

(** A good name is read as itself. *)
Lemma good_name83 m : good m -> name83 m = Some m.
Proof.
  intros [b Hb Hl Hc|b e Hb Hl Hc He Hle Hce]; unfold name83.
  - rewrite split_dot_base, expand_same by (done || by apply no_dot). by rewrite forallb_good.
  - rewrite split_dot_ext by (by apply no_dot). rewrite !bool_decide_eq_false_2 by (done || by apply no_dot).
    rewrite !expand_same by done. rewrite forallb_app. cbn [forallb]. by rewrite !forallb_good.
Qed.

Lemma good_plain m : good m ->
  m <> [] /\ head m <> Some DOT /\ Forall (fun c => is_slash c = false) m /\ wild m = false.
Proof.
  assert (Hch : forall b, Forall name_char b -> Forall (fun c => is_slash c = false) b /\ wild b = false).
  { induction 1 as [|c b (_ & Hs & _ & H1 & H2) Hb [IH1 IH2]]; [done|]. split; [by constructor|].
    unfold wild in *. cbn. rewrite IH2. unfold is_wild. by rewrite !(proj2 (Z.eqb_neq c _)). }
  assert (Hhd : forall b, b <> [] -> Forall name_char b -> forall l, head (b ++ l) <> Some DOT).
  { intros [|c b] Hb H l; [done|]. apply Forall_cons in H as [(_ & _ & Hd & _) _]. cbn. congruence. }
  intros [b Hb Hl Hc|b e Hb Hl Hc He Hle Hce].
  - destruct (Hch b Hc). split; [done|]. split; [rewrite <- (app_nil_r b); by apply Hhd|done].
  - destruct (Hch b Hc) as [A1 A2], (Hch e Hce) as [B1 B2]. split; [by destruct b|]. split; [by apply Hhd|].
    split; [apply Forall_app; split; [done|by constructor]|]. rewrite wild_app, A2. exact B2.
Qed.

(** ** Upper case *)

Lemma name_char_up t c x : table_ok t -> upMM t c = Some x -> name_char c -> name_char x.
Proof.
  intros Ht Hx Hc. destruct (upMM_cases t c x Ht Hx) as [[-> _]|[(H1 & H2 & H3 & H4 & H5 & _) _]]; [done|].
  by repeat split.
Qed.

Lemma upMMem_app t a b u :
  upMMem t (a ++ b) = Some u <-> exists ua ub, u = ua ++ ub /\ upMMem t a = Some ua /\ upMMem t b = Some ub.
Proof.
  unfold upMMem. rewrite mapM_Some. split.
  - intros (ua & ub & Ha & Hb & ->)%Forall2_app_inv_l. exists ua, ub. by rewrite !mapM_Some.
  - intros (ua & ub & -> & Ha%mapM_Some & Hb%mapM_Some). by apply Forall2_app.
Qed.

Lemma upMMem_good t b u :
  table_ok t -> upMMem t b = Some u -> Forall name_char b -> Forall name_char u /\ length u = length b.
Proof.
  intros Ht Hu%mapM_Some. induction Hu as [|c x b u Hx Hu IH]; [done|]. intros [Hc Hb]%Forall_cons.
  destruct (IH Hb). split; [|cbn; lia]. constructor; [by eapply name_char_up|done].
Qed.

Lemma good_up t m u : table_ok t -> upMMem t m = Some u -> good m -> good u.
Proof.
  intros Ht Hu Hg. destruct Hg as [b Hb Hl Hc|b e Hb Hl Hc He Hle Hce].
  - destruct (upMMem_good t b u Ht Hu Hc) as [H1 H2]. apply good_base; [|lia|done]. destruct b, u; done.
  - apply upMMem_app in Hu as (ub & u2 & -> & H1 & H2).
    apply (upMMem_app t [DOT] e) in H2 as (ud & ue & -> & H2 & H3).
    assert (ud = [DOT]) as -> by (injection H2 as <-; done).
    destruct (upMMem_good t b ub Ht H1 Hc) as [A1 A2], (upMMem_good t e ue Ht H3 Hce) as [B1 B2].
    apply good_ext; try done; try lia; [by destruct b, ub|by destruct e, ue].
Qed.

(** What is in upper case stays. *)
Lemma upMMem_idem t l u : table_ok t -> upMMem t l = Some u -> upMMem t u = Some u.
Proof.
  intros Ht Hu%mapM_Some. apply mapM_Some. induction Hu as [|c x l u Hx Hu IH]; constructor; [|done].
  by eapply upMM_idem.
Qed.

Lemma upMMem_render t cs u :
  upMMem t (render cs) = Some u -> exists us, u = render us /\ Forall2 (fun m x => upMMem t m = Some x) cs us.
Proof.
  revert u. induction cs as [|m cs IH]; intros u.
  - intros [= <-]. by exists [].
  - change (render (m :: cs)) with ((BACKSLASH :: m) ++ render cs).
    intros (u1 & u2 & -> & H1 & H2)%upMMem_app. destruct (IH u2 H2) as (us & -> & Hus).
    apply (upMMem_app t [BACKSLASH] m) in H1 as (ub & um & -> & H1 & H3).
    assert (ub = [BACKSLASH]) as -> by (injection H1 as <-; done).
    exists (um :: us). split; [done|]. by constructor.
Qed.

(** ** Resolving a path of good names *)

Lemma word_app m r : Forall (fun c => is_slash c = false) m -> at_end r = true -> word (m ++ r) = m /\ after (m ++ r) = r.
Proof.
  intros Hm Hr. induction Hm as [|c m Hc Hm IH]; cbn.
  - destruct r as [|c r]; [done|]. cbn in *. by rewrite Hr.
  - rewrite Hc. destruct IH as [-> ->]. done.
Qed.

Definition tail_ok (tr : list (list Z)) : Prop := tr = [] \/ tr = [[]].

Lemma render_at_end cs : at_end (render cs) = true.
Proof. by destruct cs. Qed.

Lemma components_step m cs :
  m <> [] -> Forall (fun c => is_slash c = false) m -> components (m ++ render cs) = m :: components (render cs).
Proof.
  intros Hm Hs. rewrite components_cons by (by destruct m). destruct m as [|c m]; [done|].
  pose proof Hs as [Hc _]%Forall_cons. cbn [app skip_slashes]. rewrite Hc.
  change (c :: m ++ render cs) with ((c :: m) ++ render cs).
  by destruct (word_app (c :: m) (render cs) Hs (render_at_end cs)) as [-> ->].
Qed.

Lemma components_sep s : components (BACKSLASH :: s) = match s with [] => [[]] | c :: _ => if is_slash c then components (BACKSLASH :: s) else components s end.
Proof.
  destruct s as [|c s]; [done|]. destruct (is_slash c) eqn:E; [done|].
  rewrite (components_cons (BACKSLASH :: _)), (components_cons (c :: s)) by done. cbn [skip_slashes].
  change (is_slash BACKSLASH) with true. cbn iota. by rewrite E.
Qed.

Lemma components_render ms tr :
  Forall good ms -> tail_ok tr -> components (render (ms ++ tr)) = ms ++ tr.
Proof.
  intros Hms Htr. induction Hms as [|m ms Hm Hms IH].
  - destruct Htr as [-> | ->]; done.
  - destruct (good_plain m Hm) as (Hne & _ & Hs & _).
    change (render ((m :: ms) ++ tr)) with (BACKSLASH :: m ++ render (ms ++ tr)). rewrite components_sep.
    destruct m as [|c m0]; [done|]. cbn [app]. pose proof Hs as [Hc _]%Forall_cons. rewrite Hc.
    change (c :: m0 ++ render (ms ++ tr)) with ((c :: m0) ++ render (ms ++ tr)).
    rewrite components_step by done. by rewrite IH.
Qed.

(** The same behind the first backslash. *)
Lemma components_drop ms tr :
  ms <> [] -> Forall good ms -> tail_ok tr -> components (drop 1 (render (ms ++ tr))) = ms ++ tr.
Proof.
  intros Hne Hms Htr. destruct Hms as [|m ms Hm Hms]; [done|]. destruct (good_plain m Hm) as (Hnm & _ & Hs & _).
  change (drop 1 (render ((m :: ms) ++ tr))) with (m ++ render (ms ++ tr)).
  rewrite components_step by done. by rewrite components_render.
Qed.

Lemma resolve_good n cs ms tr :
  Forall good ms -> tail_ok tr -> (n + length (render (cs ++ ms ++ tr)) < ROOM)%nat ->
  resolve n (ms ++ tr) cs false = Some (cs ++ ms ++ tr, false).
Proof.
  intros Hms Htr. revert cs. induction Hms as [|m ms Hm Hms IH]; intros cs Hl.
  - cbn [app] in *. destruct Htr as [-> | ->]; [by rewrite app_nil_r|]. cbn [resolve orb].
    rewrite render_last, length_app in Hl. rewrite bool_decide_eq_false_2 by lia. done.
  - destruct (good_plain m Hm) as (Hne & Hh & _ & Hw). cbn [app resolve orb].
    assert (Hlen : (length (render (cs ++ [m])) <= length (render (cs ++ (m :: ms) ++ tr)))%nat).
    { rewrite (render_app cs), (render_app cs). change ((m :: ms) ++ tr) with ([m] ++ ms ++ tr).
      rewrite (render_app [m]), !length_app. lia. }
    assert (Hlen' : (length (render cs) <= length (render (cs ++ [m])))%nat) by (rewrite render_app, length_app; lia).
    rewrite (bool_decide_eq_false_2 (ROOM <= _)%nat) by lia.
    rewrite (bool_decide_eq_false_2 (m = [])) by done.
    assert (Hd : forall k, m <> DOT :: k) by (intros k ->; by apply Hh).
    rewrite !(bool_decide_eq_false_2 (m = _)) by done. rewrite (bool_decide_eq_false_2 (head m = _)) by done.
    rewrite (good_name83 m Hm), bool_decide_eq_true_2, Hw by lia.
    replace (cs ++ m :: ms ++ tr) with ((cs ++ [m]) ++ ms ++ tr) by (by rewrite <- app_assoc).
    apply IH. rewrite <- app_assoc. exact Hl.
Qed.
End PathCanon.
