(* ===== verification/Frame.v ===== *)
(** * Frame: what the file system leaves alone

    No function of blockio.c, fattab.c, fatdir.c, and none of fatfs.c up to
    opening and closing a file changes the reference count, the mode or the
    owner of an entry of the system file table.  [keeps obs m]: every run of
    [m] that ends leaves [obs] of the state as it was.  One lemma per function,
    by the tactic [keeps], which follows the code. *)

From S2P Require Import Prelude KState BlockIO FatTab FNode FatAlloc Clock Media FatDir FatFile.
Import Ks Bio Fat FNode Alloc Clk Media Dir File.

Module Frame.

Definition keeps {S X A} (obs : S -> X) (m : K S A) : Prop :=
  forall s a s', m s = Some (a, s') -> obs s' = obs s.

Create HintDb keeps discriminated.

Section Keeps.
Context {S X : Type} (obs : S -> X).

Lemma keeps_ret {A} (a : A) : keeps obs (kret a).
Proof. by intros s a' s' [= _ <-]. Qed.
Lemma keeps_stuck {A} : keeps obs (kstuck (A := A)).
Proof. done. Qed.
Lemma keeps_get : keeps obs kget.
Proof. by intros s a' s' [= _ <-]. Qed.
Lemma keeps_opt {A} (o : option A) : keeps obs (kopt o).
Proof. destruct o; [|done]. by intros s a' s' [= _ <-]. Qed.
Lemma keeps_mod f : (forall s, obs (f s) = obs s) -> keeps obs (kmod f).
Proof. intros H s a s' [= _ <-]. apply H. Qed.
Lemma keeps_bind {A B} (m : K S A) (f : A -> K S B) :
  keeps obs m -> (forall a, keeps obs (f a)) -> keeps obs (kbind m f).
Proof.
  intros Hm Hf s b s'. unfold kbind. destruct (m s) as [[a s1]|] eqn:E; [|done].
  intros H. rewrite (Hf _ _ _ _ H). by eapply Hm.
Qed.
(** A step that is written on the state. *)
Lemma keeps_at {A} (m : K S A) : (forall s, keeps obs (fun _ => m s)) -> keeps obs m.
Proof. intros H s a s' E. exact (H s s a s' E). Qed.
End Keeps.

(** Operations with a body of their own are added below. *)
Ltac keeps_with := fail.
Ltac keeps :=
  repeat first
  [ solve [auto with keeps]
  | lazymatch goal with
    | |- keeps _ (kbind _ _) => apply keeps_bind; [|intros ?]
    | |- keeps _ (kret _) => apply keeps_ret
    | |- keeps _ kget => apply keeps_get
    | |- keeps _ (kopt _) => apply keeps_opt
    | |- keeps _ kstuck => apply keeps_stuck
    | |- keeps _ (kmod _) => apply keeps_mod; intros ?; reflexivity
    | |- keeps _ (match ?x with _ => _ end) => destruct x
    | |- keeps _ (fun s => _) => intros ? ? ?; repeat case_match; intros [= _ <-]; reflexivity
    end
  | progress cbv zeta
  | keeps_with ].

(** What belongs to the handles in an entry. *)
Definition slot (f : sft) : Z * Z * Z := (sft_count f, sft_mode f, sft_psp f).

Definition slots_of (bs : list (list sft)) : list (Z * Z * Z) := slot <$> concat bs.

Section Frame.
Context {M : Machine}.

Definition slots (s : kst) : list (Z * Z * Z) := slots_of (sfthead (fs s)).

Lemma keeps_bget p : keeps slots (bget p).
Proof. intros s a s'. unfold bget. by destruct (bufs s !! p); intros [= _ <-]. Qed.
Lemma keeps_bmod p f : keeps slots (bmod p f).
Proof. intros s a s'. unfold bmod. by destruct (bufs s !! p); intros [= _ <-]. Qed.
Lemma keeps_dget p : keeps slots (dget p).
Proof. intros s a s'. unfold dget. by destruct (dpbs s !! p); intros [= _ <-]. Qed.
Lemma keeps_dmod p f : keeps slots (dmod p f).
Proof. intros s a s'. unfold dmod. by destruct (dpbs s !! p); intros [= _ <-]. Qed.
Lemma keeps_get_cds d : keeps slots (get_cds d).
Proof.
  intros s a s'. unfold get_cds. by repeat case_match; intros [= _ <-].
Qed.
Lemma keeps_say m : keeps slots (say m).
Proof. unfold say. keeps. Qed.
#[local] Hint Resolve keeps_bget keeps_bmod keeps_dget keeps_dmod keeps_get_cds keeps_say : keeps.

(** ** BlockIO *)

Lemma keeps_get_dpb dsk : keeps slots (get_dpb dsk).
Proof. unfold get_dpb. keeps. Qed.
#[local] Hint Resolve keeps_get_dpb : keeps.
Lemma keeps_set_ioreq r : keeps slots (set_ioreq r).
Proof. unfold set_ioreq. keeps. Qed.
#[local] Hint Resolve keeps_set_ioreq : keeps.
Lemma keeps_set_mediareq r : keeps slots (set_mediareq r).
Proof. unfold set_mediareq. keeps. Qed.
#[local] Hint Resolve keeps_set_mediareq : keeps.
Lemma keeps_set_crit v : keeps slots (set_crit v).
Proof. unfold set_crit. keeps. Qed.
#[local] Hint Resolve keeps_set_crit : keeps.
Lemma keeps_set_deblock v : keeps slots (set_deblock v).
Proof. unfold set_deblock. keeps. Qed.
#[local] Hint Resolve keeps_set_deblock : keeps.
Lemma keeps_set_charreq r : keeps slots (set_charreq r).
Proof. unfold set_charreq. keeps. Qed.
#[local] Hint Resolve keeps_set_charreq : keeps.
Lemma keeps_set_clkrecord v : keeps slots (set_clkrecord v).
Proof. unfold set_clkrecord. keeps. Qed.
#[local] Hint Resolve keeps_set_clkrecord : keeps.
Lemma keeps_block_error rq nDrive lpDevice mode : keeps slots (block_error rq nDrive lpDevice mode).
Proof. unfold block_error. keeps. Qed.
#[local] Hint Resolve keeps_block_error : keeps.
Lemma keeps_ask fuel rq nDrive lpDevice mode : keeps slots (ask fuel rq nDrive lpDevice mode).
Proof. revert rq nDrive lpDevice mode. induction fuel as [|fuel IH]; intros; cbn [ask]; keeps. Qed.
#[local] Hint Resolve keeps_ask : keeps.
Lemma keeps_call_execrh device rq buf : keeps slots (call_execrh device rq buf).
Proof. unfold call_execrh. keeps. Qed.
#[local] Hint Resolve keeps_call_execrh : keeps.
Lemma keeps_dskxfer_loop fuel dpbp blkno bseg buf numblocks mode : keeps slots (dskxfer_loop fuel dpbp blkno bseg buf numblocks mode).
Proof. revert dpbp blkno bseg buf numblocks mode. induction fuel as [|fuel IH]; intros; cbn [dskxfer_loop]; keeps. Qed.
#[local] Hint Resolve keeps_dskxfer_loop : keeps.
Lemma keeps_dskxfer dsk blkno bseg buf numblocks mode : keeps slots (dskxfer dsk blkno bseg buf numblocks mode).
Proof. unfold dskxfer. keeps. Qed.
#[local] Hint Resolve keeps_dskxfer : keeps.
Lemma keeps_bufxfer dsk blkno bp mode : keeps slots (bufxfer dsk blkno bp mode).
Proof. unfold bufxfer. keeps. Qed.
#[local] Hint Resolve keeps_bufxfer : keeps.
Lemma keeps_move_buffer bp firstbp : keeps slots (move_buffer bp firstbp).
Proof. unfold move_buffer. keeps. Qed.
#[local] Hint Resolve keeps_move_buffer : keeps.
Lemma keeps_search_ring fuel blkno dsk firstbp bp a : keeps slots (search_ring fuel blkno dsk firstbp bp a).
Proof. revert blkno dsk firstbp bp a. induction fuel as [|fuel IH]; intros; cbn [search_ring]; keeps. Qed.
#[local] Hint Resolve keeps_search_ring : keeps.
Lemma keeps_searchblock blkno dsk : keeps slots (searchblock blkno dsk).
Proof. unfold searchblock. keeps. Qed.
#[local] Hint Resolve keeps_searchblock : keeps.
Lemma keeps_write_copies copies bp blkno b_offset ok : keeps slots (write_copies copies bp blkno b_offset ok).
Proof. revert bp blkno b_offset ok. induction copies as [|copies IH]; intros; cbn [write_copies]; keeps. Qed.
#[local] Hint Resolve keeps_write_copies : keeps.
Lemma keeps_flush1 bp : keeps slots (flush1 bp).
Proof. unfold flush1. keeps. Qed.
#[local] Hint Resolve keeps_flush1 : keeps.
Lemma keeps_ring_loop body fuel bp ok :
  (forall b o, keeps slots (body b o)) -> keeps slots (ring_loop fuel bp body ok).
Proof. intros H. revert bp ok. induction fuel as [|fuel IH]; intros; cbn [ring_loop]; keeps. Qed.
#[local] Hint Resolve keeps_ring_loop : keeps.
Lemma keeps_over_ring body ok :
  (forall b o, keeps slots (body b o)) -> keeps slots (over_ring body ok).
Proof. intros H. unfold over_ring. keeps. Qed.
Ltac keeps_with ::=
  lazymatch goal with |- keeps _ (over_ring _ _) => apply keeps_over_ring; intros ? ? end.
Lemma keeps_flush_buffers dsk : keeps slots (flush_buffers dsk).
Proof. unfold flush_buffers. keeps. Qed.
#[local] Hint Resolve keeps_flush_buffers : keeps.
Lemma keeps_flush : keeps slots flush.
Proof. unfold flush. keeps. Qed.
#[local] Hint Resolve keeps_flush : keeps.
Lemma keeps_setinvld dsk : keeps slots (setinvld dsk).
Proof. unfold setinvld. keeps. Qed.
#[local] Hint Resolve keeps_setinvld : keeps.
Lemma keeps_dirty_loop fuel bp dsk : keeps slots (dirty_loop fuel bp dsk).
Proof. revert bp dsk. induction fuel as [|fuel IH]; intros; cbn [dirty_loop]; keeps. Qed.
#[local] Hint Resolve keeps_dirty_loop : keeps.
Lemma keeps_dirty_buffers dsk : keeps slots (dirty_buffers dsk).
Proof. unfold dirty_buffers. keeps. Qed.
#[local] Hint Resolve keeps_dirty_buffers : keeps.
Lemma keeps_DeleteBlockInBufferCache blknolow blknohigh dsk mode : keeps slots (DeleteBlockInBufferCache blknolow blknohigh dsk mode).
Proof. unfold DeleteBlockInBufferCache. keeps. Qed.
#[local] Hint Resolve keeps_DeleteBlockInBufferCache : keeps.
Lemma keeps_getblk blkno dsk overwrite : keeps slots (getblk blkno dsk overwrite).
Proof. unfold getblk. keeps. Qed.
#[local] Hint Resolve keeps_getblk : keeps.
Lemma keeps_getblock blkno dsk : keeps slots (getblock blkno dsk).
Proof. unfold getblock. keeps. Qed.
#[local] Hint Resolve keeps_getblock : keeps.
Lemma keeps_getblockOver blkno dsk : keeps slots (getblockOver blkno dsk).
Proof. unfold getblockOver. keeps. Qed.
#[local] Hint Resolve keeps_getblockOver : keeps.
Lemma keeps_hma_loop fuel n bp lowbuffer highbuffer : keeps slots (hma_loop fuel n bp lowbuffer highbuffer).
Proof. revert n bp lowbuffer highbuffer. induction fuel as [|fuel IH]; intros; cbn [hma_loop]; keeps. Qed.
#[local] Hint Resolve keeps_hma_loop : keeps.
Lemma keeps_AllocateHMASpace lowbuffer highbuffer : keeps slots (AllocateHMASpace lowbuffer highbuffer).
Proof. unfold AllocateHMASpace. keeps. Qed.
#[local] Hint Resolve keeps_AllocateHMASpace : keeps.

(** ** FatTab *)

Lemma keeps_clusterMessage msg clussec : keeps slots (clusterMessage msg clussec).
Proof. unfold clusterMessage. keeps. Qed.
#[local] Hint Resolve keeps_clusterMessage : keeps.
Lemma keeps_getFATblock dpbp clussec : keeps slots (getFATblock dpbp clussec).
Proof. unfold getFATblock. keeps. Qed.
#[local] Hint Resolve keeps_getFATblock : keeps.
Lemma keeps_read_fsinfo dpbp : keeps slots (read_fsinfo dpbp).
Proof. unfold read_fsinfo. keeps. Qed.
#[local] Hint Resolve keeps_read_fsinfo : keeps.
Lemma keeps_bput bp f : keeps slots (bput bp f).
Proof. unfold bput. keeps. Qed.
#[local] Hint Resolve keeps_bput : keeps.
Lemma keeps_write_fsinfo dpbp : keeps slots (write_fsinfo dpbp).
Proof. unfold write_fsinfo. keeps. Qed.
#[local] Hint Resolve keeps_write_fsinfo : keeps.
Lemma keeps_link12 dpbp d bp clussec idx Cluster1 Cluster2 : keeps slots (link12 dpbp d bp clussec idx Cluster1 Cluster2).
Proof. unfold link12. keeps. Qed.
#[local] Hint Resolve keeps_link12 : keeps.
Lemma keeps_link16 bp idx Cluster2 : keeps slots (link16 bp idx Cluster2).
Proof. unfold link16. keeps. Qed.
#[local] Hint Resolve keeps_link16 : keeps.
Lemma keeps_link32 bp idx Cluster2 : keeps slots (link32 bp idx Cluster2).
Proof. unfold link32. keeps. Qed.
#[local] Hint Resolve keeps_link32 : keeps.
Lemma keeps_update_free dpbp Cluster2 wasfree : keeps slots (update_free dpbp Cluster2 wasfree).
Proof. unfold update_free. keeps. Qed.
#[local] Hint Resolve keeps_update_free : keeps.
Lemma keeps_link_fat dpbp Cluster1 Cluster2 : keeps slots (link_fat dpbp Cluster1 Cluster2).
Proof. unfold link_fat. keeps. Qed.
#[local] Hint Resolve keeps_link_fat : keeps.
Lemma keeps_next_cluster dpbp ClusterNum : keeps slots (next_cluster dpbp ClusterNum).
Proof. unfold next_cluster. keeps. Qed.
#[local] Hint Resolve keeps_next_cluster : keeps.
Lemma keeps_is_free_cluster dpbp ClusterNum : keeps slots (is_free_cluster dpbp ClusterNum).
Proof. unfold is_free_cluster. keeps. Qed.
#[local] Hint Resolve keeps_is_free_cluster : keeps.

(** ** FNode *)

Lemma keeps_fn fp : keeps slots (fn fp).
Proof. unfold fn. keeps. Qed.
Lemma keeps_fnmod fp g : keeps slots (fnmod fp g).
Proof. unfold fnmod. apply keeps_mod. intros s. by destruct fp. Qed.
#[local] Hint Resolve keeps_fn keeps_fnmod : keeps.
Lemma keeps_dm fp : keeps slots (dm fp).
Proof. unfold dm. keeps. Qed.
Lemma keeps_dmmod fp g : keeps slots (dmmod fp g).
Proof. unfold dmmod. keeps. apply keeps_mod. intros s. by destruct (f_dmp a). Qed.
Lemma keeps_sftget fd : keeps slots (sftget fd).
Proof. unfold sftget. keeps. Qed.

(** A store into an entry that leaves these members. *)
Lemma slots_sft_upd bs i g :
  (forall f, slot (g f) = slot f) -> slots_of (sft_upd bs i g) = slots_of bs.
Proof.
  intros Hg. revert i. induction bs as [|sp bs IH]; intros i; [done|]. cbn [sft_upd].
  unfold slots_of in *.
  destruct (_ <? _); cbn [concat]; rewrite !fmap_app; f_equal; [|done].
  apply list_eq. intros j. rewrite !list_lookup_fmap.
  destruct (decide (j = Z.to_nat i)) as [->|Hne].
  - rewrite list_lookup_alter_eq. destruct (sp !! _); cbn; [by rewrite Hg|done].
  - by rewrite list_lookup_alter_ne.
Qed.
Lemma keeps_sftmod fd g : (forall f, slot (g f) = slot f) -> keeps slots (sftmod fd g).
Proof. intros Hg. unfold sftmod. apply keeps_mod. intros s. by apply slots_sft_upd. Qed.
#[local] Hint Resolve keeps_dm keeps_dmmod keeps_sftget : keeps.
#[local] Hint Extern 1 (keeps _ (sftmod _ _)) => (apply keeps_sftmod; intros ?; reflexivity) : keeps.
Lemma keeps_fdpb fp : keeps slots (fdpb fp).
Proof. unfold fdpb. keeps. Qed.
#[local] Hint Resolve keeps_fdpb : keeps.
Lemma keeps_dirmod fp g : keeps slots (dirmod fp g).
Proof. unfold dirmod. keeps. Qed.
#[local] Hint Resolve keeps_dirmod : keeps.
Lemma keeps_sft_to_fnode fd : keeps slots (sft_to_fnode fd).
Proof. unfold sft_to_fnode. keeps. Qed.
#[local] Hint Resolve keeps_sft_to_fnode : keeps.
Lemma keeps_fnode_to_sft fp : keeps slots (fnode_to_sft fp).
Proof. unfold fnode_to_sft. keeps. Qed.
#[local] Hint Resolve keeps_fnode_to_sft : keeps.

(** ** FatAlloc *)

Lemma keeps_wipe_step dpbp st : keeps slots (wipe_step dpbp st).
Proof. unfold wipe_step. keeps. Qed.
#[local] Hint Resolve keeps_wipe_step : keeps.
Lemma keeps_wipe_loop fuel dpbp st : keeps slots (wipe_loop fuel dpbp st).
Proof. revert dpbp st. induction fuel as [|fuel IH]; intros; cbn [wipe_loop]; keeps. Qed.
#[local] Hint Resolve keeps_wipe_loop : keeps.
Lemma keeps_wipe_out_clusters dpbp st : keeps slots (wipe_out_clusters dpbp st).
Proof. unfold wipe_out_clusters. keeps. Qed.
#[local] Hint Resolve keeps_wipe_out_clusters : keeps.
Lemma keeps_wipe_out fnp : keeps slots (wipe_out fnp).
Proof. unfold wipe_out. keeps. Qed.
#[local] Hint Resolve keeps_wipe_out : keeps.
Lemma keeps_free_loop fuel dpbp size cluster idx : keeps slots (free_loop fuel dpbp size cluster idx).
Proof. revert dpbp size cluster idx. induction fuel as [|fuel IH]; intros; cbn [free_loop]; keeps. Qed.
#[local] Hint Resolve keeps_free_loop : keeps.
Lemma keeps_find_fat_free fnp : keeps slots (find_fat_free fnp).
Proof. unfold find_fat_free. keeps. Qed.
#[local] Hint Resolve keeps_find_fat_free : keeps.
Lemma keeps_extend fnp : keeps slots (extend fnp).
Proof. unfold extend. keeps. Qed.
#[local] Hint Resolve keeps_extend : keeps.
Lemma keeps_map_step fnp mode : keeps slots (map_step fnp mode).
Proof. unfold map_step. keeps. Qed.
#[local] Hint Resolve keeps_map_step : keeps.
Lemma keeps_map_loop fuel fnp mode relcluster : keeps slots (map_loop fuel fnp mode relcluster).
Proof. revert fnp mode relcluster. induction fuel as [|fuel IH]; intros; cbn [map_loop]; keeps. Qed.
#[local] Hint Resolve keeps_map_loop : keeps.
Lemma keeps_map_cluster fnp mode : keeps slots (map_cluster fnp mode).
Proof. unfold map_cluster. keeps. Qed.
#[local] Hint Resolve keeps_map_cluster : keeps.
Lemma keeps_count_loop fuel dpbp max i cnt : keeps slots (count_loop fuel dpbp max i cnt).
Proof. revert dpbp max i cnt. induction fuel as [|fuel IH]; intros; cbn [count_loop]; keeps. Qed.
#[local] Hint Resolve keeps_count_loop : keeps.
Lemma keeps_dos_free dpbp : keeps slots (dos_free dpbp).
Proof. unfold dos_free. keeps. Qed.
#[local] Hint Resolve keeps_dos_free : keeps.
Lemma keeps_clear_loop fuel fnp cluster idx : keeps slots (clear_loop fuel fnp cluster idx).
Proof. revert fnp cluster idx. induction fuel as [|fuel IH]; intros; cbn [clear_loop]; keeps. Qed.
#[local] Hint Resolve keeps_clear_loop : keeps.
Lemma keeps_clear_dir fnp cluster : keeps slots (clear_dir fnp cluster).
Proof. unfold clear_dir. keeps. Qed.
#[local] Hint Resolve keeps_clear_dir : keeps.

(** ** Clock *)

Lemma keeps_char_error rq lpDevice : keeps slots (char_error rq lpDevice).
Proof. unfold char_error. keeps. Qed.
#[local] Hint Resolve keeps_char_error : keeps.
Lemma keeps_char_ask fuel rq lpDevice : keeps slots (char_ask fuel rq lpDevice).
Proof. revert rq lpDevice. induction fuel as [|fuel IH]; intros; cbn [char_ask]; keeps. Qed.
#[local] Hint Resolve keeps_char_ask : keeps.
Lemma keeps_CharRequest dv command buf : keeps slots (CharRequest dv command buf).
Proof. unfold CharRequest. keeps. Qed.
#[local] Hint Resolve keeps_CharRequest : keeps.
Lemma keeps_char_loop fuel dv n command buf : keeps slots (char_loop fuel dv n command buf).
Proof. revert dv n command buf. induction fuel as [|fuel IH]; intros; cbn [char_loop]; keeps. Qed.
#[local] Hint Resolve keeps_char_loop : keeps.
Lemma keeps_BinaryCharIO dv n bp command : keeps slots (BinaryCharIO dv n bp command).
Proof. unfold BinaryCharIO. keeps. Qed.
#[local] Hint Resolve keeps_BinaryCharIO : keeps.
Lemma keeps_ExecuteClockDriverRequest command : keeps slots (ExecuteClockDriverRequest command).
Proof. unfold ExecuteClockDriverRequest. keeps. Qed.
#[local] Hint Resolve keeps_ExecuteClockDriverRequest : keeps.
Lemma keeps_clk_put f : keeps slots (clk_put f).
Proof. unfold clk_put. keeps. Qed.
#[local] Hint Resolve keeps_clk_put : keeps.
Lemma keeps_clk_error : keeps slots clk_error.
Proof. unfold clk_error. keeps. Qed.
#[local] Hint Resolve keeps_clk_error : keeps.
Lemma keeps_DosGetTime : keeps slots DosGetTime.
Proof. unfold DosGetTime. keeps. Qed.
#[local] Hint Resolve keeps_DosGetTime : keeps.
Lemma keeps_clk_result : keeps slots clk_result.
Proof. unfold clk_result. keeps. Qed.
#[local] Hint Resolve keeps_clk_result : keeps.
Lemma keeps_DosSetTime dt : keeps slots (DosSetTime dt).
Proof. unfold DosSetTime. keeps. Qed.
#[local] Hint Resolve keeps_DosSetTime : keeps.
Lemma keeps_DosGetDate : keeps slots DosGetDate.
Proof. unfold DosGetDate. keeps. Qed.
#[local] Hint Resolve keeps_DosGetDate : keeps.
Lemma keeps_DosSetDate dd : keeps slots (DosSetDate dd).
Proof. unfold DosSetDate. keeps. Qed.
#[local] Hint Resolve keeps_DosSetDate : keeps.
Lemma keeps_dos_getdate : keeps slots dos_getdate.
Proof. unfold dos_getdate. keeps. Qed.
#[local] Hint Resolve keeps_dos_getdate : keeps.
Lemma keeps_dos_gettime : keeps slots dos_gettime.
Proof. unfold dos_gettime. keeps. Qed.
#[local] Hint Resolve keeps_dos_gettime : keeps.

(** ** Media *)

Lemma keeps_bpb_to_dpb b dpbp extended : keeps slots (bpb_to_dpb b dpbp extended).
Proof. unfold bpb_to_dpb. keeps. Qed.
#[local] Hint Resolve keeps_bpb_to_dpb : keeps.
Lemma keeps_rqblockio_loop fuel command dpbp : keeps slots (rqblockio_loop fuel command dpbp).
Proof. revert command dpbp. induction fuel as [|fuel IH]; intros; cbn [rqblockio_loop]; keeps. Qed.
#[local] Hint Resolve keeps_rqblockio_loop : keeps.
Lemma keeps_rqblockio command dpbp : keeps slots (rqblockio command dpbp).
Proof. unfold rqblockio. keeps. Qed.
#[local] Hint Resolve keeps_rqblockio : keeps.
Lemma keeps_rebuild dpbp : keeps slots (rebuild dpbp).
Proof. unfold rebuild. keeps. Qed.
#[local] Hint Resolve keeps_rebuild : keeps.
Lemma keeps_media_check dpbp : keeps slots (media_check dpbp).
Proof. unfold media_check. keeps. Qed.
#[local] Hint Resolve keeps_media_check : keeps.

(** ** FatDir *)

Lemma keeps_dir_init_fnode fnp dirstart : keeps slots (dir_init_fnode fnp dirstart).
Proof. unfold dir_init_fnode. keeps. Qed.
#[local] Hint Resolve keeps_dir_init_fnode : keeps.
Lemma keeps_dir_locate fnp entry : keeps slots (dir_locate fnp entry).
Proof. unfold dir_locate. keeps. Qed.
#[local] Hint Resolve keeps_dir_locate : keeps.
Lemma keeps_dir_read fnp : keeps slots (dir_read fnp).
Proof. unfold dir_read. keeps. Qed.
#[local] Hint Resolve keeps_dir_read : keeps.
Lemma keeps_dir_write_update fnp update : keeps slots (dir_write_update fnp update).
Proof. unfold dir_write_update. keeps. Qed.
#[local] Hint Resolve keeps_dir_write_update : keeps.
Lemma keeps_dir_write fnp : keeps slots (dir_write fnp).
Proof. unfold dir_write. keeps. Qed.
#[local] Hint Resolve keeps_dir_write : keeps.
Lemma keeps_next_entry fnp : keeps slots (next_entry fnp).
Proof. unfold next_entry. keeps. Qed.
#[local] Hint Resolve keeps_next_entry : keeps.
Lemma keeps_lookup_loop fuel fnp : keeps slots (lookup_loop fuel fnp).
Proof. revert fnp. induction fuel as [|fuel IH]; intros; cbn [lookup_loop]; keeps. Qed.
#[local] Hint Resolve keeps_lookup_loop : keeps.
Lemma keeps_walk fuel fnp split dirname : keeps slots (walk fuel fnp split dirname).
Proof. revert fnp split dirname. induction fuel as [|fuel IH]; intros; cbn [walk]; keeps. Qed.
#[local] Hint Resolve keeps_walk : keeps.
Lemma keeps_dir_open dirname split fnp : keeps slots (dir_open dirname split fnp).
Proof. unfold dir_open. keeps. Qed.
#[local] Hint Resolve keeps_dir_open : keeps.
Lemma keeps_split_path path fnp : keeps slots (split_path path fnp).
Proof. unfold split_path. keeps. Qed.
#[local] Hint Resolve keeps_split_path : keeps.
Lemma keeps_dir_exists path : keeps slots (dir_exists path).
Proof. unfold dir_exists. keeps. Qed.
#[local] Hint Resolve keeps_dir_exists : keeps.
Lemma keeps_find_loop fuel fnp : keeps slots (find_loop fuel fnp).
Proof. revert fnp. induction fuel as [|fuel IH]; intros; cbn [find_loop]; keeps. Qed.
#[local] Hint Resolve keeps_find_loop : keeps.
Lemma keeps_dos_findnext : keeps slots dos_findnext.
Proof. unfold dos_findnext. keeps. Qed.
#[local] Hint Resolve keeps_dos_findnext : keeps.
Lemma keeps_dos_findfirst attr name : keeps slots (dos_findfirst attr name).
Proof. unfold dos_findfirst. keeps. Qed.
#[local] Hint Resolve keeps_dos_findfirst : keeps.

(** ** FatFile *)

Lemma keeps_init_direntry fnp attrib cluster name : keeps slots (init_direntry fnp attrib cluster name).
Proof. unfold init_direntry. keeps. Qed.
#[local] Hint Resolve keeps_init_direntry : keeps.
Lemma keeps_fname_loop fuel fnp attr : keeps slots (fname_loop fuel fnp attr).
Proof. revert fnp attr. induction fuel as [|fuel IH]; intros; cbn [fname_loop]; keeps. Qed.
#[local] Hint Resolve keeps_fname_loop : keeps.
Lemma keeps_find_fname path attr fnp : keeps slots (find_fname path attr fnp).
Proof. unfold find_fname. keeps. Qed.
#[local] Hint Resolve keeps_find_fname : keeps.
Lemma keeps_find_free_loop fuel fnp : keeps slots (find_free_loop fuel fnp).
Proof. revert fnp. induction fuel as [|fuel IH]; intros; cbn [find_free_loop]; keeps. Qed.
#[local] Hint Resolve keeps_find_free_loop : keeps.
Lemma keeps_find_free fnp : keeps slots (find_free fnp).
Proof. unfold find_free. keeps. Qed.
#[local] Hint Resolve keeps_find_free : keeps.
Lemma keeps_extend_dir fnp : keeps slots (extend_dir fnp).
Proof. unfold extend_dir. keeps. Qed.
#[local] Hint Resolve keeps_extend_dir : keeps.
Lemma keeps_alloc_find_free fnp path : keeps slots (alloc_find_free fnp path).
Proof. unfold alloc_find_free. keeps. Qed.
#[local] Hint Resolve keeps_alloc_find_free : keeps.
Lemma keeps_lfn_loop fuel fnp : keeps slots (lfn_loop fuel fnp).
Proof. revert fnp. induction fuel as [|fuel IH]; intros; cbn [lfn_loop]; keeps. Qed.
#[local] Hint Resolve keeps_lfn_loop : keeps.
Lemma keeps_remove_lfn_entries fnp : keeps slots (remove_lfn_entries fnp).
Proof. unfold remove_lfn_entries. keeps. Qed.
#[local] Hint Resolve keeps_remove_lfn_entries : keeps.
Lemma keeps_IsShareInstalled recheck : keeps slots (IsShareInstalled recheck).
Proof. unfold IsShareInstalled. keeps. Qed.
#[local] Hint Resolve keeps_IsShareInstalled : keeps.
Lemma keeps_merge_one close fnp collect i :
  (forall j, keeps slots (close j)) -> keeps slots (merge_one close fnp collect i).
Proof. intros H. unfold merge_one. keeps. Qed.
#[local] Hint Resolve keeps_merge_one : keeps.
Lemma keeps_merge_loop close fnp collect idx :
  (forall j, keeps slots (close j)) -> keeps slots (merge_loop close fnp collect idx).
Proof. intros H. induction idx; cbn [merge_loop]; keeps. Qed.
#[local] Hint Resolve keeps_merge_loop : keeps.
Lemma keeps_merge_with close fnp collect :
  (forall j, keeps slots (close j)) -> keeps slots (merge_with close fnp collect).
Proof. intros H. unfold merge_with. keeps. Qed.
Lemma keeps_merge_changes fnp collect : keeps slots (merge_changes fnp collect).
Proof. unfold merge_changes. apply keeps_merge_with. intros j. apply keeps_stuck. Qed.
#[local] Hint Resolve keeps_merge_changes : keeps.
Lemma keeps_dos_merge_file_changes fd : keeps slots (dos_merge_file_changes fd).
Proof. unfold dos_merge_file_changes. keeps. Qed.
#[local] Hint Resolve keeps_dos_merge_file_changes : keeps.
Lemma keeps_dos_close fd : keeps slots (dos_close fd).
Proof. unfold dos_close. keeps. Qed.
#[local] Hint Resolve keeps_dos_close : keeps.
Lemma keeps_open_existing fnp flags attrib : keeps slots (open_existing fnp flags attrib).
Proof. unfold open_existing. keeps. Qed.
#[local] Hint Resolve keeps_open_existing : keeps.
Lemma keeps_open_finish fnp attrib fd status : keeps slots (open_finish fnp attrib fd status).
Proof. unfold open_finish. keeps. Qed.
#[local] Hint Resolve keeps_open_finish : keeps.
Lemma keeps_dos_open path flags attrib fd : keeps slots (dos_open path flags attrib fd).
Proof. unfold dos_open. keeps. Qed.
#[local] Hint Resolve keeps_dos_open : keeps.
Lemma keeps_mark_deleted fnp : keeps slots (mark_deleted fnp).
Proof. unfold mark_deleted. keeps. Qed.
#[local] Hint Resolve keeps_mark_deleted : keeps.
Lemma keeps_delete_dir_entry fnp : keeps slots (delete_dir_entry fnp).
Proof. unfold delete_dir_entry. keeps. Qed.
#[local] Hint Resolve keeps_delete_dir_entry : keeps.
Lemma keeps_dos_delete path attrib : keeps slots (dos_delete path attrib).
Proof. unfold dos_delete. keeps. Qed.
#[local] Hint Resolve keeps_dos_delete : keeps.
Lemma keeps_path_cds path : keeps slots (path_cds path).
Proof. unfold path_cds. keeps. Qed.
#[local] Hint Resolve keeps_path_cds : keeps.
Lemma keeps_empty_loop fuel fnp : keeps slots (empty_loop fuel fnp).
Proof. revert fnp. induction fuel as [|fuel IH]; intros; cbn [empty_loop]; keeps. Qed.
#[local] Hint Resolve keeps_empty_loop : keeps.
Lemma keeps_dos_rmdir path : keeps slots (dos_rmdir path).
Proof. unfold dos_rmdir. keeps. Qed.
#[local] Hint Resolve keeps_dos_rmdir : keeps.
Lemma keeps_rename_target path2 : keeps slots (rename_target path2).
Proof. unfold rename_target. keeps. Qed.
#[local] Hint Resolve keeps_rename_target : keeps.
Lemma keeps_dos_rename path1 path2 attrib : keeps slots (dos_rename path1 path2 attrib).
Proof. unfold dos_rename. keeps. Qed.
#[local] Hint Resolve keeps_dos_rename : keeps.
Lemma keeps_new_dots fnp free_fat parent : keeps slots (new_dots fnp free_fat parent).
Proof. unfold new_dots. keeps. Qed.
#[local] Hint Resolve keeps_new_dots : keeps.
Lemma keeps_dos_mkdir dir : keeps slots (dos_mkdir dir).
Proof. unfold dos_mkdir. keeps. Qed.
#[local] Hint Resolve keeps_dos_mkdir : keeps.
Lemma keeps_dos_cd PathName : keeps slots (dos_cd PathName).
Proof. unfold dos_cd. keeps. Qed.
#[local] Hint Resolve keeps_dos_cd : keeps.
Lemma keeps_dos_getfattr name : keeps slots (dos_getfattr name).
Proof. unfold dos_getfattr. keeps. Qed.
#[local] Hint Resolve keeps_dos_getfattr : keeps.

(** ** The table as one list *)

Lemma idx_concat bs i : 0 <= i -> idx_to_sft_ bs i = concat bs !! Z.to_nat i.
Proof.
  revert i. induction bs as [|sp bs IH]; intros i Hi; [done|]. cbn [idx_to_sft_ concat].
  destruct (i <? Z.of_nat (length sp)) eqn:E; zbool.
  - by rewrite lookup_app_l by lia.
  - rewrite IH by lia. rewrite lookup_app_r by lia. f_equal. lia.
Qed.

Lemma concat_sft_upd bs i g : 0 <= i -> concat (sft_upd bs i g) = alter g (Z.to_nat i) (concat bs).
Proof.
  revert i. induction bs as [|sp bs IH]; intros i Hi; [done|]. cbn [sft_upd concat].
  destruct (i <? Z.of_nat (length sp)) eqn:E; zbool; cbn [concat].
  - by rewrite alter_app_l by lia.
  - rewrite IH by lia. replace (Z.to_nat i) with (length sp + Z.to_nat (i - Z.of_nat (length sp)))%nat by lia.
    by rewrite alter_app_r.
Qed.

(** An entry in use, in the list of slots. *)
Lemma idx_slots bs i f :
  idx_to_sft bs i = Some f -> 0 <= i /\ slots_of bs !! Z.to_nat i = Some (slot f) /\ sft_count f <> 0.
Proof.
  unfold idx_to_sft. destruct (i <? 0) eqn:E; [done|]. zbool. rewrite idx_concat by lia.
  destruct (concat bs !! Z.to_nat i) eqn:El; [|done]. destruct (_ =? 0) eqn:E0; [done|].
  intros [= ->]. zbool. split; [done|]. split; [|done]. unfold slots_of. by rewrite list_lookup_fmap, El.
Qed.

(** A store to an entry. *)
Lemma slots_upd bs i g f :
  0 <= i -> concat bs !! Z.to_nat i = Some f ->
  slots_of (sft_upd bs i g) = <[Z.to_nat i := slot (g f)]> (slots_of bs).
Proof.
  intros Hi Hf. unfold slots_of. rewrite concat_sft_upd by done.
  apply list_eq. intros j. rewrite list_lookup_fmap.
  destruct (decide (j = Z.to_nat i)) as [->|Hne].
  - rewrite list_lookup_alter_eq, Hf. cbn. rewrite list_lookup_insert_eq; [done|].
    rewrite length_fmap. by eapply lookup_lt_Some.
  - by rewrite list_lookup_alter_ne, list_lookup_insert_ne, list_lookup_fmap by done.
Qed.
End Frame.

#[export] Hint Resolve keeps_bget keeps_bmod keeps_dget keeps_dmod keeps_get_cds keeps_say
  keeps_get_dpb keeps_set_ioreq keeps_set_mediareq keeps_set_crit keeps_set_deblock
  keeps_set_charreq keeps_set_clkrecord keeps_block_error keeps_ask keeps_call_execrh
  keeps_dskxfer_loop keeps_dskxfer keeps_bufxfer keeps_move_buffer keeps_search_ring
  keeps_searchblock keeps_write_copies keeps_flush1 keeps_flush_buffers keeps_flush keeps_setinvld
  keeps_dirty_loop keeps_dirty_buffers keeps_DeleteBlockInBufferCache keeps_getblk keeps_getblock
  keeps_getblockOver keeps_hma_loop keeps_AllocateHMASpace keeps_clusterMessage keeps_getFATblock
  keeps_read_fsinfo keeps_bput keeps_write_fsinfo keeps_link12 keeps_link16 keeps_link32
  keeps_update_free keeps_link_fat keeps_next_cluster keeps_is_free_cluster keeps_fn keeps_fnmod
  keeps_dm keeps_dmmod keeps_sftget keeps_fdpb keeps_dirmod keeps_sft_to_fnode keeps_fnode_to_sft
  keeps_wipe_step keeps_wipe_loop keeps_wipe_out_clusters keeps_wipe_out keeps_free_loop
  keeps_find_fat_free keeps_extend keeps_map_step keeps_map_loop keeps_map_cluster keeps_count_loop
  keeps_dos_free keeps_clear_loop keeps_clear_dir keeps_char_error keeps_char_ask keeps_CharRequest
  keeps_char_loop keeps_BinaryCharIO keeps_ExecuteClockDriverRequest keeps_clk_put keeps_clk_error
  keeps_DosGetTime keeps_clk_result keeps_DosSetTime keeps_DosGetDate keeps_DosSetDate
  keeps_dos_getdate keeps_dos_gettime keeps_bpb_to_dpb keeps_rqblockio_loop keeps_rqblockio
  keeps_rebuild keeps_media_check keeps_dir_init_fnode keeps_dir_locate keeps_dir_read
  keeps_dir_write_update keeps_dir_write keeps_next_entry keeps_lookup_loop keeps_walk
  keeps_dir_open keeps_split_path keeps_dir_exists keeps_find_loop keeps_dos_findnext
  keeps_dos_findfirst keeps_init_direntry keeps_fname_loop keeps_find_fname keeps_find_free_loop
  keeps_find_free keeps_extend_dir keeps_alloc_find_free keeps_lfn_loop keeps_remove_lfn_entries
  keeps_IsShareInstalled keeps_merge_changes keeps_dos_merge_file_changes keeps_dos_close
  keeps_open_existing keeps_open_finish keeps_dos_open keeps_mark_deleted keeps_delete_dir_entry
  keeps_dos_delete keeps_path_cds keeps_empty_loop keeps_dos_rmdir keeps_rename_target
  keeps_dos_rename keeps_new_dots keeps_dos_mkdir keeps_dos_cd keeps_dos_getfattr : keeps.
#[export] Hint Extern 1 (keeps _ (sftmod _ _)) => (apply keeps_sftmod; intros ?; reflexivity) : keeps.

End Frame.
