(* ===== verification/Handle.v ===== *)
(** * Handles and the calls by name (kernel/dosfns.c, newstuff.c, task.c)

    A handle is an index into the table of bytes of the current process
    ([ps_filetab]), whose entries are numbers of entries of the system file
    table.  A process starts with a table of 20 bytes in its PSP, which
    [SetJFTSize] can replace.  The state adds the processes and their tables
    to the state of path names; a table is addressed by the segment of the
    memory that holds it. *)

From S2P Require Import Prelude Memmgr KState BlockIO FatTab FNode FatAlloc Clock Media FatDir FatFile.
From S2P Require Import Path.
Import Mm Ks Bio Fat FNode Alloc Clk Media Dir File Path.

Module Handle.

Definition DE_INVLDFUNC := -1.
Definition DE_DEVICE := -17.
Definition DE_LOCK := -39.
Definition O_WRONLY := 0x0001.
Definition O_RDWR := 0x0002.
Definition O_DENYREAD := 0x0030.
Definition O_DENYNONE := 0x0040.
Definition O_NOINHERIT := 0x0080.
Definition O_LEGACY := 0x0800.
Definition O_VALIDMASK := 0xfff3.
Definition SFT_MASK := 0x0060.
Definition SFT_FEOF := 0x0040.
Definition C_OPEN := 0x0d.
Definition SEEK_SET := 0.
Definition SEEK_CUR := 1.
Definition SEEK_END := 2.
Definition REM_RMDIR := 0x1101.
Definition REM_MKDIR := 0x1103.
Definition REM_CHDIR := 0x1105.
Definition REM_SETATTR := 0x110e.
Definition REM_GETATTRZ := 0x110f.
Definition REM_RENAME := 0x1111.
Definition REM_DELETE := 0x1113.
Definition REM_OPEN := 0x1116.
Definition REM_CREATE := 0x1117.
Definition REM_FINDFIRST := 0x111B.
Definition REM_FINDNEXT := 0x111C.
Definition REM_CLOSEALL := 0x111d.
Definition REM_PROCESS_END := 0x1122.
Definition REM_EXTOC := 0x112e.

(** ** The state *)

(** The members of a PSP that belong to files. *)
Record psp := Psp { ps_parent : Z; ps_maxfiles : Z; ps_filetab : Z }.

(** The user's search buffer: the part that is kept between the calls, and the
    entry that was found. *)
Record ffblk := Ffblk {
  ff_dm : dmatch; dm_attr_fnd : Z; dm_time : Z; dm_date : Z; dm_size : Z; dm_name : list Z }.

Record hst {M : Machine} := Hst {
  pth : pst;
  arena : mm;
  psps : gmap Z psp;
  jfts : gmap Z (list Z);
  PriPathName : list Z;
  SecPathName : list Z;
  DirEntName : list Z;
  dta : ffblk }.

(** The network redirector beyond [QRemote_Fn], and SHARE.  A call by name
    sees the two path buffers; the others the structure they get. *)
Class Redirector {M : Machine} := {
  redir_path : Z -> Z -> list Z -> list Z -> world -> Z * world;
  redir_open : Z -> Z -> list Z -> sft -> world -> Z * sft * world;
  redir_find : Z -> list Z -> dmatch * dirent -> world -> Z * (dmatch * dirent) * world;
  redir_space : cds -> world -> Z * list Z * world;
  redir_space32 : cds -> world -> Z * list Z * world;
  redir_lseek : sft -> Z -> world -> Z * world;
  redir_lock : sft -> Z -> Z -> Z -> world -> Z * world;
  share_open_check : list Z -> Z -> Z -> Z -> world -> Z * world;
  share_is_file_open : list Z -> world -> bool * world;
  share_lock_unlock : Z -> Z -> Z -> Z -> Z -> world -> Z * world }.

(** A call that leaves the kernel. *)
Definition kworld {M : Machine} {A} (f : world -> A * world) : K kst A := fun s =>
  let '(a, w) := f (dev s) in Some (a, set_dev w s).

(** ** The system file table *)

Section Sft.
Context {M : Machine} {R : Redirector}.

(** The entry at an index, in use or not. *)
Definition sft_at (sft_idx : Z) : K kst sft :=
  let! s := kget in kopt (idx_to_sft_ (sfthead (fs s)) sft_idx).

Definition count_up (sft_idx : Z) : K kst unit :=
  sftmod sft_idx (fun f => set_sft_count (s16 (sft_count f + 1)) f).

(** The new position, or the error. *)
Definition SftSeek2 (sft_idx new_pos mode : Z) : K kst (Z * option Z) :=
  let! s := kget in
  match idx_to_sft (sfthead (fs s)) sft_idx with
  | None => kret (DE_INVLDHNDL, None)
  | Some f =>
      if SEEK_END <? mode then kret (DE_INVLDFUNC, None) else
      let! new_pos :=
        (if has (sft_flags f) SFT_FDEVICE then kret 0
         else if mode =? SEEK_CUR then kret (new_pos + sft_posit f)
         else if mode =? SEEK_END then
           if has (sft_flags f) SFT_FSHARED && has (sft_mode f) (Z.lor O_DENYREAD O_DENYNONE)
           then kworld (redir_lseek f new_pos)
           else kret (new_pos + sft_size f)
         else kret new_pos) in
      do! sftmod sft_idx (set_sft_posit (u32 new_pos)) in
      kret (SUCCESS, Some (u32 new_pos))
  end.

Definition SftSeek (sft_idx new_pos mode : Z) : K kst Z :=
  let! r := SftSeek2 sft_idx new_pos mode in kret (fst r).

(** The first entry that is not in use. *)
Fixpoint free_in_block (l : list sft) (sys_idx : Z) : Z + Z :=
  match l with
  | [] => inr sys_idx
  | f :: l => if sft_count f =? 0 then inl sys_idx else free_in_block l (sys_idx + 1)
  end.
Fixpoint free_sft (blocks : list (list sft)) (sys_idx : Z) : option Z :=
  match blocks with
  | [] => None
  | sp :: blocks =>
      match free_in_block sp sys_idx with
      | inl i => Some i
      | inr sys_idx => free_sft blocks sys_idx
      end
  end.
Definition get_free_sft : K kst (option Z) :=
  let! s := kget in kret (free_sft (sfthead (fs s)) 0).

Definition DosSetFtimeSft (sft_idx dp tp : Z) : K kst Z :=
  let! s := kget in
  match idx_to_sft (sfthead (fs s)) sft_idx with
  | None => kret DE_INVLDHNDL
  | Some f =>
      if has (sft_flags f) SFT_FDEVICE then kret SUCCESS else
      do! sftmod sft_idx (fun f => set_sft_flags (Z.lor (sft_flags f) SFT_FDATE) f) in
      do! sftmod sft_idx (set_sft_date dp) in
      do! sftmod sft_idx (set_sft_time tp) in
      kret SUCCESS
  end.
End Sft.


(** Trailing NULs become blanks, from the end to the last other character. *)
Fixpoint pad_name (rname : list Z) : option (list Z) :=
  match rname with
  | [] => None
  | c :: r => if c =? 0 then cons SPACE <$> pad_name r else Some rname
  end.

(** ** The processes *)

Section Handle.
Context {M : Machine} {Sh : Shell} {R : Redirector}.

Definition set_pth v (s : hst) : hst :=
  Hst M v (arena s) (psps s) (jfts s) (PriPathName s) (SecPathName s) (DirEntName s) (dta s).
Definition set_arena v (s : hst) : hst :=
  Hst M (pth s) v (psps s) (jfts s) (PriPathName s) (SecPathName s) (DirEntName s) (dta s).
Definition set_psps v (s : hst) : hst :=
  Hst M (pth s) (arena s) v (jfts s) (PriPathName s) (SecPathName s) (DirEntName s) (dta s).
Definition set_jfts v (s : hst) : hst :=
  Hst M (pth s) (arena s) (psps s) v (PriPathName s) (SecPathName s) (DirEntName s) (dta s).
Definition set_PriPathName v (s : hst) : hst :=
  Hst M (pth s) (arena s) (psps s) (jfts s) v (SecPathName s) (DirEntName s) (dta s).
Definition set_SecPathName v (s : hst) : hst :=
  Hst M (pth s) (arena s) (psps s) (jfts s) (PriPathName s) v (DirEntName s) (dta s).
Definition set_DirEntName v (s : hst) : hst :=
  Hst M (pth s) (arena s) (psps s) (jfts s) (PriPathName s) (SecPathName s) v (dta s).
Definition set_dta v (s : hst) : hst :=
  Hst M (pth s) (arena s) (psps s) (jfts s) (PriPathName s) (SecPathName s) (DirEntName s) v.

(** Computations of the parts. *)
Definition on_pth {A} (m : K pst A) : K hst A := fun s =>
  match m (pth s) with Some (a, p) => Some (a, set_pth p s) | None => None end.
Definition on_kern {A} (m : K kst A) : K hst A := on_pth (lift m).
Definition on_arena {A} (m : K mm A) : K hst A := fun s =>
  match m (arena s) with Some (a, v) => Some (a, set_arena v s) | None => None end.

Definition cu_psp_of (s : hst) : Z := Mm.cu_psp (arena s).
Definition set_cu_psp (v : Z) (s : hst) : hst :=
  let a := arena s in
  set_arena (MkMm (mem a) (first_mcb a) (uppermem_root a) (uppermem_link a) (mem_access_mode a) v) s.

(** [MK_FP(seg, 0)] as a PSP, and its table. *)
Definition psp_at (seg : Z) : K hst psp := let! s := kget in kopt (psps s !! seg).
Definition cur_psp : K hst psp := let! s := kget in psp_at (cu_psp_of s).
Definition filetab (p : psp) (i : Z) : K hst Z :=
  let! s := kget in
  let! l := kopt (jfts s !! ps_filetab p) in
  kopt (fgetbyte l i).
Definition set_filetab (p : psp) (i v : Z) : K hst unit :=
  let! s := kget in
  let! l := kopt (jfts s !! ps_filetab p) in
  let! l := kopt (fputbyte i v l) in
  kmod (fun s => set_jfts (<[ps_filetab p := l]> (jfts s)) s).

Definition get_sft_idx (hndl : Z) : K hst Z :=
  let! p := cur_psp in
  if ps_maxfiles p <=? hndl then kret DE_INVLDHNDL else
  let! idx := filetab p hndl in
  kret (if idx =? 0xff then DE_INVLDHNDL else idx).

(** The index of the entry, if it is in use. *)
Definition in_use (sft_idx : Z) : K hst (option sft) :=
  let! s := kget in kret (idx_to_sft (sfthead (fs (kern (pth s)))) sft_idx).
Definition get_sft (hndl : Z) : K hst (option (Z * sft)) :=
  let! idx := get_sft_idx hndl in
  let! f := in_use idx in
  kret (pair idx <$> f).

(** The error, or the new position. *)
Definition DosSeek (hndl new_pos mode : Z) : K hst (Z * Z) :=
  let! sft_idx := get_sft_idx hndl in
  let! r := on_kern (SftSeek2 sft_idx new_pos mode) in
  kret (fst r, default (fst r) (snd r)).

(** [fmemchr] over the table; it must hold that many bytes. *)
Fixpoint memchr (l : list Z) (c i : Z) (n : nat) : option (option Z) :=
  match n with
  | O => Some None
  | S n => match l with
           | [] => None
           | x :: l => if x =? c then Some (Some i) else memchr l c (i + 1) n
           end
  end.
Definition get_free_hndl : K hst Z :=
  let! p := cur_psp in
  let! s := kget in
  let! l := kopt (jfts s !! ps_filetab p) in
  let! r := kopt (memchr l 0xff 0 (Z.to_nat (ps_maxfiles p))) in
  kret (default DE_TOOMANY r).

(** ** Names *)

Definition set_fcbname : K hst unit :=
  kmod (fun s =>
    let path := cstr (PriPathName s) in
    set_DirEntName (fst (ConvertNameSZToName83 (drop (get_root path) path)) ++ [0]) s).

(** [truename(fname, PriPathName, mode)] and the same for the other buffer. *)
Definition truename_pri (fname : list Z) (mode : Z) : K hst Z :=
  let! s := kget in
  let! r := on_pth (truename fname (PriPathName s) mode) in
  do! kmod (set_PriPathName (snd r)) in
  kret (fst r).
Definition truename_sec (fname : list Z) (mode : Z) : K hst Z :=
  let! s := kget in
  let! r := on_pth (truename fname (SecPathName s) mode) in
  do! kmod (set_SecPathName (snd r)) in
  kret (fst r).

(** [network_redirector(cmd)]. *)
Definition network_redirector (cmd arg : Z) : K hst Z :=
  let! s := kget in
  on_kern (kworld (redir_path cmd arg (cstr (PriPathName s)) (cstr (SecPathName s)))).

(** ** Opening *)

Definition DeviceOpenSft (dhp : dhdr) (sft_idx : Z) : K pst Z :=
  let! f := lift (sft_at sft_idx) in
  do! lift (sftmod sft_idx (set_sft_shroff (-1))) in
  do! lift (count_up sft_idx) in
  do! lift (sftmod sft_idx (set_sft_flags
        (Z.lor (Z.lor (clear (dh_attrib dhp) (Z.lor SFT_MASK SFT_FSHARED)) SFT_FDEVICE) SFT_FEOF))) in
  let! name := kopt (fmemcpy (sft_name f) 0 (Path.dh_name dhp) FNode.FNAME_SIZE) in
  let! rname := kopt (pad_name (reverse name)) in
  let! name := DosUpFMem (reverse rname) in
  do! lift (sftmod sft_idx (set_sft_name name)) in
  do! lift (sftmod sft_idx (set_sft_dcb (dh_self dhp))) in
  let! d := lift dos_getdate in
  do! lift (sftmod sft_idx (set_sft_date d)) in
  let! t := lift dos_gettime in
  do! lift (sftmod sft_idx (set_sft_time t)) in
  do! lift (sftmod sft_idx (set_sft_attrib D_DEVICE)) in
  if has (dh_attrib dhp) SFT_FOCRM then
    let! r := lift (BinaryCharIO (dh_self dhp) 0 [] C_OPEN) in
    kret (if negb (fst r =? SUCCESS) then DE_ACCESS else SUCCESS)
  else kret SUCCESS.

(** A file on a network drive. *)
Definition open_network (sft_idx flags attrib : Z) : K hst Z :=
  let attrib := if Z.land flags (Z.lor O_TRUNC O_CREAT) =? O_CREAT then Z.lor attrib 0x100 else attrib in
  let '(cmd, attrib) :=
    if negb (has flags O_LEGACY) then (REM_EXTOC, attrib)
    else if negb (has flags O_CREAT) then (REM_OPEN, u8 flags) else (REM_CREATE, attrib) in
  let! s := kget in
  let! f := on_kern (sft_at sft_idx) in
  let! r := on_kern (kworld (fun w =>
      let '(rc, f, w) := redir_open cmd attrib (cstr (PriPathName s)) f w in ((rc, f), w))) in
  let '(status, f) := r in
  do! on_kern (sftmod sft_idx (fun _ => f)) in
  if 0 <=? status then
    do! (if sft_count f =? 0 then on_kern (count_up sft_idx) else kret tt) in
    kret (Z.lor sft_idx (Z.shiftl status 16))
  else kret status.

(** SHARE is asked first: the error, or the state of the entry is set. *)
Definition open_share (sft_idx flags : Z) : K hst Z :=
  let! share := on_kern (IsShareInstalled true) in
  if share then
    let! s := kget in
    let! rc := on_kern (kworld (share_open_check (cstr (PriPathName s)) (cu_psp_of s)
                                  (Z.land flags 0x03) (Z.land (Z.shiftr flags 4) 0x07))) in
    do! on_kern (sftmod sft_idx (set_sft_shroff (s16 rc))) in
    kret (if s16 rc <? 0 then s16 rc else SUCCESS)
  else kret SUCCESS.

(** A file on a drive of this machine. *)
Definition open_local (sft_idx flags attrib : Z) : K hst Z :=
  if 2 <? Z.land flags O_ACCMODE then kret DE_INVLDACC else
  if negb (has flags O_FCB) &&
     negb (clear attrib (Z.lor (Z.lor (Z.lor (Z.lor D_RDONLY D_HIDDEN) D_SYSTEM) D_ARCHIVE) D_VOLID) =? 0)
  then kret DE_ACCESS else
  let! rc := open_share sft_idx flags in
  if rc <? 0 then kret rc else
  let! s := kget in
  let path := cstr (PriPathName s) in
  let! drive := kopt (chr path 0) in
  do! on_kern (count_up sft_idx) in
  do! on_kern (sftmod sft_idx (set_sft_flags (drive - 0x41))) in
  let! result := on_kern (dos_open path flags attrib sft_idx) in
  if result <? 0 then
    let! f := on_kern (sft_at sft_idx) in
    do! (if 0 <=? sft_shroff f then
           do! on_kern (kworld (fun w => (tt, share_close_file (sft_shroff f) w))) in
           on_kern (sftmod sft_idx (set_sft_shroff (-1)))
         else kret tt) in
    do! on_kern (count_down sft_idx) in
    kret result
  else kret (Z.lor sft_idx (Z.shiftl result 16)).

Definition DosOpenSft (fname : list Z) (flags attrib : Z) : K hst Z :=
  let! result := truename_pri fname CDS_MODE_CHECK_DEV_PATH in
  if result <? SUCCESS then kret result else
  do! set_fcbname in
  let! free := on_kern get_free_sft in
  match free with
  | None => kret DE_TOOMANY
  | Some sft_idx =>
      let attrib := Z.lor attrib D_ARCHIVE in
      let! s := kget in
      do! on_kern (sftmod sft_idx (fun _ =>
            Sft 0 (Z.land flags 0xf0ff) (u8 attrib) 0 0 0 0 0 0 0 0 0 0 (replicate 11 0) 0 (-1) 0 (cu_psp_of s))) in
      let! dhp := (if has result IS_DEVICE then on_pth (IsDevice fname) else kret None) in
      match dhp with
      | Some dhp =>
          let! rc := on_pth (DeviceOpenSft dhp sft_idx) in
          kret (if rc <? SUCCESS then rc else sft_idx)
      | None =>
          if has result IS_NETWORK then open_network sft_idx flags attrib
          else open_local sft_idx flags attrib
      end
  end.

Definition DosOpen (fname : list Z) (mode attrib : Z) : K hst Z :=
  if negb (Z.land mode (Z.lxor 0xffff O_VALIDMASK) =? 0) then kret DE_INVLDACC else
  let! hndl := get_free_hndl in
  if hndl <? 0 then kret hndl else
  let! result := DosOpenSft fname mode attrib in
  if result <? SUCCESS then kret result else
  let! p := cur_psp in
  do! set_filetab p hndl (u8 result) in
  kret (Z.lor hndl (clear result 0xffff)).

(** ** Duplicating and closing *)

Definition CloneHandle (hndl : Z) : K hst Z :=
  let! r := get_sft hndl in
  match r with
  | None => kret DE_INVLDHNDL
  | Some (idx, f) =>
      if has (sft_mode f) O_NOINHERIT then kret DE_INVLDHNDL else
      do! on_kern (count_up idx) in
      kret SUCCESS
  end.

Definition DosClose (hndl : Z) : K hst Z :=
  let! sft_idx := get_sft_idx hndl in
  let! f := in_use sft_idx in
  match f with
  | None => kret DE_INVLDHNDL
  | Some _ =>
      let! p := cur_psp in
      do! set_filetab p hndl 0xff in
      on_kern (DosCloseSft sft_idx false)
  end.

(** [NewHandle] is not compared with the size of the table. *)
Definition DosForceDup (OldHandle NewHandle : Z) : K hst Z :=
  let! p := cur_psp in
  let! r := get_sft OldHandle in
  match r with
  | None => kret DE_INVLDHNDL
  | Some (idx, _) =>
      let! old := filetab p NewHandle in
      let! ret := (if negb (old =? 0xff) then DosClose NewHandle else kret SUCCESS) in
      if negb (ret =? SUCCESS) then kret ret else
      let! v := filetab p OldHandle in
      do! set_filetab p NewHandle v in
      do! on_kern (count_up idx) in
      kret SUCCESS
  end.

Definition DosDup (Handle : Z) : K hst Z :=
  let! NewHandle := get_free_hndl in
  if NewHandle <? 0 then kret NewHandle else
  let! rc := DosForceDup Handle NewHandle in
  kret (if rc <? 0 then DE_INVLDHNDL else NewHandle).

(** ** Processes (kernel/task.c, newstuff.c, fcbfns.c) *)

(** [newstuff.c]: a larger table is new memory, of which [(nHandles + 15) / 16]
    paragraphs are allocated, in 16 bits; writing behind them is undefined. *)
Definition SetJFTSize (nHandles : Z) : K hst Z :=
  let! s := kget in
  let! p := cur_psp in
  if nHandles <=? ps_maxfiles p then
    do! kmod (fun s => set_psps (<[cu_psp_of s := Psp (ps_parent p) nHandles (ps_filetab p)]> (psps s)) s) in
    kret SUCCESS
  else
    let size := Z.shiftr (u16 (nHandles + 0xf)) 4 in
    let! r := on_arena (DosMemAlloc size (mem_access_mode (arena s)) true) in
    if ar_rc r <? 0 then kret DE_NOMEM else
    let! block := kopt (ar_para r) in
    let block := u16 (block + 1) in
    let i := ps_maxfiles p in
    let! l := kopt (jfts s !! ps_filetab p) in
    let! l := kopt (if (i <=? Z.of_nat (length l)) && (nHandles <=? 16 * size)
                    then Some (take (Z.to_nat i) l ++ replicate (Z.to_nat (nHandles - i)) 0xff) else None) in
    do! kmod (fun s => set_jfts (<[block := l]> (jfts s)) s) in
    do! kmod (fun s => set_psps (<[cu_psp_of s := Psp (ps_parent p) nHandles block]> (psps s)) s) in
    kret SUCCESS.

(** The loop over the first 20 handles in [child_psp]. *)
Fixpoint clone_loop (n : nat) (i : Z) (p q : psp) : K hst unit :=
  match n with
  | O => kret tt
  | S n =>
      let! rc := CloneHandle i in
      do! (if 0 <=? rc then let! v := filetab q i in set_filetab p i v else kret tt) in
      clone_loop n (i + 1) p q
  end.

(** The part of [child_psp] about files: the new PSP at [para] has a table of
    its own. *)
Definition child_psp (para cur_psp : Z) : K hst unit :=
  let! q := psp_at cur_psp in
  let! s := kget in
  let p := Psp (cu_psp_of s) 20 para in
  do! kmod (fun s => set_psps (<[para := p]> (psps s)) s) in
  do! kmod (fun s => set_jfts (<[para := replicate 20 0xff]> (jfts s)) s) in
  clone_loop 20 0 p q.

Fixpoint close_loop (n : nat) (i : Z) : K hst unit :=
  match n with
  | O => kret tt
  | S n => let! _ := DosClose i in close_loop n (i + 1)
  end.

(** [FcbCloseAll]: the loop ends at the first entry that is not in use. *)
Fixpoint fcb_close_loop (n : nat) (idx : Z) : K hst unit :=
  match n with
  | O => kstuck
  | S n =>
      let! f := in_use idx in
      match f with
      | None => kret tt
      | Some f =>
          let! s := kget in
          do! (if has (sft_mode f) O_FCB && (sft_psp f =? cu_psp_of s)
               then let! _ := on_kern (DosCloseSft idx false) in kret tt else kret tt) in
          fcb_close_loop n (idx + 1)
      end
  end.
Definition FcbCloseAll : K hst unit :=
  let! s := kget in
  fcb_close_loop (S (length (concat (sfthead (fs (kern (pth s))))))) 0.

(** What [return_user] does before it goes back to the parent. *)
Definition end_process (term_type : Z) : K hst unit :=
  let! p := cur_psp in
  let! s := kget in
  let! _ := network_redirector REM_PROCESS_END 0 in
  do! (if negb (term_type =? 3) && negb (ps_parent p =? cu_psp_of s) then
         let! _ := network_redirector REM_CLOSEALL 0 in
         do! close_loop (Z.to_nat (ps_maxfiles p)) 0 in
         do! FcbCloseAll in
         let! s := kget in
         let! _ := on_arena (FreeProcessMem (cu_psp_of s)) in
         kret tt
       else kret tt) in
  kmod (set_cu_psp (ps_parent p)).
End Handle.
End Handle.
