(* ===== verification/Calls.v ===== *)
(** * The calls by name and about drives (kernel/dosfns.c, newstuff.c)

    Each call makes the name it gets into a full one, then asks the redirector,
    a device or the file system.  A name is the list of its characters before
    the NUL; results that C stores through pointers are returned. *)

From S2P Require Import Prelude Memmgr KState BlockIO FatTab FNode FatAlloc Clock Media FatDir FatFile.
From S2P Require Import Path Handle.
Import Mm Ks Bio Fat FNode Alloc Clk Media Dir File Path Handle.

Module Calls.

Definition M_CHANGED := -1.

(** [dpb_flags = v]. *)
Definition set_dpb_flags v (d : dpb) : dpb :=
  Dpb (dpb_unit d) (dpb_subunit d) (dpb_secsize d) (dpb_clsmask d) (dpb_shftcnt d)
    (dpb_fatstrt d) (dpb_fats d) (dpb_dirents d) (dpb_data d) (dpb_size d) (dpb_fatsize d)
    (dpb_dirstrt d) (dpb_device d) (dpb_mdb d) v (dpb_cluster d) (dpb_xnfreeclst d)
    (dpb_xflags d) (dpb_xfsinfosec d) (dpb_xbackupsec d) (dpb_xdata d) (dpb_xsize d)
    (dpb_xfatsize d) (dpb_xrootclst d) (dpb_xcluster d).

Section Calls.
Context {M : Machine} {Sh : Shell} {R : Redirector}.

(** ** Drives *)

Definition get_cds_unvalidated (drive : Z) : K hst (option cds) :=
  let! s := kget in
  let k := kern (pth s) in
  if lastdrive (env k) <=? drive then kret None else let! c := kopt (CDSp k !! drive) in kret (Some c).

(** 0 is the default drive, 1 is A; the number counts in 16 bits. *)
Definition drive1 (drv : Z) : K hst Z :=
  let! s := kget in kret (if drv =? 0 then default_drive (pth s) else u16 (drv - 1)).
Definition get_cds1 (drv : Z) : K hst (option cds) :=
  let! drv := drive1 drv in on_kern (get_cds drv).

(** The parameter block, or 0, and the return code. *)
Definition GetDriveDPB (drive : Z) : K hst (Z * Z) :=
  let! cdsp := get_cds1 drive in
  match cdsp with
  | None => kret (0, DE_INVLDDRV)
  | Some c =>
      if (cdsDpb c =? 0) || has (cdsFlags c) CDSNETWDRV then kret (0, DE_INVLDDRV)
      else kret (cdsDpb c, SUCCESS)
  end.

Definition DosSelectDrv (drv : Z) : K hst Z :=
  let! c := on_kern (get_cds drv) in
  do! kmod (fun s => set_pth (set_current_ldt (match c with Some _ => Ldt drv | None => LdtNull end) (pth s)) s) in
  do! (match c with
       | Some _ => kmod (fun s => let p := pth s in
           set_pth (Pst M (kern p) drv (current_ldt p) (TempCDS p) (njoined p) (os_major p) (devices p) (actPkg p)) s)
       | None => kret tt
       end) in
  let! s := kget in kret (lastdrive (env (kern (pth s)))).

(** ** Free space *)

(** [spc], [*navc] unless it is NULL, [*bps] and [*nc]; [spc] is 0xffff on
    error. *)
Record free_space := FreeSpace { fs_spc : Z; fs_navc : option Z; fs_bps : Z; fs_nc : Z }.
Definition no_space : option free_space := None.

(** The scaling of a FAT32 volume to numbers of 16 bits. *)
Fixpoint scale_loop (fuel : nat) (cluster_size spc ntotal nfree : Z) : Z * Z * Z :=
  match fuel with
  | O => (spc, ntotal, nfree)
  | S fuel =>
      if (FAT_MAGIC16 <? ntotal) && (cluster_size <? 0x8000)
      then scale_loop fuel (u32 (cluster_size * 2)) (u16 (spc * 2)) (Z.shiftr ntotal 1) (Z.shiftr nfree 1)
      else (spc, ntotal, nfree)
  end.
Definition clip16 (n : Z) : Z := if FAT_MAGIC16 <? n then FAT_MAGIC16 else u16 n.
Definition double16 (n : Z) : Z := if n <? FAT_MAGIC16 / 2 then u16 (Z.shiftl n 1) else FAT_MAGIC16.

Definition space_fat32 (d : dpb) (nfree : option Z) : free_space :=
  let '(spc, ntotal, free) :=
    scale_loop 32 (u32 (Z.shiftl (dpb_secsize d) (dpb_shftcnt d))) (dpb_clsmask d + 1)
      (u32 (dpb_xsize d - 1)) (default 0 nfree) in
  FreeSpace spc (match nfree with Some _ => Some (clip16 free) | None => None end) (dpb_secsize d) (clip16 ntotal).
Definition space_fat (d : dpb) (nfree : option Z) : free_space :=
  let spc := dpb_clsmask d + 1 in
  let navc := match nfree with Some f => Some (u16 f) | None => None end in
  let nc := u16 (dpb_size d - 1) in
  if 64 <? spc then
    FreeSpace (Z.shiftr spc 1) (match navc with Some f => Some (double16 f) | None => None end) (dpb_secsize d) (double16 nc)
  else FreeSpace spc navc (dpb_secsize d) nc.

(** [navc] is false for a NULL pointer, the call of FatGetDrvData. *)
Definition DosGetFree (drive : Z) (navc : bool) : K hst (option free_space) :=
  let! cdsp := get_cds1 drive in
  match cdsp with
  | None => kret no_space
  | Some c =>
      let! dr := drive1 drive in
      do! kmod (fun s => set_pth (set_current_ldt (Ldt dr) (pth s)) s) in
      if has (cdsFlags c) CDSNETWDRV then
        let! r := on_kern (kworld (fun w => let '(rc, rg, w) := redir_space c w in ((rc, rg), w))) in
        let '(rc, rg) := r in
        if negb (rc =? SUCCESS) then kret no_space else
        match rg with
        | rg0 :: rg1 :: rg2 :: rg3 :: _ =>
            kret (Some (FreeSpace (if navc then Z.land rg0 0xff else rg0)
                          (if navc then Some rg3 else None) rg2 rg1))
        | _ => kstuck
        end
      else if cdsDpb c =? 0 then kret no_space else
      let dpbp := cdsDpb c in
      do! (if navc then kret tt else
             let! d := on_kern (Ks.dget dpbp) in
             let! _ := on_kern (flush_buffers (dpb_unit d)) in
             on_kern (dmod dpbp (set_dpb_flags M_CHANGED))) in
      let! rc := on_kern (media_check dpbp) in
      if rc <? 0 then kret no_space else
      let! d := on_kern (Ks.dget dpbp) in
      let! nfree := (if navc then let! f := on_kern (dos_free dpbp) in kret (Some f) else kret None) in
      kret (Some (if ISFAT32 d then space_fat32 d nfree else space_fat d nfree))
  end.

(** [struct xfreespace], without the members that are constants. *)
Record xfreespace := XFreeSpace {
  xfs_clussize : Z; xfs_secsize : Z; xfs_freeclusters : Z; xfs_totalclusters : Z;
  xfs_freesectors : Z; xfs_totalsectors : Z; xfs_freeunits : Z; xfs_totalunits : Z }.
Definition xspace (clussize secsize free total : Z) : xfreespace :=
  XFreeSpace clussize secsize free total (u32 (free * clussize)) (u32 (total * clussize)) free total.

(** The two loops that make the numbers of a large remote volume smaller. *)
Fixpoint xscale_loop (fuel : nat) (limit factor avail total : Z) : Z * Z * Z :=
  match fuel with
  | O => (factor, avail, total)
  | S fuel =>
      if (0x00ffffff <? total) && (factor <? limit)
      then xscale_loop fuel limit (factor * 2) (avail / 2) (total / 2)
      else (factor, avail, total)
  end.

Definition ext_remote (c : cds) : K hst (option xfreespace) :=
  let! r := on_kern (kworld (fun w => let '(rc, rg, w) := redir_space32 c w in ((rc, rg), w))) in
  let '(rc, rg) := r in
  if negb (rc =? SUCCESS) then
    let! r := on_kern (kworld (fun w => let '(rc, rg, w) := redir_space c w in ((rc, rg), w))) in
    let '(rc, rg) := r in
    if negb (rc =? SUCCESS) then kret None else
    match rg with
    | rg0 :: rg1 :: rg2 :: rg3 :: _ => kret (Some (xspace rg0 rg2 rg3 rg1))
    | _ => kstuck
    end
  else
    match rg with
    | rg0 :: rg1 :: rg2 :: rg3 :: rg4 :: _ =>
        let total := Z.lor (Z.shiftl rg0 16) rg1 in
        let avail := Z.lor (Z.shiftl rg2 16) rg3 in
        let '(spc, avail, total) := xscale_loop 8 128 1 avail total in
        let '(bps, avail, total) := xscale_loop 16 32768 rg4 avail total in
        kret (Some (xspace spc bps avail total))
    | _ => kstuck
    end.

Definition DosGetExtFree (DriveString : list Z) : K hst (Z * option xfreespace) :=
  let at_ i := default 0 (DriveString !! i) in
  let! cdsp :=
    (if (at_ 0%nat =? 0) || (at_ 0%nat =? DOT) || (is_slash (at_ 0%nat) && negb (is_slash (at_ 1%nat))) then
       let! s := kget in on_kern (get_cds (default_drive (pth s)))
     else if at_ 1%nat =? COLON then
       let! c := on_pth (DosUpFChar (at_ 0%nat)) in on_kern (get_cds (u16 (c - 0x41)))
     else kret None) in
  match cdsp with
  | None => kret (DE_INVLDDRV, None)
  | Some c =>
      if has (cdsFlags c) CDSNETWDRV then
        let! x := ext_remote c in
        kret (match x with Some _ => SUCCESS | None => DE_INVLDDRV end, x)
      else if cdsDpb c =? 0 then kret (DE_INVLDDRV, None) else
      let! rc := on_kern (media_check (cdsDpb c)) in
      if rc <? 0 then kret (DE_INVLDDRV, None) else
      let! d := on_kern (Ks.dget (cdsDpb c)) in
      let! free := on_kern (dos_free (cdsDpb c)) in
      kret (SUCCESS, Some (xspace (dpb_clsmask d + 1) (dpb_secsize d) free
                             (u32 ((if ISFAT32 d then dpb_xsize d else dpb_size d) - 1))))
  end.

(** ** Current directories *)

(** The path behind the root's backslash, or the error. *)
Definition DosGetCuDir (drive : Z) : K hst (Z * list Z) :=
  let! s := kget in
  let drive := if drive =? 0 then default_drive (pth s) else u8 (drive - 1) in
  let! rc := truename_pri [0x41 + Z.land drive 0x1f; COLON] CDS_MODE_SKIP_PHYSICAL in
  if rc <? SUCCESS then kret (DE_INVLDDRV, []) else
  let! s := kget in
  kret (SUCCESS, cstr (drop 3 (PriPathName s))).

(** [fstrcpy(current_ldt->cdsCurrentPath, PriPathName)] and the second NUL;
    the entry of a null pointer is undefined. *)
Definition set_cwd (path : list Z) (drive : Z) : K kst unit :=
  let! s := kget in
  let! c := kopt (CDSp s !! drive) in
  let! l := kopt (fmemcpy (cdsCurrentPath c) 0 (path ++ [0]) (Z.of_nat (length path) + 1)) in
  let! c7 := kopt (chr path 7) in
  let! l := kopt (if c7 =? 0 then fputbyte 8 0 l else Some l) in
  kmod (fun s => set_CDSp (<[drive := Cds l (cdsFlags c) (cdsDpb c) (cdsStrtClst c)
                                         (cdsBackslashOffset c)]> (CDSp s)) s).

Definition DosChangeDir (path : list Z) : K hst Z :=
  let! result := truename_pri path CDS_MODE_CHECK_DEV_PATH in
  if result <? SUCCESS then kret DE_PATHNOTFND else
  do! set_fcbname in
  let! s := kget in
  let full := cstr (PriPathName s) in
  if (match current_ldt (pth s) with LdtUnc => false | _ => true end)
     && (MAX_CDSPATH <=? Z.of_nat (length full))
  then kret DE_PATHNOTFND else
  let! result := (if has result IS_NETWORK then network_redirector REM_CHDIR 0 else on_kern (dos_cd full)) in
  if negb (result =? SUCCESS) then kret result else
  do! (match current_ldt (pth s) with
       | LdtUnc => kret tt
       | LdtNull => kstuck
       | Ldt drive => on_kern (set_cwd full drive)
       end) in
  kret SUCCESS.

(** ** Searching *)

(** The search state and the entry go to the user's buffer. *)
Definition pop_dmp (rc : Z) : K hst Z :=
  do! (if rc =? SUCCESS then
         let! s := kget in
         let v := fs (kern (pth s)) in
         let e := SearchDir v in
         let! name := kopt (ConvertName83ToNameSZ (dir_name e)) in
         kmod (set_dta (Ffblk (tmp_dm v) (dir_attrib e) (dir_time e) (dir_date e) (dir_size e) name))
       else kret tt) in
  kret rc.

Definition zero_dm : dmatch := Dmatch 0 (replicate 11 0) 0 0 0.
Definition zero_dirent : dirent := Dirent (replicate 11 0) 0 0 0 0 0 0 0 0 0 0 0.
Definition set_search (m : dmatch) (e : dirent) : K hst unit :=
  on_kern (kmod (fun s => set_fs (set_SearchDir e (set_tmp_dm m (fs s))) s)).

Definition redirect_find (cmd : Z) : K hst Z :=
  let! s := kget in
  let v := fs (kern (pth s)) in
  let! r := on_kern (kworld (fun w =>
      let '(rc, x, w) := redir_find cmd (cstr (PriPathName s)) (tmp_dm v, SearchDir v) w in ((rc, x), w))) in
  do! set_search (fst (snd r)) (snd (snd r)) in
  kret (fst r).

(** The name of a device, to the dot, in 8 characters. *)
Fixpoint device_name (n : nat) (p : list Z) : list Z :=
  match n, p with
  | S n, c :: p => if c =? DOT then [] else c :: device_name n p
  | _, _ => []
  end.

Definition find_device : K hst Z :=
  let! s := kget in
  let! t := on_kern dos_gettime in
  let! d := on_kern dos_getdate in
  let path := cstr (PriPathName s) in
  let name := device_name (Z.to_nat FNode.FNAME_SIZE) (drop (get_root path) path) in
  do! set_search (set_dm_entry 0xffff zero_dm)
        (Dirent (name ++ replicate (11 - length name) SPACE) D_DEVICE 0 0 0 0 0 0 t d 0 0) in
  kret SUCCESS.

Definition DosFindFirst (attr : Z) (name : list Z) : K hst Z :=
  let! rc := truename_pri name (Z.lor CDS_MODE_CHECK_DEV_PATH CDS_MODE_ALLOW_WILDCARDS) in
  if rc <? SUCCESS then kret rc else
  do! set_fcbname in
  do! set_search zero_dm zero_dirent in
  let! s := kget in
  let! rc :=
    (if has rc IS_NETWORK then redirect_find REM_FINDFIRST
     else if has rc IS_DEVICE then find_device
     else on_kern (dos_findfirst attr (cstr (PriPathName s)))) in
  pop_dmp rc.

Definition DosFindNext : K hst Z :=
  let! s := kget in
  let m := ff_dm (dta s) in
  do! on_kern (kmod (fun k => set_fs (set_tmp_dm m (fs k)) k)) in
  if (clear (dm_attr_srch m) IGNORED =? D_VOLID)
     || (negb (has (dm_drive m) 0x80) && (dm_entry m =? 0xffff))
  then kret DE_NFILES else
  do! set_search m zero_dirent in
  let! rc := (if has (dm_drive m) 0x80 then redirect_find REM_FINDNEXT else on_kern dos_findnext) in
  pop_dmp rc.

(** ** Date, time and locks of an open file *)

Definition DosGetFtime (hndl : Z) : K hst (Z * option (Z * Z)) :=
  let! r := get_sft hndl in
  kret (match r with
        | None => (DE_INVLDHNDL, None)
        | Some (_, f) => (SUCCESS, Some (sft_date f, sft_time f))
        end).

Definition DosLockUnlock (hndl pos len unlock : Z) : K hst Z :=
  let! r := get_sft hndl in
  match r with
  | None => kret DE_INVLDHNDL
  | Some (_, f) =>
      if has (sft_flags f) SFT_FSHARED then on_kern (kworld (redir_lock f pos len unlock)) else
      let! share := on_kern (IsShareInstalled false) in
      if negb share then kret DE_INVLDFUNC else
      if sft_shroff f <? 0 then kret DE_LOCK else
      let! s := kget in
      on_kern (kworld (share_lock_unlock (cu_psp_of s) (sft_shroff f) pos len unlock))
  end.

(** ** Attributes, deleting, renaming, directories *)

Definition DosGetFattr (name : list Z) : K hst Z :=
  let! result := truename_pri name CDS_MODE_CHECK_DEV_PATH in
  if result <? SUCCESS then kret result else
  let! s := kget in
  let! c3 := kopt (fgetbyte (PriPathName s) 3) in
  if c3 =? 0 then kret 0x10 else
  do! set_fcbname in
  if has result IS_NETWORK then network_redirector REM_GETATTRZ 0 else
  if has result IS_DEVICE then kret DE_FILENOTFND else
  on_kern (dos_getfattr (cstr (PriPathName s))).

Definition DosSetFattr (name : list Z) (attrp : Z) : K hst Z :=
  let! result := truename_pri name CDS_MODE_CHECK_DEV_PATH in
  if result <? SUCCESS then kret result else
  do! set_fcbname in
  if has result IS_NETWORK then network_redirector REM_SETATTR attrp else
  if has result IS_DEVICE then kret DE_FILENOTFND else
  let! s := kget in
  let path := cstr (PriPathName s) in
  let! share := on_kern (IsShareInstalled true) in
  let! result :=
    (if share then
       let! result := on_kern (kworld (share_open_check path (cu_psp_of s) O_RDWR 0)) in
       do! (if result <? 0 then kret tt
            else on_kern (kworld (fun w => (tt, share_close_file result w)))) in
       kret result
     else kret SUCCESS) in
  if result <? 0 then kret result else on_kern (dos_setfattr path attrp).

Definition DosDelete (path : list Z) (attrib : Z) : K hst Z :=
  let! result := truename_pri path CDS_MODE_CHECK_DEV_PATH in
  if result <? SUCCESS then kret result else
  do! set_fcbname in
  if has result IS_NETWORK then network_redirector REM_DELETE 0 else
  if has result IS_DEVICE then kret DE_FILENOTFND else
  let! s := kget in
  let full := cstr (PriPathName s) in
  let! share := on_kern (IsShareInstalled true) in
  let! opened := (if share then on_kern (kworld (share_is_file_open full)) else kret false) in
  if opened then kret DE_ACCESS else on_kern (dos_delete full attrib).

(** The paths are those in the two buffers. *)
Definition DosRenameTrue (path1 path2 : list Z) (attrib : Z) : K hst Z :=
  let! c1 := kopt (chr path1 0) in
  let! c2 := kopt (chr path2 0) in
  if negb (c1 =? c2) then kret DE_DEVICE else
  let! s := kget in
  let! remote :=
    (match current_ldt (pth s) with
     | LdtUnc => kret true
     | LdtNull => kstuck
     | Ldt drive => let! c := kopt (CDSp (kern (pth s)) !! drive) in kret (has (cdsFlags c) CDSNETWDRV)
     end) in
  if remote then network_redirector REM_RENAME 0 else
  let! share := on_kern (IsShareInstalled true) in
  let! opened := (if share then on_kern (kworld (share_is_file_open path1)) else kret false) in
  if opened then kret DE_ACCESS else on_kern (dos_rename path1 path2 attrib).

Definition is_bare_device (result : Z) : bool := Z.land result (Z.lor IS_NETWORK IS_DEVICE) =? IS_DEVICE.

Definition DosRename (path1 path2 : list Z) : K hst Z :=
  let! result := truename_sec path2 CDS_MODE_CHECK_DEV_PATH in
  if result <? SUCCESS then kret result else
  if is_bare_device result then kret DE_FILENOTFND else
  let! result := truename_pri path1 CDS_MODE_CHECK_DEV_PATH in
  if result <? SUCCESS then kret result else
  do! set_fcbname in
  if is_bare_device result then kret DE_FILENOTFND else
  let! s := kget in
  DosRenameTrue (cstr (PriPathName s)) (cstr (SecPathName s)) D_ALL.

(** [action] is the number of the INT 21h function: 39h makes a directory. *)
Definition DosMkRmdir (dir : list Z) (action : Z) : K hst Z :=
  let! result := truename_pri dir CDS_MODE_CHECK_DEV_PATH in
  if result <? SUCCESS then kret result else
  do! set_fcbname in
  if has result IS_NETWORK then network_redirector (if action =? 0x39 then REM_MKDIR else REM_RMDIR) 0 else
  if has result IS_DEVICE then kret DE_ACCESS else
  let! s := kget in
  on_kern ((if action =? 0x39 then dos_mkdir else dos_rmdir) (cstr (PriPathName s))).

(** The buffer of the caller gets the path only on success. *)
Definition DosTruename (src : list Z) : K hst (Z * option (list Z)) :=
  let! rc := truename_pri src CDS_MODE_ALLOW_WILDCARDS in
  if SUCCESS <=? rc then
    let! s := kget in
    do! set_fcbname in
    kret (rc, Some (cstr (PriPathName s)))
  else kret (rc, None).

(** ** Temporary files *)

(** One letter for 4 bits; with the digits that DOS before version 5 gets. *)
Definition tmp_char (os_major tmp : Z) : Z :=
  let c := Z.land tmp 0xf + 0x41 in
  if os_major <? 5 then c - (if c <? 0x41 + 10 then 0x30 - 0x41 else 10) else c.
Definition tmp_name (os_major randvar : Z) : list Z :=
  (fun i => tmp_char os_major (Z.shiftr randvar (4 * (7 - i)))) <$> seqZ 0 8.

Fixpoint mktmp_loop (fuel : nat) (prefix : list Z) (os_major randvar attr : Z) : K hst (Z * list Z) :=
  let path := prefix ++ tmp_name os_major randvar in
  let! rc := DosOpen path (Z.lor (Z.lor O_LEGACY O_CREAT) O_RDWR) attr in
  match fuel with
  | S fuel =>
      if rc =? DE_FILEEXISTS then mktmp_loop fuel prefix os_major (u32 (randvar + 1)) attr
      else kret (rc, path)
  | O => kret (rc, path)
  end.

(** The result and the path, which the caller's buffer gets. *)
Definition DosMkTmp (pathname : list Z) (attr : Z) : K hst (Z * list Z) :=
  let! s := kget in
  let prefix :=
    if (os_major (pth s) =? 5) && negb (match last pathname with Some c => is_slash c | None => false end)
    then pathname ++ [BACKSLASH] else pathname in
  let! d := on_kern dos_getdate in
  let! t := on_kern dos_gettime in
  mktmp_loop (Z.to_nat 0xfff) prefix (os_major (pth s)) (Z.lor (u32 (Z.shiftl d 16)) t) attr.
End Calls.
End Calls.
