(* ===== verification/HandleSpec.v ===== *)
(** * Reference counts of open files

    The state of handles as tables of bytes and a list of counts, the number
    of references to an entry, and the effect of each handle operation on
    them. *)

From S2P Require Import Prelude Memmgr KState BlockIO FatTab FNode FatAlloc Clock Media FatDir FatFile.
From S2P Require Import Frame Path Handle.
Import Mm Ks Bio Fat FNode Alloc Clk Media Dir File Frame Path Handle.

Module HandleSpec.

(** ** What names leave alone *)

Section Paths.
Context {M : Machine} {Sh : Shell}.

Definition pslots (s : pst) : list (Z * Z * Z) := slots (kern s).

Lemma keeps_lift {A} (m : K kst A) : keeps slots m -> keeps pslots (lift m).
Proof.
  intros H s a s'. unfold lift. destruct (m (kern s)) as [[b k]|] eqn:E; [|done].
  intros [= _ <-]. exact (H _ _ _ E).
Qed.
Lemma keeps_on_world {A} (f : world -> A * world) : keeps pslots (on_world f).
Proof. intros s a s'. unfold on_world. destruct (f _). by intros [= _ <-]. Qed.
#[local] Hint Resolve keeps_lift keeps_on_world : keeps.
Lemma keeps_DosUpFMem str : keeps pslots (DosUpFMem str).
Proof. unfold DosUpFMem. keeps. Qed.
Lemma keeps_DosUpMem str : keeps pslots (DosUpMem str).
Proof. unfold DosUpMem. keeps. Qed.
#[local] Hint Resolve keeps_DosUpFMem keeps_DosUpMem : keeps.
Lemma keeps_DosUpFChar c : keeps pslots (DosUpFChar c).
Proof. unfold DosUpFChar. keeps. Qed.
#[local] Hint Resolve keeps_DosUpFChar : keeps.
Lemma keeps_same_device name froot : keeps pslots (same_device name froot).
Proof. revert froot. induction name; intros; cbn [same_device]; keeps. Qed.
#[local] Hint Resolve keeps_same_device : keeps.
Lemma keeps_device_loop devs froot : keeps pslots (device_loop devs froot).
Proof. induction devs; cbn [device_loop]; keeps. Qed.
#[local] Hint Resolve keeps_device_loop : keeps.
Lemma keeps_IsDevice fname : keeps pslots (IsDevice fname).
Proof. unfold IsDevice. keeps. Qed.
Lemma keeps_path_letter src : keeps pslots (path_letter src).
Proof. unfold path_letter. keeps. Qed.
Lemma keeps_path_drive src result dhp mode : keeps pslots (path_drive src result dhp mode).
Proof. unfold path_drive. keeps. Qed.
Lemma keeps_on_dest {A} (m : K cur A) c : keeps pslots (on_dest m c).
Proof. unfold on_dest. keeps. Qed.
#[local] Hint Resolve keeps_IsDevice keeps_path_letter keeps_path_drive keeps_on_dest : keeps.
Lemma keeps_device_prefix src result c : keeps pslots (device_prefix src result c).
Proof. unfold device_prefix. keeps. Qed.
Lemma keeps_check_cwd drive : keeps pslots (check_cwd drive).
Proof.
  unfold check_cwd. keeps. apply keeps_lift, keeps_mod. by intros.
Qed.
Lemma keeps_up_path rootPos c : keeps pslots (up_path rootPos c).
Proof. unfold up_path. keeps. Qed.
#[local] Hint Resolve keeps_device_prefix keeps_check_cwd keeps_up_path : keeps.
Lemma keeps_join_loop n i result c : keeps pslots (join_loop n i result c).
Proof. revert i result c. induction n; intros; cbn [join_loop]; keeps. Qed.
#[local] Hint Resolve keeps_join_loop : keeps.
Lemma keeps_finish_path mode result c : keeps pslots (finish_path mode result c).
Proof. unfold finish_path. keeps. Qed.
#[local] Hint Resolve keeps_finish_path : keeps.
Lemma keeps_local_truename src mode drive result c : keeps pslots (local_truename src mode drive result c).
Proof. unfold local_truename. keeps. Qed.
#[local] Hint Resolve keeps_local_truename : keeps.
Lemma keeps_truename src dst mode : keeps pslots (truename src dst mode).
Proof. unfold truename. keeps. Qed.
End Paths.
#[export] Hint Resolve keeps_truename keeps_IsDevice keeps_DosUpFMem keeps_lift : keeps.

(** ** Runs, backwards *)

Lemma bind_inv {S A B} (m : K S A) (f : A -> K S B) s r :
  kbind m f s = Some r -> exists a s1, m s = Some (a, s1) /\ f a s1 = Some r.
Proof. unfold kbind. destruct (m s) as [[a s1]|]; [|done]. eauto. Qed.

Lemma opt_inv {S A} (o : option A) (s : S) a s' : kopt o s = Some (a, s') -> o = Some a /\ s' = s.
Proof. unfold kopt. destruct o; [|done]. by intros [= <- <-]. Qed.

(** Takes the next operation of a run in [H] off: its result and state. *)
Ltac kinv H a s1 E := apply bind_inv in H as (a & s1 & E & H).
(** What the run in [E] leaves alone. *)
Ltac kept obs E K :=
  match type of E with
  | ?m ?s = Some (?a, ?s') =>
      assert (K : obs s' = obs s) by
        (let H := fresh in assert (H : keeps obs m) by keeps; exact (H _ _ _ E))
  end.
Ltac kget_inv H := apply bind_inv in H as (? & ? & [= <- <-] & H).

(** ** What the memory manager leaves alone *)

Lemma keeps_rd p : keeps Mm.cu_psp (rd p).
Proof. unfold rd. keeps. Qed.
Lemma keeps_wr p f : keeps Mm.cu_psp (wr p f).
Proof. unfold wr. keeps. Qed.
#[local] Hint Resolve keeps_rd keeps_wr : keeps.
Lemma keeps_joinMCBs_loop fuel p : keeps Mm.cu_psp (joinMCBs_loop fuel p).
Proof. revert p. induction fuel as [|fuel IH]; intros; cbn [joinMCBs_loop]; keeps. Qed.
#[local] Hint Resolve keeps_joinMCBs_loop : keeps.
Lemma keeps_joinMCBs para : keeps Mm.cu_psp (joinMCBs para).
Proof. unfold joinMCBs. keeps. Qed.
#[local] Hint Resolve keeps_joinMCBs : keeps.
Lemma keeps_visit_mcb size mode p biggest found : keeps Mm.cu_psp (visit_mcb size mode p biggest found).
Proof. unfold visit_mcb. keeps. Qed.
#[local] Hint Resolve keeps_visit_mcb : keeps.
Lemma keeps_search_loop fuel size mode p biggest found : keeps Mm.cu_psp (search_loop fuel size mode p biggest found).
Proof. revert size mode p biggest found. induction fuel as [|fuel IH]; intros; cbn [search_loop]; keeps. Qed.
#[local] Hint Resolve keeps_search_loop : keeps.
Lemma keeps_take_block size mode found : keeps Mm.cu_psp (take_block size mode found).
Proof. unfold take_block. keeps. Qed.
#[local] Hint Resolve keeps_take_block : keeps.
Lemma keeps_alloc_loop tries size mode asize : keeps Mm.cu_psp (alloc_loop tries size mode asize).
Proof. revert size mode asize. induction tries as [|tries IH]; intros; cbn [alloc_loop]; keeps. Qed.
#[local] Hint Resolve keeps_alloc_loop : keeps.
Lemma keeps_DosMemAlloc size mode asize : keeps Mm.cu_psp (DosMemAlloc size mode asize).
Proof. unfold DosMemAlloc. keeps. Qed.
#[local] Hint Resolve keeps_DosMemAlloc : keeps.
Lemma keeps_DosMemFree para : keeps Mm.cu_psp (DosMemFree para).
Proof. unfold DosMemFree. keeps. Qed.
#[local] Hint Resolve keeps_DosMemFree : keeps.
Lemma keeps_umb_walk fuel root p q : keeps Mm.cu_psp (umb_walk fuel root p q).
Proof. revert root p q. induction fuel as [|fuel IH]; intros; cbn [umb_walk]; keeps. Qed.
#[local] Hint Resolve keeps_umb_walk : keeps.
Lemma keeps_DosUmbLink n : keeps Mm.cu_psp (DosUmbLink n).
Proof. unfold DosUmbLink. keeps. Qed.
#[local] Hint Resolve keeps_DosUmbLink : keeps.
Lemma keeps_Mm_free_loop fuel ps p : keeps Mm.cu_psp (Mm.free_loop fuel ps p).
Proof. revert ps p. induction fuel as [|fuel IH]; intros; cbn [Mm.free_loop]; keeps. Qed.
#[local] Hint Resolve keeps_Mm_free_loop : keeps.
Lemma keeps_FreeProcessMem ps : keeps Mm.cu_psp (FreeProcessMem ps).
Proof. unfold FreeProcessMem. keeps. Qed.
#[local] Hint Resolve keeps_FreeProcessMem : keeps.

(** ** What the handles are *)

Record view := View {
  v_slots : list (Z * Z * Z); v_psps : gmap Z psp; v_jfts : gmap Z (list Z); v_cu : Z }.

Section View.
Context {M : Machine} {Sh : Shell} {R : Redirector}.

Definition view_of (s : hst) : view :=
  View (slots (kern (pth s))) (psps s) (jfts s) (cu_psp_of s).

Lemma keeps_on_pth {A} (m : K pst A) : keeps pslots m -> keeps view_of (on_pth m).
Proof.
  intros H s a s'. unfold on_pth. destruct (m (pth s)) as [[b k]|] eqn:E; [|done].
  intros [= _ <-]. unfold view_of. cbn. f_equal. exact (H _ _ _ E).
Qed.
Lemma keeps_on_kern {A} (m : K kst A) : keeps slots m -> keeps view_of (on_kern m).
Proof. intros H. apply keeps_on_pth, keeps_lift, H. Qed.
Lemma keeps_kworld {A} (f : world -> A * world) : keeps slots (kworld f).
Proof. intros s a s'. unfold kworld. destruct (f _). by intros [= _ <-]. Qed.
#[local] Hint Resolve keeps_on_pth keeps_on_kern keeps_kworld : keeps.
Lemma keeps_cur_psp : keeps view_of cur_psp.
Proof. unfold cur_psp, psp_at. keeps. Qed.
Lemma keeps_filetab p i : keeps view_of (filetab p i).
Proof. unfold filetab. keeps. Qed.
Lemma keeps_in_use i : keeps view_of (in_use i).
Proof. unfold in_use. keeps. Qed.
#[local] Hint Resolve keeps_cur_psp keeps_filetab keeps_in_use : keeps.
Lemma keeps_get_sft_idx h : keeps view_of (get_sft_idx h).
Proof. unfold get_sft_idx. keeps. Qed.
#[local] Hint Resolve keeps_get_sft_idx : keeps.
Lemma keeps_get_sft h : keeps view_of (get_sft h).
Proof. unfold get_sft. keeps. Qed.
Lemma keeps_get_free_hndl : keeps view_of get_free_hndl.
Proof. unfold get_free_hndl. keeps. Qed.
Lemma keeps_set_fcbname : keeps view_of set_fcbname.
Proof. unfold set_fcbname. keeps. Qed.
Lemma keeps_truename_pri fname mode : keeps view_of (truename_pri fname mode).
Proof. unfold truename_pri. keeps. Qed.
Lemma keeps_truename_sec fname mode : keeps view_of (truename_sec fname mode).
Proof. unfold truename_sec. keeps. Qed.
Lemma keeps_network_redirector cmd arg : keeps view_of (network_redirector cmd arg).
Proof. unfold network_redirector. keeps. Qed.
Lemma keeps_get_free_sft : keeps slots get_free_sft.
Proof. unfold get_free_sft. keeps. Qed.
Lemma keeps_sft_at i : keeps slots (sft_at i).
Proof. unfold sft_at. keeps. Qed.
Lemma keeps_SftSeek2 i pos mode : keeps slots (SftSeek2 i pos mode).
Proof. unfold SftSeek2. keeps. Qed.
#[local] Hint Resolve keeps_SftSeek2 : keeps.
Lemma keeps_DosSeek h pos mode : keeps view_of (DosSeek h pos mode).
Proof. unfold DosSeek. keeps. Qed.

(** ** Counting up and down *)

Definition moved (d i : Z) (l l' : list (Z * Z * Z)) : Prop :=
  exists c m p, 0 <= i /\ l !! Z.to_nat i = Some (c, m, p) /\ l' = <[Z.to_nat i := (s16 (c + d), m, p)]> l.

Lemma sftmod_slots i g s u s' c m p c' :
  0 <= i -> slots s !! Z.to_nat i = Some (c, m, p) -> sftmod i g s = Some (u, s') ->
  (forall f, slot f = (c, m, p) -> slot (g f) = c') -> slots s' = <[Z.to_nat i := c']> (slots s).
Proof.
  intros Hi Hl [= _ <-] Hg. unfold slots, slots_of in Hl. rewrite list_lookup_fmap in Hl.
  destruct (concat _ !! _) as [f|] eqn:Ef; [|done]. apply (inj Some) in Hl.
  change (slots_of (sft_upd (sfthead (fs s)) i g) = <[Z.to_nat i := c']> (slots_of (sfthead (fs s)))).
  rewrite (slots_upd _ _ _ _ Hi Ef). by rewrite (Hg f Hl).
Qed.

Lemma count_moved d i s u s' c m p :
  0 <= i -> slots s !! Z.to_nat i = Some (c, m, p) ->
  sftmod i (fun f => set_sft_count (s16 (sft_count f + d)) f) s = Some (u, s') -> moved d i (slots s) (slots s').
Proof.
  intros Hi Hl H. exists c, m, p. split; [done|]. split; [done|].
  eapply sftmod_slots; [done..|]. intros f [= <- <- <-]. done.
Qed.

(** What INT 2Fh, function 1106h does with the entry: it counts down, unless it
    fails. *)
Definition redirector_closes : Prop := forall f w rc f' w',
  redirector_sft false f w = (rc, f', w') ->
  slot f' = (s16 (sft_count f - 1), sft_mode f, sft_psp f) \/ slot f' = slot f /\ rc <> SUCCESS.

(** Closing an entry in use counts it down; when that fails it may not. *)
Lemma DosCloseSft_slots i s rc s' f :
  redirector_closes -> idx_to_sft (sfthead (fs s)) i = Some f -> DosCloseSft i false s = Some (rc, s') ->
  moved (-1) i (slots s) (slots s') \/ slots s' = slots s /\ rc <> SUCCESS.
Proof.
  intros Hr Hf. destruct (idx_slots _ _ _ Hf) as (Hi & Hl & Hc).
  unfold DosCloseSft. rewrite run_get, Hf.
  assert (Hdown : forall s1 u s2, slots s1 = slots s -> count_down i s1 = Some (u, s2) ->
    moved (-1) i (slots s) (slots s2)).
  { intros s1 u s2 E H. rewrite <- E. eapply (count_moved (-1)); [done| |exact H]. rewrite E. exact Hl. }
  destruct (has (sft_flags f) SFT_FSHARED).
  { destruct (redirector_sft false f (dev s)) as [[rc' f'] w] eqn:Er. intros H.
    kinv H u s1 E1. injection E1 as _ <-. kinv H u2 s2 E2. injection H as <- <-.
    rewrite (sftmod_slots i _ (set_dev w s) _ _ _ _ _ (slot f') Hi Hl E2) by done.
    destruct (Hr _ _ _ _ _ Er) as [-> | [-> Hne]].
    - left. by exists (sft_count f), (sft_mode f), (sft_psp f).
    - right. split; [|done]. by apply list_insert_id. }
  destruct (has (sft_flags f) SFT_FDEVICE).
  { intros H. kinv H attr s1 E1. apply opt_inv in E1 as [_ ->]. kinv H rc0 s1 E1. kept slots E1 K1.
    destruct (negb _); [injection H as <- <-; right|cbn [negb] in H; kinv H u s2 E2; injection H as <- <-].
    - split; [done|]. unfold DE_INVLDHNDL, SUCCESS. lia.
    - left. by eapply Hdown. }
  intros H. kinv H rc0 s1 E1. kept slots E1 K1.
  cbn [orb] in H. destruct (negb (rc0 =? SUCCESS)) eqn:Erc.
  { injection H as <- <-. right. split; [done|]. by zbool. }
  kinv H f2 s2 E2. kept slots E2 K2. kinv H sh s3 E3. kept slots E3 K3. kinv H u s4 E4. kept slots E4 K4.
  kinv H u2 s5 E5. injection H as <- <-. left. eapply Hdown; [|exact E5]. congruence.
Qed.

(** ** The table of the current process *)

Definition cur_table (s : hst) (p : psp) (l : list Z) : Prop :=
  psps s !! cu_psp_of s = Some p /\ jfts s !! ps_filetab p = Some l.

Lemma cur_psp_inv s p s' : cur_psp s = Some (p, s') -> s' = s /\ psps s !! cu_psp_of s = Some p.
Proof. unfold cur_psp, psp_at. rewrite run_get, run_get. intros [H ->]%opt_inv. done. Qed.

Lemma filetab_inv p i s v s' :
  filetab p i s = Some (v, s') -> s' = s /\ 0 <= i /\ exists l, jfts s !! ps_filetab p = Some l /\ l !! Z.to_nat i = Some v.
Proof.
  unfold filetab. rewrite run_get. intros H. kinv H l s1 E. apply opt_inv in E as [El ->].
  apply opt_inv in H as [H ->]. unfold fgetbyte in H. destruct (i <? 0) eqn:E0; [done|]. zbool. eauto 6.
Qed.

Lemma set_filetab_inv p i v s u s' :
  set_filetab p i v s = Some (u, s') ->
  0 <= i /\ exists l, jfts s !! ps_filetab p = Some l /\ (Z.to_nat i < length l)%nat /\
    s' = set_jfts (<[ps_filetab p := <[Z.to_nat i := u8 v]> l]> (jfts s)) s.
Proof.
  unfold set_filetab. rewrite run_get. intros H. kinv H l s1 E. apply opt_inv in E as [El ->].
  kinv H l' s1 E. apply opt_inv in E as [El' ->]. injection H as _ <-.
  unfold fputbyte in El'. destruct (_ && _) eqn:E0; [|done]. apply andb_true_iff in E0 as [E1 E2]. zbool.
  injection El' as <-. split; [done|]. exists l. split; [done|]. split; [lia|done].
Qed.

Lemma get_sft_idx_inv h s i s' :
  get_sft_idx h s = Some (i, s') -> s' = s /\ exists p, psps s !! cu_psp_of s = Some p /\
    (i = DE_INVLDHNDL \/
     0 <= h < ps_maxfiles p /\ i <> 0xff /\ exists l, cur_table s p l /\ l !! Z.to_nat h = Some i).
Proof.
  unfold get_sft_idx. intros H. kinv H p s1 E. apply cur_psp_inv in E as [-> Hp].
  destruct (_ <=? h) eqn:Eh.
  { injection H as <- <-. split; [done|]. exists p. split; [done|by left]. }
  kinv H v s1 E. apply filetab_inv in E as (-> & Hh & l & Hl & Hv). injection H as <- <-.
  split; [done|]. exists p. split; [done|]. destruct (v =? 0xff) eqn:Ev; zbool; [by left|right].
  split; [lia|]. split; [done|]. by exists l.
Qed.

Lemma in_use_inv i s f s' :
  in_use i s = Some (f, s') -> s' = s /\ f = idx_to_sft (sfthead (fs (kern (pth s)))) i.
Proof. unfold in_use. rewrite run_get. by intros [= <- <-]. Qed.

Lemma on_kern_inv {A} (m : K kst A) s a s' :
  on_kern m s = Some (a, s') -> exists k, m (kern (pth s)) = Some (a, k) /\ s' = set_pth (set_kern k (pth s)) s.
Proof.
  unfold on_kern, on_pth, lift. destruct (m _) as [[b k]|]; [|done]. intros [= <- <-]. eauto.
Qed.

(** A handle whose entry is in use. *)
Lemma get_sft_inv h s r s' :
  get_sft h s = Some (r, s') -> s' = s /\
  match r with
  | None => True
  | Some (i, f) => exists p l, 0 <= h < ps_maxfiles p /\ i <> 0xff /\ cur_table s p l /\
                     l !! Z.to_nat h = Some i /\ idx_to_sft (sfthead (fs (kern (pth s)))) i = Some f
  end.
Proof.
  unfold get_sft. intros H. kinv H i s1 E. apply get_sft_idx_inv in E as (-> & p & Hp & Hi).
  kinv H f s1 E. apply in_use_inv in E as [-> Ef]. injection H as <- <-. split; [done|].
  destruct f as [f|]; cbn; [|done]. destruct Hi as [-> | (Hh & Hne & l & Hl & Hv)].
  - by change (Some f = None) in Ef.
  - exists p, l. do 4 (split; [done|]). done.
Qed.

(** Closing: the handle is free again, and the entry is counted down unless
    that fails. *)
Lemma DosClose_view h s rc s' :
  redirector_closes -> DosClose h s = Some (rc, s') ->
  view_of s' = view_of s /\ rc = DE_INVLDHNDL \/
  exists p l i, 0 <= h < ps_maxfiles p /\ i <> 0xff /\ cur_table s p l /\ l !! Z.to_nat h = Some i /\
    psps s' = psps s /\ cu_psp_of s' = cu_psp_of s /\
    jfts s' = <[ps_filetab p := <[Z.to_nat h := 0xff]> l]> (jfts s) /\
    (moved (-1) i (slots (kern (pth s))) (slots (kern (pth s'))) \/
     slots (kern (pth s')) = slots (kern (pth s)) /\ rc <> SUCCESS).
Proof.
  intros Hr. unfold DosClose. intros H. kinv H i s1 E. apply get_sft_idx_inv in E as (-> & p & Hp & Hi).
  kinv H f s1 E. apply in_use_inv in E as [-> Ef].
  destruct f as [f|]; [|injection H as <- <-; by left]. right. symmetry in Ef.
  destruct Hi as [-> | (Hh & Hne & l & [Hp' Hl] & Hv)]; [by change (None = Some f) in Ef|].
  kinv H p' s1 E. apply cur_psp_inv in E as [-> Hp'']. assert (p' = p) as -> by congruence.
  kinv H u s1 E. apply set_filetab_inv in E as (_ & l' & Hl' & Hlen & ->).
  assert (l' = l) as -> by congruence. apply on_kern_inv in H as (k & H & ->).
  destruct (DosCloseSft_slots i _ rc k f Hr Ef H) as [Hs|[Hs Hrc]];
    exists p, l, i; (split; [done|]); (split; [done|]); (split; [done|]); (split; [done|]);
    do 3 (split; [done|]); [by left|by right].
Qed.
End View.

#[export] Hint Resolve keeps_on_pth keeps_on_kern keeps_kworld keeps_cur_psp keeps_filetab keeps_in_use
  keeps_get_sft_idx keeps_get_sft keeps_get_free_hndl keeps_set_fcbname keeps_truename_pri
  keeps_truename_sec keeps_network_redirector keeps_get_free_sft keeps_sft_at keeps_SftSeek2 keeps_DosSeek : keeps.

End HandleSpec.
