(* ===== verification/HandleInv.v ===== *)
(** * The invariant of handles

    A handle that is not free refers to an entry that is in use, and the count
    of an entry is at least the number of handles, of all processes, that refer
    to it.  This file is about the view: tables of bytes and counts.  The second
    module, HandleOps, proves that every operation on handles keeps it. *)

From S2P Require Import Prelude KState FatFile Frame Path Handle HandleSpec.
Import Ks File Frame Path Handle HandleSpec.

Module HandleInv.

(** ** Occurrences *)

Definition eq1 (a b : Z) : Z := if a =? b then 1 else 0.
Fixpoint occ (i : Z) (l : list Z) : Z := match l with [] => 0 | x :: l => eq1 x i + occ i l end.

Lemma eq1_range a b : 0 <= eq1 a b <= 1.
Proof. unfold eq1. destruct (_ =? _); lia. Qed.
Lemma eq1_refl a : eq1 a a = 1.
Proof. unfold eq1. by rewrite Z.eqb_refl. Qed.
Lemma eq1_ne a b : a <> b -> eq1 a b = 0.
Proof. intros H. unfold eq1. by rewrite (proj2 (Z.eqb_neq _ _) H). Qed.
Lemma occ_nonneg i l : 0 <= occ i l.
Proof. induction l as [|x l IH]; cbn; [lia|]. pose proof (eq1_range x i). lia. Qed.
Lemma occ_app i l1 l2 : occ i (l1 ++ l2) = occ i l1 + occ i l2.
Proof. induction l1 as [|x l IH]; cbn; [done|]. rewrite IH. lia. Qed.
Lemma occ_replicate i n x : x <> i -> occ i (replicate n x) = 0.
Proof. intros H. induction n as [|n IH]; cbn; [done|]. rewrite eq1_ne by done. lia. Qed.
Lemma occ_insert i l h old new :
  l !! h = Some old -> occ i (<[h := new]> l) = occ i l - eq1 old i + eq1 new i.
Proof.
  revert h. induction l as [|x l IH]; intros h Hh; [done|]. destruct h as [|h]; cbn in *.
  - injection Hh as ->. change (occ i (new :: l) = eq1 old i + occ i l - eq1 old i + eq1 new i). cbn. lia.
  - change (occ i (x :: <[h := new]> l) = eq1 x i + occ i l - eq1 old i + eq1 new i). cbn.
    rewrite (IH h Hh). lia.
Qed.
Lemma occ_take_le i n l : occ i (take n l) <= occ i l.
Proof.
  rewrite <- (take_drop n l) at 2. rewrite occ_app. pose proof (occ_nonneg i (drop n l)). lia.
Qed.
Lemma occ_pos i l h : l !! h = Some i -> 1 <= occ i l.
Proof.
  revert h. induction l as [|x l IH]; intros h Hh; [done|]. destruct h as [|h]; cbn in *.
  - injection Hh as ->. rewrite eq1_refl. pose proof (occ_nonneg i l). lia.
  - pose proof (IH h Hh). pose proof (eq1_range x i). lia.
Qed.

(** ** Sums over a map *)

Section Sum.
Context {A : Type}.
Implicit Types (m : gmap Z A) (f g : A -> Z).

Definition msum f m : Z := map_fold (fun _ p n => f p + n) 0 m.

Lemma msum_insert f m k p : m !! k = None -> msum f (<[k := p]> m) = f p + msum f m.
Proof. intros H. unfold msum. rewrite map_fold_insert_L; [done| |done]. intros. lia. Qed.
Lemma msum_delete f m k p : m !! k = Some p -> msum f m = f p + msum f (delete k m).
Proof. intros H. unfold msum. rewrite (map_fold_delete_L _ _ k p); [done| |done]. intros. lia. Qed.
Lemma msum_ext f g m : (forall k p, m !! k = Some p -> f p = g p) -> msum f m = msum g m.
Proof.
  induction m as [|k p m Hk IH] using map_ind; intros H; [done|].
  rewrite !msum_insert by done. rewrite (H k p) by apply lookup_insert_eq. f_equal. apply IH.
  intros k' p' Hp'. apply (H k'). rewrite lookup_insert_ne by congruence. done.
Qed.
Lemma msum_nonneg f m : (forall p, 0 <= f p) -> 0 <= msum f m.
Proof.
  intros H. induction m as [|k p m Hk IH] using map_ind; [done|].
  rewrite msum_insert by done. pose proof (H p). lia.
Qed.
(** One summand is replaced. *)
Lemma msum_replace f g m k p p' :
  m !! k = Some p -> (forall k' q, k' <> k -> m !! k' = Some q -> f q = g q) ->
  msum g (<[k := p']> m) = msum f m - f p + g p'.
Proof.
  intros Hk H. rewrite <- insert_delete_eq, msum_insert by apply lookup_delete_eq.
  rewrite (msum_delete f m k p Hk), (msum_ext g f (delete k m)); [lia|].
  intros k' q Hq. apply lookup_delete_Some in Hq as [Hne Hq]. by rewrite (H k').
Qed.
Lemma msum_ge f m k p : (forall q, 0 <= f q) -> m !! k = Some p -> f p <= msum f m.
Proof. intros H Hk. rewrite (msum_delete f m k p Hk). pose proof (msum_nonneg f (delete k m) H). lia. Qed.
End Sum.

(** ** The invariant *)

Definition table (jfts : gmap Z (list Z)) (p : psp) : list Z :=
  take (Z.to_nat (ps_maxfiles p)) (default [] (jfts !! ps_filetab p)).
(** The handles that refer to entry [i]. *)
Definition refs (v : view) (i : Z) : Z := msum (fun p => occ i (table (v_jfts v) p)) (v_psps v).
Definition count_at (v : view) (i : Z) : Z := default 0 (fst ∘ fst <$> v_slots v !! Z.to_nat i).

Record handles_ok (v : view) : Prop := HandlesOk {
  ho_cur : is_Some (v_psps v !! v_cu v);
  ho_tab : forall q p, v_psps v !! q = Some p -> 0 <= ps_maxfiles p /\
             exists l, v_jfts v !! ps_filetab p = Some l /\ ps_maxfiles p <= Z.of_nat (length l) /\ Forall byte l;
  ho_own : forall q1 q2 p1 p2, v_psps v !! q1 = Some p1 -> v_psps v !! q2 = Some p2 ->
             ps_filetab p1 = ps_filetab p2 -> q1 = q2;
  ho_entries : (length (v_slots v) <= 255)%nat;
  ho_count : forall i, 0 <= i < 255 -> refs v i <= count_at v i;
  ho_range : forall i c m p, v_slots v !! i = Some (c, m, p) -> 0 <= c < 32768;
  ho_fcb : forall i c m p, 0 <= i -> v_slots v !! Z.to_nat i = Some (c, m, p) -> has m O_FCB = true -> refs v i = 0;
  ho_parent : forall q p, v_psps v !! q = Some p -> is_Some (v_psps v !! ps_parent p) }.

Lemma refs_nonneg v i : 0 <= refs v i.
Proof. apply msum_nonneg. intros. apply occ_nonneg. Qed.

Lemma lookup_table jfts p l h :
  jfts !! ps_filetab p = Some l -> 0 <= h < ps_maxfiles p -> table jfts p !! Z.to_nat h = l !! Z.to_nat h.
Proof. intros Hl Hh. unfold table. rewrite Hl. cbn. apply lookup_take_lt. lia. Qed.

Lemma refs_pos v q p l h i :
  v_psps v !! q = Some p -> v_jfts v !! ps_filetab p = Some l -> 0 <= h < ps_maxfiles p ->
  l !! Z.to_nat h = Some i -> 1 <= refs v i.
Proof.
  intros Hp Hl Hh Hi. transitivity (occ i (table (v_jfts v) p)).
  - apply (occ_pos _ _ (Z.to_nat h)). by rewrite (lookup_table _ _ l).
  - apply (msum_ge (fun p => occ i (table (v_jfts v) p)) _ q p); [intros; apply occ_nonneg|done].
Qed.

(** One handle of a process changes. *)
Lemma refs_set v v' q p l h old new i :
  handles_ok v -> v_psps v !! q = Some p -> v_jfts v !! ps_filetab p = Some l ->
  0 <= h < ps_maxfiles p -> l !! Z.to_nat h = Some old ->
  v_psps v' = v_psps v -> v_jfts v' = <[ps_filetab p := <[Z.to_nat h := new]> l]> (v_jfts v) ->
  refs v' i = refs v i - eq1 old i + eq1 new i.
Proof.
  intros Hok Hp Hl Hh Ho Ep Ej. unfold refs. rewrite Ep, Ej.
  set (j' := <[ps_filetab p := _]> (v_jfts v)).
  assert (Hself : occ i (table j' p) = occ i (table (v_jfts v) p) - eq1 old i + eq1 new i).
  { unfold table, j'. rewrite lookup_insert_eq, Hl. cbn [default from_option id]. unfold id.
    rewrite take_insert_lt by lia. apply occ_insert. rewrite lookup_take_lt by lia. done. }
  rewrite <- (insert_id (v_psps v) q p Hp) at 1.
  rewrite (msum_replace (fun p => occ i (table (v_jfts v) p)) _ _ q p p Hp); [lia|].
  intros q' p' Hne Hp'. unfold table, j'. rewrite lookup_insert_ne; [done|].
  intros E. apply Hne. by eapply (ho_own _ Hok).
Qed.

(** A byte behind the handles of a process changes. *)
Lemma refs_set_outside v v' q p l h new i :
  handles_ok v -> v_psps v !! q = Some p -> v_jfts v !! ps_filetab p = Some l -> ps_maxfiles p <= h ->
  v_psps v' = v_psps v -> v_jfts v' = <[ps_filetab p := <[Z.to_nat h := new]> l]> (v_jfts v) ->
  refs v' i = refs v i.
Proof.
  intros Hok Hp Hl Hh Ep Ej. unfold refs. rewrite Ep, Ej. apply msum_ext. intros q' p' Hp'.
  destruct (decide (q' = q)) as [->|Hne].
  - assert (p' = p) as -> by congruence. unfold table. rewrite lookup_insert_eq, Hl.
    cbn [default from_option id]. unfold id. by rewrite take_insert_ge by lia.
  - unfold table. rewrite lookup_insert_ne; [done|]. intros E. apply Hne. by eapply (ho_own _ Hok).
Qed.

(** The invariant over one change of a byte, when the counts follow. *)
Lemma ok_set v v' q p l h new :
  handles_ok v -> v_psps v !! q = Some p -> v_jfts v !! ps_filetab p = Some l -> byte new ->
  v_psps v' = v_psps v -> v_cu v' = v_cu v ->
  v_jfts v' = <[ps_filetab p := <[Z.to_nat h := new]> l]> (v_jfts v) ->
  length (v_slots v') = length (v_slots v) ->
  (forall i, 0 <= i < 255 -> refs v' i <= count_at v' i) ->
  (forall i c m p, v_slots v' !! i = Some (c, m, p) -> 0 <= c < 32768) ->
  (forall i c m p, 0 <= i -> v_slots v' !! Z.to_nat i = Some (c, m, p) -> has m O_FCB = true -> refs v' i = 0) ->
  handles_ok v'.
Proof.
  intros Hok Hp Hl Hn Ep Ec Ej Elen Hcnt Hrange Hfcb. split; try done.
  - rewrite Ep, Ec. apply (ho_cur _ Hok).
  - rewrite Ep, Ej. intros q' p' Hp'. destruct (ho_tab _ Hok _ _ Hp') as (Hm & l' & Hl' & Hlen & Hb).
    split; [done|]. destruct (decide (ps_filetab p' = ps_filetab p)) as [E|Hne].
    + exists (<[Z.to_nat h := new]> l). rewrite E, lookup_insert_eq. split; [done|]. rewrite length_insert.
      assert (l' = l) as -> by congruence. split; [done|]. by apply Forall_insert.
    + exists l'. by rewrite lookup_insert_ne.
  - rewrite Ep. apply (ho_own _ Hok).
  - rewrite Elen. apply (ho_entries _ Hok).
  - rewrite Ep. apply (ho_parent _ Hok).
Qed.

(** ** Counts *)

Lemma s16_small x : -32768 <= x < 32768 -> s16 x = x.
Proof. intros H. unfold s16. rewrite Z.mod_small; lia. Qed.

Lemma moved_length d i l l' : moved d i l l' -> length l' = length l.
Proof. intros (c & m & p & _ & _ & ->). apply length_insert. Qed.

Lemma moved_count d v v' i j :
  (forall c m p, v_slots v !! Z.to_nat j = Some (c, m, p) -> -32768 <= c + d < 32768) ->
  moved d j (v_slots v) (v_slots v') -> 0 <= i -> count_at v' i = count_at v i + eq1 i j * d.
Proof.
  intros Hr (c & m & p & Hj & Hl & E) Hi. unfold count_at. rewrite E.
  destruct (decide (i = j)) as [->|Hne].
  - rewrite list_lookup_insert_eq by (by eapply lookup_lt_Some). rewrite Hl, eq1_refl. cbn.
    rewrite s16_small by (by eapply Hr). lia.
  - rewrite list_lookup_insert_ne, eq1_ne by lia. lia.
Qed.

Lemma moved_range d j v v' :
  (forall c m p, v_slots v !! Z.to_nat j = Some (c, m, p) -> 0 <= c + d < 32768) ->
  moved d j (v_slots v) (v_slots v') ->
  (forall i c m p, v_slots v !! i = Some (c, m, p) -> 0 <= c < 32768) ->
  forall i c m p, v_slots v' !! i = Some (c, m, p) -> 0 <= c < 32768.
Proof.
  intros Hr (c & m & p & Hj & Hl & E) Hv i c' m' p' H. rewrite E in H.
  destruct (decide (i = Z.to_nat j)) as [->|Hne].
  - rewrite list_lookup_insert_eq in H by (by eapply lookup_lt_Some). injection H as <- <- <-.
    pose proof (Hr _ _ _ Hl). rewrite s16_small; lia.
  - rewrite list_lookup_insert_ne in H by done. by eapply Hv.
Qed.

Lemma count_at_slot v i c m p : v_slots v !! Z.to_nat i = Some (c, m, p) -> count_at v i = c.
Proof. intros H. unfold count_at. by rewrite H. Qed.

(** The entry of a handle. *)
Lemma handle_entry v q p l h i :
  handles_ok v -> v_psps v !! q = Some p -> v_jfts v !! ps_filetab p = Some l -> 0 <= h < ps_maxfiles p ->
  l !! Z.to_nat h = Some i -> i <> 0xff ->
  0 <= i < 255 /\ exists c m o, v_slots v !! Z.to_nat i = Some (c, m, o) /\ refs v i <= c /\ 1 <= refs v i.
Proof.
  intros Hok Hp Hl Hh Hi Hne.
  destruct (ho_tab _ Hok _ _ Hp) as (_ & l' & Hl' & _ & Hb). assert (l' = l) as -> by congruence.
  pose proof (proj1 (Forall_lookup _ _) Hb _ _ Hi) as Hbi. unfold byte in Hbi.
  assert (Hr : 0 <= i < 255) by lia. split; [done|].
  pose proof (refs_pos v q p l h i Hp Hl Hh Hi) as Hpos. pose proof (ho_count _ Hok i Hr) as Hc.
  unfold count_at in Hc. destruct (v_slots v !! Z.to_nat i) as [[[c m] o]|]; cbn in Hc; [|lia].
  by exists c, m, o.
Qed.
End HandleInv.

(** * The handle operations keep the invariant *)

From S2P Require Import Prelude Memmgr KState BlockIO FatTab FNode FatAlloc Clock Media FatDir FatFile.
From S2P Require Import Frame Path Handle HandleSpec.
Import Mm Ks Bio Fat FNode Alloc Clk Media Dir File Frame Path Handle HandleSpec HandleInv.

Module HandleOps.

(** The mode of an entry that is counted stays. *)
Lemma moved_mode d j l l' i c m p :
  moved d j l l' -> l' !! i = Some (c, m, p) -> exists c0, l !! i = Some (c0, m, p).
Proof.
  intros (c1 & m1 & p1 & Hj & Hl & ->) H. destruct (decide (i = Z.to_nat j)) as [->|Hne].
  - rewrite list_lookup_insert_eq in H by (by eapply lookup_lt_Some). injection H as <- <- <-. eauto.
  - rewrite list_lookup_insert_ne in H by done. eauto.
Qed.

(** Only counts change. *)
Lemma ok_moved v v' d j :
  handles_ok v -> v_psps v' = v_psps v -> v_jfts v' = v_jfts v -> v_cu v' = v_cu v ->
  moved d j (v_slots v) (v_slots v') ->
  (forall c m p, v_slots v !! Z.to_nat j = Some (c, m, p) -> 0 <= c + d < 32768 /\ refs v j <= c + d) ->
  handles_ok v'.
Proof.
  intros Hok Ep Ej Ec Hm Hr.
  assert (Eref : forall i, refs v' i = refs v i) by (intros i; unfold refs; by rewrite Ep, Ej).
  split.
  - rewrite Ep, Ec. apply (ho_cur _ Hok).
  - rewrite Ep, Ej. apply (ho_tab _ Hok).
  - rewrite Ep. apply (ho_own _ Hok).
  - rewrite (moved_length _ _ _ _ Hm). apply (ho_entries _ Hok).
  - intros i Hi. rewrite Eref, (moved_count d v v' i j); [|intros c m p H; destruct (Hr c m p H); lia|done|lia].
    pose proof (ho_count _ Hok i Hi). destruct (decide (i = j)) as [->|Hne].
    + rewrite eq1_refl. destruct Hm as (c & m & p & Hj & Hl & _). rewrite (count_at_slot _ _ _ _ _ Hl).
      destruct (Hr _ _ _ Hl). lia.
    + rewrite eq1_ne by done. lia.
  - eapply (moved_range d j v v'); [|done|apply (ho_range _ Hok)]. intros c m p H. by destruct (Hr c m p H).
  - intros i c m p Hi H Hf. rewrite Eref. destruct (moved_mode _ _ _ _ _ _ _ _ Hm H) as [c0 H0].
    by eapply (ho_fcb _ Hok).
  - rewrite Ep. apply (ho_parent _ Hok).
Qed.

(** A count goes down, or the operation that should do it failed. *)
Definition lowered (j : Z) (l l' : list (Z * Z * Z)) : Prop := moved (-1) j l l' \/ l' = l.

Lemma lowered_length j l l' : lowered j l l' -> length l' = length l.
Proof. intros [H | ->]; [by eapply moved_length|done]. Qed.
Lemma lowered_mode j l l' i c m p :
  lowered j l l' -> l' !! i = Some (c, m, p) -> exists c0, l !! i = Some (c0, m, p).
Proof. intros [H | ->]; [by eapply moved_mode|eauto]. Qed.
Lemma lowered_count v v' i j c m p :
  lowered j (v_slots v) (v_slots v') -> v_slots v !! Z.to_nat j = Some (c, m, p) -> 1 <= c < 32768 -> 0 <= i ->
  count_at v i - eq1 j i <= count_at v' i.
Proof.
  intros [Hm|E] Hl Hc Hi.
  - rewrite (moved_count (-1) v v' i j); [|intros ? ? ? E; rewrite Hl in E; injection E as <- _ _; lia|done|done].
    unfold eq1. rewrite (Z.eqb_sym i j). lia.
  - unfold count_at. rewrite E. pose proof (eq1_range j i). lia.
Qed.
Lemma lowered_range v v' j c m p :
  handles_ok v -> lowered j (v_slots v) (v_slots v') -> v_slots v !! Z.to_nat j = Some (c, m, p) -> 1 <= c ->
  forall i c m p, v_slots v' !! i = Some (c, m, p) -> 0 <= c < 32768.
Proof.
  intros Hok [Hm|E] Hl Hc.
  - eapply (moved_range (-1) j v); [|done|apply (ho_range _ Hok)].
    intros ? ? ? E. rewrite Hl in E. injection E as <- _ _. pose proof (ho_range _ Hok _ _ _ _ Hl). lia.
  - rewrite E. apply (ho_range _ Hok).
Qed.

(** A handle becomes free, and the count of its entry goes down by at most one. *)
Lemma ok_release v v' q p l h i :
  handles_ok v -> v_psps v !! q = Some p -> v_jfts v !! ps_filetab p = Some l -> 0 <= h < ps_maxfiles p ->
  l !! Z.to_nat h = Some i -> i <> 0xff -> v_psps v' = v_psps v -> v_cu v' = v_cu v ->
  v_jfts v' = <[ps_filetab p := <[Z.to_nat h := 0xff]> l]> (v_jfts v) ->
  lowered i (v_slots v) (v_slots v') -> handles_ok v'.
Proof.
  intros Hok Hp Hl Hh Hi Hne Ep Ec Ej Hs.
  destruct (handle_entry v q p l h i Hok Hp Hl Hh Hi Hne) as (Hr & c & m & o & Hslot & Hle & Hpos).
  pose proof (ho_range _ Hok _ _ _ _ Hslot) as Hcr.
  assert (Hset : forall j, j < 255 -> refs v' j = refs v j - eq1 i j).
  { intros j Hj. rewrite (refs_set v v' q p l h i 0xff j) by done. rewrite (eq1_ne 0xff j) by lia. lia. }
  eapply (ok_set v v' q p l h 0xff); try done.
  - by eapply lowered_length.
  - intros j Hj. rewrite Hset by lia. pose proof (ho_count _ Hok j Hj).
    pose proof (lowered_count v v' j i c m o Hs Hslot ltac:(lia) ltac:(lia)). lia.
  - eapply (lowered_range v v'); [done..|lia].
  - intros j c' m' p' Hj Hl' Hf. destruct (lowered_mode _ _ _ _ _ _ _ Hs Hl') as [c0 H0].
    assert (Hj' : j < 255).
    { apply lookup_lt_Some in H0. pose proof (ho_entries _ Hok). lia. }
    rewrite Hset by done. rewrite (ho_fcb _ Hok j c0 m' p' Hj H0 Hf).
    destruct (decide (i = j)) as [->|]; [|by rewrite eq1_ne].
    rewrite (ho_fcb _ Hok j c0 m' p' Hj H0 Hf) in Hpos. lia.
Qed.

(** A free handle of a process, or a byte behind the handles, gets an entry
    that is counted often enough. *)
Lemma ok_fill v v' q p l h i c m o :
  handles_ok v -> v_psps v !! q = Some p -> v_jfts v !! ps_filetab p = Some l -> 0 <= h ->
  l !! Z.to_nat h = Some 0xff -> 0 <= i < 255 -> v_slots v !! Z.to_nat i = Some (c, m, o) ->
  refs v i + 1 <= c -> has m O_FCB = false -> v_psps v' = v_psps v -> v_cu v' = v_cu v ->
  v_jfts v' = <[ps_filetab p := <[Z.to_nat h := i]> l]> (v_jfts v) -> v_slots v' = v_slots v -> handles_ok v'.
Proof.
  intros Hok Hp Hl Hh Hi Hir Hslot Hc Hfm Ep Ec Ej Es.
  assert (Hset : forall j, j < 255 -> refs v j <= refs v' j <= refs v j + eq1 i j).
  { intros j Hj. pose proof (eq1_range i j). destruct (decide (h < ps_maxfiles p)).
    - rewrite (refs_set v v' q p l h 0xff i j) by (done || lia). rewrite (eq1_ne 0xff j) by lia. lia.
    - rewrite (refs_set_outside v v' q p l h i j) by (done || lia). lia. }
  eapply (ok_set v v' q p l h i); try done.
  - unfold byte; lia.
  - by rewrite Es.
  - intros j Hj. pose proof (ho_count _ Hok j Hj) as H0. pose proof (Hset j ltac:(lia)) as H1.
    unfold count_at in *. rewrite Es. destruct (decide (i = j)) as [->|Hne].
    + rewrite eq1_refl in H1. rewrite Hslot. cbn. lia.
    + rewrite eq1_ne in H1 by done. lia.
  - rewrite Es. apply (ho_range _ Hok).
  - rewrite Es. intros j c' m' p' Hj Hl' Hf.
    assert (Hj' : j < 255) by (apply lookup_lt_Some in Hl'; pose proof (ho_entries _ Hok); lia).
    pose proof (Hset j Hj') as Hs. rewrite (ho_fcb _ Hok j c' m' p' Hj Hl' Hf) in Hs.
    destruct (decide (i = j)) as [->|Hne]; [congruence|]. rewrite (eq1_ne i j) in Hs by done. lia.
Qed.

(** It is counted up for that. *)
Lemma ok_add v v' q p l h i c m o :
  handles_ok v -> v_psps v !! q = Some p -> v_jfts v !! ps_filetab p = Some l -> 0 <= h ->
  l !! Z.to_nat h = Some 0xff -> 0 <= i < 255 -> v_slots v !! Z.to_nat i = Some (c, m, o) ->
  c + 1 < 32768 -> has m O_FCB = false -> v_psps v' = v_psps v -> v_cu v' = v_cu v ->
  v_jfts v' = <[ps_filetab p := <[Z.to_nat h := i]> l]> (v_jfts v) ->
  moved 1 i (v_slots v) (v_slots v') -> handles_ok v'.
Proof.
  intros Hok Hp Hl Hh Hi Hir Hslot Hc Hfm Ep Ec Ej Hm.
  pose proof (ho_range _ Hok _ _ _ _ Hslot) as Hcr. pose proof (ho_count _ Hok i Hir) as Hle.
  rewrite (count_at_slot _ _ _ _ _ Hslot) in Hle. set (w := View (v_slots v') (v_psps v) (v_jfts v) (v_cu v)).
  assert (Hw : handles_ok w).
  { eapply (ok_moved v w 1 i Hok); try done. intros ? ? ? E. rewrite Hslot in E. injection E as <- _ _. lia. }
  eapply (ok_fill w v' q p l h i (c + 1) m o Hw); try done.
  - destruct Hm as (c' & m' & o' & _ & Hl' & E). rewrite Hslot in Hl'. injection Hl' as <- <- <-. cbn.
    rewrite E, list_lookup_insert_eq by (by eapply lookup_lt_Some). by rewrite s16_small by lia.
  - change (refs w i) with (refs v i). lia.
Qed.

(** An entry that is in no table is set. *)
Lemma ok_entry v v' j c m o c' m' o' :
  handles_ok v -> v_psps v' = v_psps v -> v_jfts v' = v_jfts v -> v_cu v' = v_cu v ->
  0 <= j < 255 -> v_slots v !! Z.to_nat j = Some (c, m, o) -> refs v j = 0 -> 0 <= c' < 32768 ->
  v_slots v' = <[Z.to_nat j := (c', m', o')]> (v_slots v) -> handles_ok v'.
Proof.
  intros Hok Ep Ej Ec Hj Hl H0 Hc Es.
  assert (Eref : forall i, refs v' i = refs v i) by (intros i; unfold refs; by rewrite Ep, Ej).
  assert (Hlk : forall i, i <> Z.to_nat j -> v_slots v' !! i = v_slots v !! i)
    by (intros i Hi; by rewrite Es, list_lookup_insert_ne by congruence).
  assert (Hself : v_slots v' !! Z.to_nat j = Some (c', m', o'))
    by (rewrite Es; apply list_lookup_insert_eq; by eapply lookup_lt_Some).
  split.
  - rewrite Ep, Ec. apply (ho_cur _ Hok).
  - rewrite Ep, Ej. apply (ho_tab _ Hok).
  - rewrite Ep. apply (ho_own _ Hok).
  - rewrite Es, length_insert. apply (ho_entries _ Hok).
  - intros i Hi. rewrite Eref. destruct (decide (i = j)) as [->|Hne].
    + rewrite (count_at_slot _ _ _ _ _ Hself). lia.
    + unfold count_at. rewrite Hlk by lia. by apply (ho_count _ Hok).
  - intros i c0 m0 p0 H. destruct (decide (i = Z.to_nat j)) as [->|Hne].
    + rewrite Hself in H. by injection H as <- <- <-.
    + rewrite Hlk in H by done. by eapply (ho_range _ Hok).
  - intros i c0 m0 p0 Hi H Hf. rewrite Eref. destruct (decide (i = j)) as [->|Hne]; [done|].
    rewrite Hlk in H by lia. by eapply (ho_fcb _ Hok).
  - rewrite Ep. apply (ho_parent _ Hok).
Qed.

(** A process gets another table, with no more references than before. *)
Lemma ok_replace v v' q p' l' :
  handles_ok v -> v_psps v' = <[q := p']> (v_psps v) -> v_slots v' = v_slots v -> v_cu v' = v_cu v ->
  (forall q0 p0, q0 <> q -> v_psps v !! q0 = Some p0 ->
     v_jfts v' !! ps_filetab p0 = v_jfts v !! ps_filetab p0 /\ ps_filetab p0 <> ps_filetab p') ->
  0 <= ps_maxfiles p' -> v_jfts v' !! ps_filetab p' = Some l' -> ps_maxfiles p' <= Z.of_nat (length l') -> Forall byte l' ->
  is_Some (v_psps v !! ps_parent p') ->
  (forall i, i < 255 -> occ i (table (v_jfts v') p') <=
     match v_psps v !! q with Some p => occ i (table (v_jfts v) p) | None => 0 end) ->
  handles_ok v'.
Proof.
  intros Hok Ep Es Ec Hoth Hm Hl Hlen Hb Hpar Hocc.
  assert (Href : forall i, i < 255 -> refs v' i <= refs v i).
  { intros i Hi. unfold refs. rewrite Ep. specialize (Hocc i Hi).
    assert (Hext : forall q0 p0, q0 <> q -> v_psps v !! q0 = Some p0 ->
      occ i (table (v_jfts v) p0) = occ i (table (v_jfts v') p0)).
    { intros q0 p0 Hne Hp0. unfold table. by rewrite (proj1 (Hoth q0 p0 Hne Hp0)). }
    destruct (v_psps v !! q) as [p|] eqn:Eq.
    - rewrite (msum_replace (fun p => occ i (table (v_jfts v) p)) _ _ q p p' Eq) by done. lia.
    - rewrite msum_insert by done.
      rewrite (msum_ext _ (fun p => occ i (table (v_jfts v) p)) (v_psps v)); [lia|].
      intros q0 p0 Hp0. symmetry. apply (Hext q0); [congruence|done]. }
  split.
  - rewrite Ep, Ec. destruct (decide (v_cu v = q)) as [->|]; [by rewrite lookup_insert_eq|].
    rewrite lookup_insert_ne by done. apply (ho_cur _ Hok).
  - rewrite Ep. intros q0 p0. destruct (decide (q0 = q)) as [->|Hne].
    + rewrite lookup_insert_eq. intros [= <-]. eauto.
    + rewrite lookup_insert_ne by done. intros Hp0. rewrite (proj1 (Hoth q0 p0 Hne Hp0)). by apply (ho_tab _ Hok q0).
  - rewrite Ep. intros q1 q2 p1 p2. destruct (decide (q1 = q)) as [->|H1], (decide (q2 = q)) as [->|H2]; [done|..].
    + rewrite lookup_insert_eq, lookup_insert_ne by done. intros [= <-] Hp2 E. by destruct (Hoth q2 p2 H2 Hp2).
    + rewrite lookup_insert_eq, lookup_insert_ne by done. intros Hp1 [= <-] E. by destruct (Hoth q1 p1 H1 Hp1).
    + rewrite !lookup_insert_ne by done. apply (ho_own _ Hok).
  - rewrite Es. apply (ho_entries _ Hok).
  - intros i Hi. pose proof (Href i ltac:(lia)). pose proof (ho_count _ Hok i Hi). unfold count_at in *. rewrite Es. lia.
  - rewrite Es. apply (ho_range _ Hok).
  - rewrite Es. intros i c m o Hi H Hf.
    assert (Hi' : i < 255) by (apply lookup_lt_Some in H; pose proof (ho_entries _ Hok); lia).
    pose proof (Href i Hi') as Hle. rewrite (ho_fcb _ Hok i c m o Hi H Hf) in Hle.
    pose proof (refs_nonneg v' i). lia.
  - rewrite Ep. intros q0 p0 Hp0. apply lookup_insert_is_Some.
    destruct (decide (q = ps_parent p0)) as [|Hne]; [by left|right]. split; [done|].
    destruct (decide (q0 = q)) as [->|Hne0].
    + rewrite lookup_insert_eq in Hp0. by injection Hp0 as <-.
    + rewrite lookup_insert_ne in Hp0 by done. by apply (ho_parent _ Hok q0).
Qed.

Section Ops.
Context {M : Machine} {Sh : Shell} {R : Redirector}.
Hypothesis Hredir : redirector_closes.

Lemma DosClose_ok h s rc s' :
  handles_ok (view_of s) -> DosClose h s = Some (rc, s') -> handles_ok (view_of s').
Proof.
  intros Hok H. destruct (DosClose_view h s rc s' Hredir H) as [[-> _]|Hc]; [done|].
  destruct Hc as (p & l & i & Hh & Hne & [Hp Hl] & Hi & Ep & Ec & Ej & Hs).
  eapply (ok_release (view_of s) (view_of s')); try done. destruct Hs as [Hm|[E _]]; [by left|by right].
Qed.

(** ** Duplicating *)

(** Every count can go up [k] times. *)
Definition room (k : Z) (s : hst) : Prop :=
  forall i c m p, slots (kern (pth s)) !! i = Some (c, m, p) -> c + k < 32768.

(** An entry in use that a handle refers to was not opened through an FCB. *)
Lemma handle_mode s p l h i f :
  handles_ok (view_of s) -> cur_table s p l -> 0 <= h < ps_maxfiles p -> l !! Z.to_nat h = Some i -> i <> 0xff ->
  idx_to_sft (sfthead (fs (kern (pth s)))) i = Some f ->
  0 <= i < 255 /\ has (sft_mode f) O_FCB = false /\ slots (kern (pth s)) !! Z.to_nat i = Some (slot f).
Proof.
  intros Hok [Hp Hl] Hh Hi Hne Hf.
  destruct (handle_entry (view_of s) _ p l h i Hok Hp Hl Hh Hi Hne) as (Hr & c & m & o & Hs & Hle & Hpos).
  destruct (idx_slots _ _ _ Hf) as (_ & Hl' & _). cbn in Hs. unfold slots in Hs.
  assert (E : slot f = (c, m, o)) by congruence. split; [done|]. split; [|exact Hl'].
  destruct (has (sft_mode f) O_FCB) eqn:Em; [|done].
  pose proof (ho_fcb _ Hok i c m o ltac:(lia) Hs) as H0. injection E as _ <- _. specialize (H0 Em). lia.
Qed.

(** What is left of the table and of the counts when [NewHandle] was closed. *)
Lemma free_new h s ret s1 p l old :
  handles_ok (view_of s) -> room 1 s -> cur_table s p l -> 0 <= h -> l !! Z.to_nat h = Some old ->
  (if negb (old =? 0xff) then DosClose h else kret SUCCESS) s = Some (ret, s1) -> 
  handles_ok (view_of s1) /\ (ret = SUCCESS -> psps s1 = psps s /\ cu_psp_of s1 = cu_psp_of s /\ room 1 s1 /\
    cur_table s1 p (<[Z.to_nat h := 0xff]> l) /\
    forall j c m o, slots (kern (pth s)) !! j = Some (c, m, o) -> exists c', slots (kern (pth s1)) !! j = Some (c', m, o)).
Proof.
  intros Hok Hroom Hcur Hh Hold. destruct (old =? 0xff) eqn:Eo; cbn [negb]; zbool.
  { intros [= <- <-]. split; [done|]. intros _. split; [done|]. split; [done|]. split; [done|]. split; [|eauto].
    rewrite list_insert_id; [done|congruence]. }
  intros H. split; [by eapply DosClose_ok|]. intros ->.
  destruct (DosClose_view h s SUCCESS s1 Hredir H) as [[_ E]|Hc]; [done|].
  destruct Hc as (p' & l' & i & Hr & Hne & [Hp' Hl'] & Hi & Ep & Ec & Ej & [Hm|[_ E]]); [|done].
  destruct Hcur as [Hp Hl]. assert (p' = p) as -> by congruence. assert (l' = l) as -> by congruence.
  split; [done|]. split; [done|].
  destruct (handle_entry (view_of s) _ p l h i Hok Hp Hl Hr Hi Hne) as (Hir & c & m & o & Hs & Hle & Hpos).
  destruct Hm as (c2 & m2 & o2 & _ & Hs2 & Es). cbn in Hs. rewrite Hs in Hs2. injection Hs2 as <- <- <-.
  pose proof (Hroom _ _ _ _ Hs) as Hc. split; [|split].
  - intros j cj mj oj Hj. rewrite Es in Hj. destruct (decide (j = Z.to_nat i)) as [->|Hj'].
    + rewrite list_lookup_insert_eq in Hj by (by eapply lookup_lt_Some). injection Hj as <- _ _.
      rewrite s16_small; lia.
    + rewrite list_lookup_insert_ne in Hj by done. by eapply Hroom.
  - split; [by rewrite Ep, Ec|]. rewrite Ej. apply lookup_insert_eq.
  - intros j cj mj oj Hj. rewrite Es. destruct (decide (j = Z.to_nat i)) as [->|Hj'].
    + rewrite list_lookup_insert_eq by (by eapply lookup_lt_Some). rewrite Hs in Hj. injection Hj as _ <- <-. eauto.
    + rewrite list_lookup_insert_ne by done. eauto.
Qed.

Lemma DosForceDup_ok old new s rc s' :
  handles_ok (view_of s) -> room 1 s -> DosForceDup old new s = Some (rc, s') -> handles_ok (view_of s').
Proof.
  intros Hok Hroom. unfold DosForceDup. intros H. kinv H p s1 E. apply cur_psp_inv in E as [-> Hp].
  kinv H r s1 E. apply get_sft_inv in E as [-> Hr]. destruct r as [[idx f]|]; [|by injection H as <- <-].
  destruct Hr as (p' & l & Ho & Hne & [Hp' Hl] & Hi & Hf). assert (p' = p) as -> by congruence.
  kinv H ov s1 E. apply filetab_inv in E as (-> & Hn & l' & Hl' & Hov). assert (l' = l) as -> by congruence.
  kinv H ret s1 E. destruct (free_new new s ret s1 p l ov Hok Hroom (conj Hp' Hl) Hn Hov E) as [Hok1 Hfree].
  destruct (negb (ret =? SUCCESS)) eqn:Eret; [by injection H as <- <-|]. zbool.
  destruct (Hfree Eret) as (Ep1 & Ec1 & Hroom1 & [Hp1 Hl1] & Hkeep).
  destruct (handle_mode s p l old idx f Hok (conj Hp' Hl) Ho Hi Hne Hf) as (Hir & Hfm & Hs).
  destruct (Hkeep _ _ _ _ Hs) as [c1 Hs1].
  kinv H v s2 E2. apply filetab_inv in E2 as (-> & _ & l2 & Hl2 & Hv). assert (l2 = <[Z.to_nat new := 0xff]> l) as -> by congruence.
  kinv H u s2 E2. apply set_filetab_inv in E2 as (_ & l2 & Hl2' & Hlen & ->).
  assert (l2 = <[Z.to_nat new := 0xff]> l) as -> by congruence.
  kinv H u2 s3 E3. injection H as <- <-. apply on_kern_inv in E3 as (k & E3 & ->).
  assert (Hlt : (Z.to_nat new < length l)%nat) by (by rewrite length_insert in Hlen).
  pose proof (count_moved 1 idx _ _ _ _ _ _ ltac:(lia) Hs1 E3) as Hm.
  destruct (decide (old = new)) as [<-|Hon].
  - rewrite list_lookup_insert_eq in Hv by done. injection Hv as <-.
    eapply (ok_moved (view_of s1) _ 1 idx Hok1); try done; cbn.
    + rewrite list_insert_insert_eq. by apply insert_id.
    + intros c m o Hc. pose proof (Hroom1 _ _ _ _ Hc) as Hc1. pose proof (ho_range _ Hok1 _ _ _ _ Hc).
      pose proof (ho_count _ Hok1 idx Hir) as Hcnt. rewrite (count_at_slot (view_of s1) idx c m o Hc) in Hcnt. lia.
  - rewrite list_lookup_insert_ne in Hv by lia. assert (v = idx) as -> by congruence.
    eapply (ok_add (view_of s1) _ _ p _ new idx c1 (sft_mode f) (sft_psp f) Hok1 Hp1 Hl1 Hn); try done.
    + by apply list_lookup_insert_eq.
    + by eapply Hroom1.
    + cbn. by rewrite u8_small by lia.
Qed.

Lemma memchr_inv l c i n r : memchr l c i n = Some (Some r) -> i <= r < i + Z.of_nat n /\ l !! Z.to_nat (r - i) = Some c.
Proof.
  revert i n. induction l as [|x l IH]; intros i [|n]; cbn; try done.
  destruct (x =? c) eqn:E; zbool.
  - intros [= <-]. split; [lia|]. rewrite Z.sub_diag. by rewrite <- E.
  - intros H. apply IH in H as [Hr Hl]. split; [lia|].
    replace (Z.to_nat (r - i)) with (S (Z.to_nat (r - (i + 1)))) by lia. done.
Qed.

Lemma get_free_hndl_inv s h s' :
  handles_ok (view_of s) -> get_free_hndl s = Some (h, s') -> s' = s /\
  (h < 0 \/ exists p l, cur_table s p l /\ 0 <= h < ps_maxfiles p /\ l !! Z.to_nat h = Some 0xff).
Proof.
  intros Hok. unfold get_free_hndl. intros H. kinv H p s1 E. apply cur_psp_inv in E as [-> Hp].
  rewrite run_get in H. kinv H l s1 E. apply opt_inv in E as [Hl ->]. kinv H r s1 E. apply opt_inv in E as [Hr ->].
  injection H as <- <-. split; [done|]. destruct r as [r|]; [right|left; cbn; unfold DE_TOOMANY; lia].
  cbn. destruct (ho_tab _ Hok _ _ Hp) as (Hm & _).
  apply memchr_inv in Hr as [Hr Hv]. rewrite Z.sub_0_r in Hv. exists p, l. split; [done|]. split; [lia|done].
Qed.

Lemma DosDup_ok h s rc s' :
  handles_ok (view_of s) -> room 1 s -> DosDup h s = Some (rc, s') -> handles_ok (view_of s').
Proof.
  intros Hok Hroom. unfold DosDup. intros H. kinv H n s1 E. apply get_free_hndl_inv in E as [-> _]; [|done].
  destruct (n <? 0); [by injection H as <- <-|]. kinv H r s1 E. injection H as <- <-. by eapply DosForceDup_ok.
Qed.

(** ** Opening *)

(** What an open by the redirector (INT 2Fh, functions 1116h, 1117h, 112Eh)
    does with the new entry: it may count it, and does not make it an FCB. *)
Definition redirector_opens : Prop := forall cmd attrib path f w rc f' w',
  redir_open cmd attrib path f w = (rc, f', w') -> sft_count f = 0 ->
  0 <= sft_count f' < 32767 /\ has (sft_mode f') O_FCB = has (sft_mode f) O_FCB.
Hypothesis Hopens : redirector_opens.

Lemma free_in_block_inv l sys_idx :
  match free_in_block l sys_idx with
  | inl i => sys_idx <= i /\ exists f, l !! Z.to_nat (i - sys_idx) = Some f /\ sft_count f = 0
  | inr j => j = sys_idx + Z.of_nat (length l)
  end.
Proof.
  revert sys_idx. induction l as [|f l IH]; intros i; cbn; [lia|].
  destruct (sft_count f =? 0) eqn:E; zbool.
  - split; [lia|]. exists f. by rewrite Z.sub_diag.
  - specialize (IH (i + 1)). destruct (free_in_block l (i + 1)) as [j|j]; [|lia].
    destruct IH as (Hj & g & Hg & H0). split; [lia|]. exists g. split; [|done].
    by replace (Z.to_nat (j - i)) with (S (Z.to_nat (j - (i + 1)))) by lia.
Qed.
Lemma free_sft_inv blocks sys_idx i :
  free_sft blocks sys_idx = Some i ->
  sys_idx <= i /\ exists f, concat blocks !! Z.to_nat (i - sys_idx) = Some f /\ sft_count f = 0.
Proof.
  revert sys_idx. induction blocks as [|sp bs IH]; intros n; cbn; [done|].
  pose proof (free_in_block_inv sp n) as Hb. destruct (free_in_block sp n) as [j|j].
  - intros [= ->]. destruct Hb as (Hi & f & Hf & H0). split; [done|]. exists f. split; [|done].
    rewrite lookup_app_l; [done|]. by eapply lookup_lt_Some.
  - intros H. apply IH in H as (Hi & f & Hf & H0). subst j. split; [lia|]. exists f. split; [|done].
    rewrite lookup_app_r by lia. rewrite <- Hf. f_equal. lia.
Qed.

(** From an entry without count: what [m] makes of it. *)
Definition opens (j : Z) (s s' : kst) (c m o : Z) : Prop :=
  slots s' = <[Z.to_nat j := (c, m, o)]> (slots s).

Lemma count_up_opens j (s s1 s2 : kst) u c m o :
  0 <= j -> (Z.to_nat j < length (slots s))%nat -> opens j s s1 c m o -> count_up j s1 = Some (u, s2) ->
  opens j s s2 (s16 (c + 1)) m o.
Proof.
  intros Hj Hlt H1 H2. assert (Hl : slots s1 !! Z.to_nat j = Some (c, m, o))
    by (rewrite H1; by apply list_lookup_insert_eq).
  destruct (count_moved 1 j _ _ _ _ _ _ Hj Hl H2) as (c' & m' & o' & _ & Hl' & E).
  rewrite Hl in Hl'. injection Hl' as <- <- <-. unfold opens. by rewrite E, H1, list_insert_insert_eq.
Qed.

Lemma DeviceOpenSft_opens dhp j s r s' s0 c m o :
  0 <= j -> (Z.to_nat j < length (slots s0))%nat -> opens j s0 (kern s) c m o ->
  DeviceOpenSft dhp j s = Some (r, s') -> opens j s0 (kern s') (s16 (c + 1)) m o.
Proof.
  intros Hj Hlt H0. unfold DeviceOpenSft. intros H. kinv H f s1 E1. kept pslots E1 K1.
  kinv H u s2 E2. kept pslots E2 K2. kinv H u3 s3 E3. kept pslots H Kr.
  unfold lift in E3. destruct (count_up j (kern s2)) as [[u' k]|] eqn:E4; [|done]. injection E3 as <- <-.
  assert (H2 : opens j s0 (kern s2) c m o) by (unfold opens, pslots in *; congruence).
  pose proof (count_up_opens j s0 _ _ _ c m o Hj Hlt H2 E4) as H3. unfold opens, pslots in *. cbn in Kr. congruence.
Qed.

(** The same for the whole state: entry [j] is in no table yet. *)
Definition opened_as (j : Z) (s s' : hst) (c m o : Z) : Prop :=
  psps s' = psps s /\ jfts s' = jfts s /\ cu_psp_of s' = cu_psp_of s /\ opens j (kern (pth s)) (kern (pth s')) c m o.

Lemma opened_keep j s s1 s2 c m o :
  opened_as j s s1 c m o -> view_of s2 = view_of s1 -> opened_as j s s2 c m o.
Proof.
  intros (Ep & Ej & Ec & Es) [= E1 E2 E3 E4]. unfold opened_as, opens in *.
  rewrite E1, E2, E3, E4. done.
Qed.
Lemma opened_up j s s1 s2 u c m o :
  0 <= j -> (Z.to_nat j < length (slots (kern (pth s))))%nat -> opened_as j s s1 c m o ->
  on_kern (count_up j) s1 = Some (u, s2) -> opened_as j s s2 (s16 (c + 1)) m o.
Proof.
  intros Hj Hlt (Ep & Ej & Ec & Es) H. apply on_kern_inv in H as (k & H & ->).
  do 3 (split; [done|]). by eapply count_up_opens.
Qed.
Lemma opened_lookup j s s1 c m o :
  (Z.to_nat j < length (slots (kern (pth s))))%nat -> opened_as j s s1 c m o ->
  slots (kern (pth s1)) !! Z.to_nat j = Some (c, m, o).
Proof. intros Hlt (_ & _ & _ & Es). rewrite Es. by apply list_lookup_insert_eq. Qed.

Lemma sft_at_slot j s f s' :
  0 <= j -> on_kern (sft_at j) s = Some (f, s') -> slots (kern (pth s)) !! Z.to_nat j = Some (slot f).
Proof.
  intros Hj H. apply on_kern_inv in H as (k & H & _). unfold sft_at in H. rewrite run_get in H.
  apply opt_inv in H as [H _]. rewrite idx_concat in H by done. unfold slots, slots_of.
  by rewrite list_lookup_fmap, H.
Qed.

Lemma low_word j st : 0 <= j < 256 -> u8 (Z.lor j (Z.shiftl st 16)) = j.
Proof.
  intros Hj. rewrite lor_shift by lia. unfold u8. change (2 ^ 16) with (256 * 256).
  replace (j + st * (256 * 256)) with (j + st * 256 * 256) by lia. rewrite Z_mod_plus_full.
  by apply Z.mod_small.
Qed.

Lemma open_network_opens j s0 s flags attrib r s' m o :
  0 <= j < 255 -> (Z.to_nat j < length (slots (kern (pth s0))))%nat -> opened_as j s0 s 0 m o ->
  has m O_FCB = false -> open_network j flags attrib s = Some (r, s') ->
  exists c m' o', opened_as j s0 s' c m' o' /\ 0 <= c < 32768 /\ has m' O_FCB = false /\ (0 <= r -> 1 <= c /\ u8 r = j).
Proof.
  intros Hj Hlt H0 Hm. unfold open_network. destruct (if negb _ then _ else _) as [cmd attr] eqn:Ea. intros H.
  rewrite run_get in H. kinv H f s1 E1. kept view_of E1 K1. pose proof (sft_at_slot j s f s1 (proj1 Hj) E1) as Hf.
  kinv H rf s2 E2. kept view_of E2 K2. destruct rf as [status f'].
  assert (Hc : 0 <= sft_count f' < 32767 /\ has (sft_mode f') O_FCB = false).
  { apply on_kern_inv in E2 as (k & E2 & _). unfold kworld in E2.
    destruct (redir_open _ _ _ _ _) as [[rc g] w] eqn:Er. injection E2 as -> -> _.
    rewrite (opened_lookup _ _ _ _ _ _ Hlt H0) in Hf. injection Hf as Hf0 -> _.
    destruct (Hopens _ _ _ _ _ _ _ _ Er (eq_sym Hf0)) as [Hr Hmode]. split; [done|]. by rewrite Hmode. }
  kinv H u s3 E3. pose proof (opened_keep _ _ _ _ _ _ _ (opened_keep _ _ _ _ _ _ _ H0 K1) K2) as H2.
  assert (H3 : opened_as j s0 s3 (sft_count f') (sft_mode f') (sft_psp f')).
  { pose proof (opened_lookup _ _ _ _ _ _ Hlt H2) as Hl. apply on_kern_inv in E3 as (k & E3 & ->).
    destruct H2 as (Ep & Ej & Ec & Es). do 3 (split; [done|]). unfold opens in *. cbn.
    rewrite (sftmod_slots j _ _ _ _ _ _ _ (slot f') ltac:(lia) Hl E3) by done. by rewrite Es, list_insert_insert_eq. }
  destruct (0 <=? status) eqn:Est; zbool.
  - kinv H u4 s4 E4. injection H as <- <-. destruct (sft_count f' =? 0) eqn:E0; zbool.
    + pose proof (opened_up j s0 s3 s4 u4 _ _ _ (proj1 Hj) Hlt H3 E4) as H4. rewrite E0 in H4.
      exists 1, (sft_mode f'), (sft_psp f'). split; [done|]. split; [lia|]. split; [apply Hc|]. intros _. split; [lia|by apply low_word; lia].
    + injection E4 as _ <-. exists (sft_count f'), (sft_mode f'), (sft_psp f'). split; [done|]. split; [lia|].
      split; [apply Hc|]. intros _. split; [lia|by apply low_word; lia].
  - injection H as <- <-. exists (sft_count f'), (sft_mode f'), (sft_psp f'). split; [done|]. split; [lia|].
    split; [apply Hc|]. lia.
Qed.

Lemma keeps_open_share j flags : keeps view_of (open_share j flags).
Proof. unfold open_share. keeps. Qed.

Lemma open_local_opens j s0 s flags attrib r s' m o :
  0 <= j < 255 -> (Z.to_nat j < length (slots (kern (pth s0))))%nat -> opened_as j s0 s 0 m o ->
  open_local j flags attrib s = Some (r, s') ->
  exists c, opened_as j s0 s' c m o /\ 0 <= c < 32768 /\ (0 <= r -> 1 <= c /\ u8 r = j).
Proof.
  intros Hj Hlt H0. unfold open_local.
  assert (Hfail : forall rc, rc < 0 -> kret rc s = Some (r, s') ->
    exists c, opened_as j s0 s' c m o /\ 0 <= c < 32768 /\ (0 <= r -> 1 <= c /\ u8 r = j)).
  { intros rc Hrc [= <- <-]. exists 0. split; [done|]. split; [lia|]. lia. }
  destruct (2 <? _); [apply Hfail; unfold DE_INVLDACC; lia|].
  destruct (negb _ && _); [apply Hfail; unfold DE_ACCESS; lia|]. intros H. clear Hfail.
  kinv H rc s1 E1. pose proof (keeps_open_share _ _ _ _ _ E1) as K1.
  pose proof (opened_keep _ _ _ _ _ _ _ H0 K1) as H1.
  destruct (rc <? 0) eqn:Erc; zbool; [injection H as <- <-; exists 0; split; [done|]; split; lia|].
  rewrite run_get in H. kinv H dr s2 E2. apply opt_inv in E2 as [_ ->]. kinv H u s3 E3.
  pose proof (opened_up j s0 s1 s3 u _ _ _ (proj1 Hj) Hlt H1 E3) as H3.
  kinv H u4 s4 E4. kept view_of E4 K4. pose proof (opened_keep _ _ _ _ _ _ _ H3 K4) as H4.
  kinv H res s5 E5. kept view_of E5 K5. pose proof (opened_keep _ _ _ _ _ _ _ H4 K5) as H5.
  destruct (res <? 0) eqn:Eres; zbool.
  - kinv H f s6 E6. kept view_of E6 K6. pose proof (opened_keep _ _ _ _ _ _ _ H5 K6) as H6.
    kinv H u7 s7 E7. kept view_of E7 K7. pose proof (opened_keep _ _ _ _ _ _ _ H6 K7) as H7.
    kinv H uu s9 E8. injection H as <- <-.
    pose proof (opened_lookup _ _ _ _ _ _ Hlt H7) as Hl. apply on_kern_inv in E8 as (k & E8 & ->).
    destruct (count_moved (-1) j _ _ _ _ _ _ ltac:(lia) Hl E8) as (c' & m' & o' & _ & Hl' & E).
    rewrite Hl in Hl'. injection Hl' as <- <- <-. exists 0. split; [|split; lia].
    destruct H7 as (Ep & Ej & Ec & Es). do 3 (split; [done|]). unfold opens in *. cbn. by rewrite E, Es, list_insert_insert_eq.
  - injection H as <- <-. exists 1. split; [done|]. split; [lia|]. intros _. split; [lia|by apply low_word; lia].
Qed.

Lemma has_land_false a b c : has a c = false -> has (Z.land a b) c = false.
Proof.
  unfold has. intros H. zbool. apply negb_false_iff, Z.eqb_eq.
  by rewrite <- Z.land_assoc, (Z.land_comm b), Z.land_assoc, H.
Qed.

(** Opening: nothing, or a new entry that is in no table. *)
Lemma DosOpenSft_opens fname flags attrib s r s' :
  (length (slots (kern (pth s))) <= 255)%nat -> has flags O_FCB = false -> DosOpenSft fname flags attrib s = Some (r, s') ->
  view_of s' = view_of s /\ r < 0 \/
  exists j m0 o0 c m o, 0 <= j < 255 /\ slots (kern (pth s)) !! Z.to_nat j = Some (0, m0, o0) /\
    opened_as j s s' c m o /\ 0 <= c < 32768 /\ has m O_FCB = false /\ (0 <= r -> 1 <= c /\ u8 r = j).
Proof.
  intros Hlen Hfcb. unfold DosOpenSft. intros H. kinv H res s1 E1. kept view_of E1 K1.
  destruct (res <? SUCCESS) eqn:Eres; zbool; [injection H as <- <-; by left|].
  kinv H u s2 E2. kept view_of E2 K2. kinv H free s3 E3. kept view_of E3 K3.
  assert (E : view_of s3 = view_of s) by congruence.
  destruct free as [j|]; [right|injection H as <- <-; left; split; [done|unfold DE_TOOMANY; lia]].
  assert (Hfree : 0 <= j /\ exists m0 o0, slots (kern (pth s3)) !! Z.to_nat j = Some (0, m0, o0)).
  { apply on_kern_inv in E3 as (k & E3 & ->). unfold get_free_sft in E3. rewrite run_get in E3.
    injection E3 as E3 <-. apply free_sft_inv in E3 as (Hj & f & Hf & H0). split; [done|].
    exists (sft_mode f), (sft_psp f). rewrite Z.sub_0_r in Hf. cbn. unfold slots, slots_of.
    rewrite list_lookup_fmap, Hf. cbn. unfold slot. by rewrite H0. }
  destruct Hfree as (Hj & m0 & o0 & Hs).
  assert (Hs0 : slots (kern (pth s)) !! Z.to_nat j = Some (0, m0, o0)) by (injection E as <- _ _ _; done).
  pose proof (lookup_lt_Some _ _ _ Hs0) as Hlt. exists j, m0, o0. rewrite run_get in H.
  kinv H u4 s4 E4. apply on_kern_inv in E4 as (k & E4 & ->).
  set (s4 := set_pth (set_kern k (pth s3)) s3) in *.
  assert (H4 : opened_as j s s4 0 (Z.land flags 0xf0ff) (cu_psp_of s3)).
  { injection E as Es Ep Ej Ec. do 3 (split; [done|]). unfold opens. cbn [s4 pth set_pth kern set_kern].
    rewrite (sftmod_slots j _ _ _ _ _ _ _ (0, Z.land flags 0xf0ff, cu_psp_of s3) Hj Hs E4) by done. by rewrite Es. }
  pose proof (has_land_false flags 0xf0ff O_FCB Hfcb) as Hm.
  kinv H dhp s5 E5. kept view_of E5 K5. pose proof (opened_keep _ _ _ _ _ _ _ H4 K5) as H5.
  destruct dhp as [dhp|].
  { kinv H rc s6 E6. injection H as <- <-. unfold on_pth in E6.
    destruct (DeviceOpenSft dhp j (pth s5)) as [[rc' p6]|] eqn:E7; [|done]. injection E6 as <- <-.
    destruct H5 as (Ep & Ej & Ec & Es).
    pose proof (DeviceOpenSft_opens dhp j (pth s5) rc' p6 (kern (pth s)) _ _ _ Hj Hlt Es E7) as H6.
    exists 1, (Z.land flags 0xf0ff), (cu_psp_of s3). split; [lia|]. split; [done|]. split; [by repeat split|]. split; [lia|].
    split; [done|]. intros Hr. split; [lia|]. destruct (rc' <? SUCCESS) eqn:E8; [unfold SUCCESS in E8; zbool; lia|].
    apply u8_small. lia. }
  destruct (has res IS_NETWORK).
  - destruct (open_network_opens j s s5 flags _ r s' _ _ ltac:(lia) Hlt H5 Hm H) as (c & m & o & ?).
    exists c, m, o. split; [lia|]. by split.
  - destruct (open_local_opens j s s5 flags _ r s' _ _ ltac:(lia) Hlt H5 H) as (c & Ho & Hc & Hr).
    exists c, (Z.land flags 0xf0ff), (cu_psp_of s3). split; [lia|]. by split.
Qed.

Lemma DosOpen_ok fname mode attrib s r s' :
  handles_ok (view_of s) -> has mode O_FCB = false -> DosOpen fname mode attrib s = Some (r, s') -> handles_ok (view_of s').
Proof.
  intros Hok Hfcb. unfold DosOpen. destruct (negb _); [by intros [= <- <-]|]. intros H.
  kinv H h s1 E1. apply get_free_hndl_inv in E1 as [-> Hh]; [|done].
  destruct (h <? 0) eqn:Eh; zbool; [by injection H as <- <-|]. destruct Hh as [Hh|(p & l & [Hp Hl] & Hr & Hi)]; [lia|].
  kinv H res s1 E1.
  destruct (DosOpenSft_opens fname mode attrib s res s1 (ho_entries _ Hok) Hfcb E1) as [[E Hneg]|Ho].
  { rewrite (proj2 (Z.ltb_lt res SUCCESS)) in H by (unfold SUCCESS; lia). injection H as <- <-. by rewrite E. }
  destruct Ho as (j & m0 & o0 & c & m & o & Hj & Hs & (Ep & Ej & Ec & Es) & Hc & Hm & Hres).
  pose proof (ho_count _ Hok j Hj) as Hle. rewrite (count_at_slot (view_of s) j _ _ _ Hs) in Hle.
  assert (H0 : refs (view_of s) j = 0) by (pose proof (refs_nonneg (view_of s) j); lia).
  assert (Hok1 : handles_ok (view_of s1)) by (by eapply (ok_entry (view_of s) (view_of s1) j 0 m0 o0 c m o)).
  destruct (res <? SUCCESS) eqn:Eres; zbool; [by injection H as <- <-|]. destruct (Hres Eres) as [Hc1 Hlow].
  kinv H p' s2 E2. apply cur_psp_inv in E2 as [-> Hp']. rewrite Ep, Ec in Hp'. assert (p' = p) as -> by congruence.
  kinv H u s3 E3. injection H as <- <-. apply set_filetab_inv in E3 as (_ & l' & Hl' & _ & ->).
  rewrite Ej in Hl'. assert (l' = l) as -> by congruence. rewrite Hlow.
  eapply (ok_fill (view_of s1) _ (cu_psp_of s) p l h j c m o Hok1); try done.
  - cbn. by rewrite Ep.
  - cbn. by rewrite Ej.
  - cbn. rewrite Es. apply list_lookup_insert_eq. by eapply lookup_lt_Some.
  - assert (refs (view_of s1) j = refs (view_of s) j) as -> by (unfold refs; cbn; by rewrite Ep, Ej). lia.
  - cbn. rewrite u8_small; [done|lia].
Qed.

(** ** Processes *)

Lemma CloneHandle_inv h s rc s' :
  CloneHandle h s = Some (rc, s') ->
  view_of s' = view_of s /\ rc < 0 \/
  exists p l i f, 0 <= h < ps_maxfiles p /\ i <> 0xff /\ cur_table s p l /\ l !! Z.to_nat h = Some i /\
    idx_to_sft (sfthead (fs (kern (pth s)))) i = Some f /\ psps s' = psps s /\ jfts s' = jfts s /\
    cu_psp_of s' = cu_psp_of s /\ rc = SUCCESS /\
    slots (kern (pth s')) = <[Z.to_nat i := (s16 (sft_count f + 1), sft_mode f, sft_psp f)]> (slots (kern (pth s))).
Proof.
  unfold CloneHandle. intros H. kinv H r s1 E. apply get_sft_inv in E as [-> Hr].
  destruct r as [[i f]|]; [|injection H as <- <-; left; split; [done|unfold DE_INVLDHNDL; lia]].
  destruct (has _ _); [injection H as <- <-; left; split; [done|unfold DE_INVLDHNDL; lia]|]. right.
  destruct Hr as (p & l & Hh & Hne & Hcur & Hi & Hf). kinv H u s1 E. injection H as <- <-.
  apply on_kern_inv in E as (k & E & ->). exists p, l, i, f. do 9 (split; [done|]).
  destruct (idx_slots _ _ _ Hf) as (Hi0 & Hl & _).
  destruct (count_moved 1 i _ _ _ _ _ _ Hi0 Hl E) as (c & m & o & _ & Hl' & Es). cbn.
  unfold slots in Hl' at 1. rewrite Hl in Hl'. injection Hl' as <- <- <-. done.
Qed.

Lemma clone_loop_ok n i para s p q u s' l :
  handles_ok (view_of s) -> room (Z.of_nat n) s -> psps s !! cu_psp_of s = Some q -> psps s !! para = Some p ->
  para <> cu_psp_of s -> jfts s !! ps_filetab p = Some l -> 0 <= i ->
  (forall j, i <= j -> j < i + Z.of_nat n -> l !! Z.to_nat j = Some 0xff) ->
  clone_loop n i p q s = Some (u, s') ->
  handles_ok (view_of s') /\ psps s' = psps s /\ cu_psp_of s' = cu_psp_of s.
Proof.
  revert i s l. induction n as [|n IH]; intros i s l Hok Hroom Hq Hp Hne Hl Hi Hfree; [by intros [= _ <-]|].
  cbn [clone_loop]. intros H. kinv H rc s1 E1.
  assert (Hroom1 : room (Z.of_nat n) s) by (intros j c m o Hj; pose proof (Hroom j c m o Hj); lia).
  destruct (CloneHandle_inv i s rc s1 E1) as [[E Hrc]|Hc].
  { rewrite (proj2 (Z.leb_gt 0 rc)) in H by lia. rewrite run_ret in H. injection E as Es Ep Ej Ec.
    eapply (IH (i + 1) s1 l) in H as (Hok' & Ep' & Ec').
    - split; [done|]. by rewrite Ep', Ec', Ep, Ec.
    - unfold view_of. by rewrite Es, Ep, Ej, Ec.
    - unfold room. by rewrite Es.
    - by rewrite Ep, Ec.
    - by rewrite Ep.
    - by rewrite Ec.
    - by rewrite Ej.
    - lia.
    - intros j Hj1 Hj2. apply Hfree; lia. }
  destruct Hc as (q' & lq & idx & f & Hh & Hidx & Hcur & Hlq & Hf & Ep & Ej & Ec & -> & Es).
  assert (q' = q) as -> by (destruct Hcur; congruence). cbn [Z.leb] in H. change (0 <=? SUCCESS) with true in H. cbn iota in H.
  destruct (handle_mode s q lq i idx f Hok Hcur Hh Hlq Hidx Hf) as (Hir & Hfm & Hslot).
  kinv H u1 s2 E2. kinv E2 v s3 E3. apply filetab_inv in E3 as (-> & _ & lv & Hlv & Hv).
  rewrite Ej in Hlv. assert (lv = lq) as -> by (destruct Hcur; congruence). assert (v = idx) as -> by congruence.
  apply set_filetab_inv in E2 as (_ & l' & Hl' & Hlen & ->). rewrite Ej in Hl'. assert (l' = l) as -> by congruence.
  set (s2 := set_jfts _ s1) in *. pose proof (Hroom _ _ _ _ Hslot) as Hcnt.
  assert (Hok2 : handles_ok (view_of s2)).
  { eapply (ok_add (view_of s) (view_of s2) para p l i idx _ _ _ Hok Hp Hl); try done.
    - apply Hfree; lia.
    - lia.
    - cbn. rewrite Ej. by rewrite u8_small by lia.
    - exists (sft_count f), (sft_mode f), (sft_psp f). split; [lia|]. split; [done|]. exact Es. }
  eapply (IH (i + 1) s2 (<[Z.to_nat i := u8 idx]> l)) in H as (Hok' & Ep' & Ec'); try done.
  - split; [done|]. split; [by rewrite Ep'|by rewrite Ec'].
  - intros j c m o Hj. cbn in Hj. rewrite Es in Hj. pose proof (ho_range _ Hok _ _ _ _ Hslot) as Hr0.
    destruct (decide (j = Z.to_nat idx)) as [->|Hj'].
    + rewrite list_lookup_insert_eq in Hj by (by eapply lookup_lt_Some). injection Hj as <- _ _. rewrite s16_small; lia.
    + rewrite list_lookup_insert_ne in Hj by done. by eapply Hroom1.
  - change (psps s1 !! cu_psp_of s1 = Some q). by rewrite Ep, Ec.
  - change (psps s1 !! para = Some p). by rewrite Ep.
  - change (para <> cu_psp_of s1). by rewrite Ec.
  - cbn. rewrite Ej. apply lookup_insert_eq.
  - lia.
  - intros j Hj1 Hj2. rewrite list_lookup_insert_ne by lia. apply Hfree; lia.
Qed.

(** Memory for a new process: no table of another process lies there. *)
Definition fresh (para : Z) (s : hst) : Prop :=
  para <> cu_psp_of s /\ forall q p, q <> para -> psps s !! q = Some p -> ps_filetab p <> para.

Lemma child_psp_ok para s u s' :
  handles_ok (view_of s) -> room 20 s -> fresh para s -> child_psp para (cu_psp_of s) s = Some (u, s') ->
  handles_ok (view_of s') /\ cu_psp_of s' = cu_psp_of s /\ is_Some (psps s' !! para).
Proof.
  intros Hok Hroom [Hne Hfr]. unfold child_psp, psp_at. rewrite run_assoc, run_get. intros H.
  kinv H q s1 E. apply opt_inv in E as [Hq ->]. rewrite run_get, !run_mod in H.
  set (p := Psp (cu_psp_of s) 20 para) in *. set (s1 := set_jfts _ _) in H.
  assert (Hok1 : handles_ok (view_of s1)).
  { eapply (ok_replace (view_of s) (view_of s1) para p (replicate 20 0xff) Hok); try done; cbn.
    - intros q0 p0 Hq0 Hp0. pose proof (Hfr q0 p0 Hq0 Hp0). by rewrite lookup_insert_ne.
    - apply lookup_insert_eq.
    - repeat constructor; unfold byte; lia.
    - intros i Hi. unfold table. cbn. rewrite lookup_insert_eq. cbn [default from_option id].
      etransitivity; [apply occ_take_le|]. etransitivity; [apply Z.eq_le_incl, (occ_replicate i 20 0xff); lia|].
      destruct (psps s !! para); [apply occ_nonneg|lia]. }
  eapply (clone_loop_ok 20 0 para s1 p q u s' (replicate 20 0xff)) in H as (Hok' & Ep & Ec); try done.
  - split; [done|]. split; [by rewrite Ec|]. rewrite Ep. cbn. by rewrite lookup_insert_eq.
  - cbn. by rewrite lookup_insert_ne.
  - cbn. apply lookup_insert_eq.
  - cbn. apply lookup_insert_eq.
  - intros j Hj1 Hj2. apply lookup_replicate_2. lia.
Qed.

Lemma DosClose_procs h s rc s' :
  DosClose h s = Some (rc, s') -> psps s' = psps s /\ cu_psp_of s' = cu_psp_of s.
Proof.
  intros H. destruct (DosClose_view h s rc s' Hredir H) as [[[= _ E1 _ E2] _]|Hc]; [done|].
  by destruct Hc as (p & l & i & _ & _ & _ & _ & Ep & Ec & _).
Qed.

Lemma close_loop_ok n i s u s' :
  handles_ok (view_of s) -> close_loop n i s = Some (u, s') ->
  handles_ok (view_of s') /\ psps s' = psps s /\ cu_psp_of s' = cu_psp_of s.
Proof.
  revert i s. induction n as [|n IH]; intros i s Hok; [by intros [= _ <-]|]. cbn [close_loop]. intros H.
  kinv H rc s1 E. destruct (DosClose_procs i s rc s1 E) as [Ep Ec].
  eapply (IH (i + 1) s1) in H as (Hok' & Ep' & Ec'); [|by eapply DosClose_ok].
  split; [done|]. by rewrite Ep', Ec', Ep, Ec.
Qed.

(** Closing an entry that no handle refers to. *)
Lemma fcb_close_loop_ok n i s u s' :
  handles_ok (view_of s) -> fcb_close_loop n i s = Some (u, s') ->
  handles_ok (view_of s') /\ psps s' = psps s /\ cu_psp_of s' = cu_psp_of s.
Proof.
  revert i s. induction n as [|n IH]; intros i s Hok; [done|]. cbn [fcb_close_loop]. intros H.
  kinv H f s1 E. apply in_use_inv in E as [-> Ef]. destruct f as [f|]; [|by injection H as _ <-].
  rewrite run_get in H. kinv H u1 s1 E1.
  assert (H1 : handles_ok (view_of s1) /\ psps s1 = psps s /\ cu_psp_of s1 = cu_psp_of s).
  { destruct (has (sft_mode f) O_FCB && _) eqn:Eb; [|by injection E1 as _ <-].
    apply andb_true_iff in Eb as [Em _]. kinv E1 rc s2 E2. injection E1 as _ <-.
    apply on_kern_inv in E2 as (k & E2 & ->). split; [|done]. symmetry in Ef.
    destruct (idx_slots _ _ _ Ef) as (Hi & Hl & Hc). pose proof (ho_fcb _ Hok i _ _ _ Hi Hl Em) as H0.
    pose proof (ho_range _ Hok _ _ _ _ Hl) as Hr.
    destruct (DosCloseSft_slots i _ rc k f Hredir Ef E2) as [Hm|[Hs _]].
    - eapply (ok_moved (view_of s) _ (-1) i Hok); try done. intros c m o Hcm. cbn in Hcm.
      unfold slots in Hcm. rewrite Hl in Hcm. injection Hcm as <- _ _. lia.
    - replace (view_of (set_pth (set_kern k (pth s)) s)) with (view_of s); [done|].
      unfold view_of. cbn. by rewrite Hs. }
  destruct H1 as (Hok1 & Ep & Ec). eapply (IH (i + 1) s1) in H as (Hok' & Ep' & Ec'); [|done].
  split; [done|]. by rewrite Ep', Ec', Ep, Ec.
Qed.

Lemma keeps_on_arena {A} (m : K mm A) : keeps Mm.cu_psp m -> keeps view_of (on_arena m).
Proof.
  intros H s a s'. unfold on_arena. destruct (m (arena s)) as [[b v]|] eqn:E; [|done].
  intros [= _ <-]. unfold view_of, cu_psp_of. cbn. by rewrite (H _ _ _ E).
Qed.

Lemma end_process_ok t s u s' :
  handles_ok (view_of s) -> end_process t s = Some (u, s') -> handles_ok (view_of s').
Proof.
  intros Hok. unfold end_process. intros H. kinv H p s1 E. apply cur_psp_inv in E as [-> Hp]. rewrite run_get in H.
  kinv H r s1 E1. kept view_of E1 K1. kinv H u2 s2 E2. injection H as _ <-.
  assert (H2 : handles_ok (view_of s2) /\ psps s2 = psps s).
  { destruct (_ && _); [|injection E2 as _ <-; rewrite K1; by injection K1]. kinv E2 r3 s3 E3. kept view_of E3 K3.
    assert (E : view_of s3 = view_of s) by congruence. kinv E2 u4 s4 E4.
    destruct (close_loop_ok _ _ s3 u4 s4 ltac:(by rewrite E) E4) as (Hok4 & Ep4 & _). kinv E2 u5 s5 E5.
    unfold FcbCloseAll in E5. rewrite run_get in E5.
    destruct (fcb_close_loop_ok _ _ s4 u5 s5 Hok4 E5) as (Hok5 & Ep5 & _). rewrite run_get in E2. kinv E2 r6 s6 E6.
    injection E2 as _ <-. pose proof (keeps_on_arena _ (keeps_FreeProcessMem _) _ _ _ E6) as K6.
    rewrite K6. split; [done|]. injection K6 as _ -> _ _. rewrite Ep5, Ep4. by injection E. }
  destruct H2 as [[Hcur Htab Hown Hent Hcnt Hrng Hfcb Hpar] Ep]. split; try done. cbn. rewrite Ep.
  rewrite <- Ep. cbn in Hpar. rewrite Ep in *. by eapply Hpar.
Qed.

(** The new table of [SetJFTSize] is fresh memory. *)
Definition fresh_table (s s' : hst) : Prop :=
  forall q p p', psps s !! q = Some p -> psps s' !! cu_psp_of s = Some p' -> ps_filetab p' <> ps_filetab p \/ q = cu_psp_of s.

Lemma SetJFTSize_ok n s rc s' :
  handles_ok (view_of s) -> 0 <= n -> fresh_table s s' -> SetJFTSize n s = Some (rc, s') -> handles_ok (view_of s').
Proof.
  intros Hok Hn Hfresh. unfold SetJFTSize. rewrite run_get. intros H. kinv H p s1 E. apply cur_psp_inv in E as [-> Hp].
  destruct (ho_tab _ Hok _ _ Hp) as (Hm & l & Hl & Hlen & Hb).
  cbn in Hl. destruct (n <=? ps_maxfiles p) eqn:En; zbool.
  { rewrite run_mod in H. injection H as _ <-.
    eapply (ok_replace (view_of s) _ (cu_psp_of s) (Psp (ps_parent p) n (ps_filetab p)) l Hok); try done.
    - intros q0 p0 Hne Hp0. split; [done|]. intros E. apply Hne. by eapply (ho_own _ Hok).
    - cbn. lia.
    - exact (ho_parent _ Hok (cu_psp_of s) p Hp).
    - intros i Hi. change (v_psps (view_of s) !! cu_psp_of s) with (psps s !! cu_psp_of s). rewrite Hp.
      unfold table. cbn. rewrite Hl. cbn [default from_option id].
      unfold id. replace (Z.to_nat n) with (Z.to_nat n `min` Z.to_nat (ps_maxfiles p))%nat by lia.
      rewrite <- take_take. apply occ_take_le. }
  kinv H r s1 E1. pose proof (keeps_on_arena _ (keeps_DosMemAlloc _ _ _) _ _ _ E1) as K1.
  destruct (ar_rc r <? 0); [injection H as _ <-; by rewrite K1|]. injection K1 as Es Ep Ej Ec.
  kinv H b s2 E2. apply opt_inv in E2 as [_ ->]. kinv H l2 s2 E2. apply opt_inv in E2 as [Hl2 ->].
  assert (l2 = l) as -> by congruence. kinv H l3 s2 E2. apply opt_inv in E2 as [Hl3 ->].
  destruct ((_ <=? _) && _) eqn:Eb; [|done]. injection Hl3 as <-. rewrite !run_mod in H. injection H as _ <-.
  set (block := u16 (b + 1)) in *. set (p' := Psp (ps_parent p) n block).
  assert (Hself : forall q0 p0, q0 <> cu_psp_of s -> psps s !! q0 = Some p0 -> ps_filetab p0 <> block).
  { intros q0 p0 Hne Hp0. destruct (Hfresh q0 p0 p' Hp0) as [H|H]; [|by intros E; apply H|done].
    change (<[cu_psp_of s1 := p']> (psps s1) !! cu_psp_of s = Some p'). rewrite Ec. apply lookup_insert_eq. }
  eapply (ok_replace (view_of s) _ (cu_psp_of s) p' _ Hok).
  - change (<[cu_psp_of s1 := p']> (psps s1) = <[cu_psp_of s := p']> (psps s)). by rewrite Ep, Ec.
  - done.
  - done.
  - intros q0 p0 Hne Hp0. cbn. rewrite Ej. pose proof (Hself q0 p0 Hne Hp0). by rewrite lookup_insert_ne.
  - done.
  - cbn. apply lookup_insert_eq.
  - cbn. rewrite length_app, length_take, length_replicate. lia.
  - apply Forall_app. split; [by apply Forall_take|]. apply Forall_replicate. unfold byte; lia.
  - exact (ho_parent _ Hok (cu_psp_of s) p Hp).
  - intros i Hi. change (v_psps (view_of s) !! cu_psp_of s) with (psps s !! cu_psp_of s). rewrite Hp.
    unfold table. cbn. rewrite lookup_insert_eq, Hl.
    cbn [default from_option id]. unfold id. etransitivity; [apply occ_take_le|].
    rewrite occ_app, occ_replicate by lia. lia.
Qed.
End Ops.
End HandleOps.
