(* ===== verification/CallSpec.v ===== *)
(** * Calls as steps

    The calls of a program on files, as a step relation on the state, and their
    effect on handles: opening, closing, duplicating and processes by HandleOps (in HandleInv),
    every other call leaves the handles alone. *)

From S2P Require Import Prelude Memmgr KState BlockIO FatTab FNode FatAlloc Clock Media FatDir FatFile FatRw.
From S2P Require Import Frame Path Handle Calls HandleSpec HandleInv.
Import Mm Ks Bio Fat FNode Alloc Clk Media Dir File Rw Frame Path Handle Calls HandleSpec HandleInv HandleOps.

Module CallSpec.

Section Calls.
Context {M : Machine} {Sh : Shell} {R : Redirector}.

(** ** Calls that leave the handles alone *)

Lemma keeps_drive1 d : keeps view_of (drive1 d).
Proof. unfold drive1. keeps. Qed.
#[local] Hint Resolve keeps_drive1 : keeps.
Lemma keeps_get_cds1 d : keeps view_of (get_cds1 d).
Proof. unfold get_cds1. keeps. Qed.
#[local] Hint Resolve keeps_get_cds1 : keeps.
Lemma keeps_DosSelectDrv d : keeps view_of (DosSelectDrv d).
Proof. unfold DosSelectDrv. keeps. Qed.
Lemma keeps_DosGetFree d navc : keeps view_of (DosGetFree d navc).
Proof. unfold DosGetFree. keeps. Qed.
Lemma keeps_ext_remote c : keeps view_of (ext_remote c).
Proof. unfold ext_remote. keeps. Qed.
Lemma keeps_DosUpFChar_pth c : keeps view_of (on_pth (DosUpFChar c)).
Proof. apply keeps_on_pth. unfold DosUpFChar. keeps. Qed.
#[local] Hint Resolve keeps_ext_remote keeps_DosUpFChar_pth : keeps.
Lemma keeps_DosGetExtFree d : keeps view_of (DosGetExtFree d).
Proof. unfold DosGetExtFree. keeps. Qed.
Lemma keeps_DosGetCuDir d : keeps view_of (DosGetCuDir d).
Proof. unfold DosGetCuDir. keeps. Qed.
Lemma keeps_set_cwd path d : keeps slots (set_cwd path d).
Proof. unfold set_cwd. keeps. Qed.
#[local] Hint Resolve keeps_set_cwd : keeps.
Lemma keeps_DosChangeDir path : keeps view_of (DosChangeDir path).
Proof. unfold DosChangeDir. keeps. Qed.
Lemma keeps_pop_dmp rc : keeps view_of (pop_dmp rc).
Proof. unfold pop_dmp. keeps. Qed.
Lemma keeps_set_search m e : keeps view_of (set_search m e).
Proof. unfold set_search. apply keeps_on_kern, keeps_mod. by intros. Qed.
#[local] Hint Resolve keeps_pop_dmp keeps_set_search : keeps.
Lemma keeps_redirect_find cmd : keeps view_of (redirect_find cmd).
Proof. unfold redirect_find. keeps. Qed.
Lemma keeps_find_device : keeps view_of find_device.
Proof. unfold find_device. keeps. Qed.
#[local] Hint Resolve keeps_redirect_find keeps_find_device : keeps.
Lemma keeps_DosFindFirst attr name : keeps view_of (DosFindFirst attr name).
Proof. unfold DosFindFirst. keeps. Qed.
Lemma keeps_DosFindNext : keeps view_of DosFindNext.
Proof. unfold DosFindNext. keeps; apply keeps_on_kern, keeps_mod; by intros. Qed.
Lemma keeps_DosGetFtime h : keeps view_of (DosGetFtime h).
Proof. unfold DosGetFtime. keeps. Qed.
Lemma keeps_DosSetFtimeSft i d t : keeps slots (DosSetFtimeSft i d t).
Proof. unfold DosSetFtimeSft. keeps. Qed.
#[local] Hint Resolve keeps_DosSetFtimeSft : keeps.
Lemma keeps_DosLockUnlock h pos len unlock : keeps view_of (DosLockUnlock h pos len unlock).
Proof. unfold DosLockUnlock. keeps. Qed.
Lemma keeps_DosGetFattr name : keeps view_of (DosGetFattr name).
Proof. unfold DosGetFattr. keeps. Qed.
Lemma keeps_DosDelete path attrib : keeps view_of (DosDelete path attrib).
Proof. unfold DosDelete. keeps. Qed.
Lemma keeps_DosRenameTrue p1 p2 attrib : keeps view_of (DosRenameTrue p1 p2 attrib).
Proof. unfold DosRenameTrue. keeps. Qed.
#[local] Hint Resolve keeps_DosRenameTrue : keeps.
Lemma keeps_DosRename p1 p2 : keeps view_of (DosRename p1 p2).
Proof. unfold DosRename. keeps. Qed.
Lemma keeps_DosMkRmdir dir action : keeps view_of (DosMkRmdir dir action).
Proof.
  unfold DosMkRmdir. destruct (action =? 0x39); keeps.
Qed.
Lemma keeps_DosTruename src : keeps view_of (DosTruename src).
Proof. unfold DosTruename. keeps. Qed.

(** A read or a write of a file, of any length, at any position. *)
Lemma keeps_dos_extend fnp e : keeps slots (dos_extend fnp e).
Proof. unfold dos_extend. keeps. Qed.
Lemma keeps_shrink_chain fnp : keeps slots (shrink_chain fnp).
Proof. unfold shrink_chain. keeps. Qed.
#[local] Hint Resolve keeps_dos_extend keeps_shrink_chain : keeps.
Lemma keeps_shrink_file fnp : keeps slots (shrink_file fnp).
Proof. unfold shrink_file. keeps. Qed.
Lemma keeps_run_loop fuel fnp mode cb so ss sx sw : keeps slots (run_loop fuel fnp mode cb so ss sx sw).
Proof. revert sx. induction fuel as [|fuel IH]; intros sx; cbn [run_loop]; keeps. Qed.
#[local] Hint Resolve keeps_shrink_file keeps_run_loop : keeps.
Lemma keeps_xfer_sectors fnp mode cb ss sec sw bseg mem pos : keeps slots (xfer_sectors fnp mode cb ss sec sw bseg mem pos).
Proof. unfold xfer_sectors. keeps. Qed.
Lemma keeps_xfer_part fnp mode cb ss boff n mem pos : keeps slots (xfer_part fnp mode cb ss boff n mem pos).
Proof. unfold xfer_part. keeps. Qed.
Lemma keeps_grow_size fnp : keeps slots (grow_size fnp).
Proof. unfold grow_size. keeps. Qed.
#[local] Hint Resolve keeps_xfer_sectors keeps_xfer_part keeps_grow_size : keeps.
Lemma keeps_rw_round fnp mode ss bseg rc n mem : keeps slots (rw_round fnp mode ss bseg rc n mem).
Proof. unfold rw_round. keeps. Qed.
#[local] Hint Resolve keeps_rw_round : keeps.
Lemma keeps_rw_loop fuel fnp mode ss buffer rc n count mem : keeps slots (rw_loop fuel fnp mode ss buffer rc n count mem).
Proof. revert buffer rc n mem. induction fuel as [|fuel IH]; intros buffer rc n mem; cbn [rw_loop]; keeps. Qed.
#[local] Hint Resolve keeps_rw_loop : keeps.
Lemma keeps_rwblock fd buffer count mode mem : keeps slots (rwblock fd buffer count mode mem).
Proof. unfold rwblock. keeps. Qed.
#[local] Hint Resolve keeps_rwblock : keeps.

#[local] Hint Resolve keeps_DosSelectDrv keeps_DosGetFree keeps_DosGetExtFree keeps_DosGetCuDir
  keeps_DosChangeDir keeps_DosFindFirst keeps_DosFindNext keeps_DosGetFtime keeps_DosLockUnlock
  keeps_DosGetFattr keeps_DosDelete keeps_DosRename keeps_DosMkRmdir keeps_DosTruename : keeps.

(** ** Calls as steps

    [CReadWrite] is the transfer of [DosRWSft] for a file, [CCharIO] the one
    for a device that is not the console, and [CSetFtime] its call on an
    entry.  Not among them are [DosSetFattr] (when SHARE is installed it
    closes the entries of the file, and their handles stay), the calls on
    FCBs, and opening an entry for an FCB. *)

Inductive call :=
| COpen (fname : list Z) (mode attrib : Z) | CMkTmp (pathname : list Z) (attr : Z)
| CClose (hndl : Z) | CDup (hndl : Z) | CForceDup (old new : Z) | CSetJFTSize (n : Z)
| CExec (para : Z) | CExit (term_type : Z)
| CSeek (hndl pos mode : Z) | CGetFtime (hndl : Z) | CLockUnlock (hndl pos len unlock : Z)
| CSelectDrv (drv : Z) | CGetFree (drive : Z) (navc : bool) | CGetExtFree (drive : list Z)
| CGetCuDir (drive : Z) | CChangeDir (path : list Z)
| CFindFirst (attr : Z) (name : list Z) | CFindNext
| CGetFattr (name : list Z)
| CDelete (path : list Z) (attrib : Z) | CRename (path1 path2 : list Z)
| CMkRmdir (dir : list Z) (action : Z) | CTruename (src : list Z)
| CReadWrite (fd : Z) (buffer : Z * Z) (count mode : Z) (mem : list Z)
| CCharIO (dv n : Z) (bp : list Z) (command : Z) | CSetFtime (fd date time : Z).

(** A call, without its result.  A new process runs when its PSP is made. *)
Definition done_ {A} (m : K hst A) : K hst unit := let! _ := m in kret tt.
Definition run (c : call) : K hst unit :=
  match c with
  | COpen fname mode attrib => done_ (DosOpen fname mode attrib)
  | CMkTmp pathname attr => done_ (DosMkTmp pathname attr)
  | CClose hndl => done_ (DosClose hndl)
  | CDup hndl => done_ (DosDup hndl)
  | CForceDup old new => done_ (DosForceDup old new)
  | CSetJFTSize n => done_ (SetJFTSize n)
  | CExec para => let! s := kget in do! child_psp para (cu_psp_of s) in kmod (set_cu_psp para)
  | CExit term_type => end_process term_type
  | CSeek hndl pos mode => done_ (DosSeek hndl pos mode)
  | CGetFtime hndl => done_ (DosGetFtime hndl)
  | CLockUnlock hndl pos len unlock => done_ (DosLockUnlock hndl pos len unlock)
  | CSelectDrv drv => done_ (DosSelectDrv drv)
  | CGetFree drive navc => done_ (DosGetFree drive navc)
  | CGetExtFree drive => done_ (DosGetExtFree drive)
  | CGetCuDir drive => done_ (DosGetCuDir drive)
  | CChangeDir path => done_ (DosChangeDir path)
  | CFindFirst attr name => done_ (DosFindFirst attr name)
  | CFindNext => done_ DosFindNext
  | CGetFattr name => done_ (DosGetFattr name)
  | CDelete path attrib => done_ (DosDelete path attrib)
  | CRename path1 path2 => done_ (DosRename path1 path2)
  | CMkRmdir dir action => done_ (DosMkRmdir dir action)
  | CTruename src => done_ (DosTruename src)
  | CReadWrite fd buffer count mode mem => done_ (on_kern (rwblock fd buffer count mode mem))
  | CCharIO dv n bp command => done_ (on_kern (BinaryCharIO dv n bp command))
  | CSetFtime fd date time => done_ (on_kern (DosSetFtimeSft fd date time))
  end.

(** What a call may assume: a count of 16 bits has room for the new handles,
    and the memory of a new process or a new table was free. *)
Definition admissible (c : call) (s s' : hst) : Prop :=
  match c with
  | COpen _ mode _ => has mode O_FCB = false
  | CDup _ | CForceDup _ _ => room 1 s
  | CSetJFTSize n => 0 <= n /\ fresh_table s s'
  | CExec para => room 20 s /\ fresh para s
  | _ => True
  end.

Inductive step (s s' : hst) : Prop :=
| Step c u : admissible c s s' -> run c s = Some (u, s') -> step s s'.

Lemma done_inv {A} (m : K hst A) s u s' : done_ m s = Some (u, s') -> exists a, m s = Some (a, s').
Proof. unfold done_. intros H. kinv H a s1 E. injection H as _ <-. by exists a. Qed.

Lemma keeps_ok {A} (m : K hst A) s a s' :
  keeps view_of m -> handles_ok (view_of s) -> m s = Some (a, s') -> handles_ok (view_of s').
Proof. intros Hk Hok H. by rewrite (Hk _ _ _ H). Qed.

Lemma cur_ok s c : handles_ok (view_of s) -> is_Some (psps s !! c) -> handles_ok (view_of (set_cu_psp c s)).
Proof. intros [Hcur Htab Hown Hent Hcnt Hrng Hfcb Hpar] Hc. by split. Qed.

Hypothesis Hredir : redirector_closes.
Hypothesis Hopens : redirector_opens.

Lemma mktmp_loop_ok fuel prefix major randvar attr s r s' :
  handles_ok (view_of s) -> mktmp_loop fuel prefix major randvar attr s = Some (r, s') -> handles_ok (view_of s').
Proof.
  revert randvar s. induction fuel as [|fuel IH]; intros randvar s Hok; cbn [mktmp_loop]; intros H;
    kinv H rc s1 E; (assert (Hok1 : handles_ok (view_of s1)) by (eapply DosOpen_ok in E; [exact E|done..])).
  - by injection H as _ <-.
  - destruct (_ =? _); [by eapply IH|by injection H as _ <-].
Qed.

Lemma step_ok s s' : handles_ok (view_of s) -> step s s' -> handles_ok (view_of s').
Proof.
  intros Hok [c u Ha H]. destruct c; cbn [run] in H; cbn [admissible] in Ha;
    try (apply done_inv in H as [r H]);
    try solve [eapply keeps_ok; [|done|exact H]; auto with keeps].
  - by eapply DosOpen_ok.
  - unfold DosMkTmp in H. rewrite run_get in H. kinv H d s1 E1. kept view_of E1 K1.
    kinv H t s2 E2. kept view_of E2 K2. eapply mktmp_loop_ok, H. congruence.
  - by eapply DosClose_ok.
  - by eapply DosDup_ok.
  - by eapply DosForceDup_ok.
  - destruct Ha. by eapply SetJFTSize_ok.
  - destruct Ha as [Hr Hf]. rewrite run_get in H. kinv H u1 s1 E. injection H as _ <-.
    apply child_psp_ok in E as (Hok1 & _ & Hp); [|done..]. by apply cur_ok.
  - by eapply end_process_ok.
Qed.
End Calls.
End CallSpec.
