(* ===== verification/HandleRun.v ===== *)
(** * A process ends: it always does

    The loops that close the handles of a process reach their end when every
    entry can be closed, and what they leave of the tables and the counts. *)

From S2P Require Import Prelude Memmgr MemmgrSpec MemmgrProps KState BlockIO FatTab FNode FatAlloc Clock Media FatDir FatFile.
From S2P Require Import Frame Path Handle Calls HandleSpec HandleInv.
Import Mm MmSpec MmProps Ks Bio Fat FNode Alloc Clk Media Dir File Frame Path Handle Calls HandleSpec HandleInv HandleOps.

Module HandleRun.

Section Run.
Context {M : Machine} {Sh : Shell} {R : Redirector}.

(** What the end of a process needs of the file system: in the states of [I]
    every entry in use can be closed, and the network does no harm. *)
Class Closable (I : kst -> Prop) := {
  closable s i f : I s -> idx_to_sft (sfthead (fs s)) i = Some f ->
    exists s', DosCloseSft i false s = Some (SUCCESS, s') /\ I s';
  quiet s cmd arg p1 p2 : I s -> I (set_dev (snd (redir_path cmd arg p1 p2 (dev s))) s) }.

Context {I : kst -> Prop} {C : Closable I}.
Hypothesis Hredir : redirector_closes.

Lemma slot_in_use bs i c m o :
  0 <= i -> slots_of bs !! Z.to_nat i = Some (c, m, o) -> c <> 0 ->
  exists f, idx_to_sft bs i = Some f /\ slot f = (c, m, o).
Proof.
  intros Hi Hs Hc. unfold slots_of in Hs. rewrite list_lookup_fmap in Hs.
  destruct (concat bs !! Z.to_nat i) as [f|] eqn:Ef; [|done]. apply (inj Some) in Hs. exists f. split; [|done].
  unfold idx_to_sft. rewrite (proj2 (Z.ltb_ge i 0)) by lia. rewrite idx_concat, Ef by lia.
  by rewrite (proj2 (Z.eqb_neq _ _)) by (injection Hs as -> _ _; done).
Qed.

Lemma cur_psp_run s p : psps s !! cu_psp_of s = Some p -> cur_psp s = Some (p, s).
Proof. intros H. unfold cur_psp, psp_at. rewrite !run_get, H. done. Qed.
Lemma filetab_run s p l h x :
  jfts s !! ps_filetab p = Some l -> 0 <= h -> l !! Z.to_nat h = Some x -> filetab p h s = Some (x, s).
Proof.
  intros Hl Hh Hx. unfold filetab, fgetbyte. rewrite run_get, Hl, run_opt, (proj2 (Z.ltb_ge h 0)) by lia. by rewrite Hx.
Qed.
Lemma set_filetab_run s p l h x v :
  jfts s !! ps_filetab p = Some l -> 0 <= h -> l !! Z.to_nat h = Some x ->
  set_filetab p h v s = Some (tt, set_jfts (<[ps_filetab p := <[Z.to_nat h := u8 v]> l]> (jfts s)) s).
Proof.
  intros Hl Hh Hx. pose proof (lookup_lt_Some _ _ _ Hx) as Hlen. unfold set_filetab, fputbyte.
  rewrite run_get, Hl, run_opt, (proj2 (Z.leb_le 0 h)), (proj2 (Z.ltb_lt h _)) by lia. done.
Qed.
Lemma get_sft_idx_run s p l h x :
  cur_table s p l -> 0 <= h < ps_maxfiles p -> l !! Z.to_nat h = Some x ->
  get_sft_idx h s = Some (if x =? 0xff then DE_INVLDHNDL else x, s).
Proof.
  intros [Hp Hl] Hh Hx. unfold get_sft_idx. rewrite (run_eq _ _ _ _ _ (cur_psp_run s p Hp)).
  rewrite (proj2 (Z.leb_gt _ _)) by lia. by rewrite (run_eq _ _ _ _ _ (filetab_run s p l h x Hl (proj1 Hh) Hx)).
Qed.
Lemma in_use_run s i : in_use i s = Some (idx_to_sft (sfthead (fs (kern (pth s)))) i, s).
Proof. done. Qed.

(** The counts after the handles [gone] were closed. *)
Definition lowered_by (gone : list Z) (l l' : list (Z * Z * Z)) : Prop :=
  length l' = length l /\
  forall i c m o, 0 <= i < 255 -> l !! Z.to_nat i = Some (c, m, o) -> has m O_FCB = false ->
    l' !! Z.to_nat i = Some (c - occ i gone, m, o).

Lemma lowered_nil l : lowered_by [] l l.
Proof. split; [done|]. intros i c m o _ H _. cbn. by rewrite Z.sub_0_r. Qed.
Lemma lowered_app g1 g2 l1 l2 l3 : lowered_by g1 l1 l2 -> lowered_by g2 l2 l3 -> lowered_by (g1 ++ g2) l1 l3.
Proof.
  intros [L1 H1] [L2 H2]. split; [congruence|]. intros i c m o Hi H Hm. rewrite occ_app.
  rewrite (H2 i _ m o Hi (H1 i c m o Hi H Hm) Hm). do 3 f_equal. lia.
Qed.

(** One closed handle. *)
Lemma DosClose_runs s p l h x :
  handles_ok (view_of s) -> I (kern (pth s)) -> cur_table s p l -> 0 <= h < ps_maxfiles p -> l !! Z.to_nat h = Some x ->
  exists rc s', DosClose h s = Some (rc, s') /\ I (kern (pth s')) /\ arena s' = arena s /\ psps s' = psps s /\
    jfts s' = <[ps_filetab p := <[Z.to_nat h := 0xff]> l]> (jfts s) /\
    lowered_by [x] (slots (kern (pth s))) (slots (kern (pth s'))) /\
    (x <> 0xff -> rc = SUCCESS /\ moved (-1) x (slots (kern (pth s))) (slots (kern (pth s')))).
Proof.
  intros Hok HI [Hp Hl] Hh Hx. unfold DosClose.
  rewrite (run_eq _ _ _ _ _ (get_sft_idx_run s p l h x (conj Hp Hl) Hh Hx)), (run_eq _ _ _ _ _ (in_use_run s _)).
  destruct (x =? 0xff) eqn:Ex; zbool.
  { exists DE_INVLDHNDL, s. split; [reflexivity|]. repeat (split; [done|]). subst x.
    rewrite list_insert_id, insert_id by done. split; [done|]. split; [|done]. split; [done|]. intros i c m o Hi Hs _. cbn.
    rewrite eq1_ne by lia. by rewrite Z.add_0_l, Z.sub_0_r. }
  destruct (handle_entry (view_of s) _ p l h x Hok Hp Hl Hh Hx Ex) as (Hr & c & m & o & Hs & Hle & Hpos).
  destruct (slot_in_use _ _ c m o (proj1 Hr) Hs ltac:(lia)) as (f & Hf & Es). rewrite Hf.
  rewrite (run_eq _ _ _ _ _ (cur_psp_run s p Hp)), (run_eq _ _ _ _ _ (set_filetab_run s p l h x 0xff Hl (proj1 Hh) Hx)).
  destruct (closable _ x f HI Hf) as (k & Hk & HIk). unfold on_kern, on_pth, lift. cbn [pth set_jfts]. rewrite Hk.
  exists SUCCESS. eexists. split; [reflexivity|]. split; [exact HIk|]. do 3 (split; [done|]). cbn.
  destruct (DosCloseSft_slots x _ _ k f Hredir Hf Hk) as [Hm|[_ ?]]; [|done]. split; [|done].
  destruct Hm as (c' & m' & o' & _ & Hs' & E).
  cbn in Hs. rewrite Hs in Hs'. injection Hs' as <- <- <-.
  pose proof (ho_range _ Hok _ _ _ _ Hs) as Hrange.
  split; [rewrite E; apply length_insert|]. intros i ci mi oi Hi Hsi _. rewrite E. cbn.
  destruct (decide (i = x)) as [->|Hne].
  - rewrite list_lookup_insert_eq by (by eapply lookup_lt_Some). rewrite Hs in Hsi.
    injection Hsi as <- <- <-. rewrite eq1_refl, s16_small by lia. by rewrite Z.add_0_r.
  - rewrite list_lookup_insert_ne by lia. rewrite eq1_ne by done. by rewrite Z.add_0_r, Z.sub_0_r.
Qed.

(** All handles from [i] on. *)
Lemma close_loop_runs n s p l i :
  handles_ok (view_of s) -> I (kern (pth s)) -> cur_table s p l -> 0 <= i -> i + Z.of_nat n = ps_maxfiles p ->
  exists s' l', close_loop n i s = Some (tt, s') /\ I (kern (pth s')) /\ arena s' = arena s /\ psps s' = psps s /\
    jfts s' = <[ps_filetab p := l']> (jfts s) /\
    l' = take (Z.to_nat i) l ++ replicate n 0xff ++ drop (Z.to_nat i + n) l /\
    lowered_by (take n (drop (Z.to_nat i) l)) (slots (kern (pth s))) (slots (kern (pth s'))).
Proof.
  revert s l i. induction n as [|n IH]; intros s l i Hok HI Hcur Hi Hn; cbn [close_loop].
  { exists s, l. do 4 (split; [done|]). destruct Hcur as [_ Hl]. rewrite insert_id by done. split; [done|].
    rewrite Nat.add_0_r. cbn. by rewrite take_drop, take_0; auto using lowered_nil. }
  pose proof Hcur as [Hp Hl].
  destruct (ho_tab _ Hok _ _ Hp) as (_ & l0 & Hl0 & Hlen & _). cbn in Hl0. assert (l0 = l) as -> by congruence.
  destruct (lookup_lt_is_Some_2 l (Z.to_nat i)) as [x Hx]; [lia|].
  destruct (DosClose_runs s p l i x Hok HI Hcur ltac:(lia) Hx) as (rc & s1 & H1 & HI1 & Ea & Ep & Ej & Hlow & _).
  rewrite (run_eq _ _ _ _ _ H1).
  assert (Ec : cu_psp_of s1 = cu_psp_of s) by (unfold cu_psp_of; by rewrite Ea).
  destruct (IH s1 (<[Z.to_nat i := 0xff]> l) (i + 1)) as (s2 & l2 & H2 & HI2 & Ea2 & Ep2 & Ej2 & El2 & Hlow2); try done.
  - by eapply DosClose_ok.
  - split; [by rewrite Ep, Ec|]. rewrite Ej. apply lookup_insert_eq.
  - lia.
  - lia.
  - exists s2, l2. split; [done|]. split; [done|]. split; [congruence|]. split; [congruence|].
    split; [rewrite Ej2, Ej; apply insert_insert_eq|].
    replace (Z.to_nat (i + 1)) with (S (Z.to_nat i)) in * by lia. split.
    + rewrite El2, drop_insert_lt by lia. rewrite (take_S_r _ (Z.to_nat i) 0xff) by (apply list_lookup_insert_eq; by eapply lookup_lt_Some).
      rewrite take_insert_ge by lia. rewrite <- app_assoc.
      by replace (Z.to_nat i + S n)%nat with (S (Z.to_nat i) + n)%nat by lia.
    + rewrite drop_insert_lt in Hlow2 by lia. rewrite (drop_S _ x) by done. cbn [take].
      by apply (lowered_app [x] _ _ _ _ Hlow).
Qed.

(** The loop over the entries that FCBs opened. *)
Lemma fcb_close_loop_runs n s i :
  handles_ok (view_of s) -> I (kern (pth s)) -> 0 <= i ->
  (Z.to_nat i <= length (slots (kern (pth s))) < Z.to_nat i + n)%nat ->
  exists s', fcb_close_loop n i s = Some (tt, s') /\ I (kern (pth s')) /\ arena s' = arena s /\ psps s' = psps s /\
    jfts s' = jfts s /\ lowered_by [] (slots (kern (pth s))) (slots (kern (pth s'))).
Proof.
  revert s i. induction n as [|n IH]; intros s i Hok HI Hi Hn; cbn [fcb_close_loop].
  { lia. }
  unfold in_use. rewrite run_assoc, run_get, run_ret.
  destruct (idx_to_sft _ _) as [f|] eqn:Ef.
  2:{ exists s. split; [reflexivity|]. repeat (split; [done|]). apply lowered_nil. }
  destruct (idx_slots _ _ _ Ef) as (_ & Hs & Hc).
  assert (Hlt : (Z.to_nat i < length (slots (kern (pth s))))%nat) by (by eapply lookup_lt_Some).
  rewrite run_get. destruct (has (sft_mode f) O_FCB && _) eqn:Eb.
  2:{ rewrite run_ret. apply (IH s (i + 1)); [done|done|lia|lia]. }
  apply andb_true_iff in Eb as [Em _]. destruct (closable _ i f HI Ef) as (k & Hk & HIk).
  rewrite run_assoc. erewrite run_eq by (unfold on_kern, on_pth, lift; by rewrite Hk). rewrite run_ret.
  set (s1 := set_pth _ s).
  destruct (DosCloseSft_slots i _ _ k f Hredir Ef Hk) as [Hm|[_ ?]]; [|done].
  assert (Hlow : lowered_by [] (slots (kern (pth s))) (slots k)).
  { destruct Hm as (c & m & o & _ & Hs' & E). split; [rewrite E; apply length_insert|].
    intros j cj mj oj Hj Hsj Hmj. cbn. rewrite Z.sub_0_r, E. rewrite list_lookup_insert_ne; [done|].
    intros Eij. assert (i = j) as -> by lia. unfold slots in Hsj. rewrite Hs in Hsj. injection Hsj as _ <- _. congruence. }
  destruct (IH s1 (i + 1)) as (s2 & H2 & HI2 & Ea2 & Ep2 & Ej2 & Hlow2); [|exact HIk|lia| |].
  - pose proof (ho_range _ Hok _ _ _ _ Hs). pose proof (ho_fcb _ Hok i _ _ _ Hi Hs Em) as H0.
    eapply (ok_moved (view_of s) _ (-1) i Hok); try done. intros c m o Hcm. cbn in Hcm.
    unfold slots in Hcm. rewrite Hs in Hcm. injection Hcm as <- _ _. lia.
  - cbn. rewrite (proj1 Hlow). lia.
  - exists s2. split; [done|]. split; [done|]. split; [done|]. split; [done|]. split; [done|].
    by apply (lowered_app [] [] _ _ _ Hlow).
Qed.

Lemma redirector_runs cmd arg s :
  I (kern (pth s)) -> exists rc s', network_redirector cmd arg s = Some (rc, s') /\ I (kern (pth s')) /\
    arena s' = arena s /\ view_of s' = view_of s.
Proof.
  intros HI. unfold network_redirector. rewrite run_get. unfold on_kern, on_pth, lift, kworld.
  pose proof (quiet _ cmd arg (cstr (PriPathName s)) (cstr (SecPathName s)) HI) as HI'.
  destruct (redir_path _ _ _ _ _) as [rc w]. eexists _, _. split; [reflexivity|]. by repeat split.
Qed.

(** The end of a process that does not stay resident. *)
Lemma end_process_runs t s p l o bs e :
  handles_ok (view_of s) -> I (kern (pth s)) -> cur_table s p l -> t <> 3 -> ps_parent p <> cu_psp_of s ->
  tiles (arena s) o bs e -> (forall r, o = Some r -> b_psp r <> cu_psp_of s) ->
  exists s', end_process t s = Some (tt, s') /\ cu_psp_of s' = ps_parent p /\ psps s' = psps s /\
    jfts s' = <[ps_filetab p := replicate (Z.to_nat (ps_maxfiles p)) 0xff ++ drop (Z.to_nat (ps_maxfiles p)) l]> (jfts s) /\
    lowered_by (table (jfts s) p) (slots (kern (pth s))) (slots (kern (pth s'))) /\
    tiles (arena s') o (map (released (cu_psp_of s)) bs) e.
Proof.
  intros Hok HI Hcur Ht Hpar Htl Hown. pose proof Hcur as [Hp Hl].
  destruct (ho_tab _ Hok _ _ Hp) as (Hm & _).
  unfold end_process, cur_psp at 1, psp_at. rewrite run_assoc, run_get, run_assoc, run_get, Hp, run_opt, run_get.
  destruct (redirector_runs REM_PROCESS_END 0 s HI) as (r1 & s1 & H1 & HI1 & Ea1 & V1).
  rewrite (run_eq _ _ _ _ _ H1), (proj2 (Z.eqb_neq _ _) Ht), (proj2 (Z.eqb_neq _ _) Hpar). cbn [negb andb].
  destruct (redirector_runs REM_CLOSEALL 0 s1 HI1) as (r2 & s2 & H2 & HI2 & Ea2 & V2).
  rewrite run_assoc, (run_eq _ _ _ _ _ H2). rewrite V1 in V2. rewrite Ea1 in Ea2. clear H2 H1 HI1 Ea1 V1.
  injection V2 as Es Ep Ej Ec. assert (Hok2 : handles_ok (view_of s2)) by (unfold view_of; by rewrite Es, Ep, Ej, Ec).
  destruct (close_loop_runs (Z.to_nat (ps_maxfiles p)) s2 p l 0) as (s3 & l3 & H3 & HI3 & Ea3 & Ep3 & Ej3 & El3 & Hlow3);
    [done|done|split; [by rewrite Ep, Ec|by rewrite Ej]|lia|lia|].
  rewrite run_assoc, (run_eq _ _ _ _ _ H3).
  destruct (close_loop_ok Hredir _ _ _ _ _ Hok2 H3) as (Hok3 & _ & Ec3).
  destruct (fcb_close_loop_runs (S (length (concat (sfthead (fs (kern (pth s3))))))) s3 0)
    as (s4 & H4 & HI4 & Ea4 & Ep4 & Ej4 & Hlow4); [done|done|lia|unfold slots, slots_of; rewrite length_fmap; cbn; lia|].
  rewrite run_assoc. unfold FcbCloseAll. rewrite run_assoc, run_get, (run_eq _ _ _ _ _ H4), run_assoc, run_get.
  assert (Ea : arena s4 = arena s) by congruence. assert (Ec4 : cu_psp_of s4 = cu_psp_of s) by (unfold cu_psp_of; by rewrite Ea).
  rewrite Ec4. destruct (FreeProcessMem_tiles (cu_psp_of s) (arena s4) o bs e) as (a5 & H5 & Ht5 & _);
    [by rewrite Ea|done|].
  rewrite run_assoc. erewrite run_eq by (unfold on_arena; by rewrite H5). rewrite run_ret.
  eexists. split; [reflexivity|]. split; [done|]. cbn. split; [congruence|]. split.
  { rewrite Ej4, Ej3, El3, Ej. done. }
  split; [|by eapply tiles_globals, Ht5]. rewrite Es in Hlow3. unfold table. rewrite Hl.
  rewrite <- (app_nil_r (take _ _)). by apply (lowered_app _ _ _ _ _ Hlow3 Hlow4).
Qed.

(** A process that stays resident, or is its own parent, keeps what it has. *)
Lemma end_process_stays t s p :
  I (kern (pth s)) -> psps s !! cu_psp_of s = Some p -> t = 3 \/ ps_parent p = cu_psp_of s ->
  exists s', end_process t s = Some (tt, s') /\ cu_psp_of s' = ps_parent p /\ psps s' = psps s /\ jfts s' = jfts s /\
    slots (kern (pth s')) = slots (kern (pth s)) /\ (forall o bs e, tiles (arena s) o bs e -> tiles (arena s') o bs e).
Proof.
  intros HI Hp Ht. unfold end_process. rewrite (run_eq _ _ _ _ _ (cur_psp_run s p Hp)), run_get.
  destruct (redirector_runs REM_PROCESS_END 0 s HI) as (r1 & s1 & H1 & HI1 & Ea1 & V1).
  rewrite (run_eq _ _ _ _ _ H1). injection V1 as Es Ep Ej Ec.
  replace (negb (t =? 3) && negb (ps_parent p =? cu_psp_of s)) with false
    by (destruct Ht as [-> | ->]; rewrite ?Z.eqb_refl, ?andb_false_r; done).
  rewrite run_ret. eexists. split; [reflexivity|]. split; [done|]. do 3 (split; [done|]).
  intros o bs e H. cbn. by eapply tiles_globals, (eq_ind _ (fun a => tiles a o bs e) H _ (eq_sym Ea1)).
Qed.
End Run.
#[global] Arguments Closable {M R} I.

(** ** Duplicating *)

Section Dup.
Context {M : Machine} {Sh : Shell} {R : Redirector}.

(** [memchr] finds the first one. *)
Lemma memchr_first l c i (n k : nat) :
  (k < n)%nat -> l !! k = Some c -> (forall j, (j < k)%nat -> l !! j <> Some c) ->
  memchr l c i n = Some (Some (i + Z.of_nat k)).
Proof.
  revert i n k. induction l as [|x l IH]; intros i [|n] [|k] Hk Hl Hf; try (done || lia); cbn [memchr].
  - injection Hl as ->. rewrite Z.eqb_refl. do 2 f_equal. lia.
  - destruct (Z.eqb_spec x c) as [->|Hne]; [by destruct (Hf 0%nat ltac:(lia))|].
    rewrite (IH (i + 1) n k ltac:(lia) Hl); [do 2 f_equal; lia|]. intros j Hj. apply (Hf (S j)). lia.
Qed.
(** The first free handle of the current program. *)
Lemma get_free_hndl_run s p l n :
  cur_table s p l -> 0 <= n < ps_maxfiles p -> l !! Z.to_nat n = Some 0xff ->
  (forall j, 0 <= j < n -> l !! Z.to_nat j <> Some 0xff) -> get_free_hndl s = Some (n, s).
Proof.
  intros [Hp Hl] Hn Hfree Hfirst. unfold get_free_hndl. rewrite (run_eq _ _ _ _ _ (cur_psp_run s p Hp)), run_get.
  rewrite Hl, run_opt, (memchr_first l 0xff 0 _ (Z.to_nat n)); [|lia|done|].
  - rewrite run_opt. by replace (0 + Z.of_nat (Z.to_nat n)) with n by lia.
  - intros j Hj. rewrite <- (Nat2Z.id j). apply Hfirst. lia.
Qed.

Lemma get_sft_run s p l h i f :
  cur_table s p l -> 0 <= h < ps_maxfiles p -> l !! Z.to_nat h = Some i -> i <> 0xff ->
  idx_to_sft (sfthead (fs (kern (pth s)))) i = Some f -> get_sft h s = Some (Some (i, f), s).
Proof.
  intros Hcur Hh Hi Hne Hf. unfold get_sft. rewrite (run_eq _ _ _ _ _ (get_sft_idx_run s p l h i Hcur Hh Hi)).
  rewrite (proj2 (Z.eqb_neq _ _) Hne), (run_eq _ _ _ _ _ (in_use_run s i)), Hf. done.
Qed.

(** A free handle gets the entry of another. *)
Lemma DosForceDup_free s p l h n i f :
  cur_table s p l -> 0 <= h < ps_maxfiles p -> l !! Z.to_nat h = Some i -> i <> 0xff -> 0 <= i < 256 ->
  idx_to_sft (sfthead (fs (kern (pth s)))) i = Some f -> 0 <= n -> l !! Z.to_nat n = Some 0xff ->
  exists s', DosForceDup h n s = Some (SUCCESS, s') /\ psps s' = psps s /\ cu_psp_of s' = cu_psp_of s /\
    jfts s' = <[ps_filetab p := <[Z.to_nat n := i]> l]> (jfts s) /\
    moved 1 i (slots (kern (pth s))) (slots (kern (pth s'))).
Proof.
  intros Hcur Hh Hi Hne Hib Hf Hn Hfree. pose proof Hcur as [Hp Hl]. unfold DosForceDup.
  rewrite (run_eq _ _ _ _ _ (cur_psp_run s p Hp)), (run_eq _ _ _ _ _ (get_sft_run s p l h i f Hcur Hh Hi Hne Hf)).
  rewrite (run_eq _ _ _ _ _ (filetab_run s p l n _ Hl Hn Hfree)), Z.eqb_refl. cbn [negb]. rewrite run_ret, Z.eqb_refl. cbn [negb].
  rewrite (run_eq _ _ _ _ _ (filetab_run s p l h i Hl (proj1 Hh) Hi)).
  rewrite (run_eq _ _ _ _ _ (set_filetab_run s p l n _ i Hl Hn Hfree)), u8_small by done.
  destruct (idx_slots _ _ _ Hf) as (Hi0 & Hs & _).
  eexists. split; [reflexivity|]. do 3 (split; [done|]).
  eapply (count_moved 1 i (kern (pth s)) tt); [done|exact Hs|reflexivity].
Qed.
End Dup.

(** ** Handles that a child inherits *)

Section Clone.
Context {M : Machine} {Sh : Shell} {R : Redirector}.

(** What the child gets for handle [h] of its parent: the entry, unless it is
    not to be inherited. *)
Definition inherited (sl : list (Z * Z * Z)) (q : psp) (lq : list Z) (h : Z) : Z :=
  if ps_maxfiles q <=? h then 0xff else
  match lq !! Z.to_nat h with
  | None => 0xff
  | Some i => match sl !! Z.to_nat i with
              | Some (_, m, _) => if has m O_NOINHERIT then 0xff else i
              | None => 0xff
              end
  end.

(** The counts with the entries of [g] counted once more. *)
Definition counted (g : list Z) (l l' : list (Z * Z * Z)) : Prop :=
  length l' = length l /\
  forall i c m o, 0 <= i < 255 -> l !! Z.to_nat i = Some (c, m, o) -> l' !! Z.to_nat i = Some (c + occ i g, m, o).

Lemma occ_le_length i l : occ i l <= Z.of_nat (length l).
Proof. induction l as [|x l IH]; cbn [occ length]; [lia|]. pose proof (eq1_range x i). lia. Qed.

(** A table whose handles refer to entries that are in use. *)
Definition handles_in (sl : list (Z * Z * Z)) (q : psp) (lq : list Z) : Prop :=
  (length sl <= 255)%nat /\ ps_maxfiles q <= Z.of_nat (length lq) /\
  forall h i, 0 <= h < ps_maxfiles q -> lq !! Z.to_nat h = Some i -> i <> 0xff ->
    0 <= i < 255 /\ exists c m o, sl !! Z.to_nat i = Some (c, m, o) /\ 1 <= c.

Lemma handles_in_ok s q lq :
  handles_ok (view_of s) -> cur_table s q lq -> handles_in (slots (kern (pth s))) q lq.
Proof.
  intros Hok [Hq Hl]. destruct (ho_tab _ Hok _ _ Hq) as (_ & l & Hl' & Hlen & _). cbn in Hl'.
  assert (l = lq) as -> by congruence. split; [apply (ho_entries _ Hok)|]. split; [done|].
  intros h i Hh Hi Hne. destruct (handle_entry _ _ _ _ _ _ Hok Hq Hl Hh Hi Hne) as (Hr & c & m & o & Hs & Hle & Hpos).
  split; [done|]. exists c, m, o. split; [done|lia].
Qed.

Lemma handles_in_counted g sl sl' q lq : handles_in sl q lq -> counted g sl sl' -> handles_in sl' q lq.
Proof.
  intros (H1 & H2 & H3) [Hlen Hc]. split; [lia|]. split; [done|]. intros h i Hh Hi Hne.
  destruct (H3 h i Hh Hi Hne) as (Hr & c & m & o & Hs & Hp). split; [done|].
  exists (c + occ i g), m, o. split; [by apply Hc|]. pose proof (occ_nonneg i g). lia.
Qed.

Lemma inherited_counted g sl sl' q lq h :
  handles_in sl q lq -> counted g sl sl' -> 0 <= h -> inherited sl' q lq h = inherited sl q lq h.
Proof.
  intros (H1 & _ & H3) [Hlen Hc] Hh. unfold inherited. destruct (_ <=? h) eqn:E; [done|]. zbool.
  destruct (lq !! _) as [i|] eqn:Ei; [|done]. destruct (decide (i = 0xff)) as [->|Hne].
  - rewrite !(proj2 (lookup_ge_None _ _)); [done|change (Z.to_nat 255) with 255%nat; lia..].
  - destruct (H3 h i ltac:(lia) Ei Hne) as (Hr & c & m & o & Hs & _). by rewrite (Hc _ _ _ _ Hr Hs), Hs.
Qed.

Lemma CloneHandle_run s q lq h :
  cur_table s q lq -> handles_in (slots (kern (pth s))) q lq -> 0 <= h ->
  let x := inherited (slots (kern (pth s))) q lq h in
  x = 0xff /\ CloneHandle h s = Some (DE_INVLDHNDL, s) \/
  0 <= x < 255 /\ h < ps_maxfiles q /\ lq !! Z.to_nat h = Some x /\
  exists s', CloneHandle h s = Some (SUCCESS, s') /\ psps s' = psps s /\ jfts s' = jfts s /\ arena s' = arena s /\
    moved 1 x (slots (kern (pth s))) (slots (kern (pth s'))).
Proof.
  cbn zeta. intros Hcur (Hlen & Hmax & Hin) Hh. pose proof Hcur as [Hq Hl]. unfold inherited, CloneHandle.
  destruct (_ <=? h) eqn:E; zbool.
  { left. split; [done|]. unfold get_sft, get_sft_idx. rewrite !run_assoc, (run_eq _ _ _ _ _ (cur_psp_run s q Hq)).
    by rewrite (proj2 (Z.leb_le _ _)). }
  destruct (lookup_lt_is_Some_2 lq (Z.to_nat h)) as [i Hi]; [lia|]. rewrite Hi.
  destruct (decide (i = 0xff)) as [->|Hne].
  { left. rewrite (proj2 (lookup_ge_None _ _)) by (change (Z.to_nat 255) with 255%nat; lia). split; [done|].
    unfold get_sft. rewrite run_assoc, (run_eq _ _ _ _ _ (get_sft_idx_run s q lq h _ Hcur ltac:(lia) Hi)). done. }
  destruct (Hin h i ltac:(lia) Hi Hne) as (Hr & c & m & o & Hs & Hc). rewrite Hs.
  destruct (slot_in_use _ _ c m o (proj1 Hr) Hs ltac:(lia)) as (f & Hf & Ef).
  rewrite (run_eq _ _ _ _ _ (get_sft_run s q lq h i f Hcur ltac:(lia) Hi Hne Hf)).
  assert (Em : sft_mode f = m) by (unfold slot in Ef; congruence). rewrite Em.
  destruct (has m O_NOINHERIT); [by left|right]. split; [done|]. split; [done|]. split; [done|].
  eexists. split; [reflexivity|]. do 3 (split; [done|]).
  eapply (count_moved 1 i (kern (pth s)) tt); [lia|exact Hs|reflexivity].
Qed.

Lemma moved_counted g x sl sl1 sl2 :
  counted g sl sl1 -> moved 1 x sl1 sl2 -> 0 <= x < 255 ->
  (forall i c m o, sl !! i = Some (c, m, o) -> 0 <= c /\ c + Z.of_nat (length g) + 1 < 32768) -> counted (g ++ [x]) sl sl2.
Proof.
  intros [Hlen Hc] (c1 & m1 & o1 & _ & Hs1 & ->) Hx Hroom. split; [by rewrite length_insert|].
  intros i c m o Hi Hs. rewrite occ_app. cbn [occ]. destruct (decide (i = x)) as [->|Hne].
  - rewrite list_lookup_insert_eq by (by eapply lookup_lt_Some). rewrite (Hc _ _ _ _ Hi Hs) in Hs1. injection Hs1 as <- <- <-.
    destruct (Hroom _ _ _ _ Hs). pose proof (occ_le_length x g). pose proof (occ_nonneg x g).
    rewrite eq1_refl, s16_small by lia. do 3 f_equal. lia.
  - rewrite list_lookup_insert_ne, eq1_ne by lia. rewrite (Hc _ _ _ _ Hi Hs). do 3 f_equal. lia.
Qed.

Lemma counted_free g sl sl1 : counted g sl sl1 -> counted (g ++ [0xff]) sl sl1.
Proof.
  intros [Hlen Hc]. split; [done|]. intros i c m o Hi Hs. rewrite occ_app. cbn [occ]. rewrite eq1_ne, (Hc _ _ _ _ Hi Hs) by lia.
  do 3 f_equal. lia.
Qed.

Lemma clone_loop_runs n h sl s q lq p child g :
  handles_in sl q lq -> cur_table s q lq -> ps_filetab p <> ps_filetab q -> jfts s !! ps_filetab p = Some child ->
  0 <= h -> h + Z.of_nat n = Z.of_nat (length child) ->
  (forall j, h <= j < Z.of_nat (length child) -> child !! Z.to_nat j = Some 0xff) ->
  counted g sl (slots (kern (pth s))) ->
  (forall i c m o, sl !! i = Some (c, m, o) -> 0 <= c /\ c + Z.of_nat (length g + n) < 32768) ->
  let new := inherited sl q lq <$> seqZ h (Z.of_nat n) in
  exists s', clone_loop n h p q s = Some (tt, s') /\ psps s' = psps s /\ arena s' = arena s /\
    jfts s' = <[ps_filetab p := take (Z.to_nat h) child ++ new]> (jfts s) /\
    counted (g ++ new) sl (slots (kern (pth s'))).
Proof.
  revert h s child g. induction n as [|n IH]; intros h s child g Hin Hcur Hne Hch Hh Hn Hfree Hg Hroom; cbn [clone_loop].
  { exists s. split; [reflexivity|]. do 2 (split; [done|]). change (Z.of_nat 0) with 0. rewrite seqZ_nil by lia. cbn.
    rewrite app_nil_r, take_ge, insert_id by (done || lia). split; [done|]. by rewrite app_nil_r. }
  rewrite seqZ_cons by lia. replace (Z.pred (Z.of_nat (S n))) with (Z.of_nat n) by lia. rewrite fmap_cons.
  pose proof (Hfree h ltac:(lia)) as Hfh. pose proof (lookup_lt_Some _ _ _ Hfh) as Hlh.
  assert (Hrn : forall i c m o, sl !! i = Some (c, m, o) -> 0 <= c /\ c + Z.of_nat (length g) + 1 < 32768)
    by (intros i c m o Hi; pose proof (Hroom i c m o Hi); lia).
  (* what one step must give to go on *)
  assert (Hgo : forall s1 x, (exists rc, CloneHandle h s = Some (rc, s1) /\ (rc = SUCCESS /\ lq !! Z.to_nat h = Some x /\ 0 <= x < 255 \/ rc < 0 /\ x = 0xff)) ->
    psps s1 = psps s -> jfts s1 = jfts s -> arena s1 = arena s -> counted (g ++ [x]) sl (slots (kern (pth s1))) ->
    exists s', clone_loop (S n) h p q s = Some (tt, s') /\ psps s' = psps s /\ arena s' = arena s /\
      jfts s' = <[ps_filetab p := take (Z.to_nat h) child ++ x :: (inherited sl q lq <$> seqZ (Z.succ h) (Z.of_nat n))]> (jfts s) /\
      counted (g ++ x :: (inherited sl q lq <$> seqZ (Z.succ h) (Z.of_nat n))) sl (slots (kern (pth s')))).
  { intros s1 x (rc & Hrun & Hx) Ep Ej Ea Hc1. set (child1 := <[Z.to_nat h := x]> child).
    assert (Hs2 : exists s2, (if 0 <=? rc then let! v := filetab q h in set_filetab p h v else kret tt) s1 = Some (tt, s2) /\
      psps s2 = psps s /\ arena s2 = arena s /\ jfts s2 = <[ps_filetab p := child1]> (jfts s) /\ slots (kern (pth s2)) = slots (kern (pth s1))).
    { destruct Hx as [(-> & Hx & Hxr)|[Hrc ->]].
      - change (0 <=? SUCCESS) with true. cbn iota. rewrite (run_eq _ _ _ _ _ (filetab_run s1 q lq h x ltac:(rewrite Ej; apply Hcur) Hh Hx)).
        rewrite (set_filetab_run s1 p child h 0xff x) by (done || by rewrite Ej). eexists. split; [reflexivity|]. split; [done|].
        split; [done|]. cbn. rewrite Ej, u8_small by lia. done.
      - rewrite (proj2 (Z.leb_gt 0 rc)) by lia. exists s1. split; [done|]. split; [done|]. split; [done|]. split; [|done].
        rewrite Ej. unfold child1. by rewrite list_insert_id, insert_id. }
    destruct Hs2 as (s2 & Hrun2 & Ep2 & Ea2 & Ej2 & Es2).
    destruct (IH (Z.succ h) s2 child1 (g ++ [x])) as (s' & H & Ep' & Ea' & Ej' & Hc'); try done.
    - destruct Hcur as [Hq Hl]. split; [unfold cu_psp_of in *; by rewrite Ep2, Ea2|]. by rewrite Ej2, lookup_insert_ne by done.
    - rewrite Ej2. apply lookup_insert_eq.
    - lia.
    - unfold child1. rewrite length_insert. lia.
    - unfold child1. rewrite length_insert. intros j Hj. rewrite list_lookup_insert_ne by lia. apply Hfree. lia.
    - by rewrite Es2.
    - intros i c m o Hi. rewrite length_app. cbn [length]. pose proof (Hroom i c m o Hi). lia.
    - exists s'. split; [cbn [clone_loop]; rewrite (run_eq _ _ _ _ _ Hrun), (run_eq _ _ _ _ _ Hrun2); exact H|].
      split; [congruence|]. split; [congruence|]. rewrite <- app_assoc in Hc'. split; [|exact Hc'].
      rewrite Ej', Ej2, insert_insert_eq. unfold child1. replace (Z.to_nat (Z.succ h)) with (S (Z.to_nat h)) by lia.
      rewrite (take_S_r _ _ x) by (by apply list_lookup_insert_eq). rewrite take_insert_ge, <- app_assoc by lia. done. }
  pose proof (CloneHandle_run s q lq h Hcur (handles_in_counted _ _ _ _ _ Hin Hg) Hh) as Hrun. cbn zeta in Hrun.
  rewrite (inherited_counted _ _ _ _ _ h Hin Hg Hh) in Hrun.
  destruct Hrun as [[-> Hrun]|(Hx & Hhm & Hl & s1 & Hrun & Ep & Ej & Ea & Hm)].
  - apply (Hgo s); try done; [|by apply counted_free]. exists DE_INVLDHNDL. split; [done|]. right. split; [unfold DE_INVLDHNDL; lia|done].
  - apply (Hgo s1); try done; [|by eapply moved_counted]. exists SUCCESS. split; [done|]. by left.
Qed.

Lemma child_psp_runs para s q lq :
  handles_ok (view_of s) -> room 20 s -> fresh para s -> cur_table s q lq ->
  let new := inherited (slots (kern (pth s))) q lq <$> seqZ 0 20 in
  exists s', child_psp para (cu_psp_of s) s = Some (tt, s') /\
    psps s' = <[para := Psp (cu_psp_of s) 20 para]> (psps s) /\ jfts s' = <[para := new]> (jfts s) /\
    arena s' = arena s /\ counted new (slots (kern (pth s))) (slots (kern (pth s'))).
Proof.
  cbn zeta. intros Hok Hroom [Hne Hfr] Hcur. pose proof Hcur as [Hq Hl].
  unfold child_psp, psp_at. rewrite run_assoc, run_get, Hq, run_opt, run_get, !run_mod. set (s1 := set_jfts _ _).
  pose proof (Hfr _ _ (not_eq_sym Hne) Hq) as Htab.
  destruct (clone_loop_runs 20 0 (slots (kern (pth s))) s1 q lq (Psp (cu_psp_of s) 20 para) (replicate 20 0xff) [])
    as (s' & H & Ep & Ea & Ej & Hc); try done.
  - by apply handles_in_ok.
  - split; cbn; [by rewrite lookup_insert_ne|]. by rewrite lookup_insert_ne.
  - cbn. apply lookup_insert_eq.
  - intros j Hj. apply lookup_replicate_2. cbn in Hj. lia.
  - split; [done|]. intros i c m o _ Hs. cbn. by rewrite Z.add_0_r.
  - intros i c m o Hi. pose proof (Hroom _ _ _ _ Hi). pose proof (ho_range _ Hok _ _ _ _ Hi). cbn. lia.
  - exists s'. split; [exact H|]. split; [done|]. split; [|done]. rewrite Ej. cbn. by rewrite insert_insert_eq.
Qed.
End Clone.

(** ** A larger table *)

Section Jft.
Context {M : Machine} {Sh : Shell} {R : Redirector}.

(** What [SetJFTSize] asks the memory manager for. *)
Definition jft_paras (n : Z) : Z := Z.shiftr (u16 (n + 0xf)) 4.

Lemma jft_fits n : 0 < n <= 0xffff -> (n <=? 16 * jft_paras n) = (n <? 0xfff1).
Proof.
  intros Hn. unfold jft_paras, u16. rewrite Z.shiftr_div_pow2 by lia. change (2 ^ 4) with 16.
  apply eq_true_iff_eq. rewrite Z.leb_le, Z.ltb_lt. Z.to_euclidean_division_equations. lia.
Qed.

Definition jft_table (p : psp) (l : list Z) (n : Z) : list Z :=
  take (Z.to_nat (ps_maxfiles p)) l ++ replicate (Z.to_nat (n - ps_maxfiles p)) 0xff.

Lemma SetJFTSize_runs s p l n bs e :
  let a := arena s in
  let mode := mem_access_mode a in
  handles_ok (view_of s) -> cur_table s p l -> ps_maxfiles p < n <= 0xffff ->
  chain (mem a) (search_start (jft_paras n) mode a) bs e -> mode <> LARGEST -> retries mode a = false ->
  match chosen_usable mode (jft_paras n) bs with
  | None => exists s', SetJFTSize n s = Some (DE_NOMEM, s') /\ view_of s' = view_of s
  | Some _ =>
      if n <? 0xfff1 then
        exists s' pre b rest, SetJFTSize n s = Some (SUCCESS, s') /\ slots (kern (pth s')) = slots (kern (pth s)) /\
          psps s' = <[cu_psp_of s := Psp (ps_parent p) n (b_seg b + 1)]> (psps s) /\
          jfts s' = <[b_seg b + 1 := jft_table p l n]> (jfts s) /\
          chain (mem (arena s')) (search_start (jft_paras n) mode a) (pre ++ b :: rest) e /\
          used bs = used pre ++ used rest /\ b_psp b = cu_psp_of s /\ n <= 16 * b_size b
      else SetJFTSize n s = None
  end.
Proof.
  cbn zeta. intros Hok Hcur Hn Hc Hmode Hret. pose proof Hcur as [Hp Hl].
  destruct (ho_tab _ Hok _ _ Hp) as (Hm & l0 & Hl0 & Hlen & _). cbn in Hl0. assert (l0 = l) as -> by congruence.
  assert (Hsize : 0 <= jft_paras n).
  { unfold jft_paras. apply Z.shiftr_nonneg. pose proof (u16_range (n + 0xf)). lia. }
  destruct (DosMemAlloc_run (arena s) (jft_paras n) (mem_access_mode (arena s)) true bs e Hc Hsize (fun _ => eq_refl) Hret)
    as (r & a' & Ha & Honly & Hpost).
  assert (Hrun : on_arena (DosMemAlloc (jft_paras n) (mem_access_mode (arena s)) true) s = Some (r, set_arena a' s))
    by (unfold on_arena; by rewrite Ha).
  pose proof (keeps_on_arena _ (keeps_DosMemAlloc _ _ _) _ _ _ Hrun) as V.
  unfold SetJFTSize. rewrite run_get, (run_eq _ _ _ _ _ (cur_psp_run s p Hp)), (proj2 (Z.leb_gt _ _)) by lia.
  change (Z.shiftr (u16 (n + 0xf)) 4) with (jft_paras n). rewrite (run_eq _ _ _ _ _ Hrun).
  destruct (chosen_usable _ _ _) as [bb|].
  2:{ destruct Hpost as [_ ->]. cbn [ar_rc]. change (DE_NOMEM <? 0) with true. cbn iota. by eexists. }
  destruct Hpost as (pre & b & rest & Hch & Hbp & Hbs & _ & _ & Hu & ->). cbn [ar_rc ar_para]. change (SUCCESS <? 0) with false.
  rewrite (proj2 (Z.eqb_neq _ _) Hmode) in Hbs.
  cbn iota. rewrite run_opt, Hl, run_opt, (jft_fits n) by lia.
  rewrite (proj2 (Z.leb_le (ps_maxfiles p) _)) by lia. cbn [andb].
  destruct (n <? 0xfff1) eqn:En; [|done]. pose proof (jft_fits n ltac:(lia)) as Hf. rewrite En in Hf. zbool.
  destruct (chain_bounded _ _ _ _ _ _ Hch) as ([Hb1 Hb2] & _). unfold b_end in Hb2.
  rewrite u16_small by lia. rewrite run_opt, !run_mod.
  eexists _, pre, b, rest. split; [reflexivity|]. split; [done|]. split; [|split; [done|]].
  - pose proof (f_equal v_cu V) as Ec. cbn in Ec |- *. unfold cu_psp_of in *. cbn in *. by rewrite Ec.
  - split; [done|]. split; [done|]. split; [done|]. lia.
Qed.
End Jft.

(** ** Devices can be closed *)

Section Devices.
Context {M : Machine} {R : Redirector}.

(** Only devices are open, whose drivers do not ask for a call. *)
Definition devices_only (s : kst) : Prop :=
  forall i f, idx_to_sft (sfthead (fs s)) i = Some f ->
    has (sft_flags f) SFT_FSHARED = false /\ has (sft_flags f) SFT_FDEVICE = true /\
    exists attr, dh_attr (env s) !! sft_dcb f = Some attr /\ has attr SFT_FOCRM = false.

Lemma idx_alter bs i j c f :
  0 <= i -> idx_to_sft (sft_upd bs i (fun f => set_sft_count (c f) f)) j = Some f ->
  idx_to_sft bs j = Some f \/ j = i /\ exists f0, concat bs !! Z.to_nat i = Some f0 /\ f = set_sft_count (c f0) f0.
Proof.
  intros Hi. unfold idx_to_sft. destruct (j <? 0) eqn:E; [done|]. zbool. rewrite !idx_concat, concat_sft_upd by lia.
  destruct (decide (j = i)) as [->|Hne].
  - rewrite list_lookup_alter_eq. destruct (concat bs !! _) as [f0|]; [|done]. cbn.
    destruct (c f0 =? 0); [done|]. intros [= <-]. right. eauto.
  - rewrite list_lookup_alter_ne by lia. by left.
Qed.

#[export] Instance devices_closable : Closable devices_only.
Proof.
  split; [|done]. intros s i f HI Hf. destruct (HI i f Hf) as (Hs & Hd & attr & Ha & Ho).
  destruct (idx_slots _ _ _ Hf) as (Hi & Hslot & Hc). unfold DosCloseSft. rewrite run_get, Hf, Hs, Hd, Ha, run_opt, Ho, run_ret.
  eexists. split; [reflexivity|]. intros j g Hg. cbn in Hg |- *.
  apply idx_alter in Hg as [Hg|[-> (f0 & Hf0 & ->)]]; [by apply HI in Hg| |done].
  unfold idx_to_sft in Hf. rewrite (proj2 (Z.ltb_ge i 0)), idx_concat, Hf0 in Hf by lia.
  destruct (sft_count f0 =? 0); [done|]. injection Hf as ->. cbn. eauto.
Qed.
End Devices.
End HandleRun.
