(* ===== verification/Chario.v ===== *)
(** * Character devices and the console (kernel/chario.c, break.c)

    The functions of this file call each other in a circle: output looks for
    Ctrl-C, Ctrl-C is shown by output, and the line editor reads and writes
    files.  Each gets the others as a record [svc], and [knot] ties them with
    fuel.  A run that needs more fuel than it has still waits for the keyboard:
    it ends in [Wait], which is not an error.  [Int23] is the end of a call that
    Ctrl-C interrupted: the kernel goes to the program's handler and never
    comes back. *)

From S2P Require Import Prelude Memmgr KState BlockIO FatTab FNode FatAlloc Clock Media FatDir FatFile FatRw.
From S2P Require Import Path Handle.
Import Mm Ks Bio Fat FNode Alloc Clk Media Dir File Rw Path Handle.

Module Chario.

Definition C_NDREAD := 0x05.
Definition C_ISTAT := 0x06.
Definition C_IFLUSH := 0x07.
Definition S_BUSY := 0x0200.
Definition ATTR_FASTCON := 0x0010.
Definition XFR_FORCE_WRITE := 3.
Definition CTL_C := 0x03.
Definition CTL_F := 0x06.
Definition BELL := 0x07.
Definition BS := 0x08.
Definition HT := 0x09.
Definition LF := 0x0a.
Definition CR := 0x0d.
Definition CTL_S := 0x13.
Definition CTL_Z := 0x1a.
Definition ESC := 0x1b.
Definition CTL_BS := 0x7f.
Definition INS := 0x5200.
Definition DEL := 0x5300.
Definition F1 := 0x3b00.
Definition F2 := 0x3c00.
Definition F3 := 0x3d00.
Definition F4 := 0x3e00.
Definition F5 := 0x3f00.
Definition F6 := 0x4000.
Definition LEFT := 0x4b00.
Definition RIGHT := 0x4d00.
Definition STDIN := 0.
Definition STDOUT := 1.
Definition STDPRN := 4.
Definition SFT_FBINARY := 0x0020.
Definition SFT_FNUL := 0x0004.
Definition SFT_FCONOUT := 0x0002.
Definition SFT_FCONIN := 0x0001.
Definition LINEBUFSIZECON := 128.
Definition LINEBUFSIZE0A := 256.
Definition CB_MSK := 0x80.

(** ** The state *)

(** [linebuf] is the memory from [local_buffer] on: its 128 bytes, then
    [kb_buf] with its size, its count and 129 bytes.  [local_buffer] is used to
    256 bytes, over [kb_buf].  [inputptr] is an offset in this memory;
    [ubuf] is the buffer at DS:DX of function 0Ah, with its two bytes. *)
Record con := Con {
  linebuf : list Z;
  inputptr : option Z;
  ubuf : list Z;
  PrinterEcho : bool;
  scr_pos : Z;
  CB_FLG : Z;
  InDOS : Z;
  ErrorMode : bool;
  syscon : Z;
  user_AH : Z }.
Definition KB_BUF := 128.

Definition set_linebuf v (c : con) : con :=
  Con v (inputptr c) (ubuf c) (PrinterEcho c) (scr_pos c) (CB_FLG c) (InDOS c) (ErrorMode c) (syscon c) (user_AH c).
Definition set_inputptr v (c : con) : con :=
  Con (linebuf c) v (ubuf c) (PrinterEcho c) (scr_pos c) (CB_FLG c) (InDOS c) (ErrorMode c) (syscon c) (user_AH c).
Definition set_ubuf v (c : con) : con :=
  Con (linebuf c) (inputptr c) v (PrinterEcho c) (scr_pos c) (CB_FLG c) (InDOS c) (ErrorMode c) (syscon c) (user_AH c).
Definition set_scr_pos v (c : con) : con :=
  Con (linebuf c) (inputptr c) (ubuf c) (PrinterEcho c) v (CB_FLG c) (InDOS c) (ErrorMode c) (syscon c) (user_AH c).
Definition set_CB_FLG v (c : con) : con :=
  Con (linebuf c) (inputptr c) (ubuf c) (PrinterEcho c) (scr_pos c) v (InDOS c) (ErrorMode c) (syscon c) (user_AH c).
Definition set_InDOS v (c : con) : con :=
  Con (linebuf c) (inputptr c) (ubuf c) (PrinterEcho c) (scr_pos c) (CB_FLG c) v (ErrorMode c) (syscon c) (user_AH c).

Record cst {M : Machine} := Cst { hn : hst; cn : con }.

(** Outside the C code: INT 28h (idle) and INT 29h (fast output), reading
    and writing over the network, SHARE's check of an access, and what an
    [unsigned] on the stack holds that was not stored yet. *)
Class Console {M : Machine} := {
  int28 : world -> world;
  int29 : Z -> world -> world;
  remote_rw : bool -> sft -> Z -> list Z -> world -> Z * list Z * world;
  share_access_check : Z -> Z -> Z -> Z -> world -> Z * world;
  stack_word : world -> Z;
  stack_at : Z * Z }.

(** ** Runs that Ctrl-C can end *)

Inductive outcome A := Ret (a : A) | Int23 | Wait.
#[global] Arguments Ret {A} a.
#[global] Arguments Int23 {A}.
#[global] Arguments Wait {A}.

Definition cret {S A} (a : A) : K S (outcome A) := kret (Ret a).
Definition cbind {S A B} (m : K S (outcome A)) (f : A -> K S (outcome B)) : K S (outcome B) := fun s =>
  match m s with
  | Some (Ret a, s) => f a s
  | Some (Int23, s) => Some (Int23, s)
  | Some (Wait, s) => Some (Wait, s)
  | None => None
  end.

Lemma crun_eq {S A B} (m : K S (outcome A)) (f : A -> K S (outcome B)) s a s' :
  m s = Some (Ret a, s') -> cbind m f s = f a s'.
Proof. intros H. unfold cbind. by rewrite H. Qed.
Lemma crun_ret {S A B} (a : A) (f : A -> K S (outcome B)) s : cbind (cret a) f s = f a s.
Proof. done. Qed.
Lemma crun_assoc {S A B D} (m : K S (outcome A)) (f : A -> K S (outcome B)) (g : B -> K S (outcome D)) s :
  cbind (cbind m f) g s = cbind m (fun a => cbind (f a) g) s.
Proof. unfold cbind. destruct (m s) as [[[]]|]; done. Qed.

Section Monad.
Context {M : Machine}.
Definition C (A : Type) : Type := K cst (outcome A).
Definition cget : C cst := fun s => Some (Ret s, s).
Definition cmod (f : con -> con) : C unit := fun s => Some (Ret tt, Cst M (hn s) (f (cn s))).
Definition copt {A} (o : option A) : C A := fun s => match o with Some a => Some (Ret a, s) | None => None end.
Definition on_hst {A} (m : K hst A) : C A := fun s =>
  match m (hn s) with Some (a, h) => Some (Ret a, Cst M h (cn s)) | None => None end.
Definition on_k {A} (m : K kst A) : C A := on_hst (on_kern m).
End Monad.
Notation "'con!' x ':=' m 'in' k" := (cbind m (fun x => k))
  (at level 200, x binder, m at level 100, k at level 200).
Notation "'con_' m 'in' k" := (cbind m (fun _ => k)) (at level 200, m at level 100, k at level 200).

(** What the functions call. *)
Record svc {M : Machine} := Svc {
  k_check_break : Z -> C Z;
  k_read : Z -> Z -> Z -> bool -> C Z;
  k_rw : Z -> Z -> Z * Z -> list Z -> Z -> C (Z * list Z) }.

Section Chario.
Context {M : Machine} {Sh : Shell} {R : Redirector} {Cn : Console}.

(** ** Requests *)

(** The character, 256 when nothing was transferred, or the error. *)
Definition CharIO (dv ch command : Z) : K kst Z :=
  let! r := BinaryCharIO dv 1 [ch] command in
  let '(err, buf) := r in
  if err =? 0 then kret 256
  else if err <? 0 then kret err
  else kopt (buf !! 0%nat).

Fixpoint cmd_loop (fuel : nat) (dv command : Z) : K kst unit :=
  match fuel with
  | O => kstuck
  | S fuel =>
      let! r := CharRequest dv command [] in
      if fst r =? 1 then cmd_loop fuel dv command else kret tt
  end.
Definition CharCmd (dv command : Z) : K kst unit := cmd_loop xfer_fuel dv command.

Definition char_status : K kst Z := let! s := kget in kret (r_status (CharReqHdr (drv s))).
Definition Busy (dv : Z) : K kst bool :=
  do! CharCmd dv C_NDREAD in
  let! st := char_status in
  do! (if has st S_ERROR then CharCmd dv C_ISTAT else kret tt) in
  let! st := char_status in
  kret (has st S_BUSY).

Definition con_flush (dv : Z) : K kst unit := if dv =? 0 then kstuck else CharCmd dv C_IFLUSH.

(** [r_ndbyte] is where [r_meddesc] is. *)
Definition ndread (dv : Z) : K kst Z :=
  do! CharCmd dv C_NDREAD in
  let! s := kget in
  let rq := CharReqHdr (drv s) in
  kret (if has (r_status rq) S_BUSY then -1 else r_meddesc rq).

(** The entry of an index, and its device: [NULL] for a file. *)
Definition con_sft (idx : Z) : C (option sft) := on_hst (in_use idx).
Definition sft_to_dev (s : option sft) : C Z :=
  con! c := cget in
  cret (match s with
        | None => syscon (cn c)
        | Some f => if has (sft_flags f) SFT_FDEVICE then sft_dcb f else 0
        end).

Definition StdinBusy : C bool :=
  con! idx := on_hst (get_sft_idx STDIN) in
  con! s := con_sft idx in
  con! dv := sft_to_dev s in
  if negb (dv =? 0) then on_k (Busy dv) else
  match s with
  | Some f => cret (sft_size f <=? sft_posit f)
  | None => copt None
  end.

(** ** Output *)

Definition scr_after (scrpos c count : Z) : Z :=
  if c =? CR then 0
  else if c =? BS then (if 0 <? scrpos then scrpos - 1 else scrpos)
  else if negb (c =? LF) && negb (c =? BELL) then u8 (scrpos + count)
  else scrpos.
Definition update_scr_pos (c count : Z) : C unit := cmod (fun s => set_scr_pos (scr_after (scr_pos s) c count) s).
Definition get_scr_pos : C Z := con! s := cget in cret (scr_pos (cn s)).

(** A tab is blanks to the next multiple of 8. *)
Definition tab_count (scrpos : Z) : Z := 8 - Z.land scrpos 7.

Definition fast_put_char (c : Z) : C unit := on_k (kworld (fun w => (tt, int29 c w))).

(** [DosWrite(STDPRN, 1, &c)] and its like. *)
Definition dos_write1 (k : svc) (hndl c : Z) : C unit :=
  con! idx := on_hst (get_sft_idx hndl) in
  con_ k_rw k idx 1 stack_at [c] XFR_WRITE in
  cret tt.

(** The [do ... while (--count != 0)]: the counter, or the error. *)
Fixpoint put_loop (k : svc) (dv c : Z) (count : nat) (fast_counter : Z) : C (Z + Z) :=
  match count with
  | O => cret (inl fast_counter)
  | S count =>
      con_ (if fast_counter <=? 0x80 then
              con! b := k_check_break k dv in
              if b =? CTL_S then con_ k_read k (-1) (-1) dv true in cret tt else cret tt
            else cret tt) in
      let fast_counter := Z.land (u8 (fast_counter + 1)) 0x9f in
      con! s := cget in
      con_ (if PrinterEcho (cn s) then dos_write1 k STDPRN c else cret tt) in
      con! err := (if has fast_counter 0x80 then con_ fast_put_char c in cret 0
                   else on_k (CharIO dv c C_OUTPUT)) in
      if err <? 0 then cret (inr err) else put_loop k dv c count fast_counter
  end.

Fixpoint write_loop (k : svc) (dv : Z) (bp : list Z) (xfer fast_counter : Z) : C Z :=
  match bp with
  | [] => cret xfer
  | c :: bp =>
      if c =? CTL_Z then cret xfer else
      con! pos := get_scr_pos in
      let '(c, count) := if c =? HT then (0x20, tab_count pos) else (c, 1) in
      con_ update_scr_pos c count in
      con! r := put_loop k dv c (Z.to_nat count) fast_counter in
      match r with
      | inr err => cret err
      | inl fast_counter => write_loop k dv bp (xfer + 1) fast_counter
      end
  end.

Definition cooked_write (k : svc) (dv n : Z) (bp : list Z) : C Z :=
  con! s := cget in
  con! attr := copt (dh_attr (env (kern (pth (hn s)))) !! dv) in
  con! l := copt (if (0 <=? n) && (n <=? Z.of_nat (length bp)) then Some (take (Z.to_nat n) bp) else None) in
  write_loop k dv l 0 (u8 (Z.shiftl (Z.land attr ATTR_FASTCON) 3)).

Definition write_char (k : svc) (c sft_idx : Z) : C unit :=
  con_ k_rw k sft_idx 1 stack_at [u8 c] XFR_FORCE_WRITE in cret tt.

Fixpoint repeat_char (k : svc) (n : nat) (c : Z) : C unit :=
  match n with
  | O => cret tt
  | S n =>
      con! idx := on_hst (get_sft_idx STDOUT) in
      con_ write_char k c idx in
      repeat_char k n c
  end.
Definition write_char_stdout (k : svc) (c : Z) : C unit :=
  con! idx := on_hst (get_sft_idx STDOUT) in
  con! s := con_sft idx in
  con! f := copt s in
  let flags := sft_flags f in
  if negb (Z.land flags (Z.lor SFT_FDEVICE SFT_FBINARY) =? SFT_FDEVICE) then
    con! pos := get_scr_pos in
    let '(c, count) := if c =? HT then (0x20, tab_count pos) else (c, 1) in
    con_ (if negb (Z.land flags (Z.lor SFT_FDEVICE SFT_FCONOUT) =? Z.lor SFT_FDEVICE SFT_FCONOUT)
          then update_scr_pos c count else cret tt) in
    repeat_char k (Z.to_nat count) c
  else repeat_char k 1 c.

Definition iscntrl (c : Z) : bool := u8 c <? 0x20.
Definition echo_char (k : svc) (c sft_idx : Z) : C Z :=
  con! out := (if iscntrl c && negb (c =? HT) && negb (c =? LF) && negb (c =? CR)
               then con_ write_char k 0x5e sft_idx in cret (c + 0x40) else cret c) in
  con_ write_char k out sft_idx in
  cret c.
Definition destr_bs (k : svc) (sft_idx : Z) : C unit :=
  con_ write_char k BS sft_idx in
  con_ write_char k 0x20 sft_idx in
  write_char k BS sft_idx.

(** ** Ctrl-C (kernel/break.c) *)

Definition ctrl_break_pressed : C bool := con! s := cget in cret (has (CB_FLG (cn s)) CB_MSK).

(** It does not come back. *)
Definition handle_break {A} (k : svc) (dv sft_out : Z) : C A :=
  let buf := [0x5e; 0x43; CR; LF] in
  con_ cmod (fun s => set_CB_FLG (clear (CB_FLG s) CB_MSK) s) in
  con_ on_k (con_flush dv) in
  con_ (if sft_out =? -1 then cooked_write k dv 4 buf
        else con! r := k_rw k sft_out 4 stack_at buf XFR_FORCE_WRITE in cret (fst r)) in
  con_ cmod (fun s => if negb (ErrorMode s) && negb (InDOS s =? 0) then set_InDOS (u8 (InDOS s - 1)) s else s) in
  kret Int23.

Definition check_handle_break (k : svc) (dv : Z) : C Z :=
  con! pressed := ctrl_break_pressed in
  con! s := cget in
  let sys := syscon (cn s) in
  con! c := (if negb pressed then con! c := on_k (ndread sys) in cret (u8 c) else cret CTL_C) in
  con! c := (if negb (c =? CTL_C) && negb (dv =? sys) then con! c := on_k (ndread dv) in cret (u8 c) else cret c) in
  if c =? CTL_C then handle_break k dv (-1) else cret c.

(** ** Input *)

Definition read_char (k : svc) (sft_in sft_out : Z) (check_break : bool) : C Z :=
  con! s := con_sft sft_in in
  con! dv := sft_to_dev s in
  con! c := k_read k sft_in sft_out dv check_break in
  cret (u8 c).

(** One round of the wait for a device: a character, or the next round. *)
Definition wait_char (k : svc) (sft_in sft_out dv : Z) (check_break : bool) : C (option Z) :=
  con! pressed := ctrl_break_pressed in
  if pressed then cret (Some CTL_C) else
  con! busy := on_k (Busy dv) in
  if negb busy then con! c := on_k (CharIO dv 0 C_INPUT) in cret (Some (u16 c)) else
  con! s := cget in
  con_ (if check_break && negb (dv =? syscon (cn s)) then con_ k_check_break k (syscon (cn s)) in cret tt else cret tt) in
  con_ (if user_AH (cn s) <? 0xd then on_k (kworld (fun w => (tt, int28 w))) else cret tt) in
  cret None.

(** The character is an [unsigned]; a device error is one above 8000h. *)
Definition read_char_sft_dev (k : svc) (sft_in sft_out dv : Z) (check_break : bool) : C Z :=
  con! c :=
    (if negb (dv =? 0) then wait_char k sft_in sft_out dv check_break
     else
       con! s := cget in
       let junk := stack_word (dev (kern (pth (hn s)))) in
       con! r := k_rw k sft_in 1 stack_at [u8 junk] XFR_READ in
       con! b := copt (snd r !! 0%nat) in
       cret (Some (Z.lor (clear junk 0xff) b))) in
  match c with
  | None => k_read k sft_in sft_out dv check_break
  | Some c =>
      if check_break && ((c =? CTL_C) || (c =? CTL_S)) then
        con! c := (if c =? CTL_S then k_read k sft_in sft_out dv false else cret c) in
        if c =? CTL_C then handle_break k dv sft_out else
        read_char k sft_in sft_out false
      else cret c
  end.

Definition raw_get_char (k : svc) (dv : Z) (check_break : bool) : C Z := k_read k (-1) (-1) dv check_break.

(** The bytes read, and the number or the error. *)
Fixpoint cooked_loop (k : svc) (n : nat) (dv : Z) (got : list Z) : C (Z * list Z) :=
  match n with
  | O => cret (Z.of_nat (length got), got)
  | S n =>
      con! c := raw_get_char k dv true in
      if 0x8000 <=? c then cret (s16 c, got) else
      if c =? 256 then cret (Z.of_nat (length got), got) else
      let got := got ++ [u8 c] in
      if u8 c =? CTL_Z then cret (Z.of_nat (length got), got) else cooked_loop k n dv got
  end.
Definition cooked_read (k : svc) (dv n : Z) (bp : list Z) : C (Z * list Z) :=
  con! r := cooked_loop k (Z.to_nat n) dv [] in
  con! mem := copt (fmemcpy bp 0 (snd r) (Z.of_nat (length (snd r)))) in
  cret (fst r, mem).

Definition read_char_stdin (k : svc) (check_break : bool) : C Z :=
  con! i := on_hst (get_sft_idx STDIN) in
  con! o := on_hst (get_sft_idx STDOUT) in
  read_char k i o check_break.

(** ** The line editor *)

(** Which [keyboard] a function works on, and its bytes. *)
Inductive kptr := KbBuf | User.
Definition kb_get (kp : kptr) (i : Z) (c : con) : option Z :=
  match kp with KbBuf => fgetbyte (linebuf c) (KB_BUF + i) | User => fgetbyte (ubuf c) i end.
Definition kb_put (kp : kptr) (i v : Z) (c : con) : option con :=
  match kp with
  | KbBuf => (fun l => set_linebuf l c) <$> fputbyte (KB_BUF + i) v (linebuf c)
  | User => (fun l => set_ubuf l c) <$> fputbyte i v (ubuf c)
  end.
(** [fmemcpy(kp->kb_buf, local_buffer, count)]. *)
Definition kb_copy (kp : kptr) (count : Z) (c : con) : option con :=
  match kp with
  | KbBuf => (fun l => set_linebuf l c) <$> fmemcpy (linebuf c) (KB_BUF + 2) (linebuf c) count
  | User => (fun l => set_ubuf l c) <$> fmemcpy (ubuf c) 2 (linebuf c) count
  end.
Definition con_get (f : con -> option Z) : C Z := con! s := cget in copt (f (cn s)).
Definition con_put (f : con -> option con) : C unit :=
  con! s := cget in con! c := copt (f (cn s)) in cmod (fun _ => c).
(** [kp->kb_buf[i]] and [local_buffer[i]]. *)
Definition kb_char (kp : kptr) (i : Z) : C Z := con_get (kb_get kp (2 + i)).
Definition lb_get (i : Z) : C Z :=
  con_get (fun c => if i <? LINEBUFSIZE0A then fgetbyte (linebuf c) i else None).
Definition lb_put (i v : Z) : C unit :=
  con_put (fun c => if i <? LINEBUFSIZE0A then (fun l => set_linebuf l c) <$> fputbyte i v (linebuf c) else None).

(** The variables of [read_line]. *)
Record line := Line { count : Z; stored_pos : Z; stored_size : Z; insert_ : bool; first : bool }.
Definition set_count v (l : line) : line := Line v (stored_pos l) (stored_size l) (insert_ l) (first l).
Definition set_stored_pos v (l : line) : line := Line (count l) v (stored_size l) (insert_ l) (first l).

Section Line.
Context (k : svc) (sft_in sft_out : Z) (kp : kptr) (size cu_pos : Z).

(** Appends what is echoed. *)
Definition put_char (c : Z) (l : line) : C line :=
  con! c := echo_char k c sft_out in
  con_ lb_put (count l) c in
  cret (set_count (u16 (count l + 1)) l).

(** The next character of the stored line. *)
Definition copy_stored (l : line) : C line :=
  con! c := kb_char kp (stored_pos l) in
  put_char c (set_stored_pos (u16 (stored_pos l + 1)) l).
Fixpoint copy_loop (n : nat) (new_pos : Z) (l : line) : C line :=
  match n with
  | O => cret l
  | S n =>
      if (stored_pos l <? new_pos) && (count l <? size - 1) then
        con! l := copy_stored l in copy_loop n new_pos l
      else cret l
  end.

(** F2 and F4: the new position for the character that is typed next; it is
    searched in [stored_size - stored_pos] bytes, in 16 bits. *)
Definition stored_chars (from : Z) (c : con) : list Z :=
  drop (Z.to_nat (2 + from)) (match kp with KbBuf => drop (Z.to_nat KB_BUF) (linebuf c) | User => ubuf c end).
Definition find_pos (l : line) : C Z :=
  con! c2 := read_char k sft_in sft_out true in
  if c2 =? 0 then
    con_ read_char k sft_in sft_out true in cret (stored_pos l)
  else
    con! s := cget in
    con! r := copt (memchr (stored_chars (stored_pos l) (cn s)) c2 0 (Z.to_nat (u16 (stored_size l - stored_pos l)))) in
    cret (match r with Some off => off + 1 | None => stored_pos l end).

(** The column after the first [n] characters from [i] on. *)
Fixpoint columns (n : nat) (i new_pos : Z) : C Z :=
  match n with
  | O => cret new_pos
  | S n =>
      con! c := lb_get i in
      columns n (i + 1)
        (u16 (if c =? HT then Z.ldiff (new_pos + 8) 7 else if iscntrl c then new_pos + 2 else new_pos + 1))
  end.
Fixpoint back_loop (fuel : nat) (new_pos : Z) : C unit :=
  match fuel with
  | O => kret Wait
  | S fuel =>
      con_ destr_bs k sft_out in
      con! pos := get_scr_pos in
      if new_pos <? pos then back_loop fuel new_pos else cret tt
  end.
Definition backspace (fuel : nat) (l : line) : C line :=
  con! l :=
    (if 0 <? count l then
       let l := set_count (count l - 1) l in
       con! c2 := lb_get (count l) in
       con_ (if c2 =? HT then
               con! new_pos := columns (Z.to_nat (count l)) 0 cu_pos in back_loop fuel new_pos
             else
               con_ (if iscntrl c2 then destr_bs k sft_out else cret tt) in
               destr_bs k sft_out) in
       cret l
     else cret l) in
  cret (if 0 <? stored_pos l then set_stored_pos (stored_pos l - 1) l else l).

Fixpoint blanks (n : nat) : C unit :=
  match n with O => cret tt | S n => con_ write_char k 0x20 sft_out in blanks n end.
Definition start_new_line (l : line) : C line :=
  con_ write_char k CR sft_out in
  con_ write_char k LF sft_out in
  con_ blanks (Z.to_nat cu_pos) in
  cret (Line 0 0 (stored_size l) false (first l)).

(** The [default] of the [switch]. *)
Definition typed (c : Z) (l : line) : C line :=
  if 256 <=? c then cret l else
  con! l := (if (count l <? size - 1) || (c =? CR) then put_char c l
             else con_ write_char k BELL sft_out in cret l) in
  cret (if (stored_pos l <? stored_size l) && negb (insert_ l) then set_stored_pos (u16 (stored_pos l + 1)) l else l).

(** One key: the variables, and the key that ends the loop when it is CR. *)
Definition line_key (fuel : nat) (c : Z) (l : line) : C (Z * line) :=
  if c =? LF then
    con_ (if negb (first l) then con_ write_char k CR sft_out in write_char k LF sft_out else cret tt) in
    cret (c, l)
  else if c =? CTL_F then cret (c, l)
  else if (c =? RIGHT) || (c =? F1) then
    con! l := (if (stored_pos l <? stored_size l) && (count l <? size - 1) then copy_stored l else cret l) in
    cret (c, l)
  else if (c =? F2) || (c =? F4) || (c =? F3) then
    con! new_pos := (if c =? F3 then cret (stored_size l) else find_pos l) in
    con! l := (if negb (c =? F4) then copy_loop (Z.to_nat size) new_pos l else cret l) in
    cret (c, set_stored_pos new_pos l)
  else if c =? F5 then
    con_ con_put (kb_copy kp (count l)) in
    let l := Line (count l) (stored_pos l) (count l) (insert_ l) (first l) in
    con_ write_char k 0x40 sft_out in
    con! l := start_new_line l in cret (c, l)
  else if c =? INS then cret (c, Line (count l) (stored_pos l) (stored_size l) (negb (insert_ l)) (first l))
  else if c =? DEL then cret (c, set_stored_pos (u16 (stored_pos l + 1)) l)
  else if (c =? LEFT) || (c =? CTL_BS) || (c =? BS) then
    con! l := backspace fuel l in cret (c, l)
  else if c =? ESC then
    con_ write_char k 0x5c sft_out in
    con! l := start_new_line l in cret (c, l)
  else
    let c := if c =? F6 then CTL_Z else c in
    con! l := typed c l in cret (c, l).

(** A key: an extended one is a 0 and its code. *)
Definition read_key : C Z :=
  con! c := read_char k sft_in sft_out true in
  if c =? 0 then con! c := read_char k sft_in sft_out true in cret (u16 (Z.shiftl c 8)) else cret c.

Fixpoint line_loop (fuel : nat) (l : line) : C line :=
  match fuel with
  | O => kret Wait
  | S fuel =>
      con! c := read_key in
      con! r := line_key fuel c l in
      let '(c, l) := r in
      let l := Line (count l) (stored_pos l) (stored_size l) (insert_ l) false in
      if c =? CR then cret l else line_loop fuel l
  end.
End Line.

Definition read_line (k : svc) (fuel : nat) (sft_in sft_out : Z) (kp : kptr) : C unit :=
  con! size := con_get (kb_get kp 0) in
  con! stored := con_get (kb_get kp 1) in
  con! cu_pos := get_scr_pos in
  if size =? 0 then cret tt else
  con! c := kb_char kp stored in
  let stored := if c =? CR then stored else 0 in
  con! l := line_loop k sft_in sft_out kp size cu_pos fuel (Line 0 0 stored false true) in
  con_ con_put (kb_copy kp (count l)) in
  con_ (if LINEBUFSIZECON <? count l then con_put (kb_put KbBuf 0 0) else cret tt) in
  con_put (kb_put kp 1 (u8 (count l - 1))).

(** The bytes of a line that are left, from [inputptr] to the LF. *)
Definition line_end (c : con) : option Z := (fun n => KB_BUF + 2 + n + 2) <$> kb_get KbBuf 1 c.

Definition read_line_handle (k : svc) (fuel : nat) (sft_idx n : Z) (bp : list Z) : C (Z * list Z) :=
  con! s := cget in
  con! eof :=
    (match inputptr (cn s) with
     | Some _ => cret false
     | None =>
         con! size := con_get (kb_get KbBuf 0) in
         con_ (if negb (size =? LINEBUFSIZECON) then
                 con_ con_put (kb_put KbBuf 1 0) in con_put (kb_put KbBuf 0 LINEBUFSIZECON)
               else cret tt) in
         con_ read_line k fuel sft_idx sft_idx KbBuf in
         con! n := con_get (kb_get KbBuf 1) in
         con! lf := echo_char k LF sft_idx in
         con_ con_put (kb_put KbBuf (2 + n + 1) lf) in
         con! c := kb_char KbBuf 0 in
         con_ cmod (set_inputptr (if c =? CTL_Z then None else Some (KB_BUF + 2))) in
         cret (c =? CTL_Z)
     end) in
  if eof then cret (0, bp) else
  con! s := cget in
  con! p := copt (inputptr (cn s)) in
  con! e := copt (line_end (cn s)) in
  let chars_left := u16 (e - p) in
  let n := if chars_left <? n then chars_left else n in
  con! mem := copt (fmemcpy bp 0 (drop (Z.to_nat p) (linebuf (cn s))) n) in
  con_ cmod (set_inputptr (if n =? chars_left then None else Some (p + n))) in
  cret (n, mem).

(** ** Reading and writing an entry (kernel/dosfns.c) *)

Fixpoint scr_loop (l : list Z) : C unit :=
  match l with [] => cret tt | c :: l => con_ update_scr_pos c 1 in scr_loop l end.

(** The number of bytes or the error, and the memory at [bp]. *)
Definition DosRWSft (k : svc) (fuel : nat) (sft_idx n : Z) (addr : Z * Z) (bp : list Z) (mode : Z)
  : C (Z * list Z) :=
  con! s := con_sft sft_idx in
  match s with
  | None => cret (DE_INVLDHNDL, bp)
  | Some s =>
      if ((mode =? XFR_READ) && has (sft_mode s) O_WRONLY)
         || ((mode =? XFR_WRITE) && (Z.land (sft_mode s) O_ACCMODE =? O_RDONLY))
      then cret (DE_ACCESS, bp) else
      let mode := if mode =? XFR_FORCE_WRITE then XFR_WRITE else mode in
      if has (sft_flags s) SFT_FSHARED then
        on_k (kworld (fun w => let '(rc, l, w) := remote_rw (mode =? XFR_READ) s n bp w in ((rc, l), w)))
      else if has (sft_flags s) SFT_FDEVICE then
        let dv := sft_dcb s in
        if has (sft_flags s) SFT_FBINARY then
          con! r := on_k (BinaryCharIO dv n bp (if mode =? XFR_READ then C_INPUT else C_OUTPUT)) in
          con_ (if (mode =? XFR_WRITE) && (0 <? fst r) && has (sft_flags s) SFT_FCONOUT
                then scr_loop (take (Z.to_nat (fst r)) bp) else cret tt) in
          cret r
        else if mode =? XFR_READ then
          if negb (has (sft_flags s) SFT_FEOF) then cret (0, bp) else
          con! r := (if has (sft_flags s) SFT_FCONIN then read_line_handle k fuel sft_idx n bp
                     else cooked_read k dv n bp) in
          con! c := copt (snd r !! 0%nat) in
          con_ (if c =? CTL_Z
                then on_k (sftmod sft_idx (fun f => set_sft_flags (clear (sft_flags f) SFT_FEOF) f))
                else cret tt) in
          cret r
        else
          con_ on_k (sftmod sft_idx (fun f => set_sft_flags (Z.lor (sft_flags f) SFT_FEOF) f)) in
          if has (sft_flags s) SFT_FNUL then cret (n, bp) else
          con! rc := cooked_write k dv n bp in cret (rc, bp)
      else
        con! share := on_k (IsShareInstalled false) in
        con! st := cget in
        con! rc := (if share && (0 <=? sft_shroff s)
                    then on_k (kworld (share_access_check (cu_psp_of (hn st)) (sft_shroff s) (sft_posit s) n))
                    else cret SUCCESS) in
        if negb (rc =? SUCCESS) then cret (rc, bp) else
        on_k (rwblock sft_idx addr n mode bp)
  end.

(** ** The knot *)

Fixpoint knot (fuel : nat) : svc :=
  match fuel with
  | O => Svc M (fun _ => kret Wait) (fun _ _ _ _ => kret Wait) (fun _ _ _ _ _ => kret Wait)
  | S fuel =>
      let k := knot fuel in
      Svc M (check_handle_break k) (read_char_sft_dev k) (DosRWSft k fuel)
  end.
End Chario.
End Chario.
