(* ===== verification/ConSpec.v ===== *)
(** * A terminal

    A character device that shows what is written to it and gives what was
    typed, and the operations of chario.c on it. *)

From S2P Require Import Prelude Memmgr KState BlockIO FatTab FNode FatAlloc Clock Media FatDir FatFile FatRw.
From S2P Require Import Path Handle Chario.
Import Mm Ks Bio Fat FNode Alloc Clk Media Dir File Rw Path Handle Chario.

Module ConSpec.

(** ** The driver *)

(** [typed_ahead] is what was typed and not read, [shown] what was written.
    Fast output (INT 29h) shows a character on the same screen. *)
Class Terminal {M : Machine} {Cn : Console} (dv : Z) := {
  typed_ahead : world -> list Z;
  shown : world -> list Z;
  term_nonnull : dv <> 0;
  term_out rq c w : r_command rq = C_OUTPUT -> r_count rq = 1 ->
    exists rq' w', execrh dv rq [c] w = (rq', [c], w') /\ has (r_status rq') S_ERROR = false /\ r_count rq' = 1 /\
      shown w' = shown w ++ [c] /\ typed_ahead w' = typed_ahead w;
  term_peek rq buf w : r_command rq = C_NDREAD ->
    exists rq' buf' w', execrh dv rq buf w = (rq', buf', w') /\ has (r_status rq') S_ERROR = false /\
      shown w' = shown w /\ typed_ahead w' = typed_ahead w /\
      match typed_ahead w with
      | [] => has (r_status rq') S_BUSY = true
      | c :: _ => has (r_status rq') S_BUSY = false /\ r_meddesc rq' = c
      end;
  term_in rq c l w : r_command rq = C_INPUT -> r_count rq = 1 -> typed_ahead w = c :: l ->
    exists rq' w', execrh dv rq [0] w = (rq', [c], w') /\ has (r_status rq') S_ERROR = false /\ r_count rq' = 1 /\
      shown w' = shown w /\ typed_ahead w' = l;
  term_flush rq buf w : r_command rq = C_IFLUSH ->
    exists rq' buf' w', execrh dv rq buf w = (rq', buf', w') /\ has (r_status rq') S_ERROR = false /\
      shown w' = shown w /\ typed_ahead w' = [];
  term_fast c w : shown (int29 c w) = shown w ++ [c] /\ typed_ahead (int29 c w) = typed_ahead w;
  term_idle w : shown (int28 w) = shown w /\ typed_ahead (int28 w) = typed_ahead w }.

Section Spec.
Context {M : Machine} {Sh : Shell} {R : Redirector} {Cn : Console} {dv : Z} {T : Terminal dv}.

(** The state after requests to drivers. *)
Definition on_dev (rq : request) (w : world) (k : kst) : kst :=
  set_drv (Drvio (IoReqHdr (drv k)) (MediaReqHdr (drv k)) (CritErrCode (drv k)) (deblock_buf (drv k)) rq (ClkRecord (drv k)))
    (set_dev w k).
Definition con_dev (rq : request) (w : world) (s : cst) : cst :=
  Cst M (set_pth (set_kern (on_dev rq w (kern (pth (hn s)))) (pth (hn s))) (hn s)) (cn s).
Definition wd (s : cst) : world := dev (kern (pth (hn s))).

Lemma con_dev_same s : con_dev (CharReqHdr (drv (kern (pth (hn s))))) (wd s) s = s.
Proof. destruct s as [[[[? ? ? ? ? ? [] ? ? ?] ? ? ? ? ? ? ?] ? ? ? ? ? ? ?] ?]. done. Qed.
Lemma con_dev_twice rq1 w1 rq2 w2 s : con_dev rq2 w2 (con_dev rq1 w1 s) = con_dev rq2 w2 s.
Proof. done. Qed.

(** ** Requests *)

Lemma request_runs command buf k rq' buf' w' :
  execrh dv (char_command command (CharReqHdr (drv k))) buf (dev k) = (rq', buf', w') ->
  has (r_status rq') S_ERROR = false -> CharRequest dv command buf k = Some ((SUCCESS, buf'), on_dev rq' w' k).
Proof.
  intros E Hst. unfold CharRequest, call_execrh, set_charreq, kbind, kget, kmod, kret.
  cbn [CharReqHdr drv set_drv dev set_dev IoReqHdr MediaReqHdr CritErrCode deblock_buf ClkRecord].
  rewrite E. cbn [fst snd]. rewrite Hst. done.
Qed.

Lemma on_k_run {A} (m : K kst A) s a k :
  m (kern (pth (hn s))) = Some (a, k) ->
  on_k m s = Some (Ret a, Cst M (set_pth (set_kern k (pth (hn s))) (hn s)) (cn s)).
Proof. intros H. unfold on_k, on_hst, on_kern, on_pth, lift. by rewrite H. Qed.

(** A peek at the keyboard. *)
Lemma peek_runs k :
  exists rq w, CharCmd dv C_NDREAD k = Some (tt, on_dev rq w k) /\ has (r_status rq) S_ERROR = false /\
    shown w = shown (dev k) /\ typed_ahead w = typed_ahead (dev k) /\
    match typed_ahead (dev k) with
    | [] => has (r_status rq) S_BUSY = true
    | c :: _ => has (r_status rq) S_BUSY = false /\ r_meddesc rq = c
    end.
Proof.
  destruct (term_peek (char_command C_NDREAD (CharReqHdr (drv k))) [] (dev k) eq_refl) as (rq & buf & w & E & Hst & Hs & Ht & Hc).
  exists rq, w. split; [|done]. unfold CharCmd. change xfer_fuel with (S 255). cbn [cmd_loop].
  by rewrite (run_eq _ _ _ _ _ (request_runs _ _ _ _ _ _ E Hst)).
Qed.

Lemma ndread_runs s :
  exists rq w, on_k (ndread dv) s = Some (Ret (match typed_ahead (wd s) with [] => -1 | c :: _ => c end), con_dev rq w s) /\
    shown w = shown (wd s) /\ typed_ahead w = typed_ahead (wd s).
Proof.
  destruct (peek_runs (kern (pth (hn s)))) as (rq & w & E & Hst & Hs & Ht & Hc). exists rq, w. split; [|done].
  erewrite on_k_run; [reflexivity|]. unfold ndread. rewrite (run_eq _ _ _ _ _ E), run_get. cbn.
  unfold wd. destruct (typed_ahead (dev _)); [by rewrite Hc|]. destruct Hc as [-> ->]. done.
Qed.

Lemma Busy_runs s :
  exists rq w, on_k (Busy dv) s = Some (Ret (match typed_ahead (wd s) with [] => true | _ => false end), con_dev rq w s) /\
    shown w = shown (wd s) /\ typed_ahead w = typed_ahead (wd s).
Proof.
  destruct (peek_runs (kern (pth (hn s)))) as (rq & w & E & Hst & Hs & Ht & Hc). exists rq, w. split; [|done].
  erewrite on_k_run; [reflexivity|]. unfold Busy, char_status. rewrite (run_eq _ _ _ _ _ E), run_assoc, run_get, run_ret.
  cbn. rewrite Hst. rewrite run_ret, run_assoc, run_get, run_ret. cbn.
  unfold wd. destruct (typed_ahead (dev _)); [by rewrite Hc|]. by destruct Hc as [-> _].
Qed.

Lemma transfer_runs k n command buf rq' buf' w' :
  execrh dv (char_command command (char_count n (CharReqHdr (drv k)))) buf (dev k) = (rq', buf', w') ->
  has (r_status rq') S_ERROR = false -> BinaryCharIO dv n buf command k = Some ((r_count rq', buf'), on_dev rq' w' k).
Proof.
  intros E Hst. unfold BinaryCharIO. change xfer_fuel with (S 255). cbn [char_loop].
  rewrite run_get. unfold set_charreq. rewrite run_mod.
  set (k1 := set_drv _ k). rewrite (run_eq _ _ _ _ _ (request_runs command buf k1 rq' buf' w' E Hst)).
  cbn [fst snd]. change (SUCCESS =? 1) with false. cbn iota. rewrite run_get, Z.eqb_refl. done.
Qed.

(** A character is shown. *)
Lemma put_runs s c :
  0 <= c < 256 -> exists rq w, on_k (CharIO dv c C_OUTPUT) s = Some (Ret c, con_dev rq w s) /\
    shown w = shown (wd s) ++ [c] /\ typed_ahead w = typed_ahead (wd s).
Proof.
  intros Hc. set (k := kern (pth (hn s))).
  destruct (term_out (char_command C_OUTPUT (char_count 1 (CharReqHdr (drv k)))) c (dev k) eq_refl eq_refl)
    as (rq & w & E & Hst & Hn & Hs & Ht). exists rq, w. split; [|done].
  erewrite on_k_run; [reflexivity|]. unfold CharIO. rewrite (run_eq _ _ _ _ _ (transfer_runs _ _ _ _ _ _ _ E Hst)), Hn.
  done.
Qed.

(** A character is read. *)
Lemma get_runs s c l :
  0 <= c < 256 -> typed_ahead (wd s) = c :: l -> exists rq w, on_k (CharIO dv 0 C_INPUT) s = Some (Ret c, con_dev rq w s) /\
    shown w = shown (wd s) /\ typed_ahead w = l.
Proof.
  intros Hc Ht0. set (k := kern (pth (hn s))).
  destruct (term_in (char_command C_INPUT (char_count 1 (CharReqHdr (drv k)))) c l (dev k) eq_refl eq_refl Ht0)
    as (rq & w & E & Hst & Hn & Hs & Ht). exists rq, w. split; [|done].
  erewrite on_k_run; [reflexivity|]. unfold CharIO. rewrite (run_eq _ _ _ _ _ (transfer_runs _ _ _ _ _ _ _ E Hst)), Hn.
  done.
Qed.

(** What was typed is thrown away. *)
Lemma flush_runs s :
  exists rq w, on_k (con_flush dv) s = Some (Ret tt, con_dev rq w s) /\ shown w = shown (wd s) /\ typed_ahead w = [].
Proof.
  set (k := kern (pth (hn s))).
  destruct (term_flush (char_command C_IFLUSH (CharReqHdr (drv k))) [] (dev k) eq_refl) as (rq & buf & w & E & Hst & Hs & Ht).
  exists rq, w. split; [|done]. erewrite on_k_run; [reflexivity|]. unfold con_flush.
  rewrite (proj2 (Z.eqb_neq _ _) term_nonnull). unfold CharCmd. change xfer_fuel with (S 255). cbn [cmd_loop].
  by rewrite (run_eq _ _ _ _ _ (request_runs _ _ _ _ _ _ E Hst)).
Qed.

(** ** Runs *)

Lemma crun_get {B} (f : cst -> C B) s : cbind cget f s = f s s.
Proof. done. Qed.
Lemma crun_mod {B} g (f : unit -> C B) s : cbind (cmod g) f s = f tt (Cst M (hn s) (g (cn s))).
Proof. done. Qed.
Lemma crun_opt {A B} (a : A) (f : A -> C B) s : cbind (copt (Some a)) f s = f a s.
Proof. done. Qed.

(** Ctrl-Break was not pressed, what was typed ahead has no Ctrl-C and no
    Ctrl-S, and the terminal is the console. *)
Definition harmless (c : Z) : Prop := byte c /\ c <> CTL_C /\ c <> CTL_S.
Record calm (s : cst) : Prop := Calm {
  calm_break : has (CB_FLG (cn s)) CB_MSK = false;
  calm_echo : PrinterEcho (cn s) = false;
  calm_con : syscon (cn s) = dv;
  calm_typed : Forall harmless (typed_ahead (wd s)) }.

Lemma calm_dev rq w s : calm s -> typed_ahead w = typed_ahead (wd s) -> calm (con_dev rq w s).
Proof. intros [H1 H2 H3 H4] E. split; [done..|]. change (wd (con_dev rq w s)) with w. by rewrite E. Qed.

Lemma break_runs f s :
  calm s -> exists c rq w, check_handle_break (knot f) dv s = Some (Ret c, con_dev rq w s) /\ c <> CTL_S /\
    shown w = shown (wd s) /\ typed_ahead w = typed_ahead (wd s).
Proof.
  intros [Hb He Hc Ht]. destruct (ndread_runs s) as (rq & w & E & Hs & Ht').
  set (c := match typed_ahead (wd s) with [] => -1 | c :: _ => c end) in E.
  assert (Hch : u8 c <> CTL_C /\ u8 c <> CTL_S).
  { subst c. destruct (typed_ahead (wd s)) as [|c l]; [done|]. apply Forall_cons in Ht as [(Hbc & H1 & H2) _].
    unfold byte in Hbc. by rewrite u8_small by lia. }
  destruct Hch as [H1 H2]. exists (u8 c), rq, w. split; [|done].
  unfold check_handle_break, ctrl_break_pressed. rewrite crun_assoc, crun_get, crun_ret, Hb, crun_get, Hc. cbn [negb].
  rewrite crun_assoc, (crun_eq _ _ _ _ _ E), crun_ret, Z.eqb_refl. cbn [negb]. rewrite andb_false_r, crun_ret.
  by rewrite (proj2 (Z.eqb_neq _ _) H1).
Qed.

Lemma put_loop_runs f c n fc s :
  calm s -> 0 <= c < 256 -> exists fc' rq w, put_loop (knot (S f)) dv c n fc s = Some (Ret (inl fc'), con_dev rq w s) /\
    shown w = shown (wd s) ++ replicate n c /\ typed_ahead w = typed_ahead (wd s).
Proof.
  revert fc s. induction n as [|n IH]; intros fc s Hi Hc.
  { exists fc, (CharReqHdr (drv (kern (pth (hn s))))), (wd s). rewrite con_dev_same, app_nil_r. split; [done|].
    done. }
  cbn [put_loop]. set (fc1 := Z.land (u8 (fc + 1)) 0x9f).
  assert (H1 : exists rq w, (if fc <=? 0x80 then
              con! b := k_check_break (knot (S f)) dv in
              if b =? CTL_S then con_ k_read (knot (S f)) (-1) (-1) dv true in cret tt else cret tt
            else cret tt) s = Some (Ret tt, con_dev rq w s) /\ shown w = shown (wd s) /\ typed_ahead w = typed_ahead (wd s)).
  { destruct (fc <=? 0x80).
    - destruct (break_runs f s Hi) as (b & rq & w & E & Hb & Hs & Ht). exists rq, w. split; [|done].
      cbn [k_check_break knot]. rewrite (crun_eq _ _ _ _ _ E). by rewrite (proj2 (Z.eqb_neq _ _) Hb).
    - exists (CharReqHdr (drv (kern (pth (hn s))))), (wd s). by rewrite con_dev_same. }
  destruct H1 as (rq1 & w1 & E1 & Hs1 & Ht1). rewrite (crun_eq _ _ _ _ _ E1), crun_get.
  pose proof (calm_dev rq1 w1 s Hi Ht1) as Hi1. rewrite (calm_echo _ Hi1), crun_ret.
  assert (H2 : exists rq w x, (if has fc1 0x80 then con_ fast_put_char c in cret 0 else on_k (CharIO dv c C_OUTPUT)) (con_dev rq1 w1 s)
            = Some (Ret x, con_dev rq w s) /\ 0 <= x /\ shown w = shown (wd s) ++ [c] /\ typed_ahead w = typed_ahead (wd s)).
  { destruct (has fc1 0x80).
    - destruct (term_fast c w1) as [Hs Ht]. exists rq1, (int29 c w1), 0. rewrite Hs, Ht, Hs1, Ht1. done.
    - destruct (put_runs (con_dev rq1 w1 s) c Hc) as (rq & w & E & Hs & Ht). exists rq, w, c.
      split; [exact E|]. split; [lia|]. change (wd (con_dev rq1 w1 s)) with w1 in Hs, Ht. by rewrite Hs, Hs1, Ht, Ht1. }
  destruct H2 as (rq2 & w2 & x & E2 & Hx & Hs2 & Ht2). rewrite (crun_eq _ _ _ _ _ E2).
  rewrite (proj2 (Z.ltb_ge x 0)) by lia.
  destruct (IH fc1 (con_dev rq2 w2 s)) as (fc' & rq & w & E & Hs & Ht); [by apply calm_dev|done|].
  change (wd (con_dev rq2 w2 s)) with w2 in Hs, Ht.
  exists fc', rq, w. split; [exact E|]. split; [|congruence]. rewrite Hs, Hs2, <- app_assoc. done.
Qed.

(** ** What is shown *)

(** Text up to Ctrl-Z, with its tabs as blanks, and the column after it. *)
Fixpoint expand (col : Z) (l : list Z) : list Z * Z :=
  match l with
  | [] => ([], col)
  | c :: l =>
      if c =? CTL_Z then ([], col) else
      let '(c, n) := if c =? HT then (0x20, tab_count col) else (c, 1) in
      let '(r, col) := expand (scr_after col c n) l in
      (replicate (Z.to_nat n) c ++ r, col)
  end.
Fixpoint text_length (l : list Z) : Z :=
  match l with [] => 0 | c :: l => if c =? CTL_Z then 0 else 1 + text_length l end.

Definition at_col (col : Z) (s : cst) : cst := Cst M (hn s) (set_scr_pos col (cn s)).

Lemma write_loop_runs f l x fc s :
  calm s -> Forall byte l ->
  exists rq w, write_loop (knot (S f)) dv l x fc s =
      Some (Ret (x + text_length l), con_dev rq w (at_col (snd (expand (scr_pos (cn s)) l)) s)) /\
    shown w = shown (wd s) ++ fst (expand (scr_pos (cn s)) l) /\ typed_ahead w = typed_ahead (wd s).
Proof.
  revert x fc s. induction l as [|c l IH]; intros x fc s Hi Hb.
  { exists (CharReqHdr (drv (kern (pth (hn s))))), (wd s). cbn [write_loop text_length expand fst snd].
    rewrite app_nil_r, Z.add_0_r. split; [|done].
    unfold cret, kret. do 3 f_equal. destruct s as [h []]. apply (eq_sym (con_dev_same _)). }
  apply Forall_cons in Hb as [Hc Hb]. cbn [write_loop text_length expand].
  destruct (c =? CTL_Z).
  { exists (CharReqHdr (drv (kern (pth (hn s))))), (wd s). cbn [fst snd].
    rewrite app_nil_r, Z.add_0_r. split; [|done].
    unfold cret, kret. do 3 f_equal. destruct s as [h []]. apply (eq_sym (con_dev_same _)). }
  unfold get_scr_pos. rewrite crun_assoc, crun_get, crun_ret.
  destruct (if c =? HT then _ else _) as [c' n] eqn:Ec.
  assert (Hc' : 0 <= c' < 256) by (unfold byte in Hc; destruct (c =? HT); injection Ec as <- _; lia).
  unfold update_scr_pos. rewrite crun_mod. set (s1 := Cst M _ _).
  assert (Hi1 : calm s1) by (by destruct Hi).
  destruct (put_loop_runs f c' (Z.to_nat n) fc s1 Hi1 Hc') as (fc' & rq & w & E & Hs & Ht). rewrite (crun_eq _ _ _ _ _ E).
  set (s2 := con_dev rq w s1). assert (Hi2 : calm s2) by (by apply calm_dev).
  destruct (IH (x + 1) fc' s2 Hi2 Hb) as (rq' & w' & E' & Hs' & Ht').
  change (scr_pos (cn s2)) with (scr_after (scr_pos (cn s)) c' n) in E', Hs'.
  destruct (expand (scr_after (scr_pos (cn s)) c' n) l) as [r col'] eqn:Er. cbn [fst snd] in E', Hs' |- *.
  change (wd s2) with w in Hs', Ht'. change (wd s1) with (wd s) in Hs, Ht. exists rq', w'. split; [|split; [|congruence]].
  - rewrite E'. do 2 f_equal. f_equal. lia.
  - rewrite Hs', Hs, <- app_assoc. done.
Qed.

Lemma cooked_write_runs f n bp s attr :
  calm s -> dh_attr (env (kern (pth (hn s)))) !! dv = Some attr -> 0 <= n <= Z.of_nat (length bp) -> Forall byte bp ->
  let l := take (Z.to_nat n) bp in
  exists rq w, cooked_write (knot (S f)) dv n bp s =
      Some (Ret (text_length l), con_dev rq w (at_col (snd (expand (scr_pos (cn s)) l)) s)) /\
    shown w = shown (wd s) ++ fst (expand (scr_pos (cn s)) l) /\ typed_ahead w = typed_ahead (wd s).
Proof.
  intros Hi Ha Hn Hb. cbn zeta. unfold cooked_write. rewrite crun_get, Ha, crun_opt.
  rewrite (proj2 (Z.leb_le 0 n)), (proj2 (Z.leb_le n _)) by lia. cbn [andb]. rewrite crun_opt.
  rewrite <- (Z.add_0_l (text_length _)). apply write_loop_runs; [done|by apply Forall_take].
Qed.
End Spec.
End ConSpec.
