(* ===== verification/LineSafe.v ===== *)
(** * The line editor stays in its buffers

    Every function of the line editor, on any keyboard and screen that work:
    it reads and writes inside [local_buffer] and the caller's buffer. *)

From S2P Require Import Prelude Memmgr KState BlockIO FatTab FNode FatAlloc Clock Media FatDir FatFile FatRw.
From S2P Require Import Path Handle Chario ConSpec.
Import Mm Ks Bio Fat FNode Alloc Clk Media Dir File Rw Path Handle Chario ConSpec.

Module LineSafe.

Section Safe.
Context {M : Machine} {Sh : Shell} {R : Redirector} {Cn : Console}.

(** A run that C defines; the condition holds if it comes back. *)
Definition safe {A} (m : C A) (Q : A -> cst -> Prop) (s : cst) : Prop :=
  match m s with Some (Ret a, s') => Q a s' | Some (_, _) => True | None => False end.

Lemma safe_ret {A} (a : A) (Q : A -> cst -> Prop) s : Q a s -> safe (cret a) Q s.
Proof. done. Qed.
Lemma safe_bind {A B} (m : C A) (f : A -> C B) (P : A -> cst -> Prop) Q s :
  safe m P s -> (forall a s', P a s' -> safe (f a) Q s') -> safe (cbind m f) Q s.
Proof. unfold safe, cbind. destruct (m s) as [[[a| |] s']|]; try done. intros H1 H2. exact (H2 _ _ H1). Qed.
Lemma safe_mono {A} (m : C A) (P Q : A -> cst -> Prop) s : safe m P s -> (forall a s', P a s' -> Q a s') -> safe m Q s.
Proof. unfold safe. destruct (m s) as [[[a| |] s']|]; try done. intros H1 H2. exact (H2 _ _ H1). Qed.
Lemma safe_get {B} (f : cst -> C B) Q s : safe (f s) Q s -> safe (cbind cget f) Q s.
Proof. done. Qed.
Lemma safe_mod {B} g (f : unit -> C B) Q s : safe (f tt) Q (Cst M (hn s) (g (cn s))) -> safe (cbind (cmod g) f) Q s.
Proof. done. Qed.
Lemma safe_wait {A} (Q : A -> cst -> Prop) s : safe (kret Wait) Q s.
Proof. done. Qed.

(** ** A keyboard and a screen that work *)

(** [I] says what state they are in; it does not depend on the buffers. *)
Class Works (I : cst -> Prop) (k : svc) (sft_in sft_out : Z) := {
  works_read s : I s ->
    safe (read_char k sft_in sft_out true) (fun c s' => I s' /\ byte c /\ linebuf (cn s') = linebuf (cn s) /\ ubuf (cn s') = ubuf (cn s)) s;
  works_write s c : I s ->
    safe (write_char k c sft_out) (fun _ s' => I s' /\ linebuf (cn s') = linebuf (cn s) /\ ubuf (cn s') = ubuf (cn s)) s;
  works_line s l : I s -> I (Cst M (hn s) (set_linebuf l (cn s)));
  works_user s l : I s -> I (Cst M (hn s) (set_ubuf l (cn s))) }.

Context {I : cst -> Prop} {k : svc} {sft_in sft_out : Z} {W : Works I k sft_in sft_out}.
Context (kp : kptr) (size cu_pos : Z) (c0 : con).

(** The room of the buffer [kp] behind its two bytes. *)
Definition kb_room (c : con) : Z :=
  match kp with KbBuf => Z.of_nat (length (linebuf c)) - KB_BUF - 2 | User => Z.of_nat (length (ubuf c)) - 2 end.
(** What is behind the buffer of the caller. *)
Definition behind (c : con) : list Z := match kp with KbBuf => ubuf c | User => drop (Z.to_nat (2 + size)) (ubuf c) end.

(** What does not change while a line is typed: the buffers are where they
    were, and nothing behind them was touched. *)
Record typing (s : cst) : Prop := Typing {
  ty_works : I s;
  ty_line : length (linebuf (cn s)) = 259%nat;
  ty_user : length (ubuf (cn s)) = length (ubuf c0);
  ty_behind : behind (cn s) = behind c0 }.

Hypothesis Hsize : 1 <= size <= match kp with KbBuf => LINEBUFSIZECON | User => 255 end.
Hypothesis Hroom : size <= match kp with KbBuf => LINEBUFSIZECON | User => Z.of_nat (length (ubuf c0)) - 2 end.

Lemma typing_same s s' :
  typing s -> I s' -> linebuf (cn s') = linebuf (cn s) -> ubuf (cn s') = ubuf (cn s) -> typing s'.
Proof.
  intros [H1 H2 H3 H4] HI El Eu. split; [done|congruence|congruence|]. unfold behind in *. rewrite Eu. exact H4.
Qed.

Lemma safe_read s : typing s -> safe (read_char k sft_in sft_out true) (fun c s' => typing s' /\ byte c) s.
Proof.
  intros Ht. eapply safe_mono; [by apply works_read, Ht|]. intros c s' (HI & Hc & El & Eu).
  split; [by eapply typing_same|done].
Qed.
Lemma safe_write s c : typing s -> safe (write_char k c sft_out) (fun _ s' => typing s' /\ linebuf (cn s') = linebuf (cn s)) s.
Proof.
  intros Ht. eapply safe_mono; [by apply works_write, Ht|]. intros u s' (HI & El & Eu). split; [by eapply typing_same|done].
Qed.
Lemma safe_echo s c : typing s -> safe (echo_char k c sft_out) (fun r s' => r = c /\ typing s') s.
Proof.
  intros Ht. unfold echo_char. eapply (safe_bind _ _ (fun _ s' => typing s')).
  - destruct (_ && _); [|by apply safe_ret].
    eapply safe_bind; [by apply safe_write|]. intros u s' [H _]. by apply safe_ret.
  - intros out s' H. eapply safe_bind; [by apply safe_write|]. intros u s2 [H2 _]. by apply safe_ret.
Qed.
Lemma safe_destr s : typing s -> safe (destr_bs k sft_out) (fun _ => typing) s.
Proof.
  intros Ht. unfold destr_bs. eapply safe_bind; [by apply safe_write|]. intros u1 s1 [H1 _].
  eapply safe_bind; [by apply safe_write|]. intros u2 s2 [H2 _]. eapply safe_mono; [by apply safe_write|]. by intros ? ? [].
Qed.

(** ** The buffers *)

Lemma safe_lb_get s i : typing s -> 0 <= i < 256 -> safe (lb_get i) (fun _ s' => s' = s) s.
Proof.
  intros [_ Hl _ _] Hi. unfold lb_get, con_get. apply safe_get. unfold LINEBUFSIZE0A.
  rewrite (proj2 (Z.ltb_lt i 256)) by lia. unfold fgetbyte. rewrite (proj2 (Z.ltb_ge i 0)) by lia.
  destruct (lookup_lt_is_Some_2 (linebuf (cn s)) (Z.to_nat i)) as [x Hx]; [lia|]. by rewrite Hx.
Qed.

Lemma typing_line s l :
  typing s -> length l = 259%nat -> typing (Cst M (hn s) (set_linebuf l (cn s))).
Proof. intros [H1 H2 H3 H4] Hl. split; [by apply works_line|done..]. Qed.

Lemma safe_lb_put s i v :
  typing s -> 0 <= i < 256 ->
  safe (lb_put i v) (fun _ s' => typing s' /\ linebuf (cn s') !! Z.to_nat i = Some (u8 v)) s.
Proof.
  intros Ht Hi. pose proof (ty_line _ Ht) as Hl. unfold lb_put, con_put. apply safe_get. unfold LINEBUFSIZE0A.
  rewrite (proj2 (Z.ltb_lt i 256)) by lia. unfold fputbyte.
  rewrite (proj2 (Z.leb_le 0 i)), (proj2 (Z.ltb_lt i _)) by lia. cbn [andb fmap option_fmap option_map].
  unfold safe. cbn. split; [by apply typing_line; [|rewrite length_insert]|].
  apply list_lookup_insert_eq. lia.
Qed.

Lemma room_kb s : typing s -> kb_room (cn s) = match kp with KbBuf => 129 | User => Z.of_nat (length (ubuf c0)) - 2 end.
Proof. intros [_ Hl Hu _]. unfold kb_room. destruct kp; [by rewrite Hl|by rewrite Hu]. Qed.

Lemma safe_kb_char s i : typing s -> 0 <= i < kb_room (cn s) -> safe (kb_char kp i) (fun _ s' => s' = s) s.
Proof.
  intros _ Hi. unfold kb_char, con_get. apply safe_get. unfold kb_get, kb_room, fgetbyte, KB_BUF in *.
  destruct kp; rewrite (proj2 (Z.ltb_ge _ 0)) by lia.
  - destruct (lookup_lt_is_Some_2 (linebuf (cn s)) (Z.to_nat (128 + (2 + i)))) as [x Hx]; [lia|]. by rewrite Hx.
  - destruct (lookup_lt_is_Some_2 (ubuf (cn s)) (Z.to_nat (2 + i))) as [x Hx]; [lia|]. by rewrite Hx.
Qed.

Lemma fmemcpy_ok dst i src n :
  0 <= i -> 0 <= n -> i + n <= Z.of_nat (length dst) -> n <= Z.of_nat (length src) ->
  fmemcpy dst i src n = Some (take (Z.to_nat i) dst ++ take (Z.to_nat n) src ++ drop (Z.to_nat (i + n)) dst).
Proof.
  intros. unfold fmemcpy. by rewrite (proj2 (Z.leb_le 0 i)), (proj2 (Z.leb_le (i + n) _)), (proj2 (Z.leb_le n _)) by lia.
Qed.

Lemma length_copy (dst src : list Z) (i n : Z) :
  0 <= i -> 0 <= n -> i + n <= Z.of_nat (length dst) -> n <= Z.of_nat (length src) ->
  length (take (Z.to_nat i) dst ++ take (Z.to_nat n) src ++ drop (Z.to_nat (i + n)) dst) = length dst.
Proof. intros. rewrite !length_app, !length_take, length_drop. lia. Qed.

Lemma drop_copy (dst src : list Z) (i n m : Z) :
  0 <= i -> 0 <= n -> i + n <= Z.of_nat (length dst) -> n <= Z.of_nat (length src) -> i + n <= m ->
  drop (Z.to_nat m) (take (Z.to_nat i) dst ++ take (Z.to_nat n) src ++ drop (Z.to_nat (i + n)) dst) = drop (Z.to_nat m) dst.
Proof.
  intros. apply list_eq. intros j. rewrite !lookup_drop.
  rewrite !lookup_app_r by (rewrite !length_take; lia). rewrite !length_take, lookup_drop. f_equal. lia.
Qed.

(** Byte [j] of the line is in the caller's buffer afterwards. *)
Lemma safe_copy s n :
  typing s -> 0 <= n <= size ->
  safe (con_put (kb_copy kp n)) (fun _ s' => typing s' /\
    forall j x, 0 <= j < n -> linebuf (cn s) !! Z.to_nat j = Some x -> kb_get kp (2 + j) (cn s') = Some x) s.
Proof.
  intros Ht Hn. pose proof Ht as [HI Hl Hu Hb]. unfold con_put. apply safe_get. unfold kb_copy, KB_BUF, LINEBUFSIZECON, safe in *.
  assert (Hlook : forall (dst src : list Z) i j x, 0 <= i -> 0 <= j < n -> i + n <= Z.of_nat (length dst) -> src !! Z.to_nat j = Some x ->
    (take (Z.to_nat i) dst ++ take (Z.to_nat n) src ++ drop (Z.to_nat (i + n)) dst) !! Z.to_nat (i + j) = Some x).
  { intros dst src i j x Hi Hj Hlen Hx. rewrite lookup_app_r by (rewrite length_take; lia). rewrite length_take.
    pose proof (lookup_lt_Some _ _ _ Hx).
    replace (Z.to_nat (i + j) - _)%nat with (Z.to_nat j) by lia.
    rewrite lookup_app_l by (rewrite length_take; lia). rewrite lookup_take_lt by lia. done. }
  unfold behind in Hb. destruct kp eqn:Ekp; cbn in Hb |- *; rewrite fmemcpy_ok by lia; cbn.
  - split; [apply typing_line; [done|]; rewrite length_copy by lia; done|].
    intros j x Hj Hx. unfold fgetbyte, KB_BUF. rewrite (proj2 (Z.ltb_ge _ 0)) by lia.
    replace (128 + (2 + j)) with (130 + j) by lia. apply Hlook; [lia..|done].
  - split.
    + split; cbn; [by apply works_user|done|by rewrite length_copy by lia|].
      unfold behind. cbn. rewrite Ekp, drop_copy by lia. exact Hb.
    + intros j x Hj Hx. unfold fgetbyte. rewrite (proj2 (Z.ltb_ge _ 0)) by lia. apply Hlook; [lia..|done].
Qed.

(** ** The keys *)

Definition room : Z := match kp with KbBuf => 129 | User => Z.of_nat (length (ubuf c0)) - 2 end.
Lemma room_size : size <= room.
Proof. unfold room, LINEBUFSIZECON in *. destruct kp; lia. Qed.
Lemma size_255 : size <= 255.
Proof. unfold LINEBUFSIZECON in *. destruct kp; lia. Qed.

(** What the variables are before a key. *)
Record line_ok (l : line) : Prop := LineOk {
  lo_count : 0 <= count l <= size - 1;
  lo_pos : 0 <= stored_pos l;
  lo_stored : 0 <= stored_size l <= room }.

Notation put_char := (put_char k sft_out).
Notation copy_stored := (copy_stored k sft_out kp).
Notation copy_loop := (copy_loop k sft_out kp size).

Lemma safe_put_char s c l :
  typing s -> 0 <= count l < 256 ->
  safe (put_char c l) (fun l' s' => typing s' /\ l' = set_count (count l + 1) l /\ linebuf (cn s') !! Z.to_nat (count l) = Some (u8 c)) s.
Proof.
  intros Ht Hc. unfold Chario.put_char. eapply safe_bind; [by apply safe_echo|]. intros r s1 [-> H1].
  eapply safe_bind; [by apply safe_lb_put|]. intros u s2 [H2 Hl]. apply safe_ret. by rewrite u16_small by lia.
Qed.

Lemma safe_copy_stored s l :
  typing s -> 0 <= stored_pos l < room -> 0 <= count l < size - 1 ->
  safe (copy_stored l) (fun l' s' => typing s' /\ l' = Line (count l + 1) (u16 (stored_pos l + 1)) (stored_size l) (insert_ l) (first l)) s.
Proof.
  intros Ht Hp Hc. pose proof size_255. unfold Chario.copy_stored.
  eapply safe_bind; [apply safe_kb_char; [done|by rewrite room_kb]|]. intros c s1 ->.
  eapply safe_mono; [apply safe_put_char; [done|cbn; lia]|]. intros l' s' (H1 & -> & _). done.
Qed.

Lemma safe_copy_loop n new_pos s l :
  typing s -> line_ok l -> new_pos <= room ->
  safe (copy_loop n new_pos l) (fun l' s' => typing s' /\ line_ok l' /\ stored_size l' = stored_size l) s.
Proof.
  revert s l. induction n as [|n IH]; intros s l Ht Hl Hn; cbn [Chario.copy_loop]; [by apply safe_ret|].
  destruct ((stored_pos l <? new_pos) && (count l <? size - 1)) eqn:E; [|by apply safe_ret].
  apply andb_true_iff in E as [E1 E2]. zbool. pose proof Hl as [Hc Hp Hs].
  eapply safe_bind; [apply safe_copy_stored; [done|lia|lia]|]. intros l1 s1 [H1 ->].
  eapply safe_mono; [apply IH; [done| |done]|].
  - split; cbn; [lia|apply u16_range|done].
  - cbn. intros l2 s2 H. exact H.
Qed.

Lemma safe_columns n i new_pos s :
  typing s -> 0 <= i -> i + Z.of_nat n <= 256 -> safe (columns n i new_pos) (fun _ s' => s' = s) s.
Proof.
  revert i new_pos. induction n as [|n IH]; intros i new_pos Ht Hi Hn; cbn [columns]; [by apply safe_ret|].
  eapply safe_bind; [apply safe_lb_get; [done|lia]|]. intros c s1 ->. apply IH; [done|lia|lia].
Qed.

Lemma safe_back_loop fuel new_pos s : typing s -> safe (back_loop k sft_out fuel new_pos) (fun _ => typing) s.
Proof.
  revert s. induction fuel as [|fuel IH]; intros s Ht; cbn [back_loop]; [done|].
  eapply safe_bind; [by apply safe_destr|]. intros u s1 H1. unfold get_scr_pos.
  eapply (safe_bind _ _ (fun _ s' => typing s')); [by apply safe_get|]. intros pos s2 H2.
  destruct (_ <? _); [by apply IH|by apply safe_ret].
Qed.

Lemma safe_backspace fuel s l :
  typing s -> line_ok l -> safe (backspace k sft_out cu_pos fuel l) (fun l' s' => typing s' /\ line_ok l') s.
Proof.
  intros Ht Hl. pose proof Hl as [Hc Hp Hs]. pose proof size_255. unfold backspace.
  eapply (safe_bind _ _ (fun l' s' => typing s' /\ line_ok l')).
  - destruct (0 <? count l) eqn:E; zbool; [|by apply safe_ret].
    eapply safe_bind; [apply safe_lb_get; [done|cbn; lia]|]. intros c2 s1 ->.
    eapply (safe_bind _ _ (fun _ s' => typing s')).
    + destruct (c2 =? HT).
      * eapply safe_bind; [apply safe_columns; [done|lia|cbn; lia]|]. intros np s1 ->. by apply safe_back_loop.
      * eapply (safe_bind _ _ (fun _ s' => typing s')).
        { destruct (iscntrl c2); [by apply safe_destr|by apply safe_ret]. }
        intros u s1 H1. by apply safe_destr.
    + intros u s1 H1. apply safe_ret. split; [done|]. split; cbn; [lia|done|done].
  - intros l' s' [H1 Hl']. apply safe_ret. split; [done|]. destruct (0 <? stored_pos l') eqn:E; zbool; [|done].
    destruct Hl'. split; cbn; [done|lia|done].
Qed.

Lemma safe_blanks n s : typing s -> safe (blanks k sft_out n) (fun _ => typing) s.
Proof.
  revert s. induction n as [|n IH]; intros s Ht; cbn [blanks]; [by apply safe_ret|].
  eapply safe_bind; [by apply safe_write|]. intros u s1 [H1 _]. by apply IH.
Qed.
Lemma safe_new_line s l :
  typing s -> 0 <= stored_size l <= room -> safe (start_new_line k sft_out cu_pos l) (fun l' s' => typing s' /\ line_ok l') s.
Proof.
  intros Ht Hs. unfold start_new_line. eapply safe_bind; [by apply safe_write|]. intros u1 s1 [H1 _].
  eapply safe_bind; [by apply safe_write|]. intros u2 s2 [H2 _].
  eapply safe_bind; [by apply safe_blanks|]. intros u3 s3 H3. apply safe_ret. split; [done|].
  split; cbn; [lia|lia|done].
Qed.

(** What holds after a key: the loop goes on, or the line ends with CR. *)
Definition after_key (c : Z) (l : line) (s : cst) : Prop :=
  typing s /\
  if c =? CR then 1 <= count l <= size /\ linebuf (cn s) !! Z.to_nat (count l - 1) = Some CR else line_ok l.

Lemma safe_typed s c l :
  typing s -> line_ok l -> safe (typed k sft_out size c l) (fun l' s' => after_key c l' s') s.
Proof.
  intros Ht Hl. pose proof Hl as [Hc Hp Hs]. pose proof size_255. unfold typed, after_key.
  destruct (256 <=? c) eqn:E; zbool.
  { apply safe_ret. split; [done|]. rewrite (proj2 (Z.eqb_neq c CR)); [done|unfold CR; lia]. }
  eapply (safe_bind _ _ (fun l' s' => typing s' /\ stored_pos l' = stored_pos l /\ stored_size l' = stored_size l /\
    if c =? CR then 1 <= count l' <= size /\ linebuf (cn s') !! Z.to_nat (count l' - 1) = Some CR
    else 0 <= count l' <= size - 1)).
  - destruct ((count l <? size - 1) || (c =? CR)) eqn:E1.
    + eapply safe_mono; [apply safe_put_char; [done|lia]|]. intros l' s' (H1 & -> & Hlb). split; [done|].
      split; [done|]. split; [done|]. destruct (c =? CR) eqn:Ec; zbool.
      * cbn. split; [lia|]. replace (count l + 1 - 1) with (count l) by lia. by rewrite Ec in Hlb.
      * rewrite orb_false_r in E1. zbool. cbn. lia.
    + apply orb_false_iff in E1 as [_ ->]. eapply safe_bind; [by apply safe_write|]. intros u s1 [H1 _].
      apply safe_ret. split; [done|]. split; [done|]. split; [done|]. lia.
  - intros l' s' (H1 & Ep & Es & Hl'). apply safe_ret.
    assert (Ec : forall l2, count l2 = count l' -> stored_size l2 = stored_size l -> 0 <= stored_pos l2 ->
      typing s' /\ if c =? CR then 1 <= count l2 <= size /\ linebuf (cn s') !! Z.to_nat (count l2 - 1) = Some CR else line_ok l2).
    { intros l2 E2 E3 E4. split; [done|]. rewrite E2. destruct (c =? CR); [done|]. split; [lia|done|by rewrite E3]. }
    destruct (_ && _); apply Ec; cbn; try done; [apply u16_range|by rewrite Ep].
Qed.

Lemma not_cr c l s : typing s -> line_ok l -> c <> CR -> after_key c l s.
Proof. intros H1 H2 Hc. split; [done|]. by rewrite (proj2 (Z.eqb_neq _ _) Hc). Qed.

(** Any key but F2 and F4. *)
Lemma safe_key fuel s c l :
  typing s -> line_ok l -> c <> F2 -> c <> F4 ->
  safe (line_key k sft_in sft_out kp size cu_pos fuel c l) (fun r s' => after_key (fst r) (snd r) s') s.
Proof.
  intros Ht Hl N2 N4. pose proof Hl as [Hc Hp Hs]. pose proof room_size. unfold line_key.
  destruct (c =? LF) eqn:E; zbool.
  { subst c. eapply (safe_bind _ _ (fun _ s' => typing s')).
    - destruct (negb _); [|by apply safe_ret]. eapply safe_bind; [by apply safe_write|]. intros u s1 [T1 _].
      eapply safe_mono; [by apply safe_write|]. by intros ? ? [].
    - intros u s1 T1. apply safe_ret. by apply not_cr. }
  destruct (c =? CTL_F) eqn:E1; zbool; [subst c; apply safe_ret; by apply not_cr|].
  destruct ((c =? RIGHT) || (c =? F1)) eqn:E2.
  { eapply (safe_bind _ _ (fun l' s' => typing s' /\ line_ok l')).
    - destruct (_ && _) eqn:E3; [|by apply safe_ret]. apply andb_true_iff in E3 as [E3 E4]. zbool.
      eapply safe_mono; [apply safe_copy_stored; [done|lia|lia]|]. intros l' s' [T1 ->]. split; [done|].
      split; cbn; [lia|apply u16_range|done].
    - intros l' s' [T1 Hl']. apply safe_ret. apply not_cr; [done..|]. apply orb_true_iff in E2 as [E2|E2]; zbool; by subst. }
  destruct ((c =? F2) || (c =? F4) || (c =? F3)) eqn:E3.
  { rewrite (proj2 (Z.eqb_neq _ _) N2), (proj2 (Z.eqb_neq _ _) N4) in E3. cbn [orb] in E3. zbool. subst c.
    change (F3 =? F3) with true. change (negb (F3 =? F4)) with true. cbn iota.
    eapply (safe_bind _ _ (fun np s' => typing s' /\ np = stored_size l)); [by apply safe_ret|].
    intros np s1 [Ht1 ->]. eapply safe_bind; [apply safe_copy_loop; [done|done|lia]|]. intros l2 s2 (Ht2 & [] & Es).
    apply safe_ret. apply not_cr; [done| |done]. split; cbn; [done|lia|done]. }
  destruct (c =? F5) eqn:E4; zbool.
  { subst c. eapply safe_bind; [apply safe_copy; [done|lia]|]. intros u s1 [T1 _].
    eapply safe_bind; [by apply safe_write|]. intros u2 s2 [T2 _].
    eapply safe_bind; [apply safe_new_line; [done|cbn; lia]|]. intros l' s' [T3 Hl']. apply safe_ret. by apply not_cr. }
  destruct (c =? INS) eqn:E5; zbool; [subst c; apply safe_ret; apply not_cr; [done|by destruct Hl|done]|].
  destruct (c =? DEL) eqn:E6; zbool.
  { subst c. apply safe_ret. apply not_cr; [done| |done]. split; cbn; [done|apply u16_range|done]. }
  destruct ((c =? LEFT) || (c =? CTL_BS) || (c =? BS)) eqn:E7.
  { eapply safe_bind; [by apply safe_backspace|]. intros l' s' [T1 Hl']. apply safe_ret. apply not_cr; [done..|].
    apply orb_true_iff in E7 as [[E7|E7]%orb_true_iff|E7]; zbool; by subst. }
  destruct (c =? ESC) eqn:E8; zbool.
  { subst c. eapply safe_bind; [by apply safe_write|]. intros u s1 [T1 _].
    eapply safe_bind; [by apply safe_new_line|]. intros l' s' [T2 Hl']. apply safe_ret. by apply not_cr. }
  eapply safe_bind; [by apply safe_typed|]. intros l' s' Ha. by apply safe_ret.
Qed.

(** ** The loop *)

Lemma safe_read_key s : typing s -> safe (read_key k sft_in sft_out) (fun _ => typing) s.
Proof.
  intros Ht. unfold read_key. eapply safe_bind; [by apply safe_read|]. intros c s1 [H1 _].
  destruct (c =? 0); [|by apply safe_ret]. eapply safe_bind; [by apply safe_read|]. intros c2 s2 [H2 _]. by apply safe_ret.
Qed.

Hypothesis Hkeys : forall s c s', I s -> read_key k sft_in sft_out s = Some (Ret c, s') -> c <> F2 /\ c <> F4.

Lemma safe_line_loop fuel s l :
  typing s -> line_ok l ->
  safe (line_loop k sft_in sft_out kp size cu_pos fuel l) (fun l' s' => after_key CR l' s') s.
Proof.
  revert s l. induction fuel as [|fuel IH]; intros s l Ht Hl; cbn [line_loop]; [done|].
  unfold safe at 1, cbind. pose proof (safe_read_key s Ht) as Hk. unfold safe in Hk.
  destruct (read_key k sft_in sft_out s) as [[[c| |] s1]|] eqn:Ek; try done.
  destruct (Hkeys _ _ _ (ty_works _ Ht) Ek) as [N2 N4]. pose proof (safe_key fuel s1 c l Hk Hl N2 N4) as Hkey. unfold safe in Hkey.
  destruct (line_key _ _ _ _ _ _ _ _ _ s1) as [[[[c' l']| |] s2]|]; try done. destruct Hkey as [H2 Hl']. cbn [fst snd] in *.
  destruct (c' =? CR) eqn:Ec.
  - split; [done|]. exact Hl'.
  - apply IH; [done|]. destruct Hl'. by split.
Qed.
End Safe.

(** ** The whole of [read_line] *)

Section Whole.
Context {M : Machine} {Sh : Shell} {R : Redirector} {Cn : Console}.
Context {I : cst -> Prop} {k : svc} {sft_in sft_out : Z} {W : Works I k sft_in sft_out}.

(** No extended key is F2 or F4. *)
Definition no_F2_F4 : Prop :=
  forall s c s', I s -> read_key k sft_in sft_out s = Some (Ret c, s') -> c <> F2 /\ c <> F4.

(** The buffers before a line is read: [kp] has room for what its first byte
    says and for the old line of its second byte. *)
Record buffers (kp : kptr) (size stored : Z) (c : con) : Prop := Buffers {
  bf_line : length (linebuf c) = 259%nat;
  bf_size : kb_get kp 0 c = Some size;
  bf_stored : kb_get kp 1 c = Some stored;
  bf_old : 0 <= stored < kb_room kp c;
  bf_bound : 0 <= size <= match kp with KbBuf => LINEBUFSIZECON | User => 255 end;
  bf_room : size <= match kp with KbBuf => LINEBUFSIZECON | User => Z.of_nat (length (ubuf c)) - 2 end }.

(** The line in [kp] afterwards. *)
Record line_read (kp : kptr) (size : Z) (c0 : con) (s : cst) : Prop := LineRead {
  lr_works : I s;
  lr_line : length (linebuf (cn s)) = 259%nat;
  lr_user : length (ubuf (cn s)) = length (ubuf c0);
  lr_behind : behind kp size (cn s) = behind kp size c0;
  lr_cr : exists n, kb_get kp 1 (cn s) = Some n /\ 0 <= n < size /\ kb_get kp (2 + n) (cn s) = Some CR }.

Lemma kb_get_room kp i c : 0 <= i < 2 + kb_room kp c -> length (linebuf c) = 259%nat -> is_Some (kb_get kp i c).
Proof.
  unfold kb_room, kb_get, fgetbyte, KB_BUF. intros Hi Hl. destruct kp; rewrite (proj2 (Z.ltb_ge _ 0)) by lia; apply lookup_lt_is_Some; lia.
Qed.

(** Writing one of the two bytes before the line. *)
Lemma kb_put_head kp v size (c : con) :
  length (linebuf c) = 259%nat -> 2 <= Z.of_nat (length (ubuf c)) \/ kp = KbBuf -> 0 <= size ->
  exists c', kb_put kp 1 v c = Some c' /\ length (linebuf c') = 259%nat /\ length (ubuf c') = length (ubuf c) /\
    behind kp size c' = behind kp size c /\ kb_get kp 1 c' = Some (u8 v) /\
    (forall i, 2 <= i -> kb_get kp i c' = kb_get kp i c) /\
    (c' = set_linebuf (linebuf c') c \/ c' = set_ubuf (ubuf c') c).
Proof.
  intros Hl Hu Hs. unfold kb_put, kb_get, fputbyte, fgetbyte, KB_BUF. destruct kp.
  - change ((0 <=? 128 + 1) && (128 + 1 <? Z.of_nat (length (linebuf c)))) with (129 <? Z.of_nat (length (linebuf c))).
    rewrite Hl. cbn [fmap option_fmap option_map Z.of_nat Z.ltb Z.compare Pos.compare Pos.compare_cont Pos.of_succ_nat Pos.succ].
    eexists. split; [reflexivity|]. cbn. rewrite length_insert. split; [done|]. split; [done|]. split; [done|].
    split; [rewrite list_lookup_insert_eq by lia; done|]. split; [|by left].
    intros i Hi. rewrite (proj2 (Z.ltb_ge _ 0)) by lia. rewrite list_lookup_insert_ne; [done|lia].
  - destruct Hu as [Hu|Hu]; [|done]. rewrite (proj2 (Z.ltb_lt 1 _)) by lia. cbn [Z.leb Z.compare andb fmap option_fmap option_map].
    eexists. split; [reflexivity|]. cbn. rewrite length_insert. split; [done|]. split; [done|].
    split; [apply drop_insert_lt; lia|]. split; [rewrite list_lookup_insert_eq by lia; done|]. split; [|by right].
    intros i Hi. rewrite (proj2 (Z.ltb_ge i 0)) by lia. rewrite list_lookup_insert_ne; [done|lia].
Qed.

Lemma works_con_put s c' : I s -> c' = set_linebuf (linebuf c') (cn s) \/ c' = set_ubuf (ubuf c') (cn s) -> I (Cst M (hn s) c').
Proof. intros HI [-> | ->]; [by apply works_line|by apply works_user]. Qed.

Lemma safe_con_put g s c' Q : g (cn s) = Some c' -> Q tt (Cst M (hn s) c') -> safe (con_put g) Q s.
Proof. intros Hg HQ. unfold con_put, safe, cbind, cget, copt, cmod. by rewrite Hg. Qed.

(** What is left to do after the keys: the byte that says there is no line at
    [kb_buf], and the count. *)
Lemma safe_line_tail kp size c0 s n :
  length (linebuf (cn s)) = 259%nat -> length (ubuf (cn s)) = length (ubuf c0) -> behind kp size (cn s) = behind kp size c0 -> I s ->
  1 <= n <= size -> size <= 255 -> (kp = KbBuf -> n <= LINEBUFSIZECON) -> (kp = User -> size <= Z.of_nat (length (ubuf c0)) - 2) ->
  kb_get kp (2 + (n - 1)) (cn s) = Some CR ->
  safe (con_ (if LINEBUFSIZECON <? n then con_put (kb_put KbBuf 0 0) else cret tt) in con_put (kb_put kp 1 (u8 (n - 1))))
    (fun _ => line_read kp size c0) s.
Proof.
  intros Hl Hu Hb HI Hn Hs Hk1 Hk2 Hcr.
  eapply (safe_bind _ _ (fun _ s' => length (linebuf (cn s')) = 259%nat /\ ubuf (cn s') = ubuf (cn s) /\ I s' /\
    behind kp size (cn s') = behind kp size (cn s) /\ kb_get kp (2 + (n - 1)) (cn s') = Some CR)).
  - destruct (LINEBUFSIZECON <? n) eqn:E; zbool; [|by apply safe_ret].
    destruct kp; [by specialize (Hk1 eq_refl); lia|].
    eapply safe_con_put.
    + unfold kb_put, fputbyte, KB_BUF. change ((0 <=? 128 + 0) && (128 + 0 <? Z.of_nat (length (linebuf (cn s))))) with (128 <? Z.of_nat (length (linebuf (cn s)))).
      rewrite (proj2 (Z.ltb_lt 128 _)) by lia. reflexivity.
    + cbn. rewrite length_insert. repeat split; try done. by apply works_line.
  - intros u s1 (Hl1 & Hu1 & HI1 & Hb1 & Hcr1).
    destruct (kb_put_head kp (u8 (n - 1)) size (cn s1)) as (c' & E & Hl' & Hu' & Hb' & Hn' & Hi' & Hc'); [done| |lia|].
    { destruct kp; [by right|left]. rewrite Hu1, Hu. specialize (Hk2 eq_refl). lia. }
    eapply safe_con_put; [exact E|]. split; cbn; [by apply works_con_put|done|by rewrite Hu', Hu1|congruence|].
    exists (n - 1). rewrite Hn', Hi' by lia. rewrite !u8_small by (rewrite ?u8_small; lia). done || (split; [done|]; split; [lia|done]).
Qed.

Lemma safe_read_line fuel kp size stored s :
  I s -> buffers kp size stored (cn s) -> no_F2_F4 ->
  safe (read_line k fuel sft_in sft_out kp) (fun _ s' => if size =? 0 then s' = s else line_read kp size (cn s) s') s.
Proof.
  intros HI [Hl Hz Hst Ho Hb Hr] Hk. unfold read_line.
  assert (Hg : forall i x Q (f : Z -> C unit), kb_get kp i (cn s) = Some x -> safe (f x) Q s -> safe (con! y := con_get (kb_get kp i) in f y) Q s).
  { intros i x Q f E Hs. unfold safe, con_get, cbind, cget, copt in *. by rewrite E. }
  apply (Hg _ _ _ _ Hz), (Hg _ _ _ _ Hst). unfold get_scr_pos, cret.
  eapply (safe_bind _ _ (fun _ s' => s' = s)); [by apply safe_get, safe_ret|]. intros cu_pos s0 ->.
  destruct (size =? 0) eqn:E0; [by apply safe_ret|]. zbool.
  destruct (kb_get_room kp (2 + stored) (cn s)) as [c Hc]; [lia|done|].
  apply (Hg _ _ _ _ Hc).
  assert (Hty : typing (I := I) kp size (cn s) s) by by split.
  assert (H1 : 1 <= size <= match kp with KbBuf => LINEBUFSIZECON | User => 255 end) by (destruct kp; lia).
  eapply safe_bind.
  { eapply (safe_line_loop (I := I) kp size cu_pos (cn s)); [exact H1|exact Hr|exact Hk|exact Hty|].
    split; cbn; [lia|lia|]. unfold kb_room in Ho. rewrite Hl in Ho. unfold room. destruct kp, (c =? CR); unfold KB_BUF in Ho; cbn [stored_size]; lia. }
  intros l s1 [Ht1 H2]. rewrite Z.eqb_refl in H2. destruct H2 as [Hn Hcr].
  eapply safe_bind; [apply (safe_copy (I := I) kp size (cn s)); [exact H1|exact Hr|exact Ht1|lia]|].
  intros u s2 [Ht2 Hcopy]. destruct Ht2 as [T1 T2 T3 T4].
  apply safe_line_tail; [done..|lia| |intros ->; lia|intros ->; lia|].
  - unfold LINEBUFSIZECON in H1. destruct kp; lia.
  - apply Hcopy; [lia|done].
Qed.
End Whole.
End LineSafe.
