(* ===== verification/TypeSpec.v ===== *)
(** * Typing a line

    The console as an entry of the system file table: what reading a
    character, writing one, and typing a line of text do.  The second module,
    LineSpec, is about whole lines and the reads that take them in pieces. *)

From S2P Require Import Prelude Memmgr KState BlockIO FatTab FNode FatAlloc Clock Media FatDir FatFile FatRw.
From S2P Require Import Frame Path Handle Chario ConSpec.
Import Mm Ks Bio Fat FNode Alloc Clk Media Dir File Rw Frame Path Handle Chario ConSpec.

Module TypeSpec.

Section Type_.
Context {M : Machine} {Sh : Shell} {R : Redirector} {Cn : Console} {dv : Z} {T : Terminal dv}.

(** The entry of a console in cooked mode. *)
Definition console_sft (f : sft) : Prop :=
  has (sft_flags f) SFT_FSHARED = false /\ has (sft_flags f) SFT_FDEVICE = true /\
  has (sft_flags f) SFT_FBINARY = false /\ has (sft_flags f) SFT_FNUL = false /\ sft_dcb f = dv /\ sft_count f <> 0.
Definition table_of (s : cst) : list (list sft) := sfthead (fs (kern (pth (hn s)))).
Record console (i : Z) (s : cst) : Prop := Console_ {
  co_calm : calm (dv := dv) s;
  co_attr : is_Some (dh_attr (env (kern (pth (hn s)))) !! dv);
  co_index : 0 <= i;
  co_sft : exists f, concat (table_of s) !! Z.to_nat i = Some f /\ console_sft f }.

Lemma console_found i s : console i s -> exists f, idx_to_sft (table_of s) i = Some f /\ console_sft f.
Proof.
  intros [_ _ Hi (f & Hf & Hc)]. exists f. split; [|done]. unfold idx_to_sft.
  rewrite (proj2 (Z.ltb_ge i 0)), idx_concat, Hf by lia. by rewrite (proj2 (Z.eqb_neq _ _)) by apply Hc.
Qed.

Lemma console_dev i rq w s : console i s -> Forall harmless (typed_ahead w) -> console i (con_dev rq w s).
Proof. intros [[] Ha Hi Hf] Ht. by repeat split. Qed.
Lemma console_con i s c : console i s -> CB_FLG c = CB_FLG (cn s) -> PrinterEcho c = PrinterEcho (cn s) ->
  syscon c = syscon (cn s) -> console i (Cst M (hn s) c).
Proof. intros [[H1 H2 H3 H4] Ha Hi Hf] E1 E2 E3. repeat split; cbn; congruence || done. Qed.

(** Writing marks the entry as not at the end of the file. *)
Definition mark_eof (f : sft) : sft := set_sft_flags (Z.lor (sft_flags f) SFT_FEOF) f.
Definition marked (i : Z) (s : cst) : cst :=
  let k := kern (pth (hn s)) in
  Cst M (set_pth (set_kern (set_fs (set_sfthead (sft_upd (sfthead (fs k)) i mark_eof) (fs k)) k) (pth (hn s))) (hn s)) (cn s).

Lemma has_lor_other a b c : Z.land b c = 0 -> has (Z.lor a b) c = has a c.
Proof. intros H. unfold has. by rewrite Z.land_lor_distr_l, H, Z.lor_0_r. Qed.

Lemma marked_console i s : console i s -> console i (marked i s).
Proof.
  intros [[H1 H2 H3 H4] Ha Hi (f & Hf & Hc)]. split; [by split|done|done|].
  exists (mark_eof f). split.
  - unfold table_of, marked. cbn. rewrite concat_sft_upd by done. rewrite list_lookup_alter_eq. unfold table_of in Hf. by rewrite Hf.
  - destruct Hc as (F1 & F2 & F3 & F4 & F5 & F6). unfold console_sft, mark_eof. cbn. by rewrite !has_lor_other.
Qed.

Lemma con_sft_run i s : con_sft i s = Some (Ret (idx_to_sft (table_of s) i), s).
Proof. unfold con_sft, on_hst, in_use. rewrite run_get. by destruct s. Qed.

(** Text goes to the screen. *)
Lemma force_write_runs f i addr n bp s :
  console i s -> 0 <= n <= Z.of_nat (length bp) -> Forall byte bp ->
  let l := take (Z.to_nat n) bp in
  exists s', DosRWSft (knot (S f)) (S f) i n addr bp XFR_FORCE_WRITE s = Some (Ret (text_length l, bp), s') /\ console i s' /\
    cn s' = set_scr_pos (snd (expand (scr_pos (cn s)) l)) (cn s) /\
    shown (wd s') = shown (wd s) ++ fst (expand (scr_pos (cn s)) l) /\ typed_ahead (wd s') = typed_ahead (wd s).
Proof.
  intros Hs Hn Hb l. destruct (console_found i s Hs) as (f0 & Hf & F1 & F2 & F3 & F4 & F5 & _).
  pose proof (marked_console i s Hs) as Hm. destruct (co_attr _ _ Hs) as [attr Ha].
  destruct (cooked_write_runs f n bp (marked i s) attr (co_calm _ _ Hm) Ha Hn Hb) as (rq & w & E & Hsh & Hty).
  set (s2 := con_dev rq w _) in E. exists s2. split; [|split; [|split; [|split]]].
  - unfold DosRWSft. rewrite (crun_eq _ _ _ _ _ (con_sft_run i s)), Hf.
    change (XFR_FORCE_WRITE =? XFR_READ) with false. change (XFR_FORCE_WRITE =? XFR_WRITE) with false.
    change (XFR_FORCE_WRITE =? XFR_FORCE_WRITE) with true. cbn [andb orb]. cbn iota.
    change (XFR_WRITE =? XFR_READ) with false. rewrite F1, F2, F3. cbn iota.
    assert (Em : on_k (sftmod i (fun f => set_sft_flags (Z.lor (sft_flags f) SFT_FEOF) f)) s = Some (Ret tt, marked i s)) by done.
    rewrite (crun_eq _ _ _ _ _ Em), F4, F5, (crun_eq _ _ _ _ _ E). done.
  - apply console_dev; [|by rewrite Hty; apply Hs]. apply console_con; [exact Hm|done..].
  - done.
  - exact Hsh.
  - exact Hty.
Qed.

(** One character goes to the screen. *)
Lemma write_char_runs f i c s :
  console i s -> byte c -> exists s', write_char (knot (S (S f))) c i s = Some (Ret tt, s') /\ console i s' /\
    cn s' = set_scr_pos (snd (expand (scr_pos (cn s)) [c])) (cn s) /\
    shown (wd s') = shown (wd s) ++ fst (expand (scr_pos (cn s)) [c]) /\ typed_ahead (wd s') = typed_ahead (wd s).
Proof.
  intros Hs Hc. assert (Hu : u8 c = c) by (unfold byte in Hc; by rewrite u8_small by lia).
  destruct (force_write_runs f i stack_at 1 [c] s Hs) as (s' & E & H); [cbn; lia|by constructor|].
  exists s'. split; [|exact H]. unfold write_char. by rewrite Hu, (crun_eq _ _ _ _ _ E).
Qed.

(** One character comes from the keyboard. *)
Lemma read_char_runs f i o c l s :
  console i s -> typed_ahead (wd s) = c :: l -> exists s', read_char (knot (S f)) i o true s = Some (Ret c, s') /\
    console i s' /\ cn s' = cn s /\ shown (wd s') = shown (wd s) /\ typed_ahead (wd s') = l.
Proof.
  intros Hs Ht. destruct (console_found i s Hs) as (f0 & Hf & F1 & F2 & F3 & F4 & F5 & _).
  pose proof (calm_typed _ (co_calm _ _ Hs)) as Hh. rewrite Ht in Hh. apply Forall_cons in Hh as [(Hb & Hn1 & Hn2) Hl].
  unfold byte in Hb.
  destruct (Busy_runs s) as (rq1 & w1 & E1 & Hs1 & Ht1). rewrite Ht in E1, Ht1.
  destruct (get_runs (con_dev rq1 w1 s) c l ltac:(lia) Ht1) as (rq2 & w2 & E2 & Hs2 & Ht2).
  change (wd (con_dev rq1 w1 s)) with w1 in Hs2. rewrite con_dev_twice in E2.
  exists (con_dev rq2 w2 s). split; [|split; [|split; [|split]]]; [| |done|cbn; unfold wd in *; congruence|done].
  - unfold read_char. rewrite (crun_eq _ _ _ _ _ (con_sft_run i s)), Hf. unfold sft_to_dev.
    rewrite crun_assoc, crun_get, crun_ret, F2, F5. cbn [k_read knot]. unfold read_char_sft_dev.
    rewrite (proj2 (Z.eqb_neq _ _) (term_nonnull (dv := dv))). cbn [negb]. unfold wait_char, ctrl_break_pressed.
    rewrite !crun_assoc, crun_get, crun_ret, (calm_break _ (co_calm _ _ Hs)), crun_assoc, (crun_eq _ _ _ _ _ E1). cbn [negb].
    rewrite !crun_assoc, (crun_eq _ _ _ _ _ E2), crun_ret, u16_small by lia.
    rewrite (proj2 (Z.eqb_neq _ _) Hn1), (proj2 (Z.eqb_neq _ _) Hn2). cbn [orb andb].
    rewrite crun_ret, u8_small by lia. done.
  - apply console_dev; [done|by rewrite Ht2].
Qed.

(** ** Text *)

(** Characters that stand for themselves. *)
Definition plain_char (c : Z) : Prop := (c = HT \/ 0x20 <= c < 256) /\ c <> CTL_BS.

Lemma plain_byte c : plain_char c -> byte c.
Proof. unfold plain_char, byte, HT. lia. Qed.
Lemma plain_facts c : plain_char c -> 0 <= c < 256 /\ c <> 0 /\ c <> LF /\ c <> CTL_F /\ c <> CR /\ c <> BS /\ c <> ESC /\ c <> CTL_BS /\ c <> CTL_Z /\
  (iscntrl c && negb (c =? HT)) = false.
Proof.
  intros [H1 H2]. unfold HT, LF, CTL_F, CR, BS, ESC, CTL_Z in *. repeat split; try lia; try done.
  destruct (c =? 9) eqn:E; zbool; [by rewrite andb_false_r|]. unfold iscntrl. rewrite u8_small by lia.
  by rewrite (proj2 (Z.ltb_ge _ _)) by lia.
Qed.

Lemma echo_runs f i c s :
  console i s -> plain_char c \/ c = CR -> exists s', echo_char (knot (S (S f))) c i s = Some (Ret c, s') /\ console i s' /\
    cn s' = set_scr_pos (snd (expand (scr_pos (cn s)) [c])) (cn s) /\
    shown (wd s') = shown (wd s) ++ fst (expand (scr_pos (cn s)) [c]) /\ typed_ahead (wd s') = typed_ahead (wd s).
Proof.
  intros Hs Hc. assert (Hb : byte c /\ (iscntrl c && negb (c =? HT) && negb (c =? LF) && negb (c =? CR)) = false).
  { destruct Hc as [Hc| ->]; [|done]. split; [by apply plain_byte|].
    destruct (plain_facts c Hc) as (_ & _ & _ & _ & _ & _ & _ & _ & _ & ->). done. }
  destruct Hb as [Hb E]. destruct (write_char_runs f i c s Hs Hb) as (s' & E' & H). exists s'. split; [|done].
  unfold echo_char. rewrite E, crun_ret, (crun_eq _ _ _ _ _ E'). done.
Qed.

Lemma expand_cons col c l :
  c <> CTL_Z -> expand col (c :: l) =
    (fst (expand col [c]) ++ fst (expand (snd (expand col [c])) l), snd (expand (snd (expand col [c])) l)).
Proof.
  intros Hc. cbn [expand]. rewrite (proj2 (Z.eqb_neq _ _) Hc). destruct (if c =? HT then _ else _) as [c' n].
  cbn [fst snd]. rewrite app_nil_r. by destruct (expand _ l).
Qed.

(** A character is put at the end of the line. *)
Lemma put_char_runs f i c l s :
  console i s -> plain_char c \/ c = CR -> 0 <= count l < 256 -> length (linebuf (cn s)) = 259%nat ->
  exists s', put_char (knot (S (S f))) i c l s = Some (Ret (set_count (count l + 1) l), s') /\ console i s' /\
    cn s' = set_linebuf (<[Z.to_nat (count l) := c]> (linebuf (cn s))) (set_scr_pos (snd (expand (scr_pos (cn s)) [c])) (cn s)) /\
    shown (wd s') = shown (wd s) ++ fst (expand (scr_pos (cn s)) [c]) /\ typed_ahead (wd s') = typed_ahead (wd s).
Proof.
  intros Hs Hc Hl Hlen. destruct (echo_runs f i c s Hs Hc) as (s1 & E & Hs1 & Ec & Hsh & Hty).
  assert (Hu : u8 c = c).
  { destruct Hc as [Hc| ->]; [|done]. pose proof (plain_byte c Hc) as Hb. unfold byte in Hb. by rewrite u8_small by lia. }
  unfold put_char. rewrite (crun_eq _ _ _ _ _ E). unfold lb_put, con_put. rewrite crun_assoc, crun_get.
  unfold LINEBUFSIZE0A, fputbyte. rewrite (proj2 (Z.ltb_lt (count l) 256)) by lia.
  assert (Hlen1 : length (linebuf (cn s1)) = 259%nat) by (by rewrite Ec).
  rewrite (proj2 (Z.leb_le 0 _)), (proj2 (Z.ltb_lt (count l) _)) by lia.
  cbn [andb fmap option_fmap option_map]. rewrite crun_assoc, crun_opt, crun_mod, u16_small, Hu by lia.
  eexists. split; [reflexivity|]. split; [by apply console_con|]. cbn. split; [by rewrite Ec|]. done.
Qed.

(** A key that is not a command. *)
Lemma key_default k i o kp size cu_pos fuel c l :
  0 <= c < 256 -> c <> LF -> c <> CTL_F -> c <> BS -> c <> ESC -> c <> CTL_BS ->
  line_key k i o kp size cu_pos fuel c l = con! l := typed k o size c l in cret (c, l).
Proof.
  intros Hc N1 N2 N4 N5 N6. assert (Hne : forall x, 256 <= x -> (c =? x) = false) by (intros x Hx; apply Z.eqb_neq; lia).
  unfold line_key.
  rewrite (proj2 (Z.eqb_neq _ _) N1), (proj2 (Z.eqb_neq _ _) N2), (proj2 (Z.eqb_neq _ _) N4), (proj2 (Z.eqb_neq _ _) N5), (proj2 (Z.eqb_neq _ _) N6).
  rewrite (Hne RIGHT), (Hne F1), (Hne F2), (Hne F4), (Hne F3), (Hne F5), (Hne INS), (Hne DEL), (Hne LEFT), (Hne F6)
    by (unfold RIGHT, F1, F2, F4, F3, F5, INS, DEL, LEFT, F6; lia).
  done.
Qed.

(** One plain key in the editor. *)
Lemma plain_key f fuel i kp size cu_pos c l s :
  console i s -> plain_char c -> 0 <= count l < size - 1 -> size <= 256 -> length (linebuf (cn s)) = 259%nat ->
  exists l' s', line_key (knot (S (S f))) i i kp size cu_pos fuel c l s = Some (Ret (c, l'), s') /\ console i s' /\
    count l' = count l + 1 /\
    cn s' = set_linebuf (<[Z.to_nat (count l) := c]> (linebuf (cn s))) (set_scr_pos (snd (expand (scr_pos (cn s)) [c])) (cn s)) /\
    shown (wd s') = shown (wd s) ++ fst (expand (scr_pos (cn s)) [c]) /\ typed_ahead (wd s') = typed_ahead (wd s).
Proof.
  intros Hs Hc Hl Hsz Hlen. destruct (plain_facts c Hc) as (Hb & N0 & N1 & N2 & N3 & N4 & N5 & N6 & N7 & _).
  destruct (put_char_runs f i c l s Hs (or_introl Hc) ltac:(lia) Hlen) as (s' & E & Hs' & Ec & Hsh & Hty).
  rewrite key_default by done.
  unfold typed. rewrite (proj2 (Z.leb_gt 256 c)), (proj2 (Z.ltb_lt (count l) _)) by lia. cbn [orb].
  rewrite crun_assoc, (crun_eq _ _ _ _ _ E), crun_ret.
  eexists _, s'. split; [reflexivity|]. split; [done|]. split; [|done]. by destruct (_ && _).
Qed.

Lemma read_key_runs f i c l s :
  console i s -> typed_ahead (wd s) = c :: l -> c <> 0 ->
  exists s', read_key (knot (S f)) i i s = Some (Ret c, s') /\ console i s' /\ cn s' = cn s /\ shown (wd s') = shown (wd s) /\
    typed_ahead (wd s') = l.
Proof.
  intros Hs Ht Hc. destruct (read_char_runs f i i c l s Hs Ht) as (s' & E & H). exists s'. split; [|done].
  unfold read_key. rewrite (crun_eq _ _ _ _ _ E), (proj2 (Z.eqb_neq _ _) Hc). done.
Qed.

Definition set_line (n : Z) (txt : list Z) (c : con) : con :=
  set_linebuf (take (Z.to_nat n) (linebuf c) ++ txt ++ drop (Z.to_nat n + length txt) (linebuf c)) c.
Definition set_col (txt : list Z) (c : con) : con := set_scr_pos (snd (expand (scr_pos c) txt)) c.

(** A line of plain text and Enter. *)
Lemma line_loop_runs f fuel i kp size cu_pos txt rest l s :
  console i s -> Forall plain_char txt -> typed_ahead (wd s) = txt ++ CR :: rest ->
  0 <= count l -> count l + Z.of_nat (length txt) <= size - 1 -> size <= 256 ->
  length (linebuf (cn s)) = 259%nat -> (length txt < fuel)%nat ->
  exists l' s', line_loop (knot (S (S f))) i i kp size cu_pos fuel l s = Some (Ret l', s') /\ console i s' /\
    count l' = count l + Z.of_nat (length txt) + 1 /\
    cn s' = set_line (count l) (txt ++ [CR]) (set_col (txt ++ [CR]) (cn s)) /\
    shown (wd s') = shown (wd s) ++ fst (expand (scr_pos (cn s)) (txt ++ [CR])) /\ typed_ahead (wd s') = rest.
Proof.
  revert fuel l s. induction txt as [|c txt IH]; intros fuel l s Hs Hp Ht Hc Hsz Hm Hlen Hf; (destruct fuel as [|fuel]; [cbn in Hf; lia|]);
    cbn [line_loop].
  - destruct (read_key_runs (S f) i CR rest s Hs Ht) as (s1 & E1 & Hs1 & Ec1 & Hsh1 & Hty1); [done|].
    rewrite (crun_eq _ _ _ _ _ E1), key_default by done. unfold typed. change (256 <=? CR) with false. rewrite Z.eqb_refl, orb_true_r.
    destruct (put_char_runs f i CR l s1 Hs1 (or_intror eq_refl)) as (s2 & E2 & Hs2 & Ec2 & Hsh2 & Hty2); [cbn in Hsz; lia|by rewrite Ec1|].
    rewrite !crun_assoc, (crun_eq _ _ _ _ _ E2), !crun_ret. eexists _, s2. split; [reflexivity|].
    split; [done|]. split; [|split; [|split; [|congruence]]].
    + cbn. by destruct (_ && _); cbn; lia.
    + rewrite Ec2, Ec1. unfold set_line, set_col. cbn [app length linebuf set_scr_pos]. unfold set_linebuf, set_scr_pos. cbn.
      f_equal. rewrite insert_take_drop by lia. by rewrite Nat.add_1_r.
    + rewrite Hsh2, Hsh1, Ec1. done.
  - apply Forall_cons in Hp as [Hpc Hp]. cbn [length] in Hsz, Hf. destruct (plain_facts c Hpc) as (Hb & N0 & N1 & N2 & N3 & N4 & N5 & N6 & N7 & _).
    destruct (read_key_runs (S f) i c (txt ++ CR :: rest) s Hs Ht N0) as (s1 & E1 & Hs1 & Ec1 & Hsh1 & Hty1).
    rewrite (crun_eq _ _ _ _ _ E1).
    destruct (plain_key f fuel i kp size cu_pos c l s1 Hs1 Hpc) as (l2 & s2 & E2 & Hs2 & Hc2 & Ec2 & Hsh2 & Hty2); [lia|done|by rewrite Ec1|].
    rewrite (crun_eq _ _ _ _ _ E2). cbn iota beta. rewrite (proj2 (Z.eqb_neq _ _) N3).
    destruct (IH fuel (Line (count l2) (stored_pos l2) (stored_size l2) (insert_ l2) false) s2)
      as (l' & s' & E & Hs' & Hc' & Ec' & Hsh' & Hty'); cbn [count]; try done; try lia.
    + by rewrite Hty2, Hty1.
    + rewrite Ec2, Ec1. cbn. by rewrite length_insert.
    + exists l', s'. split; [exact E|]. split; [done|]. split; [cbn [length count] in *; lia|].
      assert (Ecol : scr_pos (cn s2) = snd (expand (scr_pos (cn s)) [c])) by (by rewrite Ec2, Ec1).
      split; [|split; [|done]].
      * rewrite Ec'. cbn [count]. unfold set_line, set_col. rewrite Ec2, Ec1, Hc2. cbn [linebuf set_scr_pos set_linebuf scr_pos app].
        rewrite (expand_cons _ c (txt ++ [CR])) by done. unfold set_linebuf, set_scr_pos.
        cbn [linebuf scr_pos inputptr ubuf PrinterEcho CB_FLG InDOS ErrorMode syscon user_AH fst snd length]. f_equal.
        rewrite drop_insert_lt by lia. replace (Z.to_nat (count l + 1)) with (S (Z.to_nat (count l))) by lia.
        rewrite (take_S_r _ _ c) by (apply list_lookup_insert_eq; lia). rewrite take_insert_ge, <- app_assoc by lia.
        cbn [app]. do 3 f_equal. rewrite Nat.add_succ_r. done.
      * rewrite Hsh', Hsh2, Hsh1, Ecol. cbn [app]. rewrite (expand_cons _ c (txt ++ [CR])) by done. cbn [fst]. rewrite Ec1.
        by rewrite <- app_assoc.
Qed.
(** ** Ctrl-C *)

(** The entry of the console, whatever was typed. *)
Record seated (i : Z) (s : cst) : Prop := Seated {
  se_break : has (CB_FLG (cn s)) CB_MSK = false;
  se_echo : PrinterEcho (cn s) = false;
  se_con : syscon (cn s) = dv;
  se_attr : is_Some (dh_attr (env (kern (pth (hn s)))) !! dv);
  se_index : 0 <= i;
  se_sft : exists f, concat (table_of s) !! Z.to_nat i = Some f /\ console_sft f }.

Lemma seated_console i s : seated i s -> typed_ahead (wd s) = [] -> console i s.
Proof. intros [] Ht. split; [split; [done..|]; by rewrite Ht|done|done|done]. Qed.

(** What a Ctrl-C shows. *)
Definition BREAK_TEXT : list Z := [0x5e; 0x43; CR; LF].
(** The end of the call that the Ctrl-C interrupts. *)
Definition left_dos (c : con) : con := if negb (ErrorMode c) && negb (InDOS c =? 0) then set_InDOS (u8 (InDOS c - 1)) c else c.
Definition broken (c : con) : con :=
  left_dos (set_scr_pos 0 (set_CB_FLG (clear (CB_FLG c) CB_MSK) c)).

Lemma handle_break_runs {A} f i o s :
  seated i s -> o = i \/ o = -1 -> exists s', handle_break (A := A) (knot (S (S f))) dv o s = Some (Int23, s') /\
    cn s' = broken (cn s) /\ shown (wd s') = shown (wd s) ++ BREAK_TEXT /\ typed_ahead (wd s') = [].
Proof.
  intros Hs Ho. unfold handle_break. cbn zeta. rewrite crun_mod.
  assert (Ecl : has (clear (CB_FLG (cn s)) CB_MSK) CB_MSK = false).
  { unfold has, clear. by rewrite Z.land_ldiff. }
  set (s1 := Cst M (hn s) _). destruct (flush_runs s1) as (rq & w & E & Hsh & Hty). rewrite (crun_eq _ _ _ _ _ E).
  set (s2 := con_dev rq w s1). assert (Hs2 : console i s2).
  { apply seated_console; [|done]. destruct Hs. by split. }
  assert (H4 : exists n s', (if o =? -1 then cooked_write (knot (S (S f))) dv 4 BREAK_TEXT
        else con! r := k_rw (knot (S (S f))) o 4 stack_at BREAK_TEXT XFR_FORCE_WRITE in cret (fst r)) s2 = Some (Ret n, s') /\
      cn s' = set_scr_pos 0 (cn s2) /\ shown (wd s') = shown (wd s2) ++ BREAK_TEXT /\ typed_ahead (wd s') = []).
  { assert (Hb : Forall byte BREAK_TEXT) by (repeat constructor; done).
    assert (Ex : forall col, expand col BREAK_TEXT = (BREAK_TEXT, 0)) by done.
    destruct (o =? -1) eqn:Eo.
    - destruct (co_attr _ _ Hs2) as [attr Ha].
      destruct (cooked_write_runs (S f) 4 BREAK_TEXT s2 attr (co_calm _ _ Hs2) Ha ltac:(done) Hb) as (rq2 & w2 & E2 & Hsh2 & Hty2).
      eexists _, _. split; [exact E2|]. change (take (Z.to_nat 4) BREAK_TEXT) with BREAK_TEXT in *. rewrite Ex in *.
      split; [done|]. split; [exact Hsh2|]. by change (typed_ahead w2 = []); rewrite Hty2.
    - destruct Ho as [-> | ->]; [|done].
      destruct (force_write_runs f i stack_at 4 BREAK_TEXT s2 Hs2 ltac:(done) Hb) as (s3 & E2 & _ & Ec2 & Hsh2 & Hty2).
      cbn [k_rw knot]. rewrite (crun_eq _ _ _ _ _ E2). change (take (Z.to_nat 4) BREAK_TEXT) with BREAK_TEXT in *. rewrite Ex in *.
      eexists _, s3. split; [done|]. split; [done|]. split; [done|]. by rewrite Hty2. }
  destruct H4 as (n & s3 & E3 & Ec3 & Hsh3 & Hty3). rewrite (crun_eq _ _ _ _ _ E3), crun_mod.
  eexists. split; [reflexivity|]. split; [|split; [|exact Hty3]].
  - cbn. rewrite Ec3. done.
  - change (shown (wd (Cst M (hn s3) _))) with (shown (wd s3)). rewrite Hsh3. change (wd s2) with w. by rewrite Hsh.
Qed.

(** The state in which a call is interrupted. *)
Definition interrupted (s s' : cst) : Prop :=
  cn s' = broken (cn s) /\ shown (wd s') = shown (wd s) ++ BREAK_TEXT /\ typed_ahead (wd s') = [].

Lemma seated_dev i rq w s : seated i s -> seated i (con_dev rq w s).
Proof. by intros []. Qed.

(** Ctrl-C instead of a character. *)
Lemma break_read f i l s :
  seated i s -> typed_ahead (wd s) = CTL_C :: l ->
  exists s', read_char (knot (S (S (S f)))) i i true s = Some (Int23, s') /\ interrupted s s'.
Proof.
  intros Hs Ht.
  assert (Hf : exists f, idx_to_sft (table_of s) i = Some f /\ console_sft f).
  { destruct (se_sft _ _ Hs) as (f0 & Hf & Hc). exists f0. split; [|done]. unfold idx_to_sft.
    rewrite (proj2 (Z.ltb_ge i 0)), idx_concat, Hf by apply Hs. by rewrite (proj2 (Z.eqb_neq _ _)) by apply Hc. }
  destruct Hf as (f0 & Hf & F1 & F2 & F3 & F4 & F5 & _).
  destruct (Busy_runs s) as (rq1 & w1 & E1 & Hs1 & Ht1). rewrite Ht in E1, Ht1.
  destruct (get_runs (con_dev rq1 w1 s) CTL_C l ltac:(done) Ht1) as (rq2 & w2 & E2 & Hs2 & Ht2).
  rewrite con_dev_twice in E2. set (s2 := con_dev rq2 w2 s) in E2.
  destruct (handle_break_runs (A := Z) f i i s2) as (s' & E & H1 & H2 & H3); [by apply seated_dev|by left|].
  exists s'. split; [|split; [exact H1|split; [|exact H3]]].
  - unfold read_char. rewrite (crun_eq _ _ _ _ _ (con_sft_run i s)), Hf. unfold sft_to_dev.
    rewrite crun_assoc, crun_get, crun_ret, F2, F5. unfold cbind at 1.
    change (k_read (knot (S (S (S f))))) with (read_char_sft_dev (knot (S (S f)))). unfold read_char_sft_dev.
    rewrite (proj2 (Z.eqb_neq _ _) (term_nonnull (dv := dv))). cbn [negb]. unfold wait_char, ctrl_break_pressed.
    rewrite !crun_assoc, crun_get, crun_ret, (se_break _ _ Hs), crun_assoc, (crun_eq _ _ _ _ _ E1). cbn [negb].
    rewrite !crun_assoc, (crun_eq _ _ _ _ _ E2), crun_ret. change (u16 CTL_C) with CTL_C. rewrite Z.eqb_refl.
    change (CTL_C =? CTL_S) with false. cbn [orb andb]. rewrite crun_ret, Z.eqb_refl. by rewrite E.
  - rewrite H2. change (wd s2) with w2. rewrite Hs2. by change (wd (con_dev rq1 w1 s)) with w1; rewrite Hs1.
Qed.

(** The counter of fast output starts at 0 or 80h. *)
Lemma fast_start attr : u8 (Z.shiftl (Z.land attr ATTR_FASTCON) 3) <= 0x80.
Proof.
  assert (H : Z.land attr ATTR_FASTCON = 0 \/ Z.land attr ATTR_FASTCON = 0x10).
  { destruct (Z.testbit attr 4) eqn:E; [right|left]; apply Z.bits_inj'; intros j Hj; rewrite Z.land_spec;
      change ATTR_FASTCON with (2 ^ 4); change 0x10 with (2 ^ 4); rewrite Z.pow2_bits_eqb, ?Z.bits_0 by lia;
      destruct (4 =? j) eqn:Ej; rewrite ?andb_false_r, ?andb_true_r; try done; apply Z.eqb_eq in Ej; by subst. }
  by destruct H as [-> | ->].
Qed.

(** Ctrl-C while text is written. *)
Lemma break_check f i l s :
  seated i s -> typed_ahead (wd s) = CTL_C :: l ->
  exists s', check_handle_break (knot (S (S f))) dv s = Some (Int23, s') /\ interrupted s s'.
Proof.
  intros Hs Ht. unfold check_handle_break, ctrl_break_pressed.
  rewrite !crun_assoc, crun_get, crun_ret, (se_break _ _ Hs), crun_get, (se_con _ _ Hs). cbn [negb].
  destruct (ndread_runs s) as (rq & w & E & Hsh & Hty). rewrite Ht in E.
  rewrite crun_assoc, (crun_eq _ _ _ _ _ E), crun_ret. change (u8 CTL_C) with CTL_C. rewrite Z.eqb_refl. cbn [negb andb].
  rewrite crun_ret, Z.eqb_refl.
  destruct (handle_break_runs (A := Z) f i (-1) (con_dev rq w s)) as (s' & E' & H1 & H2 & H3); [by apply seated_dev|by right|].
  exists s'. split; [exact E'|]. split; [exact H1|split; [|exact H3]]. rewrite H2. by change (wd (con_dev rq w s)) with w; rewrite Hsh.
Qed.

(** Ctrl-C before the first character of a text: none of it is shown. *)
Lemma break_write f i n c bp l s :
  seated i s -> typed_ahead (wd s) = CTL_C :: l -> 1 <= n <= Z.of_nat (length (c :: bp)) -> c <> CTL_Z ->
  exists s', cooked_write (knot (S (S (S f)))) dv n (c :: bp) s = Some (Int23, s') /\ interrupted s s'.
Proof.
  intros Hs Ht Hn Hc. destruct (se_attr _ _ Hs) as [attr Ha]. unfold cooked_write. rewrite crun_get, Ha, crun_opt.
  rewrite (proj2 (Z.leb_le 0 n)), (proj2 (Z.leb_le n _)) by lia. cbn [andb]. rewrite crun_opt.
  replace (Z.to_nat n) with (S (Z.to_nat (n - 1))) by lia. cbn [take write_loop].
  rewrite (proj2 (Z.eqb_neq _ _) Hc). unfold get_scr_pos. rewrite crun_assoc, crun_get, crun_ret.
  set (x := if c =? HT then _ else _).
  assert (Hx : exists c1 m, x = (c1, Z.of_nat (S m))).
  { subst x. destruct (c =? HT); [|by exists c, 0%nat]. exists 0x20, (Z.to_nat (tab_count (scr_pos (cn s)) - 1)).
    f_equal. unfold tab_count. change 7 with (Z.ones 3). rewrite Z.land_ones by lia. pose proof (Z.mod_pos_bound (scr_pos (cn s)) (2 ^ 3)). lia. }
  destruct Hx as (c1 & m & ->). cbn iota beta. unfold update_scr_pos. rewrite crun_mod.
  set (s1 := Cst M _ _). rewrite Nat2Z.id. cbn [put_loop].
  assert (Hfc : (u8 (Z.shiftl (Z.land attr ATTR_FASTCON) 3) <=? 0x80) = true).
  { apply Z.leb_le, fast_start. }
  rewrite Hfc. change (k_check_break (knot (S (S (S f))))) with (check_handle_break (knot (S (S f)))).
  assert (Hs1 : seated i s1) by by destruct Hs.
  destruct (break_check f i l s1 Hs1 Ht) as (s' & E & H1 & H2 & H3). exists s'. split; [|split; [exact H1|done]].
  rewrite crun_assoc. unfold cbind. by rewrite E.
Qed.

End Type_.
End TypeSpec.

(** * Lines from the terminal

    The terminal is a keyboard and a screen that work, and what [read_line]
    and [read_line_handle] do with a line of text typed on it. *)

From S2P Require Import Prelude Memmgr KState BlockIO FatTab FNode FatAlloc Clock Media FatDir FatFile FatRw.
From S2P Require Import Frame Path Handle Chario ConSpec LineSafe.
Import Mm Ks Bio Fat FNode Alloc Clk Media Dir File Rw Frame Path Handle Chario ConSpec LineSafe TypeSpec.

Module LineSpec.

Section Lines.
Context {M : Machine} {Sh : Shell} {R : Redirector} {Cn : Console} {dv : Z} {T : Terminal dv}.

(** ** The terminal works *)

(** Nothing typed: the wait goes on. *)
Lemma read_waits f i o s :
  console i s -> typed_ahead (wd s) = [] -> exists s', read_char_sft_dev (knot f) i o dv true s = Some (Wait, s').
Proof.
  revert s. induction f as [|f IH]; intros s Hs Ht; unfold read_char_sft_dev;
    rewrite (proj2 (Z.eqb_neq _ _) (term_nonnull (dv := dv))); cbn [negb]; unfold wait_char, ctrl_break_pressed;
    rewrite !crun_assoc, crun_get, crun_ret, (calm_break _ (co_calm _ _ Hs)), crun_assoc;
    destruct (Busy_runs s) as (rq & w & E & Hsh & Hty); rewrite Ht in E, Hty;
    rewrite (crun_eq _ _ _ _ _ E); cbn [negb]; rewrite crun_assoc, crun_get;
    change (syscon (cn (con_dev rq w s))) with (syscon (cn s)); rewrite (calm_con _ (co_calm _ _ Hs)), Z.eqb_refl; cbn [negb andb];
    rewrite crun_assoc, crun_ret, crun_assoc.
  all: assert (Hi : exists w', (if user_AH (cn (con_dev rq w s)) <? 0xd then on_k (kworld (fun w => (tt, int28 w))) else cret tt) (con_dev rq w s)
         = Some (Ret tt, con_dev rq w' s) /\ typed_ahead w' = []).
  1, 3: destruct (_ <? 0xd); [exists (int28 w); split; [done|]; destruct (term_idle (dv := dv) w) as [_ ->]; done|by exists w].
  all: destruct Hi as (w' & E' & Ht'); rewrite (crun_eq _ _ _ _ _ E'), crun_ret.
  - by eexists.
  - apply IH; [|done]. apply console_dev; [done|]. by rewrite Ht'.
Qed.

(** No key gives the character 0, with which an extended key begins. *)
Definition no_zero (w : world) : Prop := Forall (fun c => c <> 0) (typed_ahead w).
Definition ready (i : Z) (s : cst) : Prop := console i s /\ no_zero (wd s).

Lemma ready_read f i s :
  ready i s ->
  safe (read_char (knot f) i i true)
    (fun c s' => ready i s' /\ byte c /\ c <> 0 /\ linebuf (cn s') = linebuf (cn s) /\ ubuf (cn s') = ubuf (cn s)) s.
Proof.
  intros [Hs Hz]. destruct (typed_ahead (wd s)) as [|c l] eqn:Ht.
  - destruct (console_found i s Hs) as (f0 & Hf & _ & F2 & _ & _ & F5 & _).
    unfold safe, read_char. rewrite (crun_eq _ _ _ _ _ (con_sft_run i s)), Hf. unfold sft_to_dev.
    rewrite crun_assoc, crun_get, crun_ret, F2, F5. unfold cbind at 1.
    destruct f as [|f]; [done|]. cbn [k_read knot]. by destruct (read_waits f i i s Hs Ht) as [s' ->].
  - destruct f as [|f].
    + destruct (console_found i s Hs) as (f0 & Hf & _ & F2 & _ & _ & F5 & _).
      unfold safe, read_char; rewrite (crun_eq _ _ _ _ _ (con_sft_run i s)), Hf. done.
    + destruct (read_char_runs f i i c l s Hs Ht) as (s' & E & Hs' & Ec & Hsh & Hty). unfold safe. rewrite E.
      unfold no_zero in Hz. rewrite Ht in Hz. apply Forall_cons in Hz as [Hc Hl].
      pose proof (calm_typed _ (co_calm _ _ Hs)) as Hh. rewrite Ht in Hh. apply Forall_cons in Hh as [(Hb & _) _].
      unfold ready, no_zero. rewrite Hty, Ec. done.
Qed.

Lemma write_char_u8 k c i : write_char k c i = write_char k (u8 c) i.
Proof. unfold write_char. by rewrite (u8_small (u8 c)) by apply u8_range. Qed.

#[export] Instance works_console f i : Works (ready i) (knot (S (S f))) i i.
Proof.
  split.
  - intros s Hr. eapply safe_mono; [by apply ready_read|]. by intros c s' (H1 & H2 & H3 & H4 & H5).
  - intros s c [Hs Hz]. rewrite write_char_u8.
    destruct (write_char_runs f i (u8 c) s Hs (u8_range c)) as (s' & E & Hs' & Ec & Hsh & Hty). unfold safe. rewrite E, Ec.
    split; [|done]. split; [done|]. unfold no_zero. by rewrite Hty.
  - intros s l [Hs Hz]. split; [by apply console_con|done].
  - intros s l [Hs Hz]. split; [by apply console_con|done].
Qed.

Lemma ready_no_F2_F4 f i : no_F2_F4 (I := ready i) (k := knot f) (sft_in := i) (sft_out := i).
Proof.
  intros s c s' Hr E. pose proof (ready_read f i s Hr) as Hk. unfold safe, read_key in *. unfold cbind at 1 in E.
  destruct (read_char _ _ _ _ s) as [[[c1| |] s1]|]; try done. destruct Hk as (_ & Hb & Hz & _).
  rewrite (proj2 (Z.eqb_neq _ _) Hz) in E. injection E as <- <-. unfold byte in Hb. unfold F2, F4. lia.
Qed.

(** ** A line of text *)

(** CR takes the cursor to column 0. *)
Lemma expand_cr col txt : Forall plain_char txt -> snd (expand col (txt ++ [CR])) = 0.
Proof.
  intros Hp. revert col. induction Hp as [|c txt Hc Hp IH]; intros col; [done|].
  destruct (plain_facts c Hc) as (_ & _ & _ & _ & _ & _ & _ & _ & N & _). cbn [app].
  rewrite (expand_cons _ c (txt ++ [CR])) by done. apply IH.
Qed.

Lemma run_con_get {B} g x (f : Z -> C B) s : g (cn s) = Some x -> cbind (con_get g) f s = f x s.
Proof. intros E. unfold con_get, cbind, cget, copt. by rewrite E. Qed.
Lemma run_con_put {B} g c' (f : unit -> C B) s : g (cn s) = Some c' -> cbind (con_put g) f s = f tt (Cst M (hn s) c').
Proof. intros E. unfold con_put, cbind, cget, copt, cmod. by rewrite E. Qed.

(** The text is in [kp], and its length. *)
Record holds (kp : kptr) (txt : list Z) (c : con) : Prop := Holds {
  ho_line : length (linebuf c) = 259%nat;
  ho_count : kb_get kp 1 c = Some (Z.of_nat (length txt));
  ho_text : forall j x, (txt ++ [CR]) !! j = Some x -> kb_get kp (2 + Z.of_nat j) c = Some x }.

Lemma set_line_lookup n txt (c : con) j x :
  0 <= n -> n + Z.of_nat (length txt) <= Z.of_nat (length (linebuf c)) -> txt !! j = Some x ->
  linebuf (set_line n txt c) !! (Z.to_nat n + j)%nat = Some x.
Proof.
  intros Hn Hl Hx. pose proof (lookup_lt_Some _ _ _ Hx). cbn. rewrite lookup_app_r by (rewrite length_take; lia).
  rewrite length_take, lookup_app_l by lia. by replace (_ - _)%nat with j by lia.
Qed.
Lemma set_line_length n txt (c : con) :
  0 <= n -> n + Z.of_nat (length txt) <= Z.of_nat (length (linebuf c)) -> length (linebuf (set_line n txt c)) = length (linebuf c).
Proof. intros Hn Hl. cbn. rewrite !length_app, length_take, length_drop. lia. Qed.

(** The line goes to [kp]. *)
Lemma kb_copy_runs kp n txt (c : con) :
  length (linebuf c) = 259%nat -> 0 <= n <= 256 -> n = Z.of_nat (length txt) ->
  n <= match kp with KbBuf => 129 | User => Z.of_nat (length (ubuf c)) - 2 end ->
  (forall j x, txt !! j = Some x -> linebuf c !! j = Some x) ->
  exists c', kb_copy kp n c = Some c' /\ (c' = set_linebuf (linebuf c') c \/ c' = set_ubuf (ubuf c') c) /\
    length (linebuf c') = 259%nat /\ length (ubuf c') = length (ubuf c) /\
    forall j x, txt !! j = Some x -> kb_get kp (2 + Z.of_nat j) c' = Some x.
Proof.
  intros Hl Hn Hlen Hr Hx. unfold kb_copy, kb_get, fgetbyte, KB_BUF.
  assert (Hlook : forall (dst : list Z) i j x, 0 <= i -> i + n <= Z.of_nat (length dst) -> txt !! j = Some x ->
    (take (Z.to_nat i) dst ++ take (Z.to_nat n) (linebuf c) ++ drop (Z.to_nat (i + n)) dst) !! Z.to_nat (i + Z.of_nat j) = Some x).
  { intros dst i j x Hi Hd Hj. pose proof (lookup_lt_Some _ _ _ Hj). rewrite lookup_app_r by (rewrite length_take; lia).
    rewrite length_take, lookup_app_l by (rewrite length_take; lia).
    replace (Z.to_nat (i + Z.of_nat j) - _)%nat with j by lia. rewrite lookup_take_lt by lia. by apply Hx. }
  destruct kp; rewrite fmemcpy_ok by lia; cbn [fmap option_fmap option_map].
  - eexists. split; [reflexivity|]. split; [by left|]. split; [cbn; rewrite length_copy; lia|]. split; [done|].
    intros j x Hj. rewrite (proj2 (Z.ltb_ge _ 0)) by lia. cbn [linebuf set_linebuf].
    replace (128 + (2 + Z.of_nat j)) with (128 + 2 + Z.of_nat j) by lia. apply (Hlook (linebuf c) (128 + 2)); [lia..|done].
  - eexists. split; [reflexivity|]. split; [by right|]. split; [done|]. split; [cbn; rewrite length_copy; lia|].
    intros j x Hj. rewrite (proj2 (Z.ltb_ge _ 0)) by lia. apply (Hlook (ubuf c) 2); [lia..|done].
Qed.

Lemma same_console i s c' :
  console i s -> c' = set_linebuf (linebuf c') (cn s) \/ c' = set_ubuf (ubuf c') (cn s) ->
  console i (Cst M (hn s) c') /\ scr_pos c' = scr_pos (cn s) /\ inputptr c' = inputptr (cn s).
Proof. intros Hs [E|E]; rewrite E; (split; [by apply console_con|done]). Qed.

(** The byte at [kb_size] is cleared when the line ran over it. *)
Lemma overrun_runs kp n s i :
  console i s -> length (linebuf (cn s)) = 259%nat -> (kp = KbBuf -> n <= LINEBUFSIZECON) ->
  exists s', (if LINEBUFSIZECON <? n then con_put (kb_put KbBuf 0 0) else cret tt) s = Some (Ret tt, s') /\
    console i s' /\ wd s' = wd s /\ length (linebuf (cn s')) = 259%nat /\ ubuf (cn s') = ubuf (cn s) /\
    scr_pos (cn s') = scr_pos (cn s) /\ inputptr (cn s') = inputptr (cn s) /\
    forall j, kb_get kp j (cn s') = kb_get kp j (cn s).
Proof.
  intros Hs Hl Hk. destruct (LINEBUFSIZECON <? n) eqn:E; zbool; [|by exists s].
  destruct kp; [by specialize (Hk eq_refl); lia|].
  eexists. split.
  - unfold con_put, kb_put, fputbyte, KB_BUF, cbind, cget, copt, cmod.
    rewrite Hl. cbn. reflexivity.
  - split; [by apply console_con|]. cbn. rewrite length_insert. done.
Qed.

Lemma read_line_runs f fuel i kp size stored txt rest s :
  console i s -> Forall plain_char txt -> typed_ahead (wd s) = txt ++ CR :: rest -> buffers kp size stored (cn s) ->
  Z.of_nat (length txt) < size -> (length txt < fuel)%nat ->
  exists s', read_line (knot (S (S f))) fuel i i kp s = Some (Ret tt, s') /\ console i s' /\ holds kp txt (cn s') /\
    shown (wd s') = shown (wd s) ++ fst (expand (scr_pos (cn s)) (txt ++ [CR])) /\ typed_ahead (wd s') = rest /\
    scr_pos (cn s') = 0 /\ inputptr (cn s') = inputptr (cn s).
Proof.
  intros Hs Hp Ht [Hl Hz Hst Ho Hb Hr] Hlen Hf. unfold read_line.
  rewrite (run_con_get _ _ _ _ Hz), (run_con_get _ _ _ _ Hst). unfold get_scr_pos. rewrite crun_assoc, crun_get, crun_ret.
  rewrite (proj2 (Z.eqb_neq size 0)) by lia. assert (H255 : size <= 255) by (unfold LINEBUFSIZECON in Hb; destruct kp; lia).
  destruct (kb_get_room kp (2 + stored) (cn s)) as [c Hc]; [lia|done|]. unfold kb_char at 1. rewrite (run_con_get _ _ _ _ Hc).
  destruct (line_loop_runs f fuel i kp size (scr_pos (cn s)) txt rest (Line 0 0 (if c =? CR then stored else 0) false true) s)
    as (l & s1 & E1 & Hs1 & Hn1 & Ec1 & Hsh1 & Hty1); cbn [count] in *; try done; try lia.
  rewrite (crun_eq _ _ _ _ _ E1).
  assert (Hl1 : length (linebuf (cn s1)) = 259%nat).
  { rewrite Ec1, set_line_length; cbn [linebuf set_col set_scr_pos]; [done|lia|]. rewrite Hl, length_app. cbn. lia. }
  assert (Hk : count l <= match kp with KbBuf => LINEBUFSIZECON | User => 255 end) by (destruct kp; lia).
  destruct (kb_copy_runs kp (count l) (txt ++ [CR]) (cn s1)) as (c2 & E2 & Hc2 & Hl2 & Hu2 & Hg2); [done|lia|rewrite length_app; cbn; lia| | |].
  { assert (ubuf (cn s1) = ubuf (cn s)) as -> by (by rewrite Ec1). unfold LINEBUFSIZECON in *. destruct kp; lia. }
  { intros j x Hj. rewrite Ec1. change j with (Z.to_nat 0 + j)%nat. apply set_line_lookup; [lia| |done].
    cbn [linebuf set_col set_scr_pos]. rewrite Hl, length_app. cbn. lia. }
  rewrite (run_con_put _ _ _ _ E2). set (s2 := Cst M (hn s1) c2).
  destruct (same_console i s1 c2 Hs1 Hc2) as (Hs2 & Ep2 & Ei2).
  destruct (overrun_runs kp (count l) s2 i Hs2 Hl2) as (s3 & E3 & Hs3 & Hw3 & Hl3 & Hu3 & Ep3 & Ei3 & Hg3); [intros ->; lia|].
  rewrite (crun_eq _ _ _ _ _ E3). replace (count l - 1) with (Z.of_nat (length txt)) by lia. rewrite u8_small by lia.
  destruct (kb_put_head kp (Z.of_nat (length txt)) size (cn s3)) as (c4 & E4 & Hl4 & Hu4 & _ & Hn4 & Hi4 & Hc4); [done| |lia|].
  { destruct kp; [by right|left]. rewrite Hu3. change (cn s2) with c2. rewrite Hu2, Ec1. cbn. lia. }
  unfold con_put. rewrite crun_get, E4, crun_opt. exists (Cst M (hn s3) c4).
  destruct (same_console i s3 c4 Hs3 Hc4) as (Hs4 & Ep4 & Ei4).
  split; [done|]. split; [done|]. split; [|split; [|split; [|split]]]; cbn [cn].
  - split; [done|by rewrite Hn4, u8_small by lia|]. intros j x Hj. rewrite Hi4 by lia. rewrite Hg3. by apply Hg2.
  - change (wd (Cst M (hn s3) c4)) with (wd s3). rewrite Hw3. exact Hsh1.
  - change (wd (Cst M (hn s3) c4)) with (wd s3). rewrite Hw3. exact Hty1.
  - rewrite Ep4, Ep3. change (cn s2) with c2. rewrite Ep2, Ec1. cbn [scr_pos set_line set_linebuf set_col set_scr_pos].
    by apply expand_cr.
  - rewrite Ei4, Ei3. change (cn s2) with c2. rewrite Ei2, Ec1. done.
Qed.

(** ** The line at [inputptr] *)

(** [L] is what is left of the line at [kb_buf]: nothing without a line. *)
Definition pending (L : list Z) (c : con) : Prop :=
  match inputptr c with
  | None => L = []
  | Some p => exists e, line_end c = Some e /\ KB_BUF + 2 <= p < e /\ e <= Z.of_nat (length (linebuf c)) /\
      length (linebuf c) = 259%nat /\ L = take (Z.to_nat (e - p)) (drop (Z.to_nat p) (linebuf c))
  end.

Lemma pending_length L (c : con) p e :
  inputptr c = Some p -> line_end c = Some e -> pending L c -> Z.of_nat (length L) = e - p /\ KB_BUF + 2 <= p < e /\ e <= 259.
Proof.
  intros Ep Ee. unfold pending. rewrite Ep, Ee. intros (e' & [= <-] & Hp & He & Hl & ->).
  unfold KB_BUF in *. rewrite length_take, length_drop. lia.
Qed.

(** One read takes what it asks for, or what there is. *)
Lemma handle_deliver k fuel i n bp L s :
  L <> [] -> pending L (cn s) -> 0 <= n <= Z.of_nat (length bp) ->
  let m := Z.min n (Z.of_nat (length L)) in
  exists s', read_line_handle k fuel i n bp s = Some (Ret (m, take (Z.to_nat m) L ++ drop (Z.to_nat m) bp), s') /\
    hn s' = hn s /\ pending (drop (Z.to_nat m) L) (cn s') /\ (exists ip, cn s' = set_inputptr ip (cn s)).
Proof.
  intros Hne Hp Hn m. destruct (inputptr (cn s)) as [p|] eqn:Ep; [|by unfold pending in Hp; rewrite Ep in Hp].
  pose proof Hp as Hp'. unfold pending in Hp'. rewrite Ep in Hp'. destruct Hp' as (e & Ee & Hpe & He & Hl & HL).
  destruct (pending_length _ _ _ _ Ep Ee Hp) as (Hlen & _ & _). unfold KB_BUF in *.
  unfold read_line_handle. rewrite crun_get, Ep, crun_ret, crun_get, Ep, crun_opt, Ee, crun_opt.
  rewrite (u16_small (e - p)) by lia. assert (Em : (if e - p <? n then e - p else n) = m).
  { subst m. rewrite Hlen. destruct (e - p <? n) eqn:E; zbool; lia. }
  rewrite Em, fmemcpy_ok by (rewrite ?length_drop; lia). rewrite crun_opt, crun_mod. cbn [take app Z.to_nat].
  assert (Et : take (Z.to_nat m) (drop (Z.to_nat p) (linebuf (cn s))) = take (Z.to_nat m) L).
  { subst L. rewrite take_take. f_equal. lia. }
  rewrite Et. eexists. split; [reflexivity|]. split; [done|]. split; [|by eexists].
  unfold pending. cbn [inputptr set_inputptr cn]. destruct (m =? e - p) eqn:E; zbool.
  - apply drop_ge. lia.
  - exists e. change (line_end (set_inputptr _ (cn s))) with (line_end (cn s)). split; [done|]. cbn [linebuf set_inputptr].
    split; [unfold KB_BUF; lia|]. split; [done|]. split; [done|]. rewrite HL, skipn_firstn_comm, drop_drop.
    f_equal; [lia|]. f_equal. lia.
Qed.

(** Room for a line at [kb_buf]: what its first byte says is true. *)
Definition kbd_ok (c : con) : Prop :=
  length (linebuf c) = 259%nat /\
  (kb_get KbBuf 0 c = Some LINEBUFSIZECON -> exists n, kb_get KbBuf 1 c = Some n /\ 0 <= n <= LINEBUFSIZECON).

(** What [read_line_handle] does first without a line. *)
Definition size_kbd : C unit :=
  con! size := con_get (kb_get KbBuf 0) in
  if negb (size =? LINEBUFSIZECON) then
    con_ con_put (kb_put KbBuf 1 0) in con_put (kb_put KbBuf 0 LINEBUFSIZECON)
  else cret tt.

Lemma size_kbd_runs i s :
  console i s -> kbd_ok (cn s) ->
  exists l stored, size_kbd s = Some (Ret tt, Cst M (hn s) (set_linebuf l (cn s))) /\
    buffers KbBuf LINEBUFSIZECON stored (set_linebuf l (cn s)).
Proof.
  intros Hs [Hl Hk]. unfold size_kbd.
  destruct (kb_get_room KbBuf 0 (cn s)) as [z Hz]; [unfold kb_room, KB_BUF; lia|done|]. rewrite (run_con_get _ _ _ _ Hz).
  destruct (z =? LINEBUFSIZECON) eqn:E; zbool; cbn [negb].
  - subst z. destruct (Hk Hz) as (n & Hn & Hb). exists (linebuf (cn s)), n. split; [by destruct s as [h []]|].
    split; [done|done|done|unfold kb_room, KB_BUF, LINEBUFSIZECON in *; cbn; lia|done|done].
  - exists (<[128%nat := 128]> (<[129%nat := 0]> (linebuf (cn s)))), 0. split.
    + assert (Hput : forall i v c, length (linebuf c) = 259%nat -> 0 <= i < 2 -> kb_put KbBuf i v c = Some (set_linebuf (<[Z.to_nat (128 + i) := u8 v]> (linebuf c)) c)).
      { intros j v c Hc Hj. unfold kb_put, fputbyte, KB_BUF. rewrite Hc.
        by rewrite (proj2 (Z.leb_le 0 _)), (proj2 (Z.ltb_lt (128 + j) _)) by lia. }
      rewrite (run_con_put _ _ _ _ (Hput 1 0 _ Hl ltac:(lia))). unfold con_put. rewrite crun_get, Hput; [done| |lia].
      cbn. by rewrite length_insert.
    + split; unfold kb_get, fgetbyte, KB_BUF, kb_room; cbn; rewrite ?length_insert; try done.
      * apply list_lookup_insert_eq. rewrite length_insert. lia.
      * rewrite list_lookup_insert_ne by done. apply list_lookup_insert_eq. lia.
      * unfold KB_BUF. lia.
Qed.

(** The bytes at [kb_buf] with the LF behind the line. *)
Lemma holds_pending txt (c : con) :
  holds KbBuf txt c -> (length txt <= 127)%nat ->
  exists c', kb_put KbBuf (2 + Z.of_nat (length txt) + 1) LF c = Some c' /\ c' = set_linebuf (linebuf c') c /\
    kb_get KbBuf (2 + 0) c' = (txt ++ [CR]) !! 0%nat /\
    pending (txt ++ [CR; LF]) (set_inputptr (Some (KB_BUF + 2)) c') /\ kbd_ok c'.
Proof.
  intros [Hl Hn Ht] Hlen. set (n := Z.of_nat (length txt)) in *.
  exists (set_linebuf (<[Z.to_nat (128 + (2 + n + 1)) := LF]> (linebuf c)) c).
  assert (Hget : forall j x, (txt ++ [CR; LF]) !! j = Some x ->
    <[Z.to_nat (128 + (2 + n + 1)) := LF]> (linebuf c) !! (130 + j)%nat = Some x).
  { intros j x Hj. change [CR; LF] with ([CR] ++ [LF]) in Hj. rewrite app_assoc in Hj.
    apply lookup_app_Some in Hj as [Hj|[Hj1 Hj2]].
    - pose proof (lookup_lt_Some _ _ _ Hj) as Hlt. rewrite length_app in Hlt. cbn in Hlt.
      specialize (Ht j x Hj). unfold kb_get, fgetbyte, KB_BUF in Ht. rewrite (proj2 (Z.ltb_ge _ 0)) in Ht by lia.
      rewrite list_lookup_insert_ne by lia. by replace (130 + j)%nat with (Z.to_nat (128 + (2 + Z.of_nat j))) by lia.
    - apply list_lookup_singleton_Some in Hj2 as [Hj2 <-]. rewrite length_app in Hj1, Hj2. cbn in Hj1, Hj2.
      replace (130 + j)%nat with (Z.to_nat (128 + (2 + n + 1))) by lia. apply list_lookup_insert_eq. lia. }
  assert (Hn' : kb_get KbBuf 1 (set_linebuf (<[Z.to_nat (128 + (2 + n + 1)) := LF]> (linebuf c)) c) = Some n).
  { unfold kb_get, fgetbyte, KB_BUF in *. cbn [linebuf set_linebuf]. change (128 + 1 <? 0) with false in *. cbn iota in *.
    rewrite list_lookup_insert_ne by lia. exact Hn. }
  split.
  { unfold kb_put, fputbyte, KB_BUF. by rewrite (proj2 (Z.leb_le 0 _)), (proj2 (Z.ltb_lt (128 + _) _)) by lia. }
  split; [done|]. split; [|split].
  - unfold kb_get, fgetbyte, KB_BUF. change (128 + (2 + 0) <? 0) with false. cbn iota. change (Z.to_nat (128 + (2 + 0))) with (130 + 0)%nat.
    cbn [linebuf set_linebuf]. destruct ((txt ++ [CR]) !! 0%nat) as [x|] eqn:Ex; [|by destruct txt].
    apply Hget. by destruct txt.
  - unfold pending, line_end. cbn [inputptr set_inputptr set_linebuf linebuf].
    change (kb_get KbBuf 1 (set_inputptr _ ?x)) with (kb_get KbBuf 1 x). rewrite Hn'.
    eexists. split; [reflexivity|]. rewrite length_insert. unfold KB_BUF. split; [lia|]. split; [lia|]. split; [done|].
    apply (list_eq_same_length _ _ (length txt + 2)); [|rewrite length_app; done|].
    { rewrite length_take, length_drop, length_insert. lia. }
    intros j x y Hj Hx Hy. rewrite lookup_take_lt, lookup_drop in Hy by lia. change (Z.to_nat (128 + 2)) with 130%nat in Hy.
    rewrite (Hget _ _ Hx) in Hy. by injection Hy.
  - split; [cbn; by rewrite length_insert|]. intros _. exists n. split; [done|]. unfold LINEBUFSIZECON. lia.
Qed.

Lemma expand_app col l1 l2 :
  Forall (fun c => c <> CTL_Z) l1 ->
  expand col (l1 ++ l2) = (fst (expand col l1) ++ fst (expand (snd (expand col l1)) l2), snd (expand (snd (expand col l1)) l2)).
Proof.
  intros H. revert col. induction H as [|c l1 Hc H IH]; intros col; [cbn; by rewrite <- surjective_pairing|].
  cbn [app]. rewrite (expand_cons _ c (l1 ++ l2)), (expand_cons _ c l1), IH by done. cbn [fst snd]. by rewrite app_assoc.
Qed.
Lemma plain_no_Z txt : Forall plain_char txt -> Forall (fun c => c <> CTL_Z) txt.
Proof. intros H. eapply Forall_impl; [exact H|]. intros c Hc. by destruct (plain_facts c Hc) as (_ & _ & _ & _ & _ & _ & _ & _ & N & _). Qed.

Lemma first_char txt : Forall plain_char txt -> exists c, (txt ++ [CR]) !! 0%nat = Some c /\ c <> CTL_Z.
Proof.
  intros Hp%plain_no_Z. destruct txt as [|c txt]; [by exists CR|]. apply Forall_cons in Hp as [Hc _]. by exists c.
Qed.

(** Without a line, a read gets one from the keyboard first. *)
Lemma handle_fresh f fuel i n bp txt rest s :
  console i s -> inputptr (cn s) = None -> kbd_ok (cn s) -> Forall plain_char txt -> typed_ahead (wd s) = txt ++ CR :: rest ->
  (length txt <= 127)%nat -> (length txt < fuel)%nat ->
  exists s', read_line_handle (knot (S (S f))) fuel i n bp s = read_line_handle (knot (S (S f))) fuel i n bp s' /\
    console i s' /\ pending (txt ++ [CR; LF]) (cn s') /\ kbd_ok (cn s') /\
    shown (wd s') = shown (wd s) ++ fst (expand (scr_pos (cn s)) (txt ++ [CR; LF])) /\ typed_ahead (wd s') = rest.
Proof.
  intros Hs Hip Hkb Hp Ht Hlen Hf.
  destruct (size_kbd_runs i s Hs Hkb) as (l1 & stored & E1 & Hbuf).
  set (s1 := Cst M (hn s) (set_linebuf l1 (cn s))) in E1. assert (Hs1 : console i s1) by by apply console_con.
  destruct (read_line_runs f fuel i KbBuf LINEBUFSIZECON stored txt rest s1 Hs1 Hp Ht Hbuf)
    as (s2 & E2 & Hs2 & Hh2 & Hsh2 & Hty2 & Hsp2 & Hip2); [unfold LINEBUFSIZECON; lia|done|].
  destruct (write_char_runs f i LF s2 Hs2) as (s3 & E3 & Hs3 & Ec3 & Hsh3 & Hty3); [done|].
  assert (Hh3 : holds KbBuf txt (cn s3)) by (rewrite Ec3; destruct Hh2; by split).
  destruct (holds_pending txt (cn s3) Hh3 Hlen) as (c4 & E4 & Hc4 & Hg4 & Hp4 & Hk4).
  exists (Cst M (hn s3) (set_inputptr (Some (KB_BUF + 2)) c4)). split; [|split; [|split; [exact Hp4|split; [exact Hk4|split]]]].
  - unfold read_line_handle at 1. rewrite crun_get, Hip. rewrite (crun_eq _ _ s false (Cst M (hn s3) (set_inputptr (Some (KB_BUF + 2)) c4))); [reflexivity|].
    etransitivity; [symmetry; apply (crun_assoc (con_get (kb_get KbBuf 0)) (fun size => if negb (size =? LINEBUFSIZECON)
      then con_ con_put (kb_put KbBuf 1 0) in con_put (kb_put KbBuf 0 LINEBUFSIZECON) else cret tt))|].
    unfold size_kbd in E1. rewrite (crun_eq _ _ _ _ _ E1), (crun_eq _ _ _ _ _ E2).
    rewrite (run_con_get _ _ _ _ (ho_count _ _ _ Hh2)). unfold echo_char. change (iscntrl LF && _ && _ && _) with false. cbn iota.
    rewrite crun_assoc, crun_ret, crun_assoc, (crun_eq _ _ _ _ _ E3), crun_ret, (run_con_put _ _ _ _ E4).
    unfold kb_char. destruct (first_char txt Hp) as (c & Hc & Hcz). 
    rewrite (run_con_get (kb_get KbBuf (2 + 0)) c _ (Cst M (hn s3) c4)) by (cbn [cn]; congruence).
    rewrite (proj2 (Z.eqb_neq _ _) Hcz), crun_mod. done.
  - rewrite Hc4. by apply console_con.
  - change (wd (Cst M _ _)) with (wd s3). rewrite Hsh3, Hsh2, Hsp2. change [CR; LF] with ([CR] ++ [LF]).
    rewrite (app_assoc txt), (expand_app _ (txt ++ [CR])), expand_cr by (done || (apply Forall_app; split; [by apply plain_no_Z|by repeat constructor])).
    cbn [fst]. change (scr_pos (cn s1)) with (scr_pos (cn s)). by rewrite <- app_assoc.
  - change (wd (Cst M _ _)) with (wd s3). congruence.
Qed.

(** Reads one after the other, of these sizes. *)
Fixpoint reads (k : svc) (fuel : nat) (i : Z) (ns : list nat) : C (list Z) :=
  match ns with
  | [] => cret []
  | n :: ns =>
      con! r := read_line_handle k fuel i (Z.of_nat n) (replicate n 0) in
      con! l := reads k fuel i ns in
      cret (take (Z.to_nat (fst r)) (snd r) ++ l)
  end.

Lemma reads_deliver k fuel i ns L s :
  pending L (cn s) -> Forall (fun n => (0 < n)%nat) ns -> (sum_list ns <= length L)%nat ->
  exists s', reads k fuel i ns s = Some (Ret (take (sum_list ns) L), s') /\ hn s' = hn s /\
    pending (drop (sum_list ns) L) (cn s') /\ (exists ip, cn s' = set_inputptr ip (cn s)).
Proof.
  revert L s. induction ns as [|n ns IH]; intros L s Hp Hpos Hsum; cbn [reads sum_list] in *.
  - exists s. split; [done|]. split; [done|]. split; [done|]. exists (inputptr (cn s)). by destruct s as [h []].
  - cbn [sum_list_with] in *. unfold id in *.
    apply Forall_cons in Hpos as [Hn Hpos]. destruct L as [|x L]; [cbn in Hsum; lia|].
    destruct (handle_deliver k fuel i (Z.of_nat n) (replicate n 0) (x :: L) s) as (s1 & E1 & Hh1 & Hp1 & ip1 & Ec1);
      [done|done|rewrite length_replicate; lia|]. rewrite (crun_eq _ _ _ _ _ E1).
    assert (Em : Z.to_nat (Z.min (Z.of_nat n) (Z.of_nat (length (x :: L)))) = n) by lia. rewrite Em in *.
    destruct (IH (drop n (x :: L)) s1 Hp1 Hpos) as (s2 & E2 & Hh2 & Hp2 & ip2 & Ec2); [rewrite length_drop; lia|].
    rewrite (crun_eq _ _ _ _ _ E2). exists s2. split; [|split; [congruence|split]].
    + unfold cret, kret. do 3 f_equal. cbn [fst snd]. rewrite Em.
      rewrite take_app_le, take_take by (rewrite length_take; lia). rewrite Nat.min_id.
      by rewrite take_take_drop.
    + by rewrite drop_drop in Hp2.
    + exists ip2. by rewrite Ec2, Ec1.
Qed.

(** The first read gets the line, the next ones get the rest of it. *)
Lemma reads_run f fuel i n ns txt rest s :
  console i s -> inputptr (cn s) = None -> kbd_ok (cn s) -> Forall plain_char txt -> typed_ahead (wd s) = txt ++ CR :: rest ->
  (length txt <= 127)%nat -> (length txt < fuel)%nat ->
  Forall (fun n => (0 < n)%nat) (n :: ns) -> (sum_list (n :: ns) <= length txt + 2)%nat ->
  exists s', reads (knot (S (S f))) fuel i (n :: ns) s = Some (Ret (take (sum_list (n :: ns)) (txt ++ [CR; LF])), s') /\
    console i s' /\ pending (drop (sum_list (n :: ns)) (txt ++ [CR; LF])) (cn s') /\ kbd_ok (cn s') /\
    shown (wd s') = shown (wd s) ++ fst (expand (scr_pos (cn s)) (txt ++ [CR; LF])) /\ typed_ahead (wd s') = rest.
Proof.
  intros Hs Hip Hkb Hp Ht Hlen Hf Hpos Hsum.
  destruct (handle_fresh f fuel i (Z.of_nat n) (replicate n 0) txt rest s Hs Hip Hkb Hp Ht Hlen Hf) as (s1 & E1 & Hs1 & Hp1 & Hk1 & Hsh1 & Hty1).
  destruct (reads_deliver (knot (S (S f))) fuel i (n :: ns) (txt ++ [CR; LF]) s1 Hp1 Hpos) as (s2 & E2 & Hh2 & Hp2 & ip & Ec2);
    [rewrite length_app; cbn [length]; lia|].
  exists s2. split; [|split; [|split; [done|split; [|split]]]].
  - cbn [reads] in *. unfold cbind at 1 in E2. unfold cbind at 1. by rewrite E1.
  - destruct s2 as [h2 c2]. cbn in Hh2, Ec2. subst h2 c2. by apply console_con.
  - rewrite Ec2. destruct Hk1 as [H1 H2]. by split.
  - unfold wd. by rewrite Hh2.
  - unfold wd. by rewrite Hh2.
Qed.

End Lines.
End LineSpec.
