(* ===== verification/Fcb.v ===== *)
(** * Calls with file control blocks (kernel/fcbfns.c)

    The program keeps the state of an open file in a block of its own memory,
    which may have a header of 7 bytes.  The calls build a name from it and use
    the calls by name, or use the number of the entry of the system file table
    that the block holds; what they read and write is at the disk transfer
    address. *)

From S2P Require Import Prelude Memmgr KState BlockIO FatTab FNode FatAlloc Clock Media FatDir FatFile FatRw.
From S2P Require Import Path Handle Calls Chario.
Import Mm Ks Bio Fat FNode Alloc Clk Media Dir File Rw Path Handle Calls Chario.

Module Fcb.

Definition FCB_SUCCESS := 0.
Definition FCB_ERR_NODATA := 1.
Definition FCB_ERR_SEGMENT_WRAP := 2.
Definition FCB_ERR_EOF := 3.
Definition FCB_ERROR := 0xff.
Definition PARSE_SKIP_LEAD_SEP := 0x01.
Definition PARSE_DFLT_DRIVE := 0x02.
Definition PARSE_BLNK_FNAME := 0x04.
Definition PARSE_BLNK_FEXT := 0x08.
Definition PARSE_RET_NOWILD := 0.
Definition PARSE_RET_WILD := 1.
Definition PARSE_RET_BADDRIVE := 0xff.
Definition FDFLT_DRIVE := 0.
Definition XFR_FCB_RANDOM := 4.

(** [struct fcb]: where its members are. *)
Definition fcb_drive := 0.
Definition fcb_fname := 1.
Definition fcb_fext := 9.
Definition fcb_cublock := 12.
Definition fcb_recsiz := 14.
Definition fcb_fsize := 16.
Definition fcb_date := 20.
Definition fcb_time := 22.
Definition fcb_sftno := 24.
Definition fcb_strtclst := 27.
Definition fcb_dirclst := 29.
Definition fcb_curec := 32.
Definition fcb_rndm := 33.
Definition SIZEOF_FCB := 37.
(** [xfcb_attrib], and [renNewName] and [renNewExtent] of [struct rfcb]. *)
Definition xfcb_attrib := 6.
Definition renNewName := 17.
Definition renNewExtent := 25.

(** A [char] is signed. *)
Definition s8 (x : Z) : Z := (x + 128) mod 256 - 128.

(** ** Parsing a name *)

(** ":;,=+ ", tab *)
Definition CmnSeps : list Z := [0x3a; 0x3b; 0x2c; 0x3d; 0x2b; 0x20; HT].
(** "/\[]<>|.:;,=+", the quotation mark and tab *)
Definition FieldSeps : list Z :=
  [0x2f; 0x5c; 0x22; 0x5b; 0x5d; 0x3c; 0x3e; 0x7c; 0x2e; 0x3a; 0x3b; 0x2c; 0x3d; 0x2b; HT].
Definition TestCmnSeps (c : Z) : bool := negb (c =? 0) && bool_decide (c ∈ CmnSeps).
Definition TestFieldSeps (c : Z) : bool := (c <=? 0x20) || bool_decide (c ∈ FieldSeps).
Definition STAR : Z := 0x2a.
Definition QUESTION : Z := 0x3f.

(** A name is the characters from a pointer on; at the end is the NUL. *)
Definition at0 (name : list Z) : Z := default 0 (name !! 0%nat).

Fixpoint skip_seps (name : list Z) : list Z :=
  match name with
  | c :: name' => if TestCmnSeps c then skip_seps name' else name
  | [] => []
  end.
Fixpoint ParseSkipWh (name : list Z) : list Z :=
  match name with
  | c :: name' => if (c =? 0x20) || (c =? HT) then ParseSkipWh name' else name
  | [] => []
  end.

Section Parse.
Context {M : Machine} {Sh : Shell}.

(** The rest of the name, the field, and whether it has a wild card. *)
Fixpoint GetNameField (name : list Z) (nFieldSize : nat) : K pst (list Z * list Z * bool) :=
  match nFieldSize with
  | O => kret (name, [], false)
  | S n =>
      match name with
      | [] => kret (name, replicate nFieldSize SPACE, false)
      | c :: name' =>
          if TestFieldSeps c then kret (name, replicate nFieldSize SPACE, false) else
          if c =? STAR then kret (name', replicate nFieldSize QUESTION, true) else
          let! u := DosUpFChar c in
          let! r := GetNameField name' n in
          let '(rest, field, wild) := r in
          kret (rest, u :: field, (c =? QUESTION) || wild)
      end
  end.

(** The result for [*wTestMode], the rest of the name, and the block. *)
Definition FcbParseFname (wTestMode : Z) (name fcb : list Z) : K pst (Z * list Z * list Z) :=
  let name := if has wTestMode PARSE_SKIP_LEAD_SEP then skip_seps name else name in
  let name := ParseSkipWh name in
  let! r :=
    (if negb (TestFieldSeps (at0 name)) && (at0 (drop 1 name) =? COLON) then
       let! u := DosUpFChar (at0 name) in
       let Drive := u8 (u - 0x41) in
       let! c := lift (get_cds Drive) in
       let! fcb := kopt (fputbyte fcb_drive (Drive + 1) fcb) in
       kret (match c with None => true | Some _ => false end, drop 2 name, fcb)
     else
       let! fcb := kopt (if has wTestMode PARSE_DFLT_DRIVE then Some fcb else fputbyte fcb_drive FDFLT_DRIVE fcb) in
       kret (false, name, fcb)) in
  let '(bad, name, fcb) := r in
  let! fcb := kopt (fputword fcb_recsiz 0 fcb) in
  let! fcb := kopt (fputword fcb_cublock 0 fcb) in
  let! fcb := kopt (if has wTestMode PARSE_BLNK_FNAME then Some fcb else fmemcpy fcb fcb_fname (replicate 8 SPACE) 8) in
  let! fcb := kopt (if has wTestMode PARSE_BLNK_FEXT then Some fcb else fmemcpy fcb fcb_fext (replicate 3 SPACE) 3) in
  if at0 name =? DOT then
    let! fcb := kopt (fputbyte fcb_fname DOT fcb) in
    let name := drop 1 name in
    if at0 name =? DOT then
      let! fcb := kopt (fputbyte (fcb_fname + 1) DOT fcb) in
      kret (PARSE_RET_NOWILD, drop 1 name, fcb)
    else kret (PARSE_RET_NOWILD, name, fcb)
  else
    let! r := GetNameField name 8 in
    let '(name, field, wild) := r in
    let! fcb := kopt (fmemcpy fcb fcb_fname field 8) in
    let! r :=
      (if at0 name =? DOT then
         let! r := GetNameField (drop 1 name) 3 in
         let '(name, field, wild) := r in
         let! fcb := kopt (fmemcpy fcb fcb_fext field 3) in
         kret (name, wild, fcb)
       else kret (name, false, fcb)) in
    let '(name, wild', fcb) := r in
    kret (if bad then PARSE_RET_BADDRIVE else if wild || wild' then PARSE_RET_WILD else PARSE_RET_NOWILD, name, fcb).
End Parse.

(** ** The state *)

(** [um] is the program's memory at the block, header included, and [udta] that
    from the disk transfer address [udta_at] on, which is other memory.  A
    search by name leaves its state in [dta] of the handles: these calls point
    it to [Dmatch] or to a variable of their own. *)
Record fcbst {M : Machine} := Fst {
  fc : cst; um : list Z; udta : list Z; udta_at : Z * Z; wAttr : Z; Dmatch_ : ffblk }.
Definition udta_off {M : Machine} (s : fcbst) : Z := snd (udta_at s).

Section Fcb.
Context {M : Machine} {Sh : Shell} {R : Redirector} {Cn : Console}.
Definition FC (A : Type) : Type := K fcbst (outcome A).

Definition set_um v (s : fcbst) : fcbst := Fst M (fc s) v (udta s) (udta_at s) (wAttr s) (Dmatch_ s).
Definition set_udta v (s : fcbst) : fcbst := Fst M (fc s) (um s) v (udta_at s) (wAttr s) (Dmatch_ s).
Definition set_wAttr v (s : fcbst) : fcbst := Fst M (fc s) (um s) (udta s) (udta_at s) v (Dmatch_ s).
Definition set_Dmatch v (s : fcbst) : fcbst := Fst M (fc s) (um s) (udta s) (udta_at s) (wAttr s) v.

Definition fget : FC fcbst := fun s => Some (Ret s, s).
Definition fmod (f : fcbst -> fcbst) : FC unit := fun s => Some (Ret tt, f s).
Definition fopt {A} (o : option A) : FC A := fun s => match o with Some a => Some (Ret a, s) | None => None end.
Definition on_c {A} (m : C A) : FC A := fun s =>
  match m (fc s) with
  | Some (r, c) => Some (r, Fst M c (um s) (udta s) (udta_at s) (wAttr s) (Dmatch_ s))
  | None => None
  end.
Definition on_h {A} (m : K hst A) : FC A := on_c (on_hst m).
Definition on_ks {A} (m : K kst A) : FC A := on_h (on_kern m).

Definition mem_get (g : list Z -> Z -> option Z) (i : Z) : FC Z := con! s := fget in fopt (g (um s) i).
Definition mem_put (p : list Z -> option (list Z)) : FC unit :=
  con! s := fget in con! l := fopt (p (um s)) in fmod (set_um l).

(** [CritErrCode = v]. *)
Definition set_CritErrCode (v : Z) : K kst unit :=
  kmod (fun s => set_drv (Drvio (IoReqHdr (drv s)) (MediaReqHdr (drv s)) v (deblock_buf (drv s))
                            (CharReqHdr (drv s)) (ClkRecord (drv s))) s).
Definition crit (v : Z) : FC unit := on_ks (set_CritErrCode v).

(** ** The block *)

(** Where the block is, behind a header or not. *)
Definition extended : FC bool := con! f := mem_get fgetbyte 0 in cret (f =? 0xff).
Definition ExtFcbToFcb : FC Z := con! x := extended in cret (if x then 7 else 0).

(** The program's number of the file, which is a [char]. *)
Definition get_sftno (b : Z) : FC Z := con! c := mem_get fgetbyte (b + fcb_sftno) in cret (s8 c).

(** The name, and the drive: 1 is A. *)
Definition name_of (default_drive : Z) (fcb : list Z) : option (list Z * Z) :=
  match fgetbyte fcb fcb_drive, ConvertName83ToNameSZ (drop (Z.to_nat fcb_fname) fcb) with
  | Some d, Some name =>
      Some (if negb (d =? 0) then ([u8 (0x41 + d - 1); COLON] ++ name, d) else (name, default_drive + 1))
  | _, _ => None
  end.
Definition FcbNameInit (fcb : list Z) : K hst (list Z * Z) :=
  let! s := kget in kopt (name_of (default_drive (pth s)) fcb).

(** [strcpy(&SecPathName[i], str)]. *)
Definition put_sec (i : Z) (str : list Z) : K hst unit :=
  let! s := kget in
  let! l := kopt (fmemcpy (SecPathName s) i (str ++ [0]) (Z.of_nat (length str) + 1)) in
  kmod (set_SecPathName l).

(** The place of the block, the name, and the drive. *)
Definition CommonFcbInit : FC (Z * list Z * Z) :=
  con! b := ExtFcbToFcb in
  con! s := fget in
  con! r := on_h (FcbNameInit (drop (Z.to_nat b) (um s))) in
  con_ on_h (put_sec 0 (fst r)) in
  cret (b, fst r, snd r).

Definition is_device (name : list Z) : FC bool :=
  con! d := on_h (on_pth (IsDevice name)) in cret (match d with Some _ => true | None => false end).

(** The media byte, sectors per cluster, bytes per sector and clusters. *)
Definition FatGetDrvData (drive : Z) : K hst (option (Z * Z * Z * Z)) :=
  let! r := DosGetFree drive false in
  match r with
  | None => kret None
  | Some sp =>
      if fs_spc sp =? 0xffff then kret None else
      let! s := kget in
      let! dpbp := on_kern (get_dpb (if drive =? 0 then default_drive (pth s) else drive - 1)) in
      if dpbp =? NULL then kret (Some (Z.shiftr (fs_spc sp) 8, u8 (fs_spc sp), fs_bps sp, fs_nc sp))
      else let! d := on_kern (Ks.dget dpbp) in kret (Some (dpb_mdb d, u8 (fs_spc sp), fs_bps sp, fs_nc sp))
  end.

(** ** Records *)

Definition FcbNextRecord (b : Z) : FC unit :=
  con! c := mem_get fgetbyte (b + fcb_curec) in
  if 128 <=? u8 (c + 1) then
    con_ mem_put (fputbyte (b + fcb_curec) 0) in
    con! blk := mem_get fgetword (b + fcb_cublock) in
    mem_put (fputword (b + fcb_cublock) (u16 (blk + 1)))
  else mem_put (fputbyte (b + fcb_curec) (u8 (c + 1))).

Definition FcbRec (b : Z) : FC Z :=
  con! blk := mem_get fgetword (b + fcb_cublock) in
  con! c := mem_get fgetbyte (b + fcb_curec) in
  cret (blk * 128 + c).

(** The number of bytes of the transfer, unless it wraps around. *)
Definition transfer_size (off recsiz recno : Z) : option Z :=
  let bigsize := u32 (recsiz * recno) in
  if 0xffff <? bigsize then None
  else if u16 (off + bigsize) <? off then None else Some bigsize.

(** The end of a transfer. *)
Definition after_transfer (b size nTransfer recsiz mode : Z) : FC Z :=
  con_ (if has mode XFR_FCB_RANDOM && (0 <? recsiz) then
          con! r := mem_get fgetlong (b + fcb_rndm) in
          mem_put (fputlong (b + fcb_rndm) (u32 (r + u16 (u16 nTransfer + recsiz - 1) / recsiz)))
        else cret tt) in
  let size := u16 (size - u16 nTransfer) in
  if size =? 0 then con_ FcbNextRecord b in cret FCB_SUCCESS else
  con! recsiz := mem_get fgetword (b + fcb_recsiz) in
  con! size := fopt (if recsiz =? 0 then None else Some (size mod recsiz)) in
  if has mode XFR_READ && (0 <? size) then
    con! s := fget in
    let i := u16 (udta_off s + u16 nTransfer) - udta_off s in
    con! l := fopt (fmemcpy (udta s) i (replicate (Z.to_nat size) 0) size) in
    con_ fmod (set_udta l) in
    con_ FcbNextRecord b in
    cret FCB_ERR_EOF
  else cret FCB_ERR_NODATA.

Section ReadWrite.
Context (k : svc) (fuel : nat).

Definition FcbReadWrite (recno mode : Z) : FC Z :=
  con! b := ExtFcbToFcb in
  con! recsiz := mem_get fgetword (b + fcb_recsiz) in
  con! s := fget in
  match transfer_size (udta_off s) recsiz recno with
  | None => cret FCB_ERR_SEGMENT_WRAP
  | Some size =>
      con! rec := FcbRec b in
      let lPosit := u32 (rec * recsiz) in
      con! idx := get_sftno b in
      con! rc := on_ks (SftSeek idx lPosit 0) in
      con_ crit (s16 (- rc)) in
      if negb (s16 (- rc) =? SUCCESS) then cret FCB_ERR_NODATA else
      con! r := on_c (DosRWSft k fuel idx size (udta_at s) (udta s) (clear mode XFR_FCB_RANDOM)) in
      con_ fmod (set_udta (snd r)) in
      let nTransfer := fst r in
      con_ (if nTransfer <? 0 then crit (s16 (- s16 nTransfer)) else cret tt) in
      con_ (if has mode XFR_WRITE then
              con! f := on_h (in_use idx) in
              let size := match f with Some f => sft_size f | None => u32 DE_INVLDHNDL end in
              mem_put (fputlong (b + fcb_fsize) size)
            else cret tt) in
      after_transfer b size nTransfer recsiz mode
  end.

Definition FcbSetRandom : FC unit :=
  con! b := ExtFcbToFcb in
  con! rec := FcbRec b in
  mem_put (fputlong (b + fcb_rndm) rec).

Definition FcbCalcRec : FC unit :=
  con! b := ExtFcbToFcb in
  con! r := mem_get fgetlong (b + fcb_rndm) in
  con_ mem_put (fputword (b + fcb_cublock) (u16 (r / 128))) in
  mem_put (fputbyte (b + fcb_curec) (Z.land (u8 r) 127)).

(** The return code and the number of records. *)
Definition FcbRandomBlockIO (nRecords mode : Z) : FC (Z * Z) :=
  con_ FcbCalcRec in
  con! b := ExtFcbToFcb in
  con! old := mem_get fgetlong (b + fcb_rndm) in
  con! rc := FcbReadWrite nRecords mode in
  con! new := mem_get fgetlong (b + fcb_rndm) in
  con_ FcbCalcRec in
  cret (rc, u16 (new - old)).

Definition FcbRandomIO (mode : Z) : FC Z :=
  con_ FcbCalcRec in
  con! b := ExtFcbToFcb in
  con! blk := mem_get fgetword (b + fcb_cublock) in
  con! c := mem_get fgetbyte (b + fcb_curec) in
  con! rc := FcbReadWrite 1 mode in
  con_ mem_put (fputword (b + fcb_cublock) blk) in
  con_ mem_put (fputbyte (b + fcb_curec) c) in
  cret rc.
End ReadWrite.

Definition FcbGetFileSize : FC Z :=
  con! r := CommonFcbInit in
  let '(b, name, _) := r in
  con! recsiz := mem_get fgetword (b + fcb_recsiz) in
  con! d := is_device name in
  if d || (recsiz =? 0) then cret FCB_ERROR else
  con! idx := on_h (DosOpenSft name (Z.lor (Z.lor O_LEGACY O_RDONLY) O_OPEN) 0) in
  let sft_idx := s16 idx in
  if 0 <=? sft_idx then
    con! f := on_h (in_use sft_idx) in
    let fsize := match f with Some f => sft_size f | None => u32 DE_INVLDHNDL end in
    con_ mem_put (fputlong (b + fcb_rndm) (u32 (fsize + (recsiz - 1)) / recsiz)) in
    con! rc := on_ks (DosCloseSft sft_idx false) in
    con_ crit (s16 (- rc)) in
    cret (if s16 (- rc) =? SUCCESS then FCB_SUCCESS else FCB_ERROR)
  else con_ crit (s16 (- sft_idx)) in cret FCB_ERROR.

(** ** Opening and closing *)

(** The members that [FcbOpen] sets from the entry of the file. *)
Definition open_fields (b FcbDrive sft_idx : Z) (f : sft) (l : list Z) : option (list Z) :=
  l ← fputbyte (b + fcb_sftno) (u8 sft_idx) l;
  l ← fputword (b + fcb_cublock) 0 l;
  l ← fputword (b + fcb_recsiz) 0 l;
  l ← (if has (sft_flags f) SFT_FDEVICE then Some l
       else l ← fputbyte (b + fcb_drive) (u8 FcbDrive) l; fputword (b + fcb_recsiz) 128 l);
  l ← fputlong (b + fcb_fsize) (sft_size f) l;
  l ← fputword (b + fcb_date) (sft_date f) l;
  fputword (b + fcb_time) (sft_time f) l.

Definition FcbOpen (flags : Z) : FC Z :=
  con! r := CommonFcbInit in
  let '(b, name, FcbDrive) := r in
  con! x := extended in
  con! attr := (if has flags O_CREAT && x then mem_get fgetbyte xfcb_attrib else cret 0) in
  con! idx := on_h (DosOpenSft name flags attr) in
  let sft_idx := s16 idx in
  if sft_idx <? 0 then con_ crit (s16 (- sft_idx)) in cret FCB_ERROR else
  con_ on_ks (sftmod sft_idx (fun f => set_sft_mode (Z.lor (sft_mode f) O_FCB) f)) in
  con! f := on_ks (sft_at sft_idx) in
  con_ mem_put (open_fields b FcbDrive sft_idx f) in
  cret FCB_SUCCESS.

Definition FcbClose : FC Z :=
  con! b := ExtFcbToFcb in
  con! idx := get_sftno b in
  if idx =? -1 then cret FCB_SUCCESS else
  con! f := on_h (in_use idx) in
  match f with
  | None => cret FCB_ERROR
  | Some f =>
      con! fsize := mem_get fgetlong (b + fcb_fsize) in
      con_ on_ks (sftmod idx (set_sft_size fsize)) in
      con_ on_ks (if negb (has (sft_flags f) SFT_FSHARED) then dos_merge_file_changes idx else kret tt) in
      con! date := mem_get fgetword (b + fcb_date) in
      con! time := mem_get fgetword (b + fcb_time) in
      con_ on_ks (DosSetFtimeSft idx date time) in
      con! rc := on_ks (DosCloseSft idx false) in
      con_ crit (s16 (- rc)) in
      if s16 (- rc) =? SUCCESS then
        con_ mem_put (fputbyte (b + fcb_sftno) 0xff) in cret FCB_SUCCESS
      else cret FCB_ERROR
  end.

(** ** Deleting, renaming and searching *)

(** [dta] points to a variable of the call: what it holds is not seen
    afterwards. *)
Definition with_dta {A} (m : FC A) : FC A :=
  con! s := fget in
  let old := dta (hn (fc s)) in
  con! a := m in
  con_ on_h (kmod (set_dta old)) in
  cret a.
Definition found_name : FC (list Z) := con! s := fget in cret (dm_name (dta (hn (fc s)))).

(** More entries than a directory has. *)
Definition find_fuel : nat := Z.to_nat 0x10001.

(** The attribute of the header, or all files. *)
Definition search_attr : FC Z :=
  con! x := extended in if x then mem_get fgetbyte xfcb_attrib else cret D_ALL.

Definition drive_name (FcbDrive : Z) (name : list Z) : list Z := [u8 (0x41 + FcbDrive - 1); COLON] ++ name.

(** [body] for each file that is found, until it fails. *)
Fixpoint each_found (n : nat) (body : FC bool) : FC Z :=
  match n with
  | O => kstuck
  | S n =>
      con! ok := body in
      if negb ok then cret FCB_ERROR else
      con! rc := on_h DosFindNext in
      con_ crit (s16 (- rc)) in
      if s16 (- rc) =? SUCCESS then each_found n body else cret FCB_SUCCESS
  end.
Definition find_each (attr : Z) (name : list Z) (body : FC bool) : FC Z :=
  con! rc := on_h (DosFindFirst attr name) in
  con_ crit (s16 (- rc)) in
  if negb (s16 (- rc) =? SUCCESS) then cret FCB_ERROR else each_found find_fuel body.

Definition delete_found (FcbDrive attr : Z) : FC bool :=
  con! found := found_name in
  let path := drive_name FcbDrive found in
  con_ on_h (put_sec 0 path) in
  con! rc := on_h (DosDelete path attr) in
  cret (rc =? SUCCESS).

Definition FcbDelete : FC Z :=
  con! r := CommonFcbInit in
  let '(_, name, FcbDrive) := r in
  con! d := is_device name in
  if d then cret FCB_ERROR else
  con! attr := search_attr in
  with_dta (find_each attr name (delete_found FcbDrive attr)).

(** A character of the pattern that is not [?] replaces that of the name. *)
Fixpoint overlay (pattern name : list Z) : list Z :=
  match pattern, name with
  | p :: pattern, c :: name => (if p =? QUESTION then c else p) :: overlay pattern name
  | _, _ => name
  end.

(** [LocalFcb] has been set as far as it is read. *)
Definition rename_found (FcbDrive attr : Z) (buf : list Z) : FC bool :=
  con! found := found_name in
  con! r := on_h (on_pth (FcbParseFname 0 found (replicate (Z.to_nat SIZEOF_FCB) 0))) in
  let '(_, _, local) := r in
  let to := overlay buf (take 11 (drop 1 local)) in
  let path := drive_name FcbDrive found in
  con_ on_h (put_sec 0 path) in
  con! rc := on_h (truename_pri path 0) in
  if (rc <? SUCCESS) || has rc IS_DEVICE then cret false else
  con! r := on_h (FcbNameInit (u8 FcbDrive :: to)) in
  con! rc := on_h (truename_sec (fst r) 0) in
  if (rc <? SUCCESS) || is_bare_device rc then cret false else
  con! s := fget in
  let h := hn (fc s) in
  con! rc := on_h (DosRenameTrue (cstr (PriPathName h)) (cstr (SecPathName h)) attr) in
  cret (rc =? SUCCESS).

(** [FcbDrive] is written by the second [FcbNameInit] too, with the same value. *)
Definition FcbRename : FC Z :=
  con! r := CommonFcbInit in
  let '(b, name, FcbDrive) := r in
  con! s := fget in
  con! r1 := on_h (on_pth (GetNameField (drop (Z.to_nat (b + renNewName)) (um s)) 8)) in
  con! r2 := on_h (on_pth (GetNameField (drop (Z.to_nat (b + renNewExtent)) (um s)) 3)) in
  let buf := snd (fst r1) ++ snd (fst r2) in
  con! d := is_device name in
  if d then cret FCB_ERROR else
  con! attr := search_attr in
  con_ fmod (set_wAttr attr) in
  with_dta (find_each attr name (rename_found FcbDrive attr buf)).

(** [dta = &Dmatch], which stays. *)
Definition with_Dmatch {A} (m : FC A) : FC A :=
  con! s := fget in
  let old := dta (hn (fc s)) in
  con_ on_h (kmod (set_dta (Dmatch_ s))) in
  con! a := m in
  con! s := fget in
  con_ fmod (set_Dmatch (dta (hn (fc s)))) in
  con_ on_h (kmod (set_dta old)) in
  cret a.

(** The members of [Dmatch] that the first search takes from the block. *)
Definition init_Dmatch (b : Z) : FC unit :=
  con! s := fget in
  let m := um s in
  con! sftno := mem_get fgetbyte (b + fcb_sftno) in
  con! up := on_h (on_pth (DosUpFMem (take 11 (drop (Z.to_nat (b + fcb_fname)) m)))) in
  con! entry := mem_get fgetword (b + fcb_strtclst) in
  con! dir := mem_get fgetword (b + fcb_dirclst) in
  con! s := fget in
  let old := dta (hn (fc s)) in
  con_ on_h (kmod (set_dta (Ffblk (Dmatch sftno up (u8 (wAttr s)) entry dir)
      (dm_attr_fnd old) (dm_time old) (dm_date old) (dm_size old) (dm_name old)))) in
  fmod (set_wAttr D_ALL).

(** What a search stores for the program: the drive and the entry. *)
Definition store_found (b lpDir FcbDrive : Z) : FC unit :=
  con! s := fget in
  let e := SearchDir (fs (kern (pth (hn (fc s))))) in
  let m := ff_dm (dta (hn (fc s))) in
  con! l := fopt (fputbyte lpDir (u8 FcbDrive) (udta s)) in
  con! l := fopt (fmemcpy l (lpDir + 1) (dirent_bytes e) 32) in
  con_ fmod (set_udta l) in
  con_ mem_put (fputword (b + fcb_dirclst) (u16 (dm_dircluster m))) in
  con_ mem_put (fputword (b + fcb_strtclst) (dm_entry m)) in
  mem_put (fputbyte (b + fcb_sftno) (dm_drive m)).

Definition FcbFindFirstNext (First : bool) : FC Z :=
  with_Dmatch (
    con! r := CommonFcbInit in
    let '(b, name, FcbDrive) := r in
    con_ (if First then init_Dmatch b else cret tt) in
    con! lpDir := (if b =? 0 then cret 0 else
      con! a := mem_get fgetbyte xfcb_attrib in
      con_ fmod (set_wAttr a) in
      con! s := fget in
      con! l := fopt (fmemcpy (udta s) 0 (um s) 7) in
      con_ fmod (set_udta l) in
      cret 7) in
    con! s := fget in
    con! rc := on_h (if First then DosFindFirst (wAttr s) name else DosFindNext) in
    con_ crit (s16 (- rc)) in
    if negb (s16 (- rc) =? SUCCESS) then cret FCB_ERROR else
    con_ store_found b lpDir FcbDrive in
    cret FCB_SUCCESS).
End Fcb.
End Fcb.
