(* ===== verification/Far.v ===== *)
(** * Memory and registers of programs

    The 8086 address space as bytes, far pointers into it, and the two register
    structures of hdr/pcb.h.  A far pointer is a pair of segment and offset; as
    in the compilers used, the offset of a pointer that moves wraps around and
    its segment stays. *)

From S2P Require Import Prelude.

Module Far.

(** ** Memory *)

Definition ptr : Type := Z * Z.
Definition umem : Type := Z -> Z.
(** The address that a pointer is on the bus. *)
Definition lin (p : ptr) : Z := fst p * 16 + snd p.
Definition far_add (p : ptr) (n : Z) : ptr := (fst p, u16 (snd p + n)).

(** [n] bytes from an address on, and bytes stored there. *)
Definition load (m : umem) (a : Z) (n : nat) : list Z := map (fun i => m (a + Z.of_nat i)) (seq 0 n).
Definition store (a : Z) (l : list Z) (m : umem) : umem := fun x =>
  match l !! Z.to_nat (x - a) with
  | Some b => if a <=? x then b else m x
  | None => m x
  end.

Definition getb (m : umem) (p : ptr) : Z := m (lin p).
Definition getw (m : umem) (p : ptr) : Z := getb m p + 256 * getb m (far_add p 1).
Definition getl (m : umem) (p : ptr) : Z := getw m p + 65536 * getw m (far_add p 2).
Definition getp (m : umem) (p : ptr) : ptr := (getw m (far_add p 2), getw m p).
Definition putb (p : ptr) (v : Z) (m : umem) : umem := store (lin p) [u8 v] m.
Definition putw (p : ptr) (v : Z) (m : umem) : umem :=
  putb (far_add p 1) (Z.shiftr (u16 v) 8) (putb p v m).
Definition putl (p : ptr) (v : Z) (m : umem) : umem :=
  putw (far_add p 2) (Z.shiftr (u32 v) 16) (putw p v m).
Definition putp (p q : ptr) (m : umem) : umem := putw (far_add p 2) (fst q) (putw p (snd q) m).

(** A string up to its NUL; one that never ends is read for ever. *)
Fixpoint fstr (fuel : nat) (m : umem) (p : ptr) : option (list Z) :=
  match fuel with
  | O => None
  | S fuel =>
      let c := getb m p in
      if c =? 0 then Some [] else (fun l => c :: l) <$> fstr fuel m (far_add p 1)
  end.
Definition segment_fuel : nat := Z.to_nat 65537.

(** A pointer as the number that the tables of the kernel use. *)
Definition flat (p : ptr) : Z := Z.shiftl (fst p) 16 + snd p.
Definition unflat (x : Z) : ptr := (Z.shiftr x 16, u16 x).

(** ** Registers *)

Record lregs := Lregs { AX : Z; BX : Z; CX : Z; DX : Z; SI : Z; DI : Z; DS : Z; ES : Z }.
Definition lo (x : Z) : Z := Z.land x 0xff.
Definition hi (x : Z) : Z := Z.shiftr x 8.
Definition with_lo (x v : Z) : Z := Z.lor (Z.land x 0xff00) (u8 v).
Definition with_hi (x v : Z) : Z := Z.lor (Z.land x 0xff) (Z.shiftl (u8 v) 8).
Definition AL (r : lregs) : Z := lo (AX r).
Definition AH (r : lregs) : Z := hi (AX r).
Definition BL (r : lregs) : Z := lo (BX r).
Definition BH (r : lregs) : Z := hi (BX r).
Definition CL (r : lregs) : Z := lo (CX r).
Definition CH (r : lregs) : Z := hi (CX r).
Definition DL (r : lregs) : Z := lo (DX r).
Definition DH (r : lregs) : Z := hi (DX r).

Definition set_AX v (r : lregs) := Lregs (u16 v) (BX r) (CX r) (DX r) (SI r) (DI r) (DS r) (ES r).
Definition set_BX v (r : lregs) := Lregs (AX r) (u16 v) (CX r) (DX r) (SI r) (DI r) (DS r) (ES r).
Definition set_CX v (r : lregs) := Lregs (AX r) (BX r) (u16 v) (DX r) (SI r) (DI r) (DS r) (ES r).
Definition set_DX v (r : lregs) := Lregs (AX r) (BX r) (CX r) (u16 v) (SI r) (DI r) (DS r) (ES r).
Definition set_SI v (r : lregs) := Lregs (AX r) (BX r) (CX r) (DX r) (u16 v) (DI r) (DS r) (ES r).
Definition set_DI v (r : lregs) := Lregs (AX r) (BX r) (CX r) (DX r) (SI r) (u16 v) (DS r) (ES r).
Definition set_DS v (r : lregs) := Lregs (AX r) (BX r) (CX r) (DX r) (SI r) (DI r) (u16 v) (ES r).
Definition set_ES v (r : lregs) := Lregs (AX r) (BX r) (CX r) (DX r) (SI r) (DI r) (DS r) (u16 v).
Definition set_AL v (r : lregs) := set_AX (with_lo (AX r) v) r.
Definition set_AH v (r : lregs) := set_AX (with_hi (AX r) v) r.
Definition set_BL v (r : lregs) := set_BX (with_lo (BX r) v) r.
Definition set_BH v (r : lregs) := set_BX (with_hi (BX r) v) r.
Definition set_CL v (r : lregs) := set_CX (with_lo (CX r) v) r.
Definition set_CH v (r : lregs) := set_CX (with_hi (CX r) v) r.
Definition set_DL v (r : lregs) := set_DX (with_lo (DX r) v) r.
Definition set_DH v (r : lregs) := set_DX (with_hi (DX r) v) r.

Definition FP_DS_DX (r : lregs) : ptr := (DS r, DX r).
Definition FP_ES_DI (r : lregs) : ptr := (ES r, DI r).

(** The frame that a call finds on the stack. *)
Record iregs := Iregs { i_regs : lregs; BP : Z; IP : Z; CS : Z; FLAGS : Z }.
Definition FLG_ZERO := 0x0040.
Definition FLG_CARRY := 0x0001.
Definition SIZEOF_IREGS := 24.

(** Where its members are. *)
Definition get_iregs (m : umem) (p : ptr) : iregs :=
  let w i := getw m (far_add p i) in
  Iregs (Lregs (w 0) (w 2) (w 4) (w 6) (w 8) (w 10) (w 14) (w 16)) (w 12) (w 18) (w 20) (w 22).
Definition put_words (p : ptr) (l : list (Z * Z)) (m : umem) : umem :=
  fold_left (fun m '(i, v) => putw (far_add p i) v m) l m.
Definition put_iregs (p : ptr) (r : iregs) (m : umem) : umem :=
  let l := i_regs r in
  put_words p [(0, AX l); (2, BX l); (4, CX l); (6, DX l); (8, SI l); (10, DI l); (12, BP r); (14, DS l);
               (16, ES l); (18, IP r); (20, CS r); (22, FLAGS r)] m.
(** [fmemcpy(r, &lr, sizeof(lregs) - 4)] and the two segments behind it. *)
Definition put_lregs (p : ptr) (l : lregs) (m : umem) : umem :=
  put_words p [(0, AX l); (2, BX l); (4, CX l); (6, DX l); (8, SI l); (10, DI l); (14, DS l); (16, ES l)] m.
Definition get_lregs (m : umem) (p : ptr) : lregs :=
  let w i := getw m (far_add p i) in Lregs (w 0) (w 2) (w 4) (w 6) (w 8) (w 10) (w 12) (w 14).

(** ** Laws *)

Lemma load_length m a n : length (load m a n) = n.
Proof. unfold load. by rewrite length_map, length_seq. Qed.
Lemma load_lookup m a n i : (i < n)%nat -> load m a n !! i = Some (m (a + Z.of_nat i)).
Proof. intros H. unfold load. by rewrite list_lookup_fmap, lookup_seq_lt. Qed.
Lemma load_app m a n k : load m a (n + k) = load m a n ++ load m (a + Z.of_nat n) k.
Proof.
  unfold load. rewrite seq_app, map_app. f_equal. cbn. rewrite <- (Nat.add_0_r n) at 1. rewrite <- fmap_add_seq, map_map.
  apply map_ext. intros i. f_equal. lia.
Qed.

Lemma store_in a l m x b : a <= x -> l !! Z.to_nat (x - a) = Some b -> store a l m x = b.
Proof. intros H E. unfold store. by rewrite E, (proj2 (Z.leb_le _ _)). Qed.
Lemma store_out a l m x : x < a \/ a + Z.of_nat (length l) <= x -> store a l m x = m x.
Proof.
  intros H. unfold store. destruct (l !! Z.to_nat (x - a)) eqn:E; [|done].
  apply lookup_lt_Some in E. destruct (a <=? x) eqn:E2; [|done]. zbool. lia.
Qed.
Lemma load_store m a l : load (store a l m) a (length l) = l.
Proof.
  apply list_eq. intros i. destruct (decide (i < length l)%nat) as [Hi|Hi].
  - rewrite load_lookup by done. destruct (lookup_lt_is_Some_2 _ _ Hi) as [b E]. rewrite E. f_equal.
    apply store_in; [lia|]. by replace (Z.to_nat (a + Z.of_nat i - a)) with i by lia.
  - rewrite !lookup_ge_None_2; [done|lia|rewrite load_length; lia].
Qed.
Lemma load_ext m m' a n : (forall i, a <= i < a + Z.of_nat n -> m i = m' i) -> load m a n = load m' a n.
Proof. intros H. unfold load. apply map_ext_in. intros i Hi. apply in_seq in Hi. apply H. lia. Qed.
Lemma load_store_other m a l b n :
  b + Z.of_nat n <= a \/ a + Z.of_nat (length l) <= b -> load (store a l m) b n = load m b n.
Proof. intros H. apply load_ext. intros i Hi. apply store_out. lia. Qed.
End Far.
