(* ===== verification/FarSpec.v ===== *)
(** * Laws of memory words and register frames *)

From S2P Require Import Prelude Far.
Import Far.

Module FarSpec.

(** An object of [n] bytes that does not run over the end of its segment. *)
Definition fits (p : ptr) (n : Z) : Prop := 0 <= snd p /\ snd p + n <= 65536.
(** A word, and the registers of a program. *)
Definition word (x : Z) : Prop := 0 <= x < 65536.
Record words (l : lregs) : Prop := Words {
  w_AX : word (AX l); w_BX : word (BX l); w_CX : word (CX l); w_DX : word (DX l);
  w_SI : word (SI l); w_DI : word (DI l); w_DS : word (DS l); w_ES : word (ES l) }.

Lemma lin_add p n i : fits p n -> 0 <= i < n -> lin (far_add p i) = lin p + i.
Proof. intros [H1 H2] Hi. unfold lin, far_add. cbn [fst snd]. rewrite u16_small by lia. lia. Qed.
Lemma far_add_add p n i j : fits p n -> 0 <= i < n -> far_add (far_add p i) j = far_add p (i + j).
Proof. intros [H1 H2] Hi. unfold far_add. cbn [fst snd]. rewrite (u16_small (snd p + i)) by lia. by rewrite Z.add_assoc. Qed.

Lemma store1 a b m x : store a [b] m x = if x =? a then b else m x.
Proof.
  destruct (x =? a) eqn:E; zbool.
  - subst. apply store_in; [lia|]. by rewrite Z.sub_diag.
  - apply store_out. cbn [length]. lia.
Qed.
Lemma putb_at p v m x : putb p v m x = if x =? lin p then u8 v else m x.
Proof. apply store1. Qed.
Lemma u8_hi v : u8 (Z.shiftr (u16 v) 8) = Z.shiftr (u16 v) 8.
Proof. apply u8_small. pose proof (u16_range v). rewrite Z.shiftr_div_pow2 by lia. change (2 ^ 8) with 256. split; [apply Z.div_pos; lia|apply Z.div_lt_upper_bound; lia]. Qed.

(** A word at offset [i] of an object. *)
Lemma putw_at p n i v m x : fits p n -> 0 <= i -> i + 1 < n ->
  putw (far_add p i) v m x =
    if x =? lin p + i + 1 then Z.shiftr (u16 v) 8 else if x =? lin p + i then u8 v else m x.
Proof.
  intros Hf H0 H1. unfold putw. rewrite !putb_at, (far_add_add p n), !(lin_add p n), u8_hi by (done || lia).
  by rewrite Z.add_assoc.
Qed.
Lemma getw_at p n i m : fits p n -> 0 <= i -> i + 1 < n ->
  getw m (far_add p i) = m (lin p + i) + 256 * m (lin p + i + 1).
Proof.
  intros Hf H0 H1. unfold getw, getb. rewrite (far_add_add p n), !(lin_add p n) by (done || lia). by rewrite Z.add_assoc.
Qed.
Lemma halves v : u8 v + 256 * Z.shiftr (u16 v) 8 = u16 v.
Proof. unfold u8, u16. rewrite Z.shiftr_div_pow2 by lia. change (2 ^ 8) with 256. Z.to_euclidean_division_equations; lia. Qed.
Lemma getw_put_same p n i v m : fits p n -> 0 <= i -> i + 1 < n -> getw (putw (far_add p i) v m) (far_add p i) = u16 v.
Proof.
  intros Hf H0 H1. rewrite (getw_at p n), !(putw_at p n) by done.
  rewrite (proj2 (Z.eqb_neq (lin p + i) (lin p + i + 1))), !Z.eqb_refl by lia. apply halves.
Qed.
Lemma getw_put_other p n i j v m : fits p n -> 0 <= i -> i + 1 < n -> 0 <= j -> j + 1 < n ->
  j <> i -> j <> i + 1 -> i <> j + 1 -> getw (putw (far_add p i) v m) (far_add p j) = getw m (far_add p j).
Proof.
  intros. rewrite !(getw_at p n), !(putw_at p n) by done.
  rewrite (proj2 (Z.eqb_neq (lin p + j) (lin p + i + 1))), (proj2 (Z.eqb_neq (lin p + j) (lin p + i))),
    (proj2 (Z.eqb_neq (lin p + j + 1) (lin p + i + 1))), (proj2 (Z.eqb_neq (lin p + j + 1) (lin p + i))) by lia.
  done.
Qed.

(** ** Several words of one object *)

(** The word at [j] after the stores. *)
Definition word_after (l : list (Z * Z)) (j d : Z) : Z :=
  fold_left (fun d '(i, v) => if i =? j then u16 v else d) l d.
Definition evens (n : Z) (l : list (Z * Z)) : Prop := Forall (fun x => Z.even (fst x) = true /\ 0 <= fst x /\ fst x + 1 < n) l.
Lemma getw_put_words p n l m j : fits p n -> evens n l -> Z.even j = true -> 0 <= j -> j + 1 < n ->
  getw (put_words p l m) (far_add p j) = word_after l j (getw m (far_add p j)).
Proof.
  intros Hf Hl Hj H0 H1. revert m. induction l as [|[i v] l IH]; intros m; [done|].
  apply Forall_cons in Hl as [(He & Hi0 & Hi1) Hl]. cbn [fst] in *. cbn [put_words word_after fold_left].
  change (getw (put_words p l (putw (far_add p i) v m)) (far_add p j) = word_after l j (if i =? j then u16 v else getw m (far_add p j))).
  rewrite IH by done. f_equal. destruct (i =? j) eqn:E; zbool.
  - subst. by apply (getw_put_same p n).
  - assert (Hij : j <> i + 1 /\ i <> j + 1).
    { rewrite Z.even_spec in He, Hj. destruct He, Hj. lia. }
    apply (getw_put_other p n); try done; lia.
Qed.
Lemma put_words_out p n l m x : fits p n -> evens n l -> x < lin p \/ lin p + n <= x -> put_words p l m x = m x.
Proof.
  intros Hf Hl Hx. revert m. induction l as [|[i v] l IH]; intros m; [done|].
  apply Forall_cons in Hl as [(He & Hi0 & Hi1) Hl]. cbn [fst] in *.
  change (put_words p l (putw (far_add p i) v m) x = m x). rewrite IH, (putw_at p n) by done.
  by rewrite (proj2 (Z.eqb_neq x (lin p + i + 1))), (proj2 (Z.eqb_neq x (lin p + i))) by lia.
Qed.

Ltac evens := unfold evens; repeat (apply List.Forall_cons; [cbn [fst]; unfold SIZEOF_IREGS; split; [done|lia]|]); apply List.Forall_nil.

(** ** Frames *)

Lemma word16 x : word x -> u16 x = x.
Proof. apply u16_small. Qed.
Definition iwords (f : iregs) : Prop := words (i_regs f) /\ word (BP f) /\ word (IP f) /\ word (CS f) /\ word (FLAGS f).

(** What a frame holds that was stored. *)
Lemma get_put_iregs p f m : fits p SIZEOF_IREGS -> iwords f -> get_iregs (put_iregs p f m) p = f.
Proof.
  intros Hf ([] & H1 & H2 & H3 & H4). unfold get_iregs, put_iregs.
  rewrite !(getw_put_words p SIZEOF_IREGS) by (done || evens). unfold word_after. cbn.
  rewrite !word16 by done. by destruct f as [[] ? ? ? ?].
Qed.
(** [put_lregs] leaves BP and what the processor pushed. *)
Lemma get_put_lregs p l m : fits p SIZEOF_IREGS -> words l ->
  get_iregs (put_lregs p l m) p =
    let f := get_iregs m p in Iregs l (BP f) (IP f) (CS f) (FLAGS f).
Proof.
  intros Hf []. unfold get_iregs, put_lregs.
  rewrite !(getw_put_words p SIZEOF_IREGS) by (done || evens). unfold word_after. cbn.
  rewrite !word16 by done. by destruct l.
Qed.
Lemma put_lregs_out p l m x : fits p SIZEOF_IREGS -> x < lin p \/ lin p + SIZEOF_IREGS <= x -> put_lregs p l m x = m x.
Proof. intros Hf Hx. apply (put_words_out p SIZEOF_IREGS); [done|evens|done]. Qed.
(** The word of the flags. *)
Lemma get_put_flags p v m : fits p SIZEOF_IREGS ->
  get_iregs (putw (far_add p 22) v m) p = let f := get_iregs m p in Iregs (i_regs f) (BP f) (IP f) (CS f) (u16 v).
Proof.
  intros Hf. unfold get_iregs. rewrite (getw_put_same p SIZEOF_IREGS), !(getw_put_other p SIZEOF_IREGS) by (done || (unfold SIZEOF_IREGS; lia)). done.
Qed.

(** A frame that memory agrees on. *)
Lemma get_iregs_ext m m' p : fits p SIZEOF_IREGS ->
  (forall x, lin p <= x < lin p + SIZEOF_IREGS -> m x = m' x) -> get_iregs m p = get_iregs m' p.
Proof.
  intros Hf H. unfold get_iregs.
  assert (E : forall i, 0 <= i -> i + 1 < SIZEOF_IREGS -> getw m (far_add p i) = getw m' (far_add p i)).
  { intros i H0 H1. rewrite !(getw_at p SIZEOF_IREGS), !H by (done || lia). done. }
  rewrite !E by (unfold SIZEOF_IREGS; lia). done.
Qed.

(** ** Memory of bytes *)

Definition bytes (m : umem) : Prop := forall x, 0 <= m x < 256.
Lemma getw_word m p : bytes m -> word (getw m p).
Proof. intros H. unfold word, getw, getb. pose proof (H (lin p)). pose proof (H (lin (far_add p 1))). lia. Qed.
Lemma bytes_store a l m : bytes m -> Forall (fun b => 0 <= b < 256) l -> bytes (store a l m).
Proof.
  intros Hm Hl x. unfold store. destruct (l !! Z.to_nat (x - a)) eqn:E; [|apply Hm].
  destruct (a <=? x); [|apply Hm]. exact (proj1 (Forall_lookup _ _) Hl _ _ E).
Qed.
Lemma bytes_putb p v m : bytes m -> bytes (putb p v m).
Proof. intros Hm. apply bytes_store; [done|]. constructor; [|constructor]. unfold u8. apply Z.mod_pos_bound. lia. Qed.
Lemma bytes_putw p v m : bytes m -> bytes (putw p v m).
Proof. intros Hm. by apply bytes_putb, bytes_putb. Qed.
Lemma bytes_putp p q m : bytes m -> bytes (putp p q m).
Proof. intros Hm. by apply bytes_putw, bytes_putw. Qed.
Lemma bytes_put_words p l m : bytes m -> bytes (put_words p l m).
Proof.
  revert m. induction l as [|[i v] l IH]; intros m Hm; [done|]. apply (IH (putw (far_add p i) v m)). by apply bytes_putw.
Qed.
Lemma get_iregs_words m p : bytes m -> iwords (get_iregs m p).
Proof.
  intros Hm. pose proof (fun i => getw_word m (far_add p i) Hm) as H. split; [split; apply H|].
  exact (conj (H _) (conj (H _) (conj (H _) (H _)))).
Qed.

Lemma words_AX v l : words l -> words (set_AX v l).
Proof. intros []. split; [exact (u16_range v)|assumption..]. Qed.

(** ** Flags *)

Lemma word_setf x k : word x -> 0 <= k < 16 -> word (setf x (2 ^ k)).
Proof.
  intros [H0 H1] Hk. unfold setf. split; [apply Z.lor_nonneg; lia|].
  destruct (decide (x = 0)) as [->|]; [rewrite Z.lor_0_l; apply (Z.pow_lt_mono_r 2 k 16); lia|].
  apply (Z.log2_lt_cancel _ (2 ^ 16)). rewrite Z.log2_lor, Z.log2_pow2, Z.log2_pow2 by lia.
  pose proof (Z.log2_lt_pow2 x 16). lia.
Qed.
Lemma word_clear x m : word x -> 0 <= m -> word (clear x m).
Proof.
  intros [H0 H1] Hm. unfold clear. pose proof (Z.ldiff_nonneg x m) as Hn. split; [apply Hn; lia|].
  assert (E : Z.ldiff x m = x - Z.land x m).
  { rewrite Z.sub_nocarry_ldiff; apply Z.bits_inj'; intros n _; rewrite !Z.ldiff_spec, Z.land_spec, ?Z.bits_0;
      by destruct (Z.testbit x n), (Z.testbit m n). }
  pose proof (Z.land_nonneg x m). lia.
Qed.
Lemma setf_clear x m : setf (clear x m) m = setf x m.
Proof. unfold setf, clear. apply Z.bits_inj'. intros n Hn. rewrite !Z.lor_spec, Z.ldiff_spec. by destruct (Z.testbit x n), (Z.testbit m n). Qed.
End FarSpec.
