(* ===== verification/Sys.v ===== *)
(** * The kernel and its programs

    [ist] adds to the state of Chario the memory of programs and the variables
    of the dispatcher (hdr/process.h, kernel/globals.h); [I] are its runs,
    which Ctrl-C can end.  What the other files know of a PSP, of control blocks
    of memory and of the parameter blocks stays in their records: the bytes at
    those places in [ram] are not used. *)

From S2P Require Import Prelude Memmgr KState BlockIO FatTab FNode FatAlloc Clock Media FatDir FatFile FatRw.
From S2P Require Import Path Handle Calls Chario Fcb Far.
Import Mm Ks Bio Fat FNode Alloc Clk Media Dir File Rw Path Handle Calls Chario Fcb Far.

Module Sys.

(** ** Variables *)

Inductive var :=
| break_ena | break_flg | switchar | return_code | term_type | CritErrLocus | CritErrClass | CritErrAction
| CritErrDev | BootDrive | os_minor | version_flags | os_setver_major | os_setver_minor | CPULevel | NetBios
| net_set_count | NetDelay | NetRetry | Int21AX | abort_progress | ReturnAnyDosVersionExpected | InDOS_
| sysCodePage.
#[export] Instance var_eq_dec : EqDecision var.
Proof. solve_decision. Defined.

(** A national language package.  [pk_table] are the bytes from nlsPointers[0]
    on, [pk_dbcs] the words of its table 7, [pk_dbcs_at] where they are. *)
Record pkg := Pkg {
  pk_cntry : Z; pk_cp : Z; pk_yes : Z; pk_no : Z; pk_numSubfct : Z; pk_up : nlsPackage;
  pk_table : list Z; pk_dbcs : list Z; pk_dbcs_at : ptr }.

(** [nls_chain] and [nls_act] are nlsInfo.chain and actPkg, an index of it. *)
Record ist {M : Machine} := Ist {
  cs : cst; ram : umem; dta_at : ptr; vars : var -> Z; net_name : list Z; setverPtr : ptr;
  nls_chain : list pkg; nls_act : nat; fcb_wAttr : Z; fcb_Dmatch : ffblk }.

Section Sys.
Context {M : Machine} {Sh : Shell} {R : Redirector} {Cn : Console}.
Definition I (A : Type) : Type := K ist (outcome A).

Definition set_cs v (s : ist) : ist :=
  Ist M v (ram s) (dta_at s) (vars s) (net_name s) (setverPtr s) (nls_chain s) (nls_act s) (fcb_wAttr s) (fcb_Dmatch s).
Definition set_ram v (s : ist) : ist :=
  Ist M (cs s) v (dta_at s) (vars s) (net_name s) (setverPtr s) (nls_chain s) (nls_act s) (fcb_wAttr s) (fcb_Dmatch s).
Definition set_dta_at v (s : ist) : ist :=
  Ist M (cs s) (ram s) v (vars s) (net_name s) (setverPtr s) (nls_chain s) (nls_act s) (fcb_wAttr s) (fcb_Dmatch s).
Definition set_vars v (s : ist) : ist :=
  Ist M (cs s) (ram s) (dta_at s) v (net_name s) (setverPtr s) (nls_chain s) (nls_act s) (fcb_wAttr s) (fcb_Dmatch s).
Definition set_net_name v (s : ist) : ist :=
  Ist M (cs s) (ram s) (dta_at s) (vars s) v (setverPtr s) (nls_chain s) (nls_act s) (fcb_wAttr s) (fcb_Dmatch s).
Definition set_nls_act v (s : ist) : ist :=
  Ist M (cs s) (ram s) (dta_at s) (vars s) (net_name s) (setverPtr s) (nls_chain s) v (fcb_wAttr s) (fcb_Dmatch s).
Definition set_fcb_statics w d (s : ist) : ist :=
  Ist M (cs s) (ram s) (dta_at s) (vars s) (net_name s) (setverPtr s) (nls_chain s) (nls_act s) w d.

Definition iget : I ist := fun s => Some (Ret s, s).
Definition imod (f : ist -> ist) : I unit := fun s => Some (Ret tt, f s).
Definition iopt {A} (o : option A) : I A := fun s => match o with Some a => Some (Ret a, s) | None => None end.
Definition istuck {A} : I A := fun _ => None.
(** Runs of the inner states. *)
Definition in_c {A} (m : C A) : I A := fun s =>
  match m (cs s) with Some (r, c) => Some (r, set_cs c s) | None => None end.
Definition in_h {A} (m : K hst A) : I A := in_c (on_hst m).
Definition in_k {A} (m : K kst A) : I A := in_h (on_kern m).
Definition in_p {A} (m : K pst A) : I A := in_h (on_pth m).
Definition in_m {A} (m : K mm A) : I A := in_h (on_arena m).

Definition hs (s : ist) : hst := hn (cs s).
Definition ks (s : ist) : kst := kern (pth (hs s)).
Definition cur (s : ist) : Z := cu_psp_of (hs s).

Definition vget (v : var) : I Z := con! s := iget in cret (vars s v).
Definition vset (v : var) (x : Z) : I unit :=
  imod (fun s => set_vars (fun w => if decide (w = v) then x else vars s w) s).

(** ** Memory *)

Definition rd_ram {A} (f : umem -> A) : I A := con! s := iget in cret (f (ram s)).
Definition wr_ram (f : umem -> umem) : I unit := imod (fun s => set_ram (f (ram s)) s).
Definition str_at (p : ptr) : I (list Z) := con! s := iget in iopt (fstr segment_fuel (ram s) p).
Definition poke (p : ptr) (l : list Z) : I unit := wr_ram (store (lin p) l).

(** [DosRWSft] on the memory of programs. *)
Definition rw_sft (k : svc) (fuel : nat) (sft_idx n : Z) (p : ptr) (mode : Z) : I Z :=
  con! bp := rd_ram (fun m => load m (lin p) (Z.to_nat n)) in
  con! r := in_c (DosRWSft k fuel sft_idx n p bp mode) in
  con_ poke p (snd r) in
  cret (fst r).

(** A call with a file control block at [p].  Bytes that the call changes at
    the transfer address must not be bytes of the block. *)
Definition FCB_WINDOW : nat := 44.
Definition patch_ram (a : Z) (old new : list Z) (m : umem) : umem := fun x =>
  match old !! Z.to_nat (x - a), new !! Z.to_nat (x - a) with
  | Some b, Some c => if (a <=? x) && negb (b =? c) then c else m x
  | _, _ => m x
  end.
Definition changed (old new : list Z) (i : nat) : bool := negb (bool_decide (old !! i = new !! i)).
Definition clash (p q : ptr) (um0 u0 u1 : list Z) : bool :=
  existsb (fun i => let j := lin p + Z.of_nat i - lin q in (0 <=? j) && changed u0 u1 (Z.to_nat j)) (seq 0 (length um0)).
Definition with_fcb {A} (p : ptr) (m : FC A) : I A :=
  con! s := iget in
  let um0 := load (ram s) (lin p) FCB_WINDOW in
  let u0 := load (ram s) (lin (dta_at s)) (Z.to_nat 65536) in
  fun s' =>
  match m (Fst M (cs s) um0 u0 (dta_at s) (fcb_wAttr s) (fcb_Dmatch s)) with
  | Some (r, f) =>
      if clash p (dta_at s) um0 u0 (udta f) then None else
      Some (r, set_ram (patch_ram (lin p) um0 (um f) (patch_ram (lin (dta_at s)) u0 (udta f) (ram s')))
                 (set_fcb_statics (wAttr f) (Dmatch_ f) (set_cs (fc f) s')))
  | None => None
  end.

(** ** The search buffer (hdr/dirmatch.h) *)

Definition le16 (v : Z) : list Z := [u8 v; u8 (Z.shiftr v 8)].
Definition le32 (v : Z) : list Z := le16 (u16 v) ++ le16 (Z.shiftr (u32 v) 16).
Definition dm_bytes (d : dmatch) : list Z :=
  [u8 (dm_drive d)] ++ dm_name_pat d ++ [u8 (dm_attr_srch d)] ++ le16 (dm_entry d) ++ le32 (dm_dircluster d).
Definition dm_at (m : umem) (p : ptr) : dmatch :=
  Dmatch (getb m p) (load m (lin p + 1) 11) (getb m (far_add p 12)) (getw m (far_add p 13)) (getl m (far_add p 15)).
Definition ff_bytes (f : ffblk) : list Z :=
  [u8 (dm_attr_fnd f)] ++ le16 (dm_time f) ++ le16 (dm_date f) ++ le32 (dm_size f).
Definition ff_at (m : umem) (p : ptr) : ffblk :=
  Ffblk (dm_at m p) (getb m (far_add p 21)) (getw m (far_add p 22)) (getw m (far_add p 24)) (getl m (far_add p 26))
    (load m (lin p + 30) 13).

(** A search with the buffer at the transfer address; [zeroed] says whether
    the member [reserved2] was cleared. *)
Definition with_search (zeroed : bool) (m : K hst Z) : I Z :=
  con! s := iget in
  let p := dta_at s in
  con_ in_h (kmod (Handle.set_dta (ff_at (ram s) p))) in
  con! rc := in_h m in
  con! s := iget in
  let f := dta (hs s) in
  con_ (if rc =? SUCCESS then
          con_ poke p (dm_bytes (ff_dm f)) in
          con_ (if zeroed then poke (far_add p 19) [0; 0] else cret tt) in
          con_ poke (far_add p 21) (ff_bytes f) in
          poke (far_add p 30) (cstr (dm_name f) ++ [0])
        else cret tt) in
  cret rc.
End Sys.

(** ** Laws of the runs *)

Section Runs.
Context {M : Machine}.
Lemma irun_get {B} (f : ist -> I B) s : cbind iget f s = f s s.
Proof. done. Qed.
Lemma irun_mod {B} g (f : unit -> I B) s : cbind (imod g) f s = f tt (g s).
Proof. done. Qed.
Lemma irun_opt {A B} (o : option A) a (f : A -> I B) s : o = Some a -> cbind (iopt o) f s = f a s.
Proof. by intros ->. Qed.
Lemma irun_c {A B} (m : C A) a c (f : A -> I B) s :
  m (cs s) = Some (Ret a, c) -> cbind (in_c m) f s = f a (set_cs c s).
Proof. intros H. unfold cbind, in_c. by rewrite H. Qed.
Lemma on_hst_run {A} (m : K hst A) a h (c : cst) :
  m (hn c) = Some (a, h) -> on_hst m c = Some (Ret a, Cst M h (cn c)).
Proof. intros H. unfold on_hst. by rewrite H. Qed.
Lemma irun_h {A B} (m : K hst A) a h (f : A -> I B) s :
  m (hs s) = Some (a, h) -> cbind (in_h m) f s = f a (set_cs (Cst M h (cn (cs s))) s).
Proof. intros H. apply irun_c. by apply on_hst_run. Qed.
Lemma irun_vget {B} v (f : Z -> I B) s : cbind (vget v) f s = f (vars s v) s.
Proof. done. Qed.
Lemma irun_rd {A B} (g : umem -> A) (f : A -> I B) s : cbind (rd_ram g) f s = f (g (ram s)) s.
Proof. done. Qed.
Lemma irun_poke {B} p l (f : unit -> I B) s : cbind (poke p l) f s = f tt (set_ram (store (lin p) l (ram s)) s).
Proof. done. Qed.
Definition with_ks (k : kst) (s : ist) : ist :=
  let h := hs s in set_cs (Cst M (set_pth (set_kern k (pth h)) h) (cn (cs s))) s.
Lemma in_k_run {A} (m : K kst A) a k s : m (ks s) = Some (a, k) -> in_k m s = Some (Ret a, with_ks k s).
Proof. intros E. unfold in_k, in_h, in_c, on_hst, on_kern, on_pth, lift. unfold ks, hs in E. by rewrite E. Qed.
Lemma irun_k {A B} (m : K kst A) a k (f : A -> I B) s :
  m (ks s) = Some (a, k) -> cbind (in_k m) f s = f a (with_ks k s).
Proof. intros E. apply crun_eq. by apply in_k_run. Qed.
Lemma irun_wr {B} g (f : unit -> I B) s : cbind (wr_ram g) f s = f tt (set_ram (g (ram s)) s).
Proof. done. Qed.
End Runs.
End Sys.
