(* ===== verification/Ioctl.v ===== *)
(** * Device control (kernel/ioctl.c)

    INT 21h/AH=44h on the registers of the call.  The request goes to the driver
    with the members of the control part of the request header. *)

From S2P Require Import Prelude Memmgr KState BlockIO FatTab FNode FatAlloc Clock Media FatDir FatFile FatRw.
From S2P Require Import Path Handle Calls Chario Fcb Far Sys.
Import Mm Ks Bio Fat FNode Alloc Clk Media Dir File Rw Path Handle Calls Chario Fcb Far Sys.

Module Ioctl.
Definition C_IOCTLIN := 0x03.
Definition C_OSTAT := 0x0a.
Definition C_IOCTLOUT := 0x0c.
Definition C_REMMEDIA := 0x0f.
Definition C_GENIOCTL := 0x13.
Definition C_GETLDEV := 0x17.
Definition C_SETLDEV := 0x18.
Definition C_IOCTLQRY := 0x19.
Definition ATTR_SUBST := 0x8000.
Definition ATTR_IOCTL := 0x4000.
Definition ATTR_REMOTE := 0x1000.
Definition ATTR_EXCALLS := 0x0800.
Definition ATTR_QRYIOCTL := 0x0080.
Definition ATTR_GENIOCTL := 0x0040.

Definition cmd : list Z :=
  [0; 0; C_IOCTLIN; C_IOCTLOUT; C_IOCTLIN; C_IOCTLOUT; C_ISTAT; C_OSTAT; C_REMMEDIA; 0; 0; 0;
   C_GENIOCTL; C_GENIOCTL; C_GETLDEV; C_SETLDEV; C_IOCTLQRY; C_IOCTLQRY].

(** The request: either the count and the transfer address are set, or the
    category, the function, SI, DI and the parameter block. *)
Inductive iopart :=
| IoTrans (count : Z) (trans : ptr)
| IoGen (cat fun_ si di : Z) (io : ptr).
Record ioreq := Ioreq { io_unit : Z; io_command : Z; io_status : Z; io_part : iopart }.
Definition r_count_of (q : ioreq) : Z := match io_part q with IoTrans n _ => n | _ => 0 end.

(** A driver: the request, the memory and the world afterwards. *)
Class Driver {M : Machine} := {
  ioctl_request : Z -> ioreq -> umem -> world -> ioreq * umem * world }.

Section Ioctl.
Context {M : Machine} {Sh : Shell} {R : Redirector} {Cn : Console} {Dr : Driver}.

(** The device the request goes to and its unit, or the end of the call. *)
Inductive target := Done (rc : Z) (r : lregs) | Device (dev unit : Z).
Definition fails {A} (rc : Z) (r : lregs) : I (target + A) := cret (inl (Done rc r)).

Definition handle_target (r : lregs) : I target :=
  con! g := in_h (get_sft (BX r)) in
  match g with
  | None => cret (Done DE_INVLDHNDL r)
  | Some (idx, s) =>
      let flags := sft_flags s in
      let al := AL r in
      if al =? 0x00 then
        con! k := iget in
        con! a := (if has flags SFT_FDEVICE
                   then con! at_ := iopt (dh_attr (env (ks k)) !! sft_dcb s) in
                        cret (Z.lor (Z.land flags 0xff) (Z.land at_ 0xff00))
                   else cret (Z.land flags 0xff)) in
        cret (Done SUCCESS (set_DX a (set_AX a r)))
      else if al =? 0x01 then
        if negb (has flags SFT_FDEVICE) then cret (Done DE_INVLDFUNC r)
        else if negb (DH r =? 0) then cret (Done DE_INVLDDATA r)
        else
          con_ in_k (sftmod idx (set_sft_flags (with_lo flags (Z.lor SFT_FDEVICE (DL r))))) in
          cret (Done SUCCESS (set_AL (u8 flags) r))
      else if al =? 0x0a then cret (Done SUCCESS (set_AX 0 (set_DX flags r)))
      else if negb (has flags SFT_FDEVICE) then
        if al =? 0x06 then cret (Done SUCCESS (set_AL (if sft_size s <=? sft_posit s then 0 else 0xff) r))
        else if al =? 0x07 then cret (Done SUCCESS (set_AL 0 r))
        else cret (Done DE_INVLDFUNC r)
      else cret (Device (sft_dcb s) 0)
  end.

Definition block_target (r : lregs) : I target :=
  con! s := iget in
  let al := AL r in
  let bl := Z.land (BL r) 0x1f in
  con! dpbp := in_k (get_dpb (if bl =? 0 then default_drive (pth (hs s)) else bl - 1)) in
  con! d := (if dpbp =? NULL then cret None else con! d := in_k (Ks.dget dpbp) in cret (Some d)) in
  con! at_ := (match d with
               | Some d => iopt (dh_attr (env (ks s)) !! dpb_device d)
               | None => cret ATTR_REMOTE
               end) in
  if (match d with None => true | _ => false end) && negb ((al =? 8) || (al =? 9)) then cret (Done DE_INVLDDRV r) else
  if al =? 0x08 then
    con! c := in_h (get_cds1 bl) in
    match c with
    | None => cret (Done DE_INVLDDRV r)
    | Some c =>
        if has (cdsFlags c) CDSNETWDRV then cret (Done DE_INVLDFUNC r) else
        con! d := iopt d in
        cret (Done SUCCESS (set_AX (if dpb_flags d =? M_DONT_KNOW then 1 else 0) r))
    end
  else if al =? 0x09 then
    con! c := in_h (get_cds1 bl) in
    match c with
    | None => cret (Done DE_INVLDDRV r)
    | Some c =>
        let at_ := if has (cdsFlags c) CDSSUBST then Z.lor at_ ATTR_SUBST else at_ in
        cret (Done SUCCESS (set_DX at_ (set_AX (Z.lor S_DONE S_BUSY) r)))
    end
  else if (al =? 0x0d) && (clear (CX r) (0x486b - 0x084a) =? 0x084a) then cret (Done SUCCESS (set_AX 0 r))
  else con! d := iopt d in cret (Device (dpb_device d) (dpb_subunit d)).

(** What the driver must support. *)
Definition testattr (al : Z) : Z :=
  if al <=? 0x05 then ATTR_IOCTL else if al <=? 0x07 then 0xffff else if al <=? 0x08 then ATTR_EXCALLS
  else if al <=? 0x0f then ATTR_GENIOCTL else ATTR_QRYIOCTL.
Definition generic (al : Z) : bool := (al =? 0x0c) || (al =? 0x0d) || (0x10 <=? al).

Definition request_of (r : lregs) (unit : Z) : option ioreq :=
  (fun c => Ioreq unit c 0
     (if generic (AL r) then IoGen (CH r) (CL r) (SI r) (DI r) (FP_DS_DX r) else IoTrans (CX r) (FP_DS_DX r)))
    <$> cmd !! Z.to_nat (AL r).

(** [execrh(&CharReqHdr, dev)]. *)
Definition ioctl_exec (dev : Z) (q : ioreq) : I ioreq := fun s =>
  let '(q, m, w) := ioctl_request dev q (ram s) (Ks.dev (ks s)) in
  match in_k (kmod (set_dev w)) (set_ram m s) with
  | Some (_, s) => Some (Ret q, s)
  | None => None
  end.

Definition ioctl_result (r : lregs) (q : ioreq) : lregs :=
  let al := AL r in
  if al <=? 0x05 then set_AX (r_count_of q) r
  else if al <=? 0x07 then set_AX (if has (io_status q) S_BUSY then 0 else 0xff) r
  else if al =? 0x08 then set_AX (if has (io_status q) S_BUSY then 1 else 0) r
  else if (al =? 0x0e) || (al =? 0x0f) then set_AL (io_unit q) r
  else set_AX (io_status q) r.

Definition DosDevIOctl (r : lregs) : I (Z * lregs) :=
  let al := AL r in
  if 0x11 <? al then cret (DE_INVLDFUNC, r) else
  if al =? 0x0b then
    con_ vset NetDelay (s8 (CX r)) in
    con_ (if negb (DX r =? 0) then vset NetRetry (s8 (DX r)) else cret tt) in
    cret (SUCCESS, r)
  else
  con! t := (if bool_decide (al ∈ [0x00; 0x01; 0x02; 0x03; 0x06; 0x07; 0x0a; 0x0c; 0x10])
             then handle_target r else block_target r) in
  match t with
  | Done rc r => cret (rc, r)
  | Device dev unit =>
      con! s := iget in
      con! at_ := iopt (dh_attr (env (ks s)) !! dev) in
      if Z.land at_ (testattr al) =? 0 then cret (DE_INVLDFUNC, r) else
      con! q := iopt (request_of r unit) in
      con! q := ioctl_exec dev q in
      if has (io_status q) S_ERROR then
        con_ in_k (set_CritErrCode (Z.land (io_status q) S_MASK + 0x13)) in
        cret (DE_ACCESS, r)
      else cret (SUCCESS, ioctl_result r q)
  end.
End Ioctl.
End Ioctl.
