(* ===== verification/Nls.v ===== *)
(** * National languages (kernel/nls.c)

    The packages are a chain; one of them is active.  A request for a package
    that is not loaded, or that does not allow direct access, goes through the
    multiplex interrupt INT 2Fh/AH=14h, which ends in [syscall_MUX14] when no
    other program answers it. *)

From S2P Require Import Prelude Memmgr KState BlockIO FatTab FNode FatAlloc Clock Media FatDir FatFile FatRw.
From S2P Require Import Path Handle Calls Chario Fcb Far Sys.
Import Mm Ks Bio Fat FNode Alloc Clk Media Dir File Rw Path Handle Calls Chario Fcb Far Sys.

Module Nls.
Definition NLS_FREEDOS_NLSFUNC_ID := 0x534b.
Definition NLS_FREEDOS_NLSFUNC_VERSION := 0xfd02.
Definition NLS_DOS_38 := 0x101.
Definition NLSFUNC_INSTALL_CHECK := 0.
Definition NLSFUNC_DOS38 := 4.
Definition NLSFUNC_GETDATA := 2.
Definition NLSFUNC_DRDOS_GETDATA := 0xfe.
Definition NLSFUNC_LOAD_PKG := 3.
Definition NLSFUNC_LOAD_PKG2 := 1.
Definition NLSFUNC_YESNO := 0x23.
Definition NLS_FLAG_DIRECT_YESNO := 0x0004.
Definition NLS_FLAG_DIRECT_GETDATA := 0x0008.
Definition NLS_DEFAULT := 0xffff.

(** [call_nls] (kernel/nlssupt.asm) with the function, the code page, the
    country, BP, CX and the buffer: what AX and BX hold afterwards, and the
    buffer. *)
Class Mux {M : Machine} := {
  call_nls : Z -> Z -> Z -> Z -> Z -> list Z -> world -> (Z * Z) * list Z * world }.

(** ** Packages *)

Definition pkg_is (cp cntry : Z) (p : pkg) : bool := (pk_cp p =? cp) && (pk_cntry p =? cntry).
Definition searchPackage (chain : list pkg) (act : pkg) (cp cntry : Z) : option nat :=
  let cp := if cp =? NLS_DEFAULT then pk_cp act else cp in
  let cntry := if cntry =? NLS_DEFAULT then pk_cntry act else cntry in
  fst <$> list_find (fun p => pkg_is cp cntry p) chain.

(** The bytes from the entry of a function on; entries have five bytes. *)
Fixpoint locate_loop (n : nat) (table : list Z) (subfct : Z) : option (list Z) :=
  match n with
  | O => None
  | S n =>
      match table with
      | c :: _ => if c =? u8 subfct then Some table else locate_loop n (drop 5 table) subfct
      | [] => None
      end
  end.
Definition locateSubfct (p : pkg) (subfct : Z) : option (list Z) :=
  locate_loop (Z.to_nat (pk_numSubfct p)) (pk_table p) subfct.

Definition cpyBuf (dstlen : Z) (src : list Z) (srclen : Z) : option (Z * list Z) :=
  if srclen <=? dstlen
  then if srclen <=? Z.of_nat (length src) then Some (SUCCESS, take (Z.to_nat srclen) src) else None
  else Some (DE_INVLDFUNC, []).

(** Where the date format is in the country information, behind its number,
    size, country and code page. *)
Definition OFF_dateFmt : nat := 7.
(** The code and the bytes for the buffer. *)
Definition nlsGetData (p : pkg) (subfct bufsize : Z) : option (Z * list Z) :=
  match locateSubfct p subfct with
  | None => Some (DE_INVLDFUNC, [])
  | Some poi =>
      if subfct =? 1 then match fgetword poi 1 with Some n => cpyBuf bufsize poi (u16 (n + 3)) | None => None end
      else if subfct =? NLS_DOS_38 then cpyBuf bufsize (drop OFF_dateFmt poi) 24
      else cpyBuf bufsize poi 5
  end.

(** Pairs of bounds up to a zero word. *)
Fixpoint in_lead (t : list Z) (ch : Z) : option bool :=
  match t with
  | [] => None
  | w :: t => if w =? 0 then Some false
              else if (Z.land w 0xff <=? ch) && (ch <=? Z.shiftr w 8) then Some true else in_lead t ch
  end.
Definition is_DBCS (p : pkg) (ch : Z) : option bool :=
  if ch <? 128 then Some false else in_lead (pk_dbcs p) ch.

Section Nls.
Context {M : Machine} {Sh : Shell} {R : Redirector} {Cn : Console} {Mx : Mux}.

Definition act_pkg : I pkg := con! s := iget in iopt (nls_chain s !! nls_act s).
Definition find_pkg (cp cntry : Z) : I (option (nat * pkg)) :=
  con! s := iget in
  con! a := act_pkg in
  match searchPackage (nls_chain s) a cp cntry with
  | None => cret None
  | Some i => con! p := iopt (nls_chain s !! i) in cret (Some (i, p))
  end.

(** [muxGo] and its two users. *)
Definition muxGo (subfct bp cp cntry bufsize : Z) (buf : list Z) : I ((Z * Z) * list Z) :=
  in_k (kworld (fun w => let '(r, b, w) := call_nls subfct bp cp cntry bufsize buf w in ((r, b), w))).
Definition muxLoadPkg (subfct cp cntry : Z) : I Z :=
  con! r := muxGo 0 0 NLS_FREEDOS_NLSFUNC_VERSION 0 NLS_FREEDOS_NLSFUNC_ID [] in
  let '(ax, bx) := fst r in
  if negb (ax =? 0x14ff) then cret DE_FILENOTFND else
  if negb (bx =? NLS_FREEDOS_NLSFUNC_ID) then cret DE_INVLDACC else
  con! r := muxGo subfct 0 cp cntry 0 [] in
  cret (s16 (fst (fst r))).
Definition muxBufGo (subfct bp cp cntry bufsize : Z) (buf : list Z) : I (Z * list Z) :=
  con! r := muxGo subfct bp cp cntry bufsize buf in cret (s16 (fst (fst r)), snd r).

(** The active package changes; Path keeps the part of it that names need. *)
Definition set_act (i : nat) (p : pkg) : I unit :=
  con_ imod (set_nls_act i) in
  in_p (kmod (fun s => Pst M (kern s) (default_drive s) (current_ldt s) (TempCDS s) (njoined s) (os_major s)
                         (devices s) (pk_up p))).
(** [nlsCPchange] prints a message when the code page is another one. *)
Definition nlsSetPackage (i : nat) (p : pkg) : I Z := con_ set_act i p in cret SUCCESS.
Definition nlsLoadPackage (i : nat) (p : pkg) : I Z := con_ set_act i p in cret SUCCESS.
Definition DosSetPackage (cp cntry : Z) : I Z := muxLoadPkg NLSFUNC_LOAD_PKG2 cp cntry.
Definition DosLoadPackage (cp cntry : Z) : I Z :=
  con! f := find_pkg cp cntry in
  match f with
  | Some (i, p) => nlsLoadPackage i p
  | None => muxLoadPkg NLSFUNC_LOAD_PKG cp cntry
  end.

(** ** Upper case *)

Definition nlsUpMem (p : pkg) (str : list Z) : option (list Z) := upMMem (nls_tbl2 (pk_up p)) str.
Definition nlsFUpMem (p : pkg) (str : list Z) : option (list Z) := upMMem (nls_tbl4 (pk_up p)) str.
Definition xUpMem (p : pkg) (str : list Z) : I (list Z) :=
  if has (nls_flags (pk_up p)) NLS_FLAG_DIRECT_UPCASE then iopt (nlsUpMem p str)
  else con! r := muxBufGo NLSFUNC_UPMEM 0 (pk_cp p) (pk_cntry p) (Z.of_nat (length str)) str in cret (snd r).
Definition DosUpChar (ch : Z) : I Z := con! l := in_p (DosUpMem [ch]) in iopt (l !! 0%nat).
(** On memory of [len] bytes, and on a string. *)
Definition up_ram (f : list Z -> K pst (list Z)) (p : ptr) (len : Z) : I unit :=
  con! l := rd_ram (fun m => load m (lin p) (Z.to_nat len)) in
  con! l := in_p (f l) in
  poke p l.
Definition up_str (f : list Z -> K pst (list Z)) (p : ptr) : I unit :=
  con! l := str_at p in up_ram f p (Z.of_nat (length l)).

(** ** Yes and no *)

Definition nlsIsDBCS (ch : Z) : I bool := con! a := act_pkg in iopt (is_DBCS a ch).
Definition nlsYesNo (p : pkg) (ch : Z) : I Z :=
  con! d := nlsIsDBCS (Z.land ch 0xff) in
  con! ch := (if d then cret ch else con! l := xUpMem p [Z.land ch 0xff] in iopt (l !! 0%nat)) in
  cret (if ch =? pk_yes p then 1 else if ch =? pk_no p then 0 else 2).
Definition muxYesNo (ch : Z) : I Z :=
  con! r := muxBufGo NLSFUNC_YESNO 0 NLS_DEFAULT NLS_DEFAULT ch [] in cret (fst r).
Definition DosYesNo (ch : Z) : I Z :=
  con! a := act_pkg in
  if has (nls_flags (pk_up a)) NLS_FLAG_DIRECT_YESNO then nlsYesNo a ch else muxYesNo ch.

(** ** Country information and code pages *)

(** The code and the bytes for the buffer, which had the bytes [buf]. *)
Definition DosGetData (subfct cp cntry bufsize : Z) (is_null : bool) (buf : list Z) : I (Z * list Z) :=
  if is_null || (bufsize =? 0) then cret (DE_INVLDDATA, []) else
  if subfct =? 0 then cret (DE_INVLDFUNC, []) else
  con! f := find_pkg cp cntry in
  match f with
  | Some (_, p) =>
      if has (nls_flags (pk_up p)) NLS_FLAG_DIRECT_GETDATA then iopt (nlsGetData p subfct bufsize)
      else if subfct =? NLS_DOS_38 then muxBufGo NLSFUNC_DOS38 0 (pk_cp p) (pk_cntry p) bufsize buf
      else muxBufGo NLSFUNC_GETDATA subfct (pk_cp p) (pk_cntry p) bufsize buf
  | None =>
      if subfct =? NLS_DOS_38 then muxBufGo NLSFUNC_DOS38 0 cp cntry bufsize buf
      else muxBufGo NLSFUNC_GETDATA subfct cp cntry bufsize buf
  end.
Definition get_data (subfct cp cntry bufsize : Z) (p : ptr) : I Z :=
  con! buf := rd_ram (fun m => load m (lin p) (Z.to_nat bufsize)) in
  con! r := DosGetData subfct cp cntry bufsize ((fst p =? 0) && (snd p =? 0)) buf in
  con_ poke p (snd r) in
  cret (fst r).
Definition DosGetCountryInformation (cntry : Z) (p : ptr) : I Z := get_data NLS_DOS_38 NLS_DEFAULT cntry 0x18 p.
Definition DosSetCountry (cntry : Z) : I Z := DosLoadPackage NLS_DEFAULT cntry.
(** The active and the system code page. *)
Definition DosGetCodepage : I (Z * Z) :=
  con! a := act_pkg in con! y := vget sysCodePage in cret (pk_cp a, y).
Definition DosSetCodepage (actCP sysCP : Z) : I Z :=
  con! y := vget sysCodePage in
  if (sysCP =? NLS_DEFAULT) || (sysCP =? y) then DosSetPackage actCP NLS_DEFAULT else cret DE_INVLDDATA.
Definition DosGetDBCS : I ptr := con! a := act_pkg in cret (pk_dbcs_at a).

(** ** The kernel's own answer to the multiplex interrupt *)

(** The value for AL, and the registers. *)
Definition syscall_MUX14 (r : lregs) (bp : Z) : I (Z * lregs) :=
  con! f := find_pkg (BX r) (DX r) in
  match f with
  | None => cret (DE_INVLDFUNC, r)
  | Some (i, p) =>
      let al := AL r in
      let data subfct n :=
        con! d := iopt (nlsGetData p subfct n) in con_ poke (FP_ES_DI r) (snd d) in cret (fst d, r) in
      let up f :=
        con! l := rd_ram (fun m => load m (lin (FP_ES_DI r)) (Z.to_nat (CX r))) in
        con! l := iopt (f p l) in con_ poke (FP_ES_DI r) l in cret (SUCCESS, r) in
      if al =? NLSFUNC_INSTALL_CHECK then cret (SUCCESS, set_BX NLS_FREEDOS_NLSFUNC_ID r)
      else if al =? NLSFUNC_DOS38 then data NLS_DOS_38 34
      else if al =? NLSFUNC_GETDATA then data bp (CX r)
      else if al =? NLSFUNC_DRDOS_GETDATA then data (CL r) 512
      else if al =? NLSFUNC_LOAD_PKG then con! rc := nlsLoadPackage i p in cret (rc, r)
      else if al =? NLSFUNC_LOAD_PKG2 then con! rc := nlsSetPackage i p in cret (rc, r)
      else if al =? NLSFUNC_YESNO then con! rc := nlsYesNo p (CX r) in cret (rc, r)
      else if al =? NLSFUNC_UPMEM then up nlsUpMem
      else if al =? NLSFUNC_FILE_UPMEM then up nlsFUpMem
      else cret (DE_INVLDFUNC, r)
  end.
End Nls.
End Nls.
