(* ===== verification/Task.v ===== *)
(** * Programs (kernel/task.c)

    Loading a program into memory, making its PSP and environment, and going
    back to the parent.  [exec_user] never returns: a function that ends in it
    gives the frame that the processor continues with. *)

From S2P Require Import Prelude Memmgr KState BlockIO FatTab FNode FatAlloc Clock Media FatDir FatFile FatRw.
From S2P Require Import Path Handle Calls Chario Fcb Far Sys.
Import Mm Ks Bio Fat FNode Alloc Clk Media Dir File Rw Path Handle Calls Chario Fcb Far Sys.

Module Task.
Definition LOADNGO := 0.
Definition LOAD := 1.
Definition OVERLAY := 3.
Definition CHUNK := 32256.
Definition MAXENV := 32768.
Definition ENV_KEEPFREE := 0x83.
Definition MAGIC := 0x5a4d.
Definition OLD_MAGIC := 0x4d5a.
Definition SIZEOF_PSP := 256.
Definition DE_INVLDENV := -10.
Definition DE_INVLDFMT := -11.

(** ** Structures *)

(** Where the members of a PSP are (hdr/process.h). *)
Definition ps_size := 0x02.
Definition ps_reentry := 0x06.
Definition ps_isv22 := 0x0a.
Definition ps_isv23 := 0x0e.
Definition ps_isv24 := 0x12.
Definition ps_environ := 0x2c.
Definition ps_stack := 0x2e.
Definition ps_prevpsp := 0x38.
Definition ps_retdosver := 0x40.
Definition ps_fcb1 := 0x5c.
Definition ps_fcb2 := 0x6c.
Definition ps_cmd := 0x80.

(** The parameter block of the call.  For an overlay the first two words are
    the segment to load to and the relocation factor. *)
Record exec_blk := ExecBlk {
  env_seg : Z; cmd_line : ptr; fcb_1 : ptr; fcb_2 : ptr; stack : ptr; start_addr : ptr }.
Definition load_seg (e : exec_blk) : Z := env_seg e.
Definition reloc (e : exec_blk) : Z := snd (cmd_line e).
Definition get_exec (m : umem) (p : ptr) : exec_blk :=
  ExecBlk (getw m p) (getp m (far_add p 2)) (getp m (far_add p 6)) (getp m (far_add p 10))
    (getp m (far_add p 14)) (getp m (far_add p 18)).
Definition put_exec (p : ptr) (e : exec_blk) (m : umem) : umem :=
  putp (far_add p 18) (start_addr e) (putp (far_add p 14) (stack e) (putp (far_add p 10) (fcb_2 e)
    (putp (far_add p 6) (fcb_1 e) (putp (far_add p 2) (cmd_line e) (putw p (env_seg e) m))))).
Definition set_stack v (e : exec_blk) : exec_blk := ExecBlk (env_seg e) (cmd_line e) (fcb_1 e) (fcb_2 e) v (start_addr e).
Definition set_start v (e : exec_blk) : exec_blk := ExecBlk (env_seg e) (cmd_line e) (fcb_1 e) (fcb_2 e) (stack e) v.

(** The header of an EXE file, of fourteen words (hdr/exe.h). *)
Record exe_header := ExeHeader {
  exSignature : Z; exExtraBytes : Z; exPages : Z; exRelocItems : Z; exHeaderSize : Z; exMinAlloc : Z;
  exMaxAlloc : Z; exInitSS : Z; exInitSP : Z; exCheckSum : Z; exInitIP : Z; exInitCS : Z; exRelocTable : Z;
  exOverlay : Z }.
Definition SIZEOF_EXE := 28.
Fixpoint words_of (l : list Z) : list Z :=
  match l with a :: b :: l => a + 256 * b :: words_of l | _ => [] end.
Definition get_exe (l : list Z) : option exe_header :=
  match words_of l with
  | [a; b; c; d; e; f; g; h; i; j; k; m; n; o] => Some (ExeHeader a b c d e f g h i j k m n o)
  | _ => None
  end.

Definition toupper (c : Z) : Z := if (0x61 <=? c) && (c <=? 0x7a) then c - 0x20 else c.

(** ** The table of SETVER *)

(** The characters of [name] at an entry of the table; BYTE is signed, and
    only equality is used. *)
Fixpoint SetverCompareFilename (m : umem) (m1 : list Z) (m2 : ptr) : bool :=
  match m1 with
  | [] => true
  | c :: m1 => (toupper (s8 c) =? toupper (s8 (getb m m2))) && SetverCompareFilename m m1 (far_add m2 1)
  end.
Fixpoint setver_loop (fuel : nat) (m : umem) (table : ptr) (name : list Z) : option Z :=
  match fuel with
  | O => None
  | S fuel =>
      let len := s8 (getb m table) in
      if len =? 0 then Some 0
      else if (len =? Z.of_nat (length name)) && SetverCompareFilename m name (far_add table 1)
           then Some (getw m (far_add table (len + 1)))
           else setver_loop fuel m (far_add table (len + 3)) name
  end.
Definition SetverGetVersion (m : umem) (table : ptr) (name : list Z) : option Z :=
  if (fst table =? 0) && (snd table =? 0) then Some 0 else setver_loop segment_fuel m table name.

(** The length of an environment without its two zero bytes. *)
Fixpoint env_size (fuel : nat) (m : umem) (p : ptr) (n : Z) : option (option Z) :=
  match fuel with
  | O => None
  | S fuel =>
      if MAXENV - ENV_KEEPFREE <=? n then Some None
      else if getw m (far_add p n) =? 0 then Some (Some n) else env_size fuel m p (n + 1)
  end.

(** The last part of a name: what is behind the last colon or slash. *)
Fixpoint base_name (np fnam : list Z) : list Z :=
  match fnam with
  | [] => np
  | c :: fnam => base_name (if (c =? COLON) || is_slash c then fnam else np) fnam
  end.
(** Up to eight characters in upper case, and a zero behind fewer. *)
Fixpoint mcb_name (n : nat) (np : list Z) : list Z :=
  match n, np with
  | S n, c :: np => if c =? 0x2e then [0] else u8 (toupper (s8 c)) :: mcb_name n np
  | S _, [] => [0]
  | O, _ => []
  end.

Section Task.
Context {M : Machine} {Sh : Shell} {R : Redirector} {Cn : Console}.
Context (k : svc) (fuel : nat).

Definition getvec (intno : Z) : I ptr := rd_ram (fun m => getp m (0, 4 * intno)).
Definition setvec (intno : Z) (v : ptr) : I unit := wr_ram (putp (0, 4 * intno) v).

Definition SftGetFsize (sft_idx : Z) : I Z :=
  con! f := in_h (in_use sft_idx) in cret (match f with Some f => sft_size f | None => u32 DE_INVLDHNDL end).

(** ** Memory for a program *)

(** The return code and [*pChildEnvSeg]. *)
Definition ChildEnv (exp : exec_blk) (pathname : list Z) : I (Z * Z) :=
  con! s := iget in
  let seg := if negb (env_seg exp =? 0) then env_seg exp else getw (ram s) (cur s, ps_environ) in
  let pSrc := (seg, 0) in
  con! n := (if seg =? 0 then cret (Some 1)
             else con! r := iopt (env_size (Z.to_nat MAXENV) (ram s) pSrc 0) in cret ((fun n => n + 2) <$> r)) in
  match n with
  | None => cret (DE_INVLDENV, 0)
  | Some nEnvSize =>
      con! s := iget in
      con! r := in_m (DosMemAlloc ((nEnvSize + ENV_KEEPFREE + 15) / 16) (mem_access_mode (arena (hs s))) false) in
      if ar_rc r <? 0 then cret (ar_rc r, 0) else
      con! env := iopt (ar_para r) in
      let pDest := (u16 (env + 1), 0) in
      con! body := rd_ram (fun m => load m (lin pSrc) (Z.to_nat nEnvSize)) in
      con_ poke pDest (if seg =? 0 then [0] else body) in
      con_ wr_ram (putw (far_add pDest nEnvSize) 1) in
      con! rc := in_h (truename_pri pathname CDS_MODE_SKIP_PHYSICAL) in
      if rc <? SUCCESS then cret (rc, env) else
      con! s := iget in
      con_ poke (far_add pDest (nEnvSize + 2)) (cstr (PriPathName (hs s)) ++ [0]) in
      cret (SUCCESS, env)
  end.

Definition set_access (f : Z -> Z) : I unit :=
  in_m (kmod (fun s => with_access (f (mem_access_mode s)) s)).
Definition access : I Z := con! s := iget in cret (mem_access_mode (arena (hs s))).

(** The code and [*asize]. *)
Definition ExecMemLargest (threshold : Z) : I (Z * Z) :=
  con! a := access in
  con! r :=
    (if has a 0x80 then
       con_ set_access (fun a => setf (clear a 0x80) 0x40) in
       con! r := in_m DosMemLargest in
       con_ set_access (fun a => clear a 0x40) in
       con! r := (if negb (fst r =? SUCCESS) || (snd r <? threshold) then in_m DosMemLargest else cret r) in
       con_ set_access (fun a => setf a 0x80) in
       cret r
     else in_m DosMemLargest) in
  cret (if snd r <? threshold then DE_NOMEM else fst r, snd r).

(** The code, the paragraph and [*asize]. *)
Definition ExecMemAlloc (size para asize : Z) : I (Z * Z * Z) :=
  con! a := access in
  con! r := in_m (DosMemAlloc size a true) in
  let out r para asize := (default para (ar_para r), default asize (ar_asize r)) in
  let '(p1, a1) := out r para asize in
  con! t :=
    (if negb (ar_rc r =? SUCCESS) then
       if ar_rc r =? DE_NOMEM then
         con! r2 := in_m (DosMemAlloc 0 LARGEST true) in
         let '(p2, a2) := out r2 p1 a1 in
         con! a := access in
         if has a 0x80 && negb (ar_rc r2 =? SUCCESS) then
           con_ set_access (fun a => clear a 0x80) in
           con! r3 := in_m (DosMemAlloc 0 LARGEST true) in
           con_ set_access (fun a => setf a 0x80) in
           let '(p3, a3) := out r3 p2 a2 in
           cret (ar_rc r3, p3, a3)
         else cret (ar_rc r2, p2, a2)
       else cret (ar_rc r, p1, a1)
     else cret (ar_rc r, p1, size)) in
  let '(rc, p, a) := t in
  if (rc =? SUCCESS) && (a <? size) then
    con! _ := in_m (DosMemFree p) in cret (DE_NOMEM, p, a)
  else cret (rc, p, a).

(** ** The PSP *)

Definition new_psp (para cur_psp : Z) : I unit :=
  con! b := rd_ram (fun m => load m (lin (cur_psp, 0)) (Z.to_nat SIZEOF_PSP)) in
  con_ poke (para, 0) b in
  con_ in_h (let! q := psp_at cur_psp in
             do! kmod (fun s => set_psps (<[para := q]> (psps s)) s) in
             kmod (fun s => match jfts s !! cur_psp with
                            | Some l => set_jfts (<[para := take 20 l]> (jfts s)) s
                            | None => s
                            end)) in
  con! v := getvec 0x22 in con_ wr_ram (putp (para, ps_isv22) v) in
  con! v := getvec 0x23 in con_ wr_ram (putp (para, ps_isv23) v) in
  con! v := getvec 0x24 in con_ wr_ram (putp (para, ps_isv24) v) in
  con! major := vget os_setver_major in
  con! minor := vget os_setver_minor in
  wr_ram (putw (para, ps_retdosver) (Z.shiftl minor 8 + major)).

Definition child_psp (para cur_psp psize : Z) : I unit :=
  con_ new_psp para cur_psp in
  con_ wr_ram (putp (para, ps_prevpsp) (cur_psp, 0)) in
  con_ wr_ram (putw (para, ps_size) psize) in
  con_ in_h (Handle.child_psp para cur_psp) in
  con_ poke (para, ps_fcb1) (0 :: replicate 11 0x20) in
  con_ poke (para, ps_fcb2) (0 :: replicate 11 0x20) in
  poke (para, ps_cmd) [0; 0x0d].

Definition SIZEOF_TAIL := 128.
(** The value for AX that says whether the drives of the two blocks exist. *)
Definition fcb_code (pspseg : Z) : I Z :=
  con! m := rd_ram id in
  con! c1 := in_h (get_cds1 (getb m (pspseg, ps_fcb1))) in
  con! c2 := in_h (get_cds1 (getb m (pspseg, ps_fcb2))) in
  cret (Z.lor (if c1 then 0 else 0xff) (if c2 then 0 else 0xff00)).
Definition patchPSP (pspmcb envseg : Z) (exb : exec_blk) (fnam : list Z) : I Z :=
  let pspseg := u16 (pspmcb + 1) in
  con! l := rd_ram (fun m => load m (lin (cmd_line exb)) (Z.to_nat SIZEOF_TAIL)) in
  con_ poke (pspseg, ps_cmd) l in
  con_ (if negb (snd (fcb_1 exb) =? 0xffff) then
          con! l := rd_ram (fun m => load m (lin (fcb_1 exb)) 16) in
          con_ poke (pspseg, ps_fcb1) l in
          con! l := rd_ram (fun m => load m (lin (fcb_2 exb)) 16) in
          poke (pspseg, ps_fcb2) l
        else cret tt) in
  con_ in_m (wr pspmcb (set_psp pspseg)) in
  con_ (if negb (envseg =? 0) then in_m (wr envseg (set_psp pspseg)) else cret tt) in
  con_ wr_ram (putw (pspseg, ps_environ) (if negb (envseg =? 0) then u16 (envseg + 1) else 0)) in
  let np := base_name fnam fnam in
  let name := mcb_name 8 np in
  con_ in_m (wr pspmcb (fun b => set_name (name ++ drop (length name) (m_name b)) b)) in
  con! s := iget in
  con! fakever := iopt (SetverGetVersion (ram s) (setverPtr s) np) in
  con_ (if negb (fakever =? 0) then wr_ram (putw (pspseg, ps_retdosver) fakever) else cret tt) in
  fcb_code pspseg.

(** ** Starting a program, and its end *)

Definition user_frame (ds fcbcode : Z) (exp : exec_blk) : iregs :=
  Iregs (Lregs fcbcode fcbcode 0xff ds (snd (start_addr exp)) (snd (stack exp)) ds ds)
    0x91e (snd (start_addr exp)) (fst (start_addr exp)) 0x200.
Definition dec_InDOS : I unit :=
  in_c (cmod (fun c => if InDOS c =? 0 then c else Chario.set_InDOS (u8 (InDOS c - 1)) c)).

(** [inr]: the program runs, with the frame there; [inl]: the code, and the
    parameter block with the stack of the program. *)
Definition load_transfer (user_r : ptr) (ds : Z) (exp : exec_blk) (fcbcode mode : Z) : I (Z * exec_blk + ptr) :=
  con! s := iget in
  let q := cur s in
  con_ in_h (let! p := psp_at ds in kmod (fun s => set_psps (<[ds := Psp q (ps_maxfiles p) (ps_filetab p)]> (psps s)) s)) in
  con_ wr_ram (putp (ds, ps_prevpsp) (q, 0)) in
  con_ wr_ram (putp (q, ps_stack) user_r) in
  con_ wr_ram (fun m => putw (far_add user_r 22) (clear (getw m (far_add user_r 22)) FLG_CARRY) m) in
  con_ in_h (kmod (set_cu_psp ds)) in
  con_ imod (set_dta_at (ds, ps_cmd)) in
  if mode =? LOADNGO then
    let irp := far_add (stack exp) (- SIZEOF_IREGS) in
    con_ wr_ram (put_iregs irp (user_frame ds fcbcode exp)) in
    con_ dec_InDOS in
    cret (inr irp)
  else
    let sp := far_add (stack exp) (-2) in
    con_ wr_ram (putw sp fcbcode) in
    cret (inl (SUCCESS, set_stack sp exp)).

(** The frame of the parent. *)
Definition return_user : I ptr :=
  con! s := iget in
  let p := cur s in
  con_ setvec 0x22 (getp (ram s) (p, ps_isv22)) in
  con_ setvec 0x23 (getp (ram s) (p, ps_isv23)) in
  con_ setvec 0x24 (getp (ram s) (p, ps_isv24)) in
  con_ vset abort_progress (-1) in
  con! t := vget term_type in
  con_ in_h (end_process t) in
  con! s := iget in
  con_ vset abort_progress 0 in
  let irp := getp (ram s) (cur s, ps_stack) in
  let v22 := getp (ram s) (p, ps_isv22) in
  con_ wr_ram (fun m => putw (far_add irp 22) 0x200 (putw (far_add irp 18) (snd v22) (putw (far_add irp 20) (fst v22) m))) in
  con_ dec_InDOS in
  cret irp.

(** ** Loading *)

(** Memory for a program of at least [need] paragraphs, of which [want] says
    how many to take of [asize]: the code, the block, the environment, and
    [asize].  With the bit 80h of the mode upper memory is tried too. *)
Definition get_memory (exp : exec_blk) (namep : list Z) (mode need : Z) (want : Z -> Z) : I (Z * Z * Z * Z) :=
  con! s := iget in
  let UMBstate := uppermem_link (arena (hs s)) in
  let orig := mem_access_mode (arena (hs s)) in
  let high := has mode 0x80 in
  con_ (if high then con_ set_access (fun a => setf a 0x80) in in_m (DosUmbLink 1) else cret tt) in
  con! r := ChildEnv exp namep in
  let '(rc, env) := r in
  con! r := (if rc =? SUCCESS then ExecMemLargest need else cret (rc, 0)) in
  let '(rc, asize) := r in
  con! r := (if rc =? SUCCESS then ExecMemAlloc (want asize) 0 asize else cret (rc, 0, asize)) in
  let '(rc, mem, asize) := r in
  con_ (if negb (rc =? SUCCESS) then con! _ := in_m (DosMemFree env) in cret tt else cret tt) in
  con_ (if high then con_ set_access (fun _ => orig) in in_m (DosUmbLink UMBstate) else cret tt) in
  cret (rc, mem, env, asize).

(** The PSP, and the start of the program.  [env] is [None] when the variable
    was not set: an overlay that is not treated as one (mode 83h). *)
Definition start_program (user_r : ptr) (mem asize : Z) (env : option Z) (exp : exec_blk) (namep : list Z) (mode : Z)
  (place : exec_blk -> I (exec_blk + Z)) : I (Z * exec_blk + ptr) :=
  con! m := rd_ram id in
  con_ setvec 0x22 (getw m (far_add user_r 20), getw m (far_add user_r 18)) in
  con! s := iget in
  con_ child_psp mem (cur s) (u16 (mem + asize)) in
  con! env := iopt env in
  con! fcbcode := patchPSP (u16 (mem - 1)) env exp namep in
  con! e := place exp in
  match e with
  | inl exp => load_transfer user_r mem exp fcbcode mode
  | inr rc => cret (inl (rc, exp))
  end.

(** The stack and the start of a COM program. *)
Definition com_place (mem asize : Z) (exp : exec_blk) : I (exec_blk + Z) :=
  let asize := Z.min asize 0x1000 in
  if asize <? 0x11 then cret (inr DE_NOMEM) else
  let asize := asize - 0x11 in
  con_ wr_ram (putp (mem, ps_reentry) (u16 (0xc - asize), u16 (Z.shiftl asize 4))) in
  let sp := u16 (u16 (Z.shiftl asize 4) + 0x10e) in
  con_ wr_ram (putw (mem, sp) 0) in
  cret (inl (set_start (mem, 0x100) (set_stack (mem, sp) exp))).

Definition DosComLoader (user_r : ptr) (namep : list Z) (exp : exec_blk) (mode fd : Z) : I (Z * exec_blk + ptr) :=
  con! size := SftGetFsize fd in
  let com_size := Z.shiftr (Z.min size 0xfe00) 4 + 0x10 in
  let over := Z.land mode 0x7f =? OVERLAY in
  con! r := (if over then cret (SUCCESS, load_seg exp, None, 0)
             else con! r := get_memory exp namep mode com_size (fun asize => asize) in
                  let '(rc, mem, env, asize) := r in cret (rc, u16 (mem + 1), Some env, asize)) in
  let '(rc, mem, env, asize) := r in
  if negb (rc =? SUCCESS) then cret (inl (rc, exp)) else
  let mode := if over then mode else Z.land mode 0x7f in
  let sp := if mode =? OVERLAY then (mem, 0) else (mem, SIZEOF_PSP) in
  con! _ := in_k (SftSeek fd 0 SEEK_SET) in
  con! _ := rw_sft k fuel fd (if mode =? OVERLAY then 0xfffe else 0xff00) sp XFR_READ in
  con! _ := in_k (DosCloseSft fd false) in
  if mode =? OVERLAY then cret (inl (SUCCESS, exp)) else
  start_program user_r mem asize env exp namep mode (com_place mem asize).

(** The image, in pieces that are whole paragraphs. *)
Fixpoint image_loop (n : nat) (fd exe_size sp : Z) : I unit :=
  match n with
  | O => istuck
  | S n =>
      let toRead := if exe_size <? CHUNK / 16 then exe_size * 16 else CHUNK in
      con! r := rw_sft k fuel fd toRead (sp, 0) XFR_READ in
      if (s16 r <? toRead) || (exe_size <=? CHUNK / 16) then cret tt
      else image_loop n fd (exe_size - CHUNK / 16) (u16 (sp + CHUNK / 16))
  end.
Definition image_fuel : nat := 34.

(** The entries of the relocation table, each an offset and a segment; the
    stack variable that they are read to is at [stack_at]. *)
Fixpoint reloc_loop (n : nat) (fd base factor : Z) : I bool :=
  match n with
  | O => cret true
  | S n =>
      con! r := in_c (DosRWSft k fuel fd 4 stack_at [0; 0; 0; 0] XFR_READ) in
      if negb (fst r =? 4) then cret false else
      match words_of (snd r) with
      | [off; seg] =>
          let spot := (u16 (seg + base), off) in
          con_ wr_ram (fun m => putw spot (getw m spot + factor) m) in
          reloc_loop n fd base factor
      | _ => istuck
      end
  end.

(** The image and its relocation: whether the table was complete. *)
Definition exe_read (h : exe_header) (fd exe_size start_seg factor : Z) : I bool :=
  con_ image_loop image_fuel fd exe_size start_seg in
  con! _ := in_k (SftSeek fd (exRelocTable h) SEEK_SET) in
  reloc_loop (Z.to_nat (exRelocItems h)) fd start_seg factor.

(** The paragraphs that the program is given. *)
Definition exe_want (h : exe_header) (image_size asize : Z) : Z :=
  let exe_size := u16 (image_size + exMaxAlloc h) in
  let exe_size := if (asize <? exe_size) || (exe_size <? image_size) then asize else exe_size in
  if Z.lor (exMinAlloc h) (exMaxAlloc h) =? 0 then asize else exe_size.

Definition free_both (mem : Z) (env : option Z) : I unit :=
  con! env := iopt env in
  con! _ := in_m (DosMemFree mem) in con! _ := in_m (DosMemFree env) in cret tt.

Definition DosExeLoader (user_r : ptr) (h : exe_header) (namep : list Z) (exp : exec_blk) (mode fd : Z)
  : I (Z * exec_blk + ptr) :=
  let over := Z.land mode 0x7f =? OVERLAY in
  let image_size := u16 (u16 (Z.shiftl (exPages h) 5) - exHeaderSize h) in
  let image_size := if over then image_size else u16 (image_size + SIZEOF_PSP / 16) in
  let exe_size := u16 (image_size + exMinAlloc h) in
  if negb over && (exe_size <? image_size) then cret (inl (DE_NOMEM, exp)) else
  con! r := (if over then cret (SUCCESS, load_seg exp, None, 0)
             else con! r := get_memory exp namep mode exe_size (exe_want h image_size) in
                  let '(rc, mem, env, asize) := r in cret (rc, u16 (mem + 1), Some env, asize)) in
  let '(rc, mem, env, asize) := r in
  if negb (rc =? SUCCESS) then cret (inl (rc, exp)) else
  let mode := if over then mode else Z.land mode 0x7f in
  con! rc := in_k (SftSeek fd (exHeaderSize h * 16) SEEK_SET) in
  if negb (rc =? SUCCESS) then
    con_ (if negb (mode =? OVERLAY) then free_both (u16 (mem - 1)) env else cret tt) in
    cret (inl (DE_INVLDDATA, exp))
  else
  let exe_size := if mode =? OVERLAY then image_size else u16 (image_size - SIZEOF_PSP / 16) in
  con! start_seg :=
    (if mode =? OVERLAY then cret mem
     else if (0 <? exe_size) && (Z.lor (exMinAlloc h) (exMaxAlloc h) =? 0) then
       con! b := in_m (rd (u16 (mem - 1))) in
       cret (u16 (mem + SIZEOF_PSP / 16 + m_size b - image_size))
     else cret (u16 (mem + SIZEOF_PSP / 16))) in
  con! ok := exe_read h fd exe_size start_seg (if mode =? OVERLAY then reloc exp else start_seg) in
  if negb ok then
    con_ (if negb (mode =? OVERLAY) then free_both (u16 (mem - 1)) env else cret tt) in
    cret (inl (DE_INVLDDATA, exp))
  else
  con! _ := in_k (DosCloseSft fd false) in
  if mode =? OVERLAY then cret (inl (SUCCESS, exp)) else
  start_program user_r mem asize env exp namep mode (fun exp =>
    cret (inl (set_start (u16 (exInitCS h + start_seg), exInitIP h)
                 (set_stack (u16 (exInitSS h + start_seg), exInitSP h) exp)))).

(** The code, or the frame of the program that was started. *)
Definition DosExec (user_r : ptr) (mode : Z) (ep lp : ptr) : I (Z + ptr) :=
  let m7 := Z.land mode 0x7f in
  if (3 <? m7) || (m7 =? 2) then cret (inl DE_INVLDFMT) else
  con! exb := rd_ram (fun m => get_exec m ep) in
  con! name := str_at lp in
  con! dev := in_p (IsDevice name) in
  if (if dev then true else false) then cret (inl DE_FILENOTFND) else
  con! fd := in_h (DosOpenSft name (Z.lor (Z.lor O_LEGACY O_OPEN) O_RDONLY) 0) in
  let fd := s16 fd in
  if fd <? 0 then cret (inl DE_FILENOTFND) else
  con! r := in_c (DosRWSft k fuel fd SIZEOF_EXE stack_at (replicate (Z.to_nat SIZEOF_EXE) 0) XFR_READ) in
  let rc := s16 (fst r) in
  con! h := iopt (get_exe (snd r)) in
  con! t :=
    (if (rc =? SIZEOF_EXE) && ((exSignature h =? MAGIC) || (exSignature h =? OLD_MAGIC))
     then DosExeLoader user_r h name exb mode fd
     else if negb (rc =? 0) then DosComLoader user_r name exb mode fd
     else cret (inl (DE_INVLDFMT, exb))) in
  match t with
  | inr irp => cret (inr irp)
  | inl (rc, exb) =>
      con! _ := in_k (DosCloseSft fd false) in
      con_ (if (mode =? LOAD) && (rc =? SUCCESS) then wr_ram (put_exec ep exb) else cret tt) in
      cret (inl rc)
  end.
End Task.
End Task.
