(* ===== verification/Int21.v ===== *)
(** * The functions of INT 21h (kernel/inthndlr.c)

    [int21_service] is one call, with the frame at [r] on the stack of the
    program.  Each function works on a copy of the registers and says how it
    ends ([exit]); the labels behind the switch are [leave].  The functions are
    the list [functions], by number. *)

From S2P Require Import Prelude Memmgr KState BlockIO FatTab FNode FatAlloc Clock Media FatDir FatFile FatRw.
From S2P Require Import Path Handle Calls Chario Fcb Far Sys Ioctl Nls Task.
Import Mm Ks Bio Fat FNode Alloc Clk Media Dir File Rw Path Handle Calls Chario Fcb Far Sys Ioctl Nls Task.

Module Int21.
Definition STDAUX := 3.
Definition FIT_MASK := 0x3f.
Definition REM_DOREDIRECT := 0x111e.
Definition REM_PRINTSET := 0x111f.
Definition REM_PRINTREDIR := 0x1125.
Definition OEM_ID := 0xfd.
Definition REVISION_SEQ := 45.

(** Where the linker put what programs get pointers to. *)
Class Link := {
  adr_InDOS : ptr; adr_DPBp : ptr; adr_internal : ptr; size_indos : Z; size_always : Z;
  adr_os_release : ptr; adr_mdb : ptr; dpb_next : Z -> ptr }.
(** The redirector's calls with registers: the code, the frame and the copy;
    INT 2Fh; and the parameter block that the resident driver keeps of a drive. *)
Class Net {M : Machine} := {
  redir_mx : Z -> iregs -> lregs -> Z -> world -> Z * iregs * lregs * world;
  intr_2f : iregs -> world -> iregs * world;
  set_ddt_bpb : Z -> bpb -> world -> world }.

(** How a function ends. *)
Inductive exit :=
| Exit                         (* exit_dispatch *)
| Long (lrc : Z)               (* long_check *)
| Short (rc : Z)               (* short_check *)
| Invalid                      (* error_invalid *)
| Error (rc : Z)               (* error_exit *)
| Carry                        (* error_carry *)
| Real                         (* real_exit *)
| Again                        (* dispatch *)
| User (irp : ptr).            (* exec_user: no return *)

(** Functions that clear the carry flag and the error code. *)
Definition clears (ah : Z) : bool :=
  ((0x38 <=? ah) && (ah <=? 0x4f)) || ((0x56 <=? ah) && (ah <=? 0x5c)) || ((0x5e <=? ah) && (ah <=? 0x60))
  || ((0x65 <=? ah) && (ah <=? 0x6a)) || (ah =? 0x6c).
Definition checks_break (ah : Z) : bool := ((1 <=? ah) && (ah <=? 5)) || ((8 <=? ah) && (ah <=? 0x0b)).

(** A [LONG]. *)
Definition s32 (x : Z) : Z := (x + 2147483648) mod 4294967296 - 2147483648.

(** Up to a NUL, or the whole segment. *)
Fixpoint fstr_upto (fuel : nat) (m : umem) (p : ptr) : list Z :=
  match fuel with
  | O => []
  | S fuel => let c := getb m p in if c =? 0 then [] else c :: fstr_upto fuel m (far_add p 1)
  end.

Section Int21.
Context {M : Machine} {Sh : Shell} {R : Redirector} {Cn : Console} {Dr : Driver} {Mx : Mux} {Lk : Link} {Nt : Net}.
Context (k : svc) (fuel : nat) (r : ptr).

Definition handler : Type := lregs -> I (lregs * exit).
Definition ends (l : lregs) (e : exit) : I (lregs * exit) := cret (l, e).
Definition done_ (l : lregs) : I (lregs * exit) := ends l Exit.

Definition get_flags : I Z := rd_ram (fun m => getw m (far_add r 22)).
Definition flags_mod (f : Z -> Z) : I unit := wr_ram (fun m => putw (far_add r 22) (f (getw m (far_add r 22))) m).
Definition CLEAR_CARRY_FLAG : I unit := flags_mod (fun f => clear f FLG_CARRY).
Definition SET_CARRY_FLAG : I unit := flags_mod (fun f => setf f FLG_CARRY).
Definition frame : I iregs := rd_ram (fun m => get_iregs m r).
Definition crit_get : I Z := con! s := iget in cret (CritErrCode (drv (ks s))).
Definition crit_set (v : Z) : I unit := in_k (set_CritErrCode v).

(** ** Console *)

Definition DOS_01 : handler := fun l =>
  con! c := in_c (read_char_stdin k true) in
  let l := set_AL c l in
  con_ in_c (write_char_stdout k (AL l)) in
  done_ l.
Definition DOS_02 : handler := fun l =>
  let l := set_AL (DL l) l in con_ in_c (write_char_stdout k (AL l)) in done_ l.
Definition DOS_03 : handler := fun l =>
  con! idx := in_h (get_sft_idx STDAUX) in
  con! c := in_c (read_char k idx idx true) in
  done_ (set_AL c l).
Definition write_to (hndl : Z) : handler := fun l =>
  con! idx := in_h (get_sft_idx hndl) in con_ in_c (write_char k (DL l) idx) in done_ l.
Definition DOS_07 : handler := fun l => con! c := in_c (read_char_stdin k false) in done_ (set_AL c l).
Definition DOS_08 : handler := fun l => con! c := in_c (read_char_stdin k true) in done_ (set_AL c l).
Definition DOS_06 : handler := fun l =>
  if negb (DL l =? 0xff) then DOS_02 l else
  let l := set_AL 0 l in
  con_ flags_mod (fun f => setf f FLG_ZERO) in
  con! busy := in_c StdinBusy in
  if busy then con_ in_k (kworld (fun w => (tt, int28 w))) in done_ l
  else con_ flags_mod (fun f => clear f FLG_ZERO) in DOS_07 l.

Definition DOLLAR := 0x24.
Fixpoint show_loop (n : nat) (p : ptr) : I unit :=
  match n with
  | O => istuck
  | S n =>
      con! c := rd_ram (fun m => getb m p) in
      if c =? DOLLAR then cret tt else con_ in_c (write_char_stdout k c) in show_loop n (far_add p 1)
  end.
Definition DOS_09 : handler := fun l =>
  con_ show_loop segment_fuel (FP_DS_DX l) in done_ (set_AL DOLLAR l).

(** The buffer of up to 255 characters and its two bytes, and the byte behind. *)
Definition KB_SIZE : nat := 258.
Definition DOS_0A : handler := fun l =>
  con! b := rd_ram (fun m => load m (lin (FP_DS_DX l)) KB_SIZE) in
  con_ in_c (cmod (set_ubuf b)) in
  con! i := in_h (get_sft_idx STDIN) in
  con! o := in_h (get_sft_idx STDOUT) in
  con_ in_c (read_line k fuel i o Chario.User) in
  con! s := iget in
  con_ poke (FP_DS_DX l) (ubuf (cn (cs s))) in
  done_ l.
Definition DOS_0B : handler := fun l =>
  con! busy := in_c StdinBusy in done_ (set_AL (if busy then 0 else 0xff) l).
Definition DOS_0C : handler := fun l =>
  con! g := in_h (get_sft STDIN) in
  con! dv := in_c (sft_to_dev (snd <$> g)) in
  con_ (if negb (dv =? 0) then in_k (con_flush dv) else cret tt) in
  let al := AL l in
  if al =? 0x01 then DOS_01 l else if al =? 0x06 then DOS_06 l else if al =? 0x07 then DOS_07 l
  else if al =? 0x08 then DOS_08 l else if al =? 0x0a then DOS_0A l else done_ (set_AL 0 l).

(** ** Drives and control blocks *)

Definition DOS_0D : handler := fun l => con! _ := in_k flush in done_ l.
Definition DOS_0E : handler := fun l => con! n := in_h (DosSelectDrv (DL l)) in done_ (set_AL n l).
(** A function whose result is AL. *)
Definition fcb_al (m : FC Z) : handler := fun l => con! c := with_fcb (FP_DS_DX l) m in done_ (set_AL c l).
Definition fcb_block (mode : Z) : handler := fun l =>
  con! c := with_fcb (FP_DS_DX l) (FcbRandomBlockIO k fuel (CX l) mode) in
  done_ (set_CX (snd c) (set_AL (fst c) l)).
Definition DOS_24 : handler := fun l => con_ with_fcb (FP_DS_DX l) FcbSetRandom in done_ l.
Definition DOS_29 : handler := fun l =>
  con! m := rd_ram id in
  let name := fstr_upto segment_fuel m (DS l, SI l) in
  let old := load m (lin (FP_ES_DI l)) FCB_WINDOW in
  con! t := in_p (FcbParseFname (AL l) name old) in
  let '(rc, rest, fcb) := t in
  con_ wr_ram (patch_ram (lin (FP_ES_DI l)) old fcb) in
  done_ (set_SI (SI l + Z.of_nat (length name - length rest)) (set_AL rc l)).
Definition DOS_19 : handler := fun l => con! s := iget in done_ (set_AL (default_drive (pth (hs s))) l).
Definition DOS_1A : handler := fun l => con_ imod (set_dta_at (FP_DS_DX l)) in done_ l.
Definition OFF_mdb := 23.
Definition DOS_1C : handler := fun l =>
  con! t := in_h (FatGetDrvData (DL l)) in
  match t with
  | None => done_ (set_AL 0xff l)
  | Some (_, spc, bps, nc) =>
      con! s := iget in
      con! dpbp := in_k (get_dpb (if DL l =? 0 then default_drive (pth (hs s)) else DL l - 1)) in
      let p := if dpbp =? NULL then adr_mdb else far_add (unflat dpbp) OFF_mdb in
      done_ (set_BX (snd p) (set_DS (fst p) (set_DX nc (set_CX bps (set_AL spc l)))))
  end.
Definition DOS_1B : handler := fun l => DOS_1C (set_DL 0 l).
Definition DOS_26 : handler := fun l => con! f := frame in con_ new_psp (DX l) (CS f) in done_ l.

(** The parameter block of a drive, read again. *)
Definition DOS_32 : handler := fun l =>
  con! s := iget in
  let drive := if (DL l =? 0) || (AH l =? 0x1f) then default_drive (pth (hs s)) else DL l - 1 in
  con! dpbp := in_k (get_dpb drive) in
  let bad := con_ crit_set (- DE_INVLDDRV) in done_ (set_AL 0xff l) in
  if dpbp =? NULL then bad else
  con! d := in_k (Ks.dget dpbp) in
  con! _ := in_k (flush_buffers (dpb_unit d)) in
  con_ in_k (dmod dpbp (set_dpb_flags M_CHANGED)) in
  con! rc := in_k (media_check dpbp) in
  con! d := in_k (Ks.dget dpbp) in
  if (rc <? 0) || ISFAT32 d then bad
  else done_ (set_AL 0 (set_BX (snd (unflat dpbp)) (set_DS (fst (unflat dpbp)) l))).
Definition DOS_36 : handler := fun l =>
  con! t := in_h (DosGetFree (DL l) true) in
  match t with
  | None => done_ (set_AX 0xffff l)
  | Some f => done_ (set_DX (fs_nc f) (set_CX (fs_bps f) (set_BX (default (BX l) (fs_navc f)) (set_AX (fs_spc f) l))))
  end.

(** ** Date, time and switches *)

Definition DOS_2A : handler := fun l =>
  con! t := in_k DosGetDate in
  match fst t with
  | Some d => done_ (set_AL (snd t) (set_DH (month d) (set_DL (monthday d) (set_CX (year d) l))))
  | None => done_ (set_AL (snd t) l)
  end.
Definition DOS_2B : handler := fun l =>
  con! rc := in_k (DosSetDate (Dosdate (CX l) (DH l) (DL l))) in
  done_ (set_AL (if rc =? SUCCESS then 0 else 0xff) l).
Definition DOS_2C : handler := fun l =>
  con! t := in_k DosGetTime in
  match t with
  | Some t => done_ (set_DH (second t) (set_DL (hundredth t) (set_CH (hour t) (set_CL (minute t) l))))
  | None => done_ l
  end.
Definition DOS_2D : handler := fun l =>
  con! rc := in_k (DosSetTime (Dostime (CH l) (CL l) (DH l) (DL l))) in
  done_ (set_AL (if rc =? SUCCESS then 0 else 0xff) l).
Definition set_verify (v : bool) : K kst unit := kmod (fun s =>
  let e := env s in
  Kst M (Genv (lastdrive e) (dh_attr e) v (bufloc e) (firstbuf_seg e) (clock e) (os_major_seg e)) (bufs s) (firstbuf s)
    (LoL_nbuffers s) (dpbs s) (CDSp s) (drv s) (fs s) (console s) (Ks.dev s)).
Definition DOS_2E : handler := fun l => con_ in_k (set_verify (Z.testbit (AL l) 0)) in done_ l.
Definition DOS_2F : handler := fun l =>
  con! s := iget in done_ (set_ES (fst (dta_at s)) (set_BX (snd (dta_at s)) l)).
Definition DOS_30 : handler := fun l =>
  con! vf := vget version_flags in
  con! any := vget ReturnAnyDosVersionExpected in
  con! s := iget in
  con! f := frame in
  let l := set_BH (if AL l =? 1 then vf else OEM_ID) l in
  let l := set_CX 0 (set_BL REVISION_SEQ (set_AX (getw (ram s) (cur s, ps_retdosver)) l)) in
  if any =? 0 then done_ l else
  let b i := getb (ram s) (far_add (CS f, IP f) i) in
  let jump c := (c =? 0x75) || (c =? 0x74) in
  if (b 0 =? 0x3d) && jump (b 3) then done_ (set_AH (b 2) (set_AL (b 1) l))
  else if (b 0 =? 0x86) && (b 1 =? 0xc4) && (b 2 =? 0x3d) && jump (b 5) then done_ (set_AH (b 3) (set_AL (b 4) l))
  else done_ l.
Definition point_to (p : ptr) : handler := fun l => done_ (set_ES (fst p) (set_BX (snd p) l)).
Definition DOS_37 : handler := fun l =>
  if AL l =? 0 then con! c := vget switchar in done_ (set_AL 0 (set_DL c l))
  else if AL l =? 1 then con_ vset switchar (DL l) in done_ (set_AL 0 l)
  else ends l Invalid.
Definition DOS_54 : handler := fun l =>
  con! s := iget in done_ (set_AL (if verify_ena (env (ks s)) then 1 else 0) l).

(** ** Names and handles *)

Definition DOS_38 : handler := fun l =>
  let cntry := if AL l =? 0xff then BX l else AL l in
  if DX l =? 0xffff then con! rc := DosSetCountry cntry in ends l (Short rc) else
  let cntry := if cntry =? 0 then 0xffff else cntry in
  con! rc := DosGetCountryInformation cntry (FP_DS_DX l) in
  if SUCCESS <=? rc then
    con! a := act_pkg in
    let c := if cntry =? 0xffff then pk_cntry a else cntry in
    ends (set_AX c (set_BX c l)) (Short rc)
  else ends l (Short rc).
Definition dir_call (action : Z) : handler := fun l =>
  con! p := str_at (FP_DS_DX l) in con! rc := in_h (DosMkRmdir p action) in ends l (Short rc).
Definition DOS_3B : handler := fun l =>
  con! p := str_at (FP_DS_DX l) in con! rc := in_h (DosChangeDir p) in ends l (Short rc).
Definition open_call (p : ptr) (mode attr : Z) : handler := fun l =>
  con! n := str_at p in con! rc := in_h (DosOpen n mode attr) in ends l (Long rc).
Definition DOS_3C : handler := fun l =>
  open_call (FP_DS_DX l) (Z.lor (Z.lor (Z.lor O_LEGACY O_RDWR) O_CREAT) O_TRUNC) (CL l) l.
Definition DOS_3D : handler := fun l => open_call (FP_DS_DX l) (Z.lor (Z.lor O_LEGACY O_OPEN) (AL l)) 0 l.
Definition DOS_3E : handler := fun l => con! rc := in_h (DosClose (BX l)) in ends l (Short rc).
Definition rw_call (mode : Z) : handler := fun l =>
  con! idx := in_h (get_sft_idx (BX l)) in
  con! rc := rw_sft k fuel idx (CX l) (FP_DS_DX l) mode in
  ends l (Long rc).
Definition DOS_41 : handler := fun l =>
  con! p := str_at (FP_DS_DX l) in con! rc := in_h (DosDelete p D_ALL) in ends l (Short rc).
Definition DOS_42 : handler := fun l =>
  if 2 <? AL l then ends l Invalid else
  con! t := in_h (DosSeek (BX l) (s32 (Z.lor (Z.shiftl (CX l) 16) (DX l))) (AL l)) in
  let '(rc, lrc) := t in
  if rc =? SUCCESS then ends (set_AX lrc (set_DX (Z.shiftr lrc 16) l)) (Short rc) else ends l (Short rc).
Definition DOS_56 : handler := fun l =>
  con! p := str_at (FP_DS_DX l) in con! q := str_at (FP_ES_DI l) in
  con! rc := in_h (DosRename p q) in ends l (Short rc).
Definition DOS_43 : handler := fun l =>
  if AL l =? 0x00 then
    con! p := str_at (FP_DS_DX l) in
    con! rc := in_h (DosGetFattr p) in
    ends (if SUCCESS <=? rc then set_CX rc l else l) (Short rc)
  else if AL l =? 0x01 then
    con! p := str_at (FP_DS_DX l) in
    con! rc := in_h (DosSetFattr p (CX l)) in
    ends (set_AX (CX l) l) (Short rc)
  else if AL l =? 0xff then
    if (CL l =? 0x39) || (CL l =? 0x3a) then dir_call (CL l) l
    else if CL l =? 0x56 then DOS_56 l else ends l Invalid
  else ends l Invalid.
(** The end of a call of the drivers. *)
Definition DOS_44 : handler := fun l =>
  con! t := DosDevIOctl l in
  let '(rc, l) := t in
  if rc <? SUCCESS then
    let l := set_AX (- rc) l in
    con_ (if negb (rc =? DE_DEVICE) && negb (rc =? DE_ACCESS) then crit_set (AX l) else cret tt) in
    ends l Carry
  else done_ l.
Definition DOS_45 : handler := fun l => con! rc := in_h (DosDup (BX l)) in ends l (Long rc).
Definition DOS_46 : handler := fun l => con! rc := in_h (DosForceDup (BX l) (CX l)) in ends l (Short rc).
Definition DOS_47 : handler := fun l =>
  con! t := in_h (DosGetCuDir (DL l)) in
  con_ (if fst t =? SUCCESS then poke (DS l, SI l) (snd t ++ [0]) else cret tt) in
  ends (set_AX 0x0100 l) (Short (fst t)).
Definition DOS_4E : handler := fun l =>
  con! p := str_at (FP_DS_DX l) in
  con! rc := with_search true (DosFindFirst (CX l) p) in ends (set_AX 0 l) (Short rc).
Definition DOS_4F : handler := fun l => con! rc := with_search false DosFindNext in ends (set_AX 0 l) (Short rc).
Definition DOS_57 : handler := fun l =>
  if AL l =? 0x00 then
    con! t := in_h (DosGetFtime (BX l)) in
    ends (match snd t with Some (d, t) => set_CX t (set_DX d l) | None => l end) (Short (fst t))
  else if AL l =? 0x01 then
    con! idx := in_h (get_sft_idx (BX l)) in
    con! rc := in_k (DosSetFtimeSft idx (DX l) (CX l)) in ends l (Short rc)
  else ends l Invalid.
Definition DOS_5A : handler := fun l =>
  con! p := str_at (FP_DS_DX l) in
  con! t := in_h (DosMkTmp p (CX l)) in
  con_ poke (FP_DS_DX l) (snd t ++ [0]) in
  ends l (Long (fst t)).
Definition DOS_5B : handler := fun l =>
  open_call (FP_DS_DX l) (Z.lor (Z.lor O_LEGACY O_RDWR) O_CREAT) (CX l) l.
Definition DOS_5C : handler := fun l =>
  con! rc := in_h (DosLockUnlock (BX l) (Z.lor (Z.shiftl (CX l) 16) (DX l)) (Z.lor (Z.shiftl (SI l) 16) (DI l))
                     (if AL l =? 0 then 0 else 1)) in
  if negb (rc =? SUCCESS) then ends l (Error rc) else done_ l.
Definition DOS_60 : handler := fun l =>
  con! p := str_at (DS l, SI l) in
  con! t := in_h (DosTruename p) in
  con_ (match snd t with Some d => poke (adjust_far (FP_ES_DI l)) (d ++ [0]) | None => cret tt end) in
  ends (set_AX (fst t) l) (Short (fst t)).
Definition DOS_67 : handler := fun l => con! rc := in_h (SetJFTSize (BX l)) in ends l (Short rc).
Definition DOS_68 : handler := fun l =>
  con! idx := in_h (get_sft_idx (BX l)) in con! rc := in_k (DosCloseSft idx true) in ends l (Short rc).
Definition DOS_6C : handler := fun l =>
  if 0x2 <? Z.land (DL l) 0xef then ends l Invalid else
  con! n := str_at (DS l, SI l) in
  con! rc := in_h (DosOpen n (Z.lor (Z.lor (Z.land (BX l) 0x70ff) (Z.shiftl (Z.land (DL l) 3) 8))
                                (Z.shiftl (Z.land (DL l) 0x10) 6)) (CL l)) in
  ends (if SUCCESS <=? rc then set_CX (Z.shiftr rc 16) l else l) (Long rc).

(** ** Memory and processes *)

(** The chain of memory is checked; a broken one ends everything. *)
Definition check_mem : I unit := con! rc := in_m DosMemCheck in if rc =? SUCCESS then cret tt else istuck.
Definition DOS_48 : handler := fun l =>
  con! a := access in
  con! t := in_m (DosMemAlloc (BX l) a true) in
  let l := set_BX (default (BX l) (ar_asize t)) (set_AX (default (AX l) (ar_para t)) l) in
  if ar_rc t <? 0 then
    con! n := in_m DosMemLargest in
    con_ check_mem in
    ends (set_BX (snd n) l) (Error (ar_rc t))
  else done_ (set_AX (AX l + 1) l).
Definition DOS_49 : handler := fun l =>
  con! rc := in_m (DosMemFree (u16 (ES l - 1))) in
  if rc <? SUCCESS then con_ check_mem in ends l (Error rc) else done_ l.
Definition DOS_4A : handler := fun l =>
  con_ check_mem in
  con! t := in_m (DosMemChange (ES l) (BX l) true) in
  let l := set_BX (default (BX l) (snd t)) l in
  if fst t <? 0 then con_ check_mem in ends l (Error (fst t)) else done_ (set_AX (ES l) l).
Definition DOS_4B : handler := fun l =>
  con_ vset break_flg 0 in
  con! t := DosExec k fuel r (AL l) (ES l, BX l) (FP_DS_DX l) in
  match t with inl rc => ends l (Short rc) | inr irp => ends l (User irp) end.
Definition DOS_4C : handler := fun l =>
  con! b := vget break_flg in
  con_ (if negb (b =? 0) then con_ vset break_flg 0 in vset term_type 1 else cret tt) in
  con! t := vget term_type in
  con_ vset return_code (Z.lor (AL l) (u16 (Z.shiftl t 8))) in
  con_ check_mem in
  con! irp := return_user in
  ends l (User irp).
Definition DOS_00 : handler := fun l => DOS_4C (set_AX 0x4c00 l).
Definition DOS_31 : handler := fun l =>
  con! s := iget in
  con! _ := in_m (DosMemChange (cur s) (Z.max (DX l) 6) false) in
  con_ vset return_code (Z.lor (AL l) 0x300) in
  con_ vset term_type 3 in
  con! irp := return_user in
  ends l (User irp).
Definition DOS_4D : handler := fun l =>
  con! c := vget return_code in con_ vset return_code 0 in done_ (set_AX c l).
Definition DOS_55 : handler := fun l =>
  con! s := iget in
  con_ child_psp (DX l) (cur s) (SI l) in
  con! b := rd_ram (fun m => load m (lin (cur s, 0x80)) 128) in
  con_ poke (DX l, 0x80) b in
  con_ in_h (kmod (set_cu_psp (DX l))) in
  done_ l.
Definition DOS_58 : handler := fun l =>
  con! s := iget in
  let a := arena (hs s) in
  if AL l =? 0x00 then done_ (set_AH 0 (set_AL (mem_access_mode a) l))
  else if AL l =? 0x01 then
    if (LAST_FIT_U <? BL l) || (LAST_FIT <? Z.land (BL l) FIT_MASK) then ends l Invalid
    else con_ set_access (fun _ => BL l) in done_ l
  else if AL l =? 0x02 then done_ (set_AL (uppermem_link a) l)
  else if (AL l =? 0x03) && negb (uppermem_root a =? 0xffff) then con_ in_m (DosUmbLink (BX l)) in done_ l
  else ends l Invalid.

(** ** Errors, the network and the server *)

Definition DOS_59 : handler := fun l =>
  con! c := crit_get in
  con! lo_ := vget CritErrLocus in
  con! cl := vget CritErrClass in
  con! a := vget CritErrAction in
  con! d := vget CritErrDev in
  let p := unflat d in
  done_ (set_ES (fst p) (set_DI (snd p) (set_BL a (set_BH cl (set_CH lo_ (set_AX c l)))))).
(** A call of the redirector with the registers. *)
Definition redirect (cmd : Z) (l : lregs) : I (Z * lregs) := fun s =>
  let '(rc, f, l, w) := redir_mx cmd (get_iregs (ram s) r) l (vars s Int21AX) (Ks.dev (ks s)) in
  match in_k (kmod (set_dev w)) (set_ram (put_iregs r f (ram s)) s) with
  | Some (_, s) => Some (Ret (rc, l), s)
  | None => None
  end.
Definition DOS_5D : handler := fun l =>
  let al := AL l in
  if al =? 0x00 then con! l := rd_ram (fun m => get_lregs m (FP_DS_DX l)) in ends l Again
  else if al =? 0x06 then
    con_ CLEAR_CARRY_FLAG in
    done_ (set_DX size_always (set_CX size_indos (set_SI (snd adr_internal) (set_DS (fst adr_internal) l))))
  else if (7 <=? al) && (al <=? 9) then
    con! t := redirect REM_PRINTREDIR l in
    con_ CLEAR_CARRY_FLAG in
    if negb (s16 (fst t) =? SUCCESS) then ends l (Error (s16 (fst t))) else done_ l
  else if al =? 0x0a then
    con! er := rd_ram (fun m => get_lregs m (FP_DS_DX l)) in
    con_ crit_set (AX er) in
    con_ vset CritErrDev (flat (ES er, DI er)) in
    con_ vset CritErrLocus (CH er) in
    con_ vset CritErrClass (BH er) in
    con_ vset CritErrAction (BL er) in
    con_ CLEAR_CARRY_FLAG in
    done_ l
  else con_ crit_set SUCCESS in ends l Invalid.

(** kernel/network.c *)
Definition get_machine_name (p : ptr) : I Z :=
  con! s := iget in con_ poke p (take 16 (net_name s)) in vget NetBios.
Definition set_machine_name (p : ptr) (name_num : Z) : I unit :=
  con_ vset NetBios name_num in
  con! b := rd_ram (fun m => load m (lin p) 15) in
  con_ imod (fun s => set_net_name (b ++ drop 15 (net_name s)) s) in
  con! c := vget net_set_count in
  vset net_set_count (s8 (c + 1)).
Definition DOS_5E : handler := fun l =>
  if AL l =? 0x00 then con! c := get_machine_name (FP_DS_DX l) in done_ (set_CX c l)
  else if AL l =? 0x01 then con_ set_machine_name (FP_DS_DX l) (CX l) in done_ l
  else con! t := redirect REM_PRINTSET l in ends (snd t) (Short (s16 (fst t))).
Definition DOS_5F : handler := fun l =>
  if (AL l =? 7) || (AL l =? 8) then
    con! c := in_h (get_cds_unvalidated (DL l)) in
    match c with
    | Some c =>
        if u16 (cdsDpb c) =? 0 then ends l (Error DE_INVLDDRV) else
        let f := if AL l =? 7 then Z.lor (cdsFlags c) CDSPHYSDRV else clear (cdsFlags c) CDSPHYSDRV in
        con_ in_k (kmod (fun s => set_CDSp (<[DL l := Cds (cdsCurrentPath c) f (cdsDpb c) (cdsStrtClst c)
                                                (cdsBackslashOffset c)]> (CDSp s)) s)) in
        done_ l
    | None => ends l (Error DE_INVLDDRV)
    end
  else
    con! t := redirect REM_DOREDIRECT l in
    let rc := s16 (fst t) in
    con_ (if negb (rc =? SUCCESS) then con_ crit_set (- rc) in SET_CARRY_FLAG else cret tt) in
    con_ wr_ram (putw r (- rc)) in
    ends l Real.

(** ** Languages *)

Definition DOS_63 : handler := fun l =>
  if AL l =? 0 then con! p := DosGetDBCS in done_ (set_SI (snd p + 2) (set_DS (fst p) l))
  else if (AL l =? 1) || (AL l =? 2) then done_ (set_AL 0xff l)
  else ends l (Error (-1)).
Definition DOS_65 : handler := fun l =>
  let al := AL l in
  if al =? 0x20 then con! c := DosUpChar (DL l) in done_ (set_DL c l)
  else if al =? 0x21 then con_ up_ram DosUpMem (FP_DS_DX l) (CX l) in done_ l
  else if al =? 0x22 then con_ up_str DosUpMem (FP_DS_DX l) in done_ l
  else if al =? 0xa0 then con! c := in_p (DosUpFChar (DL l)) in done_ (set_DL c l)
  else if al =? 0xa1 then con_ up_ram DosUpFMem (FP_DS_DX l) (CX l) in done_ l
  else if al =? 0xa2 then con_ up_str DosUpFMem (FP_DS_DX l) in done_ l
  else if al =? 0x23 then con! c := DosYesNo (DL l) in done_ (set_AX c l)
  else con! rc := get_data al (BX l) (DX l) (CX l) (FP_ES_DI l) in ends l (Short rc).
Definition DOS_66 : handler := fun l =>
  if AL l =? 1 then con! t := DosGetCodepage in done_ (set_DX (snd t) (set_BX (fst t) l))
  else if AL l =? 2 then
    con! rc := DosSetCodepage (BX l) (DX l) in
    if negb (rc =? SUCCESS) then ends l (Error rc) else done_ l
  else ends l Invalid.

(** ** Serial numbers, long names *)

Definition DOS_69 : handler := fun l =>
  con! s := iget in
  let drive := if BL l =? 0 then default_drive (pth (hs s)) else BL l - 1 in
  if 2 <=? AL l then ends l Invalid else
  con! c := in_k (get_cds drive) in
  match c with
  | None => ends l (Error DE_INVLDDRV)
  | Some _ =>
      con! dpbp := in_k (get_dpb drive) in
      if dpbp =? NULL then ends l Invalid else
      con! t := DosDevIOctl (set_AL 0x0d (set_CX (if AL l =? 0 then 0x0866 else 0x0846) l)) in
      ends (set_CX (CX l) (snd t)) (Short (fst t))
  end.
Definition unsupp (l : lregs) : I (lregs * exit) := ends (set_AL 0 l) Carry.
(** The frame goes to INT 2Fh and is put back if nobody answers. *)
Definition DOS_71 : handler := fun l =>
  if negb ((AL l =? 0x42) || (AL l =? 0xa6)) then unsupp l else
  con! p := in_h cur_psp in
  if ps_maxfiles p <=? BX l then ends l (Error DE_INVLDHNDL) else
  con! idx := in_h (filetab p (BX l)) in
  con! f := in_h (in_use idx) in
  match f with
  | None => ends l (Error DE_INVLDHNDL)
  | Some f =>
      if negb (has (sft_flags f) SFT_FSHARED) && negb (AL l =? 0x42) then unsupp l else
      con! saved := frame in
      let regs := i_regs saved in
      let call := Iregs (set_AH 0x11 regs) (BP saved) (IP saved) (CS saved) (setf (FLAGS saved) FLG_CARRY) in
      con! out := in_k (kworld (intr_2f call)) in
      if negb (has (FLAGS out) FLG_CARRY) then
        con_ wr_ram (put_iregs r (Iregs (set_ES (ES regs) (set_DI (DI regs) (i_regs out))) (BP out) (IP out) (CS out) (FLAGS out))) in
        ends l Real
      else con_ wr_ram (put_iregs r saved) in unsupp l
  end.
End Int21.
End Int21.
