(* ===== verification/Service.v ===== *)
(** * The dispatcher (kernel/inthndlr.c)

    [int21_service]: the frame at [r] becomes a copy of the registers, the
    function that AH names works on it, and [leave] puts it back with the carry
    flag and the error code.  Also the functions for FAT32 volumes,
    [int21_syscall] for the calls that have no stack of the kernel, and
    [int2526_handler] for sectors. *)

From S2P Require Import Prelude Memmgr KState BlockIO FatTab FNode FatAlloc Clock Media FatDir FatFile FatRw.
From S2P Require Import Path Handle Calls Chario Fcb Far Sys Ioctl Nls Task Int21.
Import Mm Ks Bio Fat FNode Alloc Clk Media Dir File Rw Path Handle Calls Chario Fcb Far Sys Ioctl Nls Task Int21.

Module Service.

(** ** Parameter blocks in memory (hdr/dcb.h, hdr/device.h) *)

Definition le_ptr (p : ptr) : list Z := le16 (snd p) ++ le16 (fst p).
(** Before [dpb_next] and behind it. *)
Definition dpb_head (d : dpb) : list Z :=
  [u8 (dpb_unit d); u8 (dpb_subunit d)] ++ le16 (dpb_secsize d) ++ [u8 (dpb_clsmask d); u8 (dpb_shftcnt d)]
  ++ le16 (dpb_fatstrt d) ++ [u8 (dpb_fats d)] ++ le16 (dpb_dirents d) ++ le16 (dpb_data d) ++ le16 (dpb_size d)
  ++ le16 (dpb_fatsize d) ++ le16 (dpb_dirstrt d) ++ le_ptr (unflat (dpb_device d))
  ++ [u8 (dpb_mdb d); u8 (dpb_flags d)].
Definition dpb_tail (d : dpb) : list Z :=
  le16 (dpb_cluster d) ++ le32 (dpb_xnfreeclst d) ++ le16 (dpb_xflags d) ++ le16 (dpb_xfsinfosec d)
  ++ le16 (dpb_xbackupsec d) ++ le32 (dpb_xdata d) ++ le32 (dpb_xsize d) ++ le32 (dpb_xfatsize d)
  ++ le32 (dpb_xrootclst d) ++ le32 (dpb_xcluster d).
Definition NEXT_AT := 25.
Definition TAIL_AT := 29.
Definition SIZEOF_DPB := 61.
Definition dpb_at (m : umem) (p : ptr) : dpb :=
  let b i := getb m (far_add p i) in
  let w i := getw m (far_add p i) in
  let l i := getl m (far_add p i) in
  Dpb (s8 (b 0)) (s8 (b 1)) (w 2) (b 4) (b 5) (w 6) (b 8) (w 9) (w 11) (w 13) (w 15) (w 17) (flat (getp m (far_add p 19)))
    (b 23) (s8 (b 24)) (w 29) (l 31) (w 35) (w 37) (w 39) (l 41) (l 45) (l 49) (l 53) (l 57).
Definition put_dpb (p : ptr) (d : dpb) (m : umem) : umem :=
  store (lin (far_add p TAIL_AT)) (dpb_tail d) (store (lin p) (dpb_head d) m).
Definition bpb_at (m : umem) (p : ptr) : bpb :=
  let b i := getb m (far_add p i) in
  let w i := getw m (far_add p i) in
  let l i := getl m (far_add p i) in
  Bpb (w 0) (b 2) (w 3) (b 5) (w 6) (w 8) (b 10) (w 11) (w 13) (w 15) (l 17) (l 21) (l 25) (w 29) (w 31) (l 33) (w 37) (w 39).

(** [struct xdpbdata], [xfreespace] and [xdpbforformat] (hdr/xstructs.h). *)
Definition SIZEOF_XDPBDATA := 63.
Definition SIZEOF_XFREESPACE := 44.
Definition SIZEOF_XDPBFORFORMAT := 24.
Definition xfs_bytes (x : xfreespace) : list Z :=
  le16 SIZEOF_XFREESPACE ++ le16 0 ++ le32 (xfs_clussize x) ++ le32 (xfs_secsize x) ++ le32 (xfs_freeclusters x)
  ++ le32 (xfs_totalclusters x) ++ le32 (xfs_freesectors x) ++ le32 (xfs_totalsectors x) ++ le32 (xfs_freeunits x)
  ++ le32 (xfs_totalunits x).
Definition DE_INVLDBUF := -24.
Definition BT_BPB := 0x0b.
Definition BPB_XFLAGS := 29.
Definition BPB_XROOTCLST := 33.
Definition DE_INVLDPARM := -0x57.

(** What AH=7302h adds to the copy of a block that is not extended. *)
Definition xdpb_fill (d c : dpb) : dpb :=
  if negb (ISFAT32 d) && negb (dpb_xsize d =? dpb_size d) then
    let c := set_xnfreeclst (u16 (dpb_xnfreeclst c) + (if u16 (dpb_xnfreeclst d) =? 0xffff then 0xffff else 0) * 65536) c in
    let c := set_xfatsize (dpb_fatsize d) (dpb16to32 c) in
    set_xcluster (if dpb_cluster d =? 0xffff then 0xffffffff else dpb_cluster d) c
  else c.

Definition set_ErrorMode v (c : con) : con :=
  Con (linebuf c) (inputptr c) (ubuf c) (PrinterEcho c) (scr_pos c) (CB_FLG c) (InDOS c) v (syscon c) (user_AH c).

Section Service.
Context {M : Machine} {Sh : Shell} {R : Redirector} {Cn : Console} {Dr : Driver} {Mx : Mux} {Lk : Link} {Nt : Net}.
Context (k : svc) (fuel : nat) (r : ptr).

(** ** FAT32 volumes *)

(** The parameter block is read again. *)
Definition reread (dpbp : Z) : I Z :=
  con! d := in_k (Ks.dget dpbp) in
  con! _ := in_k (flush_buffers (dpb_unit d)) in
  con_ in_k (dmod dpbp (set_dpb_flags M_CHANGED)) in
  in_k (media_check dpbp).

Definition fat32_xdpb (l : lregs) : I Z :=
  if CX l <? SIZEOF_XDPBDATA then cret DE_INVLDBUF else
  con! t := in_h (GetDriveDPB (DL l)) in
  let '(dpbp, rc) := t in
  if negb (rc =? SUCCESS) then cret rc else
  con! rc := reread dpbp in
  if rc <? 0 then cret DE_INVLDDRV else
  con! d := in_k (Ks.dget dpbp) in
  let p := FP_ES_DI l in
  con_ poke (far_add p 2) (dpb_head (xdpb_fill d d) ++ le_ptr (dpb_next dpbp) ++ dpb_tail (xdpb_fill d d)) in
  con_ poke p (le16 SIZEOF_DPB) in
  cret SUCCESS.

Definition fat32_free (l : lregs) : I Z :=
  if CX l <? SIZEOF_XFREESPACE then cret DE_INVLDBUF else
  let p := FP_ES_DI l in
  con_ poke p (le16 SIZEOF_XFREESPACE ++ replicate (Z.to_nat (SIZEOF_XFREESPACE - 2)) 0) in
  con! name := rd_ram (fun m => [getb m (FP_DS_DX l); getb m (far_add (FP_DS_DX l) 1)]) in
  con! t := in_h (DosGetExtFree name) in
  con_ (match snd t with Some x => poke p (xfs_bytes x) | None => cret tt end) in
  cret (fst t).

(** The members of [xdpbforformat] behind its header. *)
Definition XDFF_1 := 8.
Definition XDFF_2 := 12.
Definition set_counts (nfreeclst cluster dpbp : Z) : I Z :=
  con! d := in_k (Ks.dget dpbp) in
  if ISFAT32 d then
    if ((dpb_xfsinfosec d =? 0xffff) && (negb (nfreeclst =? 0) || negb (cluster =? 0)))
       || (nfreeclst =? 1) || (dpb_xsize d <? nfreeclst) || (cluster =? 1) || (dpb_xsize d <? cluster)
    then cret DE_INVLDPARM else
    con_ in_k (dmod dpbp (fun d => set_xcluster cluster (set_xnfreeclst nfreeclst d))) in
    con_ in_k (write_fsinfo dpbp) in
    cret SUCCESS
  else
    let n := u16 nfreeclst in
    let c := u16 cluster in
    if (n =? 1) || (dpb_size d <? n) || (c =? 1) || (dpb_size d <? c) then cret DE_INVLDPARM else
    con_ in_k (dmod dpbp (fun d => set_cluster c (set_nfreeclst n d))) in
    cret SUCCESS.
Definition rebuild_dpb (dpbp : Z) : I Z :=
  con! rc := reread dpbp in cret (if rc <? 0 then DE_INVLDDRV else SUCCESS).

(** The member of the boot sector's parameter block that functions 3 and 4
    set.  The code does not look whether there is a buffer. *)
Definition patch_bpb (mirroring : bool) (value dsk : Z) : I unit :=
  con! bp := in_k (getblock 1 dsk) in
  if bp =? NULL then istuck else
  con_ in_k (bmod bp (flag_off (Z.lor (Z.lor BFR_DATA BFR_DIR) BFR_FAT))) in
  con_ in_k (bmod bp (flag_on (Z.lor BFR_VALID BFR_DIRTY))) in
  in_k (bput bp (if mirroring then fputword (BT_BPB + BPB_XFLAGS) (u16 value)
                 else fputlong (BT_BPB + BPB_XROOTCLST) value)).
Definition NO_VALUE := 0xffffffff.
Definition set_get (mirroring : bool) (p : ptr) (dpbp : Z) : I Z :=
  con! d := in_k (Ks.dget dpbp) in
  if negb (ISFAT32 d) then cret DE_INVLDPARM else
  con! value := rd_ram (fun m => getl m (far_add p XDFF_1)) in
  let bad := if mirroring then negb (Z.land value (Z.lnot 0x8f) =? 0) else (value <? 2) || (dpb_xsize d <? value) in
  if negb (value =? NO_VALUE) && bad then cret DE_INVLDPARM else
  con_ wr_ram (putl (far_add p XDFF_2) (if mirroring then dpb_xflags d else dpb_xrootclst d)) in
  con_ (if negb (value =? NO_VALUE) then patch_bpb mirroring value (dpb_unit d) else cret tt) in
  rebuild_dpb dpbp.

Definition fat32_format (l : lregs) : I Z :=
  if CX l <? SIZEOF_XDPBFORFORMAT then cret DE_INVLDBUF else
  con! t := in_h (GetDriveDPB (DL l)) in
  let '(dpbp, rc) := t in
  if negb (rc =? SUCCESS) then cret rc else
  let p := FP_ES_DI l in
  con_ wr_ram (fun m => putw (far_add p 2) 0 (putw p SIZEOF_XDPBFORFORMAT m)) in
  con! f := rd_ram (fun m => getw m (far_add p 4)) in
  if f =? 0x00 then
    con! n := rd_ram (fun m => getl m (far_add p XDFF_1)) in
    con! c := rd_ram (fun m => getl m (far_add p XDFF_2)) in
    set_counts n c dpbp
  else if f =? 0x01 then
    con! b := rd_ram (fun m => bpb_at m (getp m (far_add p XDFF_2))) in
    con_ in_k (kworld (fun w => (tt, set_ddt_bpb (DL l) b w))) in
    rebuild_dpb dpbp
  else if f =? 0x02 then rebuild_dpb dpbp
  else if f =? 0x03 then set_get true p dpbp
  else if f =? 0x04 then set_get false p dpbp
  else cret DE_INVLDFUNC.

(** A transfer of sectors between a drive and the memory of a program. *)
Definition user_xfer (dsk blkno : Z) (p : ptr) (n mode : Z) : I Z :=
  con! dpbp := in_k (get_dpb dsk) in
  con! secsize := (if dpbp =? NULL then cret 0 else con! d := in_k (Ks.dget dpbp) in cret (dpb_secsize d)) in
  con! buf := rd_ram (fun m => load m (lin p) (Z.to_nat (u16 n * secsize))) in
  con! t := in_k (dskxfer dsk blkno (fst p) buf (u16 n) mode) in
  con_ poke p (snd t) in
  cret (fst t).
(** The block number, the number of blocks and the pointer. *)
Definition huge_block (m : umem) (p : ptr) : Z * Z * ptr :=
  (getl m p, getw m (far_add p 4), getp m (far_add p 6)).

Definition fat32_sectors (l : lregs) : I (Z * lregs) :=
  con! h := rd_ram (fun m => huge_block m (DS l, BX l)) in
  let '(blkno, nblks, buf) := h in
  if negb (CX l =? 0xffff) || negb (Z.land (SI l) (Z.lnot 0x6001) =? 0) then cret (DE_INVLDPARM, l) else
  con! s := iget in
  if (lastdrive (env (ks s)) <? DL l) || (DL l =? 0) then cret (-0x207, l) else
  let mode := if Z.land (SI l) 1 =? 0 then DSKREADINT25 else DSKWRITEINT26 in
  con! rc := user_xfer (DL l - 1) blkno buf nblks mode in
  let l := set_AX rc l in
  con_ (if (mode =? DSKWRITEINT26) && (AX l =? 0) then in_k (setinvld (DL l - 1)) else cret tt) in
  cret (if 0 <? AX l then -0x20c else SUCCESS, l).

Definition int21_fat32 (l : lregs) : I (Z * lregs) :=
  let with_l (m : I Z) : I (Z * lregs) := con! rc := m in cret (rc, l) in
  if AL l =? 0x02 then with_l (fat32_xdpb l)
  else if AL l =? 0x03 then with_l (fat32_free l)
  else if AL l =? 0x04 then with_l (fat32_format l)
  else if AL l =? 0x05 then fat32_sectors l
  else cret (DE_INVLDFUNC, l).
Definition DOS_73 : lregs -> I (lregs * exit) := fun l =>
  con_ CLEAR_CARRY_FLAG r in
  con_ crit_set SUCCESS in
  con! t := int21_fat32 l in
  ends (snd t) (Short (fst t)).

(** The block at ES:BP is one of the kernel's or bytes of the program. *)
Definition DOS_53 : lregs -> I (lregs * exit) := fun l =>
  con! f := frame r in
  con! s := iget in
  let p := (ES l, BP f) in
  let x := (CX l =? 0x4558) && (DX l =? 0x4152) in
  let b := bpb_at (ram s) (DS l, SI l) in
  match dpbs (ks s) !! flat p with
  | Some _ => con_ in_k (bpb_to_dpb b (flat p) x) in done_ l
  | None =>
      con_ in_k (kmod (fun s' => set_dpbs (<[flat p := dpb_at (ram s) p]> (dpbs s')) s')) in
      con_ in_k (bpb_to_dpb b (flat p) x) in
      con! d := in_k (Ks.dget (flat p)) in
      con_ in_k (kmod (fun s' => set_dpbs (delete (flat p) (dpbs s')) s')) in
      con_ wr_ram (put_dpb p d) in
      done_ l
  end.

(** ** The functions by number *)

Definition answers_0 : lregs -> I (lregs * exit) := fun l => done_ (set_AL 0 l).
Definition functions : list (Z * (lregs -> I (lregs * exit))) := [
  (0x00, DOS_00); (0x01, DOS_01 k); (0x02, DOS_02 k); (0x03, DOS_03 k); (0x04, write_to k STDAUX);
  (0x05, write_to k STDPRN); (0x06, DOS_06 k r); (0x07, DOS_07 k); (0x08, DOS_08 k); (0x09, DOS_09 k);
  (0x0a, DOS_0A k fuel); (0x0b, DOS_0B); (0x0c, DOS_0C k fuel r); (0x0d, DOS_0D); (0x0e, DOS_0E);
  (0x0f, fcb_al (FcbOpen (Z.lor (Z.lor (Z.lor O_FCB O_LEGACY) O_OPEN) O_RDWR))); (0x10, fcb_al FcbClose);
  (0x11, fcb_al (FcbFindFirstNext true)); (0x12, fcb_al (FcbFindFirstNext false)); (0x13, fcb_al FcbDelete);
  (0x14, fcb_al (FcbReadWrite k fuel 1 XFR_READ)); (0x15, fcb_al (FcbReadWrite k fuel 1 XFR_WRITE));
  (0x16, fcb_al (FcbOpen (Z.lor (Z.lor (Z.lor (Z.lor O_FCB O_LEGACY) O_CREAT) O_TRUNC) O_RDWR)));
  (0x17, fcb_al FcbRename); (0x18, answers_0); (0x19, DOS_19); (0x1a, DOS_1A); (0x1b, DOS_1B); (0x1c, DOS_1C);
  (0x1d, answers_0); (0x1e, answers_0); (0x1f, DOS_32); (0x20, answers_0); (0x21, fcb_al (FcbRandomIO k fuel XFR_READ));
  (0x22, fcb_al (FcbRandomIO k fuel XFR_WRITE)); (0x23, fcb_al FcbGetFileSize); (0x24, DOS_24); (0x26, DOS_26 r);
  (0x27, fcb_block k fuel (Z.lor XFR_READ XFR_FCB_RANDOM)); (0x28, fcb_block k fuel (Z.lor XFR_WRITE XFR_FCB_RANDOM));
  (0x29, DOS_29); (0x2a, DOS_2A); (0x2b, DOS_2B); (0x2c, DOS_2C); (0x2d, DOS_2D); (0x2e, DOS_2E); (0x2f, DOS_2F);
  (0x30, DOS_30 r); (0x31, DOS_31); (0x32, DOS_32); (0x34, point_to adr_InDOS); (0x36, DOS_36); (0x37, DOS_37);
  (0x38, DOS_38); (0x39, dir_call 0x39); (0x3a, dir_call 0x3a); (0x3b, DOS_3B); (0x3c, DOS_3C); (0x3d, DOS_3D);
  (0x3e, DOS_3E); (0x3f, rw_call k fuel XFR_READ); (0x40, rw_call k fuel XFR_WRITE); (0x41, DOS_41); (0x42, DOS_42);
  (0x43, DOS_43); (0x44, DOS_44); (0x45, DOS_45); (0x46, DOS_46); (0x47, DOS_47); (0x48, DOS_48); (0x49, DOS_49);
  (0x4a, DOS_4A); (0x4b, DOS_4B k fuel r); (0x4c, DOS_4C); (0x4d, DOS_4D); (0x4e, DOS_4E); (0x4f, DOS_4F);
  (0x52, point_to adr_DPBp); (0x53, DOS_53); (0x54, DOS_54); (0x55, DOS_55); (0x56, DOS_56); (0x57, DOS_57);
  (0x58, DOS_58); (0x59, DOS_59); (0x5a, DOS_5A); (0x5b, DOS_5B); (0x5c, DOS_5C); (0x5d, DOS_5D r); (0x5e, DOS_5E r);
  (0x5f, DOS_5F r); (0x60, DOS_60); (0x61, answers_0); (0x63, DOS_63); (0x64, fun l => ends l Invalid); (0x65, DOS_65);
  (0x66, DOS_66); (0x67, DOS_67); (0x68, DOS_68); (0x69, DOS_69); (0x6a, DOS_68); (0x6b, answers_0); (0x6c, DOS_6C);
  (0x71, DOS_71 r); (0x73, DOS_73)].

Fixpoint find_fn {A} (ah : Z) (t : list (Z * A)) : option A :=
  match t with
  | [] => None
  | (n, f) :: t => if n =? ah then Some f else find_fn ah t
  end.
Definition function (ah : Z) : lregs -> I (lregs * exit) := default answers_0 (find_fn ah functions).

(** ** A call *)

Definition clear_errors (ah : Z) : I unit :=
  if clears ah then
    con_ CLEAR_CARRY_FLAG r in
    if negb (ah =? 0x59) then crit_set SUCCESS else cret tt
  else cret tt.
Definition resets_ErrorMode (ah : Z) : bool := (0x0c <? ah) && negb (ah =? 0x30) && negb (ah =? 0x59).
Definition break_check (ah : Z) : I unit :=
  con! b := vget break_ena in
  if negb (b =? 0) || checks_break ah then
    con! s := iget in con! _ := in_c (check_handle_break k (syscon (cn (cs s)))) in cret tt
  else cret tt.

(** A server call starts again with the registers that it was given. *)
Fixpoint dispatch (n : nat) (l : lregs) : I (lregs * exit) :=
  match n with
  | O => istuck
  | S n =>
      con_ clear_errors (AH l) in
      con_ (if resets_ErrorMode (AH l) then in_c (cmod (set_ErrorMode false)) else cret tt) in
      con_ break_check (AH l) in
      con! t := function (AH l) l in
      match snd t with Again => dispatch n (fst t) | _ => cret t end
  end.

(** The labels behind the switch; the result is the frame of a program that
    the processor goes to instead of returning. *)
Definition put_back (l : lregs) : I (option ptr) := con_ wr_ram (put_lregs r l) in cret None.
Definition error_carry (l : lregs) : I (option ptr) := con_ SET_CARRY_FLAG r in put_back l.
Definition error_exit (rc : Z) (l : lregs) : I (option ptr) :=
  let l := set_AX (- rc) l in
  con! c := crit_get in
  con_ (if c =? SUCCESS then crit_set (AX l) else cret tt) in
  error_carry l.
Definition short_check (rc : Z) (l : lregs) : I (option ptr) := if rc <? SUCCESS then error_exit rc l else put_back l.
Definition leave (t : lregs * exit) : I (option ptr) :=
  let '(l, e) := t in
  match e with
  | Exit => put_back l
  | Long lrc => if SUCCESS <=? lrc then put_back (set_AX lrc l) else short_check (s16 lrc) l
  | Short rc => short_check rc l
  | Invalid => error_exit DE_INVLDFUNC l
  | Error rc => error_exit rc l
  | Carry => error_carry l
  | Real => cret None
  | Again => istuck
  | User irp => cret (Some irp)
  end.

Definition int21_service (n : nat) : I (option ptr) :=
  con! s := iget in
  con_ wr_ram (putp (cur s, ps_stack) r) in
  con! f := frame r in
  con! t := dispatch n (i_regs f) in
  leave t.

(** The calls on the stack of the program. *)
Definition int21_syscall : I unit :=
  con! f := frame r in
  let l := i_regs f in
  con_ vset Int21AX (AX l) in
  let put l' := wr_ram (put_iregs r (Iregs l' (BP f) (IP f) (CS f) (FLAGS f))) in
  if AH l =? 0x33 then
    let al := AL l in
    if (al =? 0x00) || (al =? 0x01) then
      con_ (if al =? 0x01 then vset break_ena (Z.land (DL l) 1) else cret tt) in
      con! b := vget break_ena in
      put (set_DL b l)
    else if al =? 0x02 then
      con! b := vget break_ena in
      con_ vset break_ena (Z.land (DL l) 1) in
      put (set_DL b l)
    else if al =? 0x05 then con! b := vget BootDrive in put (set_DL b l)
    else if al =? 0x06 then
      con! s := iget in
      con! mi := vget os_minor in
      con! vf := vget version_flags in
      put (set_DH vf (set_DL 0 (set_BH mi (set_BL (os_major (pth (hs s))) l))))
    else if al =? 0xfa then con! c := vget CPULevel in put (set_AL c l)
    else if al =? 0xfc then con_ vset os_setver_major (s8 (BL l)) in vset os_setver_minor (s8 (BH l))
    else if al =? 0xff then put (set_AX (snd adr_os_release) (set_DX (fst adr_os_release) l))
    else put (set_AL 0xff l)
  else if AH l =? 0x50 then in_h (kmod (set_cu_psp (BX l)))
  else if (AH l =? 0x51) || (AH l =? 0x62) then con! s := iget in put (set_BX (cur s) l)
  else cret tt.

(** ** INT 25h and INT 26h *)

(** The registers that the function looks at and those that it sets. *)
Record int25regs := I25 { i_ax : Z; i_bx : Z; i_cx : Z; i_dx : Z; i_ds : Z; i_flags : Z }.
Definition i25_result (ax : Z) (carry : bool) (g : int25regs) : int25regs :=
  I25 ax (i_bx g) (i_cx g) (i_dx g) (i_ds g) (if carry then setf (i_flags g) FLG_CARRY else clear (i_flags g) FLG_CARRY).
Definition indos_add (n : Z) : I unit := in_c (cmod (fun s => set_InDOS (u8 (InDOS s + n)) s)).

Definition int2526_handler (mode : Z) (g : int25regs) : I int25regs :=
  let mode := if mode =? 0x26 then DSKWRITEINT26 else DSKREADINT25 in
  let drv := Z.land (i_ax g) 0x7f in
  con! dpbp := in_k (get_dpb drv) in
  con! s := iget in
  if (lastdrive (env (ks s)) <=? drv) || (dpbp =? NULL) then cret (i25_result 0x201 true g) else
  con! d := in_k (Ks.dget dpbp) in
  if negb (i_dx g =? 0) && ISFAT32 d && negb (dpb_xfatsize d =? 0) then cret (i25_result 0x207 true g) else
  con! m := rd_ram id in
  let '(blkno, nblks, buf) :=
    if i_cx g =? 0xffff then huge_block m (i_ds g, i_bx g) else (i_dx g, i_cx g, (i_ds g, i_bx g)) in
  con_ indos_add 1 in
  con_ (if mode =? DSKWRITEINT26 then con! _ := in_k (DeleteBlockInBufferCache blkno blkno drv XFR_WRITE) in cret tt
        else cret tt) in
  con! rc := user_xfer drv blkno buf nblks mode in
  con_ (if negb (u16 rc =? 0) && (mode =? DSKWRITEINT26) then in_k (setinvld drv) else cret tt) in
  con_ indos_add (-1) in
  cret (i25_result (u16 rc) (negb (u16 rc =? 0)) g).
End Service.
End Service.
