(* ===== verification/DirSpec.v ===== *)
(** * Directory entries: lemmas

    The layout of an entry, the loops of the name conversion, and the runs of
    the entry operations through the cache, which DirProps states. *)

From S2P Require Import Prelude KState BlockIO FatTab FNode FatAlloc Media FatDir Disk Ring.
From S2P Require Import CacheSpec CacheOps FatPure FatSpec FatWrite Table FatChain AllocSpec.
From S2P Require Import MapSpec.
Import Ks Bio Fat FNode Alloc Dir Dsk Ring Cache CacheOps FatPure FatSpec FatWrite Table Chain AllocSpec
  MapSpec.

Module DirSpec.

(** ** The bytes of an entry *)

(** Every member is in the range of its C type. *)
Record entry_ok (e : dirent) : Prop := EntryOk {
  eo_name : length (dir_name e) = 11%nat;
  eo_bytes : Forall byte (dir_name e);
  eo_attrib : 0 <= dir_attrib e < 256;
  eo_case : 0 <= dir_case e < 256;
  eo_crtimems : 0 <= dir_crtimems e < 256;
  eo_crtime : 0 <= dir_crtime e < 65536;
  eo_crdate : 0 <= dir_crdate e < 65536;
  eo_accdate : 0 <= dir_accdate e < 65536;
  eo_start_high : 0 <= dir_start_high e < 65536;
  eo_time : 0 <= dir_time e < 65536;
  eo_date : 0 <= dir_date e < 65536;
  eo_start : 0 <= dir_start e < 65536;
  eo_size : 0 <= dir_size e < 4294967296 }.

Lemma long_get v :
  0 <= v < 4294967296 ->
  Z.lor (Z.lor (u8 v) (Z.shiftl (u8 (Z.shiftr v 8)) 8))
    (Z.shiftl (Z.lor (u8 (Z.shiftr v 16)) (Z.shiftl (u8 (Z.shiftr (Z.shiftr v 16) 8)) 8)) 16) = v.
Proof.
  intros Hv. pose proof (u8_range v). pose proof (u8_range (Z.shiftr v 8)).
  rewrite (lor_shift (u8 v) _ 8) by (lia || apply u8_range).
  rewrite word_halves by (rewrite Z.shiftr_div_pow2 by lia; change (2 ^ 16) with 65536; divmod).
  rewrite lor_shift by lia. unfold u8. rewrite !Z.shiftr_div_pow2 by lia.
  change (2 ^ 8) with 256. change (2 ^ 16) with 65536. divmod.
Qed.

Lemma dirent_bytes_length e : length (dir_name e) = 11%nat -> length (dirent_bytes e) = 32%nat.
Proof. intros H. unfold dirent_bytes. rewrite !length_app, H. reflexivity. Qed.

Lemma fgetbyte_mid pre bs post k :
  0 <= k < Z.of_nat (length bs) ->
  fgetbyte (pre ++ bs ++ post) (Z.of_nat (length pre) + k) = fgetbyte bs k.
Proof.
  intros Hk. unfold fgetbyte. rewrite !(proj2 (Z.ltb_ge _ 0)) by lia.
  rewrite lookup_app_r by lia. rewrite lookup_app_l by lia. f_equal. lia.
Qed.

Lemma getdirent_mid pre bs post :
  length bs = 32%nat -> getdirent (pre ++ bs ++ post) (Z.of_nat (length pre)) = getdirent bs 0.
Proof.
  intros Hl. unfold getdirent, fgetlong, fgetword. rewrite <- !Z.add_assoc.
  rewrite !fgetbyte_mid by lia. cbn [Z.add].
  assert (take 11 (drop (Z.to_nat (Z.of_nat (length pre))) (pre ++ bs ++ post)) =
          take 11 (drop (Z.to_nat 0) bs)) as ->; [|done].
  rewrite Nat2Z.id, drop_app_length, take_app_le by lia. done.
Qed.

Lemma getdirent_bytes e : entry_ok e -> getdirent (dirent_bytes e) 0 = Some e.
Proof.
  intros [Hn ? ? ? ? ? ? ? ? ? ? ? ?]. destruct e as [n a c ms ct cd ad sh t da st sz]. cbn [dir_name] in Hn.
  do 12 (destruct n as [|? n]; try discriminate Hn).
  set (W v := Z.lor (u8 v) (Z.shiftl (u8 (Z.shiftr v 8)) 8)).
  transitivity (Some (Dirent [z; z0; z1; z2; z3; z4; z5; z6; z7; z8; z9] (u8 a) (u8 c) (u8 ms) (W ct) (W cd)
    (W ad) (W sh) (W t) (W da) (W st) (Z.lor (W sz) (Z.shiftl (W (Z.shiftr sz 16)) 16)))); [reflexivity|].
  unfold W. rewrite long_get by done. by rewrite !word_halves, !u8_small.
Qed.

Lemma putdirent_spec e l i :
  entry_ok e -> 0 <= i -> i + DIRENT_SIZE <= Z.of_nat (length l) ->
  exists l', putdirent i e l = Some l' /\ getdirent l' i = Some e /\ length l' = length l /\
    forall j, j < i \/ i + DIRENT_SIZE <= j -> fgetbyte l' j = fgetbyte l j.
Proof.
  intros He Hi Hl.
  pose proof (dirent_bytes_length e (eo_name _ He)) as Hb. unfold DIRENT_SIZE in *.
  unfold putdirent, fmemcpy, DIRENT_SIZE. rewrite Hb.
  rewrite (proj2 (Z.leb_le 0 i)), (proj2 (Z.leb_le (i + _) _)) by done. cbn [andb Z.leb Z.of_nat].
  rewrite (take_ge (dirent_bytes e)) by (apply Nat.eq_le_incl, Hb).
  assert (Hp : length (take (Z.to_nat i) l) = Z.to_nat i) by (rewrite length_take; lia).
  eexists. split; [reflexivity|]. split; [|split].
  - rewrite <- (getdirent_bytes e He), <- (getdirent_mid (take (Z.to_nat i) l) _ (drop (Z.to_nat (i + 32)) l)) by done.
    f_equal. lia.
  - rewrite !length_app, Hb, Hp, length_drop. lia.
  - intros j Hj. unfold fgetbyte. destruct (j <? 0) eqn:E; [done|]. zbool.
    destruct Hj as [Hj|Hj].
    + rewrite lookup_app_l by lia. apply lookup_take_lt. lia.
    + rewrite lookup_app_r by lia. rewrite lookup_app_r by lia. rewrite lookup_drop. f_equal. lia.
Qed.

Lemma dirent_bytes_byte e : entry_ok e -> Forall byte (dirent_bytes e).
Proof.
  intros He. unfold dirent_bytes, long_bytes, word_bytes.
  repeat (apply Forall_app; split); try apply (eo_bytes _ He); repeat constructor; apply u8_range.
Qed.

Lemma putdirent_sector e l i l' :
  entry_ok e -> is_sector l -> putdirent i e l = Some l' -> is_sector l'.
Proof.
  intros He [Hl Hb] H. pose proof (dirent_bytes_length e (eo_name _ He)) as H32.
  unfold putdirent, fmemcpy, DIRENT_SIZE in H. destruct (_ && _) eqn:E; [|done]. zbool. injection H as <-.
  rewrite H32 in *. split.
  - rewrite !length_app, !length_take, length_drop, H32. lia.
  - repeat (apply Forall_app; split); [by apply Forall_take|apply Forall_take; by apply dirent_bytes_byte|].
    by apply Forall_drop.
Qed.

(** ** Names *)

Lemma inserts_app {A} (pre k mid post : list A) :
  length k = length mid -> list_inserts (length pre) k (pre ++ mid ++ post) = pre ++ k ++ post.
Proof.
  intros Hl. rewrite <- (Nat.add_0_r (length pre)), list_inserts_app_r. f_equal.
  by apply list_inserts_0_r.
Qed.

(** A name without its blanks, and the blanks. *)
Lemma trimmed_blanks n : exists k, n = trimmed n ++ replicate k SPACE.
Proof.
  induction n as [|c n [k IH]]; [by exists 0%nat|]. cbn [trimmed].
  destruct (trimmed n) as [|x t].
  - cbn [app] in IH. subst n. destruct (c =? SPACE) eqn:Ec; zbool; [exists (S k)|exists k]; [|done].
    by rewrite Ec.
  - exists k. by rewrite IH.
Qed.

(** A character that a name may have. *)
Definition plain (c : Z) : Prop := c <> DOT /\ c <> BACKSLASH.

(** The loop copies plain characters. *)
Lemma name83_copy name i fcb rest :
  Forall plain name -> 0 <= i -> i + Z.of_nat (length name) <= FCB_SIZE ->
  name83_loop fcb i (name ++ rest) =
    name83_loop (list_inserts (Z.to_nat i) name fcb) (i + Z.of_nat (length name)) rest.
Proof.
  revert i fcb. induction name as [|c name IH]; intros i fcb Hp Hi Hl.
  { cbn [length Z.of_nat app list_inserts]. by rewrite Z.add_0_r. }
  inversion_clear Hp as [|? ? [Hd Hb] Hp']. cbn [length] in Hl.
  cbn [app name83_loop]. rewrite (proj2 (Z.ltb_lt i FCB_SIZE)) by lia.
  rewrite (proj2 (Z.eqb_neq c DOT)), (proj2 (Z.eqb_neq c BACKSLASH)) by done.
  rewrite IH by (done || lia). cbn [list_inserts length].
  replace (Z.to_nat (i + 1)) with (S (Z.to_nat i)) by lia.
  rewrite list_insert_inserts_lt by lia. f_equal. lia.
Qed.

(** The name ends at the end of the path or before a backslash. *)
Definition path_end (rest : list Z) : Prop :=
  match rest with [] => True | c :: _ => c = BACKSLASH end.

Lemma name83_stop fcb i rest : path_end rest -> name83_loop fcb i rest = (fcb, rest).
Proof.
  destruct rest as [|c rest]; cbn [name83_loop path_end]; [by destruct (_ <? _)|].
  intros ->. by destruct (_ <? _).
Qed.

Lemma plain_trimmed n : Forall plain n -> Forall plain (trimmed n).
Proof.
  destruct (trimmed_blanks n) as [k E]. intros H. rewrite E in H. by apply Forall_app in H as [H _].
Qed.

Lemma trimmed_length n : (length (trimmed n) <= length n)%nat.
Proof. destruct (trimmed_blanks n) as [k E]. apply (f_equal length) in E. rewrite length_app in E. lia. Qed.


(** ** Reading an entry never fails inside a sector *)

Lemma fgetbyte_some l i :
  Forall byte l -> 0 <= i < Z.of_nat (length l) -> exists b, fgetbyte l i = Some b /\ 0 <= b < 256.
Proof.
  intros Hl Hi. destruct (lookup_lt_is_Some_2 l (Z.to_nat i)) as [b Hb]; [lia|].
  exists b. unfold fgetbyte. rewrite (proj2 (Z.ltb_ge i 0)) by lia. split; [done|].
  by apply (Forall_lookup_1 _ _ _ _ Hl Hb).
Qed.

Lemma fgetword_some l i :
  Forall byte l -> 0 <= i -> i + 1 < Z.of_nat (length l) -> exists w, fgetword l i = Some w /\ 0 <= w < 65536.
Proof.
  intros Hl Hi Hi'. destruct (fgetbyte_some l i Hl ltac:(lia)) as (a & Ha & Hra).
  destruct (fgetbyte_some l (i + 1) Hl ltac:(lia)) as (b & Hb & Hrb).
  unfold fgetword. rewrite Ha, Hb. eexists. split; [done|]. rewrite lor_shift by lia. lia.
Qed.

Lemma fgetlong_some l i :
  Forall byte l -> 0 <= i -> i + 3 < Z.of_nat (length l) -> exists w, fgetlong l i = Some w /\ 0 <= w < 4294967296.
Proof.
  intros Hl Hi Hi'. destruct (fgetword_some l i Hl ltac:(lia) ltac:(lia)) as (a & Ha & Hra).
  destruct (fgetword_some l (i + 2) Hl ltac:(lia) ltac:(lia)) as (b & Hb & Hrb).
  unfold fgetlong. rewrite Ha, Hb. eexists. split; [done|]. rewrite lor_shift by lia. lia.
Qed.

Lemma getdirent_some l i :
  Forall byte l -> 0 <= i -> i + 32 <= Z.of_nat (length l) ->
  exists e, getdirent l i = Some e /\ entry_ok e.
Proof.
  intros Hl Hi Hi'. unfold getdirent.
  destruct (fgetbyte_some l (i + 11) Hl ltac:(lia)) as (? & -> & ?).
  destruct (fgetbyte_some l (i + 12) Hl ltac:(lia)) as (? & -> & ?).
  destruct (fgetbyte_some l (i + 13) Hl ltac:(lia)) as (? & -> & ?).
  destruct (fgetword_some l (i + 14) Hl ltac:(lia) ltac:(lia)) as (? & -> & ?).
  destruct (fgetword_some l (i + 16) Hl ltac:(lia) ltac:(lia)) as (? & -> & ?).
  destruct (fgetword_some l (i + 18) Hl ltac:(lia) ltac:(lia)) as (? & -> & ?).
  destruct (fgetword_some l (i + 20) Hl ltac:(lia) ltac:(lia)) as (? & -> & ?).
  destruct (fgetword_some l (i + 22) Hl ltac:(lia) ltac:(lia)) as (? & -> & ?).
  destruct (fgetword_some l (i + 24) Hl ltac:(lia) ltac:(lia)) as (? & -> & ?).
  destruct (fgetword_some l (i + 26) Hl ltac:(lia) ltac:(lia)) as (? & -> & ?).
  destruct (fgetlong_some l (i + 28) Hl ltac:(lia) ltac:(lia)) as (? & -> & ?).
  eexists. split; [reflexivity|]. split; try done; cbn [dir_name].
  - rewrite length_take, length_drop. lia.
  - by apply Forall_take, Forall_drop.
Qed.

(** ** The mark of a deleted entry *)

Lemma swap_length n : length (swap_deleted n) = length n.
Proof. by destruct n. Qed.

Lemma swap_swap n : swap_deleted (swap_deleted n) = n.
Proof.
  destruct n as [|c n]; [done|]. cbn [swap_deleted]. f_equal.
  destruct ((c =? DELETED) || (c =? EXT_DELETED)) eqn:E; [|by rewrite E].
  apply orb_true_iff in E as [E|E]; apply Z.eqb_eq in E; by subst.
Qed.

Lemma swap_bytes n : Forall byte n -> Forall byte (swap_deleted n).
Proof.
  destruct n as [|c n]; [done|]. intros H. inversion_clear H as [|? ? Hc Hn].
  constructor; [|done]. destruct (_ || _); [apply u8_range|done].
Qed.

(** The entry as it is on the disk, with the mark [EXT_DELETED]. *)
Definition on_disk (e : dirent) : dirent := set_dir_name (swap_deleted (dir_name e)) e.

Lemma on_disk_twice e : on_disk (on_disk e) = e.
Proof. destruct e. unfold on_disk. cbn. by rewrite swap_swap. Qed.

Lemma on_disk_ok e : entry_ok e -> entry_ok (on_disk e).
Proof. intros []. split; try done; cbn; [by rewrite swap_length|by apply swap_bytes]. Qed.

(** ** Runs *)

Section Spec.
Context {M : Machine} {D : Disk}.

Lemma cache_fs s l v : cache s l -> cache (set_fs v s) l.
Proof. intros Hc. by apply (cache_evolves s). Qed.

Lemma mounted_fs s u p d v : mounted s u p d -> mounted (set_fs v s) u p d.
Proof. intros [Hg Hn Hp Hu Hr Hs Ha]. split; try done. by apply (get_dpb_frame u p s). Qed.

Lemma view_fs s l d blk v : view (set_fs v s) l d blk = view s l d blk.
Proof. done. Qed.

(** A buffer turned into a changed directory block with content [L]. *)
Definition dir_dirty (L : list Z) (b : buffer) : buffer :=
  flag_on (Z.lor BFR_DIR (Z.lor BFR_DIRTY BFR_VALID))
    (flag_off (Z.lor BFR_DATA BFR_FAT) (set_buffer L b)).
Definition dir_clean (b : buffer) : buffer :=
  flag_on (Z.lor BFR_DIR BFR_VALID) (flag_off (Z.lor BFR_DATA BFR_FAT) b).

Lemma dir_dirty_facts L b blk u :
  holds b blk u = true ->
  holds (dir_dirty L b) blk u = true /\ dirty (dir_dirty L b) = true /\
  has (b_flag (dir_dirty L b)) BFR_FAT = false.
Proof.
  intros (H1 & H2 & H3)%holds_true. split; [|split].
  - apply holds_true. split; [done|]. split; [|done]. unfold valid, dir_dirty.
    rewrite has_VALID, flag_on_bit. by rewrite orb_true_r.
  - unfold dir_dirty. rewrite dirty_bits, !flag_on_bit. by rewrite !orb_true_r.
  - unfold dir_dirty. rewrite has_FAT, flag_on_bit, flag_off_bit. by rewrite andb_false_r.
Qed.

Lemma dir_clean_facts b blk u :
  holds b blk u = true ->
  holds (dir_clean b) blk u = true /\ dirty (dir_clean b) = dirty b /\
  has (b_flag (dir_clean b)) BFR_FAT = false.
Proof.
  intros (H1 & H2 & H3)%holds_true. unfold valid in H2. rewrite has_VALID in H2. split; [|split].
  - apply holds_true. split; [done|]. split; [|done]. unfold valid, dir_clean.
    rewrite has_VALID, flag_on_bit. by rewrite orb_true_r.
  - unfold dir_clean. rewrite !dirty_bits, !flag_on_bit, !flag_off_bit, H2.
    change (Z.testbit (Z.lor BFR_DATA BFR_FAT) 5) with false.
    change (Z.testbit (Z.lor BFR_DATA BFR_FAT) 6) with false.
    change (Z.testbit (Z.lor BFR_DIR BFR_VALID) 6) with false.
    by rewrite !andb_true_r, !orb_false_r.
  - unfold dir_clean. rewrite has_FAT, flag_on_bit, flag_off_bit. by rewrite andb_false_r.
Qed.

(** An entry that lies in its sector. *)
Definition placed (n : f_node) : Prop := 0 <= f_diridx n < 16 /\ entry_ok (f_dir n).

Lemma placed_put n l :
  placed n -> is_sector l ->
  exists L, putdirent (f_diridx n * DIRENT_SIZE) (on_disk (f_dir n)) l = Some L /\ is_sector L /\
    getdirent L (f_diridx n * DIRENT_SIZE) = Some (on_disk (f_dir n)) /\
    forall j, j < f_diridx n * 32 \/ f_diridx n * 32 + 32 <= j -> fgetbyte L j = fgetbyte l j.
Proof.
  intros [Hi He] Hl. pose proof (on_disk_ok _ He) as He'. unfold DIRENT_SIZE in *.
  destruct (putdirent_spec (on_disk (f_dir n)) l (f_diridx n * 32) He') as (L & H1 & H2 & _ & H4).
  - lia.
  - destruct Hl as [-> _]. unfold DIRENT_SIZE, SECSIZE. lia.
  - exists L. split; [done|]. split; [by eapply putdirent_sector|]. done.
Qed.

Lemma set_fs_same (s : kst) : set_fs (fs s) s = s.
Proof. by destruct s. Qed.

(** The stores of [dir_write] to the buffer, as one update. *)
Lemma dir_put_run s fp bp d L u :
  f_dpb (fnode_of fp (fs s)) = u -> is_Some (bufs s !! bp) ->
  putdirent (f_diridx (fnode_of fp (fs s)) * DIRENT_SIZE) (on_disk (f_dir (fnode_of fp (fs s))))
    (b_buffer (bufs s !!! bp)) = Some L ->
  (do! dirmod fp on_disk in
   let! n := fn fp in
   do! (if false then bput bp (put_update d (f_dir n) (f_diridx n * DIRENT_SIZE))
        else bput bp (putdirent (f_diridx n * DIRENT_SIZE) (f_dir n))) in
   do! dirmod fp on_disk in
   do! bmod bp (flag_off (Z.lor BFR_DATA BFR_FAT)) in
   do! bmod bp (flag_on (Z.lor BFR_DIR (Z.lor BFR_DIRTY BFR_VALID))) in
   kret true) s = Some (true, set_bufs (upd bp (dir_dirty L) (bufs s)) s).
Proof.
  intros Hu Hb HL. unfold dirmod at 1. rewrite run_fnmod, run_fn. cbn [fs set_fs].
  rewrite fnode_upd_of. cbn [f_dir f_diridx set_f_dir].
  unfold bput. rewrite run_assoc, run_bget by done. rewrite run_assoc.
  replace (putdirent _ _ _) with (Some L) by (symmetry; destruct (fnode_of fp (fs s)); exact HL).
  rewrite run_opt, run_bmod by done. unfold dirmod. rewrite run_fnmod.
  rewrite run_bmod by (cbn [bufs set_bufs set_fs]; by apply upd_some).
  rewrite run_bmod by (cbn [bufs set_bufs set_fs]; by repeat apply upd_some).
  unfold kret. f_equal. f_equal. cbn [bufs fs set_bufs set_fs]. rewrite !upd_upd, fnode_upd_upd.
  rewrite (fnode_upd_id fp _ (fs s)); [by destruct s|].
  destruct (fnode_of fp (fs s)). cbn. unfold set_f_dir. cbn. by rewrite on_disk_twice.
Qed.

Lemma dir_write_spec s l u p d fp :
  cache s l -> mounted s u p d ->
  let n := fnode_of fp (fs s) in
  f_dpb n = p -> block_ok d (f_dirsector n) -> placed n ->
  exists L s' l', putdirent (f_diridx n * DIRENT_SIZE) (on_disk (f_dir n)) (view s l d (f_dirsector n)) = Some L /\
    dir_write fp s = Some (true, s') /\ cache s' l' /\ length l' = length l /\ ioframe s s' /\
    sector s' d (f_dirsector n) = L /\
    forall u' q' d' blk, mounted s u' q' d' -> block_ok d' blk ->
      view s' l' d' blk = if (u' =? u) && (blk =? f_dirsector n) then L else view s l d' blk.
Proof.
  intros Hc Hm n Hp Hb Hpl.
  destruct (getblk_spec s l u p d _ Hc Hm Hb)
    as (bp & s1 & Hr & Hin & Hnn & Hc1 & Hv1 & Hf1 & Hh1 & _ & Hbuf & _).
  assert (Hbl : bp ∈ lru bp l) by (by left).
  destruct (placed_put n (view s l d (f_dirsector n)) Hpl) as (L & HL & HsL & _); [by apply view_bytes|].
  assert (Hn1 : fnode_of fp (fs s1) = n) by (destruct Hf1 as (_ & _ & _ & _ & -> & _); done).
  destruct (dir_dirty_facts L _ _ _ Hh1) as (D1 & D2 & D3).
  destruct (store_spec s1 (lru bp l) bp u p d _ (dir_dirty L) Hc1 Hbl (mounted_frame _ _ _ _ _ Hf1 Hm) Hb Hh1)
    as [Hc2 Hv2]; [done|done|done|by rewrite D3|by rewrite D2|].
  destruct (flush_buffers_spec _ _ u Hc2) as (s3 & Hr3 & Hc3 & Hv3 & Hf3 & Hcl3).
  exists L, s3, (lru bp l). split; [done|].
  assert (Hrun : dir_write fp s = Some (true, s3)).
  { unfold dir_write, dir_write_update. cbn [negb orb]. rewrite run_fn. fold n.
    rewrite (run_fdpb fp d p) by (done || apply Hm). rewrite run_assoc, (mt_unit _ _ _ _ Hm).
    unfold getblock. rewrite (run_eq _ _ _ _ _ Hr), (proj2 (Z.eqb_neq _ _) Hnn).
    rewrite (run_eq _ _ s1 true (set_bufs (upd bp (dir_dirty L) (bufs s1)) s1)); [exact Hr3|].
    apply (dir_put_run s1 fp bp d L p); [by rewrite Hn1|eapply ring_live; [apply Hc1|done]|].
    by rewrite Hn1, Hbuf. }
  split; [done|]. split; [done|]. split; [apply lru_length; [by eapply cache_nodup|done]|].
  assert (Hf : ioframe s s3) by (eapply ioframe_trans; [exact Hf1|]; eapply ioframe_trans; [|exact Hf3]; done).
  split; [done|].
  assert (Hview : forall u' q' d' blk, mounted s u' q' d' -> block_ok d' blk ->
      view s3 (lru bp l) d' blk = if (u' =? u) && (blk =? f_dirsector n) then L else view s l d' blk).
  { intros u' q' d' blk Hm' Hb'. pose proof (mounted_frame _ _ _ _ _ Hf1 Hm') as Hm1.
    rewrite (Hv3 u' q' d' blk) by (done || by apply (mounted_frame s1)).
    rewrite (Hv2 u' q') by done. cbn [b_buffer dir_dirty flag_on flag_off set_flag set_buffer].
    destruct (_ && _); [done|]. by apply (Hv1 u' q'). }
  split; [|done].
  rewrite (clean_sector s3 (lru bp l) u p d _ Hc3 (mounted_frame _ _ _ _ _ Hf Hm) Hcl3), (Hview u p) by done.
  by rewrite !Z.eqb_refl.
Qed.

(** ** dir_read *)

(** The fnode after entry number [i] of a sector was read. *)
Definition loaded (e : dirent) (i : Z) (n : f_node) : f_node := set_f_dir e (set_f_diridx i n).
(** What [dir_read] returns: an entry, or the end mark of the directory. *)
Definition entry_rc (e : dirent) : Z := if default 0 (head (dir_name e)) =? 0 then 0 else 1.

(** The stores of [dir_read] to the buffer and the fnode. *)
Lemma dir_get_run s fp bp d entry e (p : Z) :
  is_Some (bufs s !! bp) -> dpb_secsize d = 512 -> 0 <= entry ->
  getdirent (b_buffer (bufs s !!! bp)) (entry mod 16 * DIRENT_SIZE) = Some e ->
  (do! bmod bp (flag_off (Z.lor BFR_DATA BFR_FAT)) in
   do! bmod bp (flag_on (Z.lor BFR_DIR BFR_VALID)) in
   let! per := kopt (entries_per_sector d) in
   do! fnmod fp (set_f_diridx (u8 (entry mod per))) in
   let! n := fn fp in
   let! b := bget bp in
   let! e := kopt (getdirent (b_buffer b) (f_diridx n * DIRENT_SIZE)) in
   do! fnmod fp (set_f_dir e) in
   do! dirmod fp on_disk in
   let! n := fn fp in
   kret (if name0 n =? 0 then 0 else 1)) s =
  Some (entry_rc (on_disk e), set_fs (fnode_upd fp (loaded (on_disk e) (entry mod 16)) (fs s))
                      (set_bufs (upd bp dir_clean (bufs s)) s)).
Proof.
  intros Hb Hs He HL. rewrite run_bmod by done.
  rewrite run_bmod by (cbn [bufs set_bufs]; by apply upd_some).
  cbn [bufs set_bufs]. rewrite upd_upd, set_bufs_twice. unfold entries_per_sector. rewrite Hs.
  change (512 / DIRENT_SIZE) with 16. cbn [Z.eqb]. rewrite run_opt, run_fnmod, run_fn.
  rewrite run_bget by (cbn [bufs set_fs set_bufs]; by apply upd_some). cbn [fs set_fs set_bufs bufs].
  rewrite fnode_upd_of, upd_total, decide_True by done. cbn [f_diridx set_f_diridx].
  rewrite u8_small by (pose proof (Z.mod_pos_bound entry 16); lia).
  replace (getdirent _ _) with (Some e) by (symmetry; exact HL).
  rewrite run_opt. unfold dirmod. rewrite !run_fnmod, run_fn. cbn [fs set_fs set_bufs].
  rewrite !fnode_upd_upd, fnode_upd_of. by destruct s, fp.
Qed.

Lemma dir_read_found s u p d fp entry s1 l1 :
  f_dpb (fnode_of fp (fs s)) = p -> dpbs s !! p = Some d ->
  dm_entry (dm_of (f_dmp (fnode_of fp (fs s))) (fs s)) = entry -> 0 <= entry < 65535 ->
  dir_locate fp entry s = Some (SUCCESS, s1) ->
  cache s1 l1 -> mounted s1 u p d ->
  let n := fnode_of fp (fs s1) in
  block_ok d (f_dirsector n) ->
  exists e s' l', getdirent (view s1 l1 d (f_dirsector n)) (entry mod 16 * DIRENT_SIZE) = Some e /\
    entry_ok e /\ dir_read fp s = Some (entry_rc (on_disk e), s') /\ cache s' l' /\ length l' = length l1 /\
    same_view s1 l1 s' l' /\ ioframe (set_fs (fs s') s1) s' /\
    fs s' = fnode_upd fp (loaded (on_disk e) (entry mod 16)) (fs s1).
Proof.
  intros Hp Hd Hdm He Hloc Hc Hm n Hb.
  destruct (getblk_spec s1 l1 u p d _ Hc Hm Hb)
    as (bp & s2 & Hr & Hin & Hnn & Hc2 & Hv2 & Hf2 & Hh2 & _ & Hbuf & _).
  pose proof (mounted_frame _ _ _ _ _ Hf2 Hm) as Hm2. pose proof Hf2 as (_ & _ & _ & _ & Hfs2 & _).
  assert (Hbl : bp ∈ lru bp l1) by (by left).
  destruct (dir_clean_facts _ _ _ Hh2) as (D1 & D2 & D3).
  destruct (store_same_view s2 (lru bp l1) bp u p d _ dir_clean Hc2 Hbl Hm2 Hb Hh2) as [Hc3 Hv3];
    [done|done|done|done|by rewrite D3|].
  destruct (view_bytes s1 l1 d (f_dirsector n) Hc) as [Hlen Hbytes].
  pose proof (Z.mod_pos_bound entry 16 ltac:(lia)) as Hmod.
  destruct (getdirent_some (view s1 l1 d (f_dirsector n)) (entry mod 16 * DIRENT_SIZE) Hbytes)
    as (e & Hge & Heo); [unfold DIRENT_SIZE; lia|rewrite Hlen; unfold DIRENT_SIZE, SECSIZE; lia|].
  set (s3 := set_bufs (upd bp dir_clean (bufs s2)) s2) in *.
  exists e, (set_fs (fnode_upd fp (loaded (on_disk e) (entry mod 16)) (fs s2)) s3), (lru bp l1).
  split; [done|]. split; [done|]. split.
  { unfold dir_read. rewrite (run_fdpb fp d p) by done. unfold dm. rewrite run_assoc, run_fn, run_assoc, run_get, run_ret.
    rewrite Hdm, (proj2 (Z.leb_gt 65535 entry)) by lia. rewrite (run_eq _ _ _ _ _ Hloc).
    change (negb (SUCCESS =? SUCCESS)) with false. cbn iota. rewrite run_fn. fold n.
    rewrite (mt_unit _ _ _ _ Hm). unfold getblock. rewrite (run_eq _ _ _ _ _ Hr), (proj2 (Z.eqb_neq _ _) Hnn).
    apply (dir_get_run s2 fp bp d entry e p); [eapply ring_live; [apply Hc2|done]|apply Hm|lia|by rewrite Hbuf]. }
  split; [by apply cache_fs|].
  split; [apply lru_length; [by eapply cache_nodup|done]|]. split.
  { intros u' q' d' blk Hm' Hb'. rewrite view_fs, (Hv3 u' q' d' blk (mounted_frame _ _ _ _ _ Hf2 Hm') Hb').
    by apply (Hv2 u' q'). }
  split; [|cbn [fs set_fs]; by rewrite Hfs2].
  destruct Hf2 as (A1 & A2 & A3 & A4 & A5 & A6). done.
Qed.

(** The table after [dir_read]. *)
Lemma tab_loaded s l u p d k T s' l' :
  tab s l u p d k T -> cache s' l' -> length l' = length l -> same_view s l s' l' ->
  ioframe (set_fs (fs s') s) s' -> tab s' l' u p d k T /\ roamed s l s' l' u d.
Proof.
  intros Ht Hc Hl Hv Hf. destruct (fs_spec s l u p d k T (fs s') Ht) as [Ht0 R0].
  assert (Hcm : calm (set_fs (fs s') s) l s' l').
  { split; [|by apply evolves_ioframe|done|apply Hf|done].
    intros u' q' d' blk Hm Hb. rewrite view_fs. apply (Hv u' q'); [|done]. by destruct Hm as [Hg ? ? ? ? ? ?];
      split; try done; apply (get_dpb_frame u' q' (set_fs (fs s') s)). }
  destruct Ht0 as [[Hc0 V0 Hl0] Ha0]. split.
  - eapply tab_calm; [split; [split; [exact Hc0|exact V0|exact Hl0]|exact Ha0]| |exact Hcm].
    split; [done|by eapply volume_ioframe|lia].
  - exact (roamed_trans _ _ _ _ _ _ _ d d R0 (moved_roamed _ _ _ _ _ _ (calm_moved _ _ _ _ u d Hcm)) eq_refl).
Qed.

(** ** Entries of a subdirectory *)

Lemma sector_in_cluster n d entry :
  f_offset n = entry * DIRENT_SIZE -> dpb_secsize d = 512 -> 0 <= entry ->
  0 <= dpb_shftcnt d <= 8 -> dpb_clsmask d = 2 ^ dpb_shftcnt d - 1 ->
  f_offset n / 512 = entry / 16 /\ sector_of n d = (entry / 16) mod 2 ^ dpb_shftcnt d.
Proof.
  intros Ho Hs He Hsh Hm.
  assert (E : f_offset n / 512 = entry / 16) by (rewrite Ho; unfold DIRENT_SIZE; divmod).
  split; [done|]. unfold sector_of. rewrite Hs, E, Hm, land_mask by lia. unfold u8.
  replace 256 with (2 ^ dpb_shftcnt d * 2 ^ (8 - dpb_shftcnt d)).
  - rewrite Z.rem_mul_r by (try lia; apply Z.pow_nonzero; lia).
    rewrite (Z.mul_comm (2 ^ dpb_shftcnt d) (_ mod _)), Z.mod_add by (apply Z.pow_nonzero; lia).
    apply Z.mod_mod, Z.pow_nonzero; lia.
  - rewrite <- Z.pow_add_r by lia. by replace (dpb_shftcnt d + (8 - dpb_shftcnt d)) with 8 by lia.
Qed.

Lemma dir_locate_sub s l u p d k T fp cs i entry :
  let n := fnode_of fp (fs s) in
  let st := dm_dircluster (dm_of (f_dmp n) (fs s)) in
  tab s l u p d k T -> hint_ok d -> f_dpb n = p -> st <> 0 -> 0 <= entry < 65535 ->
  0 <= dpb_shftcnt d <= 8 -> dpb_clsmask d = 2 ^ dpb_shftcnt d - 1 -> f_sft_idx n = 0xff ->
  chain (max_cluster d) T st cs -> cs !! i = Some (f_cluster n) -> f_cluster_offset n = Z.of_nat i ->
  let rel := Z.to_nat (entry / 16 / 2 ^ dpb_shftcnt d) in
  exists s' l', tab s' l' u p d k T /\ roamed s l s' l' u d /\
    match cs !! rel with
    | Some x => dir_locate fp entry s = Some (SUCCESS, s') /\
        fs s' = fnode_upd fp (fun n =>
          set_f_dirsector (u32 (clus2phys x d + (entry / 16) mod 2 ^ dpb_shftcnt d))
            (at_pos x rel (set_f_offset (entry * DIRENT_SIZE) n))) (fs s)
    | None => dir_locate fp entry s = Some (DE_SEEK, s')
    end.
Proof.
  intros n st Ht Hh Hp Hst Hent Hsh Hmask Hft Hch Hi Hoff rel.
  set (o := entry * DIRENT_SIZE). set (v := fnode_upd fp (set_f_offset o) (fs s)).
  destruct (fs_spec s l u p d k T v Ht) as [Ht0 R0]. set (s0 := set_fs v s) in *.
  assert (Hn0 : fnode_of fp (fs s0) = set_f_offset o n) by (apply fnode_upd_of).
  assert (Ho : 0 <= o < 2 ^ 32) by (unfold o, DIRENT_SIZE; lia).
  pose proof (mt_sec _ _ _ _ (v_mounted _ _ _ _ _ (r_volume _ _ _ _ _ _ (tb_ready _ _ _ _ _ _ _ Ht)))) as Hs.
  destruct (sector_in_cluster (set_f_offset o n) d entry eq_refl Hs ltac:(lia) Hsh Hmask) as [Eo _].
  assert (Erel : rel_of (fnode_of fp (fs s0)) d = rel).
  { rewrite Hn0. unfold rel_of. by rewrite Eo, Z.shiftr_div_pow2 by lia. }
  assert (Est : chain_start d (fnode_of fp (fs s0)) (fs s0) = st).
  { rewrite Hn0. unfold chain_start. cbn [f_sft_idx f_dmp set_f_offset fs s0 set_fs]. rewrite Hft.
    change (255 =? 255) with true. cbn iota. unfold v, st. by rewrite dm_upd_of. }
  destruct (map_read_spec s0 l u p d k T fp cs i Ht0 Hh) as (rc & s1 & l1 & x & j & Hr & Ht1 & R1 & Hfs1 & Hx & Hcase);
    [by rewrite Hn0|by rewrite Hn0|lia|by rewrite Est|by rewrite Hn0|by rewrite Hn0|].
  rewrite Erel in Hcase. pose proof (roamed_trans _ _ _ _ _ _ _ _ _ R0 R1 eq_refl) as R01.
  assert (Hloc : dir_locate fp entry s = kbind (map_cluster fp XFR_READ) (fun rc =>
      if negb (rc =? SUCCESS) then kret DE_SEEK else
      let! n := fn fp in
      let! d := fdpb fp in
      do! fnmod fp (set_f_dirsector (u32 (clus2phys (f_cluster n) d + sector_of n d))) in
      kret SUCCESS) s0).
  { unfold dir_locate, dm. rewrite run_assoc, run_fn, run_assoc, run_get, run_ret.
    rewrite (run_fdpb fp d p) by (done || by eapply tab_dpb). fold n st. rewrite (proj2 (Z.eqb_neq st 0)) by done.
    rewrite u32_small by (unfold DIRENT_SIZE; lia). by rewrite run_fnmod. }
  rewrite Hloc, (run_eq _ _ _ _ _ Hr). case_decide as Hlt; destruct Hcase as [-> ->].
  - rewrite Hx. change (negb (SUCCESS =? SUCCESS)) with false. cbn iota.
    assert (Hn1 : fnode_of fp (fs s1) = at_pos x rel (set_f_offset o n)) by (rewrite Hfs1, fnode_upd_of; by rewrite Hn0).
    rewrite run_fn, Hn1, (run_fdpb fp d p) by (rewrite ?Hn1; done || by eapply tab_dpb).
    destruct (sector_in_cluster (at_pos x rel (set_f_offset o n)) d entry eq_refl Hs ltac:(lia) Hsh Hmask) as [_ ->].
    rewrite run_fnmod. change (f_cluster (at_pos x rel (set_f_offset o n))) with x.
    set (blk := u32 _). destruct (fs_spec s1 l1 u p d k T (fnode_upd fp (set_f_dirsector blk) (fs s1)) Ht1) as [Ht2 R2].
    eexists _, l1. split; [exact Ht2|]. split; [exact (roamed_trans _ _ _ _ _ _ _ _ _ R01 R2 eq_refl)|].
    split; [done|]. cbn [fs set_fs]. rewrite Hfs1. cbn [fs s0 set_fs]. unfold v. by rewrite !fnode_upd_upd.
  - rewrite (lookup_ge_None_2 cs rel) by lia. change (negb (DE_SEEK =? SUCCESS)) with true. cbn iota.
    by exists s1, l1.
Qed.

End Spec.
End DirSpec.
