(* ===== verification/RamVol.v ===== *)
(** * A concrete kernel state on the RAM disk

    Three drives, with a FAT12, a FAT16 and a FAT32 volume, and a cache of
    three buffers: the state in which the theorems are tried out. *)

From S2P Require Import Prelude KState BlockIO FatTab FNode Disk Ring CacheSpec CacheOps FatPure.
From S2P Require Import FatSpec FatWrite Table FatChain.
Import Ks Bio Fat FNode Dsk Ring Cache CacheOps FatPure FatSpec FatWrite Table Chain.

Module RamVol.

(** ** The volumes *)

Definition P12 := 0x700010.
Definition P16 := 0x700050.
Definition P32 := 0x700090.

Definition d12 : dpb :=
  Dpb 0 0 512 0 0 1 2 16 6 400 2 5 1 0xf8 0 0 0xffffffff 0 0xffff 0xffff 6 400 0 0 0.
Definition d16 : dpb :=
  Dpb 1 1 512 0 0 1 2 16 42 5000 20 41 1 0xf8 0 0 0xffffffff 0 0xffff 0xffff 42 5000 0 0 0.
Definition d32 : dpb :=
  Dpb 2 2 512 0 0 32 2 0 34 0 0 0xffff 1 0xf8 0 0 0xffffffff 0 1 6 34 100 1 2 0.

(** The first sectors of the tables: in the FAT12 volume 2 -> 3, in the FAT16
    volume 2 -> 3 -> 4, in the FAT32 volume 2 alone. *)
Definition w0 : ramw :=
  Ramw {[ (1, 0, 1) := [0xf8; 0xff; 0xff; 0x03; 0xf0; 0xff];
          (1, 1, 1) := [0xf8; 0xff; 0xff; 0xff; 3; 0; 4; 0; 0xff; 0xff];
          (1, 2, 32) := [0xf8; 0xff; 0xff; 0x0f; 0xff; 0xff; 0xff; 0x0f; 0xff; 0xff; 0xff; 0x0f] ]}
    [0; 0; 0; 0; 0; 0].

(** ** The kernel *)

Definition zeros (n : nat) : list Z := replicate n 0.
Definition buf0 (next prev : Z) : buffer := Buffer next prev 0 0 0 0 0 0 (zeros 512).
Definition bufs0 : gmap Z buffer :=
  {[ 100 := buf0 200 300; 200 := buf0 300 100; 300 := buf0 100 200 ]}.
Definition l0 : list Z := [100; 200; 300].
Definition env0 : genv := Genv 3 {[ 1 := 0 ]} false LOC_CONV 0x60 ram_clock 0x70.
Definition bpb0 : bpb := Bpb 512 1 1 2 16 400 0xf8 2 1 1 0 0 0 0 0 0 0 0.
Definition rq0 : request := Request 0 0 0 0 0 0 0 0 1 bpb0.
Definition drv0 : drvio := Drvio rq0 rq0 0 (zeros 512) rq0 (zeros 6).
Definition cds0 (p : Z) : cds := Cds (zeros 67) CDSPHYSDRV p 0 2.
Definition dirent0 : dirent := Dirent (replicate 11 0x20) 0 0 0 0 0 0 0 0 0 0 0.
(** A directory fnode at cluster 2 of the volume with parameter block [p]. *)
Definition fn_at (p offset : Z) : f_node := FNode 0 sda_tmp_dm dirent0 0 0 p offset 0 2 0xff.
Definition dm0 : dmatch := Dmatch 0 (replicate 11 0x20) 0 0 2.
Definition fs0 (p offset : Z) : fsv := Fsv (fn_at p offset) (fn_at p offset) dm0 dm0 dirent0 [] false.

Definition ks (v : fsv) : @kst ram :=
  Kst ram env0 bufs0 100 3 {[ P12 := d12; P16 := d16; P32 := d32 ]}
    {[ 0 := cds0 P12; 1 := cds0 P16; 2 := cds0 P32 ]} drv0 v [] w0.

(** ** The state is well formed *)

Lemma mounted12 v : mounted (ks v) 0 P12 d12.
Proof. by split. Qed.
Lemma mounted16 v : mounted (ks v) 1 P16 d16.
Proof. by split. Qed.
Lemma mounted32 v : mounted (ks v) 2 P32 d32.
Proof. by split. Qed.

Lemma mounted_inv v u p d :
  mounted (ks v) u p d -> u = 0 /\ d = d12 \/ u = 1 /\ d = d16 \/ u = 2 /\ d = d32.
Proof.
  intros Hm. pose proof Hm as [Hg Hn Hp Hu Hr _ _].
  assert (Hu3 : u = 0 \/ u = 1 \/ u = 2).
  { unfold get_dpb, get_cds, kbind, kret in Hg. cbn [lastdrive env ks env0] in Hg.
    destruct (3 <=? u16 u) eqn:E; [injection Hg as <-; done|]. zbool.
    unfold u16 in E. Z.to_euclidean_division_equations; lia. }
  destruct Hu3 as [-> | [-> | ->]].
  - destruct (mounted_fun (ks v) 0 p d P12 d12) as [_ ->]; [done|apply mounted12|auto].
  - destruct (mounted_fun (ks v) 1 p d P16 d16) as [_ ->]; [done|apply mounted16|auto].
  - destruct (mounted_fun (ks v) 2 p d P32 d32) as [_ ->]; [done|apply mounted32|auto].
Qed.

Lemma buf0_ok v next prev : buf_ok (ks v) (buf0 next prev).
Proof.
  split; [|done]. split; [done|]. apply Forall_replicate. unfold byte. lia.
Qed.

Lemma in_l0 p : p ∈ l0 -> p = 100 \/ p = 200 \/ p = 300.
Proof. unfold l0. rewrite !elem_of_cons, elem_of_nil. tauto. Qed.

Lemma cache0 v : cache (ks v) l0.
Proof.
  split; try done.
  - split; [|split].
    + apply (bool_decide_eq_true_1 (NoDup l0)). vm_compute. reflexivity.
    + repeat constructor; by eexists.
    + repeat split; done.
  - unfold l0. rewrite !elem_of_cons, elem_of_nil. lia.
  - apply (proj1 (Nat.leb_le (length l0) ring_fuel)). vm_compute. reflexivity.
  - intros p [-> | [-> | ->]]%in_l0; apply buf0_ok.
  - intros p q [-> | [-> | ->]]%in_l0 _; done.
  - intros u1 p1 d1 u2 p2 d2 H1%mounted_inv H2%mounted_inv.
    destruct H1 as [[-> ->]|[[-> ->]|[-> ->]]], H2 as [[-> ->]|[[-> ->]|[-> ->]]]; done.
Qed.

Lemma volume12 v : volume (ks v) 0 P12 d12 FAT12.
Proof. split; [apply mounted12|try (repeat split; vm_compute; congruence)..]. Qed.
Lemma volume16 v : volume (ks v) 1 P16 d16 FAT16.
Proof. split; [apply mounted16|try (repeat split; vm_compute; congruence)..]. Qed.
Lemma volume32 v : volume (ks v) 2 P32 d32 FAT32.
Proof.
  split; [apply mounted32|try (repeat split; vm_compute; congruence)..].
  intros _ _. split; [split; [vm_compute; split; congruence|]|].
  - intros [H1 _]. vm_compute in H1. by apply H1.
  - intros [H1 _]. vm_compute in H1. by apply H1.
Qed.

Lemma ready12 v : ready (ks v) l0 0 P12 d12 FAT12.
Proof. split; [apply cache0|apply volume12|simpl; lia]. Qed.
Lemma ready16 v : ready (ks v) l0 1 P16 d16 FAT16.
Proof. split; [apply cache0|apply volume16|simpl; lia]. Qed.
Lemma ready32 v : ready (ks v) l0 2 P32 d32 FAT32.
Proof. split; [apply cache0|apply volume32|simpl; lia]. Qed.

End RamVol.
