(* ===== verification/ClockProps.v ===== *)
(** * The calendar of systime.c

    Dates from 1980 to 2099 against the Gregorian calendar, the loops of
    [DosGetDate] as the inverse of [DaysFromYearMonthDay], and setting and
    reading the clock through a driver that keeps what it is given. *)

From S2P Require Import Prelude KState BlockIO Clock FNode Disk RamVol.
Import Ks Bio Clk FNode Dsk RamVol.

Module ClkProps.

(** ** The Gregorian rule *)

Definition leap (y : Z) : bool :=
  (y mod 4 =? 0) && (negb (y mod 100 =? 0) || (y mod 400 =? 0)).
Definition month_days (y m : Z) : Z :=
  if m =? 2 then if leap y then 29 else 28
  else if (m =? 4) || (m =? 6) || (m =? 9) || (m =? 11) then 30 else 31.
Definition is_date (d : dosdate) : Prop :=
  1980 <= year d <= 2099 /\ 1 <= month d <= 12 /\ 1 <= monthday d <= month_days (year d) (month d).
Definition next_day (d : dosdate) : dosdate :=
  if monthday d <? month_days (year d) (month d) then Dosdate (year d) (month d) (monthday d + 1)
  else if month d <? 12 then Dosdate (year d) (month d + 1) 1
  else Dosdate (year d + 1) 1 1.

Lemma row_leap y : 1980 <= y <= 2100 ->
  is_leap_year_monthdays y = nth (if leap y then 1 else 0)%nat days [].
Proof.
  intros Hy. unfold is_leap_year_monthdays, leap.
  change 3 with (Z.ones 2). rewrite Z.land_ones by lia. change (2 ^ 2) with 4.
  destruct (y mod 4 =? 0) eqn:E4; simpl; [|done].
  destruct (y =? 2100) eqn:E; zbool; [by subst|].
  destruct (y mod 100 =? 0) eqn:E1; simpl; [|done]. zbool.
  assert (y = 2000) as -> by (Z.to_euclidean_division_equations; lia). done.
Qed.

(** The days before year [y]. *)
Definition start (y : Z) : Z := (y - 1980) * 365 + (y - 1980 + 3) / 4.

Lemma start_next y : 1980 <= y <= 2099 -> start (y + 1) = start y + (if leap y then 366 else 365).
Proof.
  intros Hy. unfold start, leap.
  destruct (y mod 4 =? 0) eqn:E; simpl.
  - destruct (y mod 100 =? 0) eqn:E1; simpl.
    + zbool. assert (y = 2000) as -> by (Z.to_euclidean_division_equations; lia). done.
    + zbool. Z.to_euclidean_division_equations; lia.
  - zbool. Z.to_euclidean_division_equations; lia.
Qed.

Lemma row_total y : 1980 <= y <= 2100 ->
  at_row (is_leap_year_monthdays y) 12 = Some (if leap y then 366 else 365).
Proof. intros Hy. rewrite row_leap by done. by destruct (leap y). Qed.

Lemma start_mono y y' : y <= y' -> start y <= start y'.
Proof. intros H. unfold start. Z.to_euclidean_division_equations; lia. Qed.

Lemma year_loop_spec fuel y0 y k :
  1980 <= y0 <= y -> y <= 2099 -> (Z.to_nat (y - y0) < fuel)%nat ->
  0 <= k < (if leap y then 366 else 365) ->
  year_loop fuel y0 (start y - start y0 + k) = Some (y, k).
Proof.
  revert y0. induction fuel as [|fuel IH]; intros y0 Hy0 Hy Hf Hk; [lia|].
  cbn [year_loop]. rewrite row_total by lia.
  destruct (decide (y0 = y)) as [->|Hne].
  - replace (start y - start y + k) with k by lia. by rewrite (proj2 (Z.leb_gt _ k)) by lia.
  - pose proof (start_next y0 ltac:(lia)) as Hn.
    pose proof (start_mono (y0 + 1) y ltac:(lia)).
    assert (start y <= 43800) by (pose proof (start_mono y 2099 ltac:(lia)); change (start 2099) with 43465 in *; lia).
    assert (0 <= start y0) by (pose proof (start_mono 1980 y0 ltac:(lia)); change (start 1980) with 0 in *; lia).
    destruct (leap y0) eqn:El.
    + rewrite (proj2 (Z.leb_le _ _)) by lia. rewrite u16_small by lia.
      rewrite u16_small by (destruct (leap y); lia).
      replace (start y - start y0 + k - 366) with (start y - start (y0 + 1) + k) by lia.
      apply IH; [lia|lia|lia|done].
    + rewrite (proj2 (Z.leb_le _ _)) by lia. rewrite u16_small by lia.
      rewrite u16_small by (destruct (leap y); lia).
      replace (start y - start y0 + k - 365) with (start y - start (y0 + 1) + k) by lia.
      apply IH; [lia|lia|lia|done].
Qed.

(** The two rows of the table, day by day. *)
Definition month_ok (lp : bool) (m d : Z) : bool :=
  let row := nth (if lp then 1 else 0)%nat days [] in
  match at_row row (m - 1) with
  | None => false
  | Some b =>
      match month_loop month_fuel row 1 (d - 1 + b) with
      | None => false
      | Some m' => (m' =? m) && (0 <=? b + d - 1) && (b + d - 1 <? (if lp then 366 else 365))
      end
  end.
Definition mdays (lp : bool) (m : Z) : Z :=
  if m =? 2 then if lp then 29 else 28
  else if (m =? 4) || (m =? 6) || (m =? 9) || (m =? 11) then 30 else 31.

Lemma month_table :
  forallb (fun lp => forallb (fun m => forallb (fun d =>
    (mdays lp (Z.of_nat m) <? Z.of_nat d) || month_ok lp (Z.of_nat m) (Z.of_nat d))
    (seq 1 31)) (seq 1 12)) [false; true] = true.
Proof. vm_compute. reflexivity. Qed.

Lemma month_ok_spec lp m d : 1 <= m <= 12 -> 1 <= d <= mdays lp m -> month_ok lp m d = true.
Proof.
  intros Hm Hd. pose proof month_table as H. rewrite forallb_forall in H.
  specialize (H lp ltac:(destruct lp; simpl; tauto)). rewrite forallb_forall in H.
  specialize (H (Z.to_nat m) ltac:(apply in_seq; lia)). rewrite forallb_forall in H.
  assert (mdays lp m <= 31) by (unfold mdays; repeat case_match; lia).
  specialize (H (Z.to_nat d) ltac:(apply in_seq; lia)). cbv beta in H.
  rewrite !Z2Nat.id in H by lia. rewrite (proj2 (Z.ltb_ge _ _)) in H by lia. done.
Qed.

Lemma days_of d :
  is_date d ->
  exists b k, at_row (is_leap_year_monthdays (year d)) (month d - 1) = Some b /\
    month_loop month_fuel (is_leap_year_monthdays (year d)) 1 k = Some (month d) /\
    k = monthday d - 1 + b /\ 0 <= k < (if leap (year d) then 366 else 365) /\
    DaysFromYearMonthDay (year d) (month d) (monthday d) = Some (start (year d) + k) /\
    0 <= start (year d) + k < 43830.
Proof.
  intros (Hy & Hm & Hd). pose proof (month_ok_spec (leap (year d)) (month d) (monthday d) Hm Hd) as H.
  unfold month_ok in H. rewrite <- row_leap in H by lia.
  unfold DaysFromYearMonthDay. rewrite (proj2 (Z.ltb_ge (year d) 1980)) by lia.
  destruct (at_row _ _) as [b|] eqn:Eb; [|done].
  destruct (month_loop _ _ _ _) as [m'|] eqn:El; [|done]. zbool. subst m'.
  exists b, (monthday d - 1 + b). split; [done|]. split; [done|]. split; [done|]. split; [lia|].
  assert (0 <= start (year d) <= 43465).
  { pose proof (start_mono (year d) 2099 ltac:(lia)). pose proof (start_mono 1980 (year d) ltac:(lia)).
    change (start 2099) with 43465 in *. change (start 1980) with 0 in *. lia. }
  assert (start (year d) = 43465 -> leap (year d) = false).
  { intros E. assert (year d = 2099) as ->; [|done].
    unfold start in E. Z.to_euclidean_division_equations; lia. }
  assert (0 <= start (year d) + (monthday d - 1 + b) < 43830) by (destruct (leap (year d)); lia).
  split; [|done]. f_equal. fold (start (year d)). unfold start in *. rewrite u16_small; lia.
Qed.

Lemma split_days_of d :
  is_date d -> exists n, DaysFromYearMonthDay (year d) (month d) (monthday d) = Some n /\
    0 <= n < 43830 /\ split_days n = Some d.
Proof.
  intros Hd. destruct (days_of d Hd) as (b & k & Hb & Hl & -> & Hk & Hn & Hr).
  destruct Hd as (Hy & Hm & Hd). eexists. split; [done|]. split; [done|]. unfold split_days.
  pose proof (year_loop_spec year_fuel 1980 (year d) (monthday d - 1 + b) ltac:(lia) ltac:(lia)
    ltac:(unfold year_fuel; lia) Hk) as E.
  replace (start (year d) - start 1980 + (monthday d - 1 + b)) with (start (year d) + (monthday d - 1 + b)) in E
    by (change (start 1980) with 0; lia).
  rewrite E, Hl, Hb.
  assert (month_days (year d) (month d) <= 31) by (unfold month_days; repeat case_match; lia).
  rewrite !u8_small by lia. f_equal. destruct d; cbn in *. f_equal. lia.
Qed.

Lemma valid_date_spec d : valid_date d = Some true <-> is_date d.
Proof.
  unfold valid_date, is_date, month_days.
  destruct (_ || _) eqn:E.
  - split; [done|]. intros (Hy & Hm & Hd).
    rewrite (proj2 (Z.ltb_ge (year d) _)), (proj2 (Z.ltb_ge 2099 _)), (proj2 (Z.ltb_ge (month d) _)),
      (proj2 (Z.ltb_ge 12 _)), (proj2 (Z.ltb_ge (monthday d) _)) in E by lia. done.
  - zbool. rewrite row_leap by lia. 
    assert (exists m, month d = m /\ (m = 1 \/ m = 2 \/ m = 3 \/ m = 4 \/ m = 5 \/ m = 6 \/
      m = 7 \/ m = 8 \/ m = 9 \/ m = 10 \/ m = 11 \/ m = 12)) as (m & -> & Hm) by (eexists; split; [done|lia]).
    destruct (leap (year d)); repeat destruct Hm as [->|Hm]; try subst m; cbn;
      (split; intros Hx; [apply (inj Some) in Hx; zbool; lia|f_equal; apply Z.leb_le; lia]).
Qed.

Lemma encode_date d :
  is_date d ->
  let v := u16 (DT_ENCODE (month d) (monthday d) (year d - EPOCH_YEAR)) in
  DT_YEAR v = year d - EPOCH_YEAR /\ DT_MONTH v = month d /\ DT_DAY v = monthday d.
Proof.
  intros (Hy & Hm & Hd) v. unfold v, DT_YEAR, DT_MONTH, DT_DAY, DT_ENCODE, EPOCH_YEAR.
  assert (month_days (year d) (month d) <= 31) by (unfold month_days; repeat case_match; lia).
  change 0x0f with (Z.ones 4). change 0x1f with (Z.ones 5). change 0x7f with (Z.ones 7).
  assert (Hs : forall x k, 0 <= k -> 0 <= x < 2 ^ k -> Z.land x (Z.ones k) = x).
  { intros x k Hk Hx. rewrite Z.land_ones by lia. by apply Z.mod_small. }
  rewrite (Hs (month d) 4), (Hs (monthday d) 5), (Hs (year d - 1980) 7) by lia.
  rewrite (Z.lor_comm (Z.shiftl (month d) 5)), (lor_shift (monthday d) (month d) 5) by lia.
  change (2 ^ 5) with 32. rewrite (lor_shift _ (year d - 1980) 9) by lia. change (2 ^ 9) with 512.
  rewrite u16_small by lia.
  rewrite !Z.shiftr_div_pow2, !Z.land_ones by lia.
  change (2 ^ 9) with 512. change (2 ^ 5) with 32. change (2 ^ 7) with 128. change (2 ^ 4) with 16.
  split; [|split]; Z.to_euclidean_division_equations; lia.
Qed.

(** ** A clock that keeps what it is given *)

Class ClockDriver {M : Machine} (dv : Z) := {
  kept : world -> list Z;
  clock_out rq buf w :
    r_command rq = C_OUTPUT -> length buf = 6%nat ->
    exists rq' w', execrh dv rq buf w = (rq', buf, w') /\ has (r_status rq') S_ERROR = false /\
      kept w' = buf;
  clock_in rq buf w :
    r_command rq = C_INPUT -> length buf = 6%nat ->
    exists rq' w', execrh dv rq buf w = (rq', kept w, w') /\ has (r_status rq') S_ERROR = false /\
      kept w' = kept w }.

#[export, refine] Instance ram_clock_driver : @ClockDriver ram ram_clock := {|
  kept := ram_clk : @world ram -> list Z |}.
Proof.
  - intros rq buf w Hc Hl. cbn [execrh ram]. unfold ram_execrh. rewrite Z.eqb_refl.
    unfold ram_clock_drv. rewrite Hc. change (C_OUTPUT =? C_INPUT) with false. rewrite Z.eqb_refl.
    eexists _, _. split; [reflexivity|]. by split.
  - intros rq buf w Hc Hl. cbn [execrh ram]. unfold ram_execrh. rewrite Z.eqb_refl.
    unfold ram_clock_drv. rewrite Hc, Z.eqb_refl. eexists _, _. split; [reflexivity|]. by split.
Defined.

Section Driver.
Context {M : Machine} (s0 : kst) {D : ClockDriver (clock (env s0))}.

(** The record in the kernel and the record in the clock are six bytes. *)
Definition clocked (s : kst) : Prop :=
  clock (env s) = clock (env s0) /\ length (ClkRecord (drv s)) = 6%nat.

(** One request that succeeds. *)
Lemma char_once fuel n command buf s rq' buf' w' :
  clock (env s) = clock (env s0) ->
  execrh (clock (env s0)) (char_command command (char_count n (CharReqHdr (drv s)))) buf (dev s) =
    (rq', buf', w') ->
  has (r_status rq') S_ERROR = false ->
  char_loop (S fuel) (clock (env s0)) n command buf s =
    Some ((r_count rq', buf'),
          set_drv (Drvio (IoReqHdr (drv s)) (MediaReqHdr (drv s)) (CritErrCode (drv s))
                     (deblock_buf (drv s)) rq' (ClkRecord (drv s))) (set_dev w' s)).
Proof.
  intros Hclk E Hst. cbn [char_loop].
  unfold CharRequest, call_execrh, set_charreq, kbind, kget, kmod, kret.
  cbn [CharReqHdr drv set_drv dev set_dev IoReqHdr MediaReqHdr CritErrCode deblock_buf ClkRecord].
  rewrite E. cbn [fst snd]. rewrite Hst. cbn [fst snd].
  change (SUCCESS =? 1) with false. rewrite Z.eqb_refl. done.
Qed.

Lemma driver_run s command buf' :
  clocked s ->
  (forall rq, r_command rq = command ->
     exists rq' w', execrh (clock (env s0)) rq (ClkRecord (drv s)) (dev s) = (rq', buf', w') /\
       has (r_status rq') S_ERROR = false /\ kept w' = buf') ->
  exists s', ExecuteClockDriverRequest command s = Some (tt, s') /\
    clock (env s') = clock (env s0) /\ ClkRecord (drv s') = buf' /\ kept (dev s') = buf' /\
    has (r_status (CharReqHdr (drv s'))) S_ERROR = false.
Proof.
  intros [Hclk Hlen] Hx.
  destruct (Hx (char_command command (char_count SIZEOF_CLOCKRECORD (CharReqHdr (drv s)))))
    as (rq' & w' & E & Hst & Hk); [done|].
  unfold ExecuteClockDriverRequest, BinaryCharIO. rewrite run_get, Hclk.
  change xfer_fuel with (S 255). unfold kbind at 1. rewrite (char_once _ _ _ _ s rq' buf' w' Hclk E Hst).
  eexists. split; [reflexivity|]. done.
Qed.

Lemma read_run s :
  clocked s -> exists s', ExecuteClockDriverRequest C_INPUT s = Some (tt, s') /\
    clock (env s') = clock (env s0) /\ ClkRecord (drv s') = kept (dev s) /\
    kept (dev s') = kept (dev s) /\ has (r_status (CharReqHdr (drv s'))) S_ERROR = false.
Proof.
  intros Hc. apply driver_run; [done|]. intros rq Hrq.
  destruct (clock_in rq (ClkRecord (drv s)) (dev s) Hrq) as (rq' & w' & ? & ? & ?); [apply Hc|].
  by exists rq', w'.
Qed.

Lemma write_run s :
  clocked s -> exists s', ExecuteClockDriverRequest C_OUTPUT s = Some (tt, s') /\
    clock (env s') = clock (env s0) /\ ClkRecord (drv s') = ClkRecord (drv s) /\
    kept (dev s') = ClkRecord (drv s) /\ has (r_status (CharReqHdr (drv s'))) S_ERROR = false.
Proof.
  intros Hc. apply driver_run; [done|]. intros rq Hrq.
  destruct (clock_out rq (ClkRecord (drv s)) (dev s) Hrq) as (rq' & w' & ? & ? & ?); [apply Hc|].
  by exists rq', w'.
Qed.

Lemma run_clk_put {A} f r (k : unit -> K kst A) s :
  f (ClkRecord (drv s)) = Some r ->
  exists s', kbind (clk_put f) k s = k tt s' /\ env s' = env s /\ dev s' = dev s /\
    ClkRecord (drv s') = r /\ CharReqHdr (drv s') = CharReqHdr (drv s).
Proof.
  intros Hf. unfold clk_put. rewrite run_assoc, run_get, run_assoc, Hf, run_opt.
  unfold set_clkrecord. rewrite run_mod. eexists. split; [reflexivity|]. by repeat split.
Qed.
End Driver.

Lemma six (l : list Z) :
  length l = 6%nat -> exists a b c d e f, l = [a; b; c; d; e; f].
Proof.
  destruct l as [|a [|b [|c [|d [|e [|f [|]]]]]]]; try done. intros _.
  by exists a, b, c, d, e, f.
Qed.

(** ** Properties *)

(** Days are counted as in the Gregorian calendar: 1 January 1980 is day
    0, [DosSetDate] accepts exactly the dates of 1980 to 2099, and the day
    after a date has the next number. *)
Theorem calendar_next (d : dosdate) (Hd : is_date d) (Hn : is_date (next_day d)) :
  valid_date d = Some true /\
  DaysFromYearMonthDay 1980 1 1 = Some 0 /\
  exists n, DaysFromYearMonthDay (year d) (month d) (monthday d) = Some n /\
    let d' := next_day d in
    DaysFromYearMonthDay (year d') (month d') (monthday d') = Some (n + 1).
Proof.
  split; [by apply valid_date_spec|]. split; [done|]. cbv zeta.
  destruct (days_of d Hd) as (b & k & Hb & _ & -> & Hk & -> & _).
  destruct (days_of _ Hn) as (b' & k' & Hb' & _ & -> & Hk' & -> & _).
  eexists. split; [done|]. f_equal. destruct Hd as (Hy & Hm & Hd).
  unfold next_day in *. destruct (monthday d <? month_days (year d) (month d)) eqn:E1.
  - cbn [year month monthday] in *. rewrite Hb in Hb'. injection Hb' as <-. lia.
  - zbool. assert (Em : monthday d = month_days (year d) (month d)) by lia. rewrite Em.
    destruct (month d <? 12) eqn:E2; cbn [year month monthday] in *; zbool.
    + rewrite row_leap in Hb, Hb' by lia. unfold month_days.
      assert (month d = 1 \/ month d = 2 \/ month d = 3 \/ month d = 4 \/ month d = 5 \/
        month d = 6 \/ month d = 7 \/ month d = 8 \/ month d = 9 \/ month d = 10 \/ month d = 11)
        as Hm' by lia.
      destruct (leap (year d)); repeat destruct Hm' as [E|Hm'];
        (rewrite E in * || rewrite Hm' in * );
        vm_compute in Hb, Hb'; apply (inj Some) in Hb, Hb'; subst; cbn; lia.
    + assert (month d = 12) as E12 by lia. rewrite E12 in *.
      rewrite start_next by lia. rewrite row_leap in Hb, Hb' by (destruct Hn as [? _]; cbn in *; lia).
      destruct (leap (year d)), (leap (year d + 1)); vm_compute in Hb, Hb'; apply (inj Some) in Hb, Hb'; subst; cbn; lia.
Qed.

Lemma calendar_next_witness :
  DaysFromYearMonthDay 2000 3 1 = Some 7365 /\ DaysFromYearMonthDay 2000 2 29 = Some 7364.
Proof.
  destruct (calendar_next (Dosdate 2000 2 29)) as (_ & _ & n & H1 & H2).
  - repeat split; vm_compute; congruence.
  - repeat split; vm_compute; congruence.
  - cbn in H1. injection H1 as <-. split; [exact H2|reflexivity].
Defined.

(** C31: A date that [DosSetDate] accepts is the date [DosGetDate] returns
    afterwards, with the right day of the week, when the clock driver keeps
    the record it is given; the stamp put in directory entries holds the
    same year, month and day. *)
Theorem DosSetDate_DosGetDate {M : Machine} (s : kst) {D : ClockDriver (clock (env s))} (d : dosdate)
  (Hd : valid_date d = Some true)
  (Hl : length (ClkRecord (drv s)) = 6%nat) (Hk : length (kept (dev s)) = 6%nat) :
  exists s', DosSetDate d s = Some (SUCCESS, s') /\
    (exists n s'', DaysFromYearMonthDay (year d) (month d) (monthday d) = Some n /\
       DosGetDate s' = Some ((Some d, (n + 2) mod 7), s'')) /\
    (exists v s'', dos_getdate s' = Some (v, s'') /\
       DT_YEAR v + 1980 = year d /\ DT_MONTH v = month d /\ DT_DAY v = monthday d).
Proof.
  pose proof (proj1 (valid_date_spec d) Hd) as Hdate.
  destruct (split_days_of d Hdate) as (n & Hn & Hr & Hs).
  destruct (read_run s s) as (s1 & Hr1 & Hc1 & Hrec1 & Hk1 & Hst1); [by split|].
  destruct (six _ Hk) as (a & b & c & e & f & g & Ek).
  unfold DosSetDate. rewrite Hd, run_opt. cbn [negb]. rewrite (run_eq _ _ _ _ _ Hr1), Hn, run_opt.
  destruct (run_clk_put (fputword 0 n) [u8 n; u8 (Z.shiftr n 8); c; e; f; g]
    (fun _ => do! ExecuteClockDriverRequest C_OUTPUT in clk_result) s1)
    as (s2 & Hp & Hc2 & Hd2 & Hrec2 & _); [by rewrite Hrec1, Ek|].
  rewrite Hp. clear Hp.
  destruct (write_run s s2) as (s3 & Hr3 & Hc3 & Hrec3 & Hk3 & Hst3).
  { split; [by rewrite Hc2|by rewrite Hrec2]. }
  rewrite (run_eq _ _ _ _ _ Hr3). rewrite Hrec2 in Hrec3, Hk3.
  destruct (read_run s s3) as (s4 & Hr4 & Hc4 & Hrec4 & Hk4 & Hst4); [split; [done|by rewrite Hrec3]|].
  assert (Hget : DosGetDate s3 = Some ((Some d, (n + 2) mod 7), s4)).
  { unfold DosGetDate. rewrite (run_eq _ _ _ _ _ Hr4). unfold clk_error.
    rewrite run_assoc, run_get, run_ret, Hst4, run_get. unfold clkDays. rewrite Hrec4, Hk3.
    change (fgetword [u8 n; u8 (Z.shiftr n 8); c; e; f; g] 0) with
      (Some (Z.lor (u8 n) (Z.shiftl (u8 (Z.shiftr n 8)) 8))).
    rewrite run_opt, word_halves, Hs, run_opt by lia. rewrite u16_small by lia.
    rewrite u8_small; [done|]. pose proof (Z.mod_pos_bound (n + 2) 7). lia. }
  exists s3. split; [|split].
  - unfold clk_result, clk_error. by rewrite run_assoc, run_get, run_ret, Hst3.
  - by exists n, s4.
  - destruct (encode_date d Hdate) as (E1 & E2 & E3). unfold dos_getdate. 
    rewrite (run_eq _ _ _ _ _ Hget). cbn [fst]. rewrite run_opt.
    eexists _, s4. split; [reflexivity|]. unfold EPOCH_YEAR in *. split; [lia|done].
Qed.

Lemma DosSetDate_DosGetDate_witness :
  exists s' s'' v s3, DosSetDate (Dosdate 2024 2 29) (ks (fs0 P12 0)) = Some (SUCCESS, s') /\
    DosGetDate s' = Some ((Some (Dosdate 2024 2 29), 4), s'') /\ dos_getdate s' = Some (v, s3) /\ DT_DAY v = 29.
Proof.
  destruct (DosSetDate_DosGetDate (ks (fs0 P12 0)) (D := ram_clock_driver) (Dosdate 2024 2 29))
    as (s' & H1 & (n & s'' & Hn & H2) & v & s3 & H3 & _ & _ & H4).
  - reflexivity.
  - reflexivity.
  - reflexivity.
  - exists s', s'', v, s3. split; [exact H1|]. vm_compute in Hn. injection Hn as <-.
    split; [exact H2|]. split; [exact H3|exact H4].
Defined.

End ClkProps.
