(* ===== verification/CacheProps.v ===== *)
(** * Properties of the block cache

    The promises of blockio.c to the file system code: a block is shown with
    its latest content, whichever buffers are evicted; the ring is in LRU
    order; flushing brings the device up to date; a drive can be dropped from
    the cache.  The last property shows a read error that leaves a buffer
    with the wrong content. *)

From S2P Require Import Prelude KState BlockIO FatTab Disk Ring CacheSpec CacheOps FatPure FatSpec.
From S2P Require Import RamVol.
Import Ks Bio Fat Dsk Ring Cache CacheOps FatPure FatSpec RamVol.

Module CacheProps.
Section Props.
Context {M : Machine} {D : Disk}.

(** ** setinvld *)

Definition dropped (u : Z) (b : buffer) : buffer := if b_unit b =? u then set_flag 0 b else b.

Lemma setinvld_run s l u :
  cache s l ->
  exists s', setinvld u s = Some (tt, s') /\ firstbuf s' = firstbuf s /\ ioframe s s' /\
    drv s' = drv s /\ dev s' = dev s /\ ring (bufs s') l /\
    (forall p, p ∈ l -> bufs s' !!! p = dropped u (bufs s !!! p)).
Proof.
  intros Hc. unfold setinvld.
  match goal with |- context [over_ring ?b true] =>
    destruct (over_ring_spec l b (fun dn ok s1 =>
      firstbuf s1 = firstbuf s /\ ioframe s s1 /\ drv s1 = drv s /\ dev s1 = dev s /\ ring (bufs s1) l /\
      (forall p, bufs s1 !!! p = if decide (p ∈ dn) then dropped u (bufs s !!! p) else bufs s !!! p))
      s true) as (ok & s' & Hr & Hf & Hfr & Hdr & Hde & Hri & Hb)
  end.
  - intros dn p rest ok s1 El (Hf & Hfr & Hdr & Hde & Hri & Hb).
    assert (Hp : p ∈ l) by (rewrite El; set_solver).
    assert (Hnd : NoDup l) by (by eapply ring_nodup).
    assert (Hpd : p ∉ dn).
    { rewrite El in Hnd. apply NoDup_app in Hnd as (_ & Hn & _). intros Hx. apply (Hn p Hx). by left. }
    assert (Hlive : is_Some (bufs s1 !! p)) by (by eapply ring_live).
    assert (Hbp : bufs s1 !!! p = bufs s !!! p) by (rewrite Hb; by rewrite decide_False).
    rewrite run_bget by done. rewrite Hbp. destruct (b_unit (bufs s !!! p) =? u) eqn:E.
    + rewrite run_bmod by done. eexists ok, _. split; [reflexivity|].
      split; [done|]. split; [done|]. split; [done|]. split; [done|]. split.
      { eapply ring_links; [|exact Hri]. by apply upd_links. }
      intros x. cbn [bufs set_bufs]. rewrite upd_total.
      destruct (decide (p = x)) as [<-|Hne].
      * rewrite decide_True by set_solver. rewrite Hbp. unfold dropped. by rewrite E.
      * rewrite Hb. destruct (decide (x ∈ dn)); [rewrite decide_True by set_solver; done|].
        by rewrite decide_False by set_solver.
    + rewrite run_ret. exists ok, s1. split; [done|]. do 5 (split; [done|]).
      intros x. rewrite Hb. destruct (decide (x ∈ dn)); [rewrite decide_True by set_solver; done|].
      destruct (decide (x = p)) as [->|].
      * rewrite decide_True by set_solver. unfold dropped. by rewrite E.
      * by rewrite decide_False by set_solver.
  - intros dn ok s1 (Hf & _ & _ & _ & Hri & _). split; [done|]. rewrite Hf. apply Hc.
  - apply Hc.
  - do 4 (split; [done|]). split; [apply Hc|]. intros p. by rewrite decide_False by set_solver.
  - exists s'. rewrite (run_eq _ _ _ _ _ Hr). split; [done|]. do 5 (split; [done|]).
    intros p Hp. by rewrite Hb, decide_True.
Qed.

Lemma dropped_valid u b : valid (dropped u b) = valid b && negb (b_unit b =? u).
Proof.
  unfold dropped, valid. destruct (b_unit b =? u); simpl; [by rewrite andb_false_r|by rewrite andb_true_r].
Qed.

Lemma dropped_holds u b blk u' : holds (dropped u b) blk u' = holds b blk u' && negb (u' =? u).
Proof.
  unfold holds, dropped. destruct (b_unit b =? u) eqn:E; zbool; cbn [b_blkno b_flag b_unit set_flag].
  - rewrite E. change (has 0 BFR_VALID) with false. rewrite andb_false_r. cbn [andb].
    rewrite (Z.eqb_sym u' u). by destruct (u =? u'); rewrite ?andb_false_r.
  - destruct (b_unit b =? u') eqn:E2; zbool; [|by rewrite !andb_false_r].
    subst u'. by rewrite (proj2 (Z.eqb_neq (b_unit b) u) E), !andb_true_r.
Qed.

Lemma setinvld_cache s l u :
  cache s l ->
  exists s', setinvld u s = Some (tt, s') /\ cache s' l /\ ioframe s s' /\ dev s' = dev s /\
    (forall p, p ∈ l -> bufs s' !!! p = dropped u (bufs s !!! p)).
Proof.
  intros Hc. destruct (setinvld_run s l u Hc) as (s' & Hr & Hf & Hfr & Hdr & Hde & Hri & Hb).
  exists s'. split; [done|]. split; [|done].
  split; rewrite ?Hf, ?Hdr; try apply Hc; try done.
  - intros p Hp. rewrite Hb by done. destruct (c_buf _ _ Hc _ Hp) as [Hs Hv].
    split; [unfold dropped; by destruct (_ =? _)|]. rewrite dropped_valid. intros [H1 H2]%andb_true_iff.
    unfold dropped. destruct (b_unit (bufs s !!! p) =? u); [done|].
    destruct (Hv H1) as (q & d & Hm & Hbl & Hfat & Hd). exists q, d.
    split; [by eapply mounted_frame|]. split; [done|]. split; [done|].
    unfold sector. by rewrite Hde.
  - intros p q Hp Hq. rewrite !Hb by done. rewrite !dropped_valid.
    intros [H1 _]%andb_true_iff [H2 _]%andb_true_iff. unfold dropped.
    destruct (_ =? u), (b_unit (bufs s !!! q) =? u); by apply (c_uniq _ _ Hc).
  - intros u1 p1 d1 u2 p2 d2 H1 H2. apply ioframe_sym in Hfr.
    apply (c_inj _ _ Hc u1 p1 d1 u2 p2 d2); by eapply mounted_frame.
Qed.

Lemma find_holder_dropped s s' l u blk u' :
  (forall p, p ∈ l -> bufs s' !!! p = dropped u (bufs s !!! p)) ->
  find_holder (bufs s') l blk u' = if u' =? u then None else find_holder (bufs s) l blk u'.
Proof.
  induction l as [|p l IH]; intros Hb; simpl; [by destruct (_ =? _)|].
  rewrite Hb, dropped_holds, IH by first [by left|intros q Hq; apply Hb; by right].
  destruct (u' =? u); simpl; [by rewrite andb_false_r|by rewrite andb_true_r].
Qed.

End Props.

(** ** Properties *)

(** C3: [getblock] returns a buffer with the content that the drive shows at
    the block, and whatever buffer it has to evict (a dirty one is written
    back first), every drive goes on to show the same at every block. *)
Theorem getblock_shows_view {M : Machine} {D : Disk} s l u q d blk
  (Hc : cache s l) (Hm : mounted s u q d) (Hb : block_ok d blk) :
  exists p s', getblock blk u s = Some (p, s') /\ p <> NULL /\ cache s' (lru p l) /\
    b_buffer (bufs s' !!! p) = view s l d blk /\
    forall u' q' d' blk', mounted s u' q' d' -> block_ok d' blk' ->
      view s' (lru p l) d' blk' = view s l d' blk'.
Proof.
  destruct (getblk_spec s l u q d blk Hc Hm Hb) as (p & s' & Hr & _ & Hnn & Hc' & Hv & _ & _ & _ & Hbuf & _).
  exists p, s'. split; [exact Hr|]. split; [done|]. split; [done|]. split; [done|].
  intros u' q' d' blk' Hm' Hb'. by apply (Hv u' q').
Qed.

Lemma getblock_shows_view_witness :
  exists p s', getblock 1 1 (ks (fs0 P16 0)) = Some (p, s') /\ take 6 (b_buffer (bufs s' !!! p)) = [0xf8; 0xff; 0xff; 0xff; 3; 0].
Proof.
  destruct (getblock_shows_view (ks (fs0 P16 0)) l0 1 P16 d16 1) as (p & s' & Hr & _ & _ & Hb & _).
  - apply cache0.
  - apply mounted16.
  - split; [vm_compute; split; congruence|intros [H1 _]; vm_compute in H1; by apply H1].
  - exists p, s'. split; [exact Hr|]. rewrite Hb. vm_compute. reflexivity.
Defined.

(** [searchblock] returns the buffer of the block if there is one, marked
    as cached, and else a buffer to replace, marked with BFR_UNCACHE: one that
    was marked before, or, when the newest buffer is a FAT sector and fewer
    than three are, the oldest that is not, or the oldest.  Either way that
    buffer becomes the newest of the ring, the others keep their order, and no
    content changes. *)
Theorem searchblock_lru {M : Machine} blkno dsk l (s : kst)
  (Hr : ring (bufs s) l) (Hf : firstbuf s = List.hd 0 l) (Hlen : (length l <= ring_fuel)%nat) :
  exists p m', searchblock blkno dsk s = Some (p, set_firstbuf p (set_bufs m' s)) /\
    p ∈ l /\ ring m' (p :: filter (fun x => x <> p) l) /\
    match find_holder (bufs s) l blkno dsk with
    | Some h => p = h /\ same_data (upd p (flag_off BFR_UNCACHE) (bufs s)) m'
    | None => p = victim (bufs s) l /\ same_data (upd p (flag_on BFR_UNCACHE) (bufs s)) m'
    end.
Proof.
  pose proof (searchblock_spec blkno dsk l s Hr Hf Hlen) as H.
  destruct (find_holder (bufs s) l blkno dsk) as [h|];
    destruct H as (Hin & m' & Hrun & Hri & Hd); eexists _, m'; by repeat (split; [done|]).
Qed.

Lemma searchblock_lru_witness :
  exists m', searchblock 1 1 (ks (fs0 P16 0)) =
    Some (300, set_firstbuf 300 (set_bufs m' (ks (fs0 P16 0)))) /\ ring m' [300; 100; 200].
Proof.
  destruct (searchblock_lru 1 1 l0 (ks (fs0 P16 0))) as (p & m' & Hr & _ & Hri & Hp).
  - apply (c_ring _ _ (cache0 _)).
  - reflexivity.
  - apply (c_len _ _ (cache0 (fs0 P16 0))).
  - assert (E : find_holder (bufs (ks (fs0 P16 0))) l0 1 1 = None) by (vm_compute; reflexivity).
    rewrite E in Hp. destruct Hp as [Hp _].
    assert (E2 : victim (bufs (ks (fs0 P16 0))) l0 = 300) by (vm_compute; reflexivity).
    rewrite E2 in Hp. subst p. exists m'. split; [exact Hr|exact Hri].
Defined.

(** C32: After [flush_buffers] no buffer of the drive is dirty and its device
    holds, at every block, what the drive showed before; nothing that any
    drive shows has changed. *)
Theorem flush_buffers_syncs {M : Machine} {D : Disk} s l u q d
  (Hc : cache s l) (Hm : mounted s u q d) :
  exists s', flush_buffers u s = Some (true, s') /\ cache s' l /\
    (forall p, p ∈ l -> b_unit (bufs s' !!! p) = u -> dirty (bufs s' !!! p) = false) /\
    (forall blk, block_ok d blk -> sector s' d blk = view s l d blk) /\
    forall u' q' d' blk, mounted s u' q' d' -> block_ok d' blk -> view s' l d' blk = view s l d' blk.
Proof.
  destruct (flush_buffers_spec s l u Hc) as (s' & Hr & Hc' & Hv & Hf & Hcl).
  exists s'. split; [done|]. split; [done|]. split; [done|]. split.
  - intros blk Hb. rewrite (clean_sector s' l u q d blk Hc' (mounted_frame _ _ _ _ _ Hf Hm) Hcl).
    by apply (Hv u q).
  - intros u' q' d' blk Hm' Hb'. by apply (Hv u' q').
Qed.

(** [setinvld] drops a drive from the cache: afterwards the drive shows
    what its device holds (changes that were not flushed are lost), the other
    drives show what they did, and no device is written. *)
Theorem setinvld_drops {M : Machine} {D : Disk} s l u q d
  (Hc : cache s l) (Hm : mounted s u q d) :
  exists s', setinvld u s = Some (tt, s') /\ cache s' l /\ dev s' = dev s /\
    (forall blk, view s' l d blk = sector s d blk) /\
    (forall u' q' d' blk, mounted s u' q' d' -> u' <> u -> view s' l d' blk = view s l d' blk).
Proof.
  destruct (setinvld_cache s l u Hc) as (s' & Hr & Hc' & Hf & Hde & Hb).
  exists s'. split; [done|]. split; [done|]. split; [done|]. split.
  - intros blk. unfold view. rewrite (find_holder_dropped s s' l u) by done.
    rewrite (mt_unit _ _ _ _ Hm), Z.eqb_refl. unfold sector. by rewrite Hde.
  - intros u' q' d' blk Hm' Hne. unfold view. rewrite (find_holder_dropped s s' l u) by done.
    rewrite (mt_unit _ _ _ _ Hm'), (proj2 (Z.eqb_neq u' u)) by done.
    destruct (find_holder (bufs s) l blk u') as [p|] eqn:E; [|unfold sector; by rewrite Hde].
    apply find_holder_in in E as [Hp Hh]. rewrite Hb by done.
    apply holds_true in Hh as (_ & _ & Hu). unfold dropped. by rewrite (proj2 (Z.eqb_neq _ _)) by congruence.
Qed.

(** A cached block 10 of drive 0 that was changed and not flushed, in the last
    buffer of the ring. *)
Definition block10 : buffer :=
  Buffer 100 200 0 (Z.lor BFR_VALID (Z.lor BFR_DATA BFR_DIRTY)) 10 0 0 0 (replicate 512 7).
Definition ks10 : @kst ram :=
  set_bufs (<[300 := block10]> bufs0) (ks (fs0 P12 0)).

Lemma buf0_ok10 next prev : buf_ok ks10 (buf0 next prev).
Proof. split; [|done]. split; [done|]. apply Forall_replicate. unfold byte. lia. Qed.

Lemma cache10 : cache ks10 l0.
Proof.
  assert (Hm : mounted ks10 0 P12 d12) by (apply (mounted_frame (ks (fs0 P12 0))); [done|apply mounted12]).
  split; try apply (cache0 (fs0 P12 0)).
  - split; [|split].
    + apply (bool_decide_eq_true_1 (NoDup l0)). vm_compute. reflexivity.
    + repeat constructor; by eexists.
    + repeat split; done.
  - intros p [-> | [-> | ->]]%in_l0;
      [change (bufs ks10 !!! 100) with (buf0 200 300); apply (buf0_ok10)
      |change (bufs ks10 !!! 200) with (buf0 300 100); apply (buf0_ok10)|].
    change (bufs ks10 !!! 300) with block10. split.
    + split; [done|]. apply Forall_replicate. unfold byte. lia.
    + intros _. exists P12, d12. split; [done|]. split; [|done].
      split; [vm_compute; split; congruence|]. intros [_ H1]. vm_compute in H1. done.
  - intros p q [-> | [-> | ->]]%in_l0 [-> | [-> | ->]]%in_l0; done.
  - assert (Hfr : ioframe ks10 (ks (fs0 P12 0))) by done.
    intros u1 p1 d1 u2 p2 d2 H1 H2. apply (c_inj _ _ (cache0 (fs0 P12 0)) u1 p1 d1 u2 p2 d2);
      by eapply (mounted_frame ks10).
Qed.

Lemma flush_buffers_syncs_witness :
  exists s', flush_buffers 0 ks10 = Some (true, s') /\ sector s' d12 10 = replicate 512 7 /\
    sector ks10 d12 10 = replicate 512 0.
Proof.
  destruct (flush_buffers_syncs ks10 l0 0 P12 d12) as (s' & Hr & _ & _ & Hs & _).
  - exact cache10.
  - apply (mounted_frame (ks (fs0 P12 0))); [done|apply mounted12].
  - exists s'. split; [exact Hr|]. rewrite Hs; [by split|].
    split; [vm_compute; split; congruence|]. intros [_ H1]. vm_compute in H1. done.
Defined.

Lemma setinvld_drops_witness :
  exists s', setinvld 0 ks10 = Some (tt, s') /\ view s' l0 d12 10 = replicate 512 0 /\
    view ks10 l0 d12 10 = replicate 512 7.
Proof.
  destruct (setinvld_drops ks10 l0 0 P12 d12) as (s' & Hr & _ & _ & Hs & _).
  - exact cache10.
  - apply (mounted_frame (ks (fs0 P12 0))); [done|apply mounted12].
  - exists s'. split; [exact Hr|]. rewrite Hs. by split.
Defined.

(** Two FAT sectors that one access needs are in different buffers: the
    second [getFATblock] never evicts the buffer of the first, whose content
    stays, so an entry that crosses a sector border is read and stored in
    both halves. *)
Theorem getFATblock_pair {M : Machine} {D : Disk} s l u p d k blk
  (Hc : cache s l) (V : volume s u p d k) (Hl : (2 <= length l)%nat)
  (Hb : in_fat d blk) (Hb' : in_fat d (blk + 1)) :
  exists bp s1 bp1 s2, getFATblock p blk s = Some (bp, s1) /\
    getFATblock p (blk + 1) s1 = Some (bp1, s2) /\ bp1 <> bp /\ bp <> NULL /\ bp1 <> NULL /\
    b_buffer (bufs s2 !!! bp) = view s l d blk /\ b_buffer (bufs s2 !!! bp1) = view s l d (blk + 1).
Proof.
  destruct (getFATblock_spec s l u p d k blk Hc V Hb)
    as (bp & s1 & Hr & Hbp & Hnn & Hc1 & Hv1 & Hf1 & Hh1 & Hu1 & Hfl1 & Hfat1 & Hbf1 & _ & _).
  pose proof (cache_nodup _ _ Hc) as Hnd.
  destruct (next_block s l u p d k blk bp s1 Hc1 (volume_ioframe _ _ _ _ _ _ Hf1 V) Hnd Hbp Hl
              Hh1 Hu1 Hfl1 Hf1 Hb')
    as (bp1 & s2 & Hr2 & Hne & Hnn1 & _ & _ & _ & _ & _ & _ & Hbf2 & Hd2).
  exists bp, s1, bp1, s2. split; [done|]. split; [done|]. split; [done|]. split; [done|]. split; [done|].
  split; [by rewrite (data_buffer _ _ Hd2)|]. rewrite Hbf2.
  by apply (same_view_fat s l s1 (lru bp l) u p d k V Hv1).
Qed.

Lemma getFATblock_pair_witness :
  exists bp s1 bp1 s2, getFATblock P12 1 (ks (fs0 P12 0)) = Some (bp, s1) /\
    getFATblock P12 2 s1 = Some (bp1, s2) /\ bp1 <> bp.
Proof.
  destruct (getFATblock_pair (ks (fs0 P12 0)) l0 0 P12 d12 FAT12 1)
    as (bp & s1 & bp1 & s2 & H1 & H2 & H3 & _).
  - apply cache0.
  - apply volume12.
  - simpl. lia.
  - vm_compute. split; congruence.
  - vm_compute. split; congruence.
  - exists bp, s1, bp1, s2. split; [exact H1|]. split; [exact H2|exact H3].
Defined.

(** Block 10 of drive 0 holds sevens, and the cache has a clean copy of it in
    the buffer that is replaced next. *)
Definition clean10 : buffer :=
  Buffer 100 200 0 (Z.lor BFR_VALID BFR_DATA) 10 0 0 0 (replicate 512 7).
Definition ks_clean : @kst ram :=
  set_dev (Ramw {[ (1, 0, 10) := replicate 512 7 ]} (ram_clk w0) : @world ram)
    (set_bufs (<[300 := clean10]> bufs0) (ks (fs0 P12 0))).

Lemma stale_run :
  match getblock 70000 0 ks_clean with
  | Some (p1, s1) => p1 = NULL /\ sector s1 d12 10 = replicate 512 7 /\
      match getblock 10 0 s1 with
      | Some (p2, s2) => p2 <> NULL /\ b_buffer (bufs s2 !!! p2) = replicate 512 0
      | None => False
      end
  | None => False
  end.
Proof. vm_compute. by repeat split. Qed.

(** A read error does not invalidate the buffer it was for.  Drive 0 has
    a clean copy of block 10 in the buffer that is to be replaced; block 70000
    cannot be read and [getblock] returns NULL; block 10 is then found in the
    cache, with what the driver left there and not what the disk holds. *)
Theorem getblk_error_keeps_key :
  view ks_clean l0 d12 10 = sector ks_clean d12 10 /\
  exists s1 p s2, getblock 70000 0 ks_clean = Some (NULL, s1) /\ sector s1 d12 10 = replicate 512 7 /\
    getblock 10 0 s1 = Some (p, s2) /\ p <> NULL /\ b_buffer (bufs s2 !!! p) = replicate 512 0.
Proof.
  split; [vm_compute; reflexivity|]. pose proof stale_run as H.
  destruct (getblock 70000 0 ks_clean) as [[p1 s1]|]; [|done]. destruct H as (-> & Hs & H).
  destruct (getblock 10 0 s1) as [[p2 s2]|] eqn:E; [|done]. destruct H as [Hp Hb].
  by exists s1, p2, s2.
Qed.

End CacheProps.
