(* ===== verification/FatProps.v ===== *)
(** * Properties of the file allocation table

    What fattab.c and the cluster functions of fatfs.c promise: an entry is
    stored without touching any other, in all three formats and across sector
    borders; a step along a chain never leaves the volume; freeing, searching,
    counting, extending and mapping do to the table what their names say, for
    any table that the disk may hold. *)

From S2P Require Import Prelude KState BlockIO FatTab FNode FatAlloc Disk Ring CacheSpec CacheOps.
From S2P Require Import FatPure FatSpec FatWrite Table FatChain AllocSpec MapSpec RamVol.
Import Ks Bio Fat FNode Alloc Dsk Ring Cache CacheOps FatPure FatSpec FatWrite Table Chain AllocSpec
  MapSpec RamVol.

Module FatProps.

(** ** The concrete tables *)

Definition T12 : Z -> Z := links (ks (fs0 P12 0)) l0 d12 FAT12.
Definition T16 : Z -> Z := links (ks (fs0 P16 0)) l0 d16 FAT16.
Definition T32 : Z -> Z := links (ks (fs0 P32 0)) l0 d32 FAT32.

Lemma links_env v v' d k : links (ks v) l0 d k = links (ks v') l0 d k.
Proof. reflexivity. Qed.

Lemma tab12 v : tab (ks v) l0 0 P12 d12 FAT12 T12.
Proof. split; [apply ready12|done]. Qed.
Lemma tab16 v : tab (ks v) l0 1 P16 d16 FAT16 T16.
Proof. split; [apply ready16|done]. Qed.
Lemma tab32 v : tab (ks v) l0 2 P32 d32 FAT32 T32.
Proof. split; [apply ready32|done]. Qed.

Lemma chain16 : chain (max_cluster d16) T16 2 [2; 3; 4].
Proof. vm_compute. repeat split; congruence. Qed.
Lemma chain12 : chain (max_cluster d12) T12 2 [2; 3].
Proof. vm_compute. repeat split; congruence. Qed.
Lemma unknown16 T : counts d16 T.
Proof. by left. Qed.
Lemma unknown12 T : counts d12 T.
Proof. by left. Qed.

(** ** Entries *)

(** C4: [link_fat] stores [v] as the entry of cluster [c]: the entry then
    reads as [v], every other entry of the table as before (also where a FAT12
    entry shares a byte with its neighbours, or lies across two sectors), and
    nothing outside the table and the FSINFO sector of that drive changes.  A
    free space count that was right, or unknown, stays so. *)
Theorem link_fat_stores {M : Machine} {D : Disk} s l u p d k T c v
  (Ht : tab s l u p d k T) (Hc : 2 <= c <= max_cluster d) (Hv : storing d v) :
  exists s' l' d', link_fat p c v s = Some (SUCCESS, s') /\ geo d' = geo d /\
    tab s' l' u p d' k (tupd T c v) /\ moved s l s' l' u d /\ hint d' = hint d /\
    (counts d T -> counts d' (tupd T c v)).
Proof.
  destruct (tab_store s l u p d k T c v Ht Hc Hv) as (s' & l' & d' & Hr & Hg & -> & Ht' & Hm).
  eexists s', l', _. split; [done|]. split; [done|]. split; [done|]. split; [done|].
  split; [apply counted_hint|]. by eapply counts_store.
Qed.

Lemma link_fat_stores_witness :
  exists s' l' d', link_fat P12 341 342 (ks (fs0 P12 0)) = Some (SUCCESS, s') /\
    tab s' l' 0 P12 d' FAT12 (tupd T12 341 342).
Proof.
  destruct (link_fat_stores (ks (fs0 P12 0)) l0 0 P12 d12 FAT12 T12 341 342) as (s' & l' & d' & H1 & _ & H2 & _).
  - apply tab12.
  - vm_compute. split; congruence.
  - right. left. vm_compute. split; congruence.
  - exists s', l', d'. split; [exact H1|exact H2].
Defined.

(** [link_fat] with READ_CLUSTER returns the entry, and no drive shows
    anything else than before. *)
Theorem link_fat_reads {M : Machine} {D : Disk} s l u p d k T c
  (Ht : tab s l u p d k T) (Hc : 2 <= c <= max_cluster d) :
  exists s' l', link_fat p c READ_CLUSTER s = Some (T c, s') /\ tab s' l' u p d k T /\ calm s l s' l'.
Proof.
  destruct (link_fat_any s l u p d k c (tb_ready _ _ _ _ _ _ _ Ht)) as (v & s' & l' & Hr & R & Hcm & ->).
  rewrite (proj2 (Z.leb_le 2 c)), (proj2 (Z.leb_le c _)) in Hr by lia.
  rewrite (tb_agrees _ _ _ _ _ _ _ Ht c Hc) in Hr.
  exists s', l'. split; [exact Hr|]. split; [by eapply tab_calm|done].
Qed.

Lemma link_fat_reads_witness :
  exists s', link_fat P16 2 READ_CLUSTER (ks (fs0 P16 0)) = Some (3, s').
Proof.
  destruct (link_fat_reads (ks (fs0 P16 0)) l0 1 P16 d16 FAT16 T16 2) as (s' & l' & H & _).
  - apply tab16.
  - vm_compute. split; congruence.
  - exists s'. exact H.
Defined.

(** [link_fat] refuses a cluster outside the volume, and a value that is
    neither a cluster of the volume nor a mark: it reports the number on the
    console, returns 1, and neither reads nor writes the disk or the cache. *)
Theorem link_fat_refuses {M : Machine} {D : Disk} s p d c v
  (Hp : dpbs s !! p = Some d)
  (Hbad : (c <= 1 \/ max_cluster d < c) \/ 2 <= c <= max_cluster d /\ max_cluster d < v < LONG_BAD) :
  exists m, link_fat p c v s = Some (1, set_console (console s ++ [m]) s).
Proof.
  destruct Hbad as [Hc|[Hc Hv]]; eexists; [by eapply link_fat_bad|by eapply link_fat_bad_value].
Qed.

Lemma link_fat_refuses_witness :
  (exists m, link_fat P12 401 FREE (ks (fs0 P12 0)) =
    Some (1, set_console [m] (ks (fs0 P12 0)))) /\
  exists m, link_fat P12 2 401 (ks (fs0 P12 0)) = Some (1, set_console [m] (ks (fs0 P12 0))).
Proof.
  split; apply (link_fat_refuses (ks (fs0 P12 0)) P12 d12); [reflexivity| |reflexivity|].
  - left. right. vm_compute. reflexivity.
  - right. vm_compute. repeat split; congruence.
Defined.

(** What may stand in an entry that a chain leads to: the number of a cluster of
    the volume, or a mark (bad, or end of the chain).  The other values that are
    no numbers are FREE and 1. *)
Definition entry_in_use (mx v : Z) : Prop := LONG_BAD <= v \/ 2 <= v <= mx.
Definition no_number (v : Z) : Prop := v < 2 \/ LONG_BAD <= v.

(** C29: [next_cluster] at cluster [c], for any contents [T] of the table.  If
    [c] is no cluster of the volume the result is 1.  If the entry of [c] is no
    cluster number (end mark, bad mark, FREE or 1) the result is that entry.  If
    it is a number, the result is the number when it is a cluster of the volume
    whose own entry is in use, and 1 when it leads outside the volume or to an
    entry that is free, is 1 or lies outside the volume.  So no table, however
    damaged, makes a caller use a cluster that does not exist or is free. *)
Theorem next_cluster_safe {M : Machine} {D : Disk} s l u p d k T c (Ht : tab s l u p d k T) :
  let mx := max_cluster d in
  exists n s' l', next_cluster p c s = Some (n, s') /\ tab s' l' u p d k T /\ calm s l s' l' /\
    (~ 2 <= c <= mx -> n = 1) /\
    (2 <= c <= mx -> no_number (T c) -> n = T c) /\
    (2 <= c <= mx -> ~ no_number (T c) -> T c <= mx -> entry_in_use mx (T (T c)) -> n = T c) /\
    (2 <= c <= mx -> ~ no_number (T c) -> ~ (T c <= mx /\ entry_in_use mx (T (T c))) -> n = 1) /\
    (2 <= n < LONG_BAD -> n <= mx /\ T n <> FREE /\ 2 <= c <= mx /\ T c = n).
Proof.
  intros mx. destruct (tab_next s l u p d k T c Ht) as (s' & l' & Hr & Ht' & Hcm).
  exists (next_of mx T c), s', l'. split; [done|]. split; [done|]. split; [done|].
  pose proof (next_of_out mx T c) as H1. pose proof (next_of_mark mx T c) as H2.
  pose proof (next_of_good mx T c) as H3. pose proof (next_of_wrong mx T c) as H4.
  unfold no_number, entry_in_use. split; [exact H1|]. split; [exact H2|].
  split; [intros; apply H3; lia|]. split; [intros; apply H4; lia|].
  intros Hn. destruct (next_of_used mx T c ltac:(lia)) as [Hc HT].
  destruct (decide (T c <= mx /\ (LONG_BAD <= T (T c) \/ 2 <= T (T c) <= mx))) as [[Hm Hu]|Hw];
    [|rewrite H4 in Hn; lia].
  rewrite <- HT. unfold FREE, LONG_BAD in *. lia.
Qed.

Lemma next_cluster_safe_witness :
  (exists s', next_cluster P16 3 (ks (fs0 P16 0)) = Some (4, s')) /\
  (exists s', next_cluster P16 4 (ks (fs0 P16 0)) = Some (LONG_LAST_CLUSTER, s')) /\
  exists s', next_cluster P16 70000 (ks (fs0 P16 0)) = Some (1, s').
Proof.
  split; [|split].
  - destruct (next_cluster_safe (ks (fs0 P16 0)) l0 1 P16 d16 FAT16 T16 3)
      as (n & s' & l' & H & _ & _ & _ & _ & Hn & _); [apply tab16|].
    rewrite Hn in H; [exists s'; exact H|vm_compute; split; congruence| |vm_compute; congruence|].
    + intros [Hx|Hx]; vm_compute in Hx; congruence.
    + left. vm_compute. congruence.
  - destruct (next_cluster_safe (ks (fs0 P16 0)) l0 1 P16 d16 FAT16 T16 4)
      as (n & s' & l' & H & _ & _ & _ & Hn & _); [apply tab16|].
    rewrite Hn in H; [exists s'; exact H|vm_compute; split; congruence|right; vm_compute; congruence].
  - destruct (next_cluster_safe (ks (fs0 P16 0)) l0 1 P16 d16 FAT16 T16 70000)
      as (n & s' & l' & H & _ & _ & Hn & _); [apply tab16|].
    rewrite Hn in H; [exists s'; exact H|]. intros [_ Hx]. vm_compute in Hx. congruence.
Defined.

(** [next_cluster] walks a chain: from its cluster number [i] it returns
    number [i + 1], and from the last one the end mark. *)
Theorem next_cluster_follows {M : Machine} {D : Disk} s l u p d k T st cs i c
  (Ht : tab s l u p d k T) (Hch : chain (max_cluster d) T st cs) (Hi : cs !! i = Some c) :
  exists s' l', next_cluster p c s = Some (default LONG_LAST_CLUSTER (cs !! S i), s') /\
    tab s' l' u p d k T /\ calm s l s' l'.
Proof.
  destruct (tab_next s l u p d k T c Ht) as (s' & l' & Hr & Ht' & Hcm).
  exists s', l'. split; [|done]. rewrite Hr.
  by rewrite (proj1 (chain_at _ _ _ _ _ _ (tab_max _ _ _ _ _ _ _ Ht) Hch Hi)).
Qed.

Lemma next_cluster_follows_witness :
  (exists s', next_cluster P16 3 (ks (fs0 P16 0)) = Some (4, s')) /\
  exists s', next_cluster P16 4 (ks (fs0 P16 0)) = Some (LONG_LAST_CLUSTER, s').
Proof.
  split.
  - destruct (next_cluster_follows (ks (fs0 P16 0)) l0 1 P16 d16 FAT16 T16 2 [2; 3; 4] 1 3)
      as (s' & _ & H & _); [apply tab16|apply chain16|reflexivity|]. exists s'. exact H.
  - destruct (next_cluster_follows (ks (fs0 P16 0)) l0 1 P16 d16 FAT16 T16 2 [2; 3; 4] 2 4)
      as (s' & _ & H & _); [apply tab16|apply chain16|reflexivity|]. exists s'. exact H.
Defined.

(** ** Freeing *)

(** The clusters that the rounds free are different ones, and in use. *)
Lemma trail_used f mx T st c : c ∈ trail f mx T st -> 2 <= c <= mx /\ T c <> FREE.
Proof.
  revert T st. induction f as [|f IH]; intros T st; cbn [trail]; [by intros ?%not_elem_of_nil|].
  destruct (_ =? _); [by intros ?%not_elem_of_nil|].
  destruct (next_of mx T st <=? 1) eqn:E; [by intros ?%not_elem_of_nil|]. zbool.
  destruct (next_of_used mx T st E) as [Hst Hn].
  intros [->|Hin]%elem_of_cons; [split; [done|]; unfold FREE; lia|].
  apply IH in Hin as [Hc Hf]. split; [done|]. intros HT. apply Hf. unfold tupd. by destruct (_ =? _).
Qed.
Lemma trail_NoDup f mx T st : NoDup (trail f mx T st).
Proof.
  revert T st. induction f as [|f IH]; intros T st; cbn [trail]; [constructor|].
  destruct (_ =? _); [constructor|]. destruct (_ <=? 1); [constructor|]. constructor; [|apply IH].
  intros [_ H]%trail_used. apply H. unfold tupd. by rewrite Z.eqb_refl.
Qed.
Lemma trail_length f mx T st : (length (trail f mx T st) <= nused mx T)%nat.
Proof.
  revert T st. induction f as [|f IH]; intros T st; cbn [trail]; [apply Nat.le_0_l|].
  destruct (_ =? _); [apply Nat.le_0_l|]. destruct (next_of mx T st <=? 1) eqn:E; [apply Nat.le_0_l|]. zbool.
  destruct (next_of_used mx T st E) as [Hst Hn].
  rewrite (nused_free mx T st Hst) by (unfold FREE; lia). apply le_n_S, IH.
Qed.

(** More rounds than the loop takes make no difference. *)
Lemma wipe_loop_more {M : Machine} n m p st s r :
  wipe_loop n p st s = Some r -> (n <= m)%nat -> wipe_loop m p st s = Some r.
Proof.
  revert m st s. induction n as [|n IH]; intros [|m] st s H Hm; [done|done|lia|].
  cbn [wipe_loop] in *. destruct (st =? _); [done|]. unfold kbind in *.
  destruct (wipe_step p st s) as [[[next|] s1]|]; [|done..]. apply IH; [done|lia].
Qed.

(** C17: [wipe_out_clusters] at the first cluster of a chain frees exactly the
    clusters of the chain; no other entry changes, the free space count goes
    on being right, and the hint for the next search is not above any cluster
    that was freed. *)
Theorem wipe_out_clusters_frees {M : Machine} {D : Disk} s l u p d k T st cs
  (Ht : tab s l u p d k T) (Hch : chain (max_cluster d) T st cs) :
  exists s' l' d', wipe_out_clusters p st s = Some (tt, s') /\ geo d' = geo d /\
    tab s' l' u p d' k (free_all T cs) /\ moved s l s' l' u d /\
    (counts d T -> counts d' (free_all T cs)) /\ hint d' = fold_left lower cs (hint d).
Proof.
  pose proof (tab_max _ _ _ _ _ _ _ Ht) as Hmx.
  destruct (wipe_spec s l u p d k T st Ht) as (s' & l' & d' & cs' & Hr & Hg & -> & Ht' & Hm & Hh & Hcn).
  pose proof (chain_length _ _ _ _ (proj2 Hmx) Hch) as Hl.
  assert (E : trail (Z.to_nat (max_cluster d + 2)) (max_cluster d) T st = cs)
    by (apply trail_chain; [done|done|lia]).
  rewrite E in *. exists s', l', d'. by repeat (split; [done|]).
Qed.

Lemma wipe_out_clusters_frees_witness :
  exists s' l' d', wipe_out_clusters P16 2 (ks (fs0 P16 0)) = Some (tt, s') /\
    tab s' l' 1 P16 d' FAT16 (free_all T16 [2; 3; 4]) /\ free_all T16 [2; 3; 4] 3 = FREE.
Proof.
  destruct (wipe_out_clusters_frees (ks (fs0 P16 0)) l0 1 P16 d16 FAT16 T16 2 [2; 3; 4])
    as (s' & l' & d' & H1 & _ & H2 & _).
  - apply tab16.
  - apply chain16.
  - exists s', l', d'. split; [exact H1|]. split; [exact H2|reflexivity].
Defined.

(** C18: On any table, loops and cross links included, [wipe_out_clusters]
    ends: the loop takes at most one round more than there are clusters in use
    ([nused]), whatever room for rounds it has.  What it changes is that some
    clusters, all of them different, of the volume and in use before, became
    free. *)
Theorem wipe_out_clusters_ends {M : Machine} {D : Disk} s l u p d k T st (Ht : tab s l u p d k T) :
  exists s' l' d' cs, wipe_out_clusters p st s = Some (tt, s') /\
    (forall n, (nused (max_cluster d) T < n)%nat -> wipe_loop n p st s = Some (tt, s')) /\
    geo d' = geo d /\ tab s' l' u p d' k (free_all T cs) /\ moved s l s' l' u d /\
    (counts d T -> counts d' (free_all T cs)) /\
    NoDup cs /\ (length cs <= nused (max_cluster d) T)%nat /\
    forall c, c ∈ cs -> 2 <= c <= max_cluster d /\ T c <> FREE.
Proof.
  destruct (wipe_loop_spec (S (nused (max_cluster d) T)) s l u p d k T st Ht ltac:(lia))
    as (s' & l' & d' & Hr & Hg & Ht' & Hm & _ & Hcn).
  assert (Hl : forall n, (nused (max_cluster d) T < n)%nat -> wipe_loop n p st s = Some (tt, s'))
    by (intros n Hn; eapply wipe_loop_more; [exact Hr|lia]).
  eexists s', l', d', _. split.
  { unfold wipe_out_clusters. rewrite (run_dget p d) by (by eapply tab_dpb). apply Hl.
    pose proof (nused_bound (max_cluster d) T). pose proof (tab_max _ _ _ _ _ _ _ Ht). lia. }
  split; [exact Hl|]. split; [done|]. split; [exact Ht'|]. split; [done|]. split; [exact Hcn|].
  split; [apply trail_NoDup|]. split; [apply trail_length|]. intros c. apply trail_used.
Qed.

Lemma wipe_out_clusters_ends_witness :
  exists s' l' d' cs, wipe_out_clusters P12 99 (ks (fs0 P12 0)) = Some (tt, s') /\
    tab s' l' 0 P12 d' FAT12 (free_all T12 cs).
Proof.
  destruct (wipe_out_clusters_ends (ks (fs0 P12 0)) l0 0 P12 d12 FAT12 T12 99)
    as (s' & l' & d' & cs & H1 & _ & _ & H2 & _).
  - apply tab12.
  - exists s', l', d', cs. split; [exact H1|exact H2].
Defined.

(** ** Searching and counting *)

(** [find_fat_free] is a next-fit search: it returns a free cluster of
    the volume if there is one, and it is the first free one from the hint to
    the last cluster and then from cluster 2 up; if the volume is full it
    returns the end mark.  The hint is set to the cluster found.  The table is
    not changed. *)
Theorem find_fat_free_next_fit {M : Machine} {D : Disk} s l u p d k T fnp
  (Ht : tab s l u p d k T) (Hp : f_dpb (fnode_of fnp (fs s)) = p) (Hh : hint_ok d) :
  exists r s' l' d', find_fat_free fnp s = Some (r, s') /\ geo d' = geo d /\
    tab s' l' u p d' k T /\ moved s l s' l' u d /\ (counts d T -> counts d' T) /\
    match first_free T (seqZ (search_start d) (max_cluster d - search_start d + 1)
                        ++ seqZ 2 (search_start d - 2)) with
    | Some c => r = c /\ hint d' = c /\ 2 <= c <= max_cluster d /\ T c = FREE
    | None => r = LONG_LAST_CLUSTER /\ hint d' = UNKNCLUSTER /\
        forall c, 2 <= c <= max_cluster d -> T c <> FREE
    end.
Proof.
  pose proof (tab_max _ _ _ _ _ _ _ Ht) as Hmx.
  destruct (find_fat_free_spec s l u p d k T fnp Ht Hp Hh) as (s' & l' & d' & Hr & Hg & Hhd & Hc & Ht' & Hm).
  eexists _, s', l', d'. split; [exact Hr|]. split; [done|]. split; [done|]. split; [done|]. split; [auto|].
  pose proof (found_range d T) as Hsome. pose proof (found_none d T) as Hnone.
  unfold found_free, cyc in *. rewrite Z.leb_refl in *.
  destruct (first_free T _) as [c|] eqn:E; cbn [from_option id] in *.
  - by destruct (Hsome c ltac:(lia) Hh eq_refl).
  - split; [done|]. split; [done|]. apply Hnone; [lia|done|done].
Qed.

Lemma find_fat_free_next_fit_witness :
  exists s', find_fat_free fnode0 (ks (fs0 P12 0)) = Some (4, s').
Proof.
  destruct (find_fat_free_next_fit (ks (fs0 P12 0)) l0 0 P12 d12 FAT12 T12 fnode0)
    as (r & s' & l' & d' & H & _ & _ & _ & _ & Hm).
  - apply tab12.
  - reflexivity.
  - left. reflexivity.
  - exists s'. rewrite H.
    assert (E : first_free T12 (seqZ (search_start d12) (max_cluster d12 - search_start d12 + 1)
      ++ seqZ 2 (search_start d12 - 2)) = Some 4) by (vm_compute; reflexivity).
    rewrite E in Hm. destruct Hm as [-> _]. reflexivity.
Defined.

(** [dos_free] returns the number of free clusters of the volume, from
    the count in the parameter block if that is known and by counting the
    table otherwise, and leaves the count known and right. *)
Theorem dos_free_counts {M : Machine} {D : Disk} s l u p d k T
  (Ht : tab s l u p d k T) (Hc : counts d T) :
  exists s' l' d', dos_free p s = Some (nfree (max_cluster d) T, s') /\ geo d' = geo d /\
    counts d' T /\ tab s' l' u p d' k T /\ moved s l s' l' u d /\ (hint_ok d -> hint_ok d').
Proof.
  destruct (dos_free_spec s l u p d k T Ht Hc) as (s' & l' & d' & Hr & Hg & Hc' & Hh & Ht' & Hm).
  exists s', l', d'. by repeat (split; [done|]).
Qed.

Lemma dos_free_counts_witness : exists s', dos_free P12 (ks (fs0 P12 0)) = Some (397, s').
Proof.
  destruct (dos_free_counts (ks (fs0 P12 0)) l0 0 P12 d12 FAT12 T12) as (s' & l' & d' & H & _).
  - apply tab12.
  - apply unknown12.
  - exists s'. rewrite H. assert (E : nfree (max_cluster d12) T12 = 397) by (vm_compute; reflexivity).
    rewrite E. reflexivity.
Defined.

(** ** Growing *)

(** C27: [extend] appends a cluster to the chain of a file: a free cluster is
    marked as the last one and linked behind the last cluster [f_cluster] (or,
    for a file without clusters, put into the directory entry); no other entry
    changes.  It fails with the end mark, and without a change to the table,
    only when no cluster of the volume is free. *)
Theorem extend_appends {M : Machine} {D : Disk} s l u p d k T fp
  (Ht : tab s l u p d k T) (Hh : hint_ok d)
  (Hp : f_dpb (fnode_of fp (fs s)) = p)
  (He : f_cluster (fnode_of fp (fs s)) <> FREE ->
        2 <= f_cluster (fnode_of fp (fs s)) <= max_cluster d /\
        T (f_cluster (fnode_of fp (fs s))) = LONG_LAST_CLUSTER) :
  let e := f_cluster (fnode_of fp (fs s)) in
  exists r s' l' d' T', extend fp s = Some (r, s') /\ geo d' = geo d /\ hint_ok d' /\
    tab s' l' u p d' k T' /\ roamed s l s' l' u d /\ (counts d T -> counts d' T') /\
    (r = LONG_LAST_CLUSTER /\ T' = T /\ fs s' = fs s /\ (forall c, 2 <= c <= max_cluster d -> T c <> FREE) \/
     2 <= r <= max_cluster d /\ T r = FREE /\ T' = appended T e r /\
     fs s' = if e =? FREE then fnode_upd fp (started d r) (fs s) else fs s).
Proof.
  intros e. pose proof (tab_max _ _ _ _ _ _ _ Ht) as Hmx.
  pose proof (extend_spec s l u p d k T fp Ht Hh Hp He) as H.
  destruct (found_free d T) as [c|] eqn:Ef;
    destruct H as (s' & l' & d' & Hr & Hg & Hh' & Hcn & Hfs & Ht' & R).
  - destruct (found_range d T c ltac:(lia) Hh Ef) as [Hc HTc].
    eexists c, s', l', d', _. split; [done|]. split; [done|]. split; [done|]. split; [exact Ht'|].
    split; [done|]. split; [done|]. by right.
  - exists LONG_LAST_CLUSTER, s', l', d', T. repeat (split; [done|]). left.
    split; [done|]. split; [done|]. split; [done|]. apply found_none; [lia|done|done].
Qed.

(** The directory fnode of the FAT16 volume at the last cluster of its chain. *)
Definition fs_last : fsv := fnode_upd fnode0 (at_pos 4 2) (fs0 P16 0).

Lemma extend_appends_witness :
  exists s' l' d', extend fnode0 (ks fs_last) = Some (5, s') /\
    tab s' l' 1 P16 d' FAT16 (tupd (tupd T16 5 LONG_LAST_CLUSTER) 4 5).
Proof.
  destruct (extend_appends (ks fs_last) l0 1 P16 d16 FAT16 T16 fnode0)
    as (r & s' & l' & d' & T' & Hr & _ & _ & Ht & _ & _ & Hcase).
  - apply tab16.
  - left. reflexivity.
  - reflexivity.
  - intros _. vm_compute. repeat split; congruence.
  - assert (E : fst <$> extend fnode0 (ks fs_last) = Some 5) by (vm_compute; reflexivity).
    rewrite Hr in E. injection E as ->. exists s', l', d'. split; [exact Hr|].
    destruct Hcase as [[H _]|(_ & _ & -> & _)]; [discriminate H|exact Ht].
Defined.

(** C40: [map_cluster] for reading, on a file (or directory) with a first cluster
    whose current cluster is number [i] of its chain [cs], on a volume with sectors
    of 512 bytes.  It moves the file to cluster number
    [(f_offset / 512) >> dpb_shftcnt] of the chain, whether that lies before or
    behind the current one.  If the chain has no such cluster it returns DE_SEEK
    and leaves the file at its last cluster.  The table and everything that any
    drive shows stay as they are. *)
Theorem map_cluster_reads {M : Machine} {D : Disk} s l u p d k T fp cs i
  (Ht : tab s l u p d k T) (Hh : hint_ok d) (Hp : f_dpb (fnode_of fp (fs s)) = p)
  (Ho : 0 <= f_offset (fnode_of fp (fs s)) < 2 ^ 32) (Hsh : 0 <= dpb_shftcnt d)
  (Hch : chain (max_cluster d) T (chain_start d (fnode_of fp (fs s)) (fs s)) cs)
  (Hi : cs !! i = Some (f_cluster (fnode_of fp (fs s))))
  (Hoff : f_cluster_offset (fnode_of fp (fs s)) = Z.of_nat i) :
  let rel := rel_of (fnode_of fp (fs s)) d in
  exists rc s' l' x j, map_cluster fp XFR_READ s = Some (rc, s') /\ tab s' l' u p d k T /\
    roamed s l s' l' u d /\ fs s' = fnode_upd fp (at_pos x j) (fs s) /\ cs !! j = Some x /\
    if decide (rel < length cs)%nat then rc = SUCCESS /\ j = rel
    else rc = DE_SEEK /\ j = (length cs - 1)%nat.
Proof. by apply (map_read_spec s l u p d k T fp cs i). Qed.

(** The fnodes with the position [o], at the first cluster. *)
Definition fs_read (o : Z) : fsv :=
  fnode_upd fnode0 (fun n => at_pos 2 0 (set_f_offset o n)) (fs0 P16 0).

Lemma map_cluster_reads_witness :
  (exists s' , map_cluster fnode0 XFR_READ (ks (fs_read 1025)) = Some (SUCCESS, s') /\
    fs s' = fnode_upd fnode0 (at_pos 4 2) (fs_read 1025)) /\
  exists s' x, map_cluster fnode0 XFR_READ (ks (fs_read 100000)) = Some (DE_SEEK, s') /\
    fs s' = fnode_upd fnode0 (at_pos x 2) (fs_read 100000).
Proof.
  split.
  - destruct (map_cluster_reads (ks (fs_read 1025)) l0 1 P16 d16 FAT16 T16 fnode0 [2; 3; 4] 0)
      as (rc & s' & l' & x & j & H1 & _ & _ & H2 & H3 & H4);
      [apply tab16|left; reflexivity|reflexivity|vm_compute; split; congruence|vm_compute; congruence
      |exact chain16|reflexivity|reflexivity|].
    vm_compute in H4. destruct H4 as [-> ->]. injection H3 as <-. exists s'. split; [exact H1|exact H2].
  - destruct (map_cluster_reads (ks (fs_read 100000)) l0 1 P16 d16 FAT16 T16 fnode0 [2; 3; 4] 0)
      as (rc & s' & l' & x & j & H1 & _ & _ & H2 & H3 & H4);
      [apply tab16|left; reflexivity|reflexivity|vm_compute; split; congruence|vm_compute; congruence
      |exact chain16|reflexivity|reflexivity|].
    vm_compute in H4. destruct H4 as [-> ->]. exists s', x. split; [exact H1|exact H2].
Defined.

(** C25: [map_cluster] for writing, on a file that has a first cluster and whose
    current cluster is number [i] of its chain.  It appends exactly the clusters
    that are missing up to the one of the position (none, if the chain reaches
    it; otherwise the chain ends with that cluster), each one a free cluster of
    the volume, and moves the file there.  If the volume gets full first it
    returns DE_HNDLDSKFULL, with the chain still too short, the file at its last
    cluster and no cluster of the volume free.  The clusters the chain had keep
    their order, the entries outside the chain do not change, and the free space
    count stays right. *)
Theorem map_cluster_writes {M : Machine} {D : Disk} s l u p d k T fp cs i
  (Ht : tab s l u p d k T) (Hh : hint_ok d) (Hp : f_dpb (fnode_of fp (fs s)) = p)
  (Ho : 0 <= f_offset (fnode_of fp (fs s)) < 2 ^ 32) (Hsh : 0 <= dpb_shftcnt d)
  (Hch : chain (max_cluster d) T (chain_start d (fnode_of fp (fs s)) (fs s)) cs)
  (Hi : cs !! i = Some (f_cluster (fnode_of fp (fs s))))
  (Hoff : f_cluster_offset (fnode_of fp (fs s)) = Z.of_nat i) :
  let rel := rel_of (fnode_of fp (fs s)) d in
  exists rc s' l' d' T' new x j, map_cluster fp XFR_WRITE s = Some (rc, s') /\
    geo d' = geo d /\ hint_ok d' /\ (counts d T -> counts d' T') /\
    tab s' l' u p d' k T' /\ roamed s l s' l' u d /\
    chain (max_cluster d) T' (chain_start d (fnode_of fp (fs s)) (fs s)) (cs ++ new) /\
    (forall c, c ∈ new -> T c = FREE /\ 2 <= c <= max_cluster d) /\
    (forall c, c ∉ cs ++ new -> T' c = T c) /\
    fs s' = fnode_upd fp (at_pos x j) (fs s) /\ (cs ++ new) !! j = Some x /\
    (rc = SUCCESS /\ j = rel /\ length (cs ++ new) = Nat.max (length cs) (S rel) \/
     rc = DE_HNDLDSKFULL /\ j = (length (cs ++ new) - 1)%nat /\ (j < rel)%nat /\
     forall c, 2 <= c <= max_cluster d -> T' c <> FREE).
Proof.
  intros rel. destruct (map_cluster_spec s l u p d k T fp XFR_WRITE cs i (or_intror eq_refl) Ht Hh Hp Ho Hsh Hch Hi Hoff)
    as (s' & rc & Hr & l' & d' & T' & new & x & j & Hg & Hh' & Hcn & Ht' & R & Hfs & Hx & Hch' & Hnew & Hfr & _ & Hout).
  exists rc, s', l', d', T', new, x, j. do 11 (split; [done|]).
  pose proof (lookup_lt_Some _ _ _ Hx) as Hlt.
  fold rel in Hout. clearbody rel.
  inversion Hout as [Hlen|? ? ? |? Hfull Hno]; subst.
  - left. split; [done|]. split; [done|]. rewrite length_app in *. destruct Hlen as [->|Hlen]; simpl in *; lia.
  - done.
  - right. split; [done|]. split; [done|]. split; [lia|done].
Qed.

Lemma map_cluster_writes_witness :
  exists s' l' d' T' new x j, map_cluster fnode0 XFR_WRITE (ks (fs_read 4000)) = Some (SUCCESS, s') /\
    tab s' l' 1 P16 d' FAT16 T' /\ chain (max_cluster d16) T' 2 ([2; 3; 4] ++ new) /\
    fs s' = fnode_upd fnode0 (at_pos x j) (fs_read 4000).
Proof.
  destruct (map_cluster_writes (ks (fs_read 4000)) l0 1 P16 d16 FAT16 T16 fnode0 [2; 3; 4] 0)
    as (rc & s' & l' & d' & T' & new & x & j & H1 & _ & _ & _ & H2 & _ & H3 & _ & _ & H4 & _);
    [apply tab16|left; reflexivity|reflexivity|vm_compute; split; congruence|vm_compute; congruence
    |exact chain16|reflexivity|reflexivity|].
  assert (E : fst <$> map_cluster fnode0 XFR_WRITE (ks (fs_read 4000)) = Some SUCCESS) by (vm_compute; reflexivity).
  rewrite H1 in E. injection E as ->.
  exists s', l', d', T', new, x, j. split; [exact H1|]. split; [exact H2|]. split; [exact H3|exact H4].
Defined.

End FatProps.
