(* ===== verification/DirProps.v ===== *)
(** * Properties of directory entries

    The layout of an entry on the disk, the two forms of a file name, and the
    reading and writing of an entry through the block cache. *)

From S2P Require Import Prelude KState BlockIO FatTab FNode FatAlloc Media FatDir Disk Ring.
From S2P Require Import CacheSpec CacheOps FatPure FatSpec FatWrite Table FatChain AllocSpec.
From S2P Require Import MapSpec DirSpec RamVol.
Import Ks Bio Fat FNode Alloc Dir Dsk Ring Cache CacheOps FatPure FatSpec FatWrite Table Chain AllocSpec
  MapSpec DirSpec RamVol.

Module DirProps.

(** A directory entry that is put into a buffer is got back: the 32 bytes
    at [i] hold every member, and no other byte of the buffer changes. *)
Theorem dirent_roundtrip e l i
  (He : entry_ok e) (Hi : 0 <= i) (Hl : i + DIRENT_SIZE <= Z.of_nat (length l)) :
  exists l', putdirent i e l = Some l' /\ getdirent l' i = Some e /\ length l' = length l /\
    forall j, j < i \/ i + DIRENT_SIZE <= j -> fgetbyte l' j = fgetbyte l j.
Proof. by apply putdirent_spec. Qed.

Definition entry1 : dirent :=
  Dirent [0x41; 0x42; 0x20; 0x20; 0x20; 0x20; 0x20; 0x20; 0x54; 0x58; 0x54] 0x20 0 7 0x1234 0x5a21 0x5a22 1
    0x7bcd 0x5a23 0xfffe 0x89abcdef.

Lemma entry1_ok : entry_ok entry1.
Proof.
  split; try (vm_compute; try split; congruence). cbn [dir_name entry1].
  repeat (apply Forall_cons; split; [unfold byte; lia|]). by apply Forall_nil.
Qed.

Lemma dirent_roundtrip_witness :
  exists l', putdirent 480 entry1 (replicate 512 0) = Some l' /\ getdirent l' 480 = Some entry1.
Proof.
  destruct (dirent_roundtrip entry1 (replicate 512 0) 480) as (l' & H1 & H2 & _).
  - apply entry1_ok.
  - lia.
  - rewrite length_replicate. vm_compute. congruence.
  - exists l'. split; [exact H1|exact H2].
Defined.

(** ** Names *)

(** C34: The two forms of a name agree: the characters of an 8.3 name with
    blanks, put into the form with a dot, give the same 8.3 name when that is
    parsed, and the parser stops at the end of the name, also inside a path. *)
Theorem name_roundtrip n rest
  (Hl : length n = 11%nat) (Hp : Forall plain n) (Hr : path_end rest) :
  exists sz, ConvertName83ToNameSZ n = Some sz /\ ConvertNameSZToName83 (sz ++ rest) = (n, rest) /\
    (length sz <= 12)%nat.
Proof.
  unfold ConvertName83ToNameSZ, ConvertNameSZToName83.
  set (base := take (Z.to_nat FNAME_SIZE) n). set (tail := drop (Z.to_nat FNAME_SIZE) n).
  assert (En : n = base ++ tail) by (symmetry; apply take_drop).
  assert (Hlb : length base = 8%nat) by (unfold base; rewrite length_take, Hl; done).
  assert (Hlt : length tail = 3%nat) by (unfold tail; rewrite length_drop, Hl; done).
  rewrite (take_ge tail) by (rewrite Hlt; done).
  assert (Hpb : Forall plain base /\ Forall plain tail) by (apply Forall_app; by rewrite <- En).
  destruct Hpb as [Hpb Hpt]. pose proof (plain_trimmed _ Hpb) as Hb. pose proof (plain_trimmed _ Hpt) as Ht.
  destruct (trimmed_blanks base) as [kb Eb]. destruct (trimmed_blanks tail) as [kt Et].
  pose proof (trimmed_length base) as Lb. pose proof (trimmed_length tail) as Lt.
  rewrite Hl. change (Z.of_nat 11 <? FCB_SIZE) with false. cbn iota.
  assert (exists c0, chr n 0 = Some c0 /\ c0 <> DOT) as (c0 & -> & Hc0).
  { destruct n as [|c n]; [done|]. exists c. split; [done|]. by inversion_clear Hp as [|? ? [? _]]. }
  rewrite (proj2 (Z.eqb_neq c0 DOT)) by done. eexists. split; [reflexivity|].
  assert (Hrep : length (replicate kb SPACE) = (8 - length (trimmed base))%nat /\
                 length (replicate kt SPACE) = (3 - length (trimmed tail))%nat).
  { apply (f_equal length) in Eb, Et. rewrite length_app in Eb, Et. lia. }
  set (name := trimmed base) in *. set (ext := trimmed tail) in *.
  assert (E11 : replicate (Z.to_nat FCB_SIZE) SPACE =
    replicate (length name) SPACE ++ replicate kb SPACE ++ replicate 3 SPACE).
  { rewrite <- !replicate_add. rewrite !length_replicate in Hrep. change (Z.to_nat FCB_SIZE) with 11%nat. f_equal. lia. }
  assert (Ename : list_inserts 0 name (replicate (Z.to_nat FCB_SIZE) SPACE) = base ++ replicate 3 SPACE).
  { rewrite E11, list_inserts_0_r by (by rewrite length_replicate).
    by rewrite app_assoc, <- Eb. }
  assert (Hname : forall r, name83_loop (replicate (Z.to_nat FCB_SIZE) SPACE) 0 (name ++ r) =
    name83_loop (base ++ replicate 3 SPACE) (Z.of_nat (length name)) r).
  { intros r. rewrite name83_copy by (done || (unfold FCB_SIZE, FNAME_SIZE, FEXT_SIZE; lia)).
    change (Z.to_nat 0) with 0%nat. by rewrite Ename. }
  destruct ext as [|x ext'] eqn:Eext.
  - rewrite Hname, name83_stop by done. rewrite En at 1. split; [|lia]. f_equal. f_equal.
    cbn [app] in Et. rewrite Et. f_equal. rewrite !length_replicate in Hrep. simpl in Hrep. lia.
  - rewrite <- Eext in *. rewrite <- app_assoc, Hname. cbn [app].
    split; [|rewrite length_app; cbn [length]; rewrite Eext in Lt |- *; lia].
    cbn [name83_loop]. rewrite (proj2 (Z.ltb_lt _ FCB_SIZE)) by (unfold FCB_SIZE, FNAME_SIZE, FEXT_SIZE; lia).
    change (DOT =? DOT) with true. cbn iota.
    rewrite name83_copy by (done || (unfold FCB_SIZE, FNAME_SIZE, FEXT_SIZE; lia)).
    rewrite name83_stop by done. f_equal. rewrite En.
    change (Z.to_nat FNAME_SIZE) with 8%nat. rewrite <- Hlb.
    assert (E3 : replicate 3 SPACE = replicate (length ext) SPACE ++ replicate kt SPACE).
    { rewrite <- replicate_add. rewrite !length_replicate in Hrep. f_equal. lia. }
    rewrite E3, inserts_app by (by rewrite length_replicate). by rewrite <- Et.
Qed.

Lemma name_roundtrip_witness :
  exists sz, ConvertName83ToNameSZ (dir_name entry1) = Some sz /\ sz = [0x41; 0x42; 0x2e; 0x54; 0x58; 0x54] /\
    ConvertNameSZToName83 (sz ++ [BACKSLASH; 0x43]) = (dir_name entry1, [BACKSLASH; 0x43]).
Proof.
  destruct (name_roundtrip (dir_name entry1) [BACKSLASH; 0x43]) as (sz & H1 & H2 & _).
  - reflexivity.
  - repeat constructor; vm_compute; congruence.
  - reflexivity.
  - exists sz. split; [exact H1|]. split; [vm_compute in H1; congruence|exact H2].
Defined.


(** ** Entries through the cache *)

(** C28: [dir_write] stores the entry of a fnode, with the mark of a deleted
    entry as the disk has it, into its 32 bytes of its sector; the rest of the
    sector and all other blocks of all drives stay, and when it returns the
    sector is on the disk.  The fnode is as before. *)
Theorem dir_write_stores {M : Machine} {D : Disk} s l u p d fp
  (Hc : cache s l) (Hm : mounted s u p d) (Hp : f_dpb (fnode_of fp (fs s)) = p)
  (Hb : block_ok d (f_dirsector (fnode_of fp (fs s)))) (Hpl : placed (fnode_of fp (fs s))) :
  let n := fnode_of fp (fs s) in
  exists L s' l', dir_write fp s = Some (true, s') /\ cache s' l' /\ ioframe s s' /\
    getdirent L (f_diridx n * DIRENT_SIZE) = Some (on_disk (f_dir n)) /\
    (forall j, j < f_diridx n * 32 \/ f_diridx n * 32 + 32 <= j ->
      fgetbyte L j = fgetbyte (view s l d (f_dirsector n)) j) /\
    sector s' d (f_dirsector n) = L /\
    forall u' q' d' blk, mounted s u' q' d' -> block_ok d' blk ->
      view s' l' d' blk = if (u' =? u) && (blk =? f_dirsector n) then L else view s l d' blk.
Proof.
  intros n. destruct (dir_write_spec s l u p d fp Hc Hm Hp Hb Hpl) as (L & s' & l' & HL & Hr & Hc' & _ & Hf & Hs & Hv).
  destruct (placed_put n (view s l d (f_dirsector n)) Hpl) as (L' & HL' & _ & Hg & Hj); [by apply view_bytes|].
  assert (L' = L) as -> by (unfold n in *; congruence).
  exists L, s', l'. by repeat (split; [done|]).
Qed.

(** The fnode of the FAT12 root directory at entry number 1. *)
Definition fs_root : fsv :=
  let n := fn_at P12 0 in
  set_tmp_dm (Dmatch 0 (replicate 11 0x20) 0 1 0)
    (set_fn0 (set_f_dir entry1 (set_f_diridx 1 (set_f_dirsector 5 n))) (fs0 P12 0)).

Lemma root_block : block_ok d12 5.
Proof. split; [vm_compute; split; congruence|]. intros [_ H]. vm_compute in H. done. Qed.

Lemma dir_write_stores_witness :
  exists s' l', dir_write fnode0 (ks fs_root) = Some (true, s') /\ cache s' l' /\
    getdirent (sector s' d12 5) 32 = Some entry1.
Proof.
  destruct (dir_write_stores (ks fs_root) l0 0 P12 d12 fnode0) as (L & s' & l' & H1 & H2 & _ & H3 & _ & H4 & _).
  - apply cache0.
  - apply mounted12.
  - reflexivity.
  - exact root_block.
  - split; [vm_compute; split; congruence|exact entry1_ok].
  - exists s', l'. split; [exact H1|]. split; [exact H2|]. rewrite <- H4 in H3. exact H3.
Defined.

(** [dir_read] in a root directory of fixed size gives entry number
    [dm_entry]: 32 bytes of sector [dm_entry / 16] of the directory, with the
    name as programs see it; it returns 0 at the end mark and 1 otherwise, and
    DE_SEEK, with nothing changed, when there is no such entry.  What the
    drives show stays. *)
Theorem dir_read_root {M : Machine} {D : Disk} s l u p d fp
  (Hc : cache s l) (Hm : mounted s u p d) (Hp : f_dpb (fnode_of fp (fs s)) = p)
  (Hroot : dm_dircluster (dm_of (f_dmp (fnode_of fp (fs s))) (fs s)) = 0)
  (Hent : 0 <= dm_entry (dm_of (f_dmp (fnode_of fp (fs s))) (fs s)) < 65536)
  (Hdir : forall i, 0 <= i < dpb_dirents d ->
     block_ok d (i / 16 + dpb_dirstrt d) /\ i / 16 + dpb_dirstrt d < 65536) :
  let entry := dm_entry (dm_of (f_dmp (fnode_of fp (fs s))) (fs s)) in
  let blk := entry / 16 + dpb_dirstrt d in
  if decide (entry < dpb_dirents d /\ entry < 65535) then
    exists e s' l', dir_read fp s = Some (entry_rc (on_disk e), s') /\
      getdirent (view s l d blk) (entry mod 16 * DIRENT_SIZE) = Some e /\ entry_ok e /\
      cache s' l' /\ same_view s l s' l' /\
      fs s' = fnode_upd fp (fun n => set_f_dir (on_disk e)
                 (set_f_diridx (entry mod 16) (set_f_dirsector blk n))) (fs s)
  else dir_read fp s = Some (DE_SEEK, s).
Proof.
  intros entry blk. pose proof (mt_dpb _ _ _ _ Hm) as Hd. case_decide as Hin.
  - destruct (Hdir entry ltac:(lia)) as [Hb Hlt]. fold blk in Hb, Hlt.
    assert (Hblk : 0 <= blk) by (by destruct Hb as [[? _] _]).
    set (s1 := set_fs (fnode_upd fp (set_f_dirsector blk) (fs s)) s).
    assert (Hn1 : f_dirsector (fnode_of fp (fs s1)) = blk) by (cbn [fs s1 set_fs]; by rewrite fnode_upd_of).
    destruct (dir_read_found s u p d fp entry s1 l Hp Hd eq_refl ltac:(lia)) as (e & s' & l' & Hg & Ho & Hr & Hc' & _ & Hv & _ & Hfs).
    + unfold dir_locate, dm. rewrite run_assoc, run_fn, run_assoc, run_get, run_ret, (run_fdpb fp d p) by done.
      rewrite Hroot. change (0 =? 0) with true. cbn iota. rewrite (proj2 (Z.leb_gt _ _)) by lia.
      unfold entries_per_sector. rewrite (mt_sec _ _ _ _ Hm). change (512 / DIRENT_SIZE) with 16. cbn [Z.eqb].
      rewrite run_opt. fold blk. rewrite u16_small by lia. by rewrite run_fnmod.
    + by apply cache_fs.
    + by apply mounted_fs.
    + by rewrite Hn1.
    + rewrite Hn1 in Hg. exists e, s', l'. split; [done|]. split; [done|]. split; [done|]. split; [done|]. split.
      { intros u' q' d' blk' Hm' Hb'. rewrite (Hv u' q') by (by apply mounted_fs || done). done. }
      rewrite Hfs. cbn [fs s1 set_fs]. by rewrite fnode_upd_upd.
  - unfold dir_read, dm. rewrite (run_fdpb fp d p) by done. rewrite run_assoc, run_fn, run_assoc, run_get, run_ret.
    fold entry. destruct (65535 <=? entry) eqn:E; [done|]. zbool.
    unfold dir_locate, dm. rewrite run_assoc, run_assoc, run_fn, run_assoc, run_get, run_ret.
    rewrite run_assoc, (run_fdpb fp d p), Hroot by done. change (0 =? 0) with true. cbn iota.
    rewrite (proj2 (Z.leb_le (dpb_dirents d) entry)) by lia. by rewrite run_ret.
Qed.

Lemma root_blocks i :
  0 <= i < dpb_dirents d12 -> block_ok d12 (i / 16 + dpb_dirstrt d12) /\ i / 16 + dpb_dirstrt d12 < 65536.
Proof.
  intros Hi. change (dpb_dirents d12) with 16 in Hi. rewrite Z.div_small by lia. by split; [apply root_block|].
Qed.

(** Entry 1 of the empty directory is the end mark; there is no entry 16. *)
Definition fs_root16 : fsv := set_tmp_dm (Dmatch 0 (replicate 11 0x20) 0 16 0) fs_root.

Lemma dir_read_root_witness :
  (exists s', dir_read fnode0 (ks fs_root) = Some (0, s')) /\
  dir_read fnode0 (ks fs_root16) = Some (DE_SEEK, ks fs_root16).
Proof.
  split.
  - destruct (dir_read_root (ks fs_root) l0 0 P12 d12 fnode0 (cache0 fs_root) (mounted12 fs_root) eq_refl
      eq_refl ltac:(vm_compute; split; congruence) root_blocks) as (e & s' & l' & H & _).
    exists s'. assert (E : fst <$> dir_read fnode0 (ks fs_root) = Some 0) by (vm_compute; reflexivity).
    rewrite H in E. injection E as E. rewrite <- E. exact H.
  - exact (dir_read_root (ks fs_root16) l0 0 P12 d12 fnode0 (cache0 fs_root16) (mounted12 fs_root16) eq_refl
      eq_refl ltac:(vm_compute; split; congruence) root_blocks).
Defined.

(** Every cluster of the FAT16 volume is in its data area. *)
Lemma data_block16 x j :
  2 <= x <= max_cluster d16 -> 0 <= j < 2 ^ dpb_shftcnt d16 ->
  block_ok d16 (u32 (clus2phys x d16 + j)) /\ ~ in_fat d16 (u32 (clus2phys x d16 + j)) /\
  ~ fsinfo_block d16 (u32 (clus2phys x d16 + j)).
Proof.
  change (max_cluster d16) with 5000. change (2 ^ dpb_shftcnt d16) with 1. intros Hx Hj.
  assert (E : u32 (clus2phys x d16 + j) = x + 40).
  { unfold clus2phys. change (ISFAT32 d16) with false. cbn iota. change (dpb_shftcnt d16) with 0.
    change (dpb_data d16) with 42. rewrite Z.shiftl_0_r.
    rewrite !(u32_small (x - 2)), (u32_small (x - 2 + 42)), u32_small by lia. lia. }
  rewrite E. split; [split|split].
  - change (capacity d16) with 65536. lia.
  - unfold mirror. change (fat_base d16) with 1. change (fat_secs d16) with 20. change (ncopies d16) with 2. lia.
  - unfold in_fat. change (fat_base d16) with 1. change (fat_secs d16) with 20. lia.
  - intros [H _]. by apply H.
Qed.

(** C26: In a subdirectory [dir_read] follows the cluster chain: entry number
    [dm_entry] is in cluster number [rel] of the chain, in the sector of that
    cluster that [dm_entry / 16] selects.  Behind the chain it returns
    DE_SEEK.  Only the fnode changes. *)
Theorem dir_read_sub {M : Machine} {D : Disk} s l u p d k T fp cs i
  (Ht : tab s l u p d k T) (Hh : hint_ok d) (Hp : f_dpb (fnode_of fp (fs s)) = p)
  (Hdc : dm_dircluster (dm_of (f_dmp (fnode_of fp (fs s))) (fs s)) <> 0)
  (Hent : 0 <= dm_entry (dm_of (f_dmp (fnode_of fp (fs s))) (fs s)) < 65535)
  (Hsh : 0 <= dpb_shftcnt d <= 8) (Hmask : dpb_clsmask d = 2 ^ dpb_shftcnt d - 1)
  (Hft : f_sft_idx (fnode_of fp (fs s)) = 0xff)
  (Hch : chain (max_cluster d) T (dm_dircluster (dm_of (f_dmp (fnode_of fp (fs s))) (fs s))) cs)
  (Hi : cs !! i = Some (f_cluster (fnode_of fp (fs s))))
  (Hoff : f_cluster_offset (fnode_of fp (fs s)) = Z.of_nat i)
  (Hdata : forall x j, 2 <= x <= max_cluster d -> 0 <= j < 2 ^ dpb_shftcnt d ->
     block_ok d (u32 (clus2phys x d + j)) /\ ~ in_fat d (u32 (clus2phys x d + j)) /\
     ~ fsinfo_block d (u32 (clus2phys x d + j))) :
  let entry := dm_entry (dm_of (f_dmp (fnode_of fp (fs s))) (fs s)) in
  let rel := Z.to_nat (entry / 16 / 2 ^ dpb_shftcnt d) in
  match cs !! rel with
  | Some x =>
      let blk := u32 (clus2phys x d + (entry / 16) mod 2 ^ dpb_shftcnt d) in
      exists e s' l', dir_read fp s = Some (entry_rc (on_disk e), s') /\
        getdirent (view s l d blk) (entry mod 16 * DIRENT_SIZE) = Some e /\ entry_ok e /\
        tab s' l' u p d k T /\ roamed s l s' l' u d /\
        fs s' = fnode_upd fp (fun n => set_f_dir (on_disk e) (set_f_diridx (entry mod 16)
          (set_f_dirsector blk (at_pos x rel (set_f_offset (entry * DIRENT_SIZE) n))))) (fs s)
  | None => exists s' l', dir_read fp s = Some (DE_SEEK, s') /\ tab s' l' u p d k T /\ roamed s l s' l' u d
  end.
Proof.
  intros entry rel. destruct (dir_locate_sub s l u p d k T fp cs i entry Ht Hh Hp Hdc Hent Hsh Hmask Hft Hch Hi Hoff)
    as (s1 & l1 & Ht1 & R1 & Hloc). fold rel in Hloc.
  pose proof (tab_dpb _ _ _ _ _ _ _ Ht) as Hd.
  destruct (cs !! rel) as [x|] eqn:Ex.
  - destruct Hloc as [Hloc Hfs1].
    pose proof (chain_range _ _ _ _ x Hch ltac:(by eapply list_elem_of_lookup_2)) as Hx.
    destruct (Hdata x ((entry / 16) mod 2 ^ dpb_shftcnt d) Hx) as (Hb & Hnf & Hni);
      [apply Z.mod_pos_bound; lia|]. set (blk := u32 _) in *.
    assert (Hn1 : f_dirsector (fnode_of fp (fs s1)) = blk) by (by rewrite Hfs1, fnode_upd_of).
    pose proof (tb_ready _ _ _ _ _ _ _ Ht1) as Rd1.
    destruct (dir_read_found s u p d fp entry s1 l1 Hp Hd eq_refl Hent Hloc (r_cache _ _ _ _ _ _ Rd1)
                (v_mounted _ _ _ _ _ (r_volume _ _ _ _ _ _ Rd1)) ltac:(by rewrite Hn1))
      as (e & s' & l' & Hg & Ho & Hr & Hc' & Hl' & Hv & Hf & Hfs).
    destruct (tab_loaded s1 l1 u p d k T s' l' Ht1 Hc' Hl' Hv Hf) as [Ht' R2].
    exists e, s', l'. split; [done|]. split.
    { rewrite Hn1 in Hg. rewrite <- Hg. f_equal. symmetry.
      apply (ro_frame _ _ _ _ _ _ R1 u p); [apply Ht|done|done]. }
    split; [done|]. split; [done|]. split; [exact (roamed_trans _ _ _ _ _ _ _ d d R1 R2 eq_refl)|].
    rewrite Hfs, Hfs1. by rewrite fnode_upd_upd.
  - exists s1, l1. split; [|done]. unfold dir_read, dm. rewrite (run_fdpb fp d p) by done.
    rewrite run_assoc, run_fn, run_assoc, run_get, run_ret. fold entry.
    rewrite (proj2 (Z.leb_gt 65535 entry)) by (unfold entry; lia). by rewrite (run_eq _ _ _ _ _ Hloc).
Qed.

(** The directory at cluster 2 of the FAT16 volume, at entry 35. *)
Definition fs_sub : fsv :=
  set_tmp_dm (Dmatch 0 (replicate 11 0x20) 0 35 2) (fs0 P16 0).

Lemma dir_read_sub_witness :
  exists e s' l', dir_read fnode0 (ks fs_sub) = Some (entry_rc (on_disk e), s') /\
    tab s' l' 1 P16 d16 FAT16 (links (ks fs_sub) l0 d16 FAT16) /\
    getdirent (view (ks fs_sub) l0 d16 44) (3 * DIRENT_SIZE) = Some e.
Proof.
  assert (Hch : chain (max_cluster d16) (links (ks fs_sub) l0 d16 FAT16) 2 [2; 3; 4])
    by (vm_compute; repeat split; congruence).
  destruct (dir_read_sub (ks fs_sub) l0 1 P16 d16 FAT16 (links (ks fs_sub) l0 d16 FAT16) fnode0 [2; 3; 4] 0)
    as (e & s' & l' & H1 & H2 & _ & H3 & _).
  - split; [apply ready16|done].
  - left. reflexivity.
  - reflexivity.
  - vm_compute. congruence.
  - vm_compute. split; congruence.
  - vm_compute. split; congruence.
  - reflexivity.
  - reflexivity.
  - exact Hch.
  - reflexivity.
  - reflexivity.
  - intros x j Hx Hj. apply (data_block16 x j Hx Hj).
  - exists e, s', l'. split; [exact H1|]. split; [exact H3|exact H2].
Defined.

End DirProps.
