(* ===== verification/FileProps.v ===== *)
(** * Properties of open files

    The copies of an open file in the system file table and in a fnode; the
    parameter block of a volume. *)

From S2P Require Import Prelude KState BlockIO FatTab FNode FatAlloc Media FatDir FatFile Disk Ring.
From S2P Require Import CacheSpec CacheOps FatPure FatSpec FatWrite Table FatChain AllocSpec.
From S2P Require Import MapSpec SftSpec DirSpec DirProps RamVol.
Import Ks Bio Fat FNode Alloc Media Dir File Dsk Ring Cache CacheOps FatPure FatSpec FatWrite Table Chain
  AllocSpec MapSpec SftSpec DirSpec DirProps RamVol.

Module FileProps.

(** ** The table of open files *)

(** An open file survives the system file table: what [fnode_to_sft]
    stores at the index of the fnode is what [sft_to_fnode] loads from it, the
    position, cluster and directory data included, and the other entries of
    the table do not change, nor does the count and mode of this one. *)
Theorem fnode_sft_roundtrip {M : Machine} s fp d x
  (Hd : dpbs s !! f_dpb (fnode_of fp (fs s)) = Some d)
  (Hfd : 0 <= f_sft_idx (fnode_of fp (fs s)) < 256)
  (Hx : idx_to_sft (sfthead (fs s)) (f_sft_idx (fnode_of fp (fs s))) = Some x)
  (Hoff : 0 <= f_cluster_offset (fnode_of fp (fs s)) < 2 ^ 32)
  (He : entry_ok (f_dir (fnode_of fp (fs s)))) :
  let n := fnode_of fp (fs s) in
  let fd := f_sft_idx n in
  exists s1 s2 m, fnode_to_sft fp s = Some (tt, s1) /\ sft_to_fnode fd s1 = Some (fnode0, s2) /\
    m = fnode_of fnode0 (fs s2) /\
    f_flags m = f_flags n /\ f_dpb m = f_dpb n /\ f_offset m = f_offset n /\ f_sft_idx m = fd /\
    f_cluster m = f_cluster n /\ f_cluster_offset m = f_cluster_offset n /\
    f_dirsector m = f_dirsector n /\ f_diridx m = f_diridx n /\
    dir_name (f_dir m) = dir_name (f_dir n) /\ dir_attrib (f_dir m) = dir_attrib (f_dir n) /\
    dir_time (f_dir m) = dir_time (f_dir n) /\ dir_date (f_dir m) = dir_date (f_dir n) /\
    dir_size (f_dir m) = dir_size (f_dir n) /\ getdstart d (f_dir m) = getdstart d (f_dir n) /\
    (forall fd', 0 <= fd' -> fd' <> fd -> idx_to_sft (sfthead (fs s2)) fd' = idx_to_sft (sfthead (fs s)) fd') /\
    exists y, idx_to_sft (sfthead (fs s2)) fd = Some y /\ sft_count y = sft_count x /\ sft_mode y = sft_mode x.
Proof.
  intros n fd. pose proof (fnode_to_sft_run s fp d x Hd Hx) as Hr1. cbv zeta in Hr1.
  fold n fd in Hr1. set (s1 := set_fs _ s) in Hr1.
  assert (Hy : idx_to_sft (sfthead (fs s1)) fd = Some (stored d n x)).
  { cbn [s1 fs set_fs sfthead set_sfthead]. apply idx_upd_found; [unfold fd, n; lia|done|done]. }
  pose proof (sft_to_fnode_run s1 fd d (stored d n x) Hd Hy) as Hr2.
  eexists s1, _, _. split; [exact Hr1|]. split; [exact Hr2|]. split; [reflexivity|].
  cbn [fs set_fs]. rewrite fnode_upd_of. unfold fetched.
  cbn [f_flags f_dpb f_offset f_sft_idx f_cluster f_cluster_offset f_dirsector f_diridx f_dir stored
       sft_flags sft_dcb sft_posit sft_cuclust sft_relclust sft_relclust_high sft_dirsector sft_diridx
       sft_name sft_attrib sft_time sft_date sft_size sft_stclust].
  do 3 (split; [done|]). split; [by apply u8_small|]. split; [done|]. split; [by apply offset_halves|].
  do 2 (split; [done|]). destruct He as [? ? ? ? ? ? ? ? ? ? ? ? ?].
  split; [by destruct (ISFAT32 d) eqn:E; unfold setdstart; rewrite E|].
  do 4 (split; [by destruct (ISFAT32 d) eqn:E; unfold setdstart; rewrite E|]).
  split; [by apply dstart_get|]. split.
  - intros fd' H0 Hne. cbn [fnode_upd set_fn0 sfthead s1 fs set_fs set_sfthead]. unfold idx_to_sft.
    rewrite sft_upd_other; [done|unfold fd, n; lia|done..].
  - by exists (stored d n x).
Qed.

(** A root directory with one file, which is open. *)
Definition root1 : list Z := default [] (putdirent 0 entry1 (replicate 512 0)).
Definition sft1 : sft :=
  Sft 1 0 (dir_attrib entry1) SFT_FCLEAN P12 (dir_time entry1) (dir_date entry1) (dir_size entry1) 0 0 0 5 0
    (dir_name entry1) (dir_start entry1) (-1) 0 0.
Definition ks_file (share : bool) : @kst ram :=
  set_dev (Ramw (<[(1, 0, 5) := root1]> (ram_sec w0)) (ram_clk w0) : @world ram)
    (ks (set_share_installed share (set_sfthead [[sft1]]
           (set_fn1 (set_f_sft_idx 0 (set_f_dir entry1 (fn_at P12 7))) (fs0 P12 0))))).

Lemma fnode_sft_roundtrip_witness :
  exists s1 s2, fnode_to_sft fnode1 (ks_file false) = Some (tt, s1) /\
    sft_to_fnode 0 s1 = Some (fnode0, s2) /\ f_offset (fn0 (fs s2)) = 7.
Proof.
  destruct (fnode_sft_roundtrip (ks_file false) fnode1 d12 sft1)
    as (s1 & s2 & m & H1 & H2 & -> & _ & _ & H3 & _).
  - reflexivity.
  - vm_compute. split; congruence.
  - reflexivity.
  - vm_compute. split; congruence.
  - exact entry1_ok.
  - exists s1, s2. split; [exact H1|]. split; [exact H2|exact H3].
Defined.

(** With SHARE, [dos_setfattr] on an open file reports success and does
    not change the attributes: closing the other handle loads that handle into
    the same fnode, so the entry that is then written is the one of the closed
    handle.  Without SHARE the attribute is set. *)
Theorem dos_setfattr_share_lost :
  let path := [0x41; 0x3a; 0x5c; 0x41; 0x42; 0x2e; 0x54; 0x58; 0x54] in
  let attrib r := match r with
                  | Some (rc, s) => Some (rc, fgetbyte (sector s d12 5) DIR_ATTRIB)
                  | None => None
                  end in
  attrib (dos_setfattr path D_RDONLY (ks_file false)) = Some (SUCCESS, Some D_RDONLY) /\
  attrib (dos_setfattr path D_RDONLY (ks_file true)) = Some (SUCCESS, Some D_ARCHIVE).
Proof. vm_compute. done. Qed.

(** ** The parameter block *)

(** The number of the last cluster, from the size of the volume alone. *)
Definition raw_size (b : bpb) (data : Z) : Z :=
  u16 (u16 (Z.shiftr (u32 (bpb_total b - data)) (shift_of (bpb_nsector b))) + 1).

(** What [trim_size] leaves, for a FAT of [f] sectors of [n] bytes: [q] entries
    of two bytes. *)
Lemma trim_size_fits raw f n q :
  0 <= raw < 65536 -> 0 < f < 65536 -> 2 <= n < 65536 -> n mod 2 = 0 -> q = f * (n / 2) ->
  (FAT_MAGIC < raw -> FAT_MAGIC < q) ->
  trim_size raw f n <= raw /\
  (raw <= FAT_MAGIC -> trim_size raw f n * 3 / 2 + 1 < 2 * q) /\
  (FAT_MAGIC < raw -> FAT_MAGIC <= trim_size raw f n /\ 2 * trim_size raw f n + 1 < 2 * q).
Proof.
  intros Hraw Hf Hn Heven Hq Hpass. unfold trim_size. rewrite <- Hq.
  assert (Hh : 1 <= n / 2 <= 32767) by divmod.
  assert (0 < q < 2 ^ 32) by (subst q; clear -Hh Hf; nia).
  rewrite u32_small by lia. clear Hq. unfold FAT_MAGIC in *. destruct (0x10000 <=? q) eqn:E1; zbool; [divmod|].
  rewrite (u16_small q) by lia. destruct (4085 <? raw) eqn:E2; zbool.
  - rewrite (proj2 (Z.leb_gt _ 4085)) by lia. rewrite u16_small by lia. destruct (_ <=? raw) eqn:E3; zbool; lia.
  - destruct (0x4000 <=? _) eqn:E3; zbool; [divmod|]. rewrite (u16_small (_ * 4)) by lia.
    rewrite u16_small by divmod. destruct (_ <=? raw) eqn:E4; zbool; divmod.
Qed.

(** The room in the FAT, as a property of the block. *)
Definition fat_fits (b : bpb) (data : Z) (d : dpb) : Prop :=
  forall k, type_of d = Some k ->
    k <> FAT32 /\ max_cluster d <= raw_size b data /\ fat_secs d = bpb_nfsect b /\
    at_byte k (max_cluster d) + span k < fat_secs d * bpb_nbyte b.

Lemma dpb_base_fits b d0 d data :
  dpb_base b d0 = Some d -> data_of b = Some data -> 2 <= bpb_nbyte b < 65536 -> bpb_nbyte b mod 2 = 0 ->
  0 < bpb_nfsect b < 65536 -> (FAT_MAGIC < raw_size b data -> FAT_MAGIC < bpb_nfsect b * (bpb_nbyte b / 2)) ->
  ISFAT32 d = false /\ fat_fits b data d.
Proof.
  intros H Hdata Hb Heven Hf Hpass. unfold dpb_base in H. rewrite Hdata in H. injection H as <-.
  fold (raw_size b data) in *. set (raw := raw_size b data) in *.
  assert (Hraw : 0 <= raw < 65536) by apply u16_range.
  unfold fat_fits, type_of, ISFAT12, ISFAT16, max_cluster, fat_secs, ISFAT32 in *. fold raw.
  cbn [dpb_size dpb_fatsize set_nfreeclst set_xnfreeclst dpb_xsize dpb_xfatsize] in *.
  rewrite (proj2 (Z.eqb_neq (bpb_nfsect b) 0)) in * by lia. split; [done|].
  destruct (trim_size_fits raw (bpb_nfsect b) (bpb_nbyte b) _ Hraw Hf Hb Heven eq_refl Hpass) as (H1 & H2 & H3).
  replace (bpb_nfsect b * bpb_nbyte b) with (2 * (bpb_nfsect b * (bpb_nbyte b / 2)))
    by (rewrite (Z_div_mod_eq_full (bpb_nbyte b) 2) at 2; lia).
  set (q := bpb_nfsect b * _) in *. set (sz := trim_size raw _ _) in *. clearbody sz raw q. intros k Hk.
  destruct (u16 (sz - 1) <? FAT_MAGIC) eqn:E12.
  - injection Hk as <-. split; [done|]. split; [done|]. split; [done|]. cbn [at_byte span].
    destruct (decide (raw <= FAT_MAGIC)); [by apply H2|]. destruct (H3 ltac:(lia)). zbool.
    unfold FAT_MAGIC in *. rewrite u16_small in E12 by lia. divmod.
  - destruct (_ && _) eqn:E16; [|done]. injection Hk as <-. zbool. cbn [at_byte span].
    split; [done|]. split; [done|]. split; [done|]. apply H3. lia.
Qed.

(** The members of an extended block do not count for FAT12 and FAT16. *)
Lemma dpb_extended_fits b data d : ISFAT32 d = false -> fat_fits b data d -> fat_fits b data (dpb_extended b d).
Proof.
  intros H Hfit. unfold dpb_extended. change (ISFAT32 (dpb16to32 _)) with (ISFAT32 d). rewrite H.
  revert Hfit. unfold fat_fits, type_of, max_cluster, fat_secs.
  change (ISFAT32 (dpb16to32 _)) with (ISFAT32 d). by rewrite H.
Qed.

(** C36: the parameter block that [bpb_to_dpb] makes, as an extended block or not,
    from the BPB of a volume that is not FAT32 (it has a 16-bit FAT size; sectors
    have any even size from 32 bytes to 64K) never lets a cluster number lead outside the
    FAT: the entry of the last cluster lies within the [bpb_nfsect] sectors of one
    copy, in the format that the kernel uses for that number of clusters, and the
    volume never gets larger than the BPB says.  The blocks of other volumes do
    not change.  One kind of BPB is excluded ([Hpass]), which the code lets pass:
    a volume with the size of a FAT16 one whose FAT is too short even for 4086
    entries. *)
Theorem bpb_fat_room {M : Machine} s p b ext d0 data
  (Hp : dpbs s !! p = Some d0) (Hdata : data_of b = Some data)
  (Hb : 2 <= bpb_nbyte b < 65536) (Heven : bpb_nbyte b mod 2 = 0) (Hf : 0 < bpb_nfsect b < 65536)
  (Hpass : FAT_MAGIC < raw_size b data -> FAT_MAGIC < bpb_nfsect b * (bpb_nbyte b / 2)) :
  exists s' d, bpb_to_dpb b p ext s = Some (tt, s') /\ dpbs s' = <[p := d]> (dpbs s) /\ fat_fits b data d.
Proof.
  destruct (dpb_base b d0) as [d|] eqn:H; [|unfold dpb_base in H; by rewrite Hdata in H].
  destruct (dpb_base_fits b d0 d data H Hdata Hb Heven Hf Hpass) as [H32 Hfit].
  unfold bpb_to_dpb, kbind, dget, dmod. rewrite Hp. cbn iota beta. unfold kopt. rewrite H. cbn iota beta. rewrite Hp. cbn iota beta. destruct ext.
  - assert (Hl : dpbs (set_dpbs (<[p:=d]> (dpbs s)) s) !! p = Some d) by apply lookup_insert_eq.
    rewrite Hl, H32. eexists _, (dpb_extended b d). split; [reflexivity|].
    split; [apply insert_insert_eq|by apply dpb_extended_fits].
  - eexists _, d. split; [reflexivity|]. done.
Qed.

(** A 1.44 MB floppy disk, and a 16 MB disk whose FAT is too short. *)
Definition bpb_floppy : bpb := Bpb 512 1 1 2 224 2880 0xf0 9 18 2 0 0 0 0 0 0 0 0.
Definition bpb_short : bpb := Bpb 512 4 1 2 512 32768 0xf8 17 32 4 0 0 0 0 0 0 0 0.

Lemma bpb_fat_room_witness :
  (exists s' d, bpb_to_dpb bpb_floppy P12 true (ks_file false) = Some (tt, s') /\
     dpbs s' = <[P12 := d]> (dpbs (ks_file false)) /\ fat_fits bpb_floppy 33 d) /\
  exists s' d, bpb_to_dpb bpb_short P12 false (ks_file false) = Some (tt, s') /\
     dpbs s' = <[P12 := d]> (dpbs (ks_file false)) /\ fat_fits bpb_short 67 d.
Proof.
  split.
  - exact (bpb_fat_room (ks_file false) P12 bpb_floppy true d12 33 eq_refl eq_refl
      ltac:(vm_compute; split; congruence) eq_refl ltac:(vm_compute; split; congruence) ltac:(vm_compute; congruence)).
  - exact (bpb_fat_room (ks_file false) P12 bpb_short false d12 67 eq_refl eq_refl
      ltac:(vm_compute; split; congruence) eq_refl ltac:(vm_compute; split; congruence) ltac:(vm_compute; congruence)).
Defined.

End FileProps.
