(* ===== verification/PathProps.v ===== *)
(** * Properties of path names

    What [truename] returns on a drive of this machine, that its results are
    canonical, and where its buffer ends. *)

From S2P Require Import Prelude KState BlockIO FatTab FNode FatAlloc Clock Media FatDir FatFile.
From S2P Require Import Disk CacheSpec Path PathSpec PathRun RamVol.
Import Ks Bio Fat FNode Alloc Clk Media Dir File Dsk Path PathSpec PathRun PathCanon RamVol.

Module PathProps.

(** ** A drive to try it on *)

#[export] Instance no_net : @Shell ram := {|
  QRemote_Fn := fun d _ w => (-1, d, w);
  muxUpMem := fun _ l w => (l, w) |}.

Lemma no_net_ok : @no_redirector ram no_net.
Proof. intros d src w. by exists (-1). Qed.

Definition cds_a : cds := Cds ([0x41; COLON; BACKSLASH] ++ zeros 64) CDSPHYSDRV P12 0 2.
Definition nul_dev : dhdr := Dhdr 0x48 0x8004 [0x4e; 0x55; 0x4c; 0x20; 0x20; 0x20; 0x20; 0x20].
Definition pkg : nlsPackage := NlsPackage 3 (seqZ 0x80 128) (seqZ 0x80 128).
Definition ps : @pst ram :=
  Pst ram (set_CDSp {[ 0 := cds_a ]} (ks (fs0 P12 0))) 0 LdtNull cds_a 0 5 [nul_dev] pkg.

Lemma pkg_ok : table_ok (nls_tbl4 pkg).
Proof.
  split; [done|]. split; apply Forall_forall; intros c Hc%elem_of_seqZ.
  - assert (Hd : DirChar c = true).
    { unfold DirChar. rewrite (proj2 (Z.leb_le _ _)) by lia. cbn [andb].
      apply negb_true_iff, bool_decide_eq_false_2. unfold DirChars. rewrite !elem_of_cons, elem_of_nil. lia. }
    split; [done|]. unfold is_slash, SLASH, BACKSLASH, DOT. rewrite !(proj2 (Z.eqb_neq c _)) by lia.
    repeat split; try lia. unfold upMM. rewrite (proj2 (Z.leb_gt c 0x7a)), andb_false_r, (proj2 (Z.ltb_lt _ _)) by lia.
    cbn [nls_tbl4 pkg]. rewrite lookup_seqZ_lt by lia. f_equal. lia.
  - unfold byte. lia.
Qed.

(** A run that succeeds has a state, which is not computed. *)
Lemma run_fst {A B} (r : option (A * B)) (a : A) : fst <$> r = Some a -> exists b, r = Some (a, b).
Proof. destruct r as [[a' b]|]; [|done]. intros [= <-]. by exists b. Qed.

Lemma run_none {A} (r : option A) : match r with Some _ => false | None => true end = true -> r = None.
Proof. by destruct r. Qed.

Lemma ready_a :
  exists rc k1 k2, media_check (cdsDpb cds_a) (kern ps) = Some (rc, k1) /\ 0 <= rc /\
    dos_cd (cstr (cdsCurrentPath cds_a)) k1 = Some (SUCCESS, k2).
Proof.
  assert (H : match media_check (cdsDpb cds_a) (kern ps) with
    | Some (rc, k1) => (0 <=? rc) && bool_decide (fst <$> dos_cd (cstr (cdsCurrentPath cds_a)) k1 = Some SUCCESS)
    | None => false
    end = true) by (vm_compute; reflexivity).
  destruct (media_check _ _) as [[rc k1]|] eqn:E; [|done]. apply andb_true_iff in H as [H1 H2].
  apply bool_decide_eq_true in H2. destruct (run_fst _ _ H2) as [k2 H3].
  exists rc, k1, k2. split; [done|]. split; [lia|done].
Qed.

Lemma plain_a : plain ps 0 cds_a [].
Proof.
  split; try done.
  - split; [cbn; lia|done].
  - split; [done|apply pkg_ok].
  - exact ready_a.
Qed.

(** foo\..\./letter.texts, and A:\LETTER.TEX *)
Definition src1 : list Z :=
  [0x66; 0x6f; 0x6f; 0x5c; 0x2e; 0x2e; 0x5c; 0x2e; 0x2f; 0x6c; 0x65; 0x74; 0x74; 0x65; 0x72; 0x2e; 0x74; 0x65; 0x78; 0x74; 0x73].
Definition path1 : list Z := [0x41; 0x3a; 0x5c; 0x4c; 0x45; 0x54; 0x54; 0x45; 0x52; 0x2e; 0x54; 0x45; 0x58].
(** The path of [n] names of eight letters, and of [k] more letters. *)
Definition deep (n k : nat) : list Z :=
  [0x41; COLON] ++ concat (replicate n (BACKSLASH :: replicate 8 0x42)) ++ BACKSLASH :: replicate k 0x42.

(** ** The result *)

(** C14: [truename] on a plain local drive computes [target]: the components of
    the path, cut to 8.3, applied one after the other to the current directory
    or, for an absolute path, to the root; [.] does nothing and [..] removes a
    name.  Plain means ([plain], [no_redirector], [Hdev], [Hmode]): the drive
    is local, not joined or substituted, its medium answers and its current
    directory exists, the table for upper case is one the kernel reads itself,
    no redirector takes the path, which is not the name of a device and does
    not begin with two backslashes, and the mode does not skip the physical path (CDS_MODE_SKIP_PHYSICAL).  It returns
    the drive (0 for the mode CDS_MODE_ALLOW_WILDCARDS alone) and leaves the
    drive's letter and those names, those of the current directory too, in
    upper case in the buffer; it returns an error if a component is not well
    formed, if [..] would leave the root, if wildcards are not in the last name
    or not allowed, or if at some point the path has no room in 128 characters.
    The one case in which it does neither is a path of exactly 128 characters,
    whose end is written behind the buffer. *)
Theorem truename_resolves {M : Machine} {Sh : Shell} s src dst mode drive e cwd
  (P : plain s drive e cwd) (Hsel : selects s src drive) (Hdev : IsDevice src s = Some (None, s))
  (Hno : no_redirector) (Hdst : length dst = ROOM) (Hb : Forall byte src)
  (Hmode : has mode CDS_MODE_SKIP_PHYSICAL = false) :
  match target src cwd with
  | Some (cs, w) =>
      if w && negb (has mode CDS_MODE_ALLOW_WILDCARDS) then
        exists rc d s', truename src dst mode s = Some ((rc, d), s') /\ rc < 0
      else if decide (2 + length (rooted cs) < ROOM)%nat then
        exists d s' up,
          truename src dst mode s = Some ((if mode =? CDS_MODE_ALLOW_WILDCARDS then 0 else drive, d), s') /\
          length d = ROOM /\ upMMem (nls_tbl4 (actPkg s)) (rooted cs) = Some up /\
          cstr d = drNrToLetter drive :: COLON :: up
      else truename src dst mode s = None
  | None => exists rc d s', truename src dst mode s = Some ((rc, d), s') /\ rc < 0
  end.
Proof.
  pose proof (truename_at s src dst mode drive e cwd P Hsel Hdev Hno Hdst Hb Hmode) as H. unfold outcome in H.
  destruct (target src cwd) as [[cs w]|]; [destruct (w && _); [|exact H]|];
    destruct H as (rc & d & s' & Hr & Hrc); exists rc, d, s'; (split; [exact Hr|]);
    unfold DE_FILENOTFND, DE_PATHNOTFND in Hrc; lia.
Qed.

Lemma truename_resolves_witness :
  exists d s', truename src1 (zeros 128) 0 ps = Some ((0, d), s') /\ cstr d = path1.
Proof.
  pose proof (truename_resolves ps src1 (zeros 128) 0 0 cds_a [] plain_a
    ltac:(vm_compute; split; [reflexivity|intros [? ?]; congruence]) eq_refl no_net_ok eq_refl
    ltac:(vm_compute; repeat constructor; congruence) eq_refl) as H.
  assert (Et : target src1 [] = Some ([[0x6c; 0x65; 0x74; 0x74; 0x65; 0x72; 0x2e; 0x74; 0x65; 0x78]], false))
    by (vm_compute; reflexivity).
  rewrite Et in H. cbn [andb] in H. rewrite decide_True in H by (cbn; unfold ROOM; lia).
  destruct H as (d & s' & up & H1 & _ & H2 & H3). exists d, s'. split; [exact H1|].
  rewrite H3. by injection H2 as <-.
Defined.

(** The buffer is one byte short: [truename] accepts a path of 127
    characters and refuses one of 129, but for one of 128 characters it puts
    the NUL behind the end of the 128 bytes of the buffer. *)
Theorem truename_off_by_one :
  let run k := truename (deep 13 k) (zeros 128) 0 ps in
  (exists d s', run 7%nat = Some ((0, d), s') /\ length (cstr d) = 127%nat) /\
  run 8%nat = None /\
  exists d s', truename (deep 14 1) (zeros 128) 0 ps = Some ((DE_PATHNOTFND, d), s').
Proof.
  split; [|split].
  - eexists. destruct (run_fst (truename (deep 13 7) (zeros 128) 0 ps) (0, deep 13 7 ++ [0])) as [s' H];
      [vm_compute; reflexivity|]. exists s'. split; [exact H|reflexivity].
  - apply run_none. vm_compute. reflexivity.
  - eexists. apply run_fst. vm_compute. reflexivity.
Qed.

(** The names of a path that was accepted without wildcards. *)
Lemma target_good src cwd cs :
  Forall byte src -> Forall good cwd -> target src cwd = Some (cs, false) ->
  exists ms tr, cs = ms ++ tr /\ Forall good ms /\ tail_ok tr.
Proof.
  intros Hb Hcwd. unfold target.
  assert (H : forall b cs0 w0, Forall byte b -> Forall good cs0 ->
    resolve 2 (components b) cs0 w0 = Some (cs, false) -> exists ms tr, cs = ms ++ tr /\ Forall good ms /\ tail_ok tr).
  { intros b cs0 w0 Hbb H0 Hres. destruct (resolve_shape good _ _ _ _ _ _
      (fun w m Hin Hne Hh Hm Hw => name83_good w m Hne Hh
         (proj2 (proj1 (Forall_forall _ _) (components_forall byte b Hbb) w Hin)) (Hw eq_refl) Hm) H0 Hres)
      as (cs1 & H1 & [-> | ->]).
    - exists cs1, []. rewrite app_nil_r. split; [done|]. split; [done|by left].
    - exists cs1, [[]]. split; [done|]. split; [done|by right]. }
  destruct (absolute (body src)); apply H; try done; [apply Forall_drop|]; by apply body_byte.
Qed.

Lemma rooted_render cs : cs <> [] -> rooted cs = render cs.
Proof. by destruct cs. Qed.

(** A path that is already in canonical form resolves to itself. *)
Lemma target_again t a ms tr cwd up :
  table_ok t -> Forall good ms -> tail_ok tr -> (2 + length (rooted (ms ++ tr)) < ROOM)%nat ->
  upMMem t (rooted (ms ++ tr)) = Some up ->
  exists cs, target (a :: COLON :: up) cwd = Some (cs, false) /\ rooted cs = up.
Proof.
  intros Ht Hms Htr Hl Hu. unfold target. cbn [body]. change (COLON =? COLON) with true. cbn iota.
  destruct (decide (ms = [])) as [->|Hne].
  { assert (up = [BACKSLASH]) as -> by (destruct Htr as [-> | ->]; injection Hu as <-; done).
    cbn. by exists []. }
  rewrite rooted_render in Hu, Hl by (by destruct ms). destruct (upMMem_render t _ _ Hu) as (us & -> & Hus).
  apply Forall2_app_inv_l in Hus as (ums & utr & H1 & H2 & ->).
  assert (Hg : Forall good ums).
  { clear -Ht Hms H1. induction H1 as [|m x ms us Hx H IH]; [constructor|]. apply Forall_cons in Hms as [Hm Hms].
    constructor; [by eapply good_up|by apply IH]. }
  assert (Htr' : tail_ok utr).
  { destruct Htr as [-> | ->]; [left; by inversion H2|right]. inversion H2 as [|? x ? ? Hx H2']; subst.
    inversion H2'. by injection Hx as <-. }
  assert (Hne' : ums <> []) by (intros ->; by inversion H1; subst).
  assert (Hlen : length (render (ums ++ utr)) = length (render (ms ++ tr))).
  { apply mapM_Some, Forall2_length in Hu. done. }
  exists (ums ++ utr). assert (Habs : absolute (render (ums ++ utr)) = true) by (by destruct ums).
  rewrite Habs, components_drop by done. rewrite (resolve_good 2 [] ums utr) by (done || (cbn [app]; lia)).
  split; [done|]. apply rooted_render. by destruct ums.
Qed.

(** [truename] is idempotent: a path that it returned for a name without
    wildcards is canonical.  Given to [truename] again, in any later state in
    which the drive can be used, with whatever current directory and buffer,
    it gives the same path. *)
Theorem truename_idempotent {M : Machine} {Sh : Shell} s src dst drive e cwd d s1 s2 dst2 mode2 e2 cwd2
  (P : plain s drive e cwd) (Hcwd : Forall good cwd) (Hsel : selects s src drive)
  (Hdev : IsDevice src s = Some (None, s)) (Hno : no_redirector) (Hdst : length dst = ROOM) (Hb : Forall byte src)
  (Hrun : truename src dst 0 s = Some ((drive, d), s1))
  (P2 : plain s2 drive e2 cwd2) (Htbl : nls_tbl4 (actPkg s2) = nls_tbl4 (actPkg s))
  (Hdev2 : IsDevice (cstr d) s2 = Some (None, s2)) (Hdst2 : length dst2 = ROOM)
  (Hmode2 : has mode2 CDS_MODE_SKIP_PHYSICAL = false) :
  exists d2 s3, truename (cstr d) dst2 mode2 s2 =
      Some ((if mode2 =? CDS_MODE_ALLOW_WILDCARDS then 0 else drive, d2), s3) /\ cstr d2 = cstr d.
Proof.
  pose proof (truename_at s src dst 0 drive e cwd P Hsel Hdev Hno Hdst Hb eq_refl) as H. unfold outcome in H.
  pose proof (pl_range _ _ _ _ P) as Hd.
  destruct (target src cwd) as [[cs w]|] eqn:Et.
  2:{ destruct H as (rc & d' & s' & Hr & Hrc). rewrite Hrun in Hr. injection Hr as <- _ _.
      unfold DE_FILENOTFND, DE_PATHNOTFND in Hrc. lia. }
  destruct w; cbn [andb] in H.
  { destruct H as (rc & d' & s' & Hr & Hrc). rewrite Hrun in Hr. injection Hr as <- _ _.
    unfold DE_FILENOTFND, DE_PATHNOTFND in Hrc. lia. }
  destruct (decide _) as [Hl|]; [|by rewrite Hrun in H].
  destruct H as (d' & s' & up & Hr & _ & Hup & Hcs). rewrite Hrun in Hr. injection Hr as <- _.
  destruct (target_good src cwd cs Hb Hcwd Et) as (ms & tr & -> & Hms & Htr).
  pose proof (proj2 (pl_nls _ _ _ _ P)) as Ht.
  destruct (target_again _ (drNrToLetter drive) ms tr cwd2 up Ht Hms Htr Hl Hup) as (cs2 & Ht2 & Hcs2).
  rewrite Hcs in *.
  assert (Hchars : Forall byte up).
  { pose proof (chars_rooted (ms ++ tr) (target_chars src cwd _ _ Hb (plain_chars _ _ _ _ P) Et)) as Hc.
    by eapply (upMMem_byte _ _ _ Ht Hup), Forall_impl; [exact Hc|]; intros ? []. }
  assert (Hup2 : upMMem (nls_tbl4 (actPkg s2)) (rooted cs2) = Some up).
  { rewrite Htbl, Hcs2. by eapply upMMem_idem. }
  pose proof (truename_at s2 (drNrToLetter drive :: COLON :: up) dst2 mode2 drive e2 cwd2 P2) as H2.
  unfold outcome in H2. rewrite Ht2 in H2. cbn [andb] in H2. rewrite Hup2, Hcs2 in H2.
  assert (Hlup : length up = length (rooted (ms ++ tr))) by (apply mapM_Some, Forall2_length in Hup; done).
  rewrite decide_True in H2 by lia.
  destruct H2 as (d2 & s3 & up2 & Hr2 & _ & [= <-] & Hcs3); try done.
  - cbn. exists (drNrToLetter drive). split; [by apply upMM_letter|by apply letter_drive].
  - constructor; [apply letter_byte|]. constructor; [unfold byte, COLON; lia|done].
  - by exists d2, s3.
Qed.

Lemma truename_idempotent_witness :
  exists d s1 d2 s3, truename src1 (zeros 128) 0 ps = Some ((0, d), s1) /\
    truename (cstr d) (replicate 128 7) CDS_MODE_CHECK_DEV_PATH ps = Some ((0, d2), s3) /\ cstr d2 = path1.
Proof.
  assert (H : exists d s1, truename src1 (zeros 128) 0 ps = Some ((0, d), s1) /\ cstr d = path1).
  { destruct (run_fst (truename src1 (zeros 128) 0 ps) (0, path1 ++ zeros 115)) as [s' H];
      [vm_compute; reflexivity|]. eexists _, s'. split; [exact H|reflexivity]. }
  destruct H as (d & s1 & H1 & H2).
  destruct (truename_idempotent ps src1 (zeros 128) 0 cds_a [] d s1 ps (replicate 128 7) CDS_MODE_CHECK_DEV_PATH cds_a [])
    as (d2 & s3 & H3 & H4).
  - exact plain_a.
  - constructor.
  - vm_compute. split; [reflexivity|intros [? ?]; congruence].
  - reflexivity.
  - exact no_net_ok.
  - reflexivity.
  - vm_compute. repeat constructor; congruence.
  - exact H1.
  - exact plain_a.
  - reflexivity.
  - rewrite H2. reflexivity.
  - reflexivity.
  - reflexivity.
  - exists d, s1, d2, s3. split; [exact H1|]. split; [exact H3|]. by rewrite H4.
Defined.
End PathProps.
