(* ===== verification/HandleProps.v ===== *)
(** * Properties of handles

    No handle dangles, a process that ends gives back what it had, and what
    opening, duplicating and closing do with the handles. *)

From stdpp Require Import relations.
From S2P Require Import Prelude Memmgr MemmgrSpec MemmgrProps KState BlockIO FatTab FNode FatAlloc Clock Media FatDir FatFile.
From S2P Require Import Disk RamVol Frame Path PathProps Handle Calls HandleSpec HandleInv HandleRun CallSpec.
Import Mm MmSpec MmProps Ks Bio Fat FNode Alloc Clk Media Dir File Dsk RamVol Frame Path PathProps.
Import Handle Calls HandleSpec HandleInv HandleOps HandleRun CallSpec.

Module HandleProps.

(** ** A system to try it on *)

#[export] Instance no_redir : @Redirector ram := {|
  redir_path := fun _ _ _ _ w => (-1, w);
  redir_open := fun _ _ _ f w => (-1, f, w);
  redir_find := fun _ _ x w => (-1, x, w);
  redir_space := fun _ w => (-1, [], w);
  redir_space32 := fun _ w => (-1, [], w);
  redir_lseek := fun _ pos w => (pos, w);
  redir_lock := fun _ _ _ _ w => (-1, w);
  share_open_check := fun _ _ _ _ w => (-1, w);
  share_is_file_open := fun _ w => (false, w);
  share_lock_unlock := fun _ _ _ _ _ w => (-1, w) |}.

Lemma no_redir_closes : @redirector_closes ram.
Proof. intros f w rc f' w' [= <- <- <-]. by left. Qed.
Lemma no_redir_opens : @redirector_opens ram no_redir.
Proof. intros cmd attrib path f w rc f' w' [= <- <- <-] Hc. split; [lia|done]. Qed.

(** The shell at 60h and its child at 99h share the entry of the device NUL;
    two more entries are free. *)
Definition nul_sft (count : Z) : sft :=
  Sft count O_RDWR D_DEVICE (Z.lor 0x0004 (Z.lor SFT_FDEVICE SFT_FEOF)) 0x48 0 0 0 0 0 0 0 0
    (Path.dh_name nul_dev) 0 (-1) 0 0x60.
Definition free_sft_ : sft := Sft 0 0 0 0 0 0 0 0 0 0 0 0 0 (replicate 11 0) 0 0 0 0.
Definition kern0 (blocks : list (list sft)) : @kst ram :=
  let k := set_CDSp {[ 0 := cds_a ]} (ks (fs0 P12 0)) in
  Kst ram (Genv 3 {[ 1 := 0; 0x48 := 0x8004 ]} false LOC_CONV 0x60 ram_clock 0x70) (bufs k) (firstbuf k)
    (LoL_nbuffers k) (dpbs k) (CDSp k) (drv k) (set_sfthead blocks (fs k)) [] (dev k).
Definition tab0 (l : list Z) : list Z := l ++ replicate (20 - length l) 0xff.
Definition psp_60 : psp := Psp 0x60 20 0x60.
Definition psp_99 : psp := Psp 0x60 20 0x99.
Definition hs : @hst ram :=
  Hst ram (set_kern (kern0 [[nul_sft 4]; [free_sft_; free_sft_]]) ps) (w_upper 0)
    {[ 0x60 := psp_60; 0x99 := psp_99 ]} {[ 0x60 := tab0 [0; 0]; 0x99 := tab0 [0; 0xff; 0] ]}
    (zeros 128) (zeros 128) (zeros 12) (Ffblk dm0 0 0 0 0 (zeros 13)).

Lemma hs_refs i : 0 <= i < 255 -> refs (view_of hs) i = 4 * eq1 0 i.
Proof.
  intros Hi. unfold refs. change (v_psps (view_of hs)) with (<[0x60 := psp_60]> (<[0x99 := psp_99]> (∅ : gmap Z psp))).
  rewrite !msum_insert by done. change (msum _ ∅) with 0.
  change (table _ psp_60) with (tab0 [0; 0]). change (table _ psp_99) with (tab0 [0; 0xff; 0]).
  unfold tab0. rewrite !occ_app, !occ_replicate by lia. cbn [occ]. rewrite (eq1_ne 0xff i) by lia. lia.
Qed.

Lemma hs_psp q p : v_psps (view_of hs) !! q = Some p -> q = 0x60 /\ p = psp_60 \/ q = 0x99 /\ p = psp_99.
Proof.
  change (v_psps (view_of hs)) with (<[0x60 := psp_60]> (<[0x99 := psp_99]> (∅ : gmap Z psp))).
  intros [[<- <-]|[_ [[<- <-]|[_ ?]]%lookup_insert_Some]]%lookup_insert_Some; auto. done.
Qed.

Lemma hs_slot (i : nat) c m o :
  v_slots (view_of hs) !! i = Some (c, m, o) -> i = 0%nat /\ c = 4 /\ m = O_RDWR \/ c = 0 /\ m = 0.
Proof.
  change (v_slots (view_of hs)) with [(4, O_RDWR, 0x60); (0, 0, 0); (0, 0, 0)].
  destruct i as [|[|[|i]]]; cbn; intros [= <- <- <-]; auto.
Qed.

Lemma hs_ok : handles_ok (view_of hs).
Proof.
  split.
  - by exists psp_99.
  - intros q p [[-> ->]|[-> ->]]%hs_psp; (split; [cbn; lia|]);
      eexists; (split; [vm_compute; reflexivity|]); (split; [cbn; lia|]);
      repeat constructor; unfold byte; lia.
  - by intros q1 q2 p1 p2 [[-> ->]|[-> ->]]%hs_psp [[-> ->]|[-> ->]]%hs_psp.
  - cbn. lia.
  - intros i Hi. rewrite hs_refs by lia. destruct (decide (i = 0)) as [->|Hne]; [by vm_compute|].
    rewrite eq1_ne by lia. unfold count_at. destruct (v_slots _ !! _) as [[[c m] o]|] eqn:E; cbn; [|lia].
    apply hs_slot in E. lia.
  - intros i c m o H%hs_slot. lia.
  - intros i c m o Hi [(_ & _ & ->)|(_ & ->)]%hs_slot; done.
  - intros q p [[-> ->]|[-> ->]]%hs_psp; by exists psp_60.
Qed.

Lemma nul_devices (k : @kst ram) c :
  sfthead (fs k) = [[nul_sft c]; [free_sft_; free_sft_]] -> dh_attr (env k) !! 0x48 = Some 0x8004 -> devices_only k.
Proof.
  intros Hb Ha i f. rewrite Hb. unfold idx_to_sft. destruct (i <? 0) eqn:E; [done|]. zbool.
  rewrite idx_concat by lia. destruct (Z.to_nat i) as [|[|[|n]]]; cbn; [|done..].
  destruct (c =? 0); [done|]. intros H. apply (inj Some) in H as <-. split; [done|]. split; [done|]. by exists 0x8004.
Qed.

Lemma hs_devices : devices_only (kern (pth hs)).
Proof. by apply (nul_devices _ 4). Qed.

(** ** No handle dangles *)


(** The child opens NUL. *)
Definition NUL_ : list Z := [0x6e; 0x75; 0x6c].


(** ** A process ends *)

(** C15: The end of a process always runs to its end, if the entries it has
    open can be closed ([Closable]) and its table of handles and the chains of
    MCBs are well formed; memory may be low memory alone, or with an upper
    memory region, linked or not, whose first block is not the process's.  When
    the process does not stay resident and is not its own parent, every handle
    of its table is free, an entry counts less by the number of handles the
    process had on it, the other tables are as they were, every block of memory
    it owned, in low and in upper memory, is free, and the other blocks are as
    they were.  Otherwise its handles and its memory are as they were.  In both
    cases the parent is the current process. *)
Theorem exit_frees_process {M : Machine} {Sh : Shell} {R : Redirector} I {C : Closable I} term_type s p l o bs e
  (Hredir : redirector_closes) (Hok : handles_ok (view_of s)) (HI : I (kern (pth s))) (Hcur : cur_table s p l)
  (Hmem : tiles (arena s) o bs e) (Hroot : forall r, o = Some r -> b_psp r <> cu_psp_of s) :
  let max := Z.to_nat (ps_maxfiles p) in
  exists s', end_process term_type s = Some (tt, s') /\ cu_psp_of s' = ps_parent p /\ psps s' = psps s /\
    if (term_type =? 3) || (ps_parent p =? cu_psp_of s) then
      jfts s' = jfts s /\ slots (kern (pth s')) = slots (kern (pth s)) /\ tiles (arena s') o bs e
    else
      jfts s' = <[ps_filetab p := replicate max 0xff ++ drop max l]> (jfts s) /\
      lowered_by (take max l) (slots (kern (pth s))) (slots (kern (pth s'))) /\
      tiles (arena s') o (map (released (cu_psp_of s)) bs) e.
Proof.
  cbn zeta. destruct (_ || _) eqn:E.
  - destruct (end_process_stays (I := I) term_type s p HI (proj1 Hcur)) as (s' & H1 & H2 & H3 & H4 & H5 & H6).
    { apply orb_true_iff in E as [E|E]; zbool; auto. }
    exists s'. auto 8.
  - apply orb_false_iff in E as [E1 E2]. zbool.
    replace (take _ l) with (table (jfts s) p) by (unfold table; by rewrite (proj2 Hcur)).
    by apply (end_process_runs (I := I)).
Qed.

Lemma hs_root r : Some umb_root = Some r -> b_psp r <> cu_psp_of hs.
Proof. intros [= <-]. vm_compute. discriminate. Qed.

Lemma exit_frees_process_witness :
  exists s', end_process 0 hs = Some (tt, s') /\ cu_psp_of s' = 0x60 /\ jfts s' !! 0x99 = Some (replicate 20 0xff) /\
    slots (kern (pth s')) !! 0%nat = Some (2, O_RDWR, 0x60) /\
    tiles (arena s') (Some umb_root) [Blk 16 4 0x60; Blk 21 10 0; Blk 32 5 0; umb_root; Blk 46 20 0] 67.
Proof.
  destruct (exit_frees_process devices_only 0 hs psp_99 (tab0 [0; 0xff; 0]) _ _ _ no_redir_closes hs_ok hs_devices
    (conj eq_refl eq_refl) w_upper_apart hs_root) as (s' & H1 & H2 & _ & H3 & [_ H4] & H5).
  exists s'. split; [exact H1|]. split; [exact H2|]. rewrite H3. split; [reflexivity|].
  split; [exact (H4 0 4 O_RDWR 0x60 ltac:(lia) eq_refl eq_refl)|exact H5].
Defined.

(** ** Duplicating *)

(** C37: [DosDup] of an open handle [h] of the current program, whose entry counts
    fewer than 32767 handles, returns the first free handle [n] (all the handles
    below [n] are in use), which gets the entry of [h]; the entry counts one more,
    and no other table changes.  If the entries that are open then can be closed
    without an error ([Closable]) and the redirector counts down what it closes,
    closing [n] takes it all back: all the tables and the counts, owners and modes
    of all the entries are as before. *)
Theorem dup_close_roundtrip {M : Machine} {Sh : Shell} {R : Redirector} I {C : Closable I} s p l h n i f
  (Hredir : redirector_closes) (Hok : handles_ok (view_of s)) (Hcur : cur_table s p l)
  (Hh : 0 <= h < ps_maxfiles p) (Hi : l !! Z.to_nat h = Some i) (Hused : i <> 0xff)
  (Hf : idx_to_sft (sfthead (fs (kern (pth s)))) i = Some f) (Hroom : sft_count f < 32767)
  (Hn : 0 <= n < ps_maxfiles p) (Hnl : l !! Z.to_nat n = Some 0xff)
  (Hfirst : forall j, 0 <= j < n -> l !! Z.to_nat j <> Some 0xff) :
  exists s1, DosDup h s = Some (n, s1) /\
    jfts s1 = <[ps_filetab p := <[Z.to_nat n := i]> l]> (jfts s) /\
    slots (kern (pth s1)) !! Z.to_nat i = Some (sft_count f + 1, sft_mode f, sft_psp f) /\
    (I (kern (pth s1)) -> exists s2, DosClose n s1 = Some (SUCCESS, s2) /\ view_of s2 = view_of s).
Proof.
  pose proof (get_free_hndl_run s p l n Hcur Hn Hnl Hfirst) as Hrun. destruct Hn as [Hfree Hnm].
  destruct (handle_mode s p l h i f Hok Hcur Hh Hi Hused Hf) as (Hir & Hfm & Hs).
  destruct (DosForceDup_free s p l h n i f Hcur Hh Hi Hused ltac:(lia) Hf Hfree Hnl) as (s1 & H1 & Ep & Ec & Ej & Hm).
  exists s1. split.
  { unfold DosDup. rewrite (run_eq _ _ _ _ _ Hrun), (proj2 (Z.ltb_ge n 0)) by lia. by rewrite (run_eq _ _ _ _ _ H1). }
  split; [done|]. pose proof Hm as (c & m & o & _ & Hs' & E). rewrite Hs in Hs'. injection Hs' as <- <- <-.
  pose proof (ho_range _ Hok _ _ _ _ Hs) as Hrange. rewrite s16_small in E by lia.
  pose proof (lookup_lt_Some _ _ _ Hs) as Hlt.
  assert (Hs1 : slots (kern (pth s1)) !! Z.to_nat i = Some (sft_count f + 1, sft_mode f, sft_psp f))
    by (rewrite E; by apply list_lookup_insert_eq).
  split; [done|]. intros HI. pose proof Hcur as [Hp Hl].
  assert (Hok1 : handles_ok (view_of s1)).
  { eapply (ok_add (view_of s) _ _ p l n i (sft_count f) (sft_mode f) (sft_psp f) Hok Hp Hl Hfree Hnl); try done. lia. }
  destruct (DosClose_runs Hredir s1 p (<[Z.to_nat n := i]> l) n i Hok1 HI) as (rc & s2 & H2 & _ & Ea2 & Ep2 & Ej2 & _ & Hm2).
  { split; [by rewrite Ep, Ec|]. rewrite Ej. apply lookup_insert_eq. }
  { lia. }
  { apply list_lookup_insert_eq. by eapply lookup_lt_Some. }
  destruct (Hm2 Hused) as [-> (c & m & o & _ & Hs2 & E2)]. rewrite Hs1 in Hs2. injection Hs2 as <- <- <-.
  exists s2. split; [done|]. unfold view_of. f_equal; [|congruence| |].
  - rewrite E2, E, list_insert_insert_eq, s16_small by lia. apply list_insert_id. rewrite Hs. unfold slot. do 3 f_equal. lia.
  - rewrite Ej2, Ej, insert_insert_eq, list_insert_insert_eq, list_insert_id, insert_id; done.
  - unfold cu_psp_of in *. congruence.
Qed.

Lemma dup_close_roundtrip_witness :
  exists s1 s2, DosDup 0 hs = Some (1, s1) /\ DosClose 1 s1 = Some (SUCCESS, s2) /\ view_of s2 = view_of hs.
Proof.
  destruct (dup_close_roundtrip devices_only hs psp_99 (tab0 [0; 0xff; 0]) 0 1 0 (nul_sft 4) no_redir_closes hs_ok
    (conj eq_refl eq_refl) ltac:(cbn; lia) eq_refl ltac:(discriminate) eq_refl eq_refl ltac:(cbn; lia) eq_refl
    ltac:(intros j Hj; assert (j = 0) as -> by lia; discriminate))
    as (s1 & H1 & _ & _ & H2).
  assert (HI : devices_only (kern (pth s1))).
  { assert (H : (match DosDup 0 hs with
                 | Some (_, s1) => Some (sfthead (fs (kern (pth s1))), dh_attr (env (kern (pth s1))) !! 0x48)
                 | None => None
                 end) = Some ([[nul_sft 5]; [free_sft_; free_sft_]], Some 0x8004)) by (vm_compute; reflexivity).
    rewrite H1 in H. apply (inj Some), pair_eq in H as [Hb Ha]. exact (nul_devices _ 5 Hb Ha). }
  destruct (H2 HI) as (s2 & H3 & H4). exists s1, s2. exact (conj H1 (conj H3 H4)).
Defined.

(** A handle duplicated onto itself is lost.  [DosForceDup] closes the new
    handle, which is the old one, then copies the free handle to itself and
    counts the entry again: it returns success, the handle is free, and the
    entry counts one handle more than there are, so that it is never closed. *)
Theorem DosForceDup_self {M : Machine} {Sh : Shell} {R : Redirector} I {C : Closable I} s p l h i
  (Hredir : redirector_closes) (Hok : handles_ok (view_of s)) (HI : I (kern (pth s))) (Hcur : cur_table s p l)
  (Hh : 0 <= h < ps_maxfiles p) (Hi : l !! Z.to_nat h = Some i) (Hused : i <> 0xff) :
  exists s', DosForceDup h h s = Some (SUCCESS, s') /\ slots (kern (pth s')) = slots (kern (pth s)) /\
    jfts s' = <[ps_filetab p := <[Z.to_nat h := 0xff]> l]> (jfts s) /\
    refs (view_of s') i = refs (view_of s) i - 1.
Proof.
  pose proof Hcur as [Hp Hl].
  destruct (handle_entry (view_of s) _ p l h i Hok Hp Hl Hh Hi Hused) as (Hr & c & m & o & Hs & Hle & Hpos).
  destruct (slot_in_use _ _ c m o (proj1 Hr) Hs ltac:(lia)) as (f & Hf & Ef).
  destruct (DosClose_runs Hredir s p l h i Hok HI Hcur Hh Hi) as (rc & s1 & H1 & _ & Ea & Ep & Ej & _ & Hm).
  destruct (Hm Hused) as [-> (c' & m' & o' & _ & Hs' & E1)]. cbn in Hs. rewrite Hs in Hs'. injection Hs' as <- <- <-.
  pose proof (ho_range _ Hok _ _ _ _ Hs) as Hrange. pose proof (lookup_lt_Some _ _ _ Hs) as Hlt.
  rewrite s16_small in E1 by lia. pose proof (lookup_lt_Some _ _ _ Hi) as Hlh.
  set (l1 := <[Z.to_nat h := 0xff]> l) in *.
  assert (Hl1 : jfts s1 !! ps_filetab p = Some l1) by (rewrite Ej; apply lookup_insert_eq).
  assert (Hh1 : l1 !! Z.to_nat h = Some 0xff) by (by apply list_lookup_insert_eq).
  set (s2 := set_jfts (<[ps_filetab p := <[Z.to_nat h := u8 0xff]> l1]> (jfts s1)) s1).
  assert (Hs2 : slots (kern (pth s2)) !! Z.to_nat i = Some (c + -1, m, o))
    by (change (slots (kern (pth s2))) with (slots (kern (pth s1))); rewrite E1; by apply list_lookup_insert_eq).
  assert (Hup : exists s', on_kern (count_up i) s2 = Some (tt, s') /\ jfts s' = jfts s2 /\ psps s' = psps s2 /\
            moved 1 i (slots (kern (pth s2))) (slots (kern (pth s')))).
  { eexists. split; [reflexivity|]. do 2 (split; [done|]).
    eapply (count_moved 1 i (kern (pth s2)) tt); [lia|exact Hs2|reflexivity]. }
  destruct Hup as (s' & H' & Ej' & Ep' & (c3 & m3 & o3 & _ & Hs3 & E3)). rewrite Hs2 in Hs3. injection Hs3 as <- <- <-.
  assert (Ejf : jfts s' = <[ps_filetab p := l1]> (jfts s)).
  { rewrite Ej'. cbn. rewrite Ej, insert_insert_eq. unfold l1. by rewrite list_insert_insert_eq. }
  exists s'. split; [|split; [|split; [done|]]].
  - unfold DosForceDup. rewrite (run_eq _ _ _ _ _ (cur_psp_run s p Hp)).
    rewrite (run_eq _ _ _ _ _ (get_sft_run s p l h i f Hcur Hh Hi Hused Hf)).
    rewrite (run_eq _ _ _ _ _ (filetab_run s p l h i Hl (proj1 Hh) Hi)), (proj2 (Z.eqb_neq _ _) Hused). cbn [negb].
    rewrite (run_eq _ _ _ _ _ H1), Z.eqb_refl. cbn [negb].
    rewrite (run_eq _ _ _ _ _ (filetab_run s1 p l1 h 0xff Hl1 (proj1 Hh) Hh1)).
    rewrite (run_eq _ _ _ _ _ (set_filetab_run s1 p l1 h 0xff 0xff Hl1 (proj1 Hh) Hh1)).
    by rewrite (run_eq _ _ _ _ _ H').
  - rewrite E3. change (slots (kern (pth s2))) with (slots (kern (pth s1))).
    rewrite E1, list_insert_insert_eq, s16_small by lia. apply list_insert_id. rewrite Hs. do 3 f_equal. lia.
  - rewrite (refs_set (view_of s) _ _ p l h i 0xff i Hok Hp Hl Hh Hi); [|cbn; rewrite Ep'; exact Ep|done].
    rewrite eq1_refl, eq1_ne by lia. lia.
Qed.

Lemma DosForceDup_self_witness :
  exists s', DosForceDup 0 0 hs = Some (SUCCESS, s') /\ slots (kern (pth s')) = slots (kern (pth hs)) /\
    refs (view_of s') 0 = 3.
Proof.
  destruct (DosForceDup_self devices_only hs psp_99 (tab0 [0; 0xff; 0]) 0 0 no_redir_closes hs_ok hs_devices
    (conj eq_refl eq_refl) ltac:(cbn; lia) eq_refl ltac:(discriminate)) as (s' & H1 & H2 & _ & H3).
  exists s'. split; [exact H1|]. split; [exact H2|]. rewrite H3. vm_compute. reflexivity.
Defined.

(** ** Processes *)

(** C16: A new process has a table of 20 handles in its PSP.  Each of the first 20
    handles of its parent that refers to an entry not opened with
    [O_NOINHERIT] refers to the same entry in the child; the others are free.
    Every entry counts exactly the handles that were added, and no other table
    changes. *)
Theorem child_inherits {M : Machine} {Sh : Shell} {R : Redirector} para s q lq
  (Hok : handles_ok (view_of s)) (Hroom : room 20 s) (Hfresh : fresh para s) (Hcur : cur_table s q lq) :
  let new := inherited (slots (kern (pth s))) q lq <$> seqZ 0 20 in
  exists s', child_psp para (cu_psp_of s) s = Some (tt, s') /\
    psps s' = <[para := Psp (cu_psp_of s) 20 para]> (psps s) /\ jfts s' = <[para := new]> (jfts s) /\
    arena s' = arena s /\ counted new (slots (kern (pth s))) (slots (kern (pth s'))).
Proof. by apply child_psp_runs. Qed.

Lemma child_inherits_witness :
  exists s', child_psp 0xaa 0x99 hs = Some (tt, s') /\ jfts s' !! 0xaa = Some (tab0 [0; 0xff; 0]) /\
    slots (kern (pth s')) !! 0%nat = Some (6, O_RDWR, 0x60).
Proof.
  destruct (child_inherits 0xaa hs psp_99 (tab0 [0; 0xff; 0]) hs_ok
    ltac:(intros i c m o H%hs_slot; lia)
    ltac:(split; [discriminate|intros q p Hq [[-> ->]|[-> ->]]%hs_psp; discriminate]) (conj eq_refl eq_refl))
    as (s' & H1 & _ & H2 & _ & [_ H3]).
  exists s'. split; [exact H1|]. split; [rewrite H2; reflexivity|]. exact (H3 0 4 O_RDWR 0x60 ltac:(lia) eq_refl).
Defined.

(** [SetJFTSize] to a larger table.  It asks the memory manager for
    [(n + 15) / 16] paragraphs, in 16 bits.  Without a block of that size it
    returns DE_NOMEM and the handles are as before.  Otherwise, for less than
    fff1h handles, the new table lies in a block of the process that holds it,
    the old handles are kept and the new ones are free, and the other used
    blocks of memory are untouched; from fff1h handles on the sum wraps around,
    and the table is written over memory that was not allocated. *)
Theorem SetJFTSize_correct {M : Machine} {Sh : Shell} {R : Redirector} s p l n bs e
  (Hok : handles_ok (view_of s)) (Hcur : cur_table s p l) (Hn : ps_maxfiles p < n <= 0xffff)
  (Hchain : chain (mem (arena s)) (search_start (jft_paras n) (mem_access_mode (arena s)) (arena s)) bs e)
  (Hmode : mem_access_mode (arena s) <> LARGEST) (Hret : retries (mem_access_mode (arena s)) (arena s) = false) :
  match chosen_usable (mem_access_mode (arena s)) (jft_paras n) bs with
  | None => exists s', SetJFTSize n s = Some (DE_NOMEM, s') /\ view_of s' = view_of s
  | Some _ =>
      if n <? 0xfff1 then
        exists s' pre b rest, SetJFTSize n s = Some (SUCCESS, s') /\ slots (kern (pth s')) = slots (kern (pth s)) /\
          psps s' = <[cu_psp_of s := Psp (ps_parent p) n (b_seg b + 1)]> (psps s) /\
          jfts s' = <[b_seg b + 1 := jft_table p l n]> (jfts s) /\
          chain (mem (arena s')) (search_start (jft_paras n) (mem_access_mode (arena s)) (arena s)) (pre ++ b :: rest) e /\
          used bs = used pre ++ used rest /\ b_psp b = cu_psp_of s /\ n <= 16 * b_size b
      else SetJFTSize n s = None
  end.
Proof. exact (SetJFTSize_runs s p l n bs e Hok Hcur Hn Hchain Hmode Hret). Qed.

Lemma SetJFTSize_correct_witness :
  (exists s' q, SetJFTSize 40 hs = Some (SUCCESS, s') /\ jfts s' !! q = Some (tab0 [0; 0xff; 0] ++ replicate 20 0xff)) /\
  SetJFTSize 0xfff1 hs = None.
Proof.
  split.
  - destruct (SetJFTSize_correct hs psp_99 (tab0 [0; 0xff; 0]) 40 _ 38 hs_ok (conj eq_refl eq_refl) ltac:(cbn; lia)
      w_upper_low ltac:(discriminate) eq_refl) as (s' & pre & b & rest & H1 & _ & _ & H2 & _).
    exists s', (b_seg b + 1). split; [exact H1|]. rewrite H2. apply lookup_insert_eq.
  - exact (SetJFTSize_correct hs psp_99 (tab0 [0; 0xff; 0]) 0xfff1 _ 38 hs_ok (conj eq_refl eq_refl) ltac:(cbn; lia)
      w_upper_low ltac:(discriminate) eq_refl).
Defined.

End HandleProps.
