(* ===== verification/ConProps.v ===== *)
(** * Properties of the console

    What typing and showing text come to, that the line editor stays in its
    buffers, and what Ctrl-C interrupts. *)

From S2P Require Import Prelude Memmgr KState BlockIO FatTab FNode FatAlloc Clock Media FatDir FatFile FatRw.
From S2P Require Import RamVol Path PathProps Handle HandleProps Chario ConSpec LineSafe TypeSpec.
Import Mm Ks Bio Fat FNode Alloc Clk Media Dir File Rw RamVol Path PathProps Handle HandleProps Chario ConSpec LineSafe TypeSpec LineSpec.

Module ConProps.

(** ** A terminal to try it on *)

Record ttyw := Ttyw { keys : list Z; screen : list Z }.
Definition tty_status (st : Z) (rq : request) : request :=
  Request (r_length rq) (r_unit rq) (r_command rq) st (r_meddesc rq) (r_count rq)
    (r_start rq) (r_huge rq) (r_mcretcode rq) (r_bpb rq).
Definition tty_key (c : Z) (rq : request) : request :=
  Request (r_length rq) (r_unit rq) (r_command rq) S_DONE c (r_count rq)
    (r_start rq) (r_huge rq) (r_mcretcode rq) (r_bpb rq).
Definition tty_execrh (dv : Z) (rq : request) (buf : list Z) (w : ttyw) : request * list Z * ttyw :=
  let n := Z.to_nat (r_count rq) in
  if r_command rq =? C_OUTPUT then (tty_status S_DONE rq, buf, Ttyw (keys w) (screen w ++ take n buf))
  else if r_command rq =? C_NDREAD then
    (match keys w with [] => tty_status (Z.lor S_DONE S_BUSY) rq | c :: _ => tty_key c rq end, buf, w)
  else if r_command rq =? C_INPUT then
    (tty_status S_DONE rq, take n (keys w) ++ drop n buf, Ttyw (drop n (keys w)) (screen w))
  else if r_command rq =? C_IFLUSH then (tty_status S_DONE rq, buf, Ttyw [] (screen w))
  else (tty_status S_DONE rq, buf, w).

#[export] Instance tty : Machine := {|
  world := ttyw;
  execrh := tty_execrh;
  CriticalError := fun _ _ _ _ w => (FAIL, w);
  redirector_flushall := fun w => w;
  redirector_sft := fun _ f w => (SUCCESS, f, w);
  share_check := fun w => (0, w);
  share_close_file := fun _ w => w |}.
#[export] Instance tty_shell : @Shell tty := {| QRemote_Fn := fun d _ w => (-1, d, w); muxUpMem := fun _ l w => (l, w) |}.
#[export] Instance tty_redir : @Redirector tty := {|
  redir_path := fun _ _ _ _ w => (-1, w);
  redir_open := fun _ _ _ f w => (-1, f, w);
  redir_find := fun _ _ x w => (-1, x, w);
  redir_space := fun _ w => (-1, [], w);
  redir_space32 := fun _ w => (-1, [], w);
  redir_lseek := fun _ pos w => (pos, w);
  redir_lock := fun _ _ _ _ w => (-1, w);
  share_open_check := fun _ _ _ _ w => (-1, w);
  share_is_file_open := fun _ w => (false, w);
  share_lock_unlock := fun _ _ _ _ _ w => (-1, w) |}.
#[export] Instance tty_console : @Console tty := {|
  int28 := fun w => w;
  int29 := fun c w => Ttyw (keys w) (screen w ++ [c]);
  remote_rw := fun _ _ _ l w => (-1, l, w);
  share_access_check := fun _ _ _ _ w => (-1, w);
  stack_word := fun _ => 0;
  stack_at := (0x60, 0) |}.

Definition CON : Z := 0x700.
#[export, refine] Instance tty_terminal : @Terminal tty tty_console CON := {|
  typed_ahead := keys : @world tty -> list Z;
  shown := screen : @world tty -> list Z |}.
Proof.
  - done.
  - intros rq c w Hc Hn. cbn [execrh tty]. unfold tty_execrh. rewrite Hc, Hn. by eexists _, _.
  - intros rq buf w Hc. cbn [execrh tty]. unfold tty_execrh. rewrite Hc. eexists _, _, _. split; [reflexivity|].
    by destruct (keys w).
  - intros rq c l w Hc Hn Hk. cbn [execrh tty]. unfold tty_execrh. rewrite Hc, Hn, Hk. by eexists _, _.
  - intros rq buf w Hc. cbn [execrh tty]. unfold tty_execrh. rewrite Hc. by eexists _, _, _.
  - done.
  - done.
Defined.

(** The entry of the console in cooked mode. *)
Definition con_sft_ : sft :=
  Sft 3 O_RDWR D_DEVICE (Z.lor (Z.lor SFT_FDEVICE SFT_FEOF) (Z.lor SFT_FCONIN SFT_FCONOUT)) CON 0 0 0 0 0 0 0 0
    [0x43; 0x4f; 0x4e; 0x20; 0x20; 0x20; 0x20; 0x20; 0x20; 0x20; 0x20] 0 (-1) 0 0x60.
Definition kern_tty (l : list Z) : @kst tty :=
  let k := ks (fs0 P12 0) in
  Kst tty (Genv 3 {[ CON := 0x8003 ]} false LOC_CONV 0x60 0x700 0x70) (bufs k) (firstbuf k) (LoL_nbuffers k) (dpbs k)
    (CDSp k) (drv k) (set_sfthead [[con_sft_]] (fs k)) [] (Ttyw l []).
Definition tty_hst (l : list Z) : @hst tty :=
  Hst tty (Pst tty (kern_tty l) 0 LdtNull cds_a 0 5 [nul_dev] pkg) (arena hs)
    {[ 0x60 := psp_60 ]} {[ 0x60 := tab0 [0; 0; 0; 0; 0] ]} (zeros 128) (zeros 128) (zeros 12) (dta hs).

(** A console with this typed ahead; the caller's buffer has room for 16
    characters and holds the line of [old]. *)
Definition tty_con (old : list Z) : con :=
  Con (zeros 259) None ([16; Z.of_nat (length old)] ++ old ++ [CR] ++ zeros (15 - length old)) false 0 0 1 false CON 0x0a.
Definition tty_cst (l old : list Z) : @cst tty := Cst tty (tty_hst l) (tty_con old).

Lemma tty_seated l old : seated (dv := CON) 0 (tty_cst l old).
Proof. split; [done|done|done|by eexists|done|]. exists con_sft_. by repeat split. Qed.
Lemma tty_ready l old : Forall harmless l -> console (dv := CON) 0 (tty_cst l old).
Proof. intros Hl. by destruct (tty_seated l old). Qed.

Definition DIR : list Z := [0x44; 0x49; 0x52].
Definition TAB_TEXT : list Z := [0x44; HT; 0x52; 0x0d; 0x0a].
Definition OLD : list Z := [0x41; 0x42; 0x43; 0x44; 0x45; 0x46].

Lemma tty_buffers l old : (length old <= 15)%nat -> buffers User 16 (Z.of_nat (length old)) (cn (tty_cst l old)).
Proof.
  intros Hl.
  assert (Hlen : length (ubuf (cn (tty_cst l old))) = 18%nat) by (cbn [tty_cst cn tty_con ubuf]; unfold zeros; rewrite !length_app, length_replicate; cbn [length]; lia).
  split; [done|done|done|unfold kb_room; rewrite Hlen; lia|lia|rewrite Hlen; lia].
Qed.

Lemma plain_DIR : Forall plain_char DIR.
Proof. repeat constructor; unfold CTL_BS; lia. Qed.

(** ** Showing text *)

(** C22: When the console is calm ([calm]: the break flag is clear, the printer does not echo, and neither Ctrl-C nor Ctrl-S is
    among the keys typed ahead), text written to it in cooked mode is shown up to the
    first Ctrl-Z with its tabs expanded, [scr_pos] is the column it ends in, the
    count returned is that of the characters before the Ctrl-Z, and nothing that
    was typed ahead is lost.  (With a Ctrl-C typed ahead the call is broken off
    before the text, as the theorem on Ctrl-C below says.) *)
Theorem cooked_write_expands {M : Machine} {Sh : Shell} {R : Redirector} {Cn : Console} {dv : Z} {T : Terminal dv}
    f n bp s attr :
  calm (dv := dv) s -> dh_attr (env (kern (pth (hn s)))) !! dv = Some attr ->
  0 <= n <= Z.of_nat (length bp) -> Forall byte bp ->
  let l := take (Z.to_nat n) bp in
  exists s', cooked_write (knot (S f)) dv n bp s = Some (Ret (text_length l), s') /\
    shown (wd s') = shown (wd s) ++ fst (expand (scr_pos (cn s)) l) /\
    scr_pos (cn s') = snd (expand (scr_pos (cn s)) l) /\ typed_ahead (wd s') = typed_ahead (wd s).
Proof.
  intros Hc Ha Hn Hb l. destruct (cooked_write_runs f n bp s attr Hc Ha Hn Hb) as (rq & w & E & Hs & Ht).
  eexists. split; [exact E|]. by split.
Qed.

Lemma cooked_write_expands_witness :
  fst (expand 0 TAB_TEXT) = [0x44] ++ replicate 7 0x20 ++ [0x52; CR; LF] /\
  exists s', cooked_write (knot 1) CON 5 TAB_TEXT (tty_cst [] []) = Some (Ret 5, s') /\
    screen (wd s') = fst (expand 0 TAB_TEXT) /\ scr_pos (cn s') = 0 /\ keys (wd s') = [].
Proof.
  split; [reflexivity|].
  refine (cooked_write_expands (dv := CON) 0 5 TAB_TEXT (tty_cst [] []) 0x8003 _ _ _ _).
  - apply (co_calm 0), tty_ready. constructor.
  - reflexivity.
  - cbn. lia.
  - unfold TAB_TEXT, HT. do 5 (apply Forall_cons; split; [unfold byte; lia|]). apply Forall_nil_2.
Defined.

(** ** Typing a line *)

(** C19: on any keyboard and screen that work, the line editor never reads or
    writes outside [local_buffer] and the buffer it fills, whatever the keys
    but F2 and F4: when it returns, the count of the line is below the size,
    CR ends it, and the memory behind the buffer is as it was. *)
Theorem read_line_in_bounds {M : Machine} {Sh : Shell} {R : Redirector} {Cn : Console}
    {I k sft_in sft_out} {W : Works I k sft_in sft_out} fuel kp size stored s :
  I s -> buffers kp size stored (cn s) -> no_F2_F4 (I := I) (k := k) (sft_in := sft_in) (sft_out := sft_out) -> size <> 0 ->
  safe (read_line k fuel sft_in sft_out kp) (fun _ => line_read (I := I) kp size (cn s)) s.
Proof.
  intros HI Hb Hk Hz. pose proof (safe_read_line fuel kp size stored s HI Hb Hk) as H.
  by rewrite (proj2 (Z.eqb_neq _ _) Hz) in H.
Qed.

Lemma read_line_in_bounds_witness :
  safe (read_line (knot 2) 10 0 0 User)
    (fun _ => line_read (I := ready (dv := CON) 0) User 16 (tty_con OLD)) (tty_cst ([BS; 0x41; BS; ESC] ++ DIR ++ [CR]) OLD).
Proof.
  refine (read_line_in_bounds (I := ready (dv := CON) 0) (k := knot 2) 10 User 16 6 (tty_cst ([BS; 0x41; BS; ESC] ++ DIR ++ [CR]) OLD) _ _ _ _).
  - split; [|repeat constructor; done]. apply tty_ready. repeat constructor; (done || (unfold byte; lia)).
  - apply (tty_buffers _ OLD). cbn. lia.
  - apply ready_no_F2_F4.
  - lia.
Defined.

(** C20: a line of plain text that fits, typed with Enter, always ends the
    edit: the buffer holds the text with its CR and its length, the screen has
    shown it with its tabs expanded, and what was typed after it is still to
    be read. *)
Theorem read_line_types {M : Machine} {Sh : Shell} {R : Redirector} {Cn : Console} {dv : Z} {T : Terminal dv}
    f fuel i kp size stored txt rest s :
  console (dv := dv) i s -> Forall plain_char txt -> typed_ahead (wd s) = txt ++ CR :: rest ->
  buffers kp size stored (cn s) -> Z.of_nat (length txt) < size -> (length txt < fuel)%nat ->
  exists s', read_line (knot (S (S f))) fuel i i kp s = Some (Ret tt, s') /\ holds kp txt (cn s') /\
    shown (wd s') = shown (wd s) ++ fst (expand (scr_pos (cn s)) (txt ++ [CR])) /\ typed_ahead (wd s') = rest /\
    scr_pos (cn s') = 0 /\ console (dv := dv) i s'.
Proof.
  intros Hs Hp Ht Hb Hl Hf. destruct (read_line_runs f fuel i kp size stored txt rest s Hs Hp Ht Hb Hl Hf)
    as (s' & E & Hs' & Hh & Hsh & Hty & Hc & _). by exists s'.
Qed.

Lemma read_line_types_witness :
  exists s', read_line (knot 2) 10 0 0 User (tty_cst (DIR ++ [CR; 0x58]) OLD) = Some (Ret tt, s') /\ holds User DIR (cn s') /\
    screen (wd s') = DIR ++ [CR] /\ keys (wd s') = [0x58] /\ scr_pos (cn s') = 0 /\ console (dv := CON) 0 s'.
Proof.
  refine (read_line_types (dv := CON) 0 10 0 User 16 6 DIR [0x58] (tty_cst (DIR ++ [CR; 0x58]) OLD) _ plain_DIR eq_refl _ _ _).
  - apply tty_ready. repeat constructor; (done || (unfold byte; lia)).
  - apply (tty_buffers _ OLD). cbn. lia.
  - cbn. lia.
  - cbn. lia.
Defined.

(** C21: reads of the console of any sizes, one after the other, give the line
    that was typed with its CR and LF, every byte once and in order; the rest
    of the line waits for the next read. *)
Theorem read_line_handle_pieces {M : Machine} {Sh : Shell} {R : Redirector} {Cn : Console} {dv : Z} {T : Terminal dv}
    f fuel i n ns txt rest s :
  console (dv := dv) i s -> inputptr (cn s) = None -> kbd_ok (cn s) -> Forall plain_char txt ->
  typed_ahead (wd s) = txt ++ CR :: rest -> (length txt <= 127)%nat -> (length txt < fuel)%nat ->
  Forall (fun n => (0 < n)%nat) (n :: ns) -> (sum_list (n :: ns) <= length txt + 2)%nat ->
  exists s', reads (knot (S (S f))) fuel i (n :: ns) s = Some (Ret (take (sum_list (n :: ns)) (txt ++ [CR; LF])), s') /\
    pending (drop (sum_list (n :: ns)) (txt ++ [CR; LF])) (cn s') /\ typed_ahead (wd s') = rest /\
    shown (wd s') = shown (wd s) ++ fst (expand (scr_pos (cn s)) (txt ++ [CR; LF])).
Proof.
  intros Hs Hi Hk Hp Ht Hl Hf Hn Hsum.
  destruct (reads_run f fuel i n ns txt rest s Hs Hi Hk Hp Ht Hl Hf Hn Hsum) as (s' & E & _ & Hp' & _ & Hsh & Hty). by exists s'.
Qed.

Lemma read_line_handle_pieces_witness :
  exists s', reads (knot 2) 10 0 [1; 3; 1]%nat (tty_cst (DIR ++ [CR]) []) = Some (Ret (DIR ++ [CR; LF]), s') /\
    pending [] (cn s') /\ keys (wd s') = [] /\ screen (wd s') = DIR ++ [CR; LF].
Proof.
  refine (read_line_handle_pieces (dv := CON) 0 10 0 1 [3; 1]%nat DIR [] (tty_cst (DIR ++ [CR]) []) _ eq_refl _ plain_DIR eq_refl _ _ _ _).
  - apply tty_ready. repeat constructor; (done || (unfold byte; lia)).
  - split; [reflexivity|]. intros H. discriminate H.
  - cbn. lia.
  - cbn. lia.
  - repeat constructor.
  - cbn. lia.
Defined.

(** ** Ctrl-C *)

(** C23: a Ctrl-C that is the first key typed ahead ends the call that reads a
    character or begins to write text: the kernel throws away all that was
    typed, shows ^C and the end of the line in the column where the cursor is
    ([BREAK_TEXT]) instead of the text, leaves DOS ([InDOS] down by one outside
    a critical error) and goes to INT 23h.  The handle is the console's, the
    break flag is clear and the printer does not echo ([seated]). *)
Theorem ctrl_c_interrupts {M : Machine} {Sh : Shell} {R : Redirector} {Cn : Console} {dv : Z} {T : Terminal dv}
    f i l n c bp s :
  seated (dv := dv) i s -> typed_ahead (wd s) = CTL_C :: l -> 1 <= n <= Z.of_nat (length (c :: bp)) -> c <> CTL_Z ->
  let k := knot (S (S (S f))) in
  (exists s', read_char k i i true s = Some (Int23, s') /\ interrupted s s') /\
  (exists s', cooked_write k dv n (c :: bp) s = Some (Int23, s') /\ interrupted s s').
Proof.
  intros Hs Ht Hn Hc k. split; [by apply (break_read f i l)|by apply (break_write f i n c bp l)].
Qed.

Lemma ctrl_c_interrupts_witness :
  let s := tty_cst [CTL_C; 0x58] [] in
  (exists s', read_char (knot 3) 0 0 true s = Some (Int23, s') /\ interrupted s s') /\
  (exists s', cooked_write (knot 3) CON 3 DIR s = Some (Int23, s') /\ interrupted s s').
Proof.
  refine (ctrl_c_interrupts (dv := CON) 0 0 [0x58] 3 0x44 [0x49; 0x52] (tty_cst [CTL_C; 0x58] []) _ eq_refl _ _).
  - apply tty_seated.
  - cbn. lia.
  - discriminate.
Defined.

(** F2 after F1 looks for its character behind the ones that were copied, but
    counts its place from the beginning: with ABCDEF stored, F1 F1 F1 F2 E
    copies ABC, nothing more, and goes back to D, behind which F3 copies CDEF. *)
Example F2_goes_back :
  (let keys := [0; 0x3b; 0; 0x3b; 0; 0x3b; 0; 0x3c; 0x45; 0; 0x3d; CR] in
   match read_line (knot 3) 20 0 0 User (tty_cst keys OLD) with
   | Some (Ret tt, s') => ubuf (cn s')
   | _ => []
   end) = [16; 7] ++ [0x41; 0x42; 0x43; 0x43; 0x44; 0x45; 0x46; CR] ++ zeros 8.
Proof. vm_compute. reflexivity. Qed.
End ConProps.
