(* ===== verification/CallProps.v ===== *)
(** * Properties of the calls about drives

    The free space of a volume, scaled to the numbers of 16 bits that old
    programs ask for. *)

From S2P Require Import Prelude Memmgr KState BlockIO FatTab FNode FatAlloc Clock Media FatDir FatFile.
From S2P Require Import Path Handle Calls.
Import Ks Bio Fat FNode Alloc Path Handle Calls.

Module CallProps.

(** ** The scaling of large volumes *)

(** [n] halvings that the loop makes, and why it makes no more. *)
Definition scaled (k cluster_size ntotal : Z) : Prop :=
  0 <= k /\ (Z.shiftr ntotal k <= FAT_MAGIC16 \/ 0x8000 <= cluster_size * 2 ^ k) /\
  forall j, 0 <= j < k -> FAT_MAGIC16 < Z.shiftr ntotal j /\ cluster_size * 2 ^ j < 0x8000.

Lemma scaled_none cs nt : (FAT_MAGIC16 <? nt) && (cs <? 0x8000) = false -> scaled 0 cs nt.
Proof.
  intros H. split; [lia|]. split; [|lia]. rewrite Z.shiftr_0_r, Z.mul_1_r.
  apply andb_false_iff in H as [H|H]; zbool; auto.
Qed.

Lemma scaled_step k cs nt :
  FAT_MAGIC16 < nt -> cs < 0x8000 -> scaled k (cs * 2) (Z.shiftr nt 1) -> scaled (k + 1) cs nt.
Proof.
  intros Hn Hc (Hk & Hend & Hall). split; [lia|]. split.
  - rewrite Z.shiftr_shiftr in Hend by lia. replace (1 + k) with (k + 1) in Hend by lia.
    rewrite Z.pow_add_r by lia. lia.
  - intros j Hj. destruct (decide (j = 0)) as [->|Hj0]; [by rewrite Z.shiftr_0_r, Z.mul_1_r|].
    destruct (Hall (j - 1) ltac:(lia)) as [H1 H2]. rewrite Z.shiftr_shiftr in H1 by lia.
    replace (1 + (j - 1)) with j in H1 by lia. split; [done|].
    replace j with (1 + (j - 1)) by lia. rewrite Z.pow_add_r by lia. lia.
Qed.

Lemma scale_loop_spec fuel cs spc nt nf :
  0 < cs < 0x10000 -> 0 <= spc <= cs -> 0x8000 <= cs * 2 ^ Z.of_nat fuel ->
  exists k, scaled k cs nt /\ scale_loop fuel cs spc nt nf = (spc * 2 ^ k, Z.shiftr nt k, Z.shiftr nf k).
Proof.
  revert cs spc nt nf. induction fuel as [|fuel IH]; intros cs spc nt nf Hc Hs Hf; cbn [scale_loop].
  { exists 0. change (2 ^ Z.of_nat 0) with 1 in Hf. rewrite !Z.shiftr_0_r, Z.mul_1_r. split; [|done].
    apply scaled_none. rewrite (proj2 (Z.ltb_ge cs _)) by lia. apply andb_false_r. }
  destruct ((FAT_MAGIC16 <? nt) && (cs <? 0x8000)) eqn:E.
  2:{ exists 0. rewrite !Z.shiftr_0_r, Z.mul_1_r. split; [by apply scaled_none|done]. }
  apply andb_true_iff in E as [E1 E2]. zbool. rewrite u32_small, u16_small by lia.
  replace (Z.of_nat (S fuel)) with (1 + Z.of_nat fuel) in Hf by lia. rewrite Z.pow_add_r in Hf by lia.
  destruct (IH (cs * 2) (spc * 2) (Z.shiftr nt 1) (Z.shiftr nf 1)) as (k & Hk & E); [lia..|].
  exists (k + 1). split; [by apply scaled_step|]. rewrite E, !Z.shiftr_shiftr, Z.pow_add_r by (lia || apply Hk).
  replace (1 + k) with (k + 1) by lia. do 2 f_equal. lia.
Qed.

(** A sensible parameter block of a volume. *)
Record sane (d : dpb) : Prop := Sane {
  sane_sec : 0 < dpb_secsize d;
  sane_cls : 0 <= dpb_clsmask d < 256;
  sane_shift : dpb_secsize d * (dpb_clsmask d + 1) = Z.shiftl (dpb_secsize d) (dpb_shftcnt d);
  sane_cluster : Z.shiftl (dpb_secsize d) (dpb_shftcnt d) < 0x10000 }.

Lemma clip16_min n : 0 <= n -> clip16 n = Z.min n FAT_MAGIC16.
Proof. intros Hn. unfold clip16, FAT_MAGIC16. destruct (_ <? _) eqn:E; zbool; [lia|]. rewrite u16_small; lia. Qed.

Lemma halves_le n k : 0 <= n -> 0 <= k -> Z.shiftr n k * 2 ^ k <= n.
Proof.
  intros Hn Hk. rewrite Z.shiftr_div_pow2 by done. pose proof (Z.pow_pos_nonneg 2 k ltac:(lia) Hk).
  pose proof (Z.div_mod n (2 ^ k) ltac:(lia)). pose proof (Z.mod_pos_bound n (2 ^ k) ltac:(lia)). nia.
Qed.

(** C38: the free space of a FAT32 volume for programs that know 16 bits
    ([DosGetFree], with [nfree] clusters free and a parameter block whose shift
    count and cluster size agree).  The number of clusters is halved, and the size
    of a cluster doubled, until the clusters are at most 65525 (FAT_MAGIC16, fff5h)
    or a cluster has 32 kilobytes, and not further; both numbers are then reported
    halved as often, cut down to fff5h.  So no result exceeds fff5h, the sectors
    per cluster do not overflow, and neither the size nor the free space that a
    program computes exceeds what there is. *)
Theorem space_fat32_bounds d nfree (Hd : sane d) (Hx : 1 <= dpb_xsize d < 2 ^ 32) (Hf : 0 <= nfree) :
  let r := space_fat32 d (Some nfree) in
  exists k free, scaled k (Z.shiftl (dpb_secsize d) (dpb_shftcnt d)) (dpb_xsize d - 1) /\
    fs_navc r = Some free /\ fs_bps r = dpb_secsize d /\
    fs_spc r = (dpb_clsmask d + 1) * 2 ^ k /\
    fs_nc r = Z.min (Z.shiftr (dpb_xsize d - 1) k) FAT_MAGIC16 /\ free = Z.min (Z.shiftr nfree k) FAT_MAGIC16 /\
    0 <= fs_nc r <= FAT_MAGIC16 /\ fs_nc r * fs_spc r <= (dpb_xsize d - 1) * (dpb_clsmask d + 1) /\
    0 <= free <= FAT_MAGIC16 /\ free * fs_spc r <= nfree * (dpb_clsmask d + 1).
Proof.
  destruct Hd as [Hsec Hcls Hshift Hcl]. cbn zeta. unfold space_fat32.
  assert (Hcs : dpb_clsmask d + 1 <= Z.shiftl (dpb_secsize d) (dpb_shftcnt d)) by (rewrite <- Hshift; nia).
  rewrite (u32_small (Z.shiftl _ _)) by lia. rewrite (u32_small (_ - 1)) by lia. cbn [default from_option].
  destruct (scale_loop_spec 32 (Z.shiftl (dpb_secsize d) (dpb_shftcnt d)) (dpb_clsmask d + 1) (dpb_xsize d - 1) nfree)
    as (k & Hk & E); [lia|lia|change (2 ^ Z.of_nat 32) with 4294967296; lia|].
  unfold id. rewrite E. cbn. pose proof Hk as (Hk0 & _).
  pose proof (halves_le (dpb_xsize d - 1) k ltac:(lia) Hk0). pose proof (halves_le nfree k Hf Hk0).
  assert (0 <= Z.shiftr (dpb_xsize d - 1) k) by (apply Z.shiftr_nonneg; lia).
  assert (0 <= Z.shiftr nfree k) by (by apply Z.shiftr_nonneg).
  rewrite !clip16_min by done. pose proof (Z.pow_pos_nonneg 2 k ltac:(lia) Hk0).
  assert (Hmul : forall a b c, 0 <= a -> 0 <= b -> a * 2 ^ k <= b -> Z.min a c * ((dpb_clsmask d + 1) * 2 ^ k) <= b * (dpb_clsmask d + 1)).
  { intros a b c Ha Hb Hab. rewrite (Z.mul_comm (dpb_clsmask d + 1)), Z.mul_assoc.
    apply Z.mul_le_mono_nonneg_r; [lia|]. transitivity (a * 2 ^ k); [|done].
    apply Z.mul_le_mono_nonneg_r; [lia|]. apply Z.le_min_l. }
  exists k. eexists. split; [done|]. split; [reflexivity|]. repeat split; try (unfold FAT_MAGIC16; lia); apply Hmul; lia.
Qed.

Lemma space_fat32_bounds_witness :
  let d := Dpb 2 0 512 7 3 1 1 0 0 0 0 0 0 0 0 0 0 0 0 0 0 2000001 0 2 0 in
  exists k free, scaled k 0x1000 2000000 /\ fs_navc (space_fat32 d (Some 1500000)) = Some free.
Proof.
  intros d. destruct (space_fat32_bounds d 1500000) as (k & free & Hk & Hr & _).
  - split; vm_compute; try split; congruence.
  - cbn. lia.
  - lia.
  - exists k, free. exact (conj Hk Hr).
Defined.

End CallProps.
