(* ===== verification/RwProps.v ===== *)
(** * Properties of reading a file

    An open file is an entry of the system file table that agrees with the
    chain of its clusters; reading keeps it one and returns its bytes. *)

From S2P Require Import Prelude Memmgr KState BlockIO FatTab FNode FatAlloc FatFile FatRw Disk Ring.
From S2P Require Import CacheSpec CacheOps FatPure FatSpec FatWrite Table FatChain AllocSpec MapSpec.
From S2P Require Import SftSpec DirectIO RwSpec RamVol FatProps DirProps.
Import Ks Bio Fat FNode Alloc File Rw Dsk Ring Cache CacheOps FatPure FatSpec FatWrite Table Chain.
Import AllocSpec MapSpec SftSpec Direct RwSpec RamVol FatProps DirProps.

Module RwProps.

Lemma dstart_set d v e :
  0 <= v < (if ISFAT32 d then 2 ^ 32 else 65536) -> getdstart d (setdstart d v e) = v.
Proof.
  intros Hv. unfold getdstart, setdstart. destruct (ISFAT32 d); cbn [negb].
  - cbn [dir_start dir_start_high set_dir_start set_dir_start_high]. rewrite Z.lor_comm. by apply offset_halves.
  - cbn [dir_start set_dir_start]. by apply u16_small.
Qed.

Section Spec.
Context {M : Machine} {D : Disk}.

(** The cluster and the number of it in the chain, as the entry has them. *)
Definition relclust (x : sft) : Z := Z.lor (sft_relclust x) (u32 (Z.shiftl (sft_relclust_high x) 16)).

(** The clusters [cs] of a file with the first cluster [c]. *)
Definition file_chain (d : dpb) (T : Z -> Z) (c : Z) (cs : list Z) : Prop :=
  if decide (cs = []) then c = FREE else chain (max_cluster d) T c cs.

(** [x] is the entry of an open file with the clusters [cs].  The position
    may be anywhere; the cluster that the entry remembers is one of the
    file's, if it has any. *)
Record opened (s : kst) (l : list Z) (u p : Z) (d : dpb) (k : fat_type) (T : Z -> Z) (fd : Z) (x : sft)
  (cs : list Z) : Prop := Opened {
  op_tab : tab s l u p d k T;
  op_entry : idx_to_sft (sfthead (fs s)) fd = Some x;
  op_dcb : sft_dcb x = p;
  op_posit : 0 <= sft_posit x < 2 ^ 32;
  op_size : 0 <= sft_size x < 2 ^ 32;
  op_chain : file_chain d T (sft_stclust x) cs;
  op_fits : sft_size x <= 512 * (Z.of_nat (length cs) * spc d);
  op_at : cs <> [] ->
    exists i, cs !! i = Some (sft_cuclust x) /\ relclust x = Z.of_nat i }.

(** What a read leaves of the entry: everything but the position, the cluster
    that goes with it, and the rounding of the fields to their width. *)
Definition same_file (x y : sft) : Prop :=
  sft_count y = sft_count x /\ sft_mode y = sft_mode x /\ sft_flags y = sft_flags x /\
  sft_attrib y = sft_attrib x /\ sft_dcb y = sft_dcb x /\ sft_name y = sft_name x /\
  sft_time y = sft_time x /\ sft_date y = sft_date x /\ sft_size y = sft_size x /\
  sft_stclust y = sft_stclust x /\ sft_dirsector y = sft_dirsector x /\ sft_diridx y = sft_diridx x.

Lemma start_fits s l u p d k T c cs :
  tab s l u p d k T -> file_chain d T c cs -> 0 <= c < (if ISFAT32 d then 2 ^ 32 else 65536).
Proof.
  intros Ht Hc. pose proof (r_volume _ _ _ _ _ _ (tb_ready _ _ _ _ _ _ _ Ht)) as V.
  pose proof (v_max _ _ _ _ _ V) as Hm.
  assert (H : 0 <= c <= max_cluster d).
  { unfold file_chain in Hc. destruct (decide (cs = [])) as [->|Hne]; [subst c; unfold FREE; lia|].
    destruct cs as [|x cs]; [done|]. simpl in Hc. lia. }
  rewrite (v_32 _ _ _ _ _ V).
  destruct k; cbn [max_of] in Hm; unfold FAT_MAGIC, FAT_MAGIC16, LONG_BAD in *; lia.
Qed.

Lemma file_chain_range d T c cs x : file_chain d T c cs -> x ∈ cs -> 2 <= x <= max_cluster d.
Proof.
  unfold file_chain. destruct (decide (cs = [])) as [->|_]; [by intros _ ?%elem_of_nil|].
  apply chain_range.
Qed.

(** What is shown of a file does not depend on what changed elsewhere. *)
Lemma content_kept s l s' l' u p d k T c cs :
  tab s l u p d k T -> data_area d -> file_chain d T c cs -> roamed s l s' l' u d ->
  content s' l' d cs = content s l d cs.
Proof.
  intros Ht Hda Hc R. pose proof (spc_pos d Hda) as Hspc. unfold content. apply sectors_ext. intros j Hj.
  assert (Hq : 0 <= 0 + Z.of_nat j < Z.of_nat (length cs) * spc d) by lia.
  unfold file_sector.
  destruct (file_block_fine d cs Hda _ (fun y => file_chain_range d T c cs y Hc) Hq) as (H1 & H2 & H3).
  apply (ro_frame _ _ _ _ _ _ R u p); [apply Ht|done..].
Qed.

(** The end of a call: the fnode goes back to the table. *)
Lemma give_back s1 l1 u p d k T fd m x :
  tab s1 l1 u p d k T -> 0 <= fd -> fnode_of fnode0 (fs s1) = m -> f_sft_idx m = fd -> f_dpb m = p ->
  idx_to_sft (sfthead (fs s1)) fd = Some x ->
  exists s', fnode_to_sft fnode0 s1 = Some (tt, s') /\ tab s' l1 u p d k T /\ roamed s1 l1 s' l1 u d /\
    idx_to_sft (sfthead (fs s')) fd = Some (stored d m x) /\
    (forall fd', 0 <= fd' -> fd' <> fd -> idx_to_sft (sfthead (fs s')) fd' = idx_to_sft (sfthead (fs s1)) fd') /\
    share_installed (fs s') = share_installed (fs s1).
Proof.
  intros Ht Hfd Hm Hi Hp Hx. pose proof (fnode_to_sft_run s1 fnode0 d x) as Hr. cbv zeta in Hr.
  rewrite Hm, Hi, Hp in Hr. specialize (Hr (tab_dpb _ _ _ _ _ _ _ Ht) Hx).
  eexists. split; [exact Hr|]. destruct (fs_spec s1 l1 u p d k T
    (set_sfthead (sft_upd (sfthead (fs s1)) fd (stored d m)) (fs s1)) Ht) as [Ht' R].
  split; [exact Ht'|]. split; [exact R|]. cbn [fs set_fs sfthead set_sfthead]. split.
  - by apply idx_upd_found.
  - split; [|done]. intros fd' H0 Hne. unfold idx_to_sft. by rewrite sft_upd_other.
Qed.

(** ** The call *)

(** The number of bytes that a read returns. *)
Definition avail (x : sft) (count : Z) : Z := Z.max 0 (Z.min count (sft_size x - sft_posit x)).

Definition moved_to (c j o : Z) (n : f_node) : f_node :=
  set_f_cluster_offset j (set_f_cluster c (set_f_offset o n)).

Section Call.
Context (s : kst) (l : list Z) (u p : Z) (d : dpb) (k : fat_type) (T : Z -> Z) (fd : Z) (x : sft) (cs : list Z).
Hypothesis Hop : opened s l u p d k T fd x cs.
Hypothesis Hhint : hint_ok d.
Hypothesis Hcap : capacity d < 2 ^ 32.
Hypothesis Hda : data_area d.
Hypothesis Hfd : 0 <= fd < 255.

(** The fnodes and the state after [sft_to_fnode]. *)
Definition v_in : fsv := fnode_upd fnode0 (fetched d fd x) (fs s).
Definition s_in : kst := set_fs v_in s.

Lemma in_tab : tab s_in l u p d k T /\ roamed s l s_in l u d.
Proof. apply fs_spec, Hop. Qed.

Lemma in_size : dir_size (f_dir (fn0 v_in)) = sft_size x.
Proof. unfold v_in, fetched, setdstart. cbn. by destruct (ISFAT32 d). Qed.

Lemma in_start c : file_chain d T (sft_stclust x) c -> getdstart d (f_dir (fn0 v_in)) = sft_stclust x.
Proof. intros Hc. apply dstart_set. eapply start_fits; [apply Hop|done]. Qed.

Lemma in_still : fs s_in = fnode_upd fnode0 (moved_to (sft_cuclust x) (relclust x) (sft_posit x)) v_in.
Proof. unfold s_in, v_in. by destruct (fs s). Qed.

Lemma run_sft_to_fnode {A} (f : f_node_ptr -> K kst A) : kbind (sft_to_fnode fd) f s = f fnode0 s_in.
Proof.
  apply run_eq. unfold s_in, v_in. apply sft_to_fnode_run; [|apply Hop].
  rewrite (op_dcb _ _ _ _ _ _ _ _ _ _ Hop). eapply tab_dpb, Hop.
Qed.

Lemma rwblock_start buffer count mem :
  rwblock fd buffer count XFR_READ mem s =
    (if count =? 0 then do! fnode_to_sft fnode0 in kret (0, mem)
     else rw_loop (S (Z.to_nat count)) fnode0 XFR_READ 512 (Mm.adjust_far buffer) 0 count count mem) s_in.
Proof.
  unfold rwblock. rewrite run_sft_to_fnode. change (XFR_READ =? XFR_WRITE) with false. cbn iota.
  rewrite run_ret. cbn iota. destruct (count =? 0); [done|].
  destruct in_tab as [Ht _]. rewrite run_fn, andb_false_r, (run_fdpb fnode0 d p).
  - by rewrite (mt_sec _ _ _ _ (v_mounted _ _ _ _ _ (r_volume _ _ _ _ _ _ (tb_ready _ _ _ _ _ _ _ Ht)))).
  - exact (op_dcb _ _ _ _ _ _ _ _ _ _ Hop).
  - by eapply tab_dpb.
Qed.

(** The call up to the last [fnode_to_sft]: nothing to read. *)
Lemma read_none buffer count mem :
  0 <= count -> avail x count = 0 ->
  rwblock fd buffer count XFR_READ mem s = (do! fnode_to_sft fnode0 in kret (0, mem)) s_in.
Proof.
  intros Hc Ha. rewrite rwblock_start. destruct (count =? 0) eqn:E; [done|]. zbool.
  assert (Hend : sft_size x <= sft_posit x) by (unfold avail in Ha; lia).
  cbn [rw_loop]. rewrite (proj2 (Z.ltb_lt 0 count)) by lia. cbn [negb]. unfold rw_round.
  rewrite run_assoc, run_fn. change (fnode_of fnode0 (fs s_in)) with (fn0 v_in). rewrite in_size.
  change (f_offset (fn0 v_in)) with (sft_posit x). rewrite (proj2 (Z.leb_le _ _)) by done.
  change (XFR_READ =? XFR_READ) with true. cbn [andb]. rewrite run_assoc.
  unfold kbind. by destruct (fnode_to_sft fnode0 s_in) as [[? ?]|].
Qed.

(** Something to read. *)
Lemma read_some buffer count mem :
  count < 65536 -> count <= Z.of_nat (length mem) -> 0 < avail x count ->
  exists s1 l1 i, let n := avail x count in
    rwblock fd buffer count XFR_READ mem s =
      (do! fnode_to_sft fnode0 in
       kret (n, patch mem 0 (take (Z.to_nat n) (drop (Z.to_nat (sft_posit x)) (content s_in l d cs))))) s1 /\
    at_off s_in l u p d k T cs v_in s1 l1 (sft_posit x + n) i.
Proof.
  intros Hcnt Hmem Ha. destruct Hop as [Ht Hx Hdcb Hpos Hsize Hch Hfits Hat]. destruct in_tab as [Ht0 R0].
  destruct Hat as (i & Hi1 & Hi2); [intros ->; cbn [length] in Hfits; unfold avail in Ha; lia|].
  assert (Hc : chain (max_cluster d) T (chain_start d (fn0 v_in) v_in) cs).
  { unfold chain_start. change (f_sft_idx (fn0 v_in)) with (u8 fd). rewrite u8_small by lia.
    rewrite (proj2 (Z.eqb_neq fd 0xff)), (in_start _ Hch) by lia. unfold file_chain in Hch.
    destruct (decide (cs = [])) as [->|_]; done. }
  assert (H0 : at_off s_in l u p d k T cs v_in s_in l (sft_posit x) i).
  { split; [done|apply roamed_refl|by eapply lookup_lt_Some|].
    rewrite (list_lookup_total_correct _ _ _ Hi1). unfold at_pos. rewrite <- Hi2. apply in_still. }
  destruct (rw_loop_spec s_in l u p d k T cs v_in (v_mounted _ _ _ _ _ (r_volume _ _ _ _ _ _ (tb_ready _ _ _ _ _ _ _ Ht0)))
     (r_cache _ _ _ _ _ _ (tb_ready _ _ _ _ _ _ _ Ht0)) Hhint Hcap Hda Hdcb Hc (S (Z.to_nat count)) s_in l
     (sft_posit x) i (Mm.adjust_far buffer) 0 count mem H0) as (s1 & l1 & i1 & Hr & H1);
    rewrite ?in_size; try (unfold avail in Ha; lia).
  { by rewrite (length_bytes s_in l d cs (r_cache _ _ _ _ _ _ (tb_ready _ _ _ _ _ _ _ Ht0)) Hda). }
  cbv zeta in Hr, H1. rewrite Z.sub_0_r in Hr, H1. unfold amount in Hr, H1. rewrite in_size in Hr, H1.
  fold (avail x count) in Hr, H1. exists s1, l1, i1. cbv zeta. split; [|exact H1].
  rewrite rwblock_start, (proj2 (Z.eqb_neq count 0)) by (unfold avail in Ha; lia). exact Hr.
Qed.

(** Both: the state before the last [fnode_to_sft]. *)
Lemma read_body buffer count mem :
  0 <= count < 65536 -> count <= Z.of_nat (length mem) ->
  exists s1 l1 c j, let n := avail x count in
    rwblock fd buffer count XFR_READ mem s = (do! fnode_to_sft fnode0 in
      kret (n, patch mem 0 (take (Z.to_nat n) (drop (Z.to_nat (sft_posit x)) (content s l d cs))))) s1 /\
    tab s1 l1 u p d k T /\ roamed s_in l s1 l1 u d /\
    fs s1 = fnode_upd fnode0 (moved_to c j (sft_posit x + n)) v_in /\
    (cs <> [] -> exists i, cs !! i = Some c /\ j = Z.of_nat i).
Proof.
  intros Hcnt Hmem. destruct in_tab as [Ht0 R0]. destruct (decide (0 < avail x count)) as [Ha|Ha].
  - destruct (read_some buffer count mem) as (s1 & l1 & i & Hr & [A1 A2 A3 A4]); [lia|done|done|].
    exists s1, l1, (cs !!! i), (Z.of_nat i).
    split; [exact Hr|]. split; [done|]. split; [done|]. split; [exact A4|]. intros _. exists i.
    split; [by apply list_lookup_lookup_total_lt|done].
  - exists s_in, l, (sft_cuclust x), (relclust x). cbv zeta.
    assert (avail x count = 0) as E by (unfold avail in *; lia).
    rewrite (read_none buffer count mem), E, take_0, patch_nil, Z.add_0_r by lia.
    split; [done|]. split; [done|]. split; [apply roamed_refl|]. split; [apply in_still|].
    intros (i & Hi1 & Hi2)%(op_at _ _ _ _ _ _ _ _ _ _ Hop). by exists i.
Qed.
End Call.

(** The entry that a fnode on a chain leaves is an open file. *)
Lemma stored_file s2 l1 u p d k T fd x m cs :
  tab s2 l1 u p d k T -> idx_to_sft (sfthead (fs s2)) fd = Some (stored d m x) -> f_dpb m = p ->
  0 <= f_offset m < 2 ^ 32 -> 0 <= dir_size (f_dir m) < 2 ^ 32 -> file_chain d T (getdstart d (f_dir m)) cs ->
  dir_size (f_dir m) <= 512 * (Z.of_nat (length cs) * spc d) ->
  (cs <> [] -> exists i, cs !! i = Some (f_cluster m) /\ f_cluster_offset m = Z.of_nat i) ->
  opened s2 l1 u p d k T fd (stored d m x) cs.
Proof.
  intros Ht Hx Hdcb Ho Hsize Hch Hfits Hat. split; try done.
  intros (i & Hi1 & Hi2)%Hat. exists i. split; [done|].
  rewrite <- Hi2. apply offset_halves. rewrite Hi2. unfold file_chain in Hch.
  pose proof (lookup_lt_Some _ _ _ Hi1) as Hlt. destruct (decide (cs = [])) as [->|_]; [done|].
  pose proof (tab_max _ _ _ _ _ _ _ Ht) as Hmx.
  pose proof (chain_length _ _ _ _ (proj2 Hmx) Hch). unfold LONG_BAD in Hmx. lia.
Qed.

(** The entry that a read leaves: still an open file, further on. *)
Lemma stored_opened s1 l1 s2 u p d k T fd x cs c j o :
  tab s2 l1 u p d k T -> idx_to_sft (sfthead (fs s2)) fd = Some (stored d (moved_to c j o (fetched d fd x (fn0 (fs s1)))) x) ->
  sft_dcb x = p -> 0 <= sft_size x < 2 ^ 32 -> file_chain d T (sft_stclust x) cs ->
  sft_size x <= 512 * (Z.of_nat (length cs) * spc d) -> 0 <= o < 2 ^ 32 ->
  (cs <> [] -> exists i, cs !! i = Some c /\ j = Z.of_nat i) ->
  let y := stored d (moved_to c j o (fetched d fd x (fn0 (fs s1)))) x in
  opened s2 l1 u p d k T fd y cs /\ sft_posit y = o /\ same_file x y.
Proof.
  intros Ht Hx Hdcb Hsize Hch Hfits Ho Hat y.
  assert (Hst : sft_stclust y = sft_stclust x).
  { apply dstart_set. by eapply start_fits. }
  assert (Hf : sft_size y = sft_size x /\ sft_name y = sft_name x /\ sft_time y = sft_time x /\
    sft_date y = sft_date x /\ sft_attrib y = sft_attrib x).
  { unfold y, fetched, stored, setdstart. cbn. by destruct (ISFAT32 d). }
  destruct Hf as (Hf1 & Hf2 & Hf3 & Hf4 & Hf5).
  split; [|split; [done|by repeat split]].
  change (sft_size y) with (dir_size (f_dir (moved_to c j o (fetched d fd x (fn0 (fs s1)))))) in Hf1.
  change (sft_stclust y) with (getdstart d (f_dir (moved_to c j o (fetched d fd x (fn0 (fs s1)))))) in Hst.
  by apply stored_file; rewrite ?Hf1, ?Hst.
Qed.
End Spec.

(** The whole call. *)
Lemma rwblock_run {M : Machine} {D : Disk} s l u p d k T fd x cs buffer count mem
  (Hop : opened s l u p d k T fd x cs) (Hhint : hint_ok d) (Hcap : capacity d < 2 ^ 32)
  (Hda : data_area d) (Hfd : 0 <= fd < 255)
  (Hcnt : 0 <= count < 65536) (Hmem : count <= Z.of_nat (length mem)) :
  let n := Z.max 0 (Z.min count (sft_size x - sft_posit x)) in
  exists s' l' y,
    rwblock fd buffer count XFR_READ mem s =
      Some ((n, patch mem 0 (take (Z.to_nat n) (drop (Z.to_nat (sft_posit x)) (content s l d cs)))), s') /\
    opened s' l' u p d k T fd y cs /\ sft_posit y = sft_posit x + n /\ same_file x y /\
    content s' l' d cs = content s l d cs /\ roamed s l s' l' u d /\
    (forall fd', 0 <= fd' -> fd' <> fd -> idx_to_sft (sfthead (fs s')) fd' = idx_to_sft (sfthead (fs s)) fd') /\
    sft_shroff y = sft_shroff x /\ share_installed (fs s') = share_installed (fs s).
Proof.
  cbv zeta. fold (avail x count). destruct (in_tab s l u p d k T fd x cs Hop) as [Ht0 R0].
  destruct (read_body s l u p d k T fd x cs Hop Hhint Hcap Hda Hfd buffer count mem Hcnt Hmem) as (s1 & l1 & c & j & Hr & Ht1 & R1 & Hfs & Hat). cbv zeta in Hr, Hfs, Hat.
  destruct (give_back s1 l1 u p d k T fd (moved_to c j (sft_posit x + avail x count) (fn0 (v_in s d fd x))) x)
    as (s2 & Hr2 & Ht2 & R2 & Hy & Hoth & Hsh); [done|lia|by rewrite Hfs|apply u8_small; lia|exact (op_dcb _ _ _ _ _ _ _ _ _ _ Hop)|rewrite Hfs; apply Hop|].
  destruct Hop as [Ht Hx Hdcb Hpos Hsize Hch Hfits _].
  assert (R : roamed s l s2 l1 u d).
  { exact (roamed_trans _ _ _ _ _ _ _ _ _ (roamed_trans _ _ _ _ _ _ _ _ _ R0 R1 eq_refl) R2 eq_refl). }
  destruct (stored_opened s l1 s2 u p d k T fd x cs c j (sft_posit x + avail x count)) as (H1 & H2 & H3);
    try done; [unfold avail; lia|].
  exists s2, l1, (stored d (moved_to c j (sft_posit x + avail x count) (fn0 (v_in s d fd x))) x).
  split; [by rewrite Hr, (run_eq _ _ _ _ _ Hr2)|]. split; [exact H1|]. split; [exact H2|]. split; [exact H3|].
  split; [by eapply content_kept|]. split; [exact R|].
  split; [intros fd' H0 Hne; rewrite Hoth by done; by rewrite Hfs|]. split; [done|]. by rewrite Hsh, Hfs.
Qed.

(** C6: [rwblock] in the mode XFR_READ on an open file returns
    [min count (size - position)] and puts that many bytes of the file, from
    the position on, at the start of the user's buffer, whatever the mixture
    of whole runs of sectors read straight from the driver and of parts of
    sectors that go through the cache; the rest of the buffer stays.  The
    entry of the table moves on by that number and is an open file again,
    nothing else of it changes and no other entry does, and the file shows
    what it showed. *)
Theorem rwblock_reads {M : Machine} {D : Disk} s l u p d k T fd x cs buffer count mem
  (Hop : opened s l u p d k T fd x cs) (Hhint : hint_ok d) (Hcap : capacity d < 2 ^ 32)
  (Hda : data_area d) (Hfd : 0 <= fd < 255)
  (Hcnt : 0 <= count < 65536) (Hmem : count <= Z.of_nat (length mem)) :
  let n := Z.max 0 (Z.min count (sft_size x - sft_posit x)) in
  exists s' l' y,
    rwblock fd buffer count XFR_READ mem s =
      Some ((n, patch mem 0 (take (Z.to_nat n) (drop (Z.to_nat (sft_posit x)) (content s l d cs)))), s') /\
    opened s' l' u p d k T fd y cs /\ sft_posit y = sft_posit x + n /\ same_file x y /\
    content s' l' d cs = content s l d cs /\ roamed s l s' l' u d /\
    (forall fd', 0 <= fd' -> fd' <> fd -> idx_to_sft (sfthead (fs s')) fd' = idx_to_sft (sfthead (fs s)) fd').
Proof.
  cbv zeta. destruct (rwblock_run s l u p d k T fd x cs buffer count mem Hop Hhint Hcap Hda Hfd Hcnt Hmem)
    as (s' & l' & y & H1 & H2 & H3 & H4 & H5 & H6 & H7 & _). by exists s', l', y.
Qed.

(** A file of 1200 bytes in three clusters of the FAT16 volume, at position
    100. *)
Definition sft16 : sft :=
  Sft 1 0 0x20 SFT_FCLEAN P16 0 0 1200 100 0 0 5 0 (replicate 11 0x41) 2 (-1) 2 0.
Definition ks16 : @kst ram := ks (set_sfthead [[sft16]] (fs0 P16 0)).

Lemma opened16 : opened ks16 l0 1 P16 d16 FAT16 T16 0 sft16 [2; 3; 4].
Proof.
  split.
  - apply tab16.
  - reflexivity.
  - reflexivity.
  - vm_compute. split; congruence.
  - vm_compute. split; congruence.
  - exact chain16.
  - vm_compute. congruence.
  - intros _. exists 0%nat. done.
Qed.

Lemma area16 : data_area d16.
Proof.
  split; [vm_compute; split; congruence|reflexivity|]. intros x j Hx Hj.
  pose proof (data_block16 x j Hx Hj) as H. rewrite u32_small in H; [exact H|].
  revert Hx Hj. unfold spc, clus2phys. change (ISFAT32 d16) with false. cbn iota.
  change (max_cluster d16) with 5000. change (dpb_shftcnt d16) with 0. change (dpb_data d16) with 42.
  change (2 ^ 0) with 1. intros Hx Hj. rewrite Z.shiftl_0_r, !(u32_small (x - 2)), u32_small by lia. lia.
Qed.

(** 412 bytes through the cache, one sector straight from the driver and 76
    bytes through the cache. *)
Lemma rwblock_reads_witness :
  exists s' l' y,
    rwblock 0 (0x1000, 0) 1000 XFR_READ (replicate 1500 7) ks16 =
      Some ((1000, replicate 1000 0 ++ replicate 500 7), s') /\
    opened s' l' 1 P16 d16 FAT16 T16 0 y [2; 3; 4] /\ sft_posit y = 1100.
Proof.
  destruct (rwblock_reads ks16 l0 1 P16 d16 FAT16 T16 0 sft16 [2; 3; 4] (0x1000, 0) 1000 (replicate 1500 7))
    as (s' & l' & y & H1 & H2 & H3 & _).
  - exact opened16.
  - left. reflexivity.
  - vm_compute. reflexivity.
  - exact area16.
  - lia.
  - lia.
  - rewrite length_replicate. lia.
  - exists s', l', y. split; [|split; [exact H2|exact H3]].
    etransitivity; [exact H1|]. f_equal.
Defined.
End RwProps.
