(* ===== verification/WriteSpec.v ===== *)
(** * Writing a file: lemmas

    The clusters of a file are disjoint ranges of sectors; a transfer into
    them is an update of the content of the file ([patch]) and of nothing else.
    [map_cluster] in the mode XFR_WRITE lets the chain grow by free clusters. *)

From S2P Require Import Prelude Memmgr KState BlockIO FatTab FNode FatAlloc FatFile FatRw Disk Ring.
From S2P Require Import CacheSpec CacheOps FatPure FatSpec FatWrite Table FatChain AllocSpec MapSpec.
From S2P Require Import SftSpec DirectIO RwSpec RwProps.
Import Ks Bio Fat FNode Alloc File Rw Dsk Ring Cache CacheOps FatPure FatSpec FatWrite Table Chain.
Import AllocSpec MapSpec SftSpec Direct WriteIO RwSpec RwProps.

Module WriteSpec.

(** ** Sectors and patches *)

Lemma sectors_slice buf q n :
  sectors (fun i => take SECSIZE (drop (SECSIZE * Z.to_nat (i - q)) buf)) q n = take (SECSIZE * n) buf.
Proof.
  revert buf q. induction n as [|n IH]; intros buf q; [by rewrite Nat.mul_0_r|].
  rewrite sectors_S, Z.sub_diag, Nat.mul_0_r, drop_0.
  replace (SECSIZE * S n)%nat with (SECSIZE + SECSIZE * n)%nat by lia. rewrite <- take_take_drop. f_equal.
  rewrite <- (IH (drop SECSIZE buf) (q + 1)). apply sectors_ext. intros i Hi.
  rewrite drop_drop. do 2 f_equal. lia.
Qed.

Lemma sectors_patch f f' N q n buf :
  (forall i, length (f i) = SECSIZE) -> 0 <= q -> 0 <= n -> q + n <= Z.of_nat N ->
  Z.of_nat SECSIZE * n <= Z.of_nat (length buf) ->
  (forall i, 0 <= i < Z.of_nat N -> f' i = if (q <=? i) && (i <? q + n)
     then take SECSIZE (drop (SECSIZE * Z.to_nat (i - q)) buf) else f i) ->
  sectors f' 0 N = patch (sectors f 0 N) (512 * q) (take (SECSIZE * Z.to_nat n) buf).
Proof.
  intros Hf Hq Hn HN Hl H. unfold patch. rewrite length_take, Nat.min_l by (unfold SECSIZE in *; lia).
  replace (Z.to_nat (512 * q)) with (SECSIZE * Z.to_nat q)%nat by (unfold SECSIZE; lia).
  rewrite <- Nat.mul_add_distr_l.
  replace N with (Z.to_nat q + (Z.to_nat n + (N - Z.to_nat q - Z.to_nat n)))%nat in * by lia.
  rewrite !sectors_app, !Z.add_0_l, !Z2Nat.id by lia.
  assert (L1 : length (sectors f 0 (Z.to_nat q)) = (SECSIZE * Z.to_nat q)%nat) by (by apply length_sectors).
  assert (L2 : length (sectors f q (Z.to_nat n)) = (SECSIZE * Z.to_nat n)%nat) by (by apply length_sectors).
  rewrite (take_app_length' (sectors f 0 _)) by done.
  f_equal; [|f_equal].
  - apply sectors_ext. intros i Hi. rewrite H by lia.
    destruct (_ && _) eqn:E; [zbool; lia|]. done.
  - rewrite <- (sectors_slice buf q). apply sectors_ext. intros i Hi. rewrite H by lia.
    rewrite (proj2 (Z.leb_le _ _)), (proj2 (Z.ltb_lt _ _)) by lia. done.
  - rewrite app_assoc, drop_app_length' by (rewrite length_app; unfold SECSIZE in *; lia).
    apply sectors_ext. intros i Hi. rewrite H by lia. destruct (_ && _) eqn:E; [zbool; lia|]. done.
Qed.

(** The elements of a patch. *)
Lemma lookup_patch C a bs i :
  0 <= a -> a + Z.of_nat (length bs) <= Z.of_nat (length C) ->
  patch C a bs !! i = if decide (Z.to_nat a <= i < Z.to_nat a + length bs)%nat
    then bs !! (i - Z.to_nat a)%nat else C !! i.
Proof.
  intros Ha Hl. unfold patch. assert (E : length (take (Z.to_nat a) C) = Z.to_nat a) by (rewrite length_take; lia).
  destruct (decide (i < Z.to_nat a)%nat).
  - rewrite lookup_app_l, lookup_take_lt, decide_False by lia. done.
  - rewrite lookup_app_r, E by lia. case_decide.
    + by rewrite lookup_app_l by lia.
    + rewrite lookup_app_r, lookup_drop by lia. f_equal. lia.
Qed.

(** A patch of a piece, put back. *)
Lemma patch_inside C a n off bs :
  0 <= a -> 0 <= off -> off + Z.of_nat (length bs) <= Z.of_nat n -> a + Z.of_nat n <= Z.of_nat (length C) ->
  patch C a (patch (take n (drop (Z.to_nat a) C)) off bs) = patch C (a + off) bs.
Proof.
  intros Ha Ho Hn Hl. assert (En : length (take n (drop (Z.to_nat a) C)) = n) by (rewrite length_take, length_drop; lia).
  assert (Ep : length (patch (take n (drop (Z.to_nat a) C)) off bs) = n) by (rewrite length_patch; lia).
  apply list_eq. intros i. rewrite !lookup_patch by lia. rewrite Ep.
  repeat case_decide; try lia; try done.
  - f_equal. lia.
  - rewrite lookup_take_lt, lookup_drop by lia. f_equal. lia.
Qed.

(** The list grows behind a patch. *)
Lemma patch_app C D a bs :
  0 <= a -> a + Z.of_nat (length bs) <= Z.of_nat (length C) -> patch (C ++ D) a bs = patch C a bs ++ D.
Proof.
  intros Ha Hl. unfold patch. rewrite take_app_le by lia. rewrite drop_app_le by lia. by rewrite <- !app_assoc.
Qed.

Lemma patch_none C a : patch C a [] = C.
Proof. unfold patch. rewrite Nat.add_0_r. apply take_drop. Qed.

(** ** The clusters on the disk *)

Section Area.
Context {M : Machine} {D : Disk}.

(** The data area ends before the disk does. *)
Definition data_start (d : dpb) : Z := if ISFAT32 d then dpb_xdata d else dpb_data d.
Definition laid_out (d : dpb) : Prop :=
  0 <= data_start d /\ data_start d + (max_cluster d - 1) * spc d <= capacity d /\ capacity d < 2 ^ 32.

Lemma phys_at d x : data_area d -> laid_out d -> 2 <= x <= max_cluster d ->
  clus2phys x d = data_start d + (x - 2) * spc d.
Proof.
  intros Hda (H0 & H1 & H2) Hx. pose proof (spc_pos d Hda). unfold clus2phys. fold (data_start d).
  rewrite (u32_small (x - 2)) by nia. rewrite Z.shiftl_mul_pow2 by apply Hda. fold (spc d).
  rewrite (u32_small (_ * _)) by nia. rewrite u32_small by nia. lia.
Qed.

(** [blk] is a sector of the file with the clusters [cs]. *)
Definition in_file (d : dpb) (cs : list Z) (blk : Z) : Prop :=
  exists q, 0 <= q < Z.of_nat (length cs) * spc d /\ blk = file_block d cs q.

Section Layout.
Context (d : dpb).
Hypothesis Hda : data_area d.
Hypothesis Hlay : laid_out d.

(** The position in the file and the cluster. *)
Lemma file_block_at cs q :
  ranged d cs -> 0 <= q < Z.of_nat (length cs) * spc d ->
  exists x, cs !! Z.to_nat (q / spc d) = Some x /\ 2 <= x <= max_cluster d /\
    file_block d cs q = data_start d + (x - 2) * spc d + q mod spc d /\ 0 <= q mod spc d < spc d.
Proof.
  intros Hr Hq. pose proof (spc_pos d Hda) as Hs.
  assert (Hi : (Z.to_nat (q / spc d) < length cs)%nat).
  { assert (q / spc d < Z.of_nat (length cs)) by (apply Z.div_lt_upper_bound; lia).
    assert (0 <= q / spc d) by (apply Z.div_pos; lia). lia. }
  pose proof (list_lookup_lookup_total_lt cs _ Hi) as Hx. exists (cs !!! Z.to_nat (q / spc d)).
  pose proof (Hr _ ltac:(by eapply list_elem_of_lookup_2)) as Hxr.
  split; [done|]. split; [done|]. split; [|apply Z.mod_pos_bound; lia].
  unfold file_block. by rewrite phys_at.
Qed.

Lemma cluster_inj x y i j :
  0 <= i < spc d -> 0 <= j < spc d -> (x - 2) * spc d + i = (y - 2) * spc d + j -> x = y /\ i = j.
Proof. intros Hi Hj E. assert (x = y) by nia. subst. lia. Qed.

Lemma file_block_inj cs q q' :
  NoDup cs -> ranged d cs -> 0 <= q < Z.of_nat (length cs) * spc d -> 0 <= q' < Z.of_nat (length cs) * spc d ->
  file_block d cs q = file_block d cs q' -> q = q'.
Proof.
  intros Hnd Hr Hq Hq' E. pose proof (spc_pos d Hda) as Hs.
  destruct (file_block_at cs q Hr Hq) as (x & Hx & _ & Ex & Hi).
  destruct (file_block_at cs q' Hr Hq') as (y & Hy & _ & Ey & Hj).
  destruct (cluster_inj x y (q mod spc d) (q' mod spc d)) as [-> Em]; [done|done|lia|].
  pose proof (NoDup_lookup cs _ _ _ Hnd Hx Hy) as Ed.
  assert (q / spc d = q' / spc d).
  { apply Z2Nat.inj; [apply Z.div_pos; lia|apply Z.div_pos; lia|done]. }
  rewrite (Z.div_mod q (spc d)), (Z.div_mod q' (spc d)) by lia. congruence.
Qed.

Lemma file_block_app cs new q :
  0 <= q < Z.of_nat (length cs) * spc d -> file_block d (cs ++ new) q = file_block d cs q.
Proof.
  intros Hq. pose proof (spc_pos d Hda) as Hs.
  unfold file_block. f_equal. f_equal. rewrite !list_lookup_total_alt, lookup_app_l; [done|].
  assert (q / spc d < Z.of_nat (length cs)) by (apply Z.div_lt_upper_bound; lia).
  assert (0 <= q / spc d) by (apply Z.div_pos; lia). lia.
Qed.

(** Sectors of a cluster that is not the file's. *)
Lemma in_file_app cs new q :
  NoDup (cs ++ new) -> ranged d (cs ++ new) -> Z.of_nat (length cs) * spc d <= q ->
  q < Z.of_nat (length (cs ++ new)) * spc d -> ~ in_file d cs (file_block d (cs ++ new) q).
Proof.
  intros Hnd Hr Hq Hq' (q2 & Hq2 & E). pose proof (spc_pos d Hda) as Hs. rewrite length_app in Hq'.
  rewrite <- (file_block_app cs new q2) in E by done. apply file_block_inj in E; try done; rewrite ?length_app; lia.
Qed.

Lemma in_file_grow cs new blk : in_file d cs blk -> in_file d (cs ++ new) blk.
Proof.
  pose proof (spc_pos d Hda). intros (q & Hq & ->). exists q. rewrite length_app, file_block_app by done.
  split; [lia|done].
Qed.

Lemma adjacent_app cs new q n :
  0 <= q -> 1 <= n -> q + n <= Z.of_nat (length cs) * spc d -> adjacent d cs q n -> adjacent d (cs ++ new) q n.
Proof. intros Hq Hn Hl Ha j Hj. rewrite !file_block_app by lia. by apply Ha. Qed.
End Layout.
End Area.

(** ** Chains that grow *)

(** The chain [cs0] grew to [cs] by clusters that were free in [T0]. *)
Definition grown (mx : Z) (T0 : Z -> Z) (cs0 : list Z) (T : Z -> Z) (cs : list Z) : Prop :=
  exists new, cs = cs0 ++ new /\ (forall c, c ∈ new -> T0 c = FREE /\ 2 <= c <= mx) /\
    (forall c, c ∉ cs -> T c = T0 c).

Lemma grown_refl mx T cs : grown mx T cs T cs.
Proof. exists []. rewrite app_nil_r. split; [done|]. split; [by intros c ?%elem_of_nil|done]. Qed.

Lemma grown_trans mx T0 cs0 T cs T' new :
  mx < LONG_BAD -> (forall c, c ∈ cs -> T c <> FREE) -> grown mx T0 cs0 T cs ->
  (forall c, c ∈ new -> T c = FREE /\ 2 <= c <= mx) -> (forall c, c ∉ cs ++ new -> T' c = T c) ->
  grown mx T0 cs0 T' (cs ++ new).
Proof.
  intros Hmx Hu (n0 & -> & Hn0 & HT) Hn HT'. exists (n0 ++ new). rewrite app_assoc. split; [done|]. split.
  - intros c [Hc|Hc]%elem_of_app; [by apply Hn0|]. destruct (Hn c Hc) as [HF Hr]. split; [|done].
    rewrite <- HT; [done|]. intros Hin. by apply (Hu c).
  - intros c Hc. rewrite HT' by done. apply HT. intros Hin. apply Hc. apply elem_of_app. by left.
Qed.

Lemma grown_most mx T0 cs0 T cs :
  grown mx T0 cs0 T cs -> NoDup cs -> Z.of_nat (length cs) <= Z.of_nat (length cs0) + nfree mx T0.
Proof.
  intros (new & -> & Hn & _) Hnd. rewrite length_app. apply NoDup_app in Hnd as (_ & _ & Hnd).
  unfold nfree. assert (length new <= length (filter (fun c => T0 c = FREE) (clusters mx)))%nat; [|lia].
  apply submseteq_length, NoDup_submseteq; [done|]. intros c Hc. destruct (Hn c Hc) as [HF Hr].
  apply list_elem_of_filter. split; [done|]. by apply elem_of_clusters.
Qed.

Lemma grown_all mx T0 cs0 T cs :
  grown mx T0 cs0 T cs -> NoDup cs -> (forall c, c ∈ cs0 -> T0 c <> FREE) ->
  (forall c, 2 <= c <= mx -> T c <> FREE) ->
  Z.of_nat (length cs) = Z.of_nat (length cs0) + nfree mx T0.
Proof.
  intros Hg Hnd Hu Hfull. pose proof (grown_most _ _ _ _ _ Hg Hnd) as Hm.
  destruct Hg as (new & -> & Hn & HT). rewrite length_app in *.
  unfold nfree in *. assert (length (filter (fun c => T0 c = FREE) (clusters mx)) <= length new)%nat; [|lia].
  apply submseteq_length, NoDup_submseteq; [apply NoDup_filter, clusters_nodup|].
  intros c [HF Hr%elem_of_clusters]%list_elem_of_filter.
  destruct (decide (c ∈ cs0 ++ new)) as [[Hc|Hc]%elem_of_app|Hc]; [by destruct (Hu c Hc)|done|].
  destruct (Hfull c Hr). by rewrite HT.
Qed.
(** ** Parameter blocks with the same geometry *)

Lemma phys_geo d d' c : geo d' = geo d -> clus2phys c d' = clus2phys c d.
Proof. intros ->%geo_eq. reflexivity. Qed.
Lemma mask_geo d d' : geo d' = geo d -> dpb_clsmask d' = dpb_clsmask d /\ dpb_shftcnt d' = dpb_shftcnt d.
Proof. intros ->%geo_eq. by split. Qed.
Lemma dstart_geo d d' e : geo d' = geo d -> getdstart d' e = getdstart d e.
Proof. intros ->%geo_eq. reflexivity. Qed.

Lemma file_chain_max d d' T c cs : max_cluster d' = max_cluster d -> file_chain d T c cs -> file_chain d' T c cs.
Proof. unfold file_chain. by intros ->. Qed.

Section Spec.
Context {M : Machine} {D : Disk}.

Lemma roamed_geo s l s' l' u d d' : geo d' = geo d -> roamed s l s' l' u d' -> roamed s l s' l' u d.
Proof. intros Hg R. exact (roamed_trans _ _ _ _ _ _ _ _ _ (roamed_refl s l u d) R Hg). Qed.

(** ** Content *)

Lemma sector_count d n : 1 <= spc d -> Z.of_nat (n * Z.to_nat (spc d)) = Z.of_nat n * spc d.
Proof. intros H. rewrite Nat2Z.inj_mul, Z2Nat.id; lia. Qed.

Lemma content_ext s l s' l' d cs :
  1 <= spc d ->
  (forall q, 0 <= q < Z.of_nat (length cs) * spc d ->
     view s' l' d (file_block d cs q) = view s l d (file_block d cs q)) ->
  content s' l' d cs = content s l d cs.
Proof. intros Hs H. unfold content. apply sectors_ext.
  intros i Hi. apply Nat2Z.inj_lt in Hi. rewrite sector_count in Hi by done. unfold file_sector. apply H. lia.
Qed.

(** The sectors of the clusters behind [cs]. *)
Definition behind (s : kst) (l : list Z) (d : dpb) (cs new : list Z) : list Z :=
  sectors (file_sector s l d (cs ++ new)) (Z.of_nat (length cs) * spc d) (length new * Z.to_nat (spc d)).

Lemma content_app s l d cs new :
  data_area d -> content s l d (cs ++ new) = content s l d cs ++ behind s l d cs new.
Proof.
  intros Hda. pose proof (spc_pos d Hda). pose proof (sector_count d (length cs) ltac:(lia)) as H0.
  unfold content, behind.
  rewrite length_app, Nat.mul_add_distr_r, sectors_app. f_equal.
  - apply sectors_ext. intros i Hi. unfold file_sector.
    apply Nat2Z.inj_lt in Hi. rewrite H0 in Hi. by rewrite file_block_app by (done || lia).
  - f_equal. lia.
Qed.

Lemma length_content s l d cs :
  cache s l -> data_area d -> Z.of_nat (length (content s l d cs)) = 512 * (Z.of_nat (length cs) * spc d).
Proof. intros Hc Hda. by apply length_bytes. Qed.

(** ** The state of a write *)

(** Only the table, the FSINFO sector and the sectors of the file changed. *)
Definition spread (s : kst) (l : list Z) (s' : kst) (l' : list Z) (u : Z) (d : dpb) (cs : list Z) : Prop :=
  forall u' q' d' blk, mounted s u' q' d' -> block_ok d' blk ->
    (u' = u -> ~ in_fat d blk /\ ~ fsinfo_block d blk /\ ~ in_file d cs blk) ->
    view s' l' d' blk = view s l d' blk.

(** What a write leaves of a fnode. *)
Definition rest (n : f_node) : Z * Z * Z * Z * Z * list Z * Z * Z * Z :=
  (f_flags n, f_dirsector n, f_diridx n, f_sft_idx n, f_dpb n, dir_name (f_dir n), dir_attrib (f_dir n),
   dir_time (f_dir n), dir_date (f_dir n)).

Section Writing.
Context (s0 : kst) (l0 : list Z) (u p : Z) (d0 : dpb) (k : fat_type) (T0 : Z -> Z) (cs0 : list Z).
Context (n0 : f_node) (tbl : list (list sft)) (pos : Z).
Hypothesis Hmt : mounted s0 u p d0.
Hypothesis Hcache0 : cache s0 l0.
Hypothesis Hda : data_area d0.
Hypothesis Hlay : laid_out d0.
Hypothesis Hmx : 2 <= max_cluster d0 < LONG_BAD.
Hypothesis Hpos : 0 <= pos.
Hypothesis Hidx : f_sft_idx n0 <> 0xff.
Hypothesis Hdpb : f_dpb n0 = p.
Hypothesis Hused : forall c, c ∈ cs0 -> T0 c <> FREE.

(** The fnode is at the offset [o] of a file with the clusters [cs] and the
    size [sz]; the bytes [bs] were written from [pos] on. *)
Record at_w (s : kst) (l : list Z) (d : dpb) (T : Z -> Z) (cs : list Z) (o : Z) (i : nat) (sz : Z)
  (bs : list Z) : Prop := AtW {
  aw_tab : tab s l u p d k T;
  aw_geo : geo d = geo d0;
  aw_hint : hint_ok d;
  aw_counts : counts d0 T0 -> counts d T;
  aw_grown : grown (max_cluster d0) T0 cs0 T cs;
  aw_chain : file_chain d0 T (getdstart d0 (f_dir (fn0 (fs s)))) cs;
  aw_off : f_offset (fn0 (fs s)) = o;
  aw_size : dir_size (f_dir (fn0 (fs s))) = sz;
  aw_fits : sz <= 512 * (Z.of_nat (length cs) * spc d0);
  aw_pos : if decide (cs = []) then f_cluster (fn0 (fs s)) = FREE /\ f_cluster_offset (fn0 (fs s)) = 0
    else cs !! i = Some (f_cluster (fn0 (fs s))) /\ f_cluster_offset (fn0 (fs s)) = Z.of_nat i;
  aw_rest : rest (fn0 (fs s)) = rest n0;
  aw_table : sfthead (fs s) = tbl /\ share_installed (fs s) = false;
  aw_length : length l = length l0;
  aw_evolves : evolves s0 s;
  aw_frame : spread s0 l0 s l u d0 cs;
  aw_done : bs = [] \/ pos + Z.of_nat (length bs) <= 512 * (Z.of_nat (length cs) * spc d0);
  aw_content : content s l d0 cs = patch (content s0 l0 d0 cs) pos bs }.

Lemma w_ranged s l d T cs o i sz bs : at_w s l d T cs o i sz bs -> ranged d0 cs.
Proof. intros H x Hx. eapply file_chain_range; [apply H|done]. Qed.

Lemma w_nodup s l d T cs o i sz bs : at_w s l d T cs o i sz bs -> NoDup cs.
Proof.
  intros H. pose proof (aw_chain _ _ _ _ _ _ _ _ _ H) as Hc. unfold file_chain in Hc.
  destruct (decide (cs = [])) as [->|]; [by constructor|]. by eapply chain_nodup; [apply Hmx|].
Qed.

Lemma w_used s l d T cs o i sz bs c : at_w s l d T cs o i sz bs -> c ∈ cs -> T c <> FREE.
Proof.
  intros H Hc. pose proof (aw_chain _ _ _ _ _ _ _ _ _ H) as Hch. unfold file_chain in Hch.
  destruct (decide (cs = [])) as [->|]; [by apply elem_of_nil in Hc|].
  by eapply chain_not_free; [apply Hmx|..].
Qed.

Lemma w_dpb s l d T cs o i sz bs : at_w s l d T cs o i sz bs -> dpbs s !! p = Some d.
Proof. intros H. eapply tab_dpb, H. Qed.

Lemma w_mounted s l d T cs o i sz bs : at_w s l d T cs o i sz bs -> mounted s u p d.
Proof. intros H. apply (aw_tab _ _ _ _ _ _ _ _ _ H). Qed.

Lemma w_cache s l d T cs o i sz bs : at_w s l d T cs o i sz bs -> cache s l.
Proof. intros H. apply (aw_tab _ _ _ _ _ _ _ _ _ H). Qed.

Lemma w_fnode s l d T cs o i sz bs : at_w s l d T cs o i sz bs ->
  f_dpb (fn0 (fs s)) = p /\ f_sft_idx (fn0 (fs s)) = f_sft_idx n0.
Proof. intros H. pose proof (aw_rest _ _ _ _ _ _ _ _ _ H) as E. unfold rest in E. injection E as _ _ _ E1 E2 _ _ _ _.
  split; congruence.
Qed.

Lemma run_fdpb_w {A} s l d T cs o i sz bs (f : dpb -> K kst A) :
  at_w s l d T cs o i sz bs -> kbind (fdpb fnode0) f s = f d s.
Proof. intros H. apply (run_fdpb fnode0 d p); [by apply (w_fnode _ _ _ _ _ _ _ _ _ H)|by eapply w_dpb]. Qed.

(** The frame and the content when the chain grows. *)
Lemma spread_grow s l s' l' cs new :
  ranged d0 (cs ++ new) -> NoDup (cs ++ new) -> evolves s0 s ->
  spread s0 l0 s l u d0 cs -> roamed s l s' l' u d0 -> spread s0 l0 s' l' u d0 (cs ++ new).
Proof.
  intros Hr Hnd Hev Hs R u' q' d' blk Hm Hb Hn.
  destruct (evolves_mounted _ _ _ _ _ Hev Hm) as (d'' & Hm' & Hg').
  rewrite <- (view_geo s' l' d' d'' blk Hg'), (ro_frame _ _ _ _ _ _ R u' q' d'' blk Hm').
  - rewrite (view_geo s l d' d'' blk Hg'). apply (Hs u' q' d' blk Hm Hb). intros E.
    destruct (Hn E) as (H1 & H2 & H3). split; [done|]. split; [done|]. intros H4. by apply H3, in_file_grow.
  - by rewrite (block_ok_geo d' d'').
  - intros E. destruct (Hn E) as (H1 & H2 & H3). done.
Qed.

Lemma content_grow s l d T cs o i sz bs s' l' new :
  at_w s l d T cs o i sz bs -> ranged d0 (cs ++ new) -> NoDup (cs ++ new) -> roamed s l s' l' u d0 ->
  content s' l' d0 (cs ++ new) = patch (content s0 l0 d0 (cs ++ new)) pos bs.
Proof.
  intros H Hr Hnd R. pose proof (spc_pos d0 Hda) as Hs. pose proof (aw_geo _ _ _ _ _ _ _ _ _ H) as Hg.
  rewrite (content_ext s l s' l' d0 (cs ++ new)); [|lia|].
  2:{ intros q Hq. destruct (file_block_fine d0 _ Hda q Hr Hq) as (H1 & H2 & H3).
      rewrite <- !(view_geo _ _ d0 d _ Hg). apply (ro_frame _ _ _ _ _ _ R u p d); [by eapply w_mounted| |done].
      by rewrite (block_ok_geo d0 d). }
  rewrite !content_app, (aw_content _ _ _ _ _ _ _ _ _ H) by done.
  assert (behind s l d0 cs new = behind s0 l0 d0 cs new) as ->.
  { apply sectors_ext. intros j Hj. apply Nat2Z.inj_lt in Hj. rewrite sector_count in Hj by lia.
    assert (Hq : 0 <= Z.of_nat (length cs) * spc d0 + Z.of_nat j < Z.of_nat (length (cs ++ new)) * spc d0)
      by (rewrite length_app; lia).
    destruct (file_block_fine d0 _ Hda _ Hr Hq) as (H1 & H2 & H3).
    apply (aw_frame _ _ _ _ _ _ _ _ _ H u p); [done|done|]. intros _. split; [done|]. split; [done|].
    apply in_file_app; try done; lia. }
  destruct (aw_done _ _ _ _ _ _ _ _ _ H) as [->|Hd]; [by rewrite !patch_none|].
  rewrite patch_app; [done|done|]. by rewrite length_content.
Qed.

(** The chain, the fnode and the table move on. *)
Lemma w_move s l d T cs o i sz bs s' l' d' T' new o' j :
  at_w s l d T cs o i sz bs -> tab s' l' u p d' k T' -> geo d' = geo d -> hint_ok d' ->
  (counts d T -> counts d' T') -> roamed s l s' l' u d ->
  (forall c, c ∈ new -> T c = FREE /\ 2 <= c <= max_cluster d0) -> (forall c, c ∉ cs ++ new -> T' c = T c) ->
  let n := fn0 (fs s') in
  file_chain d0 T' (getdstart d0 (f_dir n)) (cs ++ new) -> f_offset n = o' -> dir_size (f_dir n) = sz ->
  (if decide (cs ++ new = []) then f_cluster n = FREE /\ f_cluster_offset n = 0
   else (cs ++ new) !! j = Some (f_cluster n) /\ f_cluster_offset n = Z.of_nat j) ->
  rest n = rest (fn0 (fs s)) -> sfthead (fs s') = sfthead (fs s) -> share_installed (fs s') = share_installed (fs s) ->
  at_w s' l' d' T' (cs ++ new) o' j sz bs.
Proof.
  intros H Ht Hg' Hh Hc R0 Hnew HT n Hch Ho Hsz Hat Hrest Hsf Hsh.
  pose proof (aw_geo _ _ _ _ _ _ _ _ _ H) as Hg. pose proof (spc_pos d0 Hda) as Hs.
  pose proof (roamed_geo _ _ _ _ _ _ _ Hg R0) as R.
  assert (Hrg : ranged d0 (cs ++ new)) by (intros y Hy; by eapply file_chain_range).
  assert (Hnd : NoDup (cs ++ new)).
  { unfold file_chain in Hch. destruct (decide (cs ++ new = [])) as [->|]; [by constructor|].
    by eapply chain_nodup; [apply Hmx|]. }
  split; try done.
  - congruence.
  - intros Hc0. by apply Hc, H.
  - eapply grown_trans; [apply Hmx| |apply H|exact Hnew|exact HT]. intros c. by apply (w_used _ _ _ _ _ _ _ _ _ c H).
  - pose proof (aw_fits _ _ _ _ _ _ _ _ _ H). rewrite length_app. nia.
  - rewrite <- (aw_rest _ _ _ _ _ _ _ _ _ H). exact Hrest.
  - rewrite Hsf, Hsh. exact (aw_table _ _ _ _ _ _ _ _ _ H).
  - rewrite (ro_length _ _ _ _ _ _ R). apply H.
  - eapply evolves_trans; [apply H|apply R].
  - eapply spread_grow; [done|done| |exact (aw_frame _ _ _ _ _ _ _ _ _ H)|done]. apply H.
  - destruct (aw_done _ _ _ _ _ _ _ _ _ H); [by left|right]. rewrite length_app. nia.
  - by eapply content_grow.
Qed.

(** All clusters of the volume are used, and the offset is behind them. *)
Definition full (cs : list Z) (o : Z) (j : nat) : Prop :=
  Z.of_nat (length cs) = Z.of_nat (length cs0) + nfree (max_cluster d0) T0 /\ (length cs <= rel d0 o)%nat /\
  (cs = [] \/ length cs = S j).

Lemma map_w_chain s l d T cs o i sz bs :
  at_w s l d T cs o i sz bs -> cs <> [] -> 0 <= o < 2 ^ 32 ->
  exists rc s' l' d' T' new j, map_cluster fnode0 XFR_WRITE s = Some (rc, s') /\
    at_w s' l' d' T' (cs ++ new) o j sz bs /\
    if rc =? SUCCESS then j = rel d0 o /\ (j < length (cs ++ new))%nat else full (cs ++ new) o j.
Proof.
  intros H Hne Ho. destruct (w_fnode _ _ _ _ _ _ _ _ _ H) as [Hp Hi].
  pose proof (aw_geo _ _ _ _ _ _ _ _ _ H) as Hg. destruct (mask_geo _ _ Hg) as [_ Hsh].
  pose proof (aw_chain _ _ _ _ _ _ _ _ _ H) as Hch. pose proof (aw_pos _ _ _ _ _ _ _ _ _ H) as Hat.
  pose proof (aw_off _ _ _ _ _ _ _ _ _ H) as Hoff.
  unfold file_chain in Hch. rewrite decide_False in Hch, Hat by done. destruct Hat as [Hx Hco].
  assert (Hst : chain_start d (fn0 (fs s)) (fs s) = getdstart d0 (f_dir (fn0 (fs s)))).
  { unfold chain_start. rewrite Hi, (proj2 (Z.eqb_neq _ _) Hidx). by apply dstart_geo. }
  assert (Hrel : rel_of (fn0 (fs s)) d = rel d0 o).
  { unfold rel_of, rel, spc. rewrite Hoff, Hsh, Z.shiftr_div_pow2 by apply Hda. done. }
  destruct (map_cluster_spec s l u p d k T fnode0 XFR_WRITE cs i (or_intror eq_refl) (aw_tab _ _ _ _ _ _ _ _ _ H)
    (aw_hint _ _ _ _ _ _ _ _ _ H)) as (s' & rc & Hr & Hm); cbn [fnode_of]; try done.
  { by rewrite Hoff. }
  { rewrite Hsh. apply Hda. }
  { by rewrite Hst, (max_geo _ _ Hg). }
  cbn [fnode_of] in Hm. destruct Hm as (l' & d' & T' & new & x & j & A1 & A2 & A3 & A4 & A5 & A6 & A7 & A8 & A9 & A10 & _ & A12).
  rewrite Hst in A8. rewrite (max_geo _ _ Hg) in A8, A9, A12. rewrite Hrel in A12.
  assert (Hne' : cs ++ new <> []) by (by destruct cs).
  assert (Hfn : fn0 (fs s') = at_pos x j (fn0 (fs s))) by (by rewrite A6).
  assert (H' : at_w s' l' d' T' (cs ++ new) o j sz bs).
  { eapply (w_move s l d T cs o i); try done; rewrite ?Hfn.
    - unfold file_chain. rewrite decide_False by done. exact A8.
    - done.
    - exact (aw_size _ _ _ _ _ _ _ _ _ H).
    - by rewrite decide_False.
    - done.
    - by rewrite A6.
    - by rewrite A6. }
  exists rc, s', l', d', T', new, j. split; [done|]. split; [done|].
  destruct A12 as [Hn|Hm|_ Hlen Hfull]; [|done|].
  - change (SUCCESS =? SUCCESS) with true. split; [done|]. by eapply lookup_lt_Some.
  - change (DE_HNDLDSKFULL =? SUCCESS) with false. split.
    { eapply grown_all; [apply H'|by eapply w_nodup|done|exact Hfull]. }
    split; [done|]. right. assert (length (cs ++ new) <> 0%nat) by (by intros ?%length_zero_iff_nil). lia.
Qed.

(** The first cluster of a file. *)
Lemma map_first s s1 c :
  f_cluster (fn0 (fs s)) = FREE -> extend fnode0 s = Some (c, s1) -> c <> FREE -> c <> LONG_LAST_CLUSTER ->
  map_cluster fnode0 XFR_WRITE s =
    map_cluster fnode0 XFR_WRITE (set_fs (fnode_upd fnode0 (set_f_cluster c) (fs s1)) s1).
Proof.
  intros Hf Hr Hc1 Hc2. unfold map_cluster. rewrite !run_fn. cbn [fnode_of]. rewrite Hf.
  cbn [fs set_fs fnode_upd fn0 set_fn0 f_cluster set_f_cluster]. rewrite (proj2 (Z.eqb_neq c FREE)) by done.
  change (FREE =? FREE) with true. change (XFR_WRITE =? XFR_READ) with false. cbn iota.
  rewrite !run_assoc, (run_eq _ _ _ _ _ Hr), (proj2 (Z.eqb_neq c LONG_LAST_CLUSTER)) by done.
  by rewrite !run_assoc, run_fnmod, !run_ret.
Qed.

Lemma map_w_empty s l d T o i sz bs :
  at_w s l d T [] o i sz bs -> 0 <= o < 2 ^ 32 ->
  exists rc s' l' d' T' new j, map_cluster fnode0 XFR_WRITE s = Some (rc, s') /\
    at_w s' l' d' T' new o j sz bs /\
    if rc =? SUCCESS then j = rel d0 o /\ (j < length new)%nat else full new o j.
Proof.
  intros H Ho. destruct (w_fnode _ _ _ _ _ _ _ _ _ H) as [Hp Hi]. pose proof (aw_geo _ _ _ _ _ _ _ _ _ H) as Hg.
  pose proof (aw_pos _ _ _ _ _ _ _ _ _ H) as [Hcl Hco]. pose proof (aw_off _ _ _ _ _ _ _ _ _ H) as Hoff.
  pose proof (aw_size _ _ _ _ _ _ _ _ _ H) as Hsz.
  pose proof (extend_spec s l u p d k T fnode0 (aw_tab _ _ _ _ _ _ _ _ _ H) (aw_hint _ _ _ _ _ _ _ _ _ H)) as Hx.
  cbn [fnode_of] in Hx. rewrite Hcl in Hx. specialize (Hx Hp ltac:(done)).
  destruct (found_free d T) as [c|] eqn:Ef.
  - destruct (found_range d T c) as [Hc HTc]; [by rewrite (max_geo _ _ Hg); lia|apply H|done|].
    rewrite (max_geo _ _ Hg) in Hc. unfold LONG_BAD in Hmx.
    assert (Hc1 : c <> FREE) by (unfold FREE; lia). assert (Hc2 : c <> LONG_LAST_CLUSTER) by (unfold LONG_LAST_CLUSTER; lia).
    destruct Hx as (s1 & l1 & d1 & Hr1 & Hg1 & Hh1 & Hcn1 & Hfs1 & Ht1 & R1).
    change (FREE =? FREE) with true in Hfs1. cbn iota in Hfs1.
    pose proof (map_first s s1 c Hcl Hr1 Hc1 Hc2) as Hm.
    set (v2 := fnode_upd fnode0 (set_f_cluster c) (fs s1)) in *.
    destruct (fs_spec s1 l1 u p d1 k _ v2 Ht1) as [Ht2 R2].
    assert (Ev : v2 = fnode_upd fnode0 (fun n => set_f_cluster c (started d c n)) (fs s))
      by (unfold v2; by rewrite Hfs1, fnode_upd_upd).
    assert (Efn : fn0 v2 = set_f_cluster c (started d c (fn0 (fs s)))) by (by rewrite Ev).
    assert (Hlast : appended T FREE c c = LONG_LAST_CLUSTER) by (unfold appended, tupd; by rewrite !Z.eqb_refl).
    assert (Hch : file_chain d0 (appended T FREE c) c [c]).
    { unfold file_chain. rewrite decide_False by done. simpl. by rewrite Hlast. }
    assert (H2 : at_w (set_fs v2 s1) l1 d1 (appended T FREE c) [c] o 0 sz bs).
    { eapply (w_move s l d T [] o i sz bs _ _ d1 _ [c]); try done; cbn [fs set_fs]; rewrite ?Efn; try done.
      - exact (roamed_trans _ _ _ _ _ _ _ _ _ R1 R2 Hg1).
      - intros y ->%list_elem_of_singleton. done.
      - intros y Hy. unfold appended, tupd. change (FREE =? FREE) with true. cbn beta iota.
        destruct (y =? c) eqn:E; zbool; [subst; set_solver|done].
      - rewrite <- (dstart_geo d0 d _ Hg). cbn [f_dir set_f_cluster started set_f_dir].
        rewrite dstart_set; [exact Hch|]. rewrite <- (geo_32 d d1 Hg1).
        eapply start_fits; [exact Ht1|]. eapply file_chain_max; [|exact Hch].
        by rewrite (max_geo _ _ Hg1), (max_geo _ _ Hg).
      - cbn [f_dir set_f_cluster started set_f_dir]. rewrite <- Hsz. unfold setdstart. by destruct (ISFAT32 d).
      - unfold rest. cbn [f_dir set_f_cluster started set_f_dir]. unfold setdstart. by destruct (ISFAT32 d).
      - by rewrite Ev.
      - by rewrite Ev. }
    rewrite Hm. destruct (map_w_chain _ _ _ _ _ _ _ _ _ H2 ltac:(done) Ho)
      as (rc & s3 & l3 & d3 & T3 & new & j & A1 & A2 & A3).
    by exists rc, s3, l3, d3, T3, ([c] ++ new), j.
  - destruct Hx as (s1 & l1 & d1 & Hr1 & Hg1 & Hh1 & Hcn1 & Hfs1 & Ht1 & R1).
    exists DE_HNDLDSKFULL, s1, l1, d1, T, [], i. split.
    { unfold map_cluster. rewrite run_fn. cbn [fnode_of]. rewrite Hcl. change (FREE =? FREE) with true.
      change (XFR_WRITE =? XFR_READ) with false. cbn iota. by rewrite run_assoc, (run_eq _ _ _ _ _ Hr1). }
    assert (H2 : at_w s1 l1 d1 T [] o i sz bs).
    { apply (w_move s l d T [] o i sz bs s1 l1 d1 T []); try done; rewrite ?Hfs1; try done.
      - by intros y ?%elem_of_nil.
      - exact (aw_chain _ _ _ _ _ _ _ _ _ H). }
    split; [done|]. change (DE_HNDLDSKFULL =? SUCCESS) with false. split; [|split; [simpl; lia|by left]].
    eapply grown_all; [apply H2|constructor|done|]. rewrite <- (max_geo _ _ Hg).
    apply (found_none d T); [rewrite (max_geo _ _ Hg); lia|apply H|done].
Qed.

(** [map_cluster] in the mode XFR_WRITE: the fnode is at the cluster of the
    offset, or all clusters of the volume are used. *)
Lemma map_w s l d T cs o i sz bs :
  at_w s l d T cs o i sz bs -> 0 <= o < 2 ^ 32 ->
  exists rc s' l' d' T' new j, map_cluster fnode0 XFR_WRITE s = Some (rc, s') /\
    at_w s' l' d' T' (cs ++ new) o j sz bs /\
    if rc =? SUCCESS then j = rel d0 o /\ (j < length (cs ++ new))%nat else full (cs ++ new) o j.
Proof.
  intros H Ho. destruct (decide (cs = [])) as [->|Hne]; [|by eapply map_w_chain].
  by eapply map_w_empty.
Qed.

(** ** Transfers *)

(** [n] sectors of the file, from number [q] on, are those of [buf]. *)
Lemma w_store s l d T cs o i sz bs s' l' q n buf bs' :
  at_w s l d T cs o i sz bs -> cache s' l' -> ioframe s s' -> length l' = length l ->
  0 <= q -> 1 <= n -> q + n <= Z.of_nat (length cs) * spc d0 -> adjacent d0 cs q n ->
  Z.of_nat SECSIZE * n <= Z.of_nat (length buf) ->
  blocks_set s l s' l' u (file_block d0 cs q) n buf ->
  patch (patch (content s0 l0 d0 cs) pos bs) (512 * q) (take (SECSIZE * Z.to_nat n) buf) =
    patch (content s0 l0 d0 cs) pos bs' ->
  pos + Z.of_nat (length bs') <= 512 * (Z.of_nat (length cs) * spc d0) ->
  at_w s' l' d T cs o i sz bs'.
Proof.
  intros H Hc Hf Hl Hq Hn Hqn Had Hbl Hset Heq Hfit.
  pose proof (spc_pos d0 Hda) as Hs. pose proof (aw_geo _ _ _ _ _ _ _ _ _ H) as Hg.
  pose proof (w_ranged _ _ _ _ _ _ _ _ _ H) as Hr. pose proof (w_nodup _ _ _ _ _ _ _ _ _ H) as Hnd.
  pose proof (w_mounted _ _ _ _ _ _ _ _ _ H) as Hm.
  destruct (aw_tab _ _ _ _ _ _ _ _ _ H) as [[_ V Hln] Hag].
  assert (Hin : forall b, file_block d0 cs q <= b < file_block d0 cs q + n ->
    exists j, 0 <= j < n /\ b = file_block d0 cs (q + j)).
  { intros b Hb. exists (b - file_block d0 cs q). split; [lia|]. rewrite Had by lia. lia. }
  assert (Hfat : forall blk, in_fat d blk -> view s' l' d blk = view s l d blk).
  { intros blk Hb. rewrite (Hset u p d blk Hm (in_fat_ok _ _ _ _ _ _ V Hb)).
    destruct (_ && _) eqn:E; [|done]. zbool. destruct (Hin blk ltac:(lia)) as (j & Hj & ->).
    destruct (file_block_fine d0 cs Hda (q + j) Hr ltac:(lia)) as (_ & Hn2 & _).
    destruct Hn2. by rewrite (geo_eq _ _ Hg) in Hb. }
  destruct Hf as (E1 & E2 & E3 & E4 & E5 & E6).
  assert (Hf : ioframe s s') by done.
  pose proof H as [_ B2 B3 B4 B5 B6 B7 B8 B9 B10 B11 B12 B13 B14 B15 _ B17].
  split; rewrite ?E5; try done.
  - split; [split; [done|by eapply volume_ioframe|lia]|]. intros c Hc2.
    rewrite (links_fat s l s' l' u p d k c V Hfat Hc2). by apply Hag.
  - by rewrite Hl.
  - eapply evolves_trans; [exact B14|by apply evolves_ioframe].
  - intros u' q' d' blk Hm' Hb Hn'.
    destruct (evolves_mounted _ _ _ _ _ (aw_evolves _ _ _ _ _ _ _ _ _ H) Hm') as (d'' & Hm'' & Hg').
    rewrite <- (aw_frame _ _ _ _ _ _ _ _ _ H u' q' d' blk Hm' Hb Hn').
    rewrite <- (view_geo s' l' d' d'' blk Hg'), <- (view_geo s l d' d'' blk Hg').
    rewrite (Hset u' q' d'' blk Hm'') by (by rewrite (block_ok_geo d' d'')).
    destruct (_ && _) eqn:E; [|done]. zbool. destruct (Hn' ltac:(done)) as (_ & _ & Hn2).
    destruct (Hin blk ltac:(lia)) as (j & Hj & ->). destruct Hn2. exists (q + j). split; [lia|done].
  - by right.
  - rewrite <- Heq, <- (aw_content _ _ _ _ _ _ _ _ _ H). unfold content.
    apply sectors_patch; rewrite ?sector_count by lia; try lia; [intros j; by apply view_bytes, (w_cache _ _ _ _ _ _ _ _ _ H)|].
    intros j Hj. unfold file_sector. rewrite <- !(view_geo _ _ d0 d _ Hg).
    destruct (file_block_fine d0 cs Hda j Hr Hj) as (Hb & _ & _).
    rewrite (Hset u p d _ Hm) by (by rewrite (block_ok_geo d0 d)). rewrite Z.eqb_refl. cbn [andb].
    destruct ((q <=? j) && (j <? q + n)) eqn:E.
    + zbool. assert (Ej : file_block d0 cs j = file_block d0 cs q + (j - q)).
      { rewrite <- Had by lia. f_equal. lia. }
      rewrite Ej, (proj2 (Z.leb_le _ _)), (proj2 (Z.ltb_lt _ _)) by lia. cbn [andb]. do 3 f_equal. lia.
    + destruct (_ && _) eqn:E' in |- *; [|done]. zbool.
      destruct (Hin (file_block d0 cs j) ltac:(lia)) as (x & Hx & Ex).
      apply (file_block_inj d0 Hda Hlay) in Ex; try done; try lia.
Qed.

(** ** The fnode *)

(** A store to the offset and the size. *)
Lemma w_fnmod s l d T cs o i sz bs g o' sz' :
  at_w s l d T cs o i sz bs ->
  let n := fn0 (fs s) in
  f_offset (g n) = o' -> dir_size (f_dir (g n)) = sz' -> getdstart d0 (f_dir (g n)) = getdstart d0 (f_dir n) ->
  f_cluster (g n) = f_cluster n -> f_cluster_offset (g n) = f_cluster_offset n -> rest (g n) = rest n ->
  sz' <= 512 * (Z.of_nat (length cs) * spc d0) ->
  at_w (set_fs (fnode_upd fnode0 g (fs s)) s) l d T cs o' i sz' bs.
Proof.
  intros H n Ho Hsz Hst Hcl Hco Hrest Hfit.
  pose proof H as [B1 B2 B3 B4 B5 B6 B7 B8 B9 B10 B11 B12 B13 B14 B15 B16 B17].
  destruct (fs_spec s l u p d k T (fnode_upd fnode0 g (fs s)) B1) as [Ht R].
  assert (Hfn : fn0 (fs (set_fs (fnode_upd fnode0 g (fs s)) s)) = g n) by done.
  split; rewrite ?Hfn, ?Hst, ?Hcl, ?Hco, ?Hrest; try done.
Qed.

(** A store to [f_offset]. *)
Lemma seek_w {A} s l d T cs o i sz bs o' g (f : unit -> K kst A) :
  at_w s l d T cs o i sz bs -> (forall n, f_offset n = o -> g n = set_f_offset o' n) ->
  exists s', kbind (fnmod fnode0 g) f s = f tt s' /\ at_w s' l d T cs o' i sz bs.
Proof.
  intros H Hg. eexists. split; [apply run_fnmod|]. pose proof (aw_size _ _ _ _ _ _ _ _ _ H) as Hsz.
  apply (w_fnmod s l d T cs o i sz bs g o' sz H); rewrite ?(Hg _ (aw_off _ _ _ _ _ _ _ _ _ H)); try done.
  apply H.
Qed.

Lemma run_fn_w {A} s l d T cs o i sz bs (f : f_node -> K kst A) :
  at_w s l d T cs o i sz bs -> kbind (fn fnode0) f s = f (fn0 (fs s)) s.
Proof. intros _. by rewrite run_fn. Qed.

(** The offset behind [n] sectors from number [q] on. *)
Lemma rel_at q : rel d0 (512 * q) = Z.to_nat (q / spc d0).
Proof. unfold rel. rewrite (Z.mul_comm 512), Z.div_mul by lia. done. Qed.

(** ** Whole sectors *)

Lemma run_loop_w fuel s l d T cs i sz bs cb q n wanted :
  at_w s l d T cs (512 * (q + n)) i sz bs -> cb = file_block d0 cs q -> 0 <= q -> 1 <= n <= wanted ->
  512 * wanted < 65536 -> 512 * (q + wanted) < 2 ^ 32 -> q + n <= Z.of_nat (length cs) * spc d0 ->
  adjacent d0 cs q n -> (n < wanted -> (q + n) mod spc d0 = 0) -> (Z.to_nat (wanted - n) < fuel)%nat ->
  exists n' s' l' d' T' new i', run_loop fuel fnode0 XFR_WRITE cb (512 * q) 512 n wanted s = Some (n', s') /\
    n <= n' <= wanted /\ at_w s' l' d' T' (cs ++ new) (512 * (q + n')) i' sz bs /\
    adjacent d0 (cs ++ new) q n' /\ q + n' <= Z.of_nat (length (cs ++ new)) * spc d0.
Proof.
  revert s l d T cs i n. induction fuel as [|fuel IH]; intros s l d T cs i n H Hcb Hq Hn Hw H32 Hlen Had Hal Hf; [lia|].
  cbn [run_loop]. destruct (n <? wanted) eqn:E; cbn [negb]; zbool.
  2:{ exists n, s, l, d, T, [], i. rewrite app_nil_r. split; [done|]. split; [lia|]. by split. }
  pose proof (spc_pos d0 Hda) as Hspc. specialize (Hal E).
  destruct (map_w s l d T cs _ i sz bs H) as (rc & s1 & l1 & d1 & T1 & n1 & j & Hr1 & H1 & Hout); [lia|].
  rewrite (run_eq _ _ _ _ _ Hr1). clear Hr1.
  assert (Had1 : adjacent d0 (cs ++ n1) q n) by (apply adjacent_app; done || lia).
  assert (Hlen1 : q + n <= Z.of_nat (length (cs ++ n1)) * spc d0) by (rewrite length_app; nia).
  assert (Hcb1 : cb = file_block d0 (cs ++ n1) q) by (by rewrite file_block_app by (done || lia)).
  destruct (rc =? SUCCESS) eqn:Erc; cbn [negb].
  2:{ exists n, s1, l1, d1, T1, n1, j. split; [done|]. split; [lia|]. by split. }
  destruct Hout as [-> Hj]. rewrite rel_at in H1, Hj. pose proof (aw_geo _ _ _ _ _ _ _ _ _ H1) as Hg1.
  rewrite run_fn, (run_fdpb_w _ _ _ _ _ _ _ _ _ _ H1). cbn [fnode_of].
  assert (Hq1 : 0 <= (q + n) / spc d0 < Z.of_nat (length (cs ++ n1))) by (split; [apply Z.div_pos; lia|lia]).
  assert (Hne : cs ++ n1 <> []) by (intros E0; rewrite E0 in Hq1; simpl in Hq1; lia).
  pose proof (aw_pos _ _ _ _ _ _ _ _ _ H1) as Hp1. rewrite decide_False in Hp1 by done. destruct Hp1 as [Hc1 _].
  assert (Eb : clus2phys (f_cluster (fn0 (fs s1))) d1 = file_block d0 (cs ++ n1) (q + n)).
  { rewrite (phys_geo _ _ _ Hg1). unfold file_block. rewrite (list_lookup_total_correct _ _ _ Hc1), Hal. lia. }
  rewrite Eb, Hcb1. destruct (_ =? u32 _) eqn:Ec; cbn [negb]; zbool.
  2:{ exists n, s1, l1, d1, T1, n1, (Z.to_nat ((q + n) / spc d0)). split; [done|]. split; [lia|]. by split. }
  destruct (mask_geo _ _ Hg1) as [-> _]. rewrite (da_mask d0 Hda). set (n2 := Z.min (u16 (n + (spc d0 - 1 + 1))) wanted).
  assert (En2 : n2 = Z.min (n + spc d0) wanted) by (unfold n2; rewrite u16_small by lia; lia).
  destruct (seek_w s1 l1 d1 T1 (cs ++ n1) (512 * (q + n)) (Z.to_nat ((q + n) / spc d0)) sz bs (512 * (q + n2))
    (set_f_offset (u32 (512 * q + u16 (n2 * 512))))
    (fun _ => run_loop fuel fnode0 XFR_WRITE (file_block d0 (cs ++ n1) q) (512 * q) 512 n2 wanted) H1)
    as (s2 & Hr2 & H2).
  { intros m _. f_equal. rewrite (u16_small (n2 * 512)), u32_small by lia. lia. }
  rewrite Hr2, <- Hcb1. clear Hr2.
  assert (Had2 : adjacent d0 (cs ++ n1) q (n + spc d0)).
  { apply adjacent_extend; try done; try lia; [by eapply w_ranged|apply Hlay]. }
  assert (Hlen2 : q + (n + spc d0) <= Z.of_nat (length (cs ++ n1)) * spc d0).
  { pose proof (Z.div_mod (q + n) (spc d0) ltac:(lia)). nia. }
  destruct (IH s2 l1 d1 T1 (cs ++ n1) _ n2 H2 Hcb1) as (n' & s' & l' & d' & T' & new & i' & Hr & Hn' & H' & Had' & Hl');
    try done; try lia.
  - intros x Hx. apply Had2. lia.
  - intros Hlt. rewrite En2, Z.min_l by lia.
    rewrite Z.add_assoc, <- (Z.add_mod_idemp_r _ (spc d0)), Z.mod_same, Z.add_0_r by lia. done.
  - rewrite <- app_assoc in H', Had', Hl'. exists n', s', l', d', T', (n1 ++ new), i'.
    split; [exact Hr|]. split; [lia|]. by split.
Qed.

(** The bytes of a piece of the user's memory. *)
Lemma piece_bytes mem c r m :
  Forall byte (take c mem) -> (r + m <= c)%nat -> Forall byte (take m (drop r mem)).
Proof.
  intros H Hc. rewrite take_drop_commute. apply Forall_drop.
  replace (r + m)%nat with (Nat.min (r + m) c) by lia.
  rewrite <- take_take. by apply Forall_take.
Qed.

(** What is written next goes behind what was. *)
Lemma patch_next s l d T cs o i sz mem ret m :
  at_w s l d T cs o i sz (take (Z.to_nat ret) mem) -> 0 <= ret -> 0 <= m -> ret <= Z.of_nat (length mem) ->
  pos + ret <= 512 * (Z.of_nat (length cs) * spc d0) ->
  patch (patch (content s0 l0 d0 cs) pos (take (Z.to_nat ret) mem)) (pos + ret)
      (take (Z.to_nat m) (drop (Z.to_nat ret) mem)) =
    patch (content s0 l0 d0 cs) pos (take (Z.to_nat (ret + m)) mem).
Proof. intros H Hr Hm Hl Hfit. apply patch_patch; try done. by rewrite length_content. Qed.

Lemma xfer_sectors_w s l d T cs q i sz wanted bseg mem ret count :
  at_w s l d T cs (512 * q) i sz (take (Z.to_nat ret) mem) -> pos + ret = 512 * q -> 0 <= ret -> 1 <= wanted ->
  512 * wanted < 65536 -> 512 * (q + wanted) < 2 ^ 32 -> q < Z.of_nat (length cs) * spc d0 ->
  ret + 512 * wanted <= count -> count <= Z.of_nat (length mem) -> Forall byte (take (Z.to_nat count) mem) ->
  exists n s' l' d' T' new i',
    xfer_sectors fnode0 XFR_WRITE (file_block d0 cs q) 512 (q mod spc d0) wanted bseg mem ret s =
      Some ((Some (512 * n), mem), s') /\ 1 <= n <= wanted /\
    at_w s' l' d' T' (cs ++ new) (512 * (q + n)) i' sz (take (Z.to_nat (ret + 512 * n)) mem).
Proof.
  intros H Hq Hret Hw1 Hw H32 Hlen Hcnt Hmem Hby. pose proof (spc_pos d0 Hda) as Hspc.
  assert (Hq0 : 0 <= q) by lia. pose proof (Z.mod_pos_bound q (spc d0) ltac:(lia)) as Hmod.
  destruct (first_run d0 cs Hda q wanted Hq0 Hw1) as (Hn & Had & Hal). cbv zeta in Hn, Had, Hal.
  pose proof (aw_geo _ _ _ _ _ _ _ _ _ H) as Hg. destruct (mask_geo _ _ Hg) as [Hmk _].
  unfold xfer_sectors. rewrite run_fn, (run_fdpb_w _ _ _ _ _ _ _ _ _ _ H), Hmk. cbn [fnode_of].
  rewrite (aw_off _ _ _ _ _ _ _ _ _ H). set (n1 := Z.min (u16 _) wanted) in *.
  assert (Hl1 : q + n1 <= Z.of_nat (length cs) * spc d0).
  { assert (n1 <= spc d0 - q mod spc d0) by (unfold n1; rewrite (da_mask d0 Hda), u16_small by lia; lia).
    pose proof (Z.div_mod q (spc d0) ltac:(lia)).
    assert (q / spc d0 < Z.of_nat (length cs)) by (apply Z.div_lt_upper_bound; lia). nia. }
  match goal with |- context [kbind (fnmod fnode0 ?g) ?f s] =>
    destruct (seek_w s l d T cs _ i sz _ (512 * (q + n1)) g f H) as (s1 & Hr1 & H1) end.
  { intros m _. f_equal. rewrite (u16_small (n1 * 512)), u32_small by lia. lia. }
  rewrite Hr1. destruct (run_loop_w (S (Z.to_nat wanted)) s1 l d T cs i sz _ (file_block d0 cs q) q n1 wanted H1 eq_refl)
    as (n & s2 & l2 & d2 & T2 & new & i2 & Hr2 & Hn2 & H2 & Had2 & Hl2); try done; try lia.
  rewrite (run_eq _ _ _ _ _ Hr2), (run_fdpb_w _ _ _ _ _ _ _ _ _ _ H2).
  pose proof (w_mounted _ _ _ _ _ _ _ _ _ H2) as Hm2. pose proof (w_cache _ _ _ _ _ _ _ _ _ H2) as Hc2.
  pose proof (aw_geo _ _ _ _ _ _ _ _ _ H2) as Hg2. rewrite (mt_unit _ _ _ _ Hm2).
  assert (Ecb : file_block d0 cs q = file_block d0 (cs ++ new) q) by (by rewrite file_block_app by (done || lia)).
  rewrite Ecb. set (cb := file_block d0 (cs ++ new) q) in *.
  assert (Hblk : forall j, 0 <= j < n -> 0 <= cb + j < capacity d2).
  { intros j Hj. unfold cb. rewrite <- Had2 by lia. apply (block_ok_geo d0 d2 _ Hg2).
    apply file_block_fine; [done|by eapply w_ranged|lia]. }
  pose proof (Hblk 0 ltac:(lia)) as Hb0. pose proof (Hblk (n - 1) ltac:(lia)) as Hb1.
  assert (Hcap : capacity d2 < 2 ^ 32) by (rewrite (geo_eq _ _ Hg2); apply Hlay).
  destruct (direct_write s2 l2 u p d2 cb n bseg (drop (Z.to_nat ret) mem) Hc2 Hm2)
    as (r & s3 & s4 & Hr3 & Hr4 & Hc4 & Hset & Hf4 & _);
    [lia|lia|lia|rewrite length_drop; unfold SECSIZE; lia|eapply piece_bytes; [exact Hby|unfold SECSIZE; lia]|].
  rewrite (u32_small (cb + n - 1)) by lia. rewrite (run_eq _ _ _ _ _ Hr3).
  change (XFR_WRITE =? XFR_READ) with false. cbn iota. rewrite (run_eq _ _ _ _ _ Hr4). cbn [fst snd].
  change (negb (0 =? 0)) with false. cbn iota.
  exists n, s4, l2, d2, T2, new, i2. split; [|split; [lia|]].
  - unfold kret. rewrite (u16_small (n * 512)), (Z.mul_comm n), take_drop by lia. done.
  - eapply (w_store s2 l2 d2 T2 (cs ++ new) _ i2 sz _ s4 l2 q n); try done; try lia.
    + rewrite length_drop. unfold SECSIZE. lia.
    + rewrite <- Hq. replace (SECSIZE * Z.to_nat n)%nat with (Z.to_nat (512 * n)) by (unfold SECSIZE; lia).
      eapply patch_next; [exact H2|lia|lia|lia|]. rewrite Hq. rewrite length_app. nia.
    + rewrite length_take. lia.
Qed.

(** ** A part of a sector *)

(** A change of the cache that keeps what it shows. *)
Lemma quiet_w s l d T cs o i sz bs s' l' :
  at_w s l d T cs o i sz bs -> cache s' l' -> length l' = length l -> same_view s l s' l' -> ioframe s s' ->
  at_w s' l' d T cs o i sz bs.
Proof.
  intros H Hc Hl Hv Hf. pose proof (calm_ioframe s l s' l' Hv Hf Hl) as Hcm.
  pose proof H as [B1 B2 B3 B4 B5 B6 B7 B8 B9 B10 B11 B12 B13 B14 B15 B16 B17].
  assert (Hfs : fs s' = fs s) by apply Hf.
  pose proof (moved_roamed _ _ _ _ _ _ (calm_moved _ _ _ _ u d Hcm)) as R.
  assert (Ht : tab s' l' u p d k T).
  { eapply tab_calm; [exact B1| |exact Hcm]. destruct B1 as [[_ V Hn] _].
    split; [done|by eapply volume_ioframe|lia]. }
  rewrite <- (app_nil_r cs). eapply (w_move s l d T cs o i sz bs s' l' d T []); rewrite ?Hfs, ?app_nil_r; try done.
  by intros c ?%elem_of_nil.
Qed.

(** A sector of the drive gets new bytes through its buffer. *)
Definition written (L : list Z) (b : buffer) : buffer := flag_on (Z.lor BFR_DIRTY BFR_VALID) (set_buffer L b).

Lemma written_facts L b blk v :
  holds b blk v = true ->
  holds (written L b) blk v = true /\ dirty (written L b) = true /\ b_buffer (written L b) = L /\
  has (b_flag (written L b)) BFR_FAT = has (b_flag b) BFR_FAT.
Proof.
  intros (H1 & H2 & H3)%holds_true. split; [|split; [|split; [done|]]].
  - apply holds_true. split; [done|]. split; [|done]. unfold written, valid in *. cbn [set_buffer]. flags. done.
  - unfold written. flags. done.
  - unfold written. flags. done.
Qed.

Lemma part_store s l bp q' d blk L :
  cache s l -> bp ∈ l -> mounted s u q' d -> block_ok d blk -> ~ in_fat d blk ->
  holds (bufs s !!! bp) blk u = true -> is_sector L ->
  let s' := set_bufs (upd bp (written L) (bufs s)) s in
  cache s' l /\ blocks_set s l s' l u blk 1 L.
Proof.
  intros Hc Hp Hm Hb Hnf Hh HL s'. destruct (written_facts L _ _ _ Hh) as (F1 & F2 & F3 & F4).
  destruct (c_buf _ _ Hc _ Hp) as [_ Hok]. pose proof (proj1 (holds_true _ _ _) Hh) as (Hb1 & Hb2 & Hb3).
  destruct (Hok Hb2) as (r & e & Hme & _ & Hff & _). rewrite Hb3 in Hme.
  destruct (mounted_fun _ _ _ _ _ _ Hm Hme) as [-> ->].
  destruct (store_spec s l bp u q' d blk (written L) Hc Hp Hm Hb Hh) as [Hc' Hv]; try done.
  - rewrite F4. intros (_ & _ & _ & Hin & _)%Hff. by rewrite Hb1 in Hin.
  - by rewrite F2.
  - split; [done|]. intros u' q2 d' b Hm' Hb'. unfold s'. rewrite (Hv u' q2 d' b Hm' Hb'), F3.
    destruct (u' =? u); [|done]. cbn [andb]. destruct HL as [HL _].
    destruct (b =? blk) eqn:E; zbool.
    + subst b. rewrite (proj2 (Z.leb_le _ _)), (proj2 (Z.ltb_lt _ _)), Z.sub_diag by lia. cbn [andb].
      by rewrite Nat.mul_0_r, drop_0, take_ge by lia.
    + destruct (_ && _) eqn:E'; [zbool; lia|done].
Qed.

Lemma copy_patch sec1 boff src x :
  length sec1 = SECSIZE -> 0 <= boff -> 0 <= x -> boff + x <= 512 -> x <= Z.of_nat (length src) ->
  fmemcpy sec1 boff src x = Some (patch sec1 boff (take (Z.to_nat x) src)).
Proof.
  intros Hl Hb Hx Hs Hsrc. unfold fmemcpy. rewrite Hl. unfold SECSIZE.
  rewrite !(proj2 (Z.leb_le _ _)) by lia. cbn [andb]. unfold patch. do 4 f_equal. rewrite length_take. lia.
Qed.

Lemma bytes_patch sec1 boff bs : Forall byte sec1 -> Forall byte bs -> Forall byte (patch sec1 boff bs).
Proof.
  intros H1 H2. unfold patch. apply Forall_app. split; [by apply Forall_take|].
  apply Forall_app. split; [done|by apply Forall_drop].
Qed.

Lemma xfer_part_w s l d T cs o i sz to mem ret count :
  at_w s l d T cs o i sz (take (Z.to_nat ret) mem) -> pos + ret = o -> 0 <= ret -> 1 <= to < 65536 ->
  o < 512 * (Z.of_nat (length cs) * spc d0) -> o + to < 2 ^ 32 -> (o mod 512 = 0 -> to < 512) ->
  ret + to <= count -> count <= Z.of_nat (length mem) -> Forall byte (take (Z.to_nat count) mem) ->
  exists x s' l', xfer_part fnode0 XFR_WRITE (file_block d0 cs (o / 512)) 512 (o mod 512) to mem ret s =
      Some (Some (x, mem), s') /\ 1 <= x <= to /\
    at_w s' l' d T cs (o + x) i sz (take (Z.to_nat (ret + x)) mem).
Proof.
  intros H Ho Hret Hto Hlen H32 Hal Hcnt Hmem Hby. pose proof (spc_pos d0 Hda) as Hspc.
  pose proof (Z.mod_pos_bound o 512 ltac:(lia)) as Hmod. pose proof (Z.div_mod o 512 ltac:(lia)) as Hdm.
  assert (Hq : 0 <= o / 512 < Z.of_nat (length cs) * spc d0) by lia. set (q := o / 512) in *.
  pose proof (w_ranged _ _ _ _ _ _ _ _ _ H) as Hr. pose proof (aw_geo _ _ _ _ _ _ _ _ _ H) as Hg.
  destruct (file_block_fine d0 cs Hda q Hr Hq) as (Hb & Hnf & _).
  unfold xfer_part. rewrite (run_fdpb_w _ _ _ _ _ _ _ _ _ _ H).
  pose proof (w_mounted _ _ _ _ _ _ _ _ _ H) as Hm. pose proof (w_cache _ _ _ _ _ _ _ _ _ H) as Hc.
  rewrite (mt_unit _ _ _ _ Hm). apply (block_ok_geo d0 d _ Hg) in Hb.
  destruct (getblk_spec s l u p d _ Hc Hm Hb)
    as (bp & s1 & Hr1 & Hin & Hnn & Hc1 & Hv1 & Hf1 & Hh1 & _ & Hbuf & _).
  unfold getblock. rewrite (run_eq _ _ _ _ _ Hr1), (proj2 (Z.eqb_neq _ _) Hnn). clear Hr1.
  assert (Hin1 : bp ∈ lru bp l) by (by left).
  assert (H1 : at_w s1 (lru bp l) d T cs o i sz (take (Z.to_nat ret) mem)).
  { apply (quiet_w s l); try done. apply lru_length; [by eapply cache_nodup|done]. }
  rewrite run_fn. cbn [fnode_of]. change (XFR_WRITE =? XFR_WRITE) with true. change (XFR_WRITE =? XFR_READ) with false.
  cbn [andb]. rewrite orb_false_r. cbn iota. rewrite (u16_small (512 - o mod 512)) by lia. set (x := Z.min to (512 - o mod 512)).
  assert (Hx : 1 <= x < 512 /\ x <= to /\ o mod 512 + x <= 512) by (unfold x; destruct (decide (o mod 512 = 0)); lia).
  rewrite (proj2 (Z.eqb_neq x BUFFERSIZE)) by (change BUFFERSIZE with 512; lia).
  set (sec1 := view s l d (file_block d0 cs q)) in *. destruct (view_bytes s l d (file_block d0 cs q) Hc) as [Hsl Hsb].
  fold sec1 in Hsl, Hsb.
  set (bs := take (Z.to_nat x) (drop (Z.to_nat ret) mem)).
  assert (Hbl : length bs = Z.to_nat x) by (unfold bs; rewrite length_take, length_drop; lia).
  set (L := patch sec1 (o mod 512) bs).
  assert (HL : is_sector L).
  { split; [unfold L; rewrite length_patch; [done|lia|rewrite Hsl, Hbl; unfold SECSIZE; lia]|].
    apply bytes_patch; [done|]. eapply piece_bytes; [exact Hby|lia]. }
  assert (Hlive : is_Some (bufs s1 !! bp)) by (eapply ring_live; [apply Hc1|done]).
  rewrite run_assoc, (run_bput _ _ L) by
    (done || (rewrite Hbuf; apply copy_patch; rewrite ?length_drop; lia || done)).
  rewrite run_assoc, run_bmod by (cbn [bufs set_bufs]; by apply upd_some).
  cbn [bufs set_bufs]. rewrite set_bufs_twice, upd_upd, run_ret, run_ret. fold (written L).
  destruct (part_store s1 (lru bp l) bp p d (file_block d0 cs q) L Hc1 Hin1 (mounted_frame _ _ _ _ _ Hf1 Hm) Hb)
    as [Hc2 Hset]; try done.
  { by rewrite (geo_eq _ _ Hg). }
  set (s2 := set_bufs (upd bp (written L) (bufs s1)) s1) in *.
  assert (Ec : content s1 (lru bp l) d0 cs = patch (content s0 l0 d0 cs) pos (take (Z.to_nat ret) mem)) by apply H1.
  assert (H2 : at_w s2 (lru bp l) d T cs o i sz (take (Z.to_nat (ret + x)) mem)).
  { eapply (w_store s1 (lru bp l) d T cs o i sz _ s2 (lru bp l) q 1 L); try done; try lia.
    - intros j Hj. replace j with 0 by lia. by rewrite !Z.add_0_r.
    - destruct HL as [-> _]. lia.
    - rewrite (take_ge L) by (destruct HL as [-> _]; unfold SECSIZE; lia). rewrite <- Ec. unfold L.
      assert (Es : sec1 = take SECSIZE (drop (Z.to_nat (512 * q)) (content s l d0 cs))).
      { replace (Z.to_nat (512 * q)) with (SECSIZE * Z.to_nat q)%nat by (unfold SECSIZE; lia).
        unfold content. pose proof (sectors_range (file_sector s l d0 cs) 0 (length cs * Z.to_nat (spc d0)) (Z.to_nat q) 1)
          as E. rewrite Nat.mul_1_r in E. rewrite E; [|intros y; by apply view_bytes|].
        - rewrite sectors_S, app_nil_r, Z.add_0_l, Z2Nat.id by lia. unfold file_sector, sec1.
          by rewrite (view_geo _ _ d0 d _ Hg).
        - apply Nat2Z.inj_le. rewrite sector_count by lia. lia. }
      rewrite Es, (aw_content _ _ _ _ _ _ _ _ _ H), Ec, patch_inside, <- Hdm, <- Ho; unfold bs; try lia.
      + by eapply patch_next; [exact H|lia|lia|lia|lia].
      + fold bs. rewrite Hbl. unfold SECSIZE. lia.
      + rewrite <- (aw_content _ _ _ _ _ _ _ _ _ H), length_content by done. unfold SECSIZE. lia.
    - rewrite length_take. lia. }
  match goal with |- context [kbind (fnmod fnode0 ?g) ?f s2] =>
    destruct (seek_w s2 _ d T cs o i sz _ (o + x) g f H2) as (s3 & Hr3 & H3) end.
  { intros m ->. f_equal. by rewrite u32_small by lia. }
  rewrite Hr3. exists x, s3, (lru bp l). split; [done|]. by split; [lia|].
Qed.

(** ** The size *)

(** The bytes that the file's clusters and all free ones hold. *)
Definition room : Z := 512 * ((Z.of_nat (length cs0) + nfree (max_cluster d0) T0) * spc d0).

Lemma w_room s l d T cs o i sz bs : at_w s l d T cs o i sz bs -> 512 * (Z.of_nat (length cs) * spc d0) <= room.
Proof.
  intros H. pose proof (spc_pos d0 Hda). pose proof (grown_most _ _ _ _ _ (aw_grown _ _ _ _ _ _ _ _ _ H) (w_nodup _ _ _ _ _ _ _ _ _ H)).
  unfold room. nia.
Qed.

Lemma full_room (cs : list Z) o j : 0 <= o -> full cs o j -> 512 * (Z.of_nat (length cs) * spc d0) = room /\ room <= o.
Proof.
  intros Ho (H1 & H2 & _). pose proof (spc_pos d0 Hda) as Hs. unfold room. rewrite H1. split; [done|].
  unfold rel in H2. assert (0 <= o / 512 / spc d0) by (repeat apply Z.div_pos; lia).
  assert (Z.of_nat (length cs) <= o / 512 / spc d0) by lia.
  pose proof (Z.div_mod (o / 512) (spc d0) ltac:(lia)). pose proof (Z.mod_pos_bound (o / 512) (spc d0) ltac:(lia)).
  pose proof (Z.div_mod o 512 ltac:(lia)). pose proof (Z.mod_pos_bound o 512 ltac:(lia)). nia.
Qed.

Lemma rel_inside (cs : list Z) o : 0 <= o -> (rel d0 o < length cs)%nat -> o < 512 * (Z.of_nat (length cs) * spc d0).
Proof.
  intros Ho H. pose proof (spc_pos d0 Hda) as Hs. unfold rel in H.
  assert (0 <= o / 512 / spc d0) by (repeat apply Z.div_pos; lia).
  assert (Hl : o / 512 / spc d0 < Z.of_nat (length cs)) by lia.
  pose proof (Z.div_mod (o / 512) (spc d0) ltac:(lia)). pose proof (Z.mod_pos_bound (o / 512) (spc d0) ltac:(lia)).
  pose proof (Z.div_mod o 512 ltac:(lia)). pose proof (Z.mod_pos_bound o 512 ltac:(lia)). nia.
Qed.

(** Without SHARE there is nobody to tell. *)
Lemma run_merge {A} s how (f : Z -> K kst A) :
  share_installed (fs s) = false -> kbind (merge_changes fnode0 how) f s = f SUCCESS s.
Proof.
  intros H. apply run_eq. unfold merge_changes, merge_with, IsShareInstalled. cbn. by rewrite H.
Qed.

(** A store to the size. *)
Lemma size_w s l d T cs o i sz bs sz' :
  at_w s l d T cs o i sz bs -> sz' <= 512 * (Z.of_nat (length cs) * spc d0) ->
  exists s', dirmod fnode0 (set_dir_size sz') s = Some (tt, s') /\ at_w s' l d T cs o i sz' bs.
Proof.
  intros H Hfit. eexists. split; [reflexivity|]. pose proof (aw_off _ _ _ _ _ _ _ _ _ H) as Ho.
  by apply (w_fnmod s l d T cs o i sz bs _ o sz' H).
Qed.

Lemma grow_size_w s l d T cs o i sz bs :
  at_w s l d T cs o i sz bs -> o <= 512 * (Z.of_nat (length cs) * spc d0) ->
  exists s', grow_size fnode0 s = Some (tt, s') /\ at_w s' l d T cs o i (Z.max sz o) bs.
Proof.
  intros H Hfit. pose proof (aw_off _ _ _ _ _ _ _ _ _ H) as Ho. pose proof (aw_size _ _ _ _ _ _ _ _ _ H) as Hsz.
  unfold grow_size. rewrite run_fn. cbn [fnode_of]. rewrite Ho, Hsz. destruct (sz <? o) eqn:E; zbool.
  - destruct (size_w s l d T cs o i sz bs o H Hfit) as (s' & Hr & H').
    rewrite (run_eq _ _ _ _ _ Hr), run_merge by apply H'. rewrite Z.max_r by lia. by exists s'.
  - rewrite run_ret, run_merge by apply H. rewrite Z.max_l by lia. by exists s.
Qed.

(** The position may be behind the end of the file. *)
Lemma dos_extend_w s l d T cs i sz :
  at_w s l d T cs pos i sz [] -> pos < 2 ^ 32 -> 0 <= sz ->
  exists rc s' l' d' T' new i' sz', dos_extend fnode0 false s = Some (rc, s') /\
    at_w s' l' d' T' (cs ++ new) pos i' sz' [] /\
    if rc =? SUCCESS then sz' = Z.max sz pos else sz' = room /\ room <= pos.
Proof.
  intros H H32 Hsz0. pose proof (aw_off _ _ _ _ _ _ _ _ _ H) as Ho. pose proof (aw_size _ _ _ _ _ _ _ _ _ H) as Hsz.
  unfold dos_extend. rewrite run_fn. cbn [fnode_of]. rewrite Ho, Hsz. destruct (pos <=? sz) eqn:E; zbool.
  { exists SUCCESS, s, l, d, T, [], i, sz. rewrite app_nil_r. split; [done|]. split; [done|].
    change (SUCCESS =? SUCCESS) with true. cbn iota. lia. }
  rewrite (run_fdpb_w _ _ _ _ _ _ _ _ _ _ H). cbn [andb]. rewrite run_ret.
  destruct (map_w s l d T cs pos i sz [] H) as (rc & s1 & l1 & d1 & T1 & new & j & Hr1 & H1 & Hout); [lia|].
  rewrite (run_eq _ _ _ _ _ Hr1), run_ret. destruct (rc =? SUCCESS) eqn:Erc; cbn [negb].
  - destruct Hout as [-> Hj]. rewrite run_fn. cbn [fnode_of]. rewrite (aw_off _ _ _ _ _ _ _ _ _ H1).
    destruct (size_w s1 l1 d1 T1 _ pos _ sz [] pos H1) as (s2 & Hr2 & H2); [by apply Z.lt_le_incl, rel_inside|].
    rewrite (run_eq _ _ _ _ _ Hr2), run_merge by apply H2.
    exists SUCCESS, s2, l1, d1, T1, new, (rel d0 pos), pos. split; [done|]. split; [done|].
    change (SUCCESS =? SUCCESS) with true. cbn iota. lia.
  - destruct (full_room _ _ _ Hpos Hout) as [Hroom Hle]. destruct Hout as (_ & _ & Hj).
    pose proof (aw_pos _ _ _ _ _ _ _ _ _ H1) as Hp1. pose proof (aw_geo _ _ _ _ _ _ _ _ _ H1) as Hg1.
    pose proof (aw_fits _ _ _ _ _ _ _ _ _ H1) as Hf1. rewrite run_fn. cbn [fnode_of].
    exists DE_HNDLDSKFULL. destruct (decide (cs ++ new = [])) as [En|En].
    + destruct Hp1 as [-> _]. change (negb (FREE =? FREE)) with false. cbn iota. rewrite run_ret.
      rewrite En in *. cbn [length] in *. exists s1, l1, d1, T1, new, j, sz. split; [done|]. rewrite En. split; [done|].
      change (DE_HNDLDSKFULL =? SUCCESS) with false. cbn iota. lia.
    + destruct Hp1 as [Hc Hco]. pose proof (w_ranged _ _ _ _ _ _ _ _ _ H1 _ ltac:(by eapply list_elem_of_lookup_2)) as Hcr.
      rewrite (proj2 (Z.eqb_neq (f_cluster _) FREE)) by (unfold FREE; lia). cbn [negb].
      rewrite run_assoc, (run_fdpb_w _ _ _ _ _ _ _ _ _ _ H1), run_assoc.
      destruct Hj as [Hj|Hj]; [done|]. pose proof (spc_pos d0 Hda) as Hs.
      assert (Esz : size_so_far (fn0 (fs s1)) d1 = room).
      { unfold size_so_far. rewrite Hco, (mt_sec _ _ _ _ (w_mounted _ _ _ _ _ _ _ _ _ H1)).
        destruct (mask_geo _ _ Hg1) as [_ ->]. rewrite <- Hroom, Hj in *.
        rewrite (u32_small (Z.of_nat j + 1)), (u32_small (_ * 512)) by nia.
        rewrite Z.shiftl_mul_pow2 by apply Hda. fold (spc d0). rewrite u32_small by nia. nia. }
      rewrite Esz. destruct (size_w s1 l1 d1 T1 _ pos _ sz [] room H1) as (s2 & Hr2 & H2); [lia|].
      rewrite (run_eq _ _ _ _ _ Hr2), run_assoc, run_merge, run_ret by apply H2.
      exists s2, l1, d1, T1, new, j, room. split; [done|]. split; [done|].
      by change (DE_HNDLDSKFULL =? SUCCESS) with false.
Qed.

(** ** A round of the loop, and the loop *)

Section Loop.
Context (mem : list Z) (count : Z).
Hypothesis Hcount : count < 65536.
Hypothesis Hmem : count <= Z.of_nat (length mem).
Hypothesis Hby : Forall byte (take (Z.to_nat count) mem).
Hypothesis Hend : pos + count < 2 ^ 32.

(** [n] bytes are written; the size is behind them. *)
Definition upto (s : kst) (l : list Z) (d : dpb) (T : Z -> Z) (cs : list Z) (i : nat) (sz n : Z) : Prop :=
  at_w s l d T cs (pos + n) i sz (take (Z.to_nat n) mem).

Lemma rw_round_w s l d T cs i sz bseg ret :
  upto s l d T cs i sz ret -> 0 <= ret < count ->
  (exists s' l' d' T' new i', rw_round fnode0 XFR_WRITE 512 bseg ret (count - ret) mem s =
      (do! fnode_to_sft fnode0 in kret (Leave ret mem)) s' /\
    upto s' l' d' T' (cs ++ new) i' sz ret /\ room <= pos + ret) \/
  (exists x s' l' d' T' new i', rw_round fnode0 XFR_WRITE 512 bseg ret (count - ret) mem s = Some (Rw.Moved x mem, s') /\
    1 <= x <= count - ret /\ upto s' l' d' T' (cs ++ new) i' sz (ret + x)).
Proof.
  intros H Hret. pose proof (spc_pos d0 Hda) as Hspc. set (o := pos + ret) in *. set (to := count - ret).
  unfold rw_round. rewrite run_fn. change (XFR_WRITE =? XFR_READ) with false. cbn [andb].
  destruct (map_w s l d T cs o i sz _ H) as (rc & s1 & l1 & d1 & T1 & new & j & Hr1 & H1 & Hout); [lia|].
  rewrite (run_eq _ _ _ _ _ Hr1). clear Hr1. destruct (rc =? SUCCESS) eqn:Erc; cbn [negb].
  2:{ left. exists s1, l1, d1, T1, new, j. split; [done|]. split; [done|]. eapply full_room; [lia|exact Hout]. }
  right. destruct Hout as [-> Hj]. pose proof (rel_inside _ o ltac:(lia) Hj) as Hin.
  change (XFR_WRITE =? XFR_WRITE) with true. cbn iota. rewrite run_merge by apply H1.
  change (512 =? 0) with false. cbn iota. rewrite run_fn, (run_fdpb_w _ _ _ _ _ _ _ _ _ _ H1). cbn [fnode_of].
  rewrite (aw_off _ _ _ _ _ _ _ _ _ H1). pose proof (aw_geo _ _ _ _ _ _ _ _ _ H1) as Hg1.
  destruct (mask_geo _ _ Hg1) as [-> _]. rewrite (phys_geo _ _ _ Hg1).
  assert (Es : Z.land (u8 (o / 512)) (dpb_clsmask d0) = (o / 512) mod spc d0).
  { rewrite (da_mask d0 Hda). unfold spc. by rewrite sector_mod by apply Hda. }
  rewrite Es. pose proof (Z.mod_pos_bound o 512 ltac:(lia)) as Hmod. pose proof (Z.div_mod o 512 ltac:(lia)) as Hdm.
  rewrite (u16_small (o mod 512)) by lia.
  assert (Hne : cs ++ new <> []) by (intros E0; rewrite E0 in Hj; simpl in Hj; lia).
  pose proof (aw_pos _ _ _ _ _ _ _ _ _ H1) as Hp1. rewrite decide_False in Hp1 by done. destruct Hp1 as [Hc1 _].
  assert (Hq : 0 <= o / 512 < Z.of_nat (length (cs ++ new)) * spc d0) by lia.
  assert (Eb : u32 (clus2phys (f_cluster (fn0 (fs s1))) d0 + (o / 512) mod spc d0) = file_block d0 (cs ++ new) (o / 512)).
  { destruct (file_block_fine d0 (cs ++ new) Hda (o / 512)) as ([Hb _] & _); [by eapply w_ranged|done|].
    destruct Hlay as (_ & _ & Hcap). unfold file_block, rel in *. rewrite (list_lookup_total_correct _ _ _ Hc1) in *.
    by rewrite u32_small by lia. }
  rewrite Eb. set (wanted := to / 512). assert (Hwt : 512 * wanted <= to) by (unfold wanted; divmod).
  destruct ((o mod 512 =? 0) && negb (wanted =? 0)) eqn:E.
  - apply andb_true_iff in E as [E1%Z.eqb_eq E2%negb_true_iff%Z.eqb_neq].
    assert (Eo : 512 * (o / 512) = o) by lia.
    assert (Hw : 1 <= wanted) by (assert (0 <= wanted) by (apply Z.div_pos; lia); lia).
    rewrite <- Eo in H1. rewrite Eo in H1 at 2.
    destruct (xfer_sectors_w s1 l1 d1 T1 (cs ++ new) (o / 512) (rel d0 o) sz wanted bseg mem ret count H1)
      as (n & s2 & l2 & d2 & T2 & new2 & i2 & Hr2 & Hn & H2); try done; try lia.
    rewrite (run_eq _ _ _ _ _ Hr2). exists (512 * n), s2, l2, d2, T2, (new ++ new2), i2.
    split; [done|]. split; [lia|]. unfold upto. rewrite app_assoc.
    replace (pos + (ret + 512 * n)) with (512 * (o / 512 + n)) by lia. exact H2.
  - destruct (xfer_part_w s1 l1 d1 T1 (cs ++ new) o (rel d0 o) sz to mem ret count H1)
      as (x & s2 & l2 & Hr2 & Hx & H2); try done; try lia.
    { intros E1. rewrite E1 in E. destruct (wanted =? 0) eqn:Ew; [|done]. zbool. unfold wanted in Ew. divmod. }
    rewrite (run_eq _ _ _ _ _ Hr2). exists x, s2, l2, d1, T1, new, (rel d0 o).
    split; [done|]. split; [lia|]. unfold upto. by replace (pos + (ret + x)) with (o + x) by lia.
Qed.

Lemma rw_loop_w fuel s l d T cs i sz buffer ret :
  upto s l d T cs i sz ret -> 0 <= ret <= count -> pos + ret <= sz -> (Z.to_nat (count - ret) < fuel)%nat ->
  exists n s' l' d' T' new i',
    rw_loop fuel fnode0 XFR_WRITE 512 buffer ret (count - ret) count mem s =
      (do! fnode_to_sft fnode0 in kret (n, mem)) s' /\
    upto s' l' d' T' (cs ++ new) i' (Z.max sz (pos + n)) n /\ ret <= n <= count /\
    (n = count \/ room <= pos + n).
Proof.
  revert s l d T cs i sz buffer ret. induction fuel as [|fuel IH];
    intros s l d T cs i sz buffer ret H Hret Hsz Hf; [lia|]. cbn [rw_loop].
  destruct (ret <? count) eqn:E; cbn [negb]; zbool.
  2:{ exists ret, s, l, d, T, [], i. rewrite app_nil_r, Z.max_l by lia. split; [done|]. split; [done|]. lia. }
  destruct (rw_round_w s l d T cs i sz (fst buffer) ret H) as
    [(s1 & l1 & d1 & T1 & new & j & Hr1 & H1 & Hroom)|(x & s1 & l1 & d1 & T1 & new & j & Hr1 & Hx & H1)]; [lia|..].
  - exists ret, s1, l1, d1, T1, new, j. rewrite Z.max_l by lia. split; [|split; [done|lia]].
    unfold kbind at 1. rewrite Hr1. unfold kbind. by destruct (fnode_to_sft fnode0 s1) as [[? ?]|].
  - rewrite (run_eq _ _ _ _ _ Hr1). change (XFR_WRITE =? XFR_WRITE) with true. cbn iota.
    destruct (aw_done _ _ _ _ _ _ _ _ _ H1) as [E1|Hd].
    { apply (f_equal length) in E1. rewrite length_take in E1. simpl in E1. lia. }
    rewrite length_take in Hd.
    destruct (grow_size_w s1 l1 d1 T1 _ _ j sz _ H1) as (s2 & Hr2 & H2); [lia|].
    rewrite (run_eq _ _ _ _ _ Hr2). rewrite (u16_small (ret + x)), (u16_small (count - ret - x)) by lia.
    replace (count - ret - x) with (count - (ret + x)) by lia.
    destruct (IH s2 l1 d1 T1 (cs ++ new) j (Z.max sz (pos + (ret + x)))
                (Mm.adjust_far (fst buffer, u16 (snd buffer + x))) (ret + x) H2)
      as (n & s' & l' & d' & T' & new' & i' & Hr & H' & Hn & Hout); try lia.
    exists n, s', l', d', T', (new ++ new'), i'. split; [exact Hr|]. rewrite app_assoc.
    split; [|split; [lia|done]]. by replace (Z.max sz (pos + n)) with (Z.max (Z.max sz (pos + (ret + x))) (pos + n)) by lia.
Qed.
End Loop.
End Writing.
End Spec.
End WriteSpec.
