(* ===== verification/FcbSpec.v ===== *)
(** * A file control block in memory

    What the members of a block are after each of them is stored, and what
    reading a record of an open file does.
    The second module, FcbName, is about the names that are parsed. *)

From S2P Require Import Prelude Memmgr KState BlockIO FatTab FNode FatAlloc Clock Media FatDir FatFile FatRw.
From S2P Require Import Disk Ring CacheSpec CacheOps FatPure FatSpec FatWrite Table FatChain AllocSpec MapSpec SftSpec DirectIO RwSpec RwProps.
From S2P Require Import Frame Path Handle Calls Chario Fcb.
Import Mm Ks Bio Fat FNode Alloc Clk Media Dir File Rw Dsk Ring Cache CacheOps FatPure FatSpec FatWrite Table Chain.
Import AllocSpec MapSpec SftSpec Direct RwSpec RwProps Frame Path Handle Calls Chario Fcb.

Module FcbSpec.

(** ** Stores into memory *)

(** Only the [n] bytes from [i] on changed. *)
Definition only (i n : Z) (l l' : list Z) : Prop :=
  length l' = length l /\ forall j, j < i \/ i + n <= j -> fgetbyte l' j = fgetbyte l j.

Lemma mem_only_refl i n l : only i n l l.
Proof. done. Qed.
Lemma mem_only_trans i n l l1 l2 : only i n l l1 -> only i n l1 l2 -> only i n l l2.
Proof. intros [H1 H2] [H3 H4]. split; [congruence|]. intros j Hj. by rewrite H4, H2. Qed.
Lemma only_widen i n i' n' l l' : only i n l l' -> i' <= i -> i + n <= i' + n' -> only i' n' l l'.
Proof. intros [H1 H2] Hi Hn. split; [done|]. intros j Hj. apply H2. lia. Qed.

Lemma byte_only i n l l' j : only i n l l' -> j < i \/ i + n <= j -> fgetbyte l' j = fgetbyte l j.
Proof. intros [_ H]. apply H. Qed.
Lemma word_only i n l l' j : only i n l l' -> j + 2 <= i \/ i + n <= j -> fgetword l' j = fgetword l j.
Proof. intros [_ H] Hj. unfold fgetword. by rewrite !H by lia. Qed.
Lemma long_only i n l l' j : only i n l l' -> j + 4 <= i \/ i + n <= j -> fgetlong l' j = fgetlong l j.
Proof. intros H Hj. unfold fgetlong. by rewrite !(word_only i n l l') by (done || lia). Qed.

Lemma put_byte i v l :
  0 <= i < Z.of_nat (length l) -> exists l', fputbyte i v l = Some l' /\ only i 1 l l' /\ fgetbyte l' i = Some (u8 v).
Proof.
  intros Hi. unfold fputbyte. rewrite (proj2 (Z.leb_le 0 i)), (proj2 (Z.ltb_lt i _)) by lia. cbn [andb].
  eexists. split; [reflexivity|]. unfold only, fgetbyte. split; [split|].
  - by rewrite length_insert.
  - intros j Hj. destruct (j <? 0) eqn:E; [done|]. zbool. by rewrite list_lookup_insert_ne by lia.
  - rewrite (proj2 (Z.ltb_ge i 0)), list_lookup_insert_eq by lia. done.
Qed.

Lemma put_word i v l :
  0 <= i -> i + 2 <= Z.of_nat (length l) -> exists l', fputword i v l = Some l' /\ only i 2 l l' /\ fgetword l' i = Some (u16 v).
Proof.
  intros Hi Hl. unfold fputword. destruct (put_byte i v l ltac:(lia)) as (l1 & -> & O1 & G1).
  destruct (put_byte (i + 1) (Z.shiftr v 8) l1) as (l2 & -> & O2 & G2); [destruct O1 as [-> _]; lia|].
  exists l2. split; [done|]. split; [eapply mem_only_trans; eapply only_widen; [exact O1|lia|lia|exact O2|lia|lia]|].
  unfold fgetword. rewrite G2. destruct O2 as [_ O2]. rewrite O2, G1 by lia. f_equal.
  rewrite lor_shift by (unfold u8; divmod || (unfold u8; apply Z.mod_pos_bound; lia)).
  rewrite Z.shiftr_div_pow2 by lia. unfold u8, u16. divmod.
Qed.

Lemma put_long i v l :
  0 <= i -> i + 4 <= Z.of_nat (length l) -> exists l', fputlong i v l = Some l' /\ only i 4 l l' /\ fgetlong l' i = Some (u32 v).
Proof.
  intros Hi Hl. unfold fputlong. destruct (put_word i v l) as (l1 & -> & O1 & G1); [lia..|].
  destruct (put_word (i + 2) (Z.shiftr v 16) l1) as (l2 & -> & O2 & G2); [lia|destruct O1 as [-> _]; lia|].
  exists l2. split; [done|]. split; [eapply mem_only_trans; eapply only_widen; [exact O1|lia|lia|exact O2|lia|lia]|].
  unfold fgetlong. rewrite G2, (word_only _ _ _ _ _ O2), G1 by lia. f_equal.
  rewrite lor_shift by (unfold u16; divmod || (unfold u16; apply Z.mod_pos_bound; lia)).
  rewrite Z.shiftr_div_pow2 by lia. unfold u16, u32. divmod.
Qed.

(** ** The members *)

(** A block at [b], which is behind a header if the memory begins with FFh. *)
Record block_at (m : list Z) (b : Z) : Prop := BlockAt {
  ba_base : exists f, fgetbyte m 0 = Some f /\ b = if f =? 0xff then 7 else 0;
  ba_room : b + SIZEOF_FCB <= Z.of_nat (length m);
  ba_bytes : Forall byte m }.

(** The number of the record, made of a block and a record of it. *)
Definition rec_of (blk c : Z) : Z := blk * 128 + c.
Record at_record (m : list Z) (b blk c : Z) : Prop := AtRecord {
  ar_block : fgetword m (b + fcb_cublock) = Some blk;
  ar_rec : fgetbyte m (b + fcb_curec) = Some c;
  ar_blk : 0 <= blk < 65536;
  ar_128 : 0 <= c < 128 }.

Lemma base_range m b : block_at m b -> 0 <= b <= 7 /\ b + 37 <= Z.of_nat (length m).
Proof. intros [(f & _ & ->) H _]. unfold SIZEOF_FCB in H. destruct (f =? 0xff); lia. Qed.

(** Where the block is does not change when members behind its first byte do. *)
Lemma block_only m m' b i n : block_at m b -> only i n m m' -> 1 <= i -> Forall byte m' -> block_at m' b.
Proof.
  intros [(f & Hf & Hb) Hr _] [Hl Ho] Hi Hm. split; [exists f; by rewrite Ho by lia|by rewrite Hl|done].
Qed.

Lemma bytes_put_byte i v l l' : fputbyte i v l = Some l' -> Forall byte l -> Forall byte l'.
Proof. unfold fputbyte. destruct (_ && _); [|done]. intros [= <-] H. apply Forall_insert; [done|]. apply u8_range. Qed.
Lemma bytes_put_word i v l l' : fputword i v l = Some l' -> Forall byte l -> Forall byte l'.
Proof.
  unfold fputword. destruct (fputbyte i v l) as [l1|] eqn:E; [|done]. intros E2 H. eapply bytes_put_byte; [exact E2|]. by eapply bytes_put_byte.
Qed.
Lemma bytes_put_long i v l l' : fputlong i v l = Some l' -> Forall byte l -> Forall byte l'.
Proof.
  unfold fputlong. destruct (fputword i v l) as [l1|] eqn:E; [|done]. intros E2 H. eapply bytes_put_word; [exact E2|]. by eapply bytes_put_word.
Qed.

Section Spec.
Context {M : Machine} {Sh : Shell} {R : Redirector} {Cn : Console}.

(** ** Runs *)

Lemma run_get_mem {B} g i v (f : Z -> FC B) s : g (um s) i = Some v -> cbind (mem_get g i) f s = f v s.
Proof. intros E. unfold mem_get, cbind, fget, fopt. by rewrite E. Qed.
Lemma run_put_mem {B} p l (f : unit -> FC B) s : p (um s) = Some l -> cbind (mem_put p) f s = f tt (set_um l s).
Proof. intros E. unfold mem_put, cbind, fget, fopt, fmod. by rewrite E. Qed.
Lemma run_fget {B} (f : fcbst -> FC B) s : cbind fget f s = f s s.
Proof. done. Qed.
Lemma run_fmod {B} g (f : unit -> FC B) s : cbind (fmod g) f s = f tt (g s).
Proof. done. Qed.
Lemma run_fopt {A B} (a : A) (f : A -> FC B) s : cbind (fopt (Some a)) f s = f a s.
Proof. done. Qed.

Definition kern_of (s : fcbst) : kst := kern (pth (hn (fc s))).
Definition with_kern (k : kst) (s : fcbst) : fcbst :=
  let h := hn (fc s) in
  Fst M (Cst M (set_pth (set_kern k (pth h)) h) (cn (fc s))) (um s) (udta s) (udta_at s) (wAttr s) (Dmatch_ s).
Lemma run_on_ks {A B} (m : K kst A) a k (f : A -> FC B) s :
  m (kern_of s) = Some (a, k) -> cbind (on_ks m) f s = f a (with_kern k s).
Proof. intros E. unfold cbind, on_ks, on_h, on_c, on_hst, on_kern, on_pth, lift. unfold kern_of in E. by rewrite E. Qed.

Lemma run_base {B} b (f : Z -> FC B) s : block_at (um s) b -> cbind ExtFcbToFcb f s = f b s.
Proof.
  intros [(c & Hc & ->) _ _]. unfold ExtFcbToFcb, extended. rewrite !crun_assoc, (run_get_mem _ _ _ _ _ Hc), crun_ret. by destruct (c =? 0xff).
Qed.

Lemma run_rec {B} b blk c (f : Z -> FC B) s : at_record (um s) b blk c -> cbind (FcbRec b) f s = f (rec_of blk c) s.
Proof.
  intros [Hb Hc _ _]. unfold FcbRec. by rewrite !crun_assoc, (run_get_mem _ _ _ _ _ Hb), crun_assoc, (run_get_mem _ _ _ _ _ Hc).
Qed.

(** ** Record numbers *)

(** The block after the next record was counted: what is not in its two
    members is as before. *)
Definition only_record (b : Z) (m m' : list Z) : Prop :=
  length m' = length m /\
  forall j, (j < b + fcb_cublock \/ b + fcb_cublock + 2 <= j) -> j <> b + fcb_curec -> fgetbyte m' j = fgetbyte m j.

Lemma NextRecord_runs b blk c s :
  block_at (um s) b -> at_record (um s) b blk c ->
  exists m' blk' c', FcbNextRecord b s = Some (Ret tt, set_um m' s) /\ block_at m' b /\ at_record m' b blk' c' /\
    only_record b (um s) m' /\ rec_of blk' c' = (rec_of blk c + 1) mod (65536 * 128).
Proof.
  intros Hb [Hk Hc Hkr Hcr]. destruct (base_range _ _ Hb) as [Hb7 Hlen]. unfold FcbNextRecord, fcb_curec, fcb_cublock, rec_of in *.
  rewrite (run_get_mem _ _ _ _ _ Hc), (u8_small (c + 1)) by lia. destruct (128 <=? c + 1) eqn:E; zbool.
  - destruct (put_byte (b + 32) 0 (um s)) as (l1 & E1 & O1 & G1); [lia|]. rewrite (run_put_mem _ _ _ _ E1).
    pose proof (bytes_put_byte _ _ _ _ E1 (ba_bytes _ _ Hb)) as Hl1.
    rewrite (run_get_mem _ _ blk) by (cbn; rewrite (word_only _ _ _ _ _ O1) by lia; exact Hk).
    destruct (put_word (b + 12) (u16 (blk + 1)) l1) as (l2 & E2 & O2 & G2); [lia|destruct O1 as [-> _]; lia|].
    exists l2, (u16 (blk + 1)), 0. unfold mem_put. rewrite run_fget. cbn [um set_um]. rewrite E2, run_fopt.
    split; [done|]. split; [|split; [|split]].
    + eapply block_only; [eapply block_only; [exact Hb|exact O1|lia|done]|exact O2|lia|by eapply bytes_put_word].
    + split; unfold fcb_cublock, fcb_curec; [by rewrite G2, (u16_small (u16 _)) by apply u16_range| |apply u16_range|lia].
      destruct O2 as [_ ->]; [exact G1|lia].
    + destruct O1 as [L1 O1], O2 as [L2 O2]. split; [congruence|]. unfold fcb_cublock, fcb_curec. intros j Hj Hj'. rewrite O2, O1 by lia. done.
    + unfold u16. divmod.
  - destruct (put_byte (b + 32) (c + 1) (um s)) as (l1 & E1 & O1 & G1); [lia|].
    exists l1, blk, (c + 1). unfold mem_put. rewrite run_fget, E1, run_fopt. split; [done|]. split; [|split; [|split]].
    + eapply block_only; [exact Hb|exact O1|lia|by eapply bytes_put_byte, Hb].
    + split; unfold fcb_cublock, fcb_curec; [by rewrite (word_only _ _ _ _ _ O1) by lia|by rewrite G1, u8_small by lia|done|lia].
    + destruct O1 as [L1 O1]. split; [done|]. unfold fcb_cublock, fcb_curec. intros j Hj Hj'. apply O1. lia.
    + divmod.
Qed.

(** The random record number is stored. *)
Lemma SetRandom_runs b blk c s :
  block_at (um s) b -> at_record (um s) b blk c ->
  exists m', FcbSetRandom s = Some (Ret tt, set_um m' s) /\ block_at m' b /\ only (b + fcb_rndm) 4 (um s) m' /\
    fgetlong m' (b + fcb_rndm) = Some (rec_of blk c).
Proof.
  intros Hb Ha. destruct (base_range _ _ Hb) as [Hb7 Hlen]. unfold FcbSetRandom. rewrite (run_base b) by done. rewrite (run_rec b blk c) by done.
  destruct (put_long (b + fcb_rndm) (rec_of blk c) (um s)) as (l & E & O & G); [unfold fcb_rndm; lia..|].
  exists l. unfold mem_put. rewrite run_fget, E, run_fopt. split; [done|]. split; [|split; [done|]].
  - eapply block_only; [done|exact O|unfold fcb_rndm; lia|by eapply bytes_put_long, Hb].
  - rewrite G, u32_small; [done|]. destruct Ha. unfold rec_of. lia.
Qed.

(** Its block and record are stored. *)
Lemma CalcRec_runs b r s :
  block_at (um s) b -> fgetlong (um s) (b + fcb_rndm) = Some r -> 0 <= r < 2 ^ 32 ->
  exists m', FcbCalcRec s = Some (Ret tt, set_um m' s) /\ block_at m' b /\ only_record b (um s) m' /\
    at_record m' b ((r / 128) mod 65536) (r mod 128).
Proof.
  intros Hb Hr Hrr. destruct (base_range _ _ Hb) as [Hb7 Hlen]. unfold FcbCalcRec. rewrite (run_base b) by done.
  rewrite (run_get_mem _ _ _ _ _ Hr). unfold fcb_cublock, fcb_curec.
  destruct (put_word (b + 12) (u16 (r / 128)) (um s)) as (l1 & E1 & O1 & G1); [lia..|]. rewrite (run_put_mem _ _ _ _ E1).
  destruct (put_byte (b + 32) (Z.land (u8 r) 127) l1) as (l2 & E2 & O2 & G2); [destruct O1 as [-> _]; lia|].
  exists l2. unfold mem_put. rewrite run_fget. cbn [um set_um]. rewrite E2, run_fopt.
  pose proof (bytes_put_word _ _ _ _ E1 (ba_bytes _ _ Hb)) as Hl1.
  split; [done|]. split; [|split].
  - eapply block_only; [eapply block_only; [exact Hb|exact O1|lia|done]|exact O2|lia|by eapply bytes_put_byte].
  - destruct O1 as [L1 O1], O2 as [L2 O2]. split; [congruence|]. unfold fcb_cublock, fcb_curec. intros j Hj Hj'. rewrite O2, O1 by lia. done.
  - split; unfold fcb_cublock, fcb_curec.
    + rewrite (word_only _ _ _ _ _ O2), G1, (u16_small (u16 _)) by (lia || apply u16_range). done.
    + rewrite G2. f_equal. change 127 with (2 ^ 7 - 1). rewrite land_mask by lia. unfold u8. divmod.
    + apply Z.mod_pos_bound. lia.
    + apply Z.mod_pos_bound. lia.
Qed.
(** ** Reading a record *)

Context {D : Disk}.

Lemma crit_spec s l u p d k T v :
  tab s l u p d k T ->
  exists s', set_CritErrCode v s = Some (tt, s') /\ tab s' l u p d k T /\ roamed s l s' l u d /\ fs s' = fs s.
Proof.
  intros [[Hc V Hl] Ha]. eexists. split; [reflexivity|]. split; [|split; [by split|done]].
  split; [|done]. split; [|by apply (volume_same s)|done]. by apply (cache_evolves s).
Qed.

(** The kernel may keep what it likes of its other variables. *)
Lemma opened_moves s l u p d k T fd x cs s' l' :
  opened s l u p d k T fd x cs -> tab s' l' u p d k T -> fs s' = fs s -> opened s' l' u p d k T fd x cs.
Proof. intros [H1 H2 H3 H4 H5 H6 H7 H8] Ht Hf. split; [done|by rewrite Hf|done..]. Qed.

(** A file that can be read by its entry. *)
Record readable (x : sft) (share : bool) : Prop := Readable {
  re_mode : has (sft_mode x) O_WRONLY = false;
  re_shared : has (sft_flags x) SFT_FSHARED = false;
  re_device : has (sft_flags x) SFT_FDEVICE = false;
  re_share : share = false \/ sft_shroff x < 0 }.

Lemma seek_runs s l u p d k T fd x cs pos :
  opened s l u p d k T fd x cs -> has (sft_flags x) SFT_FDEVICE = false -> 0 <= fd -> 0 <= pos < 2 ^ 32 ->
  exists s', SftSeek fd pos 0 s = Some (SUCCESS, s') /\ opened s' l u p d k T fd (set_sft_posit pos x) cs /\
    roamed s l s' l u d /\ share_installed (fs s') = share_installed (fs s) /\
    forall fd', 0 <= fd' -> fd' <> fd -> idx_to_sft (sfthead (fs s')) fd' = idx_to_sft (sfthead (fs s)) fd'.
Proof.
  intros Hop Hdev Hfd Hpos. pose proof Hop as [Ht Hx Hdcb _ Hsz Hch Hfit Hat].
  unfold SftSeek, SftSeek2. rewrite run_assoc, run_get, Hx. change (SEEK_END <? 0) with false. cbn iota.
  rewrite Hdev. change (0 =? SEEK_CUR) with false. change (0 =? SEEK_END) with false. cbn iota.
  rewrite run_assoc, run_ret, run_assoc. rewrite (u32_small pos) by (change 4294967296 with (2 ^ 32); lia).
  unfold sftmod. rewrite run_mod, run_ret. set (v := set_sfthead _ (fs s)).
  destruct (fs_spec s l u p d k T v Ht) as [Ht' R'].
  exists (set_fs v s). split; [done|]. split; [|split; [exact R'|split; [done|]]].
  - split; try done. cbn [fs set_fs]. unfold v. cbn [sfthead set_sfthead]. by apply idx_upd_found.
  - intros fd' H0 Hne. cbn [fs set_fs]. unfold v, idx_to_sft. cbn [sfthead set_sfthead]. by rewrite sft_upd_other.
Qed.

(** Reading a file is reading blocks. *)
Lemma file_read_runs (sv : svc) fuel idx n addr bp x (s : fcbst) a k' :
  idx_to_sft (sfthead (fs (kern_of s))) idx = Some x -> readable x (share_installed (fs (kern_of s))) ->
  rwblock idx addr n XFR_READ bp (kern_of s) = Some (a, k') ->
  on_c (DosRWSft sv fuel idx n addr bp XFR_READ) s = Some (Ret a, with_kern k' s).
Proof.
  intros Hx [H1 H2 H3 H4] Hr. unfold on_c, DosRWSft.
  assert (Es : con_sft idx (fc s) = Some (Ret (Some x), fc s)).
  { unfold con_sft, on_hst, in_use. rewrite run_get. unfold kern_of in Hx. rewrite Hx. by destruct (fc s). }
  rewrite (crun_eq _ _ _ _ _ Es), H1. change (XFR_READ =? XFR_READ) with true. change (XFR_READ =? XFR_WRITE) with false.
  change (XFR_READ =? XFR_FORCE_WRITE) with false. cbn [andb orb]. cbn iota. rewrite H2, H3.
  assert (Ei : on_k (IsShareInstalled false) (fc s) = Some (Ret (share_installed (fs (kern_of s))), fc s)).
  { unfold on_k, on_hst, on_kern, on_pth, lift, IsShareInstalled. cbn [negb]. rewrite run_get. by destruct s as [[[[] ? ? ? ? ? ? ?] ?] ? ? ? ? ?]. }
  rewrite (crun_eq _ _ _ _ _ Ei).
  assert (E0 : share_installed (fs (kern_of s)) && (0 <=? sft_shroff x) = false).
  { destruct H4 as [-> | H4]; [done|]. rewrite (proj2 (Z.leb_gt 0 _)) by lia. apply andb_false_r. }
  unfold cbind at 1, cget. rewrite E0. rewrite crun_ret. change (SUCCESS =? SUCCESS) with true. cbn iota. cbn [negb].
  unfold on_k, on_hst, on_kern, on_pth, lift. unfold kern_of in Hr. by rewrite Hr.
Qed.
(** What there is of the file. *)
Lemma content_length s l u p d k T fd x cs :
  opened s l u p d k T fd x cs -> data_area d -> sft_size x <= Z.of_nat (length (content s l d cs)).
Proof.
  intros Hop Hda. pose proof (op_fits _ _ _ _ _ _ _ _ _ _ Hop) as Hf. pose proof (spc_pos d Hda) as Hs.
  unfold content. rewrite length_sectors.
  - unfold SECSIZE. rewrite Nat2Z.inj_mul, Nat2Z.inj_mul, Z2Nat.id by lia. lia.
  - intros j. unfold file_sector. apply view_bytes, (op_tab _ _ _ _ _ _ _ _ _ _ Hop).
Qed.

(** The bytes of the file from [pos] on, [n] at most. *)
Definition slice (l : list Z) (size pos n : Z) : list Z :=
  take (Z.to_nat (Z.max 0 (Z.min n (size - pos)))) (drop (Z.to_nat pos) l).
Lemma slice_length l size pos n :
  0 <= pos -> size <= Z.of_nat (length l) -> Z.of_nat (length (slice l size pos n)) = Z.max 0 (Z.min n (size - pos)).
Proof. intros Hp Hs. unfold slice. rewrite length_take, length_drop. lia. Qed.

(** The return code, and the memory at the transfer address. *)
Definition read_code (n r : Z) : Z :=
  if n =? r then FCB_SUCCESS else if n =? 0 then FCB_ERR_NODATA else FCB_ERR_EOF.
Definition record_read (data : list Z) (r : Z) (mem : list Z) : list Z :=
  if bool_decide (data = []) then mem else patch mem 0 (data ++ replicate (Z.to_nat r - length data) 0).

Lemma fill_record data r mem :
  data <> [] -> Z.of_nat (length data) < r -> r <= Z.of_nat (length mem) ->
  fmemcpy (patch mem 0 data) (Z.of_nat (length data)) (replicate (Z.to_nat (r - Z.of_nat (length data))) 0) (r - Z.of_nat (length data)) =
    Some (record_read data r mem).
Proof.
  intros Hne Hl Hm. assert (Hp : length (patch mem 0 data) = length mem).
  { unfold patch. rewrite !length_app, length_take, length_drop. lia. }
  unfold fmemcpy. rewrite Hp, length_replicate, (proj2 (Z.leb_le 0 _)), (proj2 (Z.leb_le (_ + _) _)), (proj2 (Z.leb_le (r - _) _)) by lia.
  cbn [andb]. f_equal. unfold record_read. rewrite bool_decide_eq_false_2 by done. unfold patch. change (take (Z.to_nat 0) mem) with (@nil Z). cbn [app].
  rewrite Nat2Z.id. rewrite take_app_length' by done. rewrite take_replicate, Nat.min_l by lia.
  rewrite <- app_assoc. f_equal. rewrite length_app, length_replicate. f_equal; [f_equal; lia|].
  rewrite drop_app_ge by lia. rewrite drop_drop. f_equal. lia.
Qed.

(** The end of a read of one record of [r] bytes, of which there were [n]. *)
Lemma after_read_runs b n r data mem blk c (s : fcbst) :
  block_at (um s) b -> at_record (um s) b blk c -> fgetword (um s) (b + fcb_recsiz) = Some r -> 0 < r < 65536 ->
  n = Z.of_nat (length data) -> n <= r <= Z.of_nat (length mem) -> udta s = patch mem 0 data -> 0 <= udta_off s -> udta_off s + r < 65536 ->
  exists s', after_transfer b r n r XFR_READ s = Some (Ret (read_code n r), s') /\ fc s' = fc s /\
    udta s' = record_read data r mem /\ udta_at s' = udta_at s /\ block_at (um s') b /\
    (if n =? 0 then um s' = um s else only_record b (um s) (um s') /\
       exists blk' c', at_record (um s') b blk' c' /\ rec_of blk' c' = (rec_of blk c + 1) mod (65536 * 128)).
Proof.
  intros Hb Ha Hr Hrr Hn Hnr Hmem Hoff Hwrap. unfold after_transfer.
  change (has XFR_READ XFR_FCB_RANDOM && (0 <? r)) with false. cbn iota. rewrite crun_ret.
  rewrite (u16_small n), (u16_small (r - n)) by lia. unfold read_code.
  destruct (NextRecord_runs b blk c s Hb Ha) as (m' & blk' & c' & E & Hb' & Ha' & Ho & Hrec).
  destruct (n =? r) eqn:Enr; zbool.
  - rewrite (proj2 (Z.eqb_eq (r - n) 0)) by lia. rewrite (crun_eq _ _ _ _ _ E).
    exists (set_um m' s). split; [done|]. split; [done|]. split; [|split; [done|split; [done|]]].
    + cbn. rewrite Hmem. unfold record_read. rewrite bool_decide_eq_false_2 by (intros ->; cbn in Hn; lia).
      replace (Z.to_nat r - length data)%nat with 0%nat by lia. cbn. by rewrite app_nil_r.
    + rewrite (proj2 (Z.eqb_neq n 0)) by lia. split; [done|]. by exists blk', c'.
  - rewrite (proj2 (Z.eqb_neq (r - n) 0)) by lia. rewrite (run_get_mem _ _ _ _ _ Hr).
    rewrite (proj2 (Z.eqb_neq r 0)), run_fopt by lia. change (has XFR_READ XFR_READ) with true. cbn [andb].
    destruct (n =? 0) eqn:En; zbool.
    + assert (Emod : (r - n) mod r = 0) by (rewrite En, Z.sub_0_r; apply Z_mod_same_full). rewrite Emod.
      change (0 <? 0) with false. cbn iota.
      exists s. split; [done|]. split; [done|]. split; [|done]. rewrite Hmem. unfold record_read.
      destruct data; [|cbn in Hn; lia]. rewrite bool_decide_eq_true_2 by done. apply patch_nil. lia.
    + assert (Hmod : (r - n) mod r = r - n) by (apply Z.mod_small; lia).
      rewrite Hmod, (proj2 (Z.ltb_lt 0 _)) by lia. rewrite run_fget, (u16_small (udta_off s + n)) by lia.
      replace (udta_off s + n - udta_off s) with n by lia.
      assert (Hf : fmemcpy (udta s) n (replicate (Z.to_nat (r - n)) 0) (r - n) = Some (record_read data r mem)).
      { rewrite Hmem, Hn. apply fill_record; [intros ->; cbn in Hn; lia|lia|lia]. }
      rewrite Hf, run_fopt, run_fmod.
      destruct (NextRecord_runs b blk c (set_udta (record_read data r mem) s) Hb Ha) as (m2 & blk2 & c2 & E2 & Hb2 & Ha2 & Ho2 & Hrec2).
      rewrite (crun_eq _ _ _ _ _ E2). exists (set_um m2 (set_udta (record_read data r mem) s)).
      split; [done|]. split; [done|]. split; [done|]. split; [done|]. split; [done|]. split; [done|]. by exists blk2, c2.
Qed.
(** An open file of a program: its block is at [b], and record [rec_of blk c],
    of [r] bytes, is the next one; [mem] is what is at the transfer address. *)
Record fcb_file (s : fcbst) l u p d k T fd x cs b r blk c : Prop := FcbFile {
  ff_open : opened (kern_of s) l u p d k T fd x cs;
  ff_read : readable x (share_installed (fs (kern_of s)));
  ff_block : block_at (um s) b;
  ff_record : at_record (um s) b blk c;
  ff_recsiz : fgetword (um s) (b + fcb_recsiz) = Some r;
  ff_sftno : fgetbyte (um s) (b + fcb_sftno) = Some fd;
  ff_size : 0 < r < 65536;
  ff_fd : 0 <= fd < 128;
  ff_mem : r <= Z.of_nat (length (udta s));
  ff_off : 0 <= udta_off s /\ udta_off s + r < 65536;
  ff_pos : rec_of blk c * r < 2 ^ 32 }.

Lemma ReadWrite_runs (sv : svc) fuel (s : fcbst) l u p d k T fd x cs b r blk c :
  fcb_file s l u p d k T fd x cs b r blk c -> hint_ok d -> capacity d < 2 ^ 32 -> data_area d ->
  let pos := rec_of blk c * r in
  let data := slice (content (kern_of s) l d cs) (sft_size x) pos r in
  exists s' l' y, FcbReadWrite sv fuel 1 XFR_READ s = Some (Ret (read_code (Z.of_nat (length data)) r), s') /\
    udta s' = record_read data r (udta s) /\
    opened (kern_of s') l' u p d k T fd y cs /\ sft_posit y = pos + Z.of_nat (length data) /\ same_file x y /\
    content (kern_of s') l' d cs = content (kern_of s) l d cs /\
    (if Z.of_nat (length data) =? 0 then um s' = um s else only_record b (um s) (um s') /\
       exists blk' c', at_record (um s') b blk' c' /\ rec_of blk' c' = (rec_of blk c + 1) mod (65536 * 128)).
Proof.
  intros [Hop Hre Hb Ha Hr Hfd Hrr Hfdr Hmem Hoff Hpos] Hhint Hcap Hda pos data.
  assert (Hpos0 : 0 <= pos) by (unfold pos, rec_of; destruct Ha; nia).
  assert (Hn : Z.of_nat (length data) = Z.max 0 (Z.min r (sft_size x - pos))).
  { apply slice_length; [lia|]. by eapply content_length. }
  unfold FcbReadWrite. rewrite (run_base b) by done. rewrite (run_get_mem _ _ _ _ _ Hr), run_fget.
  unfold transfer_size. rewrite Z.mul_1_r, (u32_small r) by lia. rewrite (proj2 (Z.ltb_ge 0xffff r)) by lia.
  rewrite (u16_small (udta_off s + r)), (proj2 (Z.ltb_ge (_ + r) _)) by lia.
  rewrite (run_rec b blk c) by done. unfold get_sftno. rewrite crun_assoc, (run_get_mem _ _ _ _ _ Hfd), crun_ret.
  assert (E8 : s8 fd = fd) by (unfold s8; divmod). rewrite E8. fold pos. rewrite (u32_small pos) by (change 4294967296 with (2 ^ 32); lia).
  destruct (seek_runs _ _ _ _ _ _ _ _ _ _ pos Hop (re_device _ _ Hre) ltac:(lia) ltac:(lia)) as (k1 & E1 & Hop1 & R1 & Hsh1 & _).
  rewrite (run_on_ks _ _ _ _ _ E1). change (s16 (- SUCCESS)) with 0.
  set (s1 := with_kern k1 s).
  destruct (crit_spec k1 l u p d k T 0 (op_tab _ _ _ _ _ _ _ _ _ _ Hop1)) as (k2 & E2 & Ht2 & R2 & Hf2).
  unfold crit. rewrite (run_on_ks _ _ k2 _ s1 E2). set (s2 := with_kern k2 s1).
  change (negb (0 =? SUCCESS)) with false. cbn iota.
  assert (Hop2 : opened k2 l u p d k T fd (set_sft_posit pos x) cs) by (by eapply opened_moves).
  change (clear XFR_READ XFR_FCB_RANDOM) with XFR_READ.
  destruct (rwblock_run k2 l u p d k T fd (set_sft_posit pos x) cs (udta_at s) r (udta s) Hop2 Hhint Hcap Hda ltac:(lia) ltac:(lia) Hmem)
    as (k3 & l3 & y & E3 & Hop3 & Hy & Hsame & Hcont & R3 & _). cbv zeta in E3, Hy.
  change (sft_size (set_sft_posit pos x)) with (sft_size x) in *. change (sft_posit (set_sft_posit pos x)) with pos in *.
  rewrite <- Hn in E3, Hy.
  assert (Hc2 : content k2 l d cs = content (kern_of s) l d cs).
  { eapply content_kept; [apply Hop|done|apply Hop|]. exact (roamed_trans _ _ _ _ _ _ _ _ _ R1 R2 eq_refl). }
  rewrite Hc2 in E3.
  assert (Ed : take (Z.to_nat (Z.of_nat (length data))) (drop (Z.to_nat pos) (content (kern_of s) l d cs)) = data).
  { rewrite Hn. done. }
  rewrite Ed in E3.
  assert (Hre2 : readable (set_sft_posit pos x) (share_installed (fs (kern_of s2)))).
  { destruct Hre. split; [done|done|done|]. change (fs (kern_of s2)) with (fs k2). rewrite Hf2, Hsh1. done. }
  pose proof (file_read_runs sv fuel fd r (udta_at s) (udta s) (set_sft_posit pos x) s2 _ k3
    (op_entry _ _ _ _ _ _ _ _ _ _ Hop2) Hre2 E3) as E4.
  rewrite (crun_eq _ _ _ _ _ E4). cbn [fst snd]. rewrite run_fmod. rewrite (proj2 (Z.ltb_ge _ 0)) by lia.
  rewrite crun_ret. change (has XFR_READ XFR_WRITE) with false. cbn iota. rewrite crun_ret.
  set (s3 := set_udta (patch (udta s) 0 data) (with_kern k3 s2)).
  destruct (after_read_runs b (Z.of_nat (length data)) r data (udta s) blk c s3)
    as (s' & E5 & Hfc & Hdta & _ & Hb' & Hrec); try done; try (change (udta_off s3) with (udta_off s)); try lia.
  exists s', l3, y. split; [exact E5|]. split; [exact Hdta|].
  assert (Hk : kern_of s' = k3) by (unfold kern_of; by rewrite Hfc). rewrite Hk.
  split; [exact Hop3|]. split; [exact Hy|]. split; [|split; [congruence|exact Hrec]].
  exact Hsame.
Qed.
End Spec.
End FcbSpec.

(** * Names in file control blocks

    What [FcbParseFname] makes of a text: the separators in front, the drive,
    the name field and the extension behind its dot, with the flags of AL. *)

From S2P Require Import Prelude Memmgr KState BlockIO FatTab FNode FatAlloc Clock Media FatDir FatFile FatRw.
From S2P Require Import Path Handle Calls Chario Fcb Disk Ring CacheSpec FatPure FatSpec LineSafe.
Import Mm Ks Bio Fat FNode Alloc Clk Media Dir File Rw Path Handle Calls Chario Fcb.

Module FcbName.

(** Characters of a field, wild cards of one character among them. *)
Definition field_char (c : Z) : Prop := TestFieldSeps c = false /\ c <> STAR.

(** A field of [n] characters is scanned from [text]: the characters [base], a
    star that ends the field, or nothing if the field is full or a separator (or
    the end of the text) follows; [rest] comes after it. *)
Record scanned (n : nat) (text base : list Z) (star : bool) (rest : list Z) : Prop := Scanned {
  sc_text : text = base ++ (if star then [STAR] else []) ++ rest;
  sc_chars : Forall field_char base;
  sc_size : (length base <= n)%nat;
  sc_end : if star then (length base < n)%nat else length base = n \/ TestFieldSeps (at0 rest) = true }.
(** The field that is stored for the upper case [u] of the characters. *)
Definition field (n : nat) (u : list Z) (star : bool) : list Z :=
  u ++ replicate (n - length u) (if star then QUESTION else SPACE).
Definition wild (base : list Z) (star : bool) : bool := star || bool_decide (QUESTION ∈ base).

(** Every text has a field. *)
Lemma scanned_total n text : exists base star rest, scanned n text base star rest.
Proof.
  revert text. induction n as [|n IH]; intros text.
  - exists [], false, text. split; [done|constructor|done|by left].
  - destruct text as [|c text].
    + exists [], false, []. split; [done|constructor|cbn; lia|by right].
    + destruct (TestFieldSeps c) eqn:Es.
      { exists [], false, (c :: text). split; [done|constructor|cbn; lia|by right]. }
      destruct (decide (c = STAR)) as [->|Hs].
      { exists [], true, text. split; [done|constructor|cbn; lia|cbn; lia]. }
      destruct (IH text) as (base & star & rest & [-> Hc Hl He]).
      exists (c :: base), star, rest. split; [done|by constructor|cbn; lia|].
      destruct star; cbn; [lia|]. destruct He as [->|He]; [by left|by right].
Qed.

Section Name.
Context {M : Machine} {Sh : Shell}.

(** The code page gives the upper case [u] of a text. *)
Definition upper_of (s : pst) (l u : list Z) : Prop :=
  has (nls_flags (actPkg s)) NLS_FLAG_DIRECT_FUPCASE = true /\ upMMem (nls_tbl4 (actPkg s)) l = Some u.

Lemma UpFChar_runs s c u : upper_of s [c] [u] -> DosUpFChar c s = Some (u, s).
Proof. intros [Hf Hu]. unfold DosUpFChar, DosUpFMem. rewrite run_assoc, run_get, Hf. by rewrite Hu. Qed.

Lemma upper_cons s c l u : upper_of s (c :: l) u -> exists x u', u = x :: u' /\ upper_of s [c] [x] /\ upper_of s l u'.
Proof.
  intros [Hf Hu]. unfold upper_of, upMMem in *. cbn [mapM] in Hu. destruct (upMM _ c) as [x|] eqn:Ec; [|done]. cbn in Hu.
  destruct (mapM _ l) as [u'|] eqn:El; [|done]. cbn in Hu. injection Hu as <-. exists x, u'.
  split; [done|]. split; [|by split]. split; [done|]. cbn [mapM]. by rewrite Ec.
Qed.
Lemma upper_length s l u : upper_of s l u -> length u = length l.
Proof. intros [_ H]. symmetry. by apply length_mapM in H. Qed.

(** A name field ends with the name, a star, the dot or its size. *)
Lemma NameField_runs s n text base star rest u :
  scanned n text base star rest -> upper_of s base u ->
  GetNameField text n s = Some ((rest, field n u star, wild base star), s).
Proof.
  intros [-> Hb Hl He]. revert u n Hl He. induction Hb as [|c base [Hc Hs] Hb IH]; intros u n Hl He Hu.
  - pose proof (upper_length _ _ _ Hu) as Hz. destruct u; [|done]. unfold field, wild. cbn [app length]. rewrite Nat.sub_0_r.
    rewrite bool_decide_eq_false_2, orb_false_r by apply not_elem_of_nil. destruct star.
    + destruct n as [|n]; [cbn in He; lia|]. done.
    + destruct n as [|n], rest as [|r rest]; try done. cbn [app GetNameField].
      destruct He as [He|He]; [done|]. change (TestFieldSeps (at0 (r :: rest))) with (TestFieldSeps r) in He. by rewrite He.
  - destruct (upper_cons _ _ _ _ Hu) as (x & u' & -> & Hx & Hu'). destruct n as [|n]; [cbn in Hl; lia|].
    cbn [app GetNameField]. rewrite Hc, (proj2 (Z.eqb_neq _ _) Hs). rewrite (run_eq _ _ _ _ _ (UpFChar_runs _ _ _ Hx)).
    rewrite (run_eq _ _ _ _ _ (IH u' n ltac:(cbn in Hl; lia) ltac:(destruct star; cbn in He; lia || (destruct He; [left; lia|by right])) Hu')).
    assert (Hw : (c =? QUESTION) || wild base star = wild (c :: base) star).
    { unfold wild. destruct star; cbn [orb]; [apply orb_true_r|]. destruct (Z.eqb_spec c QUESTION) as [->|Hne]; cbn [orb].
      - by rewrite bool_decide_eq_true_2 by apply list_elem_of_here.
      - apply bool_decide_ext. rewrite elem_of_cons. naive_solver. }
    cbn iota beta. by rewrite Hw.
Qed.

(** ** The members that are stored *)

Lemma put_field l i src :
  0 <= i -> i + Z.of_nat (length src) <= Z.of_nat (length l) ->
  exists l', fmemcpy l i src (Z.of_nat (length src)) = Some l' /\ FcbSpec.only i (Z.of_nat (length src)) l l' /\
    take (length src) (drop (Z.to_nat i) l') = src.
Proof.
  intros Hi Hl. rewrite LineSafe.fmemcpy_ok by lia. eexists. split; [reflexivity|]. rewrite Nat2Z.id, firstn_all.
  split; [split|].
  - rewrite !length_app, length_take, length_drop. lia.
  - intros j Hj. unfold fgetbyte. destruct (j <? 0) eqn:E; [done|]. zbool. destruct Hj as [Hj|Hj].
    + rewrite lookup_app_l by (rewrite length_take; lia). by rewrite lookup_take_lt by lia.
    + rewrite lookup_app_r by (rewrite length_take; lia). rewrite length_take.
      rewrite lookup_app_r by lia. rewrite lookup_drop. f_equal. lia.
  - rewrite drop_app_ge by (rewrite length_take; lia). rewrite length_take.
    replace (_ - _)%nat with 0%nat by lia. cbn [drop]. apply take_app_length.
Qed.
(** A member that a flag keeps. *)
Lemma put_unless (keep : bool) l i src :
  0 <= i -> i + Z.of_nat (length src) <= Z.of_nat (length l) ->
  exists l', (if keep then Some l else fmemcpy l i src (Z.of_nat (length src))) = Some l' /\
    FcbSpec.only i (Z.of_nat (length src)) l l' /\
    take (length src) (drop (Z.to_nat i) l') = if keep then take (length src) (drop (Z.to_nat i) l) else src.
Proof.
  intros Hi Hl. destruct keep; [by exists l|]. by apply put_field.
Qed.

Lemma slice_only i n l l' j m :
  FcbSpec.only i n l l' -> 0 <= j -> j + Z.of_nat m <= i \/ i + n <= j ->
  take m (drop (Z.to_nat j) l') = take m (drop (Z.to_nat j) l).
Proof.
  intros [Hl Ho] Hj Hd. apply list_eq. intros q. destruct (decide (q < m)%nat) as [Hq|Hq]; [|by rewrite !lookup_take_ge by lia].
  rewrite !lookup_take_lt, !lookup_drop by lia. specialize (Ho (j + Z.of_nat q) ltac:(lia)). unfold fgetbyte in Ho.
  rewrite (proj2 (Z.ltb_ge _ 0)) in Ho by lia. by replace (Z.to_nat j + q)%nat with (Z.to_nat (j + Z.of_nat q)) by lia.
Qed.
Lemma slice_keeps i n l l' (j m : nat) :
  FcbSpec.only i n l l' -> Z.of_nat (j + m) <= i \/ i + n <= Z.of_nat j -> take m (drop j l') = take m (drop j l).
Proof. intros Ho Hd. rewrite <- (Nat2Z.id j). eapply slice_only; [exact Ho|lia|lia]. Qed.
(** One character more at the front of a slice. *)
Lemma slice_byte i l b n :
  0 <= i -> fgetbyte l i = Some b -> take (S n) (drop (Z.to_nat i) l) = b :: take n (drop (Z.to_nat (i + 1)) l).
Proof.
  intros Hi Hb. unfold fgetbyte in Hb. rewrite (proj2 (Z.ltb_ge i 0)) in Hb by lia.
  rewrite (drop_S _ _ _ Hb). cbn [take]. by replace (Z.to_nat (i + 1)) with (S (Z.to_nat i)) by lia.
Qed.
Lemma slice_tail i (l : list Z) n : 0 <= i -> take n (drop (Z.to_nat (i + 1)) l) = drop 1 (take (S n) (drop (Z.to_nat i) l)).
Proof. intros Hi. replace (Z.to_nat (i + 1)) with (Z.to_nat i + 1)%nat by lia. by rewrite <- drop_drop, take_drop_commute. Qed.

(** ** The whole name *)

(** The drive that is typed: its letter and its entry. *)
Definition drive_text (drv : option Z) : list Z := match drv with Some c => [c; COLON] | None => [] end.
Definition drive_typed (s : pst) (drv : option Z) (number : Z) (bad : bool) (text : list Z) : Prop :=
  match drv with
  | None => number = FDFLT_DRIVE /\ bad = false /\ (TestFieldSeps (at0 text) = true \/ at0 (drop 1 text) <> COLON)
  | Some c => exists u oc, TestFieldSeps c = false /\ upper_of s [c] [u] /\ number = u8 (u - 0x41) + 1 /\
      get_cds (u8 (u - 0x41)) (kern s) = Some (oc, kern s) /\ bad = match oc with None => true | Some _ => false end
  end.
Definition ret_code (bad wild : bool) : Z :=
  if bad then PARSE_RET_BADDRIVE else if wild then PARSE_RET_WILD else PARSE_RET_NOWILD.

(** What the text behind the drive gives: the eight characters of the name, where
    [old] stood, the extension if there is one, the result and what is left. *)
Inductive named (s : pst) (bad : bool) (old : list Z) : list Z -> list Z -> option (list Z) -> Z -> list Z -> Prop :=
| One_dot rest : at0 rest <> DOT -> named s bad old (DOT :: rest) (DOT :: drop 1 old) None PARSE_RET_NOWILD rest
| Two_dots rest : named s bad old (DOT :: DOT :: rest) (DOT :: DOT :: drop 2 old) None PARSE_RET_NOWILD rest
| Name_only text base star ub rest :
    at0 text <> DOT -> scanned 8 text base star rest -> upper_of s base ub -> at0 rest <> DOT ->
    named s bad old text (field 8 ub star) None (ret_code bad (wild base star)) rest
| Name_ext text base star ub ext_text ext estar ue rest :
    at0 text <> DOT -> scanned 8 text base star (DOT :: ext_text) -> upper_of s base ub ->
    scanned 3 ext_text ext estar rest -> upper_of s ext ue ->
    named s bad old text (field 8 ub star) (Some (field 3 ue estar)) (ret_code bad (wild base star || wild ext estar)) rest.

Lemma at0_cons text c : at0 text = c -> c <> 0 -> exists t, text = c :: t.
Proof. destruct text as [|x t]; [by intros <-|]. intros <- _. by exists t. Qed.

(** Every text that the code page has the upper case of is named so. *)
Lemma named_total s bad old text :
  (forall l, (forall c, c ∈ l -> c ∈ text) -> exists u, upper_of s l u) ->
  exists nm ext code rest, named s bad old text nm ext code rest.
Proof.
  intros Hup. destruct (decide (at0 text = DOT)) as [Hd|Hd].
  { destruct (at0_cons text DOT Hd ltac:(done)) as [r ->]. destruct (decide (at0 r = DOT)) as [Hr|Hr].
    - destruct (at0_cons r DOT Hr ltac:(done)) as [r' ->]. do 4 eexists. apply Two_dots.
    - do 4 eexists. by apply One_dot. }
  destruct (scanned_total 8 text) as (base & star & r & Hs).
  destruct (Hup base) as [ub Hub]; [intros c Hc; rewrite (sc_text _ _ _ _ _ Hs); set_solver|].
  destruct (decide (at0 r = DOT)) as [Hr|Hr]; [|do 4 eexists; by eapply Name_only].
  destruct (at0_cons r DOT Hr ltac:(done)) as [r' ->]. destruct (scanned_total 3 r') as (ext & estar & r2 & Hs').
  destruct (Hup ext) as [ue Hue]; [|do 4 eexists; by eapply Name_ext].
  intros c Hc. rewrite (sc_text _ _ _ _ _ Hs), (sc_text _ _ _ _ _ Hs'). set_solver.
Qed.

(** The rest of [FcbParseFname], once the members before the name are stored. *)
Definition parse_name (bad : bool) (name fcb : list Z) : K pst (Z * list Z * list Z) :=
  if at0 name =? DOT then
    let! fcb := kopt (fputbyte fcb_fname DOT fcb) in
    let name := drop 1 name in
    if at0 name =? DOT then
      let! fcb := kopt (fputbyte (fcb_fname + 1) DOT fcb) in
      kret (PARSE_RET_NOWILD, drop 1 name, fcb)
    else kret (PARSE_RET_NOWILD, name, fcb)
  else
    let! r := GetNameField name 8 in
    let '(name, field, wild) := r in
    let! fcb := kopt (fmemcpy fcb fcb_fname field 8) in
    let! r :=
      (if at0 name =? DOT then
         let! r := GetNameField (drop 1 name) 3 in
         let '(name, field, wild) := r in
         let! fcb := kopt (fmemcpy fcb fcb_fext field 3) in
         kret (name, wild, fcb)
       else kret (name, false, fcb)) in
    let '(name, wild', fcb) := r in
    kret (if bad then PARSE_RET_BADDRIVE else if wild || wild' then PARSE_RET_WILD else PARSE_RET_NOWILD, name, fcb).

Lemma field_length n u star : (length u <= n)%nat -> length (field n u star) = n.
Proof. intros H. unfold field. rewrite length_app, length_replicate. lia. Qed.

Lemma dots_run s bad text rest old (fcb : list Z) nm ext code :
  named s bad old text nm ext code rest -> at0 text = DOT -> take 8 (drop 1 fcb) = old -> 37 <= Z.of_nat (length fcb) ->
  exists fcb', parse_name bad text fcb s = Some ((code, rest, fcb'), s) /\ FcbSpec.only fcb_fname 8 fcb fcb' /\
    take 8 (drop 1 fcb') = nm /\ ext = None.
Proof.
  intros Hn Hdot Hold Hlen. unfold parse_name. rewrite Hdot. change (DOT =? DOT) with true. cbn iota.
  destruct (FcbSpec.put_byte fcb_fname DOT fcb) as (l1 & E1 & O1 & G1); [unfold fcb_fname; lia|].
  rewrite E1, run_opt. cbn zeta.
  pose proof (slice_byte fcb_fname l1 DOT 7 ltac:(done) G1) as H1.
  rewrite (slice_only fcb_fname 1 fcb l1 (fcb_fname + 1) 7 O1), slice_tail in H1 by (done || (right; done)).
  change (Z.to_nat fcb_fname) with 1%nat in H1. rewrite Hold in H1.
  inversion Hn as [? Hr|?|????? Hne|???????? ? Hne]; subst; [| |by destruct Hne..].
  - exists l1. change (drop 1 (DOT :: rest)) with rest. rewrite (proj2 (Z.eqb_neq _ _) Hr). split; [done|].
    split; [eapply FcbSpec.only_widen; [exact O1|done|done]|done].
  - destruct (FcbSpec.put_byte (fcb_fname + 1) DOT l1) as (l2 & E2 & O2 & G2); [destruct O1 as [-> _]; unfold fcb_fname; lia|].
    exists l2. change (drop 1 (DOT :: DOT :: rest)) with (DOT :: rest). change (at0 (DOT :: rest) =? DOT) with true. cbn iota. rewrite E2, run_opt. split; [done|].
    split; [eapply FcbSpec.mem_only_trans; eapply FcbSpec.only_widen; [exact O1|done|done|exact O2|done|done]|].
    split; [|done]. pose proof (slice_byte fcb_fname l2 DOT 7 ltac:(done)) as H2.
    rewrite (FcbSpec.byte_only _ _ _ _ fcb_fname O2) in H2 by (left; done).
    change (Z.to_nat fcb_fname) with 1%nat in H2. rewrite (H2 G1). f_equal.
    rewrite (slice_byte (fcb_fname + 1) l2 DOT 6 ltac:(done) G2). f_equal.
    rewrite (slice_only _ _ _ _ (fcb_fname + 1 + 1) 6 O2) by (unfold fcb_fname; lia).
    rewrite !slice_tail by done. change (Z.to_nat fcb_fname) with 1%nat. rewrite H1.
    change (drop 1 (DOT :: ?l)) with l. by rewrite drop_drop.
Qed.

Lemma name_runs s bad text rest old (fcb : list Z) nm ext code :
  named s bad old text nm ext code rest -> take 8 (drop 1 fcb) = old -> 37 <= Z.of_nat (length fcb) ->
  exists fcb', parse_name bad text fcb s = Some ((code, rest, fcb'), s) /\ FcbSpec.only fcb_fname 11 fcb fcb' /\
    take 8 (drop 1 fcb') = nm /\ take 3 (drop 9 fcb') = default (take 3 (drop 9 fcb)) ext.
Proof.
  intros Hn Hold Hlen. destruct (decide (at0 text = DOT)) as [Hdot|Hdot].
  { destruct (dots_run s bad text rest old fcb nm ext code Hn Hdot Hold Hlen) as (l & E & O & G & ->).
    exists l. split; [done|]. split; [eapply FcbSpec.only_widen; [exact O|done|done]|]. split; [done|].
    apply (slice_only fcb_fname 8 _ _ 9 3 O); [lia|right; done]. }
  unfold parse_name. rewrite (proj2 (Z.eqb_neq _ _) Hdot).
  assert (Hf : forall base ub star r, scanned 8 text base star r -> upper_of s base ub ->
    exists l1, fmemcpy fcb fcb_fname (field 8 ub star) 8 = Some l1 /\ FcbSpec.only fcb_fname 8 fcb l1 /\
      take 8 (drop 1 l1) = field 8 ub star).
  { intros base ub star r Hsc Hub.
    assert (El : length (field 8 ub star) = 8%nat) by (apply field_length; rewrite (upper_length _ _ _ Hub); apply Hsc).
    destruct (put_field fcb fcb_fname (field 8 ub star)) as (l1 & E1 & O1 & G1); [done|rewrite El; unfold fcb_fname; lia|].
    rewrite El in E1, O1, G1. by exists l1. }
  inversion Hn as [? _|?|? base star ub ? _ Hsc Hub Hr|? base star ub ext_text ex estar ue ? _ Hsc Hub Hse Hue]; subst;
    [done|done| |].
  - destruct (Hf _ _ _ _ Hsc Hub) as (l1 & E1 & O1 & G1). exists l1. split; [|split; [|split; [done|]]].
    + rewrite (run_eq _ _ _ _ _ (NameField_runs s 8 text base star rest ub Hsc Hub)). cbn iota beta. rewrite E1, run_opt.
      rewrite (proj2 (Z.eqb_neq _ _) Hr), run_ret, orb_false_r. done.
    + eapply FcbSpec.only_widen; [exact O1|done|done].
    + apply (slice_only fcb_fname 8 _ _ 9 3 O1); [lia|right; done].
  - destruct (Hf _ _ _ _ Hsc Hub) as (l1 & E1 & O1 & G1).
    assert (Ee : length (field 3 ue estar) = 3%nat) by (apply field_length; rewrite (upper_length _ _ _ Hue); apply Hse).
    destruct (put_field l1 fcb_fext (field 3 ue estar)) as (l2 & E2 & O2 & G2); [done|rewrite Ee; destruct O1 as [-> _]; unfold fcb_fext; lia|].
    rewrite Ee in E2, O2, G2. exists l2. split; [|split; [|split; [|exact G2]]].
    + rewrite (run_eq _ _ _ _ _ (NameField_runs s 8 text base star _ ub Hsc Hub)). cbn iota beta. rewrite E1, run_opt.
      change (at0 (DOT :: ext_text)) with DOT. change (drop 1 (DOT :: ext_text)) with ext_text.
      change (DOT =? DOT) with true. cbn iota. rewrite run_assoc, (run_eq _ _ _ _ _ (NameField_runs s 3 ext_text ex estar rest ue Hse Hue)).
      cbn iota beta. change (Z.of_nat 3) with 3 in E2. rewrite run_assoc, E2, run_opt, run_ret. done.
    + eapply FcbSpec.mem_only_trans; eapply FcbSpec.only_widen; [exact O1|done|done|exact O2|done|done].
    + rewrite <- G1. apply (slice_only fcb_fext 3 _ _ 1 8 O2); [lia|left; done].
Qed.

(** What the block holds after a text was parsed: [mode] is AL, [e] the extension
    that is named. *)
Record parsed (mode : Z) (drv : option Z) (fcb : list Z) (number : Z) (nm : list Z) (e : option (list Z)) (fcb' : list Z) : Prop := Parsed {
  pa_drive : fgetbyte fcb' fcb_drive =
    if has mode PARSE_DFLT_DRIVE && bool_decide (drv = None) then fgetbyte fcb fcb_drive else Some (u8 number);
  pa_name : take 8 (drop 1 fcb') = nm;
  pa_ext : take 3 (drop 9 fcb') =
    default (if has mode PARSE_BLNK_FEXT then take 3 (drop 9 fcb) else replicate 3 SPACE) e;
  pa_block : fgetword fcb' fcb_cublock = Some 0;
  pa_recsiz : fgetword fcb' fcb_recsiz = Some 0;
  pa_rest : FcbSpec.only 0 16 fcb fcb' }.
(** What stands in the name field before the name is stored. *)
Definition old_name (mode : Z) (fcb : list Z) : list Z :=
  if has mode PARSE_BLNK_FNAME then take 8 (drop 1 fcb) else replicate 8 SPACE.
(** The text without the separators that are skipped. *)
Definition trimmed (mode : Z) (name : list Z) : list Z :=
  ParseSkipWh (if has mode PARSE_SKIP_LEAD_SEP then skip_seps name else name).

Lemma lift_get_cds s drive oc : get_cds drive (kern s) = Some (oc, kern s) -> lift (get_cds drive) s = Some (oc, s).
Proof. intros E. unfold lift. rewrite E. by destruct s. Qed.

Lemma drive_text_runs s mode drv number bad name (fcb : list Z) :
  drive_typed s drv number bad name -> 0 < Z.of_nat (length fcb) ->
  exists fcb', (let text := drive_text drv ++ name in
     if negb (TestFieldSeps (at0 text)) && (at0 (drop 1 text) =? COLON) then
       let! u := DosUpFChar (at0 text) in
       let Drive := u8 (u - 0x41) in
       let! c := lift (get_cds Drive) in
       let! fcb := kopt (fputbyte fcb_drive (Drive + 1) fcb) in
       kret (match c with None => true | Some _ => false end, drop 2 text, fcb)
     else
       let! fcb := kopt (if has mode PARSE_DFLT_DRIVE then Some fcb else fputbyte fcb_drive FDFLT_DRIVE fcb) in
       kret (false, text, fcb)) s = Some ((bad, name, fcb'), s) /\
    FcbSpec.only 0 1 fcb fcb' /\
    fgetbyte fcb' 0 = if has mode PARSE_DFLT_DRIVE && bool_decide (drv = None) then fgetbyte fcb 0 else Some (u8 number).
Proof.
  intros Hd Hl. cbn zeta. destruct drv as [c|]; cbn [drive_text app].
  - destruct Hd as (u & oc & Hc & Hu & -> & Hcds & ->).
    destruct (FcbSpec.put_byte fcb_drive (u8 (u - 0x41) + 1) fcb) as (l1 & E1 & O1 & G1); [unfold fcb_drive; lia|].
    exists l1. change (at0 (c :: COLON :: name)) with c. change (at0 (drop 1 (c :: COLON :: name))) with COLON.
    rewrite Hc. change (COLON =? COLON) with true. cbn [negb andb]. rewrite (run_eq _ _ _ _ _ (UpFChar_runs _ _ _ Hu)).
    cbn zeta. rewrite (run_eq _ _ _ _ _ (lift_get_cds _ _ _ Hcds)), E1, run_opt.
    rewrite bool_decide_eq_false_2, andb_false_r by done. done.
  - destruct Hd as (-> & -> & Hn). rewrite bool_decide_eq_true_2, andb_true_r by done.
    assert (negb (TestFieldSeps (at0 name)) && (at0 (drop 1 name) =? COLON) = false) as ->.
    { destruct Hn as [->|Hn]; [done|]. by rewrite (proj2 (Z.eqb_neq _ _) Hn), andb_false_r. }
    destruct (has mode PARSE_DFLT_DRIVE).
    + exists fcb. rewrite run_opt. split; [done|]. split; [apply FcbSpec.mem_only_refl|done].
    + destruct (FcbSpec.put_byte fcb_drive FDFLT_DRIVE fcb) as (l1 & E1 & O1 & G1); [unfold fcb_drive; lia|].
      exists l1. rewrite E1, run_opt. done.
Qed.

Lemma Parse_runs s mode drv number bad text name nm ext code rest (fcb : list Z) :
  trimmed mode text = drive_text drv ++ name -> drive_typed s drv number bad name ->
  named s bad (old_name mode fcb) name nm ext code rest -> 37 <= Z.of_nat (length fcb) ->
  exists fcb', FcbParseFname mode text fcb s = Some ((code, rest, fcb'), s) /\ parsed mode drv fcb number nm ext fcb'.
Proof.
  intros Htext Hd Hn Hlen.
  destruct (drive_text_runs s mode drv number bad name fcb Hd ltac:(lia)) as (l1 & E1 & O1 & G1). cbn zeta in E1.
  destruct (FcbSpec.put_word fcb_recsiz 0 l1) as (l2 & E2 & O2 & G2); [done|destruct O1 as [-> _]; unfold fcb_recsiz; lia|].
  destruct (FcbSpec.put_word fcb_cublock 0 l2) as (l3 & E3 & O3 & G3); [done|destruct O2 as [-> _], O1 as [-> _]; unfold fcb_cublock; lia|].
  assert (L3 : length l3 = length fcb) by (destruct O1 as [H1 _], O2 as [H2 _], O3 as [H3 _]; congruence).
  destruct (put_unless (has mode PARSE_BLNK_FNAME) l3 fcb_fname (replicate 8 SPACE)) as (l4 & E4 & O4 & G4);
    [done|rewrite L3; cbn; unfold fcb_fname; lia|].
  assert (L4 : length l4 = length fcb) by (destruct O4 as [H4 _]; congruence).
  destruct (put_unless (has mode PARSE_BLNK_FEXT) l4 fcb_fext (replicate 3 SPACE)) as (l5 & E5 & O5 & G5);
    [done|rewrite L4; cbn; unfold fcb_fext; lia|].
  rewrite !length_replicate in *. change (Z.of_nat 8) with 8 in *. change (Z.of_nat 3) with 3 in *.
  assert (L5 : length l5 = length fcb) by (destruct O5 as [H5 _]; congruence).
  assert (Hold : take 8 (drop 1 l5) = old_name mode fcb).
  { rewrite (slice_keeps _ _ _ _ 1 8 O5) by (left; done). change (Z.to_nat fcb_fname) with 1%nat in G4. rewrite G4.
    unfold old_name. destruct (has mode PARSE_BLNK_FNAME); [|done].
    by rewrite (slice_keeps _ _ _ _ 1 8 O3), (slice_keeps _ _ _ _ 1 8 O2), (slice_keeps _ _ _ _ 1 8 O1)
      by ((left; done) || (right; done)). }
  destruct (name_runs s bad name rest _ l5 nm ext code Hn Hold ltac:(lia)) as (l6 & E6 & O6 & G6 & G6').
  exists l6. split.
  - unfold FcbParseFname. fold (trimmed mode text). cbn zeta. rewrite Htext.
    rewrite (run_eq _ _ _ _ _ E1). cbn iota beta. rewrite E2, run_opt, E3, run_opt, E4, run_opt, E5, run_opt. exact E6.
  - split; [|exact G6| | | |].
    + rewrite (FcbSpec.byte_only _ _ _ _ _ O6), (FcbSpec.byte_only _ _ _ _ _ O5), (FcbSpec.byte_only _ _ _ _ _ O4),
        (FcbSpec.byte_only _ _ _ _ _ O3), (FcbSpec.byte_only _ _ _ _ _ O2) by (left; done). exact G1.
    + rewrite G6'. destruct ext; [done|]. cbn [default from_option]. change (Z.to_nat fcb_fext) with 9%nat in G5. rewrite G5.
      destruct (has mode PARSE_BLNK_FEXT); [|done].
      by rewrite (slice_keeps _ _ _ _ 9 3 O4), (slice_keeps _ _ _ _ 9 3 O3), (slice_keeps _ _ _ _ 9 3 O2), (slice_keeps _ _ _ _ 9 3 O1)
        by ((left; done) || (right; done)).
    + rewrite (FcbSpec.word_only _ _ _ _ _ O6), (FcbSpec.word_only _ _ _ _ _ O5), (FcbSpec.word_only _ _ _ _ _ O4) by (right; done). exact G3.
    + rewrite (FcbSpec.word_only _ _ _ _ _ O6), (FcbSpec.word_only _ _ _ _ _ O5), (FcbSpec.word_only _ _ _ _ _ O4), (FcbSpec.word_only _ _ _ _ _ O3) by (right; done). exact G2.
    + assert (Hw : forall i n l l', FcbSpec.only i n l l' -> 0 <= i -> i + n <= 16 -> FcbSpec.only 0 16 l l').
      { intros i n l l' Ho Hi Hj. eapply FcbSpec.only_widen; [exact Ho|done|done]. }
      eapply FcbSpec.mem_only_trans; [exact (Hw _ _ _ _ O1 ltac:(done) ltac:(done))|].
      eapply FcbSpec.mem_only_trans; [exact (Hw _ _ _ _ O2 ltac:(done) ltac:(done))|].
      eapply FcbSpec.mem_only_trans; [exact (Hw _ _ _ _ O3 ltac:(done) ltac:(done))|].
      eapply FcbSpec.mem_only_trans; [exact (Hw _ _ _ _ O4 ltac:(done) ltac:(done))|].
      eapply FcbSpec.mem_only_trans; [exact (Hw _ _ _ _ O5 ltac:(done) ltac:(done))|].
      exact (Hw _ _ _ _ O6 ltac:(done) ltac:(done)).
Qed.
End Name.
End FcbName.
