(* ===== verification/WriteProps.v ===== *)
(** * Properties of writing a file

    A write puts the user's bytes into the file at its position, lets the
    chain grow by free clusters, and leaves the rest of the disk. *)

From S2P Require Import Prelude Memmgr KState BlockIO FatTab FNode FatAlloc FatFile FatRw Disk Ring.
From S2P Require Import CacheSpec CacheOps FatPure FatSpec FatWrite Table FatChain AllocSpec MapSpec.
From S2P Require Import SftSpec DirectIO RwSpec RamVol FatProps RwProps WriteSpec Handle FcbSpec HandleProps.
Import Ks Bio Fat FNode Alloc File Rw Dsk Ring Cache CacheOps FatPure FatSpec FatWrite Table Chain.
Import AllocSpec MapSpec SftSpec Direct WriteIO RwSpec RamVol FatProps RwProps WriteSpec Handle FcbSpec HandleProps.

Module WriteProps.

Lemma has_cleared f m b : has f b = false -> has (clear f m) b = false.
Proof.
  unfold has, clear. intros H. apply negb_false_iff, Z.eqb_eq in H. apply negb_false_iff, Z.eqb_eq.
  apply Z.bits_inj'. intros i Hi. rewrite Z.land_spec, Z.ldiff_spec, Z.bits_0.
  assert (E : Z.testbit (Z.land f b) i = false) by (by rewrite H, Z.bits_0). rewrite Z.land_spec in E.
  by destruct (Z.testbit f i), (Z.testbit b i), (Z.testbit m i).
Qed.

Section Spec.
Context {M : Machine} {D : Disk}.

(** What a write needs of an open file beside [opened]: an entry without
    clusters says so, and there is no SHARE to tell. *)
Record writable (s : kst) (d : dpb) (x : sft) (cs : list Z) : Prop := Writable {
  wr_empty : cs = [] -> sft_cuclust x = FREE /\ relclust x = 0;
  wr_alone : share_installed (fs s) = false;
  wr_hint : hint_ok d }.

(** The entry after a write. *)
Definition rewritten_entry (x y : sft) : Prop :=
  sft_count y = sft_count x /\ sft_mode y = sft_mode x /\
  sft_flags y = clear (sft_flags x) (Z.lor SFT_FCLEAN SFT_FDATE) /\
  sft_attrib y = Z.lor (sft_attrib x) D_ARCHIVE /\ sft_dcb y = sft_dcb x /\ sft_name y = sft_name x /\
  sft_time y = sft_time x /\ sft_date y = sft_date x /\ sft_dirsector y = sft_dirsector x /\
  sft_diridx y = sft_diridx x /\ sft_shroff y = sft_shroff x.

(** The bytes that the clusters of the file and the free ones hold. *)
Definition room_of (d : dpb) (T : Z -> Z) (cs : list Z) : Z :=
  512 * ((Z.of_nat (length cs) + nfree (max_cluster d) T) * spc d).

Section Call.
Context (s : kst) (l : list Z) (u p : Z) (d : dpb) (k : fat_type) (T : Z -> Z) (fd : Z) (x : sft) (cs : list Z).
Hypothesis Hop : opened s l u p d k T fd x cs.
Hypothesis Hwr : writable s d x cs.
Hypothesis Hda : data_area d.
Hypothesis Hlay : laid_out d.
Hypothesis Hfd : 0 <= fd < 255.

Notation pos := (sft_posit x).

(** The fnode when the write begins. *)
Definition marked (n : f_node) : f_node :=
  set_f_flags (clear (f_flags n) (Z.lor SFT_FCLEAN SFT_FDATE))
    (set_f_dir (set_dir_attrib (Z.lor (dir_attrib (f_dir n)) D_ARCHIVE) (f_dir n)) n).
Definition n_w : f_node := marked (fetched d fd x (fn0 (fs s))).
Definition s_w : kst := set_fs (set_fn0 n_w (fs s)) s.

Lemma n_w_facts :
  f_offset n_w = pos /\ dir_size (f_dir n_w) = sft_size x /\ getdstart d (f_dir n_w) = sft_stclust x /\
  f_cluster n_w = sft_cuclust x /\ f_cluster_offset n_w = relclust x /\ f_dpb n_w = p /\ f_sft_idx n_w = fd.
Proof.
  assert (Hst : getdstart d (f_dir n_w) = getdstart d (setdstart d (sft_stclust x) (f_dir n_w))).
  { rewrite dstart_set by (eapply start_fits; [apply Hop|apply Hop]).
    assert (H : getdstart d (f_dir (fetched d fd x (fn0 (fs s)))) = sft_stclust x)
      by (apply dstart_set; eapply start_fits; apply Hop).
    rewrite <- H. unfold n_w, marked, getdstart. by destruct (ISFAT32 d). }
  rewrite dstart_set in Hst by (eapply start_fits; apply Hop).
  split; [done|]. split; [|split; [done|]].
  - unfold n_w, marked, fetched, setdstart. by destruct (ISFAT32 d).
  - split; [done|]. split; [done|]. split; [exact (op_dcb _ _ _ _ _ _ _ _ _ _ Hop)|apply u8_small; lia].
Qed.

Lemma w_start : at_w s l u p d k T cs n_w (sfthead (fs s)) pos s_w l d T cs pos
  (Z.to_nat (relclust x)) (sft_size x) [].
Proof.
  destruct n_w_facts as (F1 & F2 & F3 & F4 & F5 & F6 & F7). destruct Hop as [Ht Hx Hdcb Hp Hs Hch Hf Hat].
  destruct Hwr as [W1 W2 W3]. destruct (fs_spec s l u p d k T (set_fn0 n_w (fs s)) Ht) as [Ht' R].
  assert (Hn : fn0 (fs s_w) = n_w) by done.
  split; rewrite ?Hn, ?F1, ?F2, ?F3, ?F4, ?F5; try done.
  - apply grown_refl.
  - case_decide as E; [by apply W1|]. destruct (Hat E) as (i & Hi1 & Hi2). rewrite Hi2, Nat2Z.id. done.
  - by left.
  - by rewrite patch_none.
Qed.

Lemma rwblock_start_w buffer count mem :
  0 < count -> pos + count < 2 ^ 32 ->
  rwblock fd buffer count XFR_WRITE mem s =
    (let! rc := dos_extend fnode0 false in
     if negb (rc =? SUCCESS) then do! fnode_to_sft fnode0 in kret (0, mem) else
     let! n := fn fnode0 in
     if u32 (f_offset n + count) <? f_offset n then kret (DE_HNDLDSKFULL, mem) else
     let! e := fdpb fnode0 in
     rw_loop (S (Z.to_nat count)) fnode0 XFR_WRITE (dpb_secsize e) (Mm.adjust_far buffer) 0 count count mem) s_w.
Proof.
  intros Hc He. unfold rwblock. rewrite (run_sft_to_fnode s l u p d k T fd x cs Hop).
  change (XFR_WRITE =? XFR_WRITE) with true. cbn iota. unfold dirmod. rewrite !run_assoc, run_fnmod.
  rewrite !run_assoc, run_fnmod, !run_assoc. cbn [fs set_fs].
  rewrite (proj2 (Z.eqb_neq count 0)) by lia.
  match goal with |- _ ?st = _ => change st with s_w end.
  destruct (dos_extend fnode0 false s_w) as [[rc s1]|] eqn:Er; [|unfold kbind; by rewrite Er].
  rewrite !(run_eq _ _ _ _ _ Er), run_ret.
  destruct (negb (rc =? SUCCESS)); [done|]. by rewrite !run_fn, andb_true_r.
Qed.

Lemma write_body buffer count mem :
  0 < count < 65536 -> count <= Z.of_nat (length mem) -> Forall byte (take (Z.to_nat count) mem) ->
  pos + count < 2 ^ 32 ->
  let n := Z.max 0 (Z.min count (room_of d T cs - pos)) in
  exists s1 l1 d1 T1 new i,
    rwblock fd buffer count XFR_WRITE mem s = (do! fnode_to_sft fnode0 in kret (n, mem)) s1 /\
    at_w s l u p d k T cs n_w (sfthead (fs s)) pos s1 l1 d1 T1 (cs ++ new) (pos + n) i
      (Z.max (sft_size x) (Z.min (pos + n) (room_of d T cs))) (take (Z.to_nat n) mem).
Proof.
  intros Hc Hm Hby He n. destruct Hop as [Ht Hx Hdcb Hp Hs Hch Hf Hat].
  pose proof (v_mounted _ _ _ _ _ (r_volume _ _ _ _ _ _ (tb_ready _ _ _ _ _ _ _ Ht))) as Hmt.
  pose proof (r_cache _ _ _ _ _ _ (tb_ready _ _ _ _ _ _ _ Ht)) as Hc0.
  pose proof (tab_max _ _ _ _ _ _ _ Ht) as Hmx.
  assert (Hidx : f_sft_idx n_w <> 0xff) by (destruct n_w_facts as (_ & _ & _ & _ & _ & _ & ->); lia).
  assert (Hdpb : f_dpb n_w = p) by apply n_w_facts.
  assert (Hused : forall c, c ∈ cs -> T c <> FREE).
  { intros c Hin. unfold file_chain in Hch. destruct (decide (cs = [])) as [->|]; [by apply elem_of_nil in Hin|].
    by eapply chain_not_free; [apply Hmx|..]. }
  rewrite rwblock_start_w by lia.
  destruct (dos_extend_w s l u p d k T cs n_w (sfthead (fs s)) pos Hmt Hc0 Hda Hlay Hmx ltac:(lia) Hidx Hdpb Hused
    s_w l d T cs _ _ w_start) as (rc & s1 & l1 & d1 & T1 & new & i & sz & Hr1 & H1 & Hout); [lia|lia|].
  rewrite (run_eq _ _ _ _ _ Hr1). change (room d T cs) with (room_of d T cs) in Hout.
  destruct (rc =? SUCCESS) eqn:Erc; cbn [negb].
  - rewrite run_fn. cbn [fnode_of]. rewrite (aw_off _ _ _ _ _ _ _ _ _ _ _ _ _ _ _ _ _ _ _ _ H1).
    rewrite u32_small by lia. rewrite (proj2 (Z.ltb_ge _ _)) by lia.
    rewrite (run_fdpb_w s l u p d k T cs n_w _ pos Hdpb _ _ _ _ _ _ _ _ _ _ H1).
    rewrite (mt_sec _ _ _ _ (w_mounted _ _ _ _ _ _ _ _ _ _ _ _ _ _ _ _ _ _ _ _ H1)).
    assert (H0 : upto s l u p d k T cs n_w (sfthead (fs s)) pos mem s1 l1 d1 T1 (cs ++ new) i sz 0)
      by (unfold upto; rewrite Z.add_0_r; exact H1).
    destruct (rw_loop_w s l u p d k T cs n_w (sfthead (fs s)) pos Hmt Hc0 Hda Hlay Hmx ltac:(lia) Hidx Hdpb Hused
      mem count ltac:(lia) Hm Hby He (S (Z.to_nat count)) s1 l1 d1 T1 (cs ++ new) i sz (Mm.adjust_far buffer) 0 H0)
      as (m & s2 & l2 & d2 & T2 & new2 & i2 & Hr2 & H2 & Hmn & Hend); try lia.
    rewrite Z.sub_0_r in Hr2. rewrite Hr2. rewrite <- app_assoc in H2.
    pose proof (w_room _ _ _ _ _ _ _ _ _ _ _ Hda Hmx _ _ _ _ _ _ _ _ _ H2) as Hroom.
    pose proof (aw_fits _ _ _ _ _ _ _ _ _ _ _ _ _ _ _ _ _ _ _ _ H2) as Hfit.
    change (room d T cs) with (room_of d T cs) in *.
    assert (Hdone : m = 0 \/ pos + m <= room_of d T cs).
    { destruct (aw_done _ _ _ _ _ _ _ _ _ _ _ _ _ _ _ _ _ _ _ _ H2) as [E|E];
        [apply (f_equal length) in E; rewrite length_take in E; cbn [length] in E; lia|].
      rewrite length_take in E. lia. }
    assert (En : n = m) by (unfold n; lia). rewrite En.
    assert (Esz : Z.max sz (pos + m) = Z.max (sft_size x) (Z.min (pos + m) (room_of d T cs))) by lia.
    rewrite <- Esz. by exists s2, l2, d2, T2, (new ++ new2), i2.
  - destruct Hout as [-> Hle].
    pose proof (w_room _ _ _ _ _ _ _ _ _ _ _ Hda Hmx _ _ _ _ _ _ _ _ _ w_start) as Hroom.
    change (room d T cs) with (room_of d T cs) in Hroom.
    assert (En : n = 0) by (unfold n; lia). rewrite En, Z.add_0_r.
    assert (Esz : room_of d T cs = Z.max (sft_size x) (Z.min pos (room_of d T cs))) by lia.
    rewrite <- Esz. by exists s1, l1, d1, T1, new, i.
Qed.
End Call.

Lemma rest_entry d fd x e n m d1 :
  rest m = rest n -> n = marked (fetched d fd x e) -> rewritten_entry x (stored d1 m x).
Proof.
  intros E ->. unfold rest in E. injection E as E1 E2 E3 E4 E5 E6 E7 E8 E9. unfold rewritten_entry, stored.
  cbn [sft_count sft_mode sft_flags sft_attrib sft_dcb sft_name sft_time sft_date sft_dirsector sft_diridx sft_shroff].
  rewrite E1, E2, E3, E5, E6, E7, E8, E9. unfold marked, fetched, setdstart. by destruct (ISFAT32 d).
Qed.

(** The outcome of a write of [n] bytes of [mem]. *)
Record wrote_file (s : kst) (l : list Z) (u p : Z) (d : dpb) (k : fat_type) (T : Z -> Z) (fd : Z) (x : sft)
  (cs : list Z) (n : Z) (mem : list Z) (s' : kst) (l' : list Z) (d' : dpb) (T' : Z -> Z) (new : list Z)
  (y : sft) : Prop := WroteFile {
  wf_opened : opened s' l' u p d' k T' fd y (cs ++ new);
  wf_writable : writable s' d' y (cs ++ new);
  wf_geo : geo d' = geo d;
  wf_counts : counts d T -> counts d' T';
  wf_posit : sft_posit y = sft_posit x + n;
  wf_size : sft_size y = Z.max (sft_size x) (Z.min (sft_posit x + n) (room_of d T cs));
  wf_entry : rewritten_entry x y;
  wf_content : content s' l' d (cs ++ new) = patch (content s l d (cs ++ new)) (sft_posit x) (take (Z.to_nat n) mem);
  wf_new : forall c, c ∈ new -> T c = FREE /\ 2 <= c <= max_cluster d;
  wf_table : forall c, c ∉ cs ++ new -> T' c = T c;
  wf_frame : spread s l s' l' u d (cs ++ new);
  wf_others : forall fd', 0 <= fd' -> fd' <> fd ->
    idx_to_sft (sfthead (fs s')) fd' = idx_to_sft (sfthead (fs s)) fd' }.

Lemma rwblock_write_run s l u p d k T fd x cs buffer count mem :
  opened s l u p d k T fd x cs -> writable s d x cs -> data_area d -> laid_out d -> 0 <= fd < 255 ->
  0 < count < 65536 -> count <= Z.of_nat (length mem) -> Forall byte (take (Z.to_nat count) mem) ->
  sft_posit x + count < 2 ^ 32 ->
  let n := Z.max 0 (Z.min count (room_of d T cs - sft_posit x)) in
  exists s' l' d' T' new y, rwblock fd buffer count XFR_WRITE mem s = Some ((n, mem), s') /\
    wrote_file s l u p d k T fd x cs n mem s' l' d' T' new y.
Proof.
  intros Hop Hwr Hda Hlay Hfd Hc Hm Hby He n.
  destruct (write_body s l u p d k T fd x cs Hop Hwr Hda Hlay Hfd buffer count mem Hc Hm Hby He)
    as (s1 & l1 & d1 & T1 & new & i & Hr & H1). cbv zeta in Hr, H1. fold n in Hr, H1.
  pose proof H1 as [B1 B2 B3 B4 B5 B6 B7 B8 B9 B10 B11 B12 B13 B14 B15 B16 B17].
  destruct (n_w_facts s l u p d k T fd x cs Hop Hfd) as (_ & _ & _ & _ & _ & F6 & F7).
  pose proof (op_size _ _ _ _ _ _ _ _ _ _ Hop) as Hsz. pose proof (op_posit _ _ _ _ _ _ _ _ _ _ Hop) as Hp.
  assert (Hn : 0 <= n <= count) by (unfold n; lia). set (m := fn0 (fs s1)) in *.
  assert (Hidp : f_sft_idx m = fd /\ f_dpb m = p).
  { unfold m. destruct (w_fnode _ _ _ _ _ _ _ _ _ _ _ F6 _ _ _ _ _ _ _ _ _ H1) as [-> ->]. by split. }
  destruct Hidp as [Hidx Hdpb]. destruct B12 as [Htb Hsh].
  destruct (give_back s1 l1 u p d1 k T1 fd m x B1) as (s2 & Hr2 & Ht2 & R2 & Hy & Hoth & Hsh2); try done; [lia|by rewrite Htb; apply Hop|].
  pose proof (tab_max _ _ _ _ _ _ _ (op_tab _ _ _ _ _ _ _ _ _ _ Hop)) as Hmx.
  assert (Hd : forall e, getdstart d1 e = getdstart d e) by (intros e; by apply dstart_geo).
  assert (Hspc : spc d1 = spc d) by (unfold spc; by destruct (mask_geo _ _ B2) as [_ ->]).
  pose proof (roamed_geo _ _ _ _ _ _ _ B2 R2) as R.
  assert (Hrg : ranged d (cs ++ new)) by (intros c Hin; by eapply file_chain_range).
  assert (Hch1 : file_chain d1 T1 (getdstart d1 (f_dir m)) (cs ++ new)).
  { rewrite Hd. eapply file_chain_max; [|exact B6]. by apply max_geo. }
  exists s2, l1, d1, T1, new, (stored d1 m x). split; [by rewrite Hr, (run_eq _ _ _ _ _ Hr2)|].
  destruct B5 as (new' & Enew & Hnew & HT). apply app_inv_head in Enew as <-. split; try done.
  - apply stored_file; try done; rewrite ?B7, ?B8, ?Hspc; try lia.
    intros Hne. exists i. by rewrite decide_False in B10.
  - split; [|congruence|done]. intros E. rewrite decide_True in B10 by done. destruct B10 as [E1 E2].
    split; [done|]. unfold relclust, stored. cbn [sft_relclust sft_relclust_high]. by rewrite E2.
  - by eapply rest_entry.
  - rewrite <- B17. apply content_ext; [apply (spc_pos d Hda)|]. intros q Hq.
    destruct (file_block_fine d (cs ++ new) Hda q Hrg Hq) as (K1 & K2 & K3).
    rewrite <- !(view_geo _ _ d d1 _ B2). apply (ro_frame _ _ _ _ _ _ R u p); [apply B1| |done].
    by rewrite (block_ok_geo d d1).
  - rewrite <- (app_nil_r (cs ++ new)). eapply spread_grow; try done; rewrite ?app_nil_r; try done.
    unfold file_chain in B6. case_decide as E; [rewrite E; constructor|]. by eapply chain_nodup; [apply Hmx|].
  - intros fd' H0 Hne. rewrite Hoth by done. by rewrite Htb.
Qed.

Lemma data_area_geo d d' : geo d' = geo d -> data_area d -> data_area d'.
Proof. intros ->%geo_eq [H1 H2 H3]. split; [exact H1|exact H2|exact H3]. Qed.

Lemma content_geo s l d d' cs : geo d' = geo d -> content s l d' cs = content s l d cs.
Proof. intros ->%geo_eq. reflexivity. Qed.

(** What was written is at its place. *)
Lemma patched_piece C a bs : 0 <= a -> a + Z.of_nat (length bs) <= Z.of_nat (length C) ->
  take (length bs) (drop (Z.to_nat a) (patch C a bs)) = bs.
Proof.
  intros Ha Hl. unfold patch. rewrite drop_app_length' by (rewrite length_take; lia). by rewrite take_app_length.
Qed.
End Spec.

(** C7: [rwblock] in the mode XFR_WRITE on an open file, at any position,
    puts [n] bytes of the user's buffer into the file, [n] being the count or,
    if the volume has less room, what its clusters and all free ones hold
    behind the position.  The content of the file is then the old one with
    those bytes patched in, whatever the mixture of whole runs of sectors
    written straight to the driver, which drops their buffers, and of parts
    of sectors stored through dirty buffers; the chain grew by clusters that
    were free, also from nothing; the size is the largest of the old one and
    the new end; the position moved on.  Nothing else on any drive changed but
    the table and its FSINFO sector, no other cluster's link, and no other
    entry of the table of open files; the file is open and can be written
    again. *)
Theorem rwblock_writes {M : Machine} {D : Disk} s l u p d k T fd x cs buffer count mem
  (Hop : opened s l u p d k T fd x cs) (Hwr : writable s d x cs) (Hda : data_area d) (Hlay : laid_out d)
  (Hfd : 0 <= fd < 255) (Hcnt : 0 < count < 65536) (Hmem : count <= Z.of_nat (length mem))
  (Hby : Forall byte (take (Z.to_nat count) mem)) (Hend : sft_posit x + count < 2 ^ 32) :
  let n := Z.max 0 (Z.min count (room_of d T cs - sft_posit x)) in
  exists s' l' d' T' new y, rwblock fd buffer count XFR_WRITE mem s = Some ((n, mem), s') /\
    opened s' l' u p d' k T' fd y (cs ++ new) /\ writable s' d' y (cs ++ new) /\ geo d' = geo d /\
    (counts d T -> counts d' T') /\ sft_posit y = sft_posit x + n /\
    sft_size y = Z.max (sft_size x) (Z.min (sft_posit x + n) (room_of d T cs)) /\ rewritten_entry x y /\
    content s' l' d (cs ++ new) = patch (content s l d (cs ++ new)) (sft_posit x) (take (Z.to_nat n) mem) /\
    (forall c, c ∈ new -> T c = FREE /\ 2 <= c <= max_cluster d) /\ (forall c, c ∉ cs ++ new -> T' c = T c) /\
    spread s l s' l' u d (cs ++ new) /\
    (forall fd', 0 <= fd' -> fd' <> fd -> idx_to_sft (sfthead (fs s')) fd' = idx_to_sft (sfthead (fs s)) fd').
Proof.
  intros n. destruct (rwblock_write_run s l u p d k T fd x cs buffer count mem Hop Hwr Hda Hlay Hfd Hcnt Hmem Hby Hend)
    as (s' & l' & d' & T' & new & y & Hr & []). by exists s', l', d', T', new, y.
Qed.

Lemma laid16 : laid_out d16.
Proof. vm_compute. intuition congruence. Qed.

Lemma writable16 : writable ks16 d16 sft16 [2; 3; 4].
Proof. split; [done|reflexivity|left; reflexivity]. Qed.

(** From position 100 of a file of 1200 bytes in three clusters: 412 bytes
    through the cache, two sectors straight to the driver, and 64 bytes in a
    fourth cluster. *)
Lemma rwblock_writes_witness :
  exists s' l' d' T' new y,
    rwblock 0 (0x1000, 0) 1500 XFR_WRITE (replicate 2000 7) ks16 = Some ((1500, replicate 2000 7), s') /\
    opened s' l' 1 P16 d' FAT16 T' 0 y ([2; 3; 4] ++ new) /\ sft_posit y = 1600 /\ sft_size y = 1600.
Proof.
  destruct (rwblock_writes ks16 l0 1 P16 d16 FAT16 T16 0 sft16 [2; 3; 4] (0x1000, 0) 1500 (replicate 2000 7))
    as (s' & l' & d' & T' & new & y & H1 & H2 & _ & _ & _ & H3 & H4 & _).
  - exact opened16.
  - exact writable16.
  - exact area16.
  - exact laid16.
  - lia.
  - lia.
  - rewrite length_replicate. lia.
  - apply Forall_take, Forall_replicate. split; [lia|reflexivity].
  - vm_compute. reflexivity.
  - exists s', l', d', T', new, y. split; [|split; [exact H2|split]].
    + etransitivity; [exact H1|]. refine (f_equal (fun n => Some ((n, replicate 2000 7), s')) _). vm_compute. reflexivity.
    + rewrite H3. vm_compute. reflexivity.
    + rewrite H4. vm_compute. reflexivity.
Defined.

(** C8: reading back.  What is written to a file, whatever its position and
    length, is what a read returns after the position was set back by
    [SftSeek]; a write cut short by a full disk is read back as far as it
    went. *)
Theorem write_read_back {M : Machine} {R : Redirector} {D : Disk}
  s l u p d k T fd x cs buffer count mem buffer2 mem2
  (Hop : opened s l u p d k T fd x cs) (Hwr : writable s d x cs) (Hda : data_area d) (Hlay : laid_out d)
  (Hfd : 0 <= fd < 255) (Hcnt : 0 < count < 65536) (Hmem : count <= Z.of_nat (length mem))
  (Hby : Forall byte (take (Z.to_nat count) mem)) (Hend : sft_posit x + count < 2 ^ 32)
  (Hdev : has (sft_flags x) SFT_FDEVICE = false) (Hmem2 : count <= Z.of_nat (length mem2)) :
  let n := Z.max 0 (Z.min count (room_of d T cs - sft_posit x)) in
  exists s',
    (let! r := rwblock fd buffer count XFR_WRITE mem in
     let! _ := SftSeek fd (sft_posit x) SEEK_SET in
     rwblock fd buffer2 (fst r) XFR_READ mem2) s =
      Some ((n, patch mem2 0 (take (Z.to_nat n) mem)), s').
Proof.
  intros n. assert (Hn : 0 <= n <= count) by (unfold n; lia).
  pose proof (op_posit _ _ _ _ _ _ _ _ _ _ Hop) as Hp.
  destruct (rwblock_write_run s l u p d k T fd x cs buffer count mem Hop Hwr Hda Hlay Hfd Hcnt Hmem Hby Hend)
    as (s1 & l1 & d1 & T1 & new & y & Hr1 & [A1 A2 A3 A4 A5 A6 A7 A8 A9 A10 A11 A12]).
  fold n in Hr1, A5, A6, A8. rewrite (run_eq _ _ _ _ _ Hr1). cbn [fst].
  assert (Hdev1 : has (sft_flags y) SFT_FDEVICE = false).
  { destruct A7 as (_ & _ & -> & _). by apply has_cleared. }
  destruct (seek_runs s1 l1 u p d1 k T1 fd y _ (sft_posit x) A1 Hdev1) as (s2 & Hr2 & Hop2 & R2 & _); [lia|lia|].
  rewrite (run_eq _ _ _ _ _ Hr2).
  destruct (rwblock_run s2 l1 u p d1 k T1 fd _ _ buffer2 n mem2 Hop2) as (s3 & l3 & z & Hr3 & _); try lia.
  { apply A2. }
  { rewrite (geo_eq _ _ A3). apply Hlay. }
  { by apply (data_area_geo d). }
  exists s3. rewrite Hr3. cbn [sft_size sft_posit set_sft_posit]. rewrite A6.
  assert (En : Z.max 0 (Z.min n (Z.max (sft_size x) (Z.min (sft_posit x + n) (room_of d T cs)) - sft_posit x)) = n)
    by (unfold n; lia).
  rewrite En. do 4 f_equal.
  rewrite (content_kept s1 l1 s2 l1 u p d1 k T1 (sft_stclust y) (cs ++ new)); [|apply A1|by apply (data_area_geo d)|apply A1|done].
  rewrite (content_geo _ _ _ _ _ A3), A8.
  destruct (decide (n = 0)) as [->|Hn0]; [done|].
  set (bs := take (Z.to_nat n) mem). assert (Hl : length bs = Z.to_nat n) by (unfold bs; rewrite length_take; lia).
  rewrite <- Hl. apply patched_piece; [lia|].
  rewrite length_content; [|apply Hop|done]. pose proof (op_fits _ _ _ _ _ _ _ _ _ _ A1) as Hf.
  assert (Hspc : spc d1 = spc d) by (unfold spc; by destruct (mask_geo _ _ A3) as [_ ->]). rewrite Hspc, A6 in Hf.
  unfold n in *. lia.
Qed.

Lemma write_read_back_witness :
  exists s',
    (let! r := rwblock 0 (0x1000, 0) 1500 XFR_WRITE (replicate 2000 7) in
     let! _ := SftSeek 0 100 SEEK_SET in
     rwblock 0 (0x2000, 0) (fst r) XFR_READ (replicate 1600 9)) ks16 =
      Some ((1500, replicate 1500 7 ++ replicate 100 9), s').
Proof.
  destruct (write_read_back ks16 l0 1 P16 d16 FAT16 T16 0 sft16 [2; 3; 4] (0x1000, 0) 1500 (replicate 2000 7)
    (0x2000, 0) (replicate 1600 9)) as (s' & H).
  - exact opened16.
  - exact writable16.
  - exact area16.
  - exact laid16.
  - lia.
  - lia.
  - rewrite length_replicate. lia.
  - apply Forall_take, Forall_replicate. split; [lia|reflexivity].
  - vm_compute. reflexivity.
  - vm_compute. reflexivity.
  - rewrite length_replicate. lia.
  - exists s'. etransitivity; [exact H|]. refine (f_equal2 (fun n m => Some ((n, m), s')) _ _); vm_compute; reflexivity.
Defined.
End WriteProps.
