(* ===== verification/FcbProps.v ===== *)
(** * Properties of the calls with file control blocks

    Reading records, the numbers of records, and the names that are parsed. *)

From S2P Require Import Prelude Memmgr KState BlockIO FatTab FNode FatAlloc Clock Media FatDir FatFile FatRw.
From S2P Require Import Disk Ring CacheSpec CacheOps FatPure FatSpec FatWrite Table FatChain AllocSpec MapSpec SftSpec DirectIO RwSpec RwProps.
From S2P Require Import RamVol FatProps Frame Path PathProps Handle HandleProps Calls Chario Fcb FcbSpec.
Import Mm Ks Bio Fat FNode Alloc Clk Media Dir File Rw Dsk Ring Cache CacheOps FatPure FatSpec FatWrite Table Chain.
Import AllocSpec MapSpec SftSpec Direct RwSpec RwProps RamVol FatProps Frame Path PathProps Handle HandleProps Calls Chario Fcb FcbSpec FcbName.

Module FcbProps.

(** ** A program to try it on *)

#[export] Instance ram_console : @Console ram := {|
  int28 := fun w => w;
  int29 := fun _ w => w;
  remote_rw := fun _ _ _ l w => (-1, l, w);
  share_access_check := fun _ _ _ _ w => (-1, w);
  stack_word := fun _ => 0;
  stack_at := (0x60, 0) |}.

(** The open file is entry 0, of 1200 bytes; its block asks for record 2 of
    500 bytes. *)
Definition fcb_2 : list Z :=
  [0; 0x41; SPACE; SPACE; SPACE; SPACE; SPACE; SPACE; SPACE; SPACE; SPACE; SPACE] ++ [0; 0] ++ [0xf4; 1] ++
  [0xb0; 4; 0; 0; 0; 0; 0; 0] ++ [0; 0; 0; 0; 0; 0; 0; 0] ++ [2] ++ [0; 0; 0; 0].
Definition con0 : con := Con (zeros 259) None [] false 0 0 1 false 0 0x0a.
Definition fcb_st (m : list Z) (mem : list Z) : @fcbst ram :=
  Fst ram (Cst ram (set_pth (set_kern ks16 (pth hs)) hs) con0) m mem (0x1000, 0x80) 0 (dta hs).

Lemma block_2 : block_at fcb_2 0.
Proof.
  split; [by exists 0|cbn; unfold SIZEOF_FCB; lia|]. unfold fcb_2, SPACE. cbn [app].
  repeat (apply Forall_cons; split; [unfold byte; lia|]). apply Forall_nil_2.
Qed.

Lemma file_2 : fcb_file (fcb_st fcb_2 (replicate 600 7)) l0 1 P16 d16 FAT16 T16 0 sft16 [2; 3; 4] 0 500 0 2.
Proof.
  split.
  - exact opened16.
  - split; [done|done|done|by left].
  - exact block_2.
  - split; [done|done|lia|lia].
  - reflexivity.
  - reflexivity.
  - lia.
  - lia.
  - cbn [udta fcb_st]. rewrite length_replicate. lia.
  - cbn. lia.
  - unfold rec_of. lia.
Qed.

(** ** Records *)

(** C24: reading the next record of an open file by its block puts the bytes of
    the file at the record's place, as many as there are, at the transfer
    address: a whole record gives 0; a part of one is filled up with zeros and
    gives 3; at the end of the file the memory stays as it is and the result
    is 1.  The block counts on to the next record unless nothing was read, and
    nothing else of it changes; the entry of the file is where the read ended,
    and the file shows what it showed. *)
Theorem FcbReadWrite_reads {M : Machine} {Sh : Shell} {R : Redirector} {Cn : Console} {D : Disk}
    (sv : svc) fuel (s : fcbst) l u p d k T fd x cs b r blk c :
  fcb_file s l u p d k T fd x cs b r blk c -> hint_ok d -> capacity d < 2 ^ 32 -> data_area d ->
  let pos := rec_of blk c * r in
  let data := slice (content (kern_of s) l d cs) (sft_size x) pos r in
  let n := Z.of_nat (length data) in
  exists s' l' y, FcbReadWrite sv fuel 1 XFR_READ s =
      Some (Ret (if n =? r then FCB_SUCCESS else if n =? 0 then FCB_ERR_NODATA else FCB_ERR_EOF), s') /\
    udta s' = record_read data r (udta s) /\
    (if n =? 0 then um s' = um s else only_record b (um s) (um s') /\
       exists blk' c', at_record (um s') b blk' c' /\ rec_of blk' c' = (rec_of blk c + 1) mod (65536 * 128)) /\
    opened (kern_of s') l' u p d k T fd y cs /\ sft_posit y = pos + n /\ same_file x y /\
    content (kern_of s') l' d cs = content (kern_of s) l d cs.
Proof.
  intros Hf Hh Hc Hd pos data n.
  destruct (ReadWrite_runs sv fuel s l u p d k T fd x cs b r blk c Hf Hh Hc Hd) as (s' & l' & y & E & H1 & H2 & H3 & H4 & H5 & H6).
  by exists s', l', y.
Qed.

Lemma FcbReadWrite_reads_witness :
  exists s' l' y, FcbReadWrite (knot 0) 0 1 XFR_READ (fcb_st fcb_2 (replicate 600 7)) = Some (Ret FCB_ERR_EOF, s') /\
    udta s' = record_read (replicate 200 0) 500 (replicate 600 7) /\
    opened (kern_of s') l' 1 P16 d16 FAT16 T16 0 y [2; 3; 4] /\ sft_posit y = 1200.
Proof.
  destruct (FcbReadWrite_reads (knot 0) 0 (fcb_st fcb_2 (replicate 600 7)) l0 1 P16 d16 FAT16 T16 0 sft16 [2; 3; 4] 0 500 0 2)
    as (s' & l' & y & H1 & H2 & _ & H4 & H5 & _).
  - exact file_2.
  - left. reflexivity.
  - vm_compute. reflexivity.
  - exact area16.
  - assert (Ed : slice (content (kern_of (fcb_st fcb_2 (replicate 600 7))) l0 d16 [2; 3; 4]) (sft_size sft16) (rec_of 0 2 * 500) 500 = replicate 200 0)
      by (vm_compute; reflexivity).
    rewrite Ed in H1, H2, H5. exists s', l', y. exact (conj H1 (conj H2 (conj H4 H5))).
Defined.

(** the number of a record is kept: what [FcbSetRandom] stores from the
    block and the record in it, [FcbCalcRec] takes apart into the same block
    and record, and the other way round below 2^23, where block numbers end;
    neither changes anything else of the block. *)
Theorem record_numbers_roundtrip {M : Machine} (s : fcbst) b blk c r :
  block_at (um s) b -> at_record (um s) b blk c -> fgetlong (um s) (b + fcb_rndm) = Some r -> 0 <= r < 2 ^ 32 ->
  (exists m m', FcbSetRandom s = Some (Ret tt, set_um m s) /\ FcbCalcRec (set_um m s) = Some (Ret tt, set_um m' (set_um m s)) /\
     at_record m' b blk c /\ fgetlong m' (b + fcb_rndm) = Some (rec_of blk c)) /\
  (exists m m', FcbCalcRec s = Some (Ret tt, set_um m s) /\ FcbSetRandom (set_um m s) = Some (Ret tt, set_um m' (set_um m s)) /\
     only_record b (um s) m /\ fgetlong m' (b + fcb_rndm) = Some (r mod 2 ^ 23)).
Proof.
  intros Hb Ha Hr Hrr. split.
  - destruct (SetRandom_runs b blk c s Hb Ha) as (m & E1 & Hb1 & O1 & G1).
    destruct (CalcRec_runs b (rec_of blk c) (set_um m s) Hb1 G1) as (m' & E2 & Hb2 & [L2 O2] & Ha2).
    { destruct Ha. unfold rec_of. lia. }
    exists m, m'. split; [done|]. split; [done|]. split.
    + assert (H1 : (rec_of blk c / 128) mod 65536 = blk /\ rec_of blk c mod 128 = c) by (destruct Ha; unfold rec_of; split; divmod).
      destruct H1 as [H1 H2]. by rewrite H1, H2 in Ha2.
    + rewrite <- G1. unfold fgetlong, fgetword. unfold fcb_cublock, fcb_curec, fcb_rndm in *. by rewrite !O2 by lia.
  - destruct (CalcRec_runs b r s Hb Hr Hrr) as (m & E1 & Hb1 & O1 & Ha1).
    destruct (SetRandom_runs b _ _ (set_um m s) Hb1 Ha1) as (m' & E2 & Hb2 & O2 & G2).
    exists m, m'. split; [done|]. split; [done|]. split; [done|]. rewrite G2. f_equal. unfold rec_of. divmod.
Qed.

Lemma record_numbers_roundtrip_witness :
  exists m m', FcbSetRandom (fcb_st fcb_2 []) = Some (Ret tt, set_um m (fcb_st fcb_2 [])) /\
     FcbCalcRec (set_um m (fcb_st fcb_2 [])) = Some (Ret tt, set_um m' (set_um m (fcb_st fcb_2 []))) /\
     at_record m' 0 0 2 /\ fgetlong m' (0 + fcb_rndm) = Some 2.
Proof.
  destruct (record_numbers_roundtrip (fcb_st fcb_2 []) 0 0 2 0) as [H _].
  - exact block_2.
  - split; [reflexivity|reflexivity|lia|lia].
  - reflexivity.
  - lia.
  - exact H.
Defined.

(** After 3 records of 20480 bytes were read, the sum that rounds the number of
    records up has 17 bits: none is counted, and the random record number
    stays where it was. *)
Example random_count_wraps :
  match after_transfer 0 61440 61440 20480 (Z.lor XFR_READ XFR_FCB_RANDOM) (fcb_st fcb_2 []) with
  | Some (Ret rc, s') => Some (rc, fgetlong (um s') fcb_rndm)
  | _ => None
  end = Some (FCB_SUCCESS, Some 0).
Proof. vm_compute. reflexivity. Qed.

(** When reading fails, the error is taken for a number of bytes, and zeros
    are written below the transfer address. *)
Lemma read_error_overwrites {M : Machine} (s : fcbst) b :
  fgetword (um s) (b + fcb_recsiz) = Some 128 -> 5 <= udta_off s < 65536 -> after_transfer b 128 DE_ACCESS 128 XFR_READ s = None.
Proof.
  intros Hr Hoff. unfold after_transfer. change (has XFR_READ XFR_FCB_RANDOM && (0 <? 128)) with false. cbn iota. rewrite crun_ret.
  change (u16 (128 - u16 DE_ACCESS)) with 133. change (133 =? 0) with false. cbn iota. rewrite (run_get_mem _ _ _ _ _ Hr).
  change (128 =? 0) with false. cbn iota. rewrite run_fopt. change (has XFR_READ XFR_READ && (0 <? 133 mod 128)) with true. cbn iota.
  rewrite run_fget. replace (u16 (udta_off s + u16 DE_ACCESS) - udta_off s) with (-5) by (change (u16 DE_ACCESS) with 65531; unfold u16; divmod).
  reflexivity.
Qed.

(** ** Names *)

(** C35: what [FcbParseFname] does with a text, for any flags in AL.  [trimmed] is
    the text behind the separators (if AL asks to skip them) and blanks in front.
    A character that is no separator, with a colon behind it, is the drive; the
    number of the drive is stored whether there is one or not.  What [named] says
    follows: one or two dots alone; or a name field of at most eight characters,
    and behind a dot an extension of at most three, each scanned up to a star, a
    separator, the end of the text or its size, upper-cased by the code page (one
    with direct upper case) and filled up with blanks, or behind a star with
    question marks.  The result says whether there were wild cards or a drive
    that there is not (only the dots always give 0), and the parser stops behind
    the name.  The block number and the record size are 0; bytes 16 and up of the
    block do not change, nor the drive (AL bit 1) and the extension (bit 3) that
    are not in the text.  ([named_total]: every text is one that is named.) *)
Theorem FcbParseFname_correct {M : Machine} {Sh : Shell} s mode drv number bad text name nm ext code rest (fcb : list Z) :
  trimmed mode text = drive_text drv ++ name -> drive_typed s drv number bad name ->
  named s bad (old_name mode fcb) name nm ext code rest -> 37 <= Z.of_nat (length fcb) ->
  exists fcb', FcbParseFname mode text fcb s = Some ((code, rest, fcb'), s) /\ parsed mode drv fcb number nm ext fcb'.
Proof. apply Parse_runs. Qed.

(** ";a:d?*.c X", with the separators skipped: drive A:, "D???????" and "C". *)
Lemma FcbParseFname_correct_witness :
  exists fcb', FcbParseFname PARSE_SKIP_LEAD_SEP [0x3b; 0x61; COLON; 0x64; QUESTION; STAR; DOT; 0x63; 0x20; 0x58] fcb_2 ps =
      Some ((PARSE_RET_WILD, [0x20; 0x58], fcb'), ps) /\
    parsed PARSE_SKIP_LEAD_SEP (Some 0x61) fcb_2 1 (0x44 :: replicate 7 QUESTION) (Some [0x43; SPACE; SPACE]) fcb'.
Proof.
  refine (FcbParseFname_correct ps PARSE_SKIP_LEAD_SEP (Some 0x61) 1 false _
    [0x64; QUESTION; STAR; DOT; 0x63; 0x20; 0x58] _ _ _ _ fcb_2 _ _ _ _).
  - reflexivity.
  - exists 0x41, (Some cds_a). split; [reflexivity|]. split; [split; reflexivity|].
    split; [reflexivity|]. split; reflexivity.
  - refine (Name_ext ps false _ _ [0x64; QUESTION] true [0x44; QUESTION] [0x63; 0x20; 0x58] [0x63] false [0x43] _ _ _ _ _ _).
    + discriminate.
    + split; [reflexivity|repeat constructor; (reflexivity || discriminate)|cbn; lia|cbn; lia].
    + split; reflexivity.
    + split; [reflexivity|repeat constructor; (reflexivity || discriminate)|cbn; lia|right; reflexivity].
    + split; reflexivity.
  - cbn. lia.
Defined.
End FcbProps.
