(* ===== verification/E820.v ===== *)
(** * The memory map of the BIOS (seabios/src/e820map.c)

    The list of memory ranges that INT 15h/E820h reports.  [e820_add] keeps it
    sorted, without overlaps, and merges ranges of the same type. *)

From S2P Require Import Prelude.

Module E820.

Definition BUILD_MAX_E820 : nat := 128.
Definition E820_RAM := 1.
Definition E820_RESERVED := 2.
Definition E820_ACPI := 3.
Definition E820_NVS := 4.
Definition E820_UNUSABLE := 5.
Definition E820_HOLE := 0xffffffff.

(** An entry; the members are 64, 64 and 32 bits wide. *)
Record e820entry := E820Entry { start : Z; size : Z; type : Z }.
(** [e->start + e->size] *)
Definition e_end (e : e820entry) : Z := u64 (start e + size e).

(** [e820_list], as far as [e820_count]. *)
Notation e820_list := (list e820entry) (only parsing).

Definition remove_e820 (i : nat) (l : e820_list) : e820_list := delete i l.
Definition insert_e820 (i : nat) (s sz t : Z) (l : e820_list) : e820_list :=
  if (BUILD_MAX_E820 <=? length l)%nat then l else take i l ++ E820Entry s sz t :: drop i l.

(** The position of the new range from [i] on: the position, the range, which
    grows when it is merged with a lower one, and the list, in which an entry
    is split. *)
Fixpoint find_place (fuel i : nat) (s sz t : Z) (l : e820_list) : nat * Z * Z * e820_list :=
  match fuel, l !! i with
  | S fuel, Some e =>
      if e_end e <? s then find_place fuel (S i) s sz t l
      else if start e <? s then
        if t =? type e then (i, start e, u64 (sz + (s - start e)), l)
        else
          let l' := <[i := E820Entry (start e) (u64 (s - start e)) (type e)]> l in
          let end_ := u64 (s + sz) in
          (S i, s, sz, if end_ <? e_end e then insert_e820 (S i) end_ (u64 (e_end e - end_)) (type e) l' else l')
      else (i, s, sz, l)
  | _, _ => (i, s, sz, l)
  end.

(** The entries from [i] on that overlap are removed or cut; the new size. *)
Fixpoint clear_place (fuel i : nat) (end_ sz t : Z) (l : e820_list) : Z * e820_list :=
  match fuel, l !! i with
  | S fuel, Some e =>
      if end_ <? start e then (sz, l)
      else if e_end e <=? end_ then clear_place fuel i end_ sz t (remove_e820 i l)
      else
        let e' := E820Entry end_ (u64 (e_end e - end_)) (type e) in
        if t =? type e then (u64 (sz + size e'), remove_e820 i (<[i := e']> l))
        else (sz, <[i := e']> l)
  | _, _ => (sz, l)
  end.

(** The end of the range is the one at the call, also after a merge. *)
Definition e820_add (s sz t : Z) (l : e820_list) : e820_list :=
  if sz =? 0 then l else
  let end_ := u64 (s + sz) in
  let '(i, s, sz, l) := find_place (length l) 0 s sz t l in
  let '(sz, l) := clear_place (length l) i end_ sz t l in
  if negb (t =? E820_HOLE) then insert_e820 i s sz t l else l.

Definition e820_remove (s sz : Z) (l : e820_list) : e820_list := e820_add s sz E820_HOLE l.

Definition e820_is_used (s sz : Z) (l : e820_list) : bool :=
  existsb (fun e => negb (u64 (s + sz) <=? start e) && negb (e_end e <=? s)) l.
End E820.
