(* ===== verification/E820Props.v ===== *)
(** * The memory map as a function

    A sorted list of ranges without overlaps is a function from addresses to
    types; adding a range is an update of that function.
    The second module, E820Props, states what the BIOS relies on. *)

From stdpp Require Import sorting.
From S2P Require Import Prelude.
From S2P Require Import E820.
Import E820.
#[local] Open Scope Z_scope.

Module E820Spec.

(** ** Maps *)

Definition stop (e : e820entry) : Z := start e + size e.
Definition entry_ok (e : e820entry) : Prop :=
  0 <= start e /\ 0 < size e /\ stop e < 2 ^ 64 /\ 0 <= type e < E820_HOLE.

(** [e'] is behind [e], and does not continue it. *)
Definition apart (e e' : e820entry) : Prop :=
  stop e <= start e' /\ (stop e = start e' -> type e <> type e').
Definition canonical (l : e820_list) : Prop := Forall entry_ok l /\ StronglySorted apart l.

Definition covers (e : e820entry) (x : Z) : bool := (start e <=? x) && (x <? stop e).
(** The type of an address. *)
Fixpoint type_at (l : e820_list) (x : Z) : option Z :=
  match l with [] => None | e :: l => if covers e x then Some (type e) else type_at l x end.

(** The same as a relation. *)
Definition typed (l : e820_list) (x u : Z) : Prop := exists e, e ∈ l /\ start e <= x < stop e /\ type e = u.

Lemma covers_spec e x : covers e x = true <-> start e <= x < stop e.
Proof. unfold covers. rewrite andb_true_iff, Z.leb_le, Z.ltb_lt. lia. Qed.

Lemma e_end_stop e : entry_ok e -> e_end e = stop e.
Proof. intros (H1 & H2 & H3 & _). unfold e_end, stop, u64 in *. apply Z.mod_small. lia. Qed.
Lemma ok_size e : entry_ok e -> start e < stop e.
Proof. intros (H1 & H2 & H3 & _). unfold stop. lia. Qed.

Lemma typed_nil x u : typed [] x u <-> False.
Proof. split; [|done]. intros (e & He & _). by apply elem_of_nil in He. Qed.
Lemma typed_cons e l x u : typed (e :: l) x u <-> (start e <= x < stop e /\ type e = u) \/ typed l x u.
Proof.
  unfold typed. setoid_rewrite elem_of_cons. split.
  - intros (e' & [->|He] & H); [by left|right; eauto].
  - intros [H|(e' & He & H)]; [exists e; auto|exists e'; auto].
Qed.
Lemma typed_app p q x u : typed (p ++ q) x u <-> typed p x u \/ typed q x u.
Proof. induction p as [|e p IH]; cbn [app]; [rewrite typed_nil; tauto|]. rewrite !typed_cons, IH. tauto. Qed.

Lemma canonical_cons e l : canonical (e :: l) <-> entry_ok e /\ (forall e', e' ∈ l -> apart e e') /\ canonical l.
Proof.
  unfold canonical. rewrite Forall_cons, StronglySorted_cons, (list.Forall_forall (apart e)). tauto.
Qed.
Lemma canonical_app p q :
  canonical (p ++ q) <-> canonical p /\ canonical q /\ forall e e', e ∈ p -> e' ∈ q -> apart e e'.
Proof.
  induction p as [|e p IH]; cbn [app].
  - split; [intros H; split_and!; [by split; constructor|done|by intros ?? ?%elem_of_nil]|tauto].
  - rewrite !canonical_cons, IH. setoid_rewrite elem_of_app. setoid_rewrite elem_of_cons. split.
    + intros (H1 & H2 & H3 & H4 & H5). split_and!; auto. intros e1 e2 [->|H] ?; auto.
    + intros ((H1 & H2 & H3) & H4 & H5). split_and!; auto. intros e2 [?|?]; auto.
Qed.
Lemma canonical_nil : canonical [].
Proof. by split; constructor. Qed.
#[local] Hint Resolve canonical_nil : core.

Lemma canonical_entry l e : canonical l -> e ∈ l -> entry_ok e.
Proof. intros [H _] He. rewrite Forall_forall in H. auto. Qed.

Lemma typed_behind e l x u : canonical (e :: l) -> typed l x u -> stop e <= x.
Proof.
  intros (He & Hb & Hl)%canonical_cons (e' & He' & H & _). destruct (Hb e' He'). lia.
Qed.
Lemma type_at_typed l x u : canonical l -> type_at l x = Some u <-> typed l x u.
Proof.
  induction l as [|e l IH]; intros Hc; cbn [type_at]; [by rewrite typed_nil|].
  pose proof (fun x u => typed_behind e l x u Hc) as Hb. apply canonical_cons in Hc as (He & _ & Hc).
  rewrite typed_cons. destruct (covers e x) eqn:E.
  - apply covers_spec in E. split; [intros [= <-]; by left|]. intros [[_ <-]|H]; [done|]. apply Hb in H. lia.
  - rewrite IH by done. split; [by right|]. intros [[H _]|H]; [|done]. apply covers_spec in H. congruence.
Qed.
Lemma typed_unique l x u v : canonical l -> typed l x u -> typed l x v -> u = v.
Proof. intros Hc H1 H2. apply type_at_typed in H1, H2; [|done..]. congruence. Qed.

Lemma typed_above_start e l x u : canonical (e :: l) -> typed (e :: l) x u -> start e <= x.
Proof.
  intros Hc [[H _]|H]%typed_cons; [lia|]. pose proof (typed_behind _ _ _ _ Hc H).
  apply canonical_cons in Hc as (He & _). apply ok_size in He. lia.
Qed.

(** ** Adding as a function on lists *)

(** What is before the new range, the range, and the rest. *)
Fixpoint place (s sz t : Z) (l : e820_list) : e820_list * Z * Z * e820_list :=
  match l with
  | [] => ([], s, sz, [])
  | e :: l' =>
      if stop e <? s then let '(p, s', sz', q) := place s sz t l' in (e :: p, s', sz', q)
      else if start e <? s then
        if t =? type e then ([], start e, sz + (s - start e), l)
        else ([E820Entry (start e) (s - start e) (type e)], s, sz,
              if s + sz <? stop e then E820Entry (s + sz) (stop e - (s + sz)) (type e) :: l' else l')
      else ([], s, sz, l)
  end.

Fixpoint clear_from (end_ sz t : Z) (q : e820_list) : Z * e820_list :=
  match q with
  | [] => (sz, [])
  | e :: q' =>
      if end_ <? start e then (sz, q)
      else if stop e <=? end_ then clear_from end_ sz t q'
      else if t =? type e then (sz + (stop e - end_), q')
      else (sz, E820Entry end_ (stop e - end_) (type e) :: q')
  end.

(** What [place] does. *)
Record placed (s sz t : Z) (l p : e820_list) (s' sz' : Z) (q : e820_list) : Prop := Placed {
  pl_low : canonical p;
  pl_high : canonical q;
  pl_sub : forall e, e ∈ p -> exists e', e' ∈ l /\ start e = start e' /\ type e = type e';
  pl_before : forall e, e ∈ p -> stop e <= s' /\ (stop e = s' -> type e <> t);
  pl_start : 0 <= s' <= s;
  pl_from : s' = s \/ exists e, e ∈ l /\ start e = s' /\ type e = t;
  pl_end : s' + sz' = s + sz;
  pl_below : forall x u, x < s' -> typed l x u <-> typed p x u;
  pl_merged : forall x, s' <= x < s -> typed l x t;
  pl_above : forall x u, s + sz <= x -> typed l x u <-> typed q x u }.

Ltac e820 := unfold entry_ok, apart, stop in *; cbn [start size type] in *; lia.

Lemma placed_here s sz t l :
  canonical l -> 0 <= s -> (forall e, e ∈ l -> s <= start e) -> placed s sz t l [] s sz l.
Proof.
  intros Hl Hs Hb. split; auto; try lia; try by intros ? ?%elem_of_nil.
  intros x u Hx. rewrite typed_nil. split; [|done]. intros (e & He & H & _). specialize (Hb e He). lia.
Qed.

Lemma placed_skip e s sz t l p s' sz' q :
  canonical (e :: l) -> stop e < s -> 0 < sz -> placed s sz t l p s' sz' q -> placed s sz t (e :: l) (e :: p) s' sz' q.
Proof.
  intros Hc Hes Hsz [P1 P2 P3 P4 P5 P6 P7 P8 P9 P10]. pose proof (fun x u => typed_behind e l x u Hc) as Hb.
  apply canonical_cons in Hc as (He & Hap & Hc).
  assert (Hs' : stop e <= s' /\ (stop e = s' -> type e <> t)).
  { destruct P6 as [->|(e2 & H2 & <- & <-)]; [lia|by apply Hap]. }
  split; auto.
  - apply canonical_cons. split_and!; auto. intros e' (e2 & H2 & H3 & H4)%P3. destruct (Hap e2 H2). unfold apart. by rewrite H3, H4.
  - intros e' [->|H]%elem_of_cons; [exists e; rewrite elem_of_cons; auto|].
    destruct (P3 e' H) as (e2 & H2 & H3). exists e2. rewrite elem_of_cons. auto.
  - intros e' [->|H]%elem_of_cons; auto.
  - destruct P6 as [?|(e2 & H2 & H3)]; [by left|right; exists e2; rewrite elem_of_cons; auto].
  - intros x u Hx. rewrite !typed_cons, P8 by done. done.
  - intros x Hx. apply typed_cons. right. by apply P9.
  - intros x u Hx. rewrite typed_cons, <- P10 by done. split; [intros [?|?]; [lia|done]|by right].
Qed.

Lemma placed_merge e s sz t l :
  canonical (e :: l) -> start e < s -> s <= stop e -> type e = t -> 0 < sz ->
  placed s sz t (e :: l) [] (start e) (sz + (s - start e)) (e :: l).
Proof.
  intros Hc H1 H2 <- Hsz. pose proof (canonical_entry _ e Hc ltac:(left)) as He.
  split; auto; try (by intros ? ?%elem_of_nil); try e820.
  - right. exists e. split; [left|done].
  - intros x u Hx. rewrite typed_nil. split; [|done]. intros H%typed_above_start; [lia|done].
  - intros x Hx. apply typed_cons. left. split; [lia|done].
Qed.

Lemma placed_split e s sz t l :
  canonical (e :: l) -> start e < s -> s <= stop e -> type e <> t -> 0 < sz ->
  placed s sz t (e :: l) [E820Entry (start e) (s - start e) (type e)] s sz
    (if s + sz <? stop e then E820Entry (s + sz) (stop e - (s + sz)) (type e) :: l else l).
Proof.
  intros Hc H1 H2 Ht Hsz. pose proof (fun x u => typed_behind e l x u Hc) as Hb.
  pose proof Hc as (He & Hap & Hl)%canonical_cons.
  split; auto.
  - apply canonical_cons. split_and!; [e820| |done]. by intros ? ?%elem_of_nil.
  - destruct (s + sz <? stop e) eqn:E; zbool; [|done]. apply canonical_cons. split_and!; [e820| |done].
    intros e' H'. specialize (Hap e' H'). e820.
  - intros e' [->|?%elem_of_nil]%elem_of_cons; [|done]. exists e. split; [left|done].
  - intros e' [->|?%elem_of_nil]%elem_of_cons; [|done]. split; [e820|done].
  - e820.
  - intros x u Hx. rewrite !typed_cons, typed_nil. split; [intros [H|H%Hb]; [left; e820|lia]|intros [H|[]]; left; e820].
  - intros x Hx. lia.
  - intros x u Hx. rewrite typed_cons. destruct (s + sz <? stop e) eqn:E; zbool.
    + rewrite typed_cons. split; (intros [H|H]; [left; e820|by right]).
    + split; [intros [H|H]; [lia|done]|by right].
Qed.

Lemma place_spec s sz t l :
  canonical l -> 0 <= s -> 0 < sz -> let '(p, s', sz', q) := place s sz t l in placed s sz t l p s' sz' q.
Proof.
  intros Hl Hs Hsz. induction l as [|e l IH]; cbn [place]; [apply placed_here; auto; by intros ? ?%elem_of_nil|].
  destruct (stop e <? s) eqn:E1; zbool.
  - pose proof Hl as (_ & _ & H)%canonical_cons. specialize (IH H).
    destruct (place s sz t l) as [[[p s'] sz'] q]. by apply placed_skip.
  - destruct (start e <? s) eqn:E2; zbool.
    + destruct (t =? type e) eqn:E3; zbool; [by apply placed_merge|apply placed_split; auto].
    + apply placed_here; auto. pose proof Hl as (He & Hap & _)%canonical_cons.
      intros e' [->|H]%elem_of_cons; [done|]. specialize (Hap e' H). e820.
Qed.

(** What [clear_from] does: [d] bytes of the next entry are taken. *)
Record cleared (end_ t : Z) (q : e820_list) (d : Z) (q' : e820_list) : Prop := Cleared {
  cl_high : canonical q';
  cl_more : 0 <= d;
  cl_behind : forall e, e ∈ q' -> end_ + d <= start e /\ (end_ + d = start e -> type e <> t);
  cl_typed : forall x u, end_ <= x -> typed q x u <-> (x < end_ + d /\ u = t) \/ typed q' x u }.

Lemma clear_spec end_ sz t q :
  canonical q -> 0 <= end_ -> exists d, (clear_from end_ sz t q).1 = sz + d /\ cleared end_ t q d (clear_from end_ sz t q).2.
Proof.
  intros Hq Hend. induction q as [|e q IH]; cbn [clear_from].
  { exists 0. split; [cbn; lia|]. split; [done|lia|by intros ? ?%elem_of_nil|]. cbn. intros x u Hx. rewrite typed_nil. lia. }
  pose proof (fun x u => typed_behind e q x u Hq) as Hb. pose proof Hq as (He & Hap & Hc)%canonical_cons.
  destruct (end_ <? start e) eqn:E1; zbool; [|destruct (stop e <=? end_) eqn:E2; zbool; [|destruct (t =? type e) eqn:E3; zbool]].
  - exists 0. split; [cbn; lia|]. cbn [snd]. split; [done|lia| |].
    + intros e' [->|H]%elem_of_cons; [lia|]. specialize (Hap e' H). e820.
    + intros x u Hx. split; [by right|]. intros [?|?]; [lia|done].
  - destruct (IH Hc) as (d & H1 & [H2 H3 H4 H5]). exists d. split; [done|]. split; auto.
    intros x u Hx. rewrite <- H5, typed_cons by done. split; [intros [?|?]; [lia|done]|by right].
  - exists (stop e - end_). split; [done|]. cbn [snd]. split; [done|lia| |].
    + intros e' H. subst t. specialize (Hap e' H). unfold apart in Hap. replace (end_ + _) with (stop e) by lia.
      destruct Hap. split; [done|]. intros H' H''. by apply H1.
    + intros x u Hx. rewrite typed_cons. split; (intros [H|H]; [left; e820|by right]).
  - exists 0. split; [cbn; lia|]. cbn [snd]. split; [|lia| |].
    + apply canonical_cons. split_and!; [e820| |done]. intros e' H. specialize (Hap e' H). e820.
    + intros e' [->|H]%elem_of_cons; [cbn; split; [lia|auto]|]. specialize (Hap e' H). e820.
    + intros x u Hx. rewrite !typed_cons. split; [intros [H|H]; [right; left; e820|by right; right]|].
      intros [H|[H|H]]; [lia|left; e820|by right].
Qed.
(** ** The loops over the array *)

Lemma insert_middle (p q : e820_list) e e' : <[length p := e']> (p ++ e :: q) = p ++ e' :: q.
Proof. rewrite insert_app_r_alt by lia. by rewrite Nat.sub_diag. Qed.
Lemma insert_e820_middle p q s sz t :
  (length p + length q < BUILD_MAX_E820)%nat -> insert_e820 (length p) s sz t (p ++ q) = p ++ E820Entry s sz t :: q.
Proof.
  intros H. unfold insert_e820. rewrite (proj2 (Nat.leb_gt _ _)) by (rewrite length_app; lia).
  by rewrite take_app_length, drop_app_length.
Qed.
Lemma u64_id x : 0 <= x < 2 ^ 64 -> u64 x = x.
Proof. apply Z.mod_small. Qed.

Lemma find_place_place fuel pre l s sz t :
  canonical l -> 0 <= s -> 0 < sz -> s + sz < 2 ^ 64 -> (length l <= fuel)%nat ->
  (length pre + length l < BUILD_MAX_E820)%nat ->
  find_place fuel (length pre) s sz t (pre ++ l) =
    let '(p, s', sz', q) := place s sz t l in ((length pre + length p)%nat, s', sz', pre ++ p ++ q).
Proof.
  intros Hl Hs Hsz Hend Hf Hm. revert pre fuel Hf Hm.
  induction l as [|e l IH]; intros pre fuel Hf Hm; cbn [place].
  - cbn [app length]. rewrite !app_nil_r, Nat.add_0_r. destruct fuel; cbn [find_place]; [done|].
    by rewrite (lookup_ge_None_2 pre (length pre)) by done.
  - destruct fuel as [|fuel]; [cbn in Hf; lia|]. cbn [find_place length] in *. rewrite list_lookup_middle by done.
    pose proof Hl as (He & Hap & Hc)%canonical_cons. rewrite e_end_stop by done.
    destruct (stop e <? s) eqn:E1; zbool.
    + specialize (IH Hc (pre ++ [e]) fuel ltac:(lia)). rewrite length_app in IH. cbn [length] in IH.
      rewrite Nat.add_1_r, <- app_assoc in IH. cbn [app] in IH. rewrite IH by lia.
      destruct (place s sz t l) as [[[p s'] sz'] q]. rewrite <- app_assoc. do 3 f_equal. cbn [length]. lia.
    + destruct (start e <? s) eqn:E2; zbool; [|by rewrite Nat.add_0_r].
      destruct (t =? type e) eqn:E3; zbool.
      { rewrite u64_id by e820. by rewrite Nat.add_0_r. }
      rewrite insert_middle, (u64_id (s + sz)), (u64_id (s - start e)) by e820. cbn [length]. rewrite Nat.add_1_r. f_equal.
      destruct (s + sz <? stop e) eqn:E4; zbool; [|done]. rewrite u64_id by e820.
      set (c := E820Entry (start e) _ _). rewrite (cons_middle c pre l), app_assoc.
      replace (S (length pre)) with (length (pre ++ [c])) by (rewrite length_app; cbn; lia).
      rewrite insert_e820_middle by (rewrite length_app; cbn; lia). by rewrite <- app_assoc.
Qed.

Lemma clear_place_from fuel pre q end_ sz t :
  canonical q -> 0 < sz <= end_ -> end_ < 2 ^ 64 -> (length q <= fuel)%nat ->
  clear_place fuel (length pre) end_ sz t (pre ++ q) =
    let '(sz', q') := clear_from end_ sz t q in (sz', pre ++ q').
Proof.
  intros Hq Hsz Hend. revert fuel. induction q as [|e q IH]; intros fuel Hf; cbn [clear_from].
  - rewrite app_nil_r. destruct fuel; cbn [clear_place]; [done|]. by rewrite (lookup_ge_None_2 pre (length pre)) by done.
  - destruct fuel as [|fuel]; [cbn in Hf; lia|]. cbn [clear_place length] in *. rewrite list_lookup_middle by done.
    pose proof Hq as (He & Hap & Hc)%canonical_cons. rewrite e_end_stop by done.
    destruct (end_ <? start e) eqn:E1; zbool; [done|]. unfold remove_e820. cbn [size].
    destruct (stop e <=? end_) eqn:E2; zbool; [rewrite delete_middle; apply IH; [done|lia]|].
    rewrite insert_middle, delete_middle, (u64_id (stop e - end_)), u64_id by e820. by destruct (t =? type e) eqn:E3.
Qed.

Lemma place_length s sz t l : let '(p, _, _, q) := place s sz t l in (length p + length q <= length l + 1)%nat.
Proof.
  induction l as [|e l IH]; cbn [place]; [cbn; lia|]. destruct (stop e <? s); [|destruct (start e <? s)].
  - destruct (place s sz t l) as [[[p s'] sz'] q]. cbn [length]. lia.
  - destruct (t =? type e); cbn [length]; [lia|]. destruct (s + sz <? stop e); cbn [length]; lia.
  - cbn [length]. lia.
Qed.
Lemma clear_length end_ sz t q : (length (clear_from end_ sz t q).2 <= length q)%nat.
Proof.
  induction q as [|e q IH]; cbn [clear_from]; [done|]. destruct (end_ <? start e); [done|].
  destruct (stop e <=? end_); [cbn [length]; lia|]. destruct (t =? type e); cbn [snd length]; lia.
Qed.

(** The range that [e820_add] inserts, if it is not a hole. *)
Definition added (s sz t : Z) : e820_list := if t =? E820_HOLE then [] else [E820Entry s sz t].

(** The whole of [e820_add]: what stays below, the new range and what stays above. *)
Lemma e820_add_parts s sz t l :
  canonical l -> 0 <= s -> 0 < sz -> s + sz < 2 ^ 64 -> (length l + 2 <= BUILD_MAX_E820)%nat ->
  exists p s' sz' q d q', placed s sz t l p s' sz' q /\ cleared (s + sz) t q d q' /\
    (length p + length q' <= length l + 1)%nat /\ e820_add s sz t l = p ++ added s' (sz' + d) t ++ q'.
Proof.
  intros Hl Hs Hsz Hend Hlen. pose proof (place_spec s sz t l Hl Hs Hsz) as P.
  pose proof (find_place_place (length l) [] l s sz t Hl Hs Hsz Hend ltac:(lia) ltac:(cbn; lia)) as F.
  pose proof (place_length s sz t l) as L.
  unfold e820_add. rewrite (proj2 (Z.eqb_neq sz 0)), u64_id by lia. cbn [length app] in F. rewrite F. clear F.
  destruct (place s sz t l) as [[[p s'] sz'] q]. pose proof P as [P1 P2 P3 P4 P5 P6 P7 _ _ _].
  destruct (clear_spec (s + sz) sz' t q P2 ltac:(lia)) as (d & H1 & C).
  pose proof (clear_length (s + sz) sz' t q) as L'. cbn [Nat.add].
  exists p, s', sz', q, d, (clear_from (s + sz) sz' t q).2. split; [done|]. split; [done|]. split; [lia|].
  assert (Hclear : forall fuel, (length q <= fuel)%nat -> clear_place fuel (length p) (s + sz) sz' t (p ++ q) =
    (sz' + d, p ++ (clear_from (s + sz) sz' t q).2)).
  { intros fuel Hf. rewrite clear_place_from; [|done|lia|lia|done]. destruct (clear_from _ _ _ _) as [z q']. cbn in H1 |- *. by subst z. }
  rewrite Hclear by (rewrite length_app; lia). unfold added.
  destruct (t =? E820_HOLE); cbn [negb]; [done|]. rewrite insert_e820_middle by lia. done.
Qed.

(** ** What adding promises *)

(** The update of a map on a range. *)
Definition range_set (s sz t : Z) (m : Z -> option Z) (x : Z) : option Z :=
  if (s <=? x) && (x <? s + sz) then (if t =? E820_HOLE then None else Some t) else m x.

Lemma typed_added s sz t x u :
  typed (added s sz t) x u <-> s <= x < s + sz /\ u = t /\ t <> E820_HOLE.
Proof.
  unfold added. destruct (t =? E820_HOLE) eqn:E; zbool; [rewrite typed_nil; tauto|].
  rewrite typed_cons, typed_nil. unfold stop. cbn [start size type].
  split; [intros [[H <-]|[]]; auto|intros (H & -> & _); auto].
Qed.

(** The bytes taken from the next entry are of the type added. *)
Lemma cleared_more end_ t q d q' :
  canonical q -> cleared end_ t q d q' -> d = 0 \/ end_ + d < 2 ^ 64 /\ t < E820_HOLE.
Proof.
  intros Hq [C1 C2 C3 C4]. destruct (Z.eq_dec d 0) as [?|Hd]; [by left|right].
  destruct (proj2 (C4 (end_ + d - 1) t ltac:(lia)) ltac:(left; lia)) as (e & He & Hx & <-).
  pose proof (canonical_entry _ _ Hq He). e820.
Qed.

Lemma joined_canonical s sz t l p s' sz' q d q' :
  0 < sz -> s + sz < 2 ^ 64 -> 0 <= t <= E820_HOLE -> placed s sz t l p s' sz' q -> cleared (s + sz) t q d q' ->
  canonical (p ++ added s' (sz' + d) t ++ q').
Proof.
  intros Hsz Hend Ht [P1 P2 P3 P4 P5 P6 P7 _ _ _] C. pose proof (cleared_more _ _ _ _ _ P2 C) as Hd. destruct C as [C1 C2 C3 C4].
  assert (Hpq : forall e e', e ∈ p -> e' ∈ q' -> apart e e').
  { intros e e' H%P4 H'%C3. unfold apart. lia. }
  unfold added. destruct (t =? E820_HOLE) eqn:E; zbool; cbn [app]; apply canonical_app; [auto|].
  split_and!; [done| |].
  - apply canonical_cons. split_and!; [e820| |done]. intros e' H%C3. unfold apart, stop. cbn [start size type].
    replace (s' + (sz' + d)) with (s + sz + d) by lia. destruct H as [H1 H2]. split; [done|]. intros H3 H4. by apply H2.
  - intros e e' H [->|H']%elem_of_cons; [|auto]. apply P4 in H. exact H.
Qed.

Lemma joined_typed s sz t l p s' sz' q d q' x u :
  canonical l -> 0 < sz -> 0 <= t <= E820_HOLE -> placed s sz t l p s' sz' q -> cleared (s + sz) t q d q' ->
  typed (p ++ added s' (sz' + d) t ++ q') x u <-> range_set s sz t (type_at l) x = Some u.
Proof.
  intros Hl Hsz Ht [P1 P2 P3 P4 P5 P6 P7 P8 P9 P10] C. pose proof (cleared_more _ _ _ _ _ P2 C) as Hd. destruct C as [C1 C2 C3 C4].
  assert (Hp : typed p x u -> x < s'). { intros (e & H%P4 & H' & _). lia. }
  assert (Hq : typed q' x u -> s + sz + d <= x). { intros (e & H%C3 & H' & _). lia. }
  rewrite !typed_app, typed_added. unfold range_set.
  destruct (decide (s <= x < s + sz)) as [Hin|Hout].
  - rewrite (proj2 (Z.leb_le _ _)), (proj2 (Z.ltb_lt _ _)) by lia. cbn [andb].
    destruct (t =? E820_HOLE) eqn:E; zbool.
    + split; [|done]. intros [H|[H|H]]; [apply Hp in H; lia|tauto|apply Hq in H; lia].
    + split; [|intros [= <-]; right; left; split; [lia|done]].
      intros [H|[(_ & -> & _)|H]]; [apply Hp in H; lia|done|apply Hq in H; lia].
  - assert (E : (s <=? x) && (x <? s + sz) = false) by (apply andb_false_iff; rewrite Z.leb_gt, Z.ltb_ge; lia).
    rewrite E, type_at_typed by done. destruct (decide (x < s')) as [Hx|Hx]; [|destruct (decide (x < s)) as [Hx'|Hx']].
    + rewrite P8 by done. split; [intros [H|[H|H]]; [done|lia|apply Hq in H; lia]|by left].
    + assert (Hm : typed l x t) by (apply P9; lia). split.
      * intros [H|[(_ & -> & _)|H]]; [apply Hp in H; lia|done|apply Hq in H; lia].
      * intros H. assert (u = t) as -> by exact (typed_unique l x u t Hl H Hm). right. left. split; [lia|]. split; [done|].
        destruct Hm as (e & He & _ & <-). apply canonical_entry in He; [|done]. e820.
    + rewrite P10, C4 by lia. split.
      * intros [H|[(H & -> & _)|H]]; [apply Hp in H; lia|left; lia|by right].
      * intros [[H ->]|H]; [right; left; split; [lia|split; [done|lia]]|by right; right].
Qed.

Lemma option_ext (a b : option Z) : (forall u, a = Some u <-> b = Some u) -> a = b.
Proof. intros H. destruct a as [u|]; [symmetry; by apply H|]. destruct b as [u|]; [by apply H|done]. Qed.

Lemma e820_add_runs s sz t l :
  canonical l -> 0 <= s -> 0 < sz -> s + sz < 2 ^ 64 -> 0 <= t <= E820_HOLE -> (length l + 2 <= BUILD_MAX_E820)%nat ->
  canonical (e820_add s sz t l) /\ (length (e820_add s sz t l) <= length l + 2)%nat /\
  forall x, type_at (e820_add s sz t l) x = range_set s sz t (type_at l) x.
Proof.
  intros Hl Hs Hsz Hend Ht Hlen.
  destruct (e820_add_parts s sz t l Hl Hs Hsz Hend Hlen) as (p & s' & sz' & q & d & q' & P & C & L & ->).
  pose proof (joined_canonical _ _ _ _ _ _ _ _ _ _ Hsz Hend Ht P C) as Hc. split; [done|]. split.
  - rewrite !length_app. unfold added. destruct (t =? E820_HOLE); cbn [length]; lia.
  - intros x. apply option_ext. intros u. rewrite type_at_typed by done. by eapply joined_typed.
Qed.

(** ** A map has one list *)

Lemma first_byte e l : canonical (e :: l) -> typed (e :: l) (start e) (type e).
Proof. intros (He%ok_size & _)%canonical_cons. apply typed_cons. left. split; [lia|done]. Qed.

(** The first byte after an entry is not of its type. *)
Lemma after_entry e l : canonical (e :: l) -> ~ typed (e :: l) (stop e) (type e).
Proof.
  intros Hc [[H _]|H]%typed_cons; [lia|]. destruct l as [|e' l]; [by apply typed_nil in H|].
  apply canonical_cons in Hc as (_ & Hap & Hc). destruct (Hap e' ltac:(left)) as [H1 H2].
  pose proof (typed_above_start _ _ _ _ Hc H) as H3. assert (Heq : stop e = start e') by lia.
  apply H2; [done|]. rewrite Heq in H. eapply typed_unique; [exact Hc|exact H|by apply first_byte].
Qed.

Lemma canonical_first e l e' l' :
  canonical (e :: l) -> canonical (e' :: l') -> (forall x u, typed (e :: l) x u <-> typed (e' :: l') x u) -> e = e'.
Proof.
  intros H H' Heq.
  pose proof (proj1 (Heq _ _) (first_byte _ _ H)) as F. pose proof (proj2 (Heq _ _) (first_byte _ _ H')) as F'.
  assert (Hs : start e = start e') by (apply typed_above_start in F, F'; [lia|done..]).
  assert (Ht : type e = type e') by (rewrite Hs in F; eapply typed_unique; [exact H'|exact F|by apply first_byte]).
  assert (Hle : forall e1 l1 e2 l2, canonical (e1 :: l1) -> canonical (e2 :: l2) -> start e1 = start e2 -> type e1 = type e2 ->
    (forall x u, typed (e1 :: l1) x u <-> typed (e2 :: l2) x u) -> stop e2 <= stop e1).
  { intros e1 l1 e2 l2 Hc1 Hc2 Hs1 Ht1 H12. apply Znot_gt_le. intros Hgt. apply (after_entry e1 l1 Hc1). apply H12.
    apply typed_cons. left. pose proof Hc1 as (Ho%ok_size & _)%canonical_cons. split; [lia|done]. }
  assert (Hst : stop e = stop e').
  { apply Z.le_antisymm; [eapply (Hle e' l' e l)|eapply (Hle e l e' l')]; eauto. intros x u. by rewrite Heq. }
  destruct e, e'. unfold stop in Hst. cbn in *. f_equal; [done|lia|done].
Qed.

Lemma canonical_ext l l' : canonical l -> canonical l' -> (forall x, type_at l x = type_at l' x) -> l = l'.
Proof.
  intros Hc Hc' Heq. assert (Ht : forall x u, typed l x u <-> typed l' x u).
  { intros x u. rewrite <- !type_at_typed by done. by rewrite Heq. }
  clear Heq. revert l' Hc' Ht. induction l as [|e l IH]; intros [|e' l'] Hc' Ht; [done| | |].
  - apply first_byte, Ht, typed_nil in Hc'. done.
  - apply first_byte, Ht, typed_nil in Hc. done.
  - assert (e = e') as <- by by eapply canonical_first. f_equal. pose proof Hc as (He & _ & Hl)%canonical_cons.
    pose proof Hc' as (_ & _ & Hl')%canonical_cons. apply IH; [done..|]. intros x u. specialize (Ht x u). rewrite !typed_cons in Ht.
    split; intros H; [pose proof (typed_behind _ _ _ _ Hc H)|pose proof (typed_behind _ _ _ _ Hc' H)];
      [destruct (proj1 Ht ltac:(by right)) as [[? _]|?]|destruct (proj2 Ht ltac:(by right)) as [[? _]|?]]; try lia; done.
Qed.

(** ** Use of a range *)

Lemma used_entry s sz l :
  canonical l -> 0 <= s -> s + sz < 2 ^ 64 -> 0 < sz ->
  e820_is_used s sz l = true <-> exists e, e ∈ l /\ start e < s + sz /\ s < stop e.
Proof.
  intros Hl Hs Hend Hsz. unfold e820_is_used. rewrite existsb_exists. setoid_rewrite <- list_elem_of_In.
  split; intros (e & He & H); exists e; (split; [done|]); revert H; rewrite (e_end_stop e) by (by eapply canonical_entry);
    rewrite u64_id, andb_true_iff, !negb_true_iff, !Z.leb_gt by lia; lia.
Qed.
End E820Spec.

(** * The memory map: what the BIOS relies on

    Adding and removing ranges updates the map and keeps its one sorted list;
    the order of ranges that do not overlap is of no importance. *)

From stdpp Require Import sorting.
From S2P Require Import Prelude.
From S2P Require Import E820.

Import E820 E820Spec.
#[local] Open Scope Z_scope.

Module E820Props.

(** A range that [e820_add] is called with. *)
Definition range_ok (s sz t : Z) : Prop := 0 <= s /\ 0 < sz /\ s + sz < 2 ^ 64 /\ 0 <= t <= E820_HOLE.

(** A list of calls of [e820_add]. *)
Definition add_all (rs : list (Z * Z * Z)) (l : list e820entry) : list e820entry :=
  fold_left (fun l '(s, sz, t) => e820_add s sz t l) rs l.
Definition set_all (rs : list (Z * Z * Z)) (m : Z -> option Z) : Z -> option Z :=
  fold_left (fun m '(s, sz, t) => range_set s sz t m) rs m.

Lemma range_set_ext s sz t m m' : (forall x, m x = m' x) -> forall x, range_set s sz t m x = range_set s sz t m' x.
Proof. intros H x. unfold range_set. by destruct (_ && _). Qed.
Lemma set_all_ext rs m m' : (forall x, m x = m' x) -> forall x, set_all rs m x = set_all rs m' x.
Proof.
  revert m m'. induction rs as [|[[s sz] t] rs IH]; intros m m' H x; [done|]. apply IH. by apply range_set_ext.
Qed.

Lemma add_all_runs rs l :
  canonical l -> Forall (fun '(s, sz, t) => range_ok s sz t) rs -> (length l + 2 * length rs <= BUILD_MAX_E820)%nat ->
  canonical (add_all rs l) /\ forall x, type_at (add_all rs l) x = set_all rs (type_at l) x.
Proof.
  revert l. induction rs as [|[[s sz] t] rs IH]; intros l Hl Hr Hlen; [done|].
  apply Forall_cons in Hr as [(R1 & R2 & R3 & R4) Hr]. cbn [length] in Hlen.
  destruct (e820_add_runs s sz t l Hl R1 R2 R3 R4 ltac:(lia)) as (Hc & HL & Ht).
  destruct (IH _ Hc Hr ltac:(lia)) as [Hc' Ht']. split; [exact Hc'|]. intros x.
  change (type_at (add_all rs (e820_add s sz t l)) x = set_all rs (range_set s sz t (type_at l)) x).
  rewrite Ht'. by apply set_all_ext.
Qed.

(** C30: A sequence of calls of [e820_add] and [e820_remove] (any ranges, overlapping
    or not) that the table has room for leaves the entries sorted, apart and of
    size more than zero, with no two that could be one, and every address has the
    type of the last call whose range it is in, and none after a removal. *)
Theorem e820_add_correct rs l :
  canonical l -> Forall (fun '(s, sz, t) => range_ok s sz t) rs -> (length l + 2 * length rs <= BUILD_MAX_E820)%nat ->
  canonical (add_all rs l) /\ forall x, type_at (add_all rs l) x = set_all rs (type_at l) x.
Proof. apply add_all_runs. Qed.

Definition pc_map : list (Z * Z * Z) :=
  [(0, 0xa0000, E820_RAM); (0x100000, 0x3f00000, E820_RAM); (0x9fc00, 0x400, E820_RESERVED);
   (0xf0000, 0x10000, E820_RESERVED); (0x3fe0000, 0x20000, E820_RESERVED); (0x3ff0000, 0x1000, E820_HOLE)].
Lemma pc_map_ok : Forall (fun '(s, sz, t) => range_ok s sz t) pc_map.
Proof. unfold pc_map. repeat constructor; vm_compute; done. Qed.
Lemma e820_add_correct_witness :
  canonical (add_all pc_map []) /\ forall x, type_at (add_all pc_map []) x = set_all pc_map (type_at []) x.
Proof. refine (e820_add_correct pc_map [] canonical_nil pc_map_ok _). cbn. unfold BUILD_MAX_E820. lia. Defined.

Lemma range_set_comm s sz t s2 sz2 t2 m x :
  s + sz <= s2 \/ s2 + sz2 <= s ->
  range_set s sz t (range_set s2 sz2 t2 m) x = range_set s2 sz2 t2 (range_set s sz t m) x.
Proof.
  intros H. unfold range_set. destruct ((s <=? x) && (x <? s + sz)) eqn:E; [|done].
  apply andb_true_iff in E as [E1 E2]. zbool.
  assert (E : (s2 <=? x) && (x <? s2 + sz2) = false) by (apply andb_false_iff; rewrite Z.leb_gt, Z.ltb_ge; lia).
  by rewrite E.
Qed.

(** Ranges that do not overlap can be added (or removed) in either order: the
    table is the same, entry for entry. *)
Theorem e820_add_commutes s sz t s2 sz2 t2 l :
  canonical l -> range_ok s sz t -> range_ok s2 sz2 t2 -> s + sz <= s2 \/ s2 + sz2 <= s ->
  (length l + 4 <= BUILD_MAX_E820)%nat ->
  e820_add s sz t (e820_add s2 sz2 t2 l) = e820_add s2 sz2 t2 (e820_add s sz t l).
Proof.
  intros Hl R R2 Hd Hlen.
  destruct (add_all_runs [(s2, sz2, t2); (s, sz, t)] l Hl ltac:(by repeat constructor; try apply R; try apply R2) Hlen) as [C1 T1].
  destruct (add_all_runs [(s, sz, t); (s2, sz2, t2)] l Hl ltac:(by repeat constructor; try apply R; try apply R2) Hlen) as [C2 T2].
  apply canonical_ext; [done..|]. intros x. unfold add_all in T1, T2. cbn [fold_left] in T1, T2. rewrite T1, T2.
  by apply range_set_comm.
Qed.

Lemma e820_add_commutes_witness :
  e820_add 0 0x1000 E820_RAM (e820_add 0x1000 0x1000 E820_RAM []) = e820_add 0x1000 0x1000 E820_RAM (e820_add 0 0x1000 E820_RAM []).
Proof.
  refine (e820_add_commutes _ _ _ _ _ _ _ canonical_nil _ _ _ _); try (by repeat split; vm_compute); [left; lia|].
  cbn. unfold BUILD_MAX_E820. lia.
Defined.

(** [e820_is_used] holds just when an address of the range has a type. *)
Lemma e820_is_used_correct s sz l :
  canonical l -> 0 <= s -> s + sz < 2 ^ 64 -> 0 < sz ->
  e820_is_used s sz l = true <-> exists x u, s <= x < s + sz /\ type_at l x = Some u.
Proof.
  intros Hl Hs Hend Hsz. rewrite used_entry by done. split.
  - intros (e & He & H). pose proof (ok_size _ (canonical_entry _ _ Hl He)). exists (Z.max s (start e)), (type e).
    split; [lia|]. apply type_at_typed; [done|]. exists e. split; [done|]. split; [lia|done].
  - intros (x & u & Hx & (e & He & H & _)%type_at_typed); [|done]. exists e. split; [done|lia].
Qed.
Lemma e820_is_used_correct_witness :
  e820_is_used 0 0x2000 [E820Entry 0x1000 0x1000 E820_RAM] = true /\
  exists x u, 0 <= x < 0 + 0x2000 /\ type_at [E820Entry 0x1000 0x1000 E820_RAM] x = Some u.
Proof.
  assert (H : e820_is_used 0 0x2000 [E820Entry 0x1000 0x1000 E820_RAM] = true) by reflexivity. split; [exact H|].
  refine (proj1 (e820_is_used_correct 0 0x2000 [E820Entry 0x1000 0x1000 E820_RAM] _ _ _ _) H); try (cbn; lia).
  apply canonical_cons. split; [by repeat split|]. split; [by intros ? ?%elem_of_nil|exact canonical_nil].
Defined.

(** The cuts, the merges and the hole, in one map. *)
Example pc_map_list :
  add_all pc_map [] =
    [E820Entry 0 0x9fc00 E820_RAM; E820Entry 0x9fc00 0x400 E820_RESERVED; E820Entry 0xf0000 0x10000 E820_RESERVED;
     E820Entry 0x100000 0x3ee0000 E820_RAM; E820Entry 0x3fe0000 0x10000 E820_RESERVED;
     E820Entry 0x3ff1000 0xf000 E820_RESERVED].
Proof. reflexivity. Qed.

(** A full table loses the end of an entry that is split and then the new range
    ([warn_noalloc] only reports it). *)
Definition full_map : list e820entry := map (fun i => E820Entry (Z.of_nat i * 0x10000) 0x8000 E820_RAM) (seq 0 BUILD_MAX_E820).
Lemma full_map_loses :
  type_at full_map 0x2000 = Some E820_RAM /\
  type_at (e820_add 0x1000 0x1000 E820_RESERVED full_map) 0x2000 = None /\
  type_at (e820_add 0x1000 0x1000 E820_RESERVED full_map) 0x1000 = None.
Proof. by vm_compute. Qed.
End E820Props.
