(* ===== verification/FileRun.v ===== *)
(** * Files read into the memory of programs

    [rw_sft] on an open file, as [rwblock] specifies it. *)

From S2P Require Import Prelude Memmgr KState BlockIO FatTab FNode FatAlloc Clock Media FatDir FatFile FatRw.
From S2P Require Import Disk Ring CacheSpec CacheOps FatPure FatSpec FatWrite Table FatChain AllocSpec MapSpec SftSpec DirectIO RwSpec RwProps.
From S2P Require Import Frame Path Handle Calls Chario Fcb FcbSpec Far FarSpec Sys.
Import Mm Ks Bio Fat FNode Alloc Clk Media Dir File Rw Dsk Ring Cache CacheOps FatPure FatSpec FatWrite Table Chain.
Import AllocSpec MapSpec SftSpec Direct RwSpec RwProps Frame Path Handle Calls Chario Fcb FcbSpec Far FarSpec Sys.

Module FileRun.
Section Read.
Context {M : Machine} {Sh : Shell} {R : Redirector} {Cn : Console} {D : Disk}.
Context (k : svc) (fuel : nat).

(** What a read leaves of the memory. *)
Lemma load_patch m a n (data : list Z) : Z.of_nat (length data) <= Z.of_nat n ->
  patch (load m a n) 0 data = data ++ load m (a + Z.of_nat (length data)) (n - length data).
Proof.
  intros H. unfold patch. change (Z.to_nat 0) with 0%nat. rewrite take_0, Nat.add_0_l, app_nil_l. f_equal.
  pose proof (load_app m a (length data) (n - length data)) as E.
  replace (length data + (n - length data))%nat with n in E by lia.
  rewrite E, drop_app_length'; [done|]. by rewrite load_length.
Qed.
Lemma store_patch m a n data x : Z.of_nat (length data) <= Z.of_nat n ->
  store a (patch (load m a n) 0 data) m x = store a data m x.
Proof.
  intros H. rewrite load_patch by done. unfold store. destruct (a <=? x) eqn:Ea; [|by repeat case_match].
  zbool. destruct (decide (Z.to_nat (x - a) < length data)%nat) as [Hl|Hl].
  - by rewrite lookup_app_l.
  - rewrite lookup_app_r by lia. rewrite (lookup_ge_None_2 data) by lia.
    destruct (decide (Z.to_nat (x - a) - length data < n - length data)%nat) as [Hl2|Hl2].
    + rewrite load_lookup by done. f_equal. lia.
    + rewrite lookup_ge_None_2; [done|]. rewrite load_length. lia.
Qed.

Lemma file_read_c idx n addr bp x (c : cst) a k' :
  idx_to_sft (sfthead (fs (kern (pth (hn c))))) idx = Some x -> readable x (share_installed (fs (kern (pth (hn c))))) ->
  rwblock idx addr n XFR_READ bp (kern (pth (hn c))) = Some (a, k') ->
  DosRWSft k fuel idx n addr bp XFR_READ c = Some (Ret a, Cst M (set_pth (set_kern k' (pth (hn c))) (hn c)) (cn c)).
Proof.
  intros Hx Hr Hb.
  pose proof (file_read_runs k fuel idx n addr bp x (Fst M c [] [] (0, 0) 0 (dta (hn c))) a k' Hx Hr Hb) as H.
  unfold on_c in H. cbn [fc] in H. destruct (DosRWSft _ _ _ _ _ _ _ c) as [[o c']|]; [|done].
  by injection H as -> ->.
Qed.

Lemma file_read_i idx n addr bp x s a k' :
  idx_to_sft (sfthead (fs (ks s))) idx = Some x -> readable x (share_installed (fs (ks s))) ->
  rwblock idx addr n XFR_READ bp (ks s) = Some (a, k') ->
  in_c (DosRWSft k fuel idx n addr bp XFR_READ) s = Some (Ret a, with_ks k' s).
Proof. intros Hx Hr Hb. unfold in_c. by rewrite (file_read_c _ _ _ _ _ (cs s) _ _ Hx Hr Hb). Qed.

(** An open file that can be read by its entry [fd]. *)
Record file_open s l u p d kk T fd x cl : Prop := FileOpen {
  fo_fd : 0 <= fd < 255;
  fo_open : opened (ks s) l u p d kk T fd x cl;
  fo_read : readable x (share_installed (fs (ks s))) }.

Lemma still_readable x y sh sh' :
  readable x sh -> same_file x y -> sft_shroff y = sft_shroff x -> sh' = sh -> readable y sh'.
Proof.
  intros [H1 H2 H3 H4] (_ & Em & Ef & _) Es ->. split; [by rewrite Em|by rewrite Ef|by rewrite Ef|]. by rewrite Es.
Qed.
(** The bytes that a read of [n] gives. *)
Definition read_data s l d cl x (n : Z) : list Z := slice (content (ks s) l d cl) (sft_size x) (sft_posit x) n.

Lemma sft_reads s l u p d kk T fd x cl n addr bp :
  file_open s l u p d kk T fd x cl -> hint_ok d -> capacity d < 2 ^ 32 -> data_area d -> 0 <= n < 65536 ->
  n <= Z.of_nat (length bp) ->
  let data := read_data s l d cl x n in
  let m := Z.of_nat (length data) in
  exists k' l' y, in_c (DosRWSft k fuel fd n addr bp XFR_READ) s = Some (Ret (m, patch bp 0 data), with_ks k' s) /\
    opened k' l' u p d kk T fd y cl /\ sft_posit y = sft_posit x + m /\ same_file x y /\
    content k' l' d cl = content (ks s) l d cl /\ m <= n /\ readable y (share_installed (fs k')).
Proof.
  intros Hf Hh Hc Hd Hn Hbp data m. destruct Hf as [Hfd Hop Hre].
  destruct (rwblock_run (ks s) l u p d kk T fd x cl addr n bp Hop Hh Hc Hd ltac:(lia) Hn Hbp)
    as (k' & l' & y & E & Hop' & Hy & Hsame & Hcont & _ & _ & Hsh & Hins). cbv zeta in E, Hy.
  assert (Em : Z.max 0 (Z.min n (sft_size x - sft_posit x)) = m).
  { unfold m, data, read_data. rewrite slice_length; [done|apply Hop|]. by eapply content_length. }
  rewrite Em in Hy. exists k', l', y.
  pose proof (file_read_i fd n addr bp x s _ k' (op_entry _ _ _ _ _ _ _ _ _ _ Hop) Hre E) as Er.
  split; [|do 4 (split; [done|]); split; [lia|by eapply still_readable]].
  rewrite Er, Em. do 3 f_equal. unfold data, read_data, slice. by rewrite Em.
Qed.

Lemma rw_sft_reads s l u p d kk T fd x cl n addr :
  file_open s l u p d kk T fd x cl -> hint_ok d -> capacity d < 2 ^ 32 -> data_area d -> 0 <= n < 65536 ->
  let data := read_data s l d cl x n in
  let m := Z.of_nat (length data) in
  exists k' l' y, rw_sft k fuel fd n addr XFR_READ s =
      Some (Ret m, set_ram (store (lin addr) (patch (load (ram s) (lin addr) (Z.to_nat n)) 0 data) (ram s)) (with_ks k' s)) /\
    opened k' l' u p d kk T fd y cl /\ sft_posit y = sft_posit x + m /\ same_file x y /\
    content k' l' d cl = content (ks s) l d cl /\ m <= n /\ readable y (share_installed (fs k')).
Proof.
  intros Hf Hh Hc Hd Hn data m.
  destruct (sft_reads s l u p d kk T fd x cl n addr (load (ram s) (lin addr) (Z.to_nat n)) Hf Hh Hc Hd Hn)
    as (k' & l' & y & E & H); [rewrite load_length; lia|]. exists k', l', y. split; [|exact H].
  unfold rw_sft. rewrite irun_rd, (crun_eq _ _ _ _ _ E), irun_poke. done.
Qed.
End Read.
End FileRun.
