(* ===== verification/SvcSpec.v ===== *)
(** * What a call answers

    The end of a call of INT 21h as a program sees it: [verdict] of how the
    function ended, and the state that [leave] makes of it.  The second
    module, SvcRead, follows a read call from the frame to the sectors. *)

From S2P Require Import Prelude Memmgr KState BlockIO FatTab FNode FatAlloc Clock Media FatDir FatFile FatRw.
From S2P Require Import Path Handle Calls Chario Fcb Far FarSpec Sys Ioctl Nls Task Int21 Service.
Import Mm Ks Bio Fat FNode Alloc Clk Media Dir File Rw Path Handle Calls Chario Fcb Far FarSpec Sys Ioctl Nls Task Int21 Service.

Module SvcSpec.

Section Runs.
Context {M : Machine}.
Lemma with_ks_same s : with_ks (ks s) s = s.
Proof. by destruct s as [[[[] ? ? ? ? ? ? ?] ?] ? ? ? ? ? ? ? ? ?]. Qed.

Lemma ram_with_ks k (s : ist) : ram (with_ks k s) = ram s.
Proof. done. Qed.

(** The state with another error code. *)
Definition crit_to (v : Z) (s : ist) : ist :=
  match set_CritErrCode v (ks s) with Some (_, k) => with_ks k s | None => s end.
Lemma crit_run {B} v (f : unit -> I B) s : cbind (crit_set v) f s = f tt (crit_to v s).
Proof. done. Qed.
Definition code_of (s : ist) : Z := CritErrCode (drv (ks s)).
Lemma crit_to_code v s : code_of (crit_to v s) = v.
Proof. done. Qed.
Lemma crit_to_ram v s : ram (crit_to v s) = ram s.
Proof. done. Qed.
End Runs.

(** ** Verdicts *)

Inductive verdict :=
| Success (l : lregs)                (* no carry *)
| Failure (code : Z) (l : lregs)     (* the code in AX, and kept for function 59h *)
| Refused (l : lregs).               (* carry only *)
Definition fails_with (code : Z) (l : lregs) : verdict := Failure (u16 code) (set_AX code l).
Definition short_verdict (rc : Z) (l : lregs) : verdict := if rc <? SUCCESS then fails_with (- rc) l else Success l.
Definition verdict_of (t : lregs * exit) : option verdict :=
  let '(l, e) := t in
  match e with
  | Exit => Some (Success l)
  | Long lrc => Some (if SUCCESS <=? lrc then Success (set_AX lrc l) else short_verdict (s16 lrc) l)
  | Short rc => Some (short_verdict rc l)
  | Invalid => Some (fails_with 1 l)
  | Error rc => Some (fails_with (- rc) l)
  | Carry => Some (Refused l)
  | Real | Again | User _ => None
  end.
Definition regs_of (v : verdict) : lregs := match v with Success l | Failure _ l | Refused l => l end.
Definition carry_of (v : verdict) : bool := match v with Success _ => false | _ => true end.

Section Leave.
Context {M : Machine}.
Definition carried (r : ptr) (m : umem) : umem := putw (far_add r 22) (setf (getw m (far_add r 22)) FLG_CARRY) m.
Definition reported (r : ptr) (v : verdict) (s : ist) : ist :=
  match v with
  | Success l => set_ram (put_lregs r l (ram s)) s
  | Failure code l =>
      let s := if code_of s =? SUCCESS then crit_to code s else s in
      set_ram (put_lregs r l (carried r (ram s))) s
  | Refused l => set_ram (put_lregs r l (carried r (ram s))) s
  end.

Lemma leave_runs r t v s : verdict_of t = Some v -> leave r t s = Some (Ret None, reported r v s).
Proof.
  destruct t as [l e]. intros E.
  assert (Hx : forall rc, error_exit r rc l s = Some (Ret None, reported r (fails_with (- rc) l) s)).
  { intros rc. unfold error_exit, crit_get. rewrite crun_assoc, irun_get, crun_ret. unfold fails_with, reported, code_of.
    change (AX (set_AX (- rc) l)) with (u16 (- rc)). by destruct (CritErrCode (drv (ks s)) =? SUCCESS). }
  assert (Hs : forall rc, short_check r rc l s = Some (Ret None, reported r (short_verdict rc l) s)).
  { intros rc. unfold short_check, short_verdict. destruct (rc <? SUCCESS); [apply Hx|done]. }
  destruct e; cbn [verdict_of leave] in *; simplify_eq; try done.
  destruct (SUCCESS <=? lrc); [done|apply Hs].
Qed.
End Leave.

(** ** The start of a call *)

Section Call.
Context {M : Machine} {Sh : Shell} {R : Redirector} {Cn : Console} {Dr : Driver} {Mx : Mux} {Lk : Link} {Nt : Net}.
Context (k : svc) (fuel : nat) (r : ptr).

Definition no_error_mode (s : ist) : ist := set_cs (Cst M (hn (cs s)) (set_ErrorMode false (cn (cs s)))) s.
(** The PSP has the frame, and the kernel's variables are as new. *)
Definition entered (s : ist) : ist := set_ram (putp (cur s, ps_stack) r (ram s)) s.
Definition uncarried (m : umem) : umem := putw (far_add r 22) (clear (getw m (far_add r 22)) FLG_CARRY) m.
Definition ready (s : ist) : ist := no_error_mode (crit_to SUCCESS (set_ram (uncarried (ram s)) s)).

(** The state in which function [ah] begins, but for the look for Ctrl-C. *)
Definition started (ah : Z) (s : ist) : ist :=
  let s1 :=
    if clears ah then
      let s1 := set_ram (uncarried (ram s)) s in if ah =? 0x59 then s1 else crit_to SUCCESS s1
    else s in
  if resets_ErrorMode ah then no_error_mode s1 else s1.

Lemma started_read s : started 0x3f s = ready s.
Proof. done. Qed.
Lemma started_ram ah s : ram (started ah s) = if clears ah then uncarried (ram s) else ram s.
Proof. unfold started. by destruct (clears ah), (ah =? 0x59), (resets_ErrorMode ah). Qed.

Lemma start_runs {B} ah (f : unit -> I B) s :
  cbind (clear_errors r ah)
    (fun _ => cbind (if resets_ErrorMode ah then in_c (cmod (set_ErrorMode false)) else cret tt) f) s = f tt (started ah s).
Proof.
  unfold clear_errors, started. destruct (clears ah); [|by destruct (resets_ErrorMode ah)].
  destruct (ah =? 0x59); cbn [negb]; by destruct (resets_ErrorMode ah).
Qed.

Lemma dispatch_runs n s l t s1 s' :
  break_check k (AH l) (started (AH l) s) = Some (Ret tt, s1) -> function k fuel r (AH l) l s1 = Some (Ret t, s') ->
  snd t <> Again -> dispatch k fuel r (S n) l s = Some (Ret t, s').
Proof.
  intros Hb Hf Ha. cbn [dispatch]. rewrite start_runs.
  rewrite (crun_eq _ _ _ _ _ Hb), (crun_eq _ _ _ _ _ Hf). destruct t as [l' e]. cbn [snd] in *. by destruct e.
Qed.

Lemma service_runs n s t v s1 s' :
  let f := get_iregs (ram (entered s)) r in
  let ah := AH (i_regs f) in
  break_check k ah (started ah (entered s)) = Some (Ret tt, s1) ->
  function k fuel r ah (i_regs f) s1 = Some (Ret t, s') -> verdict_of t = Some v ->
  int21_service k fuel r (S n) s = Some (Ret None, reported r v s').
Proof.
  intros f ah Hb Hf Hv. unfold int21_service. rewrite irun_get, irun_wr.
  change (set_ram (putp (cur s, ps_stack) r (ram s)) s) with (entered s).
  unfold frame. rewrite irun_rd. fold f.
  assert (Hd : dispatch k fuel r (S n) (i_regs f) (entered s) = Some (Ret t, s')).
  { eapply dispatch_runs; [done..|]. intros E. destruct t as [l []]; done. }
  rewrite (crun_eq _ _ _ _ _ Hd). by apply leave_runs.
Qed.

(** ** What the program finds *)

Lemma ready_frame m : fits r SIZEOF_IREGS -> word (FLAGS (get_iregs m r)) ->
  get_iregs (uncarried m) r = let f := get_iregs m r in Iregs (i_regs f) (BP f) (IP f) (CS f) (clear (FLAGS f) FLG_CARRY).
Proof.
  intros Hf Hm. unfold uncarried. rewrite get_put_flags by done. cbv zeta. f_equal.
  apply u16_small. by apply word_clear.
Qed.
Lemma started_frame ah s : fits r SIZEOF_IREGS -> word (FLAGS (get_iregs (ram s) r)) ->
  get_iregs (ram (started ah s)) r = let f := get_iregs (ram s) r in
    Iregs (i_regs f) (BP f) (IP f) (CS f) (if clears ah then clear (FLAGS f) FLG_CARRY else FLAGS f).
Proof.
  intros Hf Hm. rewrite started_ram. destruct (clears ah); [by apply ready_frame|].
  cbv zeta. by destruct (get_iregs (ram s) r).
Qed.
Lemma reported_ram v s : ram (reported r v s) = put_lregs r (regs_of v) (if carry_of v then carried r (ram s) else ram s).
Proof. by destruct v as [|code l|]; cbn [reported carry_of regs_of]; [|destruct (code_of s =? SUCCESS)|]. Qed.
Lemma reported_frame v s : fits r SIZEOF_IREGS -> word (FLAGS (get_iregs (ram s) r)) -> words (regs_of v) ->
  get_iregs (ram (reported r v s)) r =
    let f := get_iregs (ram s) r in
    Iregs (regs_of v) (BP f) (IP f) (CS f) (if carry_of v then setf (FLAGS f) FLG_CARRY else FLAGS f).
Proof.
  intros Hf Hm Hw. rewrite reported_ram, get_put_lregs by done. cbv zeta. destruct (carry_of v); [|done].
  unfold carried. rewrite get_put_flags by done. cbn [BP IP CS FLAGS]. f_equal.
  apply u16_small. by apply (word_setf _ 0).
Qed.
Lemma reported_out v s x : fits r SIZEOF_IREGS -> x < lin r \/ lin r + SIZEOF_IREGS <= x ->
  ram (reported r v s) x = ram s x.
Proof.
  intros Hf Hx. rewrite reported_ram, put_lregs_out by done. destruct (carry_of v); [|done].
  unfold carried. rewrite (putw_at r SIZEOF_IREGS) by (done || lia). unfold SIZEOF_IREGS in Hx.
  by rewrite (proj2 (Z.eqb_neq x (lin r + 22 + 1))), (proj2 (Z.eqb_neq x (lin r + 22))) by lia.
Qed.
(** The code that function 59h gives. *)
Definition kept_code (v : verdict) (old : Z) : Z :=
  match v with Failure code _ => if old =? SUCCESS then code else old | _ => old end.
Lemma reported_code v s : code_of (reported r v s) = kept_code v (code_of s).
Proof. destruct v as [|code l|]; try done. cbn [reported kept_code]. by destruct (code_of s =? SUCCESS) eqn:E. Qed.
Lemma verdict_words t v : verdict_of t = Some v -> words (fst t) -> words (regs_of v).
Proof.
  destruct t as [l e]. intros E H.
  assert (Hs : forall rc, words (regs_of (short_verdict rc l))).
  { intros rc. unfold short_verdict. destruct (rc <? SUCCESS); [by apply words_AX|done]. }
  destruct e; cbn [verdict_of fst] in *; simplify_eq; try done; try (by apply words_AX); try apply Hs.
  destruct (SUCCESS <=? lrc); [by apply words_AX|apply Hs].
Qed.
End Call.
End SvcSpec.

(** * A read call of a program

    INT 21h with AH=3Fh from the frame on the stack down to the sectors: the
    bytes of the file arrive in the memory of the program. *)

From S2P Require Import Prelude Memmgr KState BlockIO FatTab FNode FatAlloc Clock Media FatDir FatFile FatRw.
From S2P Require Import Disk Ring CacheSpec CacheOps FatPure FatSpec FatWrite Table FatChain AllocSpec MapSpec SftSpec DirectIO RwSpec RwProps.
From S2P Require Import Frame Path Handle Calls HandleSpec HandleInv CallSpec HandleRun Chario ConSpec Fcb FcbSpec.
From S2P Require Import Far FarSpec Sys FileRun Ioctl Nls Task Int21 Service.
Import Mm Ks Bio Fat FNode Alloc Clk Media Dir File Rw Dsk Ring Cache CacheOps FatPure FatSpec FatWrite Table Chain.
Import AllocSpec MapSpec SftSpec Direct RwSpec RwProps Frame Path Handle Calls HandleSpec HandleInv HandleOps CallSpec HandleRun Chario Fcb FcbSpec.
Import ConSpec.
Import Far FarSpec Sys FileRun Ioctl Nls Task Int21 Service SvcSpec.

Module SvcRead.

(** The keyboard of the console, as far as the look for Ctrl-C goes: the answer
    to a peek when the next key is not Ctrl-C.  It does not move sectors. *)
Class Keyboard {M : Machine} {D : Disk} (dv : Z) := {
  no_ctrl_c : world -> Prop;
  peek_key rq buf w : no_ctrl_c w -> r_command rq = C_NDREAD ->
    exists rq' buf' w', execrh dv rq buf w = (rq', buf', w') /\ has (r_status rq') S_ERROR = false /\
      (has (r_status rq') S_BUSY = true \/ u8 (r_meddesc rq') <> CTL_C) /\ sec w' = sec w }.

Section Read.
Context {M : Machine} {Sh : Shell} {R : Redirector} {Cn : Console} {Dr : Driver} {Mx : Mux} {Lk : Link} {Nt : Net} {D : Disk}.
Context (k : svc) (fuel : nat) (r : ptr).

(** The handle [h] of the program is the open file [fd]. *)
Record handle_file s h l u p d kk T fd x cl : Prop := HandleFile {
  hf_psp : exists q tbl, cur_table (hs s) q tbl /\ h < ps_maxfiles q /\ tbl !! Z.to_nat h = Some fd;
  hf_file : file_open s l u p d kk T fd x cl }.

Lemma handle_idx s h l u p d kk T fd x cl :
  handle_file s h l u p d kk T fd x cl -> 0 <= h -> in_h (get_sft_idx h) s = Some (Ret fd, s).
Proof.
  intros [(q & tbl & Hq & Hh & Ht) [Hfd _ _]] H0. unfold in_h, in_c, on_hst. change (hn (cs s)) with (hs s).
  rewrite (get_sft_idx_run (hs s) q tbl h fd Hq) by (done || lia).
  rewrite (proj2 (Z.eqb_neq fd 0xff)) by lia. by destruct s as [[] ? ? ? ? ? ? ? ? ?].
Qed.

(** The kernel looks for Ctrl-C and finds none: a request to the console. *)
Definition polled (s1 s2 : kst) : Prop :=
  s2 = s1 \/ exists rq w, s2 = on_dev rq w s1 /\ sec w = sec (dev s1).
Definition no_break (dv : Z) {Kb : Keyboard dv} (s : ist) : Prop :=
  syscon (cn (cs s)) = dv /\ has (CB_FLG (cn (cs s))) CB_MSK = false /\ no_ctrl_c (dev (ks s)).

Lemma break_check_passes dv {Kb : Keyboard dv} ah s :
  (vars s break_ena = 0 /\ checks_break ah = false) \/ no_break dv s ->
  exists k1, break_check k ah s = Some (Ret tt, with_ks k1 s) /\ polled (ks s) k1.
Proof.
  unfold break_check. rewrite irun_vget. intros [[-> ->]|(Hdv & Hcb & Hkey)].
  { exists (ks s). rewrite with_ks_same. split; [done|by left]. }
  destruct (negb _ || _); [|exists (ks s); rewrite with_ks_same; split; [done|by left]].
  destruct (peek_key (char_command C_NDREAD (CharReqHdr (drv (ks s)))) [] (dev (ks s)) Hkey eq_refl)
    as (rq & buf & w & E & Hst & Hno & Hsec).
  exists (on_dev rq w (ks s)). split; [|right; by exists rq, w].
  rewrite irun_get, Hdv. erewrite crun_eq; [reflexivity|].
  assert (En : on_k (ndread dv) (cs s) =
    Some (Ret (if has (r_status rq) S_BUSY then -1 else r_meddesc rq), con_dev rq w (cs s))).
  { erewrite on_k_run; [reflexivity|]. unfold ndread, CharCmd. change xfer_fuel with (S 255). cbn [cmd_loop].
    rewrite run_assoc. erewrite run_eq by (by apply request_runs; [exact E|]). done. }
  unfold in_c, check_handle_break, ctrl_break_pressed. rewrite crun_assoc, crun_get, crun_ret, crun_get.
  rewrite Hcb, Hdv. cbn [negb]. rewrite crun_assoc, (crun_eq _ _ _ _ _ En), crun_ret, Z.eqb_refl. cbn [negb].
  rewrite andb_false_r, crun_ret.
  set (c := u8 _). assert (Hc : (c =? CTL_C) = false).
  { apply Z.eqb_neq. unfold c. destruct Hno as [->|Hno]; [by vm_compute|]. by destruct (has _ S_BUSY); [vm_compute|]. }
  rewrite Hc. done.
Qed.

Lemma polled_spec s l u p d kk T s' :
  tab s l u p d kk T -> polled s s' -> tab s' l u p d kk T /\ roamed s l s' l u d /\ fs s' = fs s.
Proof.
  intros [[Hc V Hl] Ha] [->|(rq & w & -> & Hsec)].
  { split; [by split|]. split; [|done]. split; [done| |done]. by apply evolves_refl. }
  assert (Hv : forall d' blk, CacheSpec.Cache.view (on_dev rq w s) l d' blk = CacheSpec.Cache.view s l d' blk).
  { intros. unfold CacheSpec.Cache.view, sector. cbn. by rewrite Hsec. }
  split; [|split; [|done]].
  - split; [split; [by apply (cache_evolves s)|by apply (volume_same s)|done]|].
    intros c Hr. rewrite (links_fat s l _ l u p d kk c V) by (intros; done || apply Hv). by apply Ha.
  - split; [|done|done]. intros u' q' d' blk _ _ _. apply Hv.
Qed.

(** The start of a call changes none of it. *)
Lemma ready_file s h l u p d kk T fd x cl :
  data_area d -> handle_file s h l u p d kk T fd x cl -> handle_file (ready r (entered r s)) h l u p d kk T fd x cl /\
  content (ks (ready r (entered r s))) l d cl = content (ks s) l d cl.
Proof.
  intros Hda [H1 [H2 H3 H4]].
  destruct (crit_spec (ks s) l u p d kk T SUCCESS (op_tab _ _ _ _ _ _ _ _ _ _ H3)) as (k1 & E & Ht & Hr & Hf).
  assert (Ek : ks (ready r (entered r s)) = k1).
  { unfold set_CritErrCode, kmod in E. by injection E as <-. }
  split; [|rewrite Ek; eapply content_kept; [apply H3|done|apply H3|exact Hr]].
  split; [exact H1|]. split; [done|rewrite Ek; by eapply opened_moves|]. by rewrite Ek, Hf.
Qed.

Lemma polled_file s h l u p d kk T fd x cl k1 :
  data_area d -> handle_file s h l u p d kk T fd x cl -> polled (ks s) k1 ->
  handle_file (with_ks k1 s) h l u p d kk T fd x cl /\ content k1 l d cl = content (ks s) l d cl.
Proof.
  intros Hda [H1 [H2 H3 H4]] Hp.
  destruct (polled_spec (ks s) l u p d kk T k1 (op_tab _ _ _ _ _ _ _ _ _ _ H3) Hp) as (Ht & Hr & Hf).
  split; [|eapply content_kept; [apply H3|done|apply H3|exact Hr]].
  split; [exact H1|]. split; [done|by eapply opened_moves|]. cbn. by rewrite Hf.
Qed.

(** The program's call: its frame [f], at [r], asks for [CX] bytes of the file
    behind the handle [BX] at DS:DX. *)
Lemma read_runs dv {Kb : Keyboard dv} n s l u p d kk T fd x cl :
  let f := get_iregs (ram (entered r s)) r in
  let g := i_regs f in
  let at_ := lin (FP_DS_DX g) in
  fits r SIZEOF_IREGS -> bytes (ram s) -> vars s break_ena = 0 \/ no_break dv s -> AH g = 0x3f ->
  at_ + CX g <= lin r \/ lin r + SIZEOF_IREGS <= at_ ->
  handle_file s (BX g) l u p d kk T fd x cl -> hint_ok d -> capacity d < 2 ^ 32 -> data_area d ->
  let data := read_data s l d cl x (CX g) in
  let m := Z.of_nat (length data) in
  exists s' l' y, int21_service k fuel r (S n) s = Some (Ret None, s') /\
    get_iregs (ram s') r = Iregs (set_AX m g) (BP f) (IP f) (CS f) (clear (FLAGS f) FLG_CARRY) /\
    load (ram s') at_ (length data) = data /\
    (forall a, a < at_ \/ at_ + m <= a -> a < lin r \/ lin r + SIZEOF_IREGS <= a -> ram s' a = ram (entered r s) a) /\
    opened (ks s') l' u p d kk T fd y cl /\ sft_posit y = sft_posit x + m /\ same_file x y /\
    content (ks s') l' d cl = content (ks s) l d cl.
Proof.
  intros f g at_ Hr Hm Hb Hah Hap Hf Hh Hc Hd data m.
  pose proof (get_iregs_words (ram (entered r s)) r (bytes_putp _ _ _ Hm)) as Hw. fold f in Hw.
  destruct Hw as (Hg & _ & _ & _ & Hfl). fold g in Hg.
  destruct (ready_file s (BX g) l u p d kk T fd x cl Hd Hf) as [Hf0 Hcont0].
  set (s0 := ready r (entered r s)) in *.
  assert (Hb0 : (vars s0 break_ena = 0 /\ checks_break (AH g) = false) \/ no_break dv s0)
    by (rewrite Hah; destruct Hb as [Hb|Hb]; [left; by split|by right]).
  destruct (break_check_passes dv (AH g) s0 Hb0) as (k1 & Ebrk & Hpol).
  destruct (polled_file s0 (BX g) l u p d kk T fd x cl k1 Hd Hf0 Hpol) as [Hf1 Hcont1].
  set (s1 := with_ks k1 s0) in *.
  assert (Ed : read_data s1 l d cl x (CX g) = data)
    by (unfold data, read_data; change (ks s1) with k1; by rewrite Hcont1, Hcont0).
  destruct (rw_sft_reads k fuel s1 l u p d kk T fd x cl (CX g) (FP_DS_DX g) (hf_file _ _ _ _ _ _ _ _ _ _ _ Hf1) Hh Hc Hd (w_CX _ Hg))
    as (k' & l' & y & E & Hop & Hy & Hsame & Hcont & Hmle & _).
  cbv zeta in *. rewrite Ed in E, Hy, Hmle. fold m in E, Hy, Hmle. fold at_ in E.
  set (s2 := set_ram (store at_ _ (ram s1)) (with_ks k' s1)) in E.
  assert (Ef : function k fuel r (AH g) g s1 = Some (Ret (g, Long m), s2)).
  { rewrite Hah. change (function k fuel r 0x3f) with (rw_call k fuel XFR_READ). unfold rw_call.
    rewrite (crun_eq _ _ _ _ _ (handle_idx _ _ _ _ _ _ _ _ _ _ _ Hf1 (proj1 (w_BX _ Hg)))), (crun_eq _ _ _ _ _ E). done. }
  assert (Es : int21_service k fuel r (S n) s = Some (Ret None, reported r (Success (set_AX m g)) s2)).
  { eapply service_runs; [|exact Ef|].
    { change (break_check k (AH g) (started r (AH g) (entered r s)) = Some (Ret tt, s1)).
      replace (started r (AH g) (entered r s)) with s0 by (by rewrite Hah). exact Ebrk. }
    cbn [verdict_of]. by rewrite (proj2 (Z.leb_le SUCCESS m)) by (unfold m, SUCCESS; lia). }
  assert (Hbuf : forall a, a < at_ \/ at_ + m <= a -> ram s2 a = ram s1 a).
  { intros a Ha. unfold s2. cbn [ram set_ram with_ks]. rewrite store_patch by (fold m; lia). by apply store_out. }
  assert (Hfr : get_iregs (ram s2) r = Iregs g (BP f) (IP f) (CS f) (clear (FLAGS f) FLG_CARRY)).
  { rewrite (get_iregs_ext _ (ram s1)); [by apply ready_frame|done|]. intros a Ha. apply Hbuf. lia. }
  exists (reported r (Success (set_AX m g)) s2), l', y. split; [exact Es|].
  assert (Hcs : content k' l' d cl = content (ks s) l d cl) by (rewrite Hcont; change (ks s1) with k1; congruence).
  split; [|split; [|split; [|done]]].
  - rewrite reported_frame; [by rewrite Hfr|done|rewrite Hfr; by apply word_clear|by apply words_AX].
  - rewrite (load_ext _ (store at_ data (ram s1))); [by apply load_store|]. intros a Ha.
    rewrite reported_out; [|done|lia]. unfold s2. cbn [ram set_ram with_ks]. rewrite store_patch by (fold m; lia). done.
  - intros a Ha Hra. rewrite reported_out, Hbuf by done. unfold s1. cbn. unfold uncarried.
    rewrite (putw_at r SIZEOF_IREGS) by (done || lia). unfold SIZEOF_IREGS in Hra.
    by rewrite (proj2 (Z.eqb_neq a (lin r + 22 + 1))), (proj2 (Z.eqb_neq a (lin r + 22))) by lia.
Qed.
End Read.
End SvcRead.
