(* ===== verification/SvcProps.v ===== *)
(** * Properties of the calls of INT 21h

    What a program finds after a call, and a read call from the registers down
    to the sectors. *)

From S2P Require Import Prelude Memmgr MemmgrProps KState BlockIO FatTab FNode FatAlloc Clock Media FatDir FatFile FatRw.
From S2P Require Import Disk Ring CacheSpec CacheOps FatPure FatSpec FatWrite Table FatChain AllocSpec MapSpec SftSpec DirectIO RwSpec RwProps.
From S2P Require Import RamVol FatProps Frame Path PathProps Handle HandleProps Calls HandleSpec HandleInv CallSpec HandleRun.
From S2P Require Import Chario Fcb FcbSpec FcbProps Far FarSpec Sys FileRun Ioctl Nls Task Int21 Service SvcSpec.
Import Mm Ks Bio Fat FNode Alloc Clk Media Dir File Rw Dsk Ring Cache CacheOps FatPure FatSpec FatWrite Table Chain.
Import AllocSpec MapSpec SftSpec Direct RwSpec RwProps RamVol FatProps Frame Path PathProps Handle Calls HandleSpec HandleInv HandleOps CallSpec HandleRun.
Import HandleProps Chario Fcb FcbSpec FcbProps Far FarSpec Sys FileRun Ioctl Nls Task Int21 Service SvcSpec SvcRead.
Import DirectIO.WriteIO.

Module SvcProps.

(** ** A system to try it on *)

#[export] Instance no_ioctl : @Driver Dsk.ram := {| ioctl_request := fun _ q m w => (q, m, w) |}.
#[export] Instance no_mux : @Mux Dsk.ram := {| call_nls := fun _ _ _ _ _ b w => ((0, 0), b, w) |}.
#[export] Instance some_link : Link := {|
  adr_InDOS := (0x60, 1); adr_DPBp := (0x60, 0x26); adr_internal := (0x60, 0x20); size_indos := 0x80; size_always := 0x1a;
  adr_os_release := (0x60, 0x200); adr_mdb := (0x60, 0x300); dpb_next := fun _ => (0xffff, 0xffff) |}.
#[export] Instance no_mx : @Net Dsk.ram := {|
  redir_mx := fun _ f l _ w => (-1, f, l, w); intr_2f := fun f w => (f, w); set_ddt_bpb := fun _ _ w => w |}.

(** Nobody is at the keyboard. *)
#[export] Instance no_keys : @Keyboard Dsk.ram _ 0.
Proof.
  refine {| no_ctrl_c := fun _ => True |}. intros rq buf w _ Hc.
  exists (with_status 0x0300 rq), buf, w.
  split; [|split; [reflexivity|split; [by left|done]]].
  change (ram_execrh 0 rq buf w = (with_status 0x0300 rq, buf, w)). unfold ram_execrh, ram_disk_drv. by rewrite Hc.
Defined.

(** A program at 99h whose stack has the frame [g] at 0200:0100; its handle 0
    is the file of RwProps.  BREAK is on, as it is when the kernel starts. *)
Definition call_r : ptr := (0x200, 0x100).
Definition call_hs : @hst Dsk.ram :=
  let h := HandleProps.hs in
  Handle.set_jfts {[ 0x60 := HandleProps.tab0 [0; 0]; 0x99 := HandleProps.tab0 [0; 0xff; 0] ]} (set_pth (set_kern ks16 (pth h)) h).
Definition call_st (g : lregs) : @ist Dsk.ram :=
  Ist Dsk.ram (Cst Dsk.ram call_hs con0) (put_iregs call_r (Iregs g 0 0x22 0x11 0x203) (fun _ => 0)) (0x99, 0x80)
    (fun v => match v with break_ena => 1 | _ => 0 end) [] (0, 0) [] 0%nat 0 (Handle.dta call_hs).
Lemma call_bytes g : bytes (ram (call_st g)).
Proof. apply bytes_put_words. intros x. cbn. lia. Qed.
Lemma call_fits : fits call_r SIZEOF_IREGS.
Proof. unfold fits, call_r, SIZEOF_IREGS. cbn [snd]. lia. Qed.

(** ** The answer of a call *)


(** A strategy of allocation that does not exist. *)
Definition bad_strategy : lregs := Lregs 0x5801 0x99 0 0 0 0 0 0.

(** ** Reading *)

(** C10: A program that calls INT 21h with AH=3Fh and the handle of an open
    file gets the next CX bytes of the file, or as many as there are: they are
    in its memory at DS:DX, AX is their number, the carry flag is clear and
    every other register as before.  No other byte of memory changes but
    the word of the PSP that keeps the frame; the file is the same, further
    on.  BREAK may be on, if the next key is not Ctrl-C ([no_break]).  The
    file is one that a read is for ([file_open]: not open for writing only, no
    device, not of the network or shared), and the CX bytes at DS:DX do not
    overlap the frame of the call. *)
Theorem int21_read {M : Machine} {Sh : Shell} {R : Redirector} {Cn : Console} {Dr : Driver} {Mx : Mux} {Lk : Link} {Nt : Net} {D : Disk}
    dv {Kb : Keyboard dv} k fuel r n s l u p d kk T fd x cl :
  let f := get_iregs (ram (entered r s)) r in
  let g := i_regs f in
  let at_ := lin (FP_DS_DX g) in
  fits r SIZEOF_IREGS -> bytes (ram s) -> vars s break_ena = 0 \/ no_break dv s -> AH g = 0x3f ->
  at_ + CX g <= lin r \/ lin r + SIZEOF_IREGS <= at_ ->
  handle_file s (BX g) l u p d kk T fd x cl -> hint_ok d -> capacity d < 2 ^ 32 -> data_area d ->
  let data := slice (content (ks s) l d cl) (sft_size x) (sft_posit x) (CX g) in
  let m := Z.of_nat (length data) in
  exists s' l' y, int21_service k fuel r (S n) s = Some (Ret None, s') /\
    get_iregs (ram s') r = Iregs (set_AX m g) (BP f) (IP f) (CS f) (clear (FLAGS f) FLG_CARRY) /\
    load (ram s') at_ (length data) = data /\
    (forall a, a < at_ \/ at_ + m <= a -> a < lin r \/ lin r + SIZEOF_IREGS <= a -> ram s' a = ram (entered r s) a) /\
    opened (ks s') l' u p d kk T fd y cl /\ sft_posit y = sft_posit x + m /\ same_file x y /\
    content (ks s') l' d cl = content (ks s) l d cl.
Proof. by apply (read_runs k fuel r dv). Qed.

Definition read_1000 : lregs := Lregs 0x3f00 0 1000 0 0 0 0x500 0.
Lemma call_file : handle_file (call_st read_1000) 0 l0 1 P16 d16 FAT16 T16 0 sft16 [2; 3; 4].
Proof.
  split.
  - exists HandleProps.psp_99, (HandleProps.tab0 [0; 0xff; 0]). split; [by split|]. split; [cbn; lia|reflexivity].
  - split; [lia|exact opened16|]. split; [done|done|done|by left].
Qed.
Lemma int21_read_witness :
  exists s' l' y, int21_service (knot 0) 0 call_r 1 (call_st read_1000) = Some (Ret None, s') /\
    get_iregs (ram s') call_r = Iregs (Lregs 1000 0 1000 0 0 0 0x500 0) 0 0x22 0x11 0x202 /\
    load (ram s') 0x5000 1000 = replicate 1000 0 /\
    opened (ks s') l' 1 P16 d16 FAT16 T16 0 y [2; 3; 4] /\ sft_posit y = 1100.
Proof.
  set (s := call_st read_1000).
  assert (Ef : get_iregs (ram (entered call_r s)) call_r = Iregs read_1000 0 0x22 0x11 0x203) by (vm_compute; reflexivity).
  assert (Ed : slice (content (ks s) l0 d16 [2; 3; 4]) (sft_size sft16) (sft_posit sft16) 1000 = replicate 1000 0)
    by (vm_compute; reflexivity).
  destruct (int21_read 0 (knot 0) 0 call_r 0 s l0 1 P16 d16 FAT16 T16 0 sft16 [2; 3; 4])
    as (s' & l' & y & H1 & H2 & H3 & _ & H4 & H5 & _).
  - exact call_fits.
  - exact (call_bytes read_1000).
  - right. split; [reflexivity|split; [reflexivity|exact Logic.I]].
  - rewrite Ef. reflexivity.
  - rewrite Ef. right. vm_compute. discriminate.
  - rewrite Ef. exact call_file.
  - left. reflexivity.
  - vm_compute. reflexivity.
  - exact area16.
  - rewrite Ef in H2, H3, H5. cbn [i_regs read_1000 CX] in H2, H3, H5. rewrite Ed in H2, H3, H5.
    exists s', l', y. exact (conj H1 (conj H2 (conj H3 (conj H4 H5)))).
Defined.

(** ** Sectors *)

Lemma load_sub m a n i k : (i + k <= n)%nat -> take k (drop i (load m a n)) = load m (a + Z.of_nat i) k.
Proof.
  intros H. replace n with (i + (k + (n - i - k)))%nat by lia. rewrite !load_app.
  rewrite drop_app_length' by (symmetry; apply load_length). by rewrite take_app_length' by (symmetry; apply load_length).
Qed.

Lemma bytes_load m a n : bytes m -> Forall byte (load m a n).
Proof. intros Hm. apply Forall_forall. intros x (i & -> & _)%list_elem_of_fmap. apply Hm. Qed.

(** C39: INT 26h takes only the first block of the range that it writes out of
    the cache.  When a drive's blocks [i_dx g] to [i_dx g + i_cx g - 1] are
    written, two or more of them, and the cache holds another one of them,
    the call succeeds, the disk has the program's bytes, and the kernel goes on
    showing the old bytes of that block, those of the buffer.  The drive is
    mounted, has no FAT32 volume and the blocks lie on it; the short form of
    the call is meant (CX is not ffffh). *)
Theorem int26_leaves_stale {M : Machine} {Sh : Shell} {R : Redirector} {Cn : Console} {Dr : Driver} {Mx : Mux} {Lk : Link}
    {Nt : Net} {D : Disk} g s l u p d x b :
  let n := i_cx g in
  cache (ks s) l -> mounted (ks s) u p d -> u = Z.land (i_ax g) 0x7f -> u < lastdrive (env (ks s)) -> ISFAT32 d = false ->
  bytes (ram s) -> 2 <= n < 0xffff -> 0 <= i_dx g -> i_dx g + n <= capacity d ->
  i_dx g < b < i_dx g + n -> x ∈ l -> holds (bufs (ks s) !!! x) b u = true ->
  exists s', int2526_handler 0x26 g s = Some (Ret (i25_result 0 false g), s') /\
    sector (ks s') d b = load (ram s) (lin (i_ds g, i_bx g) + 512 * (b - i_dx g)) 512 /\
    Cache.view (ks s') l d b = Cache.view (ks s) l d b /\ Cache.view (ks s') l d b = b_buffer (bufs (ks s) !!! x).
Proof.
  intros n Hc Hm Hu Hlast H32 Hbytes Hn Hdx Hcap Hb Hx Hh.
  pose proof (mt_get _ _ _ _ Hm) as Hget. pose proof (mt_null _ _ _ _ Hm) as Hnull. pose proof (mt_dpb _ _ _ _ Hm) as Hd.
  set (buf := load (ram s) (lin (i_ds g, i_bx g)) (Z.to_nat (n * 512))).
  assert (Hlen : length buf = Z.to_nat (n * 512)) by apply load_length.
  destruct (drop_first_stale (ks s) l u p d (i_dx g) n buf (i_ds g) x b Hc Hm Hdx ltac:(lia) Hcap)
    as (r & k1 & k2 & E1 & Hf1 & E2 & Hsec & Hv & Hvb); try done.
  { rewrite Hlen. unfold SECSIZE. lia. }
  { apply Forall_take, bytes_load, Hbytes. }
  pose proof (mounted_frame _ _ _ _ _ Hf1 Hm) as Hm1.
  assert (Hd1 : Ks.dget p k1 = Some (d, k1)) by (unfold Ks.dget; by rewrite (mt_dpb _ _ _ _ Hm1)).
  assert (Hrun : exists s', int2526_handler 0x26 g s = Some (Ret (i25_result 0 false g), s') /\ ks s' = k2).
  { eexists. split. unfold int2526_handler. change (0x26 =? 0x26) with true. cbv iota zeta. rewrite <- Hu.
    rewrite (irun_k _ _ _ _ _ Hget), with_ks_same, irun_get, (proj2 (Z.eqb_neq _ _) Hnull), (proj2 (Z.leb_gt _ _) Hlast).
    cbn [orb]. erewrite irun_k by (unfold Ks.dget; by rewrite Hd). rewrite with_ks_same, H32, andb_false_r. cbn [andb].
    rewrite irun_rd. rewrite (proj2 (Z.eqb_neq (i_cx g) 0xffff)) by (fold n; lia). cbv iota beta.
    unfold indos_add at 1. erewrite irun_c by reflexivity. change (DSKWRITEINT26 =? DSKWRITEINT26) with true. cbv iota.
    rewrite crun_assoc. erewrite irun_k by exact E1. rewrite crun_ret.
    unfold user_xfer. rewrite crun_assoc. erewrite irun_k by exact (mt_get _ _ _ _ Hm1).
    rewrite (proj2 (Z.eqb_neq _ _) Hnull), !crun_assoc.
    erewrite irun_k by exact Hd1.
    rewrite crun_ret, crun_assoc, irun_rd, (mt_sec _ _ _ _ Hm). fold n. rewrite (u16_small n) by lia.
    rewrite crun_assoc. erewrite irun_k by exact E2. cbn [fst snd]. rewrite crun_assoc, irun_poke, crun_ret.
    reflexivity. reflexivity. }
  destruct Hrun as (s' & Hrun & <-). exists s'. split; [done|]. split; [|done].
  rewrite Hsec. unfold buf, SECSIZE. rewrite load_sub by lia. f_equal. lia.
Qed.

(** Block 101 of drive B: was read; a program that has nines at 0500:0000
    writes the blocks 100 and 101 from there. *)
Definition nines : umem := store 0x5000 (replicate 1024 9) (fun _ => 0).
Definition read_st (k : @kst Dsk.ram) : @ist Dsk.ram := set_ram nines (with_ks k (call_st (Lregs 0 0 0 0 0 0 0 0))).
Lemma int26_leaves_stale_witness :
  exists s s' l, int2526_handler 0x26 (I25 1 0 2 100 0x500 0x203) s = Some (Ret (I25 0 0 2 100 0x500 0x202), s') /\
    sector (ks s') d16 101 = replicate 512 9 /\ Cache.view (ks s') l d16 101 = replicate 512 0.
Proof.
  destruct (getblk_spec ks16 l0 1 P16 d16 101 (cache0 _) (mounted16 _))
    as (x & k1 & _ & Hx & _ & Hc & Hv & Hf & Hh & _ & Hb & _).
  { split; [vm_compute; split; congruence|]. intros [_ H]. revert H. vm_compute. congruence. }
  assert (Hxl : x ∈ lru x l0) by (apply elem_of_cons; by left).
  assert (Hnb : bytes nines).
  { intros y. unfold nines, store. destruct (replicate _ _ !! _) as [v|] eqn:E; [|lia].
    apply lookup_replicate in E as [-> _]. destruct (_ <=? _); lia. }
  destruct (int26_leaves_stale (I25 1 0 2 100 0x500 0x203) (read_st k1) (lru x l0) 1 P16 d16 x 101 Hc
    (mounted_frame _ _ _ _ _ Hf (mounted16 _)) eq_refl) as (s' & H1 & H2 & _ & H3).
  - destruct Hf as (He & _). change (1 < lastdrive (env k1)). rewrite He. reflexivity.
  - reflexivity.
  - exact Hnb.
  - cbn. lia.
  - cbn. lia.
  - vm_compute. discriminate.
  - cbn. lia.
  - exact Hxl.
  - exact Hh.
  - exists (read_st k1), s', (lru x l0). split; [exact H1|]. split.
    + rewrite H2. vm_compute. reflexivity.
    + rewrite H3. change (ks (read_st k1)) with k1. rewrite Hb. vm_compute. reflexivity.
Defined.
End SvcProps.
