(* ===== verification/NlsProps.v ===== *)
(** * Properties of the national language support

    The kernel's short cut to a package and its answer to the multiplex
    interrupt are the same. *)

From S2P Require Import Prelude Memmgr KState BlockIO FatTab FNode FatAlloc Clock Media FatDir FatFile FatRw.
From S2P Require Import Disk RamVol Path PathProps Handle HandleProps Calls Chario Fcb FcbProps Far FarSpec Sys Task Int21 Service SvcSpec SvcProps Nls.
Import Mm Ks Bio Fat FNode Alloc Clk Media Dir File Rw Dsk RamVol Path PathProps Handle HandleProps Calls Chario Fcb FcbProps Far FarSpec Sys Nls SvcProps.

Module NlsProps.

(** The package that is found is found again by its own numbers. *)
Lemma search_again chain act cp cntry i p :
  searchPackage chain act cp cntry = Some i -> chain !! i = Some p ->
  searchPackage chain act (pk_cp p) (pk_cntry p) = Some i.
Proof.
  unfold searchPackage. intros H Hp. destruct (list_find _ chain) as [[j q]|] eqn:E; [|done]. injection H as ->.
  pose proof E as E0. apply list_find_Some in E0 as (Hq & Hm & _).
  assert (q = p) as -> by congruence. apply Is_true_true in Hm. unfold pkg_is in Hm. apply andb_true_iff in Hm as [H1 H2].
  apply Z.eqb_eq in H1, H2.
  assert (E1 : (if pk_cp p =? NLS_DEFAULT then pk_cp act else pk_cp p) = (if cp =? NLS_DEFAULT then pk_cp act else cp)).
  { rewrite H1. destruct (cp =? NLS_DEFAULT) eqn:Ec; [by destruct (pk_cp act =? NLS_DEFAULT)|by rewrite Ec]. }
  assert (E2 : (if pk_cntry p =? NLS_DEFAULT then pk_cntry act else pk_cntry p) =
               (if cntry =? NLS_DEFAULT then pk_cntry act else cntry)).
  { rewrite H2. destruct (cntry =? NLS_DEFAULT) eqn:Ec; [by destruct (pk_cntry act =? NLS_DEFAULT)|by rewrite Ec]. }
  by rewrite E1, E2, E.
Qed.

Section Nls.
Context {M : Machine} {Sh : Shell} {R : Redirector} {Cn : Console} {Mx : Mux}.

(** The package [p] answers for a code page and a country. *)
Definition answers s cp cntry (i : nat) (p : pkg) : Prop :=
  exists a, nls_chain s !! nls_act s = Some a /\ searchPackage (nls_chain s) a cp cntry = Some i /\ nls_chain s !! i = Some p.
Lemma find_run s cp cntry i p : answers s cp cntry i p -> find_pkg cp cntry s = Some (Ret (Some (i, p)), s).
Proof.
  intros (a & Ha & Hs & Hp). unfold find_pkg, act_pkg. rewrite irun_get, crun_assoc, irun_get.
  unfold iopt at 1. unfold cbind at 1. rewrite Ha, Hs. unfold cbind, iopt. by rewrite Hp.
Qed.
Lemma answers_again s cp cntry i p : answers s cp cntry i p -> answers s (pk_cp p) (pk_cntry p) i p.
Proof. intros (a & Ha & Hs & Hp). exists a. split; [done|]. split; [by eapply search_again|done]. Qed.

Lemma store_none a (m : umem) x : store a [] m x = m x.
Proof. done. Qed.

Lemma short_cut_runs s subfct cp cntry bufsize (q : ptr) i p :
  answers s cp cntry i p -> has (nls_flags (pk_up p)) NLS_FLAG_DIRECT_GETDATA = true ->
  (subfct = 0 -> locateSubfct p 0 = None) -> 0 < bufsize -> (subfct = NLS_DOS_38 -> 24 <= bufsize) ->
  (fst q =? 0) && (snd q =? 0) = false ->
  let fn := if subfct =? NLS_DOS_38 then NLSFUNC_DOS38 else NLSFUNC_GETDATA in
  let r := Lregs fn (pk_cp p) bufsize (pk_cntry p) 0 (snd q) 0 (fst q) in
  syscall_MUX14 r subfct s = cbind (get_data subfct cp cntry bufsize q) (fun rc => cret (rc, r)) s.
Proof.
  intros Ha Hd Hs0 Hb H38 Hq fn r. pose proof (answers_again _ _ _ _ _ Ha) as Ha2.
  unfold syscall_MUX14. change (BX r) with (pk_cp p). change (DX r) with (pk_cntry p).
  rewrite (crun_eq _ _ _ _ _ (find_run _ _ _ _ _ Ha2)).
  unfold get_data, DosGetData. rewrite !crun_assoc, irun_rd, Hq, (proj2 (Z.eqb_neq bufsize 0)) by lia.
  cbn [orb].
  assert (Ep : FP_ES_DI r = q) by (by destruct q).
  assert (Ecx : CX r = bufsize) by done.
  destruct (subfct =? 0) eqn:E0; zbool.
  { assert (EAL : AL r = NLSFUNC_GETDATA) by (unfold r, fn; by subst subfct). subst subfct. clearbody r fn. rewrite EAL, Ep, Ecx.
    change (NLSFUNC_GETDATA =? NLSFUNC_INSTALL_CHECK) with false. change (NLSFUNC_GETDATA =? NLSFUNC_DOS38) with false.
    rewrite Z.eqb_refl. cbn iota. unfold nlsGetData. by rewrite Hs0. }
  rewrite !crun_assoc, (crun_eq _ _ _ _ _ (find_run _ _ _ _ _ Ha)), Hd.
  assert (Ed : forall n, (subfct = NLS_DOS_38 -> 24 <= n) -> (subfct <> NLS_DOS_38 -> n = bufsize) ->
    nlsGetData p subfct n = nlsGetData p subfct bufsize).
  { intros n Hn1 Hn2. destruct (decide (subfct = NLS_DOS_38)) as [->|Hne]; [|by rewrite Hn2].
    unfold nlsGetData. destruct (locateSubfct p NLS_DOS_38) as [poi|]; [|done].
    change (NLS_DOS_38 =? 1) with false. rewrite Z.eqb_refl. unfold cpyBuf.
    by rewrite (proj2 (Z.leb_le 24 n)), (proj2 (Z.leb_le 24 bufsize)) by auto. }
  destruct (subfct =? NLS_DOS_38) eqn:E; zbool.
  - assert (EAL : AL r = NLSFUNC_DOS38) by done. clearbody r fn. subst subfct. rewrite EAL, Ep.
    change (NLSFUNC_DOS38 =? NLSFUNC_INSTALL_CHECK) with false. rewrite Z.eqb_refl. cbn iota.
    rewrite (Ed 34) by (done || lia). unfold iopt, cbind, cret, kret. by destruct (nlsGetData p NLS_DOS_38 bufsize) as [[]|].
  - assert (EAL : AL r = NLSFUNC_GETDATA) by done. clearbody r fn. rewrite EAL, Ep, Ecx.
    change (NLSFUNC_GETDATA =? NLSFUNC_INSTALL_CHECK) with false. change (NLSFUNC_GETDATA =? NLSFUNC_DOS38) with false.
    rewrite Z.eqb_refl. cbn iota. unfold iopt, cbind, cret, kret. by destruct (nlsGetData p subfct bufsize) as [[]|].
Qed.

End Nls.

(** A package of two tables; table 5 is asked for. *)
Definition usa : pkg :=
  Pkg 1 437 0x59 0x4e 2 (NlsPackage 0x000e [] []) [5; 0x10; 0; 0x60; 0; 1; 0x26; 0; 1; 0] [0] (0x60, 0x30).
Definition nls_st : @ist Dsk.ram :=
  let s := call_st (Lregs 0 0 0 0 0 0 0 0) in
  Ist Dsk.ram (Sys.cs s) (Sys.ram s) (dta_at s) (vars s) [] (0, 0) [usa] 0%nat 0 (Handle.dta call_hs).
End NlsProps.
