(* ===== verification/ExecSpec.v ===== *)
(** * Starting a program and going back

    [load_transfer] and [return_user] on the memory of the two programs.
    The second module, ExeSpec, is about the image of an EXE file. *)

From S2P Require Import Prelude Memmgr KState BlockIO FatTab FNode FatAlloc Clock Media FatDir FatFile FatRw.
From S2P Require Import Path Handle Calls Chario Fcb Far FarSpec Sys Task.
Import Mm Ks Bio Fat FNode Alloc Clk Media Dir File Rw Path Handle Calls Chario Fcb Far FarSpec Sys Task.

Module ExecSpec.

(** ** Pointers in memory *)

Lemma getp_put_same p n i q m : fits p n -> 0 <= i -> i + 3 < n -> word (fst q) -> word (snd q) ->
  getp (putp (far_add p i) q m) (far_add p i) = q.
Proof.
  intros Hf H0 H1 Hq1 Hq2. unfold getp, putp. rewrite !(far_add_add p n) by (done || lia).
  rewrite (getw_put_same p n), (getw_put_other p n), (getw_put_same p n) by (done || lia).
  rewrite !word16 by done. by destruct q.
Qed.
Lemma putp_out p n i q m x : fits p n -> 0 <= i -> i + 3 < n -> x < lin p + i \/ lin p + i + 4 <= x ->
  putp (far_add p i) q m x = m x.
Proof.
  intros Hf H0 H1 Hx. unfold putp. rewrite !(far_add_add p n) by (done || lia). rewrite !(putw_at p n) by (done || lia).
  by rewrite (proj2 (Z.eqb_neq x (lin p + (i + 2) + 1))), (proj2 (Z.eqb_neq x (lin p + (i + 2)))),
    (proj2 (Z.eqb_neq x (lin p + i + 1))), (proj2 (Z.eqb_neq x (lin p + i))) by lia.
Qed.
Lemma getw_ext m m' p n i : fits p n -> 0 <= i -> i + 1 < n ->
  (forall x, lin p + i <= x < lin p + i + 2 -> m x = m' x) -> getw m (far_add p i) = getw m' (far_add p i).
Proof. intros Hf H0 H1 H. rewrite !(getw_at p n), !H by (done || lia). done. Qed.
Lemma getp_ext m m' p n i : fits p n -> 0 <= i -> i + 3 < n ->
  (forall x, lin p + i <= x < lin p + i + 4 -> m x = m' x) -> getp m (far_add p i) = getp m' (far_add p i).
Proof.
  intros Hf H0 H1 H. unfold getp. rewrite !(far_add_add p n) by (done || lia).
  by rewrite !(getw_ext m m' p n) by (done || lia || (intros; apply H; lia)).
Qed.

(** The start of a segment, as the members of a PSP are written. *)
Lemma seg_fits seg : fits (seg, 0) 65536.
Proof. split; cbn; lia. Qed.
Lemma seg_at seg i : 0 <= i < 65536 -> (seg, i) = far_add (seg, 0) i.
Proof. intros H. unfold far_add. cbn [fst snd]. by rewrite u16_small by lia. Qed.
Lemma seg_lin seg : lin (seg, 0) = seg * 16.
Proof. unfold lin. cbn. lia. Qed.


Lemma seg_out seg i q m x : 0 <= i -> i + 3 < 65536 -> x < seg * 16 + i \/ seg * 16 + i + 4 <= x ->
  putp (seg, i) q m x = m x.
Proof.
  intros H0 H1 Hx. rewrite (seg_at seg i) by lia. apply (putp_out _ 65536); [apply seg_fits|lia|lia|]. by rewrite seg_lin.
Qed.
Lemma seg_same seg i q m : 0 <= i -> i + 3 < 65536 -> word (fst q) -> word (snd q) -> getp (putp (seg, i) q m) (seg, i) = q.
Proof. intros H0 H1 Hq1 Hq2. rewrite (seg_at seg i) by lia. by apply (getp_put_same _ 65536); [apply seg_fits|..]. Qed.
Lemma seg_ext seg i m m' : 0 <= i -> i + 3 < 65536 ->
  (forall x, seg * 16 + i <= x < seg * 16 + i + 4 -> m x = m' x) -> getp m (seg, i) = getp m' (seg, i).
Proof.
  intros H0 H1 H. rewrite (seg_at seg i) by lia. apply (getp_ext _ _ _ 65536); [apply seg_fits|lia|lia|].
  intros x Hx. rewrite seg_lin in Hx. by apply H.
Qed.
Lemma getp_words m p : bytes m -> word (fst (getp m p)) /\ word (snd (getp m p)).
Proof. intros Hm. split; by apply getw_word. Qed.

Section Exec.
Context {M : Machine} {Sh : Shell} {R : Redirector} {Cn : Console}.

Definition with_hs (h : hst) (s : ist) : ist := set_cs (Cst M h (cn (cs s))) s.
(** The three vectors that belong to the process. *)
Definition VECTORS := 0x88.
Definition restored (p : Z) (m : umem) : umem :=
  putp (0, 4 * 0x24) (getp m (p, ps_isv24)) (putp (0, 4 * 0x23) (getp m (p, ps_isv23))
    (putp (0, 4 * 0x22) (getp m (p, ps_isv22)) m)).
(** The frame continues at [v]. *)
Definition resume (irp v : ptr) (m : umem) : umem :=
  putw (far_add irp 22) 0x200 (putw (far_add irp 18) (snd v) (putw (far_add irp 20) (fst v) m)).

Lemma restored_out p m x : x < VECTORS \/ VECTORS + 12 <= x -> restored p m x = m x.
Proof. intros Hx. unfold VECTORS in Hx. unfold restored. rewrite 3 seg_out by lia. done. Qed.
Lemma restored_psp p m q i : 0x40 <= q -> 0 <= i -> i + 3 < 256 -> getp (restored p m) (q, i) = getp m (q, i).
Proof. intros Hq H0 H1. apply seg_ext; [lia|lia|]. intros x Hx. apply restored_out. unfold VECTORS. lia. Qed.
Lemma restored_vector p m : bytes m ->
  let m' := restored p m in
  getp m' (0, 4 * 0x22) = getp m (p, ps_isv22) /\ getp m' (0, 4 * 0x23) = getp m (p, ps_isv23) /\
  getp m' (0, 4 * 0x24) = getp m (p, ps_isv24).
Proof.
  intros Hm. cbv zeta. unfold restored.
  assert (E : forall i j q m1, 0 <= i -> i + 3 < 65536 -> 0 <= j -> j + 3 < 65536 -> j + 4 <= i \/ i + 4 <= j ->
    getp (putp (0, i) q m1) (0, j) = getp m1 (0, j)).
  { intros i j q m1 Hi1 Hi2 Hj1 Hj2 Hij. apply seg_ext; [lia|lia|]. intros x Hx. apply seg_out; lia. }
  destruct (getp_words m (p, ps_isv22) Hm), (getp_words m (p, ps_isv23) Hm), (getp_words m (p, ps_isv24) Hm).
  split; [|split].
  - rewrite 2 E by lia. by apply seg_same.
  - rewrite E by lia. by apply seg_same.
  - by apply seg_same.
Qed.

(** [return_user] when the rest of the end of the process runs. *)
Lemma return_user_eq s h :
  end_process (vars s term_type) (hs s) = Some (tt, h) ->
  let m := restored (cur s) (ram s) in
  let irp := getp m (cu_psp_of h, ps_stack) in
  exists s', return_user s = Some (Ret irp, s') /\ hs s' = h /\
    ram s' = resume irp (getp m (cur s, ps_isv22)) m.
Proof.
  intros E m irp.
  eexists. split; [|split].
  - unfold return_user, setvec. rewrite irun_get.
    rewrite !(crun_eq _ _ _ _ _ (eq_refl : wr_ram _ _ = Some (Ret tt, _))).
    rewrite (crun_eq _ _ _ _ _ (eq_refl : vset _ _ _ = Some (Ret tt, _))), irun_vget.
    erewrite irun_h by exact E. rewrite irun_get.
    rewrite (crun_eq _ _ _ _ _ (eq_refl : vset _ _ _ = Some (Ret tt, _))).
    rewrite (crun_eq _ _ _ _ _ (eq_refl : wr_ram _ _ = Some (Ret tt, _))).
    rewrite (crun_eq _ _ _ _ _ (eq_refl : dec_InDOS _ = Some (Ret tt, _))). reflexivity.
  - reflexivity.
  - reflexivity.
Qed.

(** ** The two frames *)

Definition apart (a n b m : Z) : Prop := a + n <= b \/ b + m <= a.

Lemma resume_frame irp v m : fits irp SIZEOF_IREGS -> word (fst v) -> word (snd v) ->
  get_iregs (resume irp v m) irp = let f := get_iregs m irp in Iregs (i_regs f) (BP f) (snd v) (fst v) 0x200.
Proof.
  intros Hf H1 H2. unfold resume. rewrite get_put_flags by done. unfold get_iregs. cbn [i_regs BP IP CS].
  rewrite (getw_put_same irp SIZEOF_IREGS), !(getw_put_other irp SIZEOF_IREGS) by (done || (unfold SIZEOF_IREGS; lia)).
  rewrite !(getw_put_same irp SIZEOF_IREGS) by (done || (unfold SIZEOF_IREGS; lia)).
  by rewrite (word16 _ H1), (word16 _ H2).
Qed.

Lemma resume_out irp v m x : fits irp SIZEOF_IREGS -> x < lin irp \/ lin irp + SIZEOF_IREGS <= x -> resume irp v m x = m x.
Proof.
  intros Hf Hx. unfold SIZEOF_IREGS in Hx.
  assert (E : forall i w m1, 0 <= i -> i + 1 < 24 -> putw (far_add irp i) w m1 x = m1 x).
  { intros i w m1 H0 H1. rewrite (putw_at irp SIZEOF_IREGS) by done.
    by rewrite (proj2 (Z.eqb_neq x (lin irp + i + 1))), (proj2 (Z.eqb_neq x (lin irp + i))) by lia. }
  unfold resume. by rewrite 3 E by lia.
Qed.

(** The stores of [load_transfer]. *)
Definition transferred (user_r : ptr) (q ds code : Z) (exp : exec_blk) (m : umem) : umem :=
  let m := putp (q, ps_stack) user_r (putp (ds, ps_prevpsp) (q, 0) m) in
  let m := putw (far_add user_r 22) (clear (getw m (far_add user_r 22)) FLG_CARRY) m in
  put_iregs (far_add (stack exp) (- SIZEOF_IREGS)) (user_frame ds code exp) m.

Lemma load_transfer_eq user_r ds exp code s p :
  psps (hs s) !! ds = Some p ->
  exists s', load_transfer user_r ds exp code LOADNGO s = Some (Ret (inr (far_add (stack exp) (- SIZEOF_IREGS))), s') /\
    ram s' = transferred user_r (cur s) ds code exp (ram s) /\ cur s' = ds /\ dta_at s' = (ds, ps_cmd) /\
    psps (hs s') !! ds = Some (Psp (cur s) (ps_maxfiles p) (ps_filetab p)).
Proof.
  intros Hp. set (h1 := set_psps (<[ds := Psp (cur s) (ps_maxfiles p) (ps_filetab p)]> (psps (hs s))) (hs s)).
  assert (E1 : (let! p := psp_at ds in kmod (fun s0 => set_psps (<[ds := Psp (cur s) (ps_maxfiles p) (ps_filetab p)]> (psps s0)) s0)) (hs s)
               = Some (tt, h1)).
  { unfold psp_at. rewrite run_assoc, run_get, Hp, run_opt. done. }
  eexists. split; [|split; [|split; [|split]]].
  - unfold load_transfer. rewrite irun_get. erewrite irun_h by exact E1.
    rewrite !(crun_eq _ _ _ _ _ (eq_refl : wr_ram _ _ = Some (Ret tt, _))).
    rewrite (crun_eq _ _ _ _ _ (eq_refl : in_h (kmod _) _ = Some (Ret tt, _))).
    rewrite irun_mod. change (LOADNGO =? LOADNGO) with true. cbn iota.
    rewrite (crun_eq _ _ _ _ _ (eq_refl : wr_ram _ _ = Some (Ret tt, _))).
    rewrite (crun_eq _ _ _ _ _ (eq_refl : dec_InDOS _ = Some (Ret tt, _))). reflexivity.
  - reflexivity.
  - reflexivity.
  - reflexivity.
  - cbn. by rewrite lookup_insert_eq.
Qed.

(** What of it can be found at other places. *)
Lemma transferred_out user_r q ds code exp m x :
  let irp := far_add (stack exp) (- SIZEOF_IREGS) in
  fits user_r SIZEOF_IREGS -> fits irp SIZEOF_IREGS ->
  x < q * 16 + ps_stack \/ q * 16 + ps_stack + 4 <= x -> x < ds * 16 + ps_prevpsp \/ ds * 16 + ps_prevpsp + 4 <= x ->
  x < lin user_r + 22 \/ lin user_r + SIZEOF_IREGS <= x -> x < lin irp \/ lin irp + SIZEOF_IREGS <= x ->
  transferred user_r q ds code exp m x = m x.
Proof.
  intros irp Hu Hi Hq Hd Hx Hy. unfold transferred. fold irp. unfold put_iregs. rewrite (put_words_out irp SIZEOF_IREGS) by (done || evens).
  unfold SIZEOF_IREGS in Hx. rewrite (putw_at user_r SIZEOF_IREGS) by (done || (unfold SIZEOF_IREGS; lia)).
  rewrite (proj2 (Z.eqb_neq x (lin user_r + 22 + 1))), (proj2 (Z.eqb_neq x (lin user_r + 22))) by lia.
  unfold ps_stack, ps_prevpsp in *. by rewrite 2 seg_out by lia.
Qed.
Lemma transferred_stack user_r q ds code exp m :
  let irp := far_add (stack exp) (- SIZEOF_IREGS) in
  fits user_r SIZEOF_IREGS -> fits irp SIZEOF_IREGS -> word (fst user_r) -> word (snd user_r) ->
  apart (lin user_r) SIZEOF_IREGS (q * 16) SIZEOF_PSP -> apart (lin irp) SIZEOF_IREGS (q * 16) SIZEOF_PSP ->
  getp (transferred user_r q ds code exp m) (q, ps_stack) = user_r.
Proof.
  intros irp Hu Hi Hw1 Hw2 Hau Hai. unfold apart, SIZEOF_IREGS, SIZEOF_PSP in Hau, Hai.
  rewrite (seg_ext q ps_stack _ (putp (q, ps_stack) user_r (putp (ds, ps_prevpsp) (q, 0) m))).
  - apply seg_same; unfold ps_stack; [lia|lia|done|done].
  - unfold ps_stack. lia.
  - unfold ps_stack. lia.
  - unfold ps_stack. intros x Hx. unfold transferred. fold irp. unfold put_iregs, ps_stack.
    rewrite (put_words_out irp SIZEOF_IREGS) by (done || evens || (unfold SIZEOF_IREGS; lia)).
    rewrite (putw_at user_r SIZEOF_IREGS) by (done || (unfold SIZEOF_IREGS; lia)).
    by rewrite (proj2 (Z.eqb_neq x (lin user_r + 22 + 1))), (proj2 (Z.eqb_neq x (lin user_r + 22))) by lia.
Qed.
End Exec.
End ExecSpec.

(** * The image of an EXE file

    The pieces that the loader reads are the image, and the words that its
    table names are moved. *)

From S2P Require Import Prelude Memmgr KState BlockIO FatTab FNode FatAlloc Clock Media FatDir FatFile FatRw.
From S2P Require Import Disk Ring CacheSpec CacheOps FatPure FatSpec FatWrite Table FatChain AllocSpec MapSpec SftSpec DirectIO RwSpec RwProps.
From S2P Require Import Frame Path Handle Calls Chario Fcb FcbSpec Far FarSpec Sys FileRun Task.
Import Mm Ks Bio Fat FNode Alloc Clk Media Dir File Rw Dsk Ring Cache CacheOps FatPure FatSpec FatWrite Table Chain.
Import AllocSpec MapSpec SftSpec Direct RwSpec RwProps Frame Path Handle Calls Chario Fcb FcbSpec Far FarSpec Sys FileRun Task.

Module ExeSpec.

(** ** The relocation table *)

(** The first [n] entries of the bytes [l], offset and segment, if there are as many. *)
Fixpoint relocs (n : nat) (l : list Z) : list (Z * Z) :=
  match n, words_of (take 4 l) with
  | S n, [off; seg] => (off, seg) :: relocs n (drop 4 l)
  | _, _ => []
  end.
(** The word there gets [factor] added. *)
Definition move_word (base factor : Z) (m : umem) (e : Z * Z) : umem :=
  let spot := (u16 (snd e + base), fst e) in putw spot (getw m spot + factor) m.
Definition relocated (base factor : Z) (l : list (Z * Z)) (m : umem) : umem := fold_left (move_word base factor) l m.

Lemma relocs_short n l : (length l < 4)%nat -> relocs n l = [].
Proof.
  intros H. destruct n; [done|]. cbn [relocs]. rewrite take_ge by lia.
  destruct l as [|a [|b [|c [|e l]]]]; try done. cbn in H. lia.
Qed.
Lemma words_four l : (4 <= length l)%nat -> exists off seg, words_of (take 4 l) = [off; seg].
Proof. destruct l as [|a [|b [|c [|e l]]]]; cbn; intros H; try lia. by eexists _, _. Qed.

Lemma store_agrees a l m m' : (forall x, m x = m' x) -> forall x, store a l m x = store a l m' x.
Proof. intros H x. unfold store. rewrite H. done. Qed.
Lemma putw_agrees p v m m' : (forall x, m x = m' x) -> forall x, putw p v m x = putw p v m' x.
Proof. intros H. unfold putw, putb. by do 2 apply store_agrees. Qed.
Lemma relocated_agrees base factor l m m' :
  (forall x, m x = m' x) -> forall x, relocated base factor l m x = relocated base factor l m' x.
Proof.
  revert m m'. induction l as [|e l IH]; intros m m' H; [done|]. apply IH. unfold move_word, getw, getb. rewrite !H.
  by apply putw_agrees.
Qed.

(** One store behind the other. *)
Lemma store_app a l1 l2 m x : store (a + Z.of_nat (length l1)) l2 (store a l1 m) x = store a (l1 ++ l2) m x.
Proof.
  destruct (decide (x < a)) as [Hx|Hx]; [by rewrite !store_out by lia|].
  destruct (decide (x < a + Z.of_nat (length l1))) as [H1|H1].
  - rewrite store_out by lia. destruct (lookup_lt_is_Some_2 l1 (Z.to_nat (x - a))) as [b E]; [lia|].
    rewrite (store_in a l1 m x b), (store_in a (l1 ++ l2) m x b); [done|lia| |lia|done]. by rewrite lookup_app_l by lia.
  - destruct (decide (x < a + Z.of_nat (length l1) + Z.of_nat (length l2))) as [H2|H2].
    + destruct (lookup_lt_is_Some_2 l2 (Z.to_nat (x - (a + Z.of_nat (length l1))))) as [b E]; [lia|].
      rewrite (store_in _ l2 _ x b), (store_in a (l1 ++ l2) m x b); [done|lia| |lia|done].
      rewrite lookup_app_r by lia. rewrite <- E. f_equal. lia.
    + rewrite !store_out by (rewrite ?length_app; lia). done.
Qed.

Lemma take_add_drop_ (l : list Z) i j : take (i + j) l = take i l ++ take j (drop i l).
Proof. revert l. induction i as [|i IH]; intros [|x l]; cbn; [by rewrite ?take_nil|done|by rewrite take_nil|]. by rewrite IH. Qed.
(** Two reads that follow each other are one. *)
Lemma slice_slice l size pos n n1 :
  0 <= pos -> 0 <= n1 -> n1 <= n -> n1 <= size - pos -> size <= Z.of_nat (length l) ->
  slice l size pos n = slice l size pos n1 ++ slice l size (pos + n1) (n - n1).
Proof.
  intros Hp H1 Hn Ha Hs. unfold slice.
  replace (Z.max 0 (Z.min n1 (size - pos))) with n1 by lia.
  replace (Z.max 0 (Z.min (n - n1) (size - (pos + n1)))) with (Z.max 0 (Z.min n (size - pos)) - n1) by lia.
  set (k := Z.max 0 (Z.min n (size - pos))). assert (Hk : n1 <= k) by lia.
  replace (Z.to_nat k) with (Z.to_nat n1 + Z.to_nat (k - n1))%nat by lia.
  rewrite Z2Nat.inj_add by lia. rewrite <- (drop_drop l). apply take_add_drop_.
Qed.

Lemma same_file_trans x y z : same_file x y -> same_file y z -> same_file x z.
Proof. unfold same_file. intuition congruence. Qed.
Lemma s16_below x : 0 <= x < 32768 -> s16 x = x.
Proof. intros H. unfold s16. Z.to_euclidean_division_equations. lia. Qed.

Section Exe.
Context {M : Machine} {Sh : Shell} {R : Redirector} {Cn : Console} {D : Disk}.
Context (k : svc) (fuel : nat).
Context (u p : Z) (d : dpb) (kk : fat_type) (T : Z -> Z) (fd : Z) (cl : list Z).
Context (Hhint : hint_ok d) (Hcap : capacity d < 2 ^ 32) (Hda : data_area d).

Definition same_content s l s' l' : Prop := content (ks s') l' d cl = content (ks s) l d cl.

Lemma image_runs n s l x exe_size sp :
  file_open s l u p d kk T fd x cl -> 0 <= exe_size <= 2016 * Z.of_nat n -> (1 <= n)%nat -> 0 <= sp -> sp + exe_size <= 65536 ->
  let img := slice (content (ks s) l d cl) (sft_size x) (sft_posit x) (exe_size * 16) in
  exists s' l' y, image_loop k fuel n fd exe_size sp s = Some (Ret tt, s') /\
    (forall a, ram s' a = store (sp * 16) img (ram s) a) /\
    file_open s' l' u p d kk T fd y cl /\ sft_posit y = sft_posit x + Z.of_nat (length img) /\ same_file x y /\
    same_content s l s' l'.
Proof.
  revert s l x exe_size sp. induction n as [|n IH]; intros s l x exe_size sp Hf He Hn Hsp Hend img; [lia|].
  pose proof (fo_open _ _ _ _ _ _ _ _ _ _ Hf) as Hop. pose proof (content_length _ _ _ _ _ _ _ _ _ _ Hop Hda) as Hlen.
  assert (Hpos : 0 <= sft_posit x) by apply Hop.
  cbn [image_loop]. change (CHUNK / 16) with 2016. change CHUNK with 32256.
  set (to := if exe_size <? 2016 then exe_size * 16 else 32256).
  assert (Hto : to = Z.min (exe_size * 16) 32256).
  { unfold to. destruct (exe_size <? 2016) eqn:E; zbool; lia. }
  destruct (rw_sft_reads k fuel s l u p d kk T fd x cl to (sp, 0) Hf Hhint Hcap Hda ltac:(lia))
    as (k1 & l1 & y & E1 & Hop1 & Hy & Hsame & Hcont & Hm & Hre).
  set (data := read_data s l d cl x to) in *. set (s1 := set_ram _ (with_ks k1 s)) in E1.
  assert (Hl : Z.of_nat (length data) = Z.max 0 (Z.min to (sft_size x - sft_posit x))) by (by apply slice_length).
  assert (Hr1 : forall a, ram s1 a = store (sp * 16) data (ram s) a).
  { intros a. unfold s1. cbn [ram set_ram with_ks]. replace (lin (sp, 0)) with (sp * 16) by (unfold lin; cbn; lia).
    apply store_patch. lia. }
  assert (Hf1 : file_open s1 l1 u p d kk T fd y cl) by (split; [apply Hf|exact Hop1|exact Hre]).
  rewrite (crun_eq _ _ _ _ _ E1). rewrite s16_below by lia.
  destruct ((Z.of_nat (length data) <? to) || (exe_size <=? 2016)) eqn:Ec.
  - assert (Ei : img = data).
    { unfold img, data, read_data, slice. do 2 f_equal. apply orb_true_iff in Ec as [Ec|Ec]; zbool; lia. }
    rewrite Ei. exists s1, l1, y. split; [done|]. split; [done|]. by split.
  - apply orb_false_iff in Ec as [Ec1 Ec2]. zbool. assert (E32 : to = 32256) by lia.
    rewrite (u16_small (sp + 2016)) by lia.
    destruct (IH s1 l1 y (exe_size - 2016) (sp + 2016) Hf1 ltac:(lia) ltac:(lia) ltac:(lia) ltac:(lia))
      as (s' & l' & z & E2 & Hr2 & Hf2 & Hz & Hsame2 & Hc2).
    change (content (ks s1) l1 d cl) with (content k1 l1 d cl) in Hr2, Hz. rewrite Hcont in Hr2, Hz.
    assert (Esz : sft_size y = sft_size x) by apply Hsame.
    assert (Ei : img = data ++ slice (content (ks s) l d cl) (sft_size y) (sft_posit y) ((exe_size - 2016) * 16)).
    { rewrite Esz, Hy. replace (Z.of_nat (length data)) with 32256 by lia.
      replace ((exe_size - 2016) * 16) with (exe_size * 16 - 32256) by lia. unfold img, data, read_data. rewrite E32.
      apply slice_slice; lia. }
    exists s', l', z. split; [exact E2|]. split.
    { intros a. rewrite Hr2, Ei. replace ((sp + 2016) * 16) with (sp * 16 + Z.of_nat (length data)) by lia.
      rewrite <- store_app. by apply store_agrees. }
    split; [exact Hf2|]. split; [rewrite Hz, Ei, length_app, Nat2Z.inj_add; lia|].
    split; [by eapply same_file_trans|]. unfold same_content in *. rewrite Hc2. exact Hcont.
Qed.

Lemma words_patch bp data : length bp = 4%nat -> length data = 4%nat -> words_of (patch bp 0 data) = words_of (take 4 data).
Proof.
  intros Hb Hd. unfold patch. change (Z.to_nat 0) with 0%nat. rewrite take_0, Nat.add_0_l, Hd, drop_ge, app_nil_l, app_nil_r by lia.
  by rewrite take_ge by lia.
Qed.

Lemma reloc_runs n s l x base factor :
  file_open s l u p d kk T fd x cl -> Z.of_nat n < 65536 ->
  let es := relocs n (slice (content (ks s) l d cl) (sft_size x) (sft_posit x) (4 * Z.of_nat n)) in
  exists s' l' y, reloc_loop k fuel n fd base factor s = Some (Ret (Nat.eqb (length es) n), s') /\
    ram s' = relocated base factor es (ram s) /\
    file_open s' l' u p d kk T fd y cl /\ same_file x y /\ same_content s l s' l'.
Proof.
  revert s l x. induction n as [|n IH]; intros s l x Hf Hn es.
  { exists s, l, x. split; [done|]. split; [done|]. split; [done|]. split; [by repeat split|done]. }
  pose proof (fo_open _ _ _ _ _ _ _ _ _ _ Hf) as Hop. pose proof (content_length _ _ _ _ _ _ _ _ _ _ Hop Hda) as Hlen.
  assert (Hpos : 0 <= sft_posit x) by apply Hop.
  destruct (sft_reads k fuel s l u p d kk T fd x cl 4 stack_at [0; 0; 0; 0] Hf Hhint Hcap Hda ltac:(lia) ltac:(cbn; lia))
    as (k1 & l1 & y & E1 & Hop1 & Hy & Hsame & Hcont & Hm & Hre).
  set (data := read_data s l d cl x 4) in *.
  assert (Hl : Z.of_nat (length data) = Z.max 0 (Z.min 4 (sft_size x - sft_posit x))) by (by apply slice_length).
  assert (Hf1 : file_open (with_ks k1 s) l1 u p d kk T fd y cl) by (split; [apply Hf|exact Hop1|exact Hre]).
  cbn [reloc_loop]. rewrite (crun_eq _ _ _ _ _ E1). cbn [fst snd].
  destruct (Z.of_nat (length data) =? 4) eqn:E4; cbn [negb]; zbool.
  - destruct (words_four data) as (off & seg & Ew); [lia|].
    rewrite words_patch, Ew by (done || lia). rewrite irun_wr.
    change (fun m => putw _ _ m) with (fun m => move_word base factor m (off, seg)).
    set (s2 := set_ram (putw _ _ _) (with_ks k1 s)).
    assert (Hf2 : file_open s2 l1 u p d kk T fd y cl) by (split; [apply Hf|exact Hop1|exact Hre]).
    destruct (IH s2 l1 y Hf2 ltac:(lia)) as (s' & l' & z & E2 & Hr2 & Hf3 & Hsame2 & Hc2).
    change (content (ks s2) l1 d cl) with (content k1 l1 d cl) in E2, Hr2. rewrite Hcont in E2, Hr2.
    assert (Esz : sft_size y = sft_size x) by apply Hsame.
    assert (Es : slice (content (ks s) l d cl) (sft_size x) (sft_posit x) (4 * Z.of_nat (S n)) =
      data ++ slice (content (ks s) l d cl) (sft_size y) (sft_posit y) (4 * Z.of_nat n)).
    { rewrite Esz, Hy, E4. replace (4 * Z.of_nat n) with (4 * Z.of_nat (S n) - 4) by lia. apply slice_slice; lia. }
    assert (Ee : es = (off, seg) :: relocs n (slice (content (ks s) l d cl) (sft_size y) (sft_posit y) (4 * Z.of_nat n))).
    { unfold es. rewrite Es. cbn [relocs]. rewrite take_app_le by lia. rewrite take_ge in Ew by lia.
      rewrite take_ge, Ew by lia. rewrite drop_app_ge by lia.
      replace (4 - length data)%nat with 0%nat by lia. by rewrite drop_0. }
    rewrite Ee. exists s', l', z. split; [exact E2|]. split; [exact Hr2|]. split; [exact Hf3|].
    split; [by eapply same_file_trans|]. unfold same_content in *. rewrite Hc2. exact Hcont.
  - assert (Ee : es = []).
    { apply relocs_short. assert (Z.of_nat (length (slice (content (ks s) l d cl) (sft_size x) (sft_posit x) (4 * Z.of_nat (S n)))) < 4); [|lia].
      rewrite slice_length by lia. lia. }
    rewrite Ee. exists (with_ks k1 s), l1, y. split; [done|]. split; [done|]. split; [done|]. by split.
Qed.

(** From the position of the image on: the image, the seek and the table. *)
Lemma exe_read_runs s l x h exe_size start_seg factor :
  file_open s l u p d kk T fd x cl ->
  0 <= exe_size < 65536 -> 0 <= start_seg -> start_seg + exe_size <= 65536 -> word (exRelocTable h) -> word (exRelocItems h) ->
  let bytes_at pos n := slice (content (ks s) l d cl) (sft_size x) pos n in
  let img := bytes_at (sft_posit x) (exe_size * 16) in
  let es := relocs (Z.to_nat (exRelocItems h)) (bytes_at (exRelocTable h) (4 * exRelocItems h)) in
  exists s' l' y, exe_read k fuel h fd exe_size start_seg factor s =
      Some (Ret (Z.of_nat (length es) =? exRelocItems h), s') /\
    (forall a, ram s' a = relocated start_seg factor es (store (start_seg * 16) img (ram s)) a) /\
    file_open s' l' u p d kk T fd y cl /\ same_file x y /\ same_content s l s' l'.
Proof.
  intros Hf He Hs0 Hs1 Ht Hi bytes_at img es. unfold exe_read, word in *.
  destruct (image_runs image_fuel s l x exe_size start_seg Hf) as (s1 & l1 & y & E1 & Hr1 & Hf1 & _ & Hsame1 & Hc1);
    [unfold image_fuel; lia|unfold image_fuel; lia|lia|lia|].
  rewrite (crun_eq _ _ _ _ _ E1). destruct Hf1 as [Hfd1 Hop1 Hre1].
  destruct (seek_runs _ _ _ _ _ _ _ _ _ _ (exRelocTable h) Hop1 (re_device _ _ Hre1) (proj1 Hfd1) ltac:(lia))
    as (k2 & E2 & Hop2 & R2 & Hsh2 & _).
  rewrite (irun_k _ _ _ _ _ E2). set (s2 := with_ks k2 s1).
  assert (Hf2 : file_open s2 l1 u p d kk T fd (set_sft_posit (exRelocTable h) y) cl).
  { split; [done|exact Hop2|]. change (fs (ks s2)) with (fs k2). destruct Hre1. split; [done|done|done|]. by rewrite Hsh2. }
  destruct (reloc_runs (Z.to_nat (exRelocItems h)) s2 l1 _ start_seg factor Hf2 ltac:(lia))
    as (s3 & l3 & z & E3 & Hr3 & Hf3 & Hsame3 & Hc3).
  assert (Hc2 : content (ks s2) l1 d cl = content (ks s) l d cl).
  { rewrite <- Hc1. change (ks s2) with k2. by eapply content_kept; [apply Hop1|done|apply Hop1|]. }
  rewrite Z2Nat.id in E3, Hr3 by lia. rewrite Hc2 in E3, Hr3.
  change (sft_size (set_sft_posit (exRelocTable h) y)) with (sft_size y) in E3, Hr3.
  change (sft_posit (set_sft_posit (exRelocTable h) y)) with (exRelocTable h) in E3, Hr3.
  assert (Esz : sft_size y = sft_size x) by apply Hsame1. rewrite Esz in E3, Hr3.
  fold (bytes_at (exRelocTable h) (4 * exRelocItems h)) in E3, Hr3. fold es in E3, Hr3.
  exists s3, l3, z. split.
  { change SEEK_SET with 0. rewrite E3. do 2 f_equal. f_equal. destruct (Z.of_nat (length es) =? exRelocItems h) eqn:En; zbool.
    - apply Nat.eqb_eq. lia.
    - apply Nat.eqb_neq. lia. }
  split; [intros a; rewrite Hr3; by apply relocated_agrees|]. split; [exact Hf3|].
  split; [eapply same_file_trans; [exact Hsame1|exact Hsame3]|]. unfold same_content in *. by rewrite Hc3.
Qed.
End Exe.
End ExeSpec.
