(* ===== verification/ExecProps.v ===== *)
(** * Properties of programs

    A program that another one starts, and the way back. *)

From S2P Require Import Prelude Memmgr MemmgrSpec MemmgrProps KState BlockIO FatTab FNode FatAlloc Clock Media FatDir FatFile FatRw.
From S2P Require Import Disk RamVol Frame Path PathProps Handle Calls HandleSpec HandleInv HandleRun CallSpec HandleProps.
From S2P Require Import Ring CacheSpec CacheOps FatPure FatSpec FatWrite Table FatChain AllocSpec MapSpec SftSpec DirectIO RwSpec RwProps FatProps.
From S2P Require Import Chario Fcb FcbSpec FcbProps Far FarSpec Sys FileRun Task ExecSpec.
Import Mm MmSpec MmProps Ks Bio Fat FNode Alloc Clk Media Dir File Rw Path Handle Calls Chario Fcb Far FarSpec Sys Task ExecSpec.
Import HandleSpec HandleInv HandleOps HandleRun CallSpec.
Import Dsk Ring Cache CacheOps FatPure FatSpec FatWrite Table Chain AllocSpec MapSpec SftSpec Direct RwSpec RwProps RamVol FatProps.
Import PathProps HandleProps FcbSpec FcbProps Far FarSpec Sys FileRun Task ExecSpec ExeSpec.

Module ExecProps.

(** What the child leaves alone: the frame of the parent's call, where the PSP
    of the parent says that it is, and its own terminate address. *)
Record left_alone (q ds : Z) (user_r : ptr) (m m' : umem) : Prop := LeftAlone {
  la_stack x : q * 16 + ps_stack <= x < q * 16 + ps_stack + 4 -> m' x = m x;
  la_isv22 x : ds * 16 + ps_isv22 <= x < ds * 16 + ps_isv22 + 4 -> m' x = m x;
  la_frame x : lin user_r <= x < lin user_r + SIZEOF_IREGS -> m' x = m x }.

(** The two PSPs and the two frames are different memory above the vectors. *)
Record layout (q ds : Z) (user_r irp : ptr) : Prop := Layout {
  ly_user : fits user_r SIZEOF_IREGS /\ word (fst user_r) /\ word (snd user_r) /\ 0x400 <= lin user_r;
  ly_irp : fits irp SIZEOF_IREGS;
  ly_psps : 0x40 <= q /\ 0x40 <= ds /\ apart (q * 16) SIZEOF_PSP (ds * 16) SIZEOF_PSP;
  ly_user_q : apart (lin user_r) SIZEOF_IREGS (q * 16) SIZEOF_PSP;
  ly_user_ds : apart (lin user_r) SIZEOF_IREGS (ds * 16) SIZEOF_PSP;
  ly_irp_q : apart (lin irp) SIZEOF_IREGS (q * 16) SIZEOF_PSP;
  ly_irp_ds : apart (lin irp) SIZEOF_IREGS (ds * 16) SIZEOF_PSP;
  ly_frames : apart (lin user_r) SIZEOF_IREGS (lin irp) SIZEOF_IREGS }.

(** What of the parent's memory is there for the way back. *)
Lemma transferred_keeps user_r q ds code exp m :
  let irp := far_add (stack exp) (- SIZEOF_IREGS) in
  let f := get_iregs m user_r in
  layout q ds user_r irp -> word (FLAGS f) -> getp m (ds, ps_isv22) = (CS f, IP f) ->
  let m' := transferred user_r q ds code exp m in
  getp m' (q, ps_stack) = user_r /\ getp m' (ds, ps_isv22) = (CS f, IP f) /\
  get_iregs m' user_r = Iregs (i_regs f) (BP f) (IP f) (CS f) (clear (FLAGS f) FLG_CARRY).
Proof.
  intros irp f [(Hu & Hw1 & Hw2 & _) Hi (Hq & Hds & Hqd) Huq Hud Hiq Hid Hfr] Hfl H22 m'.
  unfold apart, SIZEOF_IREGS, SIZEOF_PSP in Hqd, Huq, Hud, Hiq, Hid, Hfr. split; [by apply transferred_stack|]. split.
  - rewrite <- H22. apply seg_ext; unfold ps_isv22; [lia|lia|]. intros x Hx.
    apply transferred_out; [done|done|..]; fold irp; unfold ps_stack, ps_prevpsp, SIZEOF_IREGS; lia.
  - set (m1 := putp (q, ps_stack) user_r (putp (ds, ps_prevpsp) (q, 0) m)).
    assert (E1 : forall x, lin user_r <= x < lin user_r + SIZEOF_IREGS -> m1 x = m x).
    { intros x Hx. unfold SIZEOF_IREGS in Hx. unfold m1, ps_stack, ps_prevpsp. by rewrite 2 seg_out by lia. }
    assert (Ef : get_iregs m1 user_r = f) by (by apply get_iregs_ext).
    assert (Ew : getw m1 (far_add user_r 22) = FLAGS f) by (by rewrite <- Ef).
    rewrite (get_iregs_ext m' (putw (far_add user_r 22) (clear (FLAGS f) FLG_CARRY) m1)); [|done|].
    + rewrite get_put_flags, Ef by done. cbv zeta. f_equal. apply u16_small. by apply word_clear.
    + intros x Hx. unfold m', transferred. fold irp m1. rewrite Ew. unfold put_iregs.
      apply (put_words_out irp SIZEOF_IREGS); [done|evens|unfold SIZEOF_IREGS in Hx; unfold SIZEOF_IREGS; lia].
Qed.

(** What the end of the child asks of the state it leaves: its PSP names the
    parent, and, unless it stays resident, the tables of handles and the chains
    of MCBs are well formed (upper memory absent, apart or linked, and not
    starting with a block of the child) and the open entries can be closed. *)
Definition may_end {M : Machine} {Cn : Console} (I : kst -> Prop) (q ds : Z) (p : psp) (l : list Z) (s : ist) : Prop :=
  cur s = ds /\ psps (hs s) !! ds = Some p /\ ps_parent p = q /\ I (ks s) /\
  (vars s term_type <> 3 ->
     handles_ok (view_of (hs s)) /\ cur_table (hs s) p l /\
     exists o bs e, tiles (arena (hs s)) o bs e /\ forall r, o = Some r -> b_psp r <> ds).

(** C11: A program starts another one and gets the processor back.  When the
    child is loaded, with its PSP at [ds] and the address behind the parent's
    call as its terminate address, [load_transfer] makes it the current process
    and lets it start with the registers of [user_frame], its transfer area in
    its PSP.  Then its end comes back from every state [s2], however it came
    about, that leaves the parent's frame and the two words for it alone
    ([left_alone]) and from which the process can end ([may_end]): the parent
    is the current process again, its frame is the one that goes on, behind its
    call, with all its registers as they were at the call, no carry and
    interrupts on; the vectors 22h to 24h are those of the child's PSP; and the
    child's handles are free, unless it stays resident, when they are kept. *)
Theorem exec_returns_to_parent {M : Machine} {Sh : Shell} {R : Redirector} {Cn : Console} I {C : Closable I}
    s ds user_r exp code p (Hredir : redirector_closes) :
  let q := cur s in
  let f := get_iregs (ram s) user_r in
  let irp := far_add (stack exp) (- SIZEOF_IREGS) in
  layout q ds user_r irp -> bytes (ram s) -> iwords (user_frame ds code exp) ->
  psps (hs s) !! ds = Some p -> getp (ram s) (ds, ps_isv22) = (CS f, IP f) ->
  exists s1, load_transfer user_r ds exp code LOADNGO s = Some (Ret (inr irp), s1) /\
    get_iregs (ram s1) irp = user_frame ds code exp /\ cur s1 = ds /\ dta_at s1 = (ds, ps_cmd) /\
    psps (hs s1) !! ds = Some (Psp q (ps_maxfiles p) (ps_filetab p)) /\
    forall s2 p2 l,
      left_alone q ds user_r (ram s1) (ram s2) -> bytes (ram s2) -> may_end I q ds p2 l s2 ->
      exists s3, return_user s2 = Some (Ret user_r, s3) /\ cur s3 = q /\
        get_iregs (ram s3) user_r = Iregs (i_regs f) (BP f) (IP f) (CS f) 0x200 /\
        jfts (hs s3) = (if vars s2 term_type =? 3 then jfts (hs s2)
          else <[ps_filetab p2 := replicate (Z.to_nat (ps_maxfiles p2)) 0xff ++ drop (Z.to_nat (ps_maxfiles p2)) l]>
                 (jfts (hs s2))) /\
        (forall v, In v [0; 1; 2] -> getp (ram s3) (0, 4 * (0x22 + v)) = getp (ram s2) (ds, ps_isv22 + 4 * v)).
Proof.
  intros q f irp Hly Hm Hcode Hp H22.
  destruct (load_transfer_eq user_r ds exp code s p Hp) as (s1 & E1 & Eram & Ecur & Edta & Epsp).
  pose proof (get_iregs_words (ram s) user_r Hm) as (_ & _ & Hip & Hcs & Hfl). fold f in Hip, Hcs, Hfl.
  destruct (transferred_keeps user_r q ds code exp (ram s) Hly Hfl H22) as (K1 & K2 & K3).
  fold q in Eram, Epsp. rewrite <- Eram in K1, K2, K3.
  exists s1. split; [exact E1|]. split.
  { rewrite Eram. unfold transferred. by apply get_put_iregs; [apply Hly|]. }
  do 3 (split; [done|]). intros s2 p2 l Hla Hm2 (Hcur2 & Hp2 & Hpar & HI & Hend).
  destruct Hly as [(Hu & Hw1 & Hw2 & Hu4) Hi (Hq & Hds & Hqd) Huq Hud Hiq Hid Hfr].
  assert (Hne : ps_parent p2 <> cu_psp_of (hs s2)).
  { change (cu_psp_of (hs s2)) with (cur s2). rewrite Hcur2, Hpar. unfold apart, SIZEOF_PSP in Hqd. lia. }
  assert (He : exists h, end_process (vars s2 term_type) (hs s2) = Some (tt, h) /\ cu_psp_of h = ps_parent p2 /\
    jfts h = (if vars s2 term_type =? 3 then jfts (hs s2)
              else <[ps_filetab p2 := replicate (Z.to_nat (ps_maxfiles p2)) 0xff ++ drop (Z.to_nat (ps_maxfiles p2)) l]>
                     (jfts (hs s2)))).
  { assert (Hpsp : psps (hs s2) !! cu_psp_of (hs s2) = Some p2) by (change (cu_psp_of (hs s2)) with (cur s2); by rewrite Hcur2).
    destruct (vars s2 term_type =? 3) eqn:Et; zbool.
    - destruct (end_process_stays (I := I) _ (hs s2) p2 HI Hpsp (or_introl Et)) as (h & Eh & Ecu & _ & Ej & _). by exists h.
    - destruct (Hend Et) as (Hok & Htab & o & bs & e & Htl & Hown).
      destruct (end_process_runs Hredir _ (hs s2) p2 l o bs e Hok HI Htab Et Hne Htl) as (h & Eh & Ecu & _ & Ej & _).
      { change (cu_psp_of (hs s2)) with (cur s2). by rewrite Hcur2. }
      by exists h. }
  destruct He as (h & Eh & Ecu & Ej).
  destruct (return_user_eq s2 h Eh) as (s3 & E3 & Eh3 & Er3). cbv zeta in E3, Er3.
  rewrite Ecu, Hpar, restored_psp in E3 by (unfold ps_stack; lia). 
  rewrite Ecu, Hpar, Hcur2, 2 restored_psp in Er3 by (unfold ps_isv22, ps_stack; lia).
  assert (Es : getp (ram s2) (q, ps_stack) = user_r).
  { rewrite <- K1. apply seg_ext; [unfold ps_stack; lia|unfold ps_stack; lia|]. apply Hla. }
  assert (Ev : getp (ram s2) (ds, ps_isv22) = (CS f, IP f)).
  { transitivity (getp (ram s1) (ds, ps_isv22)); [|exact K2]. apply seg_ext; [unfold ps_isv22; lia|unfold ps_isv22; lia|]. apply Hla. }
  rewrite Es in E3, Er3. rewrite Ev in Er3. exists s3. split; [exact E3|].
  split; [unfold cur; by rewrite Eh3, Ecu|]. split; [|split].
  - rewrite Er3, resume_frame by done. rewrite (get_iregs_ext _ (ram s1)); [|done|].
    + by rewrite K3.
    + intros x Hx. rewrite restored_out by (unfold VECTORS, SIZEOF_IREGS in *; lia). by apply (la_frame _ _ _ _ _ Hla).
  - by rewrite Eh3, Ej.
  - rewrite Er3. intros v Hv. destruct (restored_vector ds (ram s2) Hm2) as (V1 & V2 & V3).
    assert (Eo : getp (resume user_r (CS f, IP f) (restored ds (ram s2))) (0, 4 * (0x22 + v)) =
                 getp (restored ds (ram s2)) (0, 4 * (0x22 + v))).
    { cbn in Hv. apply seg_ext; [lia|lia|]. intros x Hx. apply resume_out; [done|lia]. }
    rewrite Eo. cbn in Hv. destruct Hv as [<-|[<-|[<-|[]]]]; [exact V1|exact V2|exact V3].
Qed.

(** The shell at 60h starts the program at 99h, from the frame at 0200:0100. *)
Definition parent_r : ptr := (0x200, 0x100).
Definition ram_exec : umem :=
  putp (0x99, ps_isv22) (0x11, 0x22) (putw (far_add parent_r 20) 0x11 (putw (far_add parent_r 18) 0x22 (fun _ => 0))).
Definition exec_st (h : @hst Dsk.ram) (m : umem) : @ist Dsk.ram :=
  Ist Dsk.ram (Cst Dsk.ram h con0) m (0, 0) (fun _ => 0) [] (0, 0) [] 0%nat 0 (Handle.dta h).
Definition shell_st : @ist Dsk.ram := exec_st (set_cu_psp 0x60 HandleProps.hs) ram_exec.
Definition exp_99 : exec_blk := ExecBlk 0 (0, 0) (0, 0) (0, 0) (0x300, 0x200) (0xa9, 0).

Lemma shell_layout : layout 0x60 0x99 parent_r (far_add (stack exp_99) (- SIZEOF_IREGS)).
Proof.
  change (far_add (stack exp_99) (- SIZEOF_IREGS)) with (0x300, 0x1e8).
  split; unfold fits, word, apart, lin, parent_r, SIZEOF_IREGS, SIZEOF_PSP; cbn [fst snd]; lia.
Qed.
Lemma ram_exec_bytes : bytes ram_exec.
Proof. apply bytes_putp, bytes_putw, bytes_putw. intros x. lia. Qed.
Lemma bytes_transferred user_r q ds code exp m : bytes m -> bytes (transferred user_r q ds code exp m).
Proof. intros Hm. apply bytes_put_words. by apply bytes_putw, bytes_putp, bytes_putp. Qed.

Lemma exec_returns_to_parent_witness :
  exists s1 s3, load_transfer parent_r 0x99 exp_99 0 LOADNGO shell_st = Some (Ret (inr (0x300, 0x1e8)), s1) /\
    cur s1 = 0x99 /\ return_user s1 = Some (Ret parent_r, s3) /\ cur s3 = 0x60 /\
    get_iregs (ram s3) parent_r = Iregs (Lregs 0 0 0 0 0 0 0 0) 0 0x22 0x11 0x200.
Proof.
  destruct (load_transfer_eq parent_r 0x99 exp_99 0 shell_st psp_99 eq_refl) as (s1' & E1' & Er & _).
  destruct (exec_returns_to_parent devices_only shell_st 0x99 parent_r exp_99 0 psp_99 no_redir_closes shell_layout
    ram_exec_bytes) as (s1 & E1 & _ & Hcur & _ & _ & H).
  - repeat split; cbn; lia.
  - reflexivity.
  - vm_compute. reflexivity.
  - assert (Es : s1 = s1') by congruence. subst s1'. clear E1'.
    assert (Eh : view_of (hs s1) = view_of HandleProps.hs /\ arena (hs s1) = arena HandleProps.hs /\
      ks s1 = kern (pth HandleProps.hs) /\ jfts (hs s1) = jfts HandleProps.hs /\ vars s1 term_type = 0 /\
      psps (hs s1) = psps HandleProps.hs).
    { injection E1 as <-. split; [vm_compute; reflexivity|]. do 4 (split; [reflexivity|]). vm_compute. reflexivity. }
    destruct Eh as (Ev & Ea & Ek & Ej & Et & Ep).
    destruct (H s1 psp_99 (tab0 [0; 0xff; 0])) as (s3 & H1 & H2 & H3 & _).
    + by split.
    + rewrite Er. apply bytes_transferred, ram_exec_bytes.
    + split; [exact Hcur|]. split; [rewrite Ep; reflexivity|]. split; [reflexivity|]. split; [rewrite Ek; exact hs_devices|].
      intros _. split; [rewrite Ev; exact hs_ok|]. split.
      { split; [rewrite Ep; unfold cu_psp_of; rewrite Ea; reflexivity|rewrite Ej; reflexivity]. }
      rewrite Ea. exact (ex_intro _ _ (ex_intro _ _ (ex_intro _ _ (conj w_upper_apart hs_root)))).
    + exists s1, s3. exact (conj E1 (conj Hcur (conj H1 (conj H2 H3)))).
Defined.

(** ** The image of a program *)

(** C12: Loading an EXE file puts its image, [exe_size] paragraphs from the
    position of the file on or what there is of them, at the start segment, in
    whatever pieces it is read, and adds the factor to exactly the words that
    the relocation table names, in its order; a word named twice is moved
    twice.  It reports whether the table was complete: if the file ends in it,
    the entries before are done.  No other memory changes, and the file shows
    what it showed. *)
Theorem exe_read_relocates {M : Machine} {Sh : Shell} {R : Redirector} {Cn : Console} {D : Disk}
    k fuel u p d kk T fd cl s l x h exe_size start_seg factor :
  hint_ok d -> capacity d < 2 ^ 32 -> data_area d -> file_open s l u p d kk T fd x cl ->
  0 <= exe_size < 65536 -> 0 <= start_seg -> start_seg + exe_size <= 65536 -> word (exRelocTable h) -> word (exRelocItems h) ->
  let bytes_at pos n := slice (content (ks s) l d cl) (sft_size x) pos n in
  let img := bytes_at (sft_posit x) (exe_size * 16) in
  let es := relocs (Z.to_nat (exRelocItems h)) (bytes_at (exRelocTable h) (4 * exRelocItems h)) in
  exists s' l' y, exe_read k fuel h fd exe_size start_seg factor s =
      Some (Ret (Z.of_nat (length es) =? exRelocItems h), s') /\
    (forall a, ram s' a = relocated start_seg factor es (store (start_seg * 16) img (ram s)) a) /\
    file_open s' l' u p d kk T fd y cl /\ same_file x y /\ content (ks s') l' d cl = content (ks s) l d cl.
Proof. intros Hh Hc Hd. by apply exe_read_runs. Qed.

(** A file of zeros: its two entries name the same word. *)
Definition exe_2 : exe_header := ExeHeader MAGIC 0 3 2 0 0 0 0 0 0 0 0 0 0.
Definition exe_st : @ist Dsk.ram :=
  exec_st (let h := HandleProps.hs in set_pth (set_kern ks16 (pth h)) h) (fun _ => 7).
Lemma exe_read_relocates_witness :
  exists s', exe_read (knot 0) 0 exe_2 0 30 0x1000 0x123 exe_st = Some (Ret true, s') /\
    ram s' 0x10000 = 0x46 /\ ram s' 0x10001 = 2 /\ ram s' 0x10002 = 0 /\ ram s' 0x101e0 = 7.
Proof.
  destruct (exe_read_relocates (knot 0) 0 1 P16 d16 FAT16 T16 0 [2; 3; 4] exe_st l0 sft16 exe_2 30 0x1000 0x123)
    as (s' & l' & y & H1 & H2 & _).
  - left. reflexivity.
  - vm_compute. reflexivity.
  - exact area16.
  - split; [lia|exact opened16|]. split; [done|done|done|by left].
  - lia.
  - lia.
  - lia.
  - unfold word. cbn. lia.
  - unfold word. cbn. lia.
  - exists s'. rewrite !H2.
    split; [rewrite H1; do 3 f_equal; vm_compute; reflexivity|]. vm_compute. exact (conj eq_refl (conj eq_refl (conj eq_refl eq_refl))).
Defined.
End ExecProps.
